(* ===== verification/_CoqProject ===== *)
-Q . S2P
Prelude.v
ByteOrder.v
Crc.v
NetBuf.v
NetFrag.v
UsbHidKeys.v
PcKeys.v
Dlist.v
TimeUnits.v
Timeout.v
RtcTimer.v
Sched.v
Thread.v
KObject.v
Sem.v
Mutex.v
MsgQ.v
Gpio.v
GpioNrfx.v
Ps2Connector.v
Uuid.v
Gatt.v
SettingsKeys.v
Settings.v
Keys.v
Crypto.v
Smp.v
SmpInv.v
SmpPairing.v
SmpSafety.v
SmpEvents.v
SmpHonest.v
SmpExample.v
Identity.v
NvsFs.v
NvsLayout.v
NvsOps.v
NvsRead.v
NvsWrite.v
NvsGc.v
NvsStorage.v
NvsStart.v
NvsSafety.v
NvsInst.v
FlashNrf.v
NvsExample.v
Att.v
AttFacts.v
AttDiscovery.v
AttAccess.v
Hog.v
GattDb.v
GattConn.v
GattFacts.v
GattInv.v
GattType.v
GattExample.v
Translator.v
BtHidTools.v
App.v
