(* ===== verification/Prelude.v ===== *)
(** * A PS/2 to Bluetooth keyboard adapter: verification of the firmware

    The firmware reads the clock and data lines of a PS/2 keyboard, translates scan
    codes to HID key reports and sends them to a host over Bluetooth Low Energy.  The
    application is [src/projects/peripheral_hids]; the rest of the sources is the
    Zephyr operating system it runs on, for an nRF52840.

    ** The parts and their files

    The path of a key stroke:
    - [GpioNrfx] ([drivers/gpio/gpio_nrfx.c]) turns edges of a pin into calls of the
      callbacks of [Gpio] ([include/drivers/gpio.h], [drivers/gpio/gpio_utils.h]).
    - [Ps2Connector] ([ps2_connector.c]) samples the data line at each falling clock
      edge, checks frames and puts bytes into a queue.
    - [MsgQ] ([kernel/msg_q.c]) is that queue, [Sem] ([kernel/sem.c]) the semaphore,
      [Mutex] ([kernel/mutex.c]) the mutex;
      they block through [Sched] ([kernel/sched.c]), [Thread] ([kernel/thread.c]) and
      the timeouts of [Timeout] ([kernel/timeout.c]), whose ticks [RtcTimer]
      ([drivers/timer/nrf_rtc_timer.c]) announces; [TimeUnits] converts units, [Dlist]
      is the list all queues are made of, [KObject] what objects with waiters share.
    - [Translator] ([ps2_hid_translator.c], tables in [UsbHidKeys]) parses scan codes
      and keeps the report; [BtHidTools] ([bt_hid_tools.c]) types text.  [PcKeys] is not
      code: it has the keys of a PC keyboard with their scan codes of set 2 and their HID
      usages, as the standards give them, for what the translator is to do.
    - [Hog] ([hog.c]) is the HID service, its attributes and reports.
    - [App] ([main.c], [ps2_keyboard.c]) starts everything and composes the path.

    The Bluetooth host behind the HID service:
    - [Att] ([subsys/bluetooth/host/att.c]) is the attribute protocol server: requests,
      responses, errors, queues.  It uses the database through the class [GattServer],
      whose laws are [GattServerOk] in [AttFacts].
    - [Gatt] (declarations, permissions, iteration), [GattDb] (the five services,
      client configurations, client features, Service Changed data, database hash) and
      [GattConn] (notifications, indications, connection events, settings handlers)
      are [subsys/bluetooth/host/gatt.c] with [bas.c] and [dis.c]; [GattDb] shows that
      the firmware's database keeps the laws of [GattServerOk].
    - [Uuid] ([uuid.c]), [ByteOrder] ([include/sys/byteorder.h]), [NetBuf] and
      [NetFrag] ([subsys/net/buf.c]) are the encodings and buffers below.
    - [Settings] ([subsys/settings/src], NVS backend) stores bonds' data; its keys are
      [SettingsKeys] ([host/settings.c], [lib/os/hex.c], [lib/os/dec.c]).  It uses the
      storage through the class [Nvs], with the laws [NvsOk].
    - [Keys] ([host/keys.c], [keys.h], the resolving list of [hci_core.c]) is the pool
      of bonds; [Crypto] ([host/crypto.c], [common/rpa.c], the functions of [smp.c])
      the cryptography over TinyCrypt.
    - [Smp] ([host/smp.c] with its callers in [hci_core.c] and [conn.c]) is the Security
      Manager of a peripheral: pairing, key distribution, encryption, security levels.
      Its context, the connection, the pool and the random generator are one record
      ([smp_world]) with a log of what is received, sent and called; [event] lists all
      that can happen and [handle] says what it does.  [SmpInv] has its invariant and
      [SmpPairing], [SmpSafety] and [SmpEvents] show that commands and events keep it;
      [SmpHonest] follows a central through a whole pairing.
    - [Identity] ([bt_keys_find_irk], [enh_conn_complete]) resolves private addresses
      when a peer connects.

    The storage behind the settings:
    - [NvsFs] ([subsys/fs/nvs/nvs.c], [lib/os/crc8_sw.c] in [Crc]) is the non-volatile
      storage, a log of entries in sectors that are collected in turn.  It uses a flash
      through the class [Flash]; its laws are [FlashOk] in [NvsOps], power failures
      included.  [NvsLayout] says what is in flash, [NvsOps], [NvsRead], [NvsWrite] and
      [NvsGc] what the routines do to it, [NvsStorage] and [NvsStart] what writing and
      starting do, and [NvsSafety] what follows for a life of the storage.
    - [NvsInst] shows that the storage keeps [NvsOk].
    - [FlashNrf] ([drivers/flash/soc_flash_nrf.c], [soc_flash_nrf_ticker.c],
      [flash_page_layout.c]) is the flash driver, which works in time slots between
      radio events; it keeps [FlashOk].

    ** State and operations

    The statics of a C file are a record ([translator], [gatt], [ps2], [kernel],
    ...), each function a definition from state to state with its result, named as in
    the source; loops are recursive functions, callbacks are arguments or constructors
    of a type that names them.  Integers are [Z], wrapped where the C type wraps ([u8],
    [u16], [u32], [s32], [s64]).  Results of calls below the model (allocation, L2CAP)
    are lists of outcomes in the state, so that every success and failure occurs.
    Code that is not part of the sources is a class: [NrfHal] and [RtcHal] (vendor
    register access), [Nvmc] (flash controller), [TinyCrypt], [TinyAes] and [TinyPrng] (AES-CMAC,
    AES and random numbers, the first two together as [Crypto]); their laws are what the documentation
    says, and each has an instance with which the theorems are applied to concrete
    inputs.  Classes also separate components: [HasTimeouts], [GpioOutput], [HasGpio],
    [ScanQueue], [GattServer], [Nvs], [Flash].

    Configuration is the firmware's: one connection and one bond, MTU 23 to 65, no
    enhanced ATT channels, no GATT client, cooperative and preemptive threads on one
    CPU with list-based queues, 32768 Hz ticks.

    ** What is shown

    - End to end ([App]): presses and releases of the keys of [PcKeys], clocked in as
      frames, end as the report with their HID usages at a subscribed host; start-up
      configures lines, queue and thread.  Six keys are left out, which the code reports
      as others ([off_standard]), and at most six may be down.
    - Reception ([Ps2Connector]): frames are received exactly, damaged ones dropped.
      Two theorems show that sending to the keyboard cannot work as written.
    - Translation ([Translator]): the parser refines a keyboard with a set of held
      keys, by the tables of [PcKeys] and not its own; the report follows the keys; no
      input but 0xFF makes it read out of range.
    - Attribute server ([AttFacts], [AttDiscovery], [AttAccess], [GattFacts],
      [GattInv], [GattType]): every request is answered once and correctly bounded;
      discovery (of attributes that can be read and fit a response) and long reads are
      complete for every MTU; subscribing on an authenticated link makes reports
      arrive; the state stays well formed under every sequence of events; what is
      stored for a client is what is loaded, if configurations are loaded at once.
      [bonded_subscription_lost] shows that with configurations loaded on demand, the
      default, a bonded client loses its subscription.
    - Pairing: with the callbacks the application registers and a controller that
      encrypts only with keys it got, nothing a peer sends gives
      it an authenticated link or key without the whole passkey protocol
      ([authenticated_only_with_passkey]); a central that follows the protocol gets
      through, with the same key on both sides ([honest_pairing_succeeds]); its bond is
      found again after a restart ([bond_survives_restart]) and after it comes back under
      a private address ([paired_central_comes_back]).  The first has the condition
      [no_old_key], that the key of an earlier bond does not encrypt the link while a
      pairing runs: [old_key_forges_authentication] shows that from any state with a bond
      the code needs it and does not check it.  [failed_for_no_reason_is_success] shows
      another way to a bond that was never made.
    - Kernel: run queues and wait queues are consistent under every operation ([kop_ok]
      says how they are used: above all, a ready thread is not resumed), the
      best thread runs, messages and semaphore tokens are neither lost nor made up, a
      mutex excludes and, if no one else changes priorities, its owner inherits them
      (two theorems show what a timed out wait breaks), timeouts fire when due, the
      announce loop terminates whatever timeouts the handlers start.
    - The timer ([RtcTimer]): the device raises its events by itself, at the times of the
      accesses the driver makes; stale ones never get through, the clock keeps time and
      setting a timeout ends.  The counter must not lap, and a timeout is set within
      one of its cycles.
    - Drivers: edges and levels are configured and dispatched; conversions of time are exact;
      buffers, byte orders, lists and settings keys refine their abstract values.
    - Storage: through any writes, deletions, collections and power failures at any
      operation on the flash, what is read is what was last written with success; the
      storage always starts again; no byte outside of its partition changes
      ([NvsSafety]); so settings survive a restart of the device ([NvsInst]).  A write
      divided into time slots writes a beginning of the data, all of it unless slots run
      out or fail ([FlashNrf]).  The theorems about the
      storage have the condition [may_write]: there is room for an entry that deletes,
      and new data fit behind data left without an entry at the start of a sector; and
      the flash is [FlashOk], see below.
      [deletions_break_storage] computes what happens without the first, which the code
      does not check, and [failed_slot_reports_success] shows that the driver hides a
      failure.  Settings and bonds that are new need room for their value
      ([takes_if_new]), since the error of that write is lost.
    [GattExample] applies the properties of the attribute server to a client,
    [NvsExample] those of the storage to a small flash whose supply fails, and
    [SmpExample] those of pairing to centrals, with functions that stand for TinyCrypt.

    ** Bounds and fuel

    Recursion that is not structural has fuel: [att_chan_read_loop] (a piece that is not
    the last fills a fragment, so the MTU is enough), [announce_loop] (shown to suffice
    by [announce_terminates]), the loops of discovery and long reads on the client's
    side (their theorems say how much is enough), [dec_digits] (ten digits of 32 bits);
    in the storage the walks ([walk_fuel], a step for each byte of the partition, more
    than there are entries) and the loops over a sector (a step for each byte); that
    they never run out is part of the theorems, which give the result.  In [FlashOk] a
    write of one or two words happens or not, a longer one that the power interrupts may
    leave anything, and an interrupted erasure has no effect: entries that are half
    written and pages that are half erased are excluded.  The driver writes word by word
    and so does not rule them out; the storage would tell them only by the CRC of eight
    bits of an entry.

    ** Not modelled

    L2CAP below ATT and the Security Manager, the transport of HCI, advertising, the
    states of connections and the link layer; of pairing the central role, BR/EDR,
    privacy, signing, fixed passkeys, the generation of out-of-band data and the
    removal of bonds, which are not configured or not used; the GATT client and dynamic
    services, which are not configured; user mode and system call wrappers; SMP
    scheduling; logging and console output; device start-up; the mutex of the
    storage and the semaphore of the flash driver, so that operations of several
    threads on them are taken one after the other.  Interrupts
    interleave with threads only at the points where the components' steps begin and
    end.  Everything else of the tree belongs to other boards and applications. *)
From Stdlib Require Import ZArith Lia Bool.
From stdpp Require Import base numbers list gmap.

Open Scope Z_scope.

(** ** Notation for C integer expressions *)

Declare Scope c_scope.
Declare Scope fw_scope.
Delimit Scope c_scope with c.
Notation "x .& y" := (Z.land x y) (at level 40, left associativity) : c_scope.
Notation "x .^ y" := (Z.lxor x y) (at level 48, left associativity) : c_scope.
Notation "x .| y" := (Z.lor x y) (at level 50, left associativity) : c_scope.
Notation "x .<< y" := (Z.shiftl x y) (at level 33, left associativity) : c_scope.
Notation "x .>> y" := (Z.shiftr x y) (at level 33, left associativity) : c_scope.
Open Scope c_scope.

(** Conversions to the fixed-width C types. *)
Definition u8 (z : Z) : Z := z mod 2 ^ 8.
Definition u16 (z : Z) : Z := z mod 2 ^ 16.
Definition u32 (z : Z) : Z := z mod 2 ^ 32.
Definition u64 (z : Z) : Z := z mod 2 ^ 64.
Definition s8 (z : Z) : Z := (z + 2 ^ 7) mod 2 ^ 8 - 2 ^ 7.
Definition s32 (z : Z) : Z := (z + 2 ^ 31) mod 2 ^ 32 - 2 ^ 31.
Definition s64 (z : Z) : Z := (z + 2 ^ 63) mod 2 ^ 64 - 2 ^ 63.

(** [BIT(n)], on the 32-bit unsigned type the sources use it at. *)
Definition BIT (n : Z) : Z := u32 (1 .<< n).

(** A C integer used as a condition. *)
Definition nz (z : Z) : bool := negb (z =? 0).

(** Bitwise complement of a 32-bit (8-bit) unsigned value. *)
Definition not32 (z : Z) : Z := 2 ^ 32 - 1 - u32 z.
Definition not8 (z : Z) : Z := 2 ^ 8 - 1 - u8 z.

(** The [errno.h] codes the sources return (negated). *)
Definition EPERM : Z := 1.
Definition EIO : Z := 5.
Definition EAGAIN : Z := 11.
Definition ENOMEM : Z := 12.
Definition EBUSY : Z := 16.
Definition ENODEV : Z := 19.
Definition EINVAL : Z := 22.
Definition ENOTSUP : Z := 35.
Definition EMSGSIZE : Z := 36.
Definition ENOMSG : Z := 80.
Definition ENOENT : Z := 2.
Definition ENOTCONN : Z := 57.
Definition ENXIO : Z := 6.
Definition EACCES : Z := 13.
Definition ENOSPC : Z := 28.
Definition ESPIPE : Z := 29.
Definition EDEADLK : Z := 33.
Definition ETIMEDOUT : Z := 60.
Definition ECANCELED : Z := 72.
Definition ENOBUFS : Z := 55.
Definition ESRCH : Z := 3.
Definition EADDRNOTAVAIL : Z := 49.
Definition EALREADY : Z := 69.

(** ** Byte memory

    Memory is a total function from addresses to bytes; [memcpy] is the
    copy the C library function performs on disjoint regions. *)

Definition mem : Type := Z -> Z.

Definition memcpy (dst src n : Z) (m : mem) : mem :=
  fun a => if (dst <=? a) && (a <? dst + n) then m (src + (a - dst)) else m a.

(** [mem_bytes m a n]: the [n] bytes at address [a]. *)
Definition mem_bytes (m : mem) (a n : Z) : list Z := m <$> seqZ a n.

(** [mem_store m a bs]: [bs] stored from address [a] on. *)
Definition mem_store (a : Z) (bs : list Z) (m : mem) : mem :=
  fun x => match (if (a <=? x) then bs !! Z.to_nat (x - a) else None) with
           | Some b => b
           | None => m x
           end.

Definition disjoint_regions (a n b k : Z) : Prop := a + n <= b \/ b + k <= a.

(** ** Tactics *)

(** Case analysis on the boolean tests of a goal or hypothesis, with the
    arithmetic facts they carry. *)
Ltac bdestruct_one :=
  match goal with
  | |- context [?a =? ?b] => destruct (Z.eqb_spec a b)
  | |- context [?a <=? ?b] => destruct (Z.leb_spec a b)
  | |- context [?a <? ?b] => destruct (Z.ltb_spec a b)
  | H : context [?a =? ?b] |- _ => destruct (Z.eqb_spec a b)
  | H : context [?a <=? ?b] |- _ => destruct (Z.leb_spec a b)
  | H : context [?a <? ?b] |- _ => destruct (Z.ltb_spec a b)
  end.
Ltac bdestruct := repeat (bdestruct_one; simpl in *; try lia).

(** [all_below n P]: a decidable property checked for [0 .. n-1]. *)
Definition all_below (n : Z) (P : Z -> bool) : bool := forallb P (seqZ 0 n).

Lemma all_below_spec (n : Z) (P : Z -> bool) :
  all_below n P = true -> forall z, 0 <= z < n -> P z = true.
Proof.
  unfold all_below. intros H z Hz. rewrite forallb_forall in H. apply H.
  apply list_elem_of_In, elem_of_seqZ. lia.
Qed.

(** Proves [forall]-style goals about a bounded integer by evaluation. *)
Ltac by_enumeration n P :=
  match goal with
  | Hz : 0 <= ?z < _ |- _ =>
      let H := fresh in
      assert (H : P z = true)
        by (apply (all_below_spec n P); [vm_compute; reflexivity | lia]);
      cbv beta zeta in H
  end.

(** ** Generic lemmas *)

Lemma u8_range z : 0 <= u8 z < 256.
Proof. unfold u8. apply Z.mod_pos_bound. lia. Qed.

Lemma u32_range z : 0 <= u32 z < 2 ^ 32.
Proof. unfold u32. apply Z.mod_pos_bound. lia. Qed.

Lemma u8_le z : 0 <= z -> u8 z <= z.
Proof. intros. unfold u8. apply Z.mod_le; lia. Qed.
Lemma u8_small z : 0 <= z < 256 -> u8 z = z.
Proof. intros. unfold u8. apply Z.mod_small. lia. Qed.

Lemma u32_small z : 0 <= z < 2 ^ 32 -> u32 z = z.
Proof. intros. unfold u32. apply Z.mod_small. lia. Qed.

Lemma u64_small z : 0 <= z < 2 ^ 64 -> u64 z = z.
Proof. intros. unfold u64. apply Z.mod_small. lia. Qed.

Lemma s32_small z : - 2 ^ 31 <= z < 2 ^ 31 -> s32 z = z.
Proof. intros. unfold s32. rewrite Z.mod_small; lia. Qed.

Lemma s64_small z : - 2 ^ 63 <= z < 2 ^ 63 -> s64 z = z.
Proof. intros. unfold s64. rewrite Z.mod_small; lia. Qed.

Lemma length_mem_bytes m a n : length (mem_bytes m a n) = Z.to_nat n.
Proof. unfold mem_bytes. by rewrite length_fmap, length_seqZ. Qed.

Lemma mem_bytes_lookup m a n (i : nat) :
  Z.of_nat i < n -> mem_bytes m a n !! i = Some (m (a + Z.of_nat i)).
Proof.
  intros Hi. unfold mem_bytes. rewrite list_lookup_fmap, lookup_seqZ_lt by lia.
  reflexivity.
Qed.

Lemma mem_bytes_ext m1 m2 a b n :
  (forall i, 0 <= i < n -> m1 (a + i) = m2 (b + i)) ->
  mem_bytes m1 a n = mem_bytes m2 b n.
Proof.
  intros H. apply list_eq. intros i.
  destruct (decide (Z.of_nat i < n)) as [Hi|Hi].
  - rewrite !mem_bytes_lookup by done. f_equal. apply H. lia.
  - rewrite !lookup_ge_None_2; [done | rewrite length_mem_bytes; lia ..].
Qed.

(** Reading back what [memcpy] wrote. *)
Lemma mem_bytes_memcpy_same dst src n m :
  mem_bytes (memcpy dst src n m) dst n = mem_bytes m src n.
Proof.
  apply mem_bytes_ext. intros i Hi. unfold memcpy. bdestruct. f_equal. lia.
Qed.

(** A region [memcpy] does not touch keeps its bytes. *)
Lemma mem_bytes_memcpy_other dst src n m a k :
  disjoint_regions dst n a k ->
  mem_bytes (memcpy dst src n m) a k = mem_bytes m a k.
Proof.
  intros D. apply mem_bytes_ext. intros i Hi. unfold memcpy, disjoint_regions in *.
  bdestruct.
Qed.

Lemma mem_bytes_store_same m a bs :
  mem_bytes (mem_store a bs m) a (Z.of_nat (length bs)) = bs.
Proof.
  apply list_eq. intros i. destruct (decide (i < length bs)%nat) as [Hi|Hi].
  - rewrite mem_bytes_lookup by lia. unfold mem_store. bdestruct.
    replace (Z.to_nat (a + Z.of_nat i - a)) with i by lia.
    destruct (lookup_lt_is_Some_2 bs i Hi) as [x Hx]. by rewrite Hx.
  - rewrite !lookup_ge_None_2; [done | lia | rewrite length_mem_bytes; lia].
Qed.

(** Conversion to a width distributes over the bitwise operations. *)
Lemma u8_ones z : u8 z = z .& Z.ones 8.
Proof. unfold u8. by rewrite Z.land_ones by lia. Qed.

Lemma u8_lor a b : u8 (a .| b) = u8 a .| u8 b.
Proof. rewrite !u8_ones. apply Z.land_lor_distr_l. Qed.

Lemma u8_ldiff a b : 0 <= a < 256 -> u8 (a .& Z.lnot b) = Z.ldiff a b.
Proof.
  intros Ha. rewrite <- Z.ldiff_land. rewrite u8_ones.
  rewrite <- (u8_small a Ha) at 2. rewrite u8_ones.
  apply Z.bits_inj'. intros n Hn. rewrite ?Z.land_spec, ?Z.ldiff_spec, ?Z.land_spec.
  destruct (Z.testbit a n), (Z.testbit b n), (Z.testbit (Z.ones 8) n); done.
Qed.

(** ** Single bits *)

Lemma nz_land_bit s n : 0 <= n < 32 -> nz (s .& BIT n) = Z.testbit s n.
Proof.
  intros Hn. unfold BIT, nz, u32. rewrite Z.shiftl_1_l, Z.mod_small
    by (split; [apply Z.pow_nonneg; lia|apply Z.pow_lt_mono_r; lia]).
  rewrite Z.land_comm. destruct (Z.testbit s n) eqn:E.
  - apply negb_true_iff, Z.eqb_neq. intros H0.
    assert (Hb : Z.testbit (2 ^ n .& s) n = false) by (rewrite H0; apply Z.bits_0).
    rewrite Z.land_spec, E, Z.pow2_bits_true in Hb by lia. done.
  - apply negb_false_iff, Z.eqb_eq, Z.bits_inj'. intros i Hi.
    rewrite Z.land_spec, Z.bits_0. destruct (Z.eq_dec i n) as [->|]; [by rewrite E, andb_false_r|].
    by rewrite Z.pow2_bits_false by lia.
Qed.

Lemma nz_lor a b : nz (a .| b) = nz a || nz b.
Proof.
  unfold nz. destruct (Z.eqb_spec (a .| b) 0) as [H|H].
  - apply Z.lor_eq_0_iff in H as [-> ->]. done.
  - destruct (Z.eqb_spec a 0) as [->|]; [|done]. destruct (Z.eqb_spec b 0) as [->|]; done.
Qed.

Lemma bit_pow n : 0 <= n < 32 -> BIT n = 2 ^ n.
Proof.
  intros. unfold BIT. rewrite Z.shiftl_1_l. apply u32_small.
  split; [apply Z.pow_nonneg; lia|apply Z.pow_lt_mono_r; lia].
Qed.

Lemma bit_testbit n i : 0 <= n < 32 -> 0 <= i -> Z.testbit (BIT n) i = (i =? n).
Proof. intros. rewrite bit_pow, Z.pow2_bits_eqb by lia. apply Z.eqb_sym. Qed.

Lemma u32_testbit z i : 0 <= i < 32 -> Z.testbit (u32 z) i = Z.testbit z i.
Proof. intros. unfold u32. apply Z.mod_pow2_bits_low. lia. Qed.

Lemma not32_testbit z i : 0 <= i < 32 -> Z.testbit (not32 z) i = negb (Z.testbit z i).
Proof.
  intros Hi. unfold not32. replace (2 ^ 32 - 1 - u32 z) with (Z.ldiff (Z.ones 32) (u32 z)).
  - rewrite Z.ldiff_spec, Z.ones_spec_low, u32_testbit by lia. done.
  - assert (Hl : Z.ldiff (u32 z) (Z.ones 32) = 0).
    { unfold u32. apply Z.bits_inj'. intros n Hn. rewrite Z.ldiff_spec, Z.bits_0.
      destruct (Z.ltb_spec n 32); [by rewrite Z.ones_spec_low, andb_false_r by lia|].
      by rewrite Z.mod_pow2_bits_high by lia. }
    apply Z.sub_nocarry_ldiff in Hl. rewrite <- Hl. done.
Qed.

(** Hint database for the side conditions of the components. *)
Create HintDb fw discriminated.
Create Rewrite HintDb fw_rw.
#[export] Hint Resolve u8_range u32_range : fw.
#[export] Hint Extern 1 (_ <= _ < _) => lia : fw.
#[export] Hint Extern 1 (_ <= _) => lia : fw.
#[export] Hint Extern 1 (_ < _) => lia : fw.

(** ** Lists without a key *)

Lemma filter_all {A} (P : A -> Prop) `{forall x, Decision (P x)} (xs : list A) :
  Forall P xs -> filter P xs = xs.
Proof. induction 1; [done|]. rewrite filter_cons_True by done. by f_equal. Qed.

Lemma filter_none {A} (P : A -> Prop) `{forall x, Decision (P x)} (xs : list A) :
  Forall (fun x => ~ P x) xs -> filter P xs = [].
Proof. induction 1; [done|]. by rewrite filter_cons_False. Qed.

Lemma filter_key_absent {A K} `{EqDecision K} (key : A -> K) (k : K) (xs : list A) :
  k ∉ key <$> xs -> filter (fun x => key x <> k) xs = xs.
Proof.
  intros Hk. apply filter_all, Forall_forall. intros x Hx <-. apply Hk.
  by apply list_elem_of_fmap_2.
Qed.

Lemma filter_absent {A} `{EqDecision A} (k : A) (xs : list A) :
  k ∉ xs -> filter (fun x => x <> k) xs = xs.
Proof. intros Hk. apply filter_all, Forall_forall. by intros x Hx ->. Qed.

(** The index of the first element with a property. *)
Definition find_index {A} (P : A -> bool) (l : list A) : option nat := fst <$> list_find (fun x => P x = true) l.
