(* ===== verification/ByteOrder.v ===== *)
(** Byte order ([include/sys/byteorder.h], on a little-endian CPU): multi-byte
    integers in byte memory. *)
From Stdlib Require Import ZArith Lia Bool.
From stdpp Require Import base numbers list.
From S2P Require Import Prelude.
Open Scope Z_scope.

(** ** Swapping *)

Definition __bswap_16 (x : Z) : Z := u16 (((x .>> 8) .& 0xff) .| ((x .& 0xff) .<< 8)).
Definition __bswap_24 (x : Z) : Z :=
  u32 (((x .>> 16) .& 0xff) .| (x .& 0xff00) .| ((x .& 0xff) .<< 16)).
Definition __bswap_32 (x : Z) : Z :=
  u32 (((x .>> 24) .& 0xff) .| ((x .>> 8) .& 0xff00) .| ((x .& 0xff00) .<< 8) .| ((x .& 0xff) .<< 24)).
Definition __bswap_48 (x : Z) : Z :=
  u64 (((x .>> 40) .& 0xff) .| ((x .>> 24) .& 0xff00) .| ((x .>> 8) .& 0xff0000) .|
       ((x .& 0xff0000) .<< 8) .| ((x .& 0xff00) .<< 24) .| ((x .& 0xff) .<< 40)).
Definition __bswap_64 (x : Z) : Z :=
  u64 (((x .>> 56) .& 0xff) .| ((x .>> 40) .& 0xff00) .| ((x .>> 24) .& 0xff0000) .|
       ((x .>> 8) .& 0xff000000) .| ((x .& 0xff000000) .<< 8) .| ((x .& 0xff0000) .<< 24) .|
       ((x .& 0xff00) .<< 40) .| ((x .& 0xff) .<< 56)).

Definition sys_le16_to_cpu (val : Z) : Z := val.
Definition sys_le24_to_cpu (val : Z) : Z := val.
Definition sys_le32_to_cpu (val : Z) : Z := val.
Definition sys_le48_to_cpu (val : Z) : Z := val.
Definition sys_le64_to_cpu (val : Z) : Z := val.
Definition sys_be16_to_cpu (val : Z) : Z := __bswap_16 val.
Definition sys_be24_to_cpu (val : Z) : Z := __bswap_24 val.
Definition sys_be32_to_cpu (val : Z) : Z := __bswap_32 val.
Definition sys_be48_to_cpu (val : Z) : Z := __bswap_48 val.
Definition sys_be64_to_cpu (val : Z) : Z := __bswap_64 val.

(** ** Storing: each parameter is converted to its type on the call *)

Section put.
Implicit Types (val dst src : Z) (m : mem).

Definition sys_put_be16 val dst m : mem :=
  let val := u16 val in let m := mem_store dst [u8 (val .>> 8)] m in mem_store (dst + 1) [u8 val] m.
Definition sys_put_be24 val dst m : mem :=
  let val := u32 val in let m := mem_store dst [u8 (val .>> 16)] m in sys_put_be16 val (dst + 1) m.
Definition sys_put_be32 val dst m : mem :=
  let val := u32 val in let m := sys_put_be16 (val .>> 16) dst m in sys_put_be16 val (dst + 2) m.
Definition sys_put_be48 val dst m : mem :=
  let val := u64 val in let m := sys_put_be16 (val .>> 32) dst m in sys_put_be32 val (dst + 2) m.
Definition sys_put_be64 val dst m : mem :=
  let val := u64 val in let m := sys_put_be32 (val .>> 32) dst m in sys_put_be32 val (dst + 4) m.
Definition sys_put_le16 val dst m : mem :=
  let val := u16 val in let m := mem_store dst [u8 val] m in mem_store (dst + 1) [u8 (val .>> 8)] m.
Definition sys_put_le24 val dst m : mem :=
  let val := u32 val in let m := sys_put_le16 val dst m in mem_store (dst + 2) [u8 (val .>> 16)] m.
Definition sys_put_le32 val dst m : mem :=
  let val := u32 val in let m := sys_put_le16 val dst m in sys_put_le16 (val .>> 16) (dst + 2) m.
Definition sys_put_le48 val dst m : mem :=
  let val := u64 val in let m := sys_put_le32 val dst m in sys_put_le16 (val .>> 32) (dst + 4) m.
Definition sys_put_le64 val dst m : mem :=
  let val := u64 val in let m := sys_put_le32 val dst m in sys_put_le32 (val .>> 32) (dst + 4) m.

Definition sys_get_be16 src m : Z := u16 ((m src .<< 8) .| m (src + 1)).
Definition sys_get_be24 src m : Z := u32 (u32 (m src .<< 16) .| sys_get_be16 (src + 1) m).
Definition sys_get_be32 src m : Z := u32 (u32 (sys_get_be16 src m .<< 16) .| sys_get_be16 (src + 2) m).
Definition sys_get_be48 src m : Z := u64 (u64 (sys_get_be32 src m .<< 16) .| sys_get_be16 (src + 4) m).
Definition sys_get_be64 src m : Z := u64 (u64 (sys_get_be32 src m .<< 32) .| sys_get_be32 (src + 4) m).
Definition sys_get_le16 src m : Z := u16 ((m (src + 1) .<< 8) .| m src).
Definition sys_get_le24 src m : Z := u32 (u32 (m (src + 2) .<< 16) .| sys_get_le16 src m).
Definition sys_get_le32 src m : Z := u32 (u32 (sys_get_le16 (src + 2) m .<< 16) .| sys_get_le16 src m).
Definition sys_get_le48 src m : Z := u64 (u64 (sys_get_le32 (src + 2) m .<< 16) .| sys_get_le16 src m).
Definition sys_get_le64 src m : Z := u64 (u64 (sys_get_le32 (src + 4) m .<< 32) .| sys_get_le32 src m).

(** [sys_memcpy_swap]: the loop copies backwards from the end of [src]. *)
Fixpoint memcpy_swap_loop (length : nat) (pdst psrc : Z) m : mem :=
  match length with
  | O => m
  | S n => memcpy_swap_loop n (pdst + 1) (psrc - 1) (mem_store pdst [m psrc] m)
  end.
Definition sys_memcpy_swap dst src (length : Z) m : mem :=
  memcpy_swap_loop (Z.to_nat length) dst (src + length - 1) m.

(** [sys_mem_swap]: [n] more exchanges, from index [i] on. *)
Fixpoint mem_swap_loop (n : nat) (i buf length : Z) m : mem :=
  match n with
  | O => m
  | S n =>
      let tmp := m (buf + i) in
      let m := mem_store (buf + i) [m (buf + (length - 1 - i))] m in
      let m := mem_store (buf + (length - 1 - i)) [tmp] m in
      mem_swap_loop n (i + 1) buf length m
  end.
Definition sys_mem_swap buf (length : Z) m : mem := mem_swap_loop (Z.to_nat (length / 2)) 0 buf length m.
End put.

(** ** What the bytes of a number are *)

Fixpoint le_bytes (n : nat) (v : Z) : list Z :=
  match n with O => [] | S n => u8 v :: le_bytes n (v .>> 8) end.
Definition be_bytes (n : nat) (v : Z) : list Z := rev (le_bytes n v).
Fixpoint le_value (bs : list Z) : Z :=
  match bs with [] => 0 | b :: bs => b + 256 * le_value bs end.
Definition be_value (bs : list Z) : Z := le_value (rev bs).
Definition bytes_ok (bs : list Z) : Prop := Forall (fun b => 0 <= b < 256) bs.

Lemma le_bytes_length n v : length (le_bytes n v) = n.
Proof. revert v. induction n as [|n IH]; intros v; [done|]. cbn. by rewrite IH. Qed.

Lemma le_bytes_ok n v : bytes_ok (le_bytes n v).
Proof. revert v. induction n as [|n IH]; intros v; constructor; [apply u8_range|apply IH]. Qed.

Lemma le_bytes_app a b v : le_bytes (a + b) v = le_bytes a v ++ le_bytes b (v .>> (8 * Z.of_nat a)).
Proof.
  revert v. induction a as [|a IH]; intros v; [by rewrite Z.shiftr_0_r|].
  cbn [Nat.add le_bytes app]. f_equal. rewrite IH, Z.shiftr_shiftr by lia. do 3 f_equal. lia.
Qed.

Lemma le_value_range bs : bytes_ok bs -> 0 <= le_value bs < 2 ^ (8 * Z.of_nat (length bs)).
Proof.
  induction 1 as [|b bs Hb _ IH]; [done|]. cbn [le_value length]. rewrite Nat2Z.inj_succ.
  replace (8 * Z.succ (Z.of_nat (length bs))) with (8 + 8 * Z.of_nat (length bs)) by lia.
  rewrite Z.pow_add_r by lia. lia.
Qed.

Lemma le_value_bytes n v : le_value (le_bytes n v) = v mod 2 ^ (8 * Z.of_nat n).
Proof.
  revert v. induction n as [|n IH]; intros v; [by rewrite Z.mod_1_r|].
  cbn [le_bytes le_value]. rewrite IH, Nat2Z.inj_succ.
  replace (8 * Z.succ (Z.of_nat n)) with (8 + 8 * Z.of_nat n) by lia.
  rewrite Z.pow_add_r, Z.shiftr_div_pow2 by lia. unfold u8.
  rewrite (Z.rem_mul_r v (2 ^ 8)) by lia. lia.
Qed.

Lemma le_bytes_value bs : bytes_ok bs -> le_bytes (length bs) (le_value bs) = bs.
Proof.
  induction 1 as [|b bs Hb _ IH]; [done|]. cbn [length le_bytes le_value]. f_equal.
  - unfold u8. rewrite Z.mul_comm, Z.mod_add by lia. apply Z.mod_small. lia.
  - rewrite Z.shiftr_div_pow2, Z.mul_comm, Z.div_add by lia. by rewrite (Z.div_small b) by lia.
Qed.

Lemma le_value_app xs ys :
  le_value (xs ++ ys) = le_value xs + 2 ^ (8 * Z.of_nat (length xs)) * le_value ys.
Proof.
  induction xs as [|x xs IH]; cbn [app le_value length]; [by rewrite Z.pow_0_r, Z.mul_1_l|].
  rewrite IH, Nat2Z.inj_succ.
  replace (8 * Z.succ (Z.of_nat (length xs))) with (8 + 8 * Z.of_nat (length xs)) by lia.
  rewrite Z.pow_add_r by lia. lia.
Qed.

(** ** Memories that hold the same bytes *)

#[export] Instance mem_equiv : Equiv mem := fun m1 m2 => forall a, m1 a = m2 a.
#[export] Instance mem_equivalence : Equivalence (≡@{mem}).
Proof.
  split; [by intros m a|by intros m1 m2 H a|by intros m1 m2 m3 H1 H2 a; rewrite H1, H2].
Qed.

#[export] Instance mem_store_proper a bs : Proper ((≡) ==> (≡)) (mem_store a bs).
Proof. intros m1 m2 H x. unfold mem_store. by rewrite H. Qed.

Lemma mem_bytes_equiv m1 m2 a n : m1 ≡ m2 -> mem_bytes m1 a n = mem_bytes m2 a n.
Proof. intros H. apply mem_bytes_ext. intros i _. apply H. Qed.

Lemma mem_store_in a bs m x :
  a <= x < a + Z.of_nat (length bs) -> bs !! Z.to_nat (x - a) = Some (mem_store a bs m x).
Proof.
  intros Hx. unfold mem_store. destruct (Z.leb_spec a x); [|lia].
  destruct (lookup_lt_is_Some_2 bs (Z.to_nat (x - a)) ltac:(lia)) as [b ->]. done.
Qed.

Lemma mem_store_out a bs m x : x < a \/ a + Z.of_nat (length bs) <= x -> mem_store a bs m x = m x.
Proof.
  intros Hx. unfold mem_store. destruct (Z.leb_spec a x); [|done].
  by rewrite lookup_ge_None_2 by lia.
Qed.

(** Stores to neighbouring places, in either order. *)
Lemma mem_store_app a b xs ys m :
  b = a + Z.of_nat (length xs) -> mem_store b ys (mem_store a xs m) ≡ mem_store a (xs ++ ys) m.
Proof.
  intros -> x. set (b := a + Z.of_nat (length xs)).
  destruct (decide (b <= x < b + Z.of_nat (length ys))) as [Hy|Hy].
  - apply (inj Some). rewrite <- mem_store_in by done.
    rewrite <- mem_store_in by (rewrite length_app; lia).
    rewrite lookup_app_r by lia. f_equal. lia.
  - rewrite (mem_store_out b) by lia. destruct (decide (a <= x < b)) as [Hx|Hx].
    + apply (inj Some). rewrite <- !mem_store_in by (rewrite ?length_app; lia).
      symmetry. apply lookup_app_l. lia.
    + rewrite !mem_store_out by (rewrite ?length_app; lia). done.
Qed.

(** Conversion to a width does not change the bytes within it. *)
Lemma le_bytes_mod n v w : 8 * Z.of_nat n <= w -> le_bytes n (v mod 2 ^ w) = le_bytes n v.
Proof.
  revert v w. induction n as [|n IH]; intros v w Hw; [done|]. cbn [le_bytes].
  assert (Hs : (v mod 2 ^ w) .>> 8 = (v .>> 8) mod 2 ^ (w - 8)).
  { apply Z.bits_inj'. intros i Hi. rewrite Z.shiftr_spec by lia.
    destruct (Z.ltb_spec i (w - 8)).
    - by rewrite !Z.mod_pow2_bits_low, Z.shiftr_spec by lia.
    - by rewrite !Z.mod_pow2_bits_high by lia. }
  rewrite Hs, IH by lia. f_equal. unfold u8. apply Z.bits_inj'. intros i Hi.
  destruct (Z.ltb_spec i 8).
  - by rewrite !Z.mod_pow2_bits_low by lia.
  - by rewrite !Z.mod_pow2_bits_high by lia.
Qed.

Lemma be_bytes_app a b v : be_bytes (a + b) v = be_bytes b (v .>> (8 * Z.of_nat a)) ++ be_bytes a v.
Proof. unfold be_bytes. by rewrite le_bytes_app, rev_app_distr. Qed.

Lemma be_bytes_mod n v w : 8 * Z.of_nat n <= w -> be_bytes n (v mod 2 ^ w) = be_bytes n v.
Proof. intros. unfold be_bytes. by rewrite le_bytes_mod. Qed.

Lemma be_bytes_length n v : length (be_bytes n v) = n.
Proof. unfold be_bytes. by rewrite length_rev, le_bytes_length. Qed.

Section specs.
Implicit Types (val dst src : Z) (m : mem).

Lemma put_le16_spec val dst m : sys_put_le16 val dst m ≡ mem_store dst (le_bytes 2 val) m.
Proof.
  unfold sys_put_le16. rewrite mem_store_app by done. cbn [app].
  rewrite <- (le_bytes_mod 2 val 16) by done. done.
Qed.

Lemma put_le24_spec val dst m : sys_put_le24 val dst m ≡ mem_store dst (le_bytes 3 val) m.
Proof.
  unfold sys_put_le24. rewrite put_le16_spec, mem_store_app by (by rewrite le_bytes_length).
  rewrite <- (le_bytes_mod 3 val 32) by done. by rewrite (le_bytes_app 2 1).
Qed.

Lemma put_le32_spec val dst m : sys_put_le32 val dst m ≡ mem_store dst (le_bytes 4 val) m.
Proof.
  unfold sys_put_le32. rewrite !put_le16_spec, mem_store_app by (by rewrite le_bytes_length).
  rewrite <- (le_bytes_mod 4 val 32) by done. by rewrite (le_bytes_app 2 2).
Qed.

Lemma put_le48_spec val dst m : sys_put_le48 val dst m ≡ mem_store dst (le_bytes 6 val) m.
Proof.
  unfold sys_put_le48. rewrite put_le16_spec, put_le32_spec, mem_store_app by (by rewrite le_bytes_length).
  rewrite <- (le_bytes_mod 6 val 64) by done. by rewrite (le_bytes_app 4 2).
Qed.

Lemma put_le64_spec val dst m : sys_put_le64 val dst m ≡ mem_store dst (le_bytes 8 val) m.
Proof.
  unfold sys_put_le64. rewrite !put_le32_spec, mem_store_app by (by rewrite le_bytes_length).
  rewrite <- (le_bytes_mod 8 val 64) by done. by rewrite (le_bytes_app 4 4).
Qed.

Lemma put_be16_spec val dst m : sys_put_be16 val dst m ≡ mem_store dst (be_bytes 2 val) m.
Proof.
  unfold sys_put_be16. rewrite mem_store_app by done. cbn [app].
  rewrite <- (be_bytes_mod 2 val 16) by done. done.
Qed.

Lemma put_be24_spec val dst m : sys_put_be24 val dst m ≡ mem_store dst (be_bytes 3 val) m.
Proof.
  unfold sys_put_be24. rewrite put_be16_spec, mem_store_app by done.
  rewrite <- (be_bytes_mod 3 val 32) by done. by rewrite (be_bytes_app 2 1).
Qed.

Lemma put_be32_spec val dst m : sys_put_be32 val dst m ≡ mem_store dst (be_bytes 4 val) m.
Proof.
  unfold sys_put_be32. rewrite !put_be16_spec, mem_store_app by (by rewrite be_bytes_length).
  rewrite <- (be_bytes_mod 4 val 32) by done. by rewrite (be_bytes_app 2 2).
Qed.

Lemma put_be48_spec val dst m : sys_put_be48 val dst m ≡ mem_store dst (be_bytes 6 val) m.
Proof.
  unfold sys_put_be48. rewrite put_be32_spec, put_be16_spec, mem_store_app by (by rewrite be_bytes_length).
  rewrite <- (be_bytes_mod 6 val 64) by done. by rewrite (be_bytes_app 4 2).
Qed.

Lemma put_be64_spec val dst m : sys_put_be64 val dst m ≡ mem_store dst (be_bytes 8 val) m.
Proof.
  unfold sys_put_be64. rewrite !put_be32_spec, mem_store_app by (by rewrite be_bytes_length).
  rewrite <- (be_bytes_mod 8 val 64) by done. by rewrite (be_bytes_app 4 4).
Qed.
End specs.

(** ** Reading *)

Lemma lor_shiftl a b k : 0 <= k -> 0 <= b < 2 ^ k -> (a .<< k) .| b = b + 2 ^ k * a.
Proof.
  intros Hk Hb. assert (D : (a .<< k) .& b = 0).
  { apply Z.bits_inj'. intros i Hi. rewrite Z.land_spec, Z.bits_0.
    destruct (Z.ltb_spec i k); [by rewrite Z.shiftl_spec_low|].
    rewrite <- (Z.mod_small b (2 ^ k)) by lia. by rewrite Z.mod_pow2_bits_high, andb_false_r by lia. }
  rewrite <- Z.lxor_lor, <- Z.add_nocarry_lxor, Z.shiftl_mul_pow2 by done. lia.
Qed.

Lemma mem_bytes_app m a i j : 0 <= i -> 0 <= j -> mem_bytes m a (i + j) = mem_bytes m a i ++ mem_bytes m (a + i) j.
Proof. intros Hi Hj. unfold mem_bytes. by rewrite seqZ_app, fmap_app. Qed.

Section get_specs.
Implicit Types (val dst src : Z) (m : mem).

(** A high part shifted over a low part, both read as numbers. *)
Lemma combine_le lo hi w :
  bytes_ok lo -> bytes_ok hi -> w = 8 * Z.of_nat (length lo) ->
  (le_value hi .<< w) .| le_value lo = le_value (lo ++ hi) /\
  0 <= le_value (lo ++ hi) < 2 ^ (8 * Z.of_nat (length lo + length hi)).
Proof.
  intros Hl Hh ->. rewrite lor_shiftl, le_value_app by (lia || by apply le_value_range).
  split; [done|]. rewrite <- le_value_app, <- length_app. apply le_value_range. by apply Forall_app_2.
Qed.

Lemma value_shift_small bs w k :
  bytes_ok bs -> 0 <= w -> 8 * Z.of_nat (length bs) + w <= k -> 0 <= le_value bs .<< w < 2 ^ k.
Proof.
  intros Hb Hw Hk. pose proof (le_value_range bs Hb) as [H1 H2]. rewrite Z.shiftl_mul_pow2 by done.
  split; [apply Z.mul_nonneg_nonneg; [done|apply Z.pow_nonneg; lia]|].
  apply (Z.lt_le_trans _ (2 ^ (8 * Z.of_nat (length bs)) * 2 ^ w)).
  - apply Z.mul_lt_mono_pos_r; [|done]. apply Z.pow_pos_nonneg; lia.
  - rewrite <- Z.pow_add_r by lia. apply Z.pow_le_mono_r; lia.
Qed.

Lemma mem_bytes_one m a : mem_bytes m a 1 = [m a].
Proof. done. Qed.

(** Reading little-endian: the [j] bytes behind the first [i] go above them. *)
Lemma read_le (i j w k : Z) src m (hi lo : Z) :
  0 <= i -> 0 <= j -> w = 8 * i -> 8 * (i + j) <= k -> bytes_ok (mem_bytes m src (i + j)) ->
  lo = le_value (mem_bytes m src i) -> hi = le_value (mem_bytes m (src + i) j) ->
  ((((hi .<< w) mod 2 ^ k) .| lo) mod 2 ^ k = le_value (mem_bytes m src (i + j))) /\
  ((hi .<< w) .| lo) mod 2 ^ k = le_value (mem_bytes m src (i + j)).
Proof.
  intros Hi Hj -> Hk H -> ->. rewrite mem_bytes_app in * by done. apply Forall_app in H as [H1 H2].
  destruct (combine_le (mem_bytes m src i) (mem_bytes m (src + i) j) (8 * i) H1 H2) as [E [R1 R2]];
    [rewrite length_mem_bytes; lia|].
  assert (2 ^ (8 * Z.of_nat (length (mem_bytes m src i) + length (mem_bytes m (src + i) j))) <= 2 ^ k)
    by (apply Z.pow_le_mono_r; [done|rewrite !length_mem_bytes; lia]).
  rewrite (Z.mod_small (_ .<< _)) by (apply value_shift_small; [done|lia|rewrite length_mem_bytes; lia]).
  rewrite E. by rewrite Z.mod_small by lia.
Qed.

Lemma bytes_ok_part m src n (i j : Z) :
  bytes_ok (mem_bytes m src n) -> n = i + j -> 0 <= i -> 0 <= j ->
  bytes_ok (mem_bytes m src i) /\ bytes_ok (mem_bytes m (src + i) j).
Proof. intros H -> Hi Hj. rewrite mem_bytes_app in H by done. by apply Forall_app. Qed.

Lemma get_le16_spec src m : bytes_ok (mem_bytes m src 2) -> sys_get_le16 src m = le_value (mem_bytes m src 2).
Proof. intros H. apply (read_le 1 1); try done; rewrite mem_bytes_one; cbn [le_value]; lia. Qed.

Lemma get_le24_spec src m : bytes_ok (mem_bytes m src 3) -> sys_get_le24 src m = le_value (mem_bytes m src 3).
Proof.
  intros H. destruct (bytes_ok_part _ _ _ 2 1 H) as [H1 H2]; [done..|].
  apply (read_le 2 1); try done; [by apply get_le16_spec|rewrite mem_bytes_one; cbn [le_value]; lia].
Qed.

Lemma get_le32_spec src m : bytes_ok (mem_bytes m src 4) -> sys_get_le32 src m = le_value (mem_bytes m src 4).
Proof.
  intros H. destruct (bytes_ok_part _ _ _ 2 2 H) as [H1 H2]; [done..|].
  apply (read_le 2 2); try done; by apply get_le16_spec.
Qed.

Lemma get_le48_spec src m : bytes_ok (mem_bytes m src 6) -> sys_get_le48 src m = le_value (mem_bytes m src 6).
Proof.
  intros H. destruct (bytes_ok_part _ _ _ 2 4 H) as [H1 H2]; [done..|].
  apply (read_le 2 4); try done; [by apply get_le16_spec|by apply get_le32_spec].
Qed.

Lemma get_le64_spec src m : bytes_ok (mem_bytes m src 8) -> sys_get_le64 src m = le_value (mem_bytes m src 8).
Proof.
  intros H. destruct (bytes_ok_part _ _ _ 4 4 H) as [H1 H2]; [done..|].
  apply (read_le 4 4); try done; by apply get_le32_spec.
Qed.

(** Reading big-endian: the first [i] bytes go above the [j] behind them. *)
Lemma read_be (i j w k : Z) src m (hi lo : Z) :
  0 <= i -> 0 <= j -> w = 8 * j -> 8 * (i + j) <= k -> bytes_ok (mem_bytes m src (i + j)) ->
  hi = be_value (mem_bytes m src i) -> lo = be_value (mem_bytes m (src + i) j) ->
  ((((hi .<< w) mod 2 ^ k) .| lo) mod 2 ^ k = be_value (mem_bytes m src (i + j))) /\
  ((hi .<< w) .| lo) mod 2 ^ k = be_value (mem_bytes m src (i + j)).
Proof.
  intros Hi Hj -> Hk H -> ->. rewrite mem_bytes_app in * by done. apply Forall_app in H as [H1 H2].
  unfold be_value. rewrite rev_app_distr.
  assert (Hr : forall bs, bytes_ok bs -> bytes_ok (rev bs)) by (intros bs; apply Forall_rev).
  apply Hr in H1, H2.
  destruct (combine_le (rev (mem_bytes m (src + i) j)) (rev (mem_bytes m src i)) (8 * j) H2 H1) as [E [R1 R2]];
    [rewrite length_rev, length_mem_bytes; lia|].
  assert (2 ^ (8 * Z.of_nat (length (rev (mem_bytes m (src + i) j)) + length (rev (mem_bytes m src i)))) <= 2 ^ k)
    by (apply Z.pow_le_mono_r; [done|rewrite !length_rev, !length_mem_bytes; lia]).
  rewrite (Z.mod_small (_ .<< _)) by (apply value_shift_small; [done|lia|rewrite length_rev, length_mem_bytes; lia]).
  rewrite E. by rewrite Z.mod_small by lia.
Qed.

Lemma get_be16_spec src m : bytes_ok (mem_bytes m src 2) -> sys_get_be16 src m = be_value (mem_bytes m src 2).
Proof. intros H. apply (read_be 1 1); try done; rewrite mem_bytes_one; cbn [be_value rev app le_value]; lia. Qed.

Lemma get_be24_spec src m : bytes_ok (mem_bytes m src 3) -> sys_get_be24 src m = be_value (mem_bytes m src 3).
Proof.
  intros H. destruct (bytes_ok_part _ _ _ 1 2 H) as [H1 H2]; [done..|].
  apply (read_be 1 2); try done; [rewrite mem_bytes_one; cbn [be_value rev app le_value]; lia|by apply get_be16_spec].
Qed.

Lemma get_be32_spec src m : bytes_ok (mem_bytes m src 4) -> sys_get_be32 src m = be_value (mem_bytes m src 4).
Proof.
  intros H. destruct (bytes_ok_part _ _ _ 2 2 H) as [H1 H2]; [done..|].
  apply (read_be 2 2); try done; by apply get_be16_spec.
Qed.

Lemma get_be48_spec src m : bytes_ok (mem_bytes m src 6) -> sys_get_be48 src m = be_value (mem_bytes m src 6).
Proof.
  intros H. destruct (bytes_ok_part _ _ _ 4 2 H) as [H1 H2]; [done..|].
  apply (read_be 4 2); try done; [by apply get_be32_spec|by apply get_be16_spec].
Qed.

Lemma get_be64_spec src m : bytes_ok (mem_bytes m src 8) -> sys_get_be64 src m = be_value (mem_bytes m src 8).
Proof.
  intros H. destruct (bytes_ok_part _ _ _ 4 4 H) as [H1 H2]; [done..|].
  apply (read_be 4 4); try done; by apply get_be32_spec.
Qed.
End get_specs.

(** ** Swapping a value read the other way round *)

Lemma mask_right x s t : 0 <= s -> 0 <= t -> (x .>> s) .& (0xff .<< t) = ((x .>> (s + t)) .& 0xff) .<< t.
Proof.
  intros Hs Ht. rewrite <- Z.shiftr_shiftr, Z.shiftl_land by done. apply Z.bits_inj'. intros i Hi.
  rewrite !Z.land_spec. destruct (Z.ltb_spec i t).
  - by rewrite !(Z.shiftl_spec_low _ t), !andb_false_r by lia.
  - rewrite !Z.shiftl_spec, !Z.shiftr_spec by lia. do 2 f_equal. lia.
Qed.

Lemma mask_left x s t : 0 <= s -> 0 <= t -> (x .& (0xff .<< t)) .<< s = ((x .>> t) .& 0xff) .<< (t + s).
Proof.
  intros Hs Ht. pose proof (mask_right x 0 t) as E. rewrite Z.shiftr_0_r in E.
  rewrite E, Z.shiftl_shiftl by lia. done.
Qed.

(** The bytes of [x], each at its place, make up a number. *)
Definition byte_at (x i : Z) : Z := (x .>> (8 * i)) .& 0xff.

Lemma byte_at_range x i : 0 <= byte_at x i < 256.
Proof. unfold byte_at. change 0xff with (Z.ones 8). rewrite Z.land_ones by done. apply Z.mod_pos_bound. done. Qed.

Lemma lor_up a b k : 0 <= k -> 0 <= a < 2 ^ k -> a .| (b .<< k) = a + 2 ^ k * b.
Proof. intros. rewrite Z.lor_comm. by apply lor_shiftl. Qed.

Lemma byte_at_value bs (i : nat) : bytes_ok bs -> byte_at (le_value bs) (Z.of_nat i) = default 0 (bs !! i).
Proof.
  unfold byte_at. change 0xff with (Z.ones 8). intros H. revert i. induction H as [|b bs Hb H IH]; intros i.
  - cbn [le_value]. rewrite Z.shiftr_0_l, Z.land_0_l. done.
  - rewrite Z.land_ones by done. destruct i as [|i]; cbn [le_value lookup list_lookup].
    + rewrite Z.shiftr_0_r, Z.mul_comm, Z.mod_add, Z.mod_small by lia. done.
    + rewrite <- IH, Z.land_ones by done. f_equal.
      replace (8 * Z.of_nat (S i)) with (8 + 8 * Z.of_nat i) by lia.
      rewrite <- Z.shiftr_shiftr by lia. f_equal.
      rewrite Z.shiftr_div_pow2, Z.mul_comm, Z.div_add by lia. by rewrite (Z.div_small b) by lia.
Qed.

Lemma right_byte x s t i :
  0 <= s -> 0 <= t -> s + t = 8 * i -> (x .>> s) .& (0xff .<< t) = byte_at x i .<< t.
Proof. intros Hs Ht E. rewrite mask_right, E by done. done. Qed.

Lemma left_byte x s t i :
  0 <= s -> 0 <= t -> t = 8 * i -> (x .& (0xff .<< t)) .<< s = byte_at x i .<< (t + s).
Proof. intros Hs Ht ->. by rewrite mask_left. Qed.

(** Once every byte is at its place: add them up. *)
Ltac place_bytes x n :=
  match n with
  | O => idtac
  | S ?m => let i := eval vm_compute in (Z.of_nat m) in
            pose proof (byte_at_range x i); generalize dependent (byte_at x i); intros; place_bytes x m
  end.
Ltac add_bytes x n :=
  repeat match goal with |- context [Z.shiftl _ (?b + ?c)] =>
    let v := eval vm_compute in (b + c) in change (b + c) with v end;
  place_bytes x n;
  repeat match goal with |- context [Z.lor ?a (Z.shiftl ?b ?k)] =>
    lazymatch a with context [Z.lor] => fail | _ => rewrite (lor_up a b k) by lia end end;
  etransitivity; [apply Z.mod_small|]; lia.

Section bswap.
Implicit Types (x : Z) (bs : list Z).

Lemma bswap_16_bytes x : __bswap_16 x = byte_at x 1 + 256 * byte_at x 0.
Proof.
  unfold __bswap_16. change ((x .>> 8) .& 0xff) with (byte_at x 1). change 0xff with (0xff .<< 0).
  rewrite (left_byte x 8 0 0) by done. add_bytes x 2%nat.
Qed.

Lemma bswap_24_bytes x : __bswap_24 x = byte_at x 2 + 256 * (byte_at x 1 + 256 * byte_at x 0).
Proof.
  unfold __bswap_24. change ((x .>> 16) .& 0xff) with (byte_at x 2). change 0xff with (0xff .<< 0).
  rewrite (left_byte x 16 0 0) by done. change 0xff00 with (0xff .<< 8).
  pose proof (right_byte x 0 8 1) as E. rewrite Z.shiftr_0_r in E. rewrite E by done. add_bytes x 3%nat.
Qed.

Lemma bswap_32_bytes x :
  __bswap_32 x = byte_at x 3 + 256 * (byte_at x 2 + 256 * (byte_at x 1 + 256 * byte_at x 0)).
Proof.
  unfold __bswap_32. change ((x .>> 24) .& 0xff) with (byte_at x 3). change 0xff with (0xff .<< 0).
  rewrite (left_byte x 24 0 0) by done. change 0xff00 with (0xff .<< 8).
  rewrite (right_byte x 8 8 2), (left_byte x 8 8 1) by done. add_bytes x 4%nat.
Qed.

Lemma bswap_48_bytes x :
  __bswap_48 x = byte_at x 5 + 256 * (byte_at x 4 + 256 * (byte_at x 3 + 256 * (byte_at x 2 +
    256 * (byte_at x 1 + 256 * byte_at x 0)))).
Proof.
  unfold __bswap_48. change ((x .>> 40) .& 0xff) with (byte_at x 5). change 0xff with (0xff .<< 0).
  rewrite (left_byte x 40 0 0) by done. change 0xff00 with (0xff .<< 8).
  rewrite (right_byte x 24 8 4), (left_byte x 24 8 1) by done. change 0xff0000 with (0xff .<< 16).
  rewrite (right_byte x 8 16 3), (left_byte x 8 16 2) by done. add_bytes x 6%nat.
Qed.

Lemma bswap_64_bytes x :
  __bswap_64 x = byte_at x 7 + 256 * (byte_at x 6 + 256 * (byte_at x 5 + 256 * (byte_at x 4 +
    256 * (byte_at x 3 + 256 * (byte_at x 2 + 256 * (byte_at x 1 + 256 * byte_at x 0)))))).
Proof.
  unfold __bswap_64. change ((x .>> 56) .& 0xff) with (byte_at x 7). change 0xff with (0xff .<< 0).
  rewrite (left_byte x 56 0 0) by done. change 0xff00 with (0xff .<< 8).
  rewrite (right_byte x 40 8 6), (left_byte x 40 8 1) by done. change 0xff0000 with (0xff .<< 16).
  rewrite (right_byte x 24 16 5), (left_byte x 24 16 2) by done. change 0xff000000 with (0xff .<< 24).
  rewrite (right_byte x 8 24 4), (left_byte x 8 24 3) by done. add_bytes x 8%nat.
Qed.

(** A number read from memory the CPU's way and swapped is the number in the other
    byte order. *)
Lemma bswap_value bs :
  bytes_ok bs ->
  match length bs with
  | 2%nat => __bswap_16 (le_value bs) = be_value bs
  | 3%nat => __bswap_24 (le_value bs) = be_value bs
  | 4%nat => __bswap_32 (le_value bs) = be_value bs
  | 6%nat => __bswap_48 (le_value bs) = be_value bs
  | 8%nat => __bswap_64 (le_value bs) = be_value bs
  | _ => True
  end.
Proof.
  intros H. pose proof (fun i => byte_at_value bs i H) as B.
  pose proof (B 0%nat : byte_at _ 0 = _) as B0. pose proof (B 1%nat : byte_at _ 1 = _) as B1. pose proof (B 2%nat : byte_at _ 2 = _) as B2.
  pose proof (B 3%nat : byte_at _ 3 = _) as B3.
  pose proof (B 4%nat : byte_at _ 4 = _) as B4. pose proof (B 5%nat : byte_at _ 5 = _) as B5.
  pose proof (B 6%nat : byte_at _ 6 = _) as B6. pose proof (B 7%nat : byte_at _ 7 = _) as B7.
  clear B H. destruct bs as [|b0 [|b1 [|b2 [|b3 [|b4 [|b5 [|b6 [|b7 [|b8 bs]]]]]]]]]; cbn [length]; try done;
    first [rewrite bswap_16_bytes, B0, B1|rewrite bswap_24_bytes, B0, B1, B2|
           rewrite bswap_32_bytes, B0, B1, B2, B3|rewrite bswap_48_bytes, B0, B1, B2, B3, B4, B5|
           rewrite bswap_64_bytes, B0, B1, B2, B3, B4, B5, B6, B7];
    unfold be_value; cbn [rev app le_value lookup list_lookup default from_option id]; lia.
Qed.
End bswap.

(** ** Reversing memory *)

Section reversing.
Implicit Types (buf dst src : Z) (m : mem).

Lemma mem_bytes_snoc m a n : 0 <= n -> mem_bytes m a (n + 1) = mem_bytes m a n ++ [m (a + n)].
Proof. intros Hn. by rewrite mem_bytes_app, mem_bytes_one. Qed.

Lemma memcpy_swap_loop_at n pdst psrc m x :
  disjoint_regions pdst (Z.of_nat n) (psrc - Z.of_nat n + 1) (Z.of_nat n) ->
  memcpy_swap_loop n pdst psrc m x =
    if (pdst <=? x) && (x <? pdst + Z.of_nat n) then m (psrc - (x - pdst)) else m x.
Proof.
  revert pdst psrc m. induction n as [|n IH]; intros pdst psrc m D; cbn [memcpy_swap_loop]; [by bdestruct|].
  unfold disjoint_regions in *. rewrite IH by (unfold disjoint_regions; lia).
  destruct (Z.leb_spec (pdst + 1) x), (Z.ltb_spec x (pdst + 1 + Z.of_nat n)); cbn [andb];
    destruct (Z.leb_spec pdst x), (Z.ltb_spec x (pdst + Z.of_nat (S n))); cbn [andb]; try lia.
  - rewrite mem_store_out by (cbn [length]; lia). f_equal. lia.
  - by rewrite mem_store_out by (cbn [length]; lia).
  - assert (x = pdst) as -> by lia. pose proof (mem_store_in pdst [m psrc] m pdst) as E.
    rewrite Z.sub_diag in *. cbn in E. rewrite Z.sub_0_r. symmetry. apply (inj Some), E. lia.
  - by rewrite mem_store_out by (cbn [length]; lia).
Qed.

Lemma rev_lookup_mem m a n (i : nat) :
  Z.of_nat i < n -> rev (mem_bytes m a n) !! i = Some (m (a + (n - 1 - Z.of_nat i))).
Proof.
  intros Hi. rewrite rev_alt. change (rev_append ?l []) with (reverse l).
  rewrite reverse_lookup by (rewrite length_mem_bytes; lia).
  rewrite length_mem_bytes, mem_bytes_lookup by lia. do 2 f_equal. lia.
Qed.

Lemma mem_store_one a b m x : mem_store a [b] m x = if x =? a then b else m x.
Proof.
  destruct (Z.eqb_spec x a) as [->|]; [|rewrite mem_store_out by (cbn [length]; lia); done].
  pose proof (mem_store_in a [b] m a) as E. rewrite Z.sub_diag in E. cbn in E. symmetry. apply (inj Some), E. lia.
Qed.

(** The pairs of indices from [i] on that are exchanged. *)
Definition exchanged (i n length j : Z) : bool :=
  ((i <=? j) && (j <? i + n)) || ((i <=? length - 1 - j) && (length - 1 - j <? i + n)).

Lemma mem_swap_loop_at n i buf length m x :
  0 <= i -> 2 * (i + Z.of_nat n) <= length ->
  mem_swap_loop n i buf length m x =
    if exchanged i (Z.of_nat n) length (x - buf) then m (buf + (length - 1 - (x - buf))) else m x.
Proof.
  revert i m. induction n as [|n IH]; intros i m Hi Hn; cbn [mem_swap_loop].
  - unfold exchanged. replace (i + Z.of_nat 0) with i by lia. by bdestruct.
  - rewrite IH by lia. unfold exchanged. rewrite !mem_store_one.
    bdestruct; f_equal; lia.
Qed.

Lemma mem_swap_reverses buf n m : 0 <= n -> mem_bytes (sys_mem_swap buf n m) buf n = rev (mem_bytes m buf n).
Proof.
  intros Hn. apply list_eq. intros i. destruct (decide (Z.of_nat i < n)) as [Hi|Hi].
  - rewrite mem_bytes_lookup, rev_lookup_mem by done. f_equal. unfold sys_mem_swap.
    pose proof (Z.div_mod n 2). pose proof (Z.mod_pos_bound n 2).
    rewrite mem_swap_loop_at by lia. unfold exchanged.
    replace (buf + Z.of_nat i - buf) with (Z.of_nat i) by lia. rewrite Z2Nat.id by lia.
    bdestruct; f_equal; lia.
  - rewrite !lookup_ge_None_2; [done|rewrite length_rev, length_mem_bytes; lia|rewrite length_mem_bytes; lia].
Qed.

Lemma memcpy_swap_reverses dst src n m :
  0 <= n -> disjoint_regions dst n src n -> mem_bytes (sys_memcpy_swap dst src n m) dst n = rev (mem_bytes m src n).
Proof.
  intros Hn D. apply list_eq. intros i. destruct (decide (Z.of_nat i < n)) as [Hi|Hi].
  - rewrite mem_bytes_lookup, rev_lookup_mem by done. f_equal. unfold sys_memcpy_swap.
    rewrite memcpy_swap_loop_at by (unfold disjoint_regions in *; lia). bdestruct. f_equal. lia.
  - rewrite !lookup_ge_None_2; [done|rewrite length_rev, length_mem_bytes; lia|rewrite length_mem_bytes; lia].
Qed.
End reversing.

(** ** Properties *)

(** What a store of the [n] bytes of [val] and the matching read promise. *)
Definition stored (n : Z) (bytes : list Z) (put : mem -> mem) (get : mem -> Z) (val dst : Z) : Prop :=
  forall m, mem_bytes (put m) dst n = bytes /\ get (put m) = val mod 2 ^ (8 * n) /\
    forall a, a < dst \/ dst + n <= a -> put m a = m a.

(** A store that writes [bs] and a read that depends on the bytes only. *)
Lemma stored_intro n bs put get val dst :
  Z.of_nat (length bs) = n -> bytes_ok bs ->
  (forall m, put m ≡ mem_store dst bs m) ->
  (forall m, bytes_ok (mem_bytes m dst n) -> mem_bytes m dst n = bs -> get m = val mod 2 ^ (8 * n)) ->
  stored n bs put get val dst.
Proof.
  intros <- Hb Hput Hget m.
  assert (E : mem_bytes (put m) dst (Z.of_nat (length bs)) = bs)
    by (rewrite (mem_bytes_equiv _ _ _ _ (Hput m)); apply mem_bytes_store_same).
  split; [done|]. split; [by apply Hget; rewrite ?E|].
  intros a Ha. rewrite Hput. by apply mem_store_out.
Qed.

Lemma stored_le n k put get val dst :
  Z.of_nat n = k -> (forall m, put m ≡ mem_store dst (le_bytes n val) m) ->
  (forall m, bytes_ok (mem_bytes m dst k) -> get m = le_value (mem_bytes m dst k)) ->
  stored k (le_bytes n val) put get val dst.
Proof.
  intros <- Hput Hget. apply stored_intro; [by rewrite le_bytes_length|apply le_bytes_ok|done|].
  intros m Hb E. by rewrite Hget, E, le_value_bytes.
Qed.

Lemma stored_be n k put get val dst :
  Z.of_nat n = k -> (forall m, put m ≡ mem_store dst (be_bytes n val) m) ->
  (forall m, bytes_ok (mem_bytes m dst k) -> get m = be_value (mem_bytes m dst k)) ->
  stored k (be_bytes n val) put get val dst.
Proof.
  intros <- Hput Hget. apply stored_intro; [by rewrite be_bytes_length|apply Forall_rev, le_bytes_ok|done|].
  intros m Hb E. rewrite Hget, E by done. unfold be_value, be_bytes. by rewrite rev_involutive, le_value_bytes.
Qed.

Create HintDb byte_order discriminated.
#[export] Hint Resolve put_le16_spec put_le24_spec put_le32_spec put_le48_spec put_le64_spec
  put_be16_spec put_be24_spec put_be32_spec put_be48_spec put_be64_spec
  get_le16_spec get_le24_spec get_le32_spec get_le48_spec get_le64_spec
  get_be16_spec get_be24_spec get_be32_spec get_be48_spec get_be64_spec : byte_order.

(** Storing an integer in either byte order, at each of the five widths, writes
    exactly its bytes in that order and nothing else, and the matching read
    returns the integer, reduced to the width. *)
Theorem byte_order_roundtrip (val dst : Z) :
  stored 2 (le_bytes 2 val) (sys_put_le16 val dst) (sys_get_le16 dst) val dst /\
  stored 3 (le_bytes 3 val) (sys_put_le24 val dst) (sys_get_le24 dst) val dst /\
  stored 4 (le_bytes 4 val) (sys_put_le32 val dst) (sys_get_le32 dst) val dst /\
  stored 6 (le_bytes 6 val) (sys_put_le48 val dst) (sys_get_le48 dst) val dst /\
  stored 8 (le_bytes 8 val) (sys_put_le64 val dst) (sys_get_le64 dst) val dst /\
  stored 2 (be_bytes 2 val) (sys_put_be16 val dst) (sys_get_be16 dst) val dst /\
  stored 3 (be_bytes 3 val) (sys_put_be24 val dst) (sys_get_be24 dst) val dst /\
  stored 4 (be_bytes 4 val) (sys_put_be32 val dst) (sys_get_be32 dst) val dst /\
  stored 6 (be_bytes 6 val) (sys_put_be48 val dst) (sys_get_be48 dst) val dst /\
  stored 8 (be_bytes 8 val) (sys_put_be64 val dst) (sys_get_be64 dst) val dst.
Proof.
  split_and!; (apply stored_le || apply stored_be); intros; auto with byte_order.
Qed.

(** [sys_memcpy_swap] and [sys_mem_swap] reverse the bytes of a buffer of any
    length, odd lengths included, and swapping in place twice changes nothing. *)
Theorem swaps_reverse (dst src n : Z) (m : mem) (Hn : 0 <= n) (D : disjoint_regions dst n src n) :
  mem_bytes (sys_memcpy_swap dst src n m) dst n = rev (mem_bytes m src n) /\
  mem_bytes (sys_mem_swap dst n m) dst n = rev (mem_bytes m dst n) /\
  sys_mem_swap dst n (sys_mem_swap dst n m) ≡ m.
Proof.
  split; [by apply memcpy_swap_reverses|]. split; [by apply mem_swap_reverses|].
  intros x. unfold sys_mem_swap. pose proof (Z.div_mod n 2). pose proof (Z.mod_pos_bound n 2).
  rewrite !mem_swap_loop_at by lia. unfold exchanged. bdestruct; f_equal; lia.
Qed.

Lemma swaps_reverse_witness :
  let m := mem_store 100 [1; 2; 3; 4; 5] (fun _ => 0) in
  mem_bytes (sys_memcpy_swap 200 100 5 m) 200 5 = rev (mem_bytes m 100 5) /\
  mem_bytes (sys_mem_swap 200 5 m) 200 5 = rev (mem_bytes m 200 5) /\
  sys_mem_swap 200 5 (sys_mem_swap 200 5 m) ≡ m.
Proof. apply (swaps_reverse 200 100 5); [lia|unfold disjoint_regions; lia]. Defined.
