(* ===== verification/Crc.v ===== *)
(** CRC-8 ([lib/os/crc8_sw.c]): the table-driven [crc8_ccitt], which works on half
    bytes, and the bitwise [crc8] for any polynomial. *)
From Stdlib Require Import ZArith Lia Bool.
From stdpp Require Import base numbers list.
From S2P Require Import Prelude ByteOrder.
Open Scope Z_scope.

Definition crc8_ccitt_small_table : list Z :=
  [ 0x00; 0x07; 0x0e; 0x09; 0x1c; 0x1b; 0x12; 0x15;
    0x38; 0x3f; 0x36; 0x31; 0x24; 0x23; 0x2a; 0x2d ].

(** One half byte. *)
Definition crc8_ccitt_nibble (val : Z) : Z :=
  u8 ((val .<< 4) .^ default 0 (crc8_ccitt_small_table !! Z.to_nat (val .>> 4))).

Definition crc8_ccitt (val : Z) (buf : list Z) : Z :=
  foldl (fun val b => crc8_ccitt_nibble (crc8_ccitt_nibble (val .^ b))) val buf.

(** One bit, most or least significant first. *)
Definition crc8_bit (polynomial : Z) (reversed : bool) (crc : Z) : Z :=
  if reversed then (if nz (crc .& 0x01) then (crc .>> 1) .^ polynomial else crc .>> 1)
  else (if nz (crc .& 0x80) then u8 ((crc .<< 1) .^ polynomial) else u8 (crc .<< 1)).

Definition crc8 (src : list Z) (polynomial initial_value : Z) (reversed : bool) : Z :=
  foldl (fun crc b => Nat.iter 8 (crc8_bit polynomial reversed) (crc .^ b)) initial_value src.

(** A byte at a time both do the same. *)
Lemma crc8_byte val : 0 <= val < 256 -> crc8_ccitt_nibble (crc8_ccitt_nibble val) = Nat.iter 8 (crc8_bit 0x07 false) val.
Proof.
  assert (G : forallb (fun v => crc8_ccitt_nibble (crc8_ccitt_nibble v) =? Nat.iter 8 (crc8_bit 0x07 false) v) (seqZ 0 256) = true) by (vm_compute; reflexivity).
  intros Hv. apply Z.eqb_eq. rewrite forallb_forall in G. apply G. apply list_elem_of_In, elem_of_seqZ. lia.
Qed.

Lemma byte_lxor a b : 0 <= a < 256 -> 0 <= b < 256 -> 0 <= a .^ b < 256.
Proof.
  intros Ha Hb. split; [apply Z.lxor_nonneg; lia|]. destruct (decide (a .^ b = 0)) as [->|Hz]; [lia|].
  assert (0 < a .^ b) by (pose proof (proj2 (Z.lxor_nonneg a b)); lia). change 256 with (2 ^ 8). apply Z.log2_lt_pow2; [done|].
  pose proof (Z.log2_lxor a b ltac:(lia) ltac:(lia)) as Hl.
  assert (Z.log2 a <= 7) by (change 7 with (Z.log2 255); apply Z.log2_le_mono; lia).
  assert (Z.log2 b <= 7) by (change 7 with (Z.log2 255); apply Z.log2_le_mono; lia). lia.
Qed.

Lemma crc8_ccitt_range val buf : 0 <= val < 256 -> 0 <= crc8_ccitt val buf < 256.
Proof.
  revert val. induction buf as [|b buf IH]; intros val Hv; [done|]. apply IH. apply Z.mod_pos_bound. lia.
Qed.

(** The table-driven CRC-8 is the bitwise one with the CCITT polynomial, for
    every start value and every sequence of bytes. *)
Theorem crc8_ccitt_is_crc8 val buf :
  0 <= val < 256 -> bytes_ok buf -> crc8_ccitt val buf = crc8 buf 0x07 val false.
Proof.
  intros Hv Hb. revert val Hv. induction Hb as [|b buf Hb _ IH]; intros val Hv; [done|]. cbn [crc8_ccitt crc8 foldl].
  assert (Hx := byte_lxor val b Hv Hb). rewrite <- crc8_byte by done. apply IH. apply Z.mod_pos_bound. lia.
Qed.

Lemma crc8_ccitt_is_crc8_witness : crc8_ccitt 0xff [0x12; 0x34] = crc8 [0x12; 0x34] 0x07 0xff false.
Proof. apply crc8_ccitt_is_crc8; [lia|]. apply Forall_cons_2; [lia|]. apply Forall_cons_2; [lia|]. apply Forall_nil_2. Defined.
