(* ===== verification/NetBuf.v ===== *)
(** Network buffers ([subsys/net/buf.c], [include/net/buf.h]): the byte buffers
    every Bluetooth packet is built in and parsed from, and chains of fragments. *)
From Stdlib Require Import ZArith Lia Bool.
From stdpp Require Import base numbers list.
From S2P Require Import Prelude ByteOrder.
Open Scope Z_scope.

Record net_buf_simple := mk_nbs { data : Z; len : Z; size : Z; __buf : Z }.

(** A buffer and the memory it lies in. *)
Definition nbs : Type := net_buf_simple * mem.

Section definitions.
Implicit Types (b : net_buf_simple) (s : nbs) (m : mem).

Definition set_data d l b := mk_nbs d l (size b) (__buf b).

(** The storage of a buffer without one follows the 12 bytes of the structure at
    [self]. *)
Definition net_buf_simple_init (self reserve_head : Z) b : net_buf_simple :=
  let b := if __buf b =? 0 then mk_nbs (data b) (len b) (size b) (self + 12) else b in
  set_data (__buf b + reserve_head) 0 b.
Definition net_buf_simple_init_with_data (p n : Z) : net_buf_simple := mk_nbs p (u16 n) (u16 n) p.
Definition net_buf_simple_reserve (reserve : Z) b : net_buf_simple := set_data (__buf b + reserve) (len b) b.
Definition net_buf_simple_reset b : net_buf_simple := set_data (__buf b) 0 b.
Definition net_buf_simple_clone b : net_buf_simple := b.
Definition net_buf_simple_tail b : Z := data b + len b.
Definition net_buf_simple_headroom b : Z := data b - __buf b.
Definition net_buf_simple_tailroom b : Z := u32 (size b - net_buf_simple_headroom b - len b).

Record net_buf_simple_state := mk_nbs_state { offset : Z; state_len : Z }.
Definition net_buf_simple_save b : net_buf_simple_state :=
  mk_nbs_state (u16 (net_buf_simple_headroom b)) (len b).
Definition net_buf_simple_restore (state : net_buf_simple_state) b : net_buf_simple :=
  set_data (__buf b + offset state) (state_len state) b.

Definition net_buf_simple_add (n : Z) b : Z * net_buf_simple :=
  let tail := net_buf_simple_tail b in (tail, set_data (data b) (u16 (len b + n)) b).
Definition net_buf_simple_push (n : Z) b : Z * net_buf_simple :=
  let b := set_data (data b - n) (u16 (len b + n)) b in (data b, b).
Definition net_buf_simple_pull (n : Z) b : Z * net_buf_simple :=
  let b := set_data (data b + n) (u16 (len b - n)) b in (data b, b).
Definition net_buf_simple_pull_mem (n : Z) b : Z * net_buf_simple :=
  (data b, set_data (data b + n) (u16 (len b - n)) b).

Definition net_buf_simple_add_mem (src n : Z) s : nbs :=
  let '(p, b) := net_buf_simple_add n s.1 in (b, memcpy p src n s.2).
Definition net_buf_simple_add_u8 (val : Z) s : nbs :=
  let '(p, b) := net_buf_simple_add 1 s.1 in (b, mem_store p [u8 val] s.2).
Definition net_buf_simple_add_le16 (val : Z) s : nbs :=
  let '(p, b) := net_buf_simple_add 2 s.1 in (b, sys_put_le16 val p s.2).
Definition net_buf_simple_add_be16 (val : Z) s : nbs :=
  let '(p, b) := net_buf_simple_add 2 s.1 in (b, sys_put_be16 val p s.2).
Definition net_buf_simple_add_le24 (val : Z) s : nbs :=
  let '(p, b) := net_buf_simple_add 3 s.1 in (b, sys_put_le24 val p s.2).
Definition net_buf_simple_add_be24 (val : Z) s : nbs :=
  let '(p, b) := net_buf_simple_add 3 s.1 in (b, sys_put_be24 val p s.2).
Definition net_buf_simple_add_le32 (val : Z) s : nbs :=
  let '(p, b) := net_buf_simple_add 4 s.1 in (b, sys_put_le32 val p s.2).
Definition net_buf_simple_add_be32 (val : Z) s : nbs :=
  let '(p, b) := net_buf_simple_add 4 s.1 in (b, sys_put_be32 val p s.2).
Definition net_buf_simple_add_le48 (val : Z) s : nbs :=
  let '(p, b) := net_buf_simple_add 6 s.1 in (b, sys_put_le48 val p s.2).
Definition net_buf_simple_add_be48 (val : Z) s : nbs :=
  let '(p, b) := net_buf_simple_add 6 s.1 in (b, sys_put_be48 val p s.2).
Definition net_buf_simple_add_le64 (val : Z) s : nbs :=
  let '(p, b) := net_buf_simple_add 8 s.1 in (b, sys_put_le64 val p s.2).
Definition net_buf_simple_add_be64 (val : Z) s : nbs :=
  let '(p, b) := net_buf_simple_add 8 s.1 in (b, sys_put_be64 val p s.2).

Definition net_buf_simple_push_u8 (val : Z) s : nbs :=
  let '(p, b) := net_buf_simple_push 1 s.1 in (b, mem_store p [u8 val] s.2).
Definition net_buf_simple_push_le16 (val : Z) s : nbs :=
  let '(p, b) := net_buf_simple_push 2 s.1 in (b, sys_put_le16 val p s.2).
Definition net_buf_simple_push_be16 (val : Z) s : nbs :=
  let '(p, b) := net_buf_simple_push 2 s.1 in (b, sys_put_be16 val p s.2).
Definition net_buf_simple_push_le24 (val : Z) s : nbs :=
  let '(p, b) := net_buf_simple_push 3 s.1 in (b, sys_put_le24 val p s.2).
Definition net_buf_simple_push_be24 (val : Z) s : nbs :=
  let '(p, b) := net_buf_simple_push 3 s.1 in (b, sys_put_be24 val p s.2).
Definition net_buf_simple_push_le32 (val : Z) s : nbs :=
  let '(p, b) := net_buf_simple_push 4 s.1 in (b, sys_put_le32 val p s.2).
Definition net_buf_simple_push_be32 (val : Z) s : nbs :=
  let '(p, b) := net_buf_simple_push 4 s.1 in (b, sys_put_be32 val p s.2).
Definition net_buf_simple_push_le48 (val : Z) s : nbs :=
  let '(p, b) := net_buf_simple_push 6 s.1 in (b, sys_put_le48 val p s.2).
Definition net_buf_simple_push_be48 (val : Z) s : nbs :=
  let '(p, b) := net_buf_simple_push 6 s.1 in (b, sys_put_be48 val p s.2).
Definition net_buf_simple_push_le64 (val : Z) s : nbs :=
  let '(p, b) := net_buf_simple_push 8 s.1 in (b, sys_put_le64 val p s.2).
Definition net_buf_simple_push_be64 (val : Z) s : nbs :=
  let '(p, b) := net_buf_simple_push 8 s.1 in (b, sys_put_be64 val p s.2).

(** [UNALIGNED_GET] of an [n]-byte integer: a load in the CPU's byte order. *)
Definition load (n p : Z) m : Z := le_value (mem_bytes m p n).

Definition net_buf_simple_pull_u8 s : Z * nbs :=
  let val := s.2 (data s.1) in (val, ((net_buf_simple_pull 1 s.1).2, s.2)).
Definition net_buf_simple_pull_le16 s : Z * nbs :=
  let val := load 2 (data s.1) s.2 in (sys_le16_to_cpu val, ((net_buf_simple_pull 2 s.1).2, s.2)).
Definition net_buf_simple_pull_be16 s : Z * nbs :=
  let val := load 2 (data s.1) s.2 in (sys_be16_to_cpu val, ((net_buf_simple_pull 2 s.1).2, s.2)).
Definition net_buf_simple_pull_le24 s : Z * nbs :=
  let val := load 3 (data s.1) s.2 in (sys_le24_to_cpu val, ((net_buf_simple_pull 3 s.1).2, s.2)).
Definition net_buf_simple_pull_be24 s : Z * nbs :=
  let val := load 3 (data s.1) s.2 in (sys_be24_to_cpu val, ((net_buf_simple_pull 3 s.1).2, s.2)).
Definition net_buf_simple_pull_le32 s : Z * nbs :=
  let val := load 4 (data s.1) s.2 in (sys_le32_to_cpu val, ((net_buf_simple_pull 4 s.1).2, s.2)).
Definition net_buf_simple_pull_be32 s : Z * nbs :=
  let val := load 4 (data s.1) s.2 in (sys_be32_to_cpu val, ((net_buf_simple_pull 4 s.1).2, s.2)).
Definition net_buf_simple_pull_le48 s : Z * nbs :=
  let val := load 6 (data s.1) s.2 in (sys_le48_to_cpu val, ((net_buf_simple_pull 6 s.1).2, s.2)).
Definition net_buf_simple_pull_be48 s : Z * nbs :=
  let val := load 6 (data s.1) s.2 in (sys_be48_to_cpu val, ((net_buf_simple_pull 6 s.1).2, s.2)).
Definition net_buf_simple_pull_le64 s : Z * nbs :=
  let val := load 8 (data s.1) s.2 in (sys_le64_to_cpu val, ((net_buf_simple_pull 8 s.1).2, s.2)).
Definition net_buf_simple_pull_be64 s : Z * nbs :=
  let val := load 8 (data s.1) s.2 in (sys_be64_to_cpu val, ((net_buf_simple_pull 8 s.1).2, s.2)).
End definitions.

(** ** A buffer is a string of bytes with room before and behind it *)

Section abstraction.
Implicit Types (b : net_buf_simple) (s : nbs) (m : mem).

Definition contents s : list Z := mem_bytes s.2 (data s.1) (len s.1).

Record buf_ok b : Prop := {
  bo_size : 0 <= size b < 2 ^ 16;
  bo_head : __buf b <= data b;
  bo_len : 0 <= len b;
  bo_tail : data b + len b <= __buf b + size b }.

(** The bytes of a memory outside the storage of [b] are as in [m]. *)
Definition outside_kept b m m' : Prop := forall a, a < __buf b \/ __buf b + size b <= a -> m' a = m a.

Lemma tailroom_ok b : buf_ok b -> net_buf_simple_tailroom b = __buf b + size b - (data b + len b).
Proof.
  intros []. unfold net_buf_simple_tailroom, net_buf_simple_headroom. rewrite u32_small by lia. lia.
Qed.

(** Storing right behind the contents. *)
Lemma add_contents b m (n : Z) (bs : list Z) m' :
  buf_ok b -> n = Z.of_nat (length bs) -> n <= net_buf_simple_tailroom b ->
  m' ≡ mem_store (net_buf_simple_tail b) bs m ->
  let b' := (net_buf_simple_add n b).2 in
  buf_ok b' /\ contents (b', m') = contents (b, m) ++ bs /\ outside_kept b m m' /\
  data b' = data b /\ len b' = len b + n /\ size b' = size b /\ __buf b' = __buf b.
Proof.
  intros H -> Hn Hm b'. pose proof H as [H1 H2 H3 H4]. rewrite tailroom_ok in Hn by done.
  assert (Hl : len b' = len b + Z.of_nat (length bs)) by (cbn; unfold u16; apply Z.mod_small; lia).
  split; [|split; [|split; [|done]]].
  - split; try done; rewrite ?Hl; cbn; lia.
  - unfold contents. cbn [fst snd]. rewrite Hl. change (data b') with (data b).
    rewrite mem_bytes_app by lia. rewrite !(mem_bytes_equiv _ _ _ _ Hm). f_equal.
    + apply mem_bytes_ext. intros i Hi. apply mem_store_out. unfold net_buf_simple_tail. lia.
    + apply mem_bytes_store_same.
  - intros a Ha. rewrite Hm. apply mem_store_out. unfold net_buf_simple_tail. lia.
Qed.

(** Storing right before them. *)
Lemma push_contents b m (n : Z) (bs : list Z) m' :
  buf_ok b -> n = Z.of_nat (length bs) -> n <= net_buf_simple_headroom b ->
  m' ≡ mem_store (data b - n) bs m ->
  let b' := (net_buf_simple_push n b).2 in
  buf_ok b' /\ contents (b', m') = bs ++ contents (b, m) /\ outside_kept b m m' /\
  data b' = data b - n /\ len b' = len b + n /\ size b' = size b /\ __buf b' = __buf b.
Proof.
  intros H -> Hn Hm b'. pose proof H as [H1 H2 H3 H4]. unfold net_buf_simple_headroom in Hn.
  assert (Hl : len b' = len b + Z.of_nat (length bs)) by (cbn; unfold u16; apply Z.mod_small; lia).
  split; [|split; [|split; [|done]]].
  - split; try done; rewrite ?Hl; cbn; lia.
  - unfold contents. cbn [fst snd]. rewrite Hl. change (data b') with (data b - Z.of_nat (length bs)).
    rewrite (Z.add_comm (len b)), mem_bytes_app by lia. rewrite !(mem_bytes_equiv _ _ _ _ Hm). f_equal.
    + apply mem_bytes_store_same.
    + rewrite Z.sub_add. apply mem_bytes_ext. intros i Hi. apply mem_store_out. lia.
  - intros a Ha. rewrite Hm. apply mem_store_out. lia.
Qed.

(** Taking bytes off the front. *)
Lemma pull_contents b m (n : Z) :
  buf_ok b -> 0 <= n <= len b ->
  let b' := (net_buf_simple_pull n b).2 in
  buf_ok b' /\ contents (b, m) = mem_bytes m (data b) n ++ contents (b', m) /\
  data b' = data b + n /\ len b' = len b - n /\ size b' = size b /\ __buf b' = __buf b.
Proof.
  intros H Hn b'. pose proof H as [H1 H2 H3 H4].
  assert (Hl : len b' = len b - n) by (cbn; unfold u16; apply Z.mod_small; lia).
  split; [|split; [|done]].
  - split; try done; rewrite ?Hl; cbn; lia.
  - unfold contents. cbn [fst snd]. rewrite Hl. change (data b') with (data b + n).
    rewrite <- mem_bytes_app by lia. f_equal. lia.
Qed.
End abstraction.

(** ** Building and parsing packets *)

Inductive width := W8 | W16 | W24 | W32 | W48 | W64.
Inductive order := LE | BE.

(** Operations on a buffer; the memory appended by [Add_mem] lies elsewhere. *)
Inductive nb_op :=
| Add (w : width) (o : order) (v : Z)
| Push (w : width) (o : order) (v : Z)
| Pull (w : width) (o : order)
| Add_mem (src n : Z)
| Pull_mem (n : Z).

Definition exec_add (w : width) (o : order) (v : Z) (s : nbs) : nbs :=
  match w, o with
  | W8, _ => net_buf_simple_add_u8 v s
  | W16, LE => net_buf_simple_add_le16 v s | W16, BE => net_buf_simple_add_be16 v s
  | W24, LE => net_buf_simple_add_le24 v s | W24, BE => net_buf_simple_add_be24 v s
  | W32, LE => net_buf_simple_add_le32 v s | W32, BE => net_buf_simple_add_be32 v s
  | W48, LE => net_buf_simple_add_le48 v s | W48, BE => net_buf_simple_add_be48 v s
  | W64, LE => net_buf_simple_add_le64 v s | W64, BE => net_buf_simple_add_be64 v s
  end.
Definition exec_push (w : width) (o : order) (v : Z) (s : nbs) : nbs :=
  match w, o with
  | W8, _ => net_buf_simple_push_u8 v s
  | W16, LE => net_buf_simple_push_le16 v s | W16, BE => net_buf_simple_push_be16 v s
  | W24, LE => net_buf_simple_push_le24 v s | W24, BE => net_buf_simple_push_be24 v s
  | W32, LE => net_buf_simple_push_le32 v s | W32, BE => net_buf_simple_push_be32 v s
  | W48, LE => net_buf_simple_push_le48 v s | W48, BE => net_buf_simple_push_be48 v s
  | W64, LE => net_buf_simple_push_le64 v s | W64, BE => net_buf_simple_push_be64 v s
  end.
Definition exec_pull (w : width) (o : order) (s : nbs) : Z * nbs :=
  match w, o with
  | W8, _ => net_buf_simple_pull_u8 s
  | W16, LE => net_buf_simple_pull_le16 s | W16, BE => net_buf_simple_pull_be16 s
  | W24, LE => net_buf_simple_pull_le24 s | W24, BE => net_buf_simple_pull_be24 s
  | W32, LE => net_buf_simple_pull_le32 s | W32, BE => net_buf_simple_pull_be32 s
  | W48, LE => net_buf_simple_pull_le48 s | W48, BE => net_buf_simple_pull_be48 s
  | W64, LE => net_buf_simple_pull_le64 s | W64, BE => net_buf_simple_pull_be64 s
  end.

(** With what an operation returns: the number, or the bytes at the pointer. *)
Definition exec (op : nb_op) (s : nbs) : list Z * nbs :=
  match op with
  | Add w o v => ([], exec_add w o v s)
  | Push w o v => ([], exec_push w o v s)
  | Pull w o => let '(v, s) := exec_pull w o s in ([v], s)
  | Add_mem src n => ([], net_buf_simple_add_mem src n s)
  | Pull_mem n => let '(p, b) := net_buf_simple_pull_mem n s.1 in (mem_bytes s.2 p n, (b, s.2))
  end.
Fixpoint exec_all (ops : list nb_op) (s : nbs) : list (list Z) * nbs :=
  match ops with
  | [] => ([], s)
  | op :: ops => let '(r, s) := exec op s in let '(rs, s) := exec_all ops s in (r :: rs, s)
  end.

(** The abstract buffer: headroom, bytes, tailroom. *)
Record byte_string := mk_bs { head_room : Z; bytes : list Z; tail_room : Z }.
Definition wbytes (w : width) : nat :=
  match w with W8 => 1 | W16 => 2 | W24 => 3 | W32 => 4 | W48 => 6 | W64 => 8 end.
Definition encode (w : width) (o : order) (v : Z) : list Z :=
  match o with LE => le_bytes (wbytes w) v | BE => be_bytes (wbytes w) v end.
Definition decode (o : order) (bs : list Z) : Z := match o with LE => le_value bs | BE => be_value bs end.

(** [None]: the assertion of the source fails. *)
Definition spec (ext : mem) (op : nb_op) (a : byte_string) : option (list Z * byte_string) :=
  let append bs :=
    let n := Z.of_nat (length bs) in
    if n <=? tail_room a then Some ([], mk_bs (head_room a) (bytes a ++ bs) (tail_room a - n)) else None in
  let take_off n (result : list Z -> list Z) :=
    if (0 <=? n) && (n <=? Z.of_nat (length (bytes a)))
    then Some (result (take (Z.to_nat n) (bytes a)), mk_bs (head_room a + n) (drop (Z.to_nat n) (bytes a)) (tail_room a))
    else None in
  match op with
  | Add w o v => append (encode w o v)
  | Push w o v =>
      let n := Z.of_nat (wbytes w) in
      if n <=? head_room a then Some ([], mk_bs (head_room a - n) (encode w o v ++ bytes a) (tail_room a)) else None
  | Pull w o => take_off (Z.of_nat (wbytes w)) (fun bs => [decode o bs])
  | Add_mem src n => if 0 <=? n then append (mem_bytes ext src n) else None
  | Pull_mem n => take_off n (fun bs => bs)
  end.
Fixpoint spec_all (ext : mem) (ops : list nb_op) (a : byte_string) : option (list (list Z) * byte_string) :=
  match ops with
  | [] => Some ([], a)
  | op :: ops =>
      match spec ext op a with
      | None => None
      | Some (r, a) => match spec_all ext ops a with None => None | Some (rs, a) => Some (r :: rs, a) end
      end
  end.

Definition abs (s : nbs) : byte_string :=
  mk_bs (net_buf_simple_headroom s.1) (contents s) (net_buf_simple_tailroom s.1).
Definition op_ok (ext : mem) (b : net_buf_simple) (op : nb_op) : Prop :=
  match op with
  | Add_mem src n => disjoint_regions (__buf b) (size b) src n /\ bytes_ok (mem_bytes ext src n)
  | _ => True
  end.

Section refinement.
Implicit Types (s : nbs) (ext : mem).

(** A buffer whose bytes are bytes, in memory that is [ext] elsewhere. *)
Record nbs_ok ext b0 s : Prop := {
  nk_buf : buf_ok s.1;
  nk_bytes : bytes_ok (contents s);
  nk_ext : outside_kept b0 ext s.2;
  nk_place : __buf s.1 = __buf b0 /\ size s.1 = size b0 }.

Lemma encode_length w o v : length (encode w o v) = wbytes w.
Proof. destruct o; [apply le_bytes_length|apply be_bytes_length]. Qed.

Lemma encode_ok w o v : bytes_ok (encode w o v).
Proof. destruct o; [apply le_bytes_ok|apply Forall_rev, le_bytes_ok]. Qed.

Lemma exec_add_spec w o v s :
  exists m', exec_add w o v s = ((net_buf_simple_add (Z.of_nat (wbytes w)) s.1).2, m') /\
    m' ≡ mem_store (net_buf_simple_tail s.1) (encode w o v) s.2.
Proof. destruct w, o; eexists; (split; [reflexivity|]); cbn [fst net_buf_simple_add encode wbytes]; auto with byte_order. Qed.

Lemma exec_push_spec w o v s :
  exists m', exec_push w o v s = ((net_buf_simple_push (Z.of_nat (wbytes w)) s.1).2, m') /\
    m' ≡ mem_store (data s.1 - Z.of_nat (wbytes w)) (encode w o v) s.2.
Proof.
  destruct w, o; eexists; (split; [reflexivity|]); cbn [fst net_buf_simple_push encode wbytes]; auto with byte_order.
Qed.

Lemma decode_one o m p : decode o (mem_bytes m p 1) = m p.
Proof. rewrite mem_bytes_one. destruct o; unfold decode, be_value; cbn [rev app le_value]; lia. Qed.

Lemma exec_pull_spec w o s :
  bytes_ok (mem_bytes s.2 (data s.1) (Z.of_nat (wbytes w))) ->
  exec_pull w o s = (decode o (mem_bytes s.2 (data s.1) (Z.of_nat (wbytes w))),
                     ((net_buf_simple_pull (Z.of_nat (wbytes w)) s.1).2, s.2)).
Proof.
  intros H. pose proof (bswap_value _ H) as B. rewrite length_mem_bytes, Nat2Z.id in B.
  destruct w, o; cbn [wbytes] in B; unfold exec_pull;
    first [reflexivity|exact (f_equal (fun v => (v, _)) B)|
           change (Z.of_nat (wbytes W8)) with 1; by rewrite decode_one].
Qed.

Lemma take_contents n s :
  0 <= n <= len s.1 -> take (Z.to_nat n) (contents s) = mem_bytes s.2 (data s.1) n.
Proof.
  intros Hn. unfold contents. replace (len s.1) with (n + (len s.1 - n)) by lia.
  rewrite mem_bytes_app by lia. rewrite take_app_length'; [done|]. by rewrite length_mem_bytes.
Qed.

Lemma pull_step ext b0 n s :
  nbs_ok ext b0 s -> 0 <= n <= Z.of_nat (length (contents s)) ->
  let s' := ((net_buf_simple_pull n s.1).2, s.2) in
  nbs_ok ext b0 s' /\ mem_bytes s.2 (data s.1) n = take (Z.to_nat n) (contents s) /\
  bytes_ok (mem_bytes s.2 (data s.1) n) /\
  abs s' = mk_bs (head_room (abs s) + n) (drop (Z.to_nat n) (bytes (abs s))) (tail_room (abs s)).
Proof.
  intros [H1 H2 H3 H4] Hn s'. subst s'. unfold contents in Hn at 1. rewrite length_mem_bytes, Z2Nat.id in Hn by apply H1.
  destruct s as [b m]. cbn [fst snd] in *. destruct (pull_contents b m n H1 Hn) as (P1&P2&P3&P4&P5&P6).
  pose proof (take_contents n (b, m) Hn) as T. cbn [fst snd] in T. rewrite P2 in H2. apply Forall_app in H2 as [H2a H2b].
  split; [|split; [done|split; [done|]]].
  - by split.
  - unfold abs. cbn [head_room bytes tail_room]. f_equal.
    + unfold net_buf_simple_headroom. cbn. lia.
    + rewrite P2. symmetry. apply drop_app_length'. by rewrite length_mem_bytes.
    + rewrite !tailroom_ok by done. cbn [fst]. rewrite P3, P4, P5, P6. lia.
Qed.

Lemma append_step ext b0 n bs s m' :
  nbs_ok ext b0 s -> n = Z.of_nat (length bs) -> bytes_ok bs -> n <= tail_room (abs s) ->
  m' ≡ mem_store (net_buf_simple_tail s.1) bs s.2 ->
  let s' := ((net_buf_simple_add n s.1).2, m') in
  nbs_ok ext b0 s' /\
  abs s' = mk_bs (head_room (abs s)) (bytes (abs s) ++ bs) (tail_room (abs s) - n).
Proof.
  intros [H1 H2 H3 H4] Hn Hb Hr Hm s'. subst s'. destruct s as [b m]. cbn [fst snd] in *.
  destruct (add_contents b m n bs m' H1 Hn Hr Hm) as (A1&A2&A3&A4&A5&A6&A7).
  destruct H4 as [H4a H4b]. split.
  - split; [done|rewrite A2; by apply Forall_app_2| |by split].
    intros a Ha. cbn [snd]. rewrite A3 by (rewrite H4a, H4b; done). by apply H3.
  - unfold abs. cbn [head_room bytes tail_room]. f_equal; [done|].
    + rewrite !tailroom_ok by done. cbn [fst]. rewrite A4, A5, A6, A7. lia.
Qed.

Lemma prepend_step ext b0 n bs s m' :
  nbs_ok ext b0 s -> n = Z.of_nat (length bs) -> bytes_ok bs -> n <= head_room (abs s) ->
  m' ≡ mem_store (data s.1 - n) bs s.2 ->
  let s' := ((net_buf_simple_push n s.1).2, m') in
  nbs_ok ext b0 s' /\
  abs s' = mk_bs (head_room (abs s) - n) (bs ++ bytes (abs s)) (tail_room (abs s)).
Proof.
  intros [H1 H2 H3 H4] Hn Hb Hr Hm s'. subst s'. destruct s as [b m]. cbn [fst snd] in *.
  destruct (push_contents b m n bs m' H1 Hn Hr Hm) as (A1&A2&A3&A4&A5&A6&A7).
  destruct H4 as [H4a H4b]. split.
  - split; [done|rewrite A2; by apply Forall_app_2| |by split].
    intros a Ha. cbn [snd]. rewrite A3 by (rewrite H4a, H4b; done). by apply H3.
  - unfold abs. cbn [head_room bytes tail_room]. f_equal; [|done|].
    + unfold net_buf_simple_headroom. cbn. lia.
    + rewrite !tailroom_ok by done. cbn [fst]. rewrite A4, A5, A6, A7. lia.
Qed.

(** [memcpy] from elsewhere is a store of the bytes there. *)
Lemma memcpy_store dst src n m bs :
  bs = mem_bytes m src n -> 0 <= n -> memcpy dst src n m ≡ mem_store dst bs m.
Proof.
  intros -> Hn a. unfold memcpy.
  destruct (Z.leb_spec dst a), (Z.ltb_spec a (dst + n)); cbn [andb];
    try (rewrite mem_store_out by (rewrite length_mem_bytes; lia); done).
  apply (inj Some). rewrite <- mem_store_in by (rewrite length_mem_bytes; lia).
  rewrite mem_bytes_lookup by lia. do 2 f_equal. lia.
Qed.

Lemma exec_refines ext b0 op s r a :
  nbs_ok ext b0 s -> op_ok ext b0 op -> spec ext op (abs s) = Some (r, a) ->
  let '(r', s') := exec op s in r' = r /\ abs s' = a /\ nbs_ok ext b0 s'.
Proof.
  intros Hs Hop Hspec. destruct op as [w o v|w o v|w o|src n|n]; cbn [spec exec] in *.
  - rewrite encode_length in Hspec. destruct (Z.leb_spec (Z.of_nat (wbytes w)) (tail_room (abs s))); [|done].
    injection Hspec as <- <-. destruct (exec_add_spec w o v s) as (m'&->&Hm).
    destruct (append_step ext b0 (Z.of_nat (wbytes w)) (encode w o v) s m') as [? ?];
      [done|by rewrite encode_length|apply encode_ok|done|done|done].
  - destruct (Z.leb_spec (Z.of_nat (wbytes w)) (head_room (abs s))); [|done].
    injection Hspec as <- <-. destruct (exec_push_spec w o v s) as (m'&->&Hm).
    destruct (prepend_step ext b0 (Z.of_nat (wbytes w)) (encode w o v) s m') as [? ?];
      [done|by rewrite encode_length|apply encode_ok|done|done|done].
  - destruct (Z.leb_spec 0 (Z.of_nat (wbytes w))); [|done].
    destruct (Z.leb_spec (Z.of_nat (wbytes w)) (Z.of_nat (length (bytes (abs s))))); [|done].
    injection Hspec as <- <-. destruct (pull_step ext b0 (Z.of_nat (wbytes w)) s Hs) as (P1&P2&P3&P4); [done|].
    rewrite exec_pull_spec by done. rewrite P2. done.
  - destruct (Z.leb_spec 0 n) as [Hn|]; [|done]. rewrite length_mem_bytes, Z2Nat.id in Hspec by done.
    destruct (Z.leb_spec n (tail_room (abs s))); [|done]. injection Hspec as <- <-. destruct Hop as [D Hb].
    assert (E : mem_bytes ext src n = mem_bytes s.2 src n).
    { apply mem_bytes_ext. intros i Hi. symmetry. apply (nk_ext _ _ _ Hs). unfold disjoint_regions in D. lia. }
    destruct (append_step ext b0 n (mem_bytes ext src n) s (memcpy (net_buf_simple_tail s.1) src n s.2)) as [? ?];
      [done|by rewrite length_mem_bytes, Z2Nat.id|done|done|by apply memcpy_store|done].
  - destruct (Z.leb_spec 0 n) as [Hn|]; [|done].
    destruct (Z.leb_spec n (Z.of_nat (length (bytes (abs s))))); [|done].
    injection Hspec as <- <-. destruct (pull_step ext b0 n s Hs) as (P1&P2&P3&P4); done.
Qed.
End refinement.

(** ** Properties *)

(** Network buffers are byte strings: any sequence of adding, pushing and pulling
    integers of all widths and byte orders and of memory blocks, for which the
    abstract buffer has room, returns what it returns and leaves the bytes it has;
    memory outside the buffer is not touched. *)
Theorem net_buf_refines_bytes (b : net_buf_simple) (m : mem) (ops : list nb_op)
    (results : list (list Z)) (a : byte_string)
    (Hb : buf_ok b) (Hbytes : bytes_ok (contents (b, m))) (Hops : Forall (op_ok m b) ops)
    (Hspec : spec_all m ops (abs (b, m)) = Some (results, a)) :
  let '(rs, s') := exec_all ops (b, m) in
  rs = results /\ abs s' = a /\ buf_ok s'.1 /\ outside_kept b m s'.2.
Proof.
  assert (Hs : nbs_ok m b (b, m)) by (by split).
  revert results Hspec Hs. generalize (b, m) as s. clear Hbytes.
  induction Hops as [|op ops Hop Hops IH]; intros s results Hspec Hs; cbn [exec_all spec_all] in *.
  - injection Hspec as <- <-. destruct Hs. done.
  - destruct (spec m op (abs s)) as [[r a1]|] eqn:E; [|done].
    pose proof (exec_refines m b op s r a1 Hs Hop E) as R. destruct (exec op s) as [r' s1].
    destruct R as (->&<-&Hs1). destruct (spec_all m ops (abs s1)) as [[rs a2]|] eqn:E2; [|done].
    injection Hspec as <- <-. specialize (IH s1 rs E2 Hs1). destruct (exec_all ops s1) as [rs' s2].
    destruct IH as (->&I2&I3&I4). done.
Qed.

(** Writing an ATT notification (opcode, handle, value) behind two bytes of headroom,
    the length in front of it, and parsing it. *)
Definition example_buf : net_buf_simple := mk_nbs 1002 0 32 1000.
Definition example_packet : list nb_op :=
  [Add W8 LE 0x1B; Add W16 LE 0x0123; Add_mem 5000 3; Push W16 BE 6; Pull W16 BE; Pull W8 LE; Pull W16 LE; Pull_mem 3].

Lemma net_buf_refines_bytes_witness :
  let '(rs, s') := exec_all example_packet (example_buf, fun _ => 7) in
  rs = [[]; []; []; []; [6]; [0x1B]; [0x0123]; [7; 7; 7]] /\ abs s' = mk_bs 8 [] 24 /\ buf_ok s'.1 /\
  outside_kept example_buf (fun _ => 7) s'.2.
Proof.
  apply (net_buf_refines_bytes example_buf (fun _ => 7) example_packet).
  - split; cbn; lia.
  - constructor.
  - repeat constructor; cbn; lia.
  - vm_compute. reflexivity.
Defined.
