(* ===== verification/NetFrag.v ===== *)
(** Fragmented network buffers ([subsys/net/buf.c]): buffers chained through their
    [frags] pointers, with reference counts. *)
From Stdlib Require Import ZArith Lia Bool.
From stdpp Require Import base numbers list sets.
From S2P Require Import Prelude ByteOrder NetBuf.
Open Scope Z_scope.

(** The buffers by address, 0 being [NULL]; [freed] are those handed back to their
    pools, in order. *)
Record bufs := mk_bufs { simple : Z -> net_buf_simple; frags : Z -> Z; ref : Z -> Z; freed : list Z; ram : mem }.

Section definitions.
Implicit Types (h : bufs) (buf frag parent head : Z).

Definition set_frags buf p h := mk_bufs (simple h) (fun x => if x =? buf then p else frags h x) (ref h) (freed h) (ram h).
Definition set_ref buf n h := mk_bufs (simple h) (frags h) (fun x => if x =? buf then n else ref h x) (freed h) (ram h).
Definition set_simple buf b h := mk_bufs (fun x => if x =? buf then b else simple h x) (frags h) (ref h) (freed h) (ram h).
Definition set_ram m h := mk_bufs (simple h) (frags h) (ref h) (freed h) m.
Definition give_back buf h := mk_bufs (simple h) (frags h) (ref h) (freed h ++ [buf]) (ram h).

Definition net_buf_ref buf h : Z * bufs := (buf, set_ref buf (u8 (ref h buf + 1)) h).

(** One reference dropped per buffer until one stays in use; the data and the
    buffer go back to the pool ([data_unref], [net_buf_destroy]). [None]: out of
    fuel. *)
Fixpoint net_buf_unref (fuel : nat) buf h : option bufs :=
  if buf =? 0 then Some h
  else match fuel with
       | O => None
       | S fuel =>
           let next := frags h buf in
           let h := set_ref buf (u8 (ref h buf - 1)) h in
           if 0 <? ref h buf then Some h
           else
             let b := simple h buf in
             let h := set_simple buf (mk_nbs 0 (len b) (size b) 0) h in
             let h := set_frags buf 0 h in
             net_buf_unref fuel next (give_back buf h)
       end.

Fixpoint net_buf_frag_last (fuel : nat) buf h : option Z :=
  if frags h buf =? 0 then Some buf
  else match fuel with O => None | S fuel => net_buf_frag_last fuel (frags h buf) h end.

Definition net_buf_frag_insert (fuel : nat) parent frag h : option bufs :=
  if negb (frags h parent =? 0)
  then match net_buf_frag_last fuel frag h with
       | None => None
       | Some last => Some (set_frags parent frag (set_frags last (frags h parent) h))
       end
  else Some (set_frags parent frag h).

Definition net_buf_frag_add (fuel : nat) head frag h : option (Z * bufs) :=
  if head =? 0 then Some (net_buf_ref frag h)
  else match net_buf_frag_last fuel head h with
       | None => None
       | Some last => match net_buf_frag_insert fuel last frag h with None => None | Some h => Some (head, h) end
       end.

Definition net_buf_frag_del (fuel : nat) parent frag h : option (Z * bufs) :=
  let h := if negb (parent =? 0) then set_frags parent (frags h frag) h else h in
  let next_frag := frags h frag in
  match net_buf_unref fuel frag (set_frags frag 0 h) with None => None | Some h => Some (next_frag, h) end.

Fixpoint net_buf_frags_len (fuel : nat) buf h (bytes : Z) : option Z :=
  if buf =? 0 then Some bytes
  else match fuel with
       | O => None
       | S fuel => net_buf_frags_len fuel (frags h buf) h (u32 (bytes + len (simple h buf)))
       end.

(** [net_buf_linearize]: the two loops. *)
Fixpoint find_offset (fuel : nat) frag (off : Z) h : option (Z * Z) :=
  if negb (frag =? 0) && (len (simple h frag) <=? off)
  then match fuel with
       | O => None
       | S fuel => find_offset fuel (frags h frag) (off - len (simple h frag)) h
       end
  else Some (frag, off).
Fixpoint copy_frags (fuel : nat) dst copied frag (off n : Z) h : option (Z * bufs) :=
  if negb (frag =? 0) && (0 <? n)
  then match fuel with
       | O => None
       | S fuel =>
           let to_copy := Z.min n (len (simple h frag) - off) in
           let h := set_ram (memcpy (dst + copied) (data (simple h frag) + off) to_copy (ram h)) h in
           copy_frags fuel dst (copied + to_copy) (frags h frag) 0 (n - to_copy) h
       end
  else Some (copied, h).
Definition net_buf_linearize (fuel : nat) (dst dst_len src off n : Z) h : option (Z * bufs) :=
  let n := Z.min n dst_len in
  match find_offset fuel src off h with
  | None => None
  | Some (frag, off) => copy_frags fuel dst 0 frag off n h
  end.
End definitions.

(** ** Chains *)

Section chains.
Implicit Types (h : bufs) (buf frag : Z) (l : list Z).

Fixpoint chain l buf h : Prop :=
  match l with
  | [] => buf = 0
  | x :: l => buf = x /\ x <> 0 /\ chain l (frags h x) h
  end.

(** The bytes a chain of buffers holds. *)
Definition chain_bytes l h : list Z := concat ((fun x => contents (simple h x, ram h)) <$> l).

Definition all_ok l h : Prop := Forall (fun x => buf_ok (simple h x)) l.

(** A region apart from the storage of every buffer of the chain. *)
Definition apart (p n : Z) l h : Prop :=
  Forall (fun x => disjoint_regions (__buf (simple h x)) (size (simple h x)) p n) l.

Lemma chain_ext l buf h h' : chain l buf h -> (forall x, x ∈ l -> frags h' x = frags h x) -> chain l buf h'.
Proof.
  revert buf. induction l as [|x l IH]; intros buf; [done|]. intros (->&Hx&Hc) He.
  split; [done|]. split; [done|]. rewrite He by (by left). apply IH; [done|]. intros y Hy. apply He. by right.
Qed.

(** Two writes next to each other. *)
Lemma contents_set_ram x m h :
  (forall a, data (simple h x) <= a < data (simple h x) + len (simple h x) -> m a = ram h a) ->
  contents (simple h x, m) = contents (simple h x, ram h).
Proof. intros H. apply mem_bytes_ext. intros i Hi. apply H. cbn in *. lia. Qed.

Lemma find_offset_spec l fuel buf off h :
  chain l buf h -> all_ok l h -> 0 <= off -> (length l <= fuel)%nat ->
  exists l1 l2 frag off', find_offset fuel buf off h = Some (frag, off') /\
    l = l1 ++ l2 /\ chain l2 frag h /\ 0 <= off' /\
    off = Z.of_nat (length (chain_bytes l1 h)) + off' /\
    match l2 with [] => True | x :: _ => off' < len (simple h x) end.
Proof.
  revert fuel buf off. induction l as [|x l IH]; intros fuel buf off Hc Ho Hoff Hf; cbn in Hc.
  - subst buf. exists [], [], 0, off. by destruct fuel.
  - destruct Hc as (->&Hx&Hc). apply Forall_cons in Ho as [Hox Ho].
    destruct (Z.leb_spec (len (simple h x)) off) as [Hl|Hl].
    + destruct fuel as [|fuel]; [cbn in Hf; lia|]. cbn [find_offset].
      rewrite (proj2 (Z.eqb_neq x 0) Hx), (proj2 (Z.leb_le _ _) Hl). cbn [negb andb].
      destruct (IH fuel (frags h x) (off - len (simple h x))) as (l1&l2&frag&off'&E&->&H1&H2&H3&H4);
        [done|done|lia|cbn in Hf; lia|].
      exists (x :: l1), l2, frag, off'. split; [done|]. split; [done|]. split; [done|]. split; [done|]. split; [|done].
      unfold chain_bytes in *. cbn [fmap list_fmap concat]. rewrite length_app. unfold contents at 1.
      rewrite length_mem_bytes. cbn [fst snd]. destruct Hox. lia.
    + exists [], (x :: l), x, off. split; [|done].
      destruct fuel; cbn [find_offset]; rewrite (proj2 (Z.leb_gt _ _) Hl), andb_false_r; done.
Qed.

Lemma chain_bytes_cons x l h : chain_bytes (x :: l) h = contents (simple h x, ram h) ++ chain_bytes l h.
Proof. done. Qed.

Lemma contents_length b m : buf_ok b -> Z.of_nat (length (contents (b, m))) = len b.
Proof. intros []. unfold contents. rewrite length_mem_bytes. cbn. lia. Qed.

(** Writing outside the buffers of a chain keeps what it holds. *)
Lemma chain_bytes_memcpy l p src n k h :
  all_ok l h -> apart p n l h -> 0 <= k <= n ->
  chain_bytes l (set_ram (memcpy p src k (ram h)) h) = chain_bytes l h.
Proof.
  intros Ho Ha Hk. unfold chain_bytes. f_equal. apply list_fmap_ext. intros i x Hx%list_elem_of_lookup_2.
  unfold all_ok, apart in *. rewrite Forall_forall in Ho, Ha. specialize (Ho x Hx). specialize (Ha x Hx).
  destruct Ho. apply (contents_set_ram x (memcpy p src k (ram h)) h). intros a Hr. unfold memcpy, disjoint_regions in *. bdestruct.
Qed.

(** A slice of a region. *)
Lemma mem_bytes_slice m p L i j :
  0 <= j <= L -> 0 <= i ->
  take (Z.to_nat i) (drop (Z.to_nat j) (mem_bytes m p L)) = mem_bytes m (p + j) (Z.min i (L - j)).
Proof.
  intros Hj Hi. replace L with (j + (L - j)) at 1 by lia. rewrite mem_bytes_app by lia.
  rewrite drop_app_length' by (by rewrite length_mem_bytes).
  destruct (Z.leb_spec i (L - j)).
  - replace (L - j) with (i + (L - j - i)) at 1 by lia. rewrite mem_bytes_app by lia.
    rewrite take_app_length' by (by rewrite length_mem_bytes). f_equal. lia.
  - rewrite take_ge by (rewrite length_mem_bytes; lia). f_equal. lia.
Qed.

Lemma copy_frags_spec l fuel dst copied frag off n h :
  chain l frag h -> all_ok l h -> apart (dst + copied) (Z.max 0 n) l h -> 0 <= copied ->
  match l with [] => True | x :: _ => 0 <= off <= len (simple h x) end -> (length l <= fuel)%nat ->
  exists m', let out := take (Z.to_nat n) (drop (Z.to_nat off) (chain_bytes l h)) in
    copy_frags fuel dst copied frag off n h = Some (copied + Z.of_nat (length out), set_ram m' h) /\
    mem_bytes m' (dst + copied) (Z.of_nat (length out)) = out /\
    (forall a, a < dst + copied \/ dst + copied + Z.of_nat (length out) <= a -> m' a = ram h a).
Proof.
  revert fuel copied frag off n h. induction l as [|x l IH]; intros fuel copied frag off n h Hc Ho Ha Hcp Hoff Hf; cbn in Hc.
  - subst frag. exists (ram h). cbn zeta. unfold chain_bytes. cbn [fmap list_fmap concat].
    rewrite drop_nil, take_nil. destruct fuel, h; cbn; rewrite Z.add_0_r; done.
  - destruct Hc as (->&Hx&Hc). destruct (Z.ltb_spec 0 n) as [Hn|Hn].
    2: { exists (ram h). replace (Z.to_nat n) with 0%nat by lia. rewrite take_0. cbn zeta.
         destruct fuel; cbn [copy_frags]; rewrite (proj2 (Z.ltb_ge 0 n) Hn), andb_false_r;
           destruct h; cbn; rewrite Z.add_0_r; done. }
    destruct fuel as [|fuel]; [cbn in Hf; lia|]. cbn [copy_frags].
    rewrite (proj2 (Z.eqb_neq x 0) Hx), (proj2 (Z.ltb_lt 0 n) Hn). cbn [negb andb].
    apply Forall_cons in Ho as [Hox Ho]. apply Forall_cons in Ha as [Hax Ha].
    set (k := Z.min n (len (simple h x) - off)).
    set (h1 := set_ram (memcpy (dst + copied) (data (simple h x) + off) k (ram h)) h).
    assert (Hk : 0 <= k <= Z.max 0 n) by lia.
    assert (Hl1 : chain_bytes l h1 = chain_bytes l h) by (by apply (chain_bytes_memcpy _ _ _ (Z.max 0 n))).
    destruct (IH fuel (copied + k) (frags h x) 0 (n - k) h1) as (m'&E&Em&Eo).
    + by apply (chain_ext _ _ h).
    + done.
    + eapply Forall_impl; [exact Ha|]. intros y Hy. unfold disjoint_regions in *. cbn. lia.
    + lia.
    + destruct l as [|y l]; [done|]. apply Forall_cons in Ho as [[] _]. done.
    + cbn in Hf. lia.
    + rewrite Hl1, drop_0 in *. change (frags h1 x) with (frags h x). rewrite E.
      rewrite chain_bytes_cons, drop_app_le, take_app
        by (apply Nat2Z.inj_le; rewrite contents_length by done; lia).
      rewrite length_drop. pose proof (contents_length (simple h x) (ram h) Hox) as Hcl.
      set (c := contents (simple h x, ram h)) in *.
      assert (Hsplit : take (Z.to_nat n) (drop (Z.to_nat off) c) = mem_bytes (ram h) (data (simple h x) + off) k)
        by (apply mem_bytes_slice; cbn; lia).
      rewrite Hsplit. replace (Z.to_nat n - (length c - Z.to_nat off))%nat with (Z.to_nat (n - k)) by lia.
      set (out := take (Z.to_nat (n - k)) (chain_bytes l h)) in *.
      exists m'. cbn zeta. rewrite length_app, length_mem_bytes, Nat2Z.inj_add, Z2Nat.id by lia.
      split; [f_equal; f_equal; lia|]. rewrite !Z.add_assoc in *. split.
      * rewrite mem_bytes_app by lia. rewrite Em. f_equal.
        rewrite <- (mem_bytes_memcpy_same (dst + copied) (data (simple h x) + off) k (ram h)).
        apply mem_bytes_ext. intros i Hi. apply Eo. lia.
      * intros a Har. rewrite Eo by lia. cbn. unfold memcpy. bdestruct.
Qed.
End chains.

(** ** Linking and unlinking *)

Section linking.
Implicit Types (h : bufs) (buf frag parent : Z) (l : list Z).

(** A well-formed chain visits no buffer twice. *)
Definition frag_list l buf h : Prop := chain l buf h /\ NoDup l.

(** The pointer chain up to a buffer, and from it on. *)
Fixpoint path l buf (p : Z) h : Prop :=
  match l with
  | [] => buf = p
  | x :: l => buf = x /\ x <> 0 /\ path l (frags h x) p h
  end.

Lemma chain_path l1 l2 buf h : chain (l1 ++ l2) buf h <-> exists p, path l1 buf p h /\ chain l2 p h.
Proof.
  revert buf. induction l1 as [|x l1 IH]; intros buf; cbn.
  - split; [by exists buf|by intros (p&->&?)].
  - rewrite IH. naive_solver.
Qed.

Lemma path_ext l buf p h h' : path l buf p h -> (forall x, x ∈ l -> frags h' x = frags h x) -> path l buf p h'.
Proof.
  revert buf. induction l as [|x l IH]; intros buf; [done|]. intros (->&Hx&Hc) He.
  split; [done|]. split; [done|]. rewrite He by (by left). apply IH; [done|]. intros y Hy. apply He. by right.
Qed.

Lemma frag_last_spec fuel l x buf h :
  chain (l ++ [x]) buf h -> (length l <= fuel)%nat -> net_buf_frag_last fuel buf h = Some x.
Proof.
  revert fuel buf. induction l as [|y l IH]; intros fuel buf Hc Hf; cbn in Hc.
  - destruct Hc as (->&_&E). by destruct fuel; cbn [net_buf_frag_last]; rewrite E.
  - destruct Hc as (->&Hy&Hc). assert (Hn : frags h y <> 0) by (destruct l; cbn in Hc; naive_solver).
    destruct fuel as [|fuel]; [cbn in Hf; lia|]. cbn [net_buf_frag_last].
    rewrite (proj2 (Z.eqb_neq _ _) Hn). apply IH; [done|cbn in Hf; lia].
Qed.

Lemma frags_set x p y h : frags (set_frags x p h) y = if y =? x then p else frags h y.
Proof. done. Qed.

Lemma nodup_splice l1 (x : Z) l2 lf :
  NoDup (l1 ++ x :: l2) -> NoDup lf -> (forall y, y ∈ lf -> y ∉ l1 ++ x :: l2) -> NoDup (l1 ++ x :: lf ++ l2).
Proof.
  intros Hn Hf Hd. assert (P : l1 ++ x :: lf ++ l2 ≡ₚ lf ++ (l1 ++ x :: l2)) by solve_Permutation.
  rewrite P. apply NoDup_app. done.
Qed.

(** Relinking: [parent] points to [frag], the last buffer [z] of that chain to what
    was behind [parent]. *)
Lemma splice_chain l1 parent l2 lf z buf frag h h' :
  path l1 buf parent h -> parent <> 0 -> chain l2 (frags h parent) h -> path lf frag z h -> z <> 0 ->
  NoDup (l1 ++ parent :: (lf ++ [z]) ++ l2) ->
  frags h' parent = frag -> frags h' z = frags h parent ->
  (forall x, x <> parent -> x <> z -> frags h' x = frags h x) ->
  chain (l1 ++ parent :: (lf ++ [z]) ++ l2) buf h'.
Proof.
  intros Hp Hpn Hc Hpf Hz Hnd E1 E2 E3.
  assert (Hne : forall x, x ∈ l1 \/ x ∈ lf \/ x ∈ l2 -> x <> parent /\ x <> z).
  { apply NoDup_app in Hnd as (_&N2&N3). apply NoDup_cons in N3 as [N3 N4].
    rewrite <- app_assoc in N4, N3. apply NoDup_app in N4 as (_&N5&N6). cbn in N6. apply NoDup_cons in N6 as [N6 _].
    intros x Hx. split; intros ->; set_solver. }
  apply chain_path. exists parent. split; [eapply path_ext; [exact Hp|]; intros x Hx; apply E3; apply Hne; auto|].
  cbn. split; [done|]. split; [done|]. rewrite E1, <- app_assoc. apply chain_path. exists z.
  split; [eapply path_ext; [exact Hpf|]; intros x Hx; apply E3; apply Hne; auto|].
  cbn. split; [done|]. split; [done|]. rewrite E2. eapply chain_ext; [exact Hc|].
  intros x Hx. apply E3; apply Hne; auto.
Qed.

(** Inserting a chain behind a buffer of another one. *)
Lemma frag_insert_spec fuel l1 parent l2 lf z buf frag h :
  frag_list (l1 ++ parent :: l2) buf h -> frag_list (lf ++ [z]) frag h ->
  (forall x, x ∈ lf ++ [z] -> x ∉ l1 ++ parent :: l2) -> (length lf <= fuel)%nat ->
  exists h', net_buf_frag_insert fuel parent frag h = Some h' /\
    frag_list (l1 ++ parent :: (lf ++ [z]) ++ l2) buf h' /\
    simple h' = simple h /\ ref h' = ref h /\ freed h' = freed h /\ ram h' = ram h.
Proof.
  intros [Hc Hn] [Hcf Hnf] Hd Hf. unfold net_buf_frag_insert.
  apply chain_path in Hc as (p&Hp&Hc). cbn in Hc. destruct Hc as (->&Hpn&Hc2).
  pose proof (frag_last_spec fuel lf z frag h Hcf Hf) as El.
  apply chain_path in Hcf as (p&Hpf&Hcz). cbn in Hcz. destruct Hcz as (->&Hz&Ez).
  assert (Hzp : z <> parent) by (intros ->; apply (Hd parent); set_solver).
  pose proof (nodup_splice l1 parent l2 (lf ++ [z]) Hn Hnf Hd) as Hnd.
  destruct (Z.eqb_spec (frags h parent) 0) as [E0|E0]; cbn [negb].
  - eexists. split; [reflexivity|]. split; [|done]. split; [|done].
    apply (splice_chain l1 parent l2 lf z buf frag h); try done.
    + by rewrite frags_set, Z.eqb_refl.
    + rewrite frags_set. destruct (Z.eqb_spec z parent); [done|]. by rewrite Ez, E0.
    + intros x Hx _. rewrite frags_set. by destruct (Z.eqb_spec x parent).
  - rewrite El. eexists. split; [reflexivity|]. split; [|done]. split; [|done].
    apply (splice_chain l1 parent l2 lf z buf frag h); try done.
    + by rewrite frags_set, Z.eqb_refl.
    + rewrite !frags_set, Z.eqb_refl. by destruct (Z.eqb_spec z parent).
    + intros x Hx Hxz. rewrite !frags_set. destruct (Z.eqb_spec x parent); [done|]. by destruct (Z.eqb_spec x z).
Qed.

(** Dropping a reference to a chain of buffers nobody else refers to frees it all. *)
Lemma unref_frees fuel l buf h :
  frag_list l buf h -> Forall (fun x => ref h x = 1) l -> (length l <= fuel)%nat ->
  exists h', net_buf_unref fuel buf h = Some h' /\ freed h' = freed h ++ l /\
    (forall x, x ∉ l -> frags h' x = frags h x /\ ref h' x = ref h x /\ simple h' x = simple h x).
Proof.
  revert fuel buf h. induction l as [|x l IH]; intros fuel buf h [Hc Hn] Hr Hf; cbn in Hc.
  - subst buf. exists h. destruct fuel; cbn; rewrite app_nil_r; done.
  - destruct Hc as (->&Hx&Hc). destruct fuel as [|fuel]; [cbn in Hf; lia|]. cbn [net_buf_unref].
    rewrite (proj2 (Z.eqb_neq x 0) Hx). apply Forall_cons in Hr as [Hrx Hr]. apply NoDup_cons in Hn as [Hxl Hn].
    cbn [ref set_ref]. rewrite Z.eqb_refl, Hrx. cbn [Z.ltb Z.compare u8 Z.modulo Z.sub]. cbv zeta.
    match goal with |- context [net_buf_unref fuel (frags h x) ?k] => set (h1 := k) end.
    destruct (IH fuel (frags h x) h1) as (h'&E&F&K).
    + split; [|done]. eapply chain_ext; [exact Hc|]. intros y Hy. cbn.
      destruct (Z.eqb_spec y x) as [->|]; done.
    + apply Forall_forall. intros y Hy. rewrite Forall_forall in Hr. cbn.
      destruct (Z.eqb_spec y x) as [->|]; [done|]. by apply Hr.
    + cbn in Hf. lia.
    + exists h'. split; [exact E|]. split; [rewrite F; cbn; by rewrite <- app_assoc|].
      intros y Hy. apply not_elem_of_cons in Hy as [Hyx Hy]. destruct (K y Hy) as (->&->&->). cbn.
      by rewrite (proj2 (Z.eqb_neq y x) Hyx).
Qed.
(** Unlinking a buffer behind its parent. *)
Lemma frag_del_spec fuel l1 x frag l2 buf h :
  frag_list (l1 ++ x :: frag :: l2) buf h -> ref h frag = 1 -> (0 < fuel)%nat ->
  exists h', net_buf_frag_del fuel x frag h = Some (frags h frag, h') /\
    frag_list (l1 ++ x :: l2) buf h' /\ freed h' = freed h ++ [frag].
Proof.
  intros [Hc Hn] Hr Hfuel. apply chain_path in Hc as (p&Hp&Hc). cbn in Hc. destruct Hc as (->&Hx&Ef&Hfr&Hc2).
  apply NoDup_app in Hn as (N1&N2&N3). apply NoDup_cons in N3 as [N3 N4]. apply NoDup_cons in N4 as [N4 N5].
  unfold net_buf_frag_del. rewrite (proj2 (Z.eqb_neq x 0) Hx). cbn [negb]. rewrite frags_set.
  destruct (Z.eqb_spec frag x) as [->|Hfx]; [by exfalso; apply N3; left|].
  set (h1 := set_frags frag 0 (set_frags x (frags h frag) h)).
  destruct (unref_frees fuel [frag] frag h1) as (h'&->&F&K).
  { split; [|apply NoDup_singleton]. cbn. by rewrite Z.eqb_refl. }
  { by repeat constructor. }
  { cbn. lia. }
  exists h'. split; [done|]. split; [|done].
  assert (Kf : forall y, y <> frag -> frags h' y = if y =? x then frags h frag else frags h y).
  { intros y Hy. destruct (K y) as (->&_); [by intros ?%list_elem_of_singleton|]. unfold h1. rewrite !frags_set.
    by rewrite (proj2 (Z.eqb_neq y frag) Hy). }
  split.
  + apply chain_path. exists x. split.
    * eapply path_ext; [exact Hp|]. intros y Hy. rewrite Kf by (intros ->; apply (N2 frag Hy); right; by left).
      destruct (Z.eqb_spec y x) as [->|]; [|done]. by exfalso; apply (N2 x Hy); left.
    * cbn. split; [done|]. split; [done|]. rewrite Kf, Z.eqb_refl by done. eapply chain_ext; [exact Hc2|].
      intros y Hy. rewrite Kf by (by intros ->). destruct (Z.eqb_spec y x) as [->|]; [|done].
      by exfalso; apply N3; right.
  + apply NoDup_app. split; [done|]. split; [|apply NoDup_cons; split; [|done]].
    * intros y Hy Hy2. apply (N2 y Hy). apply elem_of_cons in Hy2 as [->|]; [by left|by do 2 right].
    * intros ?. apply N3. by right.
Qed.
End linking.

(** ** Properties *)

(** [net_buf_linearize] copies the bytes of a fragment chain from an offset on, as
    many as asked for, as the destination holds and as there are, and returns
    their number; nothing else in memory changes and the loops end. *)
Theorem linearize_copies (l : list Z) (src dst dst_len off n : Z) (h : bufs)
    (Hc : chain l src h) (Ho : all_ok l h) (Ha : apart dst dst_len l h)
    (Hoff : 0 <= off) (Hn : 0 <= n) (Hd : 0 <= dst_len) :
  let out := take (Z.to_nat (Z.min n dst_len)) (drop (Z.to_nat off) (chain_bytes l h)) in
  exists m', net_buf_linearize (length l) dst dst_len src off n h = Some (Z.of_nat (length out), set_ram m' h) /\
    mem_bytes m' dst (Z.of_nat (length out)) = out /\
    (forall a, a < dst \/ dst + Z.of_nat (length out) <= a -> m' a = ram h a).
Proof.
  intros out. unfold net_buf_linearize.
  destruct (find_offset_spec l (length l) src off h Hc Ho Hoff) as (l1&l2&frag&off'&E&->&H1&H2&H3&H4); [done|].
  rewrite E. apply Forall_app in Ho as [_ Ho]. apply Forall_app in Ha as [_ Ha].
  assert (Hout : out = take (Z.to_nat (Z.min n dst_len)) (drop (Z.to_nat off') (chain_bytes l2 h))).
  { unfold out, chain_bytes. rewrite fmap_app, concat_app, drop_app_ge.
    - do 2 f_equal. unfold chain_bytes in H3. lia.
    - unfold chain_bytes in H3. lia. }
  destruct (copy_frags_spec l2 (length (l1 ++ l2)) dst 0 frag off' (Z.min n dst_len) h) as (m'&C1&C2&C3); try done.
  - rewrite Z.add_0_r. eapply Forall_impl; [exact Ha|]. intros x. unfold disjoint_regions. lia.
  - destruct l2; [done|]. lia.
  - rewrite length_app. lia.
  - exists m'. rewrite Hout. rewrite !Z.add_0_r in *. done.
Qed.

(** Fragment chains: adding a fragment (or a chain of them) appends it, whatever
    chain there is; deleting a fragment with one reference behind its parent
    unlinks it, returns the one after it and gives exactly it back to its pool. *)
Theorem fragments_link_and_free (fuel : nat) (l lf l2 : list Z) (x z buf frag : Z) (h : bufs)
    (Hl : frag_list (l ++ [x]) buf h) (Hf : frag_list (lf ++ [z]) frag h)
    (Hd : forall y, y ∈ lf ++ [z] -> y ∉ l ++ [x]) (Hfuel : (length l + length lf < fuel)%nat) :
  (exists h', net_buf_frag_add fuel buf frag h = Some (buf, h') /\
     frag_list ((l ++ [x]) ++ (lf ++ [z])) buf h' /\ simple h' = simple h /\ freed h' = freed h) /\
  (forall h2, frag_list (l ++ x :: frag :: l2) buf h2 -> ref h2 frag = 1 ->
     exists h', net_buf_frag_del fuel x frag h2 = Some (frags h2 frag, h') /\
       frag_list (l ++ x :: l2) buf h' /\ freed h' = freed h2 ++ [frag]).
Proof.
  split.
  - assert (Hb : buf <> 0) by (destruct Hl as [Hc _]; destruct l; cbn in Hc; naive_solver).
    unfold net_buf_frag_add. rewrite (proj2 (Z.eqb_neq buf 0) Hb).
    rewrite (frag_last_spec fuel l x buf h) by (apply Hl || lia).
    destruct (frag_insert_spec fuel l x [] lf z buf frag h Hl Hf Hd) as (h'&->&H1&H2&_&H3&_); [lia|].
    exists h'. rewrite app_nil_r in H1. rewrite <- app_assoc. done.
  - intros h2 Hl2 Hr. apply frag_del_spec; [done|done|lia].
Qed.

(** Two buffers, of three and two bytes, in memory that counts up. *)
Definition example_bufs : bufs :=
  mk_bufs (fun x => if x =? 1 then mk_nbs 110 3 16 108 else if x =? 2 then mk_nbs 200 2 16 200 else mk_nbs 300 1 16 300)
    (fun x => if x =? 1 then 2 else 0) (fun _ => 1) [] (fun a => a mod 256).

Lemma linearize_copies_witness :
  let out := take (Z.to_nat (Z.min 3 8)) (drop (Z.to_nat 1) (chain_bytes [1; 2] example_bufs)) in
  exists m', net_buf_linearize 2 400 8 1 1 3 example_bufs = Some (Z.of_nat (length out), set_ram m' example_bufs) /\
    mem_bytes m' 400 (Z.of_nat (length out)) = out /\
    (forall a, a < 400 \/ 400 + Z.of_nat (length out) <= a -> m' a = ram example_bufs a).
Proof.
  apply (linearize_copies [1; 2]); try lia.
  - done.
  - repeat constructor; cbn; lia.
  - repeat constructor; unfold disjoint_regions; cbn; lia.
Defined.

Lemma fragments_link_and_free_witness :
  (exists h', net_buf_frag_add 4 1 3 example_bufs = Some (1, h') /\
     frag_list [1; 2; 3] 1 h' /\ simple h' = simple example_bufs /\ freed h' = freed example_bufs) /\
  (forall h2, frag_list [1; 2; 3] 1 h2 -> ref h2 3 = 1 ->
     exists h', net_buf_frag_del 4 2 3 h2 = Some (frags h2 3, h') /\ frag_list [1; 2] 1 h' /\ freed h' = freed h2 ++ [3]).
Proof.
  apply (fragments_link_and_free 4 [1] [] [] 2 3 1 3 example_bufs).
  - split; [done|]. by apply (bool_decide_unpack _).
  - split; [done|]. by apply (bool_decide_unpack _).
  - intros y Hy%list_elem_of_singleton. subst y. by apply (bool_decide_unpack _).
  - cbn. lia.
Defined.
