(* ===== verification/UsbHidKeys.v ===== *)
(** HID usage codes and the PS/2 set-2 translation table.

    The constants of [src/inc/usb_hid_keys.h] under their source names, and the
    table [ps2_scan_code_to_usb_hid_key] of [src/inc/keys_by_ps2_scancode.h].
    The C table is an array with designated initialisers: it is modelled by the
    list of (index, value) pairs in source order and by the array that such an
    initialiser denotes, so that reading it out of range is [None]. *)
From Stdlib Require Import ZArith Lia.
From stdpp Require Import base numbers list.
From S2P Require Import Prelude.
Open Scope Z_scope.

(** ** usb_hid_keys.h *)

Definition KEY_MOD_LCTRL : Z := 0x01.
Definition KEY_MOD_LSHIFT : Z := 0x02.
Definition KEY_MOD_LALT : Z := 0x04.
Definition KEY_MOD_LMETA : Z := 0x08.
Definition KEY_MOD_RCTRL : Z := 0x10.
Definition KEY_MOD_RSHIFT : Z := 0x20.
Definition KEY_MOD_RALT : Z := 0x40.
Definition KEY_MOD_RMETA : Z := 0x80.
Definition KEY_NONE : Z := 0x00.
Definition KEY_ERR_OVF : Z := 0x01.
Definition KEY_A : Z := 0x04.
Definition KEY_B : Z := 0x05.
Definition KEY_C : Z := 0x06.
Definition KEY_D : Z := 0x07.
Definition KEY_E : Z := 0x08.
Definition KEY_F : Z := 0x09.
Definition KEY_G : Z := 0x0a.
Definition KEY_H : Z := 0x0b.
Definition KEY_I : Z := 0x0c.
Definition KEY_J : Z := 0x0d.
Definition KEY_K : Z := 0x0e.
Definition KEY_L : Z := 0x0f.
Definition KEY_M : Z := 0x10.
Definition KEY_N : Z := 0x11.
Definition KEY_O : Z := 0x12.
Definition KEY_P : Z := 0x13.
Definition KEY_Q : Z := 0x14.
Definition KEY_R : Z := 0x15.
Definition KEY_S : Z := 0x16.
Definition KEY_T : Z := 0x17.
Definition KEY_U : Z := 0x18.
Definition KEY_V : Z := 0x19.
Definition KEY_W : Z := 0x1a.
Definition KEY_X : Z := 0x1b.
Definition KEY_Y : Z := 0x1c.
Definition KEY_Z : Z := 0x1d.
Definition KEY_1 : Z := 0x1e.
Definition KEY_2 : Z := 0x1f.
Definition KEY_3 : Z := 0x20.
Definition KEY_4 : Z := 0x21.
Definition KEY_5 : Z := 0x22.
Definition KEY_6 : Z := 0x23.
Definition KEY_7 : Z := 0x24.
Definition KEY_8 : Z := 0x25.
Definition KEY_9 : Z := 0x26.
Definition KEY_0 : Z := 0x27.
Definition KEY_ENTER : Z := 0x28.
Definition KEY_ESC : Z := 0x29.
Definition KEY_BACKSPACE : Z := 0x2a.
Definition KEY_TAB : Z := 0x2b.
Definition KEY_SPACE : Z := 0x2c.
Definition KEY_MINUS : Z := 0x2d.
Definition KEY_EQUAL : Z := 0x2e.
Definition KEY_LEFTBRACE : Z := 0x2f.
Definition KEY_RIGHTBRACE : Z := 0x30.
Definition KEY_BACKSLASH : Z := 0x31.
Definition KEY_HASHTILDE : Z := 0x32.
Definition KEY_SEMICOLON : Z := 0x33.
Definition KEY_APOSTROPHE : Z := 0x34.
Definition KEY_GRAVE : Z := 0x35.
Definition KEY_COMMA : Z := 0x36.
Definition KEY_DOT : Z := 0x37.
Definition KEY_SLASH : Z := 0x38.
Definition KEY_CAPSLOCK : Z := 0x39.
Definition KEY_F1 : Z := 0x3a.
Definition KEY_F2 : Z := 0x3b.
Definition KEY_F3 : Z := 0x3c.
Definition KEY_F4 : Z := 0x3d.
Definition KEY_F5 : Z := 0x3e.
Definition KEY_F6 : Z := 0x3f.
Definition KEY_F7 : Z := 0x40.
Definition KEY_F8 : Z := 0x41.
Definition KEY_F9 : Z := 0x42.
Definition KEY_F10 : Z := 0x43.
Definition KEY_F11 : Z := 0x44.
Definition KEY_F12 : Z := 0x45.
Definition KEY_SYSRQ : Z := 0x46.
Definition KEY_SCROLLLOCK : Z := 0x47.
Definition KEY_PAUSE : Z := 0x48.
Definition KEY_INSERT : Z := 0x49.
Definition KEY_HOME : Z := 0x4a.
Definition KEY_PAGEUP : Z := 0x4b.
Definition KEY_DELETE : Z := 0x4c.
Definition KEY_END : Z := 0x4d.
Definition KEY_PAGEDOWN : Z := 0x4e.
Definition KEY_RIGHT : Z := 0x4f.
Definition KEY_LEFT : Z := 0x50.
Definition KEY_DOWN : Z := 0x51.
Definition KEY_UP : Z := 0x52.
Definition KEY_NUMLOCK : Z := 0x53.
Definition KEY_KPSLASH : Z := 0x54.
Definition KEY_KPASTERISK : Z := 0x55.
Definition KEY_KPMINUS : Z := 0x56.
Definition KEY_KPPLUS : Z := 0x57.
Definition KEY_KPENTER : Z := 0x58.
Definition KEY_KP1 : Z := 0x59.
Definition KEY_KP2 : Z := 0x5a.
Definition KEY_KP3 : Z := 0x5b.
Definition KEY_KP4 : Z := 0x5c.
Definition KEY_KP5 : Z := 0x5d.
Definition KEY_KP6 : Z := 0x5e.
Definition KEY_KP7 : Z := 0x5f.
Definition KEY_KP8 : Z := 0x60.
Definition KEY_KP9 : Z := 0x61.
Definition KEY_KP0 : Z := 0x62.
Definition KEY_KPDOT : Z := 0x63.
Definition KEY_102ND : Z := 0x64.
Definition KEY_COMPOSE : Z := 0x65.
Definition KEY_POWER : Z := 0x66.
Definition KEY_KPEQUAL : Z := 0x67.
Definition KEY_F13 : Z := 0x68.
Definition KEY_F14 : Z := 0x69.
Definition KEY_F15 : Z := 0x6a.
Definition KEY_F16 : Z := 0x6b.
Definition KEY_F17 : Z := 0x6c.
Definition KEY_F18 : Z := 0x6d.
Definition KEY_F19 : Z := 0x6e.
Definition KEY_F20 : Z := 0x6f.
Definition KEY_F21 : Z := 0x70.
Definition KEY_F22 : Z := 0x71.
Definition KEY_F23 : Z := 0x72.
Definition KEY_F24 : Z := 0x73.
Definition KEY_OPEN : Z := 0x74.
Definition KEY_HELP : Z := 0x75.
Definition KEY_PROPS : Z := 0x76.
Definition KEY_FRONT : Z := 0x77.
Definition KEY_STOP : Z := 0x78.
Definition KEY_AGAIN : Z := 0x79.
Definition KEY_UNDO : Z := 0x7a.
Definition KEY_CUT : Z := 0x7b.
Definition KEY_COPY : Z := 0x7c.
Definition KEY_PASTE : Z := 0x7d.
Definition KEY_FIND : Z := 0x7e.
Definition KEY_MUTE : Z := 0x7f.
Definition KEY_VOLUMEUP : Z := 0x80.
Definition KEY_VOLUMEDOWN : Z := 0x81.
Definition KEY_KPCOMMA : Z := 0x85.
Definition KEY_RO : Z := 0x87.
Definition KEY_KATAKANAHIRAGANA : Z := 0x88.
Definition KEY_YEN : Z := 0x89.
Definition KEY_HENKAN : Z := 0x8a.
Definition KEY_MUHENKAN : Z := 0x8b.
Definition KEY_KPJPCOMMA : Z := 0x8c.
Definition KEY_HANGEUL : Z := 0x90.
Definition KEY_HANJA : Z := 0x91.
Definition KEY_KATAKANA : Z := 0x92.
Definition KEY_HIRAGANA : Z := 0x93.
Definition KEY_ZENKAKUHANKAKU : Z := 0x94.
Definition KEY_KPLEFTPAREN : Z := 0xb6.
Definition KEY_KPRIGHTPAREN : Z := 0xb7.
Definition KEY_LEFTCTRL : Z := 0xe0.
Definition KEY_LEFTSHIFT : Z := 0xe1.
Definition KEY_LEFTALT : Z := 0xe2.
Definition KEY_LEFTMETA : Z := 0xe3.
Definition KEY_RIGHTCTRL : Z := 0xe4.
Definition KEY_RIGHTSHIFT : Z := 0xe5.
Definition KEY_RIGHTALT : Z := 0xe6.
Definition KEY_RIGHTMETA : Z := 0xe7.
Definition KEY_MEDIA_PLAYPAUSE : Z := 0xe8.
Definition KEY_MEDIA_STOPCD : Z := 0xe9.
Definition KEY_MEDIA_PREVIOUSSONG : Z := 0xea.
Definition KEY_MEDIA_NEXTSONG : Z := 0xeb.
Definition KEY_MEDIA_EJECTCD : Z := 0xec.
Definition KEY_MEDIA_VOLUMEUP : Z := 0xed.
Definition KEY_MEDIA_VOLUMEDOWN : Z := 0xee.
Definition KEY_MEDIA_MUTE : Z := 0xef.
Definition KEY_MEDIA_WWW : Z := 0xf0.
Definition KEY_MEDIA_BACK : Z := 0xf1.
Definition KEY_MEDIA_FORWARD : Z := 0xf2.
Definition KEY_MEDIA_STOP : Z := 0xf3.
Definition KEY_MEDIA_FIND : Z := 0xf4.
Definition KEY_MEDIA_SCROLLUP : Z := 0xf5.
Definition KEY_MEDIA_SCROLLDOWN : Z := 0xf6.
Definition KEY_MEDIA_EDIT : Z := 0xf7.
Definition KEY_MEDIA_SLEEP : Z := 0xf8.
Definition KEY_MEDIA_COFFEE : Z := 0xf9.
Definition KEY_MEDIA_REFRESH : Z := 0xfa.
Definition KEY_MEDIA_CALC : Z := 0xfb.

(** ** keys_by_ps2_scancode.h *)

Definition KEY_UNKNOWN : Z := 0x00.

(** The initialisers of scan codes [0x00 .. 0x7f], in source order. *)
Definition scan_code_init_lo : list (Z * Z) :=
  [ (0x00, KEY_UNKNOWN); (0x01, KEY_F9); (0x02, KEY_UNKNOWN); (0x03, KEY_F5);
    (0x04, KEY_F3); (0x05, KEY_F1); (0x06, KEY_F2); (0x07, KEY_F12);
    (0x08, KEY_UNKNOWN); (0x09, KEY_F10); (0x0a, KEY_F8); (0x0b, KEY_F6);
    (0x0c, KEY_F4); (0x0d, KEY_TAB); (0x0e, KEY_GRAVE); (0x0f, KEY_UNKNOWN);
    (0x10, KEY_UNKNOWN); (0x11, KEY_MOD_LALT); (0x12, KEY_MOD_LSHIFT); (0x13, KEY_UNKNOWN);
    (0x14, KEY_MOD_LCTRL); (0x15, KEY_Q); (0x16, KEY_1); (0x17, KEY_UNKNOWN);
    (0x18, KEY_UNKNOWN); (0x19, KEY_UNKNOWN); (0x1a, KEY_Z); (0x1b, KEY_S);
    (0x1c, KEY_A); (0x1d, KEY_W); (0x1e, KEY_2); (0x1f, KEY_UNKNOWN);
    (0x20, KEY_UNKNOWN); (0x21, KEY_C); (0x22, KEY_X); (0x23, KEY_D);
    (0x24, KEY_E); (0x25, KEY_4); (0x26, KEY_3); (0x27, KEY_UNKNOWN);
    (0x28, KEY_UNKNOWN); (0x29, KEY_SPACE); (0x2a, KEY_V); (0x2b, KEY_F);
    (0x2c, KEY_T); (0x2d, KEY_R); (0x2e, KEY_5); (0x2f, KEY_UNKNOWN);
    (0x30, KEY_UNKNOWN); (0x31, KEY_N); (0x32, KEY_B); (0x33, KEY_H);
    (0x34, KEY_G); (0x35, KEY_Y); (0x36, KEY_6); (0x37, KEY_UNKNOWN);
    (0x38, KEY_UNKNOWN); (0x39, KEY_UNKNOWN); (0x3a, KEY_M); (0x3b, KEY_J);
    (0x3c, KEY_U); (0x3d, KEY_7); (0x3e, KEY_8); (0x3f, KEY_UNKNOWN);
    (0x40, KEY_UNKNOWN); (0x41, KEY_COMMA); (0x42, KEY_K); (0x43, KEY_I);
    (0x44, KEY_O); (0x45, KEY_0); (0x46, KEY_9); (0x47, KEY_UNKNOWN);
    (0x48, KEY_UNKNOWN); (0x49, KEY_DOT); (0x4a, KEY_SLASH); (0x4b, KEY_L);
    (0x4c, KEY_SEMICOLON); (0x4d, KEY_P); (0x4e, KEY_MINUS); (0x4f, KEY_UNKNOWN);
    (0x50, KEY_UNKNOWN); (0x51, KEY_UNKNOWN); (0x52, KEY_APOSTROPHE); (0x53, KEY_UNKNOWN);
    (0x54, KEY_LEFTBRACE); (0x55, KEY_EQUAL); (0x56, KEY_UNKNOWN); (0x57, KEY_UNKNOWN);
    (0x58, KEY_CAPSLOCK); (0x59, KEY_MOD_RSHIFT); (0x5a, KEY_ENTER); (0x5b, KEY_RIGHTBRACE);
    (0x5d, KEY_BACKSLASH); (0x5c, KEY_UNKNOWN); (0x5e, KEY_UNKNOWN); (0x5f, KEY_UNKNOWN);
    (0x60, KEY_UNKNOWN); (0x61, KEY_UNKNOWN); (0x62, KEY_UNKNOWN); (0x63, KEY_UNKNOWN);
    (0x64, KEY_UNKNOWN); (0x65, KEY_UNKNOWN); (0x66, KEY_BACKSPACE); (0x67, KEY_UNKNOWN);
    (0x68, KEY_UNKNOWN); (0x69, KEY_KP1); (0x6b, KEY_KP4); (0x6c, KEY_KP7);
    (0x6a, KEY_UNKNOWN); (0x6d, KEY_UNKNOWN); (0x6e, KEY_UNKNOWN); (0x6f, KEY_UNKNOWN);
    (0x70, KEY_KP0); (0x71, KEY_KPDOT); (0x72, KEY_KP2); (0x73, KEY_KP5);
    (0x74, KEY_KP6); (0x75, KEY_KP8); (0x76, KEY_ESC); (0x77, KEY_NUMLOCK);
    (0x78, KEY_F11); (0x79, KEY_KPPLUS); (0x7a, KEY_KP3); (0x7b, KEY_KPMINUS);
    (0x7c, KEY_KPASTERISK); (0x7d, KEY_KP9); (0x7e, KEY_SCROLLLOCK); (0x7f, KEY_UNKNOWN) ].

(** The initialisers of scan codes [0x80 .. 0xfe]. *)
Definition scan_code_init_hi : list (Z * Z) :=
  [ (0x80, KEY_UNKNOWN); (0x81, KEY_UNKNOWN); (0x82, KEY_UNKNOWN); (0x83, KEY_F7);
    (0x84, KEY_UNKNOWN); (0x85, KEY_UNKNOWN); (0x86, KEY_UNKNOWN); (0x87, KEY_UNKNOWN);
    (0x88, KEY_UNKNOWN); (0x89, KEY_UNKNOWN); (0x8a, KEY_UNKNOWN); (0x8b, KEY_UNKNOWN);
    (0x8c, KEY_UNKNOWN); (0x8d, KEY_UNKNOWN); (0x8e, KEY_UNKNOWN); (0x8f, KEY_UNKNOWN);
    (0x90, KEY_UNKNOWN); (0x91, KEY_UNKNOWN); (0x92, KEY_UNKNOWN); (0x93, KEY_UNKNOWN);
    (0x94, KEY_UNKNOWN); (0x95, KEY_UNKNOWN); (0x96, KEY_UNKNOWN); (0x97, KEY_UNKNOWN);
    (0x98, KEY_UNKNOWN); (0x99, KEY_UNKNOWN); (0x9a, KEY_UNKNOWN); (0x9b, KEY_UNKNOWN);
    (0x9c, KEY_UNKNOWN); (0x9d, KEY_UNKNOWN); (0x9e, KEY_UNKNOWN); (0x9f, KEY_UNKNOWN);
    (0xa0, KEY_UNKNOWN); (0xa1, KEY_UNKNOWN); (0xa2, KEY_UNKNOWN); (0xa3, KEY_UNKNOWN);
    (0xa4, KEY_UNKNOWN); (0xa5, KEY_UNKNOWN); (0xa6, KEY_UNKNOWN); (0xa7, KEY_UNKNOWN);
    (0xa8, KEY_UNKNOWN); (0xa9, KEY_UNKNOWN); (0xaa, KEY_UNKNOWN); (0xab, KEY_UNKNOWN);
    (0xac, KEY_UNKNOWN); (0xad, KEY_UNKNOWN); (0xae, KEY_UNKNOWN); (0xaf, KEY_UNKNOWN);
    (0xb0, KEY_UNKNOWN); (0xb1, KEY_UNKNOWN); (0xb2, KEY_UNKNOWN); (0xb3, KEY_UNKNOWN);
    (0xb4, KEY_UNKNOWN); (0xb5, KEY_UNKNOWN); (0xb6, KEY_UNKNOWN); (0xb7, KEY_UNKNOWN);
    (0xb8, KEY_UNKNOWN); (0xb9, KEY_UNKNOWN); (0xba, KEY_UNKNOWN); (0xbb, KEY_UNKNOWN);
    (0xbc, KEY_UNKNOWN); (0xbd, KEY_UNKNOWN); (0xbe, KEY_UNKNOWN); (0xbf, KEY_UNKNOWN);
    (0xc0, KEY_UNKNOWN); (0xc1, KEY_UNKNOWN); (0xc2, KEY_UNKNOWN); (0xc3, KEY_UNKNOWN);
    (0xc4, KEY_UNKNOWN); (0xc5, KEY_UNKNOWN); (0xc6, KEY_UNKNOWN); (0xc7, KEY_UNKNOWN);
    (0xc8, KEY_UNKNOWN); (0xc9, KEY_UNKNOWN); (0xca, KEY_UNKNOWN); (0xcb, KEY_UNKNOWN);
    (0xcc, KEY_UNKNOWN); (0xcd, KEY_UNKNOWN); (0xce, KEY_UNKNOWN); (0xcf, KEY_UNKNOWN);
    (0xd0, KEY_UNKNOWN); (0xd1, KEY_UNKNOWN); (0xd2, KEY_UNKNOWN); (0xd3, KEY_UNKNOWN);
    (0xd4, KEY_UNKNOWN); (0xd5, KEY_UNKNOWN); (0xd6, KEY_UNKNOWN); (0xd7, KEY_UNKNOWN);
    (0xd8, KEY_UNKNOWN); (0xd9, KEY_UNKNOWN); (0xda, KEY_UNKNOWN); (0xdb, KEY_UNKNOWN);
    (0xdc, KEY_UNKNOWN); (0xdd, KEY_UNKNOWN); (0xde, KEY_UNKNOWN); (0xdf, KEY_UNKNOWN);
    (0xe0, KEY_UNKNOWN); (0xe1, KEY_UNKNOWN); (0xe2, KEY_UNKNOWN); (0xe3, KEY_UNKNOWN);
    (0xe4, KEY_UNKNOWN); (0xe5, KEY_UNKNOWN); (0xe6, KEY_UNKNOWN); (0xe7, KEY_UNKNOWN);
    (0xe8, KEY_UNKNOWN); (0xe9, KEY_UNKNOWN); (0xea, KEY_UNKNOWN); (0xeb, KEY_UNKNOWN);
    (0xec, KEY_UNKNOWN); (0xed, KEY_UNKNOWN); (0xee, KEY_UNKNOWN); (0xef, KEY_UNKNOWN);
    (0xf0, KEY_UNKNOWN); (0xf1, KEY_UNKNOWN); (0xf2, KEY_UNKNOWN); (0xf3, KEY_UNKNOWN);
    (0xf4, KEY_UNKNOWN); (0xf5, KEY_UNKNOWN); (0xf6, KEY_UNKNOWN); (0xf7, KEY_UNKNOWN);
    (0xf8, KEY_UNKNOWN); (0xf9, KEY_UNKNOWN); (0xfa, KEY_UNKNOWN); (0xfb, KEY_UNKNOWN);
    (0xfc, KEY_UNKNOWN); (0xfd, KEY_UNKNOWN); (0xfe, KEY_UNKNOWN) ].

(** The array a designated initialiser denotes: as long as its greatest index
    requires, each element the last value given for it, [0] where none is. *)
Definition designated_length (init : list (Z * Z)) : Z :=
  foldr (fun e n => Z.max (e.1 + 1) n) 0 init.

Definition designated_array (init : list (Z * Z)) : list Z :=
  foldl (fun arr e => <[Z.to_nat e.1 := e.2]> arr)
    (replicate (Z.to_nat (designated_length init)) 0) init.

Definition ps2_scan_code_to_usb_hid_key : list Z :=
  Eval vm_compute in designated_array (scan_code_init_lo ++ scan_code_init_hi).

(** [ps2_scan_code_to_usb_hid_key[code]]; [None] is an out-of-range read. *)
Definition scan_code_key (code : Z) : option Z :=
  if 0 <=? code then ps2_scan_code_to_usb_hid_key !! Z.to_nat code else None.
