(* ===== verification/PcKeys.v ===== *)
(** The keys of a 104-key PC keyboard: what they send and what they mean.

    The specification the translator is checked against, written from the public
    standards and not from the tables of the program: the sequences of scan code
    set 2 with which a PS/2 keyboard reports that a key goes down or up, and the
    usage (HID Usage Tables, page 7) or the bit of the modifier byte (HID 1.11,
    8.3) by which a USB or Bluetooth keyboard reports the same key. *)
From Stdlib Require Import ZArith.
From stdpp Require Import base list.
From S2P Require Import Prelude.
Open Scope Z_scope.

Inductive pc_key :=
  | Pc_A | Pc_B | Pc_C | Pc_D | Pc_E | Pc_F | Pc_G | Pc_H | Pc_I | Pc_J | Pc_K | Pc_L | Pc_M
  | Pc_N | Pc_O | Pc_P | Pc_Q | Pc_R | Pc_S | Pc_T | Pc_U | Pc_V | Pc_W | Pc_X | Pc_Y | Pc_Z
  | Pc_1 | Pc_2 | Pc_3 | Pc_4 | Pc_5 | Pc_6 | Pc_7 | Pc_8 | Pc_9 | Pc_0 | Pc_Enter | Pc_Esc
  | Pc_Backspace | Pc_Tab | Pc_Space | Pc_Minus | Pc_Equal | Pc_LeftBracket | Pc_RightBracket
  | Pc_Backslash | Pc_Semicolon | Pc_Quote | Pc_Grave | Pc_Comma | Pc_Period | Pc_Slash
  | Pc_CapsLock | Pc_F1 | Pc_F2 | Pc_F3 | Pc_F4 | Pc_F5 | Pc_F6 | Pc_F7 | Pc_F8 | Pc_F9 | Pc_F10
  | Pc_F11 | Pc_F12 | Pc_ScrollLock | Pc_Insert | Pc_Home | Pc_PageUp | Pc_Delete | Pc_End
  | Pc_PageDown | Pc_Right | Pc_Left | Pc_Down | Pc_Up | Pc_NumLock | Pc_KpSlash | Pc_KpAsterisk
  | Pc_KpMinus | Pc_KpPlus | Pc_KpEnter | Pc_Kp1 | Pc_Kp2 | Pc_Kp3 | Pc_Kp4 | Pc_Kp5 | Pc_Kp6
  | Pc_Kp7 | Pc_Kp8 | Pc_Kp9 | Pc_Kp0 | Pc_KpPeriod | Pc_Application | Pc_PrintScreen | Pc_Pause
  | Pc_LeftCtrl | Pc_LeftShift | Pc_LeftAlt | Pc_LeftMeta | Pc_RightCtrl | Pc_RightShift
  | Pc_RightAlt | Pc_RightMeta.

(** How a key is coded in scan code set 2. *)
Inductive set2 := Plain (c : Z) | Extended (c : Z) | PrintScreenCodes | PauseCodes.

Definition set2_of (k : pc_key) : set2 :=
  match k with
  | Pc_A => Plain 0x1c | Pc_B => Plain 0x32 | Pc_C => Plain 0x21 | Pc_D => Plain 0x23
  | Pc_E => Plain 0x24 | Pc_F => Plain 0x2b | Pc_G => Plain 0x34 | Pc_H => Plain 0x33
  | Pc_I => Plain 0x43 | Pc_J => Plain 0x3b | Pc_K => Plain 0x42 | Pc_L => Plain 0x4b
  | Pc_M => Plain 0x3a | Pc_N => Plain 0x31 | Pc_O => Plain 0x44 | Pc_P => Plain 0x4d
  | Pc_Q => Plain 0x15 | Pc_R => Plain 0x2d | Pc_S => Plain 0x1b | Pc_T => Plain 0x2c
  | Pc_U => Plain 0x3c | Pc_V => Plain 0x2a | Pc_W => Plain 0x1d | Pc_X => Plain 0x22
  | Pc_Y => Plain 0x35 | Pc_Z => Plain 0x1a | Pc_1 => Plain 0x16 | Pc_2 => Plain 0x1e
  | Pc_3 => Plain 0x26 | Pc_4 => Plain 0x25 | Pc_5 => Plain 0x2e | Pc_6 => Plain 0x36
  | Pc_7 => Plain 0x3d | Pc_8 => Plain 0x3e | Pc_9 => Plain 0x46 | Pc_0 => Plain 0x45
  | Pc_Enter => Plain 0x5a | Pc_Esc => Plain 0x76 | Pc_Backspace => Plain 0x66
  | Pc_Tab => Plain 0xd | Pc_Space => Plain 0x29 | Pc_Minus => Plain 0x4e
  | Pc_Equal => Plain 0x55 | Pc_LeftBracket => Plain 0x54 | Pc_RightBracket => Plain 0x5b
  | Pc_Backslash => Plain 0x5d | Pc_Semicolon => Plain 0x4c | Pc_Quote => Plain 0x52
  | Pc_Grave => Plain 0xe | Pc_Comma => Plain 0x41 | Pc_Period => Plain 0x49
  | Pc_Slash => Plain 0x4a | Pc_CapsLock => Plain 0x58 | Pc_F1 => Plain 0x5 | Pc_F2 => Plain 0x6
  | Pc_F3 => Plain 0x4 | Pc_F4 => Plain 0xc | Pc_F5 => Plain 0x3 | Pc_F6 => Plain 0xb
  | Pc_F7 => Plain 0x83 | Pc_F8 => Plain 0xa | Pc_F9 => Plain 0x1 | Pc_F10 => Plain 0x9
  | Pc_F11 => Plain 0x78 | Pc_F12 => Plain 0x7 | Pc_ScrollLock => Plain 0x7e
  | Pc_Insert => Extended 0x70 | Pc_Home => Extended 0x6c | Pc_PageUp => Extended 0x7d
  | Pc_Delete => Extended 0x71 | Pc_End => Extended 0x69 | Pc_PageDown => Extended 0x7a
  | Pc_Right => Extended 0x74 | Pc_Left => Extended 0x6b | Pc_Down => Extended 0x72
  | Pc_Up => Extended 0x75 | Pc_NumLock => Plain 0x77 | Pc_KpSlash => Extended 0x4a
  | Pc_KpAsterisk => Plain 0x7c | Pc_KpMinus => Plain 0x7b | Pc_KpPlus => Plain 0x79
  | Pc_KpEnter => Extended 0x5a | Pc_Kp1 => Plain 0x69 | Pc_Kp2 => Plain 0x72
  | Pc_Kp3 => Plain 0x7a | Pc_Kp4 => Plain 0x6b | Pc_Kp5 => Plain 0x73 | Pc_Kp6 => Plain 0x74
  | Pc_Kp7 => Plain 0x6c | Pc_Kp8 => Plain 0x75 | Pc_Kp9 => Plain 0x7d | Pc_Kp0 => Plain 0x70
  | Pc_KpPeriod => Plain 0x71 | Pc_Application => Extended 0x2f
  | Pc_PrintScreen => PrintScreenCodes | Pc_Pause => PauseCodes | Pc_LeftCtrl => Plain 0x14
  | Pc_LeftShift => Plain 0x12 | Pc_LeftAlt => Plain 0x11 | Pc_LeftMeta => Extended 0x1f
  | Pc_RightCtrl => Extended 0x14 | Pc_RightShift => Plain 0x59 | Pc_RightAlt => Extended 0x11
  | Pc_RightMeta => Extended 0x27
  end.

(** Codes sent when the key goes down (and again while it is held). *)
Definition make_codes (k : pc_key) : list Z :=
  match set2_of k with
  | Plain c => [c]
  | Extended c => [0xE0; c]
  | PrintScreenCodes => [0xE0; 0x12; 0xE0; 0x7C]
  | PauseCodes => [0xE1; 0x14; 0x77; 0xE1; 0xF0; 0x14; 0xF0; 0x77]
  end.

(** Codes sent when it goes up; Pause has none. *)
Definition break_codes (k : pc_key) : list Z :=
  match set2_of k with
  | Plain c => [0xF0; c]
  | Extended c => [0xE0; 0xF0; c]
  | PrintScreenCodes => [0xE0; 0xF0; 0x7C; 0xE0; 0xF0; 0x12]
  | PauseCodes => []
  end.

(** How a HID keyboard reports a key. *)
Inductive hid_key := Usage (u : Z) | ModifierBit (b : Z).

Definition hid_of (k : pc_key) : hid_key :=
  match k with
  | Pc_A => Usage 0x4 | Pc_B => Usage 0x5 | Pc_C => Usage 0x6 | Pc_D => Usage 0x7
  | Pc_E => Usage 0x8 | Pc_F => Usage 0x9 | Pc_G => Usage 0xa | Pc_H => Usage 0xb
  | Pc_I => Usage 0xc | Pc_J => Usage 0xd | Pc_K => Usage 0xe | Pc_L => Usage 0xf
  | Pc_M => Usage 0x10 | Pc_N => Usage 0x11 | Pc_O => Usage 0x12 | Pc_P => Usage 0x13
  | Pc_Q => Usage 0x14 | Pc_R => Usage 0x15 | Pc_S => Usage 0x16 | Pc_T => Usage 0x17
  | Pc_U => Usage 0x18 | Pc_V => Usage 0x19 | Pc_W => Usage 0x1a | Pc_X => Usage 0x1b
  | Pc_Y => Usage 0x1c | Pc_Z => Usage 0x1d | Pc_1 => Usage 0x1e | Pc_2 => Usage 0x1f
  | Pc_3 => Usage 0x20 | Pc_4 => Usage 0x21 | Pc_5 => Usage 0x22 | Pc_6 => Usage 0x23
  | Pc_7 => Usage 0x24 | Pc_8 => Usage 0x25 | Pc_9 => Usage 0x26 | Pc_0 => Usage 0x27
  | Pc_Enter => Usage 0x28 | Pc_Esc => Usage 0x29 | Pc_Backspace => Usage 0x2a
  | Pc_Tab => Usage 0x2b | Pc_Space => Usage 0x2c | Pc_Minus => Usage 0x2d
  | Pc_Equal => Usage 0x2e | Pc_LeftBracket => Usage 0x2f | Pc_RightBracket => Usage 0x30
  | Pc_Backslash => Usage 0x31 | Pc_Semicolon => Usage 0x33 | Pc_Quote => Usage 0x34
  | Pc_Grave => Usage 0x35 | Pc_Comma => Usage 0x36 | Pc_Period => Usage 0x37
  | Pc_Slash => Usage 0x38 | Pc_CapsLock => Usage 0x39 | Pc_F1 => Usage 0x3a
  | Pc_F2 => Usage 0x3b | Pc_F3 => Usage 0x3c | Pc_F4 => Usage 0x3d | Pc_F5 => Usage 0x3e
  | Pc_F6 => Usage 0x3f | Pc_F7 => Usage 0x40 | Pc_F8 => Usage 0x41 | Pc_F9 => Usage 0x42
  | Pc_F10 => Usage 0x43 | Pc_F11 => Usage 0x44 | Pc_F12 => Usage 0x45
  | Pc_ScrollLock => Usage 0x47 | Pc_Insert => Usage 0x49 | Pc_Home => Usage 0x4a
  | Pc_PageUp => Usage 0x4b | Pc_Delete => Usage 0x4c | Pc_End => Usage 0x4d
  | Pc_PageDown => Usage 0x4e | Pc_Right => Usage 0x4f | Pc_Left => Usage 0x50
  | Pc_Down => Usage 0x51 | Pc_Up => Usage 0x52 | Pc_NumLock => Usage 0x53
  | Pc_KpSlash => Usage 0x54 | Pc_KpAsterisk => Usage 0x55 | Pc_KpMinus => Usage 0x56
  | Pc_KpPlus => Usage 0x57 | Pc_KpEnter => Usage 0x58 | Pc_Kp1 => Usage 0x59
  | Pc_Kp2 => Usage 0x5a | Pc_Kp3 => Usage 0x5b | Pc_Kp4 => Usage 0x5c | Pc_Kp5 => Usage 0x5d
  | Pc_Kp6 => Usage 0x5e | Pc_Kp7 => Usage 0x5f | Pc_Kp8 => Usage 0x60 | Pc_Kp9 => Usage 0x61
  | Pc_Kp0 => Usage 0x62 | Pc_KpPeriod => Usage 0x63 | Pc_Application => Usage 0x65
  | Pc_PrintScreen => Usage 0x46 | Pc_Pause => Usage 0x48 | Pc_LeftCtrl => ModifierBit 0
  | Pc_LeftShift => ModifierBit 1 | Pc_LeftAlt => ModifierBit 2 | Pc_LeftMeta => ModifierBit 3
  | Pc_RightCtrl => ModifierBit 4 | Pc_RightShift => ModifierBit 5
  | Pc_RightAlt => ModifierBit 6 | Pc_RightMeta => ModifierBit 7
  end.

(** A key goes down or up. *)
Inductive stroke := Press (k : pc_key) | Release (k : pc_key).

Definition stroke_key (s : stroke) : pc_key := match s with Press k | Release k => k end.

Definition stroke_codes (s : stroke) : list Z :=
  match s with Press k => make_codes k | Release k => break_codes k end.

Lemma stroke_codes_bytes strokes : Forall (fun d => 0 <= d < 256) (strokes ≫= stroke_codes).
Proof.
  induction strokes as [|s strokes IH]; [constructor|]. cbn [mbind list_bind].
  apply Forall_app. split; [|done].
  by destruct s as [k|k]; destruct k; repeat constructor.
Qed.
