(* ===== verification/Dlist.v ===== *)
(** The doubly-linked list of [include/sys/dlist.h], at the level of its pointers.

    A [links] value holds the [next]/[head] and [prev]/[tail] fields of every
    node, by address; the list head is itself a node and closes the ring.  The
    kernel components of this development use Rocq lists for their queues: the
    theorems here show that the pointer operations compute those lists. *)
From Stdlib Require Import ZArith Lia Bool.
From stdpp Require Import base numbers list sets.
From S2P Require Import Prelude.
Open Scope Z_scope.

Definition NULL : Z := 0.

(** [struct _dnode], for every address. *)
Record links := mk_links { nx : Z -> Z; pv : Z -> Z }.

Definition upd (f : Z -> Z) (a v : Z) : Z -> Z := fun x => if x =? a then v else f x.
Definition set_next (a v : Z) (s : links) : links := mk_links (upd (nx s) a v) (pv s).
Definition set_prev (a v : Z) (s : links) : links := mk_links (nx s) (upd (pv s) a v).

Definition sys_dlist_init (list : Z) (s : links) : links :=
  set_prev list list (set_next list list s).

Definition sys_dnode_init (node : Z) (s : links) : links :=
  set_prev node NULL (set_next node NULL s).

Definition sys_dnode_is_linked (node : Z) (s : links) : bool := negb (nx s node =? NULL).

Definition sys_dlist_is_head (list node : Z) (s : links) : bool := nx s list =? node.

Definition sys_dlist_is_tail (list node : Z) (s : links) : bool := pv s list =? node.

Definition sys_dlist_is_empty (list : Z) (s : links) : bool := nx s list =? list.

Definition sys_dlist_has_multiple_nodes (list : Z) (s : links) : bool :=
  negb (nx s list =? pv s list).

Definition sys_dlist_peek_head (list : Z) (s : links) : Z :=
  if sys_dlist_is_empty list s then NULL else nx s list.

Definition sys_dlist_peek_head_not_empty (list : Z) (s : links) : Z := nx s list.

Definition sys_dlist_peek_next_no_check (list node : Z) (s : links) : Z :=
  if node =? pv s list then NULL else nx s node.

Definition sys_dlist_peek_next (list node : Z) (s : links) : Z :=
  if negb (node =? NULL) then sys_dlist_peek_next_no_check list node s else NULL.

Definition sys_dlist_peek_prev_no_check (list node : Z) (s : links) : Z :=
  if node =? nx s list then NULL else pv s node.

Definition sys_dlist_peek_prev (list node : Z) (s : links) : Z :=
  if negb (node =? NULL) then sys_dlist_peek_prev_no_check list node s else NULL.

Definition sys_dlist_peek_tail (list : Z) (s : links) : Z :=
  if sys_dlist_is_empty list s then NULL else pv s list.

Definition sys_dlist_append (list node : Z) (s : links) : links :=
  let s := set_next node list s in
  let s := set_prev node (pv s list) s in
  let s := set_next (pv s list) node s in
  set_prev list node s.

Definition sys_dlist_prepend (list node : Z) (s : links) : links :=
  let s := set_next node (nx s list) s in
  let s := set_prev node list s in
  let s := set_prev (nx s list) node s in
  set_next list node s.

Definition sys_dlist_insert (successor node : Z) (s : links) : links :=
  let s := set_prev node (pv s successor) s in
  let s := set_next node successor s in
  let s := set_next (pv s successor) node s in
  set_prev successor node s.

(** The search loop of [sys_dlist_insert_at]; [fuel] bounds the nodes visited. *)
Fixpoint insert_at_pos (fuel : nat) (list pos : Z) (cond : Z -> bool) (s : links) : Z :=
  match fuel with
  | O => pos
  | S f =>
      if negb (pos =? NULL) && negb (cond pos)
      then insert_at_pos f list (sys_dlist_peek_next list pos s) cond s else pos
  end.

Definition sys_dlist_insert_at (fuel : nat) (list node : Z) (cond : Z -> bool) (s : links) : links :=
  if sys_dlist_is_empty list s then sys_dlist_append list node s
  else
    let pos := insert_at_pos fuel list (sys_dlist_peek_head list s) cond s in
    if negb (pos =? NULL) then sys_dlist_insert pos node s else sys_dlist_append list node s.

Definition sys_dlist_remove (node : Z) (s : links) : links :=
  let s := set_next (pv s node) (nx s node) s in
  let s := set_prev (nx s node) (pv s node) s in
  sys_dnode_init node s.

Definition sys_dlist_get (list : Z) (s : links) : Z * links :=
  if negb (sys_dlist_is_empty list s)
  then (nx s list, sys_dlist_remove (nx s list) s)
  else (NULL, s).

(** ** The list a ring represents *)

(** [chain s a ns b]: following [next] from [a] one meets the nodes [ns], then
    [b], and the [prev] pointers lead back. *)
Fixpoint chain (s : links) (a : Z) (ns : list Z) (b : Z) : Prop :=
  match ns with
  | [] => nx s a = b /\ pv s b = a
  | n :: ns => nx s a = n /\ pv s n = a /\ chain s n ns b
  end.

Record dlist_rep (s : links) (l : Z) (ns : list Z) : Prop := {
  dr_chain : chain s l ns l;
  dr_nodup : NoDup (l :: ns);
  dr_null : NULL ∉ l :: ns }.

Lemma last_cons_default (xs : list Z) x a : List.last (x :: xs) a = List.last xs x.
Proof.
  revert x a. induction xs as [|y xs IH]; intros x a; [done|].
  change (List.last (y :: xs) a = List.last (y :: xs) x). by rewrite !IH.
Qed.

Lemma last_elem (xs : list Z) a : List.last xs a ∈ a :: xs.
Proof.
  revert a. induction xs as [|x xs IH]; intros a; [set_solver|].
  rewrite last_cons_default. specialize (IH x). set_solver.
Qed.

Lemma chain_split s xs ys a b :
  chain s a (xs ++ ys) b <-> chain s a xs (List.hd b ys) /\ chain s (List.last xs a) ys b.
Proof.
  revert a. induction xs as [|x xs IH]; intros a.
  - destruct ys; cbn; tauto.
  - cbn [app chain]. rewrite IH, last_cons_default. tauto.
Qed.

Lemma chain_frame s s' ns a b :
  (forall x, x ∈ a :: ns -> nx s' x = nx s x) -> (forall x, x ∈ ns ++ [b] -> pv s' x = pv s x) ->
  chain s a ns b -> chain s' a ns b.
Proof.
  revert a. induction ns as [|n ns IH]; intros a Hn Hp; cbn [chain].
  - rewrite Hn, Hp by set_solver. done.
  - intros (?&?&?). rewrite Hn, Hp by set_solver. split; [done|]. split; [done|].
    apply IH; [intros; apply Hn|intros; apply Hp|]; set_solver.
Qed.

(** Redirecting the end, or the start, of a chain to another node. *)
Lemma chain_end s s' xs a q n :
  chain s a xs q -> NoDup (a :: xs) -> nx s' (List.last xs a) = n -> pv s' n = List.last xs a ->
  (forall x, x ∈ a :: xs -> x <> List.last xs a -> nx s' x = nx s x) ->
  (forall x, x ∈ xs -> pv s' x = pv s x) -> chain s' a xs n.
Proof.
  revert a. induction xs as [|x xs IH]; intros a Hc Hd Hl Hn Hf Hp; [done|].
  rewrite last_cons_default in *. destruct Hc as (?&?&Hc).
  apply NoDup_cons in Hd as [Ha Hd]. pose proof (last_elem xs x). cbn [chain].
  rewrite Hf, Hp by (constructor || by intros ->). split; [done|]. split; [done|].
  apply IH; [done..| |].
  - intros y Hy. apply Hf. by right.
  - intros y Hy. apply Hp. by right.
Qed.

Lemma chain_start s s' ys p b n :
  chain s p ys b -> NoDup (ys ++ [b]) -> nx s' n = List.hd b ys -> pv s' (List.hd b ys) = n ->
  (forall x, x ∈ ys -> nx s' x = nx s x) ->
  (forall x, x ∈ ys ++ [b] -> x <> List.hd b ys -> pv s' x = pv s x) -> chain s' n ys b.
Proof.
  destruct ys as [|y ys]; [done|]. cbn [List.hd chain]. intros (?&?&Hc) Hd Hn Hy Hf Hp.
  split; [done|]. split; [done|]. cbn in Hd. apply NoDup_cons in Hd as [Hy' Hd].
  eapply chain_frame; [| |done]; [done|]. intros x Hx. apply Hp; [by right|].
  by intros ->.
Qed.

(** [s'] is [s] with [n] linked in between [p] and [q]. *)
Record linked_in (s s' : links) (p n q : Z) : Prop := {
  li_next : nx s' n = q; li_prev : pv s' n = p;
  li_pred : nx s' p = n; li_succ : pv s' q = n;
  li_nx : forall x, x <> n -> x <> p -> nx s' x = nx s x;
  li_pv : forall x, x <> n -> x <> q -> pv s' x = pv s x }.

Lemma ring_parts (l : Z) xs ys :
  NoDup (l :: xs ++ ys) ->
  NoDup (l :: xs) /\ NoDup (ys ++ [l]) /\
  (forall x, x ∈ l :: xs -> x ∉ ys) /\ (forall x, x ∈ xs -> x ∉ ys ++ [l]).
Proof.
  intros Hd. rewrite <- Permutation_cons_append.
  apply NoDup_cons in Hd as [Hl (Hx&Hxy&Hy)%NoDup_app].
  rewrite elem_of_app in Hl. rewrite !NoDup_cons.
  repeat split; try tauto.
  - intros x [->|?]%elem_of_cons; [tauto|by apply Hxy].
  - intros x Hin. rewrite elem_of_app, list_elem_of_singleton. intros [?| ->]; [|tauto].
    by apply (Hxy x).
Qed.

Lemma hd_elem (ys : list Z) b : List.hd b ys ∈ ys ++ [b].
Proof. destruct ys; cbn; constructor. Qed.

Lemma linked_in_rep s s' l xs ys n :
  dlist_rep s l (xs ++ ys) -> n ∉ l :: xs ++ ys -> n <> NULL ->
  linked_in s s' (List.last xs l) n (List.hd l ys) -> dlist_rep s' l (xs ++ n :: ys).
Proof.
  intros [Hc Hd H0] Hn Hnz [H1 H2 H3 H4 H5 H6].
  pose proof (last_elem xs l) as Hp. pose proof (hd_elem ys l) as Hq.
  apply chain_split in Hc as [Hx Hy].
  destruct (ring_parts _ _ _ Hd) as (Hdx&Hdy&Hxy&Hyx). split.
  - apply chain_split. split.
    + eapply chain_end; [done..| |].
      * intros x Hin ?. apply H5; [|done]. intros ->. apply Hn. clear -Hin. set_solver.
      * intros x Hin. apply H6; [intros ->; apply Hn; clear -Hin; set_solver|].
        intros ->. by apply (Hyx _ Hin).
    + split; [done|]. split; [done|]. eapply chain_start; [done..| |].
      * intros x Hin. apply H5; [intros ->; apply Hn; clear -Hin; set_solver|].
        intros ->. by apply (Hxy _ Hp).
      * intros x Hin ?. apply H6; [|done]. intros ->. apply Hn. clear -Hin. set_solver.
  - rewrite <- Permutation_middle.
    change (NoDup (l :: n :: (xs ++ ys))). rewrite Permutation_swap. apply NoDup_cons. done.
  - clear -H0 Hnz. set_solver.
Qed.

Lemma chain_next s a ns b : chain s a ns b -> nx s a = List.hd b ns.
Proof. destruct ns; cbn; tauto. Qed.

Lemma chain_prev s a ns b : chain s a ns b -> pv s b = List.last ns a.
Proof.
  revert a. induction ns as [|n ns IH]; intros a; [cbn; tauto|].
  rewrite last_cons_default. intros (_&_&?). by apply IH.
Qed.

Ltac no_if t := lazymatch t with context [if _ then _ else _] => fail | _ => idtac end.

(** Case analysis on the address comparisons of stores, innermost first. *)
Ltac upd_cases :=
  unfold upd;
  repeat match goal with
  | |- context [?a =? ?b] => no_if a; no_if b; destruct (Z.eqb_spec a b); try congruence
  end.
Ltac solve_upd := upd_cases; congruence.

(** The four stores of an insertion between [p] and [q]. *)
Lemma linked_in_stores s s' p n q :
  n <> p -> n <> q ->
  (forall x, nx s' x = upd (upd (nx s) n q) p n x) ->
  (forall x, pv s' x = upd (upd (pv s) n p) q n x) -> linked_in s s' p n q.
Proof.
  intros Hp Hq Hx Hv.
  split; try (rewrite ?Hx, ?Hv; solve_upd); intros x ? ?; rewrite ?Hx, ?Hv; solve_upd.
Qed.

Lemma append_rep s l ns n :
  dlist_rep s l ns -> n ∉ l :: ns -> n <> NULL -> dlist_rep (sys_dlist_append l n s) l (ns ++ [n]).
Proof.
  intros Hr Hn H0. rewrite <- (app_nil_r ns) in Hr, Hn.
  apply (linked_in_rep s _ _ _ [] _ Hr Hn H0). rewrite app_nil_r in Hr, Hn.
  pose proof (chain_prev _ _ _ _ (dr_chain _ _ _ Hr)) as Hp. pose proof (last_elem ns l).
  assert (n <> l) by (intros ->; apply Hn; constructor).
  assert (n <> List.last ns l) by (intros ->; set_solver).
  apply linked_in_stores; [done..| |]; intros x; cbn; rewrite <- Hp in *; solve_upd.
Qed.

Lemma prepend_rep s l ns n :
  dlist_rep s l ns -> n ∉ l :: ns -> n <> NULL -> dlist_rep (sys_dlist_prepend l n s) l (n :: ns).
Proof.
  intros Hr Hn H0. apply (linked_in_rep s _ _ [] ns _ Hr Hn H0).
  pose proof (chain_next _ _ _ _ (dr_chain _ _ _ Hr)) as Hp. pose proof (hd_elem ns l).
  assert (n <> l) by (intros ->; apply Hn; constructor).
  assert (n <> List.hd l ns) by (intros ->; set_solver).
  apply linked_in_stores; [done..| |]; intros x; cbn; rewrite <- Hp in *; solve_upd.
Qed.

Lemma insert_rep s l xs y ys n :
  dlist_rep s l (xs ++ y :: ys) -> n ∉ l :: xs ++ y :: ys -> n <> NULL ->
  dlist_rep (sys_dlist_insert y n s) l (xs ++ n :: y :: ys).
Proof.
  intros Hr Hn H0. apply (linked_in_rep s _ _ xs (y :: ys) _ Hr Hn H0).
  destruct (proj1 (chain_split _ _ _ _ _) (dr_chain _ _ _ Hr)) as [Hx _].
  apply chain_prev in Hx. cbn [List.hd] in *. pose proof (last_elem xs l).
  assert (n <> y) by set_solver.
  assert (n <> List.last xs l) by (intros ->; set_solver).
  apply linked_in_stores; [done..| |]; intros x; cbn; rewrite <- Hx in *; solve_upd.
Qed.

Lemma remove_rep s l xs n ys :
  dlist_rep s l (xs ++ n :: ys) ->
  dlist_rep (sys_dlist_remove n s) l (xs ++ ys) /\
  sys_dnode_is_linked n (sys_dlist_remove n s) = false.
Proof.
  intros [Hc Hd H0]. split; [|cbn; unfold sys_dnode_is_linked; cbn; unfold upd;
    by rewrite Z.eqb_refl].
  destruct (ring_parts _ _ _ Hd) as (Hdx&Hdy&Hxy&Hyx).
  assert (Hnd : NoDup (l :: xs ++ ys)).
  { rewrite <- Permutation_middle, Permutation_swap in Hd. by apply NoDup_cons in Hd as [_ ?]. }
  apply chain_split in Hc as [Hx (Hnx&Hpv&Hy)]. cbn [List.hd] in Hx.
  pose proof (chain_next _ _ _ _ Hy) as Hq. pose proof (last_elem xs l) as Hp.
  assert (Hnp : n <> List.last xs l) by (intros ->; apply (Hxy _ Hp); constructor).
  assert (Hnq : n <> List.hd l ys).
  { intros Heq. cbn in Hdy. apply NoDup_cons in Hdy as [Hny _]. apply Hny.
    rewrite Heq. apply hd_elem. }
  destruct (ring_parts _ _ _ Hnd) as (Hdx'&Hdy'&Hxy'&Hyx').
  split; [|done|clear -H0; set_solver].
  apply chain_split. split.
  - eapply chain_end; [done..|cbn; rewrite Hpv, Hq; solve_upd|cbn; rewrite Hpv, Hq; solve_upd| |].
    + intros x Hin ?. cbn. rewrite Hpv, Hq. upd_cases. subst. exfalso. apply (Hxy _ Hin). constructor.
    + intros x Hin. cbn. rewrite Hpv, Hq. upd_cases; subst; exfalso; apply (Hyx _ Hin).
      * constructor.
      * right. rewrite Hq. apply hd_elem.
  - eapply chain_start; [done..|cbn; rewrite Hpv, Hq; solve_upd|cbn; rewrite Hpv, Hq; solve_upd| |].
    + intros x Hin. cbn. rewrite Hpv, Hq. upd_cases; subst; exfalso.
      * cbn in Hdy. apply NoDup_cons in Hdy as [Hny _]. apply Hny. apply elem_of_app. by left.
      * by apply (Hxy' _ Hp).
    + intros x Hin ?. cbn. rewrite Hpv, Hq. upd_cases; subst; exfalso.
      cbn in Hdy. by apply NoDup_cons in Hdy as [Hny _].
Qed.

Lemma empty_rep s l ns :
  dlist_rep s l ns -> sys_dlist_is_empty l s = bool_decide (ns = []).
Proof.
  intros [Hc Hd _]. unfold sys_dlist_is_empty. rewrite (chain_next _ _ _ _ Hc).
  destruct ns as [|n ns]; cbn; [apply Z.eqb_refl|].
  apply Z.eqb_neq. intros ->. apply NoDup_cons in Hd as [Hd _]. apply Hd. constructor.
Qed.

Lemma peek_head_rep s l ns : dlist_rep s l ns -> sys_dlist_peek_head l s = List.hd NULL ns.
Proof.
  intros Hr. unfold sys_dlist_peek_head. rewrite (empty_rep _ _ _ Hr).
  rewrite (chain_next _ _ _ _ (dr_chain _ _ _ Hr)). by destruct ns.
Qed.

Lemma peek_next_rep s l xs y ys :
  dlist_rep s l (xs ++ y :: ys) -> sys_dlist_peek_next l y s = List.hd NULL ys.
Proof.
  intros [Hc Hd H0]. unfold sys_dlist_peek_next, sys_dlist_peek_next_no_check.
  rewrite (chain_prev _ _ _ _ Hc). apply chain_split in Hc as [_ (_&_&Hc)].
  destruct (Z.eqb_spec y NULL) as [->|Hy]; [set_solver|]. cbn [negb].
  rewrite (chain_next _ _ _ _ Hc).
  replace (List.last (xs ++ y :: ys) l) with (List.last ys y).
  - destruct ys as [|z ys]; cbn [List.hd]; [by rewrite Z.eqb_refl|].
    rewrite last_cons_default. pose proof (last_elem ys z) as Hz.
    destruct (Z.eqb_spec y (List.last ys z)) as [Heq|]; [|done].
    rewrite <- Heq in Hz. apply NoDup_cons in Hd as [_ (_&_&Hd)%NoDup_app].
    by apply NoDup_cons in Hd as [? _].
  - clear. revert l. induction xs as [|x xs IH]; intros l; cbn [app]; by rewrite last_cons_default.
Qed.

(** ** List operations as a specification *)

Fixpoint insert_before (cond : Z -> bool) (n : Z) (ns : list Z) : list Z :=
  match ns with
  | [] => [n]
  | x :: r => if cond x then n :: x :: r else x :: insert_before cond n r
  end.

Lemma insert_at_pos_rep s l cond fuel xs ys :
  dlist_rep s l (xs ++ ys) -> (length ys <= fuel)%nat ->
  exists us vs, ys = us ++ vs /\ insert_at_pos fuel l (List.hd NULL ys) cond s = List.hd NULL vs /\
    forall n, insert_before cond n ys = us ++ n :: vs.
Proof.
  revert xs ys. induction fuel as [|fuel IH]; intros xs ys Hr Hl.
  { destruct ys; [|cbn in Hl; lia]. by exists [], []. }
  destruct ys as [|y ys]; [by exists [], []|]. cbn [insert_at_pos List.hd insert_before].
  pose proof (dr_null _ _ _ Hr) as H0.
  destruct (Z.eqb_spec y NULL) as [->|Hy]; [set_solver|]. cbn [negb andb].
  destruct (cond y) eqn:E; cbn [negb]; [by exists [], (y :: ys)|].
  rewrite (peek_next_rep _ _ _ _ _ Hr).
  replace (xs ++ y :: ys) with ((xs ++ [y]) ++ ys) in Hr by (by rewrite <- app_assoc).
  destruct (IH _ _ Hr) as (us&vs&->&Hp&Hi); [cbn in Hl; lia|].
  exists (y :: us), vs. split; [done|]. split; [done|]. intros n. by rewrite Hi.
Qed.

Lemma insert_at_rep s l ns n cond fuel :
  dlist_rep s l ns -> n ∉ l :: ns -> n <> NULL -> (length ns <= fuel)%nat ->
  dlist_rep (sys_dlist_insert_at fuel l n cond s) l (insert_before cond n ns).
Proof.
  intros Hr Hn H0 Hf. unfold sys_dlist_insert_at.
  rewrite (empty_rep _ _ _ Hr), (peek_head_rep _ _ _ Hr).
  destruct (insert_at_pos_rep s l cond fuel [] ns Hr Hf) as (us&vs&->&->&->).
  case_bool_decide as He.
  - apply app_nil in He as [-> ->]. by apply (append_rep s l [] n).
  - destruct vs as [|v vs]; cbn [List.hd].
    + rewrite app_nil_r in *. by apply append_rep.
    + pose proof (dr_null _ _ _ Hr). destruct (Z.eqb_spec v NULL) as [->|]; [set_solver|].
      by apply insert_rep.
Qed.

Inductive dlist_op :=
| DAppend (n : Z) | DPrepend (n : Z) | DInsertAt (cond : Z -> bool) (n : Z)
| DRemove (n : Z) | DGet.

Definition dlist_exec (fuel : nat) (l : Z) (o : dlist_op) (s : links) : links :=
  match o with
  | DAppend n => sys_dlist_append l n s
  | DPrepend n => sys_dlist_prepend l n s
  | DInsertAt cond n => sys_dlist_insert_at fuel l n cond s
  | DRemove n => sys_dlist_remove n s
  | DGet => (sys_dlist_get l s).2
  end.

Definition list_exec (o : dlist_op) (ns : list Z) : list Z :=
  match o with
  | DAppend n => ns ++ [n]
  | DPrepend n => n :: ns
  | DInsertAt cond n => insert_before cond n ns
  | DRemove n => filter (fun x => x <> n) ns
  | DGet => tail ns
  end.

(** Nodes put in are new, nodes taken out are members. *)
Definition dlist_op_ok (l : Z) (o : dlist_op) (ns : list Z) : bool :=
  match o with
  | DAppend n | DPrepend n | DInsertAt _ n => bool_decide ((n ∉ l :: ns) /\ n <> NULL)
  | DRemove n => bool_decide (n ∈ ns)
  | DGet => true
  end.

Fixpoint list_run (l : Z) (ops : list dlist_op) (ns : list Z) : option (list Z) :=
  match ops with
  | [] => Some ns
  | o :: ops => if dlist_op_ok l o ns then list_run l ops (list_exec o ns) else None
  end.

Definition dlist_run (fuel : nat) (l : Z) (ops : list dlist_op) (s : links) : links :=
  foldl (fun s o => dlist_exec fuel l o s) s ops.

Lemma filter_out (xs ys : list Z) n :
  n ∉ xs -> n ∉ ys -> filter (fun x => x <> n) (xs ++ n :: ys) = xs ++ ys.
Proof.
  intros Hx Hy. rewrite filter_app, filter_cons_False by tauto.
  by rewrite !filter_absent.
Qed.

Lemma get_rep s l ns :
  dlist_rep s l ns ->
  (sys_dlist_get l s).1 = List.hd NULL ns /\ dlist_rep (sys_dlist_get l s).2 l (tail ns).
Proof.
  intros Hr. unfold sys_dlist_get. rewrite (empty_rep _ _ _ Hr).
  rewrite (chain_next _ _ _ _ (dr_chain _ _ _ Hr)). destruct ns as [|n ns]; [done|].
  split; [done|]. by apply (remove_rep s l [] n ns).
Qed.

Lemma insert_before_length cond n ns : length (insert_before cond n ns) = S (length ns).
Proof. induction ns as [|x ns IH]; cbn; [done|]. destruct (cond x); cbn; lia. Qed.

Lemma dlist_exec_rep fuel l o s ns :
  dlist_rep s l ns -> dlist_op_ok l o ns = true -> (length ns <= fuel)%nat ->
  dlist_rep (dlist_exec fuel l o s) l (list_exec o ns) /\ (length (list_exec o ns) <= S (length ns))%nat.
Proof.
  intros Hr Hok Hf. destruct o as [n|n|cond n|n|]; cbn in *;
    try apply bool_decide_eq_true in Hok.
  - destruct Hok. rewrite length_app. split; [by apply append_rep|cbn; lia].
  - destruct Hok. split; [by apply prepend_rep|cbn; lia].
  - destruct Hok. rewrite insert_before_length. split; [by apply insert_at_rep|lia].
  - apply list_elem_of_split in Hok as (xs&ys&->). pose proof (dr_nodup _ _ _ Hr) as Hd.
    apply NoDup_cons in Hd as [_ (_&Hx&Hy%NoDup_cons)%NoDup_app].
    rewrite filter_out; [|intros Hin; apply (Hx _ Hin); constructor|tauto].
    split; [by apply remove_rep|]. rewrite !length_app. cbn. lia.
  - split; [by apply get_rep|]. destruct ns; cbn; lia.
Qed.

(** C22. The pointer operations of the intrusive list implement list operations:
    after any sequence of appends, prepends, conditional insertions, removals of
    members and gets, on nodes used according to the interface, the ring holds
    exactly the nodes, in the order, that the same operations on a list give. *)
Theorem dlist_refines_list (fuel : nat) (l : Z) (ops : list dlist_op) (s : links) (ns ns' : list Z)
    (Hr : dlist_rep s l ns) (Hf : (length ns + length ops <= fuel)%nat)
    (Hrun : list_run l ops ns = Some ns') :
  dlist_rep (dlist_run fuel l ops s) l ns' /\
  sys_dlist_peek_head l (dlist_run fuel l ops s) = List.hd NULL ns' /\
  (sys_dlist_is_empty l (dlist_run fuel l ops s) = true <-> ns' = []).
Proof.
  enough (H : dlist_rep (dlist_run fuel l ops s) l ns').
  { split; [done|]. split; [by apply peek_head_rep|].
    rewrite (empty_rep _ _ _ H). apply bool_decide_eq_true. }
  revert s ns Hr Hf Hrun. induction ops as [|o ops IH]; intros s ns Hr Hf Hrun; cbn in *.
  - by injection Hrun as <-.
  - destruct (dlist_op_ok l o ns) eqn:Hok; [|done].
    destruct (dlist_exec_rep fuel l o s ns) as [Hr' Hl]; [done..|lia|].
    apply (IH _ _ Hr'); [lia|done].
Qed.

Lemma dlist_refines_list_witness :
  let ops := [DAppend 10; DPrepend 11; DInsertAt (fun x => x =? 10) 12; DRemove 11; DGet] in
  let s := sys_dlist_init 1 (mk_links (fun _ => 0) (fun _ => 0)) in
  list_run 1 ops [] = Some [10] /\
  dlist_rep (dlist_run 5 1 ops s) 1 [10] /\
  sys_dlist_peek_head 1 (dlist_run 5 1 ops s) = 10 /\
  (sys_dlist_is_empty 1 (dlist_run 5 1 ops s) = true <-> [10] = []).
Proof.
  intros ops s. split; [vm_compute; reflexivity|].
  apply (dlist_refines_list 5 1 ops s [] [10]); [|cbn; lia|vm_compute; reflexivity].
  split; [vm_compute; split; reflexivity|apply NoDup_singleton|set_solver].
Defined.
