(* ===== verification/TimeUnits.v ===== *)
(** Time unit conversions ([include/sys/time_units.h]).

    [z_tmcvt] is the conversion gadget with its three algorithms; the functions
    generated from it convert between milliseconds, microseconds, nanoseconds,
    hardware cycles and ticks at the rates of the board (32768 Hz for both the
    RTC cycles and the ticks). *)
From Stdlib Require Import ZArith Lia Bool.
From stdpp Require Import base numbers.
From S2P Require Import Prelude.
Open Scope Z_scope.

(** [t] is 64-bit, the rates are 32-bit. *)
Definition z_tmcvt (t from_hz to_hz : Z) (const_hz result32 round_up round_off : bool) : Z :=
  let mul_ratio := const_hz && (from_hz <? to_hz) && (to_hz mod from_hz =? 0) in
  let div_ratio := const_hz && (to_hz <? from_hz) && (from_hz mod to_hz =? 0) in
  if from_hz =? to_hz then (if result32 then u32 t else t)
  else
    let off :=
      if negb mul_ratio then
        let rdivisor := if div_ratio then from_hz / to_hz else from_hz in
        if round_up then u32 (rdivisor - 1) else if round_off then rdivisor / 2 else 0
      else 0 in
    if div_ratio then
      let t := u64 (t + off) in
      if result32 && (t <? 2 ^ 32) then u32 t / (from_hz / to_hz) else t / (from_hz / to_hz)
    else if mul_ratio then
      if result32 then u32 (u32 t * (to_hz / from_hz)) else u64 (t * (to_hz / from_hz))
    else
      if result32 then u32 (u64 (u64 (t * to_hz) + off) / from_hz)
      else u64 (u64 (t * to_hz) + off) / from_hz.

Definition CONFIG_SYS_CLOCK_HW_CYCLES_PER_SEC : Z := 32768.
Definition CONFIG_SYS_CLOCK_TICKS_PER_SEC : Z := 32768.

Definition sys_clock_hw_cycles_per_sec : Z := CONFIG_SYS_CLOCK_HW_CYCLES_PER_SEC.
Definition Z_HZ_ms : Z := 1000.
Definition Z_HZ_us : Z := 1000000.
Definition Z_HZ_ns : Z := 1000000000.
Definition Z_HZ_cyc : Z := sys_clock_hw_cycles_per_sec.
Definition Z_HZ_ticks : Z := CONFIG_SYS_CLOCK_TICKS_PER_SEC.
Definition Z_CCYC : bool := true.

Definition k_ms_to_cyc_floor32 (t : Z) : Z :=
  u32 (z_tmcvt (u32 t) Z_HZ_ms Z_HZ_cyc Z_CCYC true false false).
Definition k_ms_to_cyc_floor64 (t : Z) : Z :=
  u64 (z_tmcvt (u64 t) Z_HZ_ms Z_HZ_cyc Z_CCYC false false false).
Definition k_ms_to_cyc_near32 (t : Z) : Z :=
  u32 (z_tmcvt (u32 t) Z_HZ_ms Z_HZ_cyc Z_CCYC true false true).
Definition k_ms_to_cyc_near64 (t : Z) : Z :=
  u64 (z_tmcvt (u64 t) Z_HZ_ms Z_HZ_cyc Z_CCYC false false true).
Definition k_ms_to_cyc_ceil32 (t : Z) : Z :=
  u32 (z_tmcvt (u32 t) Z_HZ_ms Z_HZ_cyc Z_CCYC true true false).
Definition k_ms_to_cyc_ceil64 (t : Z) : Z :=
  u64 (z_tmcvt (u64 t) Z_HZ_ms Z_HZ_cyc Z_CCYC false true false).
Definition k_ms_to_ticks_floor32 (t : Z) : Z :=
  u32 (z_tmcvt (u32 t) Z_HZ_ms Z_HZ_ticks true true false false).
Definition k_ms_to_ticks_floor64 (t : Z) : Z :=
  u64 (z_tmcvt (u64 t) Z_HZ_ms Z_HZ_ticks true false false false).
Definition k_ms_to_ticks_near32 (t : Z) : Z :=
  u32 (z_tmcvt (u32 t) Z_HZ_ms Z_HZ_ticks true true false true).
Definition k_ms_to_ticks_near64 (t : Z) : Z :=
  u64 (z_tmcvt (u64 t) Z_HZ_ms Z_HZ_ticks true false false true).
Definition k_ms_to_ticks_ceil32 (t : Z) : Z :=
  u32 (z_tmcvt (u32 t) Z_HZ_ms Z_HZ_ticks true true true false).
Definition k_ms_to_ticks_ceil64 (t : Z) : Z :=
  u64 (z_tmcvt (u64 t) Z_HZ_ms Z_HZ_ticks true false true false).
Definition k_us_to_cyc_floor32 (t : Z) : Z :=
  u32 (z_tmcvt (u32 t) Z_HZ_us Z_HZ_cyc Z_CCYC true false false).
Definition k_us_to_cyc_floor64 (t : Z) : Z :=
  u64 (z_tmcvt (u64 t) Z_HZ_us Z_HZ_cyc Z_CCYC false false false).
Definition k_us_to_cyc_near32 (t : Z) : Z :=
  u32 (z_tmcvt (u32 t) Z_HZ_us Z_HZ_cyc Z_CCYC true false true).
Definition k_us_to_cyc_near64 (t : Z) : Z :=
  u64 (z_tmcvt (u64 t) Z_HZ_us Z_HZ_cyc Z_CCYC false false true).
Definition k_us_to_cyc_ceil32 (t : Z) : Z :=
  u32 (z_tmcvt (u32 t) Z_HZ_us Z_HZ_cyc Z_CCYC true true false).
Definition k_us_to_cyc_ceil64 (t : Z) : Z :=
  u64 (z_tmcvt (u64 t) Z_HZ_us Z_HZ_cyc Z_CCYC false true false).
Definition k_us_to_ticks_floor32 (t : Z) : Z :=
  u32 (z_tmcvt (u32 t) Z_HZ_us Z_HZ_ticks true true false false).
Definition k_us_to_ticks_floor64 (t : Z) : Z :=
  u64 (z_tmcvt (u64 t) Z_HZ_us Z_HZ_ticks true false false false).
Definition k_us_to_ticks_near32 (t : Z) : Z :=
  u32 (z_tmcvt (u32 t) Z_HZ_us Z_HZ_ticks true true false true).
Definition k_us_to_ticks_near64 (t : Z) : Z :=
  u64 (z_tmcvt (u64 t) Z_HZ_us Z_HZ_ticks true false false true).
Definition k_us_to_ticks_ceil32 (t : Z) : Z :=
  u32 (z_tmcvt (u32 t) Z_HZ_us Z_HZ_ticks true true true false).
Definition k_us_to_ticks_ceil64 (t : Z) : Z :=
  u64 (z_tmcvt (u64 t) Z_HZ_us Z_HZ_ticks true false true false).
Definition k_ns_to_cyc_floor32 (t : Z) : Z :=
  u32 (z_tmcvt (u32 t) Z_HZ_ns Z_HZ_cyc Z_CCYC true false false).
Definition k_ns_to_cyc_floor64 (t : Z) : Z :=
  u64 (z_tmcvt (u64 t) Z_HZ_ns Z_HZ_cyc Z_CCYC false false false).
Definition k_ns_to_cyc_near32 (t : Z) : Z :=
  u32 (z_tmcvt (u32 t) Z_HZ_ns Z_HZ_cyc Z_CCYC true false true).
Definition k_ns_to_cyc_near64 (t : Z) : Z :=
  u64 (z_tmcvt (u64 t) Z_HZ_ns Z_HZ_cyc Z_CCYC false false true).
Definition k_ns_to_cyc_ceil32 (t : Z) : Z :=
  u32 (z_tmcvt (u32 t) Z_HZ_ns Z_HZ_cyc Z_CCYC true true false).
Definition k_ns_to_cyc_ceil64 (t : Z) : Z :=
  u64 (z_tmcvt (u64 t) Z_HZ_ns Z_HZ_cyc Z_CCYC false true false).
Definition k_ns_to_ticks_floor32 (t : Z) : Z :=
  u32 (z_tmcvt (u32 t) Z_HZ_ns Z_HZ_ticks true true false false).
Definition k_ns_to_ticks_floor64 (t : Z) : Z :=
  u64 (z_tmcvt (u64 t) Z_HZ_ns Z_HZ_ticks true false false false).
Definition k_ns_to_ticks_near32 (t : Z) : Z :=
  u32 (z_tmcvt (u32 t) Z_HZ_ns Z_HZ_ticks true true false true).
Definition k_ns_to_ticks_near64 (t : Z) : Z :=
  u64 (z_tmcvt (u64 t) Z_HZ_ns Z_HZ_ticks true false false true).
Definition k_ns_to_ticks_ceil32 (t : Z) : Z :=
  u32 (z_tmcvt (u32 t) Z_HZ_ns Z_HZ_ticks true true true false).
Definition k_ns_to_ticks_ceil64 (t : Z) : Z :=
  u64 (z_tmcvt (u64 t) Z_HZ_ns Z_HZ_ticks true false true false).
Definition k_cyc_to_ms_floor32 (t : Z) : Z :=
  u32 (z_tmcvt (u32 t) Z_HZ_cyc Z_HZ_ms Z_CCYC true false false).
Definition k_cyc_to_ms_floor64 (t : Z) : Z :=
  u64 (z_tmcvt (u64 t) Z_HZ_cyc Z_HZ_ms Z_CCYC false false false).
Definition k_cyc_to_ms_near32 (t : Z) : Z :=
  u32 (z_tmcvt (u32 t) Z_HZ_cyc Z_HZ_ms Z_CCYC true false true).
Definition k_cyc_to_ms_near64 (t : Z) : Z :=
  u64 (z_tmcvt (u64 t) Z_HZ_cyc Z_HZ_ms Z_CCYC false false true).
Definition k_cyc_to_ms_ceil32 (t : Z) : Z :=
  u32 (z_tmcvt (u32 t) Z_HZ_cyc Z_HZ_ms Z_CCYC true true false).
Definition k_cyc_to_ms_ceil64 (t : Z) : Z :=
  u64 (z_tmcvt (u64 t) Z_HZ_cyc Z_HZ_ms Z_CCYC false true false).
Definition k_cyc_to_us_floor32 (t : Z) : Z :=
  u32 (z_tmcvt (u32 t) Z_HZ_cyc Z_HZ_us Z_CCYC true false false).
Definition k_cyc_to_us_floor64 (t : Z) : Z :=
  u64 (z_tmcvt (u64 t) Z_HZ_cyc Z_HZ_us Z_CCYC false false false).
Definition k_cyc_to_us_near32 (t : Z) : Z :=
  u32 (z_tmcvt (u32 t) Z_HZ_cyc Z_HZ_us Z_CCYC true false true).
Definition k_cyc_to_us_near64 (t : Z) : Z :=
  u64 (z_tmcvt (u64 t) Z_HZ_cyc Z_HZ_us Z_CCYC false false true).
Definition k_cyc_to_us_ceil32 (t : Z) : Z :=
  u32 (z_tmcvt (u32 t) Z_HZ_cyc Z_HZ_us Z_CCYC true true false).
Definition k_cyc_to_us_ceil64 (t : Z) : Z :=
  u64 (z_tmcvt (u64 t) Z_HZ_cyc Z_HZ_us Z_CCYC false true false).
Definition k_cyc_to_ns_floor32 (t : Z) : Z :=
  u32 (z_tmcvt (u32 t) Z_HZ_cyc Z_HZ_ns Z_CCYC true false false).
Definition k_cyc_to_ns_floor64 (t : Z) : Z :=
  u64 (z_tmcvt (u64 t) Z_HZ_cyc Z_HZ_ns Z_CCYC false false false).
Definition k_cyc_to_ns_near32 (t : Z) : Z :=
  u32 (z_tmcvt (u32 t) Z_HZ_cyc Z_HZ_ns Z_CCYC true false true).
Definition k_cyc_to_ns_near64 (t : Z) : Z :=
  u64 (z_tmcvt (u64 t) Z_HZ_cyc Z_HZ_ns Z_CCYC false false true).
Definition k_cyc_to_ns_ceil32 (t : Z) : Z :=
  u32 (z_tmcvt (u32 t) Z_HZ_cyc Z_HZ_ns Z_CCYC true true false).
Definition k_cyc_to_ns_ceil64 (t : Z) : Z :=
  u64 (z_tmcvt (u64 t) Z_HZ_cyc Z_HZ_ns Z_CCYC false true false).
Definition k_cyc_to_ticks_floor32 (t : Z) : Z :=
  u32 (z_tmcvt (u32 t) Z_HZ_cyc Z_HZ_ticks Z_CCYC true false false).
Definition k_cyc_to_ticks_floor64 (t : Z) : Z :=
  u64 (z_tmcvt (u64 t) Z_HZ_cyc Z_HZ_ticks Z_CCYC false false false).
Definition k_cyc_to_ticks_near32 (t : Z) : Z :=
  u32 (z_tmcvt (u32 t) Z_HZ_cyc Z_HZ_ticks Z_CCYC true false true).
Definition k_cyc_to_ticks_near64 (t : Z) : Z :=
  u64 (z_tmcvt (u64 t) Z_HZ_cyc Z_HZ_ticks Z_CCYC false false true).
Definition k_cyc_to_ticks_ceil32 (t : Z) : Z :=
  u32 (z_tmcvt (u32 t) Z_HZ_cyc Z_HZ_ticks Z_CCYC true true false).
Definition k_cyc_to_ticks_ceil64 (t : Z) : Z :=
  u64 (z_tmcvt (u64 t) Z_HZ_cyc Z_HZ_ticks Z_CCYC false true false).
Definition k_ticks_to_ms_floor32 (t : Z) : Z :=
  u32 (z_tmcvt (u32 t) Z_HZ_ticks Z_HZ_ms true true false false).
Definition k_ticks_to_ms_floor64 (t : Z) : Z :=
  u64 (z_tmcvt (u64 t) Z_HZ_ticks Z_HZ_ms true false false false).
Definition k_ticks_to_ms_near32 (t : Z) : Z :=
  u32 (z_tmcvt (u32 t) Z_HZ_ticks Z_HZ_ms true true false true).
Definition k_ticks_to_ms_near64 (t : Z) : Z :=
  u64 (z_tmcvt (u64 t) Z_HZ_ticks Z_HZ_ms true false false true).
Definition k_ticks_to_ms_ceil32 (t : Z) : Z :=
  u32 (z_tmcvt (u32 t) Z_HZ_ticks Z_HZ_ms true true true false).
Definition k_ticks_to_ms_ceil64 (t : Z) : Z :=
  u64 (z_tmcvt (u64 t) Z_HZ_ticks Z_HZ_ms true false true false).
Definition k_ticks_to_us_floor32 (t : Z) : Z :=
  u32 (z_tmcvt (u32 t) Z_HZ_ticks Z_HZ_us true true false false).
Definition k_ticks_to_us_floor64 (t : Z) : Z :=
  u64 (z_tmcvt (u64 t) Z_HZ_ticks Z_HZ_us true false false false).
Definition k_ticks_to_us_near32 (t : Z) : Z :=
  u32 (z_tmcvt (u32 t) Z_HZ_ticks Z_HZ_us true true false true).
Definition k_ticks_to_us_near64 (t : Z) : Z :=
  u64 (z_tmcvt (u64 t) Z_HZ_ticks Z_HZ_us true false false true).
Definition k_ticks_to_us_ceil32 (t : Z) : Z :=
  u32 (z_tmcvt (u32 t) Z_HZ_ticks Z_HZ_us true true true false).
Definition k_ticks_to_us_ceil64 (t : Z) : Z :=
  u64 (z_tmcvt (u64 t) Z_HZ_ticks Z_HZ_us true false true false).
Definition k_ticks_to_ns_floor32 (t : Z) : Z :=
  u32 (z_tmcvt (u32 t) Z_HZ_ticks Z_HZ_ns true true false false).
Definition k_ticks_to_ns_floor64 (t : Z) : Z :=
  u64 (z_tmcvt (u64 t) Z_HZ_ticks Z_HZ_ns true false false false).
Definition k_ticks_to_ns_near32 (t : Z) : Z :=
  u32 (z_tmcvt (u32 t) Z_HZ_ticks Z_HZ_ns true true false true).
Definition k_ticks_to_ns_near64 (t : Z) : Z :=
  u64 (z_tmcvt (u64 t) Z_HZ_ticks Z_HZ_ns true false false true).
Definition k_ticks_to_ns_ceil32 (t : Z) : Z :=
  u32 (z_tmcvt (u32 t) Z_HZ_ticks Z_HZ_ns true true true false).
Definition k_ticks_to_ns_ceil64 (t : Z) : Z :=
  u64 (z_tmcvt (u64 t) Z_HZ_ticks Z_HZ_ns true false true false).
Definition k_ticks_to_cyc_floor32 (t : Z) : Z :=
  u32 (z_tmcvt (u32 t) Z_HZ_ticks Z_HZ_cyc Z_CCYC true false false).
Definition k_ticks_to_cyc_floor64 (t : Z) : Z :=
  u64 (z_tmcvt (u64 t) Z_HZ_ticks Z_HZ_cyc Z_CCYC false false false).
Definition k_ticks_to_cyc_near32 (t : Z) : Z :=
  u32 (z_tmcvt (u32 t) Z_HZ_ticks Z_HZ_cyc Z_CCYC true false true).
Definition k_ticks_to_cyc_near64 (t : Z) : Z :=
  u64 (z_tmcvt (u64 t) Z_HZ_ticks Z_HZ_cyc Z_CCYC false false true).
Definition k_ticks_to_cyc_ceil32 (t : Z) : Z :=
  u32 (z_tmcvt (u32 t) Z_HZ_ticks Z_HZ_cyc Z_CCYC true true false).
Definition k_ticks_to_cyc_ceil64 (t : Z) : Z :=
  u64 (z_tmcvt (u64 t) Z_HZ_ticks Z_HZ_cyc Z_CCYC false true false).

(** ** The exact conversion

    [rounds up off n d r]: [r] is the quotient [n / d] rounded up, to the
    nearest (halves up) or down. *)
Definition rounds (round_up round_off : bool) (n d r : Z) : Prop :=
  if round_up then (r - 1) * d < n <= r * d
  else if round_off then (2 * r - 1) * d <= 2 * n < (2 * r + 1) * d
  else r * d <= n < (r + 1) * d.

(** Division with an offset is rounding. *)
Lemma offset_division (up off : bool) (n d : Z) :
  0 < d -> rounds up off n d
    ((n + (if up then d - 1 else if off then d / 2 else 0)) / d).
Proof.
  intros Hd. unfold rounds.
  pose proof (Z.div_mod d 2 ltac:(lia)). pose proof (Z.mod_pos_bound d 2 ltac:(lia)).
  destruct up; [|destruct off].
  - pose proof (Z.div_mod (n + (d - 1)) d ltac:(lia)).
    pose proof (Z.mod_pos_bound (n + (d - 1)) d ltac:(lia)). nia.
  - pose proof (Z.div_mod (n + d / 2) d ltac:(lia)).
    pose proof (Z.mod_pos_bound (n + d / 2) d ltac:(lia)). nia.
  - rewrite Z.add_0_r. pose proof (Z.div_mod n d ltac:(lia)).
    pose proof (Z.mod_pos_bound n d ltac:(lia)). nia.
Qed.

Lemma rounds_scale up off n d r k : 0 < k -> rounds up off n d r -> rounds up off (n * k) (d * k) r.
Proof. intros Hk. unfold rounds. destruct up, off; nia. Qed.

Lemma rounds_exact up off r d : 0 < d -> rounds up off (r * d) d r.
Proof. intros Hd. unfold rounds. destruct up, off; nia. Qed.

Lemma u32_u32_mul a b : u32 (u32 a * b) = u32 (a * b).
Proof. unfold u32. by rewrite Z.mul_mod_idemp_l by lia. Qed.

(** The value [z_tmcvt] returns when no product overflows, before truncation. *)
Lemma z_tmcvt_value (t from to : Z) (cst r32 up off : bool) :
  0 <= t -> 0 < from < 2 ^ 32 -> 0 < to < 2 ^ 32 -> t * to + from < 2 ^ 64 ->
  exists r, rounds up off (t * to) from r /\ 0 <= r < 2 ^ 64 /\
    (if r32 then u32 (z_tmcvt t from to cst r32 up off) = u32 r
     else z_tmcvt t from to cst r32 up off = r).
Proof.
  intros Ht Hf Hto Hmax. unfold z_tmcvt.
  assert (H64 : t < 2 ^ 64) by nia.
  destruct (Z.eqb_spec from to) as [->|Hne].
  { exists t. split; [apply rounds_exact; lia|]. split; [lia|]. destruct r32; [|done].
    apply u32_small, u32_range. }
  destruct (cst && (to <? from) && (from mod to =? 0)) eqn:Ediv.
  - apply andb_prop in Ediv as [[_ Hlt%Z.ltb_lt]%andb_prop Hm%Z.eqb_eq].
    destruct (Z.ltb_spec from to); [lia|]. rewrite andb_false_r. cbn [andb negb].
    set (k := from / to). assert (Hk : from = k * to) by (unfold k; pose proof (Z.div_mod from to); lia).
    assert (0 < k) by nia.
    set (o := if up then u32 (k - 1) else if off then k / 2 else 0).
    assert (Ho : o = if up then k - 1 else if off then k / 2 else 0)
      by (unfold o; destruct up; [apply u32_small; nia|done]).
    assert (Hob : 0 <= o <= k).
    { rewrite Ho. destruct up, off; [lia..| |lia]. pose proof (Z.div_lt k 2). 
      pose proof (Z.div_pos k 2). lia. }
    exists ((t + o) / k). split; [|split].
    + rewrite Hk, Ho. apply rounds_scale; [lia|]. apply offset_division; lia.
    + split; [apply Z.div_pos; lia|]. apply Z.div_lt_upper_bound; [lia|]. nia.
    + rewrite u64_small by nia. destruct r32; [|done]. cbn [andb].
      destruct (Z.ltb_spec (t + o) (2 ^ 32)); [|done]. by rewrite (u32_small (t + o)) by lia.
  - destruct (cst && (from <? to) && (to mod from =? 0)) eqn:Emul.
    + apply andb_prop in Emul as [[_ Hlt%Z.ltb_lt]%andb_prop Hm%Z.eqb_eq].
      set (k := to / from). assert (Hk : to = k * from) by (unfold k; pose proof (Z.div_mod to from); lia).
      exists (t * k). split; [|split].
      * rewrite Hk, Z.mul_assoc. apply rounds_exact; lia.
      * nia.
      * destruct r32; [|apply u64_small; nia]. rewrite u32_u32_mul. apply u32_small, u32_range.
    + cbn [negb].
      set (o := if up then u32 (from - 1) else if off then from / 2 else 0).
      assert (Ho : o = if up then from - 1 else if off then from / 2 else 0)
        by (unfold o; destruct up; [apply u32_small; lia|done]).
      assert (Hob : 0 <= o <= from).
      { rewrite Ho. destruct up, off; [lia..| |lia]. pose proof (Z.div_lt from 2).
        pose proof (Z.div_pos from 2). lia. }
      exists ((t * to + o) / from). split; [|split].
      * rewrite Ho. apply offset_division; lia.
      * split; [apply Z.div_pos; nia|]. apply Z.div_lt_upper_bound; [lia|]. nia.
      * rewrite (u64_small (t * to)), u64_small by nia. destruct r32; [|done].
        apply u32_small, u32_range.
Qed.

(** ** Properties *)

(** C38. Whichever of its algorithms it selects, [z_tmcvt] returns the exact
    quotient "t * to_hz / from_hz", rounded down, up or to the nearest as asked;
    with a 32-bit result, modulo 2^32.  The frequencies have 32 bits, and the
    product and the term added for rounding fit 64 bits. *)
Theorem z_tmcvt_exact (t from_hz to_hz : Z) (const_hz result32 round_up round_off : bool)
    (Ht : 0 <= t) (Hfrom : 0 < from_hz < 2 ^ 32) (Hto : 0 < to_hz < 2 ^ 32)
    (Hmax : t * to_hz + from_hz < 2 ^ 64) :
  exists r, rounds round_up round_off (t * to_hz) from_hz r /\
    (if result32 then u32 (z_tmcvt t from_hz to_hz const_hz result32 round_up round_off) = u32 r
     else z_tmcvt t from_hz to_hz const_hz result32 round_up round_off = r).
Proof.
  destruct (z_tmcvt_value t from_hz to_hz const_hz result32 round_up round_off)
    as (r&Hr&_&Hv); [done..|]. by exists r.
Qed.

Lemma z_tmcvt_exact_witness :
  exists r, rounds true false (10 * 32768) 1000 r /\ z_tmcvt 10 1000 32768 true false true false = r.
Proof. apply (z_tmcvt_exact 10 1000 32768 true false true false); lia. Defined.

(** Milliseconds survive the trip through ticks: rounding up on the way to
    ticks and down on the way back gives the same number, for every 32-bit
    millisecond count, and the ticks are never too few for the time asked. *)
Theorem ms_ticks_roundtrip (ms : Z) (Hms : 0 <= ms < 2 ^ 32) :
  k_ticks_to_ms_floor64 (k_ms_to_ticks_ceil64 ms) = ms /\
  ms * Z_HZ_ticks <= k_ms_to_ticks_ceil64 ms * Z_HZ_ms.
Proof.
  unfold k_ms_to_ticks_ceil64, k_ticks_to_ms_floor64.
  rewrite (u64_small ms) by lia.
  destruct (z_tmcvt_value ms Z_HZ_ms Z_HZ_ticks true false true false) as (r&Hr&Hb&->);
    [cbv [Z_HZ_ms Z_HZ_ticks CONFIG_SYS_CLOCK_TICKS_PER_SEC]; lia..|].
  rewrite (u64_small r) by lia. cbv [rounds Z_HZ_ms Z_HZ_ticks CONFIG_SYS_CLOCK_TICKS_PER_SEC] in *.
  rewrite (u64_small r) by lia.
  destruct (z_tmcvt_value r 32768 1000 true false false false) as (m&Hm&Hbm&->); [lia..|].
  rewrite u64_small by lia. cbv [rounds] in Hm. lia.
Qed.

Lemma ms_ticks_roundtrip_witness :
  k_ticks_to_ms_floor64 (k_ms_to_ticks_ceil64 10) = 10 /\
  10 * Z_HZ_ticks <= k_ms_to_ticks_ceil64 10 * Z_HZ_ms.
Proof. apply (ms_ticks_roundtrip 10). lia. Defined.
