(* ===== verification/Timeout.v ===== *)
(** The kernel's timeout queue ([kernel/timeout.c], [include/timeout_q.h]).

    The queue is the delta list of the source: each entry holds the ticks
    between its expiry and the expiry before it.  An entry is named by the
    [struct _timeout] it stands for, of any type [Id] with decidable equality;
    its handler is a parameter of [z_clock_announce].  What the timer driver
    reports through [z_clock_elapsed] is an argument of the operations that
    read it, one per reading; what is programmed through [z_clock_set_timeout]
    is the field [alarm].  Ticks are 64-bit ([CONFIG_TIMEOUT_64BIT]). *)
From Stdlib Require Import ZArith Lia Bool.
From stdpp Require Import base numbers list.
From S2P Require Import Prelude.
Open Scope Z_scope.

(** ** Timeout values ([include/sys_clock.h]) *)

Definition K_TICKS_FOREVER : Z := -1.

Record k_timeout_t := mk_timeout { ticks : Z }.

Definition K_TIMEOUT_EQ (a b : k_timeout_t) : bool := ticks a =? ticks b.
Definition K_NO_WAIT : k_timeout_t := mk_timeout 0.
Definition Z_TIMEOUT_TICKS (t : Z) : k_timeout_t := mk_timeout t.
Definition K_FOREVER : k_timeout_t := Z_TIMEOUT_TICKS K_TICKS_FOREVER.
Definition Z_TICK_ABS (t : Z) : Z := s64 (K_TICKS_FOREVER - 1 - t).
Definition INT_MAX : Z := 2 ^ 31 - 1.
Definition UINT64_MAX : Z := 2 ^ 64 - 1.
Definition MAX_WAIT : Z := INT_MAX.

(** The static state of [timeout.c], with the time slice field of the CPU
    record that [next_timeout] reads. *)
Record timeout_state (Id : Type) := mk_tq {
  curr_tick : Z;
  timeout_list : list (Id * Z);
  announce_remaining : Z;
  slice_ticks : Z;
  alarm : option (Z * bool) }.
Arguments mk_tq {Id} _ _ _ _ _.
Arguments curr_tick {Id} _.
Arguments timeout_list {Id} _.
Arguments announce_remaining {Id} _.
Arguments slice_ticks {Id} _.
Arguments alarm {Id} _.

(** A larger state that contains the timeout queue. *)
Class HasTimeouts (Id S : Type) := {
  get_tq : S -> timeout_state Id;
  put_tq : timeout_state Id -> S -> S;
  get_put_tq : forall q st, get_tq (put_tq q st) = q }.

Section operations.
Context {Id : Type} `{EqDecision Id}.
Implicit Types (q : timeout_state Id) (id : Id) (l : list (Id * Z)).

Definition set_list l q : timeout_state Id :=
  mk_tq (curr_tick q) l (announce_remaining q) (slice_ticks q) (alarm q).
Definition z_clock_set_timeout (t : Z) (idle : bool) q : timeout_state Id :=
  mk_tq (curr_tick q) (timeout_list q) (announce_remaining q) (slice_ticks q) (Some (t, idle)).
Definition set_slice_ticks (t : Z) q : timeout_state Id :=
  mk_tq (curr_tick q) (timeout_list q) (announce_remaining q) t (alarm q).

Definition first q : option (Id * Z) := head (timeout_list q).

(** [sys_dnode_is_linked(&to->node)] *)
Definition is_linked id q : bool := bool_decide (id ∈ (timeout_list q).*1).
Definition z_is_inactive_timeout id q : bool := negb (is_linked id q).

Fixpoint remove_timeout id l : list (Id * Z) :=
  match l with
  | [] => []
  | (i, d) :: r =>
      if bool_decide (i = id)
      then match r with [] => [] | (j, e) :: r => (j, s64 (e + d)) :: r end
      else (i, d) :: remove_timeout id r
  end.

Definition elapsed (clock : Z) q : Z := if announce_remaining q =? 0 then clock else 0.

Definition next_timeout (clock : Z) q : Z :=
  let ticks_elapsed := elapsed clock q in
  let ret :=
    match first q with
    | None => MAX_WAIT
    | Some (_, dticks) => Z.min MAX_WAIT (Z.max 0 (s64 (dticks - ticks_elapsed)))
    end in
  if nz (slice_ticks q) && (slice_ticks q <? ret) then slice_ticks q else ret.

(** The insertion loop of [z_add_timeout]. *)
Fixpoint insert_timeout id (dticks : Z) l : list (Id * Z) :=
  match l with
  | [] => [(id, dticks)]
  | (i, d) :: r =>
      if dticks <? d then (id, dticks) :: (i, s64 (d - dticks)) :: r
      else (i, d) :: insert_timeout id (s64 (dticks - d)) r
  end.

(** The ticks [z_add_timeout] asks for, from the clock reading of the absolute
    case. *)
Definition timeout_ticks (clock : Z) (timeout : k_timeout_t) q : Z :=
  let t := s64 (ticks timeout + 1) in
  let t := if 0 <=? Z_TICK_ABS t
           then s64 (Z_TICK_ABS t - (curr_tick q + elapsed clock q)) else t in
  Z.max 1 t.

(** [clk_abs], [clk_add] and [clk_set] are the three readings of the clock: for
    an absolute timeout, for the insertion, and for programming the timer. *)
Definition z_add_timeout (clk_abs clk_add clk_set : Z) id (timeout : k_timeout_t) q : timeout_state Id :=
  if K_TIMEOUT_EQ timeout K_FOREVER then q
  else
    let dticks := s64 (timeout_ticks clk_abs timeout q + elapsed clk_add q) in
    let q := set_list (insert_timeout id dticks (timeout_list q)) q in
    if bool_decide (fst <$> first q = Some id)
    then z_clock_set_timeout (next_timeout clk_set q) false q else q.

Definition z_abort_timeout id q : Z * timeout_state Id :=
  if is_linked id q then (0, set_list (remove_timeout id (timeout_list q)) q)
  else (- EINVAL, q).

(** The summing loop of [timeout_rem]. *)
Fixpoint ticks_until id (acc : Z) l : Z :=
  match l with
  | [] => acc
  | (i, d) :: r =>
      let acc := s64 (acc + d) in if bool_decide (i = id) then acc else ticks_until id acc r
  end.

Definition timeout_rem (clock : Z) id q : Z :=
  if z_is_inactive_timeout id q then 0
  else s64 (ticks_until id 0 (timeout_list q) - elapsed clock q).

Definition z_timeout_remaining (clock : Z) id q : Z := timeout_rem clock id q.

Definition z_timeout_expires (clock : Z) id q : Z := s64 (curr_tick q + timeout_rem clock id q).

Definition z_get_next_timeout_expiry (clock : Z) q : Z := next_timeout clock q.

Definition z_set_timeout_expiry (clock : Z) (t : Z) (is_idle : bool) q : timeout_state Id :=
  let next_to := next_timeout clock q in
  let sooner := (next_to =? K_TICKS_FOREVER) || (t <? next_to) in
  let imminent := next_to <=? 1 in
  if negb imminent && sooner then z_clock_set_timeout t is_idle q else q.

Definition z_tick_get (clock : Z) q : Z := s64 (u64 (curr_tick q + clock)).

Definition z_tick_get_32 (clock : Z) q : Z := u32 (z_tick_get clock q).

Definition z_impl_k_uptime_ticks (clock : Z) q : Z := z_tick_get clock q.

Definition z_timeout_end_calc (clock : Z) (timeout : k_timeout_t) q : Z :=
  if K_TIMEOUT_EQ timeout K_FOREVER then UINT64_MAX
  else if K_TIMEOUT_EQ timeout K_NO_WAIT then u64 (z_tick_get clock q)
  else
    let dt := ticks timeout in
    if 0 <=? Z_TICK_ABS dt then Z_TICK_ABS dt
    else u64 (z_tick_get clock q + Z.max 1 dt).

(** ** The timer interrupt *)

Section announce.
Context {S : Type} `{HasTimeouts Id S}.
(** The handler [t->fn] and the time slice update of [sched.c]. *)
Variable fn : Id -> S -> S.
Variable z_time_slice : Z -> S -> S.

(** The part of an iteration before the handler is called. *)
Definition expire_first (dt : Z) q : timeout_state Id :=
  let dt := s32 dt in
  mk_tq (u64 (curr_tick q + dt))
    (match timeout_list q with
     | _ :: (j, e) :: r => (j, s64 (e + 0)) :: r
     | _ => []
     end)
    (s32 (announce_remaining q - dt)) (slice_ticks q) (alarm q).

(** The loop of [z_clock_announce]; [None] when [fuel] runs out. *)
Fixpoint announce_loop (fuel : nat) (st : S) : option S :=
  match fuel with
  | O => None
  | Datatypes.S f =>
      match first (get_tq st) with
      | Some (id, dticks) =>
          if dticks <=? announce_remaining (get_tq st)
          then announce_loop f (fn id (put_tq (expire_first dticks (get_tq st)) st))
          else Some st
      | None => Some st
      end
  end.

Definition announce_begin (t : Z) q : timeout_state Id :=
  mk_tq (curr_tick q) (timeout_list q) t (slice_ticks q) (alarm q).

Definition announce_end (clock : Z) q : timeout_state Id :=
  let l := match timeout_list q with
           | (i, d) :: r => (i, s64 (d - announce_remaining q)) :: r
           | [] => []
           end in
  let q := mk_tq (u64 (curr_tick q + announce_remaining q)) l 0 (slice_ticks q) (alarm q) in
  z_clock_set_timeout (next_timeout clock q) false q.

Definition z_clock_announce (fuel : nat) (clock : Z) (t : Z) (st : S) : option S :=
  let st := z_time_slice t st in
  let st := put_tq (announce_begin t (get_tq st)) st in
  match announce_loop fuel st with
  | Some st => Some (put_tq (announce_end clock (get_tq st)) st)
  | None => None
  end.
End announce.
End operations.

(** ** The deadlines a queue stands for *)

Section deadlines.
Context {Id : Type} `{EqDecision Id}.
Implicit Types (q : timeout_state Id) (id : Id) (l : list (Id * Z)) (ds : list (Id * Z)).

Fixpoint deadlines (base : Z) l : list (Id * Z) :=
  match l with
  | [] => []
  | (i, d) :: r => (i, base + d) :: deadlines (base + d) r
  end.

(** The abstract queue: every timeout with the tick it expires at. *)
Definition abs_tq q : list (Id * Z) := deadlines (curr_tick q) (timeout_list q).

(** Insertion after all deadlines that are not later. *)
Fixpoint insert_deadline id (t : Z) ds : list (Id * Z) :=
  match ds with
  | [] => [(id, t)]
  | (i, u) :: r => if t <? u then (id, t) :: (i, u) :: r else (i, u) :: insert_deadline id t r
  end.

Fixpoint total l : Z := match l with [] => 0 | e :: r => e.2 + total r end.

Definition MAX_TICK : Z := 2 ^ 62.

(** Deltas are not negative and no tick sum leaves the 64-bit range. *)
Definition list_ok l : Prop := Forall (fun e => 0 <= e.2) l /\ total l < MAX_TICK.

Record tq_ok q : Prop := {
  to_list : list_ok (timeout_list q);
  to_ids : NoDup (timeout_list q).*1;
  to_tick : 0 <= curr_tick q < MAX_TICK;
  to_rem : 0 <= announce_remaining q < 2 ^ 31 }.

Lemma total_nonneg l : Forall (fun e => 0 <= e.2) l -> 0 <= total l.
Proof. induction 1; cbn; lia. Qed.

Lemma list_ok_cons i d l :
  list_ok ((i, d) :: l) -> 0 <= d < MAX_TICK /\ list_ok l /\ d + total l < MAX_TICK.
Proof.
  intros [[Hd Hl]%Forall_cons Ht]. cbn in *. pose proof (total_nonneg l Hl).
  unfold list_ok. repeat split; try done; lia.
Qed.

Lemma s64_tick z : - 2 * MAX_TICK <= z < 2 * MAX_TICK -> s64 z = z.
Proof. intros. unfold MAX_TICK in *. apply s64_small. lia. Qed.

Lemma deadlines_ids base l : (deadlines base l).*1 = l.*1.
Proof. revert base. induction l as [|[i d] l IH]; intros base; cbn; [done|]. by rewrite IH. Qed.

Lemma deadlines_ge base l :
  Forall (fun e => 0 <= e.2) l -> Forall (fun e => base <= e.2) (deadlines base l).
Proof.
  intros Hl. revert base. induction Hl as [|[i d] l Hd Hl IH]; intros base; constructor; cbn in *.
  - lia.
  - eapply Forall_impl; [apply IH|]. cbn. lia.
Qed.

(** Insertion into the delta list is insertion by deadline. *)
Lemma insert_timeout_spec id d base l :
  list_ok l -> 0 <= d -> d + total l < MAX_TICK ->
  deadlines base (insert_timeout id d l) = insert_deadline id (base + d) (deadlines base l) /\
  list_ok (insert_timeout id d l) /\ total (insert_timeout id d l) <= d + total l.
Proof.
  revert base d. induction l as [|[i e] l IH]; intros base d Hl Hd Ht.
  - cbn in *. unfold list_ok. cbn. repeat split; [|lia..]. by repeat constructor.
  - destruct (list_ok_cons _ _ _ Hl) as (He&Hl'&Ht'). cbn in Ht.
    pose proof (total_nonneg l (proj1 Hl')) as Hn. cbn [insert_timeout deadlines insert_deadline].
    destruct (Z.ltb_spec d e); destruct (Z.ltb_spec (base + d) (base + e)); try lia.
    + rewrite s64_tick by (unfold MAX_TICK in *; lia). cbn. split; [do 3 f_equal; lia|].
      unfold list_ok. cbn. repeat split; [|lia..]. destruct Hl' as [? _].
      repeat constructor; cbn; lia || done.
    + rewrite s64_tick by (unfold MAX_TICK in *; lia). cbn [deadlines].
      destruct (IH (base + e) (d - e)) as (Hdl&[Hf Hs]&Hsum); [done|lia..|].
      rewrite Hdl. split; [do 2 f_equal; lia|]. unfold list_ok. cbn.
      repeat split; [|lia..]. constructor; [cbn; lia|done].
Qed.

Lemma insert_timeout_ids id d l : (insert_timeout id d l).*1 ≡ₚ id :: l.*1.
Proof.
  revert d. induction l as [|[i e] l IH]; intros d; cbn; [done|].
  destruct (d <? e); cbn; [done|]. rewrite IH. apply Permutation_swap.
Qed.

Lemma remove_timeout_spec id base l :
  list_ok l -> NoDup l.*1 ->
  deadlines base (remove_timeout id l) = filter (fun e => e.1 <> id) (deadlines base l) /\
  list_ok (remove_timeout id l) /\ total (remove_timeout id l) <= total l.
Proof.
  revert base. induction l as [|[i d] l IH]; intros base Hl Hn; [done|].
  destruct (list_ok_cons _ _ _ Hl) as (He&Hl'&Ht'). cbn in Hn. apply NoDup_cons in Hn as [Hi Hn].
  cbn [remove_timeout deadlines]. case_bool_decide as Heq.
  - subst i. rewrite filter_cons_False by (cbn; tauto).
    assert (Hf : filter (fun e => e.1 <> id) (deadlines (base + d) l) = deadlines (base + d) l) by (apply filter_key_absent; by rewrite deadlines_ids).
    rewrite Hf. destruct l as [|[j e] l]; cbn [deadlines].
    + split; [done|]. unfold list_ok. cbn. split; [|lia]. by split; [constructor|].
    + destruct (list_ok_cons _ _ _ Hl') as (He'&[Hl'' _]&_). cbn in Ht'.
      pose proof (total_nonneg l Hl''). rewrite s64_tick by (unfold MAX_TICK in *; lia).
      split; [do 2 f_equal; lia|]. unfold list_ok. cbn. repeat split; [|lia..].
      constructor; [cbn; lia|done].
  - rewrite filter_cons_True by done. destruct (IH (base + d)) as (Hdl&[Hf Hs]&Hsum); [done..|].
    cbn [deadlines]. rewrite Hdl. split; [done|]. unfold list_ok. cbn.
    repeat split; [|lia..]. constructor; [cbn; lia|done].
Qed.

Lemma remove_timeout_ids id l : NoDup l.*1 -> (remove_timeout id l).*1 = filter (fun i => i <> id) l.*1.
Proof.
  induction l as [|[i d] l IH]; [done|]. cbn [remove_timeout]. intros Hn.
  cbn in Hn. apply NoDup_cons in Hn as [Hi Hn]. case_bool_decide as Heq.
  - subst. rewrite fmap_cons, filter_cons_False by (cbn; tauto).
    rewrite filter_absent by done. by destruct l as [|[j e] l].
  - rewrite !fmap_cons, filter_cons_True by done. by rewrite IH.
Qed.

Lemma ticks_until_spec id t base acc l :
  list_ok l -> NoDup l.*1 -> (id, t) ∈ deadlines base l -> 0 <= acc -> acc + total l < MAX_TICK ->
  ticks_until id acc l = acc + (t - base).
Proof.
  revert base acc. induction l as [|[i d] l IH]; intros base acc Hl Hn Hin Ha Ht.
  { by apply not_elem_of_nil in Hin. }
  destruct (list_ok_cons _ _ _ Hl) as (He&Hl'&Ht'). cbn in Hn. apply NoDup_cons in Hn as [Hi Hn].
  cbn in Hin, Ht. pose proof (total_nonneg l (proj1 Hl')). cbn [ticks_until].
  rewrite s64_tick by (unfold MAX_TICK in *; lia). apply elem_of_cons in Hin as [[= -> ->]|Hin].
  - rewrite bool_decide_true by done. lia.
  - rewrite bool_decide_false.
    + rewrite (IH (base + d)); [lia|done..|lia|lia].
    + intros ->. apply Hi. rewrite <- (deadlines_ids (base + d)).
      by apply (list_elem_of_fmap_2 fst _ (id, t)).
Qed.

Lemma insert_deadline_in id t ds : (id, t) ∈ insert_deadline id t ds.
Proof.
  induction ds as [|[i u] ds IH]; cbn; [constructor|].
  destruct (t <? u); [constructor|by right].
Qed.

Lemma set_list_abs l q : abs_tq (set_list l q) = deadlines (curr_tick q) l.
Proof. done. Qed.

Lemma is_linked_abs id q : is_linked id q = bool_decide (id ∈ (abs_tq q).*1).
Proof. unfold is_linked, abs_tq. by rewrite deadlines_ids. Qed.

(** What a relative timeout adds, seen from the fields it changes. *)
Lemma add_timeout_fields clk_abs clk_add clk_set id t q :
  0 <= t < MAX_TICK ->
  let q' := z_add_timeout clk_abs clk_add clk_set id (Z_TIMEOUT_TICKS t) q in
  timeout_list q' = insert_timeout id (s64 (t + 1 + elapsed clk_add q)) (timeout_list q) /\
  curr_tick q' = curr_tick q /\ announce_remaining q' = announce_remaining q.
Proof.
  intros Ht. unfold z_add_timeout, K_TIMEOUT_EQ, timeout_ticks, Z_TICK_ABS. cbn.
  change K_TICKS_FOREVER with (-1). destruct (Z.eqb_spec t (-1)); [lia|].
  rewrite (s64_tick (t + 1)), (s64_tick (-1 - 1 - _)) by (unfold MAX_TICK in *; lia).
  destruct (Z.leb_spec 0 (-1 - 1 - (t + 1))); [lia|].
  rewrite Z.max_r by lia. by case_bool_decide.
Qed.

Lemma add_timeout_spec clk_abs clk_add clk_set id t q :
  tq_ok q -> is_linked id q = false -> 0 <= t -> 0 <= clk_add ->
  t + 1 + clk_add + total (timeout_list q) < MAX_TICK ->
  let q' := z_add_timeout clk_abs clk_add clk_set id (Z_TIMEOUT_TICKS t) q in
  abs_tq q' = insert_deadline id (curr_tick q + elapsed clk_add q + t + 1) (abs_tq q) /\ tq_ok q'.
Proof.
  intros Hok Hnew Ht Hc Hs q'. pose proof (total_nonneg _ (proj1 (to_list _ Hok))).
  destruct (add_timeout_fields clk_abs clk_add clk_set id t q ltac:(lia)) as (Hl&Hk&Hr).
  fold q' in Hl, Hk, Hr.
  assert (He : 0 <= elapsed clk_add q <= clk_add) by (unfold elapsed; destruct (_ =? 0); lia).
  rewrite s64_tick in Hl by (unfold MAX_TICK in *; lia).
  destruct (insert_timeout_spec id (t + 1 + elapsed clk_add q) (curr_tick q) (timeout_list q))
    as (Hd&Hlo&_); [apply Hok|lia..|].
  split.
  - unfold abs_tq. rewrite Hl, Hk, Hd. f_equal; lia.
  - split; rewrite ?Hl, ?Hk, ?Hr; try apply Hok; [done|].
    rewrite insert_timeout_ids. apply NoDup_cons. split; [|apply Hok].
    by apply bool_decide_eq_false in Hnew.
Qed.

Lemma abort_timeout_spec id q :
  tq_ok q ->
  let '(ret, q') := z_abort_timeout id q in
  ret = (if is_linked id q then 0 else - EINVAL) /\
  abs_tq q' = filter (fun e => e.1 <> id) (abs_tq q) /\ tq_ok q'.
Proof.
  intros Hok. unfold z_abort_timeout. destruct (is_linked id q) eqn:Hlk.
  - destruct (remove_timeout_spec id (curr_tick q) (timeout_list q)) as (Hd&Hl&_); [apply Hok..|].
    split; [done|]. split; [by rewrite set_list_abs|]. split; cbn; try apply Hok; [done|].
    rewrite remove_timeout_ids by apply Hok. apply NoDup_filter, Hok.
  - split; [done|]. split; [|done]. symmetry. apply filter_key_absent.
    rewrite is_linked_abs in Hlk. by apply bool_decide_eq_false in Hlk.
Qed.
End deadlines.

(** ** Announcing ticks *)

Section announcing.
Context {Id S : Type} `{EqDecision Id} `{HasTimeouts Id S}.
Variable fn : Id -> S -> S.
Variable z_time_slice : Z -> S -> S.
Variable log : S -> list (Id * Z).
Implicit Types (q : timeout_state Id) (st : S).

Lemma expire_first_spec i d r q :
  tq_ok q -> timeout_list q = (i, d) :: r -> d <= announce_remaining q ->
  curr_tick q + d < MAX_TICK ->
  let q' := expire_first d q in
  tq_ok q' /\ timeout_list q' = r /\ curr_tick q' = curr_tick q + d /\
  announce_remaining q' = announce_remaining q - d.
Proof.
  intros [Hl Hn Ht Hr] Hq Hd Hc. rewrite Hq in Hl, Hn.
  destruct (list_ok_cons _ _ _ Hl) as (He&Hl'&Ht'). cbn in Hn. apply NoDup_cons in Hn as [Hi Hn].
  assert (Hlist : timeout_list (expire_first d q) = r).
  { cbn. rewrite Hq. destruct r as [|[j e] r]; [done|].
    destruct (list_ok_cons _ _ _ Hl') as (He'&_). rewrite s64_tick; [by rewrite Z.add_0_r|..];
      unfold MAX_TICK in *; lia. }
  assert (Hcur : curr_tick (expire_first d q) = curr_tick q + d)
    by (cbn; rewrite (s32_small d), u64_small; unfold MAX_TICK in *; lia).
  assert (Hrem : announce_remaining (expire_first d q) = announce_remaining q - d)
    by (cbn; rewrite (s32_small d), s32_small; lia).
  split; [|done]. split; rewrite ?Hlist, ?Hcur, ?Hrem; try done; lia.
Qed.

(** Handlers that leave the queue alone and are visible in [log]. *)
Hypothesis fn_tq : forall id st, get_tq (fn id st) = get_tq st.
Hypothesis fn_log : forall id st, log (fn id st) = log st ++ [(id, curr_tick (get_tq st))].
Hypothesis put_log : forall q st, log (put_tq q st) = log st.
Hypothesis slice_tq : forall t st,
  curr_tick (get_tq (z_time_slice t st)) = curr_tick (get_tq st) /\
  timeout_list (get_tq (z_time_slice t st)) = timeout_list (get_tq st).
Hypothesis slice_log : forall t st, log (z_time_slice t st) = log st.

Lemma announce_loop_spec fuel st :
  let q := get_tq st in
  let stop := curr_tick q + announce_remaining q in
  tq_ok q -> stop < MAX_TICK -> (length (timeout_list q) < fuel)%nat ->
  exists st', announce_loop fn fuel st = Some st' /\
    log st' = log st ++ filter (fun e => e.2 <= stop) (abs_tq q) /\
    abs_tq (get_tq st') = filter (fun e => stop < e.2) (abs_tq q) /\ tq_ok (get_tq st') /\
    curr_tick (get_tq st') + announce_remaining (get_tq st') = stop.
Proof.
  revert st. induction fuel as [|fuel IH]; intros st q stop Hok Hstop Hf; [lia|].
  cbn [announce_loop]. unfold first. fold q. destruct (timeout_list q) as [|[i d] r] eqn:Hq.
  { exists st. fold q. unfold abs_tq. rewrite Hq, app_nil_r. done. }
  cbn [head]. pose proof (to_list _ Hok) as Hl. rewrite Hq in Hl.
  destruct (list_ok_cons _ _ _ Hl) as (He&Hl'&_).
  destruct (Z.leb_spec d (announce_remaining q)) as [Hd|Hd].
  - destruct (expire_first_spec i d r q) as (Hok'&Hr&Hc&Hrem); [done..|lia|].
    set (st1 := fn i (put_tq (expire_first d q) st)).
    assert (Hst1 : get_tq st1 = expire_first d q) by (unfold st1; by rewrite fn_tq, get_put_tq).
    destruct (IH st1) as (st'&Hrun&Hlog&Habs&Hok''&Hsum); rewrite ?Hst1 in *;
      [done|rewrite Hc, Hrem; lia|rewrite Hr; cbn in Hf; lia|].
    assert (Habs1 : abs_tq q = (i, curr_tick q + d) :: abs_tq (expire_first d q))
      by (unfold abs_tq; by rewrite Hq, Hr, Hc).
    replace (curr_tick (expire_first d q) + announce_remaining (expire_first d q)) with stop
      in * by (rewrite Hc, Hrem; unfold stop; lia).
    exists st'. split; [done|]. rewrite Hlog, Habs1. unfold st1.
    rewrite fn_log, put_log, get_put_tq, Hc, <- app_assoc.
    rewrite filter_cons_True, filter_cons_False by (cbn; unfold stop; lia). done.
  - exists st. fold q. unfold abs_tq. rewrite Hq. cbn [deadlines].
    pose proof (deadlines_ge (curr_tick q + d) r (proj1 Hl')) as Hge.
    assert (Hall : Forall (fun e => stop < e.2) ((i, curr_tick q + d) :: deadlines (curr_tick q + d) r)).
    { constructor; [cbn; unfold stop; lia|]. eapply Forall_impl; [exact Hge|]. unfold stop. cbn. lia. }
    rewrite (filter_all _ _ Hall), filter_none; [by rewrite app_nil_r|].
    eapply Forall_impl; [exact Hall|]. cbn. lia.
Qed.

Lemma announce_end_spec clock q :
  tq_ok q -> Forall (fun e => announce_remaining q < e.2 - curr_tick q) (abs_tq q) ->
  curr_tick q + announce_remaining q < MAX_TICK ->
  let q' := announce_end clock q in
  abs_tq q' = abs_tq q /\ tq_ok q' /\ curr_tick q' = curr_tick q + announce_remaining q /\
  announce_remaining q' = 0.
Proof.
  intros [Hl Hn Ht Hr] Hall Hs q'.
  assert (Hc : curr_tick q' = curr_tick q + announce_remaining q)
    by (cbn; apply u64_small; unfold MAX_TICK in *; lia).
  assert (Hlist : exists l', timeout_list q' = l' /\ l'.*1 = (timeout_list q).*1 /\ list_ok l' /\
    deadlines (curr_tick q + announce_remaining q) l' = abs_tq q).
  { eexists. split; [reflexivity|]. cbn. unfold abs_tq in *.
    destruct (timeout_list q) as [|[i d] r]; [done|].
    destruct (list_ok_cons _ _ _ Hl) as (He&Hl'&Htot). cbn [deadlines] in *.
    apply Forall_cons in Hall as [Hd _]. cbn in Hd. rewrite s64_tick by (unfold MAX_TICK in *; lia).
    split; [done|]. split; [|do 2 f_equal; lia].
    destruct Hl' as [Hf _]. split; [constructor; [cbn; lia|done]|cbn; lia]. }
  destruct Hlist as (l'&Hl1&Hl2&Hl3&Hl4). split; [|split; [|done]].
  - unfold abs_tq. by rewrite Hc, Hl1.
  - split; rewrite ?Hc, ?Hl1, ?Hl2; done || (cbn; lia).
Qed.
End announcing.

(** ** Handlers that use the queue

    A handler may start and stop timeouts, as timers, delayed work and the
    network stack do; [start] is the abort-then-add of those callers. *)

Section handlers.
Context {Id : Type} `{EqDecision Id}.
Implicit Types (q : timeout_state Id) (id : Id) (l : list (Id * Z)).

Inductive tcmd := Start (id : Id) (t : Z) | Stop (id : Id).

Definition exec_cmd (clock : Z) (c : tcmd) q : timeout_state Id :=
  match c with
  | Start id t =>
      z_add_timeout clock clock clock id (Z_TIMEOUT_TICKS t) (z_abort_timeout id q).2
  | Stop id => (z_abort_timeout id q).2
  end.

Definition handler (clock : Z) (cmds : Id -> timeout_state Id -> list tcmd) id q :=
  foldl (fun q c => exec_cmd clock c q) q (cmds id q).

(** Entries that expire without any further tick. *)
Fixpoint zeros l : nat :=
  match l with
  | (_, d) :: r => if d =? 0 then S (zeros r) else O
  | [] => O
  end.

Lemma zeros_insert id d l :
  list_ok l -> 0 < d -> d + total l < MAX_TICK -> zeros (insert_timeout id d l) = zeros l.
Proof.
  revert d. induction l as [|[i e] l IH]; intros d Hl Hd Ht.
  { cbn. destruct (Z.eqb_spec d 0); [lia|done]. }
  destruct (list_ok_cons _ _ _ Hl) as (He&Hl'&_). cbn in *.
  pose proof (total_nonneg l (proj1 Hl')).
  destruct (Z.ltb_spec d e); cbn.
  - destruct (Z.eqb_spec d 0), (Z.eqb_spec e 0); lia.
  - destruct (Z.eqb_spec e 0) as [->|]; [|done].
    rewrite Z.sub_0_r, s64_tick by (unfold MAX_TICK in *; lia). f_equal. apply IH; [done|lia..].
Qed.

Lemma total_insert id d l :
  list_ok l -> 0 <= d -> d + total l < MAX_TICK ->
  total (insert_timeout id d l) = Z.max d (total l).
Proof.
  revert d. induction l as [|[i e] l IH]; intros d Hl Hd Ht; cbn in *; [lia|].
  destruct (list_ok_cons _ _ _ Hl) as (He&Hl'&_). pose proof (total_nonneg l (proj1 Hl')).
  destruct (Z.ltb_spec d e); cbn; rewrite s64_tick by (unfold MAX_TICK in *; lia).
  - lia.
  - rewrite IH; [lia|done|lia..].
Qed.

Lemma zeros_remove id l : list_ok l -> (zeros (remove_timeout id l) <= zeros l)%nat.
Proof.
  induction l as [|[i d] l IH]; intros Hl; [done|].
  destruct (list_ok_cons _ _ _ Hl) as (He&Hl'&Ht). cbn [remove_timeout zeros].
  case_bool_decide as Heq.
  - destruct l as [|[j e] l]; cbn; [lia|]. destruct (list_ok_cons _ _ _ Hl') as (He'&[Hl'' _]&_).
    pose proof (total_nonneg l Hl''). cbn in Ht.
    rewrite s64_tick by (unfold MAX_TICK in *; lia).
    destruct (Z.eqb_spec (e + d) 0), (Z.eqb_spec d 0), (Z.eqb_spec e 0); lia.
  - cbn. specialize (IH Hl'). destruct (d =? 0); lia.
Qed.

(** All deadlines lie within the horizon [H]. *)
Definition within (H : Z) q : Prop := tq_ok q /\ total (timeout_list q) <= H.

Definition cmd_ok (T : Z) (c : tcmd) : bool :=
  match c with Start _ t => (0 <=? t) && (t <=? T) | Stop _ => true end.

(** [q'] needs no more handler calls at the current tick than [q] does. *)
Definition no_new_due q q' : Prop :=
  (zeros (timeout_list q') <= zeros (timeout_list q))%nat /\
  announce_remaining q' = announce_remaining q /\ curr_tick q' = curr_tick q.

Lemma abort_within H id q :
  within H q ->
  let q' := (z_abort_timeout id q).2 in
  within H q' /\ is_linked id q' = false /\ no_new_due q q'.
Proof.
  intros [Hok Ht] q'. pose proof (abort_timeout_spec id q Hok) as Hs.
  assert (Hlk : is_linked id q' = false).
  { unfold q'. destruct (z_abort_timeout id q) as [ret q1]. cbn. rewrite is_linked_abs.
    destruct Hs as (_&->&_). apply bool_decide_eq_false. intros (e&->&He)%list_elem_of_fmap.
    by apply list_elem_of_filter in He as [? _]. }
  assert (Hok' : tq_ok q').
  { unfold q'. by destruct (z_abort_timeout id q), Hs as (_&_&?). }
  split; [split; [done|]|split; [done|]]; unfold q', z_abort_timeout, no_new_due;
    destruct (is_linked id q); cbn; try done; try (repeat split; lia).
  - destruct (remove_timeout_spec id (curr_tick q) (timeout_list q)) as (_&_&?); [apply Hok..|]. lia.
  - repeat split. apply zeros_remove, Hok.
Qed.

Lemma exec_cmd_within clock T H c q :
  0 <= clock -> T + 1 + clock <= H -> 2 * H < MAX_TICK ->
  within H q -> cmd_ok T c = true ->
  within H (exec_cmd clock c q) /\ no_new_due q (exec_cmd clock c q).
Proof.
  intros Hc HT HH Hw Hcmd. destruct c as [id t|id]; cbn [exec_cmd].
  2: { destruct (abort_within H id q Hw) as (?&_&?). done. }
  cbn in Hcmd. apply andb_prop in Hcmd as [Ht0%Z.leb_le Ht1%Z.leb_le].
  destruct (abort_within H id q Hw) as ([Hok Hto]&Hlk&Hz&Hr&Hk).
  set (q1 := (z_abort_timeout id q).2) in *.
  destruct (add_timeout_spec clock clock clock id t q1) as [_ Hok']; [done|done|lia..|].
  destruct (add_timeout_fields clock clock clock id t q1 ltac:(lia)) as (Hl&Hk'&Hr').
  set (q2 := z_add_timeout clock clock clock id (Z_TIMEOUT_TICKS t) q1) in *.
  assert (He : 0 <= elapsed clock q1 <= clock) by (unfold elapsed; destruct (_ =? 0); lia).
  pose proof (total_nonneg _ (proj1 (to_list _ Hok))).
  rewrite s64_tick in Hl by (unfold MAX_TICK in *; lia). split.
  - split; [done|]. rewrite Hl, total_insert; [lia|apply Hok|lia..].
  - unfold no_new_due. rewrite Hl, Hk', Hr', zeros_insert; [done|apply Hok|lia..].
Qed.

Lemma handler_within clock T H cmds id q :
  0 <= clock -> T + 1 + clock <= H -> 2 * H < MAX_TICK -> within H q ->
  (forall id q, forallb (cmd_ok T) (cmds id q) = true) ->
  within H (handler clock cmds id q) /\ no_new_due q (handler clock cmds id q).
Proof.
  intros Hc HT HH Hw Hcmds. unfold handler. specialize (Hcmds id q). revert Hw Hcmds.
  generalize (cmds id q) as cs. intros cs. revert q.
  induction cs as [|c cs IH]; intros q Hw Hok; [done|]. cbn in *.
  apply andb_prop in Hok as [H1 H2].
  destruct (exec_cmd_within clock T H c q) as [Hw' (?&?&?)]; [done..|].
  destruct (IH _ Hw' H2) as [? (?&?&?)]. split; [done|]. unfold no_new_due in *.
  repeat split; [lia|congruence..].
Qed.
End handlers.

(** The queue on its own as the whole state. *)
#[export] Instance timeouts_alone (Id : Type) : HasTimeouts Id (timeout_state Id) :=
  {| get_tq := fun q => q; put_tq := fun q _ => q; get_put_tq := fun _ _ => eq_refl |}.

Section termination.
Context {Id : Type} `{EqDecision Id}.
Implicit Types (q : timeout_state Id).
Context (clock T H : Z) (cmds : Id -> timeout_state Id -> list (@tcmd Id)).
Context (clock_nonneg : 0 <= clock) (T_within : T + 1 + clock <= H) (H_max : 2 * H < MAX_TICK).
Context (cmds_ok : forall id q, forallb (cmd_ok T) (cmds id q) = true).

(** Every pass through the loop shrinks the ticks left or, at the same tick,
    the number of entries already due. *)
Lemma announce_loop_ends n z q :
  within H q -> (Z.to_nat (announce_remaining q) <= n)%nat -> (zeros (timeout_list q) <= z)%nat ->
  curr_tick q + announce_remaining q < MAX_TICK ->
  exists fuel q', announce_loop (handler clock cmds) fuel q = Some q' /\ within H q' /\
    curr_tick q' + announce_remaining q' = curr_tick q + announce_remaining q /\
    Forall (fun e => announce_remaining q' < e.2 - curr_tick q') (abs_tq q').
Proof.
  revert z q. induction (lt_wf n) as [n _ IHn]. intros z. induction (lt_wf z) as [z _ IHz].
  intros q Hw Hn Hz Hs. destruct (timeout_list q) as [|[i d] r] eqn:Hq.
  { exists 1%nat, q. cbn. unfold first, abs_tq. by rewrite Hq. }
  destruct Hw as [Hok Ht]. pose proof (to_list _ Hok) as Hl. rewrite Hq in Hl, Ht.
  destruct (list_ok_cons _ _ _ Hl) as (He&Hl'&_). cbn in Ht, Hz.
  destruct (Z.leb_spec d (announce_remaining q)) as [Hd|Hd].
  - destruct (expire_first_spec i d r q) as (Hok1&Hr1&Hc1&Hrem1); [done..|lia|].
    set (q1 := expire_first d q) in *.
    assert (Hw1 : within H q1) by (split; [done|rewrite Hr1; lia]).
    destruct (handler_within clock T H cmds i q1) as [Hw2 (Hz2&Hr2&Hc2)]; [done..|].
    set (q2 := handler clock cmds i q1) in *. rewrite Hr1 in Hz2.
    assert (Hstep : exists fuel q', announce_loop (handler clock cmds) fuel q2 = Some q' /\
      within H q' /\ curr_tick q' + announce_remaining q' = curr_tick q + announce_remaining q /\
      Forall (fun e => announce_remaining q' < e.2 - curr_tick q') (abs_tq q')).
    { replace (curr_tick q + announce_remaining q) with (curr_tick q2 + announce_remaining q2)
        by (rewrite Hr2, Hc2, Hc1, Hrem1; lia).
      pose proof (to_rem _ Hok). pose proof (to_rem _ Hok1).
      destruct (Z.eqb_spec d 0) as [Hd0|Hd0].
      - apply (IHz (zeros r)); [lia|done|rewrite Hr2, Hrem1; lia|done|rewrite Hr2, Hc2, Hc1, Hrem1; lia].
      - apply (IHn (Z.to_nat (announce_remaining q2))) with (z := zeros (timeout_list q2));
          [rewrite Hr2, Hrem1; lia|done|done|done|rewrite Hr2, Hc2, Hc1, Hrem1; lia]. }
    destruct Hstep as (fuel&q'&Hrun&Hrest). exists (S fuel), q'. split; [|done].
    cbn. unfold first. rewrite Hq. cbn. destruct (Z.leb_spec d (announce_remaining q)); [done|lia].
  - exists 1%nat, q. cbn. unfold first. rewrite Hq. cbn.
    destruct (Z.leb_spec d (announce_remaining q)); [lia|]. split; [done|].
    split; [split; [done|by rewrite Hq]|]. split; [done|]. unfold abs_tq. rewrite Hq. cbn.
    constructor; [cbn; lia|]. eapply Forall_impl; [apply (deadlines_ge _ _ (proj1 Hl'))|]. cbn. lia.
Qed.
End termination.

Section reports.
Context {Id : Type} `{EqDecision Id}.
Implicit Types (q : timeout_state Id) (id : Id).

Lemma insert_deadline_filter id t (ds : list (Id * Z)) :
  id ∉ ds.*1 -> filter (fun e => e.1 <> id) (insert_deadline id t ds) = ds.
Proof.
  induction ds as [|[i u] ds IH]; intros Hin.
  { cbn [insert_deadline]. by rewrite filter_cons_False by (cbn; tauto). }
  cbn in Hin. rewrite not_elem_of_cons in Hin. destruct Hin as [Hi Hin]. cbn [insert_deadline].
  destruct (t <? u).
  - rewrite filter_cons_False by (cbn; tauto). apply filter_key_absent. cbn.
    by rewrite not_elem_of_cons.
  - rewrite filter_cons_True by (cbn; congruence). f_equal. by apply IH.
Qed.

Lemma expires_deadline id t q :
  tq_ok q -> (id, t) ∈ abs_tq q -> is_linked id q = true -> t < 2 * MAX_TICK ->
  z_timeout_expires 0 id q = t.
Proof.
  intros Hok Hin Hlk Ht. unfold z_timeout_expires, timeout_rem, z_is_inactive_timeout.
  rewrite Hlk. cbn [negb].
  assert (Hge : curr_tick q <= t).
  { pose proof (deadlines_ge (curr_tick q) _ (proj1 (to_list _ Hok))) as Hf.
    rewrite Forall_forall in Hf. by apply (Hf (id, t)). }
  rewrite (ticks_until_spec id t (curr_tick q) 0) by (done || apply Hok || lia).
  assert (He : elapsed 0 q = 0) by (unfold elapsed; by destruct (_ =? 0)).
  pose proof (to_tick _ Hok). rewrite He, Z.sub_0_r, (s64_tick (0 + (t - curr_tick q))), s64_tick; lia.
Qed.
End reports.

(** ** Properties *)

(** Starting a relative timeout puts it at the deadline
    "now + ticks + 1", after every timeout with the same or an earlier deadline,
    and moves no other deadline; the queue then reports exactly that expiry and
    stopping it again leaves the deadlines as they were. *)
Theorem add_timeout_at_deadline {Id : Type} `{EqDecision Id}
    (clk_abs clk_add clk_set : Z) (id : Id) (t : Z) (q : timeout_state Id)
    (Hok : tq_ok q) (Hnew : is_linked id q = false) (Ht : 0 <= t) (Hclk : 0 <= clk_add)
    (Hmax : t + 1 + clk_add + total (timeout_list q) < MAX_TICK)
    (Htick : curr_tick q + t + 1 + clk_add < MAX_TICK) :
  let q' := z_add_timeout clk_abs clk_add clk_set id (Z_TIMEOUT_TICKS t) q in
  let deadline := curr_tick q + elapsed clk_add q + t + 1 in
  abs_tq q' = insert_deadline id deadline (abs_tq q) /\ tq_ok q' /\
  z_timeout_expires 0 id q' = deadline /\
  (z_abort_timeout id q').1 = 0 /\ abs_tq (z_abort_timeout id q').2 = abs_tq q.
Proof.
  intros q' deadline.
  destruct (add_timeout_spec clk_abs clk_add clk_set id t q) as [Habs Hok']; [done..|].
  fold q' in Habs, Hok'. fold deadline in Habs.
  pose proof (total_nonneg _ (proj1 (to_list _ Hok))) as Hn.
  assert (He : 0 <= elapsed clk_add q <= clk_add) by (unfold elapsed; destruct (_ =? 0); lia).
  assert (Hin : (id, deadline) ∈ abs_tq q') by (rewrite Habs; apply insert_deadline_in).
  assert (Hlk : is_linked id q' = true).
  { rewrite is_linked_abs. apply bool_decide_eq_true. by apply (list_elem_of_fmap_2 fst _ _ Hin). }
  assert (Hkeep : filter (fun e => e.1 <> id) (insert_deadline id deadline (abs_tq q)) = abs_tq q)
    by (apply insert_deadline_filter; by rewrite is_linked_abs in Hnew; apply bool_decide_eq_false in Hnew).
  pose proof (abort_timeout_spec id q' Hok') as Hab. destruct (z_abort_timeout id q') as [ret q2].
  rewrite Hlk, Habs, Hkeep in Hab. destruct Hab as (?&?&_).
  split; [done|]. split; [done|]. split; [|done].
  apply expires_deadline; [done..|]. unfold deadline, MAX_TICK in *. lia.
Qed.

(** A queue with one timeout pending, for the witnesses. *)
Definition example_queue : timeout_state Z := mk_tq 100 [(1, 5); (2, 0); (3, 7)] 0 0 None.

Lemma example_queue_ok : tq_ok example_queue.
Proof.
  split; [|apply (bool_decide_eq_true_1 (NoDup [1; 2; 3])); reflexivity|cbn; unfold MAX_TICK; lia|cbn; lia].
  split; [repeat constructor; cbn; lia|cbn; unfold MAX_TICK; lia].
Qed.

Lemma add_timeout_at_deadline_witness :
  let q := example_queue in
  let q' := z_add_timeout 2 2 2 9 (Z_TIMEOUT_TICKS 2) q in
  let deadline := curr_tick q + elapsed 2 q + 2 + 1 in
  abs_tq q' = insert_deadline 9 deadline (abs_tq q) /\ tq_ok q' /\
  z_timeout_expires 0 9 q' = deadline /\
  (z_abort_timeout 9 q').1 = 0 /\ abs_tq (z_abort_timeout 9 q').2 = abs_tq q.
Proof.
  apply (add_timeout_at_deadline 2 2 2 9 2 example_queue example_queue_ok);
    [reflexivity|lia|lia|vm_compute; reflexivity|vm_compute; reflexivity].
Defined.

(** C19. Announcing [t] ticks runs the handlers of exactly the timeouts whose
    deadline has then passed, in deadline order and each at the tick of its deadline; the
    others keep theirs, and the clock has moved by [t].  The handlers may do anything but
    touch the queue of timeouts, as [z_thread_timeout] does; the handler of kernel timers,
    which starts its own timeout again, is not among them. *)
Theorem announce_fires_due {Id S : Type} `{EqDecision Id} `{HasTimeouts Id S}
    (fn : Id -> S -> S) (z_time_slice : Z -> S -> S) (log : S -> list (Id * Z))
    (fn_tq : forall id st, get_tq (fn id st) = get_tq st)
    (fn_log : forall id st, log (fn id st) = log st ++ [(id, curr_tick (get_tq st))])
    (put_log : forall q st, log (put_tq q st) = log st)
    (slice_tq : forall t st,
      curr_tick (get_tq (z_time_slice t st)) = curr_tick (get_tq st) /\
      timeout_list (get_tq (z_time_slice t st)) = timeout_list (get_tq st))
    (slice_log : forall t st, log (z_time_slice t st) = log st)
    (fuel : nat) (clock t : Z) (st : S) (Hok : tq_ok (get_tq st)) (Ht : 0 <= t < 2 ^ 31)
    (Hmax : curr_tick (get_tq st) + t < MAX_TICK)
    (Hfuel : (length (timeout_list (get_tq st)) < fuel)%nat) :
  let now := curr_tick (get_tq st) + t in
  exists st', z_clock_announce fn z_time_slice fuel clock t st = Some st' /\
    log st' = log st ++ filter (fun e => e.2 <= now) (abs_tq (get_tq st)) /\
    abs_tq (get_tq st') = filter (fun e => now < e.2) (abs_tq (get_tq st)) /\
    curr_tick (get_tq st') = now /\ announce_remaining (get_tq st') = 0 /\ tq_ok (get_tq st').
Proof.
  intros now. unfold z_clock_announce. destruct (slice_tq t st) as [Hc Hl].
  set (st1 := put_tq (announce_begin t (get_tq (z_time_slice t st))) (z_time_slice t st)).
  assert (Hg : get_tq st1 = announce_begin t (get_tq (z_time_slice t st))) by apply get_put_tq.
  assert (Habs1 : abs_tq (get_tq st1) = abs_tq (get_tq st))
    by (rewrite Hg; unfold abs_tq; cbn; by rewrite Hc, Hl).
  assert (Hok1 : tq_ok (get_tq st1)).
  { rewrite Hg. destruct Hok. split; cbn; rewrite ?Hc, ?Hl; done. }
  destruct (announce_loop_spec fn log fn_tq fn_log put_log fuel st1) as (st2&->&Hlog&Habs&Hok2&Hsum);
    [done|rewrite Hg; cbn; lia|rewrite Hg; cbn; by rewrite Hl|].
  rewrite Habs1 in Hlog, Habs. rewrite Hg in Hlog, Habs, Hsum. cbn in Hlog, Habs, Hsum.
  rewrite Hc in Hlog, Habs, Hsum. fold now in Hlog, Habs, Hsum.
  destruct (announce_end_spec clock (get_tq st2)) as (Habs3&Hok3&Hc3&Hr3); [done| |lia|].
  { rewrite Habs. apply Forall_forall. intros e [He _]%list_elem_of_filter. lia. }
  eexists. split; [reflexivity|]. rewrite put_log, get_put_tq, Habs3, Hlog, Hc3, Hr3.
  unfold st1. rewrite put_log, slice_log. done.
Qed.

(** The queue with a record of the handlers run. *)
#[export] Instance timeouts_logged (Id : Type) :
    HasTimeouts Id (timeout_state Id * list (Id * Z)) :=
  {| get_tq := fst; put_tq := fun q st => (q, st.2); get_put_tq := fun _ _ => eq_refl |}.

Definition log_handler (id : Z) (st : timeout_state Z * list (Z * Z)) :=
  (st.1, st.2 ++ [(id, curr_tick st.1)]).

Lemma announce_fires_due_witness :
  let st := (example_queue, []) in
  let now := curr_tick example_queue + 6 in
  exists st', z_clock_announce log_handler (fun _ st => st) 4 0 6 st = Some st' /\
    st'.2 = st.2 ++ filter (fun e => e.2 <= now) (abs_tq st.1) /\
    abs_tq st'.1 = filter (fun e => now < e.2) (abs_tq st.1) /\
    curr_tick st'.1 = now /\ announce_remaining st'.1 = 0 /\ tq_ok st'.1.
Proof.
  intros st now.
  refine (announce_fires_due log_handler (fun _ st => st) snd _ _ _ _ _ 4 0 6 st
    example_queue_ok _ _ _); try reflexivity; try (intros; split; reflexivity).
  - lia.
  - vm_compute. lia.
Defined.

(** C29. [z_clock_announce] terminates also when handlers stop and start timeouts,
    themselves included, at every call, as those of kernel timers do: for every tick
    count there is a number of iterations after which it returns, with the clock moved by
    exactly that count and nothing that is due left in the queue.  [T] bounds the timeouts
    started and [H] the horizon of the queue. *)
Theorem announce_terminates {Id : Type} `{EqDecision Id} (clock T H t : Z)
    (cmds : Id -> timeout_state Id -> list tcmd) (q : timeout_state Id)
    (Hclock : 0 <= clock) (HT : T + 1 + clock <= H) (HH : 2 * H < MAX_TICK)
    (Hcmds : forall id q, forallb (cmd_ok T) (cmds id q) = true)
    (Hok : tq_ok q) (Htot : total (timeout_list q) <= H) (Ht : 0 <= t < 2 ^ 31)
    (Hmax : curr_tick q + t < MAX_TICK) :
  exists fuel q', z_clock_announce (handler clock cmds) (fun _ q => q) fuel clock t q = Some q' /\
    curr_tick q' = curr_tick q + t /\ announce_remaining q' = 0 /\ tq_ok q' /\
    Forall (fun e => curr_tick q' < e.2) (abs_tq q').
Proof.
  set (q1 := announce_begin t q).
  assert (Hw : within H q1) by (split; [split; cbn; try apply Hok; lia|done]).
  destruct (announce_loop_ends clock T H cmds Hclock HT HH Hcmds
    (Z.to_nat t) (zeros (timeout_list q)) q1 Hw) as (fuel&q2&Hrun&[Hok2 _]&Hsum&Hall);
    [cbn; lia..|].
  destruct (announce_end_spec clock q2) as (Habs3&Hok3&Hc3&Hr3); [done|done|rewrite Hsum; cbn; lia|].
  exists fuel, (announce_end clock q2). unfold z_clock_announce. cbn [get_tq put_tq timeouts_alone].
  fold q1. rewrite Hrun. split; [done|]. rewrite Habs3, Hc3, Hsum. cbn. repeat split; try done; [apply Hok3..|].
  eapply Forall_impl; [exact Hall|]. cbn in Hsum |- *. lia.
Qed.

Lemma announce_terminates_witness :
  exists fuel q', z_clock_announce (handler 0 (fun id _ => [Start id 0; Stop 3])) (fun _ q => q)
      fuel 0 6 example_queue = Some q' /\
    curr_tick q' = curr_tick example_queue + 6 /\ announce_remaining q' = 0 /\ tq_ok q' /\
    Forall (fun e => curr_tick q' < e.2) (abs_tq q').
Proof.
  apply (announce_terminates 0 10 20 6 (fun id _ => [Start id 0; Stop 3]) example_queue);
    try (vm_compute; intuition congruence).
  - apply example_queue_ok.
Defined.

(** An absolute timeout is entered one tick early: asked for at least two
    ticks ahead, tick [x] is queued for tick [x - 1] (with the clock standing
    still), while [z_timeout_end_calc] reports [x] for the same value. *)
Theorem absolute_timeout_one_tick_early {Id : Type} `{EqDecision Id}
    (clock : Z) (id : Id) (x : Z) (q : timeout_state Id)
    (Hok : tq_ok q) (Hnew : is_linked id q = false) (Hidle : announce_remaining q = 0)
    (Hclock : 0 <= clock) (Hx : curr_tick q + clock + 2 <= x) (Hmax : x + total (timeout_list q) < MAX_TICK) :
  let timeout := Z_TIMEOUT_TICKS (Z_TICK_ABS x) in
  abs_tq (z_add_timeout clock clock clock id timeout q) = insert_deadline id (x - 1) (abs_tq q) /\
  z_timeout_end_calc clock timeout q = x.
Proof.
  intros timeout. pose proof (to_tick _ Hok) as Hc.
  pose proof (total_nonneg _ (proj1 (to_list _ Hok))) as Hn.
  assert (Hxa : Z_TICK_ABS x = -2 - x)
    by (unfold Z_TICK_ABS, K_TICKS_FOREVER; rewrite s64_tick; unfold MAX_TICK in *; lia).
  assert (Hf : (ticks timeout =? K_TICKS_FOREVER) = false)
    by (apply Z.eqb_neq; cbn; rewrite Hxa; unfold K_TICKS_FOREVER; lia).
  assert (He : elapsed clock q = clock) by (unfold elapsed; by rewrite Hidle).
  assert (Htt : timeout_ticks clock timeout q = x - 1 - (curr_tick q + clock)).
  { unfold timeout_ticks. cbn. rewrite Hxa, (s64_tick (_ + 1)) by (unfold MAX_TICK in *; lia).
    replace (Z_TICK_ABS (-2 - x + 1)) with (x - 1)
      by (unfold Z_TICK_ABS, K_TICKS_FOREVER; rewrite s64_tick; unfold MAX_TICK in *; lia).
    destruct (Z.leb_spec 0 (x - 1)); [|lia].
    rewrite He, s64_tick by (unfold MAX_TICK in *; lia). lia. }
  split.
  - unfold z_add_timeout, K_TIMEOUT_EQ. change (ticks K_FOREVER) with K_TICKS_FOREVER.
    rewrite Hf, Htt, He, s64_tick by (unfold MAX_TICK in *; lia).
    replace (x - 1 - (curr_tick q + clock) + clock) with (x - 1 - curr_tick q) by lia.
    destruct (insert_timeout_spec id (x - 1 - curr_tick q) (curr_tick q) (timeout_list q))
      as (Hd&_); [apply Hok|lia|lia|].
    case_bool_decide; unfold abs_tq; cbn; rewrite Hd; f_equal; lia.
  - unfold z_timeout_end_calc, K_TIMEOUT_EQ. change (ticks K_FOREVER) with K_TICKS_FOREVER.
    rewrite Hf. cbn [ticks K_NO_WAIT timeout Z_TIMEOUT_TICKS]. rewrite Hxa.
    destruct (Z.eqb_spec (-2 - x) 0); [lia|].
    replace (Z_TICK_ABS (-2 - x)) with x
      by (unfold Z_TICK_ABS, K_TICKS_FOREVER; rewrite s64_tick; unfold MAX_TICK in *; lia).
    destruct (Z.leb_spec 0 x); lia.
Qed.

Lemma absolute_timeout_one_tick_early_witness :
  let timeout := Z_TIMEOUT_TICKS (Z_TICK_ABS 200) in
  abs_tq (z_add_timeout 3 3 3 9 timeout example_queue) = insert_deadline 9 199 (abs_tq example_queue) /\
  z_timeout_end_calc 3 timeout example_queue = 200.
Proof.
  apply (absolute_timeout_one_tick_early 3 9 200 example_queue example_queue_ok);
    [reflexivity|reflexivity|lia|vm_compute; discriminate|vm_compute; reflexivity].
Defined.
