(* ===== verification/RtcTimer.v ===== *)
(** The system timer of the nRF ([drivers/timer/nrf_rtc_timer.c]): a 24-bit counter
    with one compare register, extended to the kernel's ticks.

    Time is the number of counter cycles since the start, an unbounded integer; the
    counter shows its low 24 bits.  The device runs by itself: between two register
    accesses the counter may reach the comparator, which sets the compare event and,
    if it is enabled, makes the interrupt pending.  Every access happens at a time of
    its own, so an operation is a computation over the list of the times of the
    accesses it makes.  The register access functions of the vendor are a class with
    the effect each is documented to have; a write to the compare register counts
    from the moment it is made. *)
From Stdlib Require Import ZArith Lia Bool.
From stdpp Require Import base numbers list relations.
From S2P Require Import Prelude TimeUnits Timeout.
Open Scope Z_scope.

Definition COUNTER_SPAN : Z := BIT 24.
Definition COUNTER_MAX : Z := u32 (COUNTER_SPAN - 1).
Definition COUNTER_HALF_SPAN : Z := COUNTER_SPAN / 2.
Definition CYC_PER_TICK : Z := CONFIG_SYS_CLOCK_HW_CYCLES_PER_SEC / CONFIG_SYS_CLOCK_TICKS_PER_SEC.
Definition MAX_TICKS : Z := (COUNTER_HALF_SPAN - CYC_PER_TICK) / CYC_PER_TICK.
Definition MAX_CYCLES : Z := MAX_TICKS * CYC_PER_TICK.

(** ** The device *)

(** The compare register, the compare event and whether it is routed, the
    interrupt enable and the pending bit of the interrupt controller. *)
Record rtc_regs := mk_rtc { r_cc : Z; r_event : bool; r_evten : bool; r_inten : bool; r_pending : bool }.

Definition regs_cc (v : Z) (r : rtc_regs) := mk_rtc v (r_event r) (r_evten r) (r_inten r) (r_pending r).
Definition regs_event_clear (r : rtc_regs) := mk_rtc (r_cc r) false (r_evten r) (r_inten r) (r_pending r).
Definition regs_event_enable (r : rtc_regs) := mk_rtc (r_cc r) (r_event r) true (r_inten r) (r_pending r).
Definition regs_int_disable (r : rtc_regs) := mk_rtc (r_cc r) (r_event r) (r_evten r) false (r_pending r).
(** An event that is already there raises the interrupt. *)
Definition regs_int_enable (r : rtc_regs) :=
  mk_rtc (r_cc r) (r_event r) (r_evten r) true (r_pending r || r_event r).
(** The interrupt stays pending while the device requests it. *)
Definition regs_clear_pending (r : rtc_regs) :=
  mk_rtc (r_cc r) (r_event r) (r_evten r) (r_inten r) (r_event r && r_inten r).
Definition regs_irq_entry (r : rtc_regs) := mk_rtc (r_cc r) (r_event r) (r_evten r) (r_inten r) false.

(** The first time from [t] on at which the counter shows [cc]. *)
Definition next_match (cc t : Z) : Z := t + (cc - t) mod COUNTER_SPAN.

(** The counter goes from time [a] to time [b]: the event is set if it has become
    equal to the comparator on the way, and if the event or its interrupt is enabled. *)
Definition regs_run (a b : Z) (r : rtc_regs) : rtc_regs :=
  let hit := (r_evten r || r_inten r) && (next_match (r_cc r) (a + 1) <=? b) in
  let event := r_event r || hit in
  mk_rtc (r_cc r) event (r_evten r) (r_inten r) (r_pending r || hit && r_inten r).

Class RtcHal (H : Type) := {
  rtc_view : H -> rtc_regs;
  rtc_run : Z -> Z -> H -> H;
  irq_entry : H -> H;
  nrf_rtc_cc_set : Z -> H -> H;
  nrf_rtc_event_clear : H -> H;
  nrf_rtc_event_enable : H -> H;
  nrf_rtc_int_disable : H -> H;
  nrf_rtc_int_enable : H -> H;
  NVIC_ClearPendingIRQ : H -> H;
  nrf_rtc_prescaler_set : Z -> H -> H;
  nrf_rtc_task_clear : H -> H;
  nrf_rtc_task_start : H -> H;
  irq_enable : H -> H;
  z_nrf_clock_control_lf_on : H -> H;
  run_law h a b : rtc_view (rtc_run a b h) = regs_run a b (rtc_view h);
  irq_entry_law h : rtc_view (irq_entry h) = regs_irq_entry (rtc_view h);
  cc_set_law h v : rtc_view (nrf_rtc_cc_set v h) = regs_cc v (rtc_view h);
  event_clear_law h : rtc_view (nrf_rtc_event_clear h) = regs_event_clear (rtc_view h);
  event_enable_law h : rtc_view (nrf_rtc_event_enable h) = regs_event_enable (rtc_view h);
  int_disable_law h : rtc_view (nrf_rtc_int_disable h) = regs_int_disable (rtc_view h);
  int_enable_law h : rtc_view (nrf_rtc_int_enable h) = regs_int_enable (rtc_view h);
  clear_pending_law h : rtc_view (NVIC_ClearPendingIRQ h) = regs_clear_pending (rtc_view h);
  prescaler_set_law h v : rtc_view (nrf_rtc_prescaler_set v h) = rtc_view h;
  task_clear_law h : rtc_view (nrf_rtc_task_clear h) = rtc_view h;
  task_start_law h : rtc_view (nrf_rtc_task_start h) = rtc_view h;
  irq_enable_law h : rtc_view (irq_enable h) = rtc_view h;
  lf_on_law h : rtc_view (z_nrf_clock_control_lf_on h) = rtc_view h }.

(** The device and the time up to which it has run. *)
Record clocked (H : Type) := mk_clk { clk : Z; hw : H }.
Arguments mk_clk {H} _ _.
Arguments clk {H} _.
Arguments hw {H} _.

(** A computation over the times of its accesses; [None]: it makes more accesses than
    times are given. *)
Definition drv_m (H A : Type) : Type := list Z -> clocked H -> option (A * list Z * clocked H).
Definition dret {H A} (a : A) : drv_m H A := fun ts c => Some (a, ts, c).
Definition dbind {H A B} (m : drv_m H A) (f : A -> drv_m H B) : drv_m H B :=
  fun ts c => match m ts c with Some (a, ts, c) => f a ts c | None => None end.
Notation "x <~ m ;; k" := (dbind m (fun x => k)) (at level 100, m at next level, right associativity) : fw_scope.
Notation "m ;;; k" := (dbind m (fun _ => k)) (at level 100, right associativity) : fw_scope.
Open Scope fw_scope.

(** ** The driver *)

Definition counter_sub (a b : Z) : Z := u32 (a - b) .& COUNTER_MAX.

(** What the counter shows at a time. *)
Definition counter_at (time : Z) : Z := time mod COUNTER_SPAN.

Section driver.
Context {H : Type} `{!RtcHal H}.

(** One access: the device has run up to its time. *)
Definition access {A} (f : Z -> H -> A * H) : drv_m H A :=
  fun ts c =>
    match ts with
    | [] => None
    | t :: ts => let '(a, h) := f t (rtc_run (clk c) t (hw c)) in Some (a, ts, mk_clk t h)
    end.

Definition counter : drv_m H Z := access (fun t h => (counter_at t, h)).
Definition set_comparator (cyc : Z) : drv_m H () := access (fun _ h => (tt, nrf_rtc_cc_set (u32 cyc .& COUNTER_MAX) h)).
Definition get_comparator : drv_m H Z := access (fun _ h => (r_cc (rtc_view h), h)).
Definition event_clear : drv_m H () := access (fun _ h => (tt, nrf_rtc_event_clear h)).
Definition event_enable : drv_m H () := access (fun _ h => (tt, nrf_rtc_event_enable h)).
Definition int_disable : drv_m H () := access (fun _ h => (tt, nrf_rtc_int_disable h)).
Definition int_enable : drv_m H () := access (fun _ h => (tt, nrf_rtc_int_enable h)).
Definition nvic_clear : drv_m H () := access (fun _ h => (tt, NVIC_ClearPendingIRQ h)).

(** [k_busy_wait(15)] is time that passes before the second [event_clear]. *)
Definition prevent_false_prev_evt : drv_m H () :=
  now <~ counter ;;
  prev_val <~ get_comparator ;;
  event_clear ;;;
  set_comparator now ;;;
  event_enable ;;;
  (if counter_sub prev_val now =? 1 then event_clear else dret tt) ;;;
  nvic_clear.

(** [while (t != counter()) { t = counter(); set_comparator(t + 2); }] *)
Fixpoint next_cycle_loop (fuel : nat) (t : Z) : drv_m H () :=
  match fuel with
  | O => fun _ _ => None
  | S fuel =>
      x <~ counter ;;
      if t =? x then dret tt
      else t <~ counter ;; set_comparator (t + 2) ;;; next_cycle_loop fuel t
  end.

(** Every round makes accesses: with the times at hand as fuel the loop stops only
    because it is done or because they are used up. *)
Definition handle_next_cycle_case (t : Z) : drv_m H () :=
  set_comparator (t + 2) ;;; fun ts => next_cycle_loop (length ts) t ts.

Definition set_absolute_alarm (abs_val : Z) : drv_m H () :=
  t <~ counter ;;
  if counter_sub abs_val t =? 1 then handle_next_cycle_case t
  else
    set_comparator abs_val ;;;
    t <~ counter ;;
    if MAX_CYCLES <? counter_sub (u32 (abs_val - 2)) t then handle_next_cycle_case t else dret tt.

Definition set_protected_absolute_alarm (cycles : Z) : drv_m H () :=
  int_disable ;;; prevent_false_prev_evt ;;; set_absolute_alarm cycles ;;; int_enable.

(** The interrupt handler ([CONFIG_TICKLESS_KERNEL]): the ticks it announces and the
    new [last_count]. *)
Definition rtc_nrf_isr (last_count : Z) : drv_m H (Z * Z) :=
  event_clear ;;;
  t <~ get_comparator ;;
  let dticks := counter_sub t last_count / CYC_PER_TICK in
  dret (dticks, u32 (last_count + dticks * CYC_PER_TICK)).

(** [CONFIG_TICKLESS_KERNEL]: the comparator is left as it is.  The counter stands
    still. *)
Definition z_clock_driver_init (h : H) : H :=
  let h := nrf_rtc_prescaler_set 0 h in
  let h := nrf_rtc_event_clear h in
  let h := NVIC_ClearPendingIRQ h in
  let h := nrf_rtc_int_enable h in
  let h := irq_enable h in
  let h := nrf_rtc_task_clear h in
  let h := nrf_rtc_task_start h in
  z_nrf_clock_control_lf_on h.

(** The cycles, from [last_count], at which the alarm for [ticks] goes off; [now] is
    what the counter shows. *)
Definition alarm_cycles (now ticks last_count : Z) : Z :=
  let ticks := if ticks =? K_TICKS_FOREVER then MAX_TICKS else ticks in
  let ticks := Z.max (Z.min (s32 (ticks - 1)) MAX_TICKS) 0 in
  let unannounced := counter_sub now last_count in
  let ticks := if COUNTER_HALF_SPAN <=? unannounced then 0 else ticks in
  let cyc := u32 (ticks * CYC_PER_TICK + 1 + unannounced) in
  let cyc := u32 (cyc + (CYC_PER_TICK - 1)) in
  let cyc := cyc / CYC_PER_TICK * CYC_PER_TICK in
  if MAX_CYCLES <? cyc then MAX_CYCLES else cyc.

Definition rtc_set_timeout (ticks last_count : Z) : drv_m H () :=
  now <~ counter ;;
  set_protected_absolute_alarm (u32 (alarm_cycles now ticks last_count + last_count)).
End driver.

(** The readings the kernel makes at time [t]. *)
Definition z_clock_elapsed (t last_count : Z) : Z := counter_sub (counter_at t) last_count / CYC_PER_TICK.
Definition z_timer_cycle_get_32 (t last_count : Z) : Z := u32 (counter_sub (counter_at t) last_count + last_count).

(** ** Counter arithmetic *)

Lemma mask_counter z : u32 z .& COUNTER_MAX = z mod COUNTER_SPAN.
Proof.
  change COUNTER_MAX with (Z.ones 24). rewrite Z.land_ones by lia. unfold u32. change COUNTER_SPAN with (2 ^ 24).
  rewrite Z.mod_mod_divide; [done|]. by exists (2 ^ 8).
Qed.

Lemma counter_sub_mod a b : counter_sub a b = (a - b) mod COUNTER_SPAN.
Proof. apply mask_counter. Qed.

(** Both sides may be known only up to the width of the counter. *)
Lemma counter_sub_counter a b : counter_sub (counter_at a) b = (a - b) mod COUNTER_SPAN.
Proof. rewrite counter_sub_mod. unfold counter_at. by rewrite Zminus_mod_idemp_l. Qed.

Lemma mod_u32 z : u32 z mod COUNTER_SPAN = z mod COUNTER_SPAN.
Proof.
  unfold u32. change COUNTER_SPAN with (2 ^ 24). rewrite Z.mod_mod_divide; [done|]. by exists (2 ^ 8).
Qed.

Lemma sub_u32_r a b : (a - u32 b) mod COUNTER_SPAN = (a - b) mod COUNTER_SPAN.
Proof. by rewrite Zminus_mod, mod_u32, <- Zminus_mod. Qed.

Lemma sub_u32_l a b : (u32 a - b) mod COUNTER_SPAN = (a - b) mod COUNTER_SPAN.
Proof. by rewrite Zminus_mod, mod_u32, <- Zminus_mod. Qed.

(** The cycles from now to a 32-bit time, and to two before it. *)
Lemma cycles_until A t : counter_sub (u32 A) (counter_at t) = (A - t) mod COUNTER_SPAN.
Proof. rewrite counter_sub_mod. unfold counter_at. by rewrite Zminus_mod_idemp_r, sub_u32_l. Qed.

Lemma cycles_until_less A t : counter_sub (u32 (u32 A - 2)) (counter_at t) = (A - 2 - t) mod COUNTER_SPAN.
Proof.
  rewrite cycles_until. replace (u32 A - 2 - t) with (u32 A - (2 + t)) by lia. rewrite sub_u32_l. f_equal. lia.
Qed.

Lemma next_match_eq c t : t <= c < t + COUNTER_SPAN -> next_match (c mod COUNTER_SPAN) t = c.
Proof. intros Hc. unfold next_match. rewrite Zminus_mod_idemp_l, Z.mod_small by lia. lia. Qed.

(** ** Reasoning about accesses *)

(** Times in order, none before [t]. *)
Fixpoint chrono (t : Z) (ts : list Z) : Prop := match ts with [] => True | x :: ts => t <= x /\ chrono x ts end.

Section logic.
Context {H : Type} `{!RtcHal H}.
Implicit Types (c : clocked H) (ts : list Z) (E : Z -> Prop) (P : clocked H -> Prop).

Definition regs c : rtc_regs := rtc_view (hw c).

(** If all accesses are made at times in [E], the computation takes [P] to [Q]. *)
Definition spec {A} E P (m : drv_m H A) (Q : A -> clocked H -> Prop) : Prop :=
  forall ts c a ts' c', chrono (clk c) ts -> Forall E ts -> P c -> m ts c = Some (a, ts', c') ->
    chrono (clk c') ts' /\ Forall E ts' /\ Q a c'.

Lemma spec_ret {A} E P (a : A) (Q : A -> clocked H -> Prop) : (forall c, P c -> Q a c) -> spec E P (dret a) Q.
Proof. intros HQ ts c x ts' c' Hc HE HP Hm. injection Hm as <- <- <-. auto. Qed.

Lemma spec_bind {A B} E P (m : drv_m H A) (f : A -> drv_m H B) R Q :
  spec E P m R -> (forall a, spec E (R a) (f a) Q) -> spec E P (dbind m f) Q.
Proof.
  intros Hm Hf ts c b ts' c' Hc HE HP He. unfold dbind in He.
  destruct (m ts c) as [[[a ts1] c1]|] eqn:E1; [|done].
  destruct (Hm _ _ _ _ _ Hc HE HP E1) as (Hc1&HE1&HR). by apply (Hf a ts1 c1).
Qed.

Lemma spec_pre {A} E P P' (m : drv_m H A) Q : (forall c, P' c -> P c) -> spec E P m Q -> spec E P' m Q.
Proof. intros Hp Hm ts c a ts' c' Hc HE HP. apply Hm; auto. Qed.

Lemma spec_post {A} E P (m : drv_m H A) (Q Q' : A -> clocked H -> Prop) :
  (forall a c, Q a c -> Q' a c) -> spec E P m Q -> spec E P m Q'.
Proof. intros Hq Hm ts c a ts' c' Hc HE HP He. destruct (Hm _ _ _ _ _ Hc HE HP He) as (?&?&?). auto. Qed.

Lemma spec_access {A} E P (f : Z -> H -> A * H) Q :
  (forall c t, P c -> clk c <= t -> E t ->
     Q (f t (rtc_run (clk c) t (hw c))).1 (mk_clk t (f t (rtc_run (clk c) t (hw c))).2)) ->
  spec E P (access f) Q.
Proof.
  intros HQ ts c a ts' c' Hc HE HP He. destruct ts as [|t ts]; [done|]. destruct Hc as [Ht Hc].
  apply Forall_cons in HE as [HEt HE]. specialize (HQ c t HP Ht HEt). unfold access in He.
  destruct (f t _) as [x h]. injection He as <- <- <-. auto.
Qed.

(** What an access does to the registers. *)
Definition run_regs c (t : Z) : rtc_regs := regs_run (clk c) t (regs c).

Lemma counter_spec E P (Q : Z -> clocked H -> Prop) :
  (forall c t c', P c -> clk c <= t -> E t -> clk c' = t -> regs c' = run_regs c t -> Q (counter_at t) c') ->
  spec E P counter Q.
Proof. intros HQ. apply spec_access. intros c t HP Ht HE. eapply HQ; eauto. apply run_law. Qed.

Lemma get_comparator_spec E P (Q : Z -> clocked H -> Prop) :
  (forall c t c', P c -> clk c <= t -> E t -> clk c' = t -> regs c' = run_regs c t -> Q (r_cc (regs c)) c') ->
  spec E P get_comparator Q.
Proof.
  intros HQ. apply spec_access. intros c t HP Ht HE. cbn [fst snd].
  replace (r_cc (rtc_view (rtc_run (clk c) t (hw c)))) with (r_cc (regs c)) by (by rewrite run_law).
  eapply HQ; eauto. apply run_law.
Qed.

(** The writes. *)
Definition writes (m : drv_m H ()) (w : rtc_regs -> rtc_regs) : Prop :=
  forall E P (Q : () -> clocked H -> Prop),
  (forall c t c', P c -> clk c <= t -> E t -> clk c' = t -> regs c' = w (run_regs c t) -> Q tt c') ->
  spec E P m Q.

Lemma access_writes f w : (forall h, rtc_view (f h) = w (rtc_view h)) -> writes (access (fun _ h => (tt, f h))) w.
Proof.
  intros Hw E P Q HQ. apply spec_access. intros c t HP Ht HE. eapply HQ; eauto.
  unfold regs. cbn [hw snd]. by rewrite Hw, run_law.
Qed.

Lemma set_comparator_writes v : writes (set_comparator v) (regs_cc (v mod COUNTER_SPAN)).
Proof. rewrite <- mask_counter. apply access_writes. intros h. apply cc_set_law. Qed.
Lemma event_clear_writes : writes event_clear regs_event_clear.
Proof. apply access_writes, event_clear_law. Qed.
Lemma event_enable_writes : writes event_enable regs_event_enable.
Proof. apply access_writes, event_enable_law. Qed.
Lemma int_disable_writes : writes int_disable regs_int_disable.
Proof. apply access_writes, int_disable_law. Qed.
Lemma int_enable_writes : writes int_enable regs_int_enable.
Proof. apply access_writes, int_enable_law. Qed.
Lemma nvic_clear_writes : writes nvic_clear regs_clear_pending.
Proof. apply access_writes, clear_pending_law. Qed.
End logic.

(** ** Where the alarm ends up *)

(** The time since [L] fits the counter. *)
Definition window (L t : Z) : Prop := L <= t <= L + COUNTER_SPAN - 3.

Section alarm.
Context {H : Type} `{!RtcHal H}.
Implicit Types (c : clocked H) (ts : list Z).
Context (E : Z -> Prop).

(** The event is enabled, and the comparator is two cycles after a reading made at
    [b] or later. *)
Definition two_ahead (b : Z) c : Prop :=
  r_evten (regs c) = true /\ exists tl, b <= tl <= clk c /\ E tl /\ r_cc (regs c) = (tl + 2) mod COUNTER_SPAN.

Lemma next_loop_two_ahead b fuel t :
  spec E (fun c => r_evten (regs c) = true /\ b <= clk c /\ exists tl, b <= tl <= clk c /\ E tl /\
      t = counter_at tl /\ r_cc (regs c) = (tl + 2) mod COUNTER_SPAN)
    (next_cycle_loop fuel t) (fun _ => two_ahead b).
Proof.
  revert t. induction fuel as [|fuel IH]; intros t; [by intros ???|]. cbn [next_cycle_loop].
  eapply spec_bind; [apply counter_spec with (Q := fun x c => r_evten (regs c) = true /\ b <= clk c /\
    x = counter_at (clk c) /\ E (clk c) /\ exists tl, b <= tl <= clk c /\ E tl /\
      t = counter_at tl /\ r_cc (regs c) = (tl + 2) mod COUNTER_SPAN)|].
  { intros c x c' (He&Hb&tl&Htl&HEtl&Ht&Hcc) Hx HE Hclk ->. rewrite Hclk. cbn.
    split; [done|]. split; [lia|]. split; [done|]. split; [done|]. exists tl. split; [lia|done]. }
  intros x. destruct (Z.eqb_spec t x) as [<-|Hne].
  { apply spec_ret. intros c (He&Hb&Ex&HEx&tl&Htl&HEtl&Ht&Hcc). split; [done|]. exists tl. auto. }
  eapply spec_bind; [apply counter_spec with (Q := fun x c => r_evten (regs c) = true /\ b <= clk c /\
    x = counter_at (clk c) /\ E (clk c))|].
  { intros c y c' (He&Hb&_) Hy HE Hclk ->. rewrite Hclk. cbn. split; [done|]. split; [lia|done]. }
  intros y. eapply spec_bind; [|intros ?; apply IH].
  apply set_comparator_writes. intros c z c' (He&Hb&->&HEy) Hz HE Hclk ->. rewrite Hclk.
  split; [done|]. split; [lia|]. exists (clk c). cbn. repeat split; [done|lia|done|].
  unfold counter_at. by rewrite Zplus_mod_idemp_l.
Qed.

Lemma next_cycle_two_ahead b t :
  spec E (fun c => r_evten (regs c) = true /\ exists tl, b <= tl <= clk c /\ E tl /\ t = counter_at tl)
    (handle_next_cycle_case t) (fun _ => two_ahead b).
Proof.
  unfold handle_next_cycle_case. eapply spec_bind with (R := fun _ c => r_evten (regs c) = true /\ b <= clk c /\ exists tl, b <= tl <= clk c /\ E tl /\
      t = counter_at tl /\ r_cc (regs c) = (tl + 2) mod COUNTER_SPAN).
  - apply set_comparator_writes. intros c z c' (He&tl&Htl&HE'&->) Hz HE Hclk ->. rewrite Hclk.
    split; [done|]. split; [lia|]. exists tl. cbn. repeat split; [lia|lia|done|].
    unfold counter_at. by rewrite Zplus_mod_idemp_l.
  - intros ? ts c a ts' c' Hc HE HP. by eapply (next_loop_two_ahead b (length ts) t ts).
Qed.

(** The comparator is at [A], or two cycles after a reading that is too close to it. *)
Definition alarm_set (A t0 : Z) c : Prop :=
  r_evten (regs c) = true /\ exists tl, t0 <= tl <= clk c /\ E tl /\
    r_cc (regs c) = Z.max A (tl + 2) mod COUNTER_SPAN.

Lemma two_ahead_alarm A t0 b c : t0 <= b -> A <= b + 2 -> two_ahead b c -> alarm_set A t0 c.
Proof.
  intros Hb HA (He&tl&Htl&HE&Hcc). split; [done|]. exists tl. rewrite Z.max_r by lia.
  split; [lia|done].
Qed.

Lemma set_alarm_spec L t0 A :
  L <= A <= L + MAX_CYCLES -> (forall t, E t -> window L t /\ t <= A + MAX_CYCLES - 1) ->
  spec E (fun c => r_evten (regs c) = true /\ t0 <= clk c) (set_absolute_alarm (u32 A)) (fun _ => alarm_set A t0).
Proof.
  intros HA HE. unfold window in HE. change MAX_CYCLES with (2 ^ 23 - 1) in *. change COUNTER_SPAN with (2 ^ 24) in HE.
  eapply spec_bind; [apply counter_spec with (Q := fun x c => r_evten (regs c) = true /\ t0 <= clk c /\
    x = counter_at (clk c) /\ E (clk c))|].
  { intros c t c' (Hv&Ht0) Ht HEt Hclk ->. rewrite Hclk. cbn. split; [done|]. split; [lia|done]. }
  intros x. intros ts c a ts' c' Hc HEs (Hv&Ht0&->&HEc). revert a ts' c'. pose proof (HE _ HEc) as Hw. set (t := clk c) in *.
  rewrite cycles_until. change COUNTER_SPAN with (2 ^ 24). destruct (Z.eqb_spec ((A - t) mod 2 ^ 24) 1) as [H1|H1]; intros a ts' c' He.
  - assert (A - t = 1) by (pose proof (Z.div_mod (A - t) (2 ^ 24)); lia).
    destruct (next_cycle_two_ahead t (counter_at t) ts c a ts' c' Hc HEs) as (?&?&?); [|done|].
    { split; [done|]. exists t. split; [lia|done]. }
    split; [done|]. split; [done|]. by apply (two_ahead_alarm A t0 t); [lia|lia|].
  - refine (spec_bind E (fun c => r_evten (regs c) = true /\ t0 <= clk c) _ _
      (fun _ c => r_evten (regs c) = true /\ t0 <= clk c /\ r_cc (regs c) = A mod 2 ^ 24)
      (fun _ => alarm_set A t0) _ _ ts c a ts' c' Hc HEs (conj Hv Ht0) He).
    { apply set_comparator_writes. intros c1 z c2 (Hv1&Hb1) Hz HEz Hclk ->. rewrite Hclk. cbn.
      split; [done|]. split; [lia|]. apply mod_u32. }
    intros ?. eapply spec_bind; [apply counter_spec with (Q := fun x c => r_evten (regs c) = true /\ t0 <= clk c /\
      x = counter_at (clk c) /\ E (clk c) /\ r_cc (regs c) = A mod 2 ^ 24)|].
    { intros c1 t2 c2 (Hv1&Hb1&Hcc) Ht2 HEt Hclk ->. rewrite Hclk. cbn. split; [done|]. split; [lia|done]. }
    intros y ts2 c2 a2 ts3 c3 Hc2 HEs2 (Hv2&Hb2&->&HEc2&Hcc2) He2. pose proof (HE _ HEc2) as Hw2. set (t2 := clk c2) in *.
    rewrite cycles_until_less in He2. change COUNTER_SPAN with (2 ^ 24) in He2.
    change MAX_CYCLES with (2 ^ 23 - 1) in He2.
    destruct (Z.ltb_spec (2 ^ 23 - 1) ((A - 2 - t2) mod 2 ^ 24)) as [H2|H2].
    + assert (A - 2 < t2) by (destruct (Z.ltb_spec (A - 2) t2); [done|]; rewrite Z.mod_small in H2 by lia; lia).
      destruct (next_cycle_two_ahead t2 (counter_at t2) ts2 c2 a2 ts3 c3 Hc2 HEs2) as (?&?&?); [|done|].
      { split; [done|]. exists t2. split; [lia|done]. }
      split; [done|]. split; [done|]. by apply (two_ahead_alarm A t0 t2); [lia|lia|].
    + injection He2 as <- <- <-. do 3 (split; [done|]). exists t2.
      assert (t2 + 2 <= A).
      { destruct (Z.leb_spec (t2 + 2) A); [done|].
        rewrite <- (Z.mod_unique_pos (A - 2 - t2) (2 ^ 24) (-1) (A - 2 - t2 + 2 ^ 24)) in H2; lia. }
      rewrite Z.max_l by lia. split; [lia|done].
Qed.
End alarm.

Section timeouts.
Context {H : Type} `{!RtcHal H}.
Implicit Types (c : clocked H) (ts : list Z) (L n : Z).

Lemma prevent_enables E t0 :
  spec E (fun c => t0 <= clk c) prevent_false_prev_evt (fun _ c => r_evten (regs c) = true /\ t0 <= clk c).
Proof.
  pose (later := fun c => t0 <= clk c). pose (armed := fun c => r_evten (regs c) = true /\ t0 <= clk c).
  eapply spec_bind with (R := fun _ => later).
  { apply counter_spec. intros c t c' Hp Ht _ Hc _. unfold later in *. lia. }
  intros now. eapply spec_bind with (R := fun _ => later).
  { apply get_comparator_spec. intros c t c' Hp Ht _ Hc _. unfold later in *. lia. }
  intros prev. eapply spec_bind with (R := fun _ => later).
  { apply event_clear_writes. intros c t c' Hp Ht _ Hc _. unfold later in *. lia. }
  intros ?. eapply spec_bind with (R := fun _ => later).
  { apply set_comparator_writes. intros c t c' Hp Ht _ Hc _. unfold later in *. lia. }
  intros ?. eapply spec_bind with (R := fun _ => armed).
  { apply event_enable_writes. intros c t c' Hp Ht _ Hc Hr. unfold later in *. split; [by rewrite Hr|lia]. }
  intros ?. eapply spec_bind with (R := fun _ => armed).
  { destruct (_ =? 1); [|by apply spec_ret]. apply event_clear_writes.
    intros c t c' [Hv Hp] Ht _ Hc Hr. split; [by rewrite Hr|lia]. }
  intros ?. apply nvic_clear_writes. intros c t c' [Hv Hp] Ht _ Hc Hr. split; [by rewrite Hr|lia].
Qed.

Lemma protected_alarm_spec E L t0 A :
  L <= A <= L + MAX_CYCLES -> (forall t, E t -> window L t /\ t <= A + MAX_CYCLES - 1) ->
  spec E (fun c => t0 <= clk c) (set_protected_absolute_alarm (u32 A))
    (fun _ c => alarm_set E A t0 c /\ r_inten (regs c) = true /\ E (clk c)).
Proof.
  intros HA HE. eapply spec_bind with (R := fun _ c => t0 <= clk c).
  { apply int_disable_writes. intros c t c' Hp Ht _ Hc _. lia. }
  intros ?. eapply spec_bind; [apply prevent_enables|]. intros ?.
  eapply spec_bind; [by apply (set_alarm_spec E L)|]. intros ?.
  apply int_enable_writes. intros c t c' (Hv&tl&Htl&HEt&Hcc) Ht Ht' Hc Hr. split; [|by rewrite Hr, Hc].
  split; [by rewrite Hr|]. exists tl. rewrite Hr. cbn. split; [lia|done].
Qed.

(** The ticks the driver waits for, at least one. *)
Definition wait_ticks (n : Z) : Z := if n =? K_TICKS_FOREVER then MAX_TICKS else Z.max 1 n.

Lemma alarm_cycles_spec L t0 n :
  window L t0 -> - 1 <= n < 2 ^ 31 ->
  alarm_cycles (counter_at t0) n (u32 L) = Z.min (t0 - L + wait_ticks n) MAX_CYCLES.
Proof.
  intros Hw Hn. unfold alarm_cycles. rewrite counter_sub_counter, sub_u32_r. unfold window in Hw.
  change COUNTER_SPAN with (2 ^ 24) in *. rewrite (Z.mod_small (t0 - L)) by lia.
  unfold wait_ticks. change K_TICKS_FOREVER with (-1). change CYC_PER_TICK with 1.
  change MAX_TICKS with (2 ^ 23 - 1). change MAX_CYCLES with (2 ^ 23 - 1). change COUNTER_HALF_SPAN with (2 ^ 23).
  set (m := if n =? -1 then 2 ^ 23 - 1 else n). assert (Hm : 0 <= m < 2 ^ 31) by (unfold m; destruct (Z.eqb_spec n (-1)); lia).
  rewrite s32_small by lia. destruct (Z.leb_spec (2 ^ 23) (t0 - L)).
  - rewrite (u32_small (0 * 1 + 1 + (t0 - L))), u32_small by lia. rewrite Z.div_1_r.
    destruct (Z.ltb_spec (2 ^ 23 - 1) ((0 * 1 + 1 + (t0 - L) + (1 - 1)) * 1)); [|lia].
    destruct (n =? -1); lia.
  - rewrite (u32_small (_ + 1 + (t0 - L))), u32_small by lia. rewrite Z.div_1_r.
    destruct (Z.ltb_spec (2 ^ 23 - 1) ((Z.max (Z.min (m - 1) (2 ^ 23 - 1)) 0 * 1 + 1 + (t0 - L) + (1 - 1)) * 1));
      unfold m in *; destruct (n =? -1); lia.
Qed.

(** When the alarm for [n] ticks from [t0] on is due: at the end of the ticks asked
    for, and at most [MAX_CYCLES] after the last announcement. *)
Definition alarm_due (L t0 n : Z) : Z := Z.min (t0 + wait_ticks n) (L + MAX_CYCLES).

Lemma alarm_due_range L t0 n : window L t0 -> L <= alarm_due L t0 n <= L + MAX_CYCLES.
Proof.
  intros Hw. unfold window, alarm_due in *.
  assert (1 <= wait_ticks n) by (unfold wait_ticks; destruct (_ =? _); [done|lia]).
  change MAX_CYCLES with (2 ^ 23 - 1). lia.
Qed.

(** After the first reading a timeout is an absolute alarm. *)
Lemma set_timeout_alarm L t0 n ts c :
  window L t0 -> - 1 <= n < 2 ^ 31 ->
  rtc_set_timeout n (u32 L) (t0 :: ts) c =
  set_protected_absolute_alarm (u32 (alarm_due L t0 n)) ts (mk_clk t0 (rtc_run (clk c) t0 (hw c))).
Proof.
  intros Hw Hn. unfold rtc_set_timeout, dbind, counter, access. rewrite alarm_cycles_spec by done.
  f_equal. unfold u32 at 2. unfold u32. rewrite Zplus_mod_idemp_r. f_equal. unfold alarm_due. lia.
Qed.

(** The times of an operation on a timeout set at [t0]. *)
Definition in_time (L t0 t : Z) : Prop := window L t /\ t <= t0 + MAX_CYCLES - 1.

Lemma set_timeout_spec E L t0 n ts c a ts' c' :
  - 1 <= n < 2 ^ 31 -> chrono t0 ts -> (forall t, E t -> in_time L t0 t) -> window L t0 -> Forall E ts ->
  rtc_set_timeout n (u32 L) (t0 :: ts) c = Some (a, ts', c') ->
  alarm_set E (alarm_due L t0 n) t0 c' /\ r_inten (regs c') = true /\ E (clk c').
Proof.
  intros Hn Hr HE Hw0 Hw He. rewrite set_timeout_alarm in He by done.
  pose proof (alarm_due_range L t0 n Hw0) as HA.
  assert (HE' : forall t, E t -> window L t /\ t <= alarm_due L t0 n + MAX_CYCLES - 1).
  { intros t [W1 W2]%HE. split; [done|]. unfold window, alarm_due in *.
    assert (1 <= wait_ticks n) by (unfold wait_ticks; destruct (_ =? _); [done|lia]).
    change MAX_CYCLES with (2 ^ 23 - 1) in *. change COUNTER_SPAN with (2 ^ 24) in *. lia. }
  by destruct (protected_alarm_spec E L t0 _ HA HE' ts (mk_clk t0 (rtc_run (clk c) t0 (hw c))) a ts' c' Hr Hw (Z.le_refl t0) He)
    as (_&_&?).
Qed.

(** ** Termination *)

(** How often the counter moves between consecutive accesses. *)
Fixpoint moves (t : Z) ts : nat :=
  match ts with [] => 0 | x :: ts => (if t =? x then 0 else 1) + moves x ts end.

(** Accesses left over when each move of the counter is charged three. *)
Definition slack ts c : Z := Z.of_nat (length ts) - 3 * Z.of_nat (moves (clk c) ts).

Definition ends {A} (k : Z) (m : drv_m H A) : Prop :=
  forall ts c, k <= slack ts c ->
    exists a ts' c', m ts c = Some (a, ts', c') /\ slack ts c <= k + slack ts' c'.

Lemma ends_ret {A} (a : A) : ends 0 (dret a).
Proof. intros ts c _. exists a, ts, c. split; [done|lia]. Qed.

Lemma ends_weaken {A} j k (m : drv_m H A) : j <= k -> ends j m -> ends k m.
Proof. intros Hjk Hm ts c Hs. destruct (Hm ts c) as (a&ts'&c'&He&Hl); [lia|]. exists a, ts', c'. split; [done|lia]. Qed.

Lemma ends_bind {A B} j k (m : drv_m H A) (f : A -> drv_m H B) :
  0 <= k -> ends j m -> (forall a, ends k (f a)) -> ends (j + k) (dbind m f).
Proof.
  intros Hk Hm Hf ts c Hs. destruct (Hm ts c) as (a&ts1&c1&E1&H1); [lia|].
  destruct (Hf a ts1 c1) as (b&ts2&c2&E2&H2); [lia|]. exists b, ts2, c2. unfold dbind. rewrite E1. split; [done|lia].
Qed.

Lemma slack_cons t ts c c' : clk c' = t -> slack (t :: ts) c = 1 + slack ts c' - (if clk c =? t then 0 else 3).
Proof. intros <-. unfold slack. cbn [moves length]. destruct (clk c =? clk c'); lia. Qed.

Lemma ends_access {A} (f : Z -> H -> A * H) : ends 1 (access f).
Proof.
  intros [|t ts] c Hs; [unfold slack in Hs; cbn in Hs; lia|]. cbn [access].
  destruct (f t _) as [a h]. exists a, ts, (mk_clk t h). split; [done|].
  rewrite (slack_cons t ts c (mk_clk t h)) by done. destruct (_ =? _); lia.
Qed.

(** The loop goes round again only when the counter has moved. *)
Lemma next_loop_ends fuel t ts c :
  (length ts <= fuel)%nat -> let need := if t =? counter_at (clk c) then 1 else 4 in need <= slack ts c ->
  exists a ts' c', next_cycle_loop fuel t ts c = Some (a, ts', c') /\ slack ts c <= need + slack ts' c'.
Proof.
  revert t ts c. induction fuel as [|fuel IH]; intros t ts c Hf need Hs.
  { destruct ts; [|cbn in Hf; lia]. unfold slack, need in Hs. cbn in Hs. destruct (_ =? _); lia. }
  destruct ts as [|x ts]; [unfold slack, need in Hs; cbn in Hs; destruct (_ =? _); lia|]. cbn [next_cycle_loop].
  unfold dbind at 1, counter at 1, access at 1. set (c1 := mk_clk x _).
  rewrite (slack_cons x ts c c1) in * by done.
  destruct (Z.eqb_spec t (counter_at x)) as [_|Hne].
  { eexists _, _, _. split; [reflexivity|]. unfold need in *. destruct (_ =? _), (_ =? _); lia. }
  set (d := if clk c =? x then 0 else 3) in *.
  assert (Hn : 4 <= need + d).
  { unfold need, d. destruct (Z.eqb_spec (clk c) x) as [E|], (Z.eqb_spec t (counter_at (clk c))); try lia. by subst. }
  clearbody need d. assert (Hx : 4 <= 1 + slack ts c1) by lia.
  destruct ts as [|y [|z ts]]; [unfold slack in Hx; cbn in Hx; lia|
    unfold slack in Hx; cbn [length moves] in Hx; destruct (_ =? _); lia|].
  unfold dbind at 1, counter at 1, access at 1, dbind at 1, set_comparator at 1, access at 1.
  set (c2 := mk_clk y _). set (c3 := mk_clk z _).
  rewrite (slack_cons y (z :: ts) c1 c2), (slack_cons z ts c2 c3) in * by done.
  destruct (IH (counter_at y) ts c3) as (a&ts'&c'&He&Hl).
  - cbn in Hf. lia.
  - change (clk c3) with z. change (clk c2) with y in *. destruct (Z.eqb_spec y z) as [<-|].
    + rewrite Z.eqb_refl. destruct (clk c1 =? y); lia.
    + destruct (clk c1 =? y), (counter_at y =? counter_at z); lia.
  - exists a, ts', c'. split; [exact He|]. change (clk c3) with z in Hl. change (clk c2) with y in *.
    destruct (Z.eqb_spec y z) as [<-|]; 
      [rewrite Z.eqb_refl in Hl|destruct (counter_at y =? counter_at z)]; destruct (clk c1 =? y); lia.
Qed.

Lemma next_cycle_ends t : ends 5 (handle_next_cycle_case t).
Proof.
  apply (ends_bind 1 4); [lia|apply ends_access|]. intros u ts c Hs.
  destruct (next_loop_ends (length ts) t ts c (le_n _)) as (a&ts'&c'&He&Hl); [destruct (_ =? _); lia|].
  exists a, ts', c'. split; [done|]. destruct (_ =? _); lia.
Qed.

Lemma set_alarm_ends v : ends 8 (set_absolute_alarm v).
Proof.
  apply (ends_bind 1 7); [lia|apply ends_access|]. intros t.
  destruct (_ =? 1); [eapply ends_weaken; [|apply next_cycle_ends]; lia|].
  apply (ends_bind 1 6); [lia|apply ends_access|]. intros ?.
  apply (ends_bind 1 5); [lia|apply ends_access|]. intros t2.
  destruct (_ <? _); [apply next_cycle_ends|]. eapply ends_weaken; [|apply ends_ret]. lia.
Qed.

Lemma prevent_ends : ends 7 prevent_false_prev_evt.
Proof.
  apply (ends_bind 1 6); [lia|apply ends_access|intros ?]. apply (ends_bind 1 5); [lia|apply ends_access|intros ?].
  apply (ends_bind 1 4); [lia|apply ends_access|intros ?]. apply (ends_bind 1 3); [lia|apply ends_access|intros ?].
  apply (ends_bind 1 2); [lia|apply ends_access|intros ?].
  apply (ends_bind 1 1); [lia| |intros ?; apply ends_access].
  destruct (_ =? 1); [apply ends_access|]. eapply ends_weaken; [|apply ends_ret]. lia.
Qed.

Lemma protected_alarm_ends v : ends 17 (set_protected_absolute_alarm v).
Proof.
  apply (ends_bind 1 16); [lia|apply ends_access|]. intros ?.
  apply (ends_bind 7 9); [lia|apply prevent_ends|]. intros ?.
  apply (ends_bind 8 1); [lia|apply set_alarm_ends|]. intros ?. apply ends_access.
Qed.

(** ** No event from an old comparator *)

(** An operation that takes less than one cycle: the counter moves at most once. *)
Definition brief (t1 t : Z) : Prop := t1 <= t <= t1 + 1.

(** The comparator does not match during the rest of the operation. *)
Definition ahead (t1 cc t : Z) : Prop := t = t1 + 1 \/ (cc - (t1 + 1)) mod COUNTER_SPAN <> 0.

Definition silent (t1 : Z) c : Prop :=
  brief t1 (clk c) /\ r_event (regs c) = false /\ r_pending (regs c) = false /\
  r_inten (regs c) = false /\ r_evten (regs c) = true /\ ahead t1 (r_cc (regs c)) (clk c).

(** A match in the course of a brief operation. *)
Lemma brief_match t1 cc a b :
  brief t1 a -> brief t1 b -> a <= b -> next_match cc (a + 1) <= b -> a = t1 /\ (cc - (t1 + 1)) mod COUNTER_SPAN = 0.
Proof.
  unfold brief, next_match. intros Ha Hb Hab Hm. assert (a + 1 <= b) by (pose proof (Z.mod_pos_bound (cc - (a + 1)) COUNTER_SPAN eq_refl); lia).
  assert (a = t1) as -> by lia. split; [done|]. pose proof (Z.mod_pos_bound (cc - (t1 + 1)) COUNTER_SPAN eq_refl). lia.
Qed.

Lemma ahead_no_match t1 cc a b :
  brief t1 a -> brief t1 b -> a <= b -> ahead t1 cc a -> (next_match cc (a + 1) <=? b) = false.
Proof.
  intros Ha Hb Hab Hh. apply Z.leb_gt. destruct (Z.lt_ge_cases b (next_match cc (a + 1))) as [|Hm]; [done|].
  destruct (brief_match t1 cc a b Ha Hb Hab Hm) as [-> E]. by destruct Hh; [lia|].
Qed.

Lemma ahead_later t1 cc a b : brief t1 b -> a <= b -> ahead t1 cc a -> ahead t1 cc b.
Proof. unfold brief. intros Hb Hab [->|?]; [left; lia|by right]. Qed.

Lemma silent_run t1 c t :
  silent t1 c -> clk c <= t -> brief t1 t ->
  run_regs c t = mk_rtc (r_cc (regs c)) false true false false /\ ahead t1 (r_cc (regs c)) t.
Proof.
  intros (Hb&He&Hp&Hi&Hv&Ha) Ht Hbt. split; [|by eapply ahead_later]. unfold run_regs, regs_run.
  rewrite He, Hp, Hi, Hv, (ahead_no_match t1) by done. done.
Qed.

Lemma counter_silent t1 :
  spec (brief t1) (silent t1) counter (fun x c => silent t1 c /\ x = counter_at (clk c)).
Proof.
  apply counter_spec. intros c t c' Hs Ht Hb Hc Hr. destruct (silent_run t1 c t Hs Ht Hb) as [E Ha].
  rewrite Hc. split; [|done]. unfold silent. by rewrite Hr, E, Hc.
Qed.

Lemma set_comparator_silent t1 v :
  spec (brief t1) (fun c => silent t1 c /\ ahead t1 v (clk c)) (set_comparator v) (fun _ => silent t1).
Proof.
  apply set_comparator_writes. intros c t c' [Hs Hv] Ht Hb Hc Hr.
  destruct (silent_run t1 c t Hs Ht Hb) as [E _]. unfold silent. rewrite Hr, E, Hc.
  split; [done|]. do 4 (split; [done|]). apply (ahead_later t1 v (clk c) t) in Hv as [->|Hv]; [by left| |done|done].
  right. cbn. by rewrite Zminus_mod_idemp_l.
Qed.

(** Two cycles after a reading is after the end of the operation. *)
Lemma ahead_two t1 tl t : brief t1 tl -> ahead t1 (counter_at tl + 2) t.
Proof.
  unfold brief, ahead, counter_at. intros Hb. right.
  replace (tl mod COUNTER_SPAN + 2 - (t1 + 1)) with (tl mod COUNTER_SPAN - (t1 - 1)) by lia.
  rewrite Zminus_mod_idemp_l, Z.mod_small by (change COUNTER_SPAN with (2 ^ 24); lia). lia.
Qed.

Lemma next_cycle_silent t1 t :
  spec (brief t1) (fun c => silent t1 c /\ t = counter_at (clk c)) (handle_next_cycle_case t) (fun _ => silent t1).
Proof.
  eapply spec_bind; [eapply spec_pre; [|apply set_comparator_silent]|].
  { intros c [Hs ->]. split; [done|]. apply ahead_two, Hs. }
  intros ? ts. set (fuel := length ts). clearbody fuel. revert t ts.
  induction fuel as [|fuel IH]; intros t ts; [by intros ????|]. revert ts. change (spec (brief t1) (silent t1) (next_cycle_loop (S fuel) t) (fun _ => silent t1)).
  cbn [next_cycle_loop]. eapply spec_bind; [apply counter_silent|]. intros x. destruct (t =? x).
  { apply spec_ret. by intros c [? _]. }
  eapply spec_bind; [eapply spec_pre; [|apply counter_silent]; by intros c [? _]|]. intros y.
  eapply spec_bind; [eapply spec_pre; [|apply set_comparator_silent]|].
  { intros c [Hs ->]. split; [done|]. apply ahead_two, Hs. }
  intros ?. exact (IH y).
Qed.

Lemma set_alarm_silent t1 A :
  spec (brief t1) (silent t1) (set_absolute_alarm (u32 A)) (fun _ => silent t1).
Proof.
  eapply spec_bind; [apply counter_silent|]. intros x ts c a ts' c' Hc HE [Hs ->] He.
  rewrite cycles_until in He. destruct (Z.eqb_spec ((A - clk c) mod COUNTER_SPAN) 1) as [_|Hne].
  { by apply (next_cycle_silent t1 (counter_at (clk c)) ts c a ts' c'). }
  assert (Ha : ahead t1 (u32 A) (clk c)).
  { destruct Hs as [[H1 H2] _]. destruct (Z.eq_dec (clk c) (t1 + 1)) as [|Hn]; [by left|right].
    rewrite sub_u32_l. replace t1 with (clk c) by lia. intros E. apply Hne.
    replace (A - clk c) with (A - (clk c + 1) + 1) by lia. rewrite <- Zplus_mod_idemp_l, E. done. }
  refine (spec_bind _ _ _ _ _ (fun _ => silent t1) (set_comparator_silent t1 _) _ ts c a ts' c' Hc HE (conj Hs Ha) He).
  intros ?. eapply spec_bind; [apply counter_silent|]. intros y. destruct (_ <? _); [apply next_cycle_silent|].
  apply spec_ret. by intros c1 [? _].
Qed.

(** The interrupt is disabled, the comparator does not match any more, and if there is
    an event from the old one, that was set to the cycle after [now]. *)
Definition late (t1 prev now : Z) c : Prop :=
  r_inten (regs c) = false /\ brief t1 (clk c) /\ ahead t1 (r_cc (regs c)) (clk c) /\
  (r_event (regs c) = true -> counter_sub prev now = 1).

Lemma write_now_late t1 tn prev c t c' :
  r_inten (regs c) = false -> r_event (regs c) = false -> r_cc (regs c) = prev ->
  brief t1 tn -> brief t1 (clk c) -> brief t1 t -> tn <= clk c -> clk c <= t -> clk c' = t ->
  regs c' = regs_cc (counter_at tn mod COUNTER_SPAN) (run_regs c t) -> late t1 prev (counter_at tn) c'.
Proof.
  intros Hi He Hcc Htn Hb Hbt Hle Ht Hc Hr. unfold late. rewrite Hr, Hc. split; [done|]. split; [done|]. split.
  - destruct (Z.eq_dec t (t1 + 1)) as [->|Hn]; [by left|right]. unfold brief in *. replace tn with t1 by lia.
    cbn. unfold counter_at. rewrite Z.mod_mod, Zminus_mod_idemp_l by done. by replace (t1 - (t1 + 1)) with (-1) by lia.
  - cbn. rewrite He, Hi, Hcc. cbn. intros [_ Hm]%andb_prop. apply Z.leb_le in Hm.
    destruct (brief_match t1 prev (clk c) t) as [E1 E2]; [done..|]. unfold brief in *.
    rewrite counter_sub_mod. unfold counter_at. rewrite Zminus_mod_idemp_r. replace tn with t1 by lia.
    replace (prev - t1) with (prev - (t1 + 1) + 1) by lia. by rewrite <- Zplus_mod_idemp_l, E2.
Qed.

(** From any state with the interrupt disabled: an event of the old comparator before
    the write is cleared, and the only one that can still come between the first
    [event_clear] and the write is that of the next cycle, which the second one clears. *)
Lemma prevent_silent t1 :
  spec (brief t1) (fun c => r_inten (regs c) = false) prevent_false_prev_evt (fun _ => silent t1).
Proof.
  eapply spec_bind with (R := fun now c => r_inten (regs c) = false /\ brief t1 (clk c) /\ now = counter_at (clk c)).
  { apply counter_spec. intros c t c' Hi _ Hb -> ->. done. }
  intros now. eapply spec_bind with (R := fun prev c => r_inten (regs c) = false /\ brief t1 (clk c) /\
    r_cc (regs c) = prev /\ exists tn, brief t1 tn /\ tn <= clk c /\ now = counter_at tn).
  { apply get_comparator_spec. intros c t c' (Hi&Hb&->) Ht Hbt Hc ->. rewrite Hc. split_and!; try done.
    by exists (clk c). }
  intros prev. eapply spec_bind with (R := fun _ c => r_inten (regs c) = false /\ brief t1 (clk c) /\
    r_cc (regs c) = prev /\ r_event (regs c) = false /\ exists tn, brief t1 tn /\ tn <= clk c /\ now = counter_at tn).
  { apply event_clear_writes. intros c t c' (Hi&Hb&Hcc&tn&Htn&Hle&->) Ht Hbt Hc ->. rewrite Hc. split_and!; try done.
    exists tn. split; [done|]. split; [lia|done]. }
  intros ?. eapply spec_bind with (R := fun _ => late t1 prev now).
  { apply set_comparator_writes. intros c t c' (Hi&Hb&Hcc&He&tn&Htn&Hle&->) Ht Hbt Hc Hr. by eapply write_now_late. }
  intros ?. eapply spec_bind with (R := fun _ c => late t1 prev now c /\ r_evten (regs c) = true).
  { apply event_enable_writes. intros c t c' (Hi&Hb&Ha&He) Ht Hbt Hc Hr. unfold late. rewrite Hr, Hc. cbn.
    rewrite (ahead_no_match t1), andb_false_r, orb_false_r by done. split_and!; try done. by eapply ahead_later. }
  intros ?. eapply spec_bind with (R := fun _ c => late t1 prev now c /\ r_evten (regs c) = true /\ r_event (regs c) = false).
  { destruct (Z.eqb_spec (counter_sub prev now) 1) as [_|Hn].
    - apply event_clear_writes. intros c t c' [(Hi&Hb&Ha&He) Hv] Ht Hbt Hc Hr. unfold late. rewrite Hr, Hc. cbn.
      split_and!; try done. by eapply ahead_later.
    - apply spec_ret. intros c [(Hi&Hb&Ha&He) Hv]. split_and!; try done. destruct (r_event (regs c)); [|done].
      by destruct Hn; apply He. }
  intros ?. apply nvic_clear_writes. intros c t c' [(Hi&Hb&Ha&He) [Hv Hn]] Ht Hbt Hc Hr. unfold silent. rewrite Hr, Hc. cbn.
  rewrite (ahead_no_match t1), Hn, andb_false_r by done. split_and!; try done. by eapply ahead_later.
Qed.

(** The whole operation: no event, no interrupt pending. *)
Lemma protected_alarm_silent t1 A :
  spec (brief t1) (fun _ => True) (set_protected_absolute_alarm (u32 A))
    (fun _ c => brief t1 (clk c) /\ r_event (regs c) = false /\ r_pending (regs c) = false).
Proof.
  eapply spec_bind with (R := fun _ c => r_inten (regs c) = false).
  { apply int_disable_writes. intros c t c' _ _ _ _ ->. done. }
  intros ?. eapply spec_bind; [apply prevent_silent|]. intros ?. eapply spec_bind; [apply set_alarm_silent|]. intros ?.
  apply int_enable_writes. intros c t c' Hs Ht Hb Hc Hr. destruct (silent_run t1 c t Hs Ht Hb) as [E _].
  by rewrite Hr, E, Hc.
Qed.

(** ** The driver with the time it keeps *)

(** [announced] ticks have been announced; [alarm_at] is when the counter reaches the
    comparator. *)
Record timer_world := mk_tw { announced : Z; last_count : Z; alarm_at : Z; dev : clocked H }.

Definition time (w : timer_world) : Z := clk (dev w).

(** The cycles announced so far. *)
Definition since (w : timer_world) : Z := announced w * CYC_PER_TICK.

(** Time passes; a timeout is set; the processor takes the pending interrupt.  The
    time since the last announcement never laps the counter.  A timeout is set with
    interrupts locked, as [kernel/timeout.c] does under its lock: from its first
    access to the comparator at [t1] it takes less than a cycle of the counter. *)
Inductive timer_step : timer_world -> timer_world -> Prop :=
| ts_pass t w :
    time w <= t -> window (since w) t ->
    timer_step w (mk_tw (announced w) (last_count w) (alarm_at w) (mk_clk t (rtc_run (time w) t (hw (dev w)))))
| ts_set n t0 t1 ts c' w :
    - 1 <= n < 2 ^ 31 -> chrono (time w) (t0 :: t1 :: ts) -> Forall (brief t1) ts ->
    Forall (in_time (since w) t0) (t0 :: t1 :: ts) ->
    rtc_set_timeout n (last_count w) (t0 :: t1 :: ts) (dev w) = Some (tt, [], c') ->
    timer_step w (mk_tw (announced w) (last_count w) (next_match (r_cc (regs c')) (clk c')) c')
| ts_isr ts dticks last c' w :
    r_pending (regs (dev w)) = true -> chrono (time w) ts -> Forall (window (since w)) ts ->
    rtc_nrf_isr (last_count w) ts (mk_clk (time w) (irq_entry (hw (dev w)))) = Some ((dticks, last), [], c') ->
    timer_step w (mk_tw (announced w + dticks) last (alarm_at w) c').

Record timer_inv w : Prop := {
  ti_count : last_count w = u32 (since w);
  ti_time : window (since w) (time w);
  ti_alarm : since w <= alarm_at w <= since w + COUNTER_SPAN - 1;
  ti_cc : r_cc (regs (dev w)) = alarm_at w mod COUNTER_SPAN;
  ti_due : r_event (regs (dev w)) || r_pending (regs (dev w)) = true -> alarm_at w <= time w;
  ti_armed : since w < alarm_at w -> r_inten (regs (dev w)) = true;
  ti_fires : since w < alarm_at w <= time w -> r_pending (regs (dev w)) = true }.

(** Within the window the comparator matches at the alarm and at no other time. *)
Lemma window_match L A a b :
  window L a -> window L b -> L <= A <= L + COUNTER_SPAN - 1 ->
  (next_match (A mod COUNTER_SPAN) (a + 1) <=? b) = (a <? A) && (A <=? b).
Proof.
  unfold window. intros Ha Hb HA. assert (0 < COUNTER_SPAN) by done. destruct (Z.ltb_spec a A).
  - rewrite (next_match_eq A (a + 1)) by lia. done.
  - cbn [andb]. apply Z.leb_gt. rewrite <- (Z.mod_add A 1 COUNTER_SPAN) by lia.
    rewrite (next_match_eq (A + 1 * COUNTER_SPAN) (a + 1)) by lia. lia.
Qed.

Lemma pass_inv t w :
  timer_inv w -> time w <= t -> window (since w) t ->
  timer_inv (mk_tw (announced w) (last_count w) (alarm_at w) (mk_clk t (rtc_run (time w) t (hw (dev w))))).
Proof.
  intros [I1 I2 I3 I4 I5 I6 I7] Ht Hw. unfold since, time, regs in *. cbn [announced] in *.
  split; unfold time, since, regs; cbn [dev last_count alarm_at announced clk hw]; rewrite ?run_law; unfold regs_run;
    cbn [r_event r_pending r_inten r_cc]; try done; rewrite ?I4, ?(window_match (announced w * CYC_PER_TICK)) by done.
  - destruct (r_event _), (r_pending _); cbn in *; try (specialize (I5 eq_refl); lia).
    intros Hh. destruct (Z.leb_spec (alarm_at w) t); [done|]. by rewrite !andb_false_r in Hh.
  - intros Ha. rewrite I6, orb_true_r by lia. cbn. destruct (Z.ltb_spec (clk (dev w)) (alarm_at w)).
    + rewrite (proj2 (Z.leb_le (alarm_at w) t)) by lia. by rewrite orb_true_r.
    + by rewrite I7 by lia.
Qed.

Lemma set_inv n t0 t1 ts c' w :
  timer_inv w -> - 1 <= n < 2 ^ 31 -> chrono (time w) (t0 :: t1 :: ts) -> Forall (brief t1) ts ->
  Forall (in_time (since w) t0) (t0 :: t1 :: ts) ->
  rtc_set_timeout n (last_count w) (t0 :: t1 :: ts) (dev w) = Some (tt, [], c') ->
  timer_inv (mk_tw (announced w) (last_count w) (next_match (r_cc (regs c')) (clk c')) c').
Proof.
  intros [I1 I2 I3 I4 _ _ _] Hn (H0&Hr) Hb Hin He. rewrite I1 in He.
  apply Forall_cons in Hin as [[Hw0 _] Hin]. set (L := since w) in *.
  assert (Hb1 : Forall (brief t1) (t1 :: ts)) by (constructor; [unfold brief; lia|done]).
  pose (E := fun t => in_time L t0 t /\ brief t1 t).
  assert (HE : Forall E (t1 :: ts)) by (apply Forall_and; done).
  destruct (set_timeout_spec E L t0 n (t1 :: ts) (dev w) tt [] c') as [(Hv&tl&Htl&[[Hwl _] Hbl]&Hcc) [Hi [[Hwc _] _]]];
    [done|done|by intros t []|done|done|done|].
  rewrite set_timeout_alarm in He by done.
  destruct (protected_alarm_silent t1 (alarm_due L t0 n) (t1 :: ts) (mk_clk t0 (rtc_run (time w) t0 (hw (dev w)))) tt [] c'
    Hr Hb1 I He) as (_&_&Hbc&Hev&Hp).
  pose proof (alarm_due_range L t0 n Hw0) as HA. set (c := Z.max _ _) in Hcc.
  assert (Hc : clk c' < c <= L + COUNTER_SPAN - 1).
  { unfold c, brief, window in *. change MAX_CYCLES with (2 ^ 23 - 1) in *. change COUNTER_SPAN with (2 ^ 24) in *. lia. }
  assert (En : next_match (r_cc (regs c')) (clk c') = c).
  { rewrite Hcc. apply next_match_eq. unfold window in *. lia. }
  rewrite En. split; unfold time, since; cbn [dev last_count alarm_at announced clk];
    change (announced w * CYC_PER_TICK) with L; try done.
  - unfold window in *. lia.
  - by rewrite Hev, Hp.
  - lia.
Qed.

Lemma rtc_isr_inv ts dticks last c' w :
  timer_inv w -> r_pending (regs (dev w)) = true -> chrono (time w) ts -> Forall (window (since w)) ts ->
  rtc_nrf_isr (last_count w) ts (mk_clk (time w) (irq_entry (hw (dev w)))) = Some ((dticks, last), [], c') ->
  timer_inv (mk_tw (announced w + dticks) last (alarm_at w) c').
Proof.
  intros [I1 I2 I3 I4 I5 _ _] Hp Hr Hw He. rewrite Hp, orb_true_r in I5. specialize (I5 eq_refl).
  destruct ts as [|a [|b [|]]]; try done.
  unfold rtc_nrf_isr, dbind, event_clear, get_comparator, access, dret in He. cbn [clk hw] in He.
  injection He as <- <- <-. cbn [chrono] in Hr. destruct Hr as (Ha&Hb&_).
  apply Forall_cons in Hw as [Hwa Hw]. apply Forall_cons in Hw as [Hwb _]. set (L := since w) in *.
  set (h := rtc_run a b _). set (A := alarm_at w) in *.
  assert (Er : rtc_view h = mk_rtc (A mod COUNTER_SPAN) false (r_evten (regs (dev w))) (r_inten (regs (dev w))) false).
  { unfold h. rewrite run_law, event_clear_law, run_law, irq_entry_law. fold (regs (dev w)).
    unfold regs_run, regs_event_clear, regs_irq_entry. cbn. rewrite I4, !(window_match L) by done.
    rewrite (proj2 (Z.ltb_ge (time w) A)), (proj2 (Z.ltb_ge a A)) by lia. cbn. by rewrite !andb_false_r. }
  rewrite Er. cbn [r_cc]. rewrite I1. fold (counter_at A). rewrite counter_sub_counter, sub_u32_r.
  rewrite (Z.mod_small (A - L)) by lia. change CYC_PER_TICK with 1. rewrite Z.div_1_r, Z.mul_1_r.
  assert (Es : (announced w + (A - L)) * CYC_PER_TICK = A) by (unfold L, since; change CYC_PER_TICK with 1; lia).
  split; unfold time, since, regs; cbn [dev last_count alarm_at announced clk hw]; rewrite ?Es, ?Er; cbn [r_cc r_event r_pending].
  - unfold u32. rewrite Zplus_mod_idemp_l. f_equal. lia.
  - unfold window in *. lia.
  - assert (0 < COUNTER_SPAN) by done. lia.
  - done.
  - done.
  - lia.
  - lia.
Qed.

Lemma timer_step_inv w w' : timer_inv w -> timer_step w w' -> timer_inv w'.
Proof.
  intros I Hs. destruct Hs as [t w|n t0 t1 ts c' w|ts dticks last c' w];
    [by apply pass_inv|by eapply set_inv|by eapply rtc_isr_inv].
Qed.
End timeouts.

(** ** Properties *)

(** The device as its registers. *)
#[export] Instance regs_rtc_hal : RtcHal rtc_regs.
Proof.
  refine {| rtc_view r := r; rtc_run := regs_run; irq_entry := regs_irq_entry; nrf_rtc_cc_set := regs_cc;
    nrf_rtc_event_clear := regs_event_clear; nrf_rtc_event_enable := regs_event_enable;
    nrf_rtc_int_disable := regs_int_disable; nrf_rtc_int_enable := regs_int_enable;
    NVIC_ClearPendingIRQ := regs_clear_pending; nrf_rtc_prescaler_set _ r := r; nrf_rtc_task_clear r := r;
    nrf_rtc_task_start r := r; irq_enable r := r; z_nrf_clock_control_lf_on r := r |}; done.
Defined.

(** The driver as initialised: counter and announced ticks start at zero. *)
Definition timer_start {H} `{!RtcHal H} (h : H) : timer_world := mk_tw 0 0 0 (mk_clk 0 (z_clock_driver_init h)).

Lemma timer_start_inv {H} `{!RtcHal H} (h : H) : r_cc (rtc_view h) = 0 -> timer_inv (timer_start h).
Proof.
  intros Hcc.
  assert (E : regs (dev (timer_start h)) = regs_int_enable (regs_clear_pending (regs_event_clear (rtc_view h)))).
  { unfold regs, timer_start, z_clock_driver_init. cbn [dev hw]. rewrite lf_on_law, task_start_law, task_clear_law, irq_enable_law.
    by rewrite int_enable_law, clear_pending_law, event_clear_law, prescaler_set_law. }
  split; rewrite ?E; try done. unfold since. cbn. lia.
Qed.

(** C24. The clock keeps time.  The device sets its compare event by itself and the
    interrupt is taken only when it is pending; still, over any sequence of passing
    time, timeouts set and interrupts taken, the ticks announced plus the ticks
    [z_clock_elapsed] reports are the time that has passed, no tick is announced
    early (an event of a comparator that has been replaced never gets through), the
    32-bit cycle counter is the time modulo its width, and when the alarm is reached
    the interrupt is pending.  This holds as long as the time since the last
    announcement does not lap the 24-bit counter, and for timeouts set within one
    cycle (interrupts are locked), with writes to the comparator effective at once. *)
Theorem clock_keeps_time {H} `{!RtcHal H} (h : H) (w : timer_world) (t : Z)
    (Hcc : r_cc (rtc_view h) = 0) (Hsteps : rtc timer_step (timer_start h) w) (Ht : window (since w) t) :
  announced w + z_clock_elapsed t (last_count w) = t / CYC_PER_TICK /\
  z_timer_cycle_get_32 t (last_count w) = u32 t /\ announced w * CYC_PER_TICK <= time w /\
  (since w < alarm_at w <= time w -> r_pending (regs (dev w)) = true).
Proof.
  assert (I : timer_inv w).
  { assert (I0 := timer_start_inv h Hcc).
    revert I0. clear Ht Hcc. induction Hsteps as [|w1 w2 w3 Hs _ IH]; [done|]. intros I1. apply IH. by eapply timer_step_inv. }
  destruct I as [I1 I2 _ _ _ _ I7]. unfold window in *.
  assert (E : counter_sub (counter_at t) (last_count w) = t - since w).
  { rewrite I1, counter_sub_counter, sub_u32_r. apply Z.mod_small. lia. }
  unfold z_clock_elapsed, z_timer_cycle_get_32. rewrite E, I1. unfold since in *. change CYC_PER_TICK with 1 in *.
  split; [rewrite !Z.div_1_r; lia|]. split; [|split; [lia|exact I7]].
  unfold u32. rewrite Zplus_mod_idemp_r. f_equal. lia.
Qed.


Definition example_rtc : rtc_regs := mk_rtc 0 false false false false.

(** The counter moves while the comparator is being set. *)
Definition example_times : list Z := replicate 9 100 ++ replicate 11 101.


(** A timeout of 7 ticks set at 100, its interrupt pending at 107 and taken at 109. *)
Definition example_set : clocked rtc_regs :=
  default (mk_clk 0 example_rtc)
    (snd <$> rtc_set_timeout 7 0 (replicate 12 100) (mk_clk 0 (z_clock_driver_init example_rtc))).
Definition example_late : clocked rtc_regs := mk_clk 109 (regs_run 100 109 (hw example_set)).
Definition example_served : clocked rtc_regs :=
  default example_late (snd <$> rtc_nrf_isr 0 [109; 109] (mk_clk 109 (regs_irq_entry (hw example_late)))).

Lemma example_set_eq : example_set = mk_clk 100 (mk_rtc 107 false true true false).
Proof. vm_compute. done. Qed.

Lemma example_run : rtc timer_step (timer_start example_rtc) (mk_tw 107 107 107 example_served).
Proof.
  eapply rtc_l; [apply (ts_set 7 100 100 (replicate 10 100) example_set (timer_start example_rtc))|].
  - lia.
  - cbn. repeat split; lia.
  - repeat constructor; vm_compute; done.
  - repeat constructor; vm_compute; done.
  - rewrite example_set_eq. vm_compute. done.
  - change (next_match _ _) with 107. rewrite example_set_eq.
    eapply rtc_l; [apply (ts_pass 109); vm_compute; done|]. apply rtc_once.
    refine (ts_isr [109; 109] 107 107 example_served (mk_tw 0 0 107 example_late) _ _ _ _);
      [vm_compute; done|cbn; lia|repeat constructor; vm_compute; done|vm_compute; done].
Qed.

Lemma clock_keeps_time_witness :
  let w := mk_tw 107 107 107 example_served in
  announced w + z_clock_elapsed 300 (last_count w) = 300 / CYC_PER_TICK /\
  z_timer_cycle_get_32 300 (last_count w) = u32 300 /\ announced w * CYC_PER_TICK <= time w /\
  (since w < alarm_at w <= time w -> r_pending (regs (dev w)) = true).
Proof.
  apply (clock_keeps_time example_rtc (mk_tw 107 107 107 example_served) 300); [exact eq_refl|exact example_run|].
  unfold window. split; vm_compute; intros ?; discriminate.
Defined.
