(* ===== verification/Sched.v ===== *)
(** The scheduler ([kernel/sched.c], [kernel/include/ksched.h], [include/wait_q.h]
    and the swap of [kernel/include/kswap.h] on ARM).

    The configuration is the board's: one CPU, the list-based run and wait
    queues ([CONFIG_SCHED_DUMB], [CONFIG_WAITQ_DUMB]), time slicing compiled in,
    swaps that are not atomic ([CONFIG_SWAP_NONATOMIC]), no meta-IRQ priorities.
    Threads and wait queues are named by their addresses.  A spinlocked section
    is one step; a swap is two: [z_swap] stores the default return value and
    requests the context switch, [z_arm_pendsv] performs it, and interrupts may
    come in between.  [clock] is what [z_clock_elapsed] returns during a step. *)
From Stdlib Require Import ZArith Lia Bool.
From stdpp Require Import base numbers list sets sorting.
From S2P Require Import Prelude Dlist TimeUnits Timeout.
Open Scope Z_scope.

Definition _THREAD_DUMMY : Z := BIT 0.
Definition _THREAD_PENDING : Z := BIT 1.
Definition _THREAD_PRESTART : Z := BIT 2.
Definition _THREAD_DEAD : Z := BIT 3.
Definition _THREAD_SUSPENDED : Z := BIT 4.
Definition _THREAD_ABORTING : Z := BIT 5.
Definition _THREAD_QUEUED : Z := BIT 7.

Definition _NON_PREEMPT_THRESHOLD : Z := 0x80.
Definition _PREEMPT_THRESHOLD : Z := _NON_PREEMPT_THRESHOLD - 1.

(** The fields of [struct k_thread] the scheduler uses: [prio] is an [int8_t],
    [sched_locked] and [thread_state] are [uint8_t]. *)
Record k_thread := mk_thread {
  prio : Z;
  sched_locked : Z;
  thread_state : Z;
  pended_on : option Z;
  swap_return_value : Z;
  swap_data : Z }.

(** Timeouts are those of threads or of other kernel objects. *)
Inductive to_ref := To_thread (t : Z) | To_object (o : Z).
#[export] Instance to_ref_eq_dec : EqDecision to_ref.
Proof. solve_decision. Defined.

Record kernel := mk_kernel {
  threads : Z -> k_thread;
  runq : list Z;
  cache : Z;
  current : Z;
  idle_thread : Z;
  waitqs : Z -> list Z;
  pending_abort : option Z;
  pending_current : option Z;
  slice_time : Z;
  slice_max_prio : Z;
  timeouts : timeout_state to_ref;
  clock : Z;
  in_isr : bool;
  pendsv : bool }.

(** ** Field updates *)

Section updates.
Implicit Types (k : kernel).
Definition set_threads f k := mk_kernel f (runq k) (cache k) (current k) (idle_thread k)
  (waitqs k) (pending_abort k) (pending_current k) (slice_time k) (slice_max_prio k) (timeouts k)
  (clock k) (in_isr k) (pendsv k).
Definition set_runq q k := mk_kernel (threads k) q (cache k) (current k) (idle_thread k)
  (waitqs k) (pending_abort k) (pending_current k) (slice_time k) (slice_max_prio k) (timeouts k)
  (clock k) (in_isr k) (pendsv k).
Definition set_cache c k := mk_kernel (threads k) (runq k) c (current k) (idle_thread k)
  (waitqs k) (pending_abort k) (pending_current k) (slice_time k) (slice_max_prio k) (timeouts k)
  (clock k) (in_isr k) (pendsv k).
Definition set_waitqs w k := mk_kernel (threads k) (runq k) (cache k) (current k) (idle_thread k)
  w (pending_abort k) (pending_current k) (slice_time k) (slice_max_prio k) (timeouts k)
  (clock k) (in_isr k) (pendsv k).
Definition set_pending_current p k := mk_kernel (threads k) (runq k) (cache k) (current k)
  (idle_thread k) (waitqs k) (pending_abort k) p (slice_time k) (slice_max_prio k) (timeouts k)
  (clock k) (in_isr k) (pendsv k).
Definition set_slice t p k := mk_kernel (threads k) (runq k) (cache k) (current k)
  (idle_thread k) (waitqs k) (pending_abort k) (pending_current k) t p (timeouts k)
  (clock k) (in_isr k) (pendsv k).
Definition set_timeouts q k := mk_kernel (threads k) (runq k) (cache k) (current k)
  (idle_thread k) (waitqs k) (pending_abort k) (pending_current k) (slice_time k)
  (slice_max_prio k) q (clock k) (in_isr k) (pendsv k).
Definition set_swap c p k := mk_kernel (threads k) (runq k) (cache k) c
  (idle_thread k) (waitqs k) (pending_abort k) (pending_current k) (slice_time k)
  (slice_max_prio k) (timeouts k) (clock k) (in_isr k) p.

Definition set_state s th := mk_thread (prio th) (sched_locked th) s (pended_on th)
  (swap_return_value th) (swap_data th).
Definition set_pended_on w th := mk_thread (prio th) (sched_locked th) (thread_state th) w
  (swap_return_value th) (swap_data th).
Definition with_prio p th := mk_thread p (sched_locked th) (thread_state th) (pended_on th)
  (swap_return_value th) (swap_data th).
Definition set_sched_locked n th := mk_thread (prio th) n (thread_state th) (pended_on th)
  (swap_return_value th) (swap_data th).
Definition set_retval v th := mk_thread (prio th) (sched_locked th) (thread_state th) (pended_on th)
  v (swap_data th).
Definition set_swap_data v th := mk_thread (prio th) (sched_locked th) (thread_state th)
  (pended_on th) (swap_return_value th) v.

Definition upd_thread (t : Z) (f : k_thread -> k_thread) k : kernel :=
  set_threads (fun x => if x =? t then f (threads k t) else threads k x) k.
Definition upd_waitq (w : Z) (q : list Z) k : kernel :=
  set_waitqs (fun x => if x =? w then q else waitqs k x) k.
End updates.

#[export] Instance kernel_timeouts : HasTimeouts to_ref kernel :=
  {| get_tq := timeouts; put_tq := set_timeouts; get_put_tq := fun _ _ => eq_refl |}.

(** ** Thread states ([ksched.h]) *)

Section thread_states.
Implicit Types (t : Z) (k : kernel).
Definition z_is_idle_thread_object t k : bool := t =? idle_thread k.
Definition z_is_thread_state_set t (s : Z) k : bool := nz (thread_state (threads k t) .& s).
Definition z_is_thread_pending t k : bool := z_is_thread_state_set t _THREAD_PENDING k.
Definition z_is_thread_prevented_from_running t k : bool :=
  nz (thread_state (threads k t) .&
      (_THREAD_PENDING .| _THREAD_PRESTART .| _THREAD_DEAD .| _THREAD_DUMMY .| _THREAD_SUSPENDED)).
Definition z_is_thread_timeout_active t k : bool :=
  negb (z_is_inactive_timeout (To_thread t) (timeouts k)).
Definition z_is_thread_ready t k : bool :=
  negb (z_is_thread_prevented_from_running t k || z_is_thread_timeout_active t k).
Definition z_has_thread_started t k : bool := negb (z_is_thread_state_set t _THREAD_PRESTART k).
Definition z_is_thread_queued t k : bool := z_is_thread_state_set t _THREAD_QUEUED k.

Definition z_set_thread_states t (s : Z) k : kernel :=
  upd_thread t (fun th => set_state (u8 (thread_state th .| s)) th) k.
Definition z_reset_thread_states t (s : Z) k : kernel :=
  upd_thread t (fun th => set_state (u8 (thread_state th .& Z.lnot s)) th) k.
Definition z_mark_thread_as_suspended t k := z_set_thread_states t _THREAD_SUSPENDED k.
Definition z_mark_thread_as_not_suspended t k := z_reset_thread_states t _THREAD_SUSPENDED k.
Definition z_mark_thread_as_started t k := z_reset_thread_states t _THREAD_PRESTART k.
Definition z_mark_thread_as_pending t k := z_set_thread_states t _THREAD_PENDING k.
Definition z_mark_thread_as_not_pending t k := z_reset_thread_states t _THREAD_PENDING k.
Definition z_mark_thread_as_queued t k := z_set_thread_states t _THREAD_QUEUED k.
Definition z_mark_thread_as_not_queued t k := z_reset_thread_states t _THREAD_QUEUED k.

Definition z_abort_thread_timeout t k : Z * kernel :=
  let '(r, q) := z_abort_timeout (To_thread t) (timeouts k) in (r, set_timeouts q k).
Definition z_add_thread_timeout t (timeout : k_timeout_t) k : kernel :=
  set_timeouts (z_add_timeout (clock k) (clock k) (clock k) (To_thread t) timeout (timeouts k)) k.
Definition arch_thread_return_value_set t (v : Z) k : kernel := upd_thread t (set_retval v) k.

(** ** Priorities and queues *)

(** [base.preempt]: the bytes of [sched_locked] and [prio] read as one. *)
Definition preempt (th : k_thread) : Z := sched_locked th * 256 + u8 (prio th).
Definition is_preempt t k : bool := preempt (threads k t) <=? _PREEMPT_THRESHOLD.

Definition z_is_t1_higher_prio_than_t2 t1 t2 k : bool := prio (threads k t1) <? prio (threads k t2).

Definition z_is_prio_higher (p test_prio : Z) : bool := p <? test_prio.

(** Insertion before the first thread of lower priority. *)
Definition z_priq_dumb_add (pq : list Z) t k : list Z :=
  insert_before (fun x => z_is_t1_higher_prio_than_t2 t x k) t pq.

Definition dlist_remove t (pq : list Z) : list Z := filter (fun x => x <> t) pq.

Definition _priq_run_add t k : kernel := set_runq (z_priq_dumb_add (runq k) t k) k.

(** [z_priq_dumb_remove] on the run queue, with its exception for a thread that
    is on its way out. *)
Definition _priq_run_remove t k : kernel :=
  if (t =? current k) && z_is_thread_prevented_from_running t k then k
  else set_runq (dlist_remove t (runq k)) k.

Definition z_priq_wait_add (w : Z) t k : kernel :=
  upd_waitq w (z_priq_dumb_add (waitqs k w) t k) k.
Definition _priq_wait_remove (w : Z) t k : kernel := upd_waitq w (dlist_remove t (waitqs k w)) k.

Definition z_priq_dumb_best (pq : list Z) : option Z := head pq.
Definition z_waitq_head (w : Z) k : option Z := head (waitqs k w).
End thread_states.

(** ** Choosing the next thread *)

Section scheduling.
Implicit Types (t : Z) (k : kernel) (w : Z).

Definition should_preempt t (preempt_ok : bool) k : bool :=
  if preempt_ok then true
  else if z_is_thread_prevented_from_running (current k) k then true
  else if z_is_thread_timeout_active t k then true
  else is_preempt (current k) k.

Definition next_up k : Z * kernel :=
  match pending_abort k with
  | Some _ => (idle_thread k, k)
  | None =>
      let thread := z_priq_dumb_best (runq k) in
      let k := if z_is_thread_state_set (current k) _THREAD_ABORTING k
               then z_set_thread_states (current k) _THREAD_DEAD k else k in
      (default (idle_thread k) thread, k)
  end.

Definition z_reset_time_slice k : kernel :=
  if nz (slice_time k) then
    let q := set_slice_ticks (s32 (slice_time k + clock k)) (timeouts k) in
    set_timeouts (z_set_timeout_expiry (clock k) (slice_time k) false q) k
  else k.

Definition update_cache (preempt_ok : bool) k : kernel :=
  let '(thread, k) := next_up k in
  if should_preempt thread preempt_ok k
  then set_cache thread (if negb (thread =? current k) then z_reset_time_slice k else k)
  else set_cache (current k) k.

Definition ready_thread t k : kernel :=
  if z_is_thread_ready t k
  then update_cache false (z_mark_thread_as_queued t (_priq_run_add t k)) else k.

Definition z_ready_thread t k : kernel := ready_thread t k.

Definition move_thread_to_end_of_prio_q t k : kernel :=
  let k := if z_is_thread_queued t k then _priq_run_remove t k else k in
  let k := z_mark_thread_as_queued t (_priq_run_add t k) in
  update_cache (t =? current k) k.

Definition z_move_thread_to_end_of_prio_q t k : kernel := move_thread_to_end_of_prio_q t k.

Definition k_sched_time_slice_set (slice p : Z) k : kernel :=
  let k := set_timeouts (set_slice_ticks 0 (timeouts k)) k in
  z_reset_time_slice (set_slice (s32 (k_ms_to_ticks_ceil32 slice)) p k).

Definition sliceable t k : bool :=
  is_preempt t k && negb (z_is_thread_prevented_from_running t k)
  && negb (z_is_prio_higher (prio (threads k t)) (slice_max_prio k))
  && negb (z_is_idle_thread_object t k).

Definition z_time_slice (ticks : Z) k : kernel :=
  if bool_decide (pending_current k = Some (current k)) then z_reset_time_slice k
  else
    let k := set_pending_current None k in
    if nz (slice_time k) && sliceable (current k) k then
      if slice_ticks (timeouts k) <=? ticks
      then z_reset_time_slice (move_thread_to_end_of_prio_q (current k) k)
      else set_timeouts (set_slice_ticks (s32 (slice_ticks (timeouts k) - ticks)) (timeouts k)) k
    else set_timeouts (set_slice_ticks 0 (timeouts k)) k.

(** ** Swapping *)

(** [arch_swap] on ARM, up to the exception that switches the context. *)
Definition z_swap k : kernel :=
  let k := arch_thread_return_value_set (current k) (- EAGAIN) k in set_swap (current k) true k.

(** The context switch of the PendSV handler. *)
Definition z_arm_pendsv k : kernel := set_swap (cache k) false k.

Definition resched k : bool := negb (in_isr k).
Definition need_swap k : bool := negb (cache k =? current k).

Definition z_reschedule k : kernel := if resched k && need_swap k then z_swap k else k.
Definition z_reschedule_irqlock k : kernel := if resched k then z_swap k else k.
Definition z_reschedule_unlocked k : kernel := z_reschedule_irqlock k.

Definition z_sched_start t k : kernel :=
  if z_has_thread_started t k then k
  else z_reschedule (ready_thread t (z_mark_thread_as_started t k)).

Definition unready_thread t k : kernel :=
  let k := if z_is_thread_queued t k then z_mark_thread_as_not_queued t (_priq_run_remove t k)
           else k in
  update_cache (t =? current k) k.

Definition z_remove_thread_from_ready_q t k : kernel := unready_thread t k.

Definition z_impl_k_thread_suspend t k : kernel :=
  let k := (z_abort_thread_timeout t k).2 in
  let k := if z_is_thread_queued t k then z_mark_thread_as_not_queued t (_priq_run_remove t k)
           else k in
  let k := z_mark_thread_as_suspended t k in
  let k := update_cache (t =? current k) k in
  if t =? current k then z_reschedule_unlocked k else k.

Definition z_impl_k_thread_resume t k : kernel :=
  z_reschedule (ready_thread t (z_mark_thread_as_not_suspended t k)).

(** ** Waiting *)

Definition add_to_waitq_locked t (wait_q : option Z) k : kernel :=
  let k := z_mark_thread_as_pending t (unready_thread t k) in
  match wait_q with
  | Some w => z_priq_wait_add w t (upd_thread t (set_pended_on (Some w)) k)
  | None => k
  end.

Definition add_thread_timeout t (timeout : k_timeout_t) k : kernel :=
  if negb (K_TIMEOUT_EQ timeout K_FOREVER) then z_add_thread_timeout t timeout k else k.

Definition pend t (wait_q : option Z) (timeout : k_timeout_t) k : kernel :=
  add_thread_timeout t timeout (add_to_waitq_locked t wait_q k).

Definition z_pend_thread t (wait_q : option Z) (timeout : k_timeout_t) k : kernel :=
  pend t wait_q timeout k.

Definition z_pend_curr (wait_q : option Z) (timeout : k_timeout_t) k : kernel :=
  let k := set_pending_current (Some (current k)) k in
  z_swap (pend (current k) wait_q timeout k).

Definition z_find_first_thread_to_unpend w k : option Z := z_priq_dumb_best (waitqs k w).

(** The thread is on a wait queue here ([pended_on] of the source). *)
Definition unpend_thread_no_timeout t k : kernel :=
  let k := match pended_on (threads k t) with
           | Some w => _priq_wait_remove w t k
           | None => k
           end in
  upd_thread t (set_pended_on None) (z_mark_thread_as_not_pending t k).

Definition z_unpend_thread_no_timeout t k : kernel := unpend_thread_no_timeout t k.

Definition z_thread_timeout t k : kernel :=
  let k := match pended_on (threads k t) with
           | Some _ => unpend_thread_no_timeout t k
           | None => k
           end in
  ready_thread t (z_mark_thread_as_not_suspended t (z_mark_thread_as_started t k)).

Definition z_unpend1_no_timeout w k : option Z * kernel :=
  match z_find_first_thread_to_unpend w k with
  | Some t => (Some t, z_unpend_thread_no_timeout t k)
  | None => (None, k)
  end.

Definition z_unpend_first_thread w k : option Z * kernel :=
  match z_unpend1_no_timeout w k with
  | (Some t, k) => (Some t, (z_abort_thread_timeout t k).2)
  | (None, k) => (None, k)
  end.

Definition z_unpend_thread t k : kernel :=
  (z_abort_thread_timeout t (z_unpend_thread_no_timeout t k)).2.

Definition _ready_one_thread w k : kernel :=
  match z_unpend_first_thread w k with
  | (Some t, k) => z_ready_thread t k
  | (None, k) => k
  end.

(** The loop of [z_unpend_all] takes one thread off the queue at a time, so the
    length of the queue bounds it. *)
Fixpoint unpend_all_loop (fuel : nat) w (need_sched : bool) k : bool * kernel :=
  match fuel with
  | O => (need_sched, k)
  | S f =>
      match z_waitq_head w k with
      | Some t => unpend_all_loop f w true (z_ready_thread t (z_unpend_thread t k))
      | None => (need_sched, k)
      end
  end.

Definition z_unpend_all w k : bool * kernel :=
  unpend_all_loop (S (length (waitqs k w))) w false k.

(** ** Priorities, yielding, sleeping *)

Definition z_set_prio t (p : Z) k : bool * kernel :=
  if z_is_thread_ready t k then
    let k := _priq_run_remove t k in
    let k := upd_thread t (with_prio (s8 p)) k in
    (true, update_cache true (_priq_run_add t k))
  else (false, upd_thread t (with_prio (s8 p)) k).

Definition z_thread_priority_set t (p : Z) k : kernel :=
  let '(need_sched, k) := z_set_prio t p k in
  if need_sched && (sched_locked (threads k (current k)) =? 0) then z_reschedule_unlocked k else k.

Definition z_impl_k_thread_priority_get t k : Z := prio (threads k t).
Definition z_impl_k_thread_priority_set t (p : Z) k : kernel := z_thread_priority_set t p k.

Definition z_sched_lock k : kernel :=
  upd_thread (current k) (fun th => set_sched_locked (u8 (sched_locked th - 1)) th) k.
Definition k_sched_lock k : kernel := z_sched_lock k.
Definition k_sched_unlock k : kernel :=
  let k := upd_thread (current k) (fun th => set_sched_locked (u8 (sched_locked th + 1)) th) k in
  z_reschedule_unlocked (update_cache false k).

Definition z_impl_k_yield k : kernel :=
  let k := if z_is_idle_thread_object (current k) k then k
           else
             let k := _priq_run_remove (current k) k in
             let k := _priq_run_add (current k) k in
             update_cache true (z_mark_thread_as_queued (current k) k) in
  z_swap k.

(** [z_tick_sleep] up to the swap; [ticks] is an [int32_t]. *)
Definition z_tick_sleep (ticks : Z) k : kernel :=
  if ticks =? 0 then z_impl_k_yield k
  else
    let k := set_pending_current (Some (current k)) k in
    let k := unready_thread (current k) k in
    let k := z_add_thread_timeout (current k) (Z_TIMEOUT_TICKS ticks) k in
    z_swap (z_mark_thread_as_suspended (current k) k).

(** What it returns once the thread runs again, from the wake-up time it
    expected. *)
Definition tick_sleep_result (expected_wakeup_time : Z) k : Z :=
  let ticks := s32 (expected_wakeup_time - z_tick_get_32 (clock k) (timeouts k)) in
  if 0 <? ticks then ticks else 0.

Definition z_impl_k_sleep (timeout : k_timeout_t) k : kernel :=
  if K_TIMEOUT_EQ timeout K_FOREVER then z_impl_k_thread_suspend (current k) k
  else z_tick_sleep (s32 (ticks timeout)) k.

Definition z_impl_k_wakeup t k : kernel :=
  if z_is_thread_pending t k then k
  else
    let '(r, k) := z_abort_thread_timeout t k in
    if (r <? 0) && negb (thread_state (threads k t) =? _THREAD_SUSPENDED) then k
    else
      let k := z_ready_thread t (z_mark_thread_as_not_suspended t k) in
      if negb (in_isr k) then z_reschedule_unlocked k else k.

Definition z_impl_k_current_get k : Z := current k.
Definition z_impl_k_is_preempt_thread k : bool := negb (in_isr k) && is_preempt (current k) k.
End scheduling.

(** ** States as bits *)

Section bits.
Implicit Types (t : Z) (k : kernel).

Definition tbit t (n : Z) k : bool := Z.testbit (thread_state (threads k t)) n.

Lemma state_set_bit t n k : 0 <= n < 32 -> z_is_thread_state_set t (BIT n) k = tbit t n k.
Proof. apply nz_land_bit. Qed.

Lemma prevented_bits t k :
  z_is_thread_prevented_from_running t k =
  tbit t 1 k || tbit t 2 k || tbit t 3 k || tbit t 0 k || tbit t 4 k.
Proof.
  unfold z_is_thread_prevented_from_running, tbit. rewrite !Z.land_lor_distr_r, !nz_lor.
  unfold _THREAD_PENDING, _THREAD_PRESTART, _THREAD_DEAD, _THREAD_DUMMY, _THREAD_SUSPENDED.
  by rewrite !nz_land_bit by lia.
Qed.

Lemma u8_testbit z i : 0 <= i < 8 -> Z.testbit (u8 z) i = Z.testbit z i.
Proof. intros. unfold u8. apply Z.mod_pow2_bits_low. lia. Qed.

Lemma tbit_set t x n m k :
  0 <= n < 8 -> 0 <= m < 8 ->
  tbit x m (z_set_thread_states t (BIT n) k) = tbit x m k || ((x =? t) && (m =? n)).
Proof.
  intros Hn Hm. unfold tbit. cbn. destruct (Z.eqb_spec x t) as [->|]; cbn [andb];
    [|by rewrite orb_false_r].
  cbn. rewrite u8_testbit, Z.lor_spec, bit_pow by lia. f_equal.
  rewrite Z.pow2_bits_eqb by lia. apply Z.eqb_sym.
Qed.

Lemma tbit_reset t x n m k :
  0 <= n < 8 -> 0 <= m < 8 ->
  tbit x m (z_reset_thread_states t (BIT n) k) = tbit x m k && negb ((x =? t) && (m =? n)).
Proof.
  intros Hn Hm. unfold tbit. cbn. destruct (Z.eqb_spec x t) as [->|]; cbn [andb negb];
    [|by rewrite andb_true_r].
  cbn. rewrite u8_testbit, Z.land_spec, Z.lnot_spec, bit_pow by lia. f_equal. f_equal.
  rewrite Z.pow2_bits_eqb by lia. apply Z.eqb_sym.
Qed.
End bits.

(** ** The part of the kernel state the queue invariant speaks of *)

Record kernel_view_eq (k k' : kernel) : Prop := {
  ve_prio : forall t, prio (threads k' t) = prio (threads k t);
  ve_state : forall t n, 0 <= n < 8 -> tbit t n k' = tbit t n k;
  ve_pended : forall t, pended_on (threads k' t) = pended_on (threads k t);
  ve_runq : runq k' = runq k;
  ve_waitqs : forall w, waitqs k' w = waitqs k w;
  ve_idle : idle_thread k' = idle_thread k;
  ve_timeouts : timeout_list (timeouts k') = timeout_list (timeouts k);
  ve_abort : pending_abort k' = pending_abort k }.

#[export] Instance kernel_equiv : Equiv kernel := kernel_view_eq.

#[export] Instance kernel_equivalence : Equivalence (≡@{kernel}).
Proof.
  split.
  - intros k. by split.
  - intros k k' []. split; intros; symmetry; auto.
  - intros k1 k2 k3 [] []. split; intros; etrans; eauto.
Qed.

(** ** The queue invariant *)

(** [ex]: threads that may be ready without being in the run queue, while an
    operation has taken them off a wait queue and not yet queued them. *)
Record wf (ex : list Z) (k : kernel) : Prop := {
  wf_nodup : NoDup (runq k);
  wf_sorted : StronglySorted (fun a b => prio (threads k a) <= prio (threads k b)) (runq k);
  wf_queued : forall t, t ∈ runq k <-> tbit t 7 k = true;
  wf_ready : forall t, t ∈ runq k -> z_is_thread_ready t k = true;
  wf_all_queued : forall t, t ∉ ex -> t <> idle_thread k -> z_is_thread_ready t k = true -> t ∈ runq k;
  wf_wait_nodup : forall w, NoDup (waitqs k w);
  wf_wait : forall w t, t ∈ waitqs k w <-> pended_on (threads k t) = Some w;
  wf_pending : forall t w, pended_on (threads k t) = Some w -> tbit t 1 k = true;
  wf_idle : (idle_thread k ∉ runq k) /\ pended_on (threads k (idle_thread k)) = None /\
            z_is_thread_timeout_active (idle_thread k) k = false;
  wf_timeouts : NoDup (timeout_list (timeouts k)).*1;
  wf_alive : forall t, tbit t 5 k = false;
  wf_no_abort : pending_abort k = None }.

Section view.
Implicit Types (t : Z) (k : kernel).

Lemma tbit_view t n k k' : k ≡ k' -> 0 <= n < 8 -> tbit t n k' = tbit t n k.
Proof. intros H. apply (ve_state _ _ H). Qed.

Lemma active_view t k k' : k ≡ k' -> z_is_thread_timeout_active t k' = z_is_thread_timeout_active t k.
Proof.
  intros H. unfold z_is_thread_timeout_active, z_is_inactive_timeout, is_linked.
  by rewrite (ve_timeouts _ _ H).
Qed.

Lemma ready_view t k k' : k ≡ k' -> z_is_thread_ready t k' = z_is_thread_ready t k.
Proof.
  intros H. unfold z_is_thread_ready.
  by rewrite !prevented_bits, !(tbit_view _ _ _ _ H), (active_view _ _ _ H) by lia.
Qed.

Lemma sorted_view k k' l :
  (forall t, t ∈ l -> prio (threads k' t) = prio (threads k t)) ->
  StronglySorted (fun a b => prio (threads k a) <= prio (threads k b)) l ->
  StronglySorted (fun a b => prio (threads k' a) <= prio (threads k' b)) l.
Proof.
  intros Hp. induction 1 as [|x l Hs IH Hf]; constructor.
  - apply IH. intros t Ht. apply Hp. by right.
  - rewrite Forall_forall in Hf |- *. intros y Hy.
    rewrite !Hp by (by constructor || by right). by apply Hf.
Qed.

#[export] Instance wf_proper ex : Proper (equiv ==> iff) (wf ex).
Proof.
  assert (Himp : forall k k', k ≡ k' -> wf ex k -> wf ex k').
  { intros k k' H [H1 H2 H3 H4 H5 H6 H7 H8 H9 H10 H11 H12].
    split; rewrite ?(ve_runq _ _ H), ?(ve_idle _ _ H), ?(ve_timeouts _ _ H), ?(ve_abort _ _ H); try done.
    - eapply sorted_view; [|done]. intros. by rewrite (ve_prio _ _ H).
    - intros t. rewrite (tbit_view _ _ _ _ H) by lia. apply H3.
    - intros t. rewrite (ready_view _ _ _ H). apply H4.
    - intros t. rewrite (ready_view _ _ _ H). apply H5.
    - intros w. rewrite (ve_waitqs _ _ H). apply H6.
    - intros w t. rewrite (ve_waitqs _ _ H), (ve_pended _ _ H). apply H7.
    - intros t w. rewrite (tbit_view _ _ _ _ H), (ve_pended _ _ H) by lia. apply H8.
    - rewrite (ve_pended _ _ H), (active_view _ _ _ H). apply H9.
    - intros t. rewrite (tbit_view _ _ _ _ H) by lia. apply H11. }
  intros k k' H. split; apply Himp; [done|by symmetry].
Qed.

(** Operations that are invisible to the invariant. *)
Lemma set_pending_current_view p k : k ≡ set_pending_current p k.
Proof. by split. Qed.

Lemma set_timeouts_view q k :
  timeout_list q = timeout_list (timeouts k) -> k ≡ set_timeouts q k.
Proof. intros. by split. Qed.

Lemma upd_thread_view t f k :
  (forall th, prio (f th) = prio th /\ thread_state (f th) = thread_state th /\
              pended_on (f th) = pended_on th) -> k ≡ upd_thread t f k.
Proof.
  intros Hf. split; try done; intros x; unfold tbit; cbn; destruct (Z.eqb_spec x t) as [->|];
    try done; try apply Hf. intros n _. by rewrite (proj1 (proj2 (Hf _))).
Qed.

Lemma swap_view k : k ≡ z_swap k.
Proof.
  transitivity (arch_thread_return_value_set (current k) (- EAGAIN) k); [|by split].
  by apply upd_thread_view.
Qed.

Lemma set_timeout_expiry_list clk t idle (q : timeout_state to_ref) :
  timeout_list (z_set_timeout_expiry clk t idle q) = timeout_list q.
Proof. unfold z_set_timeout_expiry. by destruct (_ && _). Qed.

Lemma reset_time_slice_view k : k ≡ z_reset_time_slice k.
Proof.
  unfold z_reset_time_slice. destruct (nz _); [|done]. apply set_timeouts_view.
  by rewrite set_timeout_expiry_list.
Qed.

Lemma next_up_alive k :
  pending_abort k = None -> tbit (current k) 5 k = false ->
  next_up k = (default (idle_thread k) (head (runq k)), k).
Proof.
  intros Ha Hb. unfold next_up. rewrite Ha. unfold _THREAD_ABORTING.
  by rewrite state_set_bit, Hb by lia.
Qed.

Lemma update_cache_view b k ex : wf ex k -> k ≡ update_cache b k.
Proof.
  intros H. unfold update_cache. rewrite next_up_alive by apply H.
  destruct (should_preempt _ _ _); [|by split]. destruct (negb _); [|by split].
  transitivity (z_reset_time_slice k); [apply reset_time_slice_view|by split].
Qed.

Lemma reschedule_view k : k ≡ z_reschedule k.
Proof. unfold z_reschedule. destruct (_ && _); [apply swap_view|done]. Qed.

Lemma reschedule_unlocked_view k : k ≡ z_reschedule_unlocked k.
Proof. unfold z_reschedule_unlocked, z_reschedule_irqlock. destruct (resched k); [apply swap_view|done]. Qed.

Lemma pendsv_view k : k ≡ z_arm_pendsv k.
Proof. by split. Qed.
End view.

(** ** Elementary steps and the invariant *)

Section steps.
Implicit Types (t : Z) (k : kernel) (ex : list Z).

Lemma set_states_fields t s x k :
  prio (threads (z_set_thread_states t s k) x) = prio (threads k x) /\
  pended_on (threads (z_set_thread_states t s k) x) = pended_on (threads k x).
Proof. cbn. by destruct (Z.eqb_spec x t) as [->|]. Qed.

Lemma reset_states_fields t s x k :
  prio (threads (z_reset_thread_states t s k) x) = prio (threads k x) /\
  pended_on (threads (z_reset_thread_states t s k) x) = pended_on (threads k x).
Proof. cbn. by destruct (Z.eqb_spec x t) as [->|]. Qed.

Lemma ready_bits t k :
  z_is_thread_ready t k =
  negb (tbit t 1 k || tbit t 2 k || tbit t 3 k || tbit t 0 k || tbit t 4 k ||
        z_is_thread_timeout_active t k).
Proof. unfold z_is_thread_ready. by rewrite prevented_bits. Qed.

(** Setting a bit other than [QUEUED] and [ABORTING] of a thread that is not in
    the run queue, when it keeps the thread from running. *)
Lemma wf_set_blocking ex t n k :
  n = 1 \/ n = 4 -> t ∉ runq k -> wf (t :: ex) k -> wf ex (z_set_thread_states t (BIT n) k).
Proof.
  intros Hn Ht H. assert (0 <= n < 8) by lia.
  assert (Hb : forall x m, 0 <= m < 8 -> tbit x m (z_set_thread_states t (BIT n) k) =
    tbit x m k || ((x =? t) && (m =? n))) by (intros; by apply tbit_set).
  assert (Hr : forall x, x <> t -> z_is_thread_ready x (z_set_thread_states t (BIT n) k) =
    z_is_thread_ready x k).
  { intros x Hx. rewrite !ready_bits, !Hb by lia. destruct (Z.eqb_spec x t); [done|].
    cbn [andb]. by rewrite !orb_false_r. }
  assert (Hrt : z_is_thread_ready t (z_set_thread_states t (BIT n) k) = false).
  { rewrite ready_bits, !Hb, Z.eqb_refl by lia. destruct Hn as [-> | ->]; cbn; rewrite ?orb_true_r; done. }
  destruct H as [H1 H2 H3 H4 H5 H6 H7 H8 H9 H10 H11 H12]. split; try done.
  - eapply sorted_view; [|exact H2]. intros x _. apply set_states_fields.
  - intros x. rewrite Hb by lia. rewrite (proj2 (Z.eqb_neq 7 n)), andb_false_r, orb_false_r by lia.
    apply H3.
  - intros x Hx. cbn in Hx. rewrite Hr by (by intros ->). by apply H4.
  - intros x Hx Hi Hrx. destruct (decide (x = t)) as [->|Hne]; [by rewrite Hrt in Hrx|].
    rewrite Hr in Hrx by done. apply H5; [|done|done]. by apply not_elem_of_cons.
  - intros w x. rewrite (proj2 (set_states_fields t _ x k)). apply H7.
  - intros x w. rewrite (proj2 (set_states_fields t _ x k)). intros Hp.
    rewrite Hb by lia. by rewrite (H8 _ _ Hp).
  - rewrite (proj2 (set_states_fields t _ _ k)). apply H9.
  - intros x. rewrite Hb by lia. rewrite H11, (proj2 (Z.eqb_neq 5 n)) by lia. by rewrite andb_false_r.
Qed.

(** Clearing such a bit. *)
Lemma wf_clear_blocking ex t n k :
  n = 1 \/ n = 2 \/ n = 4 -> t ∉ runq k -> (n = 1 -> pended_on (threads k t) = None) ->
  wf ex k -> wf (t :: ex) (z_reset_thread_states t (BIT n) k).
Proof.
  intros Hn Ht Hpn H. assert (0 <= n < 8) by lia.
  assert (Hb : forall x m, 0 <= m < 8 -> tbit x m (z_reset_thread_states t (BIT n) k) =
    tbit x m k && negb ((x =? t) && (m =? n))) by (intros; by apply tbit_reset).
  assert (Hr : forall x, x <> t -> z_is_thread_ready x (z_reset_thread_states t (BIT n) k) =
    z_is_thread_ready x k).
  { intros x Hx. rewrite !ready_bits, !Hb by lia. destruct (Z.eqb_spec x t); [done|].
    cbn [andb negb]. by rewrite !andb_true_r. }
  destruct H as [H1 H2 H3 H4 H5 H6 H7 H8 H9 H10 H11 H12]. split; try done.
  - eapply sorted_view; [|exact H2]. intros x _. apply reset_states_fields.
  - intros x. rewrite Hb by lia. rewrite (proj2 (Z.eqb_neq 7 n)), andb_false_r, andb_true_r by lia.
    apply H3.
  - intros x Hx. cbn in Hx. rewrite Hr by (by intros ->). by apply H4.
  - intros x [Hne Hx]%not_elem_of_cons Hi Hrx. rewrite Hr in Hrx by done. by apply H5.
  - intros w x. rewrite (proj2 (reset_states_fields t _ x k)). apply H7.
  - intros x w. rewrite (proj2 (reset_states_fields t _ x k)). intros Hp.
    rewrite Hb by lia. rewrite (H8 _ _ Hp). destruct (Z.eqb_spec x t) as [->|]; [|done].
    destruct (Z.eqb_spec 1 n) as [<-|]; [|done]. by rewrite Hpn in Hp.
  - rewrite (proj2 (reset_states_fields t _ _ k)). apply H9.
  - intros x. rewrite Hb by lia. by rewrite H11.
Qed.

Lemma not_queued_not_ready ex t k :
  wf ex k -> z_is_thread_ready t k = false -> t ∉ runq k.
Proof. intros H Hr Hin. by rewrite (wf_ready _ _ H _ Hin) in Hr. Qed.

Lemma run_remove_ready ex t k :
  wf ex k -> t ∈ runq k -> _priq_run_remove t k = set_runq (dlist_remove t (runq k)) k.
Proof.
  intros H Hin. unfold _priq_run_remove. pose proof (wf_ready _ _ H _ Hin) as Hr.
  unfold z_is_thread_ready in Hr. apply negb_true_iff, orb_false_iff in Hr as [-> _].
  by rewrite andb_false_r.
Qed.

Lemma sorted_filter k t (l : list Z) :
  StronglySorted (fun a b => prio (threads k a) <= prio (threads k b)) l ->
  StronglySorted (fun a b => prio (threads k a) <= prio (threads k b)) (dlist_remove t l).
Proof.
  unfold dlist_remove. induction 1 as [|x l Hs IH Hf]; [constructor|].
  destruct (decide (x = t)) as [->|].
  - by rewrite filter_cons_False by tauto.
  - rewrite filter_cons_True by done. constructor; [done|].
    rewrite Forall_forall in Hf |- *. intros y [_ Hy]%list_elem_of_filter. by apply Hf.
Qed.

Lemma elem_of_insert_before cond n ns x : x ∈ insert_before cond n ns <-> x = n \/ x ∈ ns.
Proof.
  induction ns as [|y ns IH]; cbn; [rewrite list_elem_of_singleton, elem_of_nil; tauto|].
  destruct (cond y); rewrite !elem_of_cons, ?IH; tauto.
Qed.

Lemma nodup_insert_before cond n ns : n ∉ ns -> NoDup ns -> NoDup (insert_before cond n ns).
Proof.
  induction ns as [|y ns IH]; cbn; intros Hn Hd; [apply NoDup_singleton|].
  apply not_elem_of_cons in Hn as [? ?]. apply NoDup_cons in Hd as [Hy Hd].
  destruct (cond y); apply NoDup_cons.
  - split; [by rewrite not_elem_of_cons|by apply NoDup_cons].
  - split; [|by apply IH]. rewrite elem_of_insert_before. intros [->|]; done.
Qed.

Lemma sorted_insert k t l :
  StronglySorted (fun a b => prio (threads k a) <= prio (threads k b)) l ->
  StronglySorted (fun a b => prio (threads k a) <= prio (threads k b)) (z_priq_dumb_add l t k).
Proof.
  unfold z_priq_dumb_add, z_is_t1_higher_prio_than_t2.
  induction 1 as [|x l Hs IH Hf]; cbn; [repeat constructor|].
  destruct (Z.ltb_spec (prio (threads k t)) (prio (threads k x))) as [Hlt|Hge].
  - constructor; [by constructor|]. constructor; [lia|].
    eapply Forall_impl; [exact Hf|]. cbn. lia.
  - constructor; [done|]. rewrite Forall_forall in Hf |- *.
    intros y [->|Hy]%elem_of_insert_before; [lia|by apply Hf].
Qed.
End steps.

Section queue_steps.
Implicit Types (t : Z) (k : kernel) (ex : list Z) (w : Z).

Lemma wf_weaken ex ex' k : (forall t, t ∈ ex -> t ∈ ex') -> wf ex k -> wf ex' k.
Proof.
  intros Hsub []. split; try done. intros t Ht. eauto.
Qed.

(** A thread that is not ready needs no exception. *)
Lemma wf_not_ready ex t k : wf (t :: ex) k -> z_is_thread_ready t k = false \/ t ∈ runq k -> wf ex k.
Proof.
  intros [] Hr. split; try done. intros x Hx Hi Hrx.
  destruct (decide (x = t)) as [->|]; [|apply wf_all_queued0; [by apply not_elem_of_cons|done..]].
  destruct Hr as [Hr|]; [by rewrite Hr in Hrx|done].
Qed.

Lemma wf_enqueue ex t k :
  wf (t :: ex) k -> t ∉ runq k -> z_is_thread_ready t k = true -> t <> idle_thread k ->
  wf ex (z_mark_thread_as_queued t (_priq_run_add t k)).
Proof.
  intros H Ht Hrt Hi. set (k' := z_mark_thread_as_queued t (_priq_run_add t k)).
  assert (Hb : forall x m, 0 <= m < 8 -> tbit x m k' = tbit x m k || ((x =? t) && (m =? 7)))
    by (intros x m ?; by apply (tbit_set t x 7 m (_priq_run_add t k))).
  assert (Hr : forall x, z_is_thread_ready x k' = z_is_thread_ready x k).
  { intros x. rewrite !ready_bits, !Hb by lia. cbn [Z.eqb]. by rewrite !andb_false_r, !orb_false_r. }
  assert (Hq : forall x, x ∈ runq k' <-> x = t \/ x ∈ runq k)
    by (intros; apply elem_of_insert_before).
  assert (Hf : forall x, prio (threads k' x) = prio (threads k x) /\
                    pended_on (threads k' x) = pended_on (threads k x))
    by (intros x; apply (set_states_fields t _ x (_priq_run_add t k))).
  destruct H as [H1 H2 H3 H4 H5 H6 H7 H8 H9 H10 H11 H12]. split; try done.
  - by apply nodup_insert_before.
  - eapply (sorted_view k); [intros; apply Hf|]. by apply sorted_insert.
  - intros x. rewrite Hq, Hb, H3 by lia. cbn [Z.eqb]. rewrite andb_true_r.
    destruct (Z.eqb_spec x t); rewrite ?orb_true_r, ?orb_false_r; tauto.
  - intros x Hx. rewrite Hr. apply Hq in Hx as [->|Hx]; [done|by apply H4].
  - intros x Hx Hxi Hrx. rewrite Hq. destruct (decide (x = t)) as [->|]; [by left|right].
    rewrite Hr in Hrx. apply H5; [by apply not_elem_of_cons|done..].
  - intros w x. rewrite (proj2 (Hf x)). apply H7.
  - intros x w. rewrite (proj2 (Hf x)). intros Hp. rewrite Hb by lia. by rewrite (H8 _ _ Hp).
  - destruct H9 as (?&?&?). change (idle_thread k') with (idle_thread k). rewrite Hq, (proj2 (Hf _)).
    split; [|done]. intros [<-|?]; done.
  - intros x. rewrite Hb, H11 by lia. by rewrite andb_false_r.
Qed.

Lemma wf_dequeue ex t k :
  wf ex k -> t ∈ runq k -> wf (t :: ex) (z_mark_thread_as_not_queued t (_priq_run_remove t k)).
Proof.
  intros H Ht. rewrite (run_remove_ready ex) by done.
  set (k' := z_mark_thread_as_not_queued t (set_runq (dlist_remove t (runq k)) k)).
  assert (Hb : forall x m, 0 <= m < 8 -> tbit x m k' = tbit x m k && negb ((x =? t) && (m =? 7)))
    by (intros x m ?; by apply (tbit_reset t x 7 m (set_runq (dlist_remove t (runq k)) k))).
  assert (Hr : forall x, z_is_thread_ready x k' = z_is_thread_ready x k).
  { intros x. rewrite !ready_bits, !Hb by lia. cbn [Z.eqb]. by rewrite !andb_false_r, !andb_true_r. }
  assert (Hq : forall x, x ∈ runq k' <-> x <> t /\ x ∈ runq k)
    by (intros; apply (list_elem_of_filter (fun y => y <> t))).
  assert (Hf : forall x, prio (threads k' x) = prio (threads k x) /\
                    pended_on (threads k' x) = pended_on (threads k x))
    by (intros x; apply (reset_states_fields t _ x (set_runq (dlist_remove t (runq k)) k))).
  destruct H as [H1 H2 H3 H4 H5 H6 H7 H8 H9 H10 H11 H12]. split; try done.
  - by apply NoDup_filter.
  - eapply (sorted_view k); [intros; apply Hf|]. by apply sorted_filter.
  - intros x. rewrite Hq, Hb, H3 by lia. cbn [Z.eqb]. rewrite andb_true_r.
    destruct (Z.eqb_spec x t); cbn; rewrite ?andb_true_r, ?andb_false_r; intuition congruence.
  - intros x [_ Hx]%Hq. rewrite Hr. by apply H4.
  - intros x [Hne Hx]%not_elem_of_cons Hxi Hrx. rewrite Hq. split; [done|].
    rewrite Hr in Hrx. by apply H5.
  - intros w x. rewrite (proj2 (Hf x)). apply H7.
  - intros x w. rewrite (proj2 (Hf x)). intros Hp. rewrite Hb by lia.
    cbn [Z.eqb]. rewrite andb_false_r, andb_true_r. by apply (H8 _ _ Hp).
  - destruct H9 as (?&?&?). change (idle_thread k') with (idle_thread k). rewrite Hq, (proj2 (Hf _)).
    split; [|done]. tauto.
  - intros x. rewrite Hb, H11 by lia. done.
Qed.

(** Changing the priority of a thread that is not in the run queue. *)
Lemma wf_with_prio ex t p k :
  wf ex k -> t ∉ runq k -> wf ex (upd_thread t (with_prio p) k).
Proof.
  intros [H1 H2 H3 H4 H5 H6 H7 H8 H9 H10 H11 H12] Ht.
  assert (Hs : forall x, thread_state (threads (upd_thread t (with_prio p) k) x) = thread_state (threads k x))
    by (intros x; cbn; by destruct (Z.eqb_spec x t) as [->|]).
  assert (Hp : forall x, pended_on (threads (upd_thread t (with_prio p) k) x) = pended_on (threads k x))
    by (intros x; cbn; by destruct (Z.eqb_spec x t) as [->|]).
  assert (Hb : forall x m, tbit x m (upd_thread t (with_prio p) k) = tbit x m k)
    by (intros; unfold tbit; by rewrite Hs).
  assert (Hr : forall x, z_is_thread_ready x (upd_thread t (with_prio p) k) = z_is_thread_ready x k)
    by (intros; by rewrite !ready_bits, !Hb).
  split; try done.
  - eapply sorted_view; [|exact H2]. intros x Hx. cbn. by destruct (Z.eqb_spec x t) as [->|].
  - intros x. rewrite Hb. apply H3.
  - intros x. rewrite Hr. apply H4.
  - intros x. rewrite Hr. apply H5.
  - intros w x. rewrite Hp. apply H7.
  - intros x w. rewrite Hp, Hb. apply H8.
  - rewrite Hp. apply H9.
  - intros x. rewrite Hb. apply H11.
Qed.

Lemma upd_pended_fields t o x k :
  let k' := upd_thread t (set_pended_on o) k in
  prio (threads k' x) = prio (threads k x) /\
  thread_state (threads k' x) = thread_state (threads k x) /\
  pended_on (threads k' x) = (if x =? t then o else pended_on (threads k x)).
Proof. cbn. by destruct (Z.eqb_spec x t) as [->|]. Qed.

(** The wait queue of a pending thread. *)
Lemma wf_wait_add ex t w k :
  wf ex k -> t <> idle_thread k -> tbit t 1 k = true -> pended_on (threads k t) = None ->
  wf ex (z_priq_wait_add w t (upd_thread t (set_pended_on (Some w)) k)).
Proof.
  intros [H1 H2 H3 H4 H5 H6 H7 H8 H9 H10 H11 H12] Hi Hb Hn.
  set (k' := z_priq_wait_add w t (upd_thread t (set_pended_on (Some w)) k)).
  assert (Hf : forall x, prio (threads k' x) = prio (threads k x) /\
    thread_state (threads k' x) = thread_state (threads k x) /\
    pended_on (threads k' x) = (if x =? t then Some w else pended_on (threads k x)))
    by (intros; apply upd_pended_fields).
  assert (Htb : forall x m, tbit x m k' = tbit x m k)
    by (intros x m; unfold tbit; by rewrite (proj1 (proj2 (Hf x)))).
  assert (Hr : forall x, z_is_thread_ready x k' = z_is_thread_ready x k)
    by (intros; by rewrite !ready_bits, !Htb).
  assert (Hw : forall v x, x ∈ waitqs k' v <-> (v = w /\ x = t) \/ x ∈ waitqs k v).
  { intros v x. cbn. destruct (Z.eqb_spec v w) as [->|]; [|intuition].
    unfold z_priq_dumb_add. rewrite elem_of_insert_before. intuition. }
  assert (Hnot : forall v, t ∉ waitqs k v) by (intros v; rewrite H7, Hn; done).
  split; try done.
  - eapply (sorted_view k); [|exact H2]. intros; apply Hf.
  - intros x. rewrite Htb. apply H3.
  - intros x. rewrite Hr. apply H4.
  - intros x. rewrite Hr. apply H5.
  - intros v. cbn. destruct (Z.eqb_spec v w) as [->|]; [|apply H6].
    apply nodup_insert_before; [apply Hnot|apply H6].
  - intros v x. rewrite Hw, (proj2 (proj2 (Hf x))), H7.
    destruct (Z.eqb_spec x t) as [->|]; [|naive_solver]. rewrite Hn. naive_solver.
  - intros x v. rewrite Htb, (proj2 (proj2 (Hf x))).
    destruct (Z.eqb_spec x t) as [->|]; [done|]. apply H8.
  - rewrite (proj2 (proj2 (Hf _))). change (idle_thread k') with (idle_thread k).
    rewrite (proj2 (Z.eqb_neq _ _)); [apply H9|congruence].
  - intros x. rewrite Htb. apply H11.
Qed.

Lemma wf_unpend ex t w k :
  wf ex k -> pended_on (threads k t) = Some w -> wf (t :: ex) (unpend_thread_no_timeout t k).
Proof.
  intros H Hp. pose proof (wf_pending _ _ H _ _ Hp) as Hb.
  assert (Hnr : t ∉ runq k).
  { apply (not_queued_not_ready ex); [done|]. rewrite ready_bits, Hb. done. }
  assert (Hi : t <> idle_thread k) by (intros ->; destruct H; destruct wf_idle0 as (_&Hc&_); congruence).
  unfold unpend_thread_no_timeout. rewrite Hp.
  (* first off the queue with [pended_on] cleared, then the state bit *)
  set (k1 := upd_thread t (set_pended_on None) (_priq_wait_remove w t k)).
  assert (Hk1 : wf ex k1).
  { destruct H as [H1 H2 H3 H4 H5 H6 H7 H8 H9 H10 H11 H12].
    assert (Hf : forall x, prio (threads k1 x) = prio (threads k x) /\
      thread_state (threads k1 x) = thread_state (threads k x) /\
      pended_on (threads k1 x) = (if x =? t then None else pended_on (threads k x)))
      by (intros x; apply (upd_pended_fields t None x (_priq_wait_remove w t k))).
    assert (Htb : forall x m, tbit x m k1 = tbit x m k)
      by (intros x m; unfold tbit; by rewrite (proj1 (proj2 (Hf x)))).
    assert (Hr : forall x, z_is_thread_ready x k1 = z_is_thread_ready x k)
      by (intros; by rewrite !ready_bits, !Htb).
    split; try done.
    - eapply (sorted_view k); [|exact H2]. intros; apply Hf.
    - intros x. rewrite Htb. apply H3.
    - intros x. rewrite Hr. apply H4.
    - intros x. rewrite Hr. apply H5.
    - intros v. cbn. destruct (Z.eqb_spec v w) as [->|]; [|apply H6]. apply NoDup_filter, H6.
    - intros v x. rewrite (proj2 (proj2 (Hf x))). cbn.
      destruct (Z.eqb_spec v w) as [->|]; [unfold dlist_remove; rewrite list_elem_of_filter|];
        rewrite H7; destruct (Z.eqb_spec x t) as [->|]; naive_solver.
    - intros x v. rewrite Htb, (proj2 (proj2 (Hf x))). destruct (Z.eqb_spec x t); [done|]. apply H8.
    - destruct H9 as (?&Hpi&?). split; [done|]. split; [|done].
      rewrite (proj2 (proj2 (Hf _))). change (idle_thread k1) with (idle_thread k). by destruct (_ =? _).
    - intros x. rewrite Htb. apply H11. }
  assert (Hv : z_mark_thread_as_not_pending t k1 ≡
               upd_thread t (set_pended_on None) (z_mark_thread_as_not_pending t (_priq_wait_remove w t k))).
  { split; try done; intros x; unfold tbit; cbn -[Z.testbit]; destruct (Z.eqb_spec x t) as [->|]; rewrite ?Z.eqb_refl; done. }
  rewrite <- Hv. apply wf_clear_blocking; [by left|done| |done].
  intros _. cbn. by rewrite Z.eqb_refl.
Qed.
End queue_steps.

Section timeout_steps.
Implicit Types (t : Z) (k : kernel) (ex : list Z) (q : timeout_state to_ref).

Lemma active_elem t k :
  z_is_thread_timeout_active t k = bool_decide (To_thread t ∈ (timeout_list (timeouts k)).*1).
Proof. unfold z_is_thread_timeout_active, z_is_inactive_timeout, is_linked. apply negb_involutive. Qed.

(** Changing the queue so that only the timeout of [t], a thread that is not
    queued to run, may come or go. *)
Lemma wf_change_timeouts ex t q k :
  wf ex k -> t ∉ runq k -> NoDup (timeout_list q).*1 ->
  (forall x, x <> t -> To_thread x ∈ (timeout_list q).*1 <->
                  To_thread x ∈ (timeout_list (timeouts k)).*1) ->
  (t = idle_thread k -> To_thread t ∉ (timeout_list q).*1) ->
  wf (t :: ex) (set_timeouts q k).
Proof.
  intros [H1 H2 H3 H4 H5 H6 H7 H8 H9 H10 H11 H12] Ht Hq Hx Hidle.
  assert (Ha : forall x, x <> t -> z_is_thread_timeout_active x (set_timeouts q k) =
    z_is_thread_timeout_active x k)
    by (intros x Hne; rewrite !active_elem; by apply bool_decide_ext, Hx).
  assert (Hr : forall x, x <> t -> z_is_thread_ready x (set_timeouts q k) = z_is_thread_ready x k)
    by (intros x Hne; unfold z_is_thread_ready; by rewrite Ha).
  split; try done.
  - intros x Hin. rewrite Hr by (by intros ->). by apply H4.
  - intros x [Hne Hnx]%not_elem_of_cons Hi. rewrite Hr by done. by apply H5.
  - destruct H9 as (?&?&Hai). split; [done|]. split; [done|]. cbn [idle_thread set_timeouts].
    destruct (decide (t = idle_thread k)) as [Heq|Hne].
    + rewrite active_elem, <- Heq. by apply bool_decide_eq_false, Hidle.
    + by rewrite Ha.
Qed.

Lemma wf_abort_timeout ex t k :
  wf ex k ->
  wf (t :: ex) (z_abort_thread_timeout t k).2 /\
  z_is_thread_timeout_active t (z_abort_thread_timeout t k).2 = false.
Proof.
  intros H. unfold z_abort_thread_timeout, z_abort_timeout.
  pose proof (active_elem t k) as Ha. unfold is_linked.
  destruct (bool_decide (To_thread t ∈ (timeout_list (timeouts k)).*1)) eqn:E; cbn.
  - assert (Hids : (remove_timeout (To_thread t) (timeout_list (timeouts k))).*1 =
      filter (fun i => i <> To_thread t) (timeout_list (timeouts k)).*1)
      by (apply remove_timeout_ids, H).
    split.
    + apply wf_change_timeouts; cbn; rewrite ?Hids; [done| | | |].
      * apply (not_queued_not_ready ex); [done|]. unfold z_is_thread_ready. by rewrite Ha, orb_true_r.
      * apply NoDup_filter, H.
      * intros x Hne. rewrite list_elem_of_filter. naive_solver.
      * intros _. rewrite list_elem_of_filter. tauto.
    + rewrite active_elem. cbn. rewrite Hids. apply bool_decide_eq_false.
      rewrite list_elem_of_filter. tauto.
  - split; [|done]. eapply wf_weaken; [|rewrite <- (set_timeouts_view _ k); [exact H|done]].
    by right.
Qed.

Lemma add_timeout_ids c1 c2 c3 (id : to_ref) to q :
  timeout_list (z_add_timeout c1 c2 c3 id to q) = timeout_list q \/
  exists d, timeout_list (z_add_timeout c1 c2 c3 id to q) = insert_timeout id d (timeout_list q).
Proof.
  unfold z_add_timeout. destruct (K_TIMEOUT_EQ _ _); [by left|right].
  eexists. case_bool_decide; reflexivity.
Qed.

Lemma wf_add_timeout ex t to k :
  wf ex k -> t ∉ runq k -> t <> idle_thread k -> z_is_thread_timeout_active t k = false ->
  wf (t :: ex) (z_add_thread_timeout t to k).
Proof.
  intros H Ht Hi Ha. rewrite active_elem in Ha. apply bool_decide_eq_false in Ha.
  unfold z_add_thread_timeout.
  destruct (add_timeout_ids (clock k) (clock k) (clock k) (To_thread t) to (timeouts k)) as [Hl|[d Hl]];
    apply wf_change_timeouts; rewrite ?Hl, ?insert_timeout_ids; try done; try apply H.
  - apply NoDup_cons. split; [done|apply H].
  - intros x Hne. rewrite insert_timeout_ids, elem_of_cons. naive_solver.
Qed.

Lemma wf_update_cache ex b k : wf ex k -> wf ex (update_cache b k).
Proof. intros H. by rewrite <- (update_cache_view b k ex). Qed.

(** Readying a thread that is on no queue. *)
Lemma wf_ready_thread ex t k :
  wf (t :: ex) k -> t ∉ runq k -> t <> idle_thread k -> wf ex (ready_thread t k).
Proof.
  intros H Ht Hi. unfold ready_thread. destruct (z_is_thread_ready t k) eqn:E.
  - by apply wf_update_cache, wf_enqueue.
  - apply (wf_not_ready ex t); [done|by left].
Qed.

Lemma wf_dequeue_if ex t k :
  wf ex k ->
  let k' := if z_is_thread_queued t k then z_mark_thread_as_not_queued t (_priq_run_remove t k) else k in
  wf (t :: ex) k' /\ t ∉ runq k'.
Proof.
  intros H. unfold z_is_thread_queued, _THREAD_QUEUED. rewrite state_set_bit by lia.
  destruct (tbit t 7 k) eqn:E.
  - assert (Hin : t ∈ runq k) by (by apply (wf_queued _ _ H)).
    split; [by apply wf_dequeue|]. rewrite (run_remove_ready ex) by done. cbn.
    unfold dlist_remove. rewrite list_elem_of_filter. tauto.
  - split; [eapply wf_weaken; [|exact H]; by right|].
    rewrite (wf_queued _ _ H), E. done.
Qed.

Lemma runq_view k k' : k ≡ k' -> runq k' = runq k.
Proof. apply ve_runq. Qed.

Lemma wf_unready ex t k :
  wf ex k -> wf (t :: ex) (unready_thread t k) /\ t ∉ runq (unready_thread t k).
Proof.
  intros H. unfold unready_thread.
  destruct (wf_dequeue_if ex t k H) as [Hw Hn].
  set (k' := if z_is_thread_queued t k then _ else _) in *.
  split; [by apply wf_update_cache|].
  by rewrite (runq_view _ _ (update_cache_view (t =? current k') k' _ Hw)).
Qed.
End timeout_steps.

(** ** Operations and the invariant *)

Section operations.
Implicit Types (t : Z) (k : kernel) (ex : list Z) (w : Z) (to : k_timeout_t).

(** What unreadying a thread leaves as it was. *)
Lemma unready_same ex t k :
  wf ex k ->
  idle_thread (unready_thread t k) = idle_thread k /\
  (forall x, pended_on (threads (unready_thread t k) x) = pended_on (threads k x)) /\
  timeout_list (timeouts (unready_thread t k)) = timeout_list (timeouts k) /\
  current (unready_thread t k) = current k.
Proof.
  intros H. unfold unready_thread. destruct (wf_dequeue_if ex t k H) as [Hw _].
  set (k' := if z_is_thread_queued t k then _ else _) in *.
  destruct (update_cache_view (t =? current k') k' _ Hw).
  assert (Hk' : idle_thread k' = idle_thread k /\
    (forall x, pended_on (threads k' x) = pended_on (threads k x)) /\
    timeouts k' = timeouts k /\ current k' = current k).
  { unfold k', _priq_run_remove. destruct (z_is_thread_queued t k); [|done].
    destruct (_ && _); repeat split; try done; intros x;
      [apply (reset_states_fields t _ x k)|
       apply (reset_states_fields t _ x (set_runq (dlist_remove t (runq k)) k))]. }
  destruct Hk' as (Hi&Hp&Ht&Hc). split; [congruence|]. split; [intros x; by rewrite ve_pended0|].
  split; [congruence|]. rewrite <- Hc. unfold update_cache. rewrite next_up_alive by apply Hw.
  destruct (should_preempt _ _ _); [|done]. destruct (negb _); [|done].
  unfold z_reset_time_slice. cbn. by destruct (nz _).
Qed.

Lemma set_pending_bit t k : tbit t 1 (z_mark_thread_as_pending t k) = true.
Proof.
  unfold z_mark_thread_as_pending, _THREAD_PENDING. rewrite tbit_set by lia.
  by rewrite !Z.eqb_refl, orb_true_r.
Qed.

Lemma ready_false_pending t k : tbit t 1 k = true -> z_is_thread_ready t k = false.
Proof. intros H. by rewrite ready_bits, H. Qed.

Lemma ready_false_suspended t k : tbit t 4 k = true -> z_is_thread_ready t k = false.
Proof. intros H. rewrite ready_bits, H. by rewrite !orb_true_r. Qed.

Lemma wf_pend t wq to k :
  wf [] k -> t <> idle_thread k -> pended_on (threads k t) = None ->
  z_is_thread_timeout_active t k = false -> wf [] (pend t wq to k).
Proof.
  intros H Hi Hp Ha. unfold pend, add_to_waitq_locked.
  destruct (wf_unready [] t k H) as [H1 Hn1].
  destruct (unready_same [] t k H) as (Hi1&Hp1&Ht1&_). set (k1 := unready_thread t k) in *.
  assert (H2 : wf [] (z_mark_thread_as_pending t k1)) by (apply wf_set_blocking; [by left|done..]).
  pose proof (set_pending_bit t k1) as Hb2. set (k2 := z_mark_thread_as_pending t k1) in *.
  assert (Hp2 : pended_on (threads k2 t) = None)
    by (unfold k2, z_mark_thread_as_pending; rewrite (proj2 (set_states_fields t _ t k1)); by rewrite Hp1).
  set (k3 := match wq with Some w => _ | None => k2 end).
  assert (H3 : wf [] k3 /\ runq k3 = runq k2 /\ idle_thread k3 = idle_thread k2 /\
               timeouts k3 = timeouts k2 /\ tbit t 1 k3 = true).
  { unfold k3. destruct wq as [w|]; [|done].
    split; [apply wf_wait_add; [done|change (t <> idle_thread k1); congruence|done..]|].
    repeat split. destruct (upd_pended_fields t (Some w) t k2) as (_&Hs&_).
    unfold tbit in Hb2. rewrite <- Hs in Hb2. exact Hb2. }
  destruct H3 as (H3&Hr3&Hi3&Ht3&Hb3). unfold add_thread_timeout.
  destruct (negb _); [|done]. apply (wf_not_ready [] t).
  - apply wf_add_timeout; [done|by rewrite Hr3|rewrite Hi3; change (t <> idle_thread k1); congruence|].
    rewrite active_elem, Ht3. change (timeouts k2) with (timeouts k1). rewrite Ht1, <- active_elem. done.
  - left. by apply ready_false_pending.
Qed.

(** [t] is a thread that clearing a blocking bit may make ready. *)
Lemma wf_clear_and_ready ex t n k :
  n = 1 \/ n = 2 \/ n = 4 -> t ∉ runq k -> (n = 1 -> pended_on (threads k t) = None) ->
  t <> idle_thread k -> wf (t :: ex) k -> wf ex (ready_thread t (z_reset_thread_states t (BIT n) k)).
Proof.
  intros Hn Ht Hp Hi H. apply wf_ready_thread; [|done..].
  eapply wf_weaken; [|apply wf_clear_blocking; [done..|exact H]]. set_solver.
Qed.

Lemma unpend_same t k :
  runq (unpend_thread_no_timeout t k) = runq k /\
  idle_thread (unpend_thread_no_timeout t k) = idle_thread k /\
  timeouts (unpend_thread_no_timeout t k) = timeouts k.
Proof. unfold unpend_thread_no_timeout. by destruct (pended_on _). Qed.

Lemma head_elem {A} (l : list A) x : head l = Some x -> x ∈ l.
Proof. destruct l; cbn; [done|]. intros [= ->]. constructor. Qed.

(** The thread at the head of a wait queue can be taken off it. *)
Lemma waiting_thread w t k :
  wf [] k -> head (waitqs k w) = Some t ->
  pended_on (threads k t) = Some w /\ (t ∉ runq k) /\ t <> idle_thread k.
Proof.
  intros H Hh. assert (Hp : pended_on (threads k t) = Some w)
    by (apply (wf_wait _ _ H), head_elem, Hh).
  split; [done|]. split.
  - apply (not_queued_not_ready []); [done|]. by apply ready_false_pending, (wf_pending _ _ H _ w).
  - intros ->. destruct (wf_idle _ _ H) as (_&?&_). congruence.
Qed.

Lemma wf_unpend_first w k :
  wf [] k ->
  match z_unpend_first_thread w k with
  | (Some t, k') => wf [t] k' /\ (t ∉ runq k') /\ t <> idle_thread k' /\ head (waitqs k w) = Some t
  | (None, k') => k' = k /\ waitqs k w = []
  end.
Proof.
  intros H. unfold z_unpend_first_thread, z_unpend1_no_timeout, z_find_first_thread_to_unpend, z_priq_dumb_best.
  destruct (head (waitqs k w)) as [t|] eqn:Hh; [|split; [done|by destruct (waitqs k w)]].
  destruct (waiting_thread w t k H Hh) as (Hp&Hn&Hi).
  destruct (unpend_same t k) as (Hr1&Hi1&_).
  pose proof (wf_unpend [] t w k H Hp) as H1. unfold z_unpend_thread_no_timeout.
  destruct (wf_abort_timeout [t] t _ H1) as [H2 _].
  assert (Hsame : runq (z_abort_thread_timeout t (unpend_thread_no_timeout t k)).2 = runq k /\
    idle_thread (z_abort_thread_timeout t (unpend_thread_no_timeout t k)).2 = idle_thread k).
  { unfold z_abort_thread_timeout. destruct (z_abort_timeout _ _). cbn. done. }
  destruct Hsame as [-> ->]. split; [|done]. eapply wf_weaken; [|exact H2]. set_solver.
Qed.

End operations.

Section more_operations.
Implicit Types (t : Z) (k : kernel) (ex : list Z) (w : Z) (to : k_timeout_t).

Lemma abort_same t k :
  let k' := (z_abort_thread_timeout t k).2 in
  runq k' = runq k /\ idle_thread k' = idle_thread k /\ threads k' = threads k /\
  current k' = current k /\ cache k' = cache k.
Proof. unfold z_abort_thread_timeout. by destruct (z_abort_timeout _ _). Qed.

Lemma abort_result t k :
  (z_abort_thread_timeout t k).1 = if z_is_thread_timeout_active t k then 0 else - EINVAL.
Proof.
  rewrite active_elem. unfold z_abort_thread_timeout, z_abort_timeout, is_linked.
  by destruct (bool_decide _).
Qed.

Lemma wf_wakeup t k : wf [] k -> t <> idle_thread k -> wf [] (z_impl_k_wakeup t k).
Proof.
  intros H Hi. unfold z_impl_k_wakeup. destruct (z_is_thread_pending t k); [done|].
  pose proof (abort_same t k) as (Hr1&Hi1&Ht1&_). pose proof (abort_result t k) as Hres.
  destruct (wf_abort_timeout [] t k H) as [H1 _].
  destruct (z_abort_thread_timeout t k) as [r k1] eqn:E. cbn in *.
  destruct ((r <? 0) && negb (thread_state (threads k1 t) =? _THREAD_SUSPENDED)) eqn:Eb.
  - apply (wf_not_ready [] t); [done|].
    destruct (z_is_thread_timeout_active t k) eqn:Ea; [by rewrite Hres in Eb|].
    unfold z_abort_thread_timeout, z_abort_timeout in E.
    rewrite active_elem in Ea. unfold is_linked in E. rewrite Ea in E. injection E as _ <-.
    destruct (z_is_thread_ready t k) eqn:Er; [|by left].
    right. by apply (wf_all_queued _ _ H); [set_solver|..].
  - assert (Hn : t ∉ runq k1).
    { rewrite Hr1. apply (not_queued_not_ready []); [done|].
      destruct (z_is_thread_timeout_active t k) eqn:Ea;
        [unfold z_is_thread_ready; by rewrite Ea, orb_true_r|].
      rewrite Hres, Ht1 in Eb. cbn in Eb. apply negb_false_iff, Z.eqb_eq in Eb.
      apply ready_false_suspended. unfold tbit. rewrite Eb. reflexivity. }
    assert (H2 : wf [] (z_ready_thread t (z_mark_thread_as_not_suspended t k1)))
      by (apply wf_clear_and_ready; [lia|done|lia|congruence|done]).
    set (k2 := z_ready_thread t (z_mark_thread_as_not_suspended t k1)) in *.
    destruct (negb (in_isr k2)); [by rewrite <- reschedule_unlocked_view|done].
Qed.

Lemma wf_requeue ex t k f :
  wf ex k -> t ∈ runq k -> t <> idle_thread k ->
  (forall th, thread_state (f th) = thread_state th /\ pended_on (f th) = pended_on th) ->
  wf ex (_priq_run_add t (upd_thread t f (_priq_run_remove t k))).
Proof.
  intros H Hin Hi Hf. rewrite (run_remove_ready ex) by done.
  set (k1 := upd_thread t f (set_runq (dlist_remove t (runq k)) k)).
  assert (Hp : forall x, thread_state (threads k1 x) = thread_state (threads k x) /\
                    pended_on (threads k1 x) = pended_on (threads k x))
    by (intros x; cbn; destruct (Z.eqb_spec x t) as [->|]; [apply Hf|done]).
  assert (Hpr : forall x, x <> t -> prio (threads k1 x) = prio (threads k x))
    by (intros x Hx; cbn; by destruct (Z.eqb_spec x t)).
  assert (Hb : forall x m, tbit x m (_priq_run_add t k1) = tbit x m k)
    by (intros x m; unfold tbit; cbn [threads _priq_run_add set_runq]; by rewrite (proj1 (Hp x))).
  assert (Hr : forall x, z_is_thread_ready x (_priq_run_add t k1) = z_is_thread_ready x k)
    by (intros x; rewrite !ready_bits, !Hb; done).
  assert (Hq : forall x, x ∈ runq (_priq_run_add t k1) <-> x ∈ runq k).
  { intros x. cbn. unfold z_priq_dumb_add, dlist_remove.
    rewrite elem_of_insert_before, list_elem_of_filter.
    destruct (decide (x = t)) as [->|]; tauto. }
  destruct H as [H1 H2 H3 H4 H5 H6 H7 H8 H9 H10 H11 H12]. split; try done.
  - apply nodup_insert_before; [|by apply NoDup_filter].
    cbn. unfold dlist_remove. rewrite list_elem_of_filter. tauto.
  - apply (sorted_insert k1). apply (sorted_view k); [|by apply sorted_filter].
    intros x [Hx _]%(list_elem_of_filter (fun y => y <> t)). by apply Hpr.
  - intros x. rewrite Hq, Hb. apply H3.
  - intros x. rewrite Hq, Hr. apply H4.
  - intros x. rewrite Hq, Hr. apply H5.
  - intros w x. cbn [threads _priq_run_add set_runq]. rewrite (proj2 (Hp x)). apply H7.
  - intros x w. rewrite Hb. cbn [threads _priq_run_add set_runq]. rewrite (proj2 (Hp x)). apply H8.
  - destruct H9 as (?&?&?). rewrite Hq. cbn [threads _priq_run_add set_runq]. rewrite (proj2 (Hp _)).
    by split.
  - intros x. rewrite Hb. apply H11.
Qed.

Lemma wf_set_prio t p k : wf [] k -> t <> idle_thread k -> wf [] (z_set_prio t p k).2.
Proof.
  intros H Hi. unfold z_set_prio. destruct (z_is_thread_ready t k) eqn:Er; cbn.
  - apply wf_update_cache, wf_requeue; [done| |done|by intros].
    apply (wf_all_queued _ _ H); [set_solver|done..].
  - apply wf_with_prio; [done|]. by apply (not_queued_not_ready []).
Qed.

(** Marking a queued thread as queued changes nothing. *)
Lemma mark_queued_again ex t k : wf ex k -> t ∈ runq k -> k ≡ z_mark_thread_as_queued t k.
Proof.
  intros H Hin. apply (wf_queued _ _ H) in Hin.
  split; try done; try (intros x; apply (set_states_fields t _ x k)).
  intros x n Hn. unfold z_mark_thread_as_queued, _THREAD_QUEUED. rewrite tbit_set by lia.
  destruct (Z.eqb_spec x t) as [->|]; [|by rewrite orb_false_r].
  destruct (Z.eqb_spec n 7) as [->|]; [by rewrite Hin|by rewrite orb_false_r].
Qed.

(** Moving a queued thread behind its equals. *)
Lemma wf_move_to_end ex t k :
  wf ex k -> t ∈ runq k -> t <> idle_thread k ->
  wf ex (z_mark_thread_as_queued t (_priq_run_add t (_priq_run_remove t k))) .
Proof.
  intros H Hin Hi.
  pose proof (wf_requeue ex t k (fun th => th) H Hin Hi ltac:(done)) as H1.
  assert (Hv : _priq_run_add t (upd_thread t (fun th => th) (_priq_run_remove t k)) ≡
               _priq_run_add t (_priq_run_remove t k)).
  { assert (Hq : insert_before (fun x => z_is_t1_higher_prio_than_t2 t x
        (upd_thread t (fun th => th) (_priq_run_remove t k))) t (runq (_priq_run_remove t k)) =
      insert_before (fun x => z_is_t1_higher_prio_than_t2 t x (_priq_run_remove t k)) t
        (runq (_priq_run_remove t k))).
    { induction (runq (_priq_run_remove t k)) as [|y ys IH]; [done|]. cbn [insert_before]. rewrite IH.
      replace (z_is_t1_higher_prio_than_t2 t y (upd_thread t (fun th => th) (_priq_run_remove t k)))
        with (z_is_t1_higher_prio_than_t2 t y (_priq_run_remove t k)); [done|].
      unfold z_is_t1_higher_prio_than_t2. cbn. rewrite Z.eqb_refl.
      by destruct (Z.eqb_spec y t) as [->|]. }
    symmetry. split; try done; try (intros x; unfold tbit; cbn; by destruct (Z.eqb_spec x t) as [->|]). }
  rewrite Hv in H1. rewrite <- (mark_queued_again ex); [done..|].
  cbn. unfold z_priq_dumb_add. apply elem_of_insert_before. by left.
Qed.
End more_operations.

(** ** The thread the scheduler has chosen *)

Section choice.
Implicit Types (t : Z) (k : kernel) (ex : list Z) (w : Z) (to : k_timeout_t).

(** The head of the run queue, or the idle thread. *)
Definition best k : Z := default (idle_thread k) (head (runq k)).

(** [cache] is the best thread, or the current one when that cannot be
    preempted and has not stopped running. *)
Definition cache_ok k : Prop :=
  cache k = best k \/
  (cache k = current k /\ z_is_thread_prevented_from_running (current k) k = false /\
   is_preempt (current k) k = false).

(** A current thread with a timeout running is one that is going to sleep. *)
Definition current_ok k : Prop :=
  z_is_thread_timeout_active (current k) k = true -> pending_current k = Some (current k).

Definition sched_inv k : Prop := wf [] k /\ cache_ok k /\ current_ok k.

Record current_kept k k' : Prop := {
  cu_current : current k' = current k;
  cu_pending : pending_current k' = pending_current k;
  cu_active : z_is_thread_timeout_active (current k) k' = true ->
              z_is_thread_timeout_active (current k) k = true }.

(** Steps after which a right choice is still right. *)
Record choice_kept k k' : Prop := {
  ck_cache : cache k' = cache k;
  ck_runq : runq k' = runq k;
  ck_idle : idle_thread k' = idle_thread k;
  ck_current : current k' = current k;
  ck_running : z_is_thread_prevented_from_running (current k) k = false ->
               z_is_thread_prevented_from_running (current k) k' = false;
  ck_preempt : is_preempt (current k) k = false -> is_preempt (current k) k' = false }.

Lemma choice_kept_refl k : choice_kept k k.
Proof. by split. Qed.

Lemma choice_kept_trans k1 k2 k3 : choice_kept k1 k2 -> choice_kept k2 k3 -> choice_kept k1 k3.
Proof.
  intros [A1 A2 A3 A4 A5 A6] [B1 B2 B3 B4 B5 B6]. rewrite A4 in B5, B6.
  split; [congruence..| |]; auto.
Qed.

Lemma cache_ok_kept k k' : choice_kept k k' -> cache_ok k -> cache_ok k'.
Proof.
  intros [A1 A2 A3 A4 A5 A6] [Hb|(Hc&Hp&Hi)].
  - left. unfold best in *. congruence.
  - right. rewrite A4. split; [congruence|]. auto.
Qed.

Lemma best_kept k k' :
  cache k' = cache k -> runq k' = runq k -> idle_thread k' = idle_thread k ->
  cache k = best k -> cache k' = best k'.
Proof. unfold best. congruence. Qed.

Lemma reset_choice t n k : 0 <= n < 8 -> choice_kept k (z_reset_thread_states t (BIT n) k).
Proof.
  intros Hn. split; try done.
  - rewrite !prevented_bits, !tbit_reset by lia. intros H.
    repeat apply orb_false_iff in H as [H ?].
    repeat match goal with Hb : tbit _ _ _ = false |- _ => rewrite Hb; clear Hb end. done.
  - unfold is_preempt, preempt. cbn. by destruct (Z.eqb_spec (current k) t) as [->|].
Qed.

Lemma upd_choice t f k :
  thread_state (f (threads k t)) = thread_state (threads k t) ->
  preempt (threads k t) <= _PREEMPT_THRESHOLD \/ _PREEMPT_THRESHOLD < preempt (f (threads k t)) ->
  choice_kept k (upd_thread t f k).
Proof.
  intros Hs Hf. split; try done.
  - unfold z_is_thread_prevented_from_running. cbn.
    destruct (Z.eqb_spec (current k) t) as [->|]; [|done]. by rewrite Hs.
  - unfold is_preempt. cbn. destruct (Z.eqb_spec (current k) t) as [->|]; [|done].
    rewrite !Z.leb_gt; lia.
Qed.

Lemma swap_choice k : choice_kept k (z_swap k).
Proof.
  apply (choice_kept_trans k (arch_thread_return_value_set (current k) (- EAGAIN) k)); [|by split].
  apply upd_choice; [done|]. change (preempt (set_retval _ ?th)) with (preempt th). lia.
Qed.

Lemma reschedule_choice k : choice_kept k (z_reschedule k).
Proof. unfold z_reschedule. destruct (_ && _); [apply swap_choice|apply choice_kept_refl]. Qed.

Lemma reschedule_unlocked_choice k : choice_kept k (z_reschedule_unlocked k).
Proof.
  unfold z_reschedule_unlocked, z_reschedule_irqlock.
  destruct (resched k); [apply swap_choice|apply choice_kept_refl].
Qed.

Lemma timeouts_choice q k : choice_kept k (set_timeouts q k).
Proof. by split. Qed.

Lemma abort_choice t k : choice_kept k (z_abort_thread_timeout t k).2.
Proof. unfold z_abort_thread_timeout. destruct (z_abort_timeout _ _). apply timeouts_choice. Qed.

Lemma slice_choice k : choice_kept k (z_reset_time_slice k).
Proof. unfold z_reset_time_slice. destruct (nz _); [apply timeouts_choice|apply choice_kept_refl]. Qed.

Lemma unpend_choice t k : choice_kept k (unpend_thread_no_timeout t k).
Proof.
  unfold unpend_thread_no_timeout.
  set (k1 := match pended_on (threads k t) with Some w => _ | None => k end).
  apply (choice_kept_trans k k1); [unfold k1; destruct (pended_on _); by split|].
  apply (choice_kept_trans k1 (z_mark_thread_as_not_pending t k1)); [by apply reset_choice|].
  apply upd_choice; [done|]. change (preempt (set_pended_on _ ?th)) with (preempt th). lia.
Qed.

(** Re-evaluating the choice makes it right. *)
Lemma cache_update ex b k :
  wf ex k -> cache_ok (update_cache b k) /\ (b = true -> cache (update_cache b k) = best (update_cache b k)).
Proof.
  intros H. unfold update_cache. rewrite next_up_alive by apply H.
  set (th := default (idle_thread k) (head (runq k))).
  destruct (should_preempt th b k) eqn:Es.
  - assert (Hb : cache (set_cache th (if negb (th =? current k) then z_reset_time_slice k else k)) =
      best (set_cache th (if negb (th =? current k) then z_reset_time_slice k else k))).
    { unfold best. cbn. unfold z_reset_time_slice. destruct (negb _); [|done]. by destruct (nz _). }
    split; [by left|done].
  - unfold should_preempt in Es. destruct b; [done|].
    destruct (z_is_thread_prevented_from_running (current k) k) eqn:Ep; [done|].
    destruct (z_is_thread_timeout_active th k); [done|]. split; [|done]. by right.
Qed.

Lemma current_ok_kept k k' : current_kept k k' -> current_ok k -> current_ok k'.
Proof. intros [Hc Hp Ha] Hk. unfold current_ok in *. rewrite Hc, Hp. auto. Qed.

Lemma current_kept_trans k1 k2 k3 : current_kept k1 k2 -> current_kept k2 k3 -> current_kept k1 k3.
Proof. intros [A1 A2 A3] [B1 B2 B3]. rewrite A1 in B3. split; [congruence..|auto]. Qed.

(** No step below the level of an operation touches these fields; timeouts of
    other threads do not matter either. *)
Lemma current_kept_same k k' :
  current k' = current k -> pending_current k' = pending_current k ->
  timeout_list (timeouts k') = timeout_list (timeouts k) -> current_kept k k'.
Proof. intros Hc Hp Ht. split; [done..|]. by rewrite !active_elem, Ht. Qed.

Lemma update_cache_current ex b k : wf ex k -> current_kept k (update_cache b k).
Proof.
  intros H. apply current_kept_same; [| |by apply (ve_timeouts _ _ (update_cache_view b k ex H))];
    unfold update_cache; rewrite next_up_alive by apply H;
    destruct (should_preempt _ _ _); try done; destruct (negb _); try done;
    unfold z_reset_time_slice; cbn; by destruct (nz _).
Qed.

Lemma reset_slice_current k : current_kept k (z_reset_time_slice k).
Proof.
  unfold z_reset_time_slice. destruct (nz _); [|by apply current_kept_same].
  apply current_kept_same; [done..|]. cbn. by rewrite set_timeout_expiry_list.
Qed.

Lemma reschedule_current k : current_kept k (z_reschedule k).
Proof. unfold z_reschedule. destruct (_ && _); by apply current_kept_same. Qed.

Lemma reschedule_unlocked_current k : current_kept k (z_reschedule_unlocked k).
Proof.
  unfold z_reschedule_unlocked, z_reschedule_irqlock. destruct (resched k); by apply current_kept_same.
Qed.

Lemma abort_current t k : NoDup (timeout_list (timeouts k)).*1 ->
  current_kept k (z_abort_thread_timeout t k).2.
Proof.
  intros Hn. unfold z_abort_thread_timeout, z_abort_timeout.
  destruct (is_linked _ _); [|by apply current_kept_same]. split; try done.
  rewrite !active_elem. cbn. rewrite remove_timeout_ids by done.
  rewrite !bool_decide_eq_true, list_elem_of_filter. tauto.
Qed.

Lemma unpend_current t k : current_kept k (unpend_thread_no_timeout t k).
Proof. unfold unpend_thread_no_timeout. destruct (pended_on _); by apply current_kept_same. Qed.

Lemma ready_current ex t k :
  wf (t :: ex) k -> t ∉ runq k -> t <> idle_thread k -> current_kept k (ready_thread t k).
Proof.
  intros H Ht Hi. unfold ready_thread. destruct (z_is_thread_ready t k) eqn:E;
    [|by apply current_kept_same].
  eapply current_kept_trans; [|apply (update_cache_current ex); by apply wf_enqueue].
  by apply current_kept_same.
Qed.

Lemma cache_ready_thread ex t k :
  wf (t :: ex) k -> t ∉ runq k -> t <> idle_thread k -> cache_ok k -> cache_ok (ready_thread t k).
Proof.
  intros H Ht Hi Hc. unfold ready_thread. destruct (z_is_thread_ready t k) eqn:E; [|done].
  apply (cache_update ex). by apply wf_enqueue.
Qed.
End choice.

(** ** Every operation keeps the invariant *)

Section invariant.
Implicit Types (t : Z) (k : kernel) (ex : list Z) (w : Z) (to : k_timeout_t).

Lemma inv_ready t k :
  wf [t] k -> t ∉ runq k -> t <> idle_thread k -> cache_ok k -> current_ok k ->
  sched_inv (ready_thread t k).
Proof.
  intros H Ht Hi Hc Hu. split; [by apply wf_ready_thread|]. split.
  - by apply (cache_ready_thread []).
  - by eapply current_ok_kept; [apply (ready_current [])|].
Qed.

Lemma inv_step k k' :
  sched_inv k -> k ≡ k' -> choice_kept k k' -> current_kept k k' -> sched_inv k'.
Proof.
  intros (H&Hc&Hu) Hv Hch Hcu. split; [by rewrite <- Hv|].
  split; [by eapply cache_ok_kept|by eapply current_ok_kept].
Qed.

Lemma inv_reschedule k : sched_inv k -> sched_inv (z_reschedule k).
Proof.
  intros H. eapply inv_step; [done|apply reschedule_view|apply reschedule_choice|apply reschedule_current].
Qed.

Lemma inv_reschedule_unlocked k : sched_inv k -> sched_inv (z_reschedule_unlocked k).
Proof.
  intros H. eapply inv_step;
    [done|apply reschedule_unlocked_view|apply reschedule_unlocked_choice|apply reschedule_unlocked_current].
Qed.

Lemma inv_swap k : sched_inv k -> sched_inv (z_swap k).
Proof.
  intros H. eapply inv_step; [done|apply swap_view|apply swap_choice|by apply current_kept_same].
Qed.

(** Clearing a blocking bit and readying. *)
Lemma inv_clear_and_ready t n k :
  n = 2 \/ n = 4 -> t ∉ runq k -> t <> idle_thread k -> wf [t] k -> cache_ok k -> current_ok k ->
  sched_inv (ready_thread t (z_reset_thread_states t (BIT n) k)).
Proof.
  intros Hn Ht Hi H Hc Hu. apply inv_ready; [|done|done| |].
  - eapply wf_weaken; [|apply wf_clear_blocking; [by right|done|lia|exact H]]. set_solver.
  - eapply cache_ok_kept; [apply reset_choice; lia|done].
  - eapply current_ok_kept; [|exact Hu]. by apply current_kept_same.
Qed.

Lemma inv_start t k : sched_inv k -> t <> idle_thread k -> sched_inv (z_sched_start t k).
Proof.
  intros (H&Hc&Hu) Hi. unfold z_sched_start, z_has_thread_started, _THREAD_PRESTART.
  rewrite state_set_bit by lia. destruct (tbit t 2 k) eqn:E; [|done]. cbn [negb].
  apply inv_reschedule, inv_clear_and_ready; [by left| |done| |done..].
  - apply (not_queued_not_ready []); [done|]. rewrite ready_bits, E. by rewrite orb_true_r.
  - eapply wf_weaken; [|exact H]. set_solver.
Qed.

Lemma inv_resume t k :
  sched_inv k -> t <> idle_thread k -> z_is_thread_ready t k = false -> sched_inv (z_impl_k_thread_resume t k).
Proof.
  intros (H&Hc&Hu) Hi Hs. apply inv_reschedule, inv_clear_and_ready; [by right| |done| |done..].
  - by apply (not_queued_not_ready []).
  - eapply wf_weaken; [|exact H]. set_solver.
Qed.

Lemma inv_suspend t k : sched_inv k -> t <> idle_thread k -> sched_inv (z_impl_k_thread_suspend t k).
Proof.
  intros (H&Hc&Hu) Hi. unfold z_impl_k_thread_suspend.
  destruct (wf_abort_timeout [] t k H) as [H1 _].
  pose proof (abort_current t k (wf_timeouts _ _ H)) as Hu1.
  set (k1 := (z_abort_thread_timeout t k).2) in *.
  destruct (wf_dequeue_if [t] t k1 H1) as [H2 Hn2].
  set (k2 := if z_is_thread_queued t k1 then _ else _) in *.
  assert (H3 : wf [] (z_mark_thread_as_suspended t k2)).
  { apply wf_set_blocking; [by right|done|]. eapply wf_weaken; [|exact H2]. set_solver. }
  set (k3 := z_mark_thread_as_suspended t k2) in *.
  assert (Hu3 : current_ok k3).
  { eapply current_ok_kept; [|exact Hu]. eapply current_kept_trans; [exact Hu1|].
    unfold k3, k2, _priq_run_remove. destruct (z_is_thread_queued t k1); [|by apply current_kept_same].
    destruct (_ && _); by apply current_kept_same. }
  assert (H4 : sched_inv (update_cache (t =? current k3) k3)).
  { split; [by apply wf_update_cache|]. split; [by apply (cache_update [])|].
    eapply current_ok_kept; [by apply (update_cache_current [])|done]. }
  set (k4 := update_cache (t =? current k3) k3) in *.
  destruct (t =? current k4); [by apply inv_reschedule_unlocked|done].
Qed.

Lemma inv_wakeup t k : sched_inv k -> t <> idle_thread k -> sched_inv (z_impl_k_wakeup t k).
Proof.
  intros (H&Hc&Hu) Hi. pose proof (wf_wakeup t k H Hi) as Hw. unfold z_impl_k_wakeup in *.
  destruct (z_is_thread_pending t k); [done|].
  pose proof (abort_same t k) as (Hr1&Hi1&Ht1&_). pose proof (abort_result t k) as Hres.
  pose proof (abort_choice t k) as Hch. pose proof (abort_current t k (wf_timeouts _ _ H)) as Hcu.
  destruct (wf_abort_timeout [] t k H) as [H1 _].
  destruct (z_abort_thread_timeout t k) as [r k1]. cbn in *.
  pose proof (cache_ok_kept _ _ Hch Hc) as Hc1. pose proof (current_ok_kept _ _ Hcu Hu) as Hu1.
  destruct ((r <? 0) && negb (thread_state (threads k1 t) =? _THREAD_SUSPENDED)) eqn:Eb; [done|].
  assert (Hn : t ∉ runq k1).
  { rewrite Hr1. apply (not_queued_not_ready []); [done|].
    destruct (z_is_thread_timeout_active t k) eqn:Ea;
      [unfold z_is_thread_ready; by rewrite Ea, orb_true_r|].
    rewrite Hres, Ht1 in Eb. cbn in Eb. apply negb_false_iff, Z.eqb_eq in Eb.
    apply ready_false_suspended. unfold tbit. rewrite Eb. reflexivity. }
  assert (H2 : sched_inv (z_ready_thread t (z_mark_thread_as_not_suspended t k1)))
    by (apply inv_clear_and_ready; [by right|done|congruence|done..]).
  set (k2 := z_ready_thread t (z_mark_thread_as_not_suspended t k1)) in *.
  destruct (negb (in_isr k2)); [by apply inv_reschedule_unlocked|done].
Qed.

Lemma inv_set_prio t p k :
  sched_inv k -> t <> idle_thread k -> (t = current k -> z_is_thread_ready t k = true) -> sched_inv (z_set_prio t p k).2.
Proof.
  intros (H&Hc&Hu) Hi Hcur. split; [by apply wf_set_prio|]. unfold z_set_prio.
  destruct (z_is_thread_ready t k) eqn:Er; cbn [snd].
  - assert (Hwq : wf [] (_priq_run_add t (upd_thread t (with_prio (s8 p)) (_priq_run_remove t k)))).
    { apply wf_requeue; [done| |done|by intros]. apply (wf_all_queued _ _ H); [set_solver|done..]. }
    split; [by apply (cache_update [])|].
    eapply current_ok_kept; [|exact Hu].
    eapply current_kept_trans; [|by apply (update_cache_current [])].
    unfold _priq_run_remove. destruct (_ && _); by apply current_kept_same.
  - assert (Hne : t <> current k) by (intros Heq; by specialize (Hcur Heq)).
    split; [|eapply current_ok_kept; [by apply current_kept_same|done]].
    eapply cache_ok_kept; [|exact Hc]. split; try done.
    + unfold z_is_thread_prevented_from_running. cbn. by destruct (Z.eqb_spec (current k) t) as [<-|].
    + unfold is_preempt. cbn. by destruct (Z.eqb_spec (current k) t) as [<-|].
Qed.

Lemma inv_priority_set t p k :
  sched_inv k -> t <> idle_thread k -> (t = current k -> z_is_thread_ready t k = true) ->
  sched_inv (z_impl_k_thread_priority_set t p k).
Proof.
  intros H Hi Hcur. pose proof (inv_set_prio t p k H Hi Hcur) as H1. unfold z_impl_k_thread_priority_set, z_thread_priority_set.
  destruct (z_set_prio t p k) as [n k1]. cbn in H1.
  destruct (_ && _); [by apply inv_reschedule_unlocked|done].
Qed.

Lemma inv_wake_one w k : sched_inv k -> sched_inv (_ready_one_thread w k).
Proof.
  intros (H&Hc&Hu). unfold _ready_one_thread. pose proof (wf_unpend_first w k H) as Hw.
  assert (Hk : choice_kept k (z_unpend_first_thread w k).2 /\ current_kept k (z_unpend_first_thread w k).2).
  { unfold z_unpend_first_thread, z_unpend1_no_timeout, z_find_first_thread_to_unpend, z_priq_dumb_best.
    destruct (head (waitqs k w)) as [t|]; [|split; [apply choice_kept_refl|by apply current_kept_same]].
    unfold z_unpend_thread_no_timeout. cbn. split.
    - eapply choice_kept_trans; [apply unpend_choice|apply abort_choice].
    - eapply current_kept_trans; [apply unpend_current|apply abort_current].
      destruct (unpend_same t k) as (_&_&->). apply H. }
  destruct Hk as [Hch Hcu]. destruct (z_unpend_first_thread w k) as [[t|] k1]; cbn in *.
  - destruct Hw as (?&?&?&_). apply inv_ready; [done..| |].
    + by eapply cache_ok_kept.
    + by eapply current_ok_kept.
  - destruct Hw as [-> _]. done.
Qed.
End invariant.

Section current_operations.
Implicit Types (t : Z) (k : kernel) (ex : list Z) (w : Z) (to : k_timeout_t).

Lemma ready_not_pended t k :
  wf [] k -> z_is_thread_ready t k = true ->
  pended_on (threads k t) = None /\ z_is_thread_timeout_active t k = false.
Proof.
  intros H Hr. rewrite ready_bits in Hr. apply negb_true_iff in Hr.
  repeat apply orb_false_iff in Hr as [Hr ?]. split; [|done].
  destruct (pended_on (threads k t)) as [w|] eqn:E; [|done].
  by rewrite (wf_pending _ _ H _ _ E) in Hr.
Qed.

(** Taking the current thread off the run queue chooses its successor. *)
Lemma unready_current_choice ex k :
  wf ex k ->
  let k' := unready_thread (current k) k in
  cache k' = best k' /\ current k' = current k /\ pending_current k' = pending_current k.
Proof.
  intros H. unfold unready_thread. destruct (wf_dequeue_if ex (current k) k H) as [Hw _].
  set (k1 := if z_is_thread_queued (current k) k then _ else _) in *.
  assert (Hs : current k1 = current k /\ pending_current k1 = pending_current k).
  { unfold k1, _priq_run_remove. destruct (z_is_thread_queued _ k); [|done]. by destruct (_ && _). }
  destruct Hs as [Hs1 Hs2]. rewrite Hs1, Z.eqb_refl.
  destruct (update_cache_current _ true k1 Hw) as [Hc1 Hc2 _].
  split; [by apply (cache_update _ true k1 Hw)|]. split; congruence.
Qed.

Lemma inv_pend_curr wq to k :
  sched_inv k -> z_is_thread_ready (current k) k = true -> current k <> idle_thread k ->
  sched_inv (z_pend_curr wq to k).
Proof.
  intros (H&Hc&Hu) Hr Hi. unfold z_pend_curr. apply inv_swap.
  set (k1 := set_pending_current (Some (current k)) k).
  assert (H1 : wf [] k1) by (unfold k1; by rewrite <- (set_pending_current_view (Some (current k)) k)).
  destruct (ready_not_pended (current k) k1 H1 Hr) as [Hp Ha].
  change (current k) with (current k1) in Hp, Ha, Hi.
  destruct (unready_current_choice [] k1 H1) as (Hb&Hcu&Hpc).
  assert (Hs : cache (pend (current k1) wq to k1) = cache (unready_thread (current k1) k1) /\
    runq (pend (current k1) wq to k1) = runq (unready_thread (current k1) k1) /\
    idle_thread (pend (current k1) wq to k1) = idle_thread (unready_thread (current k1) k1) /\
    current (pend (current k1) wq to k1) = current (unready_thread (current k1) k1) /\
    pending_current (pend (current k1) wq to k1) = pending_current (unready_thread (current k1) k1)).
  { unfold pend, add_thread_timeout, add_to_waitq_locked. destruct (negb _), wq; done. }
  destruct Hs as (S1&S2&S3&S4&S5). split; [by apply wf_pend|]. split.
  - left. by apply (best_kept (unready_thread (current k1) k1)).
  - intros _. rewrite S5, S4, Hpc, Hcu. done.
Qed.

Lemma inv_yield k :
  sched_inv k -> z_is_thread_ready (current k) k = true -> sched_inv (z_impl_k_yield k).
Proof.
  intros (H&Hc&Hu) Hr. unfold z_impl_k_yield, z_is_idle_thread_object. apply inv_swap.
  destruct (Z.eqb_spec (current k) (idle_thread k)) as [|Hi]; [done|].
  assert (Hin : current k ∈ runq k) by (apply (wf_all_queued _ _ H); [set_solver|done..]).
  assert (Hcur : current (_priq_run_remove (current k) k) = current k)
    by (unfold _priq_run_remove; by destruct (_ && _)).
  assert (H1 : wf [] (z_mark_thread_as_queued (current k)
    (_priq_run_add (current k) (_priq_run_remove (current k) k)))) by (by apply wf_move_to_end).
  rewrite Hcur. change (current (_priq_run_add (current k) (_priq_run_remove (current k) k)))
    with (current (_priq_run_remove (current k) k)). rewrite Hcur.
  split; [by apply wf_update_cache|]. split; [by apply (cache_update [])|].
  eapply current_ok_kept; [|exact Hu].
  eapply current_kept_trans; [|by apply (update_cache_current [])].
  unfold _priq_run_remove. destruct (_ && _); by apply current_kept_same.
Qed.

Lemma inv_sleep to k :
  sched_inv k -> z_is_thread_ready (current k) k = true -> current k <> idle_thread k ->
  sched_inv (z_impl_k_sleep to k).
Proof.
  intros Hinv Hr Hi. unfold z_impl_k_sleep. destruct (K_TIMEOUT_EQ to K_FOREVER); [by apply inv_suspend|].
  unfold z_tick_sleep. destruct (_ =? 0); [by apply inv_yield|].
  destruct Hinv as (H&Hc&Hu). apply inv_swap.
  set (k1 := set_pending_current (Some (current k)) k).
  assert (H1 : wf [] k1) by (unfold k1; by rewrite <- (set_pending_current_view (Some (current k)) k)).
  destruct (ready_not_pended (current k) k1 H1 Hr) as [_ Ha].
  change (current k) with (current k1) in Ha, Hi.
  destruct (unready_current_choice [] k1 H1) as (Hb&Hcu&Hpc).
  destruct (wf_unready [] (current k1) k1 H1) as [H2 Hn2].
  destruct (unready_same [] (current k1) k1 H1) as (Hi2&_&Ht2&_).
  set (k2 := unready_thread (current k1) k1) in *. rewrite Hcu.
  set (k3 := z_add_thread_timeout (current k1) (Z_TIMEOUT_TICKS (s32 (ticks to))) k2).
  change (current k3) with (current k2). rewrite Hcu. split.
  - apply wf_set_blocking; [by right|done|]. eapply wf_weaken; [|apply wf_add_timeout; [exact H2|done|by rewrite Hi2|]].
    + set_solver.
    + rewrite active_elem, Ht2, <- active_elem. done.
  - split; [left; by apply (best_kept k2)|]. intros _. cbn. by rewrite Hpc, Hcu.
Qed.

Lemma inv_pendsv k : sched_inv k -> sched_inv (z_arm_pendsv k).
Proof.
  intros (H&Hc&Hu). split; [by rewrite <- pendsv_view|]. split.
  - destruct Hc as [Hb|(Hb&Hp&Hi)]; [by left|right]. cbn. rewrite Hb.
    split; [done|]. split; [exact Hp|exact Hi].
  - intros Ha. cbn in *. destruct Hc as [Hb|(Hb&_)]; [|rewrite Hb in *; by apply Hu].
    exfalso. unfold best in Hb. change (z_is_thread_timeout_active (cache k) k = true) in Ha.
    rewrite Hb in Ha. destruct (runq k) as [|t q] eqn:Hq; cbn in Ha.
    + destruct (wf_idle _ _ H) as (_&_&Hf). by rewrite Hf in Ha.
    + assert (Ht : z_is_thread_ready t k = true) by (apply (wf_ready _ _ H); rewrite Hq; constructor).
      unfold z_is_thread_ready in Ht. by rewrite Ha, orb_true_r in Ht.
Qed.

Lemma inv_sched_lock k :
  sched_inv k -> sched_locked (threads k (current k)) <> 1 ->
  0 <= sched_locked (threads k (current k)) < 256 -> sched_inv (k_sched_lock k).
Proof.
  intros Hinv Hl Hb. eapply inv_step; [exact Hinv|by apply upd_thread_view| |by apply current_kept_same].
  apply upd_choice; [done|]. right. unfold preempt. cbn.
  pose proof (u8_range (prio (threads k (current k)))).
  assert (1 <= u8 (sched_locked (threads k (current k)) - 1)).
  { unfold u8. destruct (Z.eq_dec (sched_locked (threads k (current k))) 0) as [->|]; [by compute|].
    rewrite Z.mod_small; lia. }
  unfold _PREEMPT_THRESHOLD, _NON_PREEMPT_THRESHOLD. lia.
Qed.

Lemma inv_sched_unlock k : sched_inv k -> sched_inv (k_sched_unlock k).
Proof.
  intros (H&Hc&Hu). apply inv_reschedule_unlocked.
  set (k1 := upd_thread (current k) (fun th => set_sched_locked (u8 (sched_locked th + 1)) th) k).
  assert (H1 : wf [] k1).
  { unfold k1. by rewrite <- upd_thread_view. }
  split; [by apply wf_update_cache|]. split; [by apply (cache_update [])|].
  eapply current_ok_kept; [|exact Hu].
  eapply current_kept_trans; [|by apply (update_cache_current [])]. by apply current_kept_same.
Qed.

Lemma inv_unpend_all_loop fuel w b k : sched_inv k -> sched_inv (unpend_all_loop fuel w b k).2.
Proof.
  revert b k. induction fuel as [|fuel IH]; intros b k H; [done|]. cbn [unpend_all_loop].
  unfold z_waitq_head. destruct (head (waitqs k w)) as [t|] eqn:Hh; [|done].
  apply IH. replace (z_ready_thread t (z_unpend_thread t k)) with (_ready_one_thread w k);
    [by apply inv_wake_one|].
  unfold _ready_one_thread, z_unpend_first_thread, z_unpend1_no_timeout, z_find_first_thread_to_unpend,
    z_priq_dumb_best. by rewrite Hh.
Qed.
End current_operations.

Section tick.
Implicit Types (t : Z) (k : kernel) (q : timeout_state to_ref).

Lemma inv_timeouts_same q k :
  sched_inv k -> timeout_list q = timeout_list (timeouts k) -> sched_inv (set_timeouts q k).
Proof.
  intros H Hq. eapply inv_step; [done|by apply set_timeouts_view|apply timeouts_choice|].
  by apply current_kept_same.
Qed.

Lemma inv_reset_slice k : sched_inv k -> sched_inv (z_reset_time_slice k).
Proof.
  intros H. eapply inv_step; [done|apply reset_time_slice_view|apply slice_choice|apply reset_slice_current].
Qed.

Lemma inv_move_current k :
  sched_inv k -> current k ∈ runq k -> current k <> idle_thread k ->
  sched_inv (move_thread_to_end_of_prio_q (current k) k).
Proof.
  intros (H&Hc&Hu) Hin Hi. unfold move_thread_to_end_of_prio_q, z_is_thread_queued, _THREAD_QUEUED.
  rewrite state_set_bit by lia. rewrite (proj1 (wf_queued _ _ H _) Hin).
  pose proof (wf_move_to_end [] (current k) k H Hin Hi) as H1.
  set (k1 := z_mark_thread_as_queued (current k) _) in *.
  split; [by apply wf_update_cache|]. split; [by apply (cache_update [])|].
  eapply current_ok_kept; [|exact Hu].
  eapply current_kept_trans; [|by apply (update_cache_current [])].
  unfold k1, _priq_run_remove. destruct (_ && _); by apply current_kept_same.
Qed.

Lemma inv_time_slice n k : sched_inv k -> sched_inv (z_time_slice n k).
Proof.
  intros Hinv. unfold z_time_slice. case_bool_decide as Hpc; [by apply inv_reset_slice|].
  destruct Hinv as (H&Hc&Hu).
  assert (Hna : z_is_thread_timeout_active (current k) k = false).
  { destruct (z_is_thread_timeout_active (current k) k) eqn:E; [|done]. destruct Hpc. by apply Hu. }
  set (k1 := set_pending_current None k).
  assert (H1 : sched_inv k1).
  { split; [unfold k1; by rewrite <- set_pending_current_view|]. split; [exact Hc|].
    intros Ha. change (z_is_thread_timeout_active (current k) k = true) in Ha. congruence. }
  destruct (nz (slice_time k1) && sliceable (current k1) k1) eqn:Es; [|by apply inv_timeouts_same].
  apply andb_prop in Es as [_ Hs]. unfold sliceable in Hs.
  apply andb_prop in Hs as [[[_ Hp%negb_true_iff]%andb_prop _]%andb_prop Hi%negb_true_iff].
  unfold z_is_idle_thread_object in Hi. apply Z.eqb_neq in Hi.
  destruct (_ <=? n); [|by apply inv_timeouts_same].
  apply inv_reset_slice, inv_move_current; [done| |done].
  destruct H1 as (H1&_). apply (wf_all_queued _ _ H1); [set_solver|done|].
  unfold z_is_thread_ready. rewrite Hp. change (negb (z_is_thread_timeout_active (current k) k) = true).
  by rewrite Hna.
Qed.

Lemma inv_thread_timeout t k :
  wf [t] k -> t ∉ runq k -> t <> idle_thread k -> cache_ok k -> current_ok k ->
  sched_inv (z_thread_timeout t k).
Proof.
  intros H Ht Hi Hc Hu. unfold z_thread_timeout.
  set (k1 := match pended_on (threads k t) with Some _ => _ | None => k end).
  assert (H1 : wf [t] k1 /\ (t ∉ runq k1) /\ idle_thread k1 = idle_thread k /\
               choice_kept k k1 /\ current_kept k k1).
  { unfold k1. destruct (pended_on (threads k t)) as [w|] eqn:Hp;
      [|split; [done|split; [done|split; [done|split; [apply choice_kept_refl|by apply current_kept_same]]]]].
    destruct (unpend_same t k) as (Hr&Hid&_). rewrite Hr, Hid.
    split; [|split; [done|split; [done|split; [apply unpend_choice|apply unpend_current]]]].
    eapply wf_weaken; [|apply (wf_unpend _ _ _ _ H Hp)]. set_solver. }
  destruct H1 as (H1&Hn1&Hi1&Hch&Hcu).
  apply inv_clear_and_ready; [by right|done|cbn; congruence| | |].
  - eapply wf_weaken; [|apply wf_clear_blocking; [right; by left|done|done|exact H1]]. set_solver.
  - eapply cache_ok_kept; [apply reset_choice; lia|]. by eapply cache_ok_kept.
  - apply (current_ok_kept k1); [by apply current_kept_same|]. by eapply current_ok_kept.
Qed.

(** The handlers of the timeouts of other objects. *)
Variable obj_fn : Z -> kernel -> kernel.

(** [t->fn(t)] *)
Definition timeout_fn (r : to_ref) k : kernel :=
  match r with To_thread t => z_thread_timeout t k | To_object o => obj_fn o k end.

Hypothesis obj_inv : forall o k, sched_inv k -> sched_inv (obj_fn o k).

Lemma wf_idle_exception ex k : wf (idle_thread k :: ex) k -> wf ex k.
Proof.
  intros []. split; try done. intros t Ht Hi. apply wf_all_queued0; [|done].
  by apply not_elem_of_cons.
Qed.

Lemma expire_ids d i r q :
  timeout_list q = (i, d) :: r -> (timeout_list (expire_first d q)).*1 = r.*1.
Proof. intros Hq. cbn. rewrite Hq. by destruct r as [|[j e] r]. Qed.

Lemma inv_expire r d k :
  sched_inv k -> first (timeouts k) = Some (r, d) ->
  sched_inv (timeout_fn r (set_timeouts (expire_first d (timeouts k)) k)).
Proof.
  intros (H&Hc&Hu) Hf. unfold first in Hf.
  destruct (timeout_list (timeouts k)) as [|[r' d'] l] eqn:Hl; [done|]. injection Hf as -> ->.
  pose proof (expire_ids d r l (timeouts k) Hl) as Hids.
  pose proof (wf_timeouts _ _ H) as Hnd. rewrite Hl in Hnd. cbn in Hnd. apply NoDup_cons in Hnd as [Hr Hnd].
  set (q := expire_first d (timeouts k)) in *.
  assert (Hc1 : cache_ok (set_timeouts q k)) by (eapply cache_ok_kept; [apply timeouts_choice|done]).
  assert (Hu1 : current_ok (set_timeouts q k)).
  { eapply current_ok_kept; [|exact Hu]. split; try done. rewrite !active_elem, !bool_decide_eq_true, Hl. cbn [timeouts set_timeouts]. rewrite Hids.
    intros. by right. }
  destruct r as [t|o]; cbn [timeout_fn].
  - assert (Hact : z_is_thread_timeout_active t k = true).
    { rewrite active_elem, Hl. apply bool_decide_eq_true. constructor. }
    assert (Hn : t ∉ runq k).
    { apply (not_queued_not_ready []); [done|]. unfold z_is_thread_ready. by rewrite Hact, orb_true_r. }
    assert (Hi : t <> idle_thread k)
      by (intros ->; destruct (wf_idle _ _ H) as (_&_&?); congruence).
    apply inv_thread_timeout; [|done..].
    apply wf_change_timeouts; [done|done|by rewrite Hids| |done].
    intros x Hx. rewrite Hids, Hl. cbn. rewrite elem_of_cons. naive_solver.
  - apply obj_inv. split; [|done]. apply (wf_idle_exception [] (set_timeouts q k)).
    apply wf_change_timeouts; [done|apply H|by rewrite Hids| |].
    + intros x Hx. rewrite Hids, Hl. cbn. rewrite elem_of_cons. naive_solver.
    + intros _. rewrite Hids. destruct (wf_idle _ _ H) as (_&_&Hf). rewrite active_elem, Hl in Hf.
      apply bool_decide_eq_false in Hf. cbn in Hf. rewrite elem_of_cons in Hf. tauto.
Qed.

Lemma inv_announce fuel clk n k k' :
  sched_inv k -> z_clock_announce timeout_fn z_time_slice fuel clk n k = Some k' -> sched_inv k'.
Proof.
  intros H. unfold z_clock_announce. cbn [get_tq put_tq kernel_timeouts].
  assert (H1 : sched_inv (set_timeouts (announce_begin n (timeouts (z_time_slice n k))) (z_time_slice n k)))
    by (apply inv_timeouts_same; [by apply inv_time_slice|done]).
  revert H1. generalize (set_timeouts (announce_begin n (timeouts (z_time_slice n k))) (z_time_slice n k)) as k1.
  assert (Hend : forall k2, sched_inv k2 -> sched_inv (set_timeouts (announce_end clk (timeouts k2)) k2)).
  { intros k2 (Hw&Hc&Hu).
    assert (Hids : (timeout_list (announce_end clk (timeouts k2))).*1 = (timeout_list (timeouts k2)).*1)
      by (cbn; by destruct (timeout_list (timeouts k2)) as [|[i d] r]).
    split; [|split].
    - apply (wf_idle_exception [] (set_timeouts _ k2)). apply wf_change_timeouts; rewrite ?Hids; try done; try apply Hw.
      intros _. destruct (wf_idle _ _ Hw) as (_&_&Hf). rewrite active_elem in Hf.
      by apply bool_decide_eq_false in Hf.
    - eapply cache_ok_kept; [apply timeouts_choice|done].
    - eapply current_ok_kept; [|exact Hu]. split; try done. rewrite !active_elem. cbn [timeouts set_timeouts]. by rewrite Hids. }
  induction fuel as [|fuel IH]; intros k1 H1; [done|]. cbn [announce_loop get_tq put_tq kernel_timeouts].
  destruct (first (timeouts k1)) as [[r d]|] eqn:Hf; [|intros [= <-]; by apply Hend].
  destruct (d <=? _); [|intros [= <-]; by apply Hend].
  apply IH. by apply inv_expire.
Qed.
End tick.

(** ** Runs of the scheduler *)

Inductive kop :=
| K_start (t : Z) | K_suspend (t : Z) | K_resume (t : Z) | K_wakeup (t : Z)
| K_priority_set (t p : Z) | K_yield | K_sleep (timeout : k_timeout_t)
| K_pend (wait_q : option Z) (timeout : k_timeout_t)
| K_wake_one (w : Z) | K_wake_all (w : Z) | K_lock | K_unlock
| K_slice_set (slice p : Z) | K_tick (fuel : nat) (n : Z)
| K_pendsv.

Section runs.
Variable obj_fn : Z -> kernel -> kernel.

Definition kstep (o : kop) (k : kernel) : option kernel :=
  match o with
  | K_start t => Some (z_sched_start t k)
  | K_suspend t => Some (z_impl_k_thread_suspend t k)
  | K_resume t => Some (z_impl_k_thread_resume t k)
  | K_wakeup t => Some (z_impl_k_wakeup t k)
  | K_priority_set t p => Some (z_impl_k_thread_priority_set t p k)
  | K_yield => Some (z_impl_k_yield k)
  | K_sleep to => Some (z_impl_k_sleep to k)
  | K_pend wq to => Some (z_pend_curr wq to k)
  | K_wake_one w => Some (_ready_one_thread w k)
  | K_wake_all w => Some (z_unpend_all w k).2
  | K_lock => Some (k_sched_lock k)
  | K_unlock => Some (k_sched_unlock k)
  | K_slice_set s p => Some (k_sched_time_slice_set s p k)
  | K_tick fuel n => z_clock_announce (timeout_fn obj_fn) z_time_slice fuel (clock k) n k
  | K_pendsv => Some (z_arm_pendsv k)
  end.

(** Where the operations are used: the idle thread is never an argument, blocking calls
    and changes of priority come from a running thread, and scheduler locks do not
    exceed their count.  A thread that is ready is not resumed: the interface allows
    that, as a call without effect, but the code queues the thread a second time. *)
Definition kop_ok (o : kop) (k : kernel) : bool :=
  let cur := current k in
  let running := z_is_thread_ready cur k && negb (cur =? idle_thread k) in
  match o with
  | K_start t | K_suspend t | K_wakeup t => negb (t =? idle_thread k)
  | K_resume t => negb (t =? idle_thread k) && negb (z_is_thread_ready t k)
  | K_priority_set t _ => negb (t =? idle_thread k) && running
  | K_yield | K_sleep _ | K_pend _ _ => running
  | K_lock => negb (sched_locked (threads k cur) =? 1) &&
              (0 <=? sched_locked (threads k cur)) && (sched_locked (threads k cur) <? 256)
  | _ => true
  end.

Fixpoint krun (ops : list kop) (k : kernel) : option kernel :=
  match ops with
  | [] => Some k
  | o :: ops => if kop_ok o k then match kstep o k with Some k => krun ops k | None => None end
                else None
  end.

Hypothesis obj_inv : forall o k, sched_inv k -> sched_inv (obj_fn o k).

Lemma inv_slice_set s p k : sched_inv k -> sched_inv (k_sched_time_slice_set s p k).
Proof.
  intros H. apply inv_reset_slice. unfold set_slice.
  eapply inv_step; [apply (inv_timeouts_same (set_slice_ticks 0 (timeouts k)) k H); done|by split..|].
  by apply current_kept_same.
Qed.

Lemma kstep_inv o k k' : sched_inv k -> kop_ok o k = true -> kstep o k = Some k' -> sched_inv k'.
Proof.
  intros H Hok Hs.
  destruct o; cbn in Hok, Hs; try (injection Hs as <-);
    repeat match goal with
    | Hb : _ && _ = true |- _ => apply andb_prop in Hb as [? ?]
    | Hb : negb (_ =? _) = true |- _ => apply negb_true_iff, Z.eqb_neq in Hb
    end.
  - by apply inv_start.
  - by apply inv_suspend.
  - apply inv_resume; [done..|]. by apply negb_true_iff.
  - by apply inv_wakeup.
  - apply inv_priority_set; [done..|]. by intros ->.
  - by apply inv_yield.
  - by apply inv_sleep.
  - by apply inv_pend_curr.
  - by apply inv_wake_one.
  - by apply (inv_unpend_all_loop (S (length (waitqs k w))) w false k).
  - apply inv_sched_lock; [done..|]. lia.
  - by apply inv_sched_unlock.
  - by apply inv_slice_set.
  - by eapply inv_announce.
  - by apply inv_pendsv.
Qed.

Lemma krun_inv ops k k' : sched_inv k -> krun ops k = Some k' -> sched_inv k'.
Proof.
  revert k. induction ops as [|o ops IH]; intros k H Hr; cbn in Hr; [by injection Hr as <-|].
  destruct (kop_ok o k) eqn:Hok; [|done]. destruct (kstep o k) as [k1|] eqn:Hs; [|done].
  apply (IH k1); [|done]. by eapply kstep_inv.
Qed.
End runs.

(** ** The state at boot: the main thread runs, every other thread object is
    still to be started. *)

Definition thread_new (p : Z) : k_thread := mk_thread p 0 _THREAD_PRESTART None 0 0.

Definition kernel_boot (main idle : Z) (prios : Z -> Z) : kernel :=
  mk_kernel
    (fun t => if t =? main then mk_thread (prios main) 0 _THREAD_QUEUED None 0 0
              else if t =? idle then mk_thread 15 0 0 None 0 0 else thread_new (prios t))
    [main] main main idle (fun _ => []) None None 0 0 (mk_tq 0 [] 0 0 None) 0 false false.

Lemma boot_inv main idle prios : main <> idle -> sched_inv (kernel_boot main idle prios).
Proof.
  intros Hne. set (k := kernel_boot main idle prios).
  assert (Hb : forall t n, 0 <= n < 8 -> tbit t n k = if t =? main then n =? 7 else negb (t =? idle) && (n =? 2)).
  { intros t n Hn. unfold tbit. cbn -[Z.testbit]. destruct (t =? main); [|destruct (t =? idle)];
      cbn -[Z.testbit BIT]; unfold _THREAD_QUEUED, _THREAD_PRESTART;
      rewrite ?bit_pow, ?Z.pow2_bits_eqb, ?Z.bits_0 by lia; [apply Z.eqb_sym|done|apply Z.eqb_sym]. }
  assert (Hr : forall t, z_is_thread_ready t k = (t =? main) || (t =? idle)).
  { intros t. rewrite ready_bits, !Hb by lia. destruct (t =? main), (t =? idle); done. }
  assert (Hp : forall t, pended_on (threads k t) = None).
  { intros t. cbn. by destruct (t =? main), (t =? idle). }
  assert (Hm : forall t, t ∈ runq k <-> t = main) by (intros; apply list_elem_of_singleton).
  split; [|split; [by left|done]]. split; try done.
  - apply NoDup_singleton.
  - repeat constructor.
  - intros t. rewrite Hm, Hb by lia. cbn [Z.eqb]. destruct (Z.eqb_spec t main); [done|].
    rewrite andb_false_r. done.
  - intros t ->%Hm. rewrite Hr, Z.eqb_refl. done.
  - intros t _ Hi. rewrite Hr, Hm. intros [?%Z.eqb_eq|?%Z.eqb_eq]%orb_prop; done.
  - intros w. apply NoDup_nil_2.
  - intros w t. rewrite Hp. split; [by intros ?%not_elem_of_nil|done].
  - intros t w. by rewrite Hp.
  - rewrite Hm, Hp. split; [cbn; congruence|done].
  - apply NoDup_nil_2.
  - intros t. rewrite Hb by lia. destruct (t =? main); [done|]. by rewrite andb_false_r.
Qed.

Section consequences.
Implicit Types (t : Z) (k : kernel) (w : Z).

Lemma sorted_head k l x t :
  StronglySorted (fun a b => prio (threads k a) <= prio (threads k b)) l ->
  head l = Some x -> t ∈ l -> prio (threads k x) <= prio (threads k t).
Proof.
  destruct l as [|y l]; [done|]. intros Hs [= ->] [->|Ht]%elem_of_cons; [lia|].
  apply StronglySorted_inv in Hs as [_ Hf]. rewrite Forall_forall in Hf. by apply Hf.
Qed.

(** The best thread is a ready one of the highest priority. *)
Lemma best_spec k :
  wf [] k ->
  (best k = idle_thread k \/ z_is_thread_ready (best k) k = true) /\
  (forall t, t <> idle_thread k -> z_is_thread_ready t k = true ->
     best k <> idle_thread k /\ prio (threads k (best k)) <= prio (threads k t)).
Proof.
  intros H. unfold best. destruct (head (runq k)) as [x|] eqn:Hh; cbn.
  - assert (Hx : x ∈ runq k) by (by apply head_elem).
    split; [right; by apply (wf_ready _ _ H)|]. intros t Hi Hr.
    assert (Ht : t ∈ runq k) by (apply (wf_all_queued _ _ H); [set_solver|done..]).
    split; [|by eapply sorted_head; [apply H|..]]. intros ->. by destruct (wf_idle _ _ H).
  - split; [by left|]. intros t Hi Hr.
    assert (Ht : t ∈ runq k) by (apply (wf_all_queued _ _ H); [set_solver|done..]).
    destruct (runq k); [by apply not_elem_of_nil in Ht|done].
Qed.

Lemma runq_update_cache b k : runq (update_cache b k) = runq k.
Proof.
  unfold update_cache, next_up, z_reset_time_slice. destruct (pending_abort k).
  - destruct (should_preempt _ _ _); [|done]. destruct (negb _); [|done]. by destruct (nz _).
  - destruct (z_is_thread_state_set _ _ _); (destruct (should_preempt _ _ _); [|done]);
      (destruct (negb _); [|done]); by destruct (nz _).
Qed.

Lemma runq_reschedule k : runq (z_reschedule k) = runq k.
Proof. unfold z_reschedule. by destruct (_ && _). Qed.

(** Readying a thread while a cooperative thread runs keeps the choice. *)
Lemma ready_keeps_coop ex t k :
  wf (t :: ex) k -> t ∉ runq k -> t <> idle_thread k -> cache k = current k ->
  z_is_thread_prevented_from_running (current k) k = false -> is_preempt (current k) k = false ->
  cache (ready_thread t k) = current k.
Proof.
  intros H Ht Hi Hc Hp Hpre. unfold ready_thread. destruct (z_is_thread_ready t k) eqn:Er; [|done].
  pose proof (wf_enqueue ex t k H Ht Er Hi) as H1.
  set (k1 := z_mark_thread_as_queued t (_priq_run_add t k)) in *.
  assert (Hp1 : z_is_thread_prevented_from_running (current k1) k1 = false).
  { rewrite prevented_bits in *. unfold k1, z_mark_thread_as_queued, _THREAD_QUEUED.
    rewrite !tbit_set by lia. cbn [Z.eqb]. rewrite !andb_false_r, !orb_false_r. exact Hp. }
  assert (Hpre1 : is_preempt (current k1) k1 = false).
  { unfold is_preempt in *. change (current k1) with (current k). cbn.
    destruct (Z.eqb_spec (current k) t) as [<-|]; done. }
  unfold update_cache. rewrite next_up_alive by apply H1.
  assert (Hact : z_is_thread_timeout_active (default (idle_thread k1) (head (runq k1))) k1 = false).
  { destruct (head (runq k1)) as [x|] eqn:Hh; cbn; [|apply H1].
    assert (Hx : z_is_thread_ready x k1 = true) by (apply (wf_ready _ _ H1), head_elem, Hh).
    unfold z_is_thread_ready in Hx. by apply negb_true_iff, orb_false_iff in Hx as [_ ?]. }
  unfold should_preempt. by rewrite Hp1, Hact, Hpre1.
Qed.
End consequences.

(** ** Properties *)

(** C11. In every state the kernel can reach from boot by scheduler operations and timer
    ticks in any order, the run queue holds exactly the ready threads, once each and by
    priority, and a thread is on a wait queue exactly when it waits for it, and then it
    is not ready.  The operations are used as [kop_ok] says; in particular
    [k_thread_resume] is not called for a thread that is ready, which would queue it
    twice. *)
Theorem scheduler_queues_consistent (obj_fn : Z -> kernel -> kernel) (main idle : Z) (prios : Z -> Z)
    (ops : list kop) (k : kernel) (Hobj : forall o k, sched_inv k -> sched_inv (obj_fn o k))
    (Hne : main <> idle) (Hrun : krun obj_fn ops (kernel_boot main idle prios) = Some k) :
  (forall t, t <> idle_thread k -> t ∈ runq k <-> z_is_thread_ready t k = true) /\
  NoDup (runq k) /\
  StronglySorted (fun a b => prio (threads k a) <= prio (threads k b)) (runq k) /\
  (forall w t, t ∈ waitqs k w <-> pended_on (threads k t) = Some w) /\
  (forall w t, t ∈ waitqs k w -> z_is_thread_ready t k = false).
Proof.
  destruct (krun_inv obj_fn Hobj ops _ k (boot_inv main idle prios Hne) Hrun) as (H&_&_).
  split; [|split; [apply H|split; [apply H|split; [apply H|]]]].
  - intros t Hi. split; [apply (wf_ready _ _ H)|]. apply (wf_all_queued _ _ H); [set_solver|done].
  - intros w t Ht. apply ready_false_pending. apply (wf_wait _ _ H) in Ht. by apply (wf_pending _ _ H _ w).
Qed.

(** A worker of priority 5 started by the main thread, both waiting and waking,
    with ticks in between. *)
Definition example_ops : list kop :=
  [K_start 7; K_pend (Some 100) (Z_TIMEOUT_TICKS 3); K_pendsv; K_sleep (Z_TIMEOUT_TICKS 2); K_pendsv;
   K_tick 5 3; K_pendsv; K_wake_one 100; K_pendsv].
Definition example_boot : kernel := kernel_boot 1 2 (fun t => if t =? 7 then 5 else 0).
Definition example_end : kernel := default example_boot (krun (fun _ k => k) example_ops example_boot).

Lemma scheduler_queues_consistent_witness :
  let k := example_end in
  (forall t, t <> idle_thread k -> t ∈ runq k <-> z_is_thread_ready t k = true) /\
  NoDup (runq k) /\
  StronglySorted (fun a b => prio (threads k a) <= prio (threads k b)) (runq k) /\
  (forall w t, t ∈ waitqs k w <-> pended_on (threads k t) = Some w) /\
  (forall w t, t ∈ waitqs k w -> z_is_thread_ready t k = false).
Proof.
  apply (scheduler_queues_consistent (fun _ k => k) 1 2 (fun t => if t =? 7 then 5 else 0) example_ops);
    [done|done|]. vm_compute. reflexivity.
Defined.

(** C31. The thread that runs after a context switch is a ready thread of the
    highest priority, the idle thread only if there is none; unless the switch is
    from a cooperative thread that is still able to run, which stays.  This is in every
    state reached from boot by operations used as [kop_ok] says; in particular
    [k_thread_resume] is not called for a thread that is ready. *)
Theorem context_switch_picks_best (obj_fn : Z -> kernel -> kernel) (main idle : Z) (prios : Z -> Z)
    (ops : list kop) (k : kernel) (Hobj : forall o k, sched_inv k -> sched_inv (obj_fn o k))
    (Hne : main <> idle) (Hrun : krun obj_fn ops (kernel_boot main idle prios) = Some k) :
  let next := current (z_arm_pendsv k) in
  (next = current k /\ is_preempt (current k) k = false /\
   z_is_thread_prevented_from_running (current k) k = false) \/
  ((next = idle_thread k \/ z_is_thread_ready next k = true) /\
   forall t, t <> idle_thread k -> z_is_thread_ready t k = true ->
     next <> idle_thread k /\ prio (threads k next) <= prio (threads k t)).
Proof.
  destruct (krun_inv obj_fn Hobj ops _ k (boot_inv main idle prios Hne) Hrun) as (H&[Hb|(Hb&Hp&Hi)]&_);
    cbn; rewrite Hb; [right|by left]. by apply best_spec.
Qed.

Lemma context_switch_picks_best_witness :
  let k := example_end in
  let next := current (z_arm_pendsv k) in
  (next = current k /\ is_preempt (current k) k = false /\
   z_is_thread_prevented_from_running (current k) k = false) \/
  ((next = idle_thread k \/ z_is_thread_ready next k = true) /\
   forall t, t <> idle_thread k -> z_is_thread_ready t k = true ->
     next <> idle_thread k /\ prio (threads k next) <= prio (threads k t)).
Proof.
  apply (context_switch_picks_best (fun _ k => k) 1 2 (fun t => if t =? 7 then 5 else 0) example_ops);
    [done|done|]. vm_compute. reflexivity.
Defined.

(** A cooperative thread keeps the CPU: while it runs, waking a waiter of any
    priority leaves it the thread to run next. *)
Theorem cooperative_not_preempted (w : Z) (k : kernel)
    (Hinv : sched_inv k) (Hcache : cache k = current k)
    (Hrun : z_is_thread_prevented_from_running (current k) k = false)
    (Hcoop : is_preempt (current k) k = false) :
  cache (_ready_one_thread w k) = current k.
Proof.
  destruct Hinv as (H&_&_). unfold _ready_one_thread. pose proof (wf_unpend_first w k H) as Hw.
  assert (Hk : choice_kept k (z_unpend_first_thread w k).2).
  { unfold z_unpend_first_thread, z_unpend1_no_timeout, z_find_first_thread_to_unpend, z_priq_dumb_best.
    destruct (head (waitqs k w)) as [t|]; [|apply choice_kept_refl].
    eapply choice_kept_trans; [apply unpend_choice|apply abort_choice]. }
  destruct (z_unpend_first_thread w k) as [[t|] k1]; cbn in *; [|by destruct Hw as [-> _]].
  destruct Hw as (Hw&Hn&Hi&_). destruct Hk as [A1 A2 A3 A4 A5 A6].
  unfold z_ready_thread. rewrite <- A4. apply (ready_keeps_coop []); [done..|congruence| |];
    rewrite A4; auto.
Qed.

(** The main thread made cooperative, with a higher-priority waiter. *)
Definition example_coop : kernel :=
  default example_boot (krun (fun _ k => k)
    [K_start 7; K_pend (Some 100) K_FOREVER; K_pendsv; K_pend (Some 200) K_FOREVER; K_pendsv;
     K_wake_one 200; K_pendsv; K_lock] example_boot).

Lemma example_coop_inv : sched_inv example_coop.
Proof.
  apply (krun_inv (fun _ k => k) ltac:(done)
    [K_start 7; K_pend (Some 100) K_FOREVER; K_pendsv; K_pend (Some 200) K_FOREVER; K_pendsv;
     K_wake_one 200; K_pendsv; K_lock] example_boot); [by apply boot_inv|].
  vm_compute. reflexivity.
Qed.

Lemma cooperative_not_preempted_witness :
  waitqs example_coop 100 = [1] /\ cache (_ready_one_thread 100 example_coop) = current example_coop.
Proof.
  split; [vm_compute; reflexivity|].
  apply (cooperative_not_preempted 100 example_coop example_coop_inv); vm_compute; reflexivity.
Defined.

(** [k_yield] passes the CPU on: if another thread of the same or a higher
    priority is ready, the next thread is one of those and not the caller. *)
Theorem yield_passes_on (t : Z) (k : kernel)
    (Hinv : sched_inv k) (Hrun : z_is_thread_ready (current k) k = true)
    (Hcur : current k <> idle_thread k) (Ht : t <> current k) (Hi : t <> idle_thread k)
    (Hready : z_is_thread_ready t k = true)
    (Hprio : prio (threads k t) <= prio (threads k (current k))) :
  cache (z_impl_k_yield k) <> current k /\
  prio (threads k (cache (z_impl_k_yield k))) <= prio (threads k t).
Proof.
  destruct Hinv as (H&_&_).
  assert (Hin : forall x, x <> idle_thread k -> z_is_thread_ready x k = true -> x ∈ runq k)
    by (intros; apply (wf_all_queued _ _ H); [set_solver|done..]).
  assert (Hrem : _priq_run_remove (current k) k = set_runq (dlist_remove (current k) (runq k)) k)
    by (apply (run_remove_ready []); [done|by apply Hin]).
  pose proof (wf_move_to_end [] (current k) k H (Hin _ Hcur Hrun) Hcur) as H1.
  assert (Hc : cache (z_impl_k_yield k) =
    best (z_mark_thread_as_queued (current k) (_priq_run_add (current k) (_priq_run_remove (current k) k)))).
  { unfold z_impl_k_yield, z_is_idle_thread_object. destruct (Z.eqb_spec (current k) (idle_thread k)); [done|].
    rewrite Hrem in H1 |- *. transitivity (cache (update_cache true (z_mark_thread_as_queued (current k)
      (_priq_run_add (current k) (set_runq (dlist_remove (current k) (runq k)) k))))); [reflexivity|].
    rewrite (proj2 (cache_update [] true _ H1) eq_refl). unfold best.
    by rewrite runq_update_cache, (ve_idle _ _ (update_cache_view true _ [] H1)). }
  rewrite Hc, Hrem. unfold best. cbn [runq z_mark_thread_as_queued z_set_thread_states upd_thread
    set_threads _priq_run_add set_runq]. unfold z_priq_dumb_add. cbn [runq set_runq].
  assert (Htin : t ∈ dlist_remove (current k) (runq k)) by (apply list_elem_of_filter; auto).
  pose proof (sorted_filter k (current k) _ (wf_sorted _ _ H)) as Hs.
  assert (Hnc : current k ∉ dlist_remove (current k) (runq k))
    by (unfold dlist_remove; rewrite list_elem_of_filter; tauto).
  destruct (dlist_remove (current k) (runq k)) as [|y ys] eqn:Hl; [by apply not_elem_of_nil in Htin|].
  pose proof (sorted_head k (y :: ys) y t Hs eq_refl Htin) as Hy.
  cbn [insert_before]. unfold z_is_t1_higher_prio_than_t2. cbn [threads set_runq].
  destruct (Z.ltb_spec (prio (threads k (current k))) (prio (threads k y))); [lia|].
  cbn. split; [|done]. intros ->. apply Hnc. constructor.
Qed.

Definition example_two : kernel :=
  default example_boot (krun (fun _ k => k) [K_start 8; K_start 7] example_boot).

Lemma example_two_inv : sched_inv example_two.
Proof.
  apply (krun_inv (fun _ k => k) ltac:(done) [K_start 8; K_start 7] example_boot); [by apply boot_inv|].
  vm_compute. reflexivity.
Qed.

Lemma yield_passes_on_witness :
  cache (z_impl_k_yield example_two) <> current example_two /\
  prio (threads example_two (cache (z_impl_k_yield example_two))) <= prio (threads example_two 8).
Proof.
  apply (yield_passes_on 8 example_two example_two_inv); vm_compute; (reflexivity || discriminate).
Defined.

(** [k_thread_resume] on a thread that is not suspended is not harmless: it
    enters a ready thread into the run queue a second time. *)
Theorem resume_of_ready_thread_duplicates (t : Z) (k : kernel)
    (Hinv : sched_inv k) (Hi : t <> idle_thread k) (Hready : z_is_thread_ready t k = true) :
  ~ NoDup (runq (z_impl_k_thread_resume t k)).
Proof.
  destruct Hinv as (H&_&_).
  assert (Hin : t ∈ runq k) by (apply (wf_all_queued _ _ H); [set_solver|done..]).
  assert (Hr : z_is_thread_ready t (z_mark_thread_as_not_suspended t k) = true).
  { rewrite ready_bits in *. unfold z_mark_thread_as_not_suspended, _THREAD_SUSPENDED.
    rewrite !tbit_reset by lia. apply negb_true_iff in Hready. repeat apply orb_false_iff in Hready as [Hready ?].
    repeat match goal with Hb : tbit _ _ _ = false |- _ => rewrite Hb; clear Hb end. cbn.
    by apply negb_true_iff. }
  unfold z_impl_k_thread_resume. rewrite runq_reschedule. unfold ready_thread. rewrite Hr, runq_update_cache.
  cbn. unfold z_priq_dumb_add. generalize (fun x => z_is_t1_higher_prio_than_t2 t x (z_mark_thread_as_not_suspended t k)).
  intros cond Hnd. revert Hin Hnd. induction (runq k) as [|y ys IH]; [by intros ?%not_elem_of_nil|].
  cbn. destruct (cond y).
  - intros Hin [Hn _]%NoDup_cons. done.
  - intros [->|Hin]%elem_of_cons [Hn Hd]%NoDup_cons; [|by apply IH].
    apply Hn, elem_of_insert_before. by left.
Qed.

Lemma resume_of_ready_thread_duplicates_witness :
  ~ NoDup (runq (z_impl_k_thread_resume 8 example_two)).
Proof.
  apply (resume_of_ready_thread_duplicates 8 example_two example_two_inv); vm_compute;
    (reflexivity || discriminate).
Defined.
