(* ===== verification/Thread.v ===== *)
(** Creating and starting threads ([kernel/thread.c]), on top of the scheduler. *)
From Stdlib Require Import ZArith Lia Bool.
From stdpp Require Import base numbers list gmap relations.
From S2P Require Import Prelude Dlist Timeout Sched.
Open Scope Z_scope.

(** What the scheduler sees of a thread's options is nothing; the timeout of a
    thread not in use is not in the timeout list. *)
Definition z_init_thread_base (priority initial_state : Z) (thread : k_thread) : k_thread :=
  mk_thread (s8 priority) 0 (u8 initial_state) (pended_on thread) (swap_return_value thread) (swap_data thread).

Definition schedule_new_thread (t : Z) (delay : k_timeout_t) (k : kernel) : kernel :=
  if K_TIMEOUT_EQ delay K_NO_WAIT then z_sched_start t k else z_add_thread_timeout t delay k.

(** The thread's stack and entry point are the architecture's. *)
Definition z_impl_k_thread_create (t prio : Z) (delay : k_timeout_t) (k : kernel) : kernel :=
  let k := upd_thread t (z_init_thread_base prio _THREAD_PRESTART) k in
  if negb (K_TIMEOUT_EQ delay K_FOREVER) then schedule_new_thread t delay k else k.

(** A thread object nothing refers to. *)
Record dormant (t : Z) (k : kernel) : Prop := {
  do_runq : t ∉ runq k;
  do_pended : pended_on (threads k t) = None;
  do_timeout : z_is_thread_timeout_active t k = false;
  do_idle : t <> idle_thread k;
  do_current : t <> current k }.

Section create.
Implicit Types (t p x n : Z) (k : kernel).

Definition new_thread t p k : kernel := upd_thread t (z_init_thread_base p _THREAD_PRESTART) k.

Lemma tbit_new t p x n k : 0 <= n < 8 -> tbit x n (new_thread t p k) = if x =? t then n =? 2 else tbit x n k.
Proof.
  intros Hn. unfold tbit. cbn -[Z.testbit]. destruct (Z.eqb_spec x t) as [->|]; [|done].
  cbn -[Z.testbit]. change (u8 _THREAD_PRESTART) with (BIT 2). by rewrite bit_testbit by lia.
Qed.

Lemma wf_new t p k : wf [] k -> dormant t k -> wf [] (new_thread t p k).
Proof.
  intros [H1 H2 H3 H4 H5 H6 H7 H8 H9 H10 H11 H12] [D1 D2 D3 D4 D5].
  assert (Hp : forall x, pended_on (threads (new_thread t p k) x) = pended_on (threads k x))
    by (intros x; cbn; by destruct (Z.eqb_spec x t) as [->|]).
  assert (Hr : forall x, x <> t -> z_is_thread_ready x (new_thread t p k) = z_is_thread_ready x k)
    by (intros x ?%Z.eqb_neq; rewrite !ready_bits, !tbit_new by lia; by case_match).
  assert (Ht : z_is_thread_ready t (new_thread t p k) = false)
    by (rewrite ready_bits, !tbit_new by lia; by rewrite Z.eqb_refl).
  split; try done.
  - eapply sorted_view; [|exact H2]. intros x Hx. cbn. by destruct (Z.eqb_spec x t) as [->|].
  - intros x. rewrite tbit_new by lia. destruct (Z.eqb_spec x t) as [->|]; [|apply H3]. by split.
  - intros x Hx. rewrite Hr by (by intros ->). by apply H4.
  - intros x _ Hi. destruct (decide (x = t)) as [->|]; [by rewrite Ht|]. rewrite Hr by done. apply H5; [set_solver|done].
  - intros w x. rewrite Hp. apply H7.
  - intros x w. rewrite Hp, tbit_new by lia. destruct (Z.eqb_spec x t) as [->|]; [by rewrite D2|apply H8].
  - rewrite Hp. apply H9.
  - intros x. rewrite tbit_new by lia. by destruct (x =? t).
Qed.

Lemma new_choice t p k : dormant t k -> choice_kept k (new_thread t p k).
Proof.
  intros [D1 D2 D3 D4 D5]. split; try done.
  - rewrite !prevented_bits, !tbit_new by lia. by rewrite (proj2 (Z.eqb_neq _ _) (not_eq_sym D5)).
  - unfold is_preempt, preempt. cbn. by rewrite (proj2 (Z.eqb_neq _ _) (not_eq_sym D5)).
Qed.

Lemma inv_new t p k : sched_inv k -> dormant t k -> sched_inv (new_thread t p k).
Proof.
  intros (H&Hc&Hu) Hd. split; [by apply wf_new|].
  split; [by eapply cache_ok_kept; [apply new_choice|]|].
  eapply current_ok_kept; [|exact Hu]. by apply current_kept_same.
Qed.

(** Starting it puts it, ready, into the run queue. *)
Lemma start_new t p k :
  sched_inv k -> dormant t k ->
  let k' := z_sched_start t (new_thread t p k) in
  sched_inv k' /\ t ∈ runq k' /\ prio (threads k' t) = s8 p /\ z_is_thread_timeout_active t k' = false /\
  (forall x, x <> t -> x ∈ runq k' <-> x ∈ runq k).
Proof.
  intros Hk Hd k'. destruct (inv_new t p k Hk Hd) as (Hw&Hc&Hu). pose proof Hd as [D1 D2 D3 D4 D5].
  assert (Hinv : sched_inv k') by (apply inv_start; [by split|done]). split; [done|].
  revert Hinv. unfold k', z_sched_start, z_has_thread_started, z_mark_thread_as_started, _THREAD_PRESTART.
  rewrite state_set_bit, tbit_new by lia. rewrite Z.eqb_refl. cbn [Z.eqb Pos.eqb negb]. intros _.
  set (k1 := z_reset_thread_states t (BIT 2) (new_thread t p k)).
  assert (Hr : z_is_thread_ready t k1 = true).
  { rewrite ready_bits. unfold k1. rewrite !tbit_reset, !tbit_new by lia. rewrite Z.eqb_refl.
    change (z_is_thread_timeout_active t _) with (z_is_thread_timeout_active t k). by rewrite D3. }
  assert (H1 : wf [t] k1) by (apply wf_clear_blocking; [by right; left|done|lia|exact Hw]).
  unfold ready_thread. rewrite Hr. set (k2 := z_mark_thread_as_queued t (_priq_run_add t k1)).
  assert (H2 : wf [] k2) by (by apply wf_enqueue).
  assert (Hv : k2 ≡ z_reschedule (update_cache false k2))
    by (etransitivity; [by eapply update_cache_view|apply reschedule_view]).
  rewrite (ve_runq _ _ Hv), (ve_prio _ _ Hv), (active_view _ _ _ Hv). cbn. unfold z_priq_dumb_add.
  rewrite Z.eqb_refl. split; [apply elem_of_insert_before; by left|]. split; [done|]. split; [done|].
  intros x Hx. rewrite elem_of_insert_before. naive_solver.
Qed.

(** With a delay it gets a timeout instead. *)
Lemma delay_new t p delay k :
  sched_inv k -> dormant t k -> K_TIMEOUT_EQ delay K_FOREVER = false ->
  let k' := z_add_thread_timeout t delay (new_thread t p k) in
  sched_inv k' /\ z_is_thread_timeout_active t k' = true.
Proof.
  intros Hk Hd Hf k'. destruct (inv_new t p k Hk Hd) as (Hw&Hc&Hu). pose proof Hd as [D1 D2 D3 D4 D5].
  assert (Hids : exists d, timeout_list (timeouts k') = insert_timeout (To_thread t) d (timeout_list (timeouts k))).
  { unfold k', z_add_thread_timeout, z_add_timeout. cbn. rewrite Hf. eexists. case_bool_decide; reflexivity. }
  destruct Hids as [d Hids]. split.
  - split; [|split].
    + eapply wf_not_ready; [by apply wf_add_timeout|]. left.
      rewrite ready_bits. change (tbit t 2 k') with (tbit t 2 (new_thread t p k)).
      rewrite tbit_new, Z.eqb_refl by lia. by rewrite orb_true_r.
    + exact Hc.
    + unfold current_ok. rewrite active_elem, Hids, bool_decide_eq_true, insert_timeout_ids, elem_of_cons.
      intros [[= ?]|Hin]; [done|]. apply Hu. by rewrite active_elem, bool_decide_eq_true.
  - rewrite active_elem, Hids. apply bool_decide_eq_true. rewrite insert_timeout_ids. by left.
Qed.
End create.

(** ** Properties *)

(** Creating a thread from an unused object keeps the scheduler's queues
    consistent.  Without a delay the thread is in the run queue with its priority;
    with a delay it is not, but its timeout runs; with [K_FOREVER] neither.  Every
    other thread is in the run queue exactly if it was. *)
Theorem thread_created (t p : Z) (delay : k_timeout_t) (k : kernel) (Hk : sched_inv k) (Hd : dormant t k) :
  let k' := z_impl_k_thread_create t p delay k in
  let now := K_TIMEOUT_EQ delay K_NO_WAIT in
  sched_inv k' /\ prio (threads k' t) = s8 p /\ (t ∈ runq k' <-> now = true) /\
  z_is_thread_timeout_active t k' = negb now && negb (K_TIMEOUT_EQ delay K_FOREVER) /\
  (forall x, x <> t -> x ∈ runq k' <-> x ∈ runq k).
Proof.
  cbn zeta. unfold z_impl_k_thread_create. fold (new_thread t p k). pose proof Hd as [D1 D2 D3 D4 D5].
  assert (Hp : prio (threads (new_thread t p k) t) = s8 p) by (cbn; by rewrite Z.eqb_refl).
  destruct (K_TIMEOUT_EQ delay K_FOREVER) eqn:Ef; cbn [negb].
  - assert (K_TIMEOUT_EQ delay K_NO_WAIT = false) as ->
      by (unfold K_TIMEOUT_EQ in *; apply Z.eqb_eq in Ef; by rewrite Ef).
    split; [by apply inv_new|]. repeat split; try done.
  - unfold schedule_new_thread. destruct (K_TIMEOUT_EQ delay K_NO_WAIT); cbn [negb andb].
    + destruct (start_new t p k Hk Hd) as (S1&S2&S3&S4&S5).
      by do 4 (split; [done|]).
    + destruct (delay_new t p delay k Hk Hd Ef) as [S1 S2]. split; [done|]. repeat split; try done.
Qed.

Lemma thread_created_witness :
  let k := kernel_boot 1 2 (fun _ => 0) in
  let k' := z_impl_k_thread_create 9 5 (mk_timeout 10) k in
  sched_inv k' /\ prio (threads k' 9) = 5 /\ (9 ∈ runq k' <-> false = true) /\
  z_is_thread_timeout_active 9 k' = true /\ (forall x, x <> 9 -> x ∈ runq k' <-> x ∈ runq k).
Proof.
  apply (thread_created 9 5 (mk_timeout 10) (kernel_boot 1 2 (fun _ => 0))); [by apply boot_inv|].
  split; [apply (bool_decide_eq_false _)|..]; vm_compute; done.
Defined.
