(* ===== verification/KObject.v ===== *)
(** What kernel objects (semaphores, message queues, stacks, mutexes) rely on
    from the scheduler: how waking the first waiter and pending the caller act
    on wait queues, return values and swap data, and that both keep the
    scheduler's invariant. *)
From Stdlib Require Import ZArith Lia Bool.
From stdpp Require Import base numbers list sets sorting.
From S2P Require Import Prelude Dlist Timeout Sched.
Open Scope Z_scope.

(** A call to a kernel object either returns a value or leaves the caller pended;
    the pended call returns what its waker stored as return value. *)
Inductive call := Ret (r : Z) | Pended.

Section object_view.
Implicit Types (t w : Z) (k : kernel).

Definition retval t k : Z := swap_return_value (threads k t).
Definition tdata t k : Z := swap_data (threads k t).

(** The scheduler moved threads around, but no object can tell. *)
Record objects_kept k k' : Prop := {
  ok_waitqs : forall w, waitqs k' w = waitqs k w;
  ok_retval : forall t, retval t k' = retval t k;
  ok_data : forall t, tdata t k' = tdata t k;
  ok_current : current k' = current k;
  ok_isr : in_isr k' = in_isr k }.

Lemma objects_kept_refl k : objects_kept k k.
Proof. by split. Qed.

Lemma objects_kept_trans k1 k2 k3 : objects_kept k1 k2 -> objects_kept k2 k3 -> objects_kept k1 k3.
Proof. intros [] []. split; intros; etrans; eauto. Qed.

Lemma upd_thread_objects t f k :
  swap_return_value (f (threads k t)) = swap_return_value (threads k t) ->
  swap_data (f (threads k t)) = swap_data (threads k t) -> objects_kept k (upd_thread t f k).
Proof.
  intros Hr Hd. split; try done; intros x; unfold retval, tdata; cbn;
    by destruct (Z.eqb_spec x t) as [->|].
Qed.

Lemma update_cache_objects ex b k : wf ex k -> objects_kept k (update_cache b k).
Proof.
  intros H. unfold update_cache. rewrite next_up_alive by apply H.
  destruct (should_preempt _ _ _); [|by split]. destruct (negb _); [|by split].
  unfold z_reset_time_slice. by destruct (nz _).
Qed.

Lemma ready_objects ex t k :
  wf (t :: ex) k -> t ∉ runq k -> t <> idle_thread k -> objects_kept k (ready_thread t k).
Proof.
  intros H Ht Hi. unfold ready_thread. destruct (z_is_thread_ready t k) eqn:E; [|apply objects_kept_refl].
  eapply objects_kept_trans; [|apply (update_cache_objects ex); by apply wf_enqueue].
  apply (objects_kept_trans k (_priq_run_add t k)); [by split|by apply upd_thread_objects].
Qed.

Lemma abort_objects t k : objects_kept k (z_abort_thread_timeout t k).2.
Proof. unfold z_abort_thread_timeout. destruct (z_abort_timeout _ _). by split. Qed.

(** [z_reschedule] from a running thread other than [t]. *)
Lemma reschedule_objects t k :
  t <> current k \/ in_isr k = true ->
  let k' := z_reschedule k in
  (forall w, waitqs k' w = waitqs k w) /\ retval t k' = retval t k /\
  (forall x, tdata x k' = tdata x k) /\ current k' = current k /\ in_isr k' = in_isr k.
Proof.
  intros Ht. unfold z_reschedule, resched. destruct (in_isr k) eqn:Ei; [done|].
  destruct Ht as [Ht|]; [|done]. destruct (need_swap k); [|done]. cbn.
  split; [done|]. split; [|split; [|done]]; unfold retval, tdata; cbn.
  - by destruct (Z.eqb_spec t (current k)).
  - intros x. by destruct (Z.eqb_spec x (current k)) as [->|].
Qed.

(** The first waiter comes off its queue. *)
Lemma unpend_first_spec w k :
  wf [] k ->
  match z_unpend_first_thread w k with
  | (Some t, k') =>
      waitqs k w = t :: waitqs k' w /\ (forall v, v <> w -> waitqs k' v = waitqs k v) /\
      (forall x, retval x k' = retval x k) /\ (forall x, tdata x k' = tdata x k) /\
      current k' = current k /\ in_isr k' = in_isr k /\
      wf [t] k' /\ (t ∉ runq k') /\ t <> idle_thread k' /\ choice_kept k k' /\ current_kept k k'
  | (None, k') => k' = k /\ waitqs k w = []
  end.
Proof.
  intros H. pose proof (wf_unpend_first w k H) as Hw.
  unfold z_unpend_first_thread, z_unpend1_no_timeout, z_find_first_thread_to_unpend, z_priq_dumb_best in *.
  destruct (head (waitqs k w)) as [t|] eqn:Hh; [|done]. unfold z_unpend_thread_no_timeout in *.
  destruct Hw as (Hw&Hn&Hi&_). destruct (waiting_thread w t k H Hh) as (Hp&_&_).
  set (k1 := unpend_thread_no_timeout t k) in *. destruct (abort_objects t k1) as [A1 A2 A3 A4 A5].
  assert (Hq : forall v, waitqs k1 v = if v =? w then dlist_remove t (waitqs k w) else waitqs k v)
    by (intros v; unfold k1, unpend_thread_no_timeout; by rewrite Hp).
  assert (Hf : forall x, retval x k1 = retval x k /\ tdata x k1 = tdata x k).
  { intros x. unfold k1, unpend_thread_no_timeout, retval, tdata. rewrite Hp. cbn.
    destruct (Z.eqb_spec x t) as [->|]; rewrite ?Z.eqb_refl; done. }
  split; [|split; [|split; [|split; [|split; [|split; [|split; [done|split; [done|split; [done|split]]]]]]]]].
  - rewrite A1, Hq, Z.eqb_refl. pose proof (wf_wait_nodup _ _ H w) as Hd.
    destruct (waitqs k w) as [|x l]; [done|]. injection Hh as ->. apply NoDup_cons in Hd as [Hd _].
    unfold dlist_remove. rewrite filter_cons_False by tauto. by rewrite filter_absent.
  - intros v Hv. rewrite A1, Hq. by destruct (Z.eqb_spec v w).
  - intros x. rewrite A2. apply Hf.
  - intros x. rewrite A3. apply Hf.
  - rewrite A4. unfold k1, unpend_thread_no_timeout. by destruct (pended_on _).
  - rewrite A5. unfold k1, unpend_thread_no_timeout. by destruct (pended_on _).
  - eapply choice_kept_trans; [apply unpend_choice|apply abort_choice].
  - eapply current_kept_trans; [apply unpend_current|apply abort_current].
    destruct (unpend_same t k) as (_&_&Hto). unfold k1. rewrite Hto. apply H.
Qed.

(** Readying a thread just taken off its queue, with a return value. *)
Lemma give_spec t v k :
  wf [t] k -> t ∉ runq k -> t <> idle_thread k -> cache_ok k -> current_ok k ->
  let k' := z_ready_thread t (arch_thread_return_value_set t v k) in
  sched_inv k' /\ (forall w, waitqs k' w = waitqs k w) /\ retval t k' = v /\
  (forall x, x <> t -> retval x k' = retval x k) /\ (forall x, tdata x k' = tdata x k) /\
  current k' = current k /\ in_isr k' = in_isr k.
Proof.
  intros H Hn Hi Hc Hu k'. set (k1 := arch_thread_return_value_set t v k).
  assert (H1 : wf [t] k1) by (unfold k1, arch_thread_return_value_set; by rewrite <- upd_thread_view).
  assert (Hc1 : cache_ok k1).
  { eapply cache_ok_kept; [|exact Hc]. apply upd_choice; [done|].
    change (preempt (set_retval _ ?th)) with (preempt th). lia. }
  assert (Hu1 : current_ok k1) by (eapply current_ok_kept; [by apply current_kept_same|exact Hu]).
  destruct (ready_objects [] t k1 H1 Hn Hi) as [A1 A2 A3 A4 A5].
  split; [by apply inv_ready|]. split; [done|]. split; [|split; [|split; [|done]]].
  - change k' with (ready_thread t k1). rewrite A2. unfold retval. cbn. by rewrite Z.eqb_refl.
  - intros x Hx. change k' with (ready_thread t k1). rewrite A2. unfold retval. cbn.
    by destruct (Z.eqb_spec x t).
  - intros x. change k' with (ready_thread t k1). rewrite A3. unfold tdata. cbn.
    by destruct (Z.eqb_spec x t) as [->|].
Qed.

(** Waking the first waiter of [w] with a return value, and rescheduling: the
    pattern of every give, put, push and release. *)
Lemma wake_first_spec w v t k k1 :
  sched_inv k -> z_unpend_first_thread w k = (Some t, k1) ->
  t <> current k \/ in_isr k = true ->
  let k' := z_reschedule (z_ready_thread t (arch_thread_return_value_set t v k1)) in
  sched_inv k' /\ waitqs k w = t :: waitqs k' w /\ (forall u, u <> w -> waitqs k' u = waitqs k u) /\
  retval t k' = v /\ (forall x, tdata x k' = tdata x k).
Proof.
  intros (H&Hc&Hu) He Ht k'. pose proof (unpend_first_spec w k H) as Hs. rewrite He in Hs.
  destruct Hs as (S1&S2&S3&S4&S5&S6&S7&S8&S9&S10&S11).
  destruct (give_spec t v k1) as (G1&G2&G3&_&G5&G6&G7);
    [done..|by eapply cache_ok_kept|by eapply current_ok_kept|].
  set (k2 := z_ready_thread t (arch_thread_return_value_set t v k1)) in *.
  destruct (reschedule_objects t k2) as (R1&R2&R3&_); [rewrite G6, G7, S5, S6; done|].
  split; [by apply inv_reschedule|]. split; [unfold k'; by rewrite R1, G2|].
  split; [intros u Hne; unfold k'; rewrite R1, G2; by apply S2|].
  split; [unfold k'; by rewrite R2|]. intros x. unfold k'. by rewrite R3, G5.
Qed.

Lemma unready_objects ex t k : wf ex k -> objects_kept k (unready_thread t k).
Proof.
  intros H. unfold unready_thread. destruct (wf_dequeue_if ex t k H) as [Hw _].
  set (k2 := if z_is_thread_queued t k then _ else _) in *.
  eapply objects_kept_trans; [|by apply (update_cache_objects _ _ _ Hw)].
  unfold k2. destruct (z_is_thread_queued _ _); [|apply objects_kept_refl].
  apply (objects_kept_trans k (_priq_run_remove t k)); [|by apply upd_thread_objects].
  unfold _priq_run_remove. destruct (_ && _); by split.
Qed.

(** The caller waits on [w]. *)
Lemma pend_curr_spec w to k :
  sched_inv k -> z_is_thread_ready (current k) k = true -> current k <> idle_thread k ->
  let k' := z_pend_curr (Some w) to k in
  sched_inv k' /\ waitqs k' w ≡ₚ current k :: waitqs k w /\
  (forall u, u <> w -> waitqs k' u = waitqs k u) /\ retval (current k) k' = - EAGAIN /\
  (forall x, tdata x k' = tdata x k).
Proof.
  intros Hinv Hr Hi k'. pose proof (inv_pend_curr (Some w) to k Hinv Hr Hi) as Hinv'.
  destruct Hinv as (H&_). unfold k', z_pend_curr in *.
  set (k1 := set_pending_current (Some (current k)) k) in *.
  assert (H1 : wf [] k1) by (unfold k1; by rewrite <- (set_pending_current_view (Some (current k)) k)).
  assert (Hk : current k = current k1 /\ waitqs k = waitqs k1 /\ forall x, tdata x k = tdata x k1) by done.
  clearbody k1. destruct Hk as (Hk&Hkw&Hkd). rewrite Hk, Hkw.
  destruct (wf_unready [] (current k1) k1 H1) as [H2 _].
  pose proof (unready_objects [] (current k1) k1 H1) as Hk2.
  destruct Hk2 as [A1 A2 A3 A4 A5]. set (k2 := unready_thread (current k1) k1) in *.
  set (k3 := pend (current k1) (Some w) to k1) in *.
  assert (Hw3 : forall u, waitqs k3 u = if u =? w then
      z_priq_dumb_add (waitqs k1 w) (current k1)
        (upd_thread (current k1) (set_pended_on (Some w)) (z_mark_thread_as_pending (current k1) k2))
      else waitqs k1 u).
  { intros u. unfold k3, pend, add_thread_timeout, add_to_waitq_locked. fold k2.
    destruct (negb _); cbn; rewrite !A1; done. }
  assert (Hd3 : forall x, tdata x k3 = tdata x k1).
  { intros x. unfold k3, pend, add_thread_timeout, add_to_waitq_locked. fold k2. rewrite <- A3.
    unfold tdata. destruct (negb _); cbn; destruct (Z.eqb_spec x (current k1)) as [->|];
      rewrite ?Z.eqb_refl; done. }
  assert (Hc3 : current k3 = current k1).
  { unfold k3, pend, add_thread_timeout, add_to_waitq_locked. fold k2. destruct (negb _); cbn; exact A4. }
  split; [done|]. split; [|split; [|split]]; cbn.
  - rewrite Hw3, Z.eqb_refl. unfold z_priq_dumb_add. generalize (waitqs k1 w) as l.
    induction l as [|y l IH]; cbn; [done|]. destruct (z_is_t1_higher_prio_than_t2 _ _ _); [done|].
    rewrite IH. apply Permutation_swap.
  - intros u Hu. rewrite Hw3. by destruct (Z.eqb_spec u w).
  - unfold retval. cbn. rewrite Hc3, Z.eqb_refl. done.
  - intros x. rewrite Hkd. unfold tdata. cbn. rewrite Hc3.
    destruct (Z.eqb_spec x (current k1)) as [->|]; apply Hd3.
Qed.
End object_view.
