(* ===== verification/Sem.v ===== *)
(** Kernel semaphores ([kernel/sem.c]). *)
From Stdlib Require Import ZArith Lia Bool.
From stdpp Require Import base numbers list sets relations.
From S2P Require Import Prelude Timeout Sched KObject.
Open Scope Z_scope.

Record k_sem := mk_sem { sem_wait_q : Z; count : Z; limit : Z }.

(** A semaphore and the kernel. *)
Record sem_world := mk_sem_world { sem : k_sem; sem_kernel : kernel }.

Section definitions.
Implicit Types (s : sem_world).

Definition set_count (n : Z) (x : k_sem) : k_sem := mk_sem (sem_wait_q x) n (limit x).

(** [k_sem_init]: the wait queue (at address [w]) is emptied too. *)
Definition z_impl_k_sem_init (w initial_count limit : Z) s : Z * sem_world :=
  if (limit =? 0) || (limit <? initial_count) then (- EINVAL, s)
  else (0, mk_sem_world (mk_sem w initial_count limit) (upd_waitq w [] (sem_kernel s))).

Definition z_impl_k_sem_give s : sem_world :=
  let '(x, k) :=
    match z_unpend_first_thread (sem_wait_q (sem s)) (sem_kernel s) with
    | (Some thread, k) =>
        let k := arch_thread_return_value_set thread 0 k in
        (sem s, z_ready_thread thread k)
    | (None, k) =>
        let n := count (sem s) in
        (set_count (u32 (n + (if negb (n =? limit (sem s)) then 1 else 0))) (sem s), k)
    end in
  mk_sem_world x (z_reschedule k).

Definition z_impl_k_sem_take (timeout : k_timeout_t) s : call * sem_world :=
  if 0 <? count (sem s) then (Ret 0, mk_sem_world (set_count (u32 (count (sem s) - 1)) (sem s)) (sem_kernel s))
  else if K_TIMEOUT_EQ timeout K_NO_WAIT then (Ret (- EBUSY), s)
  else (Pended, mk_sem_world (sem s) (z_pend_curr (Some (sem_wait_q (sem s))) timeout (sem_kernel s))).

Definition z_impl_k_sem_reset s : sem_world := mk_sem_world (set_count 0 (sem s)) (sem_kernel s).
Definition z_impl_k_sem_count_get s : Z := count (sem s).
End definitions.

Section semaphore.
Implicit Types (s : sem_world) (k : kernel).

Definition waiters s : list Z := waitqs (sem_kernel s) (sem_wait_q (sem s)).

(** Nobody waits while the count is positive. *)
Record sem_ok s : Prop := {
  so_sched : sched_inv (sem_kernel s);
  so_limit : 0 < limit (sem s) < 2 ^ 32;
  so_count : 0 <= count (sem s) <= limit (sem s);
  so_waiters : 0 < count (sem s) -> waiters s = [] }.

(** Who may call: a giver is not itself waiting on the semaphore, a thread that
    may wait is running and not the idle thread. *)
Definition giver_ok s : Prop := in_isr (sem_kernel s) = true \/ current (sem_kernel s) ∉ waiters s.
Definition taker_ok (timeout : k_timeout_t) s : Prop :=
  K_TIMEOUT_EQ timeout K_NO_WAIT = true \/
  (z_is_thread_ready (current (sem_kernel s)) (sem_kernel s) = true /\
   current (sem_kernel s) <> idle_thread (sem_kernel s)).

Lemma give_waiter t ts s :
  sem_ok s -> giver_ok s -> waiters s = t :: ts ->
  let s' := z_impl_k_sem_give s in
  sem_ok s' /\ sem s' = sem s /\ waiters s' = ts /\ retval t (sem_kernel s') = 0 /\
  (forall u, u <> sem_wait_q (sem s) -> waitqs (sem_kernel s') u = waitqs (sem_kernel s) u).
Proof.
  intros H Hg Hw s'. destruct H as [H1 H2 H3 H4]. pose proof H1 as (Hwf&_).
  pose proof (unpend_first_spec (sem_wait_q (sem s)) (sem_kernel s) Hwf) as Hu.
  assert (Hs : s' = z_impl_k_sem_give s) by done. unfold z_impl_k_sem_give in Hs.
  destruct (z_unpend_first_thread _ _) as [[t'|] k1] eqn:Eu; [|by destruct Hu as [_ E]; unfold waiters in Hw; congruence].
  destruct Hu as (E&_). unfold waiters in Hw. assert (t' = t) as -> by congruence.
  pose proof (wake_first_spec (sem_wait_q (sem s)) 0 t (sem_kernel s) k1 H1 Eu) as W.
  destruct W as (W1&W2&W3&W4&_).
  { destruct Hg as [Hg|Hg]; [by right|left]. intros ->. apply Hg. unfold waiters. rewrite Hw. by left. }
  rewrite Hs. unfold waiters. cbn [sem sem_kernel]. assert (E2 : ts = waitqs (z_reschedule
    (z_ready_thread t (arch_thread_return_value_set t 0 k1))) (sem_wait_q (sem s))) by congruence.
  split; [|done]. split; [done..|]. cbn [sem]. intros Hc. specialize (H4 Hc). unfold waiters in H4. congruence.
Qed.

Lemma give_nobody s :
  sem_ok s -> waiters s = [] ->
  let s' := z_impl_k_sem_give s in
  sem_ok s' /\ waiters s' = [] /\ count (sem s') = Z.min (count (sem s) + 1) (limit (sem s)) /\
  limit (sem s') = limit (sem s) /\ sem_wait_q (sem s') = sem_wait_q (sem s).
Proof.
  intros [H1 H2 H3 H4] Hw s'. pose proof H1 as (Hwf&_).
  pose proof (unpend_first_spec (sem_wait_q (sem s)) (sem_kernel s) Hwf) as Hu.
  assert (Hs : s' = z_impl_k_sem_give s) by done. unfold z_impl_k_sem_give in Hs. unfold waiters in Hw.
  destruct (z_unpend_first_thread _ _) as [[t'|] k1]; [by destruct Hu as (E&_); congruence|].
  destruct Hu as [-> _]. rewrite Hs. unfold waiters. cbn [sem sem_kernel set_count count limit sem_wait_q].
  assert (Hq : waitqs (z_reschedule (sem_kernel s)) (sem_wait_q (sem s)) = [])
    by (by rewrite (ve_waitqs _ _ (reschedule_view (sem_kernel s)))).
  assert (Hc : u32 (count (sem s) + (if negb (count (sem s) =? limit (sem s)) then 1 else 0)) =
               Z.min (count (sem s) + 1) (limit (sem s))).
  { destruct (Z.eqb_spec (count (sem s)) (limit (sem s))); cbn [negb]; rewrite u32_small by lia; lia. }
  rewrite Hc. split; [|done]. split; cbn [sem sem_kernel set_count count limit sem_wait_q]; try done;
    [by apply inv_reschedule|lia].
Qed.

Lemma take_spec timeout s :
  sem_ok s -> taker_ok timeout s ->
  let '(r, s') := z_impl_k_sem_take timeout s in
  sem_ok s' /\ limit (sem s') = limit (sem s) /\ sem_wait_q (sem s') = sem_wait_q (sem s) /\
  if 0 <? count (sem s) then r = Ret 0 /\ count (sem s') = count (sem s) - 1 /\ sem_kernel s' = sem_kernel s
  else if K_TIMEOUT_EQ timeout K_NO_WAIT then r = Ret (- EBUSY) /\ s' = s
  else r = Pended /\ sem s' = sem s /\ waiters s' ≡ₚ current (sem_kernel s) :: waiters s /\
       retval (current (sem_kernel s)) (sem_kernel s') = - EAGAIN.
Proof.
  intros H Ht. pose proof H as [H1 H2 H3 H4]. unfold z_impl_k_sem_take.
  destruct (Z.ltb_spec 0 (count (sem s))) as [Hc|Hc].
  - rewrite u32_small by lia. split; [|done]. split; cbn; [done|done|lia|]. intros _. by apply H4.
  - destruct (K_TIMEOUT_EQ timeout K_NO_WAIT) eqn:E; [done|].
    destruct Ht as [Ht|[Hr Hi]]; [congruence|].
    destruct (pend_curr_spec (sem_wait_q (sem s)) timeout (sem_kernel s) H1 Hr Hi) as (P1&P2&_&P4&_).
    split; [|done]. split; cbn; [done|done|done|lia].
Qed.
End semaphore.

(** ** Tokens *)

(** What a step does with a token: it is stored, handed to a waiter, lost at the
    limit, or taken. *)
Inductive token := Stored | Handed (t : Z) | Lost | Taken | NoToken.

Definition give_token (s : sem_world) : token :=
  match waiters s with
  | t :: _ => Handed t
  | [] => if count (sem s) =? limit (sem s) then Lost else Stored
  end.
Definition take_token (r : call) : token := match r with Ret 0 => Taken | _ => NoToken end.

(** Calls in any order; in between the kernel may do anything that keeps its
    invariant and at most takes waiters off, as timeouts do. *)
Inductive sem_step : sem_world -> token -> sem_world -> Prop :=
| ss_give s : giver_ok s -> sem_step s (give_token s) (z_impl_k_sem_give s)
| ss_take timeout s r s' :
    taker_ok timeout s -> z_impl_k_sem_take timeout s = (r, s') -> sem_step s (take_token r) s'
| ss_kernel k s :
    sched_inv k -> sublist (waitqs k (sem_wait_q (sem s))) (waiters s) ->
    sem_step s NoToken (mk_sem_world (sem s) k).

Inductive sem_run : sem_world -> list token -> sem_world -> Prop :=
| sr_nil s : sem_run s [] s
| sr_cons s e s1 es s2 : sem_step s e s1 -> sem_run s1 es s2 -> sem_run s (e :: es) s2.

Definition given (e : token) : Z := match e with Stored | Handed _ => 1 | _ => 0 end.
Definition received (e : token) : Z := match e with Taken | Handed _ => 1 | _ => 0 end.
Fixpoint total_of (f : token -> Z) (es : list token) : Z :=
  match es with [] => 0 | e :: es => f e + total_of f es end.

Lemma sem_step_tokens s e s' :
  sem_ok s -> sem_step s e s' ->
  sem_ok s' /\ limit (sem s') = limit (sem s) /\ count (sem s') + received e = count (sem s) + given e.
Proof.
  intros H Hs. pose proof H as [H1 H2 H3 H4]. destruct Hs as [s Hg|timeout s r s' Ht He|k s Hk Hw].
  - unfold give_token. destruct (waiters s) as [|t ts] eqn:Ew.
    + destruct (give_nobody s H Ew) as (G1&_&G3&G4&_). rewrite G3, G4. split; [done|]. split; [done|].
      destruct (Z.eqb_spec (count (sem s)) (limit (sem s))); cbn [given received take_token]; lia.
    + destruct (give_waiter t ts s H Hg Ew) as (G1&G2&_). rewrite G2. split; [done|]. split; [done|]. cbn [given received take_token]. lia.
  - pose proof (take_spec timeout s H Ht) as T. rewrite He in T. destruct T as (T1&T2&_&T3).
    split; [done|]. split; [done|]. destruct (0 <? count (sem s)).
    + destruct T3 as (->&->&_). cbn [given received take_token]. lia.
    + destruct (K_TIMEOUT_EQ _ _); [destruct T3 as [-> ->]|destruct T3 as (->&->&_)];
        change (take_token _) with NoToken; cbn [given received take_token]; lia.
  - split; [|cbn; split; [done|lia]]. split; cbn; try done. intros Hc. unfold waiters. cbn.
    rewrite (H4 Hc) in Hw. by apply sublist_nil_r in Hw.
Qed.

(** ** Properties *)

(** Tokens of a semaphore are conserved over any sequence of gives, takes and
    kernel activity: the count plus the tokens received (by takes that returned 0
    and by waiters that were woken) is the initial count plus the tokens given and
    not lost at the limit.  The count stays within the limit and nobody waits
    while it is positive. *)
Theorem sem_conserves_tokens (s s' : sem_world) (es : list token) (Hok : sem_ok s) (Hr : sem_run s es s') :
  sem_ok s' /\ limit (sem s') = limit (sem s) /\
  count (sem s') + total_of received es = count (sem s) + total_of given es.
Proof.
  induction Hr as [s|s e s1 es s2 He _ IH]; [done|].
  destruct (sem_step_tokens s e s1 Hok He) as (S1&S2&S3). destruct (IH S1) as (I1&I2&I3).
  cbn [total_of]. split; [done|]. split; [congruence|lia].
Qed.

(** Each semaphore call: giving hands the token to the waiter in front, which
    returns 0 from its take, or else raises the count up to the limit; taking
    succeeds while the count is positive, else returns [-EBUSY] or makes the
    caller wait, to return [-EAGAIN] unless woken by a give. *)
Theorem sem_give_take_behaviour (timeout : k_timeout_t) (s : sem_world) (Hok : sem_ok s)
    (Hg : giver_ok s) (Ht : taker_ok timeout s) :
  (let s' := z_impl_k_sem_give s in
   match waiters s with
   | t :: ts => sem s' = sem s /\ waiters s' = ts /\ retval t (sem_kernel s') = 0
   | [] => waiters s' = [] /\ count (sem s') = Z.min (count (sem s) + 1) (limit (sem s))
   end) /\
  (let '(r, s') := z_impl_k_sem_take timeout s in
   if 0 <? count (sem s) then r = Ret 0 /\ count (sem s') = count (sem s) - 1 /\ sem_kernel s' = sem_kernel s
   else if K_TIMEOUT_EQ timeout K_NO_WAIT then r = Ret (- EBUSY) /\ s' = s
   else r = Pended /\ sem s' = sem s /\ waiters s' ≡ₚ current (sem_kernel s) :: waiters s /\
        retval (current (sem_kernel s)) (sem_kernel s') = - EAGAIN).
Proof.
  split.
  - destruct (waiters s) as [|t ts] eqn:Ew.
    + destruct (give_nobody s Hok Ew) as (_&?&?&_). done.
    + destruct (give_waiter t ts s Hok Hg Ew) as (_&?&?&?&_). done.
  - pose proof (take_spec timeout s Hok Ht) as T. destruct (z_impl_k_sem_take timeout s) as [r s'].
    by destruct T as (_&_&_&?).
Qed.

(** A semaphore made by [k_sem_init]. *)
Lemma init_sem_ok w n l s :
  sched_inv (sem_kernel s) -> waitqs (sem_kernel s) w = [] -> 0 <= n <= l -> 0 < l < 2 ^ 32 ->
  (z_impl_k_sem_init w n l s).1 = 0 /\ sem_ok (z_impl_k_sem_init w n l s).2.
Proof.
  intros Hk Hw Hn Hl. unfold z_impl_k_sem_init.
  assert ((l =? 0) || (l <? n) = false) as -> by (apply orb_false_iff; lia). split; [done|].
  split; cbn [sem sem_kernel count limit snd]; [|lia|lia|].
  - eapply inv_step; [exact Hk| | |]; [|by split|by apply current_kept_same].
    split; try done. intros u. cbn. destruct (Z.eqb_spec u w) as [->|]; done.
  - intros _. unfold waiters. cbn. by rewrite Z.eqb_refl.
Qed.

(** One giver, two takers: the second take waits and gets the second token. *)
Definition example_sem : sem_world :=
  (z_impl_k_sem_init 300 1 4 (mk_sem_world (mk_sem 0 0 0) (kernel_boot 1 2 (fun _ => 0)))).2.
Definition example_sem1 : sem_world := (z_impl_k_sem_take K_FOREVER example_sem).2.
Definition example_sem2 : sem_world := (z_impl_k_sem_take K_FOREVER example_sem1).2.
Definition example_sem3 : sem_world := mk_sem_world (sem example_sem2) (z_arm_pendsv (sem_kernel example_sem2)).

Lemma example_sem_ok : sem_ok example_sem.
Proof.
  apply (proj2 (init_sem_ok 300 1 4 (mk_sem_world (mk_sem 0 0 0) (kernel_boot 1 2 (fun _ => 0)))
    (boot_inv 1 2 (fun _ => 0) ltac:(done)) eq_refl ltac:(lia) ltac:(lia))).
Qed.

Lemma example_runs : z_is_thread_ready 1 (sem_kernel example_sem) = true /\ 1 <> idle_thread (sem_kernel example_sem).
Proof. by vm_compute. Qed.

Lemma take_result timeout s r :
  (z_impl_k_sem_take timeout s).1 = r -> z_impl_k_sem_take timeout s = (r, (z_impl_k_sem_take timeout s).2).
Proof. intros <-. apply surjective_pairing. Qed.

Lemma example_sem_run :
  sem_run example_sem [Taken; NoToken; NoToken; Handed 1] (z_impl_k_sem_give example_sem3).
Proof.
  assert (K : sched_inv (sem_kernel example_sem3)).
  { apply inv_pendsv. destruct (pend_curr_spec 300 K_FOREVER (sem_kernel example_sem)) as [K _];
      [apply example_sem_ok|apply example_runs..|exact K]. }
  assert (T1 := take_result K_FOREVER example_sem (Ret 0) ltac:(vm_compute; reflexivity)).
  assert (T2 := take_result K_FOREVER example_sem1 Pended ltac:(vm_compute; reflexivity)).
  assert (W : bool_decide (waiters example_sem3 = waiters example_sem2) = true) by (vm_compute; reflexivity).
  apply bool_decide_eq_true in W. assert (E : give_token example_sem3 = Handed 1) by (vm_compute; reflexivity).
  eapply sr_cons; [apply (ss_take K_FOREVER _ (Ret 0) example_sem1); [right; apply example_runs|exact T1]|].
  eapply sr_cons; [apply (ss_take K_FOREVER _ Pended example_sem2); [right; apply example_runs|exact T2]|].
  eapply sr_cons; [apply (ss_kernel (sem_kernel example_sem3) example_sem2 K)|].
  { change (sublist (waiters example_sem3) (waiters example_sem2)). by rewrite W. }
  eapply sr_cons; [rewrite <- E; apply (ss_give example_sem3)|apply sr_nil].
  right. apply (bool_decide_eq_false _). by vm_compute.
Qed.

Lemma sem_conserves_tokens_witness :
  let s' := z_impl_k_sem_give example_sem3 in
  sem_ok s' /\ limit (sem s') = limit (sem example_sem) /\
  count (sem s') + total_of received [Taken; NoToken; NoToken; Handed 1] =
  count (sem example_sem) + total_of given [Taken; NoToken; NoToken; Handed 1].
Proof. apply (sem_conserves_tokens example_sem _ _ example_sem_ok example_sem_run). Defined.

Lemma sem_give_take_behaviour_witness :
  count (sem (z_impl_k_sem_give example_sem)) = 2 /\ (z_impl_k_sem_take K_NO_WAIT example_sem).1 = Ret 0.
Proof.
  pose proof (sem_give_take_behaviour K_NO_WAIT example_sem example_sem_ok) as [G T].
  - right. apply (bool_decide_eq_false _). by vm_compute.
  - by left.
  - split; [apply G|]. destruct (z_impl_k_sem_take K_NO_WAIT example_sem). apply T.
Defined.
