(* ===== verification/Mutex.v ===== *)
(** Kernel mutexes ([kernel/mutex.c]): recursive locks whose owner inherits the priority
    of the threads that wait. *)
From Stdlib Require Import ZArith Lia Bool.
From stdpp Require Import base numbers list sets sorting.
From S2P Require Import Prelude Dlist Timeout Sched KObject.
Open Scope Z_scope.

Definition CONFIG_PRIORITY_CEILING : Z := 0.

Record k_mutex := mk_mutex { mtx_wait_q : Z; owner : option Z; lock_count : Z; owner_orig_prio : Z }.

(** A mutex and the kernel. *)
Record mutex_world := mk_mutex_world { mtx : k_mutex; mtx_kernel : kernel }.

(** A call of lock returns, or waits; the flag is its local variable [resched]. *)
Inductive lock_call := Lock_ret (r : Z) | Lock_waits (resched : bool).
Definition lock_waits {A} (r : option (lock_call * A)) : bool := if r is Some (Lock_waits _, _) then true else false.

Section definitions.
Implicit Types (s : mutex_world) (k : kernel).

Definition z_is_under_prio_ceiling (p : Z) : bool := CONFIG_PRIORITY_CEILING <=? p.
Definition z_get_new_prio_with_ceiling (p : Z) : Z := if z_is_under_prio_ceiling p then p else CONFIG_PRIORITY_CEILING.

Definition new_prio_for_inheritance (target limit : Z) : Z :=
  z_get_new_prio_with_ceiling (if z_is_prio_higher target limit then target else limit).

(** [o] is the owner, which is not [NULL]. *)
Definition adjust_owner_prio (o new_prio : Z) k : bool * kernel :=
  if negb (prio (threads k o) =? new_prio) then z_set_prio o new_prio k else (false, k).

(** [k_mutex_init] of a mutex whose wait queue is at [w]. *)
Definition z_impl_k_mutex_init (w : Z) s : Z * mutex_world :=
  (0, mk_mutex_world (mk_mutex w None 0 (owner_orig_prio (mtx s))) (upd_waitq w [] (mtx_kernel s))).

(** [None] stands for the use of an owner that is [NULL]. *)
Definition z_impl_k_mutex_lock (timeout : k_timeout_t) s : option (lock_call * mutex_world) :=
  let m := mtx s in
  let k := mtx_kernel s in
  let cur := current k in
  if (lock_count m =? 0) || bool_decide (owner m = Some cur) then
    let orig := if lock_count m =? 0 then prio (threads k cur) else owner_orig_prio m in
    Some (Lock_ret 0, mk_mutex_world (mk_mutex (mtx_wait_q m) (Some cur) (u32 (lock_count m + 1)) orig) k)
  else if K_TIMEOUT_EQ timeout K_NO_WAIT then Some (Lock_ret (- EBUSY), s)
  else
    match owner m with
    | None => None
    | Some o =>
        let new_prio := new_prio_for_inheritance (prio (threads k cur)) (prio (threads k o)) in
        let '(resched, k) := if z_is_prio_higher new_prio (prio (threads k o)) then adjust_owner_prio o new_prio k else (false, k) in
        Some (Lock_waits resched, mk_mutex_world m (z_pend_curr (Some (mtx_wait_q m)) timeout k))
    end.

(** The rest of the call, when the thread runs again. *)
Definition mutex_lock_resume (resched : bool) s : option (Z * mutex_world) :=
  let m := mtx s in
  let k := mtx_kernel s in
  if retval (current k) k =? 0 then Some (0, s)
  else
    match owner m with
    | None => None
    | Some o =>
        let new_prio := match z_waitq_head (mtx_wait_q m) k with
                        | Some waiter => new_prio_for_inheritance (prio (threads k waiter)) (owner_orig_prio m)
                        | None => owner_orig_prio m
                        end in
        let '(r, k) := adjust_owner_prio o new_prio k in
        Some (- EAGAIN, mk_mutex_world m (if r || resched then z_reschedule k else k))
    end.

Definition z_impl_k_mutex_unlock s : Z * mutex_world :=
  let m := mtx s in
  match owner m with
  | None => (- EINVAL, s)
  | Some o =>
      if negb (o =? current (mtx_kernel s)) then (- EPERM, s)
      else
        let k := z_sched_lock (mtx_kernel s) in
        let '(m, k) :=
          if negb (u32 (lock_count m - 1) =? 0) then (mk_mutex (mtx_wait_q m) (owner m) (u32 (lock_count m - 1)) (owner_orig_prio m), k)
          else
            let '(_, k) := adjust_owner_prio o (owner_orig_prio m) k in
            match z_unpend_first_thread (mtx_wait_q m) k with
            | (Some new_owner, k) =>
                (mk_mutex (mtx_wait_q m) (Some new_owner) (lock_count m) (prio (threads k new_owner)),
                 z_reschedule (z_ready_thread new_owner (arch_thread_return_value_set new_owner 0 k)))
            | (None, k) => (mk_mutex (mtx_wait_q m) None 0 (owner_orig_prio m), k)
            end in
        (0, mk_mutex_world m (k_sched_unlock k))
  end.
End definitions.

(** ** Priorities *)

Section priorities.
Implicit Types (t : Z) (k : kernel).

Definition prio_of t k : Z := prio (threads k t).
Definition prios_kept k k' : Prop := forall t, prio_of t k' = prio_of t k.

Lemma upd_prios t f k : (forall th, prio (f th) = prio th) -> prios_kept k (upd_thread t f k).
Proof. intros Hf x. unfold prio_of. cbn. destruct (Z.eqb_spec x t) as [->|]; [apply Hf|done]. Qed.

Lemma view_prios k k' : k ≡ k' -> prios_kept k k'.
Proof. intros H x. apply (ve_prio _ _ H). Qed.

Lemma prios_trans k1 k2 k3 : prios_kept k1 k2 -> prios_kept k2 k3 -> prios_kept k1 k3.
Proof. intros H1 H2 x. by rewrite H2. Qed.

Lemma update_cache_prios b k : prios_kept k (update_cache b k).
Proof.
  unfold update_cache, next_up. destruct (pending_abort k).
  - destruct (should_preempt _ _ _); [|done]. destruct (negb _); [|done]. unfold z_reset_time_slice. by destruct (nz _).
  - set (k1 := if z_is_thread_state_set _ _ k then _ else k).
    assert (P1 : prios_kept k k1) by (unfold k1; destruct (z_is_thread_state_set _ _ k); [by apply upd_prios|done]).
    destruct (should_preempt _ _ _); [|exact P1]. destruct (negb _); [|exact P1]. unfold z_reset_time_slice. destruct (nz _); exact P1.
Qed.

Lemma ready_prios t k : prios_kept k (ready_thread t k).
Proof.
  unfold ready_thread. destruct (z_is_thread_ready t k) eqn:E; [|done].
  eapply prios_trans; [|apply update_cache_prios]. apply (upd_prios t _ (_priq_run_add t k)). done.
Qed.

Lemma start_prios t k : prios_kept k (z_sched_start t k).
Proof.
  unfold z_sched_start. destruct (z_has_thread_started t k); [done|].
  eapply (prios_trans _ (z_mark_thread_as_started t k)); [by apply upd_prios|]. eapply prios_trans; [apply ready_prios|apply view_prios, reschedule_view].
Qed.

Lemma ready_idle ex t k : wf (t :: ex) k -> t ∉ runq k -> t <> idle_thread k -> idle_thread (ready_thread t k) = idle_thread k.
Proof.
  intros H Ht Hi. unfold ready_thread. destruct (z_is_thread_ready t k) eqn:E; [|done].
  by rewrite (ve_idle _ _ (update_cache_view false _ ex ltac:(by apply wf_enqueue))).
Qed.

Lemma unpend_prios t k : prios_kept k (unpend_thread_no_timeout t k).
Proof.
  unfold unpend_thread_no_timeout. eapply prios_trans; [|by apply upd_prios]. eapply prios_trans; [|by apply upd_prios]. by destruct (pended_on _).
Qed.

Lemma abort_prios t k : prios_kept k (z_abort_thread_timeout t k).2.
Proof. unfold z_abort_thread_timeout. by destruct (z_abort_timeout _ _). Qed.

Lemma unpend_first_prios w k : prios_kept k (z_unpend_first_thread w k).2.
Proof.
  unfold z_unpend_first_thread, z_unpend1_no_timeout. destruct (z_find_first_thread_to_unpend w k) as [t|]; [|done].
  eapply prios_trans; [apply unpend_prios|apply abort_prios].
Qed.

Lemma unready_prios t k : prios_kept k (unready_thread t k).
Proof.
  unfold unready_thread. eapply prios_trans; [|apply update_cache_prios].
  destruct (z_is_thread_queued _ _); [|done]. eapply prios_trans; [|by apply upd_prios].
  unfold _priq_run_remove. by destruct (_ && _).
Qed.

Lemma dumb_add_ext l t k k' : prios_kept k k' -> z_priq_dumb_add l t k' = z_priq_dumb_add l t k.
Proof.
  intros H. unfold z_priq_dumb_add. induction l as [|x l IH]; [done|]. cbn [insert_before]. rewrite IH.
  change (z_is_t1_higher_prio_than_t2 t x ?K) with (prio_of t K <? prio_of x K). by rewrite !H.
Qed.

(** The queue of a thread that begins to wait. *)
Lemma pend_curr_queue w to k :
  wf [] k -> prios_kept k (z_pend_curr (Some w) to k) /\
  waitqs (z_pend_curr (Some w) to k) w = z_priq_dumb_add (waitqs k w) (current k) k /\
  idle_thread (z_pend_curr (Some w) to k) = idle_thread k.
Proof.
  intros H. unfold z_pend_curr. set (k1 := set_pending_current (Some (current k)) k).
  assert (H1 : wf [] k1) by (unfold k1; by rewrite <- (set_pending_current_view (Some (current k)) k)).
  change (current k) with (current k1). change (waitqs k) with (waitqs k1). rewrite <- (dumb_add_ext _ _ k k1) by done.
  assert (P : prios_kept k1 (pend (current k1) (Some w) to k1) /\ waitqs (pend (current k1) (Some w) to k1) w = z_priq_dumb_add (waitqs k1 w) (current k1) k1 /\
    idle_thread (pend (current k1) (Some w) to k1) = idle_thread k1).
  { unfold pend, add_thread_timeout, add_to_waitq_locked. set (k2 := unready_thread (current k1) k1).
    pose proof (unready_prios (current k1) k1) as P2. pose proof (ok_waitqs _ _ (unready_objects [] (current k1) k1 H1) w) as W2. fold k2 in P2, W2.
    destruct (unready_same [] (current k1) k1 H1) as [I2 _]. fold k2 in I2.
    set (k3 := upd_thread (current k1) (set_pended_on (Some w)) (z_mark_thread_as_pending (current k1) k2)).
    assert (P3 : prios_kept k1 k3) by (eapply prios_trans; [exact P2|]; eapply prios_trans; by apply upd_prios).
    assert (W3 : waitqs k3 w = waitqs k1 w) by exact W2.
    assert (P4 : prios_kept k1 (z_priq_wait_add w (current k1) k3) /\ waitqs (z_priq_wait_add w (current k1) k3) w = z_priq_dumb_add (waitqs k1 w) (current k1) k1 /\
      idle_thread (z_priq_wait_add w (current k1) k3) = idle_thread k1).
    { split; [exact P3|]. split; [|exact I2]. cbn. rewrite Z.eqb_refl, W2. by apply dumb_add_ext. }
    destruct (negb _); exact P4. }
  destruct P as (P1&P2&P3). split; [|split; [exact P2|exact P3]].
  eapply (prios_trans k (pend (current k1) (Some w) to k1)); [exact P1|]. apply view_prios, swap_view.
Qed.

(** The inherited priority. *)
Lemma inherited_prio target limit : new_prio_for_inheritance target limit = Z.max 0 (Z.min target limit).
Proof.
  unfold new_prio_for_inheritance, z_get_new_prio_with_ceiling, z_is_under_prio_ceiling, CONFIG_PRIORITY_CEILING, z_is_prio_higher.
  destruct (Z.ltb_spec target limit); [destruct (Z.leb_spec 0 target)|destruct (Z.leb_spec 0 limit)]; lia.
Qed.

Lemma s8_small p : -128 <= p < 128 -> s8 p = p.
Proof. intros. unfold s8. rewrite Z.mod_small; lia. Qed.

Lemma requeued_wf t p k : wf [] k -> t <> idle_thread k -> z_is_thread_ready t k = true ->
  wf [] (_priq_run_add t (upd_thread t (with_prio p) (_priq_run_remove t k))).
Proof. intros H Hi Hr. apply wf_requeue; [done| |done|by intros]. apply (wf_all_queued _ _ H); [set_solver|done..]. Qed.

(** Changing the priority of the owner, as the objects and the other threads see it. *)
Lemma set_prio_objects t p k : wf [] k -> t <> idle_thread k -> objects_kept k (z_set_prio t p k).2.
Proof.
  intros H Hi. unfold z_set_prio. destruct (z_is_thread_ready t k) eqn:Er; cbn [snd]; [|by apply upd_thread_objects].
  eapply objects_kept_trans; [|apply (update_cache_objects []); by apply requeued_wf].
  eapply (objects_kept_trans _ (upd_thread t (with_prio (s8 p)) (_priq_run_remove t k))); [|by split].
  eapply objects_kept_trans; [|by apply upd_thread_objects]. unfold _priq_run_remove. destruct (_ && _); by split.
Qed.

Lemma set_prio_threads t p k : wf [] k -> t <> idle_thread k ->
  let k' := (z_set_prio t p k).2 in
  (forall x, prio_of x k' = if x =? t then s8 p else prio_of x k) /\ idle_thread k' = idle_thread k /\
  forall x, z_is_thread_ready x k' = z_is_thread_ready x k.
Proof.
  intros H Hi. assert (Hu : forall k0, threads k0 = threads k -> timeouts k0 = timeouts k -> idle_thread k0 = idle_thread k ->
    let k' := upd_thread t (with_prio (s8 p)) k0 in
    (forall x, prio_of x k' = if x =? t then s8 p else prio_of x k) /\ idle_thread k' = idle_thread k /\
    forall x, z_is_thread_ready x k' = z_is_thread_ready x k).
  { intros k0 E1 E2 E3. split; [|split; [done|]]; intros x.
    - unfold prio_of. cbn. rewrite E1. by destruct (Z.eqb_spec x t).
    - unfold z_is_thread_ready, z_is_thread_timeout_active, z_is_thread_prevented_from_running. cbn. rewrite E1, E2.
      by destruct (Z.eqb_spec x t) as [->|]. }
  unfold z_set_prio. destruct (z_is_thread_ready t k) eqn:Er; cbn [snd]; [|by apply Hu].
  pose proof (update_cache_view true _ [] (requeued_wf t (s8 p) k H Hi Er)) as V.
  destruct (Hu (_priq_run_remove t k)) as (U1&U2&U3); [unfold _priq_run_remove; by destruct (_ && _)..|].
  split; [|split].
  - intros x. rewrite (view_prios _ _ V). apply U1.
  - rewrite (ve_idle _ _ V). exact U2.
  - intros x. rewrite (ready_view x _ _ V). apply U3.
Qed.

Lemma adjust_spec o p k : sched_inv k -> o <> idle_thread k -> (o = current k -> z_is_thread_ready o k = true) -> -128 <= p < 128 ->
  let k' := (adjust_owner_prio o p k).2 in
  sched_inv k' /\ objects_kept k k' /\ (forall x, prio_of x k' = if x =? o then p else prio_of x k) /\ idle_thread k' = idle_thread k /\
  (forall x, z_is_thread_ready x k' = z_is_thread_ready x k).
Proof.
  intros H Hi Hc Hp. pose proof H as (Hw&_). unfold adjust_owner_prio. destruct (Z.eqb_spec (prio (threads k o)) p) as [E|E]; cbn [negb snd].
  - split; [done|]. split; [apply objects_kept_refl|]. split; [|done]. intros x. destruct (Z.eqb_spec x o) as [->|]; [exact E|done].
  - split; [by apply inv_set_prio|]. split; [by apply set_prio_objects|].
    pose proof (set_prio_threads o p k Hw Hi) as W. rewrite s8_small in W by done. exact W.
Qed.
End priorities.

(** ** The invariant *)

Lemma update_cache_waitqs b k w : waitqs (update_cache b k) w = waitqs k w.
Proof.
  unfold update_cache, next_up, z_reset_time_slice. destruct (pending_abort k); [|destruct (z_is_thread_state_set _ _ k)];
    destruct (should_preempt _ _ _); try done; destruct (negb _); try done; by destruct (nz _).
Qed.

Lemma adjust_waitqs o p k w : waitqs (adjust_owner_prio o p k).2 w = waitqs k w.
Proof.
  unfold adjust_owner_prio, z_set_prio. destruct (negb _); [|done]. destruct (z_is_thread_ready o k); [|done].
  cbn [snd]. rewrite update_cache_waitqs. cbn. unfold _priq_run_remove. by destruct (_ && _).
Qed.

Section mutex.
(** Whether nothing but the mutex itself changes priorities. *)
Context (calm : bool).
Implicit Types (s : mutex_world) (k : kernel) (t o : Z).

Definition mtx_waiters s : list Z := waitqs (mtx_kernel s) (mtx_wait_q (mtx s)).

(** A mutex without an owner is free and nobody waits; an owner does not wait itself,
    and, if all is calm, has at least the priority of each waiter, up to the ceiling. *)
Record mutex_ok s : Prop := {
  mo_sched : sched_inv (mtx_kernel s);
  mo_prio : forall t, -128 <= prio_of t (mtx_kernel s) < 128;
  mo_owner : match owner (mtx s) with
             | None => lock_count (mtx s) = 0 /\ mtx_waiters s = []
             | Some o =>
                 0 < lock_count (mtx s) < 2 ^ 32 /\ (o ∉ mtx_waiters s) /\ o <> idle_thread (mtx_kernel s) /\
                 -128 <= owner_orig_prio (mtx s) < 128 /\
                 (calm = true -> forall t, t ∈ mtx_waiters s -> prio_of o (mtx_kernel s) <= Z.max 0 (prio_of t (mtx_kernel s)))
             end;
  mo_sorted : calm = true -> StronglySorted (fun a b => prio_of a (mtx_kernel s) <= prio_of b (mtx_kernel s)) (mtx_waiters s) }.

(** A thread that calls is running. *)
Definition caller_ok s : Prop :=
  z_is_thread_ready (current (mtx_kernel s)) (mtx_kernel s) = true /\ current (mtx_kernel s) <> idle_thread (mtx_kernel s).

(** The scheduler works, but the waiters and the priorities are the same. *)
Lemma mutex_ok_kept s m k' :
  mutex_ok s -> mtx_wait_q m = mtx_wait_q (mtx s) -> owner m = owner (mtx s) -> owner_orig_prio m = owner_orig_prio (mtx s) ->
  (match owner m with None => lock_count m = 0 | Some _ => 0 < lock_count m < 2 ^ 32 end) ->
  sched_inv k' -> prios_kept (mtx_kernel s) k' -> waitqs k' (mtx_wait_q m) = mtx_waiters s -> idle_thread k' = idle_thread (mtx_kernel s) ->
  mutex_ok (mk_mutex_world m k').
Proof.
  intros [H1 H2 H3 H4] Ew Eo Ep Hn Hk Hp Hw Hi. unfold mtx_waiters in *. split; unfold mtx_waiters; cbn [mtx mtx_kernel]; rewrite ?Hw.
  - done.
  - intros t. rewrite Hp. apply H2.
  - rewrite <- Eo in H3. destruct (owner m) as [o|]; [|split; [exact Hn|apply H3]]. rewrite Hi, Ep. destruct H3 as (_&H3&H5&H6&H7). do 4 (split; [done|]).
    intros Hc t Ht. rewrite !Hp. by apply H7.
  - intros Hc. eapply sorted_view; [|exact (H4 Hc)]. intros t _. apply Hp.
Qed.

Lemma sched_lock_spec k : sched_inv k -> sched_locked (threads k (current k)) <> 1 -> 0 <= sched_locked (threads k (current k)) < 256 ->
  let k' := z_sched_lock k in sched_inv k' /\ objects_kept k k' /\ prios_kept k k' /\ idle_thread k' = idle_thread k /\
  forall x, z_is_thread_ready x k' = z_is_thread_ready x k.
Proof.
  intros H H1 H2 k'. split; [by apply inv_sched_lock|]. split; [by apply upd_thread_objects|]. split; [by apply upd_prios|]. split; [done|].
  intros x. apply ready_view. by apply upd_thread_view.
Qed.

Lemma sched_unlock_spec k : sched_inv k ->
  let k' := k_sched_unlock k in sched_inv k' /\ (forall w, waitqs k' w = waitqs k w) /\ prios_kept k k' /\ idle_thread k' = idle_thread k /\
  forall x, x <> current k -> retval x k' = retval x k.
Proof.
  intros H k'. split; [by apply inv_sched_unlock|]. pose proof H as (Hw&_).
  unfold k', k_sched_unlock. set (k1 := upd_thread (current k) _ k).
  assert (V1 : k ≡ k1) by (by apply upd_thread_view). assert (H1 : wf [] k1) by (by rewrite <- V1).
  pose proof (update_cache_view false k1 [] H1) as V2. pose proof (reschedule_unlocked_view (update_cache false k1)) as V3.
  assert (V : k ≡ z_reschedule_unlocked (update_cache false k1)) by (etrans; [exact V1|]; etrans; [exact V2|exact V3]).
  split; [apply (ve_waitqs _ _ V)|]. split; [by apply view_prios|]. split; [apply (ve_idle _ _ V)|].
  intros x Hx. destruct (update_cache_objects [] false k1 H1) as [_ A2 _ A4 _].
  assert (E1 : retval x k1 = retval x k) by (apply upd_thread_objects; done).
  rewrite <- E1, <- A2. unfold z_reschedule_unlocked, z_reschedule_irqlock. destruct (resched _); [|done].
  unfold z_swap, retval. cbn. rewrite A4. change (current k1) with (current k). by destruct (Z.eqb_spec x (current k)).
Qed.

Lemma lock_spec timeout s : mutex_ok s -> caller_ok s -> lock_count (mtx s) < 2 ^ 32 - 1 ->
  exists r s', z_impl_k_mutex_lock timeout s = Some (r, s') /\ mutex_ok s' /\
    let cur := current (mtx_kernel s) in
    if (lock_count (mtx s) =? 0) || bool_decide (owner (mtx s) = Some cur)
    then r = Lock_ret 0 /\ owner (mtx s') = Some cur /\ lock_count (mtx s') = lock_count (mtx s) + 1 /\ mtx_kernel s' = mtx_kernel s
    else if K_TIMEOUT_EQ timeout K_NO_WAIT then r = Lock_ret (- EBUSY) /\ s' = s
    else (exists b, r = Lock_waits b) /\ mtx s' = mtx s /\ mtx_waiters s' ≡ₚ cur :: mtx_waiters s /\ retval cur (mtx_kernel s') = - EAGAIN.
Proof.
  intros H [Hr Hi] Hn. pose proof H as [H1 H2 H3 H4]. unfold z_impl_k_mutex_lock. set (m := mtx s) in *. set (k := mtx_kernel s) in *. set (cur := current k) in *.
  destruct ((lock_count m =? 0) || bool_decide (owner m = Some cur)) eqn:E.
  - do 2 eexists. split; [done|]. cbn [mtx mtx_kernel lock_count owner].
    assert (Hc : 0 <= lock_count m) by (destruct (owner m); lia). rewrite u32_small by lia. split; [|done].
    split; unfold mtx_waiters; cbn [mtx mtx_kernel mtx_wait_q owner lock_count owner_orig_prio]; try done. split; [lia|].
    apply orb_true_iff in E as [E%Z.eqb_eq|E%bool_decide_eq_true].
    + rewrite (proj2 (Z.eqb_eq _ _) E). destruct (owner m); [lia|]. destruct H3 as [_ Hw]. unfold mtx_waiters in Hw. fold m k in Hw. rewrite Hw.
      split; [apply not_elem_of_nil|]. split; [done|]. split; [apply H2|]. intros _ t Ht. by apply not_elem_of_nil in Ht.
    + rewrite E in H3. destruct H3 as (?&?&?&?&?). rewrite (proj2 (Z.eqb_neq _ _)) by lia. done.
  - apply orb_false_iff in E as [E1%Z.eqb_neq E2%bool_decide_eq_false]. destruct (K_TIMEOUT_EQ timeout K_NO_WAIT); [by do 2 eexists|].
    destruct (owner m) as [o|] eqn:Eo; [|by destruct H3]. destruct H3 as (Hl&Hno&Hoi&Ho&Hin). assert (Hoc : o <> cur) by congruence.
    set (p := new_prio_for_inheritance _ _). assert (Ep : p = Z.max 0 (Z.min (prio_of cur k) (prio_of o k))) by apply inherited_prio.
    assert (Hp : -128 <= p < 128) by (pose proof (H2 cur); pose proof (H2 o); lia).
    set (adj := if z_is_prio_higher p (prio (threads k o)) then adjust_owner_prio o p k else (false, k)).
    assert (A : sched_inv adj.2 /\ objects_kept k adj.2 /\ (forall x, prio_of x adj.2 = if x =? o then Z.min p (prio_of o k) else prio_of x k) /\
      idle_thread adj.2 = idle_thread k /\ forall x, z_is_thread_ready x adj.2 = z_is_thread_ready x k).
    { unfold adj, z_is_prio_higher. destruct (Z.ltb_spec p (prio (threads k o))) as [Hlt|Hge]; fold (prio_of o k) in *.
      - rewrite Z.min_l by lia. apply adjust_spec; [done|done|by intros ?%Hoc|done].
      - cbn [snd]. split; [done|]. split; [apply objects_kept_refl|]. split; [|done]. intros x. rewrite Z.min_r by lia. by destruct (Z.eqb_spec x o) as [->|]. }
    clearbody adj. destruct adj as [b k1]. cbn [snd] in A. destruct A as (A1&[B1 B2 B3 B4 B5]&A3&A4&A5).
    destruct (pend_curr_spec (mtx_wait_q m) timeout k1 A1) as (P1&P2&P3&P4&_); [rewrite A5, B4; done|rewrite A4, B4; done|].
    destruct (pend_curr_queue (mtx_wait_q m) timeout k1 ltac:(apply A1)) as (Q1&Q2&Q3).
    do 2 eexists. split; [done|]. rewrite B4 in *. fold cur in P2, P4, Q2. rewrite B1 in *.
    split; [|split; [by eexists|done]]. split; unfold mtx_waiters; cbn [mtx mtx_kernel].
    + done.
    + intros t. rewrite Q1, A3. destruct (t =? o); [|apply H2]. pose proof (H2 o). lia.
    + rewrite Eo. split; [done|]. split; [|split; [|split; [done|]]].
      * rewrite P2, elem_of_cons. intros [?|?]; [done|]. by apply Hno.
      * by rewrite Q3, A4.
      * intros Hc t Ht. rewrite P2, elem_of_cons in Ht. rewrite !Q1, !A3, Z.eqb_refl. destruct Ht as [->|Ht].
        -- rewrite (proj2 (Z.eqb_neq cur o)) by done. lia.
        -- rewrite (proj2 (Z.eqb_neq t o)) by (intros ->; done). specialize (Hin Hc t Ht). lia.
    + intros Hc. rewrite Q2. apply (sorted_view k1); [intros t _; apply Q1|]. apply sorted_insert. eapply sorted_view; [|exact (H4 Hc)].
      intros t Ht. change (prio_of t k1 = prio_of t k). rewrite A3. destruct (Z.eqb_spec t o) as [->|]; [by apply Hno in Ht|done].
Qed.

(** The first waiter has the highest priority. *)
Lemma sorted_first k l t : StronglySorted (fun a b => prio_of a k <= prio_of b k) l -> t ∈ l ->
  match head l with Some h => prio_of h k <= prio_of t k | None => False end.
Proof.
  intros Hs Ht. destruct l as [|h l]; [by apply not_elem_of_nil in Ht|]. cbn. apply StronglySorted_inv in Hs as [_ Hf].
  apply elem_of_cons in Ht as [->|Ht]; [done|]. rewrite Forall_forall in Hf. by apply Hf.
Qed.

(** A waiter runs again: it has the mutex, or it gives up and its priority is taken from
    the owner, if there still is one. *)
Lemma resume_spec b s : mutex_ok s -> caller_ok s ->
  let cur := current (mtx_kernel s) in
  match mutex_lock_resume b s with
  | None => retval cur (mtx_kernel s) <> 0 /\ owner (mtx s) = None
  | Some (r, s') => mutex_ok s' /\ mtx s' = mtx s /\ mtx_waiters s' = mtx_waiters s /\
      if retval cur (mtx_kernel s) =? 0 then r = 0 /\ s' = s
      else r = - EAGAIN /\ exists o, owner (mtx s) = Some o /\
        prio_of o (mtx_kernel s') =
        match head (mtx_waiters s) with
        | Some t => Z.max 0 (Z.min (prio_of t (mtx_kernel s)) (owner_orig_prio (mtx s)))
        | None => owner_orig_prio (mtx s)
        end
  end.
Proof.
  intros H [Hr Hi]. pose proof H as [H1 H2 H3 H4]. unfold mutex_lock_resume. set (m := mtx s) in *. set (k := mtx_kernel s) in *.
  destruct (Z.eqb_spec (retval (current k) k) 0); [done|]. destruct (owner m) as [o|] eqn:Eo; [|done]. destruct H3 as (Hl&Hno&Hoi&Ho&Hin).
  set (p := match z_waitq_head (mtx_wait_q m) k with Some waiter => _ | None => _ end).
  assert (Ep : p = match head (mtx_waiters s) with Some t => Z.max 0 (Z.min (prio_of t k) (owner_orig_prio m)) | None => owner_orig_prio m end).
  { unfold p, z_waitq_head, mtx_waiters. fold m k. destruct (head (waitqs k (mtx_wait_q m))); [apply inherited_prio|done]. }
  assert (Hp : -128 <= p < 128) by (rewrite Ep; destruct (head (mtx_waiters s)) as [t|]; [pose proof (H2 t); lia|done]).
  destruct (adjust_spec o p k H1 Hoi ltac:(by intros ->) Hp) as (A1&[B1 B2 B3 B4 B5]&A3&A4&A5).
  destruct (adjust_owner_prio o p k) as [r k1]. cbn [snd] in *.
  assert (V : k1 ≡ (if r || b then z_reschedule k1 else k1)) by (destruct (r || b); [apply reschedule_view|done]).
  set (k2 := if r || b then z_reschedule k1 else k1) in *.
  assert (HP : forall t, prio_of t k2 = if t =? o then p else prio_of t k) by (intros t; rewrite (view_prios _ _ V); apply A3).
  assert (HW : waitqs k2 (mtx_wait_q m) = mtx_waiters s) by (rewrite (ve_waitqs _ _ V); apply B1).
  split; [|split; [done|split; [exact HW|split; [done|exists o; split; [done|]]]]]; [|rewrite <- Ep, HP; cbn; by rewrite Z.eqb_refl].
  assert (HW' : mtx_waiters (mk_mutex_world m k2) = mtx_waiters s) by exact HW.
  split; cbn [mtx mtx_kernel]; rewrite ?HW'.
  - unfold k2. destruct (r || b); [by apply inv_reschedule|done].
  - intros t. rewrite HP. destruct (t =? o); [done|apply H2].
  - rewrite Eo. split; [done|]. split; [done|]. split; [by rewrite (ve_idle _ _ V), A4|]. split; [done|]. intros Hc t Ht. rewrite !HP, Z.eqb_refl.
    rewrite (proj2 (Z.eqb_neq t o)), Ep by (intros ->; done). pose proof (sorted_first _ _ _ (H4 Hc) Ht). destruct (head (mtx_waiters s)); lia.
  - intros Hc. eapply (sorted_view k); [|exact (H4 Hc)]. intros t Ht. change (prio_of t k2 = prio_of t k). rewrite HP.
    destruct (Z.eqb_spec t o) as [->|]; [by apply Hno in Ht|done].
Qed.

(** The owner may lock the scheduler once more. *)
Definition lockable k : Prop := sched_locked (threads k (current k)) <> 1 /\ 0 <= sched_locked (threads k (current k)) < 256.

(** The last unlock: the mutex goes to the first waiter. *)
Lemma hand_over_spec m k : let w := mtx_wait_q m in
  mutex_ok (mk_mutex_world m k) -> owner m = Some (current k) -> z_is_thread_ready (current k) k = true ->
  let k1 := (adjust_owner_prio (current k) (owner_orig_prio m) k).2 in
  let '(m', k') :=
    match z_unpend_first_thread w k1 with
    | (Some t, k2) => (mk_mutex w (Some t) (lock_count m) (prio (threads k2 t)), z_reschedule (z_ready_thread t (arch_thread_return_value_set t 0 k2)))
    | (None, k2) => (mk_mutex w None 0 (owner_orig_prio m), k2)
    end in
  mtx_wait_q m' = w /\ mutex_ok (mk_mutex_world m' k') /\ prio_of (current k) k' = owner_orig_prio m /\ current k' = current k /\
  match waitqs k w with
  | [] => owner m' = None
  | t :: ts => owner m' = Some t /\ lock_count m' = lock_count m /\ waitqs k' w = ts /\ retval t k' = 0
  end.
Proof.
  intros w H Eo Hr. pose proof H as [H1 H2 H3 H4]. cbn [mtx mtx_kernel] in *. unfold mtx_waiters in *. cbn [mtx mtx_kernel] in *. fold w in H3, H4.
  rewrite Eo in H3. destruct H3 as (Hl&Hno&Hoi&Ho&_). set (cur := current k) in *.
  destruct (adjust_spec cur (owner_orig_prio m) k H1 Hoi ltac:(done) Ho) as (A1&[B1 B2 B3 B4 B5]&A3&A4&_).
  set (k1 := (adjust_owner_prio cur (owner_orig_prio m) k).2) in *. cbv zeta.
  pose proof (unpend_first_spec w k1 ltac:(apply A1)) as U. pose proof (unpend_first_prios w k1) as P.
  destruct (z_unpend_first_thread w k1) as [[t|] k2] eqn:Eu; cbn [snd] in P; rewrite B1 in U.
  - destruct U as (U1&U2&U3&U4&U5&U6&U7&U8&U9&U10&U11). rewrite U1 in *. apply not_elem_of_cons in Hno as [Hct Hnt].
    destruct (wake_first_spec w 0 t k1 k2 A1 Eu) as (W1&W2&W3&W4&_); [left; rewrite B4; done|]. rewrite B1, U1 in W2.
    set (k3 := arch_thread_return_value_set t 0 k2) in *. set (k4 := z_reschedule (z_ready_thread t k3)) in *. injection W2 as W2.
    assert (K3 : wf [t] k3) by (unfold k3, arch_thread_return_value_set; by rewrite <- upd_thread_view).
    assert (K4 : prios_kept k1 k4).
    { eapply prios_trans; [exact P|]. eapply (prios_trans _ k3); [by apply upd_prios|].
      eapply prios_trans; [apply ready_prios|apply view_prios, reschedule_view]. }
    assert (K5 : current k4 = current k /\ idle_thread k4 = idle_thread k).
    { unfold k4. split.
      - rewrite (cu_current _ _ (reschedule_current _)). change (z_ready_thread t k3) with (ready_thread t k3).
        rewrite (ok_current _ _ (ready_objects [] t k3 K3 U8 U9)). change (current k3) with (current k2). by rewrite U5.
      - rewrite (ve_idle _ _ (reschedule_view _)). change (z_ready_thread t k3) with (ready_thread t k3).
        rewrite (ready_idle [] t k3 K3 U8 U9). change (idle_thread k3) with (idle_thread k2). by rewrite (ck_idle _ _ U10). }
    assert (HP : forall x, prio_of x k4 = if x =? cur then owner_orig_prio m else prio_of x k) by (intros x; rewrite K4; apply A3).
    pose proof (wf_wait_nodup _ _ (proj1 H1) w) as Hnd. rewrite U1 in Hnd. apply NoDup_cons in Hnd as [Htn _]. rewrite W2 in *.
    assert (Ht : prio (threads k2 t) = prio_of t k).
    { change (prio_of t k2 = prio_of t k). rewrite P, A3. by destruct (Z.eqb_spec t cur). }
    split; [done|]. split; [|split; [rewrite HP; by rewrite Z.eqb_refl|split; [apply K5|done]]].
    split; unfold mtx_waiters; cbn [mtx mtx_kernel owner lock_count owner_orig_prio mtx_wait_q].
    + done.
    + intros x. rewrite HP. destruct (x =? cur); [done|apply H2].
    + split; [done|]. split; [done|]. split; [rewrite (proj2 K5), <- A4, <- (ck_idle _ _ U10); done|]. split; [rewrite Ht; apply H2|].
      intros Hc x Hx. rewrite !HP. rewrite (proj2 (Z.eqb_neq t cur)), (proj2 (Z.eqb_neq x cur)) by congruence.
      apply H4, StronglySorted_inv in Hc as [_ Hf]. rewrite Forall_forall in Hf. specialize (Hf x Hx). lia.
    + intros Hc. apply H4, StronglySorted_inv in Hc as [Hs _]. eapply (sorted_view k); [|exact Hs]. intros x Hx. change (prio_of x k4 = prio_of x k). rewrite HP.
      destruct (Z.eqb_spec x cur); [congruence|done].
  - destruct U as [-> U]. rewrite U. split; [done|]. split; [|split; [by rewrite A3, Z.eqb_refl|done]].
    split; unfold mtx_waiters; cbn [mtx mtx_kernel owner lock_count mtx_wait_q]; rewrite ?B1, ?U; [done| |done|intros _; constructor].
    intros x. rewrite A3. destruct (x =? cur); [done|apply H2].
Qed.

Lemma unlock_spec s : mutex_ok s -> caller_ok s -> lockable (mtx_kernel s) ->
  let cur := current (mtx_kernel s) in
  let '(rc, s') := z_impl_k_mutex_unlock s in
  mutex_ok s' /\
  match owner (mtx s) with
  | None => rc = - EINVAL /\ s' = s
  | Some o =>
      if negb (o =? cur) then rc = - EPERM /\ s' = s
      else rc = 0 /\
        if lock_count (mtx s) =? 1
        then prio_of cur (mtx_kernel s') = owner_orig_prio (mtx s) /\
             match mtx_waiters s with
             | [] => owner (mtx s') = None
             | t :: ts => owner (mtx s') = Some t /\ lock_count (mtx s') = 1 /\ mtx_waiters s' = ts /\ retval t (mtx_kernel s') = 0
             end
        else owner (mtx s') = Some o /\ lock_count (mtx s') = lock_count (mtx s) - 1 /\ mtx_waiters s' = mtx_waiters s
  end.
Proof.
  intros H [Hr Hi] [L1 L2] cur. pose proof H as [H1 H2 H3 H4]. unfold z_impl_k_mutex_unlock. destruct (owner (mtx s)) as [o|] eqn:Eo; [|done].
  fold cur. destruct (Z.eqb_spec o cur) as [->|]; cbn [negb]; [|done]. destruct H3 as (Hl&Hno&Hoi&Ho&Hin).
  destruct (sched_lock_spec (mtx_kernel s) H1 L1 L2) as (S1&[B1 B2 B3 B4 B5]&S3&S4&S5). set (k1 := z_sched_lock (mtx_kernel s)) in *.
  rewrite u32_small by lia. assert (Hcount : (lock_count (mtx s) - 1 =? 0) = (lock_count (mtx s) =? 1)) by (destruct (Z.eqb_spec (lock_count (mtx s) - 1) 0), (Z.eqb_spec (lock_count (mtx s)) 1); done || lia).
  rewrite Hcount. destruct (Z.eqb_spec (lock_count (mtx s)) 1) as [E1|E1]; cbn [negb].
  - assert (Hk1 : mutex_ok (mk_mutex_world (mtx s) k1)).
    { eapply mutex_ok_kept; try done. by rewrite Eo. }
    pose proof (hand_over_spec (mtx s) k1 Hk1) as O. rewrite B4 in O. fold cur in O. specialize (O Eo). rewrite S5 in O. specialize (O Hr). cbv zeta in O.
    destruct (adjust_owner_prio cur (owner_orig_prio (mtx s)) k1) as [r k2]. cbn [snd] in O. rewrite B1 in O. fold (mtx_waiters s) in O.
    set (res := match z_unpend_first_thread _ k2 with (Some _, _) => _ | (None, _) => _ end) in *. clearbody res. destruct res as [m' k3].
    destruct O as (Hq&O1&O2&O3&O4). destruct (sched_unlock_spec k3) as (V1&V2&V3&V4&V5); [apply O1|].
    assert (Hm : mutex_ok (mk_mutex_world m' (k_sched_unlock k3))).
    { eapply (mutex_ok_kept _ m' _ O1); try done. destruct O1 as [_ _ O1 _]. cbn [mtx] in O1. destruct (owner m'); apply O1. }
    split; [done|]. split; [done|]. cbn [mtx mtx_kernel]. split; [by rewrite V3|].
    destruct (mtx_waiters s) as [|t ts] eqn:Ew; [done|]. destruct O4 as (O4&O5&O6&O7). split; [done|]. split; [lia|].
    split; [unfold mtx_waiters; cbn; by rewrite V2, Hq|]. rewrite V5; [done|]. rewrite O3. intros ->. apply Hno. by left.
  - destruct (sched_unlock_spec k1 S1) as (V1&V2&V3&V4&V5). unfold mtx_waiters. cbn [mtx mtx_kernel owner lock_count mtx_wait_q].
    rewrite V2, B1. split; [|done]. eapply mutex_ok_kept; try done; cbn [mtx_wait_q owner lock_count owner_orig_prio].
    + lia.
    + by eapply prios_trans.
Qed.
End mutex.

(** ** Runs *)

(** What the calls amount to for a lock that is held by a thread some number of times. *)
Inductive lock_event := Locks (t : Z) | Releases (t : Z) | Hands (t new : Z) | NoChange.

Definition lock_state : Type := option (Z * Z).
Definition lock_next (l : lock_state) (e : lock_event) : option lock_state :=
  match e, l with
  | Locks t, None => Some (Some (t, 1))
  | Locks t, Some (o, n) => if o =? t then Some (Some (o, n + 1)) else None
  | Releases t, Some (o, n) => if o =? t then Some (if n =? 1 then None else Some (o, n - 1)) else None
  | Hands t new, Some (o, n) => if (o =? t) && (n =? 1) then Some (Some (new, 1)) else None
  | NoChange, _ => Some l
  | _, None => None
  end.
Fixpoint lock_run (l : lock_state) (es : list lock_event) : option lock_state :=
  match es with
  | [] => Some l
  | e :: es => match lock_next l e with Some l => lock_run l es | None => None end
  end.

Definition held (s : mutex_world) : lock_state :=
  match owner (mtx s) with Some o => Some (o, lock_count (mtx s)) | None => None end.

Definition lock_event_of (r : lock_call) (s : mutex_world) : lock_event :=
  match r with Lock_ret 0 => Locks (current (mtx_kernel s)) | _ => NoChange end.
Definition unlock_event_of (rc : Z) (s s' : mutex_world) : lock_event :=
  if rc =? 0 then
    match owner (mtx s') with
    | Some t => if t =? current (mtx_kernel s) then Releases t else Hands (current (mtx_kernel s)) t
    | None => Releases (current (mtx_kernel s))
    end
  else NoChange.

(** Threads that run call in any order; a waiter that was woken or whose time is over
    goes on; in between the kernel may do anything that keeps its invariant and at most
    takes waiters off, as timeouts do.  Priorities may change as well, by calls of
    [k_thread_priority_set] or through other mutexes, unless all is calm. *)
Inductive mutex_step (calm : bool) : mutex_world -> lock_event -> mutex_world -> Prop :=
| ms_lock timeout s r s' :
    caller_ok s -> lock_count (mtx s) < 2 ^ 32 - 1 ->
    z_impl_k_mutex_lock timeout s = Some (r, s') -> mutex_step calm s (lock_event_of r s) s'
| ms_resume resched s r s' :
    caller_ok s -> mutex_lock_resume resched s = Some (r, s') -> mutex_step calm s NoChange s'
| ms_unlock s rc s' :
    caller_ok s -> lockable (mtx_kernel s) ->
    z_impl_k_mutex_unlock s = (rc, s') -> mutex_step calm s (unlock_event_of rc s s') s'
| ms_kernel k s :
    sched_inv k -> (forall t, -128 <= prio_of t k < 128) -> (calm = true -> prios_kept (mtx_kernel s) k) ->
    idle_thread k = idle_thread (mtx_kernel s) ->
    sublist (waitqs k (mtx_wait_q (mtx s))) (mtx_waiters s) ->
    mutex_step calm s NoChange (mk_mutex_world (mtx s) k).

Inductive mutex_run (calm : bool) : mutex_world -> list lock_event -> mutex_world -> Prop :=
| mr_nil s : mutex_run calm s [] s
| mr_cons s e s1 es s2 : mutex_step calm s e s1 -> mutex_run calm s1 es s2 -> mutex_run calm s (e :: es) s2.

Lemma sub_elem (l l' : list Z) x : sublist l l' -> x ∈ l -> x ∈ l'.
Proof. intros Hl Hx. eapply elem_of_submseteq; [exact Hx|]. by apply sublist_submseteq. Qed.

Lemma sorted_sublist (k : kernel) l l' : sublist l l' ->
  StronglySorted (fun a b => prio_of a k <= prio_of b k) l' -> StronglySorted (fun a b => prio_of a k <= prio_of b k) l.
Proof.
  intros Hl. induction Hl as [|x l1 l2 Hl IH|x l1 l2 Hl IH]; intros Hs; [done| |]; apply StronglySorted_inv in Hs as [Hs Hf].
  - constructor; [by apply IH|]. rewrite Forall_forall in Hf |- *. intros y Hy. apply Hf. by eapply sub_elem.
  - by apply IH.
Qed.

Lemma kernel_step_ok calm k s :
  mutex_ok calm s -> sched_inv k -> (forall t, -128 <= prio_of t k < 128) -> (calm = true -> prios_kept (mtx_kernel s) k) ->
  idle_thread k = idle_thread (mtx_kernel s) ->
  sublist (waitqs k (mtx_wait_q (mtx s))) (mtx_waiters s) -> mutex_ok calm (mk_mutex_world (mtx s) k).
Proof.
  intros [H1 H2 H3 H4] Hk Hr Hp Hi Hw. split; cbn [mtx mtx_kernel]; [done|done| |].
  - change (mtx_waiters (mk_mutex_world (mtx s) k)) with (waitqs k (mtx_wait_q (mtx s))). destruct (owner (mtx s)) as [o|].
    + destruct H3 as (?&Hno&?&?&Hin). rewrite Hi. split; [done|]. split; [intros Ho; apply Hno; by eapply sub_elem|]. do 2 (split; [done|]).
      intros Hc t Ht. rewrite !(Hp Hc). apply Hin; [done|]. by eapply sub_elem.
    + destruct H3 as [? E]. rewrite E in Hw. split; [done|]. by apply sublist_nil_r in Hw.
  - intros Hc. eapply sorted_view; [intros t _; apply (Hp Hc)|]. eapply sorted_sublist; [done|by apply H4].
Qed.

Lemma next_none l : lock_next l NoChange = Some l.
Proof. by destruct l as [[]|]. Qed.

Lemma mutex_step_ok calm s e s' : mutex_ok calm s -> mutex_step calm s e s' -> mutex_ok calm s' /\ lock_next (held s) e = Some (held s').
Proof.
  intros H St. destruct St as [timeout s r s' Hc Hn E|b s r s' Hc E|s rc s' Hc Hl E|k s Hk Hq Hp Hi Hw].
  - destruct (lock_spec calm timeout s H Hc Hn) as (r'&s2&E'&Hok&W). rewrite E in E'. injection E' as <- <-. split; [done|].
    cbv zeta in W.
    destruct ((lock_count (mtx s) =? 0) || bool_decide (owner (mtx s) = Some (current (mtx_kernel s)))) eqn:Eb.
    + destruct W as (->&Eo&El&_). change (lock_event_of (Lock_ret 0) s) with (Locks (current (mtx_kernel s))). unfold held. rewrite Eo, El. cbn [lock_next]. destruct H as [_ _ H3 _].
      destruct (owner (mtx s)) as [o|]; [|destruct H3 as [-> _]; done]. rewrite (proj2 (Z.eqb_neq (lock_count (mtx s)) 0)) in Eb by lia.
      cbn [orb] in Eb. apply bool_decide_eq_true in Eb. injection Eb as ->. by rewrite Z.eqb_refl.
    + destruct (K_TIMEOUT_EQ timeout K_NO_WAIT); [destruct W as [-> ->]|destruct W as ([b ->]&Em&_); unfold held; rewrite Em]; apply next_none.
  - pose proof (resume_spec calm b s H Hc) as W. rewrite E in W. destruct W as (Hok&Em&_). split; [done|]. unfold held. rewrite Em. apply next_none.
  - pose proof (unlock_spec calm s H Hc Hl) as W. rewrite E in W. destruct W as [Hok W]. split; [done|].
    destruct H as [_ _ H3 _]. destruct (owner (mtx s)) as [o|] eqn:Eo; [|destruct W as [-> ->]; apply next_none].
    destruct (Z.eqb_spec o (current (mtx_kernel s))) as [->|Ho]; cbn [negb] in W; [|destruct W as [-> ->]; apply next_none].
    destruct W as [-> W]. unfold held, unlock_event_of. rewrite Eo. change (0 =? 0) with true. cbv iota. destruct (Z.eqb_spec (lock_count (mtx s)) 1) as [E1|E1].
    + destruct W as [_ W]. destruct (mtx_waiters s) as [|t ts].
      * rewrite W. cbn [lock_next]. by rewrite E1, Z.eqb_refl.
      * destruct W as (->&->&_). destruct H3 as (_&Hno&_). apply not_elem_of_cons in Hno as [Hne _].
        rewrite (proj2 (Z.eqb_neq t _)) by done. cbn [lock_next]. by rewrite E1, Z.eqb_refl.
    + destruct W as (->&->&_). rewrite Z.eqb_refl. cbn [lock_next]. by rewrite Z.eqb_refl, (proj2 (Z.eqb_neq _ _) E1).
  - split; [by apply kernel_step_ok|]. apply next_none.
Qed.

(** ** Properties *)

(** C32. A mutex is a lock: over any sequence of lock and unlock calls of any threads, of
    waiters that go on and of kernel activity in between, changes of priorities and
    other mutexes included, it is held by one thread at a time, as often as that has
    locked it, and only that thread releases it or hands it over, to a waiter.  If
    nothing but this mutex changes priorities (all is calm), the owner has at least
    the priority of every waiter, up to the ceiling, while it is held. *)
Theorem mutex_excludes (calm : bool) (s s' : mutex_world) (es : list lock_event)
    (Hok : mutex_ok calm s) (Hr : mutex_run calm s es s') :
  mutex_ok calm s' /\ lock_run (held s) es = Some (held s') /\
  (calm = true -> forall o t, owner (mtx s') = Some o -> t ∈ mtx_waiters s' ->
     prio_of o (mtx_kernel s') <= Z.max CONFIG_PRIORITY_CEILING (prio_of t (mtx_kernel s'))).
Proof.
  induction Hr as [s|s e s1 es s2 He _ IH].
  - split; [done|]. split; [done|]. intros Hc o t Eo Ht. destruct Hok as [_ _ H3 _]. rewrite Eo in H3. by apply H3.
  - destruct (mutex_step_ok calm s e s1 Hok He) as [Hok1 E1]. cbn [lock_run]. rewrite E1. by apply IH.
Qed.

(** The calls, one by one: locking takes a free mutex or one's own once more, else it
    returns [-EBUSY] or waits, to return [-EAGAIN] unless woken; unlocking is for the
    owner, and the last time it restores its priority and hands the mutex to the first
    waiter, whose lock returns 0. *)
Theorem mutex_call_behaviour (calm : bool) timeout (s : mutex_world) (Hok : mutex_ok calm s) (Hc : caller_ok s) (Hl : lockable (mtx_kernel s))
    (Hn : lock_count (mtx s) < 2 ^ 32 - 1) :
  let cur := current (mtx_kernel s) in
  (exists r s', z_impl_k_mutex_lock timeout s = Some (r, s') /\ mutex_ok calm s' /\
    if (lock_count (mtx s) =? 0) || bool_decide (owner (mtx s) = Some cur)
    then r = Lock_ret 0 /\ owner (mtx s') = Some cur /\ lock_count (mtx s') = lock_count (mtx s) + 1 /\ mtx_kernel s' = mtx_kernel s
    else if K_TIMEOUT_EQ timeout K_NO_WAIT then r = Lock_ret (- EBUSY) /\ s' = s
    else (exists b, r = Lock_waits b) /\ mtx s' = mtx s /\ mtx_waiters s' ≡ₚ cur :: mtx_waiters s /\ retval cur (mtx_kernel s') = - EAGAIN) /\
  let '(rc, s') := z_impl_k_mutex_unlock s in
  mutex_ok calm s' /\
  match owner (mtx s) with
  | None => rc = - EINVAL /\ s' = s
  | Some o =>
      if negb (o =? cur) then rc = - EPERM /\ s' = s
      else rc = 0 /\
        if lock_count (mtx s) =? 1
        then prio_of cur (mtx_kernel s') = owner_orig_prio (mtx s) /\
             match mtx_waiters s with
             | [] => owner (mtx s') = None
             | t :: ts => owner (mtx s') = Some t /\ lock_count (mtx s') = 1 /\ mtx_waiters s' = ts /\ retval t (mtx_kernel s') = 0
             end
        else owner (mtx s') = Some o /\ lock_count (mtx s') = lock_count (mtx s) - 1 /\ mtx_waiters s' = mtx_waiters s
  end.
Proof. split; [by apply lock_spec|by apply unlock_spec]. Qed.

(** A waiter that gives up takes a cooperative owner its priority away: while another
    thread waits, the owner is set to the ceiling, which is below the priority it had when
    it locked the mutex. *)
Theorem timeout_demotes_owner (b : bool) (s : mutex_world) (o t : Z) (ts : list Z)
    (Hk : sched_inv (mtx_kernel s)) (Hr : retval (current (mtx_kernel s)) (mtx_kernel s) <> 0)
    (Ho : owner (mtx s) = Some o) (Hi : o <> idle_thread (mtx_kernel s)) (Hp : owner_orig_prio (mtx s) < 0) (Hw : mtx_waiters s = t :: ts) :
  exists s', mutex_lock_resume b s = Some (- EAGAIN, s') /\ prio_of o (mtx_kernel s') = CONFIG_PRIORITY_CEILING.
Proof.
  unfold mutex_lock_resume. rewrite (proj2 (Z.eqb_neq _ _) Hr), Ho. change (z_waitq_head _ _) with (head (mtx_waiters s)). rewrite Hw. cbn [head].
  rewrite inherited_prio, Z.max_l by lia. destruct (adjust_owner_prio o 0 (mtx_kernel s)) as [r k'] eqn:E. eexists. split; [done|]. cbn [mtx_kernel].
  assert (P : prio_of o k' = 0).
  { unfold adjust_owner_prio in E. destruct (Z.eqb_spec (prio (threads (mtx_kernel s) o)) 0) as [E0|_]; cbn [negb] in E; [by injection E as _ <-|].
    destruct Hk as [Hk _]. destruct (set_prio_threads o 0 (mtx_kernel s) Hk Hi) as [P _]. rewrite E in P. rewrite P, Z.eqb_refl. done. }
  destruct (r || b); [|done]. by rewrite (view_prios _ _ (reschedule_view _)).
Qed.

(** A mutex made by [k_mutex_init]. *)
Lemma init_mutex_ok w s :
  sched_inv (mtx_kernel s) -> waitqs (mtx_kernel s) w = [] -> (forall t, -128 <= prio_of t (mtx_kernel s) < 128) ->
  forall calm, mutex_ok calm (z_impl_k_mutex_init w s).2.
Proof.
  intros Hk Hw Hp calm. assert (W : mtx_waiters (z_impl_k_mutex_init w s).2 = []) by (unfold mtx_waiters; cbn; by rewrite Z.eqb_refl).
  split; [|exact Hp|done|intros _; rewrite W; constructor]. eapply inv_step; [exact Hk| | |]; [|by split|by apply current_kept_same].
  split; try done. intros u. cbn. destruct (Z.eqb_spec u w) as [->|]; done.
Qed.

(** *** Examples *)

(** Calls one after another, and what the kernel does in between. *)
Definition locks (timeout : k_timeout_t) (s : mutex_world) : mutex_world :=
  match z_impl_k_mutex_lock timeout s with Some (_, s') => s' | None => s end.
Definition meanwhile (ops : list kop) (s : mutex_world) : mutex_world :=
  mk_mutex_world (mtx s) (default (mtx_kernel s) (krun (fun _ k => k) ops (mtx_kernel s))).

(** The main thread, of priority [main], and two threads of priorities 3 and 4. *)
Definition example_mutex (main : Z) : mutex_world :=
  (z_impl_k_mutex_init 400 (mk_mutex_world (mk_mutex 0 None 0 0)
    (kernel_boot 1 2 (fun t => if t =? 1 then main else if t =? 7 then 3 else 4)))).2.

(** The main thread is cooperative and holds the mutex, and sleeps; thread 7 waits for
    three ticks, which are over while the main thread runs again; that unlocks the mutex
    and sleeps; now thread 7 goes on. *)
Definition gave_up0 : mutex_world := meanwhile [K_start 7; K_sleep (mk_timeout 1); K_pendsv] (locks K_FOREVER (example_mutex (-1))).
Definition gave_up1 : mutex_world := meanwhile [K_pendsv; K_tick 10 2; K_pendsv; K_tick 10 4] (locks (mk_timeout 3) gave_up0).
Definition gave_up2 : mutex_world := meanwhile [K_sleep (mk_timeout 5); K_pendsv] (z_impl_k_mutex_unlock gave_up1).2.

(** C33. A waiter that gave up uses a null pointer.  When the owner unlocks a mutex it has
    locked once, and the thread that waited has already been taken off the queue because
    its time was over, the mutex has no owner; whatever the kernel does until that thread
    runs again, as long as nobody locks the mutex before, the rest of its call looks for
    the owner, whose priority it means to restore. *)
Theorem given_up_uses_null_owner (s : mutex_world) (k : kernel) (b : bool)
    (Ho : owner (mtx s) = Some (current (mtx_kernel s))) (Hn : lock_count (mtx s) = 1) (Hw : mtx_waiters s = [])
    (Hgave : retval (current k) k = - EAGAIN) :
  let '(rc, s') := z_impl_k_mutex_unlock s in
  rc = 0 /\ mutex_lock_resume b (mk_mutex_world (mtx s') k) = None.
Proof.
  unfold z_impl_k_mutex_unlock. rewrite Ho, Z.eqb_refl, Hn. change (u32 (1 - 1) =? 0) with true. cbn [negb].
  destruct (adjust_owner_prio _ _ _) as [r k1] eqn:Ea. assert (W : waitqs k1 (mtx_wait_q (mtx s)) = []).
  { rewrite <- Hw. change k1 with (r, k1).2. rewrite <- Ea. apply adjust_waitqs. }
  unfold z_unpend_first_thread, z_unpend1_no_timeout, z_find_first_thread_to_unpend. rewrite W. cbn [z_priq_dumb_best head].
  split; [done|]. unfold mutex_lock_resume. cbn [mtx mtx_kernel owner]. by rewrite Hgave.
Qed.

Lemma given_up_uses_null_owner_witness :
  (current (mtx_kernel gave_up0) = 7 /\ lock_waits (z_impl_k_mutex_lock (mk_timeout 3) gave_up0) = true) /\
  let '(rc, s') := z_impl_k_mutex_unlock gave_up1 in
  rc = 0 /\ mutex_lock_resume false (mk_mutex_world (mtx s') (mtx_kernel gave_up2)) = None.
Proof.
  split; [vm_compute; split; reflexivity|].
  apply (given_up_uses_null_owner gave_up1 (mtx_kernel gave_up2) false); vm_compute; reflexivity.
Defined.

(** Both threads wait for the cooperative owner, and the first gives up. *)
Definition demoted_ops : list kop :=
  [K_start 7; K_start 8; K_sleep (mk_timeout 9); K_pendsv; K_pend (Some 400) (mk_timeout 3); K_pendsv;
   K_pend (Some 400) K_FOREVER; K_pendsv; K_tick 10 4; K_pendsv].
Definition demoted : mutex_world := meanwhile demoted_ops (locks K_FOREVER (example_mutex (-1))).

Lemma example_mutex_ok calm main : -128 <= main < 128 -> mutex_ok calm (example_mutex main).
Proof.
  intros Hm. apply init_mutex_ok; [by apply boot_inv|done|]. intros t. unfold prio_of. cbn.
  destruct (t =? 1); [cbn; lia|]. destruct (t =? 2); [cbn; lia|]. cbn. destruct (t =? 7); lia.
Qed.

Lemma meanwhile_inv ops s : sched_inv (mtx_kernel s) -> sched_inv (mtx_kernel (meanwhile ops s)).
Proof.
  intros H. unfold meanwhile. cbn [mtx_kernel]. destruct (krun _ ops (mtx_kernel s)) as [k|] eqn:E; [|done].
  by apply (krun_inv (fun _ k => k) ltac:(done) ops (mtx_kernel s)).
Qed.

Lemma timeout_demotes_owner_witness :
  owner_orig_prio (mtx demoted) = -1 /\ prio_of 1 (mtx_kernel demoted) = -1 /\
  exists s', mutex_lock_resume false demoted = Some (- EAGAIN, s') /\ prio_of 1 (mtx_kernel s') = CONFIG_PRIORITY_CEILING.
Proof.
  split; [vm_compute; reflexivity|]. split; [vm_compute; reflexivity|].
  apply (timeout_demotes_owner false demoted 1 8 []).
  - unfold demoted. apply meanwhile_inv. apply (example_mutex_ok true (-1)). lia.
  - apply (bool_decide_eq_false _). vm_compute. reflexivity.
  - vm_compute. reflexivity.
  - apply (bool_decide_eq_false _). vm_compute. reflexivity.
  - apply (bool_decide_eq_true _). vm_compute. reflexivity.
  - vm_compute. reflexivity.
Defined.

(** The main thread, of priority 5, holds the mutex when thread 7 is started and waits for
    it, and hands it over. *)
Definition handed0 : mutex_world := locks K_FOREVER (example_mutex 5).
Definition handed1 : mutex_world := mk_mutex_world (mtx handed0) (z_arm_pendsv (z_sched_start 7 (mtx_kernel handed0))).
Definition handed2 : mutex_world := locks K_FOREVER handed1.
Definition handed3 : mutex_world := mk_mutex_world (mtx handed2) (z_arm_pendsv (mtx_kernel handed2)).
Definition handed4 : mutex_world := (z_impl_k_mutex_unlock handed3).2.
Definition handed5 : mutex_world := mk_mutex_world (mtx handed4) (z_arm_pendsv (mtx_kernel handed4)).

Lemma caller_by_test s :
  z_is_thread_ready (current (mtx_kernel s)) (mtx_kernel s) && negb (current (mtx_kernel s) =? idle_thread (mtx_kernel s)) = true -> caller_ok s.
Proof. intros [H1 H2]%andb_true_iff. split; [done|]. by apply Z.eqb_neq, negb_true_iff. Qed.

Lemma locks_step timeout s e : caller_ok s -> lock_count (mtx s) < 2 ^ 32 - 1 ->
  match z_impl_k_mutex_lock timeout s with Some (r, _) => lock_event_of r s = e | None => False end ->
  mutex_step true s e (locks timeout s).
Proof.
  intros Hc Hn He. unfold locks. destruct (z_impl_k_mutex_lock timeout s) as [[r s']|] eqn:E; [|done]. subst e. by apply (ms_lock true timeout).
Qed.

Lemma pendsv_step s : mutex_ok true s -> mutex_step true s NoChange (mk_mutex_world (mtx s) (z_arm_pendsv (mtx_kernel s))).
Proof. intros [H Hp _ _]. apply ms_kernel; [by apply inv_pendsv|exact Hp|done..]. Qed.

Lemma unlock_step s e : caller_ok s -> lockable (mtx_kernel s) ->
  unlock_event_of (z_impl_k_mutex_unlock s).1 s (z_impl_k_mutex_unlock s).2 = e -> mutex_step true s e (z_impl_k_mutex_unlock s).2.
Proof. intros Hc Hl <-. apply ms_unlock; [done..|apply surjective_pairing]. Qed.

Definition handed_events : list lock_event := [Locks 1; NoChange; NoChange; NoChange; Hands 1 7; NoChange; NoChange].

Lemma step_ok s e s' : mutex_ok true s -> mutex_step true s e s' -> mutex_ok true s'.
Proof. intros H He. by apply (mutex_step_ok true s e s' H He). Qed.

Lemma start_step t s : mutex_ok true s -> t <> idle_thread (mtx_kernel s) ->
  idle_thread (z_sched_start t (mtx_kernel s)) = idle_thread (mtx_kernel s) ->
  waitqs (z_sched_start t (mtx_kernel s)) (mtx_wait_q (mtx s)) = mtx_waiters s ->
  mutex_step true s NoChange (mk_mutex_world (mtx s) (z_arm_pendsv (z_sched_start t (mtx_kernel s)))).
Proof.
  intros H Ht Hi Hw. pose proof (start_prios t (mtx_kernel s)) as P. apply ms_kernel; [| |by intros _|exact Hi|].
  - apply inv_pendsv, inv_start; [apply H|done].
  - intros x. change (prio_of x (z_arm_pendsv ?K)) with (prio_of x K). rewrite P. apply H.
  - change (waitqs (z_arm_pendsv ?K)) with (waitqs K). by rewrite Hw.
Qed.

Lemma handed_run : mutex_run true (example_mutex 5) handed_events handed5.
Proof.
  assert (S0 : mutex_step true (example_mutex 5) (Locks 1) handed0).
  { apply locks_step; [by apply caller_by_test; vm_compute|by vm_compute..]. }
  assert (H0 := step_ok _ _ _ (example_mutex_ok true 5 ltac:(lia)) S0).
  assert (S1 : mutex_step true handed0 NoChange handed1).
  { apply (start_step 7 handed0 H0); [apply (bool_decide_eq_false _)|..]; vm_compute; reflexivity. }
  assert (H1 := step_ok _ _ _ H0 S1).
  assert (S2 : mutex_step true handed1 NoChange handed2).
  { apply locks_step; [by apply caller_by_test; vm_compute|by vm_compute..]. }
  assert (H2 := step_ok _ _ _ H1 S2). assert (S3 : mutex_step true handed2 NoChange handed3) by apply (pendsv_step handed2 H2).
  assert (H3 := step_ok _ _ _ H2 S3).
  assert (S4 : mutex_step true handed3 (Hands 1 7) handed4).
  { apply unlock_step; [by apply caller_by_test; vm_compute| |vm_compute; reflexivity].
    split; [apply (bool_decide_eq_false _); by vm_compute|apply (bool_decide_eq_true _); by vm_compute]. }
  assert (H4 := step_ok _ _ _ H3 S4). assert (S5 : mutex_step true handed4 NoChange handed5) by apply (pendsv_step handed4 H4).
  assert (S6 : mutex_step true handed5 NoChange handed5).
  { apply (ms_resume true true _ 0); [by apply caller_by_test; vm_compute|]. unfold mutex_lock_resume.
    assert (R : (retval (current (mtx_kernel handed5)) (mtx_kernel handed5) =? 0) = true) by (vm_compute; reflexivity). by rewrite R. }
  exact (mr_cons _ _ _ _ _ _ S0 (mr_cons _ _ _ _ _ _ S1 (mr_cons _ _ _ _ _ _ S2 (mr_cons _ _ _ _ _ _ S3
    (mr_cons _ _ _ _ _ _ S4 (mr_cons _ _ _ _ _ _ S5 (mr_cons _ _ _ _ _ _ S6 (mr_nil _ _)))))))).
Qed.

Lemma mutex_excludes_witness :
  mutex_ok true handed5 /\ lock_run None handed_events = Some (Some (7, 1)).
Proof.
  destruct (mutex_excludes true (example_mutex 5) handed5 handed_events (example_mutex_ok true 5 ltac:(lia)) handed_run) as (H&E&_).
  split; [exact H|]. vm_compute. reflexivity.
Defined.

Lemma mutex_call_behaviour_witness : (z_impl_k_mutex_unlock (example_mutex 5)).1 = - EINVAL.
Proof.
  destruct (mutex_call_behaviour true K_NO_WAIT (example_mutex 5) (example_mutex_ok true 5 ltac:(lia))) as [_ U].
  - by apply caller_by_test; vm_compute.
  - split; [apply (bool_decide_eq_false _); by vm_compute|apply (bool_decide_eq_true _); by vm_compute].
  - by vm_compute.
  - destruct (z_impl_k_mutex_unlock (example_mutex 5)). apply U.
Defined.
