(* ===== verification/MsgQ.v ===== *)
(** The kernel message queue ([kernel/msg_q.c]).

    The ring buffer is the one of the source: pointers into byte memory that
    wrap at the end of the buffer.  Waiting readers and writers share one wait queue. *)
From Stdlib Require Import ZArith Lia Bool.
From stdpp Require Import base numbers list sets relations.
From S2P Require Import Prelude Timeout Sched KObject.
Open Scope Z_scope.

Definition K_MSGQ_FLAG_ALLOC : Z := BIT 0.

Record k_msgq := mk_msgq {
  wait_q : Z;
  msg_size : Z;
  max_msgs : Z;
  buffer_start : Z;
  buffer_end : Z;
  read_ptr : Z;
  write_ptr : Z;
  used_msgs : Z;
  flags : Z }.

(** A queue, the memory its pointers point into, and the kernel. *)
Record mq_world := mk_world { mq : k_msgq; ram : mem; krn : kernel }.

Section definitions.
Implicit Types (q : k_msgq) (s : mq_world).

Definition set_read p q := mk_msgq (wait_q q) (msg_size q) (max_msgs q) (buffer_start q) (buffer_end q)
  p (write_ptr q) (used_msgs q) (flags q).
Definition set_write p q := mk_msgq (wait_q q) (msg_size q) (max_msgs q) (buffer_start q) (buffer_end q)
  (read_ptr q) p (used_msgs q) (flags q).
Definition set_used n q := mk_msgq (wait_q q) (msg_size q) (max_msgs q) (buffer_start q) (buffer_end q)
  (read_ptr q) (write_ptr q) n (flags q).
Definition set_flags f q := mk_msgq (wait_q q) (msg_size q) (max_msgs q) (buffer_start q) (buffer_end q)
  (read_ptr q) (write_ptr q) (used_msgs q) f.

(** [k_msgq_init]: the wait queue (at address [w]) is emptied too. *)
Definition k_msgq_init (w buffer size max : Z) (m : mem) (k : kernel) : mq_world :=
  mk_world (mk_msgq w size max buffer (buffer + u32 (max * size)) buffer buffer 0 0) m
    (upd_waitq w [] k).

(** [z_thread_malloc]: the allocator is a parameter, [None] when it fails. *)
Definition z_impl_k_msgq_alloc_init (malloc : Z -> option Z) (w size max : Z) s : Z * mq_world :=
  if 2 ^ 32 <=? size * max then (- EINVAL, s)
  else
    match malloc (size * max) with
    | Some buffer =>
        let s := k_msgq_init w buffer size max (ram s) (krn s) in
        (0, mk_world (set_flags K_MSGQ_FLAG_ALLOC (mq s)) (ram s) (krn s))
    | None => (- ENOMEM, s)
    end.

(** [k_msgq_cleanup], with the buffer passed to [k_free], if any. *)
Definition k_msgq_cleanup s : Z * option Z * mq_world :=
  match z_waitq_head (wait_q (mq s)) (krn s) with
  | Some _ => (- EBUSY, None, s)
  | None =>
      if nz (flags (mq s) .& K_MSGQ_FLAG_ALLOC)
      then (0, Some (buffer_start (mq s)),
            mk_world (set_flags (flags (mq s) .& not8 K_MSGQ_FLAG_ALLOC) (mq s)) (ram s) (krn s))
      else (0, None, s)
  end.

(** Moving a pointer to the next slot. *)
Definition advance (p : Z) q : Z :=
  let p := p + msg_size q in if p =? buffer_end q then buffer_start q else p.

(** A message copied in at the write pointer. *)
Definition enqueue (src : Z) (m : mem) q : mem * k_msgq :=
  let m := memcpy (write_ptr q) src (msg_size q) m in
  let q := set_write (advance (write_ptr q) q) q in
  (m, set_used (u32 (used_msgs q + 1)) q).

Definition z_impl_k_msgq_put (data : Z) (timeout : k_timeout_t) s : call * mq_world :=
  let q := mq s in
  if used_msgs q <? max_msgs q then
    match z_unpend_first_thread (wait_q q) (krn s) with
    | (Some pending_thread, k) =>
        let m := memcpy (swap_data (threads k pending_thread)) data (msg_size q) (ram s) in
        let k := arch_thread_return_value_set pending_thread 0 k in
        let k := z_ready_thread pending_thread k in
        (Ret 0, mk_world q m (z_reschedule k))
    | (None, k) =>
        let '(m, q) := enqueue data (ram s) q in (Ret 0, mk_world q m k)
    end
  else if K_TIMEOUT_EQ timeout K_NO_WAIT then (Ret (- ENOMSG), s)
  else
    let k := upd_thread (current (krn s)) (set_swap_data data) (krn s) in
    (Pended, mk_world q (ram s) (z_pend_curr (Some (wait_q q)) timeout k)).

Record k_msgq_attrs := { attr_msg_size : Z; attr_max_msgs : Z; attr_used_msgs : Z }.

Definition z_impl_k_msgq_get_attrs s : k_msgq_attrs :=
  {| attr_msg_size := msg_size (mq s); attr_max_msgs := max_msgs (mq s);
     attr_used_msgs := used_msgs (mq s) |}.

Definition z_impl_k_msgq_get (data : Z) (timeout : k_timeout_t) s : call * mq_world :=
  let q := mq s in
  if 0 <? used_msgs q then
    let m := memcpy data (read_ptr q) (msg_size q) (ram s) in
    let q := set_read (advance (read_ptr q) q) q in
    let q := set_used (u32 (used_msgs q - 1)) q in
    match z_unpend_first_thread (wait_q q) (krn s) with
    | (Some pending_thread, k) =>
        let '(m, q) := enqueue (swap_data (threads k pending_thread)) m q in
        let k := arch_thread_return_value_set pending_thread 0 k in
        let k := z_ready_thread pending_thread k in
        (Ret 0, mk_world q m (z_reschedule k))
    | (None, k) => (Ret 0, mk_world q m k)
    end
  else if K_TIMEOUT_EQ timeout K_NO_WAIT then (Ret (- ENOMSG), s)
  else
    let k := upd_thread (current (krn s)) (set_swap_data data) (krn s) in
    (Pended, mk_world q (ram s) (z_pend_curr (Some (wait_q q)) timeout k)).

Definition z_impl_k_msgq_peek (data : Z) s : Z * mq_world :=
  let q := mq s in
  if 0 <? used_msgs q
  then (0, mk_world q (memcpy data (read_ptr q) (msg_size q) (ram s)) (krn s))
  else (- ENOMSG, s).

(** The wake-up loop of [k_msgq_purge]; each pass takes one thread off the queue. *)
Fixpoint purge_loop (fuel : nat) (w : Z) (k : kernel) : kernel :=
  match fuel with
  | O => k
  | S f =>
      match z_unpend_first_thread w k with
      | (Some t, k) =>
          purge_loop f w (z_ready_thread t (arch_thread_return_value_set t (- ENOMSG) k))
      | (None, k) => k
      end
  end.

Definition z_impl_k_msgq_purge s : mq_world :=
  let k := purge_loop (S (length (waitqs (krn s) (wait_q (mq s))))) (wait_q (mq s)) (krn s) in
  let q := set_used 0 (mq s) in
  let q := set_read (write_ptr q) q in
  mk_world q (ram s) (z_reschedule k).

Definition z_impl_k_msgq_num_free_get s : Z := u32 (max_msgs (mq s) - used_msgs (mq s)).
Definition z_impl_k_msgq_num_used_get s : Z := used_msgs (mq s).
End definitions.

(** ** The messages a ring holds *)

Section ring.
Implicit Types (q : k_msgq) (m : mem).

Definition slot (i : Z) q : Z := buffer_start q + i * msg_size q.

(** The index the read pointer stands at. *)
Definition read_index q : Z := (read_ptr q - buffer_start q) / msg_size q.

Definition msg_at m (j : Z) q : list Z :=
  mem_bytes m (slot ((read_index q + j) mod max_msgs q) q) (msg_size q).

(** The queue of messages, oldest first. *)
Definition messages m q : list (list Z) := (fun j => msg_at m j q) <$> seqZ 0 (used_msgs q).

Record ring_ok q : Prop := {
  rg_size : 0 < msg_size q;
  rg_max : 0 < max_msgs q < 2 ^ 32;
  rg_used : 0 <= used_msgs q <= max_msgs q;
  rg_end : buffer_end q = slot (max_msgs q) q;
  rg_read : exists i, 0 <= i < max_msgs q /\ read_ptr q = slot i q;
  rg_write : write_ptr q = slot ((read_index q + used_msgs q) mod max_msgs q) q }.

(** A message buffer outside the ring. *)
Definition outside (p : Z) q : Prop :=
  disjoint_regions (buffer_start q) (max_msgs q * msg_size q) p (msg_size q).

Lemma read_index_slot i q : 0 < msg_size q -> read_ptr q = slot i q -> read_index q = i.
Proof.
  intros Hs Hr. unfold read_index. rewrite Hr. unfold slot.
  replace (buffer_start q + i * msg_size q - buffer_start q) with (i * msg_size q) by lia.
  apply Z.div_mul. lia.
Qed.

Lemma read_index_range q : ring_ok q -> 0 <= read_index q < max_msgs q /\ read_ptr q = slot (read_index q) q.
Proof.
  intros H. destruct (rg_read _ H) as (i&Hi&Hr). by rewrite (read_index_slot i q) by (done || apply H).
Qed.

Lemma advance_slot i q :
  ring_ok q -> 0 <= i < max_msgs q -> advance (slot i q) q = slot ((i + 1) mod max_msgs q) q.
Proof.
  intros H Hi. unfold advance. rewrite (rg_end _ H). pose proof (rg_size _ H).
  destruct (Z.eqb_spec (slot i q + msg_size q) (slot (max_msgs q) q)) as [Heq|Hne]; unfold slot in *.
  - replace (i + 1) with (max_msgs q) by nia. rewrite Z.mod_same by lia. lia.
  - rewrite Z.mod_small by nia. lia.
Qed.

Lemma slots_apart i j q :
  ring_ok q -> 0 <= i < max_msgs q -> 0 <= j < max_msgs q -> i <> j ->
  disjoint_regions (slot i q) (msg_size q) (slot j q) (msg_size q).
Proof. intros H Hi Hj Hne. pose proof (rg_size _ H). unfold disjoint_regions, slot. nia. Qed.

Lemma slot_outside i p q :
  ring_ok q -> 0 <= i < max_msgs q -> outside p q ->
  disjoint_regions p (msg_size q) (slot i q) (msg_size q).
Proof. intros H Hi Ho. pose proof (rg_size _ H). unfold outside, disjoint_regions, slot in *. nia. Qed.

Lemma mod_range a n : 0 < n -> 0 <= a mod n < n.
Proof. apply Z.mod_pos_bound. Qed.

(** Two of the first [n] ring positions from [r] on are different slots. *)
Lemma ring_positions r i j n :
  0 < n -> 0 <= i < n -> 0 <= j < n -> i <> j -> (r + i) mod n <> (r + j) mod n.
Proof.
  intros Hn Hi Hj Hne Heq.
  assert (Hd : (i - j) mod n = 0).
  { replace (i - j) with ((r + i) - (r + j)) by lia. rewrite Zminus_mod, Heq, Z.sub_diag. apply Z.mod_0_l. lia. }
  apply Z.mod_divide in Hd as [c Hc]; [|lia].
  assert (c = 0) by nia. lia.
Qed.

(** Copying somewhere outside the live messages keeps them. *)
Lemma messages_memcpy dst src m q :
  ring_ok q ->
  (forall j, 0 <= j < used_msgs q ->
     disjoint_regions dst (msg_size q) (slot ((read_index q + j) mod max_msgs q) q) (msg_size q)) ->
  messages (memcpy dst src (msg_size q) m) q = messages m q.
Proof.
  intros H Hd. unfold messages. apply list_fmap_ext. intros i j Hj%list_elem_of_lookup_2.
  apply elem_of_seqZ in Hj. apply mem_bytes_memcpy_other, Hd. lia.
Qed.

Lemma seqZ_snoc n : 0 <= n -> seqZ 0 (n + 1) = seqZ 0 n ++ [n].
Proof. intros. rewrite seqZ_app by lia. by rewrite Z.add_0_l. Qed.

(** [enqueue] appends a message. *)
Lemma enqueue_spec src m q :
  ring_ok q -> used_msgs q < max_msgs q ->
  let '(m', q') := enqueue src m q in
  ring_ok q' /\ messages m' q' = messages m q ++ [mem_bytes m src (msg_size q)] /\
  wait_q q' = wait_q q /\ msg_size q' = msg_size q /\ max_msgs q' = max_msgs q /\
  buffer_start q' = buffer_start q /\ used_msgs q' = used_msgs q + 1.
Proof.
  intros H Hu. unfold enqueue. set (m' := memcpy (write_ptr q) src (msg_size q) m).
  set (q' := set_used _ _).
  destruct H as [Hs Hm Hus He Hrd Hw]. pose proof (mod_range (read_index q + used_msgs q) (max_msgs q)).
  assert (Hok : ring_ok q) by (by split).
  assert (Hused : used_msgs q' = used_msgs q + 1) by (cbn; apply u32_small; lia).
  split; [|split; [|done]].
  - split; try done.
    + rewrite Hused. cbn. lia.
    + cbn -[read_index]. rewrite (u32_small (used_msgs q + 1)) by lia. rewrite Hw at 1.
      change (read_index q') with (read_index q).
      change (advance (slot ((read_index q + used_msgs q) mod max_msgs q) q) q =
              slot ((read_index q + (used_msgs q + 1)) mod max_msgs q) q).
      rewrite advance_slot by (done || lia). f_equal.
      rewrite Z.add_mod_idemp_l by lia. f_equal. lia.
  - unfold messages at 1. rewrite Hused, seqZ_snoc, fmap_app by lia. f_equal.
    + transitivity (messages m' q); [done|]. apply messages_memcpy; [done|]. intros j Hj. rewrite Hw.
      apply slots_apart; [done|lia|apply mod_range; lia|]. apply ring_positions; lia.
    + cbn [fmap list_fmap]. f_equal. unfold msg_at. change (read_index q') with (read_index q).
      change (slot ((read_index q + used_msgs q) mod max_msgs q') q') with
        (slot ((read_index q + used_msgs q) mod max_msgs q) q). rewrite <- Hw.
      apply mem_bytes_memcpy_same.
Qed.
End ring.

Section dequeue.
Implicit Types (q : k_msgq) (m : mem).

(** The queue after its first message has been taken. *)
Definition drop_first q : k_msgq :=
  let q := set_read (advance (read_ptr q) q) q in set_used (u32 (used_msgs q - 1)) q.

Lemma seqZ_head n : 0 < n -> seqZ 0 n = 0 :: (Z.succ <$> seqZ 0 (n - 1)).
Proof.
  intros Hn. rewrite seqZ_cons by lia. f_equal.
  change (Z.succ 0) with (1 + 0). rewrite <- fmap_add_seqZ.
  replace (Z.pred n) with (n - 1) by lia.
  apply list_fmap_ext. intros _ j _. lia.
Qed.

Lemma drop_first_ok q :
  ring_ok q -> 0 < used_msgs q ->
  ring_ok (drop_first q) /\ used_msgs (drop_first q) = used_msgs q - 1 /\
  read_index (drop_first q) = (read_index q + 1) mod max_msgs q.
Proof.
  intros H Hu. destruct (read_index_range q H) as [Hi Hr]. destruct H as [Hs Hm Hus He Hrd Hw].
  assert (Hok : ring_ok q) by (by split).
  assert (Hused : used_msgs (drop_first q) = used_msgs q - 1) by (cbn; apply u32_small; lia).
  assert (Hrp : read_ptr (drop_first q) = slot ((read_index q + 1) mod max_msgs q) (drop_first q)).
  { cbn [read_ptr drop_first set_used set_read]. rewrite Hr at 1. by rewrite advance_slot. }
  assert (Hix : read_index (drop_first q) = (read_index q + 1) mod max_msgs q)
    by (by apply read_index_slot).
  split; [|done]. split; try done.
  - rewrite Hused. cbn. lia.
  - exists ((read_index q + 1) mod max_msgs q). split; [apply mod_range; cbn; lia|done].
  - rewrite Hix, Hused. change (max_msgs (drop_first q)) with (max_msgs q).
    rewrite Z.add_mod_idemp_l by lia.
    replace (read_index q + 1 + (used_msgs q - 1)) with (read_index q + used_msgs q) by lia. exact Hw.
Qed.

Lemma enqueue_outside p src m q :
  ring_ok q -> outside p q -> mem_bytes (enqueue src m q).1 p (msg_size q) = mem_bytes m p (msg_size q).
Proof.
  intros H Ho. apply mem_bytes_memcpy_other. rewrite (rg_write _ H).
  assert (D : disjoint_regions p (msg_size q) (slot ((read_index q + used_msgs q) mod max_msgs q) q) (msg_size q))
    by (apply slot_outside; [done|apply mod_range, H|done]).
  unfold disjoint_regions in *. lia.
Qed.

(** Taking a message: it arrives at [data], the rest stays queued. *)
Lemma dequeue_spec data m q :
  ring_ok q -> 0 < used_msgs q -> outside data q ->
  let m' := memcpy data (read_ptr q) (msg_size q) m in
  messages m q = mem_bytes m' data (msg_size q) :: messages m' (drop_first q).
Proof.
  intros H Hu Ho m'. destruct (read_index_range q H) as [Hi Hr].
  destruct (drop_first_ok q H Hu) as (_&Hused&Hix).
  assert (Hkeep : messages m' q = messages m q).
  { apply messages_memcpy; [done|]. intros j Hj. apply slot_outside; [done|apply mod_range|done]. apply H. }
  rewrite <- Hkeep. unfold messages at 1. rewrite seqZ_head by done. cbn [fmap list_fmap]. f_equal.
  - unfold msg_at. rewrite Z.add_0_r, Z.mod_small, <- Hr by done.
    unfold m'. rewrite mem_bytes_memcpy_same, mem_bytes_memcpy_other; [done|].
    rewrite Hr. apply slot_outside; done.
  - unfold messages. rewrite Hused. change (list_fmap _ _ ?f ?l) with (f <$> l).
    rewrite <- list_fmap_compose. apply list_fmap_ext.
    intros _ j _. cbn. unfold msg_at. rewrite Hix.
    change (max_msgs (drop_first q)) with (max_msgs q).
    rewrite Z.add_mod_idemp_l by (pose proof (rg_max _ H); lia).
    replace (read_index q + 1 + j) with (read_index q + Z.succ j) by lia. done.
Qed.

Lemma length_messages m q : 0 <= used_msgs q -> Z.of_nat (length (messages m q)) = used_msgs q.
Proof. intros. unfold messages. rewrite length_fmap, length_seqZ. lia. Qed.
End dequeue.

(** ** The queue with its waiters *)

Section waiters.
Implicit Types (s : mq_world) (to : k_timeout_t).

Definition waiters s : list Z := waitqs (krn s) (wait_q (mq s)).
Definition contents s : list (list Z) := messages (ram s) (mq s).

(** Threads wait only at an empty queue (for a message) or at a full one (for
    room), with their buffers outside the ring. *)
Record mq_inv s : Prop := {
  mi_ring : ring_ok (mq s);
  mi_sched : sched_inv (krn s);
  mi_waiting : waiters s <> [] -> used_msgs (mq s) = 0 \/ used_msgs (mq s) = max_msgs (mq s);
  mi_buffers : forall t, t ∈ waiters s -> outside (tdata t (krn s)) (mq s) }.

(** An interrupt may only call without waiting; a thread that calls runs. *)
Definition caller_ok to (k : kernel) : Prop :=
  (in_isr k = true /\ to = K_NO_WAIT) \/
  (z_is_thread_ready (current k) k = true /\ current k <> idle_thread k).

Lemma waiter_not_caller to w t k k' :
  sched_inv k -> caller_ok to k -> z_unpend_first_thread w k = (Some t, k') ->
  t <> current k \/ in_isr k = true.
Proof.
  intros (H&_) [[Hi _]|[Hr _]] He; [by right|left]. intros ->.
  pose proof (unpend_first_spec w k H) as Hs. rewrite He in Hs. destruct Hs as (Hq&_).
  assert (Hp : pended_on (threads k (current k)) = Some w)
    by (apply (wf_wait _ _ H); rewrite Hq; constructor).
  destruct (ready_not_pended _ _ H Hr) as [Hn _]. congruence.
Qed.

(** Blocking with a buffer address. *)
Lemma block_spec data to s :
  mq_inv s -> caller_ok to (krn s) -> K_TIMEOUT_EQ to K_NO_WAIT = false -> outside data (mq s) ->
  used_msgs (mq s) = 0 \/ used_msgs (mq s) = max_msgs (mq s) ->
  let k := upd_thread (current (krn s)) (set_swap_data data) (krn s) in
  let s' := mk_world (mq s) (ram s) (z_pend_curr (Some (wait_q (mq s))) to k) in
  mq_inv s' /\ waiters s' ≡ₚ current (krn s) :: waiters s /\
  tdata (current (krn s)) (krn s') = data /\ retval (current (krn s)) (krn s') = - EAGAIN.
Proof.
  intros [Hring Hsched Hwait Hbuf] Hc Hnw Ho Hu k s'.
  destruct Hc as [[_ ->]|[Hr Hi]]; [done|].
  assert (Hk : sched_inv k).
  { eapply inv_step; [exact Hsched|by apply upd_thread_view| |by apply current_kept_same].
    apply upd_choice; [done|]. change (preempt (set_swap_data _ ?th)) with (preempt th). lia. }
  assert (Hrk : z_is_thread_ready (current k) k = true).
  { rewrite (ready_view _ (krn s) k); [done|]. by apply upd_thread_view. }
  destruct (pend_curr_spec (wait_q (mq s)) to k Hk Hrk Hi) as (P1&P2&_&P4&P5).
  assert (Hd : forall x, tdata x k = if x =? current (krn s) then data else tdata x (krn s)).
  { intros x. unfold tdata. cbn. by destruct (x =? current (krn s)). }
  assert (Hd' : forall x, tdata x (krn s') = if x =? current (krn s) then data else tdata x (krn s))
    by (intros x; cbn [krn s']; by rewrite P5, Hd).
  split; [|split; [exact P2|split; [by rewrite Hd', Z.eqb_refl|exact P4]]].
  split; [done|done|done|]. intros t Ht. rewrite Hd'. destruct (Z.eqb_spec t (current (krn s))); [done|].
  apply Hbuf. change (t ∈ waitqs (z_pend_curr (Some (wait_q (mq s))) to k) (wait_q (mq s))) in Ht.
  rewrite P2, elem_of_cons in Ht. destruct Ht as [->|Ht]; [done|exact Ht].
Qed.

(** Waking the first waiter after the ring changed from [mq s] to [q]. *)
Lemma wake_spec to q m s t k1 :
  mq_inv s -> caller_ok to (krn s) -> z_unpend_first_thread (wait_q (mq s)) (krn s) = (Some t, k1) ->
  ring_ok q -> wait_q q = wait_q (mq s) -> msg_size q = msg_size (mq s) ->
  max_msgs q = max_msgs (mq s) -> buffer_start q = buffer_start (mq s) -> used_msgs q = used_msgs (mq s) ->
  let k' := z_reschedule (z_ready_thread t (arch_thread_return_value_set t 0 k1)) in
  mq_inv (mk_world q m k') /\ waiters s = t :: waiters (mk_world q m k') /\
  retval t k' = 0 /\ swap_data (threads k1 t) = tdata t (krn s).
Proof.
  intros [Hring Hsched Hwait Hbuf] Hc He Hq Ew Es Em Eb Eu k'.
  pose proof (waiter_not_caller to _ _ _ _ Hsched Hc He) as Ht.
  destruct (wake_first_spec (wait_q (mq s)) 0 t (krn s) k1 Hsched He Ht) as (W1&W2&_&W4&W5).
  assert (Hws : waiters s = t :: waiters (mk_world q m k')) by (unfold waiters; cbn [mq krn]; by rewrite Ew).
  split; [|split; [done|split; [exact W4|]]].
  - split; [done|exact W1| |].
    + intros _. cbn [mq]. rewrite Eu, Em. apply Hwait. by rewrite Hws.
    + intros x Hx. cbn [mq krn]. unfold k'. rewrite W5. unfold outside. rewrite Es, Em, Eb.
      apply Hbuf. rewrite Hws. by right.
  - pose proof (unpend_first_spec (wait_q (mq s)) (krn s) (proj1 Hsched)) as Hs. rewrite He in Hs.
    apply Hs.
Qed.

Lemma unpend_none s k :
  mq_inv s -> z_unpend_first_thread (wait_q (mq s)) (krn s) = (None, k) -> k = krn s /\ waiters s = [].
Proof.
  intros H He. pose proof (unpend_first_spec (wait_q (mq s)) (krn s) (proj1 (mi_sched _ H))) as Hs.
  by rewrite He in Hs.
Qed.

Lemma idle_queue_inv q m s :
  mq_inv s -> waiters s = [] -> ring_ok q -> wait_q q = wait_q (mq s) -> mq_inv (mk_world q m (krn s)).
Proof.
  intros H Hw Hq Ew. assert (waiters (mk_world q m (krn s)) = []) as Hn by (unfold waiters; cbn; by rewrite Ew).
  split; [done|apply H|done|]. intros t. by rewrite Hn, elem_of_nil.
Qed.
End waiters.

(** ** What [k_msgq_put] and [k_msgq_get] do *)

Section behaviour.
Implicit Types (s : mq_world) (to : k_timeout_t).

(** The four ways [k_msgq_put] ends: the message goes to a waiting reader, to
    the end of the queue, is refused, or waits with its sender. *)
Definition put_outcome (data : Z) to s (res : call * mq_world) : Prop :=
  let '(r, s') := res in
  let msg := mem_bytes (ram s) data (msg_size (mq s)) in
  if used_msgs (mq s) <? max_msgs (mq s) then
    r = Ret 0 /\
    match waiters s with
    | [] => contents s' = contents s ++ [msg] /\ waiters s' = [] /\
            forall x, outside x (mq s) ->
              mem_bytes (ram s') x (msg_size (mq s)) = mem_bytes (ram s) x (msg_size (mq s))
    | t :: ws => contents s' = contents s /\ waiters s' = ws /\ retval t (krn s') = 0 /\
                 mem_bytes (ram s') (tdata t (krn s)) (msg_size (mq s)) = msg
    end
  else if K_TIMEOUT_EQ to K_NO_WAIT then r = Ret (- ENOMSG) /\ s' = s
  else r = Pended /\ contents s' = contents s /\ waiters s' ≡ₚ current (krn s) :: waiters s /\
       tdata (current (krn s)) (krn s') = data.

(** [k_msgq_get]: the first message is delivered, and the first waiting
    sender's message takes the freed slot. *)
Definition get_outcome (data : Z) to s (res : call * mq_world) : Prop :=
  let '(r, s') := res in
  match contents s with
  | msg :: rest =>
      r = Ret 0 /\ mem_bytes (ram s') data (msg_size (mq s)) = msg /\
      match waiters s with
      | [] => contents s' = rest /\ waiters s' = []
      | t :: ws =>
          waiters s' = ws /\ retval t (krn s') = 0 /\
          (disjoint_regions data (msg_size (mq s)) (tdata t (krn s)) (msg_size (mq s)) ->
           contents s' = rest ++ [mem_bytes (ram s) (tdata t (krn s)) (msg_size (mq s))])
      end
  | [] =>
      if K_TIMEOUT_EQ to K_NO_WAIT then r = Ret (- ENOMSG) /\ s' = s
      else r = Pended /\ contents s' = [] /\ waiters s' ≡ₚ current (krn s) :: waiters s /\
           tdata (current (krn s)) (krn s') = data
  end.

(** [k_msgq_peek]: only the caller's buffer changes. *)
Definition peek_outcome (data : Z) s (res : Z * mq_world) : Prop :=
  let '(r, s') := res in
  mq s' = mq s /\ krn s' = krn s /\ contents s' = contents s /\
  match contents s with
  | msg :: _ => r = 0 /\ mem_bytes (ram s') data (msg_size (mq s)) = msg
  | [] => r = - ENOMSG /\ s' = s
  end.

Lemma put_spec data to s :
  mq_inv s -> caller_ok to (krn s) -> outside data (mq s) ->
  put_outcome data to s (z_impl_k_msgq_put data to s) /\ mq_inv (z_impl_k_msgq_put data to s).2.
Proof.
  intros H Hc Ho. unfold z_impl_k_msgq_put, put_outcome. pose proof (mi_ring _ H) as Hring.
  destruct (Z.ltb_spec (used_msgs (mq s)) (max_msgs (mq s))) as [Hlt|Hge].
  - destruct (z_unpend_first_thread _ _) as [[t|] k1] eqn:He.
    + destruct (wake_spec to (mq s) (memcpy (tdata t (krn s)) data (msg_size (mq s)) (ram s)) s t k1)
        as (W1&W2&W3&W4); [done..|].
      rewrite W4. split; [|exact W1]. split; [done|]. rewrite W2.
      split; [|split; [done|split; [exact W3|apply mem_bytes_memcpy_same]]].
      apply messages_memcpy; [done|]. intros j Hj. apply slot_outside; [done|apply mod_range, Hring|].
      apply (mi_buffers _ H). rewrite W2. constructor.
    + destruct (unpend_none s k1 H He) as [-> Hw].
      pose proof (enqueue_spec data (ram s) (mq s) Hring Hlt) as Hen.
      destruct (enqueue _ _ _) as [m' q'] eqn:Een. destruct Hen as (E1&E2&E3&_).
      rewrite Hw. split; [|by apply idle_queue_inv]. split; [done|]. split; [exact E2|]. split.
      * unfold waiters in *. cbn [mq krn]. by rewrite E3.
      * intros x Hx. pose proof (enqueue_outside x data (ram s) (mq s) Hring Hx) as Hk. by rewrite Een in Hk.
  - destruct (K_TIMEOUT_EQ to K_NO_WAIT) eqn:Hnw; [done|].
    assert (used_msgs (mq s) = max_msgs (mq s)) as Hfull by (pose proof (rg_used _ Hring); lia).
    destruct (block_spec data to s H Hc Hnw Ho (or_intror Hfull)) as (B1&B2&B3&_).
    split; [|exact B1]. done.
Qed.

Lemma get_spec data to s :
  mq_inv s -> caller_ok to (krn s) -> outside data (mq s) ->
  get_outcome data to s (z_impl_k_msgq_get data to s) /\ mq_inv (z_impl_k_msgq_get data to s).2.
Proof.
  intros H Hc Ho. unfold z_impl_k_msgq_get, get_outcome. pose proof (mi_ring _ H) as Hring.
  destruct (Z.ltb_spec 0 (used_msgs (mq s))) as [Hlt|Hge].
  - destruct (drop_first_ok (mq s) Hring Hlt) as (D1&D2&_).
    unfold contents at 1. rewrite (dequeue_spec data (ram s) (mq s) Hring Hlt Ho).
    fold (drop_first (mq s)). set (m' := memcpy data _ _ _). change (wait_q (drop_first _)) with (wait_q (mq s)).
    destruct (z_unpend_first_thread _ _) as [[t|] k1] eqn:He.
    + assert (Hws : exists ws, waiters s = t :: ws).
      { pose proof (unpend_first_spec (wait_q (mq s)) (krn s) (proj1 (mi_sched _ H))) as Hs.
        rewrite He in Hs. destruct Hs as [Hs _]. eauto. }
      assert (Hfull : used_msgs (mq s) = max_msgs (mq s)).
      { destruct Hws as [ws Hws]. destruct (mi_waiting _ H) as [?|?]; [by rewrite Hws|lia|done]. }
      assert (Hroom : used_msgs (drop_first (mq s)) < max_msgs (drop_first (mq s)))
        by (rewrite D2; change (max_msgs (drop_first (mq s))) with (max_msgs (mq s)); lia).
      pose proof (enqueue_spec (swap_data (threads k1 t)) m' (drop_first (mq s)) D1 Hroom) as Hen.
      destruct (enqueue _ _ _) as [m2 q2] eqn:Een. destruct Hen as (E1&E2&E3&E4&E5&E6&E7).
      destruct (wake_spec to q2 m2 s t k1) as (W1&W2&W3&W4); [done..|lia|].
      split; [|exact W1]. split; [done|]. rewrite W2. split; [|split; [done|split; [exact W3|]]].
      * pose proof (enqueue_outside data (swap_data (threads k1 t)) m' (drop_first (mq s)) D1 Ho) as Hk.
        rewrite Een in Hk. exact Hk.
      * intros Hd. unfold contents. cbn [ram mq]. rewrite E2. do 2 f_equal. rewrite W4.
        apply mem_bytes_memcpy_other. exact Hd.
    + destruct (unpend_none s k1 H He) as [-> Hw]. rewrite Hw.
      split; [|by apply idle_queue_inv]. done.
  - assert (Hz : used_msgs (mq s) = 0) by (pose proof (rg_used _ Hring); lia).
    assert (Hn : contents s = []) by (unfold contents, messages; by rewrite Hz).
    rewrite Hn. destruct (K_TIMEOUT_EQ to K_NO_WAIT) eqn:Hnw; [done|].
    destruct (block_spec data to s H Hc Hnw Ho (or_introl Hz)) as (B1&B2&B3&_).
    split; [|exact B1]. done.
Qed.
End behaviour.

(** ** Purging *)

Section purge.
Implicit Types (s : mq_world) (k : kernel).

Lemma purge_loop_spec n w k :
  sched_inv k -> (length (waitqs k w) < n)%nat ->
  let k' := purge_loop n w k in
  sched_inv k' /\ waitqs k' w = [] /\
  (forall t, retval t k' = if decide (t ∈ waitqs k w) then - ENOMSG else retval t k) /\
  current k' = current k /\ in_isr k' = in_isr k.
Proof.
  revert k. induction n as [|n IH]; intros k Hk Hn; cbn [purge_loop]; [lia|].
  destruct Hk as (H&Hc&Hu). pose proof (unpend_first_spec w k H) as Hs.
  pose proof (wf_wait_nodup _ _ H w) as Hnd.
  destruct (z_unpend_first_thread w k) as [[t|] k1].
  - destruct Hs as (S1&_&S3&_&S5&S6&S7&S8&S9&S10&S11).
    destruct (give_spec t (- ENOMSG) k1) as (G1&G2&G3&G4&_&G6&G7);
      [done..|by eapply cache_ok_kept|by eapply current_ok_kept|].
    set (k2 := z_ready_thread t (arch_thread_return_value_set t (- ENOMSG) k1)) in *.
    destruct (IH k2 G1) as (I1&I2&I3&I4&I5); [rewrite G2; rewrite S1 in Hn; cbn in Hn; lia|].
    split; [done|]. split; [done|]. split; [|split; congruence].
    intros x. rewrite I3, G2, S1. rewrite S1 in Hnd. apply NoDup_cons in Hnd as [Hnt _].
    destruct (decide (x ∈ waitqs k1 w)) as [Hx|Hx].
    + rewrite decide_True by (by right). done.
    + destruct (decide (x = t)) as [->|Hne]; [by rewrite decide_True by constructor|].
      rewrite decide_False by (rewrite elem_of_cons; tauto). by rewrite G4, S3.
  - destruct Hs as [-> Hq]. rewrite Hq. split; [by split|]. split; [done|]. split; [|done].
    intros t. rewrite decide_False; [done|]. apply not_elem_of_nil.
Qed.

Lemma purge_spec s :
  mq_inv s -> caller_ok K_NO_WAIT (krn s) ->
  let s' := z_impl_k_msgq_purge s in
  mq_inv s' /\ contents s' = [] /\ waiters s' = [] /\
  forall t, t ∈ waiters s -> retval t (krn s') = - ENOMSG.
Proof.
  intros H Hc s'. destruct H as [Hring Hsched Hwait Hbuf].
  set (w := wait_q (mq s)) in *. set (n := S (length (waitqs (krn s) w))).
  destruct (purge_loop_spec n w (krn s) Hsched) as (P1&P2&P3&P4&P5); [unfold n; lia|].
  set (k := purge_loop n w (krn s)) in *.
  assert (Hempty : waitqs (z_reschedule k) w = []).
  { unfold z_reschedule. by destruct (_ && _). }
  assert (Hq : ring_ok (mq s')).
  { destruct Hring as [Hs Hm Hus He Hrd Hw]. pose proof (mod_range (read_index (mq s) + used_msgs (mq s)) (max_msgs (mq s))).
    assert (Hix : read_index (mq s') = (read_index (mq s) + used_msgs (mq s)) mod max_msgs (mq s))
      by (by apply read_index_slot).
    split; try done; [cbn; lia|eexists; split; [|exact Hw]; cbn; lia|].
    rewrite Hix. cbn. rewrite Z.add_0_r, Z.mod_mod by lia. exact Hw. }
  split; [|split; [done|split; [exact Hempty|]]].
  - split; [done|by apply inv_reschedule|by rewrite (Hempty : waiters s' = [])|].
    intros t. rewrite (Hempty : waiters s' = []). by intros ?%elem_of_nil.
  - intros t Ht. change (retval t (z_reschedule k) = - ENOMSG).
    assert (Hcur : t <> current k \/ in_isr k = true).
    { rewrite P4, P5. destruct Hc as [[Hi _]|[Hr _]]; [by right|left]. intros ->.
      destruct (ready_not_pended _ _ (proj1 Hsched) Hr) as [Hp _].
      apply (wf_wait _ _ (proj1 Hsched)) in Ht. congruence. }
    destruct (reschedule_objects t k Hcur) as (_&R2&_). rewrite R2, P3.
    by rewrite decide_True by exact Ht.
Qed.

Lemma peek_spec data s :
  ring_ok (mq s) -> outside data (mq s) -> peek_outcome data s (z_impl_k_msgq_peek data s).
Proof.
  intros Hring Ho. unfold z_impl_k_msgq_peek, peek_outcome. destruct (Z.ltb_spec 0 (used_msgs (mq s))) as [Hlt|Hge].
  - split; [done|]. split; [done|]. split.
    + apply messages_memcpy; [done|]. intros j Hj. apply slot_outside; [done|apply mod_range, Hring|done].
    + unfold contents. rewrite (dequeue_spec data (ram s) (mq s) Hring Hlt Ho). done.
  - pose proof (rg_used _ Hring). unfold contents, messages. rewrite seqZ_nil by lia. done.
Qed.

Lemma init_spec w buffer size max m k :
  0 < size -> 0 < max -> size * max < 2 ^ 32 -> sched_inv k -> waitqs k w = [] ->
  let s := k_msgq_init w buffer size max m k in
  mq_inv s /\ contents s = [] /\ waiters s = [].
Proof.
  intros Hs Hm Hsm Hk Hw s.
  assert (Hq : waitqs (krn s) w = []) by (cbn; by rewrite Z.eqb_refl).
  assert (Hring : ring_ok (mq s)).
  { assert (Hi : read_index (mq s) = 0) by (unfold read_index; cbn; by rewrite Z.sub_diag).
    split; try done; cbn; try lia; try nia.
    - unfold slot. cbn. rewrite u32_small by nia. nia.
    - exists 0. unfold slot. cbn. lia.
    - change (mk_msgq _ _ _ _ _ _ _ _ _) with (mq s). rewrite Hi. unfold slot. cbn.
      rewrite Z.mod_0_l by lia. lia. }
  split; [|split; [done|exact Hq]]. split; [done| |by intros []|].
  - eapply inv_step; [exact Hk| |by split|by apply current_kept_same].
    split; try done. intros v. cbn. by destruct (Z.eqb_spec v w) as [->|].
  - intros t. rewrite (Hq : waiters s = []). by intros ?%elem_of_nil.
Qed.
End purge.

(** ** One reader thread fed by interrupts

    The use the keyboard driver makes of a queue: an interrupt handler puts
    messages without waiting, one thread gets them and blocks on an empty
    queue.  The rest of the system runs in between. *)

Section pipe.
Context (reader src buf : Z).

Record pipe := mk_pipe {
  world : mq_world;
  in_call : bool;                (* the reader is inside [k_msgq_get] *)
  accepted : list (list Z);      (* messages whose put returned 0 *)
  received : list (list Z) }.    (* messages [k_msgq_get] returned with *)

Definition waiting (p : pipe) : bool := bool_decide (reader ∈ waiters (world p)).

(** The interrupt handler: the message is built at [src] and put. *)
Definition pipe_isr (msg : list Z) (p : pipe) : pipe :=
  let s := world p in
  let s := mk_world (mq s) (mem_store src msg (ram s)) (krn s) in
  match z_impl_k_msgq_put src K_NO_WAIT s with
  | (Ret 0, s') => mk_pipe s' (in_call p) (accepted p ++ [msg]) (received p)
  | (_, s') => mk_pipe s' (in_call p) (accepted p) (received p)
  end.

Definition pipe_get (p : pipe) : pipe :=
  match z_impl_k_msgq_get buf K_FOREVER (world p) with
  | (Ret _, s') =>
      mk_pipe s' false (accepted p) (received p ++ [mem_bytes (ram s') buf (msg_size (mq s'))])
  | (Pended, s') => mk_pipe s' true (accepted p) (received p)
  end.

(** The blocked call returns: the thread has been woken and runs again. *)
Definition pipe_return (p : pipe) : pipe :=
  let s := world p in
  mk_pipe s false (accepted p) (received p ++ [mem_bytes (ram s) buf (msg_size (mq s))]).

Inductive pipe_step : pipe -> pipe -> Prop :=
| step_isr msg p :
    in_isr (krn (world p)) = true -> Z.of_nat (length msg) = msg_size (mq (world p)) ->
    pipe_step p (pipe_isr msg p)
| step_get p :
    in_call p = false -> current (krn (world p)) = reader ->
    z_is_thread_ready reader (krn (world p)) = true -> reader <> idle_thread (krn (world p)) ->
    pipe_step p (pipe_get p)
| step_return p :
    in_call p = true -> waiting p = false -> pipe_step p (pipe_return p)
| step_other p m k :
    (* anything that leaves the queue, its waiters and the reader's buffer alone *)
    sched_inv k -> waitqs k (wait_q (mq (world p))) = waiters (world p) ->
    (forall t, t ∈ waiters (world p) -> tdata t k = tdata t (krn (world p))) ->
    messages m (mq (world p)) = contents (world p) ->
    mem_bytes m buf (msg_size (mq (world p))) = mem_bytes (ram (world p)) buf (msg_size (mq (world p))) ->
    pipe_step p (mk_pipe (mk_world (mq (world p)) m k) (in_call p) (accepted p) (received p)).

(** The message handed to the reader while it was blocked, not yet returned. *)
Definition delivered (p : pipe) : list (list Z) :=
  if in_call p && negb (waiting p)
  then [mem_bytes (ram (world p)) buf (msg_size (mq (world p)))] else [].

Record pipe_inv (p : pipe) : Prop := {
  pi_queue : mq_inv (world p);
  pi_buf : outside buf (mq (world p));
  pi_src : outside src (mq (world p));
  pi_sep : disjoint_regions src (msg_size (mq (world p))) buf (msg_size (mq (world p)));
  pi_waiters : waiters (world p) = [] \/
    waiters (world p) = [reader] /\ in_call p = true /\ contents (world p) = [] /\
    tdata reader (krn (world p)) = buf;
  pi_flow : received p ++ delivered p ++ contents (world p) = accepted p }.

(** What no operation changes about a queue. *)
Definition geometry (q : k_msgq) : Z * Z * Z * Z :=
  (wait_q q, msg_size q, max_msgs q, buffer_start q).

Lemma put_geometry data to s : geometry (mq (z_impl_k_msgq_put data to s).2) = geometry (mq s).
Proof.
  unfold z_impl_k_msgq_put. destruct (_ <? _); [|by destruct (K_TIMEOUT_EQ _ _)].
  by destruct (z_unpend_first_thread _ _) as [[]].
Qed.

Lemma get_geometry data to s : geometry (mq (z_impl_k_msgq_get data to s).2) = geometry (mq s).
Proof.
  unfold z_impl_k_msgq_get. destruct (_ <? _); [|by destruct (K_TIMEOUT_EQ _ _)].
  by destruct (z_unpend_first_thread _ _) as [[]].
Qed.

Lemma outside_geometry x q q' : geometry q' = geometry q -> outside x q -> outside x q'.
Proof. intros [= ? E1 E2 E3]. unfold outside. by rewrite E1, E2, E3. Qed.

Lemma mem_bytes_store_other a bs m x n :
  disjoint_regions a (Z.of_nat (length bs)) x n -> mem_bytes (mem_store a bs m) x n = mem_bytes m x n.
Proof.
  intros D. apply mem_bytes_ext. intros i Hi. unfold mem_store, disjoint_regions in *.
  bdestruct. rewrite lookup_ge_None_2; [done|lia].
Qed.

(** Building a message outside the ring does not disturb the queue. *)
Lemma store_inv msg s :
  mq_inv s -> outside src (mq s) -> Z.of_nat (length msg) = msg_size (mq s) ->
  let s1 := mk_world (mq s) (mem_store src msg (ram s)) (krn s) in
  mq_inv s1 /\ contents s1 = contents s /\ waiters s1 = waiters s.
Proof.
  intros H Ho Hl s1. split; [destruct H; by split|]. split; [|done].
  unfold contents, messages. apply list_fmap_ext. intros i j Hj%list_elem_of_lookup_2.
  apply mem_bytes_store_other. rewrite Hl.
  apply slot_outside; [apply H|apply mod_range, H|done].
Qed.

Lemma waiting_true p : reader ∈ waiters (world p) -> waiting p = true.
Proof. intros. by apply bool_decide_eq_true. Qed.

Lemma waiting_nil p : waiters (world p) = [] -> waiting p = false.
Proof. intros Hn. apply bool_decide_eq_false. rewrite Hn. apply not_elem_of_nil. Qed.

Lemma isr_inv msg p :
  pipe_inv p -> in_isr (krn (world p)) = true -> Z.of_nat (length msg) = msg_size (mq (world p)) ->
  pipe_inv (pipe_isr msg p).
Proof.
  intros [Hq Hb Hs Hsep Hw Hf] Hi Hl. unfold pipe_isr.
  destruct (store_inv msg (world p) Hq Hs Hl) as (S1&S2&S3).
  set (s1 := mk_world (mq (world p)) (mem_store src msg (ram (world p))) (krn (world p))) in *.
  destruct (put_spec src K_NO_WAIT s1 S1 (or_introl (conj Hi eq_refl)) Hs) as [O1 O2].
  pose proof (put_geometry src K_NO_WAIT s1) as Hg.
  assert (Hmsg : mem_bytes (ram s1) src (msg_size (mq s1)) = msg) by (cbn; rewrite <- Hl; apply mem_bytes_store_same).
  assert (Hbuf : mem_bytes (ram s1) buf (msg_size (mq s1)) = mem_bytes (ram (world p)) buf (msg_size (mq (world p))))
    by (apply mem_bytes_store_other; by rewrite Hl).
  assert (Hgs : msg_size (mq (z_impl_k_msgq_put src K_NO_WAIT s1).2) = msg_size (mq s1)) by (by injection Hg).
  assert (Hkeep : forall x, outside x (mq s1) -> outside x (mq (z_impl_k_msgq_put src K_NO_WAIT s1).2))
    by (intros x; by apply outside_geometry).
  destruct (z_impl_k_msgq_put src K_NO_WAIT s1) as [r s']. cbn [snd] in *. unfold put_outcome in O1.
  rewrite Hmsg, S2, S3 in O1.
  assert (Hcall : forall acc, waiters s' = [] \/ waiters s' = [reader] /\ in_call p = true /\
      contents s' = [] /\ tdata reader (krn s') = buf ->
    received p ++ delivered (mk_pipe s' (in_call p) acc (received p)) ++ contents s' = acc ->
    pipe_inv (mk_pipe s' (in_call p) acc (received p))).
  { intros acc H1 H2. split; try done; cbn [world]; [auto..|]. by rewrite Hgs. }
  destruct (_ <? _).
  - destruct O1 as [-> O1]. destruct Hw as [Hw|(Hw&Hin&Hc&Ht)]; rewrite Hw in O1.
    + destruct O1 as (O3&O4&O5). apply Hcall; [by left|]. rewrite O3, <- Hf, !app_assoc. do 3 f_equal.
      unfold delivered. rewrite !waiting_nil by done. cbn [in_call world].
      destruct (in_call p); [|done]. cbn [andb negb]. by rewrite Hgs, O5, Hbuf.
    + destruct O1 as (O3&O4&_&O5). apply Hcall; [by left|]. rewrite O3, <- Hf, Hc, !app_nil_r.
      unfold delivered. rewrite (waiting_nil (mk_pipe s' _ _ _)), (waiting_true p) by (done || rewrite Hw; constructor).
      cbn [in_call world]. rewrite Hin. cbn [andb negb]. rewrite Hgs, app_nil_r. do 2 f_equal.
      change (tdata reader (krn s1)) with (tdata reader (krn (world p))) in O5. by rewrite <- Ht.
  - destruct O1 as [-> ->]. apply Hcall; [by rewrite S2, S3|]. rewrite S2, <- Hf. do 2 f_equal.
    unfold delivered. cbn [in_call world]. by rewrite Hbuf.
Qed.

Lemma get_inv p :
  pipe_inv p -> in_call p = false -> current (krn (world p)) = reader ->
  z_is_thread_ready reader (krn (world p)) = true -> reader <> idle_thread (krn (world p)) ->
  pipe_inv (pipe_get p).
Proof.
  intros [Hq Hb Hs Hsep Hw Hf] Hin Hcur Hr Hidle. unfold pipe_get.
  destruct Hw as [Hw|(_&Hin'&_)]; [|congruence].
  assert (Hc : caller_ok K_FOREVER (krn (world p))) by (right; by rewrite Hcur).
  destruct (get_spec buf K_FOREVER (world p) Hq Hc Hb) as [O1 O2].
  pose proof (get_geometry buf K_FOREVER (world p)) as Hg.
  assert (Hgs : msg_size (mq (z_impl_k_msgq_get buf K_FOREVER (world p)).2) = msg_size (mq (world p)))
    by (by injection Hg).
  assert (Hkeep : forall x, outside x (mq (world p)) -> outside x (mq (z_impl_k_msgq_get buf K_FOREVER (world p)).2))
    by (intros x; by apply outside_geometry).
  destruct (z_impl_k_msgq_get _ _ _) as [r s']. cbn [snd] in *. unfold get_outcome in O1. rewrite Hw in O1.
  assert (Hd : delivered p = []) by (unfold delivered; by rewrite Hin).
  rewrite Hd in Hf. cbn [app] in Hf. destruct (contents (world p)) as [|msg rest].
  - change (K_TIMEOUT_EQ K_FOREVER K_NO_WAIT) with false in O1. destruct O1 as (->&O3&O4&O5).
    apply Permutation_singleton_r in O4. rewrite Hcur in O4, O5.
    split; cbn [world]; [done|auto|auto|by rewrite Hgs|by right|].
    unfold delivered. rewrite waiting_true by (cbn [world]; rewrite O4; constructor). by rewrite O3.
  - destruct O1 as (->&O3&O4&O5).
    split; cbn [world]; [done|auto|auto|by rewrite Hgs|by left|]. cbn [delivered received in_call andb app].
    rewrite O4, Hgs, O3, <- Hf, <- app_assoc. done.
Qed.

Lemma pipe_step_inv p p' : pipe_inv p -> pipe_step p p' -> pipe_inv p'.
Proof.
  intros H Hs. destruct Hs as [msg p Hi Hl|p Hin Hc Hr Hid|p Hin Hw|p m k Hk Hw Ht Hm Hb].
  - by apply isr_inv.
  - by apply get_inv.
  - destruct H as [Hq Hb Hs Hsep Hws Hf]. split; try done; cbn [world].
    + destruct Hws as [Hws|(Hws&_)]; [by left|]. rewrite waiting_true in Hw; [done|rewrite Hws; constructor].
    + cbn [pipe_return delivered received in_call andb app accepted world]. rewrite <- Hf. unfold delivered.
      rewrite Hin, Hw. cbn [andb negb]. by rewrite <- app_assoc.
  - destruct H as [[Q1 Q2 Q3 Q4] Hbuf Hs Hsep Hws Hf].
    assert (Hw' : waiters (mk_world (mq (world p)) m k) = waiters (world p)) by exact Hw.
    assert (Hm' : contents (mk_world (mq (world p)) m k) = contents (world p)) by exact Hm.
    split; try done; cbn [world].
    + split; [done|done|by rewrite Hw'|]. intros t. rewrite Hw'. intros Hin. cbn [mq krn].
      rewrite Ht by done. by apply Q4.
    + rewrite Hw'. destruct Hws as [Hws|(Hws&H1&H2&H3)]; [by left|right].
      split; [done|]. split; [done|]. split; [by rewrite Hm'|].
      cbn [krn]. rewrite Ht; [done|rewrite Hws; constructor].
    + cbn [received accepted]. rewrite <- Hf. f_equal. rewrite Hm'. f_equal.
      unfold delivered, waiting. cbn [in_call world ram mq]. by rewrite Hw', Hb.
Qed.
End pipe.

(** ** Properties *)

(** An interrupt begins or ends; the hardware does it. *)
Definition with_isr (b : bool) (k : kernel) : kernel :=
  mk_kernel (threads k) (runq k) (cache k) (current k) (idle_thread k) (waitqs k) (pending_abort k)
    (pending_current k) (slice_time k) (slice_max_prio k) (timeouts k) (clock k) b (pendsv k).

Lemma with_isr_inv b k : sched_inv k -> sched_inv (with_isr b k).
Proof. intros H. eapply inv_step; [exact H|by split|by split|by apply current_kept_same]. Qed.

(** C10. Messages flow from the interrupt handler to the reader thread in order,
    with none lost, duplicated or altered, whatever else runs in between: those
    the reader got, the one handed to it while it was blocked and those in the
    ring are exactly the ones whose put returned 0, in that order. *)
Theorem msgq_pipe_in_order (reader src buf w buffer size max : Z) (m : mem) (k : kernel) (p : pipe)
    (Hsize : 0 < size) (Hmax : 0 < max) (Hover : size * max < 2 ^ 32)
    (Hk : sched_inv k) (Hw : waitqs k w = [])
    (Hsrc : disjoint_regions buffer (max * size) src size)
    (Hbuf : disjoint_regions buffer (max * size) buf size)
    (Hsep : disjoint_regions src size buf size)
    (Hrun : rtc (pipe_step reader src buf) (mk_pipe (k_msgq_init w buffer size max m k) false [] []) p) :
  received p ++ delivered reader buf p ++ contents (world p) = accepted p.
Proof.
  destruct (init_spec w buffer size max m k Hsize Hmax Hover Hk Hw) as (I1&I2&I3).
  assert (H0 : pipe_inv reader src buf (mk_pipe (k_msgq_init w buffer size max m k) false [] []))
    by (split; try done; by left).
  revert H0. induction Hrun as [p|p1 p2 p3 Hs _ IH]; intros H0; [apply H0|].
  apply IH. by apply (pipe_step_inv reader src buf p1).
Qed.

Lemma irq_inv b s : mq_inv s -> mq_inv (mk_world (mq s) (ram s) (with_isr b (krn s))).
Proof. intros []. split; [done|by apply with_isr_inv|done..]. Qed.

Lemma step_interrupt reader src buf b p :
  sched_inv (krn (world p)) ->
  pipe_step reader src buf p
    (mk_pipe (mk_world (mq (world p)) (ram (world p)) (with_isr b (krn (world p))))
       (in_call p) (accepted p) (received p)).
Proof. intros H. by apply step_other; [apply with_isr_inv|..]. Qed.

Definition example_q : mq_world := k_msgq_init 100 1000 1 4 (fun _ => 0) example_boot.
Definition example_blocked : pipe := pipe_get 40 (mk_pipe example_q false [] []).
Definition example_irq : pipe :=
  mk_pipe (mk_world (mq (world example_blocked)) (ram (world example_blocked))
             (with_isr true (krn (world example_blocked))))
    (in_call example_blocked) (accepted example_blocked) (received example_blocked).
Definition example_handed : pipe := pipe_isr 50 [9] (pipe_isr 50 [7] example_irq).

Lemma example_blocked_inv : mq_inv (world example_blocked).
Proof.
  apply (get_spec 40 K_FOREVER example_q).
  - apply init_spec; try done. by apply boot_inv.
  - right. by vm_compute.
  - right. by vm_compute.
Qed.

Lemma msgq_pipe_in_order_witness :
  received (pipe_return 40 example_handed) ++ delivered 1 40 (pipe_return 40 example_handed) ++
    contents (world (pipe_return 40 example_handed)) = accepted (pipe_return 40 example_handed) /\
  received (pipe_return 40 example_handed) = [[7]].
Proof.
  split; [|vm_compute; reflexivity].
  apply (msgq_pipe_in_order 1 50 40 100 1000 1 4 (fun _ => 0) example_boot);
    [done|done|done|by apply boot_inv|done|right; by vm_compute|right; by vm_compute|right; by vm_compute|].
  apply (rtc_l _ _ example_blocked); [apply step_get; vm_compute; (reflexivity || discriminate)|].
  apply (rtc_l _ _ example_irq); [apply (step_interrupt 1 50 40 true), example_blocked_inv|].
  apply (rtc_l _ _ (pipe_isr 50 [7] example_irq)); [apply step_isr; vm_compute; reflexivity|].
  apply (rtc_l _ _ example_handed); [apply step_isr; vm_compute; reflexivity|].
  apply rtc_once, step_return; vm_compute; reflexivity.
Defined.

(** Every call of [k_msgq_put] and [k_msgq_get] has one of the documented
    outcomes, on every branch.  A put hands its message to the first waiting
    reader, or appends it, or is refused with -ENOMSG, or blocks.  A get delivers
    the oldest message and lets the first blocked sender's message take the freed
    slot, or is refused, or blocks.  A peek delivers the oldest message and leaves
    it queued.  The ring, its waiters and the scheduler stay consistent. *)
Theorem msgq_put_get_behaviour (data : Z) (to : k_timeout_t) (s : mq_world)
    (Hs : mq_inv s) (Hc : caller_ok to (krn s)) (Hd : outside data (mq s)) :
  put_outcome data to s (z_impl_k_msgq_put data to s) /\ mq_inv (z_impl_k_msgq_put data to s).2 /\
  get_outcome data to s (z_impl_k_msgq_get data to s) /\ mq_inv (z_impl_k_msgq_get data to s).2 /\
  peek_outcome data s (z_impl_k_msgq_peek data s).
Proof.
  destruct (put_spec data to s Hs Hc Hd). destruct (get_spec data to s Hs Hc Hd).
  pose proof (peek_spec data s (mi_ring _ Hs) Hd). done.
Qed.

Lemma example_q_inv : mq_inv example_q.
Proof. apply init_spec; try done. by apply boot_inv. Qed.

Lemma msgq_put_get_behaviour_witness :
  put_outcome 40 K_NO_WAIT example_q (z_impl_k_msgq_put 40 K_NO_WAIT example_q) /\
  mq_inv (z_impl_k_msgq_put 40 K_NO_WAIT example_q).2 /\
  get_outcome 40 K_NO_WAIT example_q (z_impl_k_msgq_get 40 K_NO_WAIT example_q) /\
  mq_inv (z_impl_k_msgq_get 40 K_NO_WAIT example_q).2 /\
  peek_outcome 40 example_q (z_impl_k_msgq_peek 40 example_q).
Proof.
  apply (msgq_put_get_behaviour 40 K_NO_WAIT example_q example_q_inv); right; by vm_compute.
Defined.

(** [k_msgq_purge] empties the queue and releases every waiting thread with
    -ENOMSG; its loop ends. *)
Theorem msgq_purge_releases (s : mq_world) (Hs : mq_inv s) (Hc : caller_ok K_NO_WAIT (krn s)) :
  let s' := z_impl_k_msgq_purge s in
  mq_inv s' /\ contents s' = [] /\ waiters s' = [] /\
  forall t, t ∈ waiters s -> retval t (krn s') = - ENOMSG.
Proof. by apply purge_spec. Qed.

Lemma msgq_purge_releases_witness :
  let s' := z_impl_k_msgq_purge (world example_irq) in
  waiters (world example_irq) = [1] /\
  mq_inv s' /\ contents s' = [] /\ waiters s' = [] /\
  forall t, t ∈ waiters (world example_irq) -> retval t (krn s') = - ENOMSG.
Proof.
  split; [by vm_compute|]. apply (msgq_purge_releases (world example_irq)); [|left; vm_compute; done].
  apply irq_inv, example_blocked_inv.
Defined.
