(* ===== verification/Gpio.v ===== *)
(** The GPIO interface ([include/drivers/gpio.h], [dt-bindings/gpio/gpio.h]) and
    the callback lists drivers share ([drivers/gpio/gpio_utils.h]).

    The functions of the header are written against a driver's table of
    operations.  What the header relies on from an output driver is the class
    [GpioOutput]; the properties of the header's functions are proved against it. *)
From Stdlib Require Import ZArith Lia Bool.
From stdpp Require Import base numbers list sets.
From S2P Require Import Prelude.
Open Scope Z_scope.

(** ** Flags *)

Definition GPIO_ACTIVE_LOW : Z := 1 .<< 0.
Definition GPIO_ACTIVE_HIGH : Z := 0 .<< 0.
Definition GPIO_SINGLE_ENDED : Z := 1 .<< 1.
Definition GPIO_PUSH_PULL : Z := 0 .<< 1.
Definition GPIO_LINE_OPEN_DRAIN : Z := 1 .<< 2.
Definition GPIO_LINE_OPEN_SOURCE : Z := 0 .<< 2.
Definition GPIO_OPEN_DRAIN : Z := GPIO_SINGLE_ENDED .| GPIO_LINE_OPEN_DRAIN.
Definition GPIO_OPEN_SOURCE : Z := GPIO_SINGLE_ENDED .| GPIO_LINE_OPEN_SOURCE.
Definition GPIO_PULL_UP : Z := 1 .<< 4.
Definition GPIO_PULL_DOWN : Z := 1 .<< 5.

Definition GPIO_INPUT : Z := 1 .<< 8.
Definition GPIO_OUTPUT : Z := 1 .<< 9.
Definition GPIO_DISCONNECTED : Z := 0.
Definition GPIO_OUTPUT_INIT_LOW : Z := 1 .<< 10.
Definition GPIO_OUTPUT_INIT_HIGH : Z := 1 .<< 11.
Definition GPIO_OUTPUT_INIT_LOGICAL : Z := 1 .<< 12.
Definition GPIO_OUTPUT_LOW : Z := GPIO_OUTPUT .| GPIO_OUTPUT_INIT_LOW.
Definition GPIO_OUTPUT_HIGH : Z := GPIO_OUTPUT .| GPIO_OUTPUT_INIT_HIGH.
Definition GPIO_OUTPUT_INACTIVE : Z := GPIO_OUTPUT .| GPIO_OUTPUT_INIT_LOW .| GPIO_OUTPUT_INIT_LOGICAL.
Definition GPIO_OUTPUT_ACTIVE : Z := GPIO_OUTPUT .| GPIO_OUTPUT_INIT_HIGH .| GPIO_OUTPUT_INIT_LOGICAL.

Definition GPIO_INT_DISABLE : Z := 1 .<< 13.
Definition GPIO_INT_ENABLE : Z := 1 .<< 14.
Definition GPIO_INT_LEVELS_LOGICAL : Z := 1 .<< 15.
Definition GPIO_INT_EDGE : Z := 1 .<< 16.
Definition GPIO_INT_LOW_0 : Z := 1 .<< 17.
Definition GPIO_INT_HIGH_1 : Z := 1 .<< 18.
Definition GPIO_INT_EDGE_RISING : Z := GPIO_INT_ENABLE .| GPIO_INT_EDGE .| GPIO_INT_HIGH_1.
Definition GPIO_INT_EDGE_FALLING : Z := GPIO_INT_ENABLE .| GPIO_INT_EDGE .| GPIO_INT_LOW_0.
Definition GPIO_INT_EDGE_BOTH : Z :=
  GPIO_INT_ENABLE .| GPIO_INT_EDGE .| GPIO_INT_LOW_0 .| GPIO_INT_HIGH_1.
Definition GPIO_INT_LEVEL_LOW : Z := GPIO_INT_ENABLE .| GPIO_INT_LOW_0.
Definition GPIO_INT_LEVEL_HIGH : Z := GPIO_INT_ENABLE .| GPIO_INT_HIGH_1.
Definition GPIO_INT_EDGE_TO_INACTIVE : Z :=
  GPIO_INT_ENABLE .| GPIO_INT_LEVELS_LOGICAL .| GPIO_INT_EDGE .| GPIO_INT_LOW_0.
Definition GPIO_INT_EDGE_TO_ACTIVE : Z :=
  GPIO_INT_ENABLE .| GPIO_INT_LEVELS_LOGICAL .| GPIO_INT_EDGE .| GPIO_INT_HIGH_1.
Definition GPIO_INT_LEVEL_INACTIVE : Z := GPIO_INT_ENABLE .| GPIO_INT_LEVELS_LOGICAL .| GPIO_INT_LOW_0.
Definition GPIO_INT_LEVEL_ACTIVE : Z := GPIO_INT_ENABLE .| GPIO_INT_LEVELS_LOGICAL .| GPIO_INT_HIGH_1.
Definition GPIO_INT_DEBOUNCE : Z := 1 .<< 19.

Definition GPIO_DS_LOW_POS : Z := 20.
Definition GPIO_DS_LOW_MASK : Z := 3 .<< GPIO_DS_LOW_POS.
Definition GPIO_DS_DFLT_LOW : Z := 0 .<< GPIO_DS_LOW_POS.
Definition GPIO_DS_ALT_LOW : Z := 1 .<< GPIO_DS_LOW_POS.
Definition GPIO_DS_HIGH_POS : Z := 22.
Definition GPIO_DS_HIGH_MASK : Z := 3 .<< GPIO_DS_HIGH_POS.
Definition GPIO_DS_DFLT_HIGH : Z := 0 .<< GPIO_DS_HIGH_POS.
Definition GPIO_DS_ALT_HIGH : Z := 1 .<< GPIO_DS_HIGH_POS.

(** [enum gpio_int_mode] and [enum gpio_int_trig]. *)
Definition GPIO_INT_MODE_DISABLED : Z := GPIO_INT_DISABLE.
Definition GPIO_INT_MODE_LEVEL : Z := GPIO_INT_ENABLE.
Definition GPIO_INT_MODE_EDGE : Z := GPIO_INT_ENABLE .| GPIO_INT_EDGE.
Definition GPIO_INT_TRIG_LOW : Z := GPIO_INT_LOW_0.
Definition GPIO_INT_TRIG_HIGH : Z := GPIO_INT_HIGH_1.
Definition GPIO_INT_TRIG_BOTH : Z := GPIO_INT_LOW_0 .| GPIO_INT_HIGH_1.

(** A callback: its list node (the address), its handler and its pins. *)
Record gpio_callback := mk_cb { cb_node : Z; handler : Z; pin_mask : Z }.

(** ** The driver table *)

Record gpio_driver_api (St : Type) := mk_api {
  api_pin_configure : Z -> Z -> Z -> St -> Z * St;
  api_port_get_raw : Z -> St -> Z * Z;
  api_port_set_masked_raw : Z -> Z -> Z -> St -> Z * St;
  api_port_set_bits_raw : Z -> Z -> St -> Z * St;
  api_port_clear_bits_raw : Z -> Z -> St -> Z * St;
  api_port_toggle_bits : Z -> Z -> St -> Z * St;
  api_pin_interrupt_configure : option (Z -> Z -> Z -> Z -> St -> Z * St);
  api_manage_callback : option (Z -> gpio_callback -> bool -> St -> Z * St);
  api_get_pending_int : option (Z -> St -> Z);
  (* the common part of the driver's data: pins configured active low *)
  api_invert : Z -> St -> Z;
  api_set_invert : Z -> Z -> St -> St }.
#[global] Arguments mk_api {St}.
#[global] Arguments api_pin_configure {St}.
#[global] Arguments api_port_get_raw {St}.
#[global] Arguments api_port_set_masked_raw {St}.
#[global] Arguments api_port_set_bits_raw {St}.
#[global] Arguments api_port_clear_bits_raw {St}.
#[global] Arguments api_port_toggle_bits {St}.
#[global] Arguments api_pin_interrupt_configure {St}.
#[global] Arguments api_manage_callback {St}.
#[global] Arguments api_get_pending_int {St}.
#[global] Arguments api_invert {St}.
#[global] Arguments api_set_invert {St}.

Section api.
Context {St : Type} (api : gpio_driver_api St).
Implicit Types (port pin flags : Z) (s : St).

Definition z_impl_gpio_config port pin flags s : Z * St := api_pin_configure api port pin flags s.

(** The driver has interrupts; calling through a null table entry is a fault. *)
Definition z_impl_gpio_pin_interrupt_configure port pin flags s : option (Z * St) :=
  let flags :=
    if nz (flags .& GPIO_INT_LEVELS_LOGICAL) && nz (api_invert api port s .& BIT pin)
    then flags .^ (GPIO_INT_LOW_0 .| GPIO_INT_HIGH_1) else flags in
  let trig := flags .& (GPIO_INT_LOW_0 .| GPIO_INT_HIGH_1) in
  let mode := flags .& (GPIO_INT_EDGE .| GPIO_INT_DISABLE .| GPIO_INT_ENABLE) in
  match api_pin_interrupt_configure api with
  | Some f => Some (f port pin mode trig s)
  | None => None
  end.

Definition gpio_pin_configure port pin flags s : Z * St :=
  let flags :=
    if nz (flags .& GPIO_OUTPUT_INIT_LOGICAL) &&
       nz (flags .& (GPIO_OUTPUT_INIT_LOW .| GPIO_OUTPUT_INIT_HIGH)) &&
       nz (flags .& GPIO_ACTIVE_LOW)
    then flags .^ (GPIO_OUTPUT_INIT_LOW .| GPIO_OUTPUT_INIT_HIGH .| GPIO_OUTPUT_INIT_LOGICAL)
    else flags in
  let '(ret, s) := z_impl_gpio_config port pin flags s in
  if nz ret then (ret, s)
  else
    let s :=
      if nz (flags .& GPIO_ACTIVE_LOW)
      then api_set_invert api port (api_invert api port s .| BIT pin) s
      else api_set_invert api port (api_invert api port s .& not32 (BIT pin)) s in
    if nz (flags .& (GPIO_INT_DISABLE .| GPIO_INT_ENABLE)) then
      match z_impl_gpio_pin_interrupt_configure port pin (flags .& not32 GPIO_INT_DEBOUNCE) s with
      | Some r => r
      | None => (ret, s)
      end
    else (ret, s).

Definition z_impl_gpio_port_get_raw port s : Z * Z := api_port_get_raw api port s.

Definition gpio_port_get port s : Z * Z :=
  let '(ret, value) := z_impl_gpio_port_get_raw port s in
  if ret =? 0 then (ret, value .^ api_invert api port s) else (ret, value).

Definition z_impl_gpio_port_set_masked_raw port (mask value : Z) s : Z * St :=
  api_port_set_masked_raw api port mask value s.

Definition gpio_port_set_masked port (mask value : Z) s : Z * St :=
  z_impl_gpio_port_set_masked_raw port mask (value .^ api_invert api port s) s.

Definition z_impl_gpio_port_set_bits_raw port (pins : Z) s : Z * St := api_port_set_bits_raw api port pins s.
Definition gpio_port_set_bits port (pins : Z) s : Z * St := gpio_port_set_masked port pins pins s.
Definition z_impl_gpio_port_clear_bits_raw port (pins : Z) s : Z * St := api_port_clear_bits_raw api port pins s.
Definition gpio_port_clear_bits port (pins : Z) s : Z * St := gpio_port_set_masked port pins 0 s.
Definition z_impl_gpio_port_toggle_bits port (pins : Z) s : Z * St := api_port_toggle_bits api port pins s.

Definition gpio_port_set_clr_bits_raw port (set_pins clear_pins : Z) s : Z * St :=
  z_impl_gpio_port_set_masked_raw port (set_pins .| clear_pins) set_pins s.
Definition gpio_port_set_clr_bits port (set_pins clear_pins : Z) s : Z * St :=
  gpio_port_set_masked port (set_pins .| clear_pins) set_pins s.

Definition gpio_pin_get_raw port pin s : Z :=
  let '(ret, value) := z_impl_gpio_port_get_raw port s in
  if ret =? 0 then (if nz (value .& BIT pin) then 1 else 0) else ret.

Definition gpio_pin_get port pin s : Z :=
  let '(ret, value) := gpio_port_get port s in
  if ret =? 0 then (if nz (value .& BIT pin) then 1 else 0) else ret.

Definition gpio_pin_set_raw port pin (value : Z) s : Z * St :=
  if nz value then z_impl_gpio_port_set_bits_raw port (BIT pin) s
  else z_impl_gpio_port_clear_bits_raw port (BIT pin) s.

Definition gpio_pin_set port pin (value : Z) s : Z * St :=
  let value :=
    if nz (api_invert api port s .& BIT pin) then (if nz value then 0 else 1) else value in
  gpio_pin_set_raw port pin value s.

Definition gpio_pin_toggle port pin s : Z * St := z_impl_gpio_port_toggle_bits port (BIT pin) s.

Definition gpio_init_callback (cb : gpio_callback) (h mask : Z) : gpio_callback :=
  mk_cb (cb_node cb) h mask.

Definition gpio_add_callback port (cb : gpio_callback) s : Z * St :=
  match api_manage_callback api with
  | None => (- ENOTSUP, s)
  | Some f => f port cb true s
  end.

Definition gpio_remove_callback port (cb : gpio_callback) s : Z * St :=
  match api_manage_callback api with
  | None => (- ENOTSUP, s)
  | Some f => f port cb false s
  end.

Definition z_impl_gpio_get_pending_int port s : Z :=
  match api_get_pending_int api with
  | None => - ENOTSUP
  | Some f => f port s
  end.
End api.

(** ** Callback lists *)

Section callbacks.
Implicit Types (l : list gpio_callback) (cb : gpio_callback).

(** [GPIO_PORT_PIN_MASK_FROM_NGPIOS]. *)
Definition GPIO_PORT_PIN_MASK_FROM_NGPIOS (ngpios : Z) : Z := u32 (u64 (1 .<< ngpios) - 1).

(** [sys_slist_find_and_remove]. *)
Fixpoint slist_find_and_remove (node : Z) l : bool * list gpio_callback :=
  match l with
  | [] => (false, [])
  | c :: l =>
      if cb_node c =? node then (true, l)
      else let '(b, l') := slist_find_and_remove node l in (b, c :: l')
  end.

Definition gpio_manage_callback l cb (set : bool) : Z * list gpio_callback :=
  let '(found, l') :=
    match l with [] => (true, []) | _ :: _ => slist_find_and_remove (cb_node cb) l end in
  if negb found && negb set then (- EINVAL, l')
  else (0, if set then cb :: l' else l').

(** [gpio_fire_callbacks]: the handlers of a list run in its order; [call] is
    the jump through a callback's handler pointer. *)
Definition gpio_fire_callbacks {St} (call : gpio_callback -> Z -> St -> St) l (pins : Z) (s : St) : St :=
  fold_left (fun s cb => if nz (pin_mask cb .& pins) then call cb (pin_mask cb .& pins) s else s) l s.
End callbacks.

(** ** Logical levels, against the interface of an output driver *)

(** What the header relies on: a latch per port that the raw operations write
    bit by bit, leaving the other ports and the inversion masks alone. *)
Class GpioOutput {St : Type} (api : gpio_driver_api St) := {
  latch : Z -> St -> Z;
  latch_masked port mask value s :
    let '(r, s') := api_port_set_masked_raw api port mask value s in
    r = 0 /\ (forall q, api_invert api q s' = api_invert api q s) /\
    (forall q n, 0 <= n < 32 -> Z.testbit (latch q s') n =
       if (q =? port) && Z.testbit mask n then Z.testbit value n else Z.testbit (latch q s) n);
  latch_set port pins s :
    let '(r, s') := api_port_set_bits_raw api port pins s in
    r = 0 /\ (forall q, api_invert api q s' = api_invert api q s) /\
    (forall q n, 0 <= n < 32 -> Z.testbit (latch q s') n =
       if (q =? port) && Z.testbit pins n then true else Z.testbit (latch q s) n);
  latch_clear port pins s :
    let '(r, s') := api_port_clear_bits_raw api port pins s in
    r = 0 /\ (forall q, api_invert api q s' = api_invert api q s) /\
    (forall q n, 0 <= n < 32 -> Z.testbit (latch q s') n =
       if (q =? port) && Z.testbit pins n then false else Z.testbit (latch q s) n);
  latch_toggle port pins s :
    let '(r, s') := api_port_toggle_bits api port pins s in
    r = 0 /\ (forall q, api_invert api q s' = api_invert api q s) /\
    (forall q n, 0 <= n < 32 -> Z.testbit (latch q s') n =
       if (q =? port) && Z.testbit pins n then negb (Z.testbit (latch q s) n)
       else Z.testbit (latch q s) n) }.

Section levels.
Context {St : Type} (api : gpio_driver_api St) `{!GpioOutput api}.
Implicit Types (port pin n : Z) (s : St).

(** The logical level driven on a pin. *)
Definition active port n s : bool :=
  xorb (Z.testbit (latch port s) n) (Z.testbit (api_invert api port s) n).

(** An operation that succeeds and leaves pin [n] of [port] at level [f n]. *)
Definition drives port (f : Z -> bool) (res : Z * St) s : Prop :=
  res.1 = 0 /\ (forall n, 0 <= n < 32 -> active port n res.2 = f n) /\
  forall q n, q <> port -> 0 <= n < 32 -> active q n res.2 = active q n s.

Lemma set_masked_drives port mask value s :
  drives port (fun n => if Z.testbit mask n then Z.testbit value n else active port n s)
    (gpio_port_set_masked api port mask value s) s.
Proof.
  unfold gpio_port_set_masked, z_impl_gpio_port_set_masked_raw, drives, active.
  pose proof (latch_masked port mask (value .^ api_invert api port s) s) as H.
  destruct (api_port_set_masked_raw _ _ _ _ _) as [r s']. destruct H as (->&Hi&Hl). cbn.
  split; [done|]. split; intros; rewrite Hi, Hl by lia; bdestruct.
  - destruct (Z.testbit mask n); [|done]. rewrite Z.lxor_spec, xorb_assoc, xorb_nilpotent. apply xorb_false_r.
  - done.
Qed.

Lemma pin_set_drives port pin value s :
  0 <= pin < 32 ->
  drives port (fun n => if n =? pin then nz value else active port n s) (gpio_pin_set api port pin value s) s.
Proof.
  intros Hp. unfold gpio_pin_set, gpio_pin_set_raw, drives, active.
  rewrite nz_land_bit by lia.
  set (v := if Z.testbit _ _ then _ else _).
  assert (Hv : nz v = xorb (nz value) (Z.testbit (api_invert api port s) pin)).
  { unfold v. destruct (Z.testbit _ _); [|by rewrite xorb_false_r]. by destruct (nz value). }
  destruct (nz v) eqn:Ev;
    [pose proof (latch_set port (BIT pin) s) as H; unfold z_impl_gpio_port_set_bits_raw;
     destruct (api_port_set_bits_raw _ _ _ _) as [r s']
    |pose proof (latch_clear port (BIT pin) s) as H; unfold z_impl_gpio_port_clear_bits_raw;
     destruct (api_port_clear_bits_raw _ _ _ _) as [r s']];
    destruct H as (->&Hi&Hl); cbn; (split; [done|]); split; intros;
    rewrite Hi, Hl by lia; rewrite bit_testbit by lia; bdestruct; cbn; try done; subst n;
    destruct (nz value), (Z.testbit (api_invert api port s) pin); done.
Qed.

Lemma pin_toggle_drives port pin s :
  0 <= pin < 32 ->
  drives port (fun n => xorb (n =? pin) (active port n s)) (gpio_pin_toggle api port pin s) s.
Proof.
  intros Hp. unfold gpio_pin_toggle, z_impl_gpio_port_toggle_bits, drives, active.
  pose proof (latch_toggle port (BIT pin) s) as H.
  destruct (api_port_toggle_bits _ _ _ _) as [r s']. destruct H as (->&Hi&Hl). cbn.
  split; [done|]. split; intros; rewrite Hi, Hl by lia; rewrite bit_testbit by lia; bdestruct; cbn; try done.
  all: destruct (Z.testbit (latch port s) n), (Z.testbit (api_invert api port s) n); done.
Qed.
End levels.

(** ** Callback lists *)

Section callback_lists.
Implicit Types (l : list gpio_callback) (cb : gpio_callback).

Lemma find_and_remove_spec node l :
  NoDup (cb_node <$> l) ->
  slist_find_and_remove node l =
    (bool_decide (node ∈ cb_node <$> l), filter (fun c => cb_node c <> node) l).
Proof.
  induction l as [|c l IH]; intros Hd; cbn [slist_find_and_remove]; [done|].
  rewrite fmap_cons in Hd |- *. apply NoDup_cons in Hd as [Hn Hd].
  destruct (Z.eqb_spec (cb_node c) node) as [<-|Hne].
  - rewrite filter_cons_False by tauto. rewrite filter_key_absent by done.
    by rewrite bool_decide_true by constructor.
  - rewrite IH, filter_cons_True by done. f_equal. apply bool_decide_ext. rewrite elem_of_cons. naive_solver.
Qed.

(** The list as a set of callbacks, newest first. *)
Lemma manage_callback_spec l cb set :
  NoDup (cb_node <$> l) ->
  let '(r, l') := gpio_manage_callback l cb set in
  NoDup (cb_node <$> l') /\
  l' = (if set then [cb] else []) ++ filter (fun c => cb_node c <> cb_node cb) l /\
  r = if set || bool_decide (l = []) || bool_decide (cb_node cb ∈ cb_node <$> l) then 0 else - EINVAL.
Proof.
  intros Hd. unfold gpio_manage_callback.
  assert (Hn : NoDup (cb_node <$> filter (fun c => cb_node c <> cb_node cb) l) /\
               cb_node cb ∉ cb_node <$> filter (fun c => cb_node c <> cb_node cb) l).
  { split.
    - eapply sublist_NoDup; [exact Hd|]. apply fmap_sublist, sublist_filter.
    - intros (c&Hc&Hin)%list_elem_of_fmap. apply list_elem_of_filter in Hin as [Hin _]. congruence. }
  destruct Hn as [Hn1 Hn2]. destruct l as [|c l].
  - destruct set; cbn; [|done]. split; [apply NoDup_singleton|done].
  - rewrite find_and_remove_spec by done. rewrite (bool_decide_false (c :: l = [])) by done.
    destruct (bool_decide _); destruct set; cbn [negb andb orb app]; rewrite ?fmap_cons;
      (split; [by try (apply NoDup_cons; split)|done]).
Qed.

(** Which handlers an interrupt runs: those of the callbacks that share a pin
    with it, in list order, each with its own pins. *)
Lemma fire_callbacks_spec {St} (call : gpio_callback -> Z -> St -> St) l pins s :
  gpio_fire_callbacks call l pins s =
  fold_left (fun s cb => call cb (pin_mask cb .& pins) s)
    (filter (fun cb => nz (pin_mask cb .& pins) = true) l) s.
Proof.
  unfold gpio_fire_callbacks. revert s. induction l as [|c l IH]; intros s; [done|].
  cbn [fold_left]. rewrite IH. destruct (nz _) eqn:E.
  - by rewrite filter_cons_True.
  - by rewrite filter_cons_False by congruence.
Qed.
End callback_lists.
