(* ===== verification/GpioNrfx.v ===== *)
(** The nRF GPIO driver ([drivers/gpio/gpio_nrfx.c]): pin configuration, port
    access, edge interrupts on GPIOTE channels, level interrupts by sensing.

    The register access functions of the vendor's HAL are not part of the
    sources.  They are the class [NrfHal]: each is specified by what its
    documentation says it does to the peripheral's registers, seen through
    [view]. *)
From Stdlib Require Import ZArith Lia Bool.
From stdpp Require Import base numbers list sets.
From S2P Require Import Prelude Gpio.
Open Scope Z_scope.

(** ** The registers, as the HAL documents them *)

Inductive nrf_gpio_pin_dir_t := NRF_GPIO_PIN_DIR_INPUT | NRF_GPIO_PIN_DIR_OUTPUT.
Inductive nrf_gpio_pin_input_t := NRF_GPIO_PIN_INPUT_CONNECT | NRF_GPIO_PIN_INPUT_DISCONNECT.
Inductive nrf_gpio_pin_pull_t := NRF_GPIO_PIN_NOPULL | NRF_GPIO_PIN_PULLDOWN | NRF_GPIO_PIN_PULLUP.
Inductive nrf_gpio_pin_drive_t :=
  NRF_GPIO_PIN_S0S1 | NRF_GPIO_PIN_H0S1 | NRF_GPIO_PIN_S0H1 | NRF_GPIO_PIN_H0H1
| NRF_GPIO_PIN_D0S1 | NRF_GPIO_PIN_D0H1 | NRF_GPIO_PIN_S0D1 | NRF_GPIO_PIN_H0D1.
Inductive nrf_gpio_pin_sense_t := NRF_GPIO_PIN_NOSENSE | NRF_GPIO_PIN_SENSE_LOW | NRF_GPIO_PIN_SENSE_HIGH.
Inductive nrf_gpiote_polarity_t :=
  NRF_GPIOTE_POLARITY_LOTOHI | NRF_GPIOTE_POLARITY_HITOLO | NRF_GPIOTE_POLARITY_TOGGLE.
Inductive nrf_gpiote_event_t := NRF_GPIOTE_EVENT_IN (channel : Z) | NRF_GPIOTE_EVENT_PORT.
#[export] Instance event_eq_dec : EqDecision nrf_gpiote_event_t.
Proof. solve_decision. Defined.
#[export] Instance dir_eq_dec : EqDecision nrf_gpio_pin_dir_t.
Proof. solve_decision. Defined.

Record pin_cnf := mk_cnf {
  cnf_dir : nrf_gpio_pin_dir_t;
  cnf_input : nrf_gpio_pin_input_t;
  cnf_pull : nrf_gpio_pin_pull_t;
  cnf_drive : nrf_gpio_pin_drive_t;
  cnf_sense : nrf_gpio_pin_sense_t }.

Record regs := mk_regs {
  r_out : Z -> Z;                                  (* OUT, by port *)
  r_in : Z -> Z;                                   (* IN, by port *)
  r_cnf : Z -> pin_cnf;                            (* PIN_CNF, by absolute pin *)
  r_chan : Z -> Z * nrf_gpiote_polarity_t;         (* GPIOTE CONFIG, by channel *)
  r_mode : Z -> bool;                              (* channel in event mode *)
  r_inten : Z;                                     (* INTENSET *)
  r_event : nrf_gpiote_event_t -> bool }.

(** Same register contents. *)
Record regs_eq (r r' : regs) : Prop := {
  re_out : forall p, r_out r p = r_out r' p;
  re_in : forall p, r_in r p = r_in r' p;
  re_cnf : forall p, r_cnf r p = r_cnf r' p;
  re_chan : forall c, r_chan r c = r_chan r' c;
  re_mode : forall c, r_mode r c = r_mode r' c;
  re_inten : r_inten r = r_inten r';
  re_event : forall e, r_event r e = r_event r' e }.
#[export] Instance regs_equiv : Equiv regs := regs_eq.
#[export] Instance regs_equivalence : Equivalence (≡@{regs}).
Proof.
  split.
  - intros r. by split.
  - intros r r' []. by split.
  - intros r1 r2 r3 [] []. split; congruence.
Qed.

Definition upd {K A} `{EqDecision K} (k : K) (a : A) (f : K -> A) : K -> A :=
  fun x => if decide (x = k) then a else f x.

Definition w_out p v r := mk_regs (upd p v (r_out r)) (r_in r) (r_cnf r) (r_chan r) (r_mode r) (r_inten r) (r_event r).
Definition w_cnf p v r := mk_regs (r_out r) (r_in r) (upd p v (r_cnf r)) (r_chan r) (r_mode r) (r_inten r) (r_event r).
Definition w_chan c v r := mk_regs (r_out r) (r_in r) (r_cnf r) (upd c v (r_chan r)) (r_mode r) (r_inten r) (r_event r).
Definition w_mode c v r := mk_regs (r_out r) (r_in r) (r_cnf r) (r_chan r) (upd c v (r_mode r)) (r_inten r) (r_event r).
Definition w_inten v r := mk_regs (r_out r) (r_in r) (r_cnf r) (r_chan r) (r_mode r) v (r_event r).
Definition w_event e v r := mk_regs (r_out r) (r_in r) (r_cnf r) (r_chan r) (r_mode r) (r_inten r) (upd e v (r_event r)).

Definition cnf_set_sense s c := mk_cnf (cnf_dir c) (cnf_input c) (cnf_pull c) (cnf_drive c) s.

(** The HAL: operations on the hardware [H], specified on its registers. *)
Class NrfHal (H : Type) := {
  view : H -> regs;
  GPIOTE_CH_NUM : Z;
  NRF_GPIOTE_INT_IN_MASK : Z;
  NRF_GPIOTE_INT_PORT_MASK : Z;
  NRF_GPIO_PIN_MAP : Z -> Z -> Z;
  nrf_gpio_cfg : Z -> nrf_gpio_pin_dir_t -> nrf_gpio_pin_input_t -> nrf_gpio_pin_pull_t ->
    nrf_gpio_pin_drive_t -> nrf_gpio_pin_sense_t -> H -> H;
  nrf_gpio_cfg_sense_set : Z -> nrf_gpio_pin_sense_t -> H -> H;
  nrf_gpio_pin_dir_get : Z -> H -> nrf_gpio_pin_dir_t;
  nrf_gpio_port_in_read : Z -> H -> Z;
  nrf_gpio_port_out_read : Z -> H -> Z;
  nrf_gpio_port_out_write : Z -> Z -> H -> H;
  nrf_gpio_port_out_set : Z -> Z -> H -> H;
  nrf_gpio_port_out_clear : Z -> Z -> H -> H;
  nrf_gpiote_event_configure : Z -> Z -> nrf_gpiote_polarity_t -> H -> H;
  nrf_gpiote_event_clear : nrf_gpiote_event_t -> H -> H;
  nrf_gpiote_event_check : nrf_gpiote_event_t -> H -> bool;
  nrf_gpiote_event_enable : Z -> H -> H;
  nrf_gpiote_event_disable : Z -> H -> H;
  nrf_gpiote_event_pin_get : Z -> H -> Z;
  nrf_gpiote_int_enable : Z -> H -> H;
  nrf_gpiote_int_disable : Z -> H -> H;
  nrf_gpiote_int_enable_check : Z -> H -> Z;

  hal_ch_num : 0 < GPIOTE_CH_NUM <= 31;
  hal_in_mask i : 0 <= i < 32 -> Z.testbit NRF_GPIOTE_INT_IN_MASK i = (i <? GPIOTE_CH_NUM);
  hal_port_mask i : 0 <= i < GPIOTE_CH_NUM -> Z.testbit NRF_GPIOTE_INT_PORT_MASK i = false;
  hal_pin_map port pin : 0 <= port < 2 -> 0 <= pin < 32 -> NRF_GPIO_PIN_MAP port pin = 32 * port + pin;
  hal_cfg p d i pu dr s h : view (nrf_gpio_cfg p d i pu dr s h) ≡ w_cnf p (mk_cnf d i pu dr s) (view h);
  hal_sense_set p s h :
    view (nrf_gpio_cfg_sense_set p s h) ≡ w_cnf p (cnf_set_sense s (r_cnf (view h) p)) (view h);
  hal_dir_get p h : nrf_gpio_pin_dir_get p h = cnf_dir (r_cnf (view h) p);
  hal_in_read p h : nrf_gpio_port_in_read p h = r_in (view h) p;
  hal_out_read p h : nrf_gpio_port_out_read p h = r_out (view h) p;
  hal_out_write p v h : view (nrf_gpio_port_out_write p v h) ≡ w_out p v (view h);
  hal_out_set p m h : view (nrf_gpio_port_out_set p m h) ≡ w_out p (r_out (view h) p .| m) (view h);
  hal_out_clear p m h :
    view (nrf_gpio_port_out_clear p m h) ≡ w_out p (r_out (view h) p .& not32 m) (view h);
  hal_event_configure c p pol h : view (nrf_gpiote_event_configure c p pol h) ≡ w_chan c (p, pol) (view h);
  hal_event_clear e h : view (nrf_gpiote_event_clear e h) ≡ w_event e false (view h);
  hal_event_check e h : nrf_gpiote_event_check e h = r_event (view h) e;
  hal_event_enable c h : view (nrf_gpiote_event_enable c h) ≡ w_mode c true (view h);
  hal_event_disable c h : view (nrf_gpiote_event_disable c h) ≡ w_mode c false (view h);
  hal_event_pin_get c h : nrf_gpiote_event_pin_get c h = (r_chan (view h) c).1;
  hal_int_enable m h : view (nrf_gpiote_int_enable m h) ≡ w_inten (r_inten (view h) .| m) (view h);
  hal_int_disable m h : view (nrf_gpiote_int_disable m h) ≡ w_inten (r_inten (view h) .& not32 m) (view h);
  hal_int_check m h : nrf_gpiote_int_enable_check m h = r_inten (view h) .& m }.

Lemma regs_in_mask i : 0 <= i < 32 -> Z.testbit 255 i = (i <? 8).
Proof.
  intros Hi. change 255 with (Z.ones 8). destruct (Z.ltb_spec i 8);
    [apply Z.ones_spec_low|apply Z.ones_spec_high]; lia.
Qed.

Lemma regs_port_mask i : 0 <= i < 8 -> Z.testbit (BIT 31) i = false.
Proof. intros. rewrite bit_testbit by lia. lia. Qed.

Lemma regs_pin_map port pin :
  0 <= port < 2 -> 0 <= pin < 32 -> (port .<< 5) .| (pin .& 31) = 32 * port + pin.
Proof.
  intros Hport Hpin. change 31 with (Z.ones 5). rewrite Z.land_ones, Z.mod_small by lia.
  rewrite Z.shiftl_mul_pow2 by lia. rewrite <- Z.add_nocarry_lor; [lia|].
  apply Z.bits_inj'. intros n Hn. rewrite Z.land_spec, Z.bits_0.
  destruct (Z.ltb_spec n 5); [by rewrite Z.mul_pow2_bits_low by lia|].
  rewrite <- (Z.mod_small pin (2 ^ 5)) by lia. by rewrite Z.mod_pow2_bits_high, andb_false_r by lia.
Qed.

(** The registers themselves are such hardware (eight channels, port event in
    bit 31, as on the nRF52840). *)
#[export, program] Instance regs_hal : NrfHal regs := {
  view r := r;
  GPIOTE_CH_NUM := 8;
  NRF_GPIOTE_INT_IN_MASK := 255;
  NRF_GPIOTE_INT_PORT_MASK := BIT 31;
  NRF_GPIO_PIN_MAP port pin := (port .<< 5) .| (pin .& 31);
  nrf_gpio_cfg p d i pu dr s := w_cnf p (mk_cnf d i pu dr s);
  nrf_gpio_cfg_sense_set p s r := w_cnf p (cnf_set_sense s (r_cnf r p)) r;
  nrf_gpio_pin_dir_get p r := cnf_dir (r_cnf r p);
  nrf_gpio_port_in_read p r := r_in r p;
  nrf_gpio_port_out_read p r := r_out r p;
  nrf_gpio_port_out_write p v := w_out p v;
  nrf_gpio_port_out_set p m r := w_out p (r_out r p .| m) r;
  nrf_gpio_port_out_clear p m r := w_out p (r_out r p .& not32 m) r;
  nrf_gpiote_event_configure c p pol := w_chan c (p, pol);
  nrf_gpiote_event_clear e := w_event e false;
  nrf_gpiote_event_check e r := r_event r e;
  nrf_gpiote_event_enable c := w_mode c true;
  nrf_gpiote_event_disable c := w_mode c false;
  nrf_gpiote_event_pin_get c r := (r_chan r c).1;
  nrf_gpiote_int_enable m r := w_inten (r_inten r .| m) r;
  nrf_gpiote_int_disable m r := w_inten (r_inten r .& not32 m) r;
  nrf_gpiote_int_enable_check m r := r_inten r .& m }.
Next Obligation. lia. Qed.
Next Obligation. by apply regs_in_mask. Qed.
Next Obligation. by apply regs_port_mask. Qed.
Next Obligation. by apply regs_pin_map. Qed.
Solve All Obligations with (intros; reflexivity).

(** ** The driver *)

Record gpio_nrfx_data := mk_data {
  invert : Z;
  callbacks : list gpio_callback;
  pin_int_en : Z;
  int_active_level : Z;
  trig_edge : Z;
  double_edge : Z }.

(** [struct gpio_nrfx_cfg]; the port is its own number. *)
Record gpio_nrfx_cfg := mk_cfg { port_pin_mask : Z; port : Z; port_num : Z }.

(** The two port devices ([GPIO_NRF_DEVICE]), with 32 and 16 pins. *)
Definition get_port_cfg (id : Z) : gpio_nrfx_cfg :=
  mk_cfg (GPIO_PORT_PIN_MASK_FROM_NGPIOS (if id =? 0 then 32 else 16)) id id.

Section driver.
Context {H : Type} `{!NrfHal H}.

Record gpio_state := mk_gpio {
  hw : H;
  gpiote_alloc_mask : Z;
  ports : Z -> gpio_nrfx_data;
  gpio_initialized : bool;
  gpiote_irq : bool }.     (* the GPIOTE interrupt line is enabled *)
Implicit Types (g : gpio_state) (id pin flags : Z).

Definition on_hw (f : H -> H) g : gpio_state :=
  mk_gpio (f (hw g)) (gpiote_alloc_mask g) (ports g) (gpio_initialized g) (gpiote_irq g).
Definition set_alloc (m : Z) g : gpio_state :=
  mk_gpio (hw g) m (ports g) (gpio_initialized g) (gpiote_irq g).
Definition set_port_data id d g : gpio_state :=
  mk_gpio (hw g) (gpiote_alloc_mask g) (upd id d (ports g)) (gpio_initialized g) (gpiote_irq g).
Definition get_port_data id g : gpio_nrfx_data := ports g id.

(** [gpiote_channel_alloc]: the loop over the channels. *)
Fixpoint channel_alloc_loop (channels : list Z) (abs_pin : Z) (polarity : nrf_gpiote_polarity_t) g
    : Z * gpio_state :=
  match channels with
  | [] => (- ENODEV, g)
  | channel :: rest =>
      let prev := gpiote_alloc_mask g in
      let g := set_alloc (prev .| BIT channel) g in
      if (prev .& BIT channel) =? 0 then
        let g := on_hw (nrf_gpiote_event_configure channel abs_pin polarity) g in
        let g := on_hw (nrf_gpiote_event_clear (NRF_GPIOTE_EVENT_IN channel)) g in
        let g := on_hw (nrf_gpiote_event_enable channel) g in
        (0, on_hw (nrf_gpiote_int_enable (BIT channel)) g)
      else channel_alloc_loop rest abs_pin polarity g
  end.
Definition gpiote_channel_alloc (abs_pin : Z) (polarity : nrf_gpiote_polarity_t) g : Z * gpio_state :=
  channel_alloc_loop (seqZ 0 GPIOTE_CH_NUM) abs_pin polarity g.

(** [gpiote_pin_cleanup]: at most one channel serves a pin. *)
Fixpoint pin_cleanup_loop (intenset : Z) (channels : list Z) (abs_pin : Z) g : gpio_state :=
  match channels with
  | [] => g
  | i :: rest =>
      if (nrf_gpiote_event_pin_get i (hw g) =? abs_pin) && nz (intenset .& BIT i) then
        let g := set_alloc (gpiote_alloc_mask g .& not32 (BIT i)) g in
        let g := on_hw (nrf_gpiote_event_disable i) g in
        on_hw (nrf_gpiote_int_disable (BIT i)) g
      else pin_cleanup_loop intenset rest abs_pin g
  end.
Definition gpiote_pin_cleanup (abs_pin : Z) g : gpio_state :=
  let intenset := nrf_gpiote_int_enable_check NRF_GPIOTE_INT_IN_MASK (hw g) in
  pin_cleanup_loop intenset (seqZ 0 GPIOTE_CH_NUM) abs_pin g.

Definition sense_for_pin (d : gpio_nrfx_data) pin : nrf_gpio_pin_sense_t :=
  if nz (BIT pin .& int_active_level d) then NRF_GPIO_PIN_SENSE_HIGH else NRF_GPIO_PIN_SENSE_LOW.

Definition gpiote_pin_int_cfg id pin g : Z * gpio_state :=
  let d := get_port_data id g in
  let abs_pin := NRF_GPIO_PIN_MAP (port_num (get_port_cfg id)) pin in
  let g := gpiote_pin_cleanup abs_pin g in
  let g := on_hw (nrf_gpio_cfg_sense_set abs_pin NRF_GPIO_PIN_NOSENSE) g in
  if nz (pin_int_en d .& BIT pin) then
    if nz (trig_edge d .& BIT pin) then
      let pol :=
        if nz (double_edge d .& BIT pin) then NRF_GPIOTE_POLARITY_TOGGLE
        else if nz (int_active_level d .& BIT pin) then NRF_GPIOTE_POLARITY_LOTOHI
        else NRF_GPIOTE_POLARITY_HITOLO in
      gpiote_channel_alloc abs_pin pol g
    else (0, on_hw (nrf_gpio_cfg_sense_set abs_pin (sense_for_pin d pin)) g)
  else (0, g).

(** The drive strength selected by [gpio_nrfx_config]. *)
Definition config_drive flags : option nrf_gpio_pin_drive_t :=
  let f := flags .& (GPIO_DS_LOW_MASK .| GPIO_DS_HIGH_MASK .| GPIO_OPEN_DRAIN) in
  if f =? GPIO_DS_DFLT_LOW .| GPIO_DS_DFLT_HIGH then Some NRF_GPIO_PIN_S0S1
  else if f =? GPIO_DS_DFLT_LOW .| GPIO_DS_ALT_HIGH then Some NRF_GPIO_PIN_S0H1
  else if f =? GPIO_DS_DFLT_LOW .| GPIO_OPEN_DRAIN then Some NRF_GPIO_PIN_S0D1
  else if f =? GPIO_DS_ALT_LOW .| GPIO_DS_DFLT_HIGH then Some NRF_GPIO_PIN_H0S1
  else if f =? GPIO_DS_ALT_LOW .| GPIO_DS_ALT_HIGH then Some NRF_GPIO_PIN_H0H1
  else if f =? GPIO_DS_ALT_LOW .| GPIO_OPEN_DRAIN then Some NRF_GPIO_PIN_H0D1
  else if f =? GPIO_DS_DFLT_HIGH .| GPIO_OPEN_SOURCE then Some NRF_GPIO_PIN_D0S1
  else if f =? GPIO_DS_ALT_HIGH .| GPIO_OPEN_SOURCE then Some NRF_GPIO_PIN_D0H1
  else None.

Definition gpio_nrfx_config id pin flags g : Z * gpio_state :=
  let reg := port (get_port_cfg id) in
  match config_drive flags with
  | None => (- EINVAL, g)
  | Some drive =>
      let pull :=
        if nz (flags .& GPIO_PULL_UP) then NRF_GPIO_PIN_PULLUP
        else if nz (flags .& GPIO_PULL_DOWN) then NRF_GPIO_PIN_PULLDOWN
        else NRF_GPIO_PIN_NOPULL in
      let dir := if nz (flags .& GPIO_OUTPUT) then NRF_GPIO_PIN_DIR_OUTPUT else NRF_GPIO_PIN_DIR_INPUT in
      let input :=
        if nz (flags .& GPIO_INPUT) then NRF_GPIO_PIN_INPUT_CONNECT else NRF_GPIO_PIN_INPUT_DISCONNECT in
      let g :=
        if nz (flags .& GPIO_OUTPUT) then
          if nz (flags .& GPIO_OUTPUT_INIT_HIGH) then on_hw (nrf_gpio_port_out_set reg (BIT pin)) g
          else if nz (flags .& GPIO_OUTPUT_INIT_LOW) then on_hw (nrf_gpio_port_out_clear reg (BIT pin)) g
          else g
        else g in
      (0, on_hw (nrf_gpio_cfg (NRF_GPIO_PIN_MAP (port_num (get_port_cfg id)) pin)
                   dir input pull drive NRF_GPIO_PIN_NOSENSE) g)
  end.

Definition gpio_nrfx_port_get_raw id g : Z * Z :=
  (0, nrf_gpio_port_in_read (port (get_port_cfg id)) (hw g)).

Definition gpio_nrfx_port_set_masked_raw id (mask value : Z) g : Z * gpio_state :=
  let reg := port (get_port_cfg id) in
  let value_tmp := nrf_gpio_port_out_read reg (hw g) .& not32 mask in
  (0, on_hw (nrf_gpio_port_out_write reg (value_tmp .| (mask .& value))) g).

Definition gpio_nrfx_port_set_bits_raw id (mask : Z) g : Z * gpio_state :=
  (0, on_hw (nrf_gpio_port_out_set (port (get_port_cfg id)) mask) g).

Definition gpio_nrfx_port_clear_bits_raw id (mask : Z) g : Z * gpio_state :=
  (0, on_hw (nrf_gpio_port_out_clear (port (get_port_cfg id)) mask) g).

Definition gpio_nrfx_port_toggle_bits id (mask : Z) g : Z * gpio_state :=
  let reg := port (get_port_cfg id) in
  let value := nrf_gpio_port_out_read reg (hw g) in
  (0, on_hw (nrf_gpio_port_out_write reg (value .^ mask)) g).

(** [WRITE_BIT] on a 32-bit mask. *)
Definition WRITE_BIT (var bit : Z) (set : bool) : Z :=
  if set then var .| BIT bit else var .& not32 (BIT bit).

Definition gpio_nrfx_pin_interrupt_configure id pin (mode trig : Z) g : Z * gpio_state :=
  let abs_pin := NRF_GPIO_PIN_MAP (port_num (get_port_cfg id)) pin in
  if (mode =? GPIO_INT_MODE_EDGE) &&
     bool_decide (nrf_gpio_pin_dir_get abs_pin (hw g) = NRF_GPIO_PIN_DIR_OUTPUT)
  then (- ENOTSUP, g)
  else
    let d := get_port_data id g in
    let d := mk_data (invert d) (callbacks d)
      (WRITE_BIT (pin_int_en d) pin (negb (mode =? GPIO_INT_MODE_DISABLED)))
      (WRITE_BIT (int_active_level d) pin (trig =? GPIO_INT_TRIG_HIGH))
      (WRITE_BIT (trig_edge d) pin (mode =? GPIO_INT_MODE_EDGE))
      (WRITE_BIT (double_edge d) pin (trig =? GPIO_INT_TRIG_BOTH)) in
    gpiote_pin_int_cfg id pin (set_port_data id d g).

Definition set_callbacks l (d : gpio_nrfx_data) : gpio_nrfx_data :=
  mk_data (invert d) l (pin_int_en d) (int_active_level d) (trig_edge d) (double_edge d).

Definition gpio_nrfx_manage_callback id (cb : gpio_callback) (set : bool) g : Z * gpio_state :=
  let d := get_port_data id g in
  let '(r, l) := gpio_manage_callback (callbacks d) cb set in
  (r, set_port_data id (set_callbacks l d) g).

Definition set_invert (v : Z) (d : gpio_nrfx_data) : gpio_nrfx_data :=
  mk_data v (callbacks d) (pin_int_en d) (int_active_level d) (trig_edge d) (double_edge d).

(** [gpio_nrfx_drv_api_funcs]; the driver has no [get_pending_int]. *)
Definition gpio_nrfx_drv_api_funcs : gpio_driver_api gpio_state :=
  mk_api gpio_nrfx_config gpio_nrfx_port_get_raw gpio_nrfx_port_set_masked_raw
    gpio_nrfx_port_set_bits_raw gpio_nrfx_port_clear_bits_raw gpio_nrfx_port_toggle_bits
    (Some gpio_nrfx_pin_interrupt_configure) (Some gpio_nrfx_manage_callback) None
    (fun id g => invert (get_port_data id g))
    (fun id v g => set_port_data id (set_invert v (get_port_data id g)) g).
End driver.

(** ** The interrupt handler *)

(** A system state that contains the driver's. *)
Class HasGpio (H St : Type) := {
  gpio_of : St -> gpio_state (H := H);
  with_gpio : gpio_state (H := H) -> St -> St;
  gpio_of_with g s : gpio_of (with_gpio g s) = g;
  with_gpio_of s : with_gpio (gpio_of s) s = s;
  with_gpio_twice g g' s : with_gpio g (with_gpio g' s) = with_gpio g s }.

#[export, program] Instance gpio_itself {H} : HasGpio H (gpio_state (H := H)) := {
  gpio_of g := g; with_gpio g _ := g }.
Solve All Obligations with done.

Section handler.
Context {H : Type} `{!NrfHal H}.
Implicit Types (g : gpio_state (H := H)) (id pin : Z).

Definition get_level_pins id g : Z :=
  let d := get_port_data id g in
  pin_int_en d .& (not32 (trig_edge d) .& not32 (double_edge d)).

(** The walk over the pins of [level_pins], from [pin] on: sense is set to
    [sense pin] for each.  Also returns the pins not reached. *)
Fixpoint sense_loop (fuel : nat) (sense : Z -> nrf_gpio_pin_sense_t) id (level_pins pin bit : Z) g
    : Z * gpio_state (H := H) :=
  match fuel with
  | O => (level_pins, g)
  | S fuel =>
      if level_pins =? 0 then (level_pins, g)
      else
        let '(level_pins, g) :=
          if nz (level_pins .& bit) then
            let abs_pin := NRF_GPIO_PIN_MAP (port_num (get_port_cfg id)) pin in
            (level_pins .& not32 bit, on_hw (nrf_gpio_cfg_sense_set abs_pin (sense pin)) g)
          else (level_pins, g) in
        sense_loop fuel sense id level_pins (u32 (pin + 1)) (u32 (bit .<< 1)) g
  end.

Definition cfg_level_pins id g : gpio_state (H := H) :=
  (sense_loop 32 (sense_for_pin (get_port_data id g)) id (get_level_pins id g) 0 (1 .<< 0) g).2.

Definition check_level_trigger_pins id g : Z * gpio_state (H := H) :=
  let d := get_port_data id g in
  let level_pins := get_level_pins id g in
  let port_in := nrf_gpio_port_in_read (port (get_port_cfg id)) (hw g) in
  let pin_states := not32 (port_in .^ int_active_level d) in
  let out := pin_states .& level_pins in
  (out, (sense_loop 32 (fun _ => NRF_GPIO_PIN_NOSENSE) id level_pins 0 (1 .<< 0) g).2).

(** The loop over the GPIOTE channels: events of enabled channels become
    triggers of their pins and are cleared. *)
Definition channel_event (i : Z) (acc : (Z -> Z) * gpio_state (H := H)) : (Z -> Z) * gpio_state (H := H) :=
  let '(fired, g) := acc in
  if nz (nrf_gpiote_int_enable_check (BIT i) (hw g)) &&
     nrf_gpiote_event_check (NRF_GPIOTE_EVENT_IN i) (hw g)
  then
    let abs_pin := nrf_gpiote_event_pin_get i (hw g) in
    let p := abs_pin / 32 in
    (upd p (fired p .| BIT (abs_pin mod 32)) fired,
     on_hw (nrf_gpiote_event_clear (NRF_GPIOTE_EVENT_IN i)) g)
  else (fired, g).

(** The first half of [gpiote_event_handler]: which pins fired. *)
Definition collect_triggers g : bool * (Z -> Z) * gpio_state (H := H) :=
  let fired := fun _ => 0 in
  let port_event := nrf_gpiote_event_check NRF_GPIOTE_EVENT_PORT (hw g) in
  let '(fired, g) :=
    if port_event then
      let '(t0, g) := check_level_trigger_pins 0 g in
      let fired := upd 0 t0 fired in
      let '(t1, g) := check_level_trigger_pins 1 g in
      let fired := upd 1 t1 fired in
      (fired, on_hw (nrf_gpiote_event_clear NRF_GPIOTE_EVENT_PORT) g)
    else (fired, g) in
  let '(fired, g) := fold_left (fun acc i => channel_event i acc) (seqZ 0 GPIOTE_CH_NUM) (fired, g) in
  (port_event, fired, g).

Context {St : Type} `{!HasGpio H St}.
Implicit Types (s : St).

(** A handler: called with the port and its pins, it acts on the system. *)
Definition fire_callbacks (call : Z -> gpio_callback -> Z -> St -> St) id (pins : Z) s : St :=
  gpio_fire_callbacks (call id) (callbacks (get_port_data id (gpio_of s))) pins s.

Definition gpiote_event_handler (call : Z -> gpio_callback -> Z -> St -> St) s : St :=
  let '(port_event, fired_triggers, g) := collect_triggers (gpio_of s) in
  let s := with_gpio g s in
  let s := if nz (fired_triggers 0) then fire_callbacks call 0 (fired_triggers 0) s else s in
  let s := if nz (fired_triggers 1) then fire_callbacks call 1 (fired_triggers 1) s else s in
  if port_event then
    let s := with_gpio (cfg_level_pins 0 (gpio_of s)) s in
    with_gpio (cfg_level_pins 1 (gpio_of s)) s
  else s.

Definition gpio_nrfx_init g : Z * gpio_state (H := H) :=
  if negb (gpio_initialized g) then
    (0, on_hw (nrf_gpiote_int_enable NRF_GPIOTE_INT_PORT_MASK)
          (mk_gpio (hw g) (gpiote_alloc_mask g) (ports g) true true))
  else (0, g).
End handler.

(** ** Registers after each driver step *)

(** The law of the HAL for the operation that produced a hardware state. *)
Ltac hal_law t :=
  lazymatch t with
  | nrf_gpio_cfg ?a ?b ?c ?d ?e ?f ?h => constr:(hal_cfg a b c d e f h)
  | nrf_gpio_cfg_sense_set ?a ?b ?h => constr:(hal_sense_set a b h)
  | nrf_gpio_port_out_write ?a ?b ?h => constr:(hal_out_write a b h)
  | nrf_gpio_port_out_set ?a ?b ?h => constr:(hal_out_set a b h)
  | nrf_gpio_port_out_clear ?a ?b ?h => constr:(hal_out_clear a b h)
  | nrf_gpiote_event_configure ?a ?b ?c ?h => constr:(hal_event_configure a b c h)
  | nrf_gpiote_event_clear ?a ?h => constr:(hal_event_clear a h)
  | nrf_gpiote_event_enable ?a ?h => constr:(hal_event_enable a h)
  | nrf_gpiote_event_disable ?a ?h => constr:(hal_event_disable a h)
  | nrf_gpiote_int_enable ?a ?h => constr:(hal_int_enable a h)
  | nrf_gpiote_int_disable ?a ?h => constr:(hal_int_disable a h)
  end.

(** Reads of registers after HAL operations become reads before them. *)
Ltac hal_step :=
  match goal with
  | |- context [r_out (view ?t)] => let L := hal_law t in rewrite !(re_out _ _ L)
  | |- context [r_in (view ?t)] => let L := hal_law t in rewrite !(re_in _ _ L)
  | |- context [r_cnf (view ?t)] => let L := hal_law t in rewrite !(re_cnf _ _ L)
  | |- context [r_chan (view ?t)] => let L := hal_law t in rewrite !(re_chan _ _ L)
  | |- context [r_mode (view ?t)] => let L := hal_law t in rewrite !(re_mode _ _ L)
  | |- context [r_inten (view ?t)] => let L := hal_law t in rewrite !(re_inten _ _ L)
  | |- context [r_event (view ?t)] => let L := hal_law t in rewrite !(re_event _ _ L)
  end.
Ltac hal := cbn [hw on_hw set_alloc set_port_data ports gpiote_alloc_mask];
  repeat (hal_step; cbn [r_out r_in r_cnf r_chan r_mode r_inten r_event
                         w_out w_cnf w_chan w_mode w_inten w_event]).

Section channels.
Context {H : Type} `{!NrfHal H}.
Implicit Types (g : gpio_state (H := H)) (i p : Z).

(** Channel [i] raises interrupts; [chan_pin] is its pin. *)
Definition chan_on g i : bool := Z.testbit (r_inten (view (hw g))) i.
Definition chan_pin g i : Z := (r_chan (view (hw g)) i).1.

(** The allocation mask and the enabled channels agree, and no pin has two. *)
Record gpiote_ok g : Prop := {
  go_alloc : forall i, 0 <= i < GPIOTE_CH_NUM -> Z.testbit (gpiote_alloc_mask g) i = chan_on g i;
  go_mode : forall i, 0 <= i < GPIOTE_CH_NUM -> chan_on g i = true -> r_mode (view (hw g)) i = true;
  go_unique : forall i j, 0 <= i < GPIOTE_CH_NUM -> 0 <= j < GPIOTE_CH_NUM ->
    chan_on g i = true -> chan_on g j = true -> chan_pin g i = chan_pin g j -> i = j }.

(** Pin [p] raises interrupts on edges of polarity [pol]. *)
Definition served g p (pol : nrf_gpiote_polarity_t) : Prop :=
  exists i, 0 <= i < GPIOTE_CH_NUM /\ chan_on g i = true /\ r_chan (view (hw g)) i = (p, pol).

(** Everything but the channels is the same. *)
Record pins_kept g g' : Prop := {
  pk_ports : ports g' = ports g;
  pk_out : forall q, r_out (view (hw g')) q = r_out (view (hw g)) q;
  pk_in : forall q, r_in (view (hw g')) q = r_in (view (hw g)) q;
  pk_cnf : forall q, r_cnf (view (hw g')) q = r_cnf (view (hw g)) q }.

Lemma ch_range i : 0 <= i < GPIOTE_CH_NUM -> 0 <= i < 32.
Proof. pose proof hal_ch_num. lia. Qed.

(** Freeing a channel that was on. *)
Definition free_chan i g : gpio_state (H := H) :=
  on_hw (nrf_gpiote_int_disable (BIT i))
    (on_hw (nrf_gpiote_event_disable i) (set_alloc (gpiote_alloc_mask g .& not32 (BIT i)) g)).

Lemma free_chan_spec i g :
  0 <= i < GPIOTE_CH_NUM ->
  (forall j, 0 <= j < GPIOTE_CH_NUM -> chan_on (free_chan i g) j = chan_on g j && negb (j =? i)) /\
  (forall j, r_chan (view (hw (free_chan i g))) j = r_chan (view (hw g)) j) /\
  pins_kept g (free_chan i g) /\ (gpiote_ok g -> gpiote_ok (free_chan i g)).
Proof.
  intros Hi. pose proof (ch_range i Hi).
  assert (Hon : forall j, 0 <= j < GPIOTE_CH_NUM -> chan_on (free_chan i g) j = chan_on g j && negb (j =? i)).
  { intros j Hj. pose proof (ch_range j Hj). unfold chan_on, free_chan. hal.
    by rewrite Z.land_spec, not32_testbit, bit_testbit by lia. }
  assert (Hch : forall j, r_chan (view (hw (free_chan i g))) j = r_chan (view (hw g)) j)
    by (intros j; unfold free_chan; by hal).
  split; [done|]. split; [done|]. split; [split; intros; unfold free_chan; by hal|].
  intros [G1 G2 G3]. split.
  - intros j Hj. pose proof (ch_range j Hj). rewrite Hon by done. cbn [free_chan gpiote_alloc_mask on_hw set_alloc].
    by rewrite Z.land_spec, not32_testbit, bit_testbit, G1 by lia.
  - intros j Hj Ho. rewrite Hon in Ho by done. apply andb_true_iff in Ho as [Ho Hne]. unfold free_chan. hal.
    unfold upd. rewrite decide_False by lia. by apply G2.
  - intros j k Hj Hk Oj Ok. unfold chan_pin. rewrite !Hch. rewrite Hon in Oj, Ok by done.
    apply andb_true_iff in Oj as [? _], Ok as [? _]. by apply G3.
Qed.

Lemma pins_kept_refl g : pins_kept g g.
Proof. by split. Qed.

(** The search of [gpiote_pin_cleanup]: it frees a channel of the pin, if the
    part of the channels searched has one. *)
Lemma cleanup_loop_spec p g l :
  let intenset := r_inten (view (hw g)) .& NRF_GPIOTE_INT_IN_MASK in
  (forall i, i ∈ l -> 0 <= i < GPIOTE_CH_NUM) ->
  (exists i, i ∈ l /\ chan_on g i = true /\ chan_pin g i = p /\ pin_cleanup_loop intenset l p g = free_chan i g) \/
  ((forall i, i ∈ l -> chan_on g i = true -> chan_pin g i <> p) /\ pin_cleanup_loop intenset l p g = g).
Proof.
  intros intenset Hl. induction l as [|i l IH]; cbn [pin_cleanup_loop].
  - right. split; [|done]. intros i Hi. by apply elem_of_nil in Hi.
  - assert (Hi : 0 <= i < GPIOTE_CH_NUM) by (apply Hl; constructor). pose proof (ch_range i Hi).
    rewrite hal_event_pin_get, nz_land_bit by done.
    assert (Hint : Z.testbit intenset i = chan_on g i).
    { unfold intenset, chan_on. rewrite Z.land_spec, hal_in_mask by done.
      destruct (Z.ltb_spec i GPIOTE_CH_NUM); [apply andb_true_r|lia]. }
    rewrite Hint. destruct (_ && _) eqn:E.
    + apply andb_true_iff in E as [Ep Eo]. left. exists i. split; [constructor|]. split; [done|].
      split; [|done]. unfold chan_pin. lia.
    + destruct IH as [(j&Hj&Oj&Pj&Ej)|[IH Ej]]; [intros j Hj; apply Hl; by right| |].
      * left. exists j. split; [by right|done].
      * right. split; [|done]. intros j [->|Hj]%elem_of_cons Oj; [|by apply IH].
        rewrite Oj, andb_true_r in E. unfold chan_pin. lia.
Qed.

Lemma all_channels i : i ∈ seqZ 0 GPIOTE_CH_NUM <-> 0 <= i < GPIOTE_CH_NUM.
Proof. rewrite elem_of_seqZ. lia. Qed.

(** [gpiote_pin_cleanup] takes exactly the pin's channel away. *)
Lemma cleanup_spec p g :
  gpiote_ok g ->
  let g' := gpiote_pin_cleanup p g in
  gpiote_ok g' /\ pins_kept g g' /\
  (forall i, r_chan (view (hw g')) i = r_chan (view (hw g)) i) /\
  (forall i, 0 <= i < GPIOTE_CH_NUM -> chan_on g' i = chan_on g i && negb (chan_pin g i =? p)).
Proof.
  intros Hg g'. unfold g', gpiote_pin_cleanup. rewrite hal_int_check.
  destruct (cleanup_loop_spec p g (seqZ 0 GPIOTE_CH_NUM)) as [(i&Hi&Oi&Pi&->)|[Hn ->]];
    [intros i; apply all_channels| |].
  - apply all_channels in Hi. destruct (free_chan_spec i g Hi) as (F1&F2&F3&F4).
    split; [by apply F4|]. split; [done|]. split; [done|].
    intros j Hj. rewrite F1 by done. destruct (chan_on g j) eqn:Oj; [|done]. cbn. f_equal.
    destruct (Z.eqb_spec j i) as [->|Hne]; [by rewrite Pi, Z.eqb_refl|].
    destruct (Z.eqb_spec (chan_pin g j) p) as [Hp|]; [|done]. destruct Hne.
    apply (go_unique _ Hg); congruence.
  - split; [done|]. split; [apply pins_kept_refl|]. split; [done|].
    intros i Hi. destruct (chan_on g i) eqn:Oi; [|done]. cbn.
    specialize (Hn i (proj2 (all_channels i) Hi) Oi). lia.
Qed.

(** Enabling a free channel. *)
Definition take_chan i p pol g : gpio_state (H := H) :=
  on_hw (nrf_gpiote_int_enable (BIT i)) (on_hw (nrf_gpiote_event_enable i)
    (on_hw (nrf_gpiote_event_clear (NRF_GPIOTE_EVENT_IN i))
      (on_hw (nrf_gpiote_event_configure i p pol) (set_alloc (gpiote_alloc_mask g .| BIT i) g)))).

Lemma take_chan_spec i p pol g :
  0 <= i < GPIOTE_CH_NUM ->
  (forall j, 0 <= j < GPIOTE_CH_NUM -> chan_on (take_chan i p pol g) j = chan_on g j || (j =? i)) /\
  (forall j, r_chan (view (hw (take_chan i p pol g))) j = if j =? i then (p, pol) else r_chan (view (hw g)) j) /\
  pins_kept g (take_chan i p pol g) /\
  r_event (view (hw (take_chan i p pol g))) (NRF_GPIOTE_EVENT_IN i) = false /\
  (gpiote_ok g -> chan_on g i = false ->
   (forall j, 0 <= j < GPIOTE_CH_NUM -> chan_on g j = true -> chan_pin g j <> p) ->
   gpiote_ok (take_chan i p pol g)).
Proof.
  intros Hi. pose proof (ch_range i Hi).
  assert (Hon : forall j, 0 <= j < GPIOTE_CH_NUM -> chan_on (take_chan i p pol g) j = chan_on g j || (j =? i)).
  { intros j Hj. pose proof (ch_range j Hj). unfold chan_on, take_chan. hal.
    by rewrite Z.lor_spec, bit_testbit by lia. }
  assert (Hch : forall j, r_chan (view (hw (take_chan i p pol g))) j = if j =? i then (p, pol) else r_chan (view (hw g)) j).
  { intros j. unfold take_chan. hal. unfold upd. destruct (decide (j = i)), (Z.eqb_spec j i); done. }
  split; [done|]. split; [done|]. split; [split; intros; unfold take_chan; by hal|].
  split; [unfold take_chan; hal; unfold upd; by rewrite decide_True|].
  intros [G1 G2 G3] Hoff Hfree. split.
  - intros j Hj. pose proof (ch_range j Hj). rewrite Hon by done. cbn [take_chan gpiote_alloc_mask on_hw set_alloc].
    by rewrite Z.lor_spec, bit_testbit, G1 by lia.
  - intros j Hj Ho. rewrite Hon in Ho by done. unfold take_chan. hal. unfold upd.
    destruct (decide (j = i)); [done|]. hal. apply G2; [done|]. apply orb_true_iff in Ho as [?|?]; [done|lia].
  - intros j k Hj Hk Oj Ok. unfold chan_pin. rewrite !Hch. rewrite Hon in Oj, Ok by done.
    destruct (Z.eqb_spec j i) as [->|], (Z.eqb_spec k i) as [->|]; cbn; rewrite ?orb_false_r in *; try done.
    + intros E. by destruct (Hfree k Hk Ok).
    + intros E. by destruct (Hfree j Hj Oj).
    + by apply G3.
Qed.

Lemma lor_bit_set m c : 0 <= c < 32 -> Z.testbit m c = true -> m .| BIT c = m.
Proof.
  intros Hc Hb. apply Z.bits_inj'. intros n Hn. rewrite Z.lor_spec, bit_testbit by lia.
  destruct (Z.eqb_spec n c) as [->|]; [by rewrite Hb|apply orb_false_r].
Qed.

(** [gpiote_channel_alloc] takes a free channel, or fails and changes nothing. *)
Lemma alloc_loop_spec p pol g l :
  gpiote_ok g -> (forall i, i ∈ l -> 0 <= i < GPIOTE_CH_NUM) ->
  (exists i, i ∈ l /\ chan_on g i = false /\ channel_alloc_loop l p pol g = (0, take_chan i p pol g)) \/
  ((forall i, i ∈ l -> chan_on g i = true) /\ channel_alloc_loop l p pol g = (- ENODEV, g)).
Proof.
  intros Hg Hl. induction l as [|i l IH]; cbn [channel_alloc_loop].
  - right. split; [|done]. intros i Hi. by apply elem_of_nil in Hi.
  - assert (Hi : 0 <= i < GPIOTE_CH_NUM) by (apply Hl; constructor). pose proof (ch_range i Hi).
    pose proof (nz_land_bit (gpiote_alloc_mask g) i) as Hnz. unfold nz in Hnz.
    rewrite (go_alloc _ Hg i Hi) in Hnz. specialize (Hnz ltac:(lia)).
    destruct (_ =? 0); cbn in Hnz.
    + left. exists i. split; [constructor|]. done.
    + rewrite lor_bit_set by (done || by rewrite (go_alloc _ Hg)).
      replace (set_alloc (gpiote_alloc_mask g) g) with g by (by destruct g).
      destruct IH as [(j&Hj&Oj&Ej)|[IH Ej]]; [intros j Hj; apply Hl; by right| |].
      * left. exists j. split; [by right|done].
      * right. split; [|done]. intros j [->|Hj]%elem_of_cons; [done|by apply IH].
Qed.

(** Changing a pin's sense leaves the channels alone. *)
Lemma sense_channels p sn g :
  let g' := on_hw (nrf_gpio_cfg_sense_set p sn) g in
  (forall i, chan_on g' i = chan_on g i) /\ (forall i, r_chan (view (hw g')) i = r_chan (view (hw g)) i) /\
  (gpiote_ok g -> gpiote_ok g').
Proof.
  intros g'. assert (Hon : forall i, chan_on g' i = chan_on g i) by (intros i; unfold chan_on, g'; by hal).
  assert (Hch : forall i, r_chan (view (hw g')) i = r_chan (view (hw g)) i) by (intros i; unfold g'; by hal).
  split; [done|]. split; [done|]. intros [G1 G2 G3]. split.
  - intros i Hi. rewrite Hon. by apply G1.
  - intros i Hi. rewrite Hon. unfold g'. hal. by apply G2.
  - intros i j Hi Hj. unfold chan_pin. rewrite !Hon, !Hch. by apply G3.
Qed.

Lemma set_port_channels id d g : gpiote_ok g -> gpiote_ok (set_port_data id d g).
Proof. intros [G1 G2 G3]. by split. Qed.

(** The polarity a configured edge interrupt has. *)
Definition edge_polarity (trig : Z) : nrf_gpiote_polarity_t :=
  if trig =? GPIO_INT_TRIG_BOTH then NRF_GPIOTE_POLARITY_TOGGLE
  else if trig =? GPIO_INT_TRIG_HIGH then NRF_GPIOTE_POLARITY_LOTOHI
  else NRF_GPIOTE_POLARITY_HITOLO.

Lemma write_bit_testbit v n b i :
  0 <= n < 32 -> 0 <= i < 32 -> Z.testbit (WRITE_BIT v n b) i = if i =? n then b else Z.testbit v i.
Proof.
  intros Hn Hi. unfold WRITE_BIT. destruct b.
  - rewrite Z.lor_spec, bit_testbit by lia. destruct (i =? n); [apply orb_true_r|apply orb_false_r].
  - rewrite Z.land_spec, not32_testbit, bit_testbit by lia.
    destruct (i =? n); [apply andb_false_r|apply andb_true_r].
Qed.

(** After the pin's channel is gone: nobody serves it, others are served as before. *)
Lemma cleaned_served p sn g :
  gpiote_ok g ->
  let g' := on_hw (nrf_gpio_cfg_sense_set p sn) (gpiote_pin_cleanup p g) in
  gpiote_ok g' /\
  (forall i, 0 <= i < GPIOTE_CH_NUM -> chan_on g' i = true -> chan_on g i = true /\ chan_pin g' i <> p) /\
  (forall q pol, served g' q pol <-> q <> p /\ served g q pol).
Proof.
  intros Hg g'. destruct (cleanup_spec p g Hg) as (C1&C2&C3&C4).
  destruct (sense_channels p sn (gpiote_pin_cleanup p g)) as (S1&S2&S3).
  assert (Hon : forall i, 0 <= i < GPIOTE_CH_NUM -> chan_on g' i = chan_on g i && negb (chan_pin g i =? p))
    by (intros i Hi; unfold g'; by rewrite S1, C4).
  assert (Hch : forall i, r_chan (view (hw g')) i = r_chan (view (hw g)) i)
    by (intros i; unfold g'; by rewrite S2, C3).
  split; [by apply S3|]. split.
  - intros i Hi Oi. rewrite Hon in Oi by done. apply andb_true_iff in Oi as [Oi Hp].
    unfold chan_pin in *. rewrite Hch. split; [done|lia].
  - intros q pol. split.
    + intros (i&Hi&Oi&Ei). rewrite Hon in Oi by done. apply andb_true_iff in Oi as [Oi Hp].
      rewrite Hch in Ei. unfold chan_pin in Hp. rewrite Ei in Hp. cbn in Hp. split; [lia|]. by exists i.
    + intros [Hne (i&Hi&Oi&Ei)]. exists i. rewrite Hon, Hch, Oi by done. split; [done|].
      split; [|done]. unfold chan_pin. rewrite Ei. cbn. lia.
Qed.

(** [gpiote_channel_alloc] for a pin nobody serves. *)
Lemma alloc_served p pol g :
  gpiote_ok g -> (forall i, 0 <= i < GPIOTE_CH_NUM -> chan_on g i = true -> chan_pin g i <> p) ->
  let '(r, g') := gpiote_channel_alloc p pol g in
  gpiote_ok g' /\ (forall q pol', q <> p -> served g' q pol' <-> served g q pol') /\
  ((r = 0 /\ forall pol', served g' p pol' <-> pol' = pol) \/
   (r = - ENODEV /\ g' = g /\ (forall pol', ~ served g' p pol') /\
    forall i, 0 <= i < GPIOTE_CH_NUM -> chan_on g' i = true)).
Proof.
  intros Hg Hfree. unfold gpiote_channel_alloc.
  destruct (alloc_loop_spec p pol g (seqZ 0 GPIOTE_CH_NUM) Hg) as [(i&Hi&Oi&->)|[Hall ->]];
    [intros i; apply all_channels| |].
  - apply all_channels in Hi. destruct (take_chan_spec i p pol g Hi) as (T1&T2&_&_&T5).
    split; [by apply T5|]. split.
    + intros q pol' Hq. split; intros (j&Hj&Oj&Ej).
      * rewrite T1 in Oj by done. rewrite T2 in Ej. destruct (Z.eqb_spec j i) as [->|]; [congruence|].
        exists j. by rewrite orb_false_r in Oj.
      * exists j. rewrite T1, T2, Oj by done. destruct (Z.eqb_spec j i) as [->|]; [congruence|done].
    + left. split; [done|]. intros pol'. split.
      * intros (j&Hj&Oj&Ej). rewrite T1 in Oj by done. rewrite T2 in Ej.
        destruct (Z.eqb_spec j i); [congruence|]. rewrite orb_false_r in Oj.
        destruct (Hfree j Hj Oj). unfold chan_pin. by rewrite Ej.
      * intros ->. exists i. rewrite T1, T2, Z.eqb_refl, orb_true_r by done. done.
  - split; [done|]. split; [done|]. right. split; [done|]. split; [done|]. split.
    + intros pol' (j&Hj&Oj&Ej). destruct (Hfree j Hj Oj). unfold chan_pin. by rewrite Ej.
    + intros i Hi. by apply Hall, all_channels.
Qed.

Lemma int_configure_spec id pin mode trig g :
  gpiote_ok g -> 0 <= id < 2 -> 0 <= pin < 32 ->
  let p := 32 * id + pin in
  let '(r, g') := gpio_nrfx_pin_interrupt_configure id pin mode trig g in
  gpiote_ok g' /\
  (forall q pol, q <> p -> served g' q pol <-> served g q pol) /\
  if mode =? GPIO_INT_MODE_EDGE then
    match cnf_dir (r_cnf (view (hw g)) p) with
    | NRF_GPIO_PIN_DIR_OUTPUT => r = - ENOTSUP /\ g' = g
    | NRF_GPIO_PIN_DIR_INPUT =>
        (r = 0 /\ forall pol, served g' p pol <-> pol = edge_polarity trig) \/
        (r = - ENODEV /\ (forall pol, ~ served g' p pol) /\
         forall i, 0 <= i < GPIOTE_CH_NUM -> chan_on g i = true /\ chan_on g' i = true)
    end
  else r = 0 /\ forall pol, ~ served g' p pol.
Proof.
  intros Hg Hid Hpin p. unfold gpio_nrfx_pin_interrupt_configure.
  cbn [get_port_cfg port_num]. rewrite hal_pin_map, hal_dir_get by done. fold p.
  set (d := mk_data _ _ _ _ _ _). set (g1 := set_port_data id d g).
  assert (Hg1 : gpiote_ok g1) by (by apply set_port_channels).
  destruct (cleaned_served p NRF_GPIO_PIN_NOSENSE g1 Hg1) as (C1&C2&C3).
  set (g2 := on_hw _ (gpiote_pin_cleanup p g1)) in *.
  assert (Hs1 : forall q pol, served g1 q pol <-> served g q pol) by done.
  assert (Hnone : forall pol, ~ served g2 p pol) by (intros pol; rewrite C3; naive_solver).
  assert (Hcfg : gpiote_pin_int_cfg id pin g1 =
    if negb (mode =? GPIO_INT_MODE_DISABLED) then
      if mode =? GPIO_INT_MODE_EDGE then gpiote_channel_alloc p (edge_polarity trig) g2
      else (0, on_hw (nrf_gpio_cfg_sense_set p (sense_for_pin d pin)) g2)
    else (0, g2)).
  { unfold gpiote_pin_int_cfg. cbn [get_port_cfg port_num]. rewrite hal_pin_map by done. fold p. fold g2.
    change (get_port_data id g1) with (upd id d (ports g) id). unfold upd. rewrite decide_True by done.
    unfold d at 1 2 3 4. cbn [pin_int_en trig_edge double_edge int_active_level].
    by rewrite !nz_land_bit, !write_bit_testbit, !Z.eqb_refl by lia. }
  destruct (Z.eqb_spec mode GPIO_INT_MODE_EDGE) as [->|Hne].
  - destruct (cnf_dir _); cbn [andb]; [|by rewrite bool_decide_true].
    rewrite bool_decide_false, Hcfg by done. change (negb _) with true. cbn iota.
    pose proof (alloc_served p (edge_polarity trig) g2 C1 (fun i Hi Oi => proj2 (C2 i Hi Oi))) as A.
    destruct (gpiote_channel_alloc _ _ _) as [r g']. destruct A as (A1&A2&A3).
    split; [done|]. split; [intros q pol Hq; rewrite A2, C3 by done; naive_solver|].
    destruct A3 as [A3|(A3&->&A4&A5)]; [by left|right]. split; [done|]. split; [done|].
    intros i Hi. specialize (A5 i Hi). split; [|done]. by destruct (C2 i Hi A5).
  - cbn [andb]. rewrite Hcfg. destruct (negb _).
    + destruct (sense_channels p (sense_for_pin d pin) g2) as (S1&S2&S3).
      assert (Hs : forall q pol, served (on_hw (nrf_gpio_cfg_sense_set p (sense_for_pin d pin)) g2) q pol <-> served g2 q pol)
        by (intros q pol; unfold served; by setoid_rewrite S1; setoid_rewrite S2).
      split; [by apply S3|]. split; [intros q pol Hq; rewrite Hs, C3; naive_solver|].
      split; [done|]. intros pol. by rewrite Hs.
    + split; [done|]. split; [intros q pol Hq; rewrite C3; naive_solver|done].
Qed.

(** Interrupt configuration keeps callbacks and inversion. *)
Lemma int_configure_ports id pin mode trig g q :
  let g' := (gpio_nrfx_pin_interrupt_configure id pin mode trig g).2 in
  callbacks (ports g' q) = callbacks (ports g q) /\ invert (ports g' q) = invert (ports g q).
Proof.
  assert (Hc : forall en l p g, ports (pin_cleanup_loop en l p g) = ports g).
  { intros en l p. induction l as [|i l IH]; intros g1; cbn; [done|]. by destruct (_ && _). }
  assert (Ha : forall l p pol g, ports (channel_alloc_loop l p pol g).2 = ports g).
  { intros l p pol. induction l as [|i l IH]; intros g1; cbn; [done|]. destruct (_ =? 0); [done|]. by rewrite IH. }
  cbn zeta. unfold gpio_nrfx_pin_interrupt_configure. destruct (_ && _); [done|].
  unfold gpiote_pin_int_cfg, gpiote_channel_alloc, gpiote_pin_cleanup.
  destruct (nz _); [destruct (nz _)|]; cbn [snd]; rewrite ?Ha; cbn [on_hw ports]; rewrite Hc; cbn [set_port_data ports];
    unfold upd; destruct (decide (q = id)) as [->|]; done.
Qed.
End channels.

(** ** Port access and pin configuration *)

Section outputs.
Context {H : Type} `{!NrfHal H}.
Implicit Types (g : gpio_state (H := H)) (id pin flags : Z).

#[export, program] Instance nrfx_output : GpioOutput (gpio_nrfx_drv_api_funcs (H := H)) := {
  latch id g := r_out (view (hw g)) id }.
Next Obligation.
  intros id mask value g. cbn. split; [done|]. split; [done|]. intros q n Hn. rewrite hal_out_read. hal.
  unfold upd. destruct (decide (q = id)) as [->|]; [|by rewrite (proj2 (Z.eqb_neq q id))].
  rewrite Z.eqb_refl, Z.lor_spec, !Z.land_spec, not32_testbit by lia. cbn.
  by destruct (Z.testbit mask n), (Z.testbit value n), (Z.testbit (r_out _ _) n).
Qed.
Next Obligation.
  intros id pins g. cbn. split; [done|]. split; [done|]. intros q n Hn. hal.
  unfold upd. destruct (decide (q = id)) as [->|]; [|by rewrite (proj2 (Z.eqb_neq q id))].
  rewrite Z.eqb_refl, Z.lor_spec. cbn. by destruct (Z.testbit pins n), (Z.testbit (r_out _ _) n).
Qed.
Next Obligation.
  intros id pins g. cbn. split; [done|]. split; [done|]. intros q n Hn. hal.
  unfold upd. destruct (decide (q = id)) as [->|]; [|by rewrite (proj2 (Z.eqb_neq q id))].
  rewrite Z.eqb_refl, Z.land_spec, not32_testbit by lia. cbn.
  by destruct (Z.testbit pins n), (Z.testbit (r_out _ _) n).
Qed.
Next Obligation.
  intros id pins g. cbn. split; [done|]. split; [done|]. intros q n Hn. rewrite hal_out_read. hal.
  unfold upd. destruct (decide (q = id)) as [->|]; [|by rewrite (proj2 (Z.eqb_neq q id))].
  rewrite Z.eqb_refl, Z.lxor_spec. cbn. by destruct (Z.testbit pins n), (Z.testbit (r_out _ _) n).
Qed.

Lemma nz_flag flags n : 0 <= n < 32 -> nz (flags .& (1 .<< n)) = Z.testbit flags n.
Proof. intros Hn. rewrite Z.shiftl_1_l, <- bit_pow by done. by apply nz_land_bit. Qed.

(** What [gpio_nrfx_config] programs for a set of flags. *)
Definition config_cnf flags (drive : nrf_gpio_pin_drive_t) : pin_cnf :=
  mk_cnf (if Z.testbit flags 9 then NRF_GPIO_PIN_DIR_OUTPUT else NRF_GPIO_PIN_DIR_INPUT)
    (if Z.testbit flags 8 then NRF_GPIO_PIN_INPUT_CONNECT else NRF_GPIO_PIN_INPUT_DISCONNECT)
    (if Z.testbit flags 4 then NRF_GPIO_PIN_PULLUP
     else if Z.testbit flags 5 then NRF_GPIO_PIN_PULLDOWN else NRF_GPIO_PIN_NOPULL)
    drive NRF_GPIO_PIN_NOSENSE.

Lemma nrfx_config_spec id pin flags g :
  0 <= id < 2 -> 0 <= pin < 32 ->
  match config_drive flags with
  | None => gpio_nrfx_config id pin flags g = (- EINVAL, g)
  | Some drive =>
      let '(r, g') := gpio_nrfx_config id pin flags g in
      r = 0 /\ ports g' = ports g /\ gpiote_alloc_mask g' = gpiote_alloc_mask g /\
      (forall q, r_cnf (view (hw g')) q =
         if q =? 32 * id + pin then config_cnf flags drive else r_cnf (view (hw g)) q) /\
      (forall q n, 0 <= n < 32 -> Z.testbit (latch q g') n =
         if (q =? id) && (n =? pin) && Z.testbit flags 9 && (Z.testbit flags 10 || Z.testbit flags 11)
         then Z.testbit flags 11 else Z.testbit (latch q g) n) /\
      (forall q, r_in (view (hw g')) q = r_in (view (hw g)) q) /\
      (forall c, r_chan (view (hw g')) c = r_chan (view (hw g)) c) /\
      (forall c, r_mode (view (hw g')) c = r_mode (view (hw g)) c) /\
      r_inten (view (hw g')) = r_inten (view (hw g)) /\
      (forall e, r_event (view (hw g')) e = r_event (view (hw g)) e)
  end.
Proof.
  intros Hid Hpin. unfold gpio_nrfx_config. destruct (config_drive flags) as [drive|]; [|done].
  cbn [get_port_cfg port port_num]. rewrite hal_pin_map by done.
  unfold GPIO_OUTPUT, GPIO_OUTPUT_INIT_HIGH, GPIO_OUTPUT_INIT_LOW, GPIO_INPUT, GPIO_PULL_UP, GPIO_PULL_DOWN.
  rewrite !nz_flag by lia.
  set (g1 := if Z.testbit flags 9 then _ else g).
  assert (H1 : ports g1 = ports g /\ gpiote_alloc_mask g1 = gpiote_alloc_mask g /\
    (forall q, r_cnf (view (hw g1)) q = r_cnf (view (hw g)) q) /\
    (forall q n, 0 <= n < 32 -> Z.testbit (latch q g1) n =
       if (q =? id) && (n =? pin) && Z.testbit flags 9 && (Z.testbit flags 10 || Z.testbit flags 11)
       then Z.testbit flags 11 else Z.testbit (latch q g) n) /\
    (forall q, r_in (view (hw g1)) q = r_in (view (hw g)) q) /\
    (forall c, r_chan (view (hw g1)) c = r_chan (view (hw g)) c) /\
    (forall c, r_mode (view (hw g1)) c = r_mode (view (hw g)) c) /\
    r_inten (view (hw g1)) = r_inten (view (hw g)) /\
    (forall e, r_event (view (hw g1)) e = r_event (view (hw g)) e)).
  { pose proof (latch_set id (BIT pin) g) as Ls. pose proof (latch_clear id (BIT pin) g) as Lc.
    cbn in Ls, Lc. destruct Ls as (_&_&Ls), Lc as (_&_&Lc).
    unfold g1. destruct (Z.testbit flags 9); [destruct (Z.testbit flags 11); [|destruct (Z.testbit flags 10)]|];
      (split; [done|]); (split; [done|]); (split; [intros; by hal|]);
      (split; [|split; [|split; [|split; [|split]]]]; intros; try (by hal)).
    - cbn -[Z.testbit]. rewrite Ls, bit_testbit by lia. by destruct (q =? id), (n =? pin), (Z.testbit flags 10).
    - cbn -[Z.testbit]. rewrite Lc, bit_testbit by lia. by destruct (q =? id), (n =? pin).
    - by rewrite andb_false_r.
    - by rewrite andb_false_r. }
  clearbody g1. destruct H1 as (A1&A2&A3&A4&A5&A6&A7&A8&A9).
  split; [done|]. split; [done|]. split; [done|].
  split; [|split; [|split; [|split; [|split; [|split]]]]]; intros; cbn [latch nrfx_output] in *; hal; auto.
  unfold upd. rewrite A3. destruct (decide _), (Z.eqb_spec q (32 * id + pin)); done.
Qed.

Lemma land_lxor_apart a c m : c .& m = 0 -> (a .^ c) .& m = a .& m.
Proof.
  intros H0. apply Z.bits_inj'. intros n Hn. rewrite !Z.land_spec, Z.lxor_spec.
  assert (E : Z.testbit (c .& m) n = false) by (rewrite H0; apply Z.bits_0). rewrite Z.land_spec in E.
  destruct (Z.testbit a n), (Z.testbit c n), (Z.testbit m n); done.
Qed.

(** The flags after the logical initial level has been translated. *)
Definition init_flags flags : Z :=
  if nz (flags .& GPIO_OUTPUT_INIT_LOGICAL) &&
     nz (flags .& (GPIO_OUTPUT_INIT_LOW .| GPIO_OUTPUT_INIT_HIGH)) && nz (flags .& GPIO_ACTIVE_LOW)
  then flags .^ (GPIO_OUTPUT_INIT_LOW .| GPIO_OUTPUT_INIT_HIGH .| GPIO_OUTPUT_INIT_LOGICAL) else flags.

Lemma init_flags_spec flags :
  config_drive (init_flags flags) = config_drive flags /\
  (forall n, 0 <= n < 32 -> n < 10 \/ 12 < n -> Z.testbit (init_flags flags) n = Z.testbit flags n) /\
  let swap := Z.testbit flags 12 && (Z.testbit flags 10 || Z.testbit flags 11) && Z.testbit flags 0 in
  Z.testbit (init_flags flags) 10 = xorb swap (Z.testbit flags 10) /\
  Z.testbit (init_flags flags) 11 = xorb swap (Z.testbit flags 11).
Proof.
  unfold init_flags. rewrite Z.land_lor_distr_r, nz_lor.
  unfold GPIO_OUTPUT_INIT_LOGICAL, GPIO_OUTPUT_INIT_LOW, GPIO_OUTPUT_INIT_HIGH, GPIO_ACTIVE_LOW.
  rewrite !nz_flag by lia.
  change (1 .<< 10 .| 1 .<< 11 .| 1 .<< 12) with 7168.
  destruct (Z.testbit flags 12 && _ && _); [|done]. cbn zeta.
  assert (Hb : forall n, 0 <= n < 32 -> Z.testbit 7168 n = (10 <=? n) && (n <=? 12)).
  { intros n Hn. change 7168 with (7 .<< 10). rewrite Z.shiftl_spec by lia. change 7 with (Z.ones 3).
    destruct (Z.leb_spec 10 n); [|by rewrite Z.testbit_neg_r by lia].
    destruct (Z.leb_spec n 12); [by rewrite Z.ones_spec_low by lia|by rewrite Z.ones_spec_high by lia]. }
  split; [|split].
  - unfold config_drive. by rewrite land_lxor_apart.
  - intros n Hn Hr. rewrite Z.lxor_spec, Hb by lia. bdestruct; cbn; apply xorb_false_r.
  - rewrite !Z.lxor_spec, !Hb by lia. cbn -[Z.testbit]. by rewrite !(xorb_comm _ true).
Qed.

(** The logical level a pin is initialised to. *)
Definition init_level flags : bool :=
  if Z.testbit flags 12 then Z.testbit flags 11 else xorb (Z.testbit flags 11) (Z.testbit flags 0).

(** [gpio_pin_configure] without interrupt flags. *)
Lemma pin_configure_spec id pin flags g :
  0 <= id < 2 -> 0 <= pin < 32 -> Z.testbit flags 13 = false -> Z.testbit flags 14 = false ->
  Z.testbit flags 10 && Z.testbit flags 11 = false ->
  match config_drive flags with
  | None => gpio_pin_configure gpio_nrfx_drv_api_funcs id pin flags g = (- EINVAL, g)
  | Some drive =>
      let '(r, g') := gpio_pin_configure gpio_nrfx_drv_api_funcs id pin flags g in
      r = 0 /\ gpiote_alloc_mask g' = gpiote_alloc_mask g /\
      (forall q, callbacks (ports g' q) = callbacks (ports g q)) /\
      (forall q, r_cnf (view (hw g')) q =
         if q =? 32 * id + pin then config_cnf flags drive else r_cnf (view (hw g)) q) /\
      (forall q n, 0 <= n < 32 -> Z.testbit (invert (ports g' q)) n =
         if (q =? id) && (n =? pin) then Z.testbit flags 0 else Z.testbit (invert (ports g q)) n) /\
      (Z.testbit flags 9 = true -> Z.testbit flags 10 || Z.testbit flags 11 = true ->
       active gpio_nrfx_drv_api_funcs id pin g' = init_level flags) /\
      (forall q n, 0 <= n < 32 -> q <> id \/ n <> pin ->
       active gpio_nrfx_drv_api_funcs q n g' = active gpio_nrfx_drv_api_funcs q n g) /\
      (forall q, r_in (view (hw g')) q = r_in (view (hw g)) q) /\
      (forall c, r_chan (view (hw g')) c = r_chan (view (hw g)) c) /\
      (forall c, r_mode (view (hw g')) c = r_mode (view (hw g)) c) /\
      r_inten (view (hw g')) = r_inten (view (hw g)) /\
      (forall e, r_event (view (hw g')) e = r_event (view (hw g)) e)
  end.
Proof.
  intros Hid Hpin H13 H14 Hx. unfold gpio_pin_configure, z_impl_gpio_config. fold (init_flags flags).
  destruct (init_flags_spec flags) as (I1&I2&I3&I4).
  pose proof (nrfx_config_spec id pin (init_flags flags) g Hid Hpin) as Hc. rewrite I1 in Hc.
  cbn [api_pin_configure gpio_nrfx_drv_api_funcs].
  destruct (config_drive flags) as [drive|]; [|by rewrite Hc].
  destruct (gpio_nrfx_config _ _ _ _) as [r g1]. destruct Hc as (->&C1&C2&C3&C4&C5&C6&C7&C8&C9).
  change (nz 0) with false. cbn iota. rewrite (Z.land_lor_distr_r _ GPIO_INT_DISABLE), nz_lor.
  unfold GPIO_INT_DISABLE, GPIO_INT_ENABLE, GPIO_ACTIVE_LOW.
  rewrite !nz_flag, !I2, H13, H14 by lia. cbn [orb].
  set (v := if Z.testbit flags 0 then _ else _).
  assert (Hv : v = set_port_data id (set_invert (WRITE_BIT (invert (ports g1 id)) pin (Z.testbit flags 0)) (ports g1 id)) g1)
    by (unfold v; by destruct (Z.testbit flags 0)).
  clearbody v. subst v.
  assert (Hcnf : config_cnf (init_flags flags) drive = config_cnf flags drive)
    by (unfold config_cnf; by rewrite !I2 by lia).
  assert (Hinv : forall q n, 0 <= n < 32 ->
     Z.testbit (invert (upd id (set_invert (WRITE_BIT (invert (ports g1 id)) pin (Z.testbit flags 0)) (ports g1 id)) (ports g1) q)) n =
     if (q =? id) && (n =? pin) then Z.testbit flags 0 else Z.testbit (invert (ports g q)) n).
  { intros q n Hn. unfold upd. destruct (decide (q = id)) as [->|].
    - rewrite Z.eqb_refl. cbn [invert set_invert]. rewrite write_bit_testbit, C1 by lia. done.
    - rewrite (proj2 (Z.eqb_neq q id)), C1 by done. done. }
  split; [done|]. split; [done|].
  split; [intros q; cbn; unfold upd; rewrite C1; by destruct (decide (q = id)) as [->|]|].
  split; [intros q; cbn [hw set_port_data]; by rewrite C3, Hcnf|]. split; [exact Hinv|].
  split; [|split; [|by repeat split]].
  - intros H9 Hw. unfold active. cbn [api_invert gpio_nrfx_drv_api_funcs get_port_data ports set_port_data].
    rewrite Hinv, Z.eqb_refl, Z.eqb_refl by lia. cbn [andb].
    change (latch id (set_port_data _ _ g1)) with (latch id g1).
    rewrite C4, !Z.eqb_refl, !I2, H9, I3, I4 by lia. cbn [andb]. unfold init_level.
    destruct (Z.testbit flags 12), (Z.testbit flags 10), (Z.testbit flags 11), (Z.testbit flags 0); done.
  - intros q n Hn Hd. unfold active. cbn [api_invert gpio_nrfx_drv_api_funcs get_port_data ports set_port_data].
    rewrite Hinv by lia. change (latch q (set_port_data _ _ g1)) with (latch q g1). rewrite C4 by lia.
    destruct (Z.eqb_spec q id), (Z.eqb_spec n pin); cbn [andb]; try done. naive_solver.
Qed.
End outputs.

(** ** The handler's two mechanisms *)

Section interrupts.
Context {H : Type} `{!NrfHal H}.
Implicit Types (g : gpio_state (H := H)) (id pin : Z).

(** Channel [i] has an event to report. *)
Definition chan_fires g i : bool := chan_on g i && r_event (view (hw g)) (NRF_GPIOTE_EVENT_IN i).

(** Everything but the channels' events is the same. *)
Record only_events g g' : Prop := {
  oe_ports : ports g' = ports g;
  oe_alloc : gpiote_alloc_mask g' = gpiote_alloc_mask g;
  oe_init : gpio_initialized g' = gpio_initialized g /\ gpiote_irq g' = gpiote_irq g;
  oe_out : forall q, r_out (view (hw g')) q = r_out (view (hw g)) q;
  oe_in : forall q, r_in (view (hw g')) q = r_in (view (hw g)) q;
  oe_cnf : forall q, r_cnf (view (hw g')) q = r_cnf (view (hw g)) q;
  oe_chan : forall c, r_chan (view (hw g')) c = r_chan (view (hw g)) c;
  oe_mode : forall c, r_mode (view (hw g')) c = r_mode (view (hw g)) c;
  oe_inten : r_inten (view (hw g')) = r_inten (view (hw g)) }.

Lemma only_events_refl g : only_events g g.
Proof. by split. Qed.

Lemma only_events_trans g1 g2 g3 : only_events g1 g2 -> only_events g2 g3 -> only_events g1 g3.
Proof. intros [? ? [] ] [? ? [] ]. split; try split; intros; congruence. Qed.

Lemma clear_only_events e g : only_events g (on_hw (nrf_gpiote_event_clear e) g).
Proof. split; try done; intros; by hal. Qed.

Lemma existsb_ext_in {A} (f f' : A -> bool) (l : list A) :
  (forall x, x ∈ l -> f x = f' x) -> existsb f l = existsb f' l.
Proof.
  intros Hf. induction l as [|x l IH]; [done|]. cbn. f_equal; [apply Hf; constructor|].
  apply IH. intros y Hy. apply Hf. by right.
Qed.

Lemma one_channel (fired : Z -> Z) g i :
  0 <= i < GPIOTE_CH_NUM ->
  let '(fired', g') := channel_event i (fired, g) in
  only_events g g' /\
  (forall e, r_event (view (hw g')) e =
     r_event (view (hw g)) e && negb (bool_decide (e = NRF_GPIOTE_EVENT_IN i) && chan_on g i)) /\
  (forall q n, 0 <= n < 32 -> Z.testbit (fired' q) n =
     Z.testbit (fired q) n || (chan_fires g i && (chan_pin g i =? 32 * q + n))).
Proof.
  intros Hi. pose proof (ch_range i Hi). unfold channel_event, chan_fires.
  rewrite hal_int_check, nz_land_bit, hal_event_check, hal_event_pin_get by done.
  fold (chan_on g i). fold (chan_pin g i).
  destruct (chan_on g i) eqn:Eo; [destruct (r_event _ (NRF_GPIOTE_EVENT_IN i)) eqn:Ee|]; cbn [andb].
  - split; [apply clear_only_events|]. split.
    + intros e. hal. unfold upd. rewrite andb_true_r. destruct (decide (e = NRF_GPIOTE_EVENT_IN i)) as [->|].
      * by rewrite bool_decide_true, andb_false_r.
      * by rewrite bool_decide_false, andb_true_r.
    + intros q n Hn. pose proof (Z.div_mod (chan_pin g i) 32 ltac:(lia)).
      pose proof (Z.mod_pos_bound (chan_pin g i) 32 ltac:(lia)). unfold upd.
      destruct (decide (q = chan_pin g i / 32)) as [->|Hne].
      * rewrite Z.lor_spec, bit_testbit by lia. f_equal. lia.
      * rewrite (proj2 (Z.eqb_neq _ _)) by lia. by rewrite orb_false_r.
  - split; [apply only_events_refl|]. split; intros.
    + rewrite andb_true_r. destruct (bool_decide (e = _)) eqn:E; [|by rewrite andb_true_r].
      apply bool_decide_eq_true in E as ->. by rewrite Ee.
    + by rewrite orb_false_r.
  - split; [apply only_events_refl|]. split; intros; [by rewrite andb_false_r, andb_true_r|by rewrite orb_false_r].
Qed.

(** The channels in [l], walked: the pins of those that fire are added to the
    triggers, and their events are cleared. *)
Lemma channels_walk l (fired : Z -> Z) g :
  (forall i, i ∈ l -> 0 <= i < GPIOTE_CH_NUM) -> NoDup l ->
  let '(fired', g') := fold_left (fun acc i => channel_event i acc) l (fired, g) in
  only_events g g' /\
  (forall e, r_event (view (hw g')) e =
     r_event (view (hw g)) e && negb (existsb (fun i => bool_decide (e = NRF_GPIOTE_EVENT_IN i) && chan_on g i) l)) /\
  (forall q n, 0 <= n < 32 -> Z.testbit (fired' q) n =
     Z.testbit (fired q) n || existsb (fun i => chan_fires g i && (chan_pin g i =? 32 * q + n)) l).
Proof.
  revert fired g. induction l as [|i l IH]; intros fired g Hl Hd.
  - cbn. split; [apply only_events_refl|]. split; intros; [by rewrite andb_true_r|by rewrite orb_false_r].
  - apply NoDup_cons in Hd as [Hnin Hd]. assert (Hi : 0 <= i < GPIOTE_CH_NUM) by (apply Hl; constructor).
    pose proof (ch_range i Hi). cbn [fold_left existsb].
    pose proof (one_channel fired g i Hi) as H1.
    destruct (channel_event i (fired, g)) as [fired1 g1]. destruct H1 as (E1&E2&E3).
    specialize (IH fired1 g1 (fun j Hj => Hl j (proj2 (elem_of_cons l j i) (or_intror Hj))) Hd).
    destruct (fold_left _ _ _) as [fired' g']. destruct IH as (I1&I2&I3).
    assert (Hon : forall j, chan_on g1 j = chan_on g j) by (intros j; unfold chan_on; by rewrite (oe_inten _ _ E1)).
    assert (Hpin : forall j, chan_pin g1 j = chan_pin g j) by (intros j; unfold chan_pin; by rewrite (oe_chan _ _ E1)).
    assert (Hf : forall j, j ∈ l -> chan_fires g1 j = chan_fires g j).
    { intros j Hj. unfold chan_fires. rewrite Hon, E2, bool_decide_false; [by rewrite andb_true_r|].
      intros [= ->]. done. }
    split; [by eapply only_events_trans|]. split.
    + intros e. rewrite I2, E2, <- andb_assoc, <- negb_orb. do 3 f_equal.
      apply existsb_ext_in. intros j _. by rewrite Hon.
    + intros q n Hn. rewrite I3, E3, <- orb_assoc by done. do 2 f_equal.
      apply existsb_ext_in. intros j Hj. by rewrite Hf, Hpin.
Qed.

Lemma lor_range a b : 0 <= a < 2 ^ 32 -> 0 <= b < 2 ^ 32 -> 0 <= a .| b < 2 ^ 32.
Proof.
  intros Ha Hb. split; [apply Z.lor_nonneg; lia|].
  replace (a .| b) with ((a .| b) mod 2 ^ 32); [apply Z.mod_pos_bound; lia|].
  rewrite <- Z.land_ones by lia. rewrite Z.land_lor_distr_l, !Z.land_ones by lia.
  by rewrite !Z.mod_small by lia.
Qed.

Lemma walk_range l (fired : Z -> Z) g :
  (forall q, 0 <= fired q < 2 ^ 32) ->
  forall q, 0 <= (fold_left (fun acc i => channel_event i acc) l (fired, g)).1 q < 2 ^ 32.
Proof.
  revert fired g. induction l as [|i l IH]; intros fired g Hf; [done|]. cbn [fold_left].
  destruct (channel_event i (fired, g)) as [fired1 g1] eqn:E. apply IH. intros q.
  unfold channel_event in E. destruct (_ && _); injection E as <- <-; [|apply Hf].
  unfold upd. destruct (decide _); [|apply Hf]. apply lor_range; [apply Hf|apply u32_range].
Qed.

(** Everything but the pins' configuration registers is the same. *)
Record only_cnf g g' : Prop := {
  oc_ports : ports g' = ports g;
  oc_alloc : gpiote_alloc_mask g' = gpiote_alloc_mask g;
  oc_init : gpio_initialized g' = gpio_initialized g /\ gpiote_irq g' = gpiote_irq g;
  oc_out : forall q, r_out (view (hw g')) q = r_out (view (hw g)) q;
  oc_in : forall q, r_in (view (hw g')) q = r_in (view (hw g)) q;
  oc_chan : forall c, r_chan (view (hw g')) c = r_chan (view (hw g)) c;
  oc_mode : forall c, r_mode (view (hw g')) c = r_mode (view (hw g)) c;
  oc_inten : r_inten (view (hw g')) = r_inten (view (hw g));
  oc_event : forall e, r_event (view (hw g')) e = r_event (view (hw g)) e }.

Lemma only_cnf_trans g1 g2 g3 : only_cnf g1 g2 -> only_cnf g2 g3 -> only_cnf g1 g3.
Proof. intros [? ? [] ] [? ? [] ]. split; try split; intros; congruence. Qed.

(** The pins [level] of port [id] sense [sense]. *)
Definition senses (sense : Z -> nrf_gpio_pin_sense_t) id (level : Z) (cnf : Z -> pin_cnf) (q : Z) : pin_cnf :=
  if (32 * id <=? q) && (q <? 32 * id + 32) && Z.testbit level (q - 32 * id)
  then cnf_set_sense (sense (q - 32 * id)) (cnf q) else cnf q.

Lemma bit_shift k : 0 <= k -> u32 (BIT k .<< 1) = BIT (k + 1).
Proof.
  intros Hk. unfold BIT, u32. rewrite !Z.shiftl_mul_pow2, Zmult_mod_idemp_l by lia.
  by rewrite Z.pow_add_r, Z.mul_assoc by lia.
Qed.

Lemma eq_bits32 a b :
  0 <= a < 2 ^ 32 -> 0 <= b < 2 ^ 32 -> (forall i, 0 <= i < 32 -> Z.testbit a i = Z.testbit b i) -> a = b.
Proof.
  intros Ha Hb Hi. apply Z.bits_inj'. intros n Hn. destruct (Z.ltb_spec n 32); [by apply Hi|].
  rewrite <- (Z.mod_small a (2 ^ 32)), <- (Z.mod_small b (2 ^ 32)) by lia.
  by rewrite !Z.mod_pow2_bits_high by lia.
Qed.

Lemma no_bits z : 0 <= z < 2 ^ 32 -> (forall i, 0 <= i < 32 -> Z.testbit z i = false) -> z = 0.
Proof. intros Hz Hb. apply eq_bits32; [done|done|]. intros i Hi. rewrite Z.bits_0. by apply Hb. Qed.

Lemma land_range a b : 0 <= a < 2 ^ 32 -> 0 <= b -> 0 <= a .& b < 2 ^ 32.
Proof.
  intros Ha Hb. split; [apply Z.land_nonneg; lia|].
  replace (a .& b) with ((a .& b) mod 2 ^ 32); [apply Z.mod_pos_bound; lia|].
  rewrite <- !Z.land_ones by lia. rewrite <- Z.land_assoc, (Z.land_comm b), Z.land_assoc.
  by rewrite (Z.land_ones a), (Z.mod_small a) by lia.
Qed.

Lemma not32_range z : 0 <= not32 z.
Proof. unfold not32. pose proof (u32_range z). lia. Qed.

(** The walk reaches every pin within its 32 steps. *)
Lemma sense_loop_spec n k sense id level g :
  0 <= k -> k + Z.of_nat n = 32 -> 0 <= id < 2 -> 0 <= level < 2 ^ 32 ->
  (forall i, 0 <= i < k -> Z.testbit level i = false) ->
  let '(rest, g') := sense_loop n sense id level k (BIT k) g in
  rest = 0 /\ only_cnf g g' /\
  forall q, r_cnf (view (hw g')) q = senses sense id level (r_cnf (view (hw g))) q.
Proof.
  revert k level g. induction n as [|n IH]; intros k level g Hk Hn Hid Hl Hlow; cbn [sense_loop].
  - assert (level = 0) as -> by (apply no_bits; [done|]; intros; apply Hlow; lia).
    split; [done|]. split; [by split|]. intros q. unfold senses. by rewrite Z.bits_0, andb_false_r.
  - destruct (Z.eqb_spec level 0) as [->|Hnz].
    { split; [done|]. split; [by split|]. intros q. unfold senses. by rewrite Z.bits_0, andb_false_r. }
    cbn [get_port_cfg port_num]. rewrite hal_pin_map, nz_land_bit by lia.
    rewrite bit_shift, (u32_small (k + 1)) by lia.
    destruct (Z.testbit level k) eqn:Eb.
    + specialize (IH (k + 1) (level .& not32 (BIT k)) (on_hw (nrf_gpio_cfg_sense_set (32 * id + k) (sense k)) g)).
      destruct (sense_loop _ _ _ _ _ _ _) as [rest g']. destruct IH as (I1&I2&I3); [lia|lia|done| | |].
      * apply land_range; [done|apply not32_range].
      * intros i Hi. rewrite Z.land_spec, not32_testbit, bit_testbit by lia.
        destruct (Z.eqb_spec i k) as [->|]; [apply andb_false_r|]. rewrite Hlow by lia. done.
      * split; [done|]. split; [eapply only_cnf_trans; [|exact I2]; split; try done; intros; by hal|].
        intros q. rewrite I3. unfold senses. hal. unfold upd.
        destruct (Z.leb_spec (32 * id) q), (Z.ltb_spec q (32 * id + 32)); cbn [andb];
          destruct (decide (q = 32 * id + k)) as [->|]; try done; try lia.
        -- replace (32 * id + k - 32 * id) with k by lia.
           by rewrite Z.land_spec, not32_testbit, bit_testbit, Z.eqb_refl, Eb by lia.
        -- rewrite Z.land_spec, not32_testbit, bit_testbit by lia.
           by rewrite (proj2 (Z.eqb_neq (q - 32 * id) k)), andb_true_r by lia.
    + specialize (IH (k + 1) level g). destruct (sense_loop _ _ _ _ _ _ _) as [rest g'].
      apply IH; [lia|lia|done|done|]. intros i Hi. destruct (Z.eq_dec i k) as [->|]; [done|]. apply Hlow. lia.
Qed.

(** Level-triggered pins: armed, configured for a level and not for an edge. *)
Definition data_ok (d : gpio_nrfx_data) : Prop := 0 <= pin_int_en d < 2 ^ 32.

Lemma level_pins_range id g : data_ok (ports g id) -> 0 <= get_level_pins id g < 2 ^ 32.
Proof. intros Hd. apply land_range; [done|]. apply Z.land_nonneg. left. apply not32_range. Qed.

(** Checking the level pins reports those at their trigger level and stops
    sensing on all of them; [cfg_level_pins] arms them again. *)
Lemma level_check_spec id g :
  0 <= id < 2 -> data_ok (ports g id) ->
  let d := ports g id in let level := get_level_pins id g in
  let '(out, g') := check_level_trigger_pins id g in
  (forall n, 0 <= n < 32 -> Z.testbit out n =
     Z.testbit level n && eqb (Z.testbit (r_in (view (hw g)) id) n) (Z.testbit (int_active_level d) n)) /\
  only_cnf g g' /\
  (forall q, r_cnf (view (hw g')) q = senses (fun _ => NRF_GPIO_PIN_NOSENSE) id level (r_cnf (view (hw g))) q) /\
  only_cnf g' (cfg_level_pins id g') /\
  (forall q, r_cnf (view (hw (cfg_level_pins id g'))) q =
     senses (sense_for_pin d) id level (r_cnf (view (hw g'))) q).
Proof.
  intros Hid Hd d level. unfold check_level_trigger_pins.
  pose proof (level_pins_range id g Hd) as Hl. fold level in Hl |- *.
  pose proof (sense_loop_spec 32 0 (fun _ => NRF_GPIO_PIN_NOSENSE) id level g) as L.
  change (BIT 0) with (1 .<< 0) in L. destruct (sense_loop _ _ _ _ _ _ _) as [rest g'].
  destruct L as (_&L2&L3); [lia|lia|done|done|lia|]. cbn [snd].
  split; [|split; [done|split; [done|]]].
  - intros n Hn. rewrite Z.land_spec, not32_testbit, Z.lxor_spec, andb_comm by lia. f_equal.
    cbn [get_port_cfg port]. rewrite hal_in_read. fold d. by destruct (Z.testbit (r_in _ _) n), (Z.testbit _ n).
  - assert (El : get_level_pins id g' = level)
      by (unfold level, get_level_pins, get_port_data; by rewrite (oc_ports _ _ L2)).
    unfold cfg_level_pins. rewrite El. unfold get_port_data. rewrite (oc_ports _ _ L2). fold d.
    pose proof (sense_loop_spec 32 0 (sense_for_pin d) id level g') as M.
    change (BIT 0) with (1 .<< 0) in M. destruct (sense_loop _ _ _ _ _ _ _) as [rest' g2].
    destruct M as (_&M2&M3); [lia|lia|done|done|lia|]. done.
Qed.
End interrupts.

Section dispatch.
Context {H St : Type} `{!NrfHal H} `{!HasGpio H St}.
Implicit Types (s : St) (call : Z -> gpio_callback -> Z -> St -> St).

Lemma fire_nothing call id s : fire_callbacks call id 0 s = s.
Proof.
  unfold fire_callbacks. rewrite fire_callbacks_spec, filter_none; [done|].
  apply Forall_forall. intros cb _. by rewrite Z.land_0_r.
Qed.

(** A run of the handler without a port event: edges only. *)
Lemma handler_edges call s :
  r_event (view (hw (gpio_of s))) NRF_GPIOTE_EVENT_PORT = false ->
  exists fired g',
    gpiote_event_handler call s =
      fire_callbacks call 1 (fired 1) (fire_callbacks call 0 (fired 0) (with_gpio g' s)) /\
    only_events (gpio_of s) g' /\ (forall q, 0 <= fired q < 2 ^ 32) /\
    (forall e, r_event (view (hw g')) e =
       r_event (view (hw (gpio_of s))) e &&
       negb (existsb (fun i => bool_decide (e = NRF_GPIOTE_EVENT_IN i) && chan_on (gpio_of s) i) (seqZ 0 GPIOTE_CH_NUM))) /\
    forall q n, 0 <= n < 32 -> Z.testbit (fired q) n =
      existsb (fun i => chan_fires (gpio_of s) i && (chan_pin (gpio_of s) i =? 32 * q + n)) (seqZ 0 GPIOTE_CH_NUM).
Proof.
  intros Hp. unfold gpiote_event_handler, collect_triggers. rewrite hal_event_check, Hp.
  pose proof (channels_walk (seqZ 0 GPIOTE_CH_NUM) (fun _ => 0) (gpio_of s)) as W.
  pose proof (walk_range (seqZ 0 GPIOTE_CH_NUM) (fun _ => 0) (gpio_of s)) as R.
  destruct (fold_left _ _ _) as [fired g']. destruct W as (W1&W2&W3);
    [intros i; apply all_channels|apply NoDup_seqZ|].
  exists fired, g'. split; [|split; [done|split; [by apply R|split; [done|]]]].
  - assert (Hnz : forall id v x, (if nz v then fire_callbacks call id v x else x) = fire_callbacks call id v x).
    { intros id v x. unfold nz. destruct (Z.eqb_spec v 0) as [->|]; [|done]. by rewrite fire_nothing. }
    by rewrite !Hnz.
  - intros q n Hn. rewrite W3 by done. by rewrite Z.bits_0.
Qed.

(** Everything but events and pin configurations is the same. *)
Record only_served (g g' : gpio_state (H := H)) : Prop := {
  os_ports : ports g' = ports g;
  os_alloc : gpiote_alloc_mask g' = gpiote_alloc_mask g;
  os_init : gpio_initialized g' = gpio_initialized g /\ gpiote_irq g' = gpiote_irq g;
  os_out : forall q, r_out (view (hw g')) q = r_out (view (hw g)) q;
  os_in : forall q, r_in (view (hw g')) q = r_in (view (hw g)) q;
  os_chan : forall c, r_chan (view (hw g')) c = r_chan (view (hw g)) c;
  os_mode : forall c, r_mode (view (hw g')) c = r_mode (view (hw g)) c;
  os_inten : r_inten (view (hw g')) = r_inten (view (hw g)) }.

Lemma only_served_trans g1 g2 g3 : only_served g1 g2 -> only_served g2 g3 -> only_served g1 g3.
Proof. intros [? ? [] ] [? ? [] ]. split; try split; intros; congruence. Qed.

Lemma events_served g g' : only_events g g' -> only_served g g'.
Proof. by intros []. Qed.

Lemma cnf_served g g' : only_cnf g g' -> only_served g g'.
Proof. by intros []. Qed.

(** Pin [n] of port [q] takes part in level interrupts and is at its trigger level. *)
Definition level_fires g q n : bool :=
  Z.testbit (get_level_pins q g) n &&
  eqb (Z.testbit (r_in (view (hw g)) q) n) (Z.testbit (int_active_level (ports g q)) n).

(** The registers after the check of both ports: their level pins do not sense. *)
Definition silenced g (q : Z) : pin_cnf :=
  senses (fun _ => NRF_GPIO_PIN_NOSENSE) 1 (get_level_pins 1 g)
    (senses (fun _ => NRF_GPIO_PIN_NOSENSE) 0 (get_level_pins 0 g) (r_cnf (view (hw g)))) q.

(** The part of [collect_triggers] for a port event. *)
Lemma port_event_spec g :
  data_ok (ports g 0) -> data_ok (ports g 1) ->
  let '(t0, g0) := check_level_trigger_pins 0 g in
  let '(t1, g1) := check_level_trigger_pins 1 g0 in
  let g' := on_hw (nrf_gpiote_event_clear NRF_GPIOTE_EVENT_PORT) g1 in
  only_served g g' /\ (forall q, r_cnf (view (hw g')) q = silenced g q) /\
  (forall i, r_event (view (hw g')) (NRF_GPIOTE_EVENT_IN i) = r_event (view (hw g)) (NRF_GPIOTE_EVENT_IN i)) /\
  r_event (view (hw g')) NRF_GPIOTE_EVENT_PORT = false /\
  (forall n, 0 <= n < 32 -> Z.testbit t0 n = level_fires g 0 n /\ Z.testbit t1 n = level_fires g 1 n).
Proof.
  intros D0 D1. pose proof (level_check_spec 0 g ltac:(lia) D0) as L0. cbn zeta in L0.
  destruct (check_level_trigger_pins 0 g) as [t0 g0]. destruct L0 as (A1&A2&A3&_).
  pose proof (level_check_spec 1 g0 ltac:(lia)) as L1. rewrite (oc_ports _ _ A2) in L1. specialize (L1 D1). cbn zeta in L1.
  destruct (check_level_trigger_pins 1 g0) as [t1 g1]. destruct L1 as (B1&B2&B3&_).
  assert (El : get_level_pins 1 g0 = get_level_pins 1 g) by (unfold get_level_pins, get_port_data; by rewrite (oc_ports _ _ A2)).
  rewrite El in *. cbn zeta. pose proof (clear_only_events NRF_GPIOTE_EVENT_PORT g1) as C.
  split; [|split; [|split; [|split]]].
  - eapply only_served_trans; [apply cnf_served, A2|]. eapply only_served_trans; [apply cnf_served, B2|]. by apply events_served.
  - intros q. rewrite (oe_cnf _ _ C), B3. unfold silenced, senses. by rewrite A3.
  - intros i. hal. unfold upd. rewrite decide_False by done. by rewrite (oc_event _ _ B2), (oc_event _ _ A2).
  - hal. unfold upd. by rewrite decide_True.
  - intros n Hn. split; [by apply A1|]. rewrite B1 by done. by rewrite (oc_in _ _ A2).
Qed.

(** What [collect_triggers] finds and leaves. *)
Lemma collect_spec g :
  data_ok (ports g 0) -> data_ok (ports g 1) ->
  let '(pe, fired, g') := collect_triggers g in
  pe = r_event (view (hw g)) NRF_GPIOTE_EVENT_PORT /\ only_served g g' /\
  (forall q, r_cnf (view (hw g')) q = if pe then silenced g q else r_cnf (view (hw g)) q) /\
  (forall i, r_event (view (hw g')) (NRF_GPIOTE_EVENT_IN i) = r_event (view (hw g)) (NRF_GPIOTE_EVENT_IN i) &&
     negb (existsb (fun j => bool_decide (NRF_GPIOTE_EVENT_IN i = NRF_GPIOTE_EVENT_IN j) && chan_on g j) (seqZ 0 GPIOTE_CH_NUM))) /\
  r_event (view (hw g')) NRF_GPIOTE_EVENT_PORT = false /\
  (forall q n, 0 <= q < 2 -> 0 <= n < 32 -> Z.testbit (fired q) n =
     pe && level_fires g q n || existsb (fun i => chan_fires g i && (chan_pin g i =? 32 * q + n)) (seqZ 0 GPIOTE_CH_NUM)).
Proof.
  intros D0 D1. unfold collect_triggers. rewrite hal_event_check.
  destruct (r_event (view (hw g)) NRF_GPIOTE_EVENT_PORT) eqn:Ep.
  - pose proof (port_event_spec g D0 D1) as P. destruct (check_level_trigger_pins 0 g) as [t0 g0].
    destruct (check_level_trigger_pins 1 g0) as [t1 g1]. cbn zeta in P.
    set (fired := upd 1 t1 (upd 0 t0 (fun _ => 0))). set (gp := on_hw _ g1) in *. destruct P as (P1&P2&P3&P4&P5).
    pose proof (channels_walk (seqZ 0 GPIOTE_CH_NUM) fired gp) as W. destruct (fold_left _ _ _) as [fired' g'].
    destruct W as (W1&W2&W3); [intros i; apply all_channels|apply NoDup_seqZ|].
    assert (Hon : forall j, chan_on gp j = chan_on g j) by (intros j; unfold chan_on; by rewrite (os_inten _ _ P1)).
    split; [done|]. split; [eapply only_served_trans; [done|by apply events_served]|].
    split; [intros q; by rewrite (oe_cnf _ _ W1)|]. split; [|split].
    + intros i. rewrite W2, P3. do 2 f_equal. apply existsb_ext_in. intros j _. by rewrite Hon.
    + by rewrite W2, P4.
    + intros q n Hq Hn. rewrite W3 by done. cbn [andb]. f_equal.
      * destruct (P5 n Hn) as [E0 E1]. assert (q = 0 \/ q = 1) as [-> | ->] by lia; done.
      * apply existsb_ext_in. intros j _. unfold chan_fires, chan_pin. by rewrite Hon, P3, (os_chan _ _ P1).
  - pose proof (channels_walk (seqZ 0 GPIOTE_CH_NUM) (fun _ => 0) g) as W. destruct (fold_left _ _ _) as [fired' g'].
    destruct W as (W1&W2&W3); [intros i; apply all_channels|apply NoDup_seqZ|].
    split; [done|]. split; [by apply events_served|]. split; [intros q; apply (oe_cnf _ _ W1)|].
    split; [intros i; apply W2|]. split; [by rewrite W2, Ep|].
    intros q n _ Hn. by rewrite W3, Z.bits_0.
Qed.
End dispatch.

(** ** From flags to mode and trigger *)

Lemma land_bit x n : 0 <= n < 32 -> x .& (1 .<< n) = if Z.testbit x n then 1 .<< n else 0.
Proof.
  intros Hn. rewrite Z.shiftl_1_l. apply Z.bits_inj'. intros i Hi. rewrite Z.land_spec, Z.pow2_bits_eqb by lia.
  transitivity (Z.testbit x n && (n =? i)).
  - destruct (Z.eqb_spec n i) as [->|]; [done|by rewrite !andb_false_r].
  - destruct (Z.testbit x n); [by rewrite Z.pow2_bits_eqb by lia|by rewrite Z.bits_0].
Qed.

Lemma trig_of_bits x :
  let trig := x .& (GPIO_INT_LOW_0 .| GPIO_INT_HIGH_1) in
  edge_polarity trig =
    if Z.testbit x 18 then if Z.testbit x 17 then NRF_GPIOTE_POLARITY_TOGGLE else NRF_GPIOTE_POLARITY_LOTOHI
    else NRF_GPIOTE_POLARITY_HITOLO.
Proof.
  unfold GPIO_INT_LOW_0, GPIO_INT_HIGH_1. cbn zeta. rewrite Z.land_lor_distr_r, !land_bit by lia.
  by destruct (Z.testbit x 17), (Z.testbit x 18).
Qed.

Lemma mode_of_bits x :
  (x .& (GPIO_INT_EDGE .| GPIO_INT_DISABLE .| GPIO_INT_ENABLE) =? GPIO_INT_MODE_EDGE) =
  Z.testbit x 14 && Z.testbit x 16 && negb (Z.testbit x 13).
Proof.
  unfold GPIO_INT_EDGE, GPIO_INT_DISABLE, GPIO_INT_ENABLE. rewrite !Z.land_lor_distr_r, !land_bit by lia.
  by destruct (Z.testbit x 14), (Z.testbit x 16), (Z.testbit x 13).
Qed.

Lemma swapped_levels x n :
  0 <= n < 32 ->
  Z.testbit (x .^ (GPIO_INT_LOW_0 .| GPIO_INT_HIGH_1)) n = xorb (Z.testbit x n) ((n =? 17) || (n =? 18)).
Proof.
  intros Hn. unfold GPIO_INT_LOW_0, GPIO_INT_HIGH_1.
  rewrite Z.lxor_spec, Z.lor_spec, !Z.shiftl_1_l, !Z.pow2_bits_eqb by lia.
  by rewrite (Z.eqb_sym 17), (Z.eqb_sym 18).
Qed.

(** ** Properties *)

(** An edge interrupt request through [gpio_pin_interrupt_configure] is honoured
    exactly: the pin gets one GPIOTE channel, on the edge asked for (logical levels
    translated through the pin's inversion), or -ENODEV if every channel serves
    another pin, or -ENOTSUP if it is an output.  Any earlier channel of the pin is
    given back.  Disabling leaves the pin no channel.  No other pin's interrupt is
    touched, and the allocation mask keeps matching the enabled channels. *)
Theorem edge_interrupt_configured {H} `{!NrfHal H} (id pin flags : Z) (g : gpio_state (H := H))
    (Hg : gpiote_ok g) (Hid : 0 <= id < 2) (Hpin : 0 <= pin < 32) :
  let p := 32 * id + pin in
  let low := xorb (Z.testbit flags 17) (Z.testbit flags 15 && Z.testbit (invert (ports g id)) pin) in
  let high := xorb (Z.testbit flags 18) (Z.testbit flags 15 && Z.testbit (invert (ports g id)) pin) in
  exists r g',
    z_impl_gpio_pin_interrupt_configure gpio_nrfx_drv_api_funcs id pin flags g = Some (r, g') /\
    gpiote_ok g' /\ (forall q pol, q <> p -> served g' q pol <-> served g q pol) /\
    if Z.testbit flags 14 && Z.testbit flags 16 && negb (Z.testbit flags 13) then
      match cnf_dir (r_cnf (view (hw g)) p) with
      | NRF_GPIO_PIN_DIR_OUTPUT => r = - ENOTSUP /\ g' = g
      | NRF_GPIO_PIN_DIR_INPUT =>
          (r = 0 /\ forall pol, served g' p pol <->
             pol = (if high then if low then NRF_GPIOTE_POLARITY_TOGGLE else NRF_GPIOTE_POLARITY_LOTOHI
                    else NRF_GPIOTE_POLARITY_HITOLO)) \/
          (r = - ENODEV /\ (forall pol, ~ served g' p pol) /\
           forall i, 0 <= i < GPIOTE_CH_NUM -> chan_on g i = true /\ chan_on g' i = true)
      end
    else r = 0 /\ forall pol, ~ served g' p pol.
Proof.
  intros p low high. unfold z_impl_gpio_pin_interrupt_configure.
  cbn [api_invert api_pin_interrupt_configure gpio_nrfx_drv_api_funcs get_port_data].
  rewrite nz_land_bit by done. unfold GPIO_INT_LEVELS_LOGICAL. rewrite nz_flag by lia.
  set (f := if _ && _ then _ else flags).
  assert (Hf : Z.testbit f 17 = low /\ Z.testbit f 18 = high /\
    forall n, n = 13 \/ n = 14 \/ n = 16 -> Z.testbit f n = Z.testbit flags n).
  { unfold f, low, high. destruct (_ && _); [|by rewrite !xorb_false_r].
    rewrite !swapped_levels by lia. split; [done|]. split; [done|].
    intros n Hn. rewrite swapped_levels by lia. destruct Hn as [->|[->| ->]]; apply xorb_false_r. }
  destruct Hf as (F1&F2&F3).
  pose proof (int_configure_spec id pin (f .& (GPIO_INT_EDGE .| GPIO_INT_DISABLE .| GPIO_INT_ENABLE))
    (f .& (GPIO_INT_LOW_0 .| GPIO_INT_HIGH_1)) g Hg Hid Hpin) as I. fold p in I.
  destruct (gpio_nrfx_pin_interrupt_configure _ _ _ _ _) as [r g']. exists r, g'. destruct I as (I1&I2&I3).
  rewrite mode_of_bits, trig_of_bits, !F3, F1, F2 in I3 by auto.
  split; [done|]. split; [done|]. split; [exact I2|exact I3].
Qed.

(** The peripheral after reset, and the driver initialised on it. *)
Definition reset_regs : regs :=
  mk_regs (fun _ => 0) (fun _ => 0)
    (fun _ => mk_cnf NRF_GPIO_PIN_DIR_INPUT NRF_GPIO_PIN_INPUT_DISCONNECT NRF_GPIO_PIN_NOPULL
                NRF_GPIO_PIN_S0S1 NRF_GPIO_PIN_NOSENSE)
    (fun _ => (0, NRF_GPIOTE_POLARITY_LOTOHI)) (fun _ => false) 0 (fun _ => false).
Definition reset_gpio : gpio_state (H := regs) :=
  (gpio_nrfx_init (mk_gpio reset_regs 0 (fun _ => mk_data 0 [] 0 0 0 0) false false)).2.

Lemma reset_gpio_ok : gpiote_ok reset_gpio.
Proof.
  assert (Hoff : forall i, 0 <= i < 8 -> chan_on reset_gpio i = false).
  { intros i Hi. unfold chan_on. change (r_inten _) with (0 .| BIT 31). rewrite Z.lor_0_l. by apply regs_port_mask. }
  split.
  - intros i Hi. rewrite Hoff by done. apply Z.bits_0.
  - intros i Hi. by rewrite Hoff.
  - intros i j Hi Hj. by rewrite Hoff.
Qed.

Lemma edge_interrupt_configured_witness :
  exists r g',
    z_impl_gpio_pin_interrupt_configure gpio_nrfx_drv_api_funcs 0 27 GPIO_INT_EDGE_TO_INACTIVE reset_gpio
      = Some (r, g') /\
    gpiote_ok g' /\ (forall q pol, q <> 27 -> served g' q pol <-> served reset_gpio q pol) /\
    ((r = 0 /\ forall pol, served g' 27 pol <-> pol = NRF_GPIOTE_POLARITY_HITOLO) \/
     (r = - ENODEV /\ (forall pol, ~ served g' 27 pol) /\
      forall i, 0 <= i < 8 -> chan_on reset_gpio i = true /\ chan_on g' i = true)).
Proof.
  exact (edge_interrupt_configured 0 27 GPIO_INT_EDGE_TO_INACTIVE reset_gpio reset_gpio_ok
           (conj (Z.le_refl 0) eq_refl) (conj (Pos2Z.is_nonneg 27) eq_refl)).
Defined.

(** The pin functions of the header work on logical levels over this driver:
    setting, masked writing and toggling drive exactly the named pins of the port to
    the named levels, whatever their inversion, and reading a pin gives its input
    level through the inversion. *)
Theorem gpio_logical_levels {H} `{!NrfHal H} (id pin : Z) (g : gpio_state (H := H)) (Hpin : 0 <= pin < 32) :
  let api := gpio_nrfx_drv_api_funcs in
  let lvl n := active api id n g in
  (forall v, drives api id (fun n => if n =? pin then nz v else lvl n) (gpio_pin_set api id pin v g) g) /\
  (forall m v, drives api id (fun n => if Z.testbit m n then Z.testbit v n else lvl n)
                 (gpio_port_set_masked api id m v g) g) /\
  drives api id (fun n => xorb (n =? pin) (lvl n)) (gpio_pin_toggle api id pin g) g /\
  gpio_pin_get api id pin g =
    Z.b2z (xorb (Z.testbit (r_in (view (hw g)) id) pin) (Z.testbit (invert (ports g id)) pin)).
Proof.
  split; [intros v; by apply pin_set_drives|]. split; [intros; apply set_masked_drives|].
  split; [by apply pin_toggle_drives|].
  unfold gpio_pin_get, gpio_port_get, z_impl_gpio_port_get_raw. cbn -[Z.lxor Z.testbit xorb].
  rewrite hal_in_read, nz_land_bit, Z.lxor_spec by done. by destruct (xorb _ _).
Qed.

Lemma gpio_logical_levels_witness :
  let api := gpio_nrfx_drv_api_funcs in
  let lvl n := active api 1 n reset_gpio in
  (forall v, drives api 1 (fun n => if n =? 5 then nz v else lvl n) (gpio_pin_set api 1 5 v reset_gpio) reset_gpio) /\
  (forall m v, drives api 1 (fun n => if Z.testbit m n then Z.testbit v n else lvl n)
                 (gpio_port_set_masked api 1 m v reset_gpio) reset_gpio) /\
  drives api 1 (fun n => xorb (n =? 5) (lvl n)) (gpio_pin_toggle api 1 5 reset_gpio) reset_gpio /\
  gpio_pin_get api 1 5 reset_gpio =
    Z.b2z (xorb (Z.testbit (r_in (view (hw reset_gpio)) 1) 5) (Z.testbit (invert (ports reset_gpio 1)) 5)).
Proof. apply (gpio_logical_levels 1 5 reset_gpio). lia. Defined.

(** [gpio_pin_configure] programs direction, input buffer, pull and drive of
    exactly the named pin and records its inversion.  A pin configured as output
    with an initial logical level drives that level, also when it is active low.
    Unsupported drive combinations give -EINVAL and change nothing.  Channels and
    events are left alone. *)
Theorem pin_configured {H} `{!NrfHal H} (id pin flags : Z) (g : gpio_state (H := H))
    (Hid : 0 <= id < 2) (Hpin : 0 <= pin < 32)
    (Hint : Z.testbit flags 13 = false /\ Z.testbit flags 14 = false)
    (Hone : Z.testbit flags 10 && Z.testbit flags 11 = false) :
  let api := gpio_nrfx_drv_api_funcs in
  let '(r, g') := gpio_pin_configure api id pin flags g in
  match config_drive flags with
  | None => r = - EINVAL /\ g' = g
  | Some drive =>
      r = 0 /\
      (forall q, r_cnf (view (hw g')) q =
         if q =? 32 * id + pin then config_cnf flags drive else r_cnf (view (hw g)) q) /\
      (forall q n, 0 <= n < 32 -> Z.testbit (invert (ports g' q)) n =
         if (q =? id) && (n =? pin) then Z.testbit flags 0 else Z.testbit (invert (ports g q)) n) /\
      (Z.testbit flags 9 = true -> Z.testbit flags 10 || Z.testbit flags 11 = true ->
       active api id pin g' = init_level flags) /\
      (forall q n, 0 <= n < 32 -> q <> id \/ n <> pin -> active api q n g' = active api q n g) /\
      (gpiote_ok g -> gpiote_ok g')
  end.
Proof.
  cbn zeta. destruct Hint as [H13 H14].
  pose proof (pin_configure_spec id pin flags g Hid Hpin H13 H14 Hone) as S.
  destruct (config_drive flags); [|by rewrite S].
  destruct (gpio_pin_configure _ _ _ _ _) as [r g'].
  destruct S as (S1&S2&_&S4&S5&S6&S7&_&S9&S10&S11&_).
  split; [done|]. split; [done|]. split; [done|]. split; [done|]. split; [done|].
  intros [G1 G2 G3]. unfold chan_on, chan_pin in *. split; intros; unfold chan_on, chan_pin in *.
  - rewrite S2, S11. by apply G1.
  - rewrite S10. apply G2; [done|]. by rewrite <- S11.
  - rewrite S11, ?S9 in *. by apply G3.
Qed.

Lemma pin_configured_witness :
  let api := gpio_nrfx_drv_api_funcs in
  let flags := GPIO_OUTPUT_ACTIVE .| GPIO_ACTIVE_LOW .| GPIO_OPEN_DRAIN in
  let '(r, g') := gpio_pin_configure api 0 3 flags reset_gpio in
  r = 0 /\
  (forall q, r_cnf (view (hw g')) q =
     if q =? 3 then config_cnf flags NRF_GPIO_PIN_S0D1 else r_cnf (view (hw reset_gpio)) q) /\
  active api 0 3 g' = true.
Proof.
  pose proof (pin_configured 0 3 (GPIO_OUTPUT_ACTIVE .| GPIO_ACTIVE_LOW .| GPIO_OPEN_DRAIN) reset_gpio
    (conj (Z.le_refl 0) eq_refl) (conj (Pos2Z.is_nonneg 3) eq_refl) (conj eq_refl eq_refl) eq_refl) as P.
  cbn zeta in P |- *. destruct (gpio_pin_configure gpio_nrfx_drv_api_funcs 0 3 _ reset_gpio) as [r g'].
  destruct P as (P1&P2&_&P4&_). split; [exact P1|]. split; [exact P2|]. by apply P4.
Defined.


(** Channel 0 serves pin 27, and its edge has come; pin 1.4 is armed for its low level
    and low, and the port event is set; a callback watches pin 27. *)
Definition edge_gpio : gpio_state (H := regs) :=
  let g := (gpio_nrfx_pin_interrupt_configure 0 27 GPIO_INT_MODE_EDGE GPIO_INT_TRIG_LOW reset_gpio).2 in
  let g := (gpio_nrfx_pin_interrupt_configure 1 4 GPIO_INT_MODE_LEVEL GPIO_INT_TRIG_LOW g).2 in
  let g := (gpio_nrfx_manage_callback 0 (mk_cb 900 1 (BIT 27)) true g).2 in
  on_hw (w_event NRF_GPIOTE_EVENT_PORT true) (on_hw (w_event (NRF_GPIOTE_EVENT_IN 0) true) g).

Definition example_call (id : Z) (cb : gpio_callback) (pins : Z) (g : gpio_state (H := regs)) : gpio_state :=
  set_alloc (gpiote_alloc_mask g + pins) g.


(** Level interrupts: the check reports exactly the level-triggered pins that are
    at their trigger level and silences all of them, and the reprogramming after
    the callbacks arms each for its level again; both loops reach every pin. *)
Theorem level_triggers_checked {H} `{!NrfHal H} (id : Z) (g : gpio_state (H := H))
    (Hid : 0 <= id < 2) (Hd : data_ok (ports g id)) :
  let level := get_level_pins id g in
  let '(out, g') := check_level_trigger_pins id g in
  (forall n, 0 <= n < 32 -> Z.testbit out n =
     Z.testbit level n &&
     eqb (Z.testbit (r_in (view (hw g)) id) n) (Z.testbit (int_active_level (ports g id)) n)) /\
  (forall n, 0 <= n < 32 -> Z.testbit level n = true ->
     cnf_sense (r_cnf (view (hw g')) (32 * id + n)) = NRF_GPIO_PIN_NOSENSE /\
     cnf_sense (r_cnf (view (hw (cfg_level_pins id g'))) (32 * id + n)) =
       if Z.testbit (int_active_level (ports g id)) n then NRF_GPIO_PIN_SENSE_HIGH else NRF_GPIO_PIN_SENSE_LOW) /\
  (forall q, (exists n, 0 <= n < 32 /\ q = 32 * id + n /\ Z.testbit level n = true) \/
     r_cnf (view (hw (cfg_level_pins id g'))) q = r_cnf (view (hw g)) q) /\
  only_cnf g (cfg_level_pins id g').
Proof.
  pose proof (level_check_spec id g Hid Hd) as L. cbn zeta in L |- *.
  destruct (check_level_trigger_pins id g) as [out g']. destruct L as (L1&L2&L3&L4&L5).
  split; [done|]. split; [|split; [|by eapply only_cnf_trans]].
  - intros n Hn Hl. rewrite L5, L3. unfold senses.
    replace (32 * id + n - 32 * id) with n by lia. rewrite Hl. bdestruct. cbn [andb cnf_set_sense cnf_sense].
    split; [done|]. unfold sense_for_pin. by rewrite Z.land_comm, nz_land_bit.
  - intros q. rewrite L5. unfold senses at 1. rewrite L3. unfold senses.
    destruct (_ && _) eqn:E; [left|by right]. apply andb_true_iff in E as [E ?].
    exists (q - 32 * id). split; [lia|]. split; [lia|done].
Qed.

Definition level_gpio : gpio_state (H := regs) :=
  (gpio_nrfx_pin_interrupt_configure 1 4 GPIO_INT_MODE_LEVEL GPIO_INT_TRIG_LOW reset_gpio).2.

Lemma level_triggers_checked_witness :
  let level := get_level_pins 1 level_gpio in
  let '(out, g') := check_level_trigger_pins 1 level_gpio in
  (forall n, 0 <= n < 32 -> Z.testbit out n =
     Z.testbit level n &&
     eqb (Z.testbit (r_in (view (hw level_gpio)) 1) n) (Z.testbit (int_active_level (ports level_gpio 1)) n)) /\
  (forall n, 0 <= n < 32 -> Z.testbit level n = true ->
     cnf_sense (r_cnf (view (hw g')) (32 + n)) = NRF_GPIO_PIN_NOSENSE /\
     cnf_sense (r_cnf (view (hw (cfg_level_pins 1 g'))) (32 + n)) =
       if Z.testbit (int_active_level (ports level_gpio 1)) n then NRF_GPIO_PIN_SENSE_HIGH else NRF_GPIO_PIN_SENSE_LOW) /\
  (forall q, (exists n, 0 <= n < 32 /\ q = 32 + n /\ Z.testbit level n = true) \/
     r_cnf (view (hw (cfg_level_pins 1 g'))) q = r_cnf (view (hw level_gpio)) q) /\
  only_cnf level_gpio (cfg_level_pins 1 g').
Proof.
  apply (level_triggers_checked 1 level_gpio); [lia|].
  split; [apply Z.leb_le|apply Z.ltb_lt]; vm_compute; reflexivity.
Defined.
