(* ===== verification/Ps2Connector.v ===== *)
(** The PS/2 connector ([ps2_connector.c]): the state machine that receives and
    sends bytes over the clock and data lines, and the queue to the worker.

    The lines are GPIO pins of the driver of [GpioNrfx]; the queue of received
    bytes is used through the class [ScanQueue], which the kernel's message
    queue implements. *)
From Stdlib Require Import ZArith Lia Bool.
From stdpp Require Import base numbers list sets relations.
From S2P Require Import Prelude Timeout Sched KObject MsgQ Gpio GpioNrfx.
Open Scope Z_scope.

(** ** Bytes *)

Definition bit_reverse_table : list Z :=
  [0x00; 0x80; 0x40; 0xC0; 0x20; 0xA0; 0x60; 0xE0; 0x10; 0x90; 0x50; 0xD0; 0x30; 0xB0; 0x70; 0xF0;
   0x08; 0x88; 0x48; 0xC8; 0x28; 0xA8; 0x68; 0xE8; 0x18; 0x98; 0x58; 0xD8; 0x38; 0xB8; 0x78; 0xF8;
   0x04; 0x84; 0x44; 0xC4; 0x24; 0xA4; 0x64; 0xE4; 0x14; 0x94; 0x54; 0xD4; 0x34; 0xB4; 0x74; 0xF4;
   0x0C; 0x8C; 0x4C; 0xCC; 0x2C; 0xAC; 0x6C; 0xEC; 0x1C; 0x9C; 0x5C; 0xDC; 0x3C; 0xBC; 0x7C; 0xFC;
   0x02; 0x82; 0x42; 0xC2; 0x22; 0xA2; 0x62; 0xE2; 0x12; 0x92; 0x52; 0xD2; 0x32; 0xB2; 0x72; 0xF2;
   0x0A; 0x8A; 0x4A; 0xCA; 0x2A; 0xAA; 0x6A; 0xEA; 0x1A; 0x9A; 0x5A; 0xDA; 0x3A; 0xBA; 0x7A; 0xFA;
   0x06; 0x86; 0x46; 0xC6; 0x26; 0xA6; 0x66; 0xE6; 0x16; 0x96; 0x56; 0xD6; 0x36; 0xB6; 0x76; 0xF6;
   0x0E; 0x8E; 0x4E; 0xCE; 0x2E; 0xAE; 0x6E; 0xEE; 0x1E; 0x9E; 0x5E; 0xDE; 0x3E; 0xBE; 0x7E; 0xFE;
   0x01; 0x81; 0x41; 0xC1; 0x21; 0xA1; 0x61; 0xE1; 0x11; 0x91; 0x51; 0xD1; 0x31; 0xB1; 0x71; 0xF1;
   0x09; 0x89; 0x49; 0xC9; 0x29; 0xA9; 0x69; 0xE9; 0x19; 0x99; 0x59; 0xD9; 0x39; 0xB9; 0x79; 0xF9;
   0x05; 0x85; 0x45; 0xC5; 0x25; 0xA5; 0x65; 0xE5; 0x15; 0x95; 0x55; 0xD5; 0x35; 0xB5; 0x75; 0xF5;
   0x0D; 0x8D; 0x4D; 0xCD; 0x2D; 0xAD; 0x6D; 0xED; 0x1D; 0x9D; 0x5D; 0xDD; 0x3D; 0xBD; 0x7D; 0xFD;
   0x03; 0x83; 0x43; 0xC3; 0x23; 0xA3; 0x63; 0xE3; 0x13; 0x93; 0x53; 0xD3; 0x33; 0xB3; 0x73; 0xF3;
   0x0B; 0x8B; 0x4B; 0xCB; 0x2B; 0xAB; 0x6B; 0xEB; 0x1B; 0x9B; 0x5B; 0xDB; 0x3B; 0xBB; 0x7B; 0xFB;
   0x07; 0x87; 0x47; 0xC7; 0x27; 0xA7; 0x67; 0xE7; 0x17; 0x97; 0x57; 0xD7; 0x37; 0xB7; 0x77; 0xF7;
   0x0F; 0x8F; 0x4F; 0xCF; 0x2F; 0xAF; 0x6F; 0xEF; 0x1F; 0x9F; 0x5F; 0xDF; 0x3F; 0xBF; 0x7F; 0xFF].

(** [uint8_t] indexes stay inside the 256 entries. *)
Definition reverse (x : Z) : Z := nth (Z.to_nat x) bit_reverse_table 0.

Definition odd_parity_check (byte : Z) : bool :=
  let byte := byte .^ (byte .>> 4) in
  let byte := byte .^ (byte .>> 2) in
  let byte := byte .^ (byte .>> 1) in
  nz (- byte .& 1).

(** ** The queue of received bytes *)

Definition PS2_MSG_QUE_SIZE : Z := 20.

(** What the connector needs of its queue: a bounded FIFO of bytes.  [sq_put] is
    [k_msgq_put] of one byte without waiting, its result ignored; [sq_get] is
    [k_msgq_get] with K_FOREVER, [None] when the caller blocks. *)
Class ScanQueue (Q : Type) := {
  sq_put : Z -> Q -> Q;
  sq_get : Q -> option Z * Q;
  sq_items : Q -> list Z;
  sq_ok : Q -> Prop;
  sq_put_spec b q : sq_ok q ->
    sq_ok (sq_put b q) /\
    sq_items (sq_put b q) =
      if Z.of_nat (length (sq_items q)) <? PS2_MSG_QUE_SIZE then sq_items q ++ [b] else sq_items q;
  sq_get_spec q : sq_ok q ->
    match sq_items q with
    | b :: l => (sq_get q).1 = Some b /\ sq_ok (sq_get q).2 /\ sq_items (sq_get q).2 = l
    | [] => (sq_get q).1 = None
    end }.

(** ** The connector *)

Inductive PS2_state_e := PS2_STATE_IDLE | PS2_STATE_DEV_TO_HOST | PS2_STATE_HOST_TO_DEV.

(** The pins of the board's overlay, both on port 0. *)
Definition PS2_PORT : Z := 0.
Definition PS2_CLK_GPIO_PIN : Z := 27.
Definition PS2_DATA_GPIO_PIN : Z := 26.
Definition PS2_GPIO_FLAGS_HIGH : Z := GPIO_INPUT.
Definition PS2_GPIO_FLAGS_LOW : Z := GPIO_OUTPUT .| GPIO_ACTIVE_HIGH .| GPIO_OPEN_DRAIN.

Section connector.
Context {H : Type} `{!NrfHal H} {Q : Type} `{!ScanQueue Q}.

Record ps2 := mk_ps2 {
  PS2_state : PS2_state_e;
  current_bit_no : Z;
  incoming_data : Z;
  outgoing_data : Z;
  rx_msg_que : Q;
  clk_fall_cb_data : gpio_callback;
  gpio : gpio_state (H := H) }.
Implicit Types (s : ps2).

Definition set_PS2_state st s := mk_ps2 st (current_bit_no s) (incoming_data s) (outgoing_data s)
  (rx_msg_que s) (clk_fall_cb_data s) (gpio s).
Definition set_bit_no n s := mk_ps2 (PS2_state s) n (incoming_data s) (outgoing_data s)
  (rx_msg_que s) (clk_fall_cb_data s) (gpio s).
Definition set_incoming d s := mk_ps2 (PS2_state s) (current_bit_no s) d (outgoing_data s)
  (rx_msg_que s) (clk_fall_cb_data s) (gpio s).
Definition set_outgoing d s := mk_ps2 (PS2_state s) (current_bit_no s) (incoming_data s) d
  (rx_msg_que s) (clk_fall_cb_data s) (gpio s).
Definition set_que q s := mk_ps2 (PS2_state s) (current_bit_no s) (incoming_data s) (outgoing_data s)
  q (clk_fall_cb_data s) (gpio s).
Definition set_cb c s := mk_ps2 (PS2_state s) (current_bit_no s) (incoming_data s) (outgoing_data s)
  (rx_msg_que s) c (gpio s).
Definition set_gpio g s := mk_ps2 (PS2_state s) (current_bit_no s) (incoming_data s) (outgoing_data s)
  (rx_msg_que s) (clk_fall_cb_data s) g.

#[export] Instance ps2_gpio : HasGpio H ps2.
Proof. refine {| gpio_of := gpio; with_gpio := set_gpio |}; by intros; destruct s. Defined.

(** The calls of the GPIO interface, their results ignored as the source does. *)
Definition configure (pin flags : Z) s : ps2 :=
  set_gpio (gpio_pin_configure gpio_nrfx_drv_api_funcs PS2_PORT pin flags (gpio s)).2 s.
Definition set_pin (pin value : Z) s : ps2 :=
  set_gpio (gpio_pin_set gpio_nrfx_drv_api_funcs PS2_PORT pin value (gpio s)).2 s.
Definition get_pin (pin : Z) s : Z := gpio_pin_get gpio_nrfx_drv_api_funcs PS2_PORT pin (gpio s).
Definition interrupt_configure (pin flags : Z) s : ps2 :=
  match z_impl_gpio_pin_interrupt_configure gpio_nrfx_drv_api_funcs PS2_PORT pin flags (gpio s) with
  | Some (_, g) => set_gpio g s
  | None => s
  end.

Definition set_clk_low s : ps2 :=
  set_pin PS2_CLK_GPIO_PIN GPIO_OUTPUT_ACTIVE (configure PS2_CLK_GPIO_PIN PS2_GPIO_FLAGS_LOW s).
Definition set_clk_high_z s : ps2 := configure PS2_CLK_GPIO_PIN PS2_GPIO_FLAGS_HIGH s.
Definition set_data_low s : ps2 :=
  set_pin PS2_DATA_GPIO_PIN GPIO_OUTPUT_INACTIVE (configure PS2_DATA_GPIO_PIN PS2_GPIO_FLAGS_LOW s).
Definition set_data_high_z s : ps2 := configure PS2_DATA_GPIO_PIN PS2_GPIO_FLAGS_HIGH s.

(** The two sleeps are points where interrupts run: [during1] and [during2]. *)
Definition host_to_dev_init_request_to_send (during1 during2 : ps2 -> ps2) s : ps2 :=
  let s := during1 (set_clk_low s) in
  let s := during2 (set_data_low s) in
  let s := set_clk_high_z s in
  let s := set_bit_no 0 s in
  interrupt_configure PS2_CLK_GPIO_PIN GPIO_INT_EDGE_TO_INACTIVE s.

Definition sent_byte s : bool := match PS2_state s with PS2_STATE_IDLE => true | _ => false end.
Definition lines_released s : bool :=
  negb ((get_pin PS2_DATA_GPIO_PIN s =? 0) || (get_pin PS2_CLK_GPIO_PIN s =? 0)).

(** A wait: [ready] is sampled until it holds; [env] is what happens between two
    samples.  [None] while still waiting. *)
Fixpoint wait_until (ready : ps2 -> bool) (env : list (ps2 -> ps2)) s : option ps2 :=
  if ready s then Some s
  else match env with
       | [] => None
       | step :: env => wait_until ready env (step s)
       end.
Definition wait_lines_high := wait_until lines_released.

(** [ps2_connector_send_byte]: [during1] and [during2] happen in the delays of the
    request to send, [env1] and [env2] while it waits. *)
Definition ps2_connector_send_byte (during1 during2 : ps2 -> ps2) (env1 env2 : list (ps2 -> ps2)) (msg : Z) s :
    option ps2 :=
  let s := set_outgoing msg s in
  let s := set_PS2_state PS2_STATE_HOST_TO_DEV s in
  let s := host_to_dev_init_request_to_send during1 during2 s in
  match wait_until sent_byte env1 s with
  | None => None
  | Some s => wait_lines_high env2 s
  end.

Definition host_to_dev_serve_falling_clk s : ps2 :=
  let s := set_PS2_state PS2_STATE_DEV_TO_HOST s in
  let current_bit := 1 .& (outgoing_data s .>> current_bit_no s) in
  let s := if nz current_bit then set_data_high_z s else set_data_low s in
  let s :=
    if current_bit_no s =? 8 then
      if negb (odd_parity_check (outgoing_data s)) then set_data_high_z s else set_data_low s
    else s in
  let s := if current_bit_no s =? 8 then set_data_high_z s else s in
  let s :=
    if current_bit_no s =? 9 then set_PS2_state PS2_STATE_IDLE (set_data_high_z s) else s in
  let s := set_bit_no (s32 (current_bit_no s + 1)) s in
  set_bit_no (Z.rem (current_bit_no s) 10) s.

Definition dev_to_host_serve_falling_clk s : ps2 :=
  let current_bit := get_pin PS2_DATA_GPIO_PIN s in
  if (current_bit_no s =? 0) && negb (current_bit =? 0) then set_bit_no 0 s
  else
    let s :=
      if current_bit_no s <? 9 then
        let s := set_incoming (u8 (incoming_data s .<< 1)) s in
        let s := set_incoming (incoming_data s .& 0xFE) s in
        set_incoming (u8 (incoming_data s .| current_bit)) s
      else s in
    if (current_bit_no s =? 9) && (Z.b2z (odd_parity_check (incoming_data s)) =? current_bit)
    then set_bit_no 0 s
    else if (current_bit_no s =? 10) && negb (current_bit =? 1) then set_bit_no 0 s
    else
      let s :=
        if current_bit_no s =? 10 then set_que (sq_put (incoming_data s) (rx_msg_que s)) s else s in
      let s := set_bit_no (s32 (current_bit_no s + 1)) s in
      set_bit_no (Z.rem (current_bit_no s) 11) s.

Definition clk_fall_cb s : ps2 :=
  match PS2_state s with
  | PS2_STATE_DEV_TO_HOST | PS2_STATE_IDLE => dev_to_host_serve_falling_clk s
  | PS2_STATE_HOST_TO_DEV => host_to_dev_serve_falling_clk s
  end.

Definition ps2_connector_get_next_code s : option Z * ps2 :=
  let '(result, q) := sq_get (rx_msg_que s) in
  (match result with Some b => Some (reverse b) | None => None end, set_que q s).

(** ** Initialisation *)

(** The handler pointer stored in the callback. *)
Definition CLK_FALL_CB : Z := 1.

(** [queue] is the queue after [k_msgq_init]. *)
Definition ps2_connector_init (queue : Q) (env : list (ps2 -> ps2)) s : option ps2 :=
  let s := set_que queue s in
  let '(err, g) := gpio_pin_configure gpio_nrfx_drv_api_funcs PS2_PORT PS2_CLK_GPIO_PIN GPIO_INPUT (gpio s) in
  let s := set_gpio g s in
  if nz err then Some s
  else
    let '(err, g) := gpio_pin_configure gpio_nrfx_drv_api_funcs PS2_PORT PS2_DATA_GPIO_PIN GPIO_INPUT (gpio s) in
    let s := set_gpio g s in
    if nz err then Some s
    else
      match wait_lines_high env s with
      | None => None
      | Some s =>
          let s := set_PS2_state PS2_STATE_DEV_TO_HOST s in
          let s := interrupt_configure PS2_CLK_GPIO_PIN GPIO_INT_EDGE_TO_INACTIVE s in
          let s := set_cb (gpio_init_callback (clk_fall_cb_data s) CLK_FALL_CB (BIT PS2_CLK_GPIO_PIN)) s in
          Some (set_gpio (gpio_add_callback gpio_nrfx_drv_api_funcs PS2_PORT (clk_fall_cb_data s) (gpio s)).2 s)
      end.

(** The jump through a callback's handler pointer. *)
Definition call_handler (port : Z) (cb : gpio_callback) (pins : Z) s : ps2 :=
  if handler cb =? CLK_FALL_CB then clk_fall_cb s else s.

(** The GPIOTE interrupt of the system. *)
Definition gpio_irq s : ps2 := gpiote_event_handler call_handler s.
End connector.

(** ** The receiver as a pure machine *)

(** One falling clock edge with the data line at [b], on the bit counter and
    the shift register; a completed byte is emitted. *)
Definition rx (b : bool) (st : Z * Z) : Z * Z * option Z :=
  let '(n, x) := st in
  if (n =? 0) && b then (0, x, None)
  else
    let x := if n <? 9 then (2 * x + Z.b2z b) mod 256 else x in
    if (n =? 9) && eqb (odd_parity_check x) b then (0, x, None)
    else if (n =? 10) && negb b then (0, x, None)
    else ((n + 1) mod 11, x, if n =? 10 then Some x else None).

Fixpoint rx_run (bs : list bool) (st : Z * Z) : Z * Z * list Z :=
  match bs with
  | [] => (st, [])
  | b :: bs =>
      let '(st, out) := rx b st in
      let '(st, outs) := rx_run bs st in
      (st, match out with Some x => x :: outs | None => outs end)
  end.

(** A byte on the wire: start bit, eight data bits with the least significant
    first, odd parity, stop bit. *)
Definition data_bits (d : Z) : list bool := Z.testbit d <$> seqZ 0 8.
Definition parity_bit (d : Z) : bool := negb (foldr xorb false (data_bits d)).
Definition frame (d : Z) : list bool := [false] ++ data_bits d ++ [parity_bit d; true].

Lemma rx_range b n x :
  0 <= n <= 10 -> 0 <= x < 256 -> let '(n', x', _) := rx b (n, x) in 0 <= n' <= 10 /\ 0 <= x' < 256.
Proof.
  intros Hn Hx. unfold rx. pose proof (Z.mod_pos_bound (2 * x + Z.b2z b) 256 ltac:(lia)).
  pose proof (Z.mod_pos_bound (n + 1) 11 ltac:(lia)).
  destruct (_ && b); [lia|]. destruct (n <? 9); repeat (destruct (_ && _); [lia|]); lia.
Qed.

(** Eight shifts after the start bit only the data bits are left. *)
Lemma rx_shift b n x : 1 <= n < 9 -> rx b (n, x) = (n + 1, (2 * x + Z.b2z b) mod 256, None).
Proof.
  intros Hn. unfold rx. rewrite (proj2 (Z.eqb_neq n 0)), (proj2 (Z.ltb_lt n 9)), (proj2 (Z.eqb_neq n 9)),
    (proj2 (Z.eqb_neq n 10)) by lia. cbn [andb]. by rewrite Z.mod_small by lia.
Qed.

Definition shift_in (x : Z) (bs : list bool) : Z := fold_left (fun x b => (2 * x + Z.b2z b) mod 256) bs x.

Lemma rx_shifts bs rest n x :
  1 <= n -> n + Z.of_nat (length bs) <= 9 ->
  rx_run (bs ++ rest) (n, x) = rx_run rest (n + Z.of_nat (length bs), shift_in x bs).
Proof.
  revert n x. induction bs as [|b bs IH]; intros n x Hn Hl; cbn [length] in Hl.
  - cbn. by rewrite Z.add_0_r.
  - cbn [app rx_run]. rewrite rx_shift by lia. rewrite IH by (cbn in *; lia).
    cbn [shift_in fold_left length]. replace (n + 1 + Z.of_nat (length bs)) with (n + Z.of_nat (S (length bs))) by lia.
    by destruct (rx_run _ _).
Qed.

(** What was in the register before is shifted out. *)
Lemma shift_in_eight x b0 b1 b2 b3 b4 b5 b6 b7 :
  0 <= x < 256 -> let bs := [b0; b1; b2; b3; b4; b5; b6; b7] in shift_in x bs = shift_in 0 bs.
Proof.
  intros Hx bs. cbn. assert (Hb : forall b, 0 <= Z.b2z b <= 1) by (intros []; cbn; lia).
  pose proof (Hb b0); pose proof (Hb b1); pose proof (Hb b2); pose proof (Hb b3);
  pose proof (Hb b4); pose proof (Hb b5); pose proof (Hb b6); pose proof (Hb b7).
  repeat match goal with |- context [Z.b2z ?b] => generalize dependent (Z.b2z b); intros end.
  Z.div_mod_to_equations. lia.
Qed.

Lemma eight {A} (l : list A) :
  length l = 8%nat -> exists a b c d e f g h, l = [a; b; c; d; e; f; g; h].
Proof. intros Hl. repeat (destruct l as [|? l]; [done|]). destruct l; [|done]. by repeat eexists. Qed.

Lemma parity_of_shifted bs :
  length bs = 8%nat -> odd_parity_check (shift_in 0 bs) = foldr xorb false bs /\ 0 <= shift_in 0 bs < 256.
Proof.
  intros (b0&b1&b2&b3&b4&b5&b6&b7&->)%eight.
  destruct b0, b1, b2, b3, b4, b5, b6, b7; (split; [reflexivity|split; [discriminate|reflexivity]]).
Qed.

(** Eleven edges that begin with a start bit, whatever they carry. *)
Lemma rx_eleven bs p t x :
  length bs = 8%nat -> 0 <= x < 256 ->
  let v := shift_in 0 bs in
  rx_run (false :: bs ++ [p; t]) (0, x) =
    if xorb (foldr xorb false bs) p then (0, v, if t then [v] else [])
    else if t then (0, v, []) else (1, (2 * v) mod 256, []).
Proof.
  intros Hb Hx v. destruct (parity_of_shifted bs Hb) as [Hp Hv]. fold v in Hp, Hv.
  cbn [rx_run]. change (rx false (0, x)) with (1, (2 * x + 0) mod 256, @None Z). cbn iota beta.
  rewrite rx_shifts by lia. rewrite Hb. change (1 + Z.of_nat 8) with 9.
  assert (Hs : shift_in ((2 * x + 0) mod 256) bs = v).
  { unfold v. destruct (eight bs Hb) as (b0&b1&b2&b3&b4&b5&b6&b7&->).
    rewrite shift_in_eight by (apply Z.mod_pos_bound; lia). done. }
  rewrite Hs. unfold rx_run, rx. cbn [Z.eqb Z.ltb Z.compare Pos.eqb Pos.compare Pos.compare_cont andb].
  rewrite Hp. destruct (foldr xorb false bs), p, t; cbn; rewrite ?Z.add_0_r; done.
Qed.

(** The register holds the byte with its bits reversed, and [reverse] undoes it. *)
Lemma shifted_data d : 0 <= d < 256 -> shift_in 0 (data_bits d) = reverse d /\ reverse (reverse d) = d.
Proof.
  intros Hd. by_enumeration 256 (fun d => (shift_in 0 (data_bits d) =? reverse d) && (reverse (reverse d) =? d)).
  lia.
Qed.

Lemma reverse_range d : 0 <= d < 256 -> 0 <= reverse d < 256.
Proof.
  intros Hd. by_enumeration 256 (fun d => (0 <=? reverse d) && (reverse d <? 256)). lia.
Qed.

Lemma rx_frame d x :
  0 <= d < 256 -> 0 <= x < 256 -> rx_run (frame d) (0, x) = (0, reverse d, [reverse d]).
Proof.
  intros Hd Hx. unfold frame. cbn [app].
  rewrite (rx_eleven (data_bits d) (parity_bit d) true x) by done. unfold parity_bit.
  destruct (shifted_data d Hd) as [-> _]. by destruct (foldr xorb false _).
Qed.

(** ** The machine inside the system *)

Section system.
Context {H : Type} `{!NrfHal H} {Q : Type} `{!ScanQueue Q}.
Implicit Types (s : ps2 (H := H) (Q := Q)).

Definition rx_state s : Z * Z := (current_bit_no s, incoming_data s).
Definition rx_ok s : Prop := 0 <= current_bit_no s <= 10 /\ 0 <= incoming_data s < 256.

(** The effect of one receiver step on the system. *)
Definition rx_apply (b : bool) s : ps2 :=
  let '(n, x, out) := rx b (rx_state s) in
  let s := set_incoming x s in
  let s := match out with Some y => set_que (sq_put y (rx_msg_que s)) s | None => s end in
  set_bit_no n s.

Lemma shift_register x b :
  0 <= x < 256 -> u8 ((u8 (x .<< 1) .& 0xFE) .| Z.b2z b) = (2 * x + Z.b2z b) mod 256.
Proof.
  intros Hx. by_enumeration 256 (fun x =>
    (u8 ((u8 (x .<< 1) .& 0xFE) .| Z.b2z true) =? (2 * x + Z.b2z true) mod 256) &&
    (u8 ((u8 (x .<< 1) .& 0xFE) .| Z.b2z false) =? (2 * x + Z.b2z false) mod 256)).
  destruct b; lia.
Qed.

Lemma dev_to_host_step b s :
  rx_ok s -> get_pin PS2_DATA_GPIO_PIN s = Z.b2z b -> dev_to_host_serve_falling_clk s = rx_apply b s.
Proof.
  intros [Hn Hx] Hp. unfold dev_to_host_serve_falling_clk, rx_apply, rx, rx_state. rewrite Hp.
  destruct s as [st n x o q cb g]. cbn [current_bit_no incoming_data set_bit_no set_incoming PS2_state
    outgoing_data rx_msg_que clk_fall_cb_data gpio] in *.
  replace (negb (Z.b2z b =? 0)) with b by (by destruct b).
  destruct (_ && b); [done|]. rewrite <- shift_register by done.
  replace (negb (Z.b2z b =? 1)) with (negb b) by (by destruct b).
  assert (Hb : forall c, (Z.b2z c =? Z.b2z b) = eqb c b) by (by intros []; destruct b).
  assert (Hr : Z.rem (s32 (n + 1)) 11 = (n + 1) mod 11) by (rewrite s32_small by lia; apply Z.rem_mod_nonneg; lia).
  destruct (n <? 9); cbn [current_bit_no incoming_data set_bit_no set_incoming set_que PS2_state
    outgoing_data rx_msg_que clk_fall_cb_data gpio]; rewrite Hb;
    destruct (_ && eqb _ _); try done; destruct (_ && negb b); try done;
    destruct (n =? 10); cbn; by rewrite Hr.
Qed.

(** The keyboard pulls the clock low with the data line at [b]: the input
    register shows it, and the channel that watches the clock's falling edge
    gets its event. *)
Record line_edge (b : bool) (g g' : gpio_state (H := H)) : Prop := {
  le_state : ports g' = ports g /\ gpiote_alloc_mask g' = gpiote_alloc_mask g;
  le_data : Z.testbit (r_in (view (hw g')) PS2_PORT) PS2_DATA_GPIO_PIN = b;
  le_cnf : forall q, r_cnf (view (hw g')) q = r_cnf (view (hw g)) q;
  le_chan : forall c, r_chan (view (hw g')) c = r_chan (view (hw g)) c;
  le_mode : forall c, r_mode (view (hw g')) c = r_mode (view (hw g)) c;
  le_inten : r_inten (view (hw g')) = r_inten (view (hw g));
  le_port : r_event (view (hw g')) NRF_GPIOTE_EVENT_PORT = false;
  le_fires : forall i, 0 <= i < GPIOTE_CH_NUM -> chan_on g i = true ->
    r_event (view (hw g')) (NRF_GPIOTE_EVENT_IN i) = true <->
    r_chan (view (hw g)) i = (PS2_CLK_GPIO_PIN, NRF_GPIOTE_POLARITY_HITOLO) }.

(** The callbacks that watch the clock line. *)
Definition on_clock (cb : gpio_callback) : Prop := nz (pin_mask cb .& BIT PS2_CLK_GPIO_PIN) = true.
#[export] Instance on_clock_dec cb : Decision (on_clock cb).
Proof. apply bool_eq_dec. Defined.

(** Listening: the clock's falling edge is watched, the connector's callback is
    the only one on the clock line, and the data line is not inverted. *)
Record listening s : Prop := {
  ls_gpiote : gpiote_ok (gpio s);
  ls_served : forall pol, served (gpio s) PS2_CLK_GPIO_PIN pol <-> pol = NRF_GPIOTE_POLARITY_HITOLO;
  ls_callback : exists node, filter on_clock (callbacks (ports (gpio s) PS2_PORT)) =
    [mk_cb node CLK_FALL_CB (BIT PS2_CLK_GPIO_PIN)];
  ls_invert : Z.testbit (invert (ports (gpio s) PS2_PORT)) PS2_DATA_GPIO_PIN = false;
  ls_rx : rx_ok s }.

Lemma get_pin_spec pin s :
  0 <= pin < 32 ->
  get_pin pin s = Z.b2z (xorb (Z.testbit (r_in (view (hw (gpio s))) PS2_PORT) pin)
                              (Z.testbit (invert (ports (gpio s) PS2_PORT)) pin)).
Proof.
  intros Hp. unfold get_pin, gpio_pin_get, gpio_port_get, z_impl_gpio_port_get_raw. cbn -[Z.lxor Z.testbit xorb].
  rewrite hal_in_read, nz_land_bit, Z.lxor_spec by done. by destruct (xorb _ _).
Qed.

(** Exactly pin 27 fires, and only the connector's callback runs. *)
Lemma irq_step b g' s :
  listening s -> line_edge b (gpio s) g' ->
  exists g2, gpio_irq (set_gpio g' s) = clk_fall_cb (set_gpio g2 s) /\ listening (set_gpio g2 s) /\
    get_pin PS2_DATA_GPIO_PIN (set_gpio g2 s) = Z.b2z b /\ forall i, chan_on g2 i = chan_on (gpio s) i.
Proof.
  intros [L1 L2 [node L3] L4 L5] [[E1 E2] E3 E4 E5 E6 E7 E8 E9]. unfold gpio_irq.
  pose proof (handler_edges call_handler (set_gpio g' s)) as F.
  destruct (F E8) as (fired&g2&F1&F2&FR&F3&F4). clear F.
  change (gpio_of (set_gpio g' s)) with g' in *.
  assert (Hon : forall i, chan_on g' i = chan_on (gpio s) i) by (intros i; unfold chan_on; by rewrite E7).
  assert (Hfire : forall q n, 0 <= q < 2 -> 0 <= n < 32 -> Z.testbit (fired q) n = (q =? 0) && (n =? PS2_CLK_GPIO_PIN)).
  { intros q n Hq Hn. rewrite F4 by done. apply eq_true_iff_eq. rewrite existsb_exists. split.
    - intros (i&Hi%list_elem_of_In%all_channels&Hf). apply andb_true_iff in Hf as [Hf Hpin].
      unfold chan_fires in Hf. apply andb_true_iff in Hf as [Ho He]. rewrite Hon in Ho. apply E9 in He; [|done..].
      unfold chan_pin in Hpin. rewrite E5, He in Hpin. unfold PS2_CLK_GPIO_PIN in *. cbn [fst] in Hpin. lia.
    - intros Hqn. assert (q = 0 /\ n = PS2_CLK_GPIO_PIN) as [-> ->] by lia.
      destruct (proj2 (L2 _) eq_refl) as (i&Hi&Ho&Hc). exists i. split; [by apply list_elem_of_In, all_channels|].
      unfold chan_fires, chan_pin. rewrite Hon, Ho, E5, Hc. rewrite (proj2 (E9 i Hi Ho) Hc). done. }
  assert (Hports : ports g2 = ports (gpio s)) by (by rewrite (oe_ports _ _ F2)).
  exists g2. split; [|split; [|split; [|intros i; unfold chan_on; by rewrite (oe_inten _ _ F2), E7]]].
  - rewrite F1. change (with_gpio g2 (set_gpio g' s)) with (set_gpio g2 s).
    assert (H1 : fired 1 = 0) by (apply no_bits; [done|]; intros n Hn; by rewrite Hfire by lia).
    rewrite H1, fire_nothing.
    assert (H0 : fired 0 = BIT PS2_CLK_GPIO_PIN).
    { apply eq_bits32; [done|apply u32_range|]. intros n Hn. rewrite Hfire by lia.
      by rewrite bit_testbit by (unfold PS2_CLK_GPIO_PIN; lia). }
    rewrite H0. unfold fire_callbacks. change (get_port_data 0 (gpio_of (set_gpio g2 s))) with (ports g2 PS2_PORT).
    rewrite Hports, fire_callbacks_spec. by rewrite (list_filter_iff _ on_clock), L3.
  - split; cbn [gpio set_gpio].
    + destruct L1 as [G1 G2 G3]. split; unfold chan_on, chan_pin in *; intros.
      * rewrite (oe_alloc _ _ F2), E2, (oe_inten _ _ F2), E7. by apply G1.
      * rewrite (oe_mode _ _ F2), E6. apply G2; [done|]. by rewrite <- E7, <- (oe_inten _ _ F2).
      * rewrite (oe_inten _ _ F2), E7, ?(oe_chan _ _ F2), ?E5 in *. by apply G3.
    + intros pol. rewrite <- L2. unfold served, chan_on. rewrite (oe_inten _ _ F2), E7.
      by setoid_rewrite (oe_chan _ _ F2); setoid_rewrite E5.
    + exists node. by rewrite Hports.
    + by rewrite Hports.
    + done.
  - rewrite get_pin_spec by (unfold PS2_DATA_GPIO_PIN; lia). cbn [gpio set_gpio].
    by rewrite Hports, L4, (oe_in _ _ F2), E3, xorb_false_r.
Qed.

(** A sequence of clock pulses, each served before the next comes. *)
Fixpoint edges (bs : list bool) s s' : Prop :=
  match bs with
  | [] => s' = s
  | b :: bs => exists g', line_edge b (gpio s) g' /\ edges bs (gpio_irq (set_gpio g' s)) s'
  end.

(** Puts into the bounded queue. *)
Definition put_all (l xs : list Z) : list Z :=
  l ++ take (Z.to_nat PS2_MSG_QUE_SIZE - length l) xs.

Lemma put_all_cons l x xs :
  put_all l (x :: xs) =
  put_all (if Z.of_nat (length l) <? PS2_MSG_QUE_SIZE then l ++ [x] else l) xs.
Proof.
  unfold put_all, PS2_MSG_QUE_SIZE. destruct (Z.ltb_spec (Z.of_nat (length l)) 20) as [Hl|Hl].
  - rewrite length_app. cbn [length].
    replace (Z.to_nat 20 - length l)%nat with (S (Z.to_nat 20 - (length l + 1)))%nat by lia.
    cbn [take]. by rewrite <- app_assoc.
  - by replace (Z.to_nat 20 - length l)%nat with 0%nat by lia.
Qed.

Lemma listening_ext s s' : gpio s' = gpio s -> rx_ok s' -> listening s -> listening s'.
Proof. intros Hg Hr []. split; by rewrite ?Hg. Qed.

(** Receiving: the system follows the pure machine. *)
Lemma edges_rx bs s s' :
  listening s -> PS2_state s <> PS2_STATE_HOST_TO_DEV -> sq_ok (rx_msg_que s) -> edges bs s s' ->
  let '(st, outs) := rx_run bs (rx_state s) in
  listening s' /\ PS2_state s' = PS2_state s /\ sq_ok (rx_msg_que s') /\ rx_state s' = st /\
  sq_items (rx_msg_que s') = put_all (sq_items (rx_msg_que s)) outs.
Proof.
  revert s. induction bs as [|b bs IH]; intros s Hl Hst Hq He; cbn [edges rx_run] in *.
  - subst s'. unfold put_all. by rewrite take_nil, app_nil_r.
  - destruct He as (g'&He&Hrest). destruct (irq_step b g' s Hl He) as (g2&E1&E2&E3&_).
    rewrite E1 in Hrest. clear E1 He. set (s1 := set_gpio g2 s) in *.
    assert (Hcb : clk_fall_cb s1 = rx_apply b s1).
    { rewrite <- dev_to_host_step by (done || apply E2). unfold clk_fall_cb.
      change (PS2_state s1) with (PS2_state s). by destruct (PS2_state s). }
    rewrite Hcb in Hrest. change (rx_state s) with (rx_state s1).
    assert (Hr1 := ls_rx _ E2). destruct Hr1 as [Hn1 Hx1].
    pose proof (rx_range b (current_bit_no s1) (incoming_data s1) Hn1 Hx1) as Hr.
    unfold rx_apply in Hrest. fold (rx_state s1) in Hr. destruct (rx b (rx_state s1)) as [[n x] out].
    set (s2 := set_bit_no n _) in Hrest.
    assert (H2 : listening s2 /\ PS2_state s2 = PS2_state s /\ rx_state s2 = (n, x) /\
      sq_ok (rx_msg_que s2) /\
      sq_items (rx_msg_que s2) = put_all (sq_items (rx_msg_que s)) (match out with Some y => [y] | None => [] end)).
    { unfold s2. destruct out as [y|].
      - destruct (sq_put_spec y (rx_msg_que s) Hq) as [P1 P2].
        split; [by apply (listening_ext s1)|]. split; [done|]. split; [done|]. split; [exact P1|].
        rewrite put_all_cons. unfold put_all at 1. rewrite take_nil, app_nil_r. exact P2.
      - split; [by apply (listening_ext s1)|]. split; [done|]. split; [done|]. split; [done|].
        unfold put_all. by rewrite take_nil, app_nil_r. }
    clearbody s2. destruct H2 as (L2&T2&R2&Q2&I2).
    specialize (IH s2 L2 ltac:(congruence) Q2 Hrest). rewrite R2 in IH.
    destruct (rx_run bs (n, x)) as [st outs]. destruct IH as (J1&J2&J3&J4&J5).
    split; [done|]. split; [congruence|]. split; [done|]. split; [done|]. rewrite J5, I2.
    destruct out as [y|]; rewrite ?put_all_cons; unfold put_all; rewrite ?take_nil, ?app_nil_r; done.
Qed.

(** Bytes sent one after the other. *)
Lemma rx_frames ds x :
  Forall (fun d => 0 <= d < 256) ds -> 0 <= x < 256 ->
  exists x', 0 <= x' < 256 /\ rx_run (concat (frame <$> ds)) (0, x) = (0, x', reverse <$> ds).
Proof.
  intros Hd. revert x. induction Hd as [|d ds Hd _ IH]; intros x Hx.
  - by exists x.
  - rewrite fmap_cons. cbn [concat]. destruct (IH (reverse d) (reverse_range d Hd)) as (x'&Hx'&E).
    exists x'. split; [done|].
    assert (Happ : forall l1 l2 st, rx_run (l1 ++ l2) st =
      let '(st1, o1) := rx_run l1 st in let '(st2, o2) := rx_run l2 st1 in (st2, o1 ++ o2)).
    { induction l1 as [|b l1 IHl]; intros l2 st; cbn; [by destruct (rx_run l2 st)|].
      destruct (rx b st) as [st1 o]. rewrite IHl. destruct (rx_run l1 st1) as [st2 o1].
      destruct (rx_run l2 st2). by destruct o. }
    rewrite Happ, rx_frame, E by done. by rewrite fmap_cons.
Qed.

(** Reading [n] codes; stops when the caller would block. *)
Fixpoint read_codes (n : nat) s : list Z * ps2 :=
  match n with
  | O => ([], s)
  | S n =>
      match ps2_connector_get_next_code s with
      | (Some c, s) => let '(cs, s) := read_codes n s in (c :: cs, s)
      | (None, s) => ([], s)
      end
  end.

Lemma read_codes_spec n s :
  sq_ok (rx_msg_que s) -> (n <= length (sq_items (rx_msg_que s)))%nat ->
  (read_codes n s).1 = reverse <$> take n (sq_items (rx_msg_que s)) /\
  sq_ok (rx_msg_que (read_codes n s).2) /\
  sq_items (rx_msg_que (read_codes n s).2) = drop n (sq_items (rx_msg_que s)).
Proof.
  revert s. induction n as [|n IH]; intros s Hq Hn; [done|]. cbn [read_codes].
  unfold ps2_connector_get_next_code. pose proof (sq_get_spec (rx_msg_que s) Hq) as G.
  destruct (sq_items (rx_msg_que s)) as [|b l]; [cbn in Hn; lia|].
  destruct (sq_get (rx_msg_que s)) as [r q]. cbn [fst snd] in G. destruct G as (->&G2&G3).
  destruct (IH (set_que q s)) as (I1&I2&I3); [done|cbn in *; rewrite G3; lia|].
  cbn [rx_msg_que set_que] in I1, I3. rewrite G3 in I1, I3.
  destruct (read_codes n (set_que q s)) as [cs s2]. cbn [fst snd] in *. rewrite I1. done.
Qed.
End system.

(** ** The kernel's message queue implements the connector's *)

Section kernel_queue.
(** Where the connector keeps the byte it puts and the one it gets. *)
Context (incoming_addr result_addr : Z).

Definition mq_put_byte (b : Z) (q : mq_world) : mq_world :=
  (z_impl_k_msgq_put incoming_addr K_NO_WAIT
     (mk_world (mq q) (mem_store incoming_addr [b] (ram q)) (krn q))).2.

Definition mq_get_byte (q : mq_world) : option Z * mq_world :=
  match z_impl_k_msgq_get result_addr K_FOREVER q with
  | (Ret _, q') => (Some (ram q' result_addr), q')
  | (Pended, q') => (None, q')
  end.

(** The worker is running (it is the only reader), so nobody waits. *)
Record mq_ready (q : mq_world) : Prop := {
  mr_inv : mq_inv q;
  mr_nobody : waiters q = [];
  mr_bytes : msg_size (mq q) = 1;
  mr_size : max_msgs (mq q) = PS2_MSG_QUE_SIZE;
  mr_src : outside incoming_addr (mq q);
  mr_dst : outside result_addr (mq q);
  mr_running : z_is_thread_ready (current (krn q)) (krn q) = true /\ current (krn q) <> idle_thread (krn q) }.

Lemma unpend_nobody q : waiters q = [] -> z_unpend_first_thread (wait_q (mq q)) (krn q) = (None, krn q).
Proof.
  intros Hw. unfold z_unpend_first_thread, z_unpend1_no_timeout, z_find_first_thread_to_unpend, z_priq_dumb_best.
  unfold waiters in Hw. by rewrite Hw.
Qed.

Lemma mq_put_byte_spec b q :
  mq_ready q ->
  mq_ready (mq_put_byte b q) /\
  contents (mq_put_byte b q) =
    if Z.of_nat (length (contents q)) <? PS2_MSG_QUE_SIZE then contents q ++ [[b]] else contents q.
Proof.
  intros [R1 R2 R3 R4 R5 R6 R7]. unfold mq_put_byte.
  destruct (store_inv incoming_addr [b] q R1 R5) as (S1&S2&S3); [by rewrite R3|].
  set (q1 := mk_world _ _ _) in *.
  destruct (put_spec incoming_addr K_NO_WAIT q1 S1 (or_intror R7) R5) as [O1 O2].
  pose proof (put_geometry incoming_addr K_NO_WAIT q1) as Hg.
  assert (Hk : krn (z_impl_k_msgq_put incoming_addr K_NO_WAIT q1).2 = krn q).
  { unfold z_impl_k_msgq_put. destruct (_ <? _); [|done].
    change (mq q1) with (mq q). change (krn q1) with (krn q). by rewrite unpend_nobody. }
  assert (Hm : mem_bytes (ram q1) incoming_addr (msg_size (mq q1)) = [b])
    by (change (msg_size (mq q1)) with (msg_size (mq q)); rewrite R3; apply (mem_bytes_store_same _ _ [b])).
  assert (Hlen : Z.of_nat (length (contents q)) = used_msgs (mq q)) by (apply length_messages, (mi_ring _ R1)).
  rewrite Hlen, <- R4.
  destruct (z_impl_k_msgq_put incoming_addr K_NO_WAIT q1) as [r q2]. cbn [snd] in *.
  unfold put_outcome in O1. rewrite Hm, S2, S3, R2 in O1.
  change (used_msgs (mq q1)) with (used_msgs (mq q)) in O1. change (max_msgs (mq q1)) with (max_msgs (mq q)) in O1.
  assert (Hr : waiters q2 = [] -> mq_ready q2).
  { injection Hg as G1 G2 G3 G4. change (geometry (mq q1)) with (geometry (mq q)) in *.
    split; try done; [congruence|congruence| | |by rewrite Hk];
      (eapply outside_geometry; [|eassumption]); unfold geometry; cbn in *; congruence. }
  destruct (_ <? _).
  - destruct O1 as (_&O3&O4&_). split; [by apply Hr|done].
  - destruct O1 as [_ ->]. split; [by apply Hr|done].
Qed.

Lemma mq_get_byte_spec q :
  mq_ready q ->
  match contents q with
  | m :: l => exists b q', m = [b] /\ mq_get_byte q = (Some b, q') /\ mq_ready q' /\ contents q' = l
  | [] => (mq_get_byte q).1 = None
  end.
Proof.
  intros [R1 R2 R3 R4 R5 R6 R7]. unfold mq_get_byte.
  destruct (get_spec result_addr K_FOREVER q R1 (or_intror R7) R6) as [O1 O2].
  pose proof (get_geometry result_addr K_FOREVER q) as Hg.
  assert (Hk : contents q <> [] -> krn (z_impl_k_msgq_get result_addr K_FOREVER q).2 = krn q).
  { intros Hc. unfold z_impl_k_msgq_get. destruct (Z.ltb_spec 0 (used_msgs (mq q))) as [Hu|Hu].
    - cbn [wait_q set_used set_read]. by rewrite unpend_nobody.
    - destruct Hc. unfold contents, messages. by rewrite seqZ_nil by lia. }
  destruct (z_impl_k_msgq_get result_addr K_FOREVER q) as [r q2]. cbn [snd] in *.
  unfold get_outcome in O1. rewrite R2 in O1. destruct (contents q) as [|m l].
  - change (K_TIMEOUT_EQ K_FOREVER K_NO_WAIT) with false in O1. by destruct O1 as (->&_).
  - destruct O1 as (->&O3&O4&O5). rewrite R3 in O3. exists (ram q2 result_addr), q2.
    split; [by rewrite <- O3|]. split; [done|]. split; [|done]. specialize (Hk ltac:(done)).
    injection Hg as G1 G2 G3 G4.
    split; try done; [congruence|congruence| | |by rewrite Hk];
      (eapply outside_geometry; [|eassumption]); unfold geometry; congruence.
Qed.

Definition mq_items (q : mq_world) : list Z := (fun m => nth 0 m 0) <$> contents q.

Lemma mq_put_items b q :
  mq_ready q ->
  mq_ready (mq_put_byte b q) /\
  mq_items (mq_put_byte b q) =
    if Z.of_nat (length (mq_items q)) <? PS2_MSG_QUE_SIZE then mq_items q ++ [b] else mq_items q.
Proof.
  intros Hq. destruct (mq_put_byte_spec b q Hq) as [P1 P2]. split; [done|]. unfold mq_items.
  rewrite P2, length_fmap. destruct (_ <? _); [|done]. by rewrite fmap_app.
Qed.

Lemma mq_get_items q :
  mq_ready q ->
  match mq_items q with
  | b :: l => (mq_get_byte q).1 = Some b /\ mq_ready (mq_get_byte q).2 /\ mq_items (mq_get_byte q).2 = l
  | [] => (mq_get_byte q).1 = None
  end.
Proof.
  intros Hq. pose proof (mq_get_byte_spec q Hq) as G. unfold mq_items at 1.
  destruct (contents q) as [|m l]; [done|]. rewrite fmap_cons. destruct G as (b&q'&->&->&G3&G4). cbn.
  unfold mq_items. by rewrite G4.
Qed.

Definition msgq_scan_queue : ScanQueue mq_world := {|
  sq_put := mq_put_byte; sq_get := mq_get_byte; sq_items := mq_items; sq_ok := mq_ready;
  sq_put_spec := mq_put_items; sq_get_spec := mq_get_items |}.

(** The queue as [ps2_connector_init] makes it. *)
Lemma init_ready w buffer m k :
  sched_inv k -> waitqs k w = [] -> z_is_thread_ready (current k) k = true -> current k <> idle_thread k ->
  disjoint_regions buffer PS2_MSG_QUE_SIZE incoming_addr 1 -> disjoint_regions buffer PS2_MSG_QUE_SIZE result_addr 1 ->
  mq_ready (k_msgq_init w buffer 1 PS2_MSG_QUE_SIZE m k) /\
  contents (k_msgq_init w buffer 1 PS2_MSG_QUE_SIZE m k) = [].
Proof.
  intros Hk Hw Hr Hi Hs Hd. by destruct (init_spec w buffer 1 PS2_MSG_QUE_SIZE m k) as (I1&I2&I3).
Qed.
End kernel_queue.

(** ** Initialisation leaves the connector listening *)

Section init.
Context {H : Type} `{!NrfHal H} {Q : Type} `{!ScanQueue Q}.
Implicit Types (s : ps2 (H := H) (Q := Q)) (g : gpio_state (H := H)).

(** What a GPIO state must be for [interrupt_configure] to succeed and for
    nobody but the callback at [node] to be on the clock line; the pins in
    [pins] have been made inputs. *)
Record prepared (node : Z) (pins : list Z) g : Prop := {
  pr_gpiote : gpiote_ok g;
  pr_free : exists i, 0 <= i < GPIOTE_CH_NUM /\ chan_on g i = false;
  pr_nodup : NoDup (cb_node <$> callbacks (ports g PS2_PORT));
  pr_callbacks : forall cb, cb ∈ callbacks (ports g PS2_PORT) -> on_clock cb -> cb_node cb = node;
  pr_input : forall p, p ∈ pins -> cnf_dir (r_cnf (view (hw g)) p) = NRF_GPIO_PIN_DIR_INPUT;
  pr_invert : forall p, p ∈ pins -> Z.testbit (invert (ports g PS2_PORT)) p = false }.

(** Only input levels change. *)
Record inputs_change g g' : Prop := {
  ic_state : ports g' = ports g /\ gpiote_alloc_mask g' = gpiote_alloc_mask g;
  ic_cnf : forall q, r_cnf (view (hw g')) q = r_cnf (view (hw g)) q;
  ic_chan : forall c, r_chan (view (hw g')) c = r_chan (view (hw g)) c;
  ic_mode : forall c, r_mode (view (hw g')) c = r_mode (view (hw g)) c;
  ic_inten : r_inten (view (hw g')) = r_inten (view (hw g)) }.

Definition quiet (step : ps2 -> ps2) : Prop :=
  forall s, exists g, step s = set_gpio g s /\ inputs_change (gpio s) g.

Lemma gpiote_ok_ext g g' :
  gpiote_alloc_mask g' = gpiote_alloc_mask g -> (forall c, r_chan (view (hw g')) c = r_chan (view (hw g)) c) ->
  (forall c, r_mode (view (hw g')) c = r_mode (view (hw g)) c) -> r_inten (view (hw g')) = r_inten (view (hw g)) ->
  gpiote_ok g -> gpiote_ok g'.
Proof.
  intros Ea Ec Em Ei [G1 G2 G3]. split; unfold chan_on, chan_pin in *; intros.
  - rewrite Ea, Ei. by apply G1.
  - rewrite Em. apply G2; [done|]. by rewrite <- Ei.
  - rewrite Ei, ?Ec in *. by apply G3.
Qed.

Lemma inputs_prepared node pins g g' : inputs_change g g' -> prepared node pins g -> prepared node pins g'.
Proof.
  intros [[E1 E2] E3 E4 E5 E6] [P1 P2 P3 P3' P4 P5]. split.
  - by apply (gpiote_ok_ext g).
  - unfold chan_on. by rewrite E6.
  - by rewrite E1.
  - by rewrite E1.
  - intros p Hp. rewrite E3. by apply P4.
  - intros p Hp. rewrite E1. by apply P5.
Qed.

Lemma configure_prepared node pins pin g :
  (forall p, p ∈ pins -> 0 <= p < 32) -> 0 <= pin < 32 -> prepared node pins g ->
  let '(err, g') := gpio_pin_configure gpio_nrfx_drv_api_funcs PS2_PORT pin GPIO_INPUT g in
  err = 0 /\ prepared node (pin :: pins) g'.
Proof.
  intros Hps Hpin [P1 P2 P3 P3' P4 P5].
  pose proof (pin_configure_spec PS2_PORT pin GPIO_INPUT g ltac:(unfold PS2_PORT; lia) Hpin
    eq_refl eq_refl eq_refl) as C.
  change (config_drive GPIO_INPUT) with (Some NRF_GPIO_PIN_S0S1) in C. cbn iota in C.
  destruct (gpio_pin_configure _ _ _ _ _) as [err g'].
  destruct C as (->&C2&C3&C4&C5&_&_&_&C9&C10&C11&_). split; [done|]. split.
  - by apply (gpiote_ok_ext g).
  - unfold chan_on. by rewrite C11.
  - by rewrite C3.
  - by rewrite C3.
  - intros p Hp. rewrite C4. unfold PS2_PORT. destruct (Z.eqb_spec p (32 * 0 + pin)) as [->|]; [done|].
    apply P4. apply elem_of_cons in Hp as [->|Hp]; [lia|done].
  - intros p Hp. assert (0 <= p < 32) by (apply elem_of_cons in Hp as [->|Hp]; auto).
    rewrite C5 by done. destruct (Z.eqb_spec p pin) as [->|]; [by rewrite Z.eqb_refl|].
    rewrite andb_false_r. apply P5. apply elem_of_cons in Hp as [->|Hp]; done.
Qed.

Lemma wait_prepared node pins env s s' :
  Forall quiet env -> prepared node pins (gpio s) -> wait_lines_high env s = Some s' ->
  prepared node pins (gpio s') /\ lines_released s' = true /\ exists g, s' = set_gpio g s.
Proof.
  intros He. unfold wait_lines_high. revert s. induction He as [|step env Hq _ IH]; intros s Hp Hw; cbn in Hw.
  - destruct (lines_released s) eqn:El; [|done]. injection Hw as <-. split; [done|]. split; [done|].
    exists (gpio s). by destruct s.
  - destruct (lines_released s) eqn:El.
    + injection Hw as <-. split; [done|]. split; [done|]. exists (gpio s). by destruct s.
    + destruct (Hq s) as (g&Eg&Hg). rewrite Eg in Hw.
      destruct (IH (set_gpio g s)) as (I1&I2&g2&->); [by eapply inputs_prepared|done|].
      split; [done|]. split; [done|]. by exists g2.
Qed.

Lemma interrupt_configure_gpio pin flags s : exists g, interrupt_configure pin flags s = set_gpio g s.
Proof.
  unfold interrupt_configure. destruct (z_impl_gpio_pin_interrupt_configure _ PS2_PORT pin flags (gpio s)) as [[r g]|].
  - by exists g.
  - exists (gpio s). by destruct s.
Qed.

(** The clock interrupt and the callback. *)
Lemma start_listening s :
  prepared (cb_node (clk_fall_cb_data s)) [PS2_DATA_GPIO_PIN; PS2_CLK_GPIO_PIN] (gpio s) -> rx_ok s ->
  let s := interrupt_configure PS2_CLK_GPIO_PIN GPIO_INT_EDGE_TO_INACTIVE s in
  let cb := gpio_init_callback (clk_fall_cb_data s) CLK_FALL_CB (BIT PS2_CLK_GPIO_PIN) in
  listening (set_gpio (gpio_add_callback gpio_nrfx_drv_api_funcs PS2_PORT cb (gpio (set_cb cb s))).2 (set_cb cb s)).
Proof.
  intros [P1 [i [Hi Hoff]] P3 P3' P4 P5] Hrx. cbn zeta.
  assert (H27 : 0 <= PS2_CLK_GPIO_PIN < 32) by (unfold PS2_CLK_GPIO_PIN; lia).
  assert (Hd : PS2_DATA_GPIO_PIN ∈ [PS2_DATA_GPIO_PIN; PS2_CLK_GPIO_PIN]) by constructor.
  assert (Hc : PS2_CLK_GPIO_PIN ∈ [PS2_DATA_GPIO_PIN; PS2_CLK_GPIO_PIN]) by (right; constructor).
  unfold interrupt_configure, z_impl_gpio_pin_interrupt_configure.
  cbn [api_invert api_pin_interrupt_configure gpio_nrfx_drv_api_funcs get_port_data].
  rewrite (nz_land_bit _ PS2_CLK_GPIO_PIN H27), P5 by done.
  rewrite andb_false_r.
  change (GPIO_INT_EDGE_TO_INACTIVE .& (GPIO_INT_LOW_0 .| GPIO_INT_HIGH_1)) with GPIO_INT_TRIG_LOW.
  change (GPIO_INT_EDGE_TO_INACTIVE .& (GPIO_INT_EDGE .| GPIO_INT_DISABLE .| GPIO_INT_ENABLE)) with GPIO_INT_MODE_EDGE.
  pose proof (int_configure_spec PS2_PORT PS2_CLK_GPIO_PIN GPIO_INT_MODE_EDGE GPIO_INT_TRIG_LOW (gpio s) P1
    ltac:(unfold PS2_PORT; lia) H27) as I.
  pose proof (int_configure_ports PS2_PORT PS2_CLK_GPIO_PIN GPIO_INT_MODE_EDGE GPIO_INT_TRIG_LOW (gpio s) PS2_PORT) as [J1 J2].
  destruct (gpio_nrfx_pin_interrupt_configure _ _ _ _ _) as [r g']. cbn [snd] in J1, J2.
  destruct I as (I1&_&I3). change (32 * PS2_PORT + PS2_CLK_GPIO_PIN) with PS2_CLK_GPIO_PIN in I3.
  rewrite Z.eqb_refl, (P4 _ Hc) in I3.
  destruct I3 as [[_ I3]|(_&_&I3)]; [|destruct (I3 i Hi) as [I4 _]; congruence].
  unfold gpio_add_callback. cbn [api_manage_callback gpio_nrfx_drv_api_funcs gpio set_gpio set_cb snd].
  unfold gpio_nrfx_manage_callback, get_port_data. rewrite J1.
  set (cb := gpio_init_callback _ _ _). pose proof (manage_callback_spec _ cb true P3) as M.
  destruct (gpio_manage_callback _ cb true) as [r' l']. destruct M as (_&->&_). cbn [snd].
  split; cbn [gpio set_gpio].
  - by apply (gpiote_ok_ext g').
  - exact I3.
  - exists (cb_node (clk_fall_cb_data s)). cbn [set_port_data ports]. unfold upd. rewrite decide_True by done.
    cbn [set_callbacks callbacks app]. rewrite filter_cons_True by done. f_equal.
    apply filter_none, Forall_forall. intros c [Hne Hin]%list_elem_of_filter Hon. by apply Hne, P3'.
  - cbn [set_port_data ports]. unfold upd. rewrite decide_True by done. cbn [set_callbacks invert].
    rewrite J2. by apply P5.
  - exact Hrx.
Qed.
End init.

Section init_result.
Context {H : Type} `{!NrfHal H} {Q : Type} `{!ScanQueue Q}.
Implicit Types (s : ps2 (H := H) (Q := Q)) (queue : Q).

(** The state in which [ps2_connector_init] waits: both pins are inputs. *)
Definition lines_configured queue s : ps2 :=
  configure PS2_DATA_GPIO_PIN GPIO_INPUT (configure PS2_CLK_GPIO_PIN GPIO_INPUT (set_que queue s)).

Lemma init_configured queue env s :
  prepared (cb_node (clk_fall_cb_data s)) [] (gpio s) ->
  prepared (cb_node (clk_fall_cb_data s)) [PS2_DATA_GPIO_PIN; PS2_CLK_GPIO_PIN] (gpio (lines_configured queue s)) /\
  ps2_connector_init queue env s =
    (s ← wait_lines_high env (lines_configured queue s);
     let s := interrupt_configure PS2_CLK_GPIO_PIN GPIO_INT_EDGE_TO_INACTIVE (set_PS2_state PS2_STATE_DEV_TO_HOST s) in
     let s := set_cb (gpio_init_callback (clk_fall_cb_data s) CLK_FALL_CB (BIT PS2_CLK_GPIO_PIN)) s in
     Some (set_gpio (gpio_add_callback gpio_nrfx_drv_api_funcs PS2_PORT (clk_fall_cb_data s) (gpio s)).2 s)).
Proof.
  intros Hp. unfold ps2_connector_init, lines_configured, configure.
  pose proof (configure_prepared (cb_node (clk_fall_cb_data s)) [] PS2_CLK_GPIO_PIN (gpio (set_que queue s))) as C1.
  destruct (gpio_pin_configure _ _ PS2_CLK_GPIO_PIN _ _) as [err g1].
  destruct C1 as [-> P1]; [by intros p ?%elem_of_nil|unfold PS2_CLK_GPIO_PIN; lia|done|].
  change (nz 0) with false. cbn iota. cbn [gpio set_gpio snd].
  pose proof (configure_prepared (cb_node (clk_fall_cb_data s)) [PS2_CLK_GPIO_PIN] PS2_DATA_GPIO_PIN g1) as C2.
  destruct (gpio_pin_configure _ _ PS2_DATA_GPIO_PIN _ _) as [err g2].
  destruct C2 as [-> P2];
    [intros p ->%list_elem_of_singleton; unfold PS2_CLK_GPIO_PIN; lia|unfold PS2_DATA_GPIO_PIN; lia|done|].
  split; [exact P2|]. change (nz 0) with false. cbn [snd]. by destruct (wait_lines_high env _).
Qed.

(** After initialisation the connector listens: the clock's falling edge is watched
    by one channel and the callback is registered; the queue is the fresh one. *)
Lemma init_listens queue env s s' :
  prepared (cb_node (clk_fall_cb_data s)) [] (gpio s) -> rx_ok s -> Forall quiet env ->
  ps2_connector_init queue env s = Some s' ->
  listening s' /\ PS2_state s' = PS2_STATE_DEV_TO_HOST /\ rx_msg_que s' = queue /\
  current_bit_no s' = current_bit_no s.
Proof.
  intros Hp Hr He Hi. destruct (init_configured queue env s Hp) as [P2 E]. rewrite E in Hi. clear E.
  destruct (wait_lines_high env _) as [s1|] eqn:Ew; [|done].
  destruct (wait_prepared (cb_node (clk_fall_cb_data s)) [PS2_DATA_GPIO_PIN; PS2_CLK_GPIO_PIN] _ _ _ He P2 Ew)
    as (P3&_&g3&->).
  cbn [mbind option_bind] in Hi. injection Hi as <-. split.
  - apply (start_listening (set_PS2_state PS2_STATE_DEV_TO_HOST (set_gpio g3 (lines_configured queue s))) P3 Hr).
  - by destruct (interrupt_configure_gpio PS2_CLK_GPIO_PIN GPIO_INT_EDGE_TO_INACTIVE
      (set_PS2_state PS2_STATE_DEV_TO_HOST (set_gpio g3 (lines_configured queue s)))) as [g ->].
Qed.

Lemma wait_until_none ready env s :
  wait_until ready env s = None -> forall n, ready (foldl (fun s step => step s) s (take n env)) = false.
Proof.
  revert s. induction env as [|step env IH]; intros s; cbn [wait_until]; destruct (ready s) eqn:E; try done.
  - intros _ n. by rewrite take_nil.
  - intros Hw [|n]; [done|]. by apply IH.
Qed.

(** It returns unless one of the lines was low at every sample. *)
Lemma init_waits queue env s :
  prepared (cb_node (clk_fall_cb_data s)) [] (gpio s) -> ps2_connector_init queue env s = None ->
  forall n, lines_released (foldl (fun s step => step s) (lines_configured queue s) (take n env)) = false.
Proof.
  intros Hp Hi. destruct (init_configured queue env s Hp) as [_ E]. rewrite E in Hi. apply wait_until_none.
  change (wait_lines_high env (lines_configured queue s) = None). by destruct (wait_lines_high env _).
Qed.
End init_result.

(** ** Properties *)

(** C2. Bytes the keyboard clocks out arrive: for any bytes sent frame after frame,
    through the GPIO interrupt, the queue ends up with them (bits reversed) in
    order behind what it held, as far as it has room, and reading codes returns
    the bytes as they were sent.  The connector is then ready for the next frame. *)
Theorem keyboard_bytes_received {H} `{!NrfHal H} {Q} `{!ScanQueue Q} (ds : list Z) (s s' : ps2 (H := H) (Q := Q))
    (Hl : listening s) (Hst : PS2_state s <> PS2_STATE_HOST_TO_DEV) (Hn : current_bit_no s = 0)
    (Hq : sq_ok (rx_msg_que s)) (Hd : Forall (fun d => 0 <= d < 256) ds)
    (He : edges (concat (frame <$> ds)) s s') :
  let room := (Z.to_nat PS2_MSG_QUE_SIZE - length (sq_items (rx_msg_que s)))%nat in
  listening s' /\ current_bit_no s' = 0 /\
  sq_items (rx_msg_que s') = sq_items (rx_msg_que s) ++ take room (reverse <$> ds) /\
  (read_codes (length (sq_items (rx_msg_que s'))) s').1 =
    (reverse <$> sq_items (rx_msg_que s)) ++ take room ds.
Proof.
  cbn zeta. destruct (ls_rx _ Hl) as [_ Hx].
  pose proof (edges_rx _ s s' Hl Hst Hq He) as R. unfold rx_state in R at 1. rewrite Hn in R.
  destruct (rx_frames ds (incoming_data s) Hd Hx) as (x'&_&E). rewrite E in R.
  destruct R as (R1&_&R3&R4&R5). split; [done|]. split; [by injection R4|]. split; [exact R5|].
  destruct (read_codes_spec (length (sq_items (rx_msg_que s'))) s' R3) as (C1&_); [lia|].
  rewrite C1, take_ge, R5 by lia. unfold put_all. rewrite fmap_app, <- fmap_take. f_equal.
  rewrite <- list_fmap_compose. rewrite <- (list_fmap_id (take _ ds)) at 2.
  apply list_fmap_ext. intros i d Hi. cbn. apply shifted_data.
  rewrite Forall_forall in Hd. apply Hd. apply lookup_take_Some in Hi as [Hi _].
  by eapply list_elem_of_lookup_2.
Qed.

(** C21. Damaged frames deliver nothing: whatever the eight data bits, a frame with
    wrong parity or a low stop bit leaves the queue unchanged.  The connector is then
    ready for the next start bit, except after a frame with both faults: it has
    dropped that at the parity bit and takes the low stop bit as a start bit, so that
    it is one bit into the next frame. *)
Theorem damaged_frames_dropped {H} `{!NrfHal H} {Q} `{!ScanQueue Q} (bs : list bool) (p t : bool)
    (s s' : ps2 (H := H) (Q := Q))
    (Hl : listening s) (Hst : PS2_state s <> PS2_STATE_HOST_TO_DEV) (Hn : current_bit_no s = 0)
    (Hq : sq_ok (rx_msg_que s)) (Hb : length bs = 8%nat)
    (Hbad : xorb (foldr xorb false bs) p && t = false) (He : edges (false :: bs ++ [p; t]) s s') :
  listening s' /\ sq_items (rx_msg_que s') = sq_items (rx_msg_que s) /\
  current_bit_no s' = if xorb (foldr xorb false bs) p || t then 0 else 1.
Proof.
  destruct (ls_rx _ Hl) as [_ Hx].
  pose proof (edges_rx _ s s' Hl Hst Hq He) as R. unfold rx_state in R at 1. rewrite Hn in R.
  rewrite rx_eleven in R by done. assert (Hnil : forall l, put_all l [] = l)
    by (intros l; unfold put_all; by rewrite take_nil, app_nil_r).
  destruct (xorb _ p), t; try done; destruct R as (R1&_&_&R4&R5); rewrite Hnil in R5;
    (split; [done|]); (split; [done|by injection R4]).
Qed.

Section sending.
Context {H : Type} `{!NrfHal H} {Q : Type} `{!ScanQueue Q}.
Implicit Types (s : ps2 (H := H) (Q := Q)).

(** What can happen while [ps2_connector_send_byte] waits: the clock interrupt,
    and anything on the lines or in the queue. *)
Inductive waiting_step : ps2 -> ps2 -> Prop :=
| ws_clock s : waiting_step s (clk_fall_cb s)
| ws_lines g s : waiting_step s (set_gpio g s)
| ws_queue q s : waiting_step s (set_que q s).

Definition waiting (f : ps2 -> ps2) : Prop := forall s, rtc waiting_step s (f s).

Definition in_transfer s : Prop :=
  (PS2_state s = PS2_STATE_HOST_TO_DEV /\ current_bit_no s <> 9) \/ PS2_state s = PS2_STATE_DEV_TO_HOST.

Lemma dev_to_host_keeps_state s : PS2_state (dev_to_host_serve_falling_clk s) = PS2_state s.
Proof.
  unfold dev_to_host_serve_falling_clk. destruct (_ && _); [done|].
  destruct (_ <? 9); repeat (destruct (_ && _); [done|]); by destruct (_ =? 10).
Qed.

(** The first clock edge ends the transfer as far as the state tells. *)
Lemma host_to_dev_first s :
  current_bit_no s <> 9 -> PS2_state (host_to_dev_serve_falling_clk s) = PS2_STATE_DEV_TO_HOST.
Proof.
  intros Hn. unfold host_to_dev_serve_falling_clk.
  set (s1 := if nz _ then _ else _). cbn zeta.
  set (s2 := if current_bit_no s1 =? 8 then if negb _ then _ else _ else s1).
  set (s3 := if current_bit_no s2 =? 8 then _ else s2).
  assert (E : PS2_state s3 = PS2_STATE_DEV_TO_HOST /\ current_bit_no s3 = current_bit_no s).
  { assert (E1 : PS2_state s1 = PS2_STATE_DEV_TO_HOST /\ current_bit_no s1 = current_bit_no s)
      by (unfold s1; by destruct (nz _)).
    assert (E2 : PS2_state s2 = PS2_STATE_DEV_TO_HOST /\ current_bit_no s2 = current_bit_no s)
      by (unfold s2; clearbody s1; destruct (_ =? 8); [by destruct (negb _)|done]).
    unfold s3. clearbody s2. by destruct (_ =? 8). }
  clearbody s3. destruct E as [E ->]. by rewrite (proj2 (Z.eqb_neq _ _) Hn).
Qed.

Lemma in_transfer_step s s' : waiting_step s s' -> in_transfer s -> in_transfer s'.
Proof.
  intros Hs Ht. destruct Hs as [s|g s|q s]; [|done|done]. unfold clk_fall_cb. right.
  destruct Ht as [[E1 E2]|E1]; rewrite E1; [by apply host_to_dev_first|].
  by rewrite dev_to_host_keeps_state.
Qed.

Lemma in_transfer_waiting f s : waiting f -> in_transfer s -> in_transfer (f s).
Proof. intros Hf. specialize (Hf s). induction Hf; [done|]. eauto using in_transfer_step. Qed.

Lemma in_transfer_wait env s : Forall waiting env -> in_transfer s -> wait_until sent_byte env s = None.
Proof.
  intros He. revert s. induction He as [|f env Hf _ IH]; intros s Hs; cbn;
    (assert (sent_byte s = false) as -> by (unfold sent_byte; by destruct Hs as [[-> _]| ->])); [done|].
  by apply IH, in_transfer_waiting.
Qed.

(** A pin that is an output driving its low level. *)
Definition pulls_low (g : gpio_state (H := H)) (pin : Z) : Prop :=
  cnf_dir (r_cnf (view (hw g)) pin) = NRF_GPIO_PIN_DIR_OUTPUT /\ Z.testbit (r_out (view (hw g)) 0) pin = false.

(** Configure for low, then set to a flag value: flags are not zero, so the pin
    is set high. *)
Lemma set_low_drives_high pin value s :
  0 <= pin < 32 -> nz value = true ->
  Z.testbit (r_out (view (hw (gpio (set_pin pin value (configure pin PS2_GPIO_FLAGS_LOW s))))) 0) pin = true.
Proof.
  intros Hpin Hv. unfold set_pin, configure. cbn [gpio set_gpio].
  pose proof (pin_configure_spec PS2_PORT pin PS2_GPIO_FLAGS_LOW (gpio s) ltac:(unfold PS2_PORT; lia) Hpin
    eq_refl eq_refl eq_refl) as C.
  change (config_drive PS2_GPIO_FLAGS_LOW) with (Some NRF_GPIO_PIN_S0D1) in C. cbn iota in C.
  destruct (gpio_pin_configure gpio_nrfx_drv_api_funcs PS2_PORT pin PS2_GPIO_FLAGS_LOW (gpio s)) as [r g].
  cbn [snd]. destruct C as (_&_&_&_&C5&_).
  pose proof (C5 PS2_PORT pin Hpin) as Hinv. rewrite !Z.eqb_refl in Hinv. cbn [andb] in Hinv.
  change (Z.testbit PS2_GPIO_FLAGS_LOW 0) with false in Hinv.
  unfold gpio_pin_set, gpio_pin_set_raw. cbn [api_invert gpio_nrfx_drv_api_funcs get_port_data].
  unfold get_port_data. rewrite nz_land_bit by done. rewrite Hinv, Hv. cbn [z_impl_gpio_port_set_bits_raw api_port_set_bits_raw
    gpio_nrfx_drv_api_funcs gpio_nrfx_port_set_bits_raw snd get_port_cfg port]. hal.
  unfold upd. rewrite decide_True by done. rewrite Z.lor_spec, bit_testbit, Z.eqb_refl by lia. apply orb_true_r.
Qed.
End sending.

(** C39. Sending does not complete: called while the next incoming bit is not a parity
    bit ([current_bit_no] is not 9, where the first clock edge would set the state to
    idle), [ps2_connector_send_byte] keeps waiting for the transfer to end, whatever
    clock interrupts, line changes and queue operations happen meanwhile, because the
    first clock edge already switches the state to receiving. *)
Theorem send_never_completes {H} `{!NrfHal H} {Q} `{!ScanQueue Q} (msg : Z)
    (during1 during2 : ps2 -> ps2) (env1 env2 : list (ps2 -> ps2)) (s : ps2 (H := H) (Q := Q))
    (H1 : waiting during1) (H2 : waiting during2) (He : Forall waiting env1) (Hn : current_bit_no s <> 9) :
  ps2_connector_send_byte during1 during2 env1 env2 msg s = None.
Proof.
  unfold ps2_connector_send_byte. rewrite in_transfer_wait; [done|done|].
  unfold host_to_dev_init_request_to_send.
  match goal with |- context [interrupt_configure ?p ?f ?x] => destruct (interrupt_configure_gpio p f x) as [g ->] end.
  set (s1 := set_PS2_state _ _). assert (T : in_transfer s1) by (by left).
  pose proof (in_transfer_waiting during1 (set_clk_low s1) H1 T) as T1.
  pose proof (in_transfer_waiting during2 (set_data_low (during1 (set_clk_low s1))) H2 T1) as T2.
  destruct T2 as [[T2 _]|T2]; [left|right]; [split; [exact T2|done]|exact T2].
Qed.

(** The lines are never pulled low: [set_clk_low] and [set_data_low] pass output
    flags where a level is expected, and so set the open-drain pin high, which
    leaves its line floating. *)
Theorem lines_never_pulled_low {H} `{!NrfHal H} {Q} `{!ScanQueue Q} (s : ps2 (H := H) (Q := Q)) :
  ~ pulls_low (gpio (set_clk_low s)) PS2_CLK_GPIO_PIN /\
  ~ pulls_low (gpio (set_data_low s)) PS2_DATA_GPIO_PIN.
Proof.
  split; intros [_ Hlow]; unfold set_clk_low, set_data_low in Hlow;
    rewrite set_low_drives_high in Hlow; try done; unfold PS2_CLK_GPIO_PIN, PS2_DATA_GPIO_PIN; lia.
Qed.

(** ** A concrete system *)

#[export] Instance example_scan_queue : ScanQueue mq_world := msgq_scan_queue 8000 8001.

Definition example_lines (v : Z) (r : regs) : regs :=
  mk_regs (r_out r) (upd 0 v (r_in r)) (r_cnf r) (r_chan r) (r_mode r) (r_inten r) (r_event r).
Definition example_gpio : gpio_state (H := regs) := on_hw (example_lines (BIT 26 .| BIT 27)) reset_gpio.
Definition example_rx_queue : mq_world := k_msgq_init 100 5000 1 PS2_MSG_QUE_SIZE (fun _ => 0) example_boot.
Definition example_ps2 : ps2 (H := regs) (Q := mq_world) :=
  mk_ps2 PS2_STATE_IDLE 0 0 0 example_rx_queue (mk_cb 900 0 0) example_gpio.
Definition example_started : ps2 (H := regs) (Q := mq_world) :=
  default example_ps2 (ps2_connector_init example_rx_queue [] example_ps2).

(** A clock pulse of the keyboard on this hardware, channel 0 watching. *)
Definition pulse (b : bool) (g : gpio_state (H := regs)) : gpio_state (H := regs) :=
  on_hw (fun r => mk_regs (r_out r) (upd 0 (if b then BIT 26 else 0) (r_in r)) (r_cnf r) (r_chan r) (r_mode r)
                    (r_inten r) (fun e => bool_decide (e = NRF_GPIOTE_EVENT_IN 0))) g.
Fixpoint pulses (bs : list bool) (s : ps2 (H := regs) (Q := mq_world)) : ps2 :=
  match bs with
  | [] => s
  | b :: bs => pulses bs (gpio_irq (set_gpio (pulse b (gpio s)) s))
  end.

Lemma pulses_edges bs s :
  listening s -> PS2_state s <> PS2_STATE_HOST_TO_DEV ->
  (forall i, 0 <= i < 8 -> chan_on (gpio s) i = true -> i = 0) -> edges bs s (pulses bs s).
Proof.
  revert s. induction bs as [|b bs IH]; intros s Hl Hst H0; [done|]. cbn [edges pulses].
  assert (He : line_edge b (gpio s) (pulse b (gpio s))).
  { destruct (proj2 (ls_served _ Hl _) eq_refl) as (j&Hj&Oj&Cj). assert (j = 0) as -> by (by apply H0).
    split; try done; [by destruct b|]. intros i Hi Oi. assert (i = 0) as -> by (by apply H0).
    rewrite Cj. cbn. by rewrite bool_decide_true. }
  exists (pulse b (gpio s)). split; [done|].
  destruct (irq_step b _ s Hl He) as (g2&E1&E2&E3&E4). rewrite E1.
  assert (Hcb : clk_fall_cb (set_gpio g2 s) = rx_apply b (set_gpio g2 s)).
  { rewrite <- dev_to_host_step by (done || apply E2). unfold clk_fall_cb.
    change (PS2_state (set_gpio g2 s)) with (PS2_state s). by destruct (PS2_state s). }
  destruct (ls_rx _ E2) as [Hn Hx]. pose proof (rx_range b _ _ Hn Hx) as Hr. fold (rx_state (set_gpio g2 s)) in Hr.
  rewrite Hcb. unfold rx_apply. destruct (rx b (rx_state (set_gpio g2 s))) as [[n x] out].
  apply IH; destruct out; try done; try (by apply (listening_ext (set_gpio g2 s)));
    intros i Hi; cbn; rewrite E4; by apply H0.
Qed.

Lemma example_prepared : prepared 900 [] example_gpio.
Proof.
  split; [by apply (gpiote_ok_ext reset_gpio); [..|apply reset_gpio_ok]| |constructor|by intros p ?%elem_of_nil..].
  exists 0. split; [cbn; lia|done].
Qed.

Lemma example_init : ps2_connector_init example_rx_queue [] example_ps2 = Some example_started.
Proof.
  unfold example_started. destruct (ps2_connector_init example_rx_queue [] example_ps2) eqn:E; [done|].
  vm_compute in E. discriminate.
Qed.

Lemma example_listening :
  listening example_started /\ PS2_state example_started = PS2_STATE_DEV_TO_HOST /\
  rx_msg_que example_started = example_rx_queue /\ current_bit_no example_started = 0.
Proof.
  apply (init_listens example_rx_queue [] example_ps2 example_started example_prepared); [split; cbn; lia|constructor|].
  apply example_init.
Qed.

Lemma example_rx_ok : sq_ok (rx_msg_que example_started).
Proof.
  destruct example_listening as (_&_&->&_). apply init_ready; try done; [by apply boot_inv|by left|by left].
Qed.

Lemma example_one_channel i : 0 <= i < 8 -> chan_on (gpio example_started) i = true -> i = 0.
Proof.
  intros Hi Ho. by_enumeration 8 (fun i => negb (chan_on (gpio example_started) i) || (i =? 0)).
  rewrite Ho in *. cbn in *. lia.
Qed.

Lemma keyboard_bytes_received_witness :
  let s' := pulses (concat (frame <$> [0x1C; 0xF0])) example_started in
  (listening s' /\ current_bit_no s' = 0 /\
   sq_items (rx_msg_que s') = sq_items (rx_msg_que example_started) ++ (reverse <$> [0x1C; 0xF0]) /\
   (read_codes (length (sq_items (rx_msg_que s'))) s').1 =
     (reverse <$> sq_items (rx_msg_que example_started)) ++ [0x1C; 0xF0]) /\
  sq_items (rx_msg_que example_started) = [].
Proof.
  destruct example_listening as (L1&L2&L3&L4). split; [|rewrite L3; reflexivity].
  assert (Hempty : length (sq_items (rx_msg_que example_started)) = 0%nat) by (rewrite L3; reflexivity).
  pose proof (keyboard_bytes_received [0x1C; 0xF0] example_started (pulses (concat (frame <$> [0x1C; 0xF0])) example_started)
    L1 ltac:(by rewrite L2) L4 example_rx_ok ltac:(repeat constructor; lia)
    ltac:(apply pulses_edges; [done|by rewrite L2|apply example_one_channel])) as T.
  cbn zeta in T. rewrite Hempty in T. exact T.
Defined.

Lemma damaged_frames_dropped_witness :
  let bs := data_bits 0x1C in
  let p := negb (parity_bit 0x1C) in
  let s' := pulses (false :: bs ++ [p; false]) example_started in
  listening s' /\ sq_items (rx_msg_que s') = sq_items (rx_msg_que example_started) /\
  current_bit_no s' = if xorb (foldr xorb false bs) p || false then 0 else 1.
Proof.
  destruct example_listening as (L1&L2&L3&L4).
  apply (damaged_frames_dropped (data_bits 0x1C) (negb (parity_bit 0x1C)) false example_started);
    [done|by rewrite L2|done|apply example_rx_ok|done|by vm_compute|].
  apply pulses_edges; [done|by rewrite L2|apply example_one_channel].
Defined.

Lemma send_never_completes_witness :
  ps2_connector_send_byte (fun s => s) (fun s => s) (replicate 12 clk_fall_cb) [] 0xED example_started = None.
Proof.
  apply (send_never_completes 0xED (fun s => s) (fun s => s) (replicate 12 clk_fall_cb) [] example_started);
    [intros s; apply rtc_refl|intros s; apply rtc_refl| |done].
  apply Forall_replicate. intros s. apply rtc_once, ws_clock.
Defined.

Lemma lines_never_pulled_low_witness :
  (~ pulls_low (gpio (set_clk_low example_started)) PS2_CLK_GPIO_PIN /\
   ~ pulls_low (gpio (set_data_low example_started)) PS2_DATA_GPIO_PIN) /\
  cnf_drive (r_cnf (view (hw (gpio (set_clk_low example_started)))) PS2_CLK_GPIO_PIN) = NRF_GPIO_PIN_S0D1.
Proof. split; [apply (lines_never_pulled_low example_started)|by vm_compute]. Defined.
