(* ===== verification/Uuid.v ===== *)
(** Bluetooth UUIDs ([subsys/bluetooth/host/uuid.c], [include/bluetooth/uuid.h]). *)
From Stdlib Require Import ZArith Lia Bool.
From stdpp Require Import base numbers list.
From S2P Require Import Prelude ByteOrder.
Open Scope Z_scope.

(** The three structures a [struct bt_uuid *] can point into. *)
Inductive bt_uuid := BT_UUID_INIT_16 (val : Z) | BT_UUID_INIT_32 (val : Z) | BT_UUID_INIT_128 (val : list Z).

#[export] Instance bt_uuid_eq_dec : EqDecision bt_uuid.
Proof. solve_decision. Defined.

Definition BT_UUID_TYPE_16 : Z := 0.
Definition BT_UUID_TYPE_32 : Z := 1.
Definition BT_UUID_TYPE_128 : Z := 2.

Definition uuid_type (u : bt_uuid) : Z :=
  match u with
  | BT_UUID_INIT_16 _ => BT_UUID_TYPE_16
  | BT_UUID_INIT_32 _ => BT_UUID_TYPE_32
  | BT_UUID_INIT_128 _ => BT_UUID_TYPE_128
  end.

Definition BT_UUID_128_ENCODE (w32 w1 w2 w3 w48 : Z) : list Z :=
  [(w48 .>> 0) .& 0xFF; (w48 .>> 8) .& 0xFF; (w48 .>> 16) .& 0xFF;
   (w48 .>> 24) .& 0xFF; (w48 .>> 32) .& 0xFF; (w48 .>> 40) .& 0xFF;
   (w3 .>> 0) .& 0xFF; (w3 .>> 8) .& 0xFF;
   (w2 .>> 0) .& 0xFF; (w2 .>> 8) .& 0xFF;
   (w1 .>> 0) .& 0xFF; (w1 .>> 8) .& 0xFF;
   (w32 .>> 0) .& 0xFF; (w32 .>> 8) .& 0xFF; (w32 .>> 16) .& 0xFF; (w32 .>> 24) .& 0xFF].

Definition UUID_16_BASE_OFFSET : nat := 12.

Definition uuid128_base : list Z := BT_UUID_128_ENCODE 0x00000000 0x0000 0x1000 0x8000 0x00805F9B34FB.

(** Bytes written into an array from an index on. *)
Definition array_put (off : nat) (bs : list Z) (a : list Z) : list Z :=
  take off a ++ bs ++ drop (off + length bs) a.

Definition uuid_to_uuid128 (src : bt_uuid) : list Z :=
  match src with
  | BT_UUID_INIT_16 v => array_put UUID_16_BASE_OFFSET (le_bytes 2 v) uuid128_base
  | BT_UUID_INIT_32 v => array_put UUID_16_BASE_OFFSET (le_bytes 4 v) uuid128_base
  | BT_UUID_INIT_128 v => v
  end.

(** The difference of the first bytes that differ. *)
Fixpoint memcmp (a b : list Z) : Z :=
  match a, b with
  | x :: a, y :: b => if x =? y then memcmp a b else x - y
  | _, _ => 0
  end.

Definition uuid128_cmp (u1 u2 : bt_uuid) : Z := memcmp (uuid_to_uuid128 u1) (uuid_to_uuid128 u2).

Definition bt_uuid_cmp (u1 u2 : bt_uuid) : Z :=
  match u1, u2 with
  | BT_UUID_INIT_16 v1, BT_UUID_INIT_16 v2 => s32 v1 - s32 v2
  | BT_UUID_INIT_32 v1, BT_UUID_INIT_32 v2 => s32 (s32 v1 - s32 v2)
  | BT_UUID_INIT_128 v1, BT_UUID_INIT_128 v2 => memcmp v1 v2
  | _, _ => uuid128_cmp u1 u2
  end.

(** [None] is the result [false]. *)
Definition bt_uuid_create (data : list Z) (data_len : Z) : option bt_uuid :=
  match data_len with
  | 2 => Some (BT_UUID_INIT_16 (le_value (take 2 data)))
  | 4 => Some (BT_UUID_INIT_32 (le_value (take 4 data)))
  | 16 => Some (BT_UUID_INIT_128 (take 16 data))
  | _ => None
  end.

(** ** Facts *)

Definition uuid_ok (u : bt_uuid) : Prop :=
  match u with
  | BT_UUID_INIT_16 v => 0 <= v < 2 ^ 16
  | BT_UUID_INIT_32 v => 0 <= v < 2 ^ 32
  | BT_UUID_INIT_128 v => length v = 16%nat /\ bytes_ok v
  end.

Lemma memcmp_zero a b : length a = length b -> memcmp a b = 0 <-> a = b.
Proof.
  revert b. induction a as [|x a IH]; intros [|y b] Hl; try done. cbn [memcmp].
  injection Hl as Hl. destruct (Z.eqb_spec x y) as [->|Hne].
  - rewrite IH by done. split; [by intros ->|by intros [= ->]].
  - split; [lia|]. intros [= ? _]. done.
Qed.

Lemma uuid128_length u : uuid_ok u -> length (uuid_to_uuid128 u) = 16%nat.
Proof. destruct u; [done|done|by intros [? _]]. Qed.

Lemma uuid128_short (n : nat) v w :
  (n <= 4)%nat -> 0 <= v < 2 ^ (8 * Z.of_nat n) -> 0 <= w < 2 ^ (8 * Z.of_nat n) ->
  array_put 12 (le_bytes n v) uuid128_base = array_put 12 (le_bytes n w) uuid128_base -> v = w.
Proof.
  intros Hn Hv Hw E. unfold array_put in E. apply app_inv_head in E.
  apply app_inj_1 in E as [E _]; [|by rewrite !le_bytes_length].
  apply (f_equal le_value) in E. rewrite !le_value_bytes, !Z.mod_small in E by done. done.
Qed.

Lemma s32_sub_zero v w : 0 <= v < 2 ^ 32 -> 0 <= w < 2 ^ 32 -> s32 (s32 v - s32 w) = 0 <-> v = w.
Proof.
  intros Hv Hw. split; [|intros ->; by rewrite Z.sub_diag]. unfold s32. intros E.
  pose proof (Z.div_mod (v + 2 ^ 31) (2 ^ 32)). pose proof (Z.div_mod (w + 2 ^ 31) (2 ^ 32)).
  pose proof (Z.mod_pos_bound (v + 2 ^ 31) (2 ^ 32)). pose proof (Z.mod_pos_bound (w + 2 ^ 31) (2 ^ 32)).
  set (a := (v + 2 ^ 31) mod 2 ^ 32) in *. set (b := (w + 2 ^ 31) mod 2 ^ 32) in *.
  set (d := a - 2 ^ 31 - (b - 2 ^ 31) + 2 ^ 31) in *.
  pose proof (Z.div_mod d (2 ^ 32)). pose proof (Z.mod_pos_bound d (2 ^ 32)). lia.
Qed.

(** Comparing UUIDs of any form compares the 128-bit UUIDs they stand for. *)
Lemma uuid_cmp_zero u1 u2 :
  uuid_ok u1 -> uuid_ok u2 -> bt_uuid_cmp u1 u2 = 0 <-> uuid_to_uuid128 u1 = uuid_to_uuid128 u2.
Proof.
  intros H1 H2. assert (Hl := eq_trans (uuid128_length u1 H1) (eq_sym (uuid128_length u2 H2))).
  destruct u1 as [v|v|v], u2 as [w|w|w]; try exact (memcmp_zero _ _ Hl); cbn [bt_uuid_cmp]; cbn [uuid_ok] in *.
  - rewrite !s32_small by lia. split; [intros; do 3 f_equal; lia|].
    intros E. apply (uuid128_short 2) in E; try done; lia.
  - rewrite s32_sub_zero by done. split; [by intros ->|].
    intros E. apply (uuid128_short 4) in E; try done; lia.
Qed.

Lemma uuid_cmp_refl u : uuid_ok u -> bt_uuid_cmp u u = 0.
Proof. intros. by apply uuid_cmp_zero. Qed.

Lemma uuid_cmp_sym_zero u1 u2 : uuid_ok u1 -> uuid_ok u2 -> bt_uuid_cmp u1 u2 = 0 -> bt_uuid_cmp u2 u1 = 0.
Proof. intros H1 H2. rewrite !uuid_cmp_zero by done. done. Qed.

Lemma uuid_create_ok data n u :
  bytes_ok data -> n = Z.of_nat (length data) -> bt_uuid_create data n = Some u -> uuid_ok u.
Proof.
  intros Hb -> E. unfold bt_uuid_create in E.
  destruct (Z.of_nat (length data)) as [|p|] eqn:En; try done.
  repeat (destruct p as [p|p|]; try done); injection E as <-; cbn [uuid_ok].
  - rewrite take_ge by lia. split; [lia|done].
  - rewrite take_ge by lia. pose proof (le_value_range data Hb) as R. rewrite En in R. exact R.
  - rewrite take_ge by lia. pose proof (le_value_range data Hb) as R. rewrite En in R. exact R.
Qed.
