(* ===== verification/Gatt.v ===== *)
(** GATT declarations and the iteration over a database ([include/bluetooth/gatt.h],
    [subsys/bluetooth/host/gatt.c]): attributes, the permission check
    [bt_gatt_check_perm], the read helper [bt_gatt_attr_read], handles, and
    [bt_gatt_foreach_attr], which is shown to be a fold over the attributes in range.
    The attribute handlers are named by constructors; the service that declares them
    gives them their meaning. *)
From Stdlib Require Import ZArith Lia.
From stdpp Require Import base numbers list.
From S2P Require Import Prelude ByteOrder Uuid.
Open Scope Z_scope.

(** ** Permissions and properties *)

Definition BT_GATT_PERM_NONE : Z := 0.
Definition BT_GATT_PERM_READ : Z := BIT 0.
Definition BT_GATT_PERM_WRITE : Z := BIT 1.
Definition BT_GATT_PERM_READ_ENCRYPT : Z := BIT 2.
Definition BT_GATT_PERM_WRITE_ENCRYPT : Z := BIT 3.
Definition BT_GATT_PERM_READ_AUTHEN : Z := BIT 4.
Definition BT_GATT_PERM_WRITE_AUTHEN : Z := BIT 5.
Definition BT_GATT_PERM_PREPARE_WRITE : Z := BIT 6.

Definition BT_GATT_PERM_READ_MASK : Z :=
  BT_GATT_PERM_READ .| BT_GATT_PERM_READ_ENCRYPT .| BT_GATT_PERM_READ_AUTHEN.
Definition BT_GATT_PERM_WRITE_MASK : Z :=
  BT_GATT_PERM_WRITE .| BT_GATT_PERM_WRITE_ENCRYPT .| BT_GATT_PERM_WRITE_AUTHEN.
Definition BT_GATT_PERM_ENCRYPT_MASK : Z :=
  BT_GATT_PERM_READ_ENCRYPT .| BT_GATT_PERM_WRITE_ENCRYPT.
Definition BT_GATT_PERM_AUTHEN_MASK : Z :=
  BT_GATT_PERM_READ_AUTHEN .| BT_GATT_PERM_WRITE_AUTHEN.

Definition BT_GATT_CHRC_READ : Z := 0x02.
Definition BT_GATT_CHRC_WRITE_WITHOUT_RESP : Z := 0x04.
Definition BT_GATT_CHRC_WRITE : Z := 0x08.
Definition BT_GATT_CHRC_NOTIFY : Z := 0x10.
Definition BT_GATT_CHRC_INDICATE : Z := 0x20.

Definition BT_GATT_CCC_NOTIFY : Z := 0x0001.
Definition BT_GATT_CCC_INDICATE : Z := 0x0002.

Definition BT_ATT_ERR_READ_NOT_PERMITTED : Z := 0x02.
Definition BT_ATT_ERR_WRITE_NOT_PERMITTED : Z := 0x03.
Definition BT_ATT_ERR_AUTHENTICATION : Z := 0x05.
Definition BT_ATT_ERR_INVALID_OFFSET : Z := 0x07.
Definition BT_ATT_ERR_INSUFFICIENT_ENCRYPTION : Z := 0x0f.
Definition BT_GATT_ERR (att_err : Z) : Z := - att_err.

(** Security levels, in the order of [bt_security_t]. *)
Definition BT_SECURITY_L0 : Z := 0.
Definition BT_SECURITY_L1 : Z := 1.
Definition BT_SECURITY_L2 : Z := 2.
Definition BT_SECURITY_L3 : Z := 3.
Definition BT_SECURITY_L4 : Z := 4.

(** ** Connections *)

Record bt_addr_le_t := mk_addr { addr_type : Z; addr_val : list Z }.

#[export] Instance bt_addr_le_eq_dec : EqDecision bt_addr_le_t.
Proof. solve_decision. Defined.

Definition BT_ADDR_LE_ANY : bt_addr_le_t := mk_addr 0 [0; 0; 0; 0; 0; 0].

(** What the GATT layer reads of a connection; its role is peripheral. *)
Record bt_conn := mk_conn {
  conn_security : Z; conn_encrypt : bool; conn_id : Z; conn_dst : bt_addr_le_t; conn_init_addr : bt_addr_le_t }.

Definition bt_conn_is_peer_addr_le (conn : bt_conn) (id : Z) (peer : bt_addr_le_t) : bool :=
  if negb (id =? conn_id conn) then false
  else if bool_decide (peer = conn_dst conn) then true
  else bool_decide (peer = conn_init_addr conn).

(** ** UUIDs *)

Definition BT_UUID_GAP : bt_uuid := BT_UUID_INIT_16 0x1800.
Definition BT_UUID_GATT : bt_uuid := BT_UUID_INIT_16 0x1801.
Definition BT_UUID_DIS : bt_uuid := BT_UUID_INIT_16 0x180a.
Definition BT_UUID_BAS : bt_uuid := BT_UUID_INIT_16 0x180f.
Definition BT_UUID_HIDS : bt_uuid := BT_UUID_INIT_16 0x1812.
Definition BT_UUID_GATT_PRIMARY : bt_uuid := BT_UUID_INIT_16 0x2800.
Definition BT_UUID_GATT_SECONDARY : bt_uuid := BT_UUID_INIT_16 0x2801.
Definition BT_UUID_GATT_CHRC : bt_uuid := BT_UUID_INIT_16 0x2803.
Definition BT_UUID_GATT_CCC : bt_uuid := BT_UUID_INIT_16 0x2902.
Definition BT_UUID_HIDS_REPORT_REF : bt_uuid := BT_UUID_INIT_16 0x2908.
Definition BT_UUID_GAP_DEVICE_NAME : bt_uuid := BT_UUID_INIT_16 0x2a00.
Definition BT_UUID_GAP_APPEARANCE : bt_uuid := BT_UUID_INIT_16 0x2a01.
Definition BT_UUID_GAP_PPCP : bt_uuid := BT_UUID_INIT_16 0x2a04.
Definition BT_UUID_GATT_SC : bt_uuid := BT_UUID_INIT_16 0x2a05.
Definition BT_UUID_BAS_BATTERY_LEVEL : bt_uuid := BT_UUID_INIT_16 0x2a19.
Definition BT_UUID_DIS_MODEL_NUMBER : bt_uuid := BT_UUID_INIT_16 0x2a24.
Definition BT_UUID_DIS_MANUFACTURER_NAME : bt_uuid := BT_UUID_INIT_16 0x2a29.
Definition BT_UUID_HIDS_INFO : bt_uuid := BT_UUID_INIT_16 0x2a4a.
Definition BT_UUID_HIDS_REPORT_MAP : bt_uuid := BT_UUID_INIT_16 0x2a4b.
Definition BT_UUID_HIDS_CTRL_POINT : bt_uuid := BT_UUID_INIT_16 0x2a4c.
Definition BT_UUID_HIDS_REPORT : bt_uuid := BT_UUID_INIT_16 0x2a4d.
Definition BT_UUID_DIS_PNP_ID : bt_uuid := BT_UUID_INIT_16 0x2a50.
Definition BT_UUID_GATT_CLIENT_FEATURES : bt_uuid := BT_UUID_INIT_16 0x2b29.
Definition BT_UUID_GATT_DB_HASH : bt_uuid := BT_UUID_INIT_16 0x2b2a.

(** ** Attributes *)

(** [struct bt_gatt_chrc], the user data of a characteristic declaration. *)
Record bt_gatt_chrc := mk_chrc { chrc_uuid : bt_uuid; value_handle : Z; properties : Z }.

(** What [user_data] points to: the UUID of a service, a characteristic, one of the
    objects that hold client configurations (by number), or data only the handlers
    of the attribute look at. *)
Inductive attr_user_data := UD_service (uuid : bt_uuid) | UD_chrc (chrc : bt_gatt_chrc) | UD_ccc (ccc : nat) | UD_value.

(** The functions an attribute is read and written by: those of this file, and those
    of the service, named by the types [R] and [W]. *)
Inductive read_func (R : Type) := F_read_service | F_read_chrc | F_read_ccc | F_read (r : R).
Inductive write_func (W : Type) := F_write_ccc | F_write (w : W).
Arguments F_read_service {R}.
Arguments F_read_chrc {R}.
Arguments F_read_ccc {R}.
Arguments F_read {R}.
Arguments F_write_ccc {W}.
Arguments F_write {W}.

(** [struct bt_gatt_attr]; [None] is a NULL handler.  Static attributes have no
    handle of their own. *)
Record bt_gatt_attr (R W : Type) := mk_attr {
  attr_uuid : bt_uuid;
  attr_perm : Z;
  attr_read : option (read_func R);
  attr_write : option (write_func W);
  user_data : attr_user_data }.
Arguments mk_attr {R W}.
Arguments attr_uuid {R W}.
Arguments attr_perm {R W}.
Arguments attr_read {R W}.
Arguments attr_write {R W}.
Arguments user_data {R W}.

Definition BT_GATT_ATTRIBUTE {R W} (uuid : bt_uuid) (perm : Z)
    (read : option (read_func R)) (write : option (write_func W)) (value : attr_user_data) : bt_gatt_attr R W :=
  mk_attr uuid perm read write value.

(** The two attributes of a characteristic: its declaration and its value. *)
Definition BT_GATT_CHARACTERISTIC {R W} (uuid : bt_uuid)
    (props perm : Z) (read : option R) (write : option W) : list (bt_gatt_attr R W) :=
  [ BT_GATT_ATTRIBUTE BT_UUID_GATT_CHRC BT_GATT_PERM_READ (Some F_read_chrc) None (UD_chrc (mk_chrc uuid 0 props));
    BT_GATT_ATTRIBUTE uuid perm (F_read <$> read) (F_write <$> write) UD_value ].

Definition BT_GATT_PRIMARY_SERVICE {R W} (service : bt_uuid) : list (bt_gatt_attr R W) :=
  [ BT_GATT_ATTRIBUTE BT_UUID_GATT_PRIMARY BT_GATT_PERM_READ (Some F_read_service) None (UD_service service) ].

(** [ccc] names the object, whose callbacks the service that declares it gives. *)
Definition BT_GATT_CCC_MANAGED {R W} (ccc : nat) (perm : Z) : list (bt_gatt_attr R W) :=
  [ BT_GATT_ATTRIBUTE BT_UUID_GATT_CCC perm (Some F_read_ccc) (Some F_write_ccc) (UD_ccc ccc) ].
Definition BT_GATT_CCC {R W} (ccc : nat) (perm : Z) : list (bt_gatt_attr R W) := BT_GATT_CCC_MANAGED ccc perm.

Definition BT_GATT_DESCRIPTOR {R W} (uuid : bt_uuid) (perm : Z)
    (read : option R) (write : option W) : list (bt_gatt_attr R W) :=
  [ BT_GATT_ATTRIBUTE uuid perm (F_read <$> read) (F_write <$> write) UD_value ].

(** ** gatt.c *)

(** [bt_gatt_check_perm], with [CONFIG_BT_SMP] and without
    [CONFIG_BT_CONN_DISABLE_SECURITY]: [0] or the ATT error. *)
Definition bt_gatt_check_perm {R W} (conn : bt_conn) (attr : bt_gatt_attr R W)
    (mask : Z) : Z :=
  if nz (mask .& BT_GATT_PERM_READ) &&
     (negb (nz (attr_perm attr .& BT_GATT_PERM_READ_MASK)) ||
      negb (bool_decide (is_Some (attr_read attr))))
  then BT_ATT_ERR_READ_NOT_PERMITTED
  else if nz (mask .& BT_GATT_PERM_WRITE) &&
     (negb (nz (attr_perm attr .& BT_GATT_PERM_WRITE_MASK)) ||
      negb (bool_decide (is_Some (attr_write attr))))
  then BT_ATT_ERR_WRITE_NOT_PERMITTED
  else
    let mask := mask .& attr_perm attr in
    if nz (mask .& BT_GATT_PERM_AUTHEN_MASK) && (conn_security conn <? BT_SECURITY_L3)
    then BT_ATT_ERR_AUTHENTICATION
    else if nz (mask .& BT_GATT_PERM_ENCRYPT_MASK) && negb (conn_encrypt conn)
    then BT_ATT_ERR_INSUFFICIENT_ENCRYPTION
    else 0.

(** [bt_gatt_attr_read]: the return value and the bytes copied to the buffer. *)
Definition bt_gatt_attr_read (buf_len offset : Z) (value : list Z) : Z * list Z :=
  let value_len := Z.of_nat (length value) in
  if value_len <? offset then (BT_GATT_ERR BT_ATT_ERR_INVALID_OFFSET, [])
  else
    let len := Z.min buf_len (value_len - offset) in
    (len, take (Z.to_nat len) (drop (Z.to_nat offset) value)).

(** ** The database

    The services of the firmware, in the order of the linker section they are
    collected in; a pointer to an attribute is its service and its index there. *)
Definition attr_ptr : Type := nat * nat.

Inductive iter := BT_GATT_ITER_STOP | BT_GATT_ITER_CONTINUE.

Section database.
Context {R W : Type} (svcs : list (list (bt_gatt_attr R W))).

(** [last_static_handle] as [bt_gatt_init] leaves it. *)
Definition last_static_handle : Z := foldl (fun h svc => u16 (h + Z.of_nat (length svc))) 0 svcs.

Fixpoint get_handle_loop (svcs : list (list (bt_gatt_attr R W))) (attr : attr_ptr) (handle : Z) : Z :=
  match svcs, attr with
  | [], _ => 0
  | svc :: _, (O, i) => if (i <? length svc)%nat then u16 (handle + Z.of_nat i) else 0
  | svc :: rest, (S n, i) => get_handle_loop rest (n, i) (u16 (handle + Z.of_nat (length svc)))
  end.
Definition bt_gatt_attr_get_handle (attr : attr_ptr) : Z := get_handle_loop svcs attr 1.

(** [value_handle] is the field of the characteristic, [0] for the default. *)
Definition bt_gatt_attr_value_handle (p : attr_ptr) (attr : bt_gatt_attr R W) : Z :=
  match attr_read attr, user_data attr with
  | Some F_read_chrc, UD_chrc chrc =>
      if value_handle chrc =? 0 then u16 (bt_gatt_attr_get_handle p + 1) else value_handle chrc
  | _, _ => 0
  end.

(** Iteration with a callback that works on data of type [T]; the callers in this
    configuration pass no [attr_data] to match. *)
Context {T : Type}.
Definition attr_func : Type := attr_ptr -> bt_gatt_attr R W -> Z -> T -> iter * T.

Definition gatt_foreach_iter (p : attr_ptr) (attr : bt_gatt_attr R W) (handle start_handle end_handle : Z)
    (uuid : option bt_uuid) (num_matches : Z) (func : attr_func) (d : T) : iter * Z * T :=
  if end_handle <? handle then (BT_GATT_ITER_STOP, num_matches, d)
  else if handle <? start_handle then (BT_GATT_ITER_CONTINUE, num_matches, d)
  else if match uuid with Some u => nz (bt_uuid_cmp u (attr_uuid attr)) | None => false end
  then (BT_GATT_ITER_CONTINUE, num_matches, d)
  else
    let num_matches := u16 (num_matches - 1) in
    let '(result, d) := func p attr handle d in
    (if num_matches =? 0 then BT_GATT_ITER_STOP else result, num_matches, d).

(** The attributes of one service from index [i] on. *)
Fixpoint foreach_service (n i : nat) (attrs : list (bt_gatt_attr R W)) (handle start_handle end_handle : Z)
    (uuid : option bt_uuid) (num_matches : Z) (func : attr_func) (d : T) : iter * Z * Z * T :=
  match attrs with
  | [] => (BT_GATT_ITER_CONTINUE, handle, num_matches, d)
  | attr :: attrs =>
      let '(r, num_matches, d) :=
        gatt_foreach_iter (n, i) attr handle start_handle end_handle uuid num_matches func d in
      match r with
      | BT_GATT_ITER_STOP => (BT_GATT_ITER_STOP, handle, num_matches, d)
      | BT_GATT_ITER_CONTINUE =>
          foreach_service n (S i) attrs (u16 (handle + 1)) start_handle end_handle uuid num_matches func d
      end
  end.

Fixpoint foreach_static (n : nat) (svcs : list (list (bt_gatt_attr R W))) (handle start_handle end_handle : Z)
    (uuid : option bt_uuid) (num_matches : Z) (func : attr_func) (d : T) : T :=
  match svcs with
  | [] => d
  | svc :: svcs =>
      if handle + Z.of_nat (length svc) <? start_handle
      then foreach_static (S n) svcs (u16 (handle + Z.of_nat (length svc))) start_handle end_handle uuid num_matches func d
      else
        let '(r, handle, num_matches, d) :=
          foreach_service n 0 svc handle start_handle end_handle uuid num_matches func d in
        match r with
        | BT_GATT_ITER_STOP => d
        | BT_GATT_ITER_CONTINUE => foreach_static (S n) svcs handle start_handle end_handle uuid num_matches func d
        end
  end.

(** Without [CONFIG_BT_GATT_DYNAMIC_DB] there are no other services. *)
Definition bt_gatt_foreach_attr_type (start_handle end_handle : Z) (uuid : option bt_uuid) (num_matches : Z)
    (func : attr_func) (d : T) : T :=
  let num_matches := if num_matches =? 0 then 2 ^ 16 - 1 else num_matches in
  if start_handle <=? last_static_handle
  then foreach_static 0 svcs 1 start_handle end_handle uuid num_matches func d
  else d.

Definition bt_gatt_foreach_attr (start_handle end_handle : Z) (func : attr_func) (d : T) : T :=
  bt_gatt_foreach_attr_type start_handle end_handle None 0 func d.
End database.

(** The value of a service declaration; the database has no 32-bit UUIDs, which the
    code does not tell from 128-bit ones. *)
Definition service_value {R W} (attr : bt_gatt_attr R W) : list Z :=
  match user_data attr with
  | UD_service (BT_UUID_INIT_16 v) => le_bytes 2 v
  | UD_service (BT_UUID_INIT_128 v) => v
  | _ => []
  end.
Definition bt_gatt_attr_read_service {R W} (attr : bt_gatt_attr R W) (len offset : Z) : Z * list Z :=
  bt_gatt_attr_read len offset (service_value attr).

(** The value of a characteristic declaration: properties, handle of the value, UUID. *)
Definition chrc_value {R W} (svcs : list (list (bt_gatt_attr R W))) (p : attr_ptr) (attr : bt_gatt_attr R W) : list Z :=
  match user_data attr with
  | UD_chrc chrc =>
      u8 (properties chrc) :: le_bytes 2 (bt_gatt_attr_value_handle svcs p attr) ++
      match chrc_uuid chrc with BT_UUID_INIT_16 v => le_bytes 2 v | BT_UUID_INIT_128 v => v | BT_UUID_INIT_32 _ => [] end
  | _ => []
  end.
Definition bt_gatt_attr_read_chrc {R W} (svcs : list (list (bt_gatt_attr R W))) (p : attr_ptr)
    (attr : bt_gatt_attr R W) (len offset : Z) : Z * list Z :=
  bt_gatt_attr_read len offset (chrc_value svcs p attr).

(** ** Iteration as a fold

    The entries of a database: pointer, attribute and handle of each attribute. *)
Section entries.
Context {R W : Type}.
Abbreviation attr := (bt_gatt_attr R W).
Abbreviation entry := (attr_ptr * attr * Z)%type.

Definition e_ptr (e : entry) : attr_ptr := e.1.1.
Definition e_attr (e : entry) : attr := e.1.2.
Definition e_handle (e : entry) : Z := e.2.

Fixpoint svc_entries (n i : nat) (h : Z) (attrs : list attr) : list entry :=
  match attrs with [] => [] | a :: attrs => ((n, i), a, h) :: svc_entries n (S i) (h + 1) attrs end.
Fixpoint entries_from (n : nat) (h : Z) (svcs : list (list attr)) : list entry :=
  match svcs with
  | [] => []
  | svc :: svcs => svc_entries n 0 h svc ++ entries_from (S n) (h + Z.of_nat (length svc)) svcs
  end.
Definition entries (svcs : list (list attr)) : list entry := entries_from 0 1 svcs.

Lemma svc_entries_length n i h attrs : length (svc_entries n i h attrs) = length attrs.
Proof. revert i h. induction attrs; intros; cbn; auto. Qed.

Lemma svc_entries_range n i h attrs e :
  e ∈ svc_entries n i h attrs -> h <= e_handle e < h + Z.of_nat (length attrs).
Proof.
  revert i h. induction attrs as [|a attrs IH]; intros i h; cbn [svc_entries length]; [by intros ?%not_elem_of_nil|].
  rewrite elem_of_cons. intros [->|He]; [cbn; lia|]. apply IH in He. lia.
Qed.

Lemma entries_from_range n h svcs e :
  e ∈ entries_from n h svcs -> h <= e_handle e < h + Z.of_nat (length (concat svcs)).
Proof.
  revert n h. induction svcs as [|svc svcs IH]; intros n h; cbn [entries_from concat]; [by intros ?%not_elem_of_nil|].
  rewrite length_app, elem_of_app. intros [He|He]; [apply svc_entries_range in He|apply IH in He]; lia.
Qed.

Context {T : Type}.
Implicit Types (func : attr_func (R:=R) (W:=W) (T:=T)) (d : T) (l : list entry) (uuid : option bt_uuid).

(** The entries the iteration hands to its callback. *)
Definition matches (start end_ : Z) uuid (e : entry) : bool :=
  (start <=? e_handle e) && (e_handle e <=? end_) &&
  match uuid with Some u => bt_uuid_cmp u (attr_uuid (e_attr e)) =? 0 | None => true end.

(** A callback over at most [n] entries, until it stops. *)
Fixpoint iterate (n : nat) func l d : T :=
  match n, l with
  | S n, e :: l =>
      let '(r, d) := func (e_ptr e) (e_attr e) (e_handle e) d in
      match r with BT_GATT_ITER_STOP => d | BT_GATT_ITER_CONTINUE => iterate n func l d end
  | _, _ => d
  end.

Fixpoint flat_foreach l (start end_ : Z) uuid (num : Z) func d : T :=
  match l with
  | [] => d
  | e :: l =>
      let '(r, num, d) := gatt_foreach_iter (e_ptr e) (e_attr e) (e_handle e) start end_ uuid num func d in
      match r with BT_GATT_ITER_STOP => d | BT_GATT_ITER_CONTINUE => flat_foreach l start end_ uuid num func d end
  end.

Lemma foreach_service_flat n i attrs h start end_ uuid num func d l :
  0 <= h -> h + Z.of_nat (length attrs) < 2 ^ 16 ->
  flat_foreach (svc_entries n i h attrs ++ l) start end_ uuid num func d =
  let '(r, _, num, d) := foreach_service n i attrs h start end_ uuid num func d in
  match r with BT_GATT_ITER_STOP => d | BT_GATT_ITER_CONTINUE => flat_foreach l start end_ uuid num func d end.
Proof.
  revert i h num d. induction attrs as [|a attrs IH]; intros i h num d Hh Hl; cbn [svc_entries foreach_service app]; [done|].
  cbn [flat_foreach]. cbn [e_ptr e_attr e_handle fst snd]. cbn [length] in Hl.
  destruct (gatt_foreach_iter _ _ _ _ _ _ _ _ _) as [[[] num'] d']; [done|].
  unfold u16. rewrite Z.mod_small by lia. apply IH; lia.
Qed.

Lemma foreach_service_handle n i attrs h start end_ uuid num func d h' num' d' :
  0 <= h -> h + Z.of_nat (length attrs) < 2 ^ 16 ->
  foreach_service n i attrs h start end_ uuid num func d = (BT_GATT_ITER_CONTINUE, h', num', d') ->
  h' = h + Z.of_nat (length attrs).
Proof.
  revert i h num d. induction attrs as [|a attrs IH]; intros i h num d Hh Hl; cbn [foreach_service length] in *.
  - intros [= <- _ _]. lia.
  - destruct (gatt_foreach_iter _ _ _ _ _ _ _ _ _) as [[[] num1] d1]; [done|].
    unfold u16. rewrite Z.mod_small by lia. intros E. apply IH in E; lia.
Qed.

(** Entries before the range are passed over. *)
Lemma flat_skip l1 l2 start end_ uuid num func d :
  start <= end_ -> (forall e, e ∈ l1 -> e_handle e < start) ->
  flat_foreach (l1 ++ l2) start end_ uuid num func d = flat_foreach l2 start end_ uuid num func d.
Proof.
  intros Hse. induction l1 as [|e l1 IH]; intros Hl; [done|]. cbn [app flat_foreach]. unfold gatt_foreach_iter.
  assert (e_handle e < start) by (apply Hl; left).
  rewrite (proj2 (Z.ltb_ge _ _)), (proj2 (Z.ltb_lt _ _)) by lia. apply IH. intros e' He'. apply Hl. by right.
Qed.

Lemma foreach_static_flat n svcs h start end_ uuid num func d :
  0 <= h -> h + Z.of_nat (length (concat svcs)) < 2 ^ 16 -> start <= end_ ->
  foreach_static n svcs h start end_ uuid num func d =
  flat_foreach (entries_from n h svcs) start end_ uuid num func d.
Proof.
  revert n h num d. induction svcs as [|svc svcs IH]; intros n h num d Hh Hl Hse; [done|].
  cbn [foreach_static entries_from concat] in *. rewrite length_app in Hl.
  destruct (Z.ltb_spec (h + Z.of_nat (length svc)) start).
  - unfold u16. rewrite Z.mod_small by lia. rewrite IH, flat_skip by lia || (intros e ?%svc_entries_range; lia). done.
  - rewrite foreach_service_flat by lia.
    destruct (foreach_service _ _ _ _ _ _ _ _ _ _) as [[[[] h'] num'] d'] eqn:E; [done|].
    apply foreach_service_handle in E; [|lia|lia]. subst h'. apply IH; lia.
Qed.

(** Handles grow. *)
Fixpoint ascending (h : Z) l : Prop :=
  match l with [] => True | e :: l => h <= e_handle e /\ ascending (e_handle e + 1) l end.

Lemma ascending_le h h' l : h' <= h -> ascending h l -> ascending h' l.
Proof. destruct l; [done|]. intros ? [? ?]. split; [lia|done]. Qed.

Lemma ascending_entries n h svcs : ascending h (entries_from n h svcs).
Proof.
  revert n h. induction svcs as [|svc svcs IH]; intros n h; [done|]. cbn [entries_from]. generalize 0%nat as i.
  revert h. induction svc as [|a svc IHs]; intros h i; cbn [svc_entries app length].
  - rewrite Z.add_0_r. apply IH.
  - split; [cbn; lia|]. cbn [e_handle snd]. replace (h + Z.of_nat (S (length svc))) with (h + 1 + Z.of_nat (length svc)) by lia.
    apply IHs.
Qed.

Lemma ascending_above h l start end_ uuid :
  end_ < h -> ascending h l -> filter (fun e => matches start end_ uuid e = true) l = [].
Proof.
  intros He. revert h He. induction l as [|e l IH]; intros h He Ha; [done|]. destruct Ha as [H1 H2].
  rewrite filter_cons_False; [apply (IH (e_handle e + 1)); [lia|done]|].
  unfold matches. rewrite (proj2 (Z.leb_gt (e_handle e) end_)) by lia. rewrite andb_false_r. done.
Qed.

Lemma flat_iterate h l start end_ uuid num func d :
  ascending h l -> 1 <= num < 2 ^ 16 ->
  flat_foreach l start end_ uuid num func d =
  iterate (Z.to_nat num) func (filter (fun e => matches start end_ uuid e = true) l) d.
Proof.
  revert h num d. induction l as [|e l IH]; intros h num d Ha Hn; cbn [flat_foreach].
  { destruct (Z.to_nat num); done. }
  destruct Ha as [H1 H2]. unfold gatt_foreach_iter.
  destruct (Z.ltb_spec end_ (e_handle e)).
  { rewrite (ascending_above (e_handle e) (e :: l)); [by destruct (Z.to_nat num)|done|]. split; [lia|done]. }
  assert (M : matches start end_ uuid e =
    negb (e_handle e <? start) && negb match uuid with Some u => nz (bt_uuid_cmp u (attr_uuid (e_attr e))) | None => false end).
  { unfold matches. rewrite (proj2 (Z.leb_le (e_handle e) end_)), andb_true_r by done. rewrite Z.ltb_antisym, negb_involutive.
    f_equal. destruct uuid; [|done]. unfold nz. by rewrite negb_involutive. }
  destruct (e_handle e <? start); [|destruct (match uuid with Some u => _ | None => false end)]; cbn in M.
  1, 2: rewrite filter_cons_False by (rewrite M; done); by apply (IH (e_handle e + 1)).
  rewrite filter_cons_True by done. unfold u16. rewrite Z.mod_small by lia.
  destruct (Z.to_nat num) as [|m] eqn:Em; [lia|]. cbn [iterate].
  destruct (func _ _ _ d) as [r d']. destruct (Z.eqb_spec (num - 1) 0).
  - assert (m = 0%nat) as -> by lia. by destruct r.
  - destruct r; [done|]. rewrite (IH (e_handle e + 1)) by (done || lia).
    by replace (Z.to_nat (num - 1)) with m by lia.
Qed.

Lemma last_static_handle_eq (svcs : list (list attr)) :
  Z.of_nat (length (concat svcs)) < 2 ^ 16 -> last_static_handle svcs = Z.of_nat (length (concat svcs)).
Proof.
  unfold last_static_handle. enough (forall h, 0 <= h -> h + Z.of_nat (length (concat svcs)) < 2 ^ 16 ->
    foldl (fun h svc => u16 (h + Z.of_nat (length svc))) h svcs = h + Z.of_nat (length (concat svcs))) as G
    by (intros; by rewrite G by lia).
  induction svcs as [|svc svcs IH]; intros h Hh Hl; cbn [foldl concat] in *; [cbn; lia|].
  rewrite length_app in *. unfold u16 at 2. rewrite Z.mod_small, IH by lia. lia.
Qed.

(** Iterating hands the matching attributes of the range to the callback, in order. *)
Lemma foreach_spec (svcs : list (list attr)) start end_ uuid num func d :
  Z.of_nat (length (concat svcs)) < 2 ^ 16 - 1 -> start <= end_ -> 0 <= num < 2 ^ 16 ->
  bt_gatt_foreach_attr_type svcs start end_ uuid num func d =
  iterate (Z.to_nat (if num =? 0 then 2 ^ 16 - 1 else num)) func
    (filter (fun e => matches start end_ uuid e = true) (entries svcs)) d.
Proof.
  intros Hl Hse Hn. unfold bt_gatt_foreach_attr_type. rewrite last_static_handle_eq by lia.
  set (num' := if num =? 0 then 2 ^ 16 - 1 else num).
  assert (1 <= num' < 2 ^ 16) by (unfold num'; destruct (Z.eqb_spec num 0); lia).
  destruct (Z.leb_spec start (Z.of_nat (length (concat svcs)))).
  - rewrite foreach_static_flat by lia. apply (flat_iterate 1); [apply ascending_entries|done].
  - assert (filter (fun e => matches start end_ uuid e = true) (entries svcs) = []) as ->.
    { apply filter_none, Forall_forall. intros e He. apply entries_from_range in He. unfold matches.
      rewrite (proj2 (Z.leb_gt start (e_handle e))) by lia. done. }
    by destruct (Z.to_nat num').
Qed.

Lemma iterate_all n func l d : (length l <= n)%nat -> iterate n func l d = iterate (length l) func l d.
Proof.
  revert n d. induction l as [|e l IH]; intros n d Hn; [by destruct n|]. destruct n as [|n]; [cbn in Hn; lia|].
  cbn [iterate length] in *. destruct (func _ _ _ d) as [[] d']; [done|]. apply IH. lia.
Qed.

(** All attributes of a range of handles. *)
Definition in_range (start end_ : Z) l : list entry := filter (fun e => start <= e_handle e <= end_) l.

Lemma entries_length (svcs : list (list attr)) : length (entries svcs) = length (concat svcs).
Proof.
  unfold entries. generalize 0%nat 1. induction svcs as [|svc svcs IH]; intros n h; [done|].
  cbn [entries_from concat]. by rewrite !length_app, svc_entries_length, IH.
Qed.

Lemma foreach_attr_spec (svcs : list (list attr)) start end_ func d :
  Z.of_nat (length (concat svcs)) < 2 ^ 16 - 1 -> start <= end_ ->
  bt_gatt_foreach_attr svcs start end_ func d =
  iterate (length (in_range start end_ (entries svcs))) func (in_range start end_ (entries svcs)) d.
Proof.
  intros Hl Hse. unfold bt_gatt_foreach_attr. rewrite foreach_spec by (done || lia).
  assert (E : filter (fun e => matches start end_ None e = true) (entries svcs) = in_range start end_ (entries svcs)).
  { apply list_filter_iff. intros e. unfold matches. rewrite andb_true_r, andb_true_iff, !Z.leb_le. done. }
  rewrite E. apply iterate_all. unfold in_range. etrans; [apply length_filter|]. rewrite entries_length.
  cbn [Z.eqb]. lia.
Qed.

(** Entries the callback passes over do not matter. *)
Lemma iterate_filter (P : entry -> bool) func l d :
  (forall e d, e ∈ l -> P e = false -> func (e_ptr e) (e_attr e) (e_handle e) d = (BT_GATT_ITER_CONTINUE, d)) ->
  iterate (length l) func l d =
  iterate (length (filter (fun e => P e = true) l)) func (filter (fun e => P e = true) l) d.
Proof.
  revert d. induction l as [|e l IH]; intros d Hf; [done|]. cbn [length iterate].
  destruct (P e) eqn:E.
  - rewrite filter_cons_True by done. cbn [length iterate]. destruct (func _ _ _ d) as [[] d']; [done|].
    apply IH. intros e' d1 He'. apply Hf. by right.
  - rewrite filter_cons_False by congruence. rewrite Hf by (done || by left). apply IH. intros e' d1 He'. apply Hf. by right.
Qed.

(** [I] holds as long as the callback continues, [Q] when it stops. *)
Lemma iterate_inv (I Q : T -> Prop) n func l d :
  (forall d, I d -> Q d) ->
  (forall e d, e ∈ l -> I d ->
     match func (e_ptr e) (e_attr e) (e_handle e) d with
     | (BT_GATT_ITER_STOP, d') => Q d' | (BT_GATT_ITER_CONTINUE, d') => I d' end) ->
  I d -> Q (iterate n func l d).
Proof.
  intros HQ. revert n d. induction l as [|e l IH]; intros [|n] d Hf Hd; try by apply HQ. cbn [iterate].
  pose proof (Hf e d ltac:(by left) Hd) as H'. destruct (func _ _ _ d) as [[] d']; [done|].
  apply IH; [|done]. intros e' d1 He'. apply Hf. by right.
Qed.

Lemma foreach_inv (I Q : T -> Prop) (svcs : list (list attr)) start end_ func d :
  Z.of_nat (length (concat svcs)) < 2 ^ 16 - 1 -> start <= end_ ->
  (forall d, I d -> Q d) ->
  (forall e d, e ∈ entries svcs -> start <= e_handle e <= end_ -> I d ->
     match func (e_ptr e) (e_attr e) (e_handle e) d with
     | (BT_GATT_ITER_STOP, d') => Q d' | (BT_GATT_ITER_CONTINUE, d') => I d' end) ->
  I d -> Q (bt_gatt_foreach_attr svcs start end_ func d).
Proof.
  intros Hl Hse HQ Hf Hd. rewrite foreach_attr_spec by done. apply (iterate_inv I Q); [done| |done].
  intros e d1 He. apply list_elem_of_filter in He as [? ?]. by apply Hf.
Qed.

Lemma svc_entries_handle n i0 i h h0 attrs e :
  e ∈ svc_entries n i0 h attrs -> h0 + Z.of_nat i0 = h -> i = e_ptr e -> exists j, i = (n, j) /\ e_handle e = h0 + Z.of_nat j /\ (i0 <= j < i0 + length attrs)%nat.
Proof.
  intros He Hh ->. revert i0 h Hh He. induction attrs as [|a attrs IH]; intros i0 h Hh; cbn [svc_entries]; [by intros ?%not_elem_of_nil|].
  rewrite elem_of_cons. intros [->|He].
  - exists i0. cbn. split; [done|]. lia.
  - destruct (IH (S i0) (h + 1) ltac:(lia) He) as (j&H1&H2&H3). exists j. cbn [length]. split; [done|]. lia.
Qed.

(** The handle of an entry is the one [bt_gatt_attr_get_handle] computes from the
    pointer. *)
Lemma entries_get_handle (svcs : list (list attr)) e :
  Z.of_nat (length (concat svcs)) < 2 ^ 16 - 1 -> e ∈ entries svcs ->
  bt_gatt_attr_get_handle svcs (e_ptr e) = e_handle e.
Proof.
  unfold entries, bt_gatt_attr_get_handle. intros Hl He.
  enough (G : forall svcs n h, 0 <= h -> h + Z.of_nat (length (concat svcs)) < 2 ^ 16 -> e ∈ entries_from n h svcs ->
    exists m j, e_ptr e = (n + m, j)%nat /\ get_handle_loop svcs (m, j) h = e_handle e).
  { destruct (G svcs 0%nat 1 ltac:(lia) ltac:(lia) He) as (m&j&E1&E2). by rewrite E1. }
  clear. induction svcs as [|svc svcs IH]; intros n h Hh Hl He; cbn [entries_from concat] in *; [by apply not_elem_of_nil in He|].
  rewrite length_app in Hl. apply elem_of_app in He as [He|He].
  - destruct (svc_entries_handle n 0 _ h h svc e He ltac:(lia) eq_refl) as (j&E1&E2&E3). exists 0%nat, j.
    rewrite Nat.add_0_r. split; [done|]. cbn [get_handle_loop]. rewrite (proj2 (Nat.ltb_lt _ _)) by lia.
    unfold u16. rewrite Z.mod_small by lia. done.
  - destruct (IH (S n) (h + Z.of_nat (length svc)) ltac:(lia) ltac:(lia) He) as (m&j&E1&E2). exists (S m), j.
    split; [rewrite E1; f_equal; lia|]. cbn [get_handle_loop]. unfold u16. rewrite Z.mod_small by lia. done.
Qed.
End entries.

(** ** Properties *)

(** The client side of an ATT long read: repeated reads at growing offsets
    with a buffer of [mtu] bytes until a read returns less than [mtu]. *)
Fixpoint long_read (fuel : nat) (mtu offset : Z) (value : list Z) : option (list Z) :=
  match fuel with
  | O => None
  | S fuel =>
      let '(ret, bytes) := bt_gatt_attr_read mtu offset value in
      if ret <? 0 then None
      else if ret <? mtu then Some bytes
      else rest ← long_read fuel mtu (offset + ret) value; Some (bytes ++ rest)
  end.

Lemma long_read_from fuel mtu offset value :
  0 < mtu -> 0 <= offset <= Z.of_nat (length value) ->
  Z.of_nat (length value) - offset < Z.of_nat fuel ->
  long_read fuel mtu offset value = Some (drop (Z.to_nat offset) value).
Proof.
  intros Hm. revert offset. induction fuel as [|fuel IH]; intros offset Ho Hf; [lia|].
  cbn [long_read]. unfold bt_gatt_attr_read.
  destruct (Z.ltb_spec (Z.of_nat (length value)) offset); [lia|].
  set (len := Z.min mtu (Z.of_nat (length value) - offset)).
  destruct (Z.ltb_spec len 0); [lia|].
  destruct (Z.ltb_spec len mtu).
  - f_equal. apply take_ge. rewrite length_drop. lia.
  - rewrite IH by lia. cbn. f_equal.
    replace (Z.to_nat (offset + len)) with (Z.to_nat offset + Z.to_nat len)%nat by lia.
    rewrite <- drop_drop. apply take_drop.
Qed.
