(* ===== verification/SettingsKeys.v ===== *)
(** Names of settings ([subsys/settings/src/settings.c]) and the keys the Bluetooth
    host makes of them ([subsys/bluetooth/host/settings.c]), with the conversions
    they use ([lib/os/hex.c], [lib/os/dec.c]).

    A C string is the list of its characters without the terminator; a character
    buffer is a list that may hold a terminator anywhere. *)
From Stdlib Require Import ZArith Lia Ascii.
From stdpp Require Import base numbers list strings.
From S2P Require Import Prelude ByteOrder Uuid Gatt.
Open Scope Z_scope.

(** ** Characters *)

Abbreviation cstr := (list Z).

Definition chr (c : ascii) : Z := Z.of_N (N_of_ascii c).
Fixpoint chars (s : string) : cstr :=
  match s with EmptyString => [] | String c s => chr c :: chars s end.

(** The string in a buffer: up to the first terminator. *)
Fixpoint cstring (buf : list Z) : cstr :=
  match buf with
  | [] => []
  | c :: buf => if c =? 0 then [] else c :: cstring buf
  end.

Definition strlen (buf : list Z) : nat := length (cstring buf).

(** [strncpy]: at most [n] characters, padded with terminators. *)
Definition strncpy (src : cstr) (n : nat) : list Z := take n src ++ replicate (n - length src) 0.

(** ** hex.c and dec.c *)

Definition char2hex (c : Z) : option Z :=
  if (chr "0" <=? c) && (c <=? chr "9") then Some (c - chr "0")
  else if (chr "a" <=? c) && (c <=? chr "f") then Some (c - chr "a" + 10)
  else if (chr "A" <=? c) && (c <=? chr "F") then Some (c - chr "A" + 10)
  else None.

Definition hex2char (x : Z) : option Z :=
  if x <=? 9 then Some (x + chr "0")
  else if x <=? 15 then Some (x - 10 + chr "a")
  else None.

(** The result, and the characters written from [hex] on. *)
Fixpoint bin2hex_loop (buf : list Z) : option (list Z) :=
  match buf with
  | [] => Some []
  | b :: buf =>
      hi ← hex2char (b .>> 4); lo ← hex2char (b .& 0xf); rest ← bin2hex_loop buf; Some (hi :: lo :: rest)
  end.
Definition bin2hex (buf : list Z) (hexlen : Z) : Z * list Z :=
  let buflen := Z.of_nat (length buf) in
  if hexlen + 1 <? buflen * 2 then (0, [])
  else
    match bin2hex_loop buf with
    | Some hex => (2 * buflen, hex ++ [0])
    | None => (0, [])
    end.

(** The result, and the bytes written from [buf] on. *)
Fixpoint hex2bin_loop (hex : list Z) (ret : Z) : Z * list Z :=
  match hex with
  | c1 :: c2 :: hex =>
      match char2hex c1 with
      | None => (0, [])
      | Some d1 =>
          match char2hex c2 with
          | None => (0, [u8 (d1 .<< 4)])
          | Some d2 => let '(r, bs) := hex2bin_loop hex ret in (r, u8 (u8 (d1 .<< 4) + d2) :: bs)
          end
      end
  | _ => (ret, [])
  end.
Definition hex2bin (hex : list Z) (buflen : Z) : Z * list Z :=
  let hexlen := Z.of_nat (length hex) in
  let ret := hexlen / 2 + hexlen mod 2 in
  if buflen <? ret then (0, [])
  else if nz (hexlen mod 2) then
    match hex with
    | [] => (ret, [])
    | c :: hex =>
        match char2hex c with
        | None => (0, [])
        | Some dec => let '(r, bs) := hex2bin_loop hex ret in (r, dec :: bs)
        end
    end
  else hex2bin_loop hex ret.

(** The number of digits, and the characters written. *)
Fixpoint u8_to_dec_loop (divisors : list Z) (buflen value num_digits : Z) : Z * list Z :=
  match divisors with
  | [] => (num_digits, if 0 <? buflen then [0] else [])
  | divisor :: divisors =>
      if buflen <=? 0 then (num_digits, [])
      else
        let digit := value / divisor in
        let value' := u8 (value - digit * divisor) in
        if nz digit || (divisor =? 1) || nz num_digits then
          let '(r, cs) := u8_to_dec_loop divisors (buflen - 1) value' (num_digits + 1) in (r, digit + chr "0" :: cs)
        else u8_to_dec_loop divisors buflen value' num_digits
  end.
Definition u8_to_dec (buflen value : Z) : Z * list Z := u8_to_dec_loop [100; 10; 1] buflen value 0.

(** ** settings.c: names *)

Definition SETTINGS_NAME_SEPARATOR : Z := chr "/".
Definition SETTINGS_NAME_END : Z := chr "=".

(** Whether a name is the key or lies below it, and what follows the separator. *)
Fixpoint settings_name_steq (name key : cstr) : bool * option cstr :=
  match key, name with
  | [], [] => (true, None)
  | [], c :: rest =>
      if c =? SETTINGS_NAME_SEPARATOR then (true, Some rest)
      else (c =? SETTINGS_NAME_END, None)
  | k :: key, c :: name =>
      if (k =? c) && negb (c =? SETTINGS_NAME_END) then settings_name_steq name key else (false, None)
  | _ :: _, [] => (false, None)
  end.

Fixpoint settings_name_next (name : cstr) : nat * option cstr :=
  match name with
  | [] => (0%nat, None)
  | c :: rest =>
      if c =? SETTINGS_NAME_END then (0%nat, None)
      else if c =? SETTINGS_NAME_SEPARATOR then (0%nat, Some rest)
      else let '(rc, next) := settings_name_next rest in (S rc, next)
  end.

(** ** host/settings.c: keys *)

Definition BT_SETTINGS_KEY_MAX : Z := 36.
Definition BT_ADDR_LE_PUBLIC : Z := 0.
Definition BT_ADDR_LE_RANDOM : Z := 1.

(** Conversions of [snprintk]. *)
Definition hex_digit (x : Z) : Z := if x <=? 9 then x + chr "0" else x - 10 + chr "a".
Definition fmt_02x (b : Z) : cstr := [hex_digit (b / 16); hex_digit (b mod 16)].
Fixpoint dec_digits (fuel : nat) (n : Z) (acc : cstr) : cstr :=
  match fuel with
  | O => acc
  | S fuel => let acc := n mod 10 + chr "0" :: acc in if n <? 10 then acc else dec_digits fuel (n / 10) acc
  end.
Definition fmt_u (n : Z) : cstr := dec_digits 10 n [].

(** With [CONFIG_BT_SETTINGS_USE_PRINTK]: what [snprintk] leaves in the buffer. *)
Definition bt_settings_encode_key (path_size : Z) (subsys : cstr) (addr : bt_addr_le_t) (key : option cstr) : cstr :=
  let path := chars "bt/" ++ subsys ++ chars "/" ++ concat (fmt_02x <$> rev (addr_val addr)) ++ fmt_u (addr_type addr) ++
    match key with Some key => chars "/" ++ key | None => [] end in
  take (Z.to_nat (path_size - 1)) path.

(** Without it: the buffer after the function, from any contents.  [None] is a
    write behind its end. *)
Definition buf_put (off : nat) (bs : list Z) (buf : list Z) : option (list Z) :=
  if (off + length bs <=? length buf)%nat then Some (array_put off bs buf) else None.

Fixpoint encode_addr (val : list Z) (len : nat) (path : list Z) : option (nat * list Z) :=
  match val with
  | [] => Some (len, path)
  | b :: val =>
      if (len <? length path)%nat then
        let '(n, cs) := bin2hex [b] (Z.of_nat (length path - len)) in
        path ← buf_put len cs path; encode_addr val (len + Z.to_nat n) path
      else Some (len, path)
  end.

Definition put_char (c : Z) (s : nat * list Z) : option (nat * list Z) :=
  let '(len, path) := s in
  if (len <? length path)%nat then path ← buf_put len [c] path; Some (S len, path) else Some s.

(** The end of the hand-written encoder: the optional last part, and truncation. *)
Definition encode_tail (key : option cstr) (path_size : nat) (s : nat * list Z) : option (list Z) :=
  s ← match key with
      | Some key =>
          if (s.1 <? path_size)%nat then
            '(len, path) ← put_char (chr "/") s;
            path ← buf_put len (strncpy key (path_size - len)) path;
            Some (len + strlen (drop len path), path)%nat
          else Some s
      | None => Some s
      end;
  if (path_size <=? s.1)%nat then buf_put (path_size - 1) [0] s.2 else Some s.2.

Definition encode_key_builtin (subsys : cstr) (addr : bt_addr_le_t) (key : option cstr) (path : list Z) : option (list Z) :=
  let path_size := length path in
  if (3 <? path_size)%nat then
    path ← buf_put 0 (chars "bt/" ++ [0]) path;
    path ← buf_put 3 (strncpy subsys (path_size - 3)) path;
    s ← put_char (chr "/") (strlen path, path);
    s ← encode_addr (rev (addr_val addr)) s.1 s.2;
    s ← put_char (u8 (chr "0" + addr_type addr)) s;
    encode_tail key path_size s
  else if (0 <? path_size)%nat then buf_put 0 [0] path
  else Some path.

(** The error or the address.  [old] is what the address holds before the call:
    what [hex2bin] does not write stays. *)
Definition decode_byte (key : cstr) (val : list Z) (i : nat) : list Z :=
  array_put (5 - i) (hex2bin (take 2 (drop (i * 2) key)) 1).2 val.
Definition bt_settings_decode_key (key : cstr) (old : list Z) : Z + bt_addr_le_t :=
  if negb ((settings_name_next key).1 =? 13)%nat then inl (- EINVAL)
  else
    match key !! 12%nat with
    | Some c =>
        if c =? chr "0" then inr (mk_addr BT_ADDR_LE_PUBLIC (foldl (decode_byte key) old (seq 0 6)))
        else if c =? chr "1" then inr (mk_addr BT_ADDR_LE_RANDOM (foldl (decode_byte key) old (seq 0 6)))
        else inl (- EINVAL)
    | None => inl (- EINVAL)
    end.

(** ** Items of a peer *)

Definition BT_ID_DEFAULT : Z := 0.

(** The key under which a subsystem stores its data of a peer. *)
Definition peer_key (subsys : string) (id : Z) (addr : bt_addr_le_t) : cstr :=
  bt_settings_encode_key BT_SETTINGS_KEY_MAX (chars subsys) addr
    (if nz id then Some (cstring (u8_to_dec 4 id).2) else None).

(** [strtol] in base 10. *)
Fixpoint digits (s : cstr) (acc : Z) : Z :=
  match s with
  | [] => acc
  | c :: s => if (chr "0" <=? c) && (c <=? chr "9") then digits s (10 * acc + (c - chr "0")) else acc
  end.
Fixpoint skip_space (s : cstr) : cstr :=
  match s with
  | [] => []
  | c :: rest => if (c =? 32) || ((9 <=? c) && (c <=? 13)) then skip_space rest else s
  end.
Definition strtol10 (s : cstr) : Z :=
  match skip_space s with
  | [] => 0
  | c :: rest => if c =? chr "-" then - digits rest 0 else if c =? chr "+" then digits rest 0 else digits (c :: rest) 0
  end.

(** The name of a handler's item: the address it is for and the identity. *)
Definition decode_name (old : list Z) (name : option cstr) : option (bt_addr_le_t * Z) :=
  match name with
  | None => None
  | Some name =>
      match bt_settings_decode_key name old with
      | inl _ => None
      | inr addr => Some (addr, match (settings_name_next name).2 with None => BT_ID_DEFAULT | Some next => u8 (strtol10 next) end)
      end
  end.

(** ** Hexadecimal *)

Definition byte_ok (b : Z) : Prop := 0 <= b < 256.

Lemma char2hex_digit x : 0 <= x < 16 -> char2hex (hex_digit x) = Some x.
Proof.
  intros Hx. pose proof (all_below_spec 16 (fun x => bool_decide (char2hex (hex_digit x) = Some x)) eq_refl x Hx) as H.
  by apply bool_decide_eq_true in H.
Qed.

Lemma hex2char_digit x : 0 <= x < 16 -> hex2char x = Some (hex_digit x).
Proof. intros Hx. unfold hex2char, hex_digit. destruct (Z.leb_spec x 9); [done|]. destruct (Z.leb_spec x 15); [done|lia]. Qed.

Lemma byte_nibbles b : byte_ok b -> 0 <= b / 16 < 16 /\ 0 <= b mod 16 < 16 /\ b .>> 4 = b / 16 /\ b .& 0xf = b mod 16.
Proof.
  intros Hb. unfold byte_ok in Hb. rewrite Z.shiftr_div_pow2 by lia. change 0xf with (Z.ones 4). rewrite Z.land_ones by lia.
  change (2 ^ 4) with 16. split; [|split; [apply Z.mod_pos_bound; lia|done]].
  split; [apply Z.div_pos; lia|apply Z.div_lt_upper_bound; lia].
Qed.

Lemma bin2hex_digits bs : Forall byte_ok bs -> bin2hex_loop bs = Some (concat (fmt_02x <$> bs)).
Proof.
  induction 1 as [|b bs Hb _ IH]; [done|]. cbn [bin2hex_loop]. destruct (byte_nibbles b Hb) as (H1&H2&->&->).
  rewrite !hex2char_digit, IH by done. done.
Qed.

Lemma hex2bin_digits bs ret : Forall byte_ok bs -> hex2bin_loop (concat (fmt_02x <$> bs)) ret = (ret, bs).
Proof.
  induction 1 as [|b bs Hb _ IH]; [done|]. destruct (byte_nibbles b Hb) as (H1&H2&_&_). unfold byte_ok in Hb.
  cbn [fmap list_fmap concat fmt_02x app hex2bin_loop]. rewrite !char2hex_digit by done. rewrite IH.
  do 2 f_equal. rewrite Z.shiftl_mul_pow2 by lia. change (2 ^ 4) with 16.
  pose proof (Z.div_mod b 16 ltac:(lia)). rewrite !u8_small; rewrite ?u8_small; lia.
Qed.

Lemma hex_length bs : length (concat (fmt_02x <$> bs)) = (2 * length bs)%nat.
Proof. induction bs as [|b bs IH]; [done|]. cbn [fmap list_fmap concat]. rewrite length_app, IH. cbn. lia. Qed.

(** A [hex] buffer of [hexlen] characters passes the size check of [bin2hex] although
    the digits and the terminator do not fit. *)
Lemma bin2hex_writes bs hexlen :
  Forall byte_ok bs -> 2 * Z.of_nat (length bs) <= hexlen + 1 ->
  bin2hex bs hexlen = (2 * Z.of_nat (length bs), concat (fmt_02x <$> bs) ++ [0]).
Proof.
  intros Hb Hl. unfold bin2hex. rewrite (proj2 (Z.ltb_ge _ _)) by lia. by rewrite bin2hex_digits.
Qed.

(** ** Names *)

Definition name_ok (s : cstr) : Prop := Forall (fun c => c <> SETTINGS_NAME_END /\ c <> 0) s.

Lemma name_steq_below key rest : name_ok key -> settings_name_steq (key ++ SETTINGS_NAME_SEPARATOR :: rest) key = (true, Some rest).
Proof.
  induction 1 as [|c key [Hc _] _ IH]; cbn [app settings_name_steq]; [by rewrite Z.eqb_refl|].
  by rewrite Z.eqb_refl, (proj2 (Z.eqb_neq _ _) Hc).
Qed.

Lemma name_steq_self key : name_ok key -> settings_name_steq key key = (true, None).
Proof. induction 1 as [|c key [Hc _] _ IH]; [done|]. cbn [settings_name_steq]. by rewrite Z.eqb_refl, (proj2 (Z.eqb_neq _ _) Hc). Qed.

(** Names of which neither ends where a separator or the end of the other is. *)
Lemma name_steq_other key name :
  name_ok name -> length name = length key -> name <> key -> (settings_name_steq name key).1 = false.
Proof.
  intros Hn. revert key. induction Hn as [|c name [Hc _] _ IH]; intros [|k key] Hl Hne; cbn in *; try done.
  destruct (Z.eqb_spec k c) as [->|Hk]; [|done]. rewrite (proj2 (Z.eqb_neq _ _) Hc). cbn. apply IH; [lia|congruence].
Qed.

Definition plain (s : cstr) : Prop := Forall (fun c => c <> SETTINGS_NAME_END /\ c <> SETTINGS_NAME_SEPARATOR) s.

Lemma name_next_plain s rest :
  plain s -> settings_name_next (s ++ rest) = ((length s + (settings_name_next rest).1)%nat, (settings_name_next rest).2).
Proof.
  induction 1 as [|c s [H1 H2] _ IH]; cbn [app settings_name_next length Nat.add]; [by destruct (settings_name_next rest)|].
  by rewrite (proj2 (Z.eqb_neq _ _) H1), (proj2 (Z.eqb_neq _ _) H2), IH.
Qed.

Lemma hex_digit_plain x : 0 <= x < 16 -> hex_digit x <> SETTINGS_NAME_END /\ hex_digit x <> SETTINGS_NAME_SEPARATOR /\ hex_digit x <> 0.
Proof.
  intros Hx. pose proof (all_below_spec 16 (fun x => bool_decide (hex_digit x <> SETTINGS_NAME_END /\ hex_digit x <> SETTINGS_NAME_SEPARATOR /\ hex_digit x <> 0)) eq_refl x Hx) as H.
  by apply bool_decide_eq_true in H.
Qed.

Lemma hex_plain bs : Forall byte_ok bs -> plain (concat (fmt_02x <$> bs)) /\ name_ok (concat (fmt_02x <$> bs)).
Proof.
  induction 1 as [|b bs Hb _ [IH1 IH2]]; [by split; constructor|]. destruct (byte_nibbles b Hb) as (H1&H2&_&_).
  pose proof (hex_digit_plain _ H1). pose proof (hex_digit_plain _ H2). cbn [fmap list_fmap concat fmt_02x app].
  split; repeat constructor; (tauto || assumption).
Qed.

(** ** Keys of addresses *)

Definition addr_ok (a : bt_addr_le_t) : Prop :=
  (addr_type a = BT_ADDR_LE_PUBLIC \/ addr_type a = BT_ADDR_LE_RANDOM) /\ length (addr_val a) = 6%nat /\ Forall byte_ok (addr_val a).

(** What follows the name of the subsystem in a key. *)
Definition addr_key (a : bt_addr_le_t) (key : option cstr) : cstr :=
  concat (fmt_02x <$> rev (addr_val a)) ++ fmt_u (addr_type a) ++ match key with Some key => chars "/" ++ key | None => [] end.

Lemma addr_key_next a key :
  addr_ok a -> settings_name_next (addr_key a key) = (13%nat, key).
Proof.
  intros (Ht&Hl&Hb). unfold addr_key. apply Forall_rev in Hb. rewrite <- length_rev in Hl.
  rewrite name_next_plain by (by apply hex_plain). rewrite hex_length, Hl.
  rewrite name_next_plain by (destruct Ht as [-> | ->]; repeat constructor; done).
  destruct key; destruct Ht as [-> | ->]; done.
Qed.

Lemma decode_addr_key a key old :
  addr_ok a -> length old = 6%nat -> bt_settings_decode_key (addr_key a key) old = inr a.
Proof.
  intros Ha Ho. unfold bt_settings_decode_key. rewrite addr_key_next by done. cbn [fst Nat.eqb negb].
  destruct a as [t val], Ha as (Ht&Hl&Hb). cbn [addr_type addr_val] in *.
  destruct val as [|b0 [|b1 [|b2 [|b3 [|b4 [|b5 [|]]]]]]]; try discriminate Hl.
  destruct old as [|o0 [|o1 [|o2 [|o3 [|o4 [|o5 [|]]]]]]]; try discriminate Ho.
  repeat match goal with H : Forall _ (_ :: _) |- _ => apply Forall_cons in H as [? H] end.
  assert (Hd : forall b, byte_ok b -> (hex2bin (fmt_02x b) 1).2 = [b]).
  { intros b Hb'. change (hex2bin (fmt_02x b) 1) with (hex2bin_loop (concat (fmt_02x <$> [b])) 1).
    rewrite hex2bin_digits; [done|by apply Forall_singleton]. }
  destruct Ht as [-> | ->]; unfold decode_byte; cbn [seq foldl];
  repeat match goal with
  | |- context [take 2 (drop (?i * 2) (addr_key ?a key))] =>
      let b := eval cbn in (rev (addr_val a) !!! i) in change (take 2 (drop (i * 2) (addr_key a key))) with (fmt_02x b)
  end; rewrite !Hd by done; done.
Qed.

(** ** The two encoders *)

Definition nonzero (s : cstr) : Prop := Forall (fun c => c <> 0) s.

Lemma cstring_app s k : nonzero s -> cstring (s ++ replicate k 0) = s.
Proof.
  induction 1 as [|c s Hc _ IH]; [by destruct k|]. cbn [app cstring]. by rewrite (proj2 (Z.eqb_neq _ _) Hc), IH.
Qed.

Lemma strlen_app s k : nonzero s -> strlen (s ++ replicate k 0) = length s.
Proof. intros Hs. unfold strlen. by rewrite cstring_app. Qed.

Lemma buf_put_zeros pre bs k :
  (length bs <= k)%nat ->
  buf_put (length pre) bs (pre ++ replicate k 0) = Some (pre ++ bs ++ replicate (k - length bs) 0).
Proof.
  intros Hl. unfold buf_put. rewrite length_app, length_replicate. destruct (Nat.leb_spec (length pre + length bs) (length pre + k)); [|lia].
  unfold array_put. rewrite take_app_length, drop_app_add. do 3 f_equal.
  by rewrite drop_replicate.
Qed.

Lemma put_char_zeros c pre k :
  (0 < k)%nat -> put_char c (length pre, pre ++ replicate k 0) = Some (length (pre ++ [c]), (pre ++ [c]) ++ replicate (k - 1) 0).
Proof.
  intros Hk. unfold put_char. rewrite length_app, length_replicate. rewrite (proj2 (Nat.ltb_lt _ _)) by lia.
  rewrite buf_put_zeros by (cbn; lia). cbn. rewrite length_app. cbn. by rewrite Nat.add_1_r, <- app_assoc.
Qed.

Lemma replicate_snoc n (x : Z) : replicate n x ++ [x] = replicate (S n) x.
Proof. induction n; [done|]. cbn in *. by f_equal. Qed.

Lemma encode_addr_zeros val pre k :
  Forall byte_ok val -> (2 * length val < k)%nat ->
  encode_addr val (length pre) (pre ++ replicate k 0) =
  Some (length (pre ++ concat (fmt_02x <$> val)), (pre ++ concat (fmt_02x <$> val)) ++ replicate (k - 2 * length val) 0).
Proof.
  intros Hv. revert pre k. induction Hv as [|b val Hb Hv IH]; intros pre k Hk; cbn [encode_addr fmap list_fmap concat length].
  { rewrite app_nil_r. do 3 f_equal. f_equal. lia. }
  cbn [length] in Hk. rewrite length_app, length_replicate, (proj2 (Nat.ltb_lt _ _)) by lia.
  rewrite bin2hex_writes; [|by apply Forall_singleton|cbn [length]; lia]. cbn [fmap list_fmap concat app length].
  rewrite buf_put_zeros by (cbn; lia). cbn [mbind option_bind fmt_02x app length].
  specialize (IH (pre ++ fmt_02x b) (k - 2)%nat ltac:(lia)). rewrite length_app in IH. cbn [fmt_02x length] in IH.
  rewrite <- !app_assoc in *. cbn [app fmt_02x] in *.
  change (0 :: replicate (k - 3) 0) with (replicate (S (k - 3)) 0). replace (S (k - 3)) with (k - 2)%nat by lia.
  replace (k - 2 * S (length val))%nat with (k - 2 - 2 * length val)%nat by lia. exact IH.
Qed.

Lemma strncpy_zeros s n : (length s <= n)%nat -> strncpy s n = s ++ replicate (n - length s) 0.
Proof. intros Hl. unfold strncpy. by rewrite take_ge by lia. Qed.

Lemma buf_put_some off bs buf : (off + length bs <= length buf)%nat -> buf_put off bs buf = Some (array_put off bs buf).
Proof. intros Hl. unfold buf_put. by rewrite (proj2 (Nat.leb_le _ _) Hl). Qed.

Lemma encode_start subsys path :
  (length subsys <= length path - 3)%nat -> (3 < length path)%nat ->
  (path' ← buf_put 0 (chars "bt/" ++ [0]) path; buf_put 3 (strncpy subsys (length path - 3)) path') =
  Some ((chars "bt/" ++ subsys) ++ replicate (length path - 3 - length subsys) 0).
Proof.
  intros Hs Hl. rewrite strncpy_zeros by lia. destruct path as [|x0 [|x1 [|x2 [|x3 path]]]]; cbn [length] in *; try lia.
  rewrite buf_put_some by (cbn; lia). cbn [mbind option_bind]. unfold array_put at 1. cbn [take drop app chars length Nat.add]. rewrite drop_0.
  rewrite buf_put_some by (cbn [length]; rewrite length_app, length_replicate; lia). unfold array_put. cbn [take app].
  rewrite drop_ge by (cbn [length]; rewrite length_app, length_replicate; lia). by rewrite app_nil_r.
Qed.

Lemma encode_tail_zeros key pre k :
  let tail := match key with Some key => chars "/" ++ key | None => [] end in
  nonzero (default [] key) -> nonzero pre -> (length tail < k)%nat ->
  cstring <$> encode_tail key (length pre + k) (length pre, pre ++ replicate k 0) = Some (pre ++ tail).
Proof.
  intros tail Hk Hp Hl. unfold encode_tail. destruct key as [key|]; cbn [mbind option_bind fst snd].
  - subst tail. cbn [chars app length default] in *. rewrite (proj2 (Nat.ltb_lt _ _)) by lia. rewrite put_char_zeros by lia.
    cbn [mbind option_bind]. rewrite strncpy_zeros by (rewrite length_app; cbn [length]; lia).
    rewrite buf_put_zeros by (rewrite !length_app, length_replicate; cbn [length]; lia). cbn [mbind option_bind fst snd].
    rewrite drop_app_length. set (z := replicate _ 0). assert (Hz : exists n, z ++ replicate (k - 1 - length (key ++ z)) 0 = replicate n 0).
    { exists (length z + (k - 1 - length (key ++ z)))%nat. subst z. by rewrite replicate_add, length_replicate. }
    destruct Hz as [n Hz]. rewrite <- (app_assoc key), Hz. rewrite strlen_app by done.
    rewrite (proj2 (Nat.leb_gt _ _)) by (rewrite length_app; cbn; lia). cbn. rewrite app_assoc, cstring_app; [by rewrite <- app_assoc|].
    apply Forall_app. split; [|done]. apply Forall_app. split; [done|by repeat constructor].
  - subst tail. cbn [length] in Hl. rewrite (proj2 (Nat.leb_gt _ _)) by lia. cbn. by rewrite cstring_app, app_nil_r.
Qed.

(** The two encoders of settings keys agree: from any contents of the
    buffer, the hand-written encoder leaves exactly the key that the [snprintk]
    variant prints, terminated, without writing behind the end of the buffer,
    whenever the key fits. *)
Theorem encoders_agree subsys a key path :
  addr_ok a -> nonzero subsys -> nonzero (default [] key) ->
  (length (chars "bt/" ++ subsys ++ chars "/" ++ addr_key a key) < length path)%nat ->
  cstring <$> encode_key_builtin subsys a key path = Some (bt_settings_encode_key (Z.of_nat (length path)) subsys a key).
Proof.
  intros (Ht&Hl&Hb) Hs Hk Hfit. unfold bt_settings_encode_key. fold (addr_key a key). rewrite take_ge by lia.
  apply Forall_rev in Hb. rewrite <- length_rev in Hl. assert (Hp := proj2 (hex_plain _ Hb)).
  assert (Hn : forall s, nonzero s -> nonzero ((chars "bt/" ++ subsys) ++ s)).
  { intros t Ht'. apply Forall_app. split; [|done]. apply Forall_app. split; [by repeat constructor|done]. }
  assert (Ha : nonzero (addr_key a key)).
  { unfold addr_key. apply Forall_app. split; [eapply Forall_impl; [exact Hp|]; cbn; tauto|].
    apply Forall_app. split; [destruct Ht as [-> | ->]; by repeat constructor|]. destruct key; [by constructor|constructor]. }
  assert (El : (length (addr_key a key) = 13 + match key with Some k => 1 + length k | None => 0 end)%nat).
  { unfold addr_key. rewrite !length_app, hex_length, Hl. destruct Ht as [-> | ->]; by destruct key. }
  rewrite !length_app, El in Hfit. cbn [length chars] in Hfit.
  unfold encode_key_builtin. rewrite (proj2 (Nat.ltb_lt _ _)) by lia.
  pose proof (encode_start subsys path ltac:(lia) ltac:(lia)) as E. destruct (buf_put 0 _ path) as [p1|]; [|done].
  cbn [mbind option_bind] in *. rewrite E. cbn [mbind option_bind].
  rewrite strlen_app by (apply Forall_app; split; [by repeat constructor|done]).
  rewrite put_char_zeros by lia. cbn [mbind option_bind fst snd].
  rewrite encode_addr_zeros by (done || lia). cbn [mbind option_bind]. rewrite put_char_zeros by lia. cbn [mbind option_bind].
  assert (Et : [u8 (chr "0" + addr_type a)] = fmt_u (addr_type a)) by (by destruct Ht as [-> | ->]). rewrite Et.
  set (pre := _ ++ fmt_u (addr_type a)). set (k := (_ - _)%nat).
  change (cstring <$> encode_tail key (length path) (length pre, pre ++ replicate k 0) = Some (chars "bt/" ++ subsys ++ chars "/" ++ addr_key a key)).
  assert (Ef : forall r, pre ++ r = chars "bt/" ++ subsys ++ chars "/" ++ concat (fmt_02x <$> rev (addr_val a)) ++ fmt_u (addr_type a) ++ r).
  { intros r. subst pre. rewrite <- !app_assoc. done. }
  assert (Hpre : (length pre = 3 + length subsys + 14)%nat).
  { subst pre. rewrite !length_app, hex_length, Hl, <- Et. cbn [length chars]. lia. }
  replace (length path) with (length pre + k)%nat by (subst k; lia).
  rewrite encode_tail_zeros; [by rewrite Ef|done| |subst k; destruct key; cbn; lia].
  rewrite <- (app_nil_r pre), Ef. unfold addr_key in Ha. rewrite app_assoc in Ha. apply Forall_app in Ha as [Ha _].
  rewrite (app_assoc (concat _)). rewrite app_nil_r. rewrite app_assoc. apply (Hn (chars "/" ++ _)). apply Forall_app. split; [by repeat constructor|done].
Qed.

Definition example_addr : bt_addr_le_t := mk_addr BT_ADDR_LE_RANDOM [0x56; 0x34; 0x12; 0xef; 0xcd; 0xab].

Lemma example_addr_ok : addr_ok example_addr.
Proof. split; [by right|]. split; [done|]. repeat (apply Forall_cons; split; [unfold byte_ok; lia|]). constructor. Qed.

Lemma encoders_agree_witness :
  cstring <$> encode_key_builtin (chars "ccc") example_addr (Some (chars "1")) (replicate 36 255) =
  Some (chars "bt/ccc/abcdef1234561/1").
Proof.
  etrans; [apply (encoders_agree (chars "ccc") example_addr (Some (chars "1")) (replicate 36 255))|].
  - exact example_addr_ok.
  - by repeat constructor.
  - by repeat constructor.
  - cbn. lia.
  - reflexivity.
Defined.

Lemma encode_key_fits subsys a key :
  (length subsys + length (default [] key) <= 17)%nat -> addr_ok a ->
  bt_settings_encode_key BT_SETTINGS_KEY_MAX subsys a key = chars "bt/" ++ subsys ++ chars "/" ++ addr_key a key.
Proof.
  intros Hl (Ht&Hv&_). unfold bt_settings_encode_key. fold (addr_key a key). apply take_ge. rewrite !length_app. unfold addr_key.
  rewrite !length_app, hex_length, length_rev, Hv. change (Z.to_nat (BT_SETTINGS_KEY_MAX - 1)) with 35%nat.
  assert (Et : length (fmt_u (addr_type a)) = 1%nat) by (by destruct Ht as [-> | ->]).
  rewrite Et. destruct key; cbn in Hl; cbn [length chars app]; lia.
Qed.

(** A settings key leads back to the peer it was made for: the key of an
    address lies below the name of its subsystem, and the handler of the subsystem
    decodes from the rest the same address, whatever the address variable held
    before, and the same identity suffix. *)
Theorem settings_key_roundtrip subsys a key old :
  addr_ok a -> name_ok subsys -> (length subsys + length (default [] key) <= 17)%nat -> length old = 6%nat ->
  exists name,
    settings_name_steq (bt_settings_encode_key BT_SETTINGS_KEY_MAX subsys a key) (chars "bt/" ++ subsys) = (true, Some name) /\
    bt_settings_decode_key name old = inr a /\ (settings_name_next name).2 = key.
Proof.
  intros Ha Hs Hl Ho. exists (addr_key a key). rewrite encode_key_fits by done. split.
  - rewrite app_assoc. apply name_steq_below. apply Forall_app. split; [by repeat constructor|done].
  - split; [by apply decode_addr_key|]. by rewrite addr_key_next.
Qed.

Lemma settings_key_roundtrip_witness :
  exists name,
    settings_name_steq (chars "bt/ccc/abcdef1234561") (chars "bt/ccc") = (true, Some name) /\
    bt_settings_decode_key name [1; 2; 3; 4; 5; 6] = inr example_addr.
Proof.
  destruct (settings_key_roundtrip (chars "ccc") example_addr None [1; 2; 3; 4; 5; 6]) as (name&H1&H2&_).
  - exact example_addr_ok.
  - by repeat constructor.
  - cbn. lia.
  - reflexivity.
  - exists name. split; [exact H1|exact H2].
Defined.
