(* ===== verification/Settings.v ===== *)
(** The settings store: [settings.c] (handlers), [settings_store.c] (saving and
    loading) and its backend [settings_nvs.c], which keeps each item as two entries
    of the non-volatile storage, one for its name and one for its value.

    The storage is the class [Nvs].  The callbacks of a load work on a state of type
    [T]; they get the rest of the name, the length of the value and the function that
    reads it. *)
From Stdlib Require Import ZArith Lia.
From stdpp Require Import base numbers list gmap strings.
From S2P Require Import Prelude ByteOrder Uuid Gatt SettingsKeys.
Open Scope Z_scope.

(** ** Interface of the storage *)

(** [nvs_read] returns the length of the entry and the bytes it copies; deleting an
    entry is writing nothing. *)
Class Nvs (F : Type) := {
  nvs_read : F -> Z -> Z -> Z * list Z;
  nvs_write : Z -> list Z -> F -> Z * F }.

Definition nvs_delete {F} `{!Nvs F} (id : Z) (fs : F) : Z * F := nvs_write id [] fs.

(** What the storage promises: the entries it holds, how they are read, and that a
    write that succeeds changes the entry it names and no other.  Deleting needs room
    for an entry, [nvs_room]; the largest identifier is read as long as there is any
    entry. *)
Class NvsOk (F : Type) `{!Nvs F} := {
  nvs_valid : F -> Prop;
  nvs_entries : F -> gmap Z (list Z);
  nvs_room : nat -> F -> Prop;
  nvs_max : Z;
  nvs_max_ok : 256 <= nvs_max;
  nvs_nonempty fs id data : nvs_valid fs -> nvs_entries fs !! id = Some data -> data <> [];
  nvs_read_law fs id len : nvs_valid fs -> 0 <= id < 2 ^ 16 -> (id = 0xFFFF -> nvs_entries fs <> ∅) -> 0 <= len <= nvs_max ->
    nvs_read fs id len =
    match nvs_entries fs !! id with
    | Some data => (Z.of_nat (length data), take (Z.to_nat len) data)
    | None => (- ENOENT, [])
    end;
  nvs_write_law fs id data rc fs' : nvs_valid fs -> 0 <= id < 2 ^ 16 -> bytes_ok data -> (data = [] -> nvs_room 1 fs) ->
    nvs_write id data fs = (rc, fs') -> 0 <= rc ->
    nvs_valid fs' /\
    nvs_entries fs' = if decide (data = []) then delete id (nvs_entries fs) else <[id := data]> (nvs_entries fs);
  nvs_room_less fs n : nvs_room (S n) fs -> nvs_room n fs;
  nvs_room_law fs id rc fs' n : nvs_valid fs -> 0 <= id < 2 ^ 16 -> nvs_room (S n) fs -> nvs_write id [] fs = (rc, fs') -> nvs_room n fs' }.

(** ** settings.c: handlers *)

Section handlers.
Context {T : Type}.

(** [settings_read_cb]. *)
Abbreviation read_cb := (Z -> Z * list Z).
Abbreviation set_cb := (option cstr -> Z -> read_cb -> T -> Z * T).

(** [struct settings_handler_static]. *)
Record settings_handler := mk_settings_handler { handler_name : cstr; h_set : set_cb; h_commit : option (T -> Z * T) }.

(** [struct settings_load_arg]. *)
Record settings_load_arg := mk_load_arg { subtree : option cstr; load_cb : option set_cb }.

Fixpoint lookup_loop (name : cstr) (handlers : list settings_handler) (bestmatch : option (settings_handler * option cstr)) :
    option (settings_handler * option cstr) :=
  match handlers with
  | [] => bestmatch
  | ch :: handlers =>
      let '(eq, tmpnext) := settings_name_steq name (handler_name ch) in
      lookup_loop name handlers
        (if negb eq then bestmatch
         else
           match bestmatch with
           | None => Some (ch, tmpnext)
           | Some (best, _) => if (settings_name_steq (handler_name ch) (handler_name best)).1 then Some (ch, tmpnext) else bestmatch
           end)
  end.
Definition settings_parse_and_lookup (name : cstr) (handlers : list settings_handler) : option (settings_handler * option cstr) :=
  lookup_loop name handlers None.

Definition settings_call_set_handler (handlers : list settings_handler) (name : cstr) (len : Z) (read : read_cb)
    (arg : settings_load_arg) (t : T) : Z * T :=
  let '(skip, name_key) :=
    match subtree arg with
    | Some sub => let '(eq, next) := settings_name_steq name sub in (negb eq, next)
    | None => (false, Some name)
    end in
  if skip then (0, t)
  else
    match load_cb arg with
    | Some cb => cb name_key len read t
    | None =>
        match settings_parse_and_lookup name handlers with
        | None => (0, t)
        | Some (ch, name_key) => let '(_, t) := h_set ch name_key len read t in (0, t)
        end
    end.

(** The first error is reported, every handler is called. *)
Fixpoint settings_commit_subtree (sub : option cstr) (handlers : list settings_handler) (t : T) : Z * T :=
  match handlers with
  | [] => (0, t)
  | ch :: handlers =>
      if match sub with Some sub => negb (settings_name_steq (handler_name ch) sub).1 | None => false end
      then settings_commit_subtree sub handlers t
      else
        match h_commit ch with
        | None => settings_commit_subtree sub handlers t
        | Some commit =>
            let '(rc2, t) := commit t in
            let '(rc, t) := settings_commit_subtree sub handlers t in
            (if rc2 =? 0 then rc else rc2, t)
        end
  end.
End handlers.
Arguments settings_handler : clear implicits.
Arguments settings_load_arg : clear implicits.

(** ** settings_nvs.c *)

Definition NVS_NAMECNT_ID : Z := 0x8000.
Definition NVS_NAME_ID_OFFSET : Z := 0x4000.
Definition SETTINGS_MAX_NAME_LEN : Z := 64.
Definition SETTINGS_EXTRA_LEN : Z := 9.
(** The size of the buffers for names. *)
Definition NAME_BUF : Z := SETTINGS_MAX_NAME_LEN + SETTINGS_EXTRA_LEN + 1.

(** [struct settings_nvs]. *)
Record settings_nvs (F : Type) := mk_settings_nvs { cf_nvs : F; last_name_id : Z }.
Arguments mk_settings_nvs {F}.
Arguments cf_nvs {F}.
Arguments last_name_id {F}.

Section backend.
Context {F : Type} `{!Nvs F}.
Implicit Types (cf : settings_nvs F) (fs : F).

Definition settings_nvs_read_fn fs (id : Z) (len : Z) : Z * list Z :=
  let '(rc, bytes) := nvs_read fs id len in (if len <? rc then len else rc, bytes).

(** An item that lacks its name or its value is removed; the results of the writes
    are not looked at. *)
Definition clean_item (name_id : Z) cf : settings_nvs F :=
  let cf :=
    if name_id =? last_name_id cf then
      let last := u16 (last_name_id cf - 1) in
      mk_settings_nvs (nvs_write NVS_NAMECNT_ID (le_bytes 2 last) (cf_nvs cf)).2 last
    else cf in
  let fs := (nvs_delete name_id (cf_nvs cf)).2 in
  mk_settings_nvs (nvs_delete (u16 (name_id + NVS_NAME_ID_OFFSET)) fs).2 (last_name_id cf).

(** The items with the [n] smallest identifiers, from the largest down. *)
Fixpoint load_loop {T} (handlers : list (settings_handler T)) (arg : settings_load_arg T) (n : nat) cf (t : T) :
    Z * settings_nvs F * T :=
  match n with
  | O => (0, cf, t)
  | S n' =>
      let name_id := NVS_NAMECNT_ID + Z.of_nat n in
      let '(rc1, name) := nvs_read (cf_nvs cf) name_id NAME_BUF in
      let '(rc2, _) := nvs_read (cf_nvs cf) (u16 (name_id + NVS_NAME_ID_OFFSET)) 1 in
      if (rc1 <=? 0) && (rc2 <=? 0) then load_loop handlers arg n' cf t
      else if (rc1 <=? 0) || (rc2 <=? 0) then load_loop handlers arg n' (clean_item name_id cf) t
      else
        let '(ret, t) :=
          settings_call_set_handler handlers (cstring name) rc2
            (settings_nvs_read_fn (cf_nvs cf) (u16 (name_id + NVS_NAME_ID_OFFSET))) arg t in
        if nz ret then (ret, cf, t) else load_loop handlers arg n' cf t
  end.
Definition settings_nvs_load {T} (handlers : list (settings_handler T)) (arg : settings_load_arg T) cf (t : T) :
    Z * settings_nvs F * T :=
  load_loop handlers arg (Z.to_nat (last_name_id cf - NVS_NAMECNT_ID)) cf t.

(** The identifier of a name, or else where to put it: the smallest free one, or the
    one behind the last. *)
Fixpoint find_name fs (name : cstr) (n : nat) (write_name_id : Z) : option Z * Z :=
  match n with
  | O => (None, write_name_id)
  | S n' =>
      let name_id := NVS_NAMECNT_ID + Z.of_nat n in
      let '(rc, rdname) := nvs_read fs name_id NAME_BUF in
      if rc <? 0 then find_name fs name n' (if rc =? - ENOENT then name_id else write_name_id)
      else if negb (bool_decide (name = cstring rdname)) then find_name fs name n' write_name_id
      else (Some name_id, write_name_id)
  end.

Definition delete_item (name_id : Z) cf : Z * settings_nvs F :=
  let '(rc, cf) :=
    if name_id =? last_name_id cf then
      let last := u16 (last_name_id cf - 1) in
      let '(rc, fs) := nvs_write NVS_NAMECNT_ID (le_bytes 2 last) (cf_nvs cf) in
      (rc, mk_settings_nvs fs last)
    else (0, cf) in
  if rc <? 0 then (rc, cf)
  else
    let '(rc, fs) := nvs_delete name_id (cf_nvs cf) in
    let '(rc, fs) := if 0 <=? rc then nvs_delete (u16 (name_id + NVS_NAME_ID_OFFSET)) fs else (rc, fs) in
    (if rc <? 0 then rc else 0, mk_settings_nvs fs (last_name_id cf)).

Definition write_item (write_name : bool) (id : Z) (name : cstr) (value : list Z) cf : Z * settings_nvs F :=
  if id =? NVS_NAMECNT_ID + NVS_NAME_ID_OFFSET then (- ENOMEM, cf)
  else
    let '(rc, fs) := nvs_write (u16 (id + NVS_NAME_ID_OFFSET)) value (cf_nvs cf) in
    let '(rc, fs, stop) :=
      if write_name then let '(rc, fs) := nvs_write id name fs in (rc, fs, rc <? 0) else (rc, fs, false) in
    if stop then (rc, mk_settings_nvs fs (last_name_id cf))
    else
      let '(rc, cf) :=
        if last_name_id cf <? id
        then let '(rc, fs) := nvs_write NVS_NAMECNT_ID (le_bytes 2 id) fs in (rc, mk_settings_nvs fs id)
        else (rc, mk_settings_nvs fs (last_name_id cf)) in
      (if rc <? 0 then rc else 0, cf).

(** An empty value deletes the item. *)
Definition settings_nvs_save (name : cstr) (value : list Z) cf : Z * settings_nvs F :=
  let '(found, write_name_id) :=
    find_name (cf_nvs cf) name (Z.to_nat (last_name_id cf - NVS_NAMECNT_ID)) (last_name_id cf + 1) in
  match value with
  | [] => match found with Some name_id => delete_item name_id cf | None => (0, cf) end
  | _ :: _ =>
      match found with
      | Some name_id => write_item false name_id name value cf
      | None => write_item true write_name_id name value cf
      end
  end.

(** Behind [nvs_init]. *)
Definition settings_nvs_backend_init fs : settings_nvs F :=
  let '(rc, bytes) := nvs_read fs NVS_NAMECNT_ID 2 in
  mk_settings_nvs fs (if rc <? 0 then NVS_NAMECNT_ID else le_value bytes).

(** ** settings_store.c

    [settings_backend_init] registers one object as the destination of saves and as
    the only source of loads; before, there is none. *)
Definition settings_save_one (name : cstr) (value : list Z) (store : option (settings_nvs F)) : Z * option (settings_nvs F) :=
  match store with
  | None => (- ENOENT, None)
  | Some cs => let '(rc, cs) := settings_nvs_save name value cs in (rc, Some cs)
  end.
Definition settings_delete (name : cstr) (store : option (settings_nvs F)) : Z * option (settings_nvs F) :=
  settings_save_one name [] store.

Definition settings_load_subtree {T} (handlers : list (settings_handler T)) (sub : option cstr) (store : option (settings_nvs F)) (t : T) :
    Z * option (settings_nvs F) * T :=
  let '(store, t) :=
    match store with
    | None => (None, t)
    | Some cs => let '(_, cs, t) := settings_nvs_load handlers (mk_load_arg sub None) cs t in (Some cs, t)
    end in
  let '(rc, t) := settings_commit_subtree sub handlers t in
  (rc, store, t).
Definition settings_load {T} (handlers : list (settings_handler T)) (store : option (settings_nvs F)) (t : T) :
    Z * option (settings_nvs F) * T := settings_load_subtree handlers None store t.

Definition settings_load_subtree_direct {T} (sub : cstr) (cb : option cstr -> Z -> (Z -> Z * list Z) -> T -> Z * T)
    (store : option (settings_nvs F)) (t : T) : option (settings_nvs F) * T :=
  match store with
  | None => (None, t)
  | Some cs => let '(_, cs, t) := settings_nvs_load [] (mk_load_arg (Some sub) (Some cb)) cs t in (Some cs, t)
  end.
End backend.

(** ** The items a store holds *)

Definition fits (name : cstr) : Prop := (0 < length name)%nat /\ Z.of_nat (length name) < NAME_BUF /\ nonzero name /\ bytes_ok name.

Section contents.
Context {F : Type} `{!Nvs F, !NvsOk F}.
Implicit Types (cf : settings_nvs F) (fs : F) (id : Z).

Definition used cf id : Prop := NVS_NAMECNT_ID < id <= last_name_id cf.

(** The identifiers in use, their names and values; the count of names on flash. *)
Record store_ok cf : Prop := {
  store_valid : nvs_valid (cf_nvs cf);
  last_range : NVS_NAMECNT_ID <= last_name_id cf < NVS_NAMECNT_ID + NVS_NAME_ID_OFFSET;
  last_stored : NVS_NAMECNT_ID < last_name_id cf \/ is_Some (nvs_entries (cf_nvs cf) !! NVS_NAMECNT_ID) ->
    nvs_entries (cf_nvs cf) !! NVS_NAMECNT_ID = Some (le_bytes 2 (last_name_id cf));
  whole id : used cf id ->
    is_Some (nvs_entries (cf_nvs cf) !! id) <-> is_Some (nvs_entries (cf_nvs cf) !! (id + NVS_NAME_ID_OFFSET));
  names_fit id name : used cf id -> nvs_entries (cf_nvs cf) !! id = Some name -> fits name;
  names_distinct id1 id2 name : used cf id1 -> used cf id2 ->
    nvs_entries (cf_nvs cf) !! id1 = Some name -> nvs_entries (cf_nvs cf) !! id2 = Some name -> id1 = id2 }.

(** The store holds a value under a name. *)
Definition holds cf (name : cstr) (value : list Z) : Prop :=
  exists id, used cf id /\ nvs_entries (cf_nvs cf) !! id = Some name /\
    nvs_entries (cf_nvs cf) !! (id + NVS_NAME_ID_OFFSET) = Some value.

Lemma holds_functional cf name v1 v2 : store_ok cf -> holds cf name v1 -> holds cf name v2 -> v1 = v2.
Proof.
  intros Hok (id1&U1&N1&V1) (id2&U2&N2&V2). assert (id1 = id2) as <- by (by eapply names_distinct). congruence.
Qed.

(** What the scan of [settings_nvs_save] finds: the identifier of the name, or that
    no identifier has it and one that is free. *)
Lemma name_read fs id :
  nvs_valid fs -> 0 <= id < 0xFFFF ->
  nvs_read fs id NAME_BUF =
  match nvs_entries fs !! id with
  | Some data => (Z.of_nat (length data), take (Z.to_nat NAME_BUF) data)
  | None => (- ENOENT, [])
  end.
Proof. intros Hv Hid. apply nvs_read_law; [done|lia|lia|]. pose proof nvs_max_ok. unfold NAME_BUF, SETTINGS_MAX_NAME_LEN, SETTINGS_EXTRA_LEN. lia. Qed.

Lemma fits_read name : fits name -> cstring (take (Z.to_nat NAME_BUF) name) = name.
Proof.
  intros (_&Hl&Hn&_). rewrite take_ge by lia. rewrite <- (app_nil_r name) at 1. exact (cstring_app name 0 Hn).
Qed.

Lemma find_name_spec cf name n w :
  store_ok cf -> Z.of_nat n <= last_name_id cf - NVS_NAMECNT_ID ->
  match find_name (cf_nvs cf) name n w with
  | (Some id, _) => NVS_NAMECNT_ID < id <= NVS_NAMECNT_ID + Z.of_nat n /\ nvs_entries (cf_nvs cf) !! id = Some name
  | (None, w') =>
      (forall id, NVS_NAMECNT_ID < id <= NVS_NAMECNT_ID + Z.of_nat n -> nvs_entries (cf_nvs cf) !! id <> Some name) /\
      (w' = w \/ NVS_NAMECNT_ID < w' <= NVS_NAMECNT_ID + Z.of_nat n /\ nvs_entries (cf_nvs cf) !! w' = None)
  end.
Proof.
  intros Hok. pose proof (last_range cf Hok) as Hr. revert w. induction n as [|n IH]; intros w Hn; cbn [find_name]; [split; [lia|by left]|].
  rewrite name_read by (apply Hok || (unfold NVS_NAME_ID_OFFSET, NVS_NAMECNT_ID in *; lia)). set (id := NVS_NAMECNT_ID + Z.of_nat (S n)).
  assert (Hu : used cf id) by (unfold used; lia).
  destruct (nvs_entries (cf_nvs cf) !! id) as [data|] eqn:E.
  - rewrite (proj2 (Z.ltb_ge _ _)) by lia. rewrite fits_read by (by eapply names_fit).
    destruct (decide (name = data)) as [->|Hne]; [rewrite bool_decide_true by done; cbn; split; [lia|done]|].
    rewrite bool_decide_false by done. cbn [negb]. specialize (IH w ltac:(lia)). destruct (find_name _ _ n w) as [[i|] w'].
    + destruct IH as [? ?]. split; [lia|done].
    + destruct IH as [IH1 IH2]. split; [|destruct IH2 as [->|[? ?]]; [by left|right; split; [lia|done]]].
      intros i Hi. destruct (decide (i = id)) as [->|]; [congruence|apply IH1; lia].
  - cbn [Z.ltb Z.compare Z.opp ENOENT]. rewrite Z.eqb_refl. specialize (IH id ltac:(lia)). destruct (find_name _ _ n id) as [[i|] w'].
    + destruct IH as [? ?]. split; [lia|done].
    + destruct IH as [IH1 IH2]. split; [|right; destruct IH2 as [->|[? ?]]; (split; [lia|done])].
      intros i Hi. destruct (decide (i = id)) as [->|]; [congruence|apply IH1; lia].
Qed.

Definition updated (name : cstr) (value : list Z) cf cf' : Prop :=
  store_ok cf' /\ forall n v, holds cf' n v <-> (n = name /\ v = value) \/ (n <> name /\ holds cf n v).
Definition removed (name : cstr) cf cf' : Prop :=
  store_ok cf' /\ forall n v, holds cf' n v <-> n <> name /\ holds cf n v.

Lemma put_effect cf cf' id name value :
  store_ok cf -> nvs_valid (cf_nvs cf') -> fits name -> NVS_NAMECNT_ID < id <= last_name_id cf + 1 -> id < NVS_NAMECNT_ID + NVS_NAME_ID_OFFSET ->
  last_name_id cf' = Z.max (last_name_id cf) id ->
  (forall i, used cf i -> nvs_entries (cf_nvs cf) !! i = Some name -> i = id) ->
  (used cf id -> nvs_entries (cf_nvs cf) !! id = None \/ nvs_entries (cf_nvs cf) !! id = Some name) ->
  (forall i, used cf' i -> nvs_entries (cf_nvs cf') !! i = if decide (i = id) then Some name else nvs_entries (cf_nvs cf) !! i) ->
  (forall i, used cf' i -> nvs_entries (cf_nvs cf') !! (i + NVS_NAME_ID_OFFSET) =
     if decide (i = id) then Some value else nvs_entries (cf_nvs cf) !! (i + NVS_NAME_ID_OFFSET)) ->
  nvs_entries (cf_nvs cf') !! NVS_NAMECNT_ID =
    (if decide (last_name_id cf < id) then Some (le_bytes 2 id) else nvs_entries (cf_nvs cf) !! NVS_NAMECNT_ID) ->
  updated name value cf cf'.
Proof.
  intros Hok Hval Hf Hid Hmax El Huniq Hslot EN EV EC. pose proof (last_range cf Hok) as Hr.
  assert (Hu : forall i, used cf' i -> i <> id -> used cf i) by (unfold used; lia). assert (Huid : used cf' id) by (unfold used; lia).
  assert (Hold : forall i n, used cf' i -> i <> id -> nvs_entries (cf_nvs cf') !! i = Some n -> used cf i /\ nvs_entries (cf_nvs cf) !! i = Some n).
  { intros i n Hi Hne E. rewrite EN, decide_False in E by done. split; [by apply Hu|done]. }
  split; [split|].
  - done.
  - lia.
  - intros _. rewrite EC, El. destruct (decide _); [f_equal; f_equal; lia|]. replace (Z.max _ _) with (last_name_id cf) by lia.
    apply Hok. left. lia.
  - intros i Hi. rewrite EN, EV by done. destruct (decide (i = id)); [by split|]. apply Hok. by apply Hu.
  - intros i n Hi E. destruct (decide (i = id)) as [->|Hne]; [rewrite EN, decide_True in E by done; by injection E as <-|].
    destruct (Hold i n Hi Hne E). by eapply names_fit.
  - intros i j n Hi Hj Ei Ej. destruct (decide (i = id)) as [->|Hni], (decide (j = id)) as [->|Hnj]; [done|..].
    + rewrite EN, decide_True in Ei by done. injection Ei as <-. destruct (Hold j name Hj Hnj Ej). symmetry. by apply Huniq.
    + rewrite EN, decide_True in Ej by done. injection Ej as <-. destruct (Hold i name Hi Hni Ei). by apply Huniq.
    + destruct (Hold i n Hi Hni Ei), (Hold j n Hj Hnj Ej). by eapply names_distinct.
  - intros n v. split.
    + intros (i&Hi&E&V). rewrite EV in V by done. destruct (decide (i = id)) as [->|Hne].
      * rewrite EN, decide_True in E by done. left. split; congruence.
      * destruct (Hold i n Hi Hne E) as [Hi' E']. right. split; [|by exists i]. intros ->. by apply Hne, Huniq.
    + intros [[-> ->]|[Hne (i&Hi&E&V)]].
      * exists id. rewrite EN, EV, !decide_True by done. done.
      * assert (i <> id) by (intros ->; destruct (Hslot Hi); congruence).
        assert (used cf' i) by (unfold used in *; lia). exists i. rewrite EN, EV, !decide_False by done. done.
Qed.

Lemma drop_effect cf cf' id name :
  store_ok cf -> nvs_valid (cf_nvs cf') -> used cf id -> nvs_entries (cf_nvs cf) !! id = Some name ->
  last_name_id cf' = (if decide (id = last_name_id cf) then last_name_id cf - 1 else last_name_id cf) ->
  (forall i, used cf' i -> nvs_entries (cf_nvs cf') !! i = if decide (i = id) then None else nvs_entries (cf_nvs cf) !! i) ->
  (forall i, used cf' i -> nvs_entries (cf_nvs cf') !! (i + NVS_NAME_ID_OFFSET) =
     if decide (i = id) then None else nvs_entries (cf_nvs cf) !! (i + NVS_NAME_ID_OFFSET)) ->
  nvs_entries (cf_nvs cf') !! NVS_NAMECNT_ID =
    (if decide (id = last_name_id cf) then Some (le_bytes 2 (last_name_id cf - 1)) else nvs_entries (cf_nvs cf) !! NVS_NAMECNT_ID) ->
  removed name cf cf'.
Proof.
  intros Hok Hval Hid Ename El EN EV EC. pose proof (last_range cf Hok) as Hr.
  assert (Hu : forall i, used cf' i <-> used cf i /\ (id = last_name_id cf -> i <> id)).
  { intros i. unfold used in *. rewrite El. destruct (decide _); intuition lia. }
  assert (Hold : forall i n, used cf' i -> nvs_entries (cf_nvs cf') !! i = Some n -> used cf i /\ i <> id /\ nvs_entries (cf_nvs cf) !! i = Some n).
  { intros i n Hi E. rewrite EN in E by done. destruct (decide (i = id)); [done|]. split; [by apply Hu|done]. }
  split; [split|].
  - done.
  - rewrite El. unfold used in Hid. destruct (decide _); lia.
  - rewrite EC, El. destruct (decide _); [done|]. intros H. by apply Hok.
  - intros i Hi. rewrite EN, EV by done. destruct (decide (i = id)); [split; by intros [? ?]|]. apply Hok. by apply Hu.
  - intros i n Hi E. destruct (Hold i n Hi E) as (?&_&?). by eapply names_fit.
  - intros i j n Hi Hj Ei Ej. destruct (Hold i n Hi Ei) as (?&_&?), (Hold j n Hj Ej) as (?&_&?). by eapply names_distinct.
  - intros n v. split.
    + intros (i&Hi&E&V). destruct (Hold i n Hi E) as (Hi'&Hne&E'). rewrite EV, decide_False in V by done.
      split; [|by exists i]. intros ->. apply Hne. by eapply names_distinct.
    + intros (Hne&i&Hi&E&V). assert (i <> id) by congruence. assert (used cf' i) by (by apply Hu).
      exists i. rewrite EN, EV, !decide_False by done. done.
Qed.

(** The storage takes the value. *)
Definition takes (value : list Z) fs : Prop := forall id, 0 <= id < 2 ^ 16 -> 0 <= (nvs_write id value fs).1.

(** A setting that is new needs a storage that takes its value: the result of that write
    is lost, because the name is written too. *)
Definition takes_if_new (name : cstr) (value : list Z) cf : Prop :=
  ~ (exists v, holds cf name v) -> takes value (cf_nvs cf).

Lemma written fs id data rc fs' :
  nvs_valid fs -> nvs_write id data fs = (rc, fs') -> 0 <= rc -> data <> [] -> 0 <= id < 2 ^ 16 -> bytes_ok data ->
  nvs_valid fs' /\ nvs_entries fs' = <[id := data]> (nvs_entries fs).
Proof. intros Hv E Hrc Hd Hid Hb. destruct (nvs_write_law _ _ _ _ _ Hv Hid Hb ltac:(done) E Hrc) as [? ->]. by rewrite decide_False. Qed.

Lemma deleted fs id rc fs' :
  nvs_valid fs -> nvs_delete id fs = (rc, fs') -> 0 <= rc -> 0 <= id < 2 ^ 16 -> nvs_room 1 fs ->
  nvs_valid fs' /\ nvs_entries fs' = delete id (nvs_entries fs).
Proof. intros Hv E Hrc Hid Hr. by destruct (nvs_write_law _ _ _ _ _ Hv Hid (Forall_nil_2 _) (fun _ => Hr) E Hrc) as [? ->]. Qed.

Lemma ret_zero rc : (if rc <? 0 then rc else 0) = 0 -> 0 <= rc.
Proof. destruct (Z.ltb_spec rc 0); lia. Qed.

Lemma le_bytes_nonempty v : le_bytes 2 v <> [].
Proof. done. Qed.

Definition insert_if (b : bool) (i : Z) (v : list Z) (m : gmap Z (list Z)) : gmap Z (list Z) := if b then <[i := v]> m else m.

(** The entries [write_item] leaves. *)
Lemma write_item_entries w id name value cf cf' :
  nvs_valid (cf_nvs cf) -> write_item w id name value cf = (0, cf') -> NVS_NAMECNT_ID < id -> value <> [] -> name <> [] ->
  (w = true \/ last_name_id cf < id -> takes value (cf_nvs cf)) ->
  id < NVS_NAMECNT_ID + NVS_NAME_ID_OFFSET -> bytes_ok value -> bytes_ok name ->
  nvs_valid (cf_nvs cf') /\ last_name_id cf' = Z.max (last_name_id cf) id /\
  nvs_entries (cf_nvs cf') =
    insert_if (bool_decide (last_name_id cf < id)) NVS_NAMECNT_ID (le_bytes 2 id)
      (insert_if w id name (<[id + NVS_NAME_ID_OFFSET := value]> (nvs_entries (cf_nvs cf)))).
Proof.
  intros Hval E Hid Hv Hn Ht Hmax Hbv Hbn. unfold write_item in E. rewrite (proj2 (Z.eqb_neq _ _)) in E by lia.
  assert (Hrange : 0 <= id < 2 ^ 16 /\ 0 <= id + NVS_NAME_ID_OFFSET < 2 ^ 16 /\ 0 <= NVS_NAMECNT_ID < 2 ^ 16)
    by (unfold NVS_NAME_ID_OFFSET, NVS_NAMECNT_ID in *; lia). destruct Hrange as (R1&R2&R3).
  replace (u16 (id + NVS_NAME_ID_OFFSET)) with (id + NVS_NAME_ID_OFFSET) in E
    by (unfold u16, NVS_NAME_ID_OFFSET, NVS_NAMECNT_ID in *; rewrite Z.mod_small; lia).
  destruct (nvs_write (id + NVS_NAME_ID_OFFSET) value (cf_nvs cf)) as [rc1 fs1] eqn:E1.
  assert (Hrc1 : 0 <= rc1).
  { destruct w; [|destruct (Z.ltb_spec (last_name_id cf) id)].
    - change rc1 with (rc1, fs1).1. rewrite <- E1. apply Ht; [by left|done].
    - change rc1 with (rc1, fs1).1. rewrite <- E1. apply Ht; [by right|done].
    - injection E as Erc _. by apply ret_zero. }
  apply written in E1 as [Hv1 E1']; [|done..]. rewrite <- E1'. clear E1'.
  assert (G : exists rc2 fs2, (if w then let '(rc, fs) := nvs_write id name fs1 in (rc, fs, rc <? 0) else (rc1, fs1, false)) = (rc2, fs2, false) /\
            (nvs_valid fs2 /\ nvs_entries fs2 = insert_if w id name (nvs_entries fs1)) /\ 0 <= rc2).
  { destruct w; [|by do 2 eexists]. destruct (nvs_write id name fs1) as [rc2 fs2] eqn:E2. destruct (Z.ltb_spec rc2 0) as [Hneg|Hpos].
    - injection E as Erc _. lia.
    - exists rc2, fs2. split; [done|]. split; [|done]. by eapply written. }
  destruct G as (rc2&fs2&G1&[Hv2 G2]&G3). rewrite G1 in E. rewrite <- G2. clear G1.
  destruct (Z.ltb_spec (last_name_id cf) id).
  - rewrite bool_decide_true by done. destruct (nvs_write NVS_NAMECNT_ID _ fs2) as [rc3 fs3] eqn:E3.
    injection E as Erc <-. apply ret_zero in Erc. cbn.
    destruct (written _ _ _ _ _ Hv2 E3 Erc ltac:(apply le_bytes_nonempty) R3 (le_bytes_ok _ _)) as [? ->]. split; [done|]. split; [lia|done].
  - rewrite bool_decide_false by lia. injection E as _ <-. cbn. split; [done|]. split; [lia|done].
Qed.

Lemma insert_if_ne b i v m j : j <> i -> insert_if b i v m !! j = m !! j.
Proof. intros Hj. destruct b; cbn; [by rewrite lookup_insert_ne|done]. Qed.

Lemma insert_if_eq b i v m : insert_if b i v m !! i = if b then Some v else m !! i.
Proof. destruct b; cbn; [by rewrite lookup_insert, decide_True|done]. Qed.

Lemma write_item_updated w id name value cf cf' :
  store_ok cf -> fits name -> value <> [] -> bytes_ok value ->
  (w = true \/ last_name_id cf < id -> takes value (cf_nvs cf)) ->
  write_item w id name value cf = (0, cf') -> NVS_NAMECNT_ID < id <= last_name_id cf + 1 ->
  (forall i, used cf i -> nvs_entries (cf_nvs cf) !! i = Some name -> i = id) ->
  (if w then used cf id -> nvs_entries (cf_nvs cf) !! id = None else nvs_entries (cf_nvs cf) !! id = Some name) ->
  updated name value cf cf'.
Proof.
  intros Hok Hf Hv Hb Ht E Hid Huniq Hslot. pose proof (last_range cf Hok) as Hr.
  assert (Hmax : id < NVS_NAMECNT_ID + NVS_NAME_ID_OFFSET).
  { destruct (Z.eqb_spec id (NVS_NAMECNT_ID + NVS_NAME_ID_OFFSET)) as [->|]; [|lia]. unfold write_item in E. rewrite Z.eqb_refl in E. discriminate E. }
  assert (Hn : name <> []) by (destruct Hf as [Hf _]; by destruct name; cbn in *; [lia|]).
  destruct (write_item_entries _ _ _ _ _ _ (store_valid cf Hok) E ltac:(lia) Hv Hn Ht Hmax Hb ltac:(apply Hf)) as (Hval&El&Ee).
  assert (Hu : forall i, used cf' i -> NVS_NAMECNT_ID < i < NVS_NAMECNT_ID + NVS_NAME_ID_OFFSET) by (unfold used; intros; lia).
  unfold NVS_NAMECNT_ID, NVS_NAME_ID_OFFSET in *. apply put_effect with id; try done; try lia.
  - intros Hi. destruct w; [left; by apply Hslot|by right].
  - intros i Hi. specialize (Hu i Hi). rewrite Ee, insert_if_ne by (unfold NVS_NAMECNT_ID; lia). destruct (decide (i = id)) as [->|].
    + rewrite insert_if_eq. destruct w; [done|]. by rewrite lookup_insert_ne by (unfold NVS_NAME_ID_OFFSET; lia).
    + rewrite insert_if_ne, lookup_insert_ne by (unfold NVS_NAME_ID_OFFSET; lia). done.
  - intros i Hi. specialize (Hu i Hi). rewrite Ee, !insert_if_ne by (unfold NVS_NAMECNT_ID, NVS_NAME_ID_OFFSET; lia).
    destruct (decide (i = id)) as [->|]; [by rewrite lookup_insert, decide_True|].
    rewrite lookup_insert_ne by (unfold NVS_NAME_ID_OFFSET; lia). done.
  - rewrite Ee, insert_if_eq. destruct (decide _); [by rewrite bool_decide_true|]. rewrite bool_decide_false by done.
    rewrite insert_if_ne, lookup_insert_ne by (unfold NVS_NAMECNT_ID, NVS_NAME_ID_OFFSET; lia). done.
Qed.

(** There is room to delete an item, also after its number is written. *)
Definition roomy cf : Prop :=
  nvs_room 2 (cf_nvs cf) /\ forall v rc fs, nvs_write NVS_NAMECNT_ID v (cf_nvs cf) = (rc, fs) -> nvs_room 2 fs.

Lemma delete_item_removed id name cf cf' :
  store_ok cf -> roomy cf -> used cf id -> nvs_entries (cf_nvs cf) !! id = Some name -> delete_item id cf = (0, cf') -> removed name cf cf'.
Proof.
  intros Hok Hroom Hid Ename E. pose proof (last_range cf Hok) as Hr. unfold used in Hid. unfold delete_item in E.
  assert (Hrange : 0 <= id < 2 ^ 16 /\ 0 <= id + NVS_NAME_ID_OFFSET < 2 ^ 16 /\ 0 <= NVS_NAMECNT_ID < 2 ^ 16)
    by (unfold NVS_NAME_ID_OFFSET, NVS_NAMECNT_ID in *; lia). destruct Hrange as (R1&R2&R3).
  replace (u16 (id + NVS_NAME_ID_OFFSET)) with (id + NVS_NAME_ID_OFFSET) in E
    by (unfold u16, NVS_NAME_ID_OFFSET, NVS_NAMECNT_ID in *; rewrite Z.mod_small; lia).
  assert (E16 : u16 (last_name_id cf - 1) = last_name_id cf - 1)
    by (unfold u16, NVS_NAME_ID_OFFSET, NVS_NAMECNT_ID in *; rewrite Z.mod_small; lia).
  cbv zeta in E. rewrite E16 in E.
  assert (G : exists rc1 cf1, (if id =? last_name_id cf then
      let '(rc, fs) := nvs_write NVS_NAMECNT_ID (le_bytes 2 (last_name_id cf - 1)) (cf_nvs cf) in (rc, mk_settings_nvs fs (last_name_id cf - 1))
      else (0, cf)) = (rc1, cf1) /\ nvs_room 2 (cf_nvs cf1) /\
    (0 <= rc1 -> nvs_valid (cf_nvs cf1) /\ last_name_id cf1 = (if decide (id = last_name_id cf) then last_name_id cf - 1 else last_name_id cf) /\
     nvs_entries (cf_nvs cf1) = insert_if (bool_decide (id = last_name_id cf)) NVS_NAMECNT_ID (le_bytes 2 (last_name_id cf - 1)) (nvs_entries (cf_nvs cf)))).
  { destruct (Z.eqb_spec id (last_name_id cf)) as [Hl|Hl].
    - destruct (nvs_write _ _ _) as [rc fs] eqn:Ew. exists rc, (mk_settings_nvs fs (last_name_id cf - 1)). split; [reflexivity|]. split; [by eapply Hroom|]. intros Hrc. rewrite decide_True, bool_decide_true by done.
      cbn. destruct (written _ _ _ _ _ (store_valid cf Hok) Ew Hrc ltac:(apply le_bytes_nonempty) R3 (le_bytes_ok _ _)) as [? ->]. done.
    - do 2 eexists. split; [done|]. split; [apply Hroom|]. intros _. rewrite decide_False, bool_decide_false by done. split; [apply Hok|done]. }
  destruct G as (rc1&cf1&G1&Hr1&G2). rewrite G1 in E. clear G1. destruct (Z.ltb_spec rc1 0) as [Hneg|Hpos]; [injection E as E _; lia|].
  destruct (G2 Hpos) as (Hv1&El&Ee). clear G2. destruct (nvs_delete id (cf_nvs cf1)) as [rc2 fs2] eqn:E2.
  destruct (Z.leb_spec 0 rc2) as [Hp2|Hn2].
  2:{ injection E as E _. destruct (Z.ltb_spec rc2 0); lia. }
  destruct (nvs_delete (id + NVS_NAME_ID_OFFSET) fs2) as [rc3 fs3] eqn:E3. injection E as E <-. apply ret_zero in E.
  assert (Hr2 : nvs_room 1 (cf_nvs cf1)) by (by apply nvs_room_less).
  destruct (deleted _ _ _ _ Hv1 E2 Hp2 R1 Hr2) as [Hv2 D2].
  destruct (deleted _ _ _ _ Hv2 E3 E R2 (nvs_room_law _ _ _ _ 1 Hv1 R1 Hr1 E2)) as [Hv3 D3].
  apply drop_effect with id; cbn [cf_nvs last_name_id]; try done; try rewrite D3, D2, Ee.
  - intros i Hi. unfold used in Hi. cbn in Hi. rewrite El in Hi. destruct (decide (i = id)) as [->|].
    + rewrite lookup_delete_ne by (unfold NVS_NAME_ID_OFFSET; lia). by rewrite lookup_delete, decide_True.
    + assert (i <= last_name_id cf) by (destruct (decide _); lia). unfold NVS_NAME_ID_OFFSET, NVS_NAMECNT_ID in *.
      rewrite !lookup_delete_ne, insert_if_ne by (unfold NVS_NAMECNT_ID; lia). done.
  - intros i Hi. unfold used in Hi. cbn in Hi. rewrite El in Hi. destruct (decide (i = id)) as [->|]; [by rewrite lookup_delete, decide_True|].
    assert (i <= last_name_id cf) by (destruct (decide _); lia). unfold NVS_NAME_ID_OFFSET, NVS_NAMECNT_ID in *.
    rewrite !lookup_delete_ne, insert_if_ne by (unfold NVS_NAMECNT_ID; lia). done.
  - unfold NVS_NAME_ID_OFFSET, NVS_NAMECNT_ID in *. rewrite !lookup_delete_ne by lia. rewrite insert_if_eq.
    destruct (decide _); [by rewrite bool_decide_true|by rewrite bool_decide_false].
Qed.

Lemma save_effect name value cf cf' :
  store_ok cf -> fits name -> value <> [] -> bytes_ok value -> takes_if_new name value cf ->
  settings_nvs_save name value cf = (0, cf') -> updated name value cf cf'.
Proof.
  intros Hok Hf Hv Hb Ht E. pose proof (last_range cf Hok) as Hr. unfold settings_nvs_save in E.
  pose proof (find_name_spec cf name (Z.to_nat (last_name_id cf - NVS_NAMECNT_ID)) (last_name_id cf + 1) Hok ltac:(lia)) as Hs.
  rewrite Z2Nat.id in Hs by lia. destruct (find_name _ _ _ _) as [[id|] w]; destruct value as [|b value]; try done.
  - destruct Hs as [Hi En]. apply (write_item_updated false id name (b :: value) cf cf'); try done; try lia.
    intros i Hi' En'. eapply names_distinct; [done|done| |done|done]. unfold used. lia.
  - destruct Hs as [Hnone Hw]. apply (write_item_updated true w name (b :: value) cf cf'); try done; try lia.
    + intros _. apply Ht. intros (v&i&Hi&En&_). apply (Hnone i); [unfold used in Hi; lia|done].
    + intros i Hi En. exfalso. apply (Hnone i); [unfold used in Hi; lia|done].
    + intros Hi. unfold used in Hi. destruct Hw as [->|[_ Hw]]; [lia|done].
Qed.

Lemma remove_effect name cf cf' :
  store_ok cf -> roomy cf -> settings_nvs_save name [] cf = (0, cf') -> removed name cf cf'.
Proof.
  intros Hok Hroom E. pose proof (last_range cf Hok) as Hr. unfold settings_nvs_save in E.
  pose proof (find_name_spec cf name (Z.to_nat (last_name_id cf - NVS_NAMECNT_ID)) (last_name_id cf + 1) Hok ltac:(lia)) as Hs.
  rewrite Z2Nat.id in Hs by lia. destruct (find_name _ _ _ _) as [[id|] w].
  - destruct Hs as [Hi En]. by apply (delete_item_removed id name cf cf'); [done|done|unfold used; lia|..].
  - injection E as <-. split; [done|]. intros n v. split; [|by intros [_ ?]]. intros Hn. split; [|done]. intros ->.
    destruct Hn as (i&Hi&En&_). destruct Hs as [Hs _]. apply (Hs i); [unfold used in Hi; lia|done].
Qed.

(** The items in the order of a load, each with the identifier of its value. *)
Fixpoint items fs (n : nat) : list (cstr * list Z * Z) :=
  match n with
  | O => []
  | S n' =>
      let id := NVS_NAMECNT_ID + Z.of_nat n in
      match nvs_entries fs !! id, nvs_entries fs !! (id + NVS_NAME_ID_OFFSET) with
      | Some name, Some value => (name, value, id + NVS_NAME_ID_OFFSET) :: items fs n'
      | _, _ => items fs n'
      end
  end.
Definition all_items cf : list (cstr * list Z * Z) := items (cf_nvs cf) (Z.to_nat (last_name_id cf - NVS_NAMECNT_ID)).

Fixpoint deliver {T} fs (handlers : list (settings_handler T)) (arg : settings_load_arg T) (l : list (cstr * list Z * Z)) (t : T) : Z * T :=
  match l with
  | [] => (0, t)
  | (name, value, id) :: l =>
      let '(ret, t) := settings_call_set_handler handlers name (Z.of_nat (length value)) (settings_nvs_read_fn fs id) arg t in
      if nz ret then (ret, t) else deliver fs handlers arg l t
  end.

(** The value of an item. *)
Lemma value_read cf id len :
  store_ok cf -> used cf id -> 0 <= len <= 256 ->
  nvs_read (cf_nvs cf) (id + NVS_NAME_ID_OFFSET) len =
  match nvs_entries (cf_nvs cf) !! (id + NVS_NAME_ID_OFFSET) with
  | Some data => (Z.of_nat (length data), take (Z.to_nat len) data)
  | None => (- ENOENT, [])
  end.
Proof.
  intros Hok Hu Hl. pose proof (last_range cf Hok) as Hr. pose proof nvs_max_ok. unfold used in Hu. apply nvs_read_law; [apply Hok| | |lia].
  - unfold NVS_NAME_ID_OFFSET, NVS_NAMECNT_ID in *. lia.
  - intros _ E. pose proof (last_stored cf Hok ltac:(left; lia)) as Hs. rewrite E in Hs. by rewrite lookup_empty in Hs.
Qed.

Lemma load_delivers {T} (handlers : list (settings_handler T)) arg cf t :
  store_ok cf ->
  settings_nvs_load handlers arg cf t = let '(ret, t) := deliver (cf_nvs cf) handlers arg (all_items cf) t in (ret, cf, t).
Proof.
  intros Hok. unfold settings_nvs_load, all_items. pose proof (last_range cf Hok) as Hr.
  assert (Hn : Z.of_nat (Z.to_nat (last_name_id cf - NVS_NAMECNT_ID)) <= last_name_id cf - NVS_NAMECNT_ID) by lia. revert Hn.
  generalize (Z.to_nat (last_name_id cf - NVS_NAMECNT_ID)) as n. intros n Hn. revert t. induction n as [|n IH]; intros t; [done|].
  cbn [load_loop items]. rewrite name_read by (apply Hok || (unfold NVS_NAME_ID_OFFSET, NVS_NAMECNT_ID in *; lia)). set (id := NVS_NAMECNT_ID + Z.of_nat (S n)).
  assert (Hu : used cf id) by (unfold used; lia).
  replace (u16 (id + NVS_NAME_ID_OFFSET)) with (id + NVS_NAME_ID_OFFSET)
    by (unfold used, u16, NVS_NAME_ID_OFFSET, NVS_NAMECNT_ID in *; rewrite Z.mod_small; lia).
  rewrite value_read by done. destruct (whole cf Hok id Hu) as [W1 W2].
  destruct (nvs_entries (cf_nvs cf) !! id) as [name|] eqn:En, (nvs_entries (cf_nvs cf) !! (id + NVS_NAME_ID_OFFSET)) as [value|] eqn:Ev.
  - pose proof (nvs_nonempty _ _ _ (store_valid cf Hok) Ev). pose proof (names_fit cf Hok id name Hu En) as Hf.
    assert (0 < Z.of_nat (length value)) by (destruct value; [done|cbn; lia]).
    rewrite !(proj2 (Z.leb_gt _ _)) by (destruct Hf; lia). cbn [andb orb deliver]. rewrite fits_read by done.
    destruct (settings_call_set_handler _ _ _ _ _ _) as [ret t']. destruct (nz ret); [done|]. apply IH. lia.
  - by destruct (W1 ltac:(done)).
  - by destruct (W2 ltac:(done)).
  - cbn [ENOENT Z.opp Z.leb Z.compare andb]. apply IH. lia.
Qed.

Lemma items_in fs n name value id :
  (name, value, id) ∈ items fs n <->
  exists i, NVS_NAMECNT_ID < i <= NVS_NAMECNT_ID + Z.of_nat n /\ nvs_entries fs !! i = Some name /\
    nvs_entries fs !! (i + NVS_NAME_ID_OFFSET) = Some value /\ id = i + NVS_NAME_ID_OFFSET.
Proof.
  induction n as [|n IH]; cbn [items].
  - split; [by intros ?%not_elem_of_nil|]. intros (i&Hi&_). lia.
  - set (k := NVS_NAMECNT_ID + Z.of_nat (S n)).
    assert (R : (name, value, id) ∈ items fs n \/ (nvs_entries fs !! k = Some name /\ nvs_entries fs !! (k + NVS_NAME_ID_OFFSET) = Some value /\ id = k + NVS_NAME_ID_OFFSET) <->
      exists i, NVS_NAMECNT_ID < i <= k /\ nvs_entries fs !! i = Some name /\ nvs_entries fs !! (i + NVS_NAME_ID_OFFSET) = Some value /\ id = i + NVS_NAME_ID_OFFSET).
    { rewrite IH. split.
      - intros [(i&Hi&R)|R]; [exists i|exists k]; (split; [lia|done]).
      - intros (i&Hi&R). destruct (decide (i = k)) as [->|]; [by right|]. left. exists i. split; [lia|done]. }
    rewrite <- R. clear R. destruct (nvs_entries fs !! k) as [n1|], (nvs_entries fs !! (k + _)) as [v1|];
      rewrite ?elem_of_cons; naive_solver.
Qed.

Lemma all_items_in cf name value : store_ok cf -> holds cf name value <-> exists id, (name, value, id) ∈ all_items cf.
Proof.
  intros Hok. pose proof (last_range cf Hok). unfold all_items, holds, used. split.
  - intros (i&Hi&En&Ev). eexists. apply items_in. exists i. split; [lia|done].
  - intros (id&Hin). apply items_in in Hin as (i&Hi&En&Ev&_). exists i. split; [lia|done].
Qed.

Lemma items_names cf n :
  store_ok cf -> Z.of_nat n <= last_name_id cf - NVS_NAMECNT_ID -> NoDup ((fun it => it.1.1) <$> items (cf_nvs cf) n).
Proof.
  intros Hok. induction n as [|n IH]; intros Hn; [constructor|]. cbn [items]. specialize (IH ltac:(lia)).
  destruct (nvs_entries (cf_nvs cf) !! (NVS_NAMECNT_ID + Z.of_nat (S n))) as [name|] eqn:En; [|done].
  destruct (nvs_entries (cf_nvs cf) !! (_ + NVS_NAME_ID_OFFSET)) as [value|]; [|done]. cbn [fmap list_fmap fst]. constructor; [|done].
  intros ([[name' v] id]&->&Hin)%list_elem_of_fmap. apply items_in in Hin as (i&Hi&En'&_). cbn in En.
  assert (i = NVS_NAMECNT_ID + Z.of_nat (S n)); [|lia]. eapply names_distinct; [exact Hok|unfold used; lia..|exact En'|exact En].
Qed.

(** A load that matches one item: the callback sees it once. *)
Lemma deliver_one {T} sub (cb : option cstr -> Z -> (Z -> Z * list Z) -> T -> Z * T) fs l t :
  name_ok sub -> NoDup ((fun it => it.1.1) <$> l) ->
  (forall it, it ∈ l -> (settings_name_steq it.1.1 sub).1 = true -> it.1.1 = sub) ->
  (forall value id, (sub, value, id) ∈ l ->
     deliver fs [] (mk_load_arg (Some sub) (Some cb)) l t = cb None (Z.of_nat (length value)) (settings_nvs_read_fn fs id) t) /\
  ((forall value id, (sub, value, id) ∉ l) -> deliver fs [] (mk_load_arg (Some sub) (Some cb)) l t = (0, t)).
Proof.
  intros Hs. revert t. induction l as [|[[name value] id] l IH]; intros t Hd Hm; cbn [deliver].
  { split; [by intros ? ? ?%not_elem_of_nil|done]. }
  cbn [fmap list_fmap fst] in Hd. apply NoDup_cons in Hd as [Hnin Hd].
  assert (Hm' : forall it, it ∈ l -> (settings_name_steq it.1.1 sub).1 = true -> it.1.1 = sub) by (intros it Hit; apply Hm; by right).
  unfold settings_call_set_handler. cbn [subtree load_cb].
  destruct (settings_name_steq name sub) as [eq next] eqn:Eq. destruct eq; cbn [negb].
  - assert (name = sub) as -> by (apply (Hm (name, value, id)); [left|cbn; by rewrite Eq]). rewrite name_steq_self in Eq by done. injection Eq as <-.
    assert (Hout : forall v i, (sub, v, i) ∉ l) by (intros v i Hin; apply Hnin, list_elem_of_fmap; by exists (sub, v, i)).
    split; [|intros Hno; exfalso; apply (Hno value id); left].
    intros v i Hin. apply elem_of_cons in Hin as [[= -> ->]|Hin]; [|by destruct (Hout v i)].
    destruct (cb _ _ _ t) as [ret t'] eqn:Ecb. unfold nz. destruct (Z.eqb_spec ret 0) as [->|]; [cbn [negb]|done].
    by apply (IH t' Hd Hm').
  - cbn [nz Z.eqb negb]. destruct (IH t Hd Hm') as [IH1 IH2]. split.
    + intros v i [[= -> -> ->]|Hin]%elem_of_cons; [|by apply IH1]. rewrite name_steq_self in Eq by done. discriminate.
    + intros Hno. apply IH2. intros v i Hin. apply (Hno v i). by right.
Qed.

(** A load into one handler that one item belongs to: the handler sees it once. *)
Lemma deliver_handler {T} (h : settings_handler T) fs l t name value id rest :
  NoDup ((fun it => it.1.1) <$> l) -> (name, value, id) ∈ l -> settings_name_steq name (handler_name h) = (true, rest) ->
  (forall it, it ∈ l -> (settings_name_steq it.1.1 (handler_name h)).1 = true -> it.1.1 = name) ->
  deliver fs [h] (mk_load_arg None None) l t = (0, (h_set h rest (Z.of_nat (length value)) (settings_nvs_read_fn fs id) t).2).
Proof.
  assert (Hno : forall l t, (forall it, it ∈ l -> (settings_name_steq it.1.1 (handler_name h)).1 = false) ->
    deliver fs [h] (mk_load_arg None None) l t = (0, t)).
  { clear. induction l as [|[[n v] i] l IH]; intros t Hl; [done|]. cbn [deliver]. unfold settings_call_set_handler, settings_parse_and_lookup.
    cbn [subtree load_cb lookup_loop]. pose proof (Hl (n, v, i) ltac:(left)) as E. cbn [fst] in E.
    destruct (settings_name_steq n (handler_name h)) as [eq next]. cbn in E. subst eq. cbn. apply IH. intros it Hit. apply Hl. by right. }
  revert t. induction l as [|[[n v] i] l IH]; intros t Hd Hin Hname Hm; [by apply not_elem_of_nil in Hin|].
  cbn [fmap list_fmap fst] in Hd. apply NoDup_cons in Hd as [Hnin Hd]. cbn [deliver].
  unfold settings_call_set_handler, settings_parse_and_lookup. cbn [subtree load_cb lookup_loop].
  apply elem_of_cons in Hin as [[= <- <- <-]|Hin].
  - rewrite Hname. cbn. destruct (h_set h _ _ _ t) as [r t'] eqn:E. cbn. apply Hno. intros it Hit. apply not_true_is_false. intros Hs.
    apply Hnin, list_elem_of_fmap. exists it. split; [|done]. symmetry. apply Hm; [by right|done].
  - assert (Hf : (settings_name_steq n (handler_name h)).1 = false).
    { apply not_true_is_false. intros Hs. apply Hnin, list_elem_of_fmap. exists (name, value, id). split; [|done].
      apply (Hm (n, v, i)); [left|done]. }
    destruct (settings_name_steq n (handler_name h)) as [eq next]. cbn in Hf. subst eq. cbn. apply IH; try done. intros it Hit. apply Hm. by right.
Qed.

(** Loading when a single item is for the handler. *)
Lemma load_one_item {T} (h : settings_handler T) name value rest cf (t : T) :
  store_ok cf -> (forall n v, holds cf n v -> (settings_name_steq n (handler_name h)).1 = true -> n = name) -> holds cf name value ->
  settings_name_steq name (handler_name h) = (true, rest) ->
  exists rd, (forall len, 0 <= len <= 256 -> rd len = (Z.min len (Z.of_nat (length value)), take (Z.to_nat len) value)) /\
    settings_load [h] (Some cf) t =
    (let '(rc, t) := settings_commit_subtree None [h] (h_set h rest (Z.of_nat (length value)) rd t).2 in (rc, Some cf, t)).
Proof.
  intros Hok Hone Hh Hs. apply all_items_in in Hh as [id Hin]; [|done].
  exists (settings_nvs_read_fn (cf_nvs cf) id). split.
  - intros len Hlen. apply items_in in Hin as (i&Hi&_&Ev&->). unfold settings_nvs_read_fn. pose proof (last_range cf Hok).
    rewrite value_read by (done || (unfold used; lia)). rewrite Ev. destruct (Z.ltb_spec len (Z.of_nat (length value))); f_equal; lia.
  - unfold settings_load, settings_load_subtree. rewrite load_delivers by done. pose proof (last_range cf Hok).
    rewrite (deliver_handler h _ _ t name value id rest); [done| |done|done|].
    + apply items_names; [done|lia].
    + intros [[n v] i] Hit Hst. cbn in *. apply (Hone n v); [|done]. apply all_items_in; [done|]. by exists i.
Qed.

(** A subtree that no other name lies below. *)
Definition alone cf (sub : cstr) : Prop := forall n v, holds cf n v -> (settings_name_steq n sub).1 = true -> n = sub.

Lemma load_direct_one {T} sub (cb : option cstr -> Z -> (Z -> Z * list Z) -> T -> Z * T) cf t :
  store_ok cf -> name_ok sub -> alone cf sub ->
  (forall value, holds cf sub value ->
     exists rd, (forall len, 0 <= len <= 256 -> rd len = (Z.min len (Z.of_nat (length value)), take (Z.to_nat len) value)) /\
       settings_load_subtree_direct sub cb (Some cf) t = (Some cf, (cb None (Z.of_nat (length value)) rd t).2)) /\
  ((forall value, ~ holds cf sub value) -> settings_load_subtree_direct sub cb (Some cf) t = (Some cf, t)).
Proof.
  intros Hok Hs Hal. pose proof (last_range cf Hok). unfold settings_load_subtree_direct. rewrite load_delivers by done.
  destruct (deliver_one sub cb (cf_nvs cf) (all_items cf) t Hs) as [H1 H2].
  { apply items_names; [done|lia]. }
  { intros [[n v] id] Hin. cbn. apply Hal with v. apply all_items_in; [done|]. by exists id. }
  split.
  - intros value Hh. apply all_items_in in Hh as [id Hin]; [|done]. rewrite (H1 value id Hin).
    exists (settings_nvs_read_fn (cf_nvs cf) id). split; [|by destruct (cb _ _ _ _)].
    intros len Hlen. apply items_in in Hin as (i&Hi&_&Ev&->). unfold settings_nvs_read_fn.
    rewrite value_read by (done || (unfold used; lia)). rewrite Ev. destruct (Z.ltb_spec len (Z.of_nat (length value))); f_equal; lia.
  - intros Hno. rewrite H2; [done|]. intros value id Hin. apply (Hno value). apply all_items_in; [done|]. by exists id.
Qed.

(** The store is found again after a restart. *)
Lemma restart cf : store_ok cf -> settings_nvs_backend_init (cf_nvs cf) = cf.
Proof.
  intros Hok. pose proof (last_range cf Hok) as Hr. pose proof (last_stored cf Hok) as Hs. unfold settings_nvs_backend_init.
  rewrite nvs_read_law by (apply Hok || (pose proof nvs_max_ok; unfold NVS_NAMECNT_ID; lia)). destruct (nvs_entries (cf_nvs cf) !! NVS_NAMECNT_ID) as [data|].
  - specialize (Hs ltac:(by right)). assert (data = le_bytes 2 (last_name_id cf)) as -> by congruence. rewrite le_bytes_length, (proj2 (Z.ltb_ge _ _)) by lia.
    rewrite take_ge by (rewrite le_bytes_length; lia). rewrite le_value_bytes. destruct cf as [fs last]. cbn in *. f_equal.
    unfold NVS_NAME_ID_OFFSET, NVS_NAMECNT_ID in Hr. rewrite Z.mod_small; lia.
  - cbn. destruct cf as [fs last]. cbn in *. f_equal. destruct (Z.eq_dec last NVS_NAMECNT_ID) as [->|]; [done|]. by specialize (Hs ltac:(left; lia)).
Qed.

(** A storage without entries is a store without settings. *)
Lemma store_empty fs : nvs_valid fs -> nvs_entries fs = ∅ -> store_ok (mk_settings_nvs fs NVS_NAMECNT_ID).
Proof.
  intros Hv E. split; cbn [cf_nvs last_name_id]; rewrite ?E.
  - done.
  - unfold NVS_NAMECNT_ID, NVS_NAME_ID_OFFSET. lia.
  - intros [H|[x H]]; [lia|]. by rewrite lookup_empty in H.
  - unfold used; cbn; lia.
  - unfold used; cbn; lia.
  - unfold used; cbn; lia.
Qed.
End contents.

(** Settings survive a restart: after a successful save, the backend
    initialised from the flash contents alone holds the saved value under its name
    and under every other name what it held before; loading the name delivers the
    value, complete, in exactly one call of the callback. *)
Theorem settings_survive_restart {F} `{!Nvs F, !NvsOk F} {T} (cb : option cstr -> Z -> (Z -> Z * list Z) -> T -> Z * T)
    (name : cstr) (value : list Z) (cf cf' : settings_nvs F) (t : T) :
  store_ok cf -> fits name -> name_ok name -> value <> [] -> bytes_ok value -> takes_if_new name value cf ->
  settings_save_one name value (Some cf) = (0, Some cf') ->
  let cf2 := settings_nvs_backend_init (cf_nvs cf') in
  store_ok cf2 /\ holds cf2 name value /\ (forall n v, n <> name -> holds cf2 n v <-> holds cf n v) /\
  (alone cf2 name ->
   exists rd, (forall len, 0 <= len <= 256 -> rd len = (Z.min len (Z.of_nat (length value)), take (Z.to_nat len) value)) /\
     settings_load_subtree_direct name cb (Some cf2) t = (Some cf2, (cb None (Z.of_nat (length value)) rd t).2)).
Proof.
  intros Hok Hf Hn Hv Hb Ht E. unfold settings_save_one in E. destruct (settings_nvs_save name value cf) as [rc cf1] eqn:Es.
  injection E as -> ->. destruct (save_effect name value cf cf' Hok Hf Hv Hb Ht Es) as [Hok' Hh]. rewrite restart by done. cbv zeta.
  assert (Hnv : holds cf' name value) by (apply Hh; by left). split; [done|]. split; [done|]. split.
  - intros n v Hne. rewrite Hh. intuition.
  - intros Hal. destruct (load_direct_one name cb cf' t Hok' Hn Hal) as [H1 _]. by apply H1.
Qed.

(** Deleting a setting: it is gone, also after a restart, and nothing else is. *)
Lemma settings_delete_removes {F} `{!Nvs F, !NvsOk F} (name : cstr) (cf cf' : settings_nvs F) :
  store_ok cf -> roomy cf -> settings_delete name (Some cf) = (0, Some cf') ->
  let cf2 := settings_nvs_backend_init (cf_nvs cf') in
  store_ok cf2 /\ forall n v, holds cf2 n v <-> n <> name /\ holds cf n v.
Proof.
  intros Hok Hroom E. unfold settings_delete, settings_save_one in E. destruct (settings_nvs_save name [] cf) as [rc cf1] eqn:Es.
  injection E as -> ->. destruct (remove_effect name cf cf' Hok Hroom Es) as [Hok' Hh]. by rewrite restart.
Qed.

(** ** A storage in memory *)

(** Entries that are not empty, by their first byte and the others. *)
Definition ram_nvs : Type := gmap Z (Z * list Z).
Definition ram_entries (fs : ram_nvs) : gmap Z (list Z) := (fun d : Z * list Z => d.1 :: d.2) <$> fs.

#[export] Instance ram_Nvs : Nvs ram_nvs := {
  nvs_read fs id len :=
    match ram_entries fs !! id with
    | Some data => (Z.of_nat (length data), take (Z.to_nat len) data)
    | None => (- ENOENT, [])
    end;
  nvs_write id data fs :=
    match data with
    | [] => (0, delete id fs)
    | b :: bs => (Z.of_nat (length data), <[id := (b, bs)]> fs)
    end }.

#[export] Instance ram_NvsOk : NvsOk ram_nvs.
Proof.
  refine {| nvs_valid := fun _ => True; nvs_entries := ram_entries; nvs_room := fun _ _ => True; nvs_max := 256 |}.
  - done.
  - intros fs id data _. unfold ram_entries. rewrite lookup_fmap. by intros ([b bs]&_&->)%fmap_Some.
  - done.
  - intros fs id [|b bs] rc fs' _ _ _ _ [= <- <-] _; (split; [done|]); unfold ram_entries;
    [exact (fmap_delete _ _ _)|exact (fmap_insert _ _ _ _)].
  - done.
  - done.
Defined.

Definition empty_store : settings_nvs ram_nvs := mk_settings_nvs ∅ NVS_NAMECNT_ID.

Lemma empty_store_ok : store_ok empty_store.
Proof. by apply store_empty. Qed.

Lemma ram_takes value fs : takes (F:=ram_nvs) value fs.
Proof. intros id _. unfold nvs_write; cbn. destruct value; cbn; lia. Qed.

Lemma settings_survive_restart_witness :
  let name := chars "bt/ccc/abcdef1234561" in
  exists cf', settings_save_one name [34; 0; 1; 0] (Some empty_store) = (0, Some cf') /\
    holds (settings_nvs_backend_init (cf_nvs cf')) name [34; 0; 1; 0].
Proof.
  intros name. set (cf' := default empty_store (settings_save_one name [34; 0; 1; 0] (Some empty_store)).2).
  assert (E : settings_save_one name [34; 0; 1; 0] (Some empty_store) = (0, Some cf')) by reflexivity.
  exists cf'. split; [exact E|].
  destruct (settings_survive_restart (fun _ _ _ (t : unit) => (0, t)) name [34; 0; 1; 0] empty_store cf' tt) as (_&H&_).
  - exact empty_store_ok.
  - split; [cbn; lia|]. split; [reflexivity|]. split; repeat constructor; done.
  - by repeat constructor.
  - done.
  - by repeat constructor.
  - intros _. apply ram_takes.
  - exact E.
  - exact H.
Defined.
