(* ===== verification/Keys.v ===== *)
(** Keys of bonded devices ([subsys/bluetooth/host/keys.c], [keys.h]): the pool of
    entries, their storage under "bt/keys", and the resolving list of the controller
    that follows it ([bt_id_add], [bt_id_del] of [host/hci_core.c]).

    A pointer to an entry is its index in the pool.  The pool may have any size
    ([CONFIG_BT_MAX_PAIRED] is 1); old entries are not overwritten.  Results of
    commands to the controller come from a list; the commands themselves are logged.
    Pausing advertising around the commands is left out. *)
From Stdlib Require Import ZArith Lia Bool.
From stdpp Require Import base numbers list gmap strings.
From S2P Require Import Prelude ByteOrder Uuid Gatt SettingsKeys Settings.
Open Scope Z_scope.

(** ** Data *)

Definition BT_KEYS_SLAVE_LTK : Z := BIT 0.
Definition BT_KEYS_IRK : Z := BIT 1.
Definition BT_KEYS_LTK : Z := BIT 2.
Definition BT_KEYS_LOCAL_CSRK : Z := BIT 3.
Definition BT_KEYS_REMOTE_CSRK : Z := BIT 4.
Definition BT_KEYS_LTK_P256 : Z := BIT 5.
Definition BT_KEYS_ALL : Z :=
  BT_KEYS_SLAVE_LTK .| BT_KEYS_IRK .| BT_KEYS_LTK .| BT_KEYS_LOCAL_CSRK .| BT_KEYS_REMOTE_CSRK .| BT_KEYS_LTK_P256.

Definition BT_KEYS_ID_PENDING_ADD : Z := BIT 0.
Definition BT_KEYS_ID_PENDING_DEL : Z := BIT 1.
Definition BT_KEYS_ID_ADDED : Z := BIT 2.

Definition BT_KEYS_AUTHENTICATED : Z := BIT 0.
Definition BT_KEYS_DEBUG : Z := BIT 1.
Definition BT_KEYS_SC : Z := BIT 4.

Record bt_ltk := mk_ltk { ltk_rand : list Z; ltk_ediv : list Z; ltk_val : list Z }.
Record bt_irk := mk_irk { irk_val : list Z; irk_rpa : list Z }.

(** [struct bt_keys]; the bytes that fill it up to its alignment are stored with it. *)
Record bt_keys := mk_keys {
  keys_id : Z; keys_addr : bt_addr_le_t; keys_state : Z;
  enc_size : Z; keys_flags : Z; keys_keys : Z; ltk : bt_ltk; irk : bt_irk; slave_ltk : bt_ltk; keys_padding : list Z }.

(** What [memset] leaves. *)
Definition zeros (n : nat) : list Z := replicate n 0.
Definition ltk_zero : bt_ltk := mk_ltk (zeros 8) (zeros 2) (zeros 16).
Definition keys_zero : bt_keys :=
  mk_keys 0 BT_ADDR_LE_ANY 0 0 0 0 ltk_zero (mk_irk (zeros 16) (zeros 6)) ltk_zero (zeros 2).

Definition with_addr (id : Z) (addr : bt_addr_le_t) (k : bt_keys) : bt_keys :=
  mk_keys id addr (keys_state k) (enc_size k) (keys_flags k) (keys_keys k) (ltk k) (irk k) (slave_ltk k) (keys_padding k).
Definition with_state (f : Z -> Z) (k : bt_keys) : bt_keys :=
  mk_keys (keys_id k) (keys_addr k) (f (keys_state k)) (enc_size k) (keys_flags k) (keys_keys k) (ltk k) (irk k) (slave_ltk k) (keys_padding k).
Definition with_enc_size (n : Z) (k : bt_keys) : bt_keys :=
  mk_keys (keys_id k) (keys_addr k) (keys_state k) n (keys_flags k) (keys_keys k) (ltk k) (irk k) (slave_ltk k) (keys_padding k).
Definition with_flags (f : Z -> Z) (k : bt_keys) : bt_keys :=
  mk_keys (keys_id k) (keys_addr k) (keys_state k) (enc_size k) (f (keys_flags k)) (keys_keys k) (ltk k) (irk k) (slave_ltk k) (keys_padding k).
Definition with_ltk (l : bt_ltk) (k : bt_keys) : bt_keys :=
  mk_keys (keys_id k) (keys_addr k) (keys_state k) (enc_size k) (keys_flags k) (keys_keys k) l (irk k) (slave_ltk k) (keys_padding k).
Definition with_irk (i : bt_irk) (k : bt_keys) : bt_keys :=
  mk_keys (keys_id k) (keys_addr k) (keys_state k) (enc_size k) (keys_flags k) (keys_keys k) (ltk k) i (slave_ltk k) (keys_padding k).
Definition with_slave_ltk (l : bt_ltk) (k : bt_keys) : bt_keys :=
  mk_keys (keys_id k) (keys_addr k) (keys_state k) (enc_size k) (keys_flags k) (keys_keys k) (ltk k) (irk k) l (keys_padding k).
Definition bt_keys_add_type (type : Z) (k : bt_keys) : bt_keys :=
  mk_keys (keys_id k) (keys_addr k) (keys_state k) (enc_size k) (keys_flags k) (u16 (keys_keys k .| type)) (ltk k) (irk k) (slave_ltk k) (keys_padding k).

(** ** The stored part of an entry: its bytes from [storage_start] on *)

Definition BT_KEYS_STORAGE_LEN : Z := 80.

Definition ltk_bytes (l : bt_ltk) : list Z := ltk_rand l ++ ltk_ediv l ++ ltk_val l.
Definition keys_storage (k : bt_keys) : list Z :=
  [enc_size k; keys_flags k] ++ le_bytes 2 (keys_keys k) ++ ltk_bytes (ltk k) ++ (irk_val (irk k) ++ irk_rpa (irk k)) ++
  ltk_bytes (slave_ltk k) ++ keys_padding k.

Definition slice (i n : nat) (bs : list Z) : list Z := take n (drop i bs).
Definition ltk_at (i : nat) (bs : list Z) : bt_ltk := mk_ltk (slice i 8 bs) (slice (i + 8) 2 bs) (slice (i + 10) 16 bs).
Definition set_storage (bs : list Z) (k : bt_keys) : bt_keys :=
  mk_keys (keys_id k) (keys_addr k) (keys_state k)
    (default 0 (bs !! 0%nat)) (default 0 (bs !! 1%nat)) (le_value (slice 2 2 bs))
    (ltk_at 4 bs) (mk_irk (slice 30 16 bs) (slice 46 6 bs)) (ltk_at 52 bs) (slice 78 2 bs).

(** ** State *)

(** Commands to the controller that change its state. *)
Inductive hci_cmd :=
  | LE_ADD_DEV_TO_RL (addr : bt_addr_le_t) (peer_irk local_irk : list Z)
  | LE_REM_DEV_FROM_RL (addr : bt_addr_le_t)
  | LE_CLEAR_RL
  | LE_SET_ADDR_RES_ENABLE (enable : Z)
  | LE_SET_PRIVACY_MODE (addr : bt_addr_le_t) (mode : Z)
  | LE_P256_PUBLIC_KEY
  | LE_GENERATE_DHKEY (key : list Z)
  | LE_LTK_REQ_REPLY (ltk : list Z)
  | LE_LTK_REQ_NEG_REPLY
  | DISCONNECT (reason : Z).

(** What is used of [bt_dev]: the resolving list, [BT_DEV_ID_PENDING], whether a
    connection is being made, whether the privacy mode can be set; the results of the
    commands to come and the commands sent. *)
Record hci_dev := mk_hci {
  rl_size : Z; rl_entries : Z; id_pending : bool; connecting : bool; privacy_mode_cmd : bool;
  cmd_results : list Z; cmds : list hci_cmd }.

Definition set_rl_entries (n : Z) (h : hci_dev) : hci_dev :=
  mk_hci (rl_size h) n (id_pending h) (connecting h) (privacy_mode_cmd h) (cmd_results h) (cmds h).
Definition set_id_pending (h : hci_dev) : hci_dev :=
  mk_hci (rl_size h) (rl_entries h) true (connecting h) (privacy_mode_cmd h) (cmd_results h) (cmds h).

(** [bt_hci_cmd_send_sync], or [bt_hci_cmd_send] with the result ignored. *)
Definition bt_hci_cmd_send_sync (cmd : hci_cmd) (h : hci_dev) : Z * hci_dev :=
  (default 0 (head (cmd_results h)),
   mk_hci (rl_size h) (rl_entries h) (id_pending h) (connecting h) (privacy_mode_cmd h) (tail (cmd_results h)) (cmds h ++ [cmd])).
Definition bt_hci_cmd_send (cmd : hci_cmd) (h : hci_dev) : hci_dev :=
  mk_hci (rl_size h) (rl_entries h) (id_pending h) (connecting h) (privacy_mode_cmd h) (cmd_results h) (cmds h ++ [cmd]).

(** The pool, the controller and the settings. *)
Record key_state (F : Type) := mk_ks { pool : list bt_keys; hci : hci_dev; settings : option (settings_nvs F) }.
Arguments mk_ks {F}.
Arguments pool {F}.
Arguments hci {F}.
Arguments settings {F}.

Section definitions.
Context {F : Type} `{!Nvs F}.
Implicit Types (ks : key_state F) (i : nat) (id type : Z) (addr : bt_addr_le_t).

Definition set_hci (h : hci_dev) ks : key_state F := mk_ks (pool ks) h (settings ks).
Definition alter_key (f : bt_keys -> bt_keys) i ks : key_state F := mk_ks (alter f i (pool ks)) (hci ks) (settings ks).

(** ** hci_core.c: the resolving list *)

Definition addr_res_enable (enable : Z) ks : Z * key_state F :=
  let '(err, h) := bt_hci_cmd_send_sync (LE_SET_ADDR_RES_ENABLE enable) (hci ks) in (err, set_hci h ks).

Definition hci_id_add addr (peer_irk : list Z) ks : Z * key_state F :=
  let '(err, h) := bt_hci_cmd_send_sync (LE_ADD_DEV_TO_RL addr peer_irk (zeros 16)) (hci ks) in (err, set_hci h ks).

Definition hci_id_del addr ks : Z * key_state F :=
  let '(err, h) := bt_hci_cmd_send_sync (LE_REM_DEV_FROM_RL addr) (hci ks) in (err, set_hci h ks).

Definition BT_HCI_LE_PRIVACY_MODE_DEVICE : Z := 1.

Definition le_set_privacy_mode addr (mode : Z) ks : Z * key_state F :=
  if negb (privacy_mode_cmd (hci ks)) then (0, ks)
  else let '(err, h) := bt_hci_cmd_send_sync (LE_SET_PRIVACY_MODE addr mode) (hci ks) in (err, set_hci h ks).

Definition pending_id_keys_update_set i (flag : Z) ks : key_state F :=
  alter_key (with_state (fun s => u8 (s .| flag))) i (set_hci (set_id_pending (hci ks)) ks).

(** One more entry (one less), and the mark of the entry of the pool. *)
Definition id_added i ks : key_state F :=
  alter_key (with_state (fun s => u8 (s .| BT_KEYS_ID_ADDED))) i (set_hci (set_rl_entries (u8 (rl_entries (hci ks) + 1)) (hci ks)) ks).
Definition id_removed i ks : key_state F :=
  alter_key (with_state (fun s => s .& not8 BT_KEYS_ID_ADDED)) i (set_hci (set_rl_entries (u8 (rl_entries (hci ks) - 1)) (hci ks)) ks).

Definition bt_id_add i ks : key_state F :=
  let h := hci ks in
  match pool ks !! i with
  | None => ks
  | Some keys =>
      if (rl_size h =? 0) || (rl_size h <? rl_entries h) then id_added i ks
      else if connecting h then pending_id_keys_update_set i BT_KEYS_ID_PENDING_ADD ks
      else
        let '(err, ks) := if nz (rl_entries h) then addr_res_enable 0 ks else (0, ks) in
        let ks :=
          if nz err then ks
          else if rl_entries (hci ks) =? rl_size (hci ks) then
            let '(err, h) := bt_hci_cmd_send_sync LE_CLEAR_RL (hci ks) in
            if nz err then set_hci h ks else id_added i (set_hci h ks)
          else
            let '(err, ks) := hci_id_add (keys_addr keys) (irk_val (irk keys)) ks in
            if nz err then ks else (le_set_privacy_mode (keys_addr keys) BT_HCI_LE_PRIVACY_MODE_DEVICE (id_added i ks)).2 in
        (addr_res_enable 1 ks).2
  end.

(** ** Iteration *)

(** [bt_keys_foreach] with the indexes as they come. *)
Definition bt_keys_foreach type (func : nat -> key_state F -> key_state F) ks : key_state F :=
  foldl (fun ks i => match pool ks !! i with
                     | Some k => if nz (keys_keys k .& type) then func i ks else ks
                     | None => ks
                     end) ks (seq 0 (length (pool ks))).

Definition keys_add_id i ks : key_state F :=
  match pool ks !! i with
  | Some k => if nz (keys_state k .& BT_KEYS_ID_ADDED) then (hci_id_add (keys_addr k) (irk_val (irk k)) ks).2 else ks
  | None => ks
  end.

Definition bt_id_del i ks : key_state F :=
  let h := hci ks in
  match pool ks !! i with
  | None => ks
  | Some keys =>
      if (rl_size h =? 0) || (rl_size h + 1 <? rl_entries h) then id_removed i ks
      else if connecting h then pending_id_keys_update_set i BT_KEYS_ID_PENDING_DEL ks
      else
        let '(err, ks) := addr_res_enable 0 ks in
        let ks :=
          if nz err then ks
          else if rl_size (hci ks) <? rl_entries (hci ks) then bt_keys_foreach BT_KEYS_IRK keys_add_id (id_removed i ks)
          else
            let '(err, ks) := hci_id_del (keys_addr keys) ks in
            if nz err then ks else id_removed i ks in
        if nz (rl_entries (hci ks)) then (addr_res_enable 1 ks).2 else ks
  end.

(** ** keys.c *)

Definition key_is id addr (k : bt_keys) : bool := (keys_id k =? id) && bool_decide (keys_addr k = addr).
Definition is_free (k : bt_keys) : bool := bool_decide (keys_addr k = BT_ADDR_LE_ANY).

(** The entry of the device, or else the first that is free, which becomes its. *)
Definition bt_keys_get_addr id addr ks : option nat * key_state F :=
  match find_index (key_is id addr) (pool ks) with
  | Some i => (Some i, ks)
  | None =>
      match find_index is_free (pool ks) with
      | Some i => (Some i, alter_key (with_addr id addr) i ks)
      | None => (None, ks)
      end
  end.

Definition bt_foreach_bond id (pool : list bt_keys) : list bt_addr_le_t :=
  keys_addr <$> filter (fun k => nz (keys_keys k) && (keys_id k =? id) = true) pool.

Definition bt_keys_find type id addr (pool : list bt_keys) : option nat :=
  find_index (fun k => nz (keys_keys k .& type) && key_is id addr k) pool.

Definition bt_keys_find_addr id addr (pool : list bt_keys) : option nat := find_index (key_is id addr) pool.

Definition bt_keys_get_type type id addr ks : option nat * key_state F :=
  match bt_keys_find type id addr (pool ks) with
  | Some i => (Some i, ks)
  | None =>
      match bt_keys_get_addr id addr ks with
      | (Some i, ks) => (Some i, alter_key (bt_keys_add_type type) i ks)
      | (None, ks) => (None, ks)
      end
  end.

(** The result of the deletion is not looked at. *)
Definition bt_keys_clear i ks : key_state F :=
  match pool ks !! i with
  | None => ks
  | Some keys =>
      let ks := if nz (keys_state keys .& BT_KEYS_ID_ADDED) then bt_id_del i ks else ks in
      let '(_, store) := settings_delete (peer_key "keys" (keys_id keys) (keys_addr keys)) (settings ks) in
      mk_ks (<[i := keys_zero]> (pool ks)) (hci ks) store
  end.

Definition bt_keys_store i ks : Z * key_state F :=
  match pool ks !! i with
  | None => (0, ks)
  | Some keys =>
      let '(err, store) := settings_save_one (peer_key "keys" (keys_id keys) (keys_addr keys)) (keys_storage keys) (settings ks) in
      (err, mk_ks (pool ks) (hci ks) store)
  end.

(** [old]: the contents of the address variable. *)
Definition keys_set (old : list Z) (name : option cstr) (len_rd : Z) (read : Z -> Z * list Z) ks : Z * key_state F :=
  match name with
  | None => (- EINVAL, ks)
  | Some _ =>
      let '(len, val) := read BT_KEYS_STORAGE_LEN in
      if len <? 0 then (- EINVAL, ks)
      else
        match decode_name old name with
        | None => (- EINVAL, ks)
        | Some (addr, id) =>
            if len =? 0 then
              (0, match bt_keys_find BT_KEYS_ALL id addr (pool ks) with
                  | Some i => mk_ks (<[i := keys_zero]> (pool ks)) (hci ks) (settings ks)
                  | None => ks
                  end)
            else
              match bt_keys_get_addr id addr ks with
              | (None, ks) => (- ENOMEM, ks)
              | (Some i, ks) =>
                  if negb (len =? BT_KEYS_STORAGE_LEN) then (- EINVAL, bt_keys_clear i ks)
                  else (0, alter_key (set_storage val) i ks)
              end
        end
  end.

Definition keys_commit ks : Z * key_state F := (0, bt_keys_foreach BT_KEYS_IRK bt_id_add ks).

Definition bt_keys_handler (old : list Z) : settings_handler (key_state F) :=
  mk_settings_handler (chars "bt/keys") (keys_set old) (Some keys_commit).
End definitions.

(** ** The storage format *)

Definition ltk_wf (l : bt_ltk) : Prop :=
  length (ltk_rand l) = 8%nat /\ length (ltk_ediv l) = 2%nat /\ length (ltk_val l) = 16%nat /\ bytes_ok (ltk_bytes l).
Definition irk_wf (r : bt_irk) : Prop :=
  length (irk_val r) = 16%nat /\ length (irk_rpa r) = 6%nat /\ bytes_ok (irk_val r ++ irk_rpa r).

(** The fields have the sizes of the structure. *)
Record keys_wf (k : bt_keys) : Prop := {
  wf_enc_size : 0 <= enc_size k < 256;
  wf_flags : 0 <= keys_flags k < 256;
  wf_types : 0 <= keys_keys k < 2 ^ 16;
  wf_ltk : ltk_wf (ltk k);
  wf_irk : irk_wf (irk k);
  wf_slave_ltk : ltk_wf (slave_ltk k);
  wf_padding : length (keys_padding k) = 2%nat /\ bytes_ok (keys_padding k) }.

(** Equal but for what the resolving list knows. *)
Definition same_bond (k k' : bt_keys) : Prop := with_state (fun _ => 0) k = with_state (fun _ => 0) k'.

#[export] Instance same_bond_equiv : Equivalence same_bond.
Proof. split; unfold same_bond; [done|by intros k1 k2 ?|]. intros k1 k2 k3 H1 H2. by rewrite H1. Qed.

Lemma zeros_length n : length (zeros n) = n.
Proof. apply length_replicate. Qed.

Lemma zeros_ok n : bytes_ok (zeros n).
Proof. apply Forall_replicate. lia. Qed.

Lemma ltk_zero_wf : ltk_wf ltk_zero.
Proof. repeat split; try done. apply (zeros_ok 26). Qed.

Lemma keys_zero_wf : keys_wf keys_zero.
Proof. split; try done; try (cbn; lia); [apply ltk_zero_wf| |apply ltk_zero_wf|split; [done|apply (zeros_ok 2)]]. repeat split; try done. apply (zeros_ok 22). Qed.

Lemma ltk_bytes_length l : ltk_wf l -> length (ltk_bytes l) = 26%nat.
Proof. intros (H1&H2&H3&_). unfold ltk_bytes. rewrite !length_app. lia. Qed.

Lemma keys_storage_length k : keys_wf k -> length (keys_storage k) = 80%nat.
Proof.
  intros [_ _ _ H1 (H2&H3&_) H4 (H5&_)]. unfold keys_storage. rewrite !length_app, le_bytes_length, !ltk_bytes_length, H2, H3, H5 by done. done.
Qed.

Lemma keys_storage_ok k : keys_wf k -> bytes_ok (keys_storage k).
Proof.
  intros [H1 H2 _ H3 H4 H5 H6]. unfold keys_storage, bytes_ok. rewrite !Forall_app.
  split; [apply Forall_cons; split; [done|]; by apply Forall_singleton|]. split; [apply le_bytes_ok|].
  split; [apply H3|]. split; [rewrite <- Forall_app; apply H4|]. split; [apply H5|apply H6].
Qed.

(** A part of a concatenation, by the lengths of what is before it. *)
Lemma slice_skip (a b : list Z) i n m : length a = m -> slice (m + i) n (a ++ b) = slice i n b.
Proof. intros <-. unfold slice. by rewrite drop_app_add. Qed.

Lemma slice_here (a b : list Z) n : length a = n -> slice 0 n (a ++ b) = a.
Proof. intros <-. unfold slice. by rewrite drop_0, take_app_length. Qed.

Lemma ltk_at_here l b : ltk_wf l -> ltk_at 0 (ltk_bytes l ++ b) = l.
Proof.
  intros (H1&H2&H3&_). destruct l as [r e v]. unfold ltk_at, ltk_bytes. cbn [ltk_rand ltk_ediv ltk_val] in *. rewrite <- !app_assoc. f_equal.
  - by apply slice_here.
  - rewrite (slice_skip r _ 0 2 8 H1). by apply slice_here.
  - rewrite (slice_skip r _ 2 16 8 H1), (slice_skip e _ 0 16 2 H2). by apply slice_here.
Qed.

Lemma ltk_at_skip (a b : list Z) i m : length a = m -> ltk_at (m + i) (a ++ b) = ltk_at i b.
Proof. intros H. unfold ltk_at. rewrite <- !Nat.add_assoc, !(slice_skip a b _ _ m H). done. Qed.

(** What is stored is what is loaded. *)
Lemma storage_roundtrip k k' : keys_wf k ->
  set_storage (keys_storage k) k' = with_state (fun _ => keys_state k') (with_addr (keys_id k') (keys_addr k') k).
Proof.
  intros [H1 H2 H3 H4 H5 H6 H7]. destruct H5 as (H51&H52&_), H7 as [H7 _]. unfold set_storage, with_state, with_addr, keys_storage.
  set (c := le_bytes 2 (keys_keys k)). assert (Hc : length c = 2%nat) by apply le_bytes_length.
  pose proof (ltk_bytes_length _ H4) as L4. pose proof (ltk_bytes_length _ H6) as L6.
  set (l1 := ltk_bytes (ltk k)) in *. set (l2 := ltk_bytes (slave_ltk k)) in *. cbn [app].
  change (enc_size k :: keys_flags k :: ?x) with ([enc_size k; keys_flags k] ++ x).
  assert (Hi : length (irk_val (irk k) ++ irk_rpa (irk k)) = 22%nat) by (rewrite length_app; lia).
  set (h := [enc_size k; keys_flags k]). assert (Hh : length h = 2%nat) by done. f_equal.
  - rewrite (slice_skip h _ 0 2 2 Hh), slice_here by done. subst c. rewrite le_value_bytes. apply Z.mod_small. done.
  - rewrite (ltk_at_skip h _ 2 2 Hh), (ltk_at_skip c _ 0 2 Hc). by apply ltk_at_here.
  - rewrite (slice_skip h _ 28 _ 2 Hh), (slice_skip c _ 26 _ 2 Hc), (slice_skip l1 _ 0 _ 26 L4).
    rewrite (slice_skip h _ 44 _ 2 Hh), (slice_skip c _ 42 _ 2 Hc), (slice_skip l1 _ 16 _ 26 L4).
    rewrite <- app_assoc, (slice_here _ _ 16 H51), (slice_skip _ _ 0 _ 16 H51), (slice_here _ _ 6 H52). by destruct (irk k).
  - rewrite (ltk_at_skip h _ 50 2 Hh), (ltk_at_skip c _ 48 2 Hc), (ltk_at_skip l1 _ 22 26 L4), (ltk_at_skip _ _ 0 22 Hi). by apply ltk_at_here.
  - rewrite (slice_skip h _ 76 _ 2 Hh), (slice_skip c _ 74 _ 2 Hc), (slice_skip l1 _ 48 _ 26 L4), (slice_skip _ _ 26 _ 22 Hi), (slice_skip l2 _ 0 _ 26 L6).
    rewrite <- (app_nil_r (keys_padding k)) at 1. by apply slice_here.
Qed.

(** ** The resolving list does not change bonds *)

Lemma find_index_Some {A} (P : A -> bool) (l : list A) i :
  find_index P l = Some i <-> exists x, l !! i = Some x /\ P x = true /\ forall j y, l !! j = Some y -> (j < i)%nat -> P y = false.
Proof.
  unfold find_index. split.
  - intros ([j x]&E&->)%fmap_Some. apply list_find_Some in E as (E&Hp&Hj). exists x. split; [done|]. split; [done|].
    intros j' y Ey Hlt. apply not_true_is_false. by eapply Hj.
  - intros (x&E&Hp&Hj). apply fmap_Some. exists (i, x). split; [|done]. apply list_find_Some. split; [done|]. split; [done|].
    intros j y Ey Hlt. by rewrite (Hj j y).
Qed.

Lemma find_index_None {A} (P : A -> bool) (l : list A) : find_index P l = None <-> forall x, x ∈ l -> P x = false.
Proof.
  unfold find_index. rewrite fmap_None, list_find_None, Forall_forall. split; intros H x Hx; [apply not_true_is_false|]; [by apply H|by rewrite (H x)].
Qed.

Section ids.
Context {F : Type} `{!Nvs F}.
Implicit Types (ks : key_state F) (i : nat).

Definition ids_only ks ks' : Prop := Forall2 same_bond (pool ks) (pool ks') /\ settings ks' = settings ks.

#[export] Instance ids_only_preorder : PreOrder ids_only.
Proof.
  split.
  - intros ks. split; [|done]. by apply Forall_Forall2_diag, Forall_true.
  - intros k1 k2 k3 [H1 E1] [H2 E2]. split; [|congruence]. by transitivity (pool k2).
Qed.

Lemma ids_set_hci h ks : ids_only ks (set_hci h ks).
Proof. split; [|done]. by apply Forall_Forall2_diag, Forall_true. Qed.

Lemma ids_with_state f i ks : ids_only ks (alter_key (with_state f) i ks).
Proof.
  split; [|done]. cbn. apply Forall2_same_length_lookup. split; [by rewrite length_alter|].
  intros j x y Hx Hy. destruct (decide (i = j)) as [->|Hne].
  - rewrite list_lookup_alter_eq, Hx in Hy. injection Hy as <-. done.
  - rewrite list_lookup_alter_ne, Hx in Hy by done. by injection Hy as <-.
Qed.

Lemma ids_id_added i ks : ids_only ks (id_added i ks).
Proof. unfold id_added. etrans; [apply ids_set_hci|apply ids_with_state]. Qed.

Lemma ids_id_removed i ks : ids_only ks (id_removed i ks).
Proof. unfold id_removed. etrans; [apply ids_set_hci|apply ids_with_state]. Qed.

Lemma ids_pending i flag ks : ids_only ks (pending_id_keys_update_set i flag ks).
Proof. unfold pending_id_keys_update_set. etrans; [apply ids_set_hci|apply ids_with_state]. Qed.

Lemma ids_privacy_mode addr mode ks : ids_only ks (le_set_privacy_mode addr mode ks).2.
Proof. unfold le_set_privacy_mode. destruct (negb _); [reflexivity|apply ids_set_hci]. Qed.

Lemma ids_bt_id_add i ks : ids_only ks (bt_id_add i ks).
Proof.
  unfold bt_id_add. destruct (pool ks !! i) as [keys|]; [|reflexivity]. destruct (_ || _); [apply ids_id_added|]. destruct (connecting _); [apply ids_pending|].
  destruct (if nz _ then _ else _) as [err ks1] eqn:E1.
  assert (H1 : ids_only ks ks1) by (destruct (nz (rl_entries (hci ks))); injection E1 as <- <-; [apply ids_set_hci|reflexivity]). clear E1. etrans; [exact H1|]. clear H1.
  unfold addr_res_enable at 1. cbn [snd]. etrans; [|apply ids_set_hci].
  destruct (nz err); [reflexivity|]. destruct (rl_entries _ =? _).
  - cbn. destruct (nz _); [apply ids_set_hci|]. etrans; [apply ids_set_hci|apply ids_id_added].
  - cbn -[nz]. destruct (nz _); [apply ids_set_hci|]. etrans; [apply ids_set_hci|]. etrans; [apply ids_id_added|apply ids_privacy_mode].
Qed.

Lemma ids_foreach type func ks : (forall i ks, ids_only ks (func i ks)) -> ids_only ks (bt_keys_foreach type func ks).
Proof.
  intros Hf. unfold bt_keys_foreach. generalize (seq 0 (length (pool ks))) as l. intros l. revert ks.
  induction l as [|i l IH]; intros ks; [reflexivity|]. cbn [foldl]. etrans; [|apply IH].
  destruct (pool ks !! i) as [k|]; [|reflexivity]. destruct (nz _); [apply Hf|reflexivity].
Qed.

Lemma ids_bt_id_del i ks : ids_only ks (bt_id_del i ks).
Proof.
  unfold bt_id_del. destruct (pool ks !! i) as [keys|]; [|reflexivity]. destruct (_ || _); [apply ids_id_removed|]. destruct (connecting _); [apply ids_pending|].
  cbn -[nz bt_keys_foreach]. set (ks1 := set_hci _ ks). set (ks2 := if nz _ then ks1 else _). assert (H : ids_only ks ks2).
  { assert (H1 : ids_only ks ks1) by apply ids_set_hci. etrans; [exact H1|]. clearbody ks1. subst ks2. destruct (nz _); [reflexivity|]. destruct (_ <? _).
    - etrans; [apply ids_id_removed|]. apply ids_foreach. intros j ks'. unfold keys_add_id. destruct (pool ks' !! j); [|reflexivity].
      destruct (nz _); [apply ids_set_hci|reflexivity].
    - destruct (nz _); [apply ids_set_hci|]. etrans; [apply ids_set_hci|apply ids_id_removed]. }
  destruct (nz (rl_entries _)); [|done]. etrans; [exact H|apply ids_set_hci].
Qed.

(** The entry of a device stays where it is. *)
Lemma same_bond_key_is id addr k k' : same_bond k k' -> key_is id addr k' = key_is id addr k.
Proof.
  intros H. unfold key_is. assert (E1 : keys_id k' = keys_id k) by exact (f_equal keys_id (symmetry H)).
  assert (E2 : keys_addr k' = keys_addr k) by exact (f_equal keys_addr (symmetry H)). by rewrite E1, E2.
Qed.

Lemma ids_lookup ks ks' i k : ids_only ks ks' -> pool ks !! i = Some k -> exists k', pool ks' !! i = Some k' /\ same_bond k k'.
Proof. intros [H _] E. by apply (Forall2_lookup_l _ _ _ _ _ H E). Qed.

Lemma find_index_ext {A} (P : A -> bool) (l l' : list A) : Forall2 (fun x y => P y = P x) l l' -> find_index P l' = find_index P l.
Proof.
  unfold find_index. induction 1 as [|x y l l' E _ IH]; [done|]. cbn [list_find]. destruct (decide (P x = true)) as [Hx|Hx].
  - by rewrite decide_True by congruence.
  - rewrite decide_False by congruence. destruct (list_find _ l') as [[]|], (list_find _ l) as [[]|]; cbn in *; congruence.
Qed.

Lemma ids_find_addr ks ks' id addr : ids_only ks ks' -> bt_keys_find_addr id addr (pool ks') = bt_keys_find_addr id addr (pool ks).
Proof. intros [H _]. apply find_index_ext. eapply Forall2_impl; [exact H|]. intros x y. apply same_bond_key_is. Qed.
End ids.

(** ** Bonds over a restart *)

Section restart.
Context {F : Type} `{!Nvs F, !NvsOk F}.
Implicit Types (ks : key_state F) (cf : settings_nvs F) (k : bt_keys).

(** The name of the item of a device. *)
Lemma keys_item_name addr : addr_ok addr ->
  peer_key "keys" BT_ID_DEFAULT addr = chars "bt/keys" ++ SETTINGS_NAME_SEPARATOR :: addr_key addr None.
Proof.
  intros (Ht&Hl&Hb). unfold peer_key. cbn [nz BT_ID_DEFAULT Z.eqb negb]. unfold bt_settings_encode_key. rewrite take_ge; [done|].
  rewrite !length_app, hex_length, length_rev, Hl. destruct Ht as [-> | ->]; apply Nat.leb_le; reflexivity.
Qed.

Lemma item_fits (pre : cstr) addr : Forall (fun c => c <> 0 /\ 0 <= c < 256) pre -> (length pre <= 7)%nat -> addr_ok addr ->
  fits (pre ++ SETTINGS_NAME_SEPARATOR :: addr_key addr None).
Proof.
  intros Hpre Hlen (Ht&Hl&Hb). apply Forall_rev in Hb. rewrite <- length_rev in Hl.
  destruct (hex_plain _ Hb) as [_ Hp].
  assert (Hc : Forall (fun c => c <> 0 /\ 0 <= c < 256) (concat (fmt_02x <$> rev (addr_val addr)))).
  { clear -Hb. induction Hb as [|b bs Hb _ IH]; [constructor|]. destruct (byte_nibbles b Hb) as (H1&H2&_).
    assert (Hd : forall x, 0 <= x < 16 -> hex_digit x <> 0 /\ 0 <= hex_digit x < 256).
    { intros x Hx. unfold hex_digit. destruct (Z.leb_spec x 9); unfold chr; cbn; lia. }
    cbn [fmap list_fmap concat fmt_02x app]. apply Forall_cons. split; [by apply Hd|]. apply Forall_cons. split; [by apply Hd|exact IH]. }
  assert (Hall : Forall (fun c => c <> 0 /\ 0 <= c < 256) (pre ++ SETTINGS_NAME_SEPARATOR :: addr_key addr None)).
  { apply Forall_app. split; [done|]. apply Forall_cons. split; [by apply (bool_decide_unpack _); vm_compute|].
    unfold addr_key. apply Forall_app. split; [exact Hc|]. apply Forall_app. split; [|constructor].
    destruct Ht as [-> | ->]; by apply (bool_decide_unpack _); vm_compute. }
  split; [rewrite length_app; cbn [length]; lia|]. split; [|split; (eapply Forall_impl; [exact Hall|]; cbn; tauto)].
  rewrite length_app. unfold addr_key. cbn [length]. rewrite !length_app, hex_length, Hl. change NAME_BUF with 74.
  assert (length (fmt_u (addr_type addr)) = 1%nat) as -> by (by destruct Ht as [-> | ->]). cbn [length]. lia.
Qed.

Lemma keys_item_fits addr : addr_ok addr -> fits (peer_key "keys" BT_ID_DEFAULT addr).
Proof.
  intros Ha. rewrite keys_item_name by done. apply item_fits; [by apply (bool_decide_unpack _); vm_compute|apply Nat.leb_le; reflexivity|done].
Qed.

(** The only item of a bond. *)
Definition only_bond (name : cstr) cf : Prop :=
  forall n v, holds cf n v -> (settings_name_steq n (chars "bt/keys")).1 = true -> n = name.

Lemma set_alter_nth {A} (f : A -> A) (l : list A) i x : l !! i = Some x -> alter f i l !! i = Some (f x).
Proof. intros E. by rewrite list_lookup_alter_eq, E. Qed.

(** A pool in which nothing is stored yet. *)
Lemma get_addr_fresh id addr ks n :
  addr <> BT_ADDR_LE_ANY -> (0 < n)%nat -> pool ks = replicate n keys_zero ->
  bt_keys_get_addr id addr ks = (Some 0%nat, alter_key (with_addr id addr) 0 ks) /\ pool ks !! 0%nat = Some keys_zero.
Proof.
  intros Ha Hn Hp. destruct n as [|n]; [lia|]. unfold bt_keys_get_addr.
  assert (find_index (key_is id addr) (pool ks) = None) as ->.
  { apply find_index_None. rewrite Hp. intros x Hx%elem_of_replicate. destruct Hx as [-> _]. unfold key_is. cbn.
    rewrite bool_decide_false by congruence. apply andb_false_r. }
  assert (find_index is_free (pool ks) = Some 0%nat) as ->.
  { apply find_index_Some. exists keys_zero. rewrite Hp. split; [done|]. split; [done|]. lia. }
  split; [done|]. by rewrite Hp.
Qed.
End restart.

(** C13. A bond survives a restart of the device: when storing the keys of a peer returns 0,
    a pool that starts empty and loads the settings that are on the flash holds them
    again, byte for byte, under the address of the peer.  It is the only bond, of the
    default identity; and if it is new the storage has room for the keys, since the
    error of that write would be lost ([takes_if_new]). *)
Theorem bond_survives_restart {F} `{!Nvs F, !NvsOk F} (ks ks1 ks2 : key_state F) (cf : settings_nvs F) (i n : nat) (k : bt_keys) (old : list Z)
    (Hcf : settings ks = Some cf) (Hok : store_ok cf) (Htakes : takes_if_new (peer_key "keys" BT_ID_DEFAULT (keys_addr k)) (keys_storage k) cf)
    (Hk : pool ks !! i = Some k) (Hwf : keys_wf k) (Hid : keys_id k = BT_ID_DEFAULT)
    (Haddr : addr_ok (keys_addr k)) (Hany : keys_addr k <> BT_ADDR_LE_ANY)
    (Hone : only_bond (peer_key "keys" BT_ID_DEFAULT (keys_addr k)) cf) (Hstore : bt_keys_store i ks = (0, ks1))
    (Hold : length old = 6%nat) (Hn : (0 < n)%nat) (Hempty : pool ks2 = replicate n keys_zero) :
  exists cf1, settings ks1 = Some cf1 /\
  let cf2 := settings_nvs_backend_init (cf_nvs cf1) in
  let '(err, store, ks3) := settings_load [bt_keys_handler old] (Some cf2) ks2 in
  err = 0 /\ store = Some cf2 /\
  exists j k', bt_keys_find_addr (keys_id k) (keys_addr k) (pool ks3) = Some j /\ pool ks3 !! j = Some k' /\ same_bond k k'.
Proof.
  set (name := peer_key "keys" BT_ID_DEFAULT (keys_addr k)) in *. unfold bt_keys_store in Hstore. rewrite Hk, Hcf, Hid in Hstore. fold name in Hstore.
  unfold settings_save_one in Hstore. destruct (settings_nvs_save name (keys_storage k) cf) as [rc cf1] eqn:Es. injection Hstore as -> <-.
  assert (Hne : keys_storage k <> []) by done.
  destruct (save_effect name _ cf cf1 Hok (keys_item_fits _ Haddr) Hne (keys_storage_ok k Hwf) Htakes Es) as [Hok1 Hh].
  exists cf1. split; [done|]. cbv zeta. rewrite restart by done.
  assert (Hs : settings_name_steq name (chars "bt/keys") = (true, Some (addr_key (keys_addr k) None))).
  { subst name. rewrite keys_item_name by done. apply name_steq_below. repeat (apply Forall_cons; split; [split; done|]). constructor. }
  destruct (load_one_item (bt_keys_handler old) name (keys_storage k) (Some (addr_key (keys_addr k) None)) cf1 ks2) as (rd&Hrd&->); [done| | |done|].
  { intros m v Hm Hst. apply Hh in Hm as [[-> _]|[_ Hm]]; [done|]. by eapply Hone. }
  { apply Hh. by left. }
  change (settings_commit_subtree _ _ ?t) with (keys_commit t). change (h_set (bt_keys_handler old)) with (keys_set old). cbv beta iota. split; [done|]. split; [done|].
  destruct (get_addr_fresh (keys_id k) (keys_addr k) ks2 n Hany Hn Hempty) as [Eg E0].
  set (ks3 := alter_key (set_storage (keys_storage k)) 0 (alter_key (with_addr (keys_id k) (keys_addr k)) 0 ks2)).
  assert (Eset : (keys_set old (Some (addr_key (keys_addr k) None)) (Z.of_nat (length (keys_storage k))) rd ks2).2 = ks3).
  { unfold keys_set. rewrite Hrd by (unfold BT_KEYS_STORAGE_LEN; lia). rewrite keys_storage_length by done.
    change (Z.min BT_KEYS_STORAGE_LEN (Z.of_nat 80)) with 80. change (80 <? 0) with false. cbv iota. unfold decode_name.
    rewrite decode_addr_key, addr_key_next by done. cbn [snd]. rewrite <- Hid, Eg. cbn [Z.eqb BT_KEYS_STORAGE_LEN Pos.eqb negb snd].
    by rewrite take_ge by (rewrite keys_storage_length; [done|done]). }
  rewrite Eset. assert (E3 : pool ks3 !! 0%nat = Some (with_state (fun _ => 0) k)).
  { subst ks3. cbn [pool alter_key]. erewrite set_alter_nth by (by apply set_alter_nth). rewrite storage_roundtrip by done. by destruct k. }
  assert (Hids : ids_only ks3 (keys_commit ks3).2) by (apply ids_foreach; intros; apply ids_bt_id_add).
  destruct (ids_lookup _ _ _ _ Hids E3) as (k'&E&Hb). exists 0%nat, k'. split; [|split; [done|]].
  - rewrite (ids_find_addr _ _ _ _ Hids). apply find_index_Some. exists (with_state (fun _ => 0) k). split; [done|]. split; [|lia].
    unfold key_is. cbn. by rewrite Z.eqb_refl, bool_decide_true.
  - etrans; [|exact Hb]. done.
Qed.
