(* ===== verification/Crypto.v ===== *)
(** Cryptography of the Bluetooth host ([subsys/bluetooth/host/crypto.c],
    [common/rpa.c], and the functions of the Security Manager in [host/smp.c]).

    TinyCrypt is not part of the sources: its AES-CMAC, AES and random generator are
    classes.  A function that fails returns [None]; where the callers tell errors apart
    the number is kept. *)
From Stdlib Require Import ZArith Lia Bool.
From stdpp Require Import base numbers list.
From S2P Require Import Prelude ByteOrder Uuid Gatt SettingsKeys Keys.
Open Scope Z_scope.

(** AES-CMAC of TinyCrypt: [false] and [None] are [TC_CRYPTO_FAIL]. *)
Class TinyCrypt (C : Type) := {
  tc_cmac_setup : list Z -> option C;
  tc_cmac_update : C -> list Z -> bool * C;
  tc_cmac_final : C -> option (list Z) }.

(** AES-128 of TinyCrypt with its key schedule. *)
Class TinyAes (S : Type) := {
  tc_aes128_set_encrypt_key : list Z -> option S;
  tc_aes_encrypt : list Z -> S -> option (list Z) }.

(** The random generator of TinyCrypt: the result, the bytes the buffer holds
    afterwards and the next state. *)
Definition TC_CRYPTO_FAIL : Z := 0.
Definition TC_CRYPTO_SUCCESS : Z := 1.
Definition TC_HMAC_PRNG_RESEED_REQ : Z := -1.
Class TinyPrng (R : Type) := {
  tc_hmac_prng_init : list Z -> Z * R;
  tc_hmac_prng_generate : Z -> R -> Z * list Z * R;
  tc_hmac_prng_reseed : list Z -> list Z -> R -> Z * R }.

(** ** crypto.c *)

(** The generator, the results of the command LE Rand to come, and the time. *)
Record rand_state (R : Type) := mk_rand { prng : R; le_rand : list (Z * list Z); rand_uptime : Z }.
Arguments mk_rand {R}.
Arguments prng {R}.
Arguments le_rand {R}.
Arguments rand_uptime {R}.

Section random.
Context {R : Type} `{!TinyPrng R}.
Implicit Types (st : rand_state R).

(** The command LE Rand: its result and the random bytes. *)
Definition send_le_rand st : Z * list Z * rand_state R :=
  (default (0, zeros 8) (head (le_rand st)), mk_rand (prng st) (tail (le_rand st)) (rand_uptime st)).

(** The seed of [n] more blocks, or the error of the command. *)
Fixpoint seed_loop (n : nat) (seed : list Z) st : (Z + list Z) * rand_state R :=
  match n with
  | O => (inr seed, st)
  | S n => let '(ret, block, st) := send_le_rand st in if nz ret then (inl ret, st) else seed_loop n (seed ++ block) st
  end.

Definition prng_reseed st : Z * rand_state R :=
  match seed_loop 4 [] st with
  | (inl ret, st) => (ret, st)
  | (inr seed, st) =>
      let '(ret, r) := tc_hmac_prng_reseed seed (le_bytes 8 (rand_uptime st)) (prng st) in
      (if ret =? TC_CRYPTO_FAIL then - EIO else 0, mk_rand r (le_rand st) (rand_uptime st))
  end.

(** [supported]: the controller has the command LE Rand. *)
Definition prng_init (supported : bool) st : Z * rand_state R :=
  if negb supported then (- ENOTSUP, st)
  else
    let '(ret, block, st) := send_le_rand st in
    if nz ret then (ret, st)
    else
      let '(ret, r) := tc_hmac_prng_init block in
      let st := mk_rand r (le_rand st) (rand_uptime st) in
      if ret =? TC_CRYPTO_FAIL then (- EIO, st) else prng_reseed st.

Definition bt_rand (len : Z) st : Z * list Z * rand_state R :=
  let '(ret, buf, r) := tc_hmac_prng_generate len (prng st) in
  let st := mk_rand r (le_rand st) (rand_uptime st) in
  if ret =? TC_HMAC_PRNG_RESEED_REQ then
    let '(err, st) := prng_reseed st in
    if nz err then (err, buf, st)
    else
      let '(ret, buf, r) := tc_hmac_prng_generate len (prng st) in
      (if ret =? TC_CRYPTO_SUCCESS then 0 else - EIO, buf, mk_rand r (le_rand st) (rand_uptime st))
  else (if ret =? TC_CRYPTO_SUCCESS then 0 else - EIO, buf, st).
End random.

Section aes.
Context {S : Type} `{!TinyAes S}.

Definition bt_encrypt_le (key plaintext : list Z) : option (list Z) :=
  s ← tc_aes128_set_encrypt_key (rev key); (@rev Z) <$> tc_aes_encrypt (rev plaintext) s.

Definition bt_encrypt_be (key plaintext : list Z) : option (list Z) :=
  s ← tc_aes128_set_encrypt_key key; tc_aes_encrypt plaintext s.

(** ** rpa.c *)

Definition ah (irk r : list Z) : option (list Z) := take 3 <$> bt_encrypt_le irk (r ++ zeros 13).

Definition bt_rpa_irk_matches (irk addr : list Z) : bool :=
  match ah irk (take 3 (drop 3 addr)) with
  | None => false
  | Some hash => bool_decide (take 3 addr = hash)
  end.

(** With privacy: the private address, or the error.  [rand] is [internal_rand]. *)
Definition bt_rpa_create {St} (rand : Z -> St -> Z * list Z * St) (irk : list Z) (st : St) : (Z + list Z) * St :=
  let '(err, buf, st) := rand 3 st in
  if nz err then (inl err, st)
  else
    let r := alter (fun b => (b .& 0x3f) .| 0x40) 2%nat buf in
    (match ah irk r with Some hash => inr (hash ++ r) | None => inl (- EINVAL) end, st).

(** ** smp.c: the functions of legacy pairing *)

Definition smp_d1 (key : list Z) (d r : Z) : option (list Z) := bt_encrypt_le key (le_bytes 2 d ++ le_bytes 2 r ++ zeros 12).

Definition bt_smp_irk_get (ir : list Z) : Z + list Z :=
  if bool_decide (take 16 ir = zeros 16) then inl (- EINVAL)
  else match smp_d1 ir 1 0 with Some irk => inr irk | None => inl (- EINVAL) end.

Definition xor_128 (p q : list Z) : list Z := zip_with (fun a b => a .^ b) (take 16 p) (take 16 q).

Definition smp_c1 (k r preq pres : list Z) (ia ra : bt_addr_le_t) : option (list Z) :=
  let p1 := [addr_type ia; addr_type ra] ++ preq ++ pres in
  enc_data ← bt_encrypt_le k (xor_128 r p1);
  let p2 := addr_val ra ++ addr_val ia ++ zeros 4 in
  bt_encrypt_le k (xor_128 enc_data p2).

Definition smp_s1 (k r1 r2 : list Z) : option (list Z) := bt_encrypt_le k (take 8 r2 ++ take 8 r1).
End aes.

(** ** smp.c: the functions of Secure Connections *)

Section cmac.
Context {C : Type} `{!TinyCrypt C}.

Definition bt_smp_aes_cmac (key input : list Z) : option (list Z) :=
  c ← tc_cmac_setup key; let '(ok, c) := tc_cmac_update c input in if negb ok then None else tc_cmac_final c.

Definition smp_f4 (u v x : list Z) (z : Z) : option (list Z) :=
  let m := rev (take 32 u) ++ rev (take 32 v) ++ [z] in
  (@rev Z) <$> bt_smp_aes_cmac (rev (take 16 x)) m.

Definition f5_salt : list Z :=
  [0x6c; 0x88; 0x83; 0x91; 0xaa; 0xf5; 0xa5; 0x38; 0x60; 0x37; 0x0b; 0xdb; 0x5a; 0x60; 0x83; 0xbe].

(** [mackey] and [ltk], as far as they are computed. *)
Definition smp_f5 (w n1 n2 : list Z) (a1 a2 : bt_addr_le_t) : option (list Z) * option (list Z) :=
  match bt_smp_aes_cmac f5_salt (rev w) with
  | None => (None, None)
  | Some t =>
      let m counter :=
        [counter] ++ [0x62; 0x74; 0x6c; 0x65] ++ rev n1 ++ rev n2 ++ [addr_type a1] ++ rev (addr_val a1) ++
        [addr_type a2] ++ rev (addr_val a2) ++ [0x01; 0x00] in
      match bt_smp_aes_cmac t (m 0x00) with
      | None => (None, None)
      | Some mackey => (Some (rev mackey), (@rev Z) <$> bt_smp_aes_cmac t (m 0x01))
      end
  end.

Definition smp_f6 (w n1 n2 r iocap : list Z) (a1 a2 : bt_addr_le_t) : option (list Z) :=
  let m := rev n1 ++ rev n2 ++ rev r ++ rev (take 3 iocap) ++ [addr_type a1] ++ rev (addr_val a1) ++ [addr_type a2] ++ rev (addr_val a2) in
  (@rev Z) <$> bt_smp_aes_cmac (rev w) m.

Definition smp_g2 (u v x y : list Z) : option Z :=
  let m := rev (take 32 u) ++ rev (take 32 v) ++ rev y in
  xs ← bt_smp_aes_cmac (rev x) m; Some (be_value (take 4 (drop 12 xs)) mod 1000000).
End cmac.

(** What pairing uses of TinyCrypt. *)
Class Crypto := {
  aes_sched : Type;
  cmac_state : Type;
  crypto_aes :: TinyAes aes_sched;
  crypto_cmac :: TinyCrypt cmac_state }.
