(* ===== verification/Smp.v ===== *)
(** The Security Manager ([subsys/bluetooth/host/smp.c]) in the peripheral's role,
    legacy pairing and Secure Connections, with the parts of [host/hci_core.c] and
    [host/conn.c] it works with: encryption changes, requests of the controller for a
    key, the ECC commands, security levels.

    One connection and one SMP context, as [CONFIG_BT_MAX_CONN] is 1.  Buffers may run
    out: whether an allocation succeeds comes from a list, and succeeds behind its end.
    The calls of the application and the PDUs in both directions are logged.  Not
    modelled: the central's role, BR/EDR, privacy, signing, fixed passkeys, the
    creation of out-of-band data, and the semaphore that is given with the public key. *)
From Stdlib Require Import ZArith Lia Bool.
From stdpp Require Import base numbers list gmap strings.
From S2P Require Import Prelude ByteOrder Uuid Gatt SettingsKeys Settings Keys Crypto.
Open Scope Z_scope.

(** ** Constants *)

Definition BT_SMP_ERR_PASSKEY_ENTRY_FAILED : Z := 0x01.
Definition BT_SMP_ERR_OOB_NOT_AVAIL : Z := 0x02.
Definition BT_SMP_ERR_AUTH_REQUIREMENTS : Z := 0x03.
Definition BT_SMP_ERR_CONFIRM_FAILED : Z := 0x04.
Definition BT_SMP_ERR_PAIRING_NOTSUPP : Z := 0x05.
Definition BT_SMP_ERR_ENC_KEY_SIZE : Z := 0x06.
Definition BT_SMP_ERR_CMD_NOTSUPP : Z := 0x07.
Definition BT_SMP_ERR_UNSPECIFIED : Z := 0x08.
Definition BT_SMP_ERR_REPEATED_ATTEMPTS : Z := 0x09.
Definition BT_SMP_ERR_INVALID_PARAMS : Z := 0x0a.
Definition BT_SMP_ERR_DHKEY_CHECK_FAILED : Z := 0x0b.
Definition BT_SMP_ERR_NUMERIC_COMP_FAILED : Z := 0x0c.
Definition BT_SMP_ERR_BREDR_PAIRING_IN_PROGRESS : Z := 0x0d.
Definition BT_SMP_ERR_CROSS_TRANSP_NOT_ALLOWED : Z := 0x0e.
Definition BT_SMP_IO_DISPLAY_ONLY : Z := 0x00.
Definition BT_SMP_IO_DISPLAY_YESNO : Z := 0x01.
Definition BT_SMP_IO_KEYBOARD_ONLY : Z := 0x02.
Definition BT_SMP_IO_NO_INPUT_OUTPUT : Z := 0x03.
Definition BT_SMP_IO_KEYBOARD_DISPLAY : Z := 0x04.
Definition BT_SMP_OOB_DATA_MASK : Z := 0x01.
Definition BT_SMP_OOB_NOT_PRESENT : Z := 0x00.
Definition BT_SMP_OOB_PRESENT : Z := 0x01.
Definition BT_SMP_MIN_ENC_KEY_SIZE : Z := 7.
Definition BT_SMP_MAX_ENC_KEY_SIZE : Z := 16.
Definition BT_SMP_DIST_ENC_KEY : Z := 0x01.
Definition BT_SMP_DIST_ID_KEY : Z := 0x02.
Definition BT_SMP_DIST_SIGN : Z := 0x04.
Definition BT_SMP_DIST_LINK_KEY : Z := 0x08.
Definition BT_SMP_AUTH_BONDING : Z := 0x01.
Definition BT_SMP_AUTH_MITM : Z := 0x04.
Definition BT_SMP_AUTH_SC : Z := 0x08.
Definition BT_SMP_AUTH_CT2 : Z := 0x20.
Definition BT_SMP_CMD_PAIRING_REQ : Z := 0x01.
Definition BT_SMP_CMD_PAIRING_RSP : Z := 0x02.
Definition BT_SMP_CMD_PAIRING_CONFIRM : Z := 0x03.
Definition BT_SMP_CMD_PAIRING_RANDOM : Z := 0x04.
Definition BT_SMP_CMD_PAIRING_FAIL : Z := 0x05.
Definition BT_SMP_CMD_ENCRYPT_INFO : Z := 0x06.
Definition BT_SMP_CMD_MASTER_IDENT : Z := 0x07.
Definition BT_SMP_CMD_IDENT_INFO : Z := 0x08.
Definition BT_SMP_CMD_IDENT_ADDR_INFO : Z := 0x09.
Definition BT_SMP_CMD_SIGNING_INFO : Z := 0x0a.
Definition BT_SMP_CMD_SECURITY_REQUEST : Z := 0x0b.
Definition BT_SMP_CMD_PUBLIC_KEY : Z := 0x0c.
Definition BT_SMP_DHKEY_CHECK : Z := 0x0d.

(** [SIGN_DIST], [ID_DIST] and [LINK_DIST] are 0 in this configuration. *)
Definition RECV_KEYS : Z := BT_SMP_DIST_ENC_KEY .| BT_SMP_DIST_ID_KEY.
Definition SEND_KEYS : Z := BT_SMP_DIST_ENC_KEY.
Definition RECV_KEYS_SC : Z := Z.ldiff RECV_KEYS BT_SMP_DIST_ENC_KEY.
Definition SEND_KEYS_SC : Z := Z.ldiff SEND_KEYS BT_SMP_DIST_ENC_KEY.
Definition BT_SMP_AUTH_MASK : Z := 0x07.
Definition BT_SMP_AUTH_MASK_SC : Z := 0x0f.
Definition BT_SMP_AUTH_DEFAULT : Z := BT_SMP_AUTH_BONDING .| BT_SMP_AUTH_SC.

(** [enum bt_security_err] and [hci_err.h]. *)
Definition BT_SECURITY_ERR_SUCCESS : Z := 0.
Definition BT_SECURITY_ERR_AUTH_FAIL : Z := 1.
Definition BT_SECURITY_ERR_PIN_OR_KEY_MISSING : Z := 2.
Definition BT_SECURITY_ERR_OOB_NOT_AVAILABLE : Z := 3.
Definition BT_SECURITY_ERR_AUTH_REQUIREMENT : Z := 4.
Definition BT_SECURITY_ERR_PAIR_NOT_SUPPORTED : Z := 5.
Definition BT_SECURITY_ERR_PAIR_NOT_ALLOWED : Z := 6.
Definition BT_SECURITY_ERR_INVALID_PARAM : Z := 7.
Definition BT_SECURITY_ERR_UNSPECIFIED : Z := 8.
Definition BT_HCI_ERR_AUTH_FAIL : Z := 0x05.
Definition BT_HCI_ERR_PIN_OR_KEY_MISSING : Z := 0x06.

Inductive pairing_method :=
  | JUST_WORKS | PASSKEY_INPUT | PASSKEY_DISPLAY | PASSKEY_CONFIRM | PASSKEY_ROLE | LE_SC_OOB | LEGACY_OOB.

#[export] Instance pairing_method_eq_dec : EqDecision pairing_method.
Proof. solve_decision. Defined.

Definition SMP_FLAG_CFM_DELAYED : Z := 0.
Definition SMP_FLAG_ENC_PENDING : Z := 1.
Definition SMP_FLAG_KEYS_DISTR : Z := 2.
Definition SMP_FLAG_PAIRING : Z := 3.
Definition SMP_FLAG_TIMEOUT : Z := 4.
Definition SMP_FLAG_SC : Z := 5.
Definition SMP_FLAG_PKEY_SEND : Z := 6.
Definition SMP_FLAG_DHKEY_PENDING : Z := 7.
Definition SMP_FLAG_DHKEY_SEND : Z := 8.
Definition SMP_FLAG_USER : Z := 9.
Definition SMP_FLAG_DISPLAY : Z := 10.
Definition SMP_FLAG_OOB_PENDING : Z := 11.
Definition SMP_FLAG_BOND : Z := 12.
Definition SMP_FLAG_SC_DEBUG_KEY : Z := 13.
Definition SMP_FLAG_SEC_REQ : Z := 14.
Definition SMP_FLAG_DHCHECK_WAIT : Z := 15.
Definition SMP_FLAG_DERIVE_LK : Z := 16.
Definition SMP_FLAG_CT2 : Z := 19.

(** ** State *)

Record bt_le_oob_sc_data := mk_oob { oob_r : list Z; oob_c : list Z }.

(** [struct bt_smp] without its channel; [smp_work]: the timer runs. *)
Record bt_smp := mk_smp {
  allowed_cmds : Z; flags : Z; method : pairing_method; preq : list Z; prsp : list Z; pcnf : list Z;
  prnd : list Z; rrnd : list Z; tk : list Z; pkey : list Z; dhkey : list Z; smp_e : list Z; mackey : list Z;
  passkey : Z; passkey_round : Z; oobd_local : option bt_le_oob_sc_data;
  oobd_remote : option bt_le_oob_sc_data; local_dist : Z; remote_dist : Z; smp_work : bool }.

(** What is used of [struct bt_conn]; [le_keys] is an index into the pool. *)
Record le_conn := mk_le_conn {
  le_id : Z; le_dst : bt_addr_le_t; init_addr : bt_addr_le_t; resp_addr : bt_addr_le_t; sec_level : Z;
  required_sec_level : Z; encrypt : Z; le_keys : option nat; force_pair : bool }.

(** Which callbacks [bt_auth] has. *)
Record bt_conn_auth_cb := mk_auth {
  passkey_display : bool; passkey_entry : bool; passkey_confirm : bool; oob_data_request : bool; auth_cancel : bool;
  pairing_confirm : bool; pairing_complete : bool; pairing_failed : bool }.

(** The ECC part of [bt_dev]: [BT_DEV_PUB_KEY_BUSY], the key if [BT_DEV_HAS_PUB_KEY] is
    set, and whether callbacks for the public key and the shared key are registered. *)
Record bt_ecc := mk_ecc { pub_key_busy : bool; pub_key : option (list Z); pub_key_cb : bool; dh_key_cb : bool }.

(** Calls of the application. *)
Inductive upcall :=
  | Passkey_display (passkey : Z) | Passkey_entry | Passkey_confirm (passkey : Z) | Oob_data_request (sc : bool) (config : Z)
  | Cancel | Pairing_confirm | Pairing_complete (bonded : bool) | Pairing_failed (err : Z)
  | Security_changed (level err : Z) | Identity_resolved.
Inductive item := Rx (pdu : list Z) | Tx (pdu : list Z) | Up (u : upcall).

Record smp_world (F R : Type) := mk_world {
  smp : bt_smp; conn : le_conn; ks : key_state F; rng : rand_state R; bt_auth : option bt_conn_auth_cb;
  bondable : bool; oobd_present : bool; sc_supported : bool; sc_public_key : option (list Z); ecc : bt_ecc;
  smp_allocs : list bool; ident_cbs : nat; log : list item }.
Arguments mk_world {F R}.
Arguments smp {F R}.
Arguments conn {F R}.
Arguments ks {F R}.
Arguments rng {F R}.
Arguments bt_auth {F R}.
Arguments bondable {F R}.
Arguments oobd_present {F R}.
Arguments sc_supported {F R}.
Arguments sc_public_key {F R}.
Arguments ecc {F R}.
Arguments smp_allocs {F R}.
Arguments ident_cbs {F R}.
Arguments log {F R}.

Definition set_allowed_cmds (x : Z) (s : bt_smp) : bt_smp :=
  mk_smp x (flags s) (method s) (preq s) (prsp s) (pcnf s) (prnd s) (rrnd s) (tk s) (pkey s) (dhkey s) (smp_e s) (mackey s) (passkey s) (passkey_round s) (oobd_local s) (oobd_remote s) (local_dist s) (remote_dist s) (smp_work s).
Definition set_flags (x : Z) (s : bt_smp) : bt_smp :=
  mk_smp (allowed_cmds s) x (method s) (preq s) (prsp s) (pcnf s) (prnd s) (rrnd s) (tk s) (pkey s) (dhkey s) (smp_e s) (mackey s) (passkey s) (passkey_round s) (oobd_local s) (oobd_remote s) (local_dist s) (remote_dist s) (smp_work s).
Definition set_method (x : pairing_method) (s : bt_smp) : bt_smp :=
  mk_smp (allowed_cmds s) (flags s) x (preq s) (prsp s) (pcnf s) (prnd s) (rrnd s) (tk s) (pkey s) (dhkey s) (smp_e s) (mackey s) (passkey s) (passkey_round s) (oobd_local s) (oobd_remote s) (local_dist s) (remote_dist s) (smp_work s).
Definition set_preq (x : list Z) (s : bt_smp) : bt_smp :=
  mk_smp (allowed_cmds s) (flags s) (method s) x (prsp s) (pcnf s) (prnd s) (rrnd s) (tk s) (pkey s) (dhkey s) (smp_e s) (mackey s) (passkey s) (passkey_round s) (oobd_local s) (oobd_remote s) (local_dist s) (remote_dist s) (smp_work s).
Definition set_prsp (x : list Z) (s : bt_smp) : bt_smp :=
  mk_smp (allowed_cmds s) (flags s) (method s) (preq s) x (pcnf s) (prnd s) (rrnd s) (tk s) (pkey s) (dhkey s) (smp_e s) (mackey s) (passkey s) (passkey_round s) (oobd_local s) (oobd_remote s) (local_dist s) (remote_dist s) (smp_work s).
Definition set_pcnf (x : list Z) (s : bt_smp) : bt_smp :=
  mk_smp (allowed_cmds s) (flags s) (method s) (preq s) (prsp s) x (prnd s) (rrnd s) (tk s) (pkey s) (dhkey s) (smp_e s) (mackey s) (passkey s) (passkey_round s) (oobd_local s) (oobd_remote s) (local_dist s) (remote_dist s) (smp_work s).
Definition set_prnd (x : list Z) (s : bt_smp) : bt_smp :=
  mk_smp (allowed_cmds s) (flags s) (method s) (preq s) (prsp s) (pcnf s) x (rrnd s) (tk s) (pkey s) (dhkey s) (smp_e s) (mackey s) (passkey s) (passkey_round s) (oobd_local s) (oobd_remote s) (local_dist s) (remote_dist s) (smp_work s).
Definition set_rrnd (x : list Z) (s : bt_smp) : bt_smp :=
  mk_smp (allowed_cmds s) (flags s) (method s) (preq s) (prsp s) (pcnf s) (prnd s) x (tk s) (pkey s) (dhkey s) (smp_e s) (mackey s) (passkey s) (passkey_round s) (oobd_local s) (oobd_remote s) (local_dist s) (remote_dist s) (smp_work s).
Definition set_tk (x : list Z) (s : bt_smp) : bt_smp :=
  mk_smp (allowed_cmds s) (flags s) (method s) (preq s) (prsp s) (pcnf s) (prnd s) (rrnd s) x (pkey s) (dhkey s) (smp_e s) (mackey s) (passkey s) (passkey_round s) (oobd_local s) (oobd_remote s) (local_dist s) (remote_dist s) (smp_work s).
Definition set_pkey (x : list Z) (s : bt_smp) : bt_smp :=
  mk_smp (allowed_cmds s) (flags s) (method s) (preq s) (prsp s) (pcnf s) (prnd s) (rrnd s) (tk s) x (dhkey s) (smp_e s) (mackey s) (passkey s) (passkey_round s) (oobd_local s) (oobd_remote s) (local_dist s) (remote_dist s) (smp_work s).
Definition set_dhkey (x : list Z) (s : bt_smp) : bt_smp :=
  mk_smp (allowed_cmds s) (flags s) (method s) (preq s) (prsp s) (pcnf s) (prnd s) (rrnd s) (tk s) (pkey s) x (smp_e s) (mackey s) (passkey s) (passkey_round s) (oobd_local s) (oobd_remote s) (local_dist s) (remote_dist s) (smp_work s).
Definition set_smp_e (x : list Z) (s : bt_smp) : bt_smp :=
  mk_smp (allowed_cmds s) (flags s) (method s) (preq s) (prsp s) (pcnf s) (prnd s) (rrnd s) (tk s) (pkey s) (dhkey s) x (mackey s) (passkey s) (passkey_round s) (oobd_local s) (oobd_remote s) (local_dist s) (remote_dist s) (smp_work s).
Definition set_mackey (x : list Z) (s : bt_smp) : bt_smp :=
  mk_smp (allowed_cmds s) (flags s) (method s) (preq s) (prsp s) (pcnf s) (prnd s) (rrnd s) (tk s) (pkey s) (dhkey s) (smp_e s) x (passkey s) (passkey_round s) (oobd_local s) (oobd_remote s) (local_dist s) (remote_dist s) (smp_work s).
Definition set_passkey (x : Z) (s : bt_smp) : bt_smp :=
  mk_smp (allowed_cmds s) (flags s) (method s) (preq s) (prsp s) (pcnf s) (prnd s) (rrnd s) (tk s) (pkey s) (dhkey s) (smp_e s) (mackey s) x (passkey_round s) (oobd_local s) (oobd_remote s) (local_dist s) (remote_dist s) (smp_work s).
Definition set_passkey_round (x : Z) (s : bt_smp) : bt_smp :=
  mk_smp (allowed_cmds s) (flags s) (method s) (preq s) (prsp s) (pcnf s) (prnd s) (rrnd s) (tk s) (pkey s) (dhkey s) (smp_e s) (mackey s) (passkey s) x (oobd_local s) (oobd_remote s) (local_dist s) (remote_dist s) (smp_work s).
Definition set_oobd_local (x : option bt_le_oob_sc_data) (s : bt_smp) : bt_smp :=
  mk_smp (allowed_cmds s) (flags s) (method s) (preq s) (prsp s) (pcnf s) (prnd s) (rrnd s) (tk s) (pkey s) (dhkey s) (smp_e s) (mackey s) (passkey s) (passkey_round s) x (oobd_remote s) (local_dist s) (remote_dist s) (smp_work s).
Definition set_oobd_remote (x : option bt_le_oob_sc_data) (s : bt_smp) : bt_smp :=
  mk_smp (allowed_cmds s) (flags s) (method s) (preq s) (prsp s) (pcnf s) (prnd s) (rrnd s) (tk s) (pkey s) (dhkey s) (smp_e s) (mackey s) (passkey s) (passkey_round s) (oobd_local s) x (local_dist s) (remote_dist s) (smp_work s).
Definition set_local_dist (x : Z) (s : bt_smp) : bt_smp :=
  mk_smp (allowed_cmds s) (flags s) (method s) (preq s) (prsp s) (pcnf s) (prnd s) (rrnd s) (tk s) (pkey s) (dhkey s) (smp_e s) (mackey s) (passkey s) (passkey_round s) (oobd_local s) (oobd_remote s) x (remote_dist s) (smp_work s).
Definition set_remote_dist (x : Z) (s : bt_smp) : bt_smp :=
  mk_smp (allowed_cmds s) (flags s) (method s) (preq s) (prsp s) (pcnf s) (prnd s) (rrnd s) (tk s) (pkey s) (dhkey s) (smp_e s) (mackey s) (passkey s) (passkey_round s) (oobd_local s) (oobd_remote s) (local_dist s) x (smp_work s).
Definition set_smp_work (x : bool) (s : bt_smp) : bt_smp :=
  mk_smp (allowed_cmds s) (flags s) (method s) (preq s) (prsp s) (pcnf s) (prnd s) (rrnd s) (tk s) (pkey s) (dhkey s) (smp_e s) (mackey s) (passkey s) (passkey_round s) (oobd_local s) (oobd_remote s) (local_dist s) (remote_dist s) x.

Definition set_le_dst (x : bt_addr_le_t) (c : le_conn) : le_conn :=
  mk_le_conn (le_id c) x (init_addr c) (resp_addr c) (sec_level c) (required_sec_level c) (encrypt c) (le_keys c) (force_pair c).
Definition set_sec_level (x : Z) (c : le_conn) : le_conn :=
  mk_le_conn (le_id c) (le_dst c) (init_addr c) (resp_addr c) x (required_sec_level c) (encrypt c) (le_keys c) (force_pair c).
Definition set_required_sec_level (x : Z) (c : le_conn) : le_conn :=
  mk_le_conn (le_id c) (le_dst c) (init_addr c) (resp_addr c) (sec_level c) x (encrypt c) (le_keys c) (force_pair c).
Definition set_encrypt (x : Z) (c : le_conn) : le_conn :=
  mk_le_conn (le_id c) (le_dst c) (init_addr c) (resp_addr c) (sec_level c) (required_sec_level c) x (le_keys c) (force_pair c).
Definition set_le_keys (x : option nat) (c : le_conn) : le_conn :=
  mk_le_conn (le_id c) (le_dst c) (init_addr c) (resp_addr c) (sec_level c) (required_sec_level c) (encrypt c) x (force_pair c).
Definition set_force_pair (x : bool) (c : le_conn) : le_conn :=
  mk_le_conn (le_id c) (le_dst c) (init_addr c) (resp_addr c) (sec_level c) (required_sec_level c) (encrypt c) (le_keys c) x.

Section updates.
Context {F R : Type}.
Definition set_smp (x : bt_smp) (w : smp_world F R) : smp_world F R :=
  mk_world x (conn w) (ks w) (rng w) (bt_auth w) (bondable w) (oobd_present w) (sc_supported w) (sc_public_key w) (ecc w) (smp_allocs w) (ident_cbs w) (log w).
Definition set_conn (x : le_conn) (w : smp_world F R) : smp_world F R :=
  mk_world (smp w) x (ks w) (rng w) (bt_auth w) (bondable w) (oobd_present w) (sc_supported w) (sc_public_key w) (ecc w) (smp_allocs w) (ident_cbs w) (log w).
Definition set_ks (x : key_state F) (w : smp_world F R) : smp_world F R :=
  mk_world (smp w) (conn w) x (rng w) (bt_auth w) (bondable w) (oobd_present w) (sc_supported w) (sc_public_key w) (ecc w) (smp_allocs w) (ident_cbs w) (log w).
Definition set_rng (x : rand_state R) (w : smp_world F R) : smp_world F R :=
  mk_world (smp w) (conn w) (ks w) x (bt_auth w) (bondable w) (oobd_present w) (sc_supported w) (sc_public_key w) (ecc w) (smp_allocs w) (ident_cbs w) (log w).
Definition set_bondable (x : bool) (w : smp_world F R) : smp_world F R :=
  mk_world (smp w) (conn w) (ks w) (rng w) (bt_auth w) x (oobd_present w) (sc_supported w) (sc_public_key w) (ecc w) (smp_allocs w) (ident_cbs w) (log w).
Definition set_oobd_present (x : bool) (w : smp_world F R) : smp_world F R :=
  mk_world (smp w) (conn w) (ks w) (rng w) (bt_auth w) (bondable w) x (sc_supported w) (sc_public_key w) (ecc w) (smp_allocs w) (ident_cbs w) (log w).
Definition set_sc_public_key (x : option (list Z)) (w : smp_world F R) : smp_world F R :=
  mk_world (smp w) (conn w) (ks w) (rng w) (bt_auth w) (bondable w) (oobd_present w) (sc_supported w) x (ecc w) (smp_allocs w) (ident_cbs w) (log w).
Definition set_ecc (x : bt_ecc) (w : smp_world F R) : smp_world F R :=
  mk_world (smp w) (conn w) (ks w) (rng w) (bt_auth w) (bondable w) (oobd_present w) (sc_supported w) (sc_public_key w) x (smp_allocs w) (ident_cbs w) (log w).
Definition set_smp_allocs (x : list bool) (w : smp_world F R) : smp_world F R :=
  mk_world (smp w) (conn w) (ks w) (rng w) (bt_auth w) (bondable w) (oobd_present w) (sc_supported w) (sc_public_key w) (ecc w) x (ident_cbs w) (log w).
Definition set_ident_cbs (x : nat) (w : smp_world F R) : smp_world F R :=
  mk_world (smp w) (conn w) (ks w) (rng w) (bt_auth w) (bondable w) (oobd_present w) (sc_supported w) (sc_public_key w) (ecc w) (smp_allocs w) x (log w).
Definition set_log (x : list item) (w : smp_world F R) : smp_world F R :=
  mk_world (smp w) (conn w) (ks w) (rng w) (bt_auth w) (bondable w) (oobd_present w) (sc_supported w) (sc_public_key w) (ecc w) (smp_allocs w) (ident_cbs w) x.
End updates.

(** ** Helpers *)

Section helpers.
Context {F R : Type}.
Implicit Types (w : smp_world F R).

Definition upd_smp (f : bt_smp -> bt_smp) w : smp_world F R := set_smp (f (smp w)) w.
Definition upd_conn (f : le_conn -> le_conn) w : smp_world F R := set_conn (f (conn w)) w.

(** [atomic_test_bit], [atomic_set_bit] and [atomic_clear_bit] on [flags], and
    [atomic_set_bit] on [allowed_cmds]. *)
Definition has (flag : Z) w : bool := Z.testbit (flags (smp w)) flag.
Definition set_flag (flag : Z) w : smp_world F R := upd_smp (fun s => set_flags (Z.setbit (flags s) flag) s) w.
Definition clear_flag (flag : Z) w : smp_world F R := upd_smp (fun s => set_flags (Z.clearbit (flags s) flag) s) w.
Definition allow (cmd : Z) w : smp_world F R := upd_smp (fun s => set_allowed_cmds (Z.setbit (allowed_cmds s) cmd) s) w.

Definition logs (x : item) w : smp_world F R := set_log (log w ++ [x]) w.

(** The callback of the application that is tested is there. *)
Definition auth_has (cb : bt_conn_auth_cb -> bool) w : bool := match bt_auth w with Some a => cb a | None => false end.

(** What [conn->le.keys] points to. *)
Definition keys_of w : option bt_keys := i ← le_keys (conn w); pool (ks w) !! i.
Definition upd_keys (f : bt_keys -> bt_keys) w : smp_world F R :=
  match le_keys (conn w) with Some i => set_ks (alter_key f i (ks w)) w | None => w end.
Definition keys_bit (f : bt_keys -> Z) (mask : Z) w : bool := match keys_of w with Some k => nz (f k .& mask) | None => false end.

(** [if (!conn->le.keys) { conn->le.keys = bt_keys_get_addr(...); }] *)
Definition conn_get_keys w : smp_world F R :=
  match le_keys (conn w) with
  | Some _ => w
  | None =>
      let '(k, s) := bt_keys_get_addr (le_id (conn w)) (le_dst (conn w)) (ks w) in
      upd_conn (set_le_keys k) (set_ks s w)
  end.
End helpers.

(** The fields of [struct bt_smp_pairing] behind the code of the PDU. *)
Definition byte_at (i : nat) (p : list Z) : Z := default 0 (p !! i).
Definition io_capability (p : list Z) : Z := byte_at 1 p.
Definition oob_flag (p : list Z) : Z := byte_at 2 p.
Definition auth_req (p : list Z) : Z := byte_at 3 p.
Definition max_key_size (p : list Z) : Z := byte_at 4 p.
Definition init_key_dist (p : list Z) : Z := byte_at 5 p.
Definition resp_key_dist (p : list Z) : Z := byte_at 6 p.

(** [gen_method_legacy] and [gen_method_sc], by the remote and the local capability. *)
Definition gen_method_legacy : list (list pairing_method) :=
  [[JUST_WORKS; JUST_WORKS; PASSKEY_INPUT; JUST_WORKS; PASSKEY_INPUT];
   [JUST_WORKS; JUST_WORKS; PASSKEY_INPUT; JUST_WORKS; PASSKEY_INPUT];
   [PASSKEY_DISPLAY; PASSKEY_DISPLAY; PASSKEY_INPUT; JUST_WORKS; PASSKEY_DISPLAY];
   [JUST_WORKS; JUST_WORKS; JUST_WORKS; JUST_WORKS; JUST_WORKS];
   [PASSKEY_DISPLAY; PASSKEY_DISPLAY; PASSKEY_INPUT; JUST_WORKS; PASSKEY_ROLE]].
Definition gen_method_sc : list (list pairing_method) :=
  [[JUST_WORKS; JUST_WORKS; PASSKEY_INPUT; JUST_WORKS; PASSKEY_INPUT];
   [JUST_WORKS; PASSKEY_CONFIRM; PASSKEY_INPUT; JUST_WORKS; PASSKEY_CONFIRM];
   [PASSKEY_DISPLAY; PASSKEY_DISPLAY; PASSKEY_INPUT; JUST_WORKS; PASSKEY_DISPLAY];
   [JUST_WORKS; JUST_WORKS; JUST_WORKS; JUST_WORKS; JUST_WORKS];
   [PASSKEY_DISPLAY; PASSKEY_CONFIRM; PASSKEY_INPUT; JUST_WORKS; PASSKEY_CONFIRM]].
Definition table_at (t : list (list pairing_method)) (remote local : Z) : pairing_method :=
  default JUST_WORKS (t !! Z.to_nat remote ≫= (fun row => row !! Z.to_nat local)).

Definition sc_debug_public_key : list Z :=
  [0xe6; 0x9d; 0x35; 0x0e; 0x48; 0x01; 0x03; 0xcc; 0xdb; 0xfd; 0xf4; 0xac; 0x11; 0x91; 0xf4; 0xef;
   0xb9; 0xa5; 0xf9; 0xe9; 0xa7; 0x83; 0x2c; 0x5e; 0x2c; 0xbe; 0x97; 0xf2; 0xd2; 0x03; 0xb0; 0x20;
   0x8b; 0xd2; 0x89; 0x15; 0xd0; 0x8e; 0x1c; 0x74; 0x24; 0x30; 0xed; 0x8f; 0xc2; 0x45; 0x63; 0x76;
   0x5c; 0x15; 0x52; 0x5a; 0xbf; 0x9a; 0x32; 0x63; 0x6d; 0xeb; 0x2a; 0x65; 0x49; 0x9c; 0x80; 0xdc].

Definition auth_err_get (smp_err : Z) : Z :=
  if (smp_err =? BT_SMP_ERR_PASSKEY_ENTRY_FAILED) || (smp_err =? BT_SMP_ERR_DHKEY_CHECK_FAILED) ||
     (smp_err =? BT_SMP_ERR_NUMERIC_COMP_FAILED) || (smp_err =? BT_SMP_ERR_CONFIRM_FAILED) then BT_SECURITY_ERR_AUTH_FAIL
  else if smp_err =? BT_SMP_ERR_OOB_NOT_AVAIL then BT_SECURITY_ERR_OOB_NOT_AVAILABLE
  else if (smp_err =? BT_SMP_ERR_AUTH_REQUIREMENTS) || (smp_err =? BT_SMP_ERR_ENC_KEY_SIZE) then BT_SECURITY_ERR_AUTH_REQUIREMENT
  else if (smp_err =? BT_SMP_ERR_PAIRING_NOTSUPP) || (smp_err =? BT_SMP_ERR_CMD_NOTSUPP) then BT_SECURITY_ERR_PAIR_NOT_SUPPORTED
  else if (smp_err =? BT_SMP_ERR_REPEATED_ATTEMPTS) || (smp_err =? BT_SMP_ERR_BREDR_PAIRING_IN_PROGRESS) ||
          (smp_err =? BT_SMP_ERR_CROSS_TRANSP_NOT_ALLOWED) then BT_SECURITY_ERR_PAIR_NOT_ALLOWED
  else if smp_err =? BT_SMP_ERR_INVALID_PARAMS then BT_SECURITY_ERR_INVALID_PARAM
  else BT_SECURITY_ERR_UNSPECIFIED.

(** ** The context of a pairing *)

Section context.
Context {F R : Type} `{!Nvs F, !TinyPrng R, !Crypto}.
Implicit Types (w : smp_world F R).

Definition get_io_capa w : Z :=
  match bt_auth w with
  | None => BT_SMP_IO_NO_INPUT_OUTPUT
  | Some a =>
      if passkey_display a && passkey_entry a && (passkey_confirm a || negb (sc_supported w)) then BT_SMP_IO_KEYBOARD_DISPLAY
      else if sc_supported w && passkey_display a && passkey_confirm a then BT_SMP_IO_DISPLAY_YESNO
      else if passkey_entry a then BT_SMP_IO_KEYBOARD_ONLY
      else if passkey_display a then BT_SMP_IO_DISPLAY_ONLY
      else BT_SMP_IO_NO_INPUT_OUTPUT
  end.

Definition get_encryption_key_size w : Z := Z.min (max_key_size (preq (smp w))) (max_key_size (prsp (smp w))).

(** The keys of the peer, if the connection has none yet. *)
Definition conn_find_keys (types : list Z) w : smp_world F R :=
  match le_keys (conn w) with
  | Some _ => w
  | None =>
      upd_conn (set_le_keys (foldl (fun k type => match k with
                                                  | Some _ => k
                                                  | None => bt_keys_find type (le_id (conn w)) (le_dst (conn w)) (pool (ks w))
                                                  end) None types)) w
  end.

Definition smp_keys_check w : bool * smp_world F R :=
  if force_pair (conn w) then (false, w)
  else
    let w := conn_find_keys [BT_KEYS_LTK_P256; BT_KEYS_LTK] w in
    let required := required_sec_level (conn w) in
    let size := match keys_of w with Some k => enc_size k | None => 0 end in
    let authenticated := keys_bit keys_flags BT_KEYS_AUTHENTICATED w in
    (if negb (keys_bit keys_keys (BT_KEYS_LTK .| BT_KEYS_LTK_P256) w) then false
     else if (BT_SECURITY_L2 <? required) && negb authenticated then false
     else if (BT_SECURITY_L3 <? required) && negb authenticated && negb (keys_bit keys_keys BT_KEYS_LTK_P256 w) &&
             negb (size =? BT_SMP_MAX_ENC_KEY_SIZE) then false
     else true, w).

Definition legacy_get_pair_method (remote_io : Z) w : pairing_method :=
  let req := preq (smp w) in
  let rsp := prsp (smp w) in
  if BT_SMP_IO_KEYBOARD_DISPLAY <? remote_io then JUST_WORKS
  else if nz (oob_flag req .& oob_flag rsp .& BT_SMP_OOB_DATA_MASK) then LEGACY_OOB
  else if negb (nz ((auth_req req .| auth_req rsp) .& BT_SMP_AUTH_MITM)) then JUST_WORKS
  else
    match table_at gen_method_legacy remote_io (get_io_capa w) with
    | PASSKEY_ROLE => PASSKEY_INPUT
    | method => method
    end.

Definition get_pair_method (remote_io : Z) w : pairing_method :=
  let req := preq (smp w) in
  let rsp := prsp (smp w) in
  if negb (has SMP_FLAG_SC w) then legacy_get_pair_method remote_io w
  else if nz (auth_req req .& auth_req rsp .& BT_SMP_AUTH_SC) && nz ((oob_flag req .| oob_flag rsp) .& BT_SMP_OOB_DATA_MASK) then LE_SC_OOB
  else if BT_SMP_IO_KEYBOARD_DISPLAY <? remote_io then JUST_WORKS
  else if negb (nz ((auth_req req .| auth_req rsp) .& BT_SMP_AUTH_MITM)) then JUST_WORKS
  else table_at gen_method_sc remote_io (get_io_capa w).

(** The PDU so far. *)
Definition smp_create_pdu (op : Z) w : option (list Z) * smp_world F R :=
  let ok := default true (head (smp_allocs w)) in
  let w := set_smp_allocs (tail (smp_allocs w)) w in
  if ok then (Some [op], w) else (None, set_flag SMP_FLAG_TIMEOUT w).

Definition bt_l2cap_send (buf : list Z) w : smp_world F R := logs (Tx buf) w.
Definition smp_send (buf : list Z) w : smp_world F R := upd_smp (set_smp_work true) (bt_l2cap_send buf w).

(** Allocating a PDU, filling it and sending it, as most functions do. *)
Definition send_pdu (op : Z) (payload : list Z) w : Z * smp_world F R :=
  match smp_create_pdu op w with
  | (None, w) => (BT_SMP_ERR_UNSPECIFIED, w)
  | (Some buf, w) => (0, smp_send (buf ++ payload) w)
  end.

Definition rand_bytes (len : Z) w : Z * list Z * smp_world F R :=
  let '(err, buf, st) := bt_rand len (rng w) in (err, buf, set_rng st w).

(** Whether a new pairing may replace the keys of an existing bond.
    [CONFIG_BT_SMP_ALLOW_UNAUTH_OVERWRITE] is not set. *)
Definition update_keys_check w : bool * smp_world F R :=
  let w := conn_get_keys w in
  (match keys_of w with
   | None => true
   | Some k =>
       if negb (nz (keys_keys k .& (BT_KEYS_LTK_P256 .| BT_KEYS_LTK))) then true
       else if get_encryption_key_size w <? enc_size k then false
       else if nz (keys_keys k .& BT_KEYS_LTK_P256) && negb (has SMP_FLAG_SC w) then false
       else if nz (keys_flags k .& BT_KEYS_AUTHENTICATED) && bool_decide (method (smp w) = JUST_WORKS) then false
       else if negb (nz (keys_flags k .& BT_KEYS_AUTHENTICATED)) && bool_decide (method (smp w) = JUST_WORKS) then false
       else true
   end, w).

Definition update_debug_keys_check w : bool * smp_world F R :=
  let w := conn_get_keys w in
  (match keys_of w with
   | None => true
   | Some k =>
       if negb (nz (keys_keys k .& (BT_KEYS_LTK_P256 .| BT_KEYS_LTK))) then true
       else if nz (keys_flags k .& BT_KEYS_DEBUG) then false
       else true
   end, w).

(** ** The end of a pairing *)

Definition smp_reset w : smp_world F R :=
  let w := upd_smp (fun s => set_smp_work false (set_method JUST_WORKS (set_allowed_cmds 0 (set_flags 0 s)))) w in
  let w :=
    if negb (required_sec_level (conn w) =? sec_level (conn w)) then upd_conn (set_required_sec_level (sec_level (conn w))) w else w in
  allow BT_SMP_CMD_PAIRING_REQ w.

(** conn.c: [encrypt_change] is what the channels do with the result of an encryption. *)
Definition reset_pairing w : smp_world F R := upd_conn (set_required_sec_level (sec_level (conn w))) w.
Definition bt_conn_security_changed (encrypt_change : Z -> smp_world F R -> smp_world F R) (hci_err err : Z) w : smp_world F R :=
  let w := encrypt_change hci_err (reset_pairing w) in
  logs (Up (Security_changed (sec_level (conn w)) err)) w.

(** [bt_smp_encrypt_change] for an encryption that failed. *)
Definition encrypt_failed (hci_status : Z) w : smp_world F R := clear_flag SMP_FLAG_ENC_PENDING w.

Definition smp_pairing_complete (status : Z) w : smp_world F R :=
  let w :=
    if status =? 0 then
      let bond_flag := has SMP_FLAG_BOND w in
      let w := if bond_flag then match le_keys (conn w) with Some i => set_ks (bt_keys_store i (ks w)).2 w | None => w end else w in
      if auth_has pairing_complete w then logs (Up (Pairing_complete bond_flag)) w else w
    else
      let auth_err := auth_err_get status in
      let w :=
        match le_keys (conn w), keys_of w with
        | Some i, Some k =>
            if (enc_size k =? 0) || has SMP_FLAG_KEYS_DISTR w
            then upd_conn (set_le_keys None) (set_ks (bt_keys_clear i (ks w)) w) else w
        | _, _ => w
        end in
      let w := if negb (has SMP_FLAG_KEYS_DISTR w) then bt_conn_security_changed encrypt_failed status auth_err w else w in
      if auth_has pairing_failed w then logs (Up (Pairing_failed auth_err)) w else w in
  smp_reset w.

Definition smp_timeout w : smp_world F R :=
  set_flag SMP_FLAG_TIMEOUT (smp_pairing_complete BT_SMP_ERR_UNSPECIFIED w).

(** The timer is not restarted. *)
Definition smp_error (reason : Z) w : Z * smp_world F R :=
  let w := smp_pairing_complete reason w in
  match smp_create_pdu BT_SMP_CMD_PAIRING_FAIL w with
  | (None, w) => (- ENOBUFS, w)
  | (Some buf, w) => (0, bt_l2cap_send (buf ++ [reason]) w)
  end.

Definition smp_check_complete (dist_complete : Z) w : smp_world F R :=
  let w := upd_smp (fun s => set_local_dist (Z.ldiff (local_dist s) dist_complete) s) w in
  if (local_dist (smp w) =? 0) && (remote_dist (smp w) =? 0) then smp_pairing_complete 0 w else w.

(** The callback of a PDU that was sent. *)
Definition smp_ident_sent w : smp_world F R := smp_check_complete BT_SMP_DIST_ENC_KEY w.
End context.

(** ** Sending *)

Section sending.
Context {F R : Type} `{!Nvs F, !TinyPrng R, !Crypto}.
Implicit Types (w : smp_world F R).

Definition smp_send_pairing_random w : Z * smp_world F R := send_pdu BT_SMP_CMD_PAIRING_RANDOM (prnd (smp w)) w.

(** [sc_public_key] where it is used: it is not [NULL] there. *)
Definition local_pkey w : list Z := default [] (sc_public_key w).

(** The bit of the passkey that is confirmed in this round. *)
Definition passkey_bit (passkey round : Z) : Z := ((passkey .>> round) .& 0x01) .| 0x80.

(** The value [r] of the confirmations of Secure Connections, by the method. *)
Definition confirm_r w : option Z :=
  match method (smp w) with
  | PASSKEY_CONFIRM | JUST_WORKS => Some 0
  | PASSKEY_DISPLAY | PASSKEY_INPUT => Some (passkey_bit (passkey (smp w)) (passkey_round (smp w)))
  | _ => None
  end.

Definition smp_send_pairing_confirm w : Z * smp_world F R :=
  match confirm_r w with
  | None => (BT_SMP_ERR_UNSPECIFIED, w)
  | Some r =>
      match smp_create_pdu BT_SMP_CMD_PAIRING_CONFIRM w with
      | (None, w) => (BT_SMP_ERR_UNSPECIFIED, w)
      | (Some buf, w) =>
          match smp_f4 (local_pkey w) (pkey (smp w)) (prnd (smp w)) r with
          | None => (BT_SMP_ERR_UNSPECIFIED, w)
          | Some val => (0, clear_flag SMP_FLAG_CFM_DELAYED (smp_send (buf ++ val) w))
          end
      end
  end.

Definition send_pairing_rsp w : Z * smp_world F R := send_pdu BT_SMP_CMD_PAIRING_RSP (drop 1 (prsp (smp w))) w.

Definition sc_send_public_key w : Z * smp_world F R := send_pdu BT_SMP_CMD_PUBLIC_KEY (take 64 (local_pkey w)) w.

Definition sc_smp_send_dhkey_check (e : list Z) w : Z * smp_world F R := send_pdu BT_SMP_DHKEY_CHECK e w.

(** The first [enc_size] bytes of a key, with zeros behind. *)
Definition cut_key (enc_size : Z) (key : list Z) : list Z :=
  take (Z.to_nat enc_size) key ++ zeros (16 - Z.to_nat enc_size).

(** [keys] is the entry the connection points to.  The result of [bt_rand] is not looked at. *)
Definition legacy_distribute_keys (keys : bt_keys) w : smp_world F R :=
  if nz (local_dist (smp w) .& BT_SMP_DIST_ENC_KEY) then
    let '(_, rand, w) := rand_bytes 26 w in
    match smp_create_pdu BT_SMP_CMD_ENCRYPT_INFO w with
    | (None, w) => w
    | (Some buf, w) =>
        let w := smp_send (buf ++ cut_key (enc_size keys) (slice 0 16 rand)) w in
        match smp_create_pdu BT_SMP_CMD_MASTER_IDENT w with
        | (None, w) => w
        | (Some buf, w) =>
            let w := smp_send (buf ++ slice 24 2 rand ++ slice 16 8 rand) w in
            let w := set_ident_cbs (S (ident_cbs w)) w in
            if has SMP_FLAG_BOND w
            then upd_keys (fun k => with_slave_ltk (mk_ltk (slice 16 8 rand) (slice 24 2 rand) (slice 0 16 rand))
                                      (bt_keys_add_type BT_KEYS_SLAVE_LTK k)) w
            else w
        end
    end
  else w.

Definition bt_smp_distribute_keys w : Z * smp_world F R :=
  match keys_of w with
  | None => (BT_SMP_ERR_UNSPECIFIED, w)
  | Some keys => (0, if negb (has SMP_FLAG_SC w) then legacy_distribute_keys keys w else w)
  end.

(** ** Legacy pairing *)

Definition put_tk (bytes : list Z) (s : bt_smp) : bt_smp := set_tk (bytes ++ drop (length bytes) (tk s)) s.

Definition legacy_request_tk w : Z * smp_world F R :=
  let keys := bt_keys_find_addr (le_id (conn w)) (le_dst (conn w)) (pool (ks w)) ≫= (fun i => pool (ks w) !! i) in
  if match keys with Some k => nz (keys_flags k .& BT_KEYS_AUTHENTICATED) | None => false end &&
     bool_decide (method (smp w) = JUST_WORKS) then (BT_SMP_ERR_UNSPECIFIED, w)
  else
    match method (smp w) with
    | LEGACY_OOB =>
        if auth_has oob_data_request w then (0, logs (Up (Oob_data_request false 0)) (set_flag SMP_FLAG_USER w))
        else (BT_SMP_ERR_OOB_NOT_AVAIL, w)
    | PASSKEY_DISPLAY =>
        let '(err, buf, w) := rand_bytes 4 w in
        if nz err then (BT_SMP_ERR_UNSPECIFIED, w)
        else
          let passkey := le_value buf mod 1000000 in
          let w := if auth_has passkey_display w then logs (Up (Passkey_display passkey)) (set_flag SMP_FLAG_DISPLAY w) else w in
          (0, upd_smp (put_tk (le_bytes 4 passkey)) w)
    | PASSKEY_INPUT => (0, logs (Up Passkey_entry) (set_flag SMP_FLAG_USER w))
    | JUST_WORKS => (0, w)
    | _ => (BT_SMP_ERR_UNSPECIFIED, w)
    end.

Definition legacy_send_pairing_confirm w : Z * smp_world F R :=
  match smp_create_pdu BT_SMP_CMD_PAIRING_CONFIRM w with
  | (None, w) => (BT_SMP_ERR_UNSPECIFIED, w)
  | (Some buf, w) =>
      match smp_c1 (tk (smp w)) (prnd (smp w)) (preq (smp w)) (prsp (smp w)) (init_addr (conn w)) (resp_addr (conn w)) with
      | None => (BT_SMP_ERR_UNSPECIFIED, w)
      | Some val => (0, clear_flag SMP_FLAG_CFM_DELAYED (smp_send (buf ++ val) w))
      end
  end.

(** Consent is asked for if the pairing is not due to a security request. *)
Definition asks_consent w : bool :=
  bool_decide (method (smp w) = JUST_WORKS) && negb (has SMP_FLAG_SEC_REQ w) && auth_has pairing_confirm w.
Definition ask_consent w : smp_world F R := logs (Up Pairing_confirm) (set_flag SMP_FLAG_USER w).

Definition legacy_pairing_req w : Z * smp_world F R :=
  if asks_consent w then (0, ask_consent w)
  else
    let '(ret, w) := send_pairing_rsp w in
    if nz ret then (ret, w) else legacy_request_tk (allow BT_SMP_CMD_PAIRING_CONFIRM w).

Definition legacy_pairing_random w : Z * smp_world F R :=
  match smp_c1 (tk (smp w)) (rrnd (smp w)) (preq (smp w)) (prsp (smp w)) (init_addr (conn w)) (resp_addr (conn w)) with
  | None => (BT_SMP_ERR_UNSPECIFIED, w)
  | Some tmp =>
      if negb (bool_decide (pcnf (smp w) = tmp)) then (BT_SMP_ERR_CONFIRM_FAILED, w)
      else
        match smp_s1 (tk (smp w)) (prnd (smp w)) (rrnd (smp w)) with
        | None => (BT_SMP_ERR_UNSPECIFIED, w)
        | Some tmp => smp_send_pairing_random (set_flag SMP_FLAG_ENC_PENDING (upd_smp (set_tk tmp) w))
        end
  end.

Definition legacy_pairing_confirm w : Z * smp_world F R :=
  if negb (has SMP_FLAG_USER w) then legacy_send_pairing_confirm (allow BT_SMP_CMD_PAIRING_RANDOM w)
  else (0, set_flag SMP_FLAG_CFM_DELAYED w).

Definition legacy_user_tk_entry w : smp_world F R :=
  if negb (has SMP_FLAG_CFM_DELAYED w) then w
  else
    let '(err, w) := legacy_pairing_confirm (clear_flag SMP_FLAG_CFM_DELAYED w) in
    if nz err then (smp_error BT_SMP_ERR_PASSKEY_ENTRY_FAILED w).2 else allow BT_SMP_CMD_PAIRING_RANDOM w.

Definition legacy_passkey_entry (passkey : Z) w : smp_world F R :=
  legacy_user_tk_entry (upd_smp (put_tk (le_bytes 4 passkey)) w).

(** The entry of the peer for a key of this type, made if need be. *)
Definition get_type (type : Z) w : option nat * smp_world F R :=
  let '(k, s) := bt_keys_get_type type (le_id (conn w)) (le_dst (conn w)) (ks w) in (k, set_ks s w).
Definition alter_entry (i : nat) (f : bt_keys -> bt_keys) w : smp_world F R := set_ks (alter_key f i (ks w)) w.

(** [buf] is the PDU behind its code in what follows. *)
Definition smp_encrypt_info (buf : list Z) w : Z * smp_world F R :=
  let '(err, w) :=
    if has SMP_FLAG_BOND w then
      match get_type BT_KEYS_LTK w with
      | (None, w) => (BT_SMP_ERR_UNSPECIFIED, w)
      | (Some i, w) => (0, alter_entry i (fun k => with_ltk (mk_ltk (ltk_rand (ltk k)) (ltk_ediv (ltk k)) (slice 0 16 buf)) k) w)
      end
    else (0, w) in
  if nz err then (err, w) else (0, allow BT_SMP_CMD_MASTER_IDENT w).

Definition clear_remote_dist (bit : Z) w : smp_world F R := upd_smp (fun s => set_remote_dist (Z.ldiff (remote_dist s) bit) s) w.

(** [if (!smp->local_dist && !smp->remote_dist) { smp_pairing_complete(smp, 0); }] *)
Definition complete_if_distributed w : smp_world F R :=
  if (local_dist (smp w) =? 0) && (remote_dist (smp w) =? 0) then smp_pairing_complete 0 w else w.

Definition smp_master_ident (buf : list Z) w : Z * smp_world F R :=
  let '(err, w) :=
    if has SMP_FLAG_BOND w then
      match get_type BT_KEYS_LTK w with
      | (None, w) => (BT_SMP_ERR_UNSPECIFIED, w)
      | (Some i, w) =>
          (0, clear_remote_dist BT_SMP_DIST_ENC_KEY
                (alter_entry i (fun k => with_ltk (mk_ltk (slice 2 8 buf) (slice 0 2 buf) (ltk_val (ltk k))) k) w))
      end
    else (0, w) in
  if nz err then (err, w)
  else
    let w :=
      if nz (remote_dist (smp w) .& BT_SMP_DIST_ID_KEY) then allow BT_SMP_CMD_IDENT_INFO w
      else if nz (remote_dist (smp w) .& BT_SMP_DIST_SIGN) then allow BT_SMP_CMD_SIGNING_INFO w else w in
    (0, complete_if_distributed w).
End sending.

(** ** Requests *)

(** A context with all its fields 0, and the timer as it is. *)
Definition smp_zero (work : bool) : bt_smp :=
  mk_smp 0 0 JUST_WORKS (zeros 7) (zeros 7) (zeros 16) (zeros 16) (zeros 16) (zeros 16) (zeros 64) (zeros 32) (zeros 16)
    (zeros 16) 0 0 None None 0 0 work.

Section requests.
Context {F R : Type} `{!Nvs F, !TinyPrng R, !Crypto}.
Implicit Types (w : smp_world F R).

Definition bt_pub_key_get w : option (list Z) := pub_key (ecc w).

Definition smp_init w : Z * smp_world F R :=
  let w := upd_smp (fun s => smp_zero (smp_work s)) w in
  let '(err, buf, w) := rand_bytes 16 w in
  let w := upd_smp (set_prnd buf) w in
  if nz err then (BT_SMP_ERR_UNSPECIFIED, w)
  else
    let w := allow BT_SMP_CMD_PAIRING_FAIL w in
    (0, set_sc_public_key (bt_pub_key_get w) w).

Definition bt_set_bondable (enable : bool) w : smp_world F R := set_bondable enable w.
Definition bt_set_oob_data_flag (enable : bool) w : smp_world F R := set_oobd_present enable w.

(** [CONFIG_BT_SMP_ENFORCE_MITM] is set. *)
Definition get_auth (auth : Z) w : Z :=
  let auth := auth .& (if sc_supported w then BT_SMP_AUTH_MASK_SC else BT_SMP_AUTH_MASK) in
  let auth :=
    if get_io_capa w =? BT_SMP_IO_NO_INPUT_OUTPUT then Z.ldiff auth BT_SMP_AUTH_MITM else auth .| BT_SMP_AUTH_MITM in
  if bondable w then auth .| BT_SMP_AUTH_BONDING else Z.ldiff auth BT_SMP_AUTH_BONDING.

Definition sec_level_reachable w : bool :=
  let required := required_sec_level (conn w) in
  let interactive := negb (get_io_capa w =? BT_SMP_IO_NO_INPUT_OUTPUT) || auth_has oob_data_request w in
  if (required =? BT_SECURITY_L1) || (required =? BT_SECURITY_L2) then true
  else if required =? BT_SECURITY_L3 then interactive
  else if required =? BT_SECURITY_L4 then interactive && sc_supported w
  else false.

(** The key of a bond for the controller. *)
Definition stored_ltk (rand ediv : Z) w : option (list Z) * smp_world F R :=
  let w := conn_find_keys [BT_KEYS_LTK_P256; BT_KEYS_SLAVE_LTK] w in
  let fail w :=
    let w :=
      if has SMP_FLAG_SEC_REQ w
      then bt_conn_security_changed encrypt_failed BT_HCI_ERR_PIN_OR_KEY_MISSING BT_SECURITY_ERR_PIN_OR_KEY_MISSING w else w in
    (None, smp_reset w) in
  match keys_of w with
  | None => fail w
  | Some k =>
      if (ediv =? 0) && (rand =? 0) && nz (keys_keys k .& BT_KEYS_LTK_P256) then (Some (cut_key (enc_size k) (ltk_val (ltk k))), w)
      else if nz (keys_keys k .& BT_KEYS_SLAVE_LTK) && bool_decide (ltk_rand (slave_ltk k) = le_bytes 8 rand) &&
              bool_decide (ltk_ediv (slave_ltk k) = le_bytes 2 ediv) then
        (Some (cut_key (enc_size k) (ltk_val (slave_ltk k))), set_flag SMP_FLAG_ENC_PENDING w)
      else fail w
  end.

(** The key the controller gets, if there is one. *)
Definition bt_smp_request_ltk (rand ediv : Z) w : option (list Z) * smp_world F R :=
  if (ediv =? 0) && (rand =? 0) && has SMP_FLAG_PAIRING w && has SMP_FLAG_ENC_PENDING w then
    (Some (cut_key (get_encryption_key_size w) (tk (smp w))), set_flag SMP_FLAG_ENC_PENDING w)
  else stored_ltk rand ediv w.

Definition smp_send_security_req w : Z * smp_world F R :=
  if has SMP_FLAG_TIMEOUT w then (- EIO, w)
  else if has SMP_FLAG_PAIRING w then (- EBUSY, w)
  else if has SMP_FLAG_ENC_PENDING w then (- EBUSY, w)
  else
    let '(ok, w) := if sec_level_reachable w then (true, w) else smp_keys_check w in
    if negb ok then (- EINVAL, w)
    else
      let w := conn_get_keys w in
      match le_keys (conn w) with
      | None => (- ENOMEM, w)
      | Some _ =>
          let '(err, w) := smp_init w in
          if nz err then (- ENOBUFS, w)
          else
            match smp_create_pdu BT_SMP_CMD_SECURITY_REQUEST w with
            | (None, w) => (- ENOBUFS, w)
            | (Some buf, w) =>
                let w := bt_l2cap_send (buf ++ [get_auth BT_SMP_AUTH_DEFAULT w]) w in
                (0, allow BT_SMP_CMD_PAIRING_REQ (set_flag SMP_FLAG_SEC_REQ w))
            end
      end.

(** The response to a pairing request [preq]. *)
Definition pairing_rsp (preq : list Z) w : list Z :=
  let auth := get_auth (auth_req preq) w in
  let sc := nz (auth .& BT_SMP_AUTH_SC) && nz (auth_req preq .& BT_SMP_AUTH_SC) in
  let init := init_key_dist preq .& RECV_KEYS in
  let resp := resp_key_dist preq .& SEND_KEYS in
  [BT_SMP_CMD_PAIRING_RSP; get_io_capa w; if oobd_present w then BT_SMP_OOB_PRESENT else BT_SMP_OOB_NOT_PRESENT; auth;
   BT_SMP_MAX_ENC_KEY_SIZE; if sc then init .& RECV_KEYS_SC else init; if sc then resp .& SEND_KEYS_SC else resp].

(** Both sides' authentication requirements have this bit. *)
Definition both_auth (bit : Z) w : bool := nz (auth_req (prsp (smp w)) .& bit) && nz (auth_req (preq (smp w)) .& bit).

(** A pairing begins with the request [req]. *)
Definition pairing_begin (req : list Z) w : smp_world F R :=
  let w := upd_smp (fun s => set_prsp (pairing_rsp req w) (set_preq req s)) w in
  let w := if both_auth BT_SMP_AUTH_SC w then set_flag SMP_FLAG_SC w else w in
  let w := if both_auth BT_SMP_AUTH_CT2 w then set_flag SMP_FLAG_CT2 w else w in
  let w := upd_smp (fun s => set_remote_dist (init_key_dist (prsp s)) (set_local_dist (resp_key_dist (prsp s)) s)) w in
  let w := if both_auth BT_SMP_AUTH_BONDING w then set_flag SMP_FLAG_BOND w else w in
  let w := set_flag SMP_FLAG_PAIRING w in
  upd_smp (set_method (get_pair_method (io_capability req) w)) w.

Definition smp_pairing_req (buf : list Z) w : Z * smp_world F R :=
  let req := BT_SMP_CMD_PAIRING_REQ :: slice 0 6 buf in
  if (BT_SMP_MAX_ENC_KEY_SIZE <? max_key_size req) || (max_key_size req <? BT_SMP_MIN_ENC_KEY_SIZE)
  then (BT_SMP_ERR_ENC_KEY_SIZE, w)
  else
    let w := conn_get_keys w in
    match le_keys (conn w) with
    | None => (BT_SMP_ERR_UNSPECIFIED, w)
    | Some _ =>
        let '(ret, w) := if negb (has SMP_FLAG_SEC_REQ w) then smp_init w else (0, w) in
        if nz ret then (ret, w)
        else
          let '(ok, w) := update_keys_check (pairing_begin req w) in
          if negb ok then (BT_SMP_ERR_AUTH_REQUIREMENTS, w)
          else if negb (has SMP_FLAG_SC w) then legacy_pairing_req w
          else if (required_sec_level (conn w) =? BT_SECURITY_L4) && bool_decide (method (smp w) = JUST_WORKS)
          then (BT_SMP_ERR_AUTH_REQUIREMENTS, w)
          else if (required_sec_level (conn w) =? BT_SECURITY_L4) &&
                  negb (get_encryption_key_size w =? BT_SMP_MAX_ENC_KEY_SIZE) then (BT_SMP_ERR_ENC_KEY_SIZE, w)
          else if asks_consent w then (0, ask_consent w)
          else send_pairing_rsp (allow BT_SMP_CMD_PUBLIC_KEY w)
    end.
End requests.

(** ** Secure Connections *)

Section secure_connections.
Context {F R : Type} `{!Nvs F, !TinyPrng R, !Crypto}.
Implicit Types (w : smp_world F R).

Definition smp_pairing_confirm (buf : list Z) w : Z * smp_world F R :=
  let w := clear_flag SMP_FLAG_DISPLAY w in
  let w := upd_smp (set_pcnf (slice 0 16 buf)) w in
  if negb (has SMP_FLAG_SC w) then legacy_pairing_confirm w
  else
    match method (smp w) with
    | PASSKEY_DISPLAY => smp_send_pairing_confirm (allow BT_SMP_CMD_PAIRING_RANDOM w)
    | PASSKEY_INPUT =>
        if has SMP_FLAG_USER w then (0, set_flag SMP_FLAG_CFM_DELAYED w)
        else smp_send_pairing_confirm (allow BT_SMP_CMD_PAIRING_RANDOM w)
    | _ => (BT_SMP_ERR_UNSPECIFIED, w)
    end.

Definition oob_r_or_zero (d : option bt_le_oob_sc_data) : list Z := match d with Some d => oob_r d | None => zeros 16 end.

(** The value [r] of the local and of the remote DHKey check, by the method. *)
Definition dhcheck_r (oobd : option bt_le_oob_sc_data) w : option (list Z) :=
  match method (smp w) with
  | JUST_WORKS | PASSKEY_CONFIRM => Some (zeros 16)
  | PASSKEY_DISPLAY | PASSKEY_INPUT => Some (le_bytes 4 (passkey (smp w)) ++ zeros 12)
  | LE_SC_OOB => Some (oob_r_or_zero oobd)
  | _ => None
  end.

Definition compute_and_check_and_send_slave_dhcheck w : Z * smp_world F R :=
  match dhcheck_r (oobd_remote (smp w)) w with
  | None => (BT_SMP_ERR_UNSPECIFIED, w)
  | Some r =>
      let ia := init_addr (conn w) in
      let ra := resp_addr (conn w) in
      let '(mk, ltk) := smp_f5 (dhkey (smp w)) (rrnd (smp w)) (prnd (smp w)) ia ra in
      let w := match mk with Some x => upd_smp (set_mackey x) w | None => w end in
      match ltk with
      | None => (BT_SMP_ERR_UNSPECIFIED, w)
      | Some ltk =>
          let w := upd_smp (set_tk ltk) w in
          match smp_f6 (mackey (smp w)) (prnd (smp w)) (rrnd (smp w)) r (drop 1 (prsp (smp w))) ra ia with
          | None => (BT_SMP_ERR_UNSPECIFIED, w)
          | Some e =>
              let r := default r (dhcheck_r (oobd_local (smp w)) w) in
              match smp_f6 (mackey (smp w)) (rrnd (smp w)) (prnd (smp w)) r (drop 1 (preq (smp w))) ia ra with
              | None => (BT_SMP_ERR_UNSPECIFIED, w)
              | Some re =>
                  if negb (bool_decide (smp_e (smp w) = re)) then (BT_SMP_ERR_DHKEY_CHECK_FAILED, w)
                  else
                    let '(err, w) := sc_smp_send_dhkey_check e w in
                    if nz err then (err, w) else (0, set_flag SMP_FLAG_ENC_PENDING w)
              end
          end
      end
  end.

(** The check at one of the places that wait for it. *)
Definition dhcheck_or_error w : smp_world F R :=
  let '(err, w) := compute_and_check_and_send_slave_dhcheck w in
  if nz err then (smp_error err w).2 else w.

Definition bt_smp_dhkey_ready (dhkey : option (list Z)) w : smp_world F R :=
  if negb (has SMP_FLAG_DHKEY_PENDING w) then w
  else
    let w := clear_flag SMP_FLAG_DHKEY_PENDING w in
    match dhkey with
    | None => (smp_error BT_SMP_ERR_DHKEY_CHECK_FAILED w).2
    | Some key =>
        let w := upd_smp (set_dhkey key) w in
        if has SMP_FLAG_USER w then set_flag SMP_FLAG_DHKEY_SEND w
        else if has SMP_FLAG_DHCHECK_WAIT w then set_flag SMP_FLAG_DHKEY_SEND w
        else if has SMP_FLAG_DHKEY_SEND w then dhcheck_or_error w
        else w
    end.

Definition sc_smp_check_confirm w : Z :=
  match method (smp w) with
  | LE_SC_OOB => 0
  | _ =>
      match confirm_r w with
      | None => BT_SMP_ERR_UNSPECIFIED
      | Some r =>
          match smp_f4 (pkey (smp w)) (local_pkey w) (rrnd (smp w)) r with
          | None => BT_SMP_ERR_UNSPECIFIED
          | Some cfm => if negb (bool_decide (pcnf (smp w) = cfm)) then BT_SMP_ERR_CONFIRM_FAILED else 0
          end
      end
  end.

(** [enum] of [struct bt_conn_oob_info]. *)
Definition BT_CONN_OOB_LOCAL_ONLY : Z := 0.
Definition BT_CONN_OOB_REMOTE_ONLY : Z := 1.
Definition BT_CONN_OOB_BOTH_PEERS : Z := 2.
Definition BT_CONN_OOB_NO_DATA : Z := 3.

Definition le_sc_oob_data_req_check w : bool := (oob_flag (preq (smp w)) .& BT_SMP_OOB_DATA_MASK) =? BT_SMP_OOB_PRESENT.
Definition le_sc_oob_data_rsp_check w : bool := (oob_flag (prsp (smp w)) .& BT_SMP_OOB_DATA_MASK) =? BT_SMP_OOB_PRESENT.
Definition le_sc_oob_config w : Z :=
  let config := if le_sc_oob_data_req_check w then BT_CONN_OOB_LOCAL_ONLY else BT_CONN_OOB_NO_DATA in
  if le_sc_oob_data_rsp_check w
  then if config =? BT_CONN_OOB_LOCAL_ONLY then BT_CONN_OOB_BOTH_PEERS else BT_CONN_OOB_REMOTE_ONLY
  else config.

(** [bt_rand(smp->prnd, 16)] *)
Definition new_prnd w : Z * smp_world F R :=
  let '(err, buf, w) := rand_bytes 16 w in (err, upd_smp (set_prnd buf) w).

Definition await_dhcheck w : smp_world F R := set_flag SMP_FLAG_DHCHECK_WAIT (allow BT_SMP_DHKEY_CHECK w).

Definition smp_pairing_random (buf : list Z) w : Z * smp_world F R :=
  let w := upd_smp (set_rrnd (slice 0 16 buf)) w in
  if negb (has SMP_FLAG_SC w) then legacy_pairing_random w
  else
    match method (smp w) with
    | PASSKEY_CONFIRM =>
        match smp_g2 (pkey (smp w)) (local_pkey w) (rrnd (smp w)) (prnd (smp w)) with
        | None => (BT_SMP_ERR_UNSPECIFIED, w)
        | Some passkey =>
            let w := logs (Up (Passkey_confirm passkey)) (set_flag SMP_FLAG_USER w) in
            smp_send_pairing_random (await_dhcheck w)
        end
    | JUST_WORKS => smp_send_pairing_random (await_dhcheck w)
    | PASSKEY_DISPLAY | PASSKEY_INPUT =>
        let err := sc_smp_check_confirm w in
        if nz err then (err, w)
        else
          let '(err, w) := smp_send_pairing_random (allow BT_SMP_CMD_PAIRING_CONFIRM w) in
          if nz err then (err, w)
          else
            let w := upd_smp (fun s => set_passkey_round (u8 (passkey_round s + 1)) s) w in
            if passkey_round (smp w) =? 20 then (0, await_dhcheck w)
            else
              let '(err, w) := new_prnd w in
              if nz err then (BT_SMP_ERR_UNSPECIFIED, w) else (0, w)
    | LE_SC_OOB =>
        let '(err, w) := new_prnd w in
        if nz err then (BT_SMP_ERR_UNSPECIFIED, w)
        else if auth_has oob_data_request w then
          let w := upd_smp (fun s => set_oobd_remote None (set_oobd_local None s)) w in
          (0, logs (Up (Oob_data_request true (le_sc_oob_config w))) (set_flag SMP_FLAG_OOB_PENDING w))
        else (BT_SMP_ERR_OOB_NOT_AVAIL, w)
    | _ => (BT_SMP_ERR_UNSPECIFIED, w)
    end.
End secure_connections.

(** ** The other commands *)

Definition bt_addr_le_is_rpa (addr : bt_addr_le_t) : bool :=
  (addr_type addr =? BT_ADDR_LE_RANDOM) && ((byte_at 5 (addr_val addr) .& 0xc0) =? 0x40).
Definition bt_addr_le_is_identity (addr : bt_addr_le_t) : bool :=
  (addr_type addr =? BT_ADDR_LE_PUBLIC) || ((byte_at 5 (addr_val addr) .& 0xc0) =? 0xc0).

Section commands.
Context {F R : Type} `{!Nvs F, !TinyPrng R, !Crypto}.
Implicit Types (w : smp_world F R).

Definition smp_pairing_failed (buf : list Z) w : Z * smp_world F R :=
  let was_user := has SMP_FLAG_USER w in
  let w := clear_flag SMP_FLAG_USER w in
  let was_display := negb was_user && has SMP_FLAG_DISPLAY w in
  let w := if was_user then w else clear_flag SMP_FLAG_DISPLAY w in
  let w := if (was_user || was_display) && auth_has auth_cancel w then logs (Up Cancel) w else w in
  (0, smp_pairing_complete (byte_at 0 buf) w).

Definition smp_ident_info (buf : list Z) w : Z * smp_world F R :=
  let '(err, w) :=
    if has SMP_FLAG_BOND w then
      match get_type BT_KEYS_IRK w with
      | (None, w) => (BT_SMP_ERR_UNSPECIFIED, w)
      | (Some i, w) => (0, alter_entry i (fun k => with_irk (mk_irk (slice 0 16 buf) (irk_rpa (irk k))) k) w)
      end
    else (0, w) in
  if nz err then (err, w) else (0, allow BT_SMP_CMD_IDENT_ADDR_INFO w).

Definition bt_conn_identity_resolved w : smp_world F R := logs (Up Identity_resolved) w.

(** What a bond takes of the peer's identity address. *)
Definition take_identity (i : nat) (addr : bt_addr_le_t) w : smp_world F R :=
  let dst := init_addr (conn w) in
  let w :=
    if bt_addr_le_is_rpa dst then
      let w := alter_entry i (fun k => with_irk (mk_irk (irk_val (irk k)) (addr_val dst)) k) w in
      if negb (bt_addr_le_is_identity (le_dst (conn w))) then
        bt_conn_identity_resolved
          (upd_conn (set_le_dst addr) (alter_entry i (fun k => with_addr (keys_id k) addr k) w))
      else w
    else w in
  set_ks (bt_id_add i (ks w)) w.

Definition smp_ident_addr_info (buf : list Z) w : Z * smp_world F R :=
  let addr := mk_addr (byte_at 0 buf) (slice 1 6 buf) in
  if negb (bt_addr_le_is_identity addr) then (BT_SMP_ERR_INVALID_PARAMS, w)
  else
    let '(err, w) :=
      if has SMP_FLAG_BOND w then
        match get_type BT_KEYS_IRK w with
        | (None, w) => (BT_SMP_ERR_UNSPECIFIED, w)
        | (Some i, w) => (0, take_identity i addr w)
        end
      else (0, w) in
    if nz err then (err, w)
    else
      let w := clear_remote_dist BT_SMP_DIST_ID_KEY w in
      let w := if nz (remote_dist (smp w) .& BT_SMP_DIST_SIGN) then allow BT_SMP_CMD_SIGNING_INFO w else w in
      (0, complete_if_distributed w).

(** The central's PDUs, and [smp_signing_info]. *)
Definition not_supported (buf : list Z) w : Z * smp_world F R := (BT_SMP_ERR_CMD_NOTSUPP, w).

(** A command to the controller. *)
Definition hci_send_sync (cmd : hci_cmd) w : Z * smp_world F R :=
  let '(err, h) := bt_hci_cmd_send_sync cmd (hci (ks w)) in (err, set_ks (set_hci h (ks w)) w).
Definition hci_send (cmd : hci_cmd) w : smp_world F R := set_ks (set_hci (bt_hci_cmd_send cmd (hci (ks w))) (ks w)) w.

Definition set_dh_key_cb (b : bool) w : smp_world F R :=
  set_ecc (mk_ecc (pub_key_busy (ecc w)) (pub_key (ecc w)) (pub_key_cb (ecc w)) b) w.

Definition bt_dh_key_gen (remote_pk : list Z) w : Z * smp_world F R :=
  if dh_key_cb (ecc w) || pub_key_busy (ecc w) then (- EBUSY, w)
  else
    match pub_key (ecc w) with
    | None => (- EADDRNOTAVAIL, w)
    | Some _ =>
        let '(err, w) := hci_send_sync (LE_GENERATE_DHKEY remote_pk) (set_dh_key_cb true w) in
        if nz err then (err, set_dh_key_cb false w) else (0, w)
    end.

Definition generate_dhkey w : Z * smp_world F R :=
  let '(err, w) := bt_dh_key_gen (pkey (smp w)) w in
  if nz err then (BT_SMP_ERR_UNSPECIFIED, w) else (0, set_flag SMP_FLAG_DHKEY_PENDING w).

Definition display_passkey w : Z * smp_world F R :=
  let '(err, buf, w) := rand_bytes 4 w in
  let w := upd_smp (set_passkey (le_value buf)) w in
  if nz err then (BT_SMP_ERR_UNSPECIFIED, w)
  else
    let w := upd_smp (fun s => set_passkey_round 0 (set_passkey (passkey s mod 1000000) s)) w in
    let w :=
      if auth_has passkey_display w then logs (Up (Passkey_display (passkey (smp w)))) (set_flag SMP_FLAG_DISPLAY w) else w in
    (0, upd_smp (fun s => set_passkey (sys_le32_to_cpu (passkey s)) s) w).

Definition smp_public_key_slave w : Z * smp_world F R :=
  let '(err, w) := sc_send_public_key w in
  if nz err then (err, w)
  else
    let '(err, w) :=
      match method (smp w) with
      | PASSKEY_CONFIRM | JUST_WORKS => smp_send_pairing_confirm (allow BT_SMP_CMD_PAIRING_RANDOM w)
      | PASSKEY_DISPLAY =>
          let '(err, w) := display_passkey w in
          if nz err then (err, w) else (0, allow BT_SMP_CMD_PAIRING_CONFIRM w)
      | PASSKEY_INPUT => (0, logs (Up Passkey_entry) (set_flag SMP_FLAG_USER (allow BT_SMP_CMD_PAIRING_CONFIRM w)))
      | LE_SC_OOB => (0, allow BT_SMP_CMD_PAIRING_RANDOM w)
      | _ => (BT_SMP_ERR_UNSPECIFIED, w)
      end in
    if nz err then (err, w) else generate_dhkey w.

Definition smp_public_key (buf : list Z) w : Z * smp_world F R :=
  let w := upd_smp (set_pkey (slice 0 64 buf)) w in
  let '(ok, w) :=
    if bool_decide (pkey (smp w) = sc_debug_public_key)
    then update_debug_keys_check (set_flag SMP_FLAG_SC_DEBUG_KEY w) else (true, w) in
  if negb ok then (BT_SMP_ERR_AUTH_REQUIREMENTS, w)
  else
    match sc_public_key w with
    | None => (0, set_flag SMP_FLAG_PKEY_SEND w)
    | Some _ => smp_public_key_slave w
    end.

Definition smp_dhkey_check (buf : list Z) w : Z * smp_world F R :=
  let w := clear_flag SMP_FLAG_DHCHECK_WAIT w in
  let w := upd_smp (set_smp_e (slice 0 16 buf)) w in
  if has SMP_FLAG_DHKEY_PENDING w then (0, set_flag SMP_FLAG_DHKEY_SEND w)
  else if has SMP_FLAG_USER w then (0, set_flag SMP_FLAG_DHKEY_SEND w)
  else compute_and_check_and_send_slave_dhcheck w.

(** The function for a code, and the length its PDU has. *)
Definition handlers : list (option ((list Z -> smp_world F R -> Z * smp_world F R) * Z)) :=
  [None; Some (smp_pairing_req, 6); Some (not_supported, 6); Some (smp_pairing_confirm, 16); Some (smp_pairing_random, 16);
   Some (smp_pairing_failed, 1); Some (smp_encrypt_info, 16); Some (smp_master_ident, 10); Some (smp_ident_info, 16);
   Some (smp_ident_addr_info, 7); Some (not_supported, 16); Some (not_supported, 1); Some (smp_public_key, 64);
   Some (smp_dhkey_check, 16)].

Definition bt_smp_recv (pdu : list Z) w : smp_world F R :=
  let w := logs (Rx pdu) w in
  match pdu with
  | [] => w
  | code :: buf =>
      if has SMP_FLAG_TIMEOUT w then w
      else
        match handlers !! Z.to_nat code with
        | Some (Some (func, expect_len)) =>
            if negb (Z.testbit (allowed_cmds (smp w)) code) then
              if negb (code =? BT_SMP_CMD_PAIRING_FAIL) then (smp_error BT_SMP_ERR_UNSPECIFIED w).2 else w
            else
              let w := upd_smp (fun s => set_allowed_cmds (Z.clearbit (allowed_cmds s) code) s) w in
              if negb (Z.of_nat (length buf) =? expect_len) then (smp_error BT_SMP_ERR_INVALID_PARAMS w).2
              else
                let '(err, w) := func buf w in
                if nz err then (smp_error err w).2 else w
        | _ => (smp_error BT_SMP_ERR_CMD_NOTSUPP w).2
        end
  end.
End commands.

(** ** The channel *)

Section channel.
Context {F R : Type} `{!Nvs F, !TinyPrng R, !Crypto}.
Implicit Types (w : smp_world F R).

Definition bt_smp_pkey_ready (pkey : option (list Z)) w : smp_world F R :=
  let w := set_sc_public_key pkey w in
  match pkey with
  | None => w
  | Some _ =>
      if negb (has SMP_FLAG_PKEY_SEND w) then w
      else
        let '(err, w) := smp_public_key_slave w in
        if nz err then (smp_error err w).2 else w
  end.

Definition bt_smp_connected w : smp_world F R := smp_reset w.

Definition bt_smp_disconnected w : smp_world F R :=
  let w :=
    match le_keys (conn w), keys_of w with
    | Some i, Some k =>
        if negb (nz (keys_keys k)) || nz (keys_flags k .& BT_KEYS_DEBUG) then set_ks (bt_keys_clear i (ks w)) w else w
    | _, _ => w
    end in
  upd_smp (fun _ => smp_zero false) w.

Definition bt_smp_encrypt_change (hci_status : Z) w : smp_world F R :=
  let w := clear_flag SMP_FLAG_ENC_PENDING w in
  if nz hci_status then w
  else if negb (nz (encrypt (conn w))) then w
  else if negb (has SMP_FLAG_PAIRING w) then smp_reset w
  else
    let w :=
      if has SMP_FLAG_SC w then
        let w :=
          if nz (local_dist (smp w) .& BT_SMP_DIST_LINK_KEY) && nz (remote_dist (smp w) .& BT_SMP_DIST_LINK_KEY)
          then set_flag SMP_FLAG_DERIVE_LK w else w in
        clear_remote_dist BT_SMP_DIST_LINK_KEY
          (upd_smp (fun s => set_local_dist (Z.ldiff (local_dist s) BT_SMP_DIST_LINK_KEY) s) w)
      else w in
    let w :=
      if nz (remote_dist (smp w) .& BT_SMP_DIST_ENC_KEY) then allow BT_SMP_CMD_ENCRYPT_INFO w
      else if nz (remote_dist (smp w) .& BT_SMP_DIST_ID_KEY) then allow BT_SMP_CMD_IDENT_INFO w
      else if nz (remote_dist (smp w) .& BT_SMP_DIST_SIGN) then allow BT_SMP_CMD_SIGNING_INFO w else w in
    let w := set_flag SMP_FLAG_KEYS_DISTR w in
    let '(err, w) := bt_smp_distribute_keys w in
    if nz err then w else complete_if_distributed w.

(** ** Calls of the application *)

Definition bt_smp_auth_passkey_entry (passkey : Z) w : Z * smp_world F R :=
  if negb (has SMP_FLAG_USER w) then (- EINVAL, w)
  else
    let w := clear_flag SMP_FLAG_USER w in
    if negb (has SMP_FLAG_SC w) then (0, legacy_passkey_entry passkey w)
    else
      let w := upd_smp (set_passkey (sys_le32_to_cpu passkey)) w in
      if has SMP_FLAG_CFM_DELAYED w then
        let '(err, w) := smp_send_pairing_confirm w in
        if nz err then (0, (smp_error BT_SMP_ERR_PASSKEY_ENTRY_FAILED w).2)
        else (0, allow BT_SMP_CMD_PAIRING_RANDOM w)
      else (0, w).

Definition bt_smp_auth_passkey_confirm w : Z * smp_world F R :=
  if negb (has SMP_FLAG_USER w) then (- EINVAL, w)
  else
    let w := clear_flag SMP_FLAG_USER w in
    if has SMP_FLAG_DHKEY_PENDING w then (0, set_flag SMP_FLAG_DHKEY_SEND w)
    else if has SMP_FLAG_DHCHECK_WAIT w then (0, set_flag SMP_FLAG_DHKEY_SEND w)
    else if has SMP_FLAG_DHKEY_SEND w then (0, dhcheck_or_error w)
    else (0, w).

(** [tk] is not [NULL]. *)
Definition bt_smp_le_oob_set_tk (tk : list Z) w : Z * smp_world F R :=
  if negb (has SMP_FLAG_USER w) then (- EINVAL, w)
  else (0, legacy_user_tk_entry (upd_smp (set_tk (take 16 tk)) (clear_flag SMP_FLAG_USER w))).

Definition le_sc_oob_data_check (local_present remote_present : bool) w : bool :=
  negb (negb (eqb (le_sc_oob_data_req_check w) local_present) && negb (eqb (le_sc_oob_data_rsp_check w) remote_present)).

Definition le_sc_oob_pairing_continue w : Z * smp_world F R :=
  let go w := smp_send_pairing_random (await_dhcheck w) in
  match oobd_remote (smp w) with
  | None => go w
  | Some d =>
      match smp_f4 (pkey (smp w)) (pkey (smp w)) (oob_r d) 0 with
      | None => (- EIO, w)
      | Some c => if negb (bool_decide (c = oob_c d)) then (0, (smp_error BT_SMP_ERR_CONFIRM_FAILED w).2) else go w
      end
  end.

Definition bt_smp_le_oob_set_sc_data (local remote : option bt_le_oob_sc_data) w : Z * smp_world F R :=
  if negb (le_sc_oob_data_check (bool_decide (is_Some local)) (bool_decide (is_Some remote)) w) then (- EINVAL, w)
  else if negb (has SMP_FLAG_OOB_PENDING w) then (- EINVAL, w)
  else
    le_sc_oob_pairing_continue
      (upd_smp (fun s => set_oobd_remote remote (set_oobd_local local s)) (clear_flag SMP_FLAG_OOB_PENDING w)).

Definition bt_smp_le_oob_get_sc_data w : Z + (option bt_le_oob_sc_data * option bt_le_oob_sc_data) :=
  match oobd_local (smp w), oobd_remote (smp w) with
  | None, None => inl (- ESRCH)
  | local, remote => inr (local, remote)
  end.

Definition bt_smp_auth_cancel w : Z * smp_world F R :=
  if negb (has SMP_FLAG_USER w) then (- EINVAL, w)
  else
    let w := clear_flag SMP_FLAG_USER w in
    match method (smp w) with
    | PASSKEY_INPUT | PASSKEY_DISPLAY => smp_error BT_SMP_ERR_PASSKEY_ENTRY_FAILED w
    | PASSKEY_CONFIRM => smp_error BT_SMP_ERR_CONFIRM_FAILED w
    | LE_SC_OOB | LEGACY_OOB => smp_error BT_SMP_ERR_OOB_NOT_AVAIL w
    | JUST_WORKS => smp_error BT_SMP_ERR_UNSPECIFIED w
    | PASSKEY_ROLE => (0, w)
    end.

Definition bt_smp_auth_pairing_confirm w : Z * smp_world F R :=
  if negb (has SMP_FLAG_USER w) then (- EINVAL, w)
  else
    let w := clear_flag SMP_FLAG_USER w in
    if negb (has SMP_FLAG_SC w) then send_pairing_rsp (allow BT_SMP_CMD_PAIRING_CONFIRM w)
    else
      let '(err, w) := send_pairing_rsp (allow BT_SMP_CMD_PUBLIC_KEY w) in
      if nz err then (- EIO, w) else (0, w).

Definition bt_smp_start_security w : Z * smp_world F R := smp_send_security_req w.
End channel.

(** ** hci_core.c and conn.c *)

Definition BT_HCI_ERR_INVALID_PARAM : Z := 0x12.
Definition BT_HCI_ERR_PAIRING_NOT_ALLOWED : Z := 0x18.
Definition BT_HCI_ERR_PAIRING_NOT_SUPPORTED : Z := 0x29.
Definition bt_security_err_get (hci_err : Z) : Z :=
  if hci_err =? 0 then BT_SECURITY_ERR_SUCCESS
  else if hci_err =? BT_HCI_ERR_AUTH_FAIL then BT_SECURITY_ERR_AUTH_FAIL
  else if hci_err =? BT_HCI_ERR_PIN_OR_KEY_MISSING then BT_SECURITY_ERR_PIN_OR_KEY_MISSING
  else if hci_err =? BT_HCI_ERR_PAIRING_NOT_SUPPORTED then BT_SECURITY_ERR_PAIR_NOT_SUPPORTED
  else if hci_err =? BT_HCI_ERR_PAIRING_NOT_ALLOWED then BT_SECURITY_ERR_PAIR_NOT_ALLOWED
  else if hci_err =? BT_HCI_ERR_INVALID_PARAM then BT_SECURITY_ERR_INVALID_PARAM
  else BT_SECURITY_ERR_UNSPECIFIED.

Definition BT_SECURITY_FORCE_PAIR : Z := BIT 7.

Section host.
Context {F R : Type} `{!Nvs F, !TinyPrng R, !Crypto}.
Implicit Types (w : smp_world F R).

(** What a pairing that encrypted the link leaves in the entry of the peer. *)
Definition pairing_keys w (k : bt_keys) : bt_keys :=
  let k := if has SMP_FLAG_SC_DEBUG_KEY w then with_flags (fun f => f .| BT_KEYS_DEBUG) k else k in
  let k :=
    match method (smp w) with
    | PASSKEY_DISPLAY | PASSKEY_INPUT | PASSKEY_CONFIRM | LE_SC_OOB | LEGACY_OOB =>
        with_flags (fun f => f .| BT_KEYS_AUTHENTICATED) k
    | _ => with_flags (fun f => Z.ldiff f BT_KEYS_AUTHENTICATED) k
    end in
  let k := with_enc_size (get_encryption_key_size w) k in
  if has SMP_FLAG_SC w then
    let k := with_flags (fun f => f .| BT_KEYS_SC) k in
    if has SMP_FLAG_BOND w
    then with_ltk (mk_ltk (zeros 8) (zeros 2) (tk (smp w))) (bt_keys_add_type BT_KEYS_LTK_P256 k) else k
  else with_flags (fun f => Z.ldiff f BT_KEYS_SC) k.

Definition bt_smp_update_keys w : smp_world F R :=
  if negb (has SMP_FLAG_PAIRING w) then w
  else
    let w := match le_keys (conn w) with Some i => set_ks (bt_keys_clear i (ks w)) w | None => w end in
    let '(k, s) := bt_keys_get_addr (le_id (conn w)) (le_dst (conn w)) (ks w) in
    let w := upd_conn (set_le_keys k) (set_ks s w) in
    match k with
    | None => (smp_error BT_SMP_ERR_UNSPECIFIED w).2
    | Some _ => upd_keys (pairing_keys w) w
    end.

(** The connection is connected. *)
Definition bt_conn_disconnect (reason : Z) w : smp_world F R := hci_send (DISCONNECT reason) w.

Definition update_sec_level w : smp_world F R :=
  if negb (nz (encrypt (conn w))) then upd_conn (set_sec_level BT_SECURITY_L1) w
  else
    let level :=
      match keys_of w with
      | Some k =>
          if nz (keys_flags k .& BT_KEYS_AUTHENTICATED) then
            if nz (keys_flags k .& BT_KEYS_SC) && (enc_size k =? BT_SMP_MAX_ENC_KEY_SIZE) then BT_SECURITY_L4 else BT_SECURITY_L3
          else BT_SECURITY_L2
      | None => BT_SECURITY_L2
      end in
    let w := upd_conn (set_sec_level level) w in
    if sec_level (conn w) <? required_sec_level (conn w) then bt_conn_disconnect BT_HCI_ERR_AUTH_FAIL w else w.

(** Of the channels of the connection, the one of the Security Manager. *)
Definition security_changed (hci_err err : Z) w : smp_world F R := bt_conn_security_changed bt_smp_encrypt_change hci_err err w.

Definition hci_encrypt_change (status enc : Z) w : smp_world F R :=
  if nz status then security_changed status (bt_security_err_get status) w
  else
    let w := upd_conn (set_encrypt enc) w in
    let w := if nz (encrypt (conn w)) then bt_smp_update_keys w else w in
    security_changed status BT_SECURITY_ERR_SUCCESS (update_sec_level w).

Definition hci_encrypt_key_refresh_complete (status : Z) w : smp_world F R :=
  if nz status then security_changed status (bt_security_err_get status) w
  else security_changed status BT_SECURITY_ERR_SUCCESS (update_sec_level (bt_smp_update_keys w)).

Definition le_ltk_request (rand ediv : Z) w : smp_world F R :=
  match bt_smp_request_ltk rand ediv w with
  | (Some ltk, w) => hci_send (LE_LTK_REQ_REPLY ltk) w
  | (None, w) => hci_send LE_LTK_REQ_NEG_REPLY w
  end.

(** [sc_public_key] points to the key that is overwritten. *)
Definition le_pkey_complete (status : Z) (key : list Z) w : smp_world F R :=
  let e := ecc w in
  let key := if nz status then None else Some key in
  let w := set_ecc (mk_ecc false (match key with Some k => Some k | None => pub_key e end) (pub_key_cb e) (dh_key_cb e)) w in
  let w := match sc_public_key w, key with Some _, Some k => set_sc_public_key (Some k) w | _, _ => w end in
  let w := if pub_key_cb (ecc w) then bt_smp_pkey_ready key w else w in
  set_ecc (mk_ecc (pub_key_busy (ecc w)) (pub_key (ecc w)) false (dh_key_cb (ecc w))) w.

Definition le_dhkey_complete (status : Z) (dhkey : list Z) w : smp_world F R :=
  if dh_key_cb (ecc w)
  then set_dh_key_cb false (bt_smp_dhkey_ready (if nz status then None else Some dhkey) w) else w.

(** The callback of the Security Manager is the only one. *)
Definition bt_pub_key_gen w : Z * smp_world F R :=
  if negb (sc_supported w) then (- ENOTSUP, w)
  else
    let e := ecc w in
    if pub_key_busy e then (0, set_ecc (mk_ecc true (pub_key e) true (dh_key_cb e)) w)
    else
      let '(err, w) := hci_send_sync LE_P256_PUBLIC_KEY (set_ecc (mk_ecc true None true (dh_key_cb e)) w) in
      if nz err then (err, set_ecc (mk_ecc false None false (dh_key_cb e)) w) else (0, w).

(** [sc_supported] is what [le_sc_supported] returns. *)
Definition bt_smp_init w : Z * smp_world F R := (0, (bt_pub_key_gen w).2).

Definition bt_conn_set_security (sec : Z) w : Z * smp_world F R :=
  if (sec <=? sec_level (conn w)) || (sec <=? required_sec_level (conn w)) then (0, w)
  else
    let w := upd_conn (fun c => set_required_sec_level (Z.ldiff sec BT_SECURITY_FORCE_PAIR)
                                  (set_force_pair (nz (sec .& BT_SECURITY_FORCE_PAIR)) c)) w in
    let '(err, w) := bt_smp_start_security w in
    if nz err then (err, upd_conn (fun c => set_required_sec_level (sec_level c) c) w) else (0, w).

(** The callbacks that are registered are a value of the model. *)
Definition bt_conn_auth_cb_register (bt_auth cb : option bt_conn_auth_cb) : Z * option bt_conn_auth_cb :=
  match cb with
  | None => (0, None)
  | Some c =>
      match bt_auth with
      | Some _ => (- EALREADY, bt_auth)
      | None =>
          if negb (auth_cancel c) && (passkey_display c || passkey_entry c || passkey_confirm c || pairing_confirm c)
          then (- EINVAL, bt_auth) else (0, cb)
      end
  end.

Definition if_auth (f : smp_world F R -> Z * smp_world F R) w : Z * smp_world F R :=
  match bt_auth w with None => (- EINVAL, w) | Some _ => f w end.
Definition bt_conn_auth_passkey_entry (passkey : Z) : smp_world F R -> Z * smp_world F R :=
  if_auth (fun w => (0, (bt_smp_auth_passkey_entry passkey w).2)).
Definition bt_conn_auth_passkey_confirm : smp_world F R -> Z * smp_world F R := if_auth bt_smp_auth_passkey_confirm.
Definition bt_conn_auth_cancel : smp_world F R -> Z * smp_world F R := if_auth bt_smp_auth_cancel.
Definition bt_conn_auth_pairing_confirm : smp_world F R -> Z * smp_world F R := if_auth bt_smp_auth_pairing_confirm.

(** A new connection, not encrypted. *)
Definition new_conn (id : Z) (dst ia ra : bt_addr_le_t) : le_conn :=
  mk_le_conn id dst ia ra BT_SECURITY_L1 BT_SECURITY_L1 0 None false.
End host.

(** ** Events *)

(** What happens to the Security Manager.  The callbacks of PDUs that were not sent are
    dropped with the connection. *)
Inductive event :=
  | Connected (id : Z) (dst ia ra : bt_addr_le_t)
  | Disconnected
  | Received (pdu : list Z)
  | Ident_sent
  | Timed_out
  | Ltk_request (rand ediv : Z)
  | Encrypt_change (status enc : Z)
  | Key_refresh_complete (status : Z)
  | Pkey_complete (status : Z) (key : list Z)
  | Dhkey_complete (status : Z) (key : list Z)
  | Set_security (sec : Z)
  | Passkey_entered (passkey : Z)
  | Passkey_confirmed
  | Pairing_confirmed
  | Cancelled
  | Oob_tk (tk : list Z)
  | Oob_sc_data (local remote : option bt_le_oob_sc_data)
  | Set_bondable (enable : bool)
  | Set_oob_data_flag (enable : bool).

Section events.
Context {F R : Type} `{!Nvs F, !TinyPrng R, !Crypto}.
Implicit Types (w : smp_world F R).

Definition handle (e : event) w : smp_world F R :=
  match e with
  | Connected id dst ia ra => bt_smp_connected (upd_conn (fun _ => new_conn id dst ia ra) w)
  | Disconnected => set_ident_cbs 0 (bt_smp_disconnected w)
  | Received pdu => bt_smp_recv pdu w
  | Ident_sent => match ident_cbs w with O => w | S n => smp_ident_sent (set_ident_cbs n w) end
  | Timed_out => if smp_work (smp w) then smp_timeout (upd_smp (set_smp_work false) w) else w
  | Ltk_request rand ediv => le_ltk_request rand ediv w
  | Encrypt_change status enc => hci_encrypt_change status enc w
  | Key_refresh_complete status => hci_encrypt_key_refresh_complete status w
  | Pkey_complete status key => le_pkey_complete status key w
  | Dhkey_complete status key => le_dhkey_complete status key w
  | Set_security sec => (bt_conn_set_security sec w).2
  | Passkey_entered passkey => (bt_conn_auth_passkey_entry passkey w).2
  | Passkey_confirmed => (bt_conn_auth_passkey_confirm w).2
  | Pairing_confirmed => (bt_conn_auth_pairing_confirm w).2
  | Cancelled => (bt_conn_auth_cancel w).2
  | Oob_tk tk => (bt_smp_le_oob_set_tk tk w).2
  | Oob_sc_data local remote => (bt_smp_le_oob_set_sc_data local remote w).2
  | Set_bondable enable => bt_set_bondable enable w
  | Set_oob_data_flag enable => bt_set_oob_data_flag enable w
  end.

Definition handle_all (es : list event) w : smp_world F R := foldl (fun w e => handle e w) w es.
End events.
