(* ===== verification/SmpInv.v ===== *)
(** What the Security Manager guarantees to the keyboard: with the callbacks the
    application registers, the link reaches the authenticated security levels, and a
    key is marked as authenticated, only after a pairing in which the peer proved that
    it knows the passkey that was displayed ([Smp]). *)
From Stdlib Require Import ZArith Lia Bool.
From stdpp Require Import base numbers list gmap strings.
From S2P Require Import Prelude ByteOrder Uuid Gatt SettingsKeys Settings Keys Crypto Smp.
Open Scope Z_scope.

(** [auth_cb_display] of the application. *)
Definition auth_cb_display : bt_conn_auth_cb :=
  {| passkey_display := true; passkey_entry := false; passkey_confirm := false; oob_data_request := false;
     auth_cancel := true; pairing_confirm := false; pairing_complete := false; pairing_failed := false |}.

(** ** Evidence *)

Section evidence.
Context {cr : Crypto}.

(** [n] rounds of the passkey protocol of Secure Connections: after the exchange of the
    public keys the passkey is displayed; in each round the peer commits itself to a
    number and the next bit of the passkey, learns this side's commitment, and opens
    its own before it learns this side's number. *)
Inductive passkey_rounds (passkey : Z) (rpk lpk : list Z) : nat -> list item -> Prop :=
  | rounds_displayed l1 l2 l3 l4 :
      passkey_rounds passkey rpk lpk 0
        (l1 ++ [Rx (BT_SMP_CMD_PUBLIC_KEY :: rpk)] ++ l2 ++ [Tx (BT_SMP_CMD_PUBLIC_KEY :: take 64 lpk)] ++ l3 ++
         [Up (Passkey_display passkey)] ++ l4)
  | rounds_next n l1 l2 l3 c ours r prnd :
      passkey_rounds passkey rpk lpk n l1 ->
      smp_f4 lpk rpk prnd (passkey_bit passkey (Z.of_nat n)) = Some ours ->
      smp_f4 rpk lpk r (passkey_bit passkey (Z.of_nat n)) = Some c ->
      passkey_rounds passkey rpk lpk (S n)
        (l1 ++ [Rx (BT_SMP_CMD_PAIRING_CONFIRM :: c)] ++ [Tx (BT_SMP_CMD_PAIRING_CONFIRM :: ours)] ++ l2 ++
         [Rx (BT_SMP_CMD_PAIRING_RANDOM :: r)] ++ [Tx (BT_SMP_CMD_PAIRING_RANDOM :: prnd)] ++ l3).

(** All 20 bits, and a DHKey check under the shared key that the controller computed. *)
Definition sc_proven (es : list event) (l : list item) : Prop :=
  exists passkey rpk lpk dhkey na nb ia ra preq mackey ltk e,
    passkey_rounds passkey rpk lpk 20 l /\ Dhkey_complete 0 dhkey ∈ es /\ Rx (BT_SMP_CMD_PAIRING_RANDOM :: na) ∈ l /\
    Rx preq ∈ l /\ smp_f5 dhkey na nb ia ra = (Some mackey, Some ltk) /\
    smp_f6 mackey na nb (le_bytes 4 passkey ++ zeros 12) (drop 1 preq) ia ra = Some e /\ Rx (BT_SMP_DHKEY_CHECK :: e) ∈ l.

(** A legacy pairing: the peer commits itself to a number under the displayed passkey,
    learns this side's commitment and opens its own. *)
Definition legacy_half (passkey : Z) (preq prsp : list Z) (ia ra : bt_addr_le_t) (c prnd : list Z) (l : list item) : Prop :=
  exists l1 l2 ours,
    l = l1 ++ [Rx (BT_SMP_CMD_PAIRING_CONFIRM :: c)] ++ [Tx (BT_SMP_CMD_PAIRING_CONFIRM :: ours)] ++ l2 /\
    Up (Passkey_display passkey) ∈ l1 /\ Rx preq ∈ l1 /\ Tx prsp ∈ l1 /\
    smp_c1 (le_bytes 4 passkey ++ zeros 12) prnd preq prsp ia ra = Some ours.

Definition legacy_proven (l : list item) : Prop :=
  exists passkey preq prsp ia ra c prnd r l1 l2,
    l = l1 ++ [Rx (BT_SMP_CMD_PAIRING_RANDOM :: r)] ++ l2 /\ legacy_half passkey preq prsp ia ra c prnd l1 /\
    smp_c1 (le_bytes 4 passkey ++ zeros 12) r preq prsp ia ra = Some c.

Definition passkey_proven (es : list event) (l : list item) : Prop := sc_proven es l \/ legacy_proven l.

(** ** Evidence lasts *)

Lemma rounds_app passkey rpk lpk n l l' :
  passkey_rounds passkey rpk lpk n l -> passkey_rounds passkey rpk lpk n (l ++ l').
Proof.
  intros [l1 l2 l3 l4|m l1 l2 l3 c ours r prnd H1 H2 H3].
  - rewrite <- !(assoc_L (++)). apply rounds_displayed.
  - rewrite <- !(assoc_L (++)). by eapply rounds_next.
Qed.

Lemma rounds_pred passkey rpk lpk n l : passkey_rounds passkey rpk lpk (S n) l -> passkey_rounds passkey rpk lpk n l.
Proof. inversion 1; subst. by apply rounds_app. Qed.

Lemma rounds_le passkey rpk lpk n m l :
  (m <= n)%nat -> passkey_rounds passkey rpk lpk n l -> passkey_rounds passkey rpk lpk m l.
Proof. induction 1; [done|]. intros ?%rounds_pred. auto. Qed.

Lemma legacy_half_app passkey preq prsp ia ra c prnd l l' :
  legacy_half passkey preq prsp ia ra c prnd l -> legacy_half passkey preq prsp ia ra c prnd (l ++ l').
Proof.
  intros (l1 & l2 & ours & -> & H). exists l1, (l2 ++ l'), ours. split; [by rewrite <- !(assoc_L (++))|done].
Qed.

Lemma passkey_proven_mono es es' l l' :
  passkey_proven es l -> passkey_proven (es ++ es') (l ++ l').
Proof.
  intros [(pk & rpk & lpk & dh & na & nb & ia & ra & preq & mk & ltk & e & H)|(pk & preq & prsp & ia & ra & c & p & r & l1 & l2 & -> & H)].
  - left. exists pk, rpk, lpk, dh, na, nb, ia, ra, preq, mk, ltk, e.
    rewrite !elem_of_app. destruct H as (?%(rounds_app _ _ _ _ _ l') & H). naive_solver.
  - right. exists pk, preq, prsp, ia, ra, c, p, r, l1, (l2 ++ l'). by rewrite <- !(assoc_L (++)).
Qed.
End evidence.

(** ** The invariant *)

Section invariant.
Context {F R : Type} `{!Nvs F, !TinyPrng R} {cr : Crypto}.
Implicit Types (w : smp_world F R) (es : list event).

Definition can (cmd : Z) w : bool := Z.testbit (allowed_cmds (smp w)) cmd.
#[local] Arguments has : simpl never.
#[local] Arguments can : simpl never.
Definition authed (pool : list bt_keys) : Prop := exists k, k ∈ pool /\ nz (keys_flags k .& BT_KEYS_AUTHENTICATED) = true.

(** Authenticated keys and levels have their reason. *)
Record core es w : Prop := {
  core_auth : bt_auth w = Some auth_cb_display;
  core_pkey : pub_key_busy (ecc w) = true -> sc_public_key w = None /\ pub_key (ecc w) = None;
  core_pool : authed (pool (ks w)) -> passkey_proven es (log w);
  core_level : BT_SECURITY_L3 <= sec_level (conn w) -> passkey_proven es (log w) }.

(** No pairing runs; [s]: the controller is starting encryption. *)
Record idle (s : bool) w : Prop := {
  idle_flags : Forall (fun f => has f w = false)
    [SMP_FLAG_PAIRING; SMP_FLAG_USER; SMP_FLAG_OOB_PENDING; SMP_FLAG_CFM_DELAYED; SMP_FLAG_SC; SMP_FLAG_KEYS_DISTR;
     SMP_FLAG_DHKEY_PENDING; SMP_FLAG_DHKEY_SEND; SMP_FLAG_DHCHECK_WAIT; SMP_FLAG_PKEY_SEND];
  idle_cmds : forall c, 0 <= c -> can c w = true -> c = BT_SMP_CMD_PAIRING_REQ \/ c = BT_SMP_CMD_PAIRING_FAIL;
  idle_tk : has SMP_FLAG_SEC_REQ w = true -> tk (smp w) = zeros 16;
  idle_enc : has SMP_FLAG_ENC_PENDING w = true -> s = true }.

Definition half_round w : Prop :=
  exists l1 l2 ours,
    log w = l1 ++ [Rx (BT_SMP_CMD_PAIRING_CONFIRM :: pcnf (smp w))] ++ [Tx (BT_SMP_CMD_PAIRING_CONFIRM :: ours)] ++ l2 /\
    passkey_rounds (passkey (smp w)) (pkey (smp w)) (local_pkey w) (Z.to_nat (passkey_round (smp w))) l1 /\
    smp_f4 (local_pkey w) (pkey (smp w)) (prnd (smp w)) (passkey_bit (passkey (smp w)) (passkey_round (smp w))) = Some ours.

(** The later parts of a pairing with Secure Connections have not begun. *)
Definition early w : Prop :=
  can BT_SMP_CMD_PAIRING_CONFIRM w = false /\ can BT_SMP_CMD_PAIRING_RANDOM w = false /\ can BT_SMP_DHKEY_CHECK w = false /\
  has SMP_FLAG_DHKEY_PENDING w = false /\ has SMP_FLAG_DHKEY_SEND w = false /\ has SMP_FLAG_DHCHECK_WAIT w = false.

Definition rounds_done (n : nat) w : Prop :=
  method (smp w) = PASSKEY_DISPLAY /\ passkey_rounds (passkey (smp w)) (pkey (smp w)) (local_pkey w) n (log w).

(** A pairing with Secure Connections whose method authenticates. *)
Record sc_stage es w : Prop := {
  sc_method : method (smp w) = PASSKEY_DISPLAY \/ method (smp w) = LE_SC_OOB;
  sc_early : can BT_SMP_CMD_PUBLIC_KEY w = true \/ sc_public_key w = None -> early w;
  sc_waits : has SMP_FLAG_PKEY_SEND w = true ->
    can BT_SMP_CMD_PUBLIC_KEY w = false /\ Rx (BT_SMP_CMD_PUBLIC_KEY :: pkey (smp w)) ∈ log w;
  sc_confirm : can BT_SMP_CMD_PAIRING_CONFIRM w = true ->
    0 <= passkey_round (smp w) < 256 /\ rounds_done (Z.to_nat (passkey_round (smp w))) w;
  sc_random : can BT_SMP_CMD_PAIRING_RANDOM w = true -> method (smp w) <> LE_SC_OOB ->
    method (smp w) = PASSKEY_DISPLAY /\ 0 <= passkey_round (smp w) < 256 /\ half_round w;
  sc_late : can BT_SMP_DHKEY_CHECK w || has SMP_FLAG_DHKEY_SEND w || has SMP_FLAG_DHCHECK_WAIT w = true ->
    rounds_done 20 w /\ Rx (BT_SMP_CMD_PAIRING_RANDOM :: rrnd (smp w)) ∈ log w;
  sc_sent : has SMP_FLAG_DHKEY_PENDING w = true -> has SMP_FLAG_DHKEY_SEND w = true ->
    Rx (BT_SMP_DHKEY_CHECK :: smp_e (smp w)) ∈ log w;
  sc_dhkey : early w \/ has SMP_FLAG_DHKEY_PENDING w = true \/ Dhkey_complete 0 (dhkey (smp w)) ∈ es }.

(** A legacy pairing whose method authenticates. *)
Record legacy_stage w : Prop := {
  lg_method : method (smp w) = PASSKEY_DISPLAY;
  lg_cmds : can BT_SMP_CMD_PUBLIC_KEY w = false /\ can BT_SMP_DHKEY_CHECK w = false;
  lg_flags : has SMP_FLAG_DHKEY_PENDING w = false /\ has SMP_FLAG_PKEY_SEND w = false;
  lg_prsp : Tx (prsp (smp w)) ∈ log w;
  lg_confirm : can BT_SMP_CMD_PAIRING_CONFIRM w = true ->
    exists passkey, tk (smp w) = le_bytes 4 passkey ++ zeros 12 /\ Up (Passkey_display passkey) ∈ log w;
  lg_random : can BT_SMP_CMD_PAIRING_RANDOM w = true -> can BT_SMP_CMD_PAIRING_CONFIRM w = false /\
    exists passkey, tk (smp w) = le_bytes 4 passkey ++ zeros 12 /\
      legacy_half passkey (preq (smp w)) (prsp (smp w)) (init_addr (conn w)) (resp_addr (conn w)) (pcnf (smp w)) (prnd (smp w)) (log w) }.

(** A pairing runs. *)
Record busy es (s : bool) w : Prop := {
  busy_flags : has SMP_FLAG_PAIRING w = true /\
    Forall (fun f => has f w = false) [SMP_FLAG_USER; SMP_FLAG_OOB_PENDING; SMP_FLAG_CFM_DELAYED];
  busy_req : can BT_SMP_CMD_PAIRING_REQ w = false;
  busy_preq : Rx (preq (smp w)) ∈ log w;
  busy_enc : method (smp w) <> JUST_WORKS -> s || has SMP_FLAG_ENC_PENDING w || has SMP_FLAG_KEYS_DISTR w = true ->
    passkey_proven es (log w);
  busy_sc : has SMP_FLAG_SC w = true -> method (smp w) <> JUST_WORKS -> sc_stage es w;
  busy_legacy : has SMP_FLAG_SC w = false -> method (smp w) <> JUST_WORKS -> legacy_stage w }.

Definition inv es (s : bool) w : Prop := core es w /\ (idle s w \/ busy es s w).

(** ** Flags and commands *)

Lemma has_set f g w : 0 <= f -> 0 <= g -> has f (set_flag g w) = (g =? f) || has f w.
Proof. intros. unfold has. cbn. rewrite Z.setbit_eqb by done. done. Qed.
Lemma has_clear f g w : 0 <= f -> 0 <= g -> has f (clear_flag g w) = has f w && negb (g =? f).
Proof. intros. unfold has. cbn. rewrite Z.clearbit_eqb by done. done. Qed.
Lemma can_allow c d w : 0 <= c -> 0 <= d -> can c (allow d w) = (d =? c) || can c w.
Proof. intros. unfold can. cbn. by rewrite Z.setbit_eqb. Qed.

(** ** Changes that do not matter *)

(** The context without what the invariant does not look at. *)
Definition ignored : Z :=
  BIT SMP_FLAG_TIMEOUT .| BIT SMP_FLAG_BOND .| BIT SMP_FLAG_CT2 .| BIT SMP_FLAG_SC_DEBUG_KEY .| BIT SMP_FLAG_DISPLAY .| BIT SMP_FLAG_DERIVE_LK.
Definition view (s : bt_smp) : bt_smp :=
  set_flags (Z.ldiff (flags s) ignored) (set_smp_work false (set_local_dist 0 (set_remote_dist 0 (set_mackey [] s)))).

Record ext w w' : Prop := {
  ext_smp : view (smp w') = view (smp w);
  ext_pk : sc_public_key w' = sc_public_key w;
  ext_auth : bt_auth w' = bt_auth w;
  ext_busy : pub_key_busy (ecc w') = pub_key_busy (ecc w);
  ext_key : pub_key (ecc w') = pub_key (ecc w);
  ext_ia : init_addr (conn w') = init_addr (conn w);
  ext_ra : resp_addr (conn w') = resp_addr (conn w);
  ext_level : sec_level (conn w') = sec_level (conn w);
  ext_pool : authed (pool (ks w')) -> authed (pool (ks w));
  ext_log : exists l, log w' = log w ++ l }.

#[export] Instance ext_refl : Reflexive ext.
Proof. intros w. split; eauto. exists []. by rewrite app_nil_r. Qed.
#[export] Instance ext_trans : Transitive ext.
Proof.
  intros w1 w2 w3 [A1 A2 A3 A4 A5 A6 A7 A8 A9 [l A]] [B1 B2 B3 B4 B5 B6 B7 B8 B9 [l' B]]. split; try congruence; eauto.
  exists (l ++ l'). by rewrite B, A, <- (assoc_L (++)).
Qed.
#[export] Instance ext_preorder : PreOrder ext := {}.

Lemma has_view w f : Z.testbit ignored f = false -> has f w = Z.testbit (flags (view (smp w))) f.
Proof. intros H. unfold has. cbn. by rewrite Z.ldiff_spec, H, andb_true_r. Qed.
Lemma ext_flag w w' f : ext w w' -> Z.testbit ignored f = false -> has f w' = has f w.
Proof. intros E H. rewrite !has_view by done. by rewrite (ext_smp _ _ E). Qed.
Lemma ext_flags w w' fs :
  ext w w' -> forallb (fun f => negb (Z.testbit ignored f)) fs = true -> Forall (fun f => has f w = false) fs ->
  Forall (fun f => has f w' = false) fs.
Proof.
  intros E Hfs H. rewrite !Forall_forall in *. intros f Hf. rewrite (ext_flag _ _ f E); [by apply H|].
  apply negb_true_iff. rewrite forallb_forall in Hfs. by apply Hfs, list_elem_of_In.
Qed.
Lemma ext_can w w' c : ext w w' -> can c w' = can c w.
Proof. intros H. unfold can. by rewrite (f_equal allowed_cmds (ext_smp _ _ H) : allowed_cmds (smp w') = allowed_cmds (smp w)). Qed.

Lemma core_ext es w w' : ext w w' -> core es w -> core es w'.
Proof.
  intros [_ E2 E3 E4 E5 _ _ E8 E9 [l E]] [C1 C2 C3 C4]. split.
  - congruence.
  - by rewrite E2, E4, E5.
  - intros H%E9%C3. rewrite E, <- (app_nil_r es). by apply passkey_proven_mono.
  - rewrite E8. intros H%C4. rewrite E, <- (app_nil_r es). by apply passkey_proven_mono.
Qed.

Lemma core_event es e w : core es w -> core (es ++ [e]) w.
Proof.
  intros [C1 C2 C3 C4]. split; [done..| |].
  all: intros H; rewrite <- (app_nil_r (log w)); apply passkey_proven_mono; auto.
Qed.
Lemma idle_ext s w w' : ext w w' -> idle s w -> idle s w'.
Proof.
  intros E [I1 I2 I3 I4]. split.
  - by apply (ext_flags _ _ _ E).
  - intros c. rewrite (ext_can _ _ c E). apply I2.
  - rewrite (ext_flag _ _ _ E), (f_equal tk (ext_smp _ _ E) : tk (smp w') = tk (smp w)) by done. apply I3.
  - rewrite (ext_flag _ _ _ E) by done. apply I4.
Qed.

End invariant.

(** The fields of the context a stage looks at. *)
Ltac ext_rewrite E :=
  rewrite ?(f_equal method (ext_smp _ _ E) : method (smp _) = method (smp _)),
    ?(f_equal passkey (ext_smp _ _ E) : passkey (smp _) = passkey (smp _)),
    ?(f_equal passkey_round (ext_smp _ _ E) : passkey_round (smp _) = passkey_round (smp _)),
    ?(f_equal pkey (ext_smp _ _ E) : pkey (smp _) = pkey (smp _)),
    ?(f_equal pcnf (ext_smp _ _ E) : pcnf (smp _) = pcnf (smp _)),
    ?(f_equal prnd (ext_smp _ _ E) : prnd (smp _) = prnd (smp _)),
    ?(f_equal rrnd (ext_smp _ _ E) : rrnd (smp _) = rrnd (smp _)),
    ?(f_equal dhkey (ext_smp _ _ E) : dhkey (smp _) = dhkey (smp _)),
    ?(f_equal smp_e (ext_smp _ _ E) : smp_e (smp _) = smp_e (smp _)),
    ?(f_equal tk (ext_smp _ _ E) : tk (smp _) = tk (smp _)),
    ?(f_equal preq (ext_smp _ _ E) : preq (smp _) = preq (smp _)),
    ?(f_equal prsp (ext_smp _ _ E) : prsp (smp _) = prsp (smp _)),
    ?(ext_flag _ _ _ E), ?(ext_can _ _ _ E), ?(ext_pk _ _ E), ?(ext_ia _ _ E), ?(ext_ra _ _ E) by done.

Section keeps.
Context {F R : Type} `{!Nvs F, !TinyPrng R} {cr : Crypto}.
Implicit Types (w : smp_world F R) (es : list event).
#[local] Arguments has : simpl never.
#[local] Arguments can : simpl never.

Lemma ext_elem w w' x : ext w w' -> x ∈ log w -> x ∈ log w'.
Proof. intros E ?. destruct (ext_log _ _ E) as [l ->]. apply elem_of_app. by left. Qed.

Lemma ext_early w w' : ext w w' -> early w' <-> early w.
Proof. intros E. unfold early. ext_rewrite E. done. Qed.

Lemma ext_rounds w w' n : ext w w' -> rounds_done n w -> rounds_done n w'.
Proof.
  intros E [H1 H2]. unfold rounds_done, local_pkey. ext_rewrite E. split; [done|].
  destruct (ext_log _ _ E) as [l ->]. by apply rounds_app.
Qed.

Lemma ext_half w w' : ext w w' -> half_round w -> half_round w'.
Proof.
  intros E (l1 & l2 & ours & H1 & H2 & H3). unfold half_round, local_pkey. ext_rewrite E.
  destruct (ext_log _ _ E) as [l ->]. exists l1, (l2 ++ l), ours. rewrite H1, <- !(assoc_L (++)). done.
Qed.

Lemma sc_stage_ext es es' w w' : ext w w' -> sc_stage es w -> sc_stage (es ++ es') w'.
Proof.
  intros E [S0 S1 S2 S3 S4 S5 S6 S7]. split; rewrite ?(ext_early _ _ E); ext_rewrite E.
  - done.
  - done.
  - intros [? ?]%S2. eauto using ext_elem.
  - intros [? ?]%S3. eauto using ext_rounds.
  - intros H1 H2. destruct (S4 H1 H2) as (? & ? & ?). eauto using ext_half.
  - intros [? ?]%S5. eauto using ext_rounds, ext_elem.
  - intros H1 H2. eauto using ext_elem.
  - rewrite elem_of_app. tauto.
Qed.

Lemma legacy_stage_ext w w' : ext w w' -> legacy_stage w -> legacy_stage w'.
Proof.
  intros E [S1 S2 S3 S4 S5 S6]. split; ext_rewrite E; eauto using ext_elem.
  - intros (pk & ? & ?)%S5. eauto using ext_elem.
  - intros (? & pk & ? & ?)%S6. split; [done|]. exists pk. split; [done|]. destruct (ext_log _ _ E) as [l ->]. by apply legacy_half_app.
Qed.

Lemma busy_ext es es' s w w' : ext w w' -> busy es s w -> busy (es ++ es') s w'.
Proof.
  intros E [[B0 B1] B2 B3 B4 B5 B6]. split; ext_rewrite E; eauto using ext_elem, sc_stage_ext, legacy_stage_ext.
  - split; [done|]. by apply (ext_flags _ _ _ E).
  - intros H1 H2. destruct (ext_log _ _ E) as [l ->]. apply passkey_proven_mono. eauto.
Qed.

Lemma inv_ext es s w w' : ext w w' -> inv es s w -> inv es s w'.
Proof.
  intros E [C [I|B]]; (split; [by eapply core_ext|]); [left; by eapply idle_ext|right].
  rewrite <- (app_nil_r es). by eapply busy_ext.
Qed.

Lemma inv_event es e s w : inv es s w -> inv (es ++ [e]) s w.
Proof.
  intros [C [I|B]]; (split; [by apply core_event|]); [by left|right]. by apply (busy_ext _ _ _ w).
Qed.
(** ** The key pool *)

Definition no_more (s s' : key_state F) : Prop := authed (pool s') -> authed (pool s).

Lemma authed_lookup (pool : list bt_keys) i k :
  pool !! i = Some k -> nz (keys_flags k .& BT_KEYS_AUTHENTICATED) = true -> authed pool.
Proof. intros H ?. exists k. split; [by eapply list_elem_of_lookup_2|done]. Qed.

Lemma no_more_alter f i s : (forall k, keys_flags (f k) = keys_flags k) -> no_more s (alter_key f i s).
Proof.
  intros Hf (k & [j Hk]%list_elem_of_lookup & Hauth). cbn in Hk. destruct (decide (i = j)) as [->|Hne].
  - rewrite list_lookup_alter_eq in Hk. destruct (pool s !! j) as [k0|] eqn:E; [|done]. injection Hk as <-.
    rewrite Hf in Hauth. by eapply authed_lookup.
  - rewrite list_lookup_alter_ne in Hk by done. by eapply authed_lookup.
Qed.

Lemma no_more_ids s s' : ids_only s s' -> no_more s s'.
Proof.
  intros [H _] (k & [j Hk]%list_elem_of_lookup & Hauth). destruct (Forall2_lookup_r _ _ _ _ _ H Hk) as (k0 & E & Hs).
  apply (authed_lookup _ _ _ E). by rewrite (f_equal keys_flags Hs : keys_flags k0 = keys_flags k).
Qed.

Lemma no_more_get_addr id addr s : no_more s (bt_keys_get_addr id addr s).2.
Proof.
  unfold bt_keys_get_addr. destruct (find_index _ _); [exact (fun H => H)|]. destruct (find_index is_free _); [|exact (fun H => H)].
  by apply no_more_alter.
Qed.

Lemma no_more_get_type type id addr s : no_more s (bt_keys_get_type type id addr s).2.
Proof.
  unfold bt_keys_get_type. destruct (bt_keys_find _ _ _ _); [exact (fun H => H)|].
  pose proof (no_more_get_addr id addr s) as H. destruct (bt_keys_get_addr id addr s) as [[i|] s']; [|done].
  intros ?%no_more_alter; [auto|done].
Qed.

Lemma no_more_clear i s : no_more s (bt_keys_clear i s).
Proof.
  unfold bt_keys_clear. destruct (pool s !! i) as [k|]; [|exact (fun H => H)].
  set (s1 := if nz _ then _ else _). assert (H : no_more s s1).
  { unfold s1. destruct (nz _); [|exact (fun H => H)]. apply no_more_ids, ids_bt_id_del. }
  destruct (settings_delete _ _) as [? st]. intros (k' & [j Hk]%list_elem_of_lookup & Hauth). cbn in Hk.
  apply list_lookup_insert_Some in Hk as [(? & <- & ?)|[? Hk]]; [done|]. by eapply H, authed_lookup.
Qed.

Lemma no_more_store i s : no_more s (bt_keys_store i s).2.
Proof. unfold bt_keys_store. destruct (pool s !! i) as [k|]; [|exact (fun H => H)]. destruct (settings_save_one _ _ _). exact (fun H => H). Qed.

(** ** Operations that do not matter *)

Lemma ext_logs x w : ext w (logs x w).
Proof. by split; eauto. Qed.
Lemma ext_set_ks s w : no_more (ks w) s -> ext w (set_ks s w).
Proof. split; try done. exists []. by rewrite app_nil_r. Qed.
Lemma ext_conn f w :
  (forall c, init_addr (f c) = init_addr c /\ resp_addr (f c) = resp_addr c /\ sec_level (f c) = sec_level c) ->
  ext w (upd_conn f w).
Proof. intros H. split; try done; try apply H. exists []. by rewrite app_nil_r. Qed.
Lemma ext_rng st w : ext w (set_rng st w).
Proof. split; try done. exists []. by rewrite app_nil_r. Qed.
Lemma ext_allocs a w : ext w (set_smp_allocs a w).
Proof. split; try done. exists []. by rewrite app_nil_r. Qed.
Lemma ext_ident_cbs n w : ext w (set_ident_cbs n w).
Proof. split; try done. exists []. by rewrite app_nil_r. Qed.
Lemma ext_dh_key_cb b w : ext w (set_dh_key_cb b w).
Proof. split; try done. exists []. by rewrite app_nil_r. Qed.
Lemma ext_work b w : ext w (upd_smp (set_smp_work b) w).
Proof. split; try done. exists []. by rewrite app_nil_r. Qed.
Lemma ext_work_back b w : ext (upd_smp (set_smp_work b) w) w.
Proof. split; try done. exists []. by rewrite app_nil_r. Qed.
Lemma ext_send buf w : ext w (smp_send buf w).
Proof. etrans; [apply (ext_logs (Tx buf))|apply ext_work]. Qed.
Lemma ext_upd_keys f w : (forall k, keys_flags (f k) = keys_flags k) -> ext w (upd_keys f w).
Proof. intros H. unfold upd_keys. destruct (le_keys _); [|reflexivity]. by apply ext_set_ks, no_more_alter. Qed.
Lemma ext_alter_entry i f w : (forall k, keys_flags (f k) = keys_flags k) -> ext w (alter_entry i f w).
Proof. intros H. by apply ext_set_ks, no_more_alter. Qed.
Lemma ext_conn_get_keys w : ext w (conn_get_keys w).
Proof.
  unfold conn_get_keys. destruct (le_keys _); [reflexivity|]. pose proof (no_more_get_addr (le_id (conn w)) (le_dst (conn w)) (ks w)) as H.
  destruct (bt_keys_get_addr _ _ _) as [k s]. etrans; [apply (ext_set_ks s), H|by apply ext_conn].
Qed.
Lemma ext_conn_find_keys types w : ext w (conn_find_keys types w).
Proof. unfold conn_find_keys. destruct (le_keys _); [reflexivity|by apply ext_conn]. Qed.
Lemma ext_get_type type w : ext w (get_type type w).2.
Proof.
  unfold get_type. pose proof (no_more_get_type type (le_id (conn w)) (le_dst (conn w)) (ks w)) as H.
  destruct (bt_keys_get_type _ _ _ _) as [k s]. by apply ext_set_ks.
Qed.
Lemma ext_hci_send cmd w : ext w (hci_send cmd w).
Proof. apply ext_set_ks. exact (fun H => H). Qed.
Lemma ext_hci_send_sync cmd w : ext w (hci_send_sync cmd w).2.
Proof. unfold hci_send_sync. destruct (bt_hci_cmd_send_sync _ _). apply ext_set_ks. exact (fun H => H). Qed.
Lemma ldiff_setbit a n m : 0 <= n -> Z.testbit m n = true -> Z.ldiff (Z.setbit a n) m = Z.ldiff a m.
Proof.
  intros Hn Hm. apply Z.bits_inj'. intros j Hj. rewrite !Z.ldiff_spec, Z.setbit_eqb by done.
  destruct (Z.eqb_spec n j) as [<-|]; [by rewrite Hm, !andb_false_r|done].
Qed.
Lemma ldiff_clearbit a n m : 0 <= n -> Z.testbit m n = true -> Z.ldiff (Z.clearbit a n) m = Z.ldiff a m.
Proof.
  intros Hn Hm. apply Z.bits_inj'. intros j Hj. rewrite !Z.ldiff_spec, Z.clearbit_eqb by done.
  destruct (Z.eqb_spec n j) as [<-|]; [by rewrite Hm, !andb_false_r|by rewrite andb_true_r].
Qed.

Lemma ext_set_flag g w : 0 <= g -> Z.testbit ignored g = true -> ext w (set_flag g w).
Proof.
  intros. split; try done; [|exists []; by rewrite app_nil_r]. unfold view. cbn. by rewrite ldiff_setbit.
Qed.
Lemma ext_clear_flag g w : 0 <= g -> Z.testbit ignored g = true -> ext w (clear_flag g w).
Proof.
  intros. split; try done; [|exists []; by rewrite app_nil_r]. unfold view. cbn. by rewrite ldiff_clearbit.
Qed.
Lemma ext_upd_smp f w : view (f (smp w)) = view (smp w) -> ext w (upd_smp f w).
Proof. intros H. split; try done. exists []. by rewrite app_nil_r. Qed.

Lemma ext_create_pdu op w : ext w (smp_create_pdu op w).2.
Proof.
  unfold smp_create_pdu. destruct (default _ _); cbn; [apply ext_allocs|].
  etrans; [apply ext_allocs|by apply ext_set_flag].
Qed.
Lemma ext_send_pdu op p w : ext w (send_pdu op p w).2.
Proof.
  unfold send_pdu. pose proof (ext_create_pdu op w) as H. destruct (smp_create_pdu op w) as [[buf|] w1]; [|done].
  etrans; [exact H|apply ext_send].
Qed.
Lemma send_pdu_sent op p w : (send_pdu op p w).1 = 0 -> log (send_pdu op p w).2 = log w ++ [Tx (op :: p)].
Proof. unfold send_pdu, smp_create_pdu. by destruct (default _ _). Qed.
Lemma ext_rand n w : ext w (rand_bytes n w).2.
Proof. unfold rand_bytes. destruct (bt_rand _ _) as [[? ?] ?]. apply ext_rng. Qed.

(** ** The end of a pairing *)

Lemma core_upd_smp es f w : core es w -> core es (upd_smp f w).
Proof. intros [C1 C2 C3 C4]. by split. Qed.

Lemma reset_inv es s w : core es w -> inv es s (smp_reset w).
Proof.
  intros C. unfold smp_reset. set (w1 := upd_smp _ w). set (w2 := if negb _ then _ else w1).
  assert (E : ext w1 w2) by (unfold w2; destruct (negb _); [by apply ext_conn|reflexivity]).
  assert (H1 : forall f, has f w1 = false) by (intros f; apply Z.bits_0).
  assert (H2 : forall c, can c w1 = false) by (intros c; apply Z.bits_0).
  assert (Hf : forall f, has f w2 = false) by (intros f; unfold w2; destruct (negb _); apply H1).
  split; [by apply core_upd_smp, (core_ext _ _ _ E), core_upd_smp|left]. split.
  - repeat constructor; apply Hf.
  - intros c Hc. rewrite can_allow by done. rewrite (ext_can _ _ c E), H2. destruct (Z.eqb_spec BT_SMP_CMD_PAIRING_REQ c) as [<-|]; [by left|done].
  - intros H. change (has SMP_FLAG_SEC_REQ w2 = true) in H. by rewrite Hf in H.
  - intros H. change (has SMP_FLAG_ENC_PENDING w2 = true) in H. by rewrite Hf in H.
Qed.

Lemma core_security_failed es hci err w : core es w -> core es (bt_conn_security_changed encrypt_failed hci err w).
Proof.
  intros C. unfold bt_conn_security_changed. eapply core_ext; [apply ext_logs|]. apply core_upd_smp.
  eapply core_ext; [|exact C]. by apply ext_conn.
Qed.

Lemma core_if es (b : bool) w w1 : core es w1 -> core es w -> core es (if b then w1 else w).
Proof. by destruct b. Qed.

Lemma complete_inv es s st w : core es w -> inv es s (smp_pairing_complete st w).
Proof.
  intros C. unfold smp_pairing_complete. apply reset_inv. destruct (st =? 0).
  - set (w1 := if has _ w then _ else w). assert (core es w1).
    { unfold w1. apply core_if; [|done]. destruct (le_keys _) as [i|]; [|done].
      by eapply core_ext; [apply ext_set_ks, no_more_store|]. }
    apply core_if; [|done]. by eapply core_ext; [apply ext_logs|].
  - set (w1 := match le_keys _ with Some _ => _ | None => w end). assert (H : core es w1).
    { unfold w1. destruct (le_keys _) as [i|]; [|done]. destruct (keys_of w) as [k|]; [|done]. apply core_if; [|done].
      eapply core_ext; [|exact C]. etrans; [apply ext_set_ks, no_more_clear|by apply ext_conn]. }
    set (w2 := if negb _ then _ else w1). assert (core es w2) by (apply core_if; [by apply core_security_failed|done]).
    apply core_if; [|done]. by eapply core_ext; [apply ext_logs|].
Qed.

Lemma error_inv es s reason w : core es w -> inv es s (smp_error reason w).2.
Proof.
  intros C. unfold smp_error. pose proof (complete_inv es s reason w C) as H. set (w1 := smp_pairing_complete _ w) in *. clearbody w1.
  pose proof (inv_ext _ _ _ _ (ext_create_pdu BT_SMP_CMD_PAIRING_FAIL w1) H) as H1.
  destruct (smp_create_pdu _ w1) as [[buf|] w2]; [|done]. by eapply inv_ext; [apply ext_logs|].
Qed.
End keeps.
