(* ===== verification/SmpPairing.v ===== *)
(** The messages of a pairing keep the invariant of [SmpInv]: requests, confirmations,
    random numbers, public keys, DHKey checks and keys. *)
From Stdlib Require Import ZArith Lia Bool.
From stdpp Require Import base numbers list gmap strings.
From S2P Require Import Prelude ByteOrder Uuid Gatt SettingsKeys Settings Keys Crypto Smp SmpInv.
Open Scope Z_scope.

Section pairing.
Context {F R : Type} `{!Nvs F, !TinyPrng R} {cr : Crypto}.
Implicit Types (w v : smp_world F R) (es : list event).
#[local] Arguments has : simpl never.
#[local] Arguments can : simpl never.

(** ** Handlers *)

(** What a handler leaves behind: an error ends the pairing. *)
Definition handled es (s : bool) (r : Z * smp_world F R) : Prop :=
  core es r.2 /\ (r.1 = 0 -> idle s r.2 \/ busy es s r.2).

Lemma handled_inv es s (r : Z * smp_world F R) :
  handled es s r -> inv es s (let '(err, w) := r in if nz err then (smp_error err w).2 else w).
Proof.
  destruct r as [err w]. intros [C H]. cbn in *. unfold nz. destruct (Z.eqb_spec err 0) as [->|]; [by split; auto|].
  by apply error_inv.
Qed.

Lemma handled_error es s err w : err <> 0 -> core es w -> handled es s (err, w).
Proof. by split. Qed.

Lemma get_io_capa_display w : bt_auth w = Some auth_cb_display -> get_io_capa w = BT_SMP_IO_DISPLAY_ONLY.
Proof. intros H. unfold get_io_capa. rewrite H. cbn. by rewrite andb_false_r. Qed.

(** Nothing of a pairing has happened yet. *)
Record fresh es w : Prop := {
  fresh_core : core es w;
  fresh_flags : Forall (fun f => has f w = false)
    [SMP_FLAG_PAIRING; SMP_FLAG_USER; SMP_FLAG_OOB_PENDING; SMP_FLAG_CFM_DELAYED; SMP_FLAG_SC; SMP_FLAG_KEYS_DISTR;
     SMP_FLAG_DHKEY_PENDING; SMP_FLAG_DHKEY_SEND; SMP_FLAG_DHCHECK_WAIT; SMP_FLAG_PKEY_SEND; SMP_FLAG_ENC_PENDING];
  fresh_cmds : forall c, 0 <= c -> can c w = true -> c = BT_SMP_CMD_PAIRING_FAIL;
  fresh_tk : tk (smp w) = zeros 16 }.

Definition display_method (sc : bool) (m : pairing_method) : Prop :=
  m = JUST_WORKS \/ m = PASSKEY_DISPLAY \/ m = LE_SC_OOB /\ sc = true \/ m = LEGACY_OOB /\ sc = false.

Lemma table_display t io :
  Forall (fun row => row !! 0%nat = Some JUST_WORKS \/ row !! 0%nat = Some PASSKEY_DISPLAY) t ->
  table_at t io BT_SMP_IO_DISPLAY_ONLY = JUST_WORKS \/ table_at t io BT_SMP_IO_DISPLAY_ONLY = PASSKEY_DISPLAY.
Proof.
  intros H. unfold table_at. destruct (t !! Z.to_nat io) as [row|] eqn:E; [|by left]. change (Z.to_nat BT_SMP_IO_DISPLAY_ONLY) with 0%nat.
  cbn. destruct (proj1 (Forall_lookup _ _) H _ _ E) as [-> | ->]; auto.
Qed.

Lemma pair_method_display io w : bt_auth w = Some auth_cb_display -> display_method (has SMP_FLAG_SC w) (get_pair_method io w).
Proof.
  intros Ha. unfold get_pair_method, legacy_get_pair_method, display_method. rewrite get_io_capa_display by done.
  assert (Hs := table_display gen_method_sc io). assert (Hl := table_display gen_method_legacy io).
  destruct (has _ w); cbn -[table_at].
  - destruct (_ && _); [auto|]. destruct (_ <? _); [auto|]. destruct (nz _); [|auto]. cbn -[table_at].
    destruct Hs as [-> | ->]; [by repeat constructor; cbn; auto|auto..].
  - destruct (_ <? _); [auto|]. destruct (nz _); [auto|]. destruct (nz _); [|auto]. cbn -[table_at].
    destruct Hl as [-> | ->]; [by repeat constructor; cbn; auto|auto..].
Qed.

Definition begun (m : pairing_method) (req rsp : list Z) (fl ld rd : Z) (s : bt_smp) : bt_smp :=
  set_method m (set_remote_dist rd (set_local_dist ld (set_prsp rsp (set_preq req (set_flags fl s))))).

Lemma begin_spec req w :
  bt_auth w = Some auth_cb_display -> has SMP_FLAG_SC w = false ->
  exists sc m fl ld rd,
    pairing_begin req w = upd_smp (begun m req (pairing_rsp req w) fl ld rd) w /\
    (forall f, 0 <= f -> Z.testbit ignored f = false -> Z.testbit fl f = (SMP_FLAG_PAIRING =? f) || sc && (SMP_FLAG_SC =? f) || has f w) /\
    display_method sc m.
Proof.
  intros Ha Hsc. unfold pairing_begin. set (w1 := upd_smp _ w). exists (both_auth BT_SMP_AUTH_SC w1).
  set (w2 := if both_auth _ w1 then _ else w1). set (w3 := if both_auth _ w2 then _ else w2). set (w4 := upd_smp _ w3).
  set (w5 := if both_auth _ w4 then _ else w4). set (w6 := set_flag _ w5).
  assert (Hf : forall f, 0 <= f -> Z.testbit ignored f = false ->
    has f w6 = (SMP_FLAG_PAIRING =? f) || both_auth BT_SMP_AUTH_SC w1 && (SMP_FLAG_SC =? f) || has f w).
  { intros f Hf Hi. unfold w6. rewrite has_set by done. rewrite <- orb_assoc. f_equal.
    assert (E5 : has f w5 = has f w4) by (unfold w5; destruct (both_auth _ w4); [apply ext_flag; [by apply ext_set_flag|done]|done]).
    assert (E3 : has f w3 = has f w2) by (unfold w3; destruct (both_auth _ w2); [apply ext_flag; [by apply ext_set_flag|done]|done]).
    rewrite E5. change (has f w4) with (has f w3). rewrite E3. unfold w2.
    destruct (both_auth _ w1); [rewrite has_set by done|]; done. }
  exists (get_pair_method (io_capability req) w6), (flags (smp w6)), (local_dist (smp w6)), (remote_dist (smp w6)).
  split; [|split; [exact Hf|]].
  - unfold w6, w5. generalize (get_pair_method (io_capability req) (set_flag SMP_FLAG_PAIRING (if both_auth BT_SMP_AUTH_BONDING w4 then set_flag SMP_FLAG_BOND w4 else w4))). intros m.
    destruct (both_auth _ w4); unfold w4, w3; destruct (both_auth _ w2); unfold w2; by destruct (both_auth _ w1).
  - replace (both_auth BT_SMP_AUTH_SC w1) with (has SMP_FLAG_SC w6).
    + apply pair_method_display. unfold w6, w5. destruct (both_auth _ w4); unfold w4, w3; destruct (both_auth _ w2); unfold w2; by destruct (both_auth _ w1).
    + rewrite Hf by done. cbn -[both_auth has]. by rewrite Hsc, andb_true_r, orb_false_r.
Qed.
(** A pairing has begun and nothing was sent for it. *)
Record started es (sc : bool) w : Prop := {
  st_core : core es w;
  st_pairing : has SMP_FLAG_PAIRING w = true;
  st_flags : Forall (fun f => has f w = false)
    [SMP_FLAG_USER; SMP_FLAG_OOB_PENDING; SMP_FLAG_CFM_DELAYED; SMP_FLAG_KEYS_DISTR; SMP_FLAG_DHKEY_PENDING;
     SMP_FLAG_DHKEY_SEND; SMP_FLAG_DHCHECK_WAIT; SMP_FLAG_PKEY_SEND; SMP_FLAG_ENC_PENDING];
  st_sc : has SMP_FLAG_SC w = sc;
  st_method : display_method sc (method (smp w));
  st_cmds : forall c, 0 <= c -> can c w = true -> c = BT_SMP_CMD_PAIRING_FAIL;
  st_tk : tk (smp w) = zeros 16;
  st_preq : Rx (preq (smp w)) ∈ log w;
  st_prsp : prsp (smp w) = BT_SMP_CMD_PAIRING_RSP :: drop 1 (prsp (smp w)) }.

Lemma started_ext es sc w w' : ext w w' -> started es sc w -> started es sc w'.
Proof.
  intros E [S1 S2 S3 S4 S5 S6 S7 S8 S9]. split; ext_rewrite E; eauto using core_ext, ext_elem.
  - by apply (ext_flags _ _ _ E).
  - intros c. rewrite (ext_can _ _ c E). apply S6.
Qed.

Lemma begin_started es req w :
  fresh es w -> Rx req ∈ log w -> exists sc, started es sc (pairing_begin req w).
Proof.
  intros [C H1 H2 H3] Hreq. rewrite !Forall_cons in H1. destruct H1 as (P1 & P2 & P3 & P4 & P5 & P6 & P7 & P8 & P9 & P10 & P11 & _).
  destruct (begin_spec req w (core_auth _ _ C) P5) as (sc & m & fl & ld & rd & -> & Hf & Hm). exists sc.
  assert (Hhas : forall f, 0 <= f -> Z.testbit ignored f = false ->
    has f (upd_smp (begun m req (pairing_rsp req w) fl ld rd) w) = (SMP_FLAG_PAIRING =? f) || sc && (SMP_FLAG_SC =? f) || has f w) by exact Hf.
  split; rewrite ?Hhas by done; cbn -[has]; try done.
  - by apply core_upd_smp.
  - repeat constructor; rewrite Hhas by done; cbn -[has]; by rewrite andb_false_r.
  - by rewrite P5, andb_true_r, orb_false_r.
Qed.

Lemma started_none es sc w c : started es sc w -> 0 <= c -> c <> BT_SMP_CMD_PAIRING_FAIL -> can c w = false.
Proof. intros S Hc Hne. apply not_true_is_false. intros H. by destruct Hne; apply (st_cmds _ _ _ S). Qed.
Lemma busy_ext0 es s w w' : ext w w' -> busy es s w -> busy es s w'.
Proof. rewrite <- (app_nil_r es) at 2. apply busy_ext. Qed.

(** A handler that ends with a change that does not matter. *)
Lemma handled_ext es s (r : Z * smp_world F R) w : ext w r.2 -> core es w -> idle s w \/ busy es s w -> handled es s r.
Proof.
  intros E C H. split; [by eapply core_ext|]. intros _. destruct H; [left; by eapply idle_ext|right; by eapply busy_ext0].
Qed.

Lemma has_allow f c w : has f (allow c w) = has f w.
Proof. done. Qed.

Lemma started_sc es w : started es true w -> handled es false (send_pairing_rsp (allow BT_SMP_CMD_PUBLIC_KEY w)).
Proof.
  intros S. apply (handled_ext _ _ _ (allow BT_SMP_CMD_PUBLIC_KEY w)); [apply ext_send_pdu|apply core_upd_smp, (st_core _ _ _ S)|right].
  pose proof (started_none _ _ _ BT_SMP_CMD_PAIRING_REQ S) as N1. pose proof (started_none _ _ _ BT_SMP_CMD_PAIRING_CONFIRM S) as N2.
  pose proof (started_none _ _ _ BT_SMP_CMD_PAIRING_RANDOM S) as N3. pose proof (started_none _ _ _ BT_SMP_DHKEY_CHECK S) as N4.
  destruct S as [C S2 S3 S4 S5 S6 S7 S8 S9]. rewrite !Forall_cons in S3. destruct S3 as (P1 & P2 & P3 & P4 & P5 & P6 & P7 & P8 & P9 & _).
  split; rewrite ?has_allow, ?can_allow by done; rewrite ?P9, ?P4, ?S4.
  - split; [done|]. by repeat constructor.
  - by rewrite N1.
  - done.
  - done.
  - intros _ Hm. split; unfold early; rewrite ?has_allow, ?can_allow by done; rewrite ?N2, ?N3, ?N4, ?P5, ?P6, ?P7, ?P8 by done; try done.
    + destruct S5 as [?|[?|[[? _]|[_ ?]]]]; [done|by left|by right|done].
    + by left.
  - done.
Qed.

Lemma has_upd f h w : flags (h (smp w)) = flags (smp w) -> has f (upd_smp h w) = has f w.
Proof. intros H. unfold has. cbn. by rewrite H. Qed.
Lemma can_upd c h w : allowed_cmds (h (smp w)) = allowed_cmds (smp w) -> can c (upd_smp h w) = can c w.
Proof. intros H. unfold can. cbn. by rewrite H. Qed.

(** A legacy pairing waits for the confirmation of the peer. *)
Lemma started_legacy_busy es w w' h :
  started es false w -> ext (allow BT_SMP_CMD_PAIRING_CONFIRM w) w' ->
  (forall x, flags (h x) = flags x /\ allowed_cmds (h x) = allowed_cmds x /\ method (h x) = method x /\
     preq (h x) = preq x /\ prsp (h x) = prsp x) ->
  (method (smp w) <> JUST_WORKS -> method (smp w) = PASSKEY_DISPLAY /\ Tx (prsp (smp w)) ∈ log w /\
     exists passkey, tk (h (smp w')) = le_bytes 4 passkey ++ zeros 12 /\ Up (Passkey_display passkey) ∈ log w') ->
  busy es false (upd_smp h w').
Proof.
  intros S E Hh Hm. destruct (Hh (smp w')) as (h1 & h2 & h3 & h4 & h5).
  pose proof (started_none _ _ _ BT_SMP_CMD_PAIRING_REQ S) as N1. pose proof (started_none _ _ _ BT_SMP_CMD_PUBLIC_KEY S) as N2.
  pose proof (started_none _ _ _ BT_SMP_CMD_PAIRING_RANDOM S) as N3. pose proof (started_none _ _ _ BT_SMP_DHKEY_CHECK S) as N4.
  destruct S as [C S2 S3 S4 S5 S6 S7 S8 S9]. pose proof S3 as S3'. rewrite !Forall_cons in S3.
  destruct S3 as (P1 & P2 & P3 & P4 & P5 & P6 & P7 & P8 & P9 & _).
  assert (Em : method (smp w') = method (smp w)) by (ext_rewrite E; done).
  split; rewrite ?has_upd, ?can_upd by done; ext_rewrite E; rewrite ?has_allow, ?can_allow by done.
  - split; [done|]. repeat constructor; rewrite has_upd by done; ext_rewrite E; done.
  - by rewrite N1.
  - cbn. rewrite h4. ext_rewrite E. by apply (ext_elem _ _ _ E).
  - by rewrite P9, P4.
  - by rewrite S4.
  - cbn. rewrite h3, Em. intros _ (M & Htx & pk & Htk & Hup)%Hm.
    split; rewrite ?has_upd, ?can_upd by done; cbn; rewrite ?h3, ?h4, ?h5; ext_rewrite E; rewrite ?has_allow, ?can_allow by done;
      rewrite ?N2, ?N3, ?N4 by done; try done.
    + by apply (ext_elem _ _ _ E).
    + intros _. by exists pk.
Qed.

Lemma started_legacy es w : started es false w -> handled es false (legacy_pairing_req w).
Proof.
  intros S. assert (asks_consent w = false) as Hc.
  { unfold asks_consent, auth_has. rewrite (core_auth _ _ (st_core _ _ _ S)). apply andb_false_r. }
  unfold legacy_pairing_req. rewrite Hc. pose proof (ext_send_pdu BT_SMP_CMD_PAIRING_RSP (drop 1 (prsp (smp w))) w) as E.
  pose proof (send_pdu_sent BT_SMP_CMD_PAIRING_RSP (drop 1 (prsp (smp w))) w) as Hlog.
  fold (send_pairing_rsp w) in *. destruct (send_pairing_rsp w) as [ret w1]. cbn in E, Hlog. apply (started_ext _ _ _ _ E) in S as S1.
  unfold nz. destruct (Z.eqb_spec ret 0) as [->|]; [|apply handled_error; [done|apply (st_core _ _ _ S1)]]. cbn [negb].
  assert (Tx (prsp (smp w1)) ∈ log w1) as Htx.
  { rewrite Hlog by done. ext_rewrite E. rewrite (st_prsp _ _ _ S). apply elem_of_app. right. apply list_elem_of_here. }
  clear S E Hlog Hc w. assert (C : core es (allow BT_SMP_CMD_PAIRING_CONFIRM w1)) by apply core_upd_smp, (st_core _ _ _ S1).
  unfold legacy_request_tk. destruct (_ && _); [by apply handled_error|].
  change (method (smp (allow BT_SMP_CMD_PAIRING_CONFIRM w1))) with (method (smp w1)).
  destruct (st_method _ _ _ S1) as [M|[M|[[? ?]|[M _]]]]; [| |done|]; rewrite M.
  - split; [done|intros _; right]. apply (busy_ext0 _ _ _ _ (ext_work_back false _)).
    apply (started_legacy_busy es w1 _ _ S1); [reflexivity|done|congruence].
  - pose proof (ext_rand 4 (allow BT_SMP_CMD_PAIRING_CONFIRM w1)) as E. destruct (rand_bytes 4 _) as [[err buf] w2]. cbn in E.
    apply (core_ext _ _ _ E) in C. destruct (nz err); [by apply handled_error|].
    unfold auth_has. rewrite (core_auth _ _ C). cbn [passkey_display auth_cb_display].
    set (pk := le_value buf mod 1000000). set (w3 := logs _ _).
    assert (E3 : ext w2 w3) by (etrans; [by apply (ext_set_flag SMP_FLAG_DISPLAY)|apply ext_logs]).
    split; [by apply core_upd_smp, (core_ext _ _ _ E3)|intros _; right].
    apply (started_legacy_busy es w1 _ _ S1); [by etrans|done|]. intros _. split; [done|]. split; [done|]. exists pk. split.
    + unfold put_tk. cbn [tk set_tk]. ext_rewrite E3. ext_rewrite E. cbn [smp allow upd_smp set_smp tk set_allowed_cmds].
      by rewrite (st_tk _ _ _ S1).
    + cbn. apply elem_of_app. right. apply list_elem_of_here.
  - unfold auth_has. rewrite (core_auth _ _ C). by apply handled_error.
Qed.
Lemma core_set_sc_public_key es w : core es w -> core es (set_sc_public_key (pub_key (ecc w)) w).
Proof. intros [C1 C2 C3 C4]. split; try done. cbn. intros H. destruct (C2 H) as [_ ->]. done. Qed.

Lemma has_zero f b w : has f (upd_smp (fun _ => smp_zero b) w) = false.
Proof. apply Z.bits_0. Qed.
Lemma can_zero c b w : can c (upd_smp (fun _ => smp_zero b) w) = false.
Proof. apply Z.bits_0. Qed.

Lemma init_fresh es w :
  core es w -> core es (smp_init w).2 /\ log (smp_init w).2 = log w /\ ((smp_init w).1 = 0 -> fresh es (smp_init w).2).
Proof.
  intros C. unfold smp_init. cbv zeta. set (w1 := upd_smp _ w). assert (C1 : core es w1) by by apply core_upd_smp.
  assert (H : exists err buf st, rand_bytes 16 w1 = (err, buf, set_rng st w1)).
  { unfold rand_bytes. destruct (bt_rand _ _) as [[err buf] st]. eauto. }
  destruct H as (err & buf & st & ->). set (w2 := upd_smp (set_prnd buf) (set_rng st w1)).
  assert (C2 : core es w2) by (apply core_upd_smp, (core_ext _ _ _ (ext_rng _ _)), C1).
  destruct (nz err); [done|]. split; [|split; [done|]].
  - by apply (core_set_sc_public_key es (allow BT_SMP_CMD_PAIRING_FAIL w2)), core_upd_smp.
  - intros _. set (w3 := set_sc_public_key _ _).
    assert (Hf : forall f, has f w3 = false) by (intros f; apply Z.bits_0).
    assert (Hc : forall c, 0 <= c -> can c w3 = (BT_SMP_CMD_PAIRING_FAIL =? c)).
    { intros c Hc. change (can c w3) with (can c (allow BT_SMP_CMD_PAIRING_FAIL w2)). rewrite can_allow by done.
      change (can c w2) with (Z.testbit 0 c). by rewrite Z.bits_0, orb_false_r. }
    split; [by apply (core_set_sc_public_key es (allow BT_SMP_CMD_PAIRING_FAIL w2)), core_upd_smp|by repeat constructor; rewrite Hf| |done].
    intros c H0. rewrite Hc by done. intros H%Z.eqb_eq. done.
Qed.

(** A command that was allowed is not any more. *)
Definition took (c : Z) w : smp_world F R := upd_smp (fun s => set_allowed_cmds (Z.clearbit (allowed_cmds s) c) s) w.
Lemma can_took c d w : 0 <= c -> 0 <= d -> can c (took d w) = can c w && negb (d =? c).
Proof. intros. unfold can. cbn. by rewrite Z.clearbit_eqb. Qed.
Lemma has_took f d w : has f (took d w) = has f w.
Proof. done. Qed.

(** A PDU comes in and its command is taken. *)
Definition arrived (c : Z) (buf : list Z) w : smp_world F R := took c (logs (Rx (c :: buf)) w).

Lemma core_arrived es c buf w : core es w -> core es (arrived c buf w).
Proof. intros C. apply core_upd_smp. by apply (core_ext _ _ _ (ext_logs _ _)). Qed.

Lemma ext_update_keys_check w : ext w (update_keys_check w).2.
Proof. apply ext_conn_get_keys. Qed.

Lemma idle_fresh es buf w :
  core es w -> idle false w -> has SMP_FLAG_SEC_REQ w = true -> fresh es (arrived BT_SMP_CMD_PAIRING_REQ buf w).
Proof.
  intros C [I1 I2 I3 I4] Hs. split; [by apply core_arrived| | |by apply I3].
  - rewrite !Forall_cons in *. change (has ?f (arrived _ _ w)) with (has f w).
    destruct (has SMP_FLAG_ENC_PENDING w) eqn:He; [by discriminate (I4 eq_refl)|]. naive_solver.
  - intros c Hc. unfold arrived. rewrite can_took by done. change (can c (logs _ w)) with (can c w).
    intros [H1 H2]%andb_true_iff. destruct (I2 c Hc H1) as [->|]; [done|done].
Qed.

Lemma fresh_ext es w w' : ext w w' -> fresh es w -> fresh es w'.
Proof.
  intros E [F1 F2 F3 F4]. split; ext_rewrite E; eauto using core_ext.
  - by apply (ext_flags _ _ _ E).
  - intros c. rewrite (ext_can _ _ c E). apply F3.
Qed.

Lemma pairing_req_ok es buf w :
  core es w -> idle false w -> length buf = 6%nat -> handled es false (smp_pairing_req buf (arrived BT_SMP_CMD_PAIRING_REQ buf w)).
Proof.
  intros C I Hlen. pose proof (core_arrived es BT_SMP_CMD_PAIRING_REQ buf w C) as C1. pose proof (idle_fresh es buf w C I) as Hfresh.
  set (w1 := arrived _ buf w) in *. assert (Hlog : Rx (BT_SMP_CMD_PAIRING_REQ :: buf) ∈ log w1).
  { apply elem_of_app. right. apply list_elem_of_here. }
  change (has SMP_FLAG_SEC_REQ w) with (has SMP_FLAG_SEC_REQ w1) in Hfresh. clearbody w1.
  unfold smp_pairing_req. cbv zeta. replace (slice 0 6 buf) with buf by (unfold slice; by rewrite drop_0, take_ge by lia).
  set (req := _ :: buf) in *. destruct (_ || _); [by apply handled_error|].
  pose proof (ext_conn_get_keys w1) as E. set (w2 := conn_get_keys w1) in *. clearbody w2.
  assert (C2 : core es w2) by by apply (core_ext _ _ _ E). destruct (le_keys _); [|by apply handled_error].
  set (r := if negb _ then _ else _). assert (H : core es r.2 /\ (r.1 = 0 -> fresh es r.2 /\ Rx req ∈ log r.2)).
  { unfold r. rewrite (ext_flag _ _ _ E) by done. destruct (has SMP_FLAG_SEC_REQ w1) eqn:Hs; cbn.
    - split; [done|]. intros _. split; [by apply (fresh_ext _ _ _ E), Hfresh|by apply (ext_elem _ _ _ E)].
    - destruct (init_fresh es w2 C2) as (H1 & H2 & H3). split; [done|]. intros H. split; [auto|]. rewrite H2. by apply (ext_elem _ _ _ E). }
  destruct r as [ret w3]. cbn in H. destruct H as [C3 H]. unfold nz. destruct (Z.eqb_spec ret 0) as [->|]; [|by apply handled_error].
  cbn [negb]. destruct (H eq_refl) as [Hf Hreq]. destruct (begin_started es req w3 Hf Hreq) as [sc S].
  pose proof (started_ext _ _ _ _ (ext_update_keys_check _) S) as S'. clear H S E Hfresh Hlog C3 C2 C1.
  destruct (update_keys_check _) as [ok w4]. cbn in S'. pose proof (st_core _ _ _ S') as C4.
  destruct ok; [|by apply handled_error]. cbn [negb]. rewrite (st_sc _ _ _ S'). destruct sc; cbn [negb]; [|by apply started_legacy].
  destruct (_ && _); [by apply handled_error|]. destruct (_ && _); [by apply handled_error|].
  replace (asks_consent w4) with false; [by apply started_sc|].
  unfold asks_consent, auth_has. rewrite (core_auth _ _ C4). by rewrite andb_false_r.
Qed.
Lemma ext_clear_unset f w : 0 <= f -> has f w = false -> ext w (clear_flag f w).
Proof.
  intros Hf H. apply ext_upd_smp. replace (Z.clearbit (flags (smp w)) f) with (flags (smp w)); [done|].
  apply Z.bits_inj'. intros j Hj. rewrite Z.clearbit_eqb by done.
  destruct (Z.eqb_spec f j) as [<-|]; [|by rewrite andb_true_r]. unfold has in H. by rewrite H.
Qed.

Lemma busy_took es s c w : 0 <= c -> busy es s w -> busy es s (took c w).
Proof.
  intros Hc [[B0 B1] B2 B3 B4 B5 B6].
  split; rewrite ?has_took, ?can_took by done; change (log (took c w)) with (log w); change (preq (smp (took c w))) with (preq (smp w));
    change (method (smp (took c w))) with (method (smp w)); eauto.
  - by rewrite B2.
  - intros H1 H2. destruct (B5 H1 H2) as [S0 S1 S2 S3 S4 S5 S6 S7].
    assert (He : early w -> early (took c w)).
    { intros (E1 & E2 & E3 & E4). unfold early. rewrite !has_took, !can_took by done. by rewrite E1, E2, E3. }
    split; rewrite ?has_took, ?can_took by done; [done|..].
    + intros [[? ?]%andb_true_iff|?]; auto.
    + intros [-> ?]%S2. auto.
    + intros [? ?]%andb_true_iff. auto.
    + intros [? ?]%andb_true_iff. auto.
    + intros H. apply S5. rewrite !orb_true_iff, andb_true_iff in H. rewrite !orb_true_iff. tauto.
    + auto.
    + destruct S7 as [?|?]; auto.
  - intros H1 H2. destruct (B6 H1 H2) as [S1 [S2 S2'] S3 S4 S5 S6]. split; rewrite ?has_took, ?can_took by done; try done.
    + by rewrite S2, S2'.
    + intros [? ?]%andb_true_iff. auto.
    + intros [[-> ?]%S6 ?]%andb_true_iff. auto.
Qed.

Lemma busy_arrived es s c buf w : 0 <= c -> busy es s w -> busy es s (arrived c buf w).
Proof. intros Hc B. apply busy_took; [done|]. by apply (busy_ext0 _ _ _ _ (ext_logs _ _)). Qed.

Lemma busy_no_user es s w : busy es s w -> has SMP_FLAG_USER w = false.
Proof. intros [[_ B] _ _ _ _ _]. rewrite !Forall_cons in B. tauto. Qed.
Lemma busy_no_oob es s w : busy es s w -> has SMP_FLAG_OOB_PENDING w = false.
Proof. intros [[_ B] _ _ _ _ _]. rewrite !Forall_cons in B. tauto. Qed.
Lemma busy_no_cfm es s w : busy es s w -> has SMP_FLAG_CFM_DELAYED w = false.
Proof. intros [[_ B] _ _ _ _ _]. rewrite !Forall_cons in B. tauto. Qed.

(** ** Confirmations *)

Lemma send_confirm_spec w :
  has SMP_FLAG_CFM_DELAYED w = false -> let '(err, w') := smp_send_pairing_confirm w in
  ext w w' /\ (err = 0 -> exists r val, confirm_r w = Some r /\ log w' = log w ++ [Tx (BT_SMP_CMD_PAIRING_CONFIRM :: val)] /\
    smp_f4 (local_pkey w) (pkey (smp w)) (prnd (smp w)) r = Some val).
Proof.
  intros Hc. unfold smp_send_pairing_confirm. destruct (confirm_r w) as [r|] eqn:Hr; [|by split].
  pose proof (ext_create_pdu BT_SMP_CMD_PAIRING_CONFIRM w) as E. unfold smp_create_pdu in *.
  destruct (default true _); [|by split]. cbn in E. set (w1 := set_smp_allocs _ w) in *.
  change (smp w1) with (smp w). change (local_pkey w1) with (local_pkey w). destruct (smp_f4 _ _ _ _) as [val|] eqn:Hv; [|by split].
  pose proof (ext_send ([BT_SMP_CMD_PAIRING_CONFIRM] ++ val) w1) as E1. split.
  - etrans; [exact E|]. etrans; [exact E1|]. apply ext_clear_unset; [done|]. rewrite (ext_flag _ _ _ E1), (ext_flag _ _ _ E) by done. done.
  - intros _. by exists r, val.
Qed.

Lemma legacy_confirm_spec w :
  has SMP_FLAG_CFM_DELAYED w = false -> let '(err, w') := legacy_send_pairing_confirm w in
  ext w w' /\ (err = 0 -> exists val, log w' = log w ++ [Tx (BT_SMP_CMD_PAIRING_CONFIRM :: val)] /\
    smp_c1 (tk (smp w)) (prnd (smp w)) (preq (smp w)) (prsp (smp w)) (init_addr (conn w)) (resp_addr (conn w)) = Some val).
Proof.
  intros Hc. unfold legacy_send_pairing_confirm.
  pose proof (ext_create_pdu BT_SMP_CMD_PAIRING_CONFIRM w) as E. unfold smp_create_pdu in *.
  destruct (default true _); [|by split]. cbn in E. set (w1 := set_smp_allocs _ w) in *.
  change (smp w1) with (smp w). change (conn w1) with (conn w). destruct (smp_c1 _ _ _ _ _ _) as [val|] eqn:Hv; [|by split].
  pose proof (ext_send ([BT_SMP_CMD_PAIRING_CONFIRM] ++ val) w1) as E1. split.
  - etrans; [exact E|]. etrans; [exact E1|]. apply ext_clear_unset; [done|]. rewrite (ext_flag _ _ _ E1), (ext_flag _ _ _ E) by done. done.
  - intros _. by exists val.
Qed.
(** The world in which the confirmation of this side is sent. *)
Definition confirming (buf : list Z) w : smp_world F R :=
  allow BT_SMP_CMD_PAIRING_RANDOM (upd_smp (set_pcnf buf) (clear_flag SMP_FLAG_DISPLAY (arrived BT_SMP_CMD_PAIRING_CONFIRM buf w))).

Lemma has_confirming f buf w : 0 <= f -> Z.testbit ignored f = false -> has f (confirming buf w) = has f w.
Proof.
  intros Hf Hi. unfold confirming. rewrite has_allow, has_upd, has_clear by done. destruct (Z.eqb_spec SMP_FLAG_DISPLAY f) as [<-|]; [done|].
  by rewrite andb_true_r.
Qed.
Lemma can_confirming c buf w :
  0 <= c -> can c (confirming buf w) = (BT_SMP_CMD_PAIRING_RANDOM =? c) || can c w && negb (BT_SMP_CMD_PAIRING_CONFIRM =? c).
Proof.
  intros Hc. unfold confirming. rewrite can_allow, can_upd by done. unfold clear_flag. rewrite can_upd by done. unfold arrived.
  by rewrite can_took by done.
Qed.

Lemma confirm_busy es buf w w' :
  busy es false w -> can BT_SMP_CMD_PAIRING_CONFIRM w = true -> ext (confirming buf w) w' ->
  (has SMP_FLAG_SC w = true -> method (smp w) = PASSKEY_DISPLAY -> half_round w') ->
  (has SMP_FLAG_SC w = false -> method (smp w) = PASSKEY_DISPLAY -> exists passkey, tk (smp w') = le_bytes 4 passkey ++ zeros 12 /\
     legacy_half passkey (preq (smp w')) (prsp (smp w')) (init_addr (conn w')) (resp_addr (conn w')) (pcnf (smp w')) (prnd (smp w')) (log w')) ->
  busy es false w'.
Proof.
  intros B Hcan E Hsc Hlg. pose proof (busy_ext0 _ _ _ _ (ext_logs (Rx (BT_SMP_CMD_PAIRING_CONFIRM :: buf)) _) B) as [[B0 B1] B2 B3 B4 B5 B6].
  set (w1 := logs _ w) in *. change (has ?f w1) with (has f w) in *. change (can ?f w1) with (can f w) in *. change (smp w1) with (smp w) in *.
  assert (Hlog : forall x, x ∈ log w1 -> x ∈ log w') by (intros x; apply (ext_elem _ _ _ E)).
  split; ext_rewrite E; rewrite ?has_confirming, ?can_confirming by done.
  - split; [done|]. rewrite !Forall_cons in *. repeat split; try constructor; ext_rewrite E; rewrite has_confirming by done; naive_solver.
  - by rewrite B2.
  - by apply Hlog.
  - intros H1 H2. destruct (ext_log _ _ E) as [l ->]. rewrite <- (app_nil_r es). by apply passkey_proven_mono, B4.
  - intros H1 H2. destruct (B5 H1 H2) as [S0 S1 S2 S3 S4 S5 S6 S7]. destruct (S3 Hcan) as [Hr [Hm Hrounds]].
    assert (He : ~ early w1) by (intros (He & _); change (can BT_SMP_CMD_PAIRING_CONFIRM w = false) in He; congruence).
    assert (Hrd : forall n, rounds_done n w1 -> rounds_done n w').
    { intros n [Ha Hb]. split; [ext_rewrite E; done|]. unfold local_pkey. ext_rewrite E. destruct (ext_log _ _ E) as [l ->]. by apply rounds_app. }
    split; ext_rewrite E; rewrite ?has_confirming, ?can_confirming by done; cbn [Z.eqb]; rewrite ?andb_true_r, ?orb_false_l; [done|..].
    + intros H. by destruct He; apply S1.
    + intros [? ?]%S2. split; [done|]. by apply Hlog.
    + rewrite andb_false_r. done.
    + intros _ _. split; [done|]. split; [done|]. by apply Hsc.
    + intros [? ?]%S5. auto.
    + intros H3 H4. by apply Hlog, S6.
    + right. by destruct S7.
  - intros H1 H2. destruct (B6 H1 H2) as [S1 [S2 S2'] S3 S4 S5 S6].
    split; ext_rewrite E; rewrite ?has_confirming, ?can_confirming by done; cbn [Z.eqb]; rewrite ?andb_true_r, ?orb_false_l, ?andb_false_r; try done.
    + by apply Hlog.
    + intros _. split; [done|]. destruct (Hlg H1 S1) as (pk & Htk & Hhalf). exists pk. revert Htk Hhalf. ext_rewrite E. done.
Qed.
Lemma confirm_sc es buf w :
  core es w -> busy es false w -> can BT_SMP_CMD_PAIRING_CONFIRM w = true -> has SMP_FLAG_SC w = true ->
  method (smp w) = PASSKEY_DISPLAY -> handled es false (smp_send_pairing_confirm (confirming buf w)).
Proof.
  intros C B Hcan Hsc Hm. pose proof (send_confirm_spec (confirming buf w)) as H. rewrite has_confirming in H by done.
  specialize (H (busy_no_cfm _ _ _ B)). destruct (smp_send_pairing_confirm _) as [err w'] eqn:Heq. destruct H as [E H].
  assert (C' : core es w') by (by apply (core_ext _ _ _ E), core_upd_smp, core_upd_smp, core_upd_smp, core_arrived).
  split; [done|]. cbn. intros He. right. destruct (H He) as (r & val & Hr & Hlog & Hf4).
  apply (confirm_busy es buf w w' B Hcan E); [|congruence]. intros _ _.
  destruct (sc_confirm _ _ (busy_sc _ _ _ B Hsc ltac:(by rewrite Hm)) Hcan) as [Hround [_ Hrounds]].
  exists (log w), [], val. unfold local_pkey. ext_rewrite E. unfold confirm_r in Hr. cbn in Hr. rewrite Hm in Hr. injection Hr as <-.
  split; [|split; [done|exact Hf4]]. rewrite Hlog. cbn. by rewrite <- (assoc_L (++)).
Qed.

Lemma confirm_legacy es buf w :
  core es w -> busy es false w -> can BT_SMP_CMD_PAIRING_CONFIRM w = true -> has SMP_FLAG_SC w = false ->
  handled es false (legacy_send_pairing_confirm (confirming buf w)).
Proof.
  intros C B Hcan Hsc. pose proof (legacy_confirm_spec (confirming buf w)) as H. rewrite has_confirming in H by done.
  specialize (H (busy_no_cfm _ _ _ B)). destruct (legacy_send_pairing_confirm _) as [err w'] eqn:Heq. destruct H as [E H].
  assert (C' : core es w') by (by apply (core_ext _ _ _ E), core_upd_smp, core_upd_smp, core_upd_smp, core_arrived).
  split; [done|]. cbn. intros He. right. destruct (H He) as (val & Hlog & Hc1).
  apply (confirm_busy es buf w w' B Hcan E); [congruence|]. intros _ Hm.
  destruct (busy_legacy _ _ _ B Hsc ltac:(by rewrite Hm)) as [_ _ _ S4 S5 _]. destruct (S5 Hcan) as (pk & Htk & Hup).
  exists pk. ext_rewrite E. split; [done|]. exists (log w), [], val. cbn in *. rewrite Htk in Hc1.
  split; [by rewrite Hlog, <- (assoc_L (++))|]. eauto using busy_preq.
Qed.

Lemma confirm_ok es buf w :
  core es w -> busy es false w -> can BT_SMP_CMD_PAIRING_CONFIRM w = true -> length buf = 16%nat ->
  handled es false (smp_pairing_confirm buf (arrived BT_SMP_CMD_PAIRING_CONFIRM buf w)).
Proof.
  intros C B Hcan Hlen. unfold smp_pairing_confirm. cbv zeta.
  replace (slice 0 16 buf) with buf by (unfold slice; by rewrite drop_0, take_ge by lia).
  set (w1 := upd_smp (set_pcnf buf) _). assert (C1 : core es w1) by (by apply core_upd_smp, core_upd_smp, core_arrived).
  assert (Hf : forall f, 0 <= f -> Z.testbit ignored f = false -> has f w1 = has f w) by (intros f; apply has_confirming).
  unfold legacy_pairing_confirm. rewrite !Hf by done. rewrite (busy_no_user _ _ _ B).
  destruct (has SMP_FLAG_SC w) eqn:Hsc; cbn [negb]; [|by apply confirm_legacy].
  change (method (smp w1)) with (method (smp w)). destruct (method (smp w)) eqn:Hm.
  1,4,5,6,7: by apply handled_error.
  - destruct (busy_sc _ _ _ B Hsc ltac:(by rewrite Hm)) as [_ _ _ S3 _ _ _ _]. destruct (S3 Hcan) as (_ & S & _). congruence.
  - by apply confirm_sc.
Qed.

(** ** Random numbers *)

Lemma half_next w r c l l' prnd' :
  half_round w -> 0 <= passkey_round (smp w) -> prnd' = prnd (smp w) -> c = pcnf (smp w) ->
  smp_f4 (pkey (smp w)) (local_pkey w) r (passkey_bit (passkey (smp w)) (passkey_round (smp w))) = Some c ->
  l = log w ++ [Rx (BT_SMP_CMD_PAIRING_RANDOM :: r); Tx (BT_SMP_CMD_PAIRING_RANDOM :: prnd')] ++ l' ->
  passkey_rounds (passkey (smp w)) (pkey (smp w)) (local_pkey w) (S (Z.to_nat (passkey_round (smp w)))) l.
Proof.
  intros (l1 & l2 & ours & Hlog & Hrounds & Hours) Hr -> -> Hf4 ->. rewrite Hlog. rewrite <- !(assoc_L (++)).
  eapply (rounds_next _ _ _ _ l1 l2 l'); [done|by rewrite Z2Nat.id..].
Qed.

(** A round of the passkey protocol is over; [late]: it was the last one. *)
Record round_over (buf : list Z) w v : Prop := {
  ro_flags f : 0 <= f -> Z.testbit ignored f = false ->
    has f v = has f w || (passkey_round (smp v) =? 20) && (SMP_FLAG_DHCHECK_WAIT =? f);
  ro_cmds c : 0 <= c ->
    can c v = can c w && negb (BT_SMP_CMD_PAIRING_RANDOM =? c) || (BT_SMP_CMD_PAIRING_CONFIRM =? c) ||
              (passkey_round (smp v) =? 20) && (BT_SMP_DHKEY_CHECK =? c);
  ro_method : method (smp v) = method (smp w);
  ro_passkey : passkey (smp v) = passkey (smp w);
  ro_pkey : pkey (smp v) = pkey (smp w);
  ro_preq : preq (smp v) = preq (smp w);
  ro_e : smp_e (smp v) = smp_e (smp w);
  ro_dhkey : dhkey (smp v) = dhkey (smp w);
  ro_rrnd : rrnd (smp v) = buf;
  ro_round : passkey_round (smp v) = u8 (passkey_round (smp w) + 1);
  ro_pk : sc_public_key v = sc_public_key w;
  ro_log : log v = log w ++ [Rx (BT_SMP_CMD_PAIRING_RANDOM :: buf); Tx (BT_SMP_CMD_PAIRING_RANDOM :: prnd (smp w))] }.

Lemma round_over_busy es buf w v :
  busy es false w -> can BT_SMP_CMD_PAIRING_RANDOM w = true -> has SMP_FLAG_SC w = true -> method (smp w) = PASSKEY_DISPLAY ->
  smp_f4 (pkey (smp w)) (local_pkey w) buf (passkey_bit (passkey (smp w)) (passkey_round (smp w))) = Some (pcnf (smp w)) ->
  round_over buf w v -> busy es false v.
Proof.
  intros B Hcan Hsc Hm Hf4 [V1 V2 V3 V4 V5 V6 V7 V8 V9 V10 V11 V12].
  destruct B as [[B0 B1] B2 B3 B4 B5 _]. destruct (B5 Hsc ltac:(by rewrite Hm)) as [S0 S1 S2 S3 S4 S5 S6 S7]. clear B5.
  destruct (S4 Hcan ltac:(by rewrite Hm)) as (_ & Hr & Hhalf).
  assert (Hlog : forall x, x ∈ log w -> x ∈ log v) by (intros x; rewrite V12; set_solver).
  assert (Hne : ~ early w) by (intros (_ & He & _); congruence).
  assert (Hlpk : local_pkey v = local_pkey w) by (unfold local_pkey; by rewrite V11).
  pose proof (half_next w buf _ (log v) [] _ Hhalf (proj1 Hr) eq_refl eq_refl Hf4 ltac:(by rewrite V12, app_nil_r)) as Hround.
  assert (Hrd : forall n, (n <= S (Z.to_nat (passkey_round (smp w))))%nat -> rounds_done n v).
  { intros n Hn. split; [congruence|]. rewrite V4, V5, Hlpk. by eapply rounds_le. }
  assert (Hmono : forall n, rounds_done n w -> rounds_done n v).
  { intros n [Ha Hb]. split; [congruence|]. rewrite V4, V5, Hlpk, V12. by apply rounds_app. }
  assert (Hu8 : 0 <= passkey_round (smp v) < 256 /\ passkey_round (smp v) <= passkey_round (smp w) + 1).
  { rewrite V10. split; [apply u8_range|apply u8_le; lia]. }
  split; rewrite ?V1, ?V2, ?V3, ?V6 by done; cbn [Z.eqb]; rewrite ?andb_false_r, ?orb_false_r, ?andb_true_r.
  - split; [done|]. rewrite !Forall_cons in *. rewrite !V1 by done. rewrite !andb_false_r, !orb_false_r. naive_solver.
  - by rewrite B2.
  - auto.
  - intros H1 H2. rewrite V12, <- (app_nil_r es). by apply passkey_proven_mono, B4.
  - intros _ _. split; rewrite ?V1, ?V2, ?V3, ?V5, ?V7, ?V8, ?V9, ?V11 by done; cbn [Z.eqb]; rewrite ?andb_false_r, ?orb_false_r, ?andb_true_r; [done|..].
    + intros H. by destruct Hne; apply S1.
    + intros [? ?]%S2. auto.
    + intros _. split; [lia|]. apply Hrd. lia.
    + done.
    + intros H. split; [|rewrite V12; set_solver]. destruct (Z.eqb_spec (passkey_round (smp v)) 20) as [E20|_]; [apply Hrd; lia|].
      rewrite !orb_false_r in H. by apply Hmono, S5.
    + intros H1 H2. by apply Hlog, S6.
    + right. by destruct S7.
  - congruence.
Qed.

(** The number of the peer is there. *)
Definition opened (buf : list Z) w : smp_world F R := upd_smp (set_rrnd buf) (arrived BT_SMP_CMD_PAIRING_RANDOM buf w).

Lemma core_opened es buf w : core es w -> core es (opened buf w).
Proof. intros C. by apply core_upd_smp, core_arrived. Qed.

Lemma check_confirm_0 w :
  method (smp w) = PASSKEY_DISPLAY -> sc_smp_check_confirm w = 0 ->
  smp_f4 (pkey (smp w)) (local_pkey w) (rrnd (smp w)) (passkey_bit (passkey (smp w)) (passkey_round (smp w))) = Some (pcnf (smp w)).
Proof.
  intros Hm. unfold sc_smp_check_confirm, confirm_r. rewrite Hm. destruct (smp_f4 _ _ _ _) as [cfm|]; [|done].
  by case_bool_decide; subst.
Qed.

Lemma rand_bytes_rng n w : exists err buf st, rand_bytes n w = (err, buf, set_rng st w).
Proof. unfold rand_bytes. destruct (bt_rand _ _) as [[err buf] st]. eauto. Qed.

Lemma can_set_flag c f w : can c (set_flag f w) = can c w.
Proof. done. Qed.
Lemma await_round w : passkey_round (smp (await_dhcheck w)) = passkey_round (smp w).
Proof. done. Qed.

Lemma prnd_round buf st w : passkey_round (smp (upd_smp (set_prnd buf) (set_rng st w))) = passkey_round (smp w).
Proof. done. Qed.
Lemma can_prnd c buf st w : can c (upd_smp (set_prnd buf) (set_rng st w)) = can c w.
Proof. done. Qed.
Lemma has_prnd f buf st w : has f (upd_smp (set_prnd buf) (set_rng st w)) = has f w.
Proof. done. Qed.

(** What the handler of a random number makes of the world in a round. *)
Lemma round_over_spec buf w y :
  y = smp_send (BT_SMP_CMD_PAIRING_RANDOM :: prnd (smp w))
        (set_smp_allocs (tail (smp_allocs w)) (allow BT_SMP_CMD_PAIRING_CONFIRM (opened buf w))) ->
  let z := upd_smp (fun s => set_passkey_round (u8 (passkey_round s + 1)) s) y in
  (passkey_round (smp z) = 20 -> round_over buf w (await_dhcheck z)) /\
  (passkey_round (smp z) <> 20 -> forall buf' st, round_over buf w (upd_smp (set_prnd buf') (set_rng st z))).
Proof.
  intros -> z. set (y := smp_send _ _) in z.
  assert (Hcan : forall c, 0 <= c -> can c z = can c w && negb (BT_SMP_CMD_PAIRING_RANDOM =? c) || (BT_SMP_CMD_PAIRING_CONFIRM =? c)).
  { intros c Hc. change (can c z) with (can c (allow BT_SMP_CMD_PAIRING_CONFIRM (opened buf w))). rewrite can_allow by done.
    unfold opened. rewrite can_upd by done. unfold arrived. rewrite can_took, orb_comm by done. done. }
  assert (Hhas : forall f, has f z = has f w) by done. split; intros H20.
  - split; [| |cbn; reflexivity..|cbn; by rewrite <- (assoc_L (++))]; rewrite await_round, H20; cbn [Z.eqb].
    + intros f Hf Hi. unfold await_dhcheck. rewrite has_set, has_allow, Hhas by done. by rewrite orb_comm.
    + intros c Hc. unfold await_dhcheck. rewrite can_set_flag, can_allow, Hcan by done. by rewrite orb_comm.
  - intros buf' st. apply Z.eqb_neq in H20.
    split; [| |cbn; reflexivity..|cbn; by rewrite <- (assoc_L (++))]; rewrite prnd_round, H20.
    + intros f Hf Hi. by rewrite has_prnd, Hhas, orb_false_r.
    + intros c Hc. by rewrite can_prnd, Hcan, orb_false_r.
Qed.

Lemma random_display es buf w :
  core es w -> busy es false w -> can BT_SMP_CMD_PAIRING_RANDOM w = true -> length buf = 16%nat ->
  has SMP_FLAG_SC w = true -> method (smp w) = PASSKEY_DISPLAY ->
  handled es false (smp_pairing_random buf (arrived BT_SMP_CMD_PAIRING_RANDOM buf w)).
Proof.
  intros C B Hcan Hlen Hsc Hm. unfold smp_pairing_random. cbv zeta.
  replace (slice 0 16 buf) with buf by (unfold slice; by rewrite drop_0, take_ge by lia). fold (opened buf w).
  change (has SMP_FLAG_SC (opened buf w)) with (has SMP_FLAG_SC w). rewrite Hsc. cbn [negb].
  change (method (smp (opened buf w))) with (method (smp w)). rewrite Hm. pose proof (core_opened es buf w C) as C1.
  unfold nz at 1. destruct (Z.eqb_spec (sc_smp_check_confirm (opened buf w)) 0) as [H0|]; [|by apply handled_error].
  apply check_confirm_0 in H0; [|exact Hm]. cbn [negb].
  assert (Hok : forall v, core es v -> round_over buf w v -> handled es false (0, v)).
  { intros v Cv Hv. split; [done|]. intros _. right. eapply round_over_busy; eauto. }
  unfold smp_send_pairing_random, send_pdu, smp_create_pdu.
  set (x := allow BT_SMP_CMD_PAIRING_CONFIRM (opened buf w)). assert (Cx : core es x) by by apply core_upd_smp.
  destruct (default true (head (smp_allocs x))).
  2: { apply handled_error; [done|]. by apply core_upd_smp, (core_ext _ _ _ (ext_allocs _ _)). }
  cbn [nz negb Z.eqb]. change (prnd (smp x)) with (prnd (smp w)). change (smp_allocs x) with (smp_allocs w).
  set (y := smp_send _ _). destruct (round_over_spec buf w y eq_refl) as [R1 R2].
  set (z := upd_smp _ y) in *. assert (Cz : core es z).
  { apply core_upd_smp, (core_ext _ _ _ (ext_send _ _)), (core_ext _ _ _ (ext_allocs _ _)), Cx. }
  destruct (Z.eqb_spec (passkey_round (smp z)) 20) as [H20|H20].
  - apply Hok; [by apply core_upd_smp, core_upd_smp|auto].
  - unfold new_prnd. destruct (rand_bytes_rng 16 z) as (err & buf' & st & ->).
    assert (core es (upd_smp (set_prnd buf') (set_rng st z))) by (apply core_upd_smp, (core_ext _ _ _ (ext_rng _ _)), Cz).
    destruct (nz err); [by apply handled_error|]. apply Hok; auto.
Qed.

(** A pairing that does not authenticate goes on. *)
Lemma busy_jw es s w v :
  busy es s w -> method (smp v) = JUST_WORKS -> preq (smp v) = preq (smp w) ->
  Forall (fun f => has f v = has f w) [SMP_FLAG_PAIRING; SMP_FLAG_USER; SMP_FLAG_OOB_PENDING; SMP_FLAG_CFM_DELAYED] ->
  can BT_SMP_CMD_PAIRING_REQ v = false -> (forall x, x ∈ log w -> x ∈ log v) -> busy es s v.
Proof.
  intros [[B0 B1] B2 B3 _ _ _] Hm Hp Hf Hc Hlog. rewrite !Forall_cons in Hf. destruct Hf as (F1 & F2 & F3 & F4 & _).
  split; try congruence; [|rewrite Hp; auto]. rewrite F1. split; [done|]. rewrite !Forall_cons in *. rewrite F2, F3, F4. naive_solver.
Qed.

Lemma has_opened f buf w : has f (opened buf w) = has f w.
Proof. done. Qed.
Lemma can_opened c buf w : 0 <= c -> can c (opened buf w) = can c w && negb (BT_SMP_CMD_PAIRING_RANDOM =? c).
Proof. intros Hc. unfold opened. rewrite can_upd by done. unfold arrived. by rewrite can_took by done. Qed.

(** A legacy pairing has a key. *)
Lemma legacy_done_busy es buf stk w :
  busy es false w -> can BT_SMP_CMD_PAIRING_RANDOM w = true -> has SMP_FLAG_SC w = false ->
  smp_c1 (tk (smp w)) buf (preq (smp w)) (prsp (smp w)) (init_addr (conn w)) (resp_addr (conn w)) = Some (pcnf (smp w)) ->
  busy es false (set_flag SMP_FLAG_ENC_PENDING (upd_smp (set_tk stk) (opened buf w))).
Proof.
  intros B Hcan Hsc Hc1. set (u := upd_smp (set_tk stk) (opened buf w)). set (v := set_flag _ u).
  assert (Hhas : forall f, 0 <= f -> has f v = (SMP_FLAG_ENC_PENDING =? f) || has f w).
  { intros f Hf. unfold v. rewrite has_set by done. unfold u. by rewrite has_upd, has_opened by done. }
  assert (Hcv : forall c, 0 <= c -> can c v = can c w && negb (BT_SMP_CMD_PAIRING_RANDOM =? c)).
  { intros c Hc. unfold v. rewrite can_set_flag. unfold u. by rewrite can_upd, can_opened by done. }
  assert (Hlog : log v = log w ++ [Rx (BT_SMP_CMD_PAIRING_RANDOM :: buf)]) by done.
  assert (Hin : forall x, x ∈ log w -> x ∈ log v) by (intros x; rewrite Hlog; set_solver).
  destruct (decide (method (smp w) = JUST_WORKS)) as [Hm|Hm].
  - apply (busy_jw es false w v B Hm eq_refl); [|by rewrite Hcv, (busy_req _ _ _ B) by done|done].
    rewrite !Forall_cons. by rewrite !Hhas by done.
  - destruct B as [[B0 B1] B2 B3 B4 B5 B6]. destruct (B6 Hsc Hm) as [S1 [S2 S2'] [S3 S3'] S4 S5 S6].
    destruct (S6 Hcan) as (Hcf & pk & Htk & Hhalf). rewrite Htk in Hc1. split; rewrite ?Hhas, ?Hcv by done; cbn [Z.eqb orb].
    + split; [done|]. rewrite !Forall_cons in *. rewrite !Hhas by done. naive_solver.
    + by rewrite B2.
    + by apply Hin.
    + intros _ _. right. eexists pk, _, _, _, _, _, _, buf, (log w), []. eauto.
    + intros H. by rewrite Hsc in H.
    + intros _ _. split; rewrite ?Hhas, ?Hcv by done; try done; [|by apply Hin| |].
      * by rewrite S2, S2'.
      * by rewrite Hcf.
      * by rewrite andb_false_r.
Qed.

Lemma random_legacy es buf w :
  core es w -> busy es false w -> can BT_SMP_CMD_PAIRING_RANDOM w = true -> has SMP_FLAG_SC w = false ->
  handled es false (legacy_pairing_random (opened buf w)).
Proof.
  intros C B Hcan Hsc. pose proof (core_opened es buf w C) as C1. unfold legacy_pairing_random.
  destruct (smp_c1 _ _ _ _ _ _) as [tmp|] eqn:Hc1; [|by apply handled_error]. case_bool_decide as Hp; [|by apply handled_error].
  cbn [negb]. destruct (smp_s1 _ _ _) as [stk|]; [|by apply handled_error].
  eapply handled_ext; [apply ext_send_pdu|by apply core_upd_smp, core_upd_smp|right]. apply legacy_done_busy; try done.
  rewrite <- Hp in Hc1. exact Hc1.
Qed.

Lemma random_ok es buf w :
  core es w -> busy es false w -> can BT_SMP_CMD_PAIRING_RANDOM w = true -> length buf = 16%nat ->
  handled es false (smp_pairing_random buf (arrived BT_SMP_CMD_PAIRING_RANDOM buf w)).
Proof.
  intros C B Hcan Hlen. destruct (has SMP_FLAG_SC w) eqn:Hsc; [destruct (decide (method (smp w) = PASSKEY_DISPLAY)) as [Hm|Hm]|].
  { by apply random_display. }
  all: unfold smp_pairing_random; cbv zeta; replace (slice 0 16 buf) with buf by (unfold slice; by rewrite drop_0, take_ge by lia);
    fold (opened buf w); rewrite has_opened, Hsc; cbn [negb].
  2: by apply random_legacy.
  pose proof (core_opened es buf w C) as C1. change (method (smp (opened buf w))) with (method (smp w)).
  assert (Hcase : method (smp w) = JUST_WORKS \/ method (smp w) = LE_SC_OOB).
  { destruct (decide (method (smp w) = JUST_WORKS)); [by left|right]. destruct (decide (method (smp w) = LE_SC_OOB)); [done|].
    by destruct (sc_random _ _ (busy_sc _ _ _ B Hsc ltac:(done)) Hcan). }
  destruct Hcase as [Hj|Hj]; rewrite Hj.
  - eapply handled_ext; [apply ext_send_pdu|by apply core_upd_smp, core_upd_smp|right].
    apply (busy_jw es false w (await_dhcheck (opened buf w)) B Hj eq_refl).
    + rewrite !Forall_cons. unfold await_dhcheck. by rewrite !has_set, !has_allow, !has_opened by done.
    + unfold await_dhcheck. rewrite can_set_flag, can_allow, can_opened, (busy_req _ _ _ B) by done. done.
    + intros x Hx. apply elem_of_app. by left.
  - unfold new_prnd. destruct (rand_bytes_rng 16 (opened buf w)) as (err & buf' & st & ->).
    assert (Cp : core es (upd_smp (set_prnd buf') (set_rng st (opened buf w)))).
    { by apply core_upd_smp, (core_ext _ _ _ (ext_rng _ _)). }
    destruct (nz err); [by apply handled_error|]. unfold auth_has. rewrite (core_auth _ _ Cp). by apply handled_error.
Qed.
End pairing.
