(* ===== verification/SmpSafety.v ===== *)
(** The rest of a pairing keeps the invariant of [SmpInv], and so does whatever else
    happens to the Security Manager: links reach the authenticated levels, and keys are
    marked as authenticated, only after a pairing in which the displayed passkey was
    proven. *)
From Stdlib Require Import ZArith Lia Bool.
From stdpp Require Import base numbers list gmap strings.
From S2P Require Import Prelude ByteOrder Uuid Gatt SettingsKeys Settings Keys Crypto Smp SmpInv SmpPairing.
Open Scope Z_scope.

Section exchange.
Context {F R : Type} `{!Nvs F, !TinyPrng R} {cr : Crypto}.
Implicit Types (w v : smp_world F R) (es : list event).
#[local] Arguments has : simpl never.
#[local] Arguments can : simpl never.

(** ** Public keys *)

(** The key of the peer is there, and the one of this side. *)
Record exchanging es (s : bool) w : Prop := {
  ex_core : core es w;
  ex_busy : busy es s w;
  ex_pk : is_Some (sc_public_key w);
  ex_stage : method (smp w) <> JUST_WORKS ->
    has SMP_FLAG_SC w = true /\ early w /\ can BT_SMP_CMD_PUBLIC_KEY w = false /\ Rx (BT_SMP_CMD_PUBLIC_KEY :: pkey (smp w)) ∈ log w }.

Lemma exchanging_ext es s w w' : ext w w' -> exchanging es s w -> exchanging es s w'.
Proof.
  intros E [X1 X2 X3 X4]. split; [by eapply core_ext|by eapply busy_ext0|by rewrite (ext_pk _ _ E)|].
  rewrite (ext_early _ _ E). ext_rewrite E. intros (? & ? & ? & ?)%X4. eauto using ext_elem.
Qed.

(** The public key of this side was sent, and the shared key is being computed. *)
Lemma exchanged_busy es s cmd w v :
  exchanging es s w -> 0 <= cmd -> cmd <> BT_SMP_CMD_PAIRING_REQ ->
  (forall f, 0 <= f -> Z.testbit ignored f = false -> has f v = (SMP_FLAG_DHKEY_PENDING =? f) || has f w) ->
  (forall c, 0 <= c -> can c v = (cmd =? c) || can c w) ->
  method (smp v) = method (smp w) -> preq (smp v) = preq (smp w) -> pkey (smp v) = pkey (smp w) ->
  sc_public_key v = sc_public_key w -> (exists l, log v = log w ++ l) ->
  (method (smp w) <> JUST_WORKS -> cmd = BT_SMP_CMD_PAIRING_RANDOM /\ method (smp w) = LE_SC_OOB \/
     cmd = BT_SMP_CMD_PAIRING_CONFIRM /\ passkey_round (smp v) = 0 /\ rounds_done 0 v) ->
  busy es s v.
Proof.
  intros [C B [lpk Hpk] X] Hcmd Hreq Vf Vc Vm Vp Vk Vpk [l Vl] Hstage.
  assert (Hlog : forall x, x ∈ log w -> x ∈ log v) by (intros x; rewrite Vl; set_solver).
  destruct B as [[B0 B1] B2 B3 B4 B5 B6].
  split; rewrite ?Vf, ?Vc, ?Vm, ?Vp by done.
  - split; [by rewrite B0|]. rewrite !Forall_cons in *. rewrite !Vf by done. naive_solver.
  - rewrite B2. destruct (Z.eqb_spec cmd BT_SMP_CMD_PAIRING_REQ); done.
  - auto.
  - intros H1 H2. rewrite Vl, <- (app_nil_r es). by apply passkey_proven_mono, B4.
  - intros _ Hm. destruct (X Hm) as (Hsc & (E1 & E2 & E3 & E4 & E5 & E6) & Hcan & Hrx).
    destruct (B5 Hsc Hm) as [S0 S1 S2 S3 S4 S5 S6 S7].
    assert (Hc' : cmd <> BT_SMP_CMD_PUBLIC_KEY /\ cmd <> BT_SMP_DHKEY_CHECK) by (destruct (Hstage Hm) as [[-> _]|[-> _]]; done).
    destruct Hc' as [N1%Z.eqb_neq N2%Z.eqb_neq].
    split; rewrite ?Vf, ?Vc, ?Vm, ?Vk, ?Vpk, ?Hcan, ?E1, ?E2, ?E3, ?E4, ?E5, ?E6, ?N1, ?N2, ?Hpk by done; cbn [Z.eqb orb]; try done.
    + by intros [?|?].
    + intros _. auto.
    + rewrite orb_false_r. intros ->%Z.eqb_eq. destruct (Hstage Hm) as [[? _]|(_ & -> & ?)]; done.
    + rewrite orb_false_r. intros ->%Z.eqb_eq. destruct (Hstage Hm) as [[_ ?]|(? & _)]; done.
    + by right; left.
  - intros Hsc Hm. destruct (X Hm) as (Hsc' & _). by rewrite Hsc' in Hsc.
Qed.

Lemma ext_dh_key_gen pk w : ext w (bt_dh_key_gen pk w).2.
Proof.
  unfold bt_dh_key_gen. destruct (_ || _); [reflexivity|]. destruct (pub_key _); [|reflexivity].
  pose proof (ext_hci_send_sync (LE_GENERATE_DHKEY pk) (set_dh_key_cb true w)) as E.
  destruct (hci_send_sync _ _) as [err w1]. cbn in E.
  assert (E1 : ext w w1) by (etrans; [apply ext_dh_key_cb|exact E]).
  destruct (nz err); [|done]. etrans; [exact E1|apply ext_dh_key_cb].
Qed.

(** The world in which the shared key is asked for; [cmd] is allowed next. *)
Record next (cmd : Z) w v : Prop := {
  nx_flags f : 0 <= f -> Z.testbit ignored f = false -> has f v = has f w;
  nx_cmds c : 0 <= c -> can c v = (cmd =? c) || can c w;
  nx_method : method (smp v) = method (smp w);
  nx_preq : preq (smp v) = preq (smp w);
  nx_pkey : pkey (smp v) = pkey (smp w);
  nx_pk : sc_public_key v = sc_public_key w;
  nx_log : exists l, log v = log w ++ l;
  nx_stage : method (smp w) <> JUST_WORKS -> cmd = BT_SMP_CMD_PAIRING_RANDOM /\ method (smp w) = LE_SC_OOB \/
     cmd = BT_SMP_CMD_PAIRING_CONFIRM /\ passkey_round (smp v) = 0 /\ rounds_done 0 v }.

Lemma generate_ok es s cmd w v :
  exchanging es s w -> 0 <= cmd -> cmd <> BT_SMP_CMD_PAIRING_REQ -> core es v -> next cmd w v -> handled es s (generate_dhkey v).
Proof.
  intros X Hcmd Hreq C [N1 N2 N3 N4 N5 N6 [l N7] N8]. unfold generate_dhkey. pose proof (ext_dh_key_gen (pkey (smp v)) v) as E.
  destruct (bt_dh_key_gen _ v) as [err v1]. cbn in E. apply (core_ext _ _ _ E) in C. destruct (nz err); [by apply handled_error|].
  split; [by apply core_upd_smp|]. intros _. right. apply (exchanged_busy es s cmd w _ X Hcmd Hreq); cbn.
  - intros f Hf Hi. by rewrite has_set, (ext_flag _ _ _ E), N1 by done.
  - intros c Hc. by rewrite can_set_flag, (ext_can _ _ _ E), N2.
  - ext_rewrite E. done.
  - ext_rewrite E. done.
  - ext_rewrite E. done.
  - by rewrite (ext_pk _ _ E).
  - destruct (ext_log _ _ E) as [l' ->]. exists (l ++ l'). by rewrite N7, <- (assoc_L (++)).
  - intros Hm. destruct (N8 Hm) as [?|(? & ? & Hr)]; [by left|right]. ext_rewrite E. split; [done|]. split; [done|].
    by apply (ext_rounds _ _ _ E) in Hr.
Qed.

Lemma next_allow cmd w y :
  ext w y -> 0 <= cmd -> (method (smp w) <> JUST_WORKS -> cmd = BT_SMP_CMD_PAIRING_RANDOM /\ method (smp w) = LE_SC_OOB) ->
  next cmd w (allow cmd y).
Proof.
  intros E Hcmd Hm. split.
  - intros f Hf Hi. by rewrite has_allow, (ext_flag _ _ _ E).
  - intros c Hc. by rewrite can_allow, (ext_can _ _ _ E).
  - cbn. ext_rewrite E. done.
  - cbn. ext_rewrite E. done.
  - cbn. ext_rewrite E. done.
  - apply (ext_pk _ _ E).
  - apply (ext_log _ _ E).
  - intros H. left. auto.
Qed.

Lemma next_ext cmd w v v' :
  method (smp w) = JUST_WORKS \/ method (smp w) = LE_SC_OOB -> ext v v' -> next cmd w v -> next cmd w v'.
Proof.
  intros Hm E [N1 N2 N3 N4 N5 N6 [l N7] N8]. split; try (ext_rewrite E; done).
  - intros f Hf Hi. by rewrite (ext_flag _ _ _ E), N1.
  - intros c Hc. by rewrite (ext_can _ _ _ E), N2.
  - destruct (ext_log _ _ E) as [l' ->]. exists (l ++ l'). by rewrite N7, <- (assoc_L (++)).
  - intros H. destruct (N8 H) as [?|(_ & _ & [? _])]; [by left|]. destruct Hm; congruence.
Qed.

Lemma slave_send es s w :
  exchanging es s w -> let r := sc_send_public_key w in
  ext w r.2 /\ exchanging es s r.2 /\ (r.1 = 0 -> log r.2 = log w ++ [Tx (BT_SMP_CMD_PUBLIC_KEY :: take 64 (local_pkey w))]).
Proof.
  intros X r. pose proof (ext_send_pdu BT_SMP_CMD_PUBLIC_KEY (take 64 (local_pkey w)) w) as E.
  split; [done|]. split; [by eapply exchanging_ext|apply send_pdu_sent].
Qed.

(** The passkey is displayed after the public keys were exchanged. *)
Lemma display_next w y lpk buf st :
  sc_public_key w = Some lpk -> method (smp w) = PASSKEY_DISPLAY -> early w ->
  Rx (BT_SMP_CMD_PUBLIC_KEY :: pkey (smp w)) ∈ log w -> ext w y ->
  log y = log w ++ [Tx (BT_SMP_CMD_PUBLIC_KEY :: take 64 (local_pkey w))] ->
  let z := upd_smp (fun s => set_passkey_round 0 (set_passkey (passkey s mod 1000000) s)) (upd_smp (set_passkey (le_value buf)) (set_rng st y)) in
  let z' := upd_smp (fun s => set_passkey (sys_le32_to_cpu (passkey s)) s)
              (logs (Up (Passkey_display (passkey (smp z)))) (set_flag SMP_FLAG_DISPLAY z)) in
  next BT_SMP_CMD_PAIRING_CONFIRM w (allow BT_SMP_CMD_PAIRING_CONFIRM z').
Proof.
  intros Hpk Hm He Hrx E Hlog z z'. split.
  - intros f Hf Hi. rewrite has_allow. unfold z'. rewrite has_upd by done.
    change (has f (logs ?x ?v)) with (has f v). rewrite has_set by done.
    change (has f z) with (has f y). rewrite (ext_flag _ _ _ E) by done. destruct (Z.eqb_spec SMP_FLAG_DISPLAY f) as [<-|]; done.
  - intros c Hc. rewrite can_allow by done. f_equal. unfold z'. rewrite can_upd by done.
    change (can c (logs ?x ?v)) with (can c v). rewrite can_set_flag. change (can c z) with (can c y). apply (ext_can _ _ _ E).
  - cbn. ext_rewrite E. done.
  - cbn. ext_rewrite E. done.
  - cbn. ext_rewrite E. done.
  - apply (ext_pk _ _ E).
  - cbn. rewrite Hlog, <- (assoc_L (++)). eauto.
  - intros _. right. split; [done|]. split; [done|]. unfold rounds_done, local_pkey. cbn. ext_rewrite E. split; [done|].
    rewrite Hlog. unfold local_pkey. rewrite Hpk. cbn. apply list_elem_of_split in Hrx as (l1 & l2 & ->).
    pose proof (rounds_displayed (le_value buf mod 1000000) (pkey (smp w)) lpk l1 l2 [] []) as H. revert H. cbn. rewrite <- !(assoc_L (++)). done.
Qed.

Lemma slave_ok es s w : exchanging es s w -> handled es s (smp_public_key_slave w).
Proof.
  intros X. pose proof (slave_send es s w X) as H. unfold smp_public_key_slave. cbv zeta in H. destruct (sc_send_public_key w) as [err y]. cbn in H.
  destruct H as (E & Xy & Hlog). pose proof (ex_core _ _ _ Xy) as Cy. unfold nz at 1.
  destruct (Z.eqb_spec err 0) as [->|]; [|by apply handled_error]. cbn [negb]. specialize (Hlog eq_refl).
  replace (method (smp y)) with (method (smp w)) by (ext_rewrite E; done).
  assert (Hcase : method (smp w) = JUST_WORKS \/ method (smp w) = PASSKEY_DISPLAY \/ method (smp w) = LE_SC_OOB).
  { destruct (decide (method (smp w) = JUST_WORKS)) as [|Hm]; [by left|right]. destruct (ex_stage _ _ _ X Hm) as (Hsc & _).
    apply (sc_method _ _ (busy_sc _ _ _ (ex_busy _ _ _ X) Hsc Hm)). }
  destruct Hcase as [Hm|[Hm|Hm]]; rewrite Hm.
  - pose proof (send_confirm_spec (allow BT_SMP_CMD_PAIRING_RANDOM y)) as H. rewrite has_allow in H.
    specialize (H (busy_no_cfm _ _ _ (ex_busy _ _ _ Xy))). destruct (smp_send_pairing_confirm _) as [err z]. destruct H as [Ez _].
    assert (Cz : core es z) by (by apply (core_ext _ _ _ Ez), core_upd_smp). destruct (nz err) eqn:Herr.
    { apply handled_error; [|done]. intros ->. done. }
    eapply (generate_ok es s BT_SMP_CMD_PAIRING_RANDOM w z X); [done|done|done|].
    eapply next_ext; [by left|exact Ez|]. by apply next_allow.
  - unfold display_passkey. destruct (rand_bytes_rng 4 y) as (err & buf & st & ->).
    set (y1 := upd_smp (set_passkey _) _). assert (C1 : core es y1) by (by apply core_upd_smp, (core_ext _ _ _ (ext_rng _ _))).
    destruct (nz err); [by apply handled_error|]. set (z := upd_smp _ y1). assert (Cz : core es z) by by apply core_upd_smp.
    unfold auth_has. rewrite (core_auth _ _ Cz). cbn [passkey_display auth_cb_display]. cbn [nz negb Z.eqb].
    destruct (ex_pk _ _ _ X) as [lpk Hpk]. destruct (ex_stage _ _ _ X ltac:(by rewrite Hm)) as (_ & He & _ & Hrx).
    eapply (generate_ok es s BT_SMP_CMD_PAIRING_CONFIRM w _ X); [done|done| |by eapply display_next].
    by apply core_upd_smp, core_upd_smp, (core_ext _ _ _ (ext_logs _ _)), core_upd_smp.
  - eapply (generate_ok es s BT_SMP_CMD_PAIRING_RANDOM w _ X); [done|done|by apply core_upd_smp|by apply next_allow].
Qed.

(** The key of the peer is stored. *)
Definition keyed (buf : list Z) w : smp_world F R := upd_smp (set_pkey buf) (arrived BT_SMP_CMD_PUBLIC_KEY buf w).

Lemma can_keyed c buf w : 0 <= c -> can c (keyed buf w) = can c w && negb (BT_SMP_CMD_PUBLIC_KEY =? c).
Proof. intros Hc. unfold keyed. rewrite can_upd by done. unfold arrived. by rewrite can_took by done. Qed.

Lemma busy_public_sc es s w :
  busy es s w -> can BT_SMP_CMD_PUBLIC_KEY w = true -> method (smp w) <> JUST_WORKS -> has SMP_FLAG_SC w = true /\ early w.
Proof.
  intros B Hcan Hm. destruct (has SMP_FLAG_SC w) eqn:Hsc.
  - split; [done|]. apply (sc_early _ _ (busy_sc _ _ _ B Hsc Hm)). by left.
  - destruct (lg_cmds _ (busy_legacy _ _ _ B Hsc Hm)) as [H _]. congruence.
Qed.

Lemma early_keyed buf w : early w -> early (keyed buf w).
Proof. intros (E1 & E2 & E3 & E4). unfold early. rewrite !can_keyed by done. change (has ?f (keyed buf w)) with (has f w). by rewrite E1, E2, E3. Qed.

(** [send]: the key of this side is not there yet. *)
Lemma keyed_busy es s (send : bool) buf w y :
  busy es s w -> can BT_SMP_CMD_PUBLIC_KEY w = true -> ext (keyed buf w) y ->
  busy es s (if send then set_flag SMP_FLAG_PKEY_SEND y else y).
Proof.
  intros B Hcan E. set (v := if send then _ else _).
  assert (Vf : forall f, 0 <= f -> Z.testbit ignored f = false -> has f v = send && (SMP_FLAG_PKEY_SEND =? f) || has f w).
  { intros f Hf Hi. unfold v. destruct send; [rewrite has_set by done|]; by rewrite (ext_flag _ _ _ E). }
  assert (Vc : forall c, 0 <= c -> can c v = can c w && negb (BT_SMP_CMD_PUBLIC_KEY =? c)).
  { intros c Hc. unfold v. destruct send; by rewrite ?can_set_flag, (ext_can _ _ _ E), can_keyed. }
  assert (Vm : method (smp v) = method (smp y) /\ preq (smp v) = preq (smp y) /\ pkey (smp v) = pkey (smp y) /\ sc_public_key v = sc_public_key y /\
    log v = log y) by (unfold v; by destruct send). revert Vm. ext_rewrite E. destruct (ext_log _ _ E) as [l ->]. cbn.
  intros (Vm & Vp & Vk & Vpk & Vl). rewrite <- (assoc_L (++)) in Vl. clearbody v.
  assert (Hlog : forall x, x ∈ log w -> x ∈ log v) by (intros x; rewrite Vl; set_solver).
  pose proof (busy_public_sc es s w B Hcan) as Hpub. destruct B as [[B0 B1] B2 B3 B4 B5 B6].
  split; rewrite ?Vf, ?Vc, ?Vm, ?Vp by done; cbn [Z.eqb]; rewrite ?andb_false_r, ?orb_false_l.
  - split; [done|]. rewrite !Forall_cons in *. rewrite !Vf by done. cbn [Z.eqb]. rewrite !andb_false_r. naive_solver.
  - by rewrite B2.
  - auto.
  - intros H1 H2. rewrite Vl, <- (app_nil_r es). by apply passkey_proven_mono, B4.
  - intros Hsc Hm. destruct (Hpub Hm) as [_ (E1 & E2 & E3 & E4 & E5 & E6)]. destruct (B5 Hsc Hm) as [S0 S1 S2 S3 S4 S5 S6 S7].
    assert (early v) by (unfold early; rewrite !Vf, !Vc, E1, E2, E3, E4, E5, E6 by done; cbn [Z.eqb]; by rewrite !andb_false_r).
    split; rewrite ?Vf, ?Vc, ?Vm, ?Vk, ?Vpk, ?E1, ?E2, ?E3, ?E4, ?E5, ?E6 by done; cbn [Z.eqb andb orb]; rewrite ?andb_false_r; try done.
    + intros _. split; [done|]. rewrite Vl. set_solver.
    + by left.
  - intros Hsc Hm. destruct (Hpub Hm) as [Hsc' _]. by rewrite Hsc' in Hsc.
Qed.

Lemma public_key_ok es buf w :
  core es w -> busy es false w -> can BT_SMP_CMD_PUBLIC_KEY w = true -> length buf = 64%nat ->
  handled es false (smp_public_key buf (arrived BT_SMP_CMD_PUBLIC_KEY buf w)).
Proof.
  intros C B Hcan Hlen. unfold smp_public_key. cbv zeta.
  replace (slice 0 64 buf) with buf by (unfold slice; by rewrite drop_0, take_ge by lia). fold (keyed buf w).
  assert (Ck : core es (keyed buf w)) by by apply core_upd_smp, core_arrived.
  set (r := if bool_decide _ then _ else _). assert (E : ext (keyed buf w) r.2).
  { unfold r. case_bool_decide; [|reflexivity]. etrans; [by apply (ext_set_flag SMP_FLAG_SC_DEBUG_KEY)|apply ext_conn_get_keys]. }
  destruct r as [ok y]. cbn in E. pose proof (core_ext _ _ _ E Ck) as Cy. destruct ok; [|by apply handled_error]. cbn [negb].
  destruct (sc_public_key y) as [lpk|] eqn:Hpk.
  - apply slave_ok. split; [done|by apply (keyed_busy es false false buf w y)|done|]. rewrite (ext_early _ _ E). ext_rewrite E. intros Hm.
    change (method (smp (keyed buf w))) with (method (smp w)) in Hm. destruct (busy_public_sc es false w B Hcan Hm) as [Hsc He].
    split; [done|]. split; [by apply early_keyed|]. split; [rewrite can_keyed by done; by rewrite andb_false_r|].
    apply (ext_elem _ _ _ E). apply elem_of_app. right. apply list_elem_of_here.
  - split; [by apply core_upd_smp|]. intros _. right. by apply (keyed_busy es false true buf w y).
Qed.

(** ** DHKey checks *)

Lemma busy_set_tk es s x w : (method (smp w) <> JUST_WORKS -> has SMP_FLAG_SC w = true) -> busy es s w -> busy es s (upd_smp (set_tk x) w).
Proof.
  intros Hsc [B1 B2 B3 B4 B5 B6]. split; [exact B1|exact B2|exact B3|exact B4| |].
  - intros H1 H2. destruct (B5 H1 H2) as [S0 S1 S2 S3 S4 S5 S6 S7].
    split; [exact S0|exact S1|exact S2|exact S3|exact S4|exact S5|exact S6|exact S7].
  - intros H1 H2. rewrite has_upd in H1 by done. by rewrite (Hsc H2) in H1.
Qed.

Lemma busy_enc_flag es s g w :
  g = SMP_FLAG_ENC_PENDING \/ g = SMP_FLAG_KEYS_DISTR ->
  (method (smp w) <> JUST_WORKS -> passkey_proven es (log w)) -> busy es s w -> busy es s (set_flag g w).
Proof.
  intros Hg Hp [[B0 B1] B2 B3 B4 B5 B6]. set (v := set_flag g w).
  assert (Vf : forall f, 0 <= f -> (SMP_FLAG_ENC_PENDING =? f) || (SMP_FLAG_KEYS_DISTR =? f) = false -> has f v = has f w).
  { intros f Hf [H1 H2]%orb_false_iff. unfold v. rewrite has_set by (try done; by destruct Hg as [-> | ->]).
    destruct Hg as [-> | ->]; by rewrite ?H1, ?H2. }
  split; rewrite ?Vf by done; [| exact B2|exact B3|auto| |].
  - split; [done|]. rewrite !Forall_cons in *. rewrite !Vf by done. naive_solver.
  - intros H1 H2. destruct (B5 H1 H2) as [S0 S1 S2 S3 S4 S5 S6 S7].
    split; unfold early in *; rewrite ?Vf by done; [exact S0|exact S1|exact S2|exact S3|exact S4|exact S5|exact S6|exact S7].
  - intros H1 H2. destruct (B6 H1 H2) as [S1 S2 S3 S4 S5 S6].
    split; rewrite ?Vf by done; [exact S1|exact S2|exact S3|exact S4|exact S5|exact S6].
Qed.

Lemma busy_enc_pending es s w :
  (method (smp w) <> JUST_WORKS -> passkey_proven es (log w)) -> busy es s w -> busy es s (set_flag SMP_FLAG_ENC_PENDING w).
Proof. apply busy_enc_flag. by left. Qed.

Lemma f5_both dh n1 n2 a1 a2 mk ltk : smp_f5 dh n1 n2 a1 a2 = (mk, Some ltk) -> exists m, mk = Some m.
Proof. unfold smp_f5. destruct (bt_smp_aes_cmac _ _) as [t|]; [|done]. destruct (bt_smp_aes_cmac t _) as [m|]; [|done]. intros [= <- ?]. eauto. Qed.

Lemma dhcheck_ok es s w :
  core es w -> busy es s w ->
  (method (smp w) <> JUST_WORKS -> has SMP_FLAG_SC w = true /\ rounds_done 20 w /\ Rx (BT_SMP_CMD_PAIRING_RANDOM :: rrnd (smp w)) ∈ log w /\
     Rx (BT_SMP_DHKEY_CHECK :: smp_e (smp w)) ∈ log w /\ Dhkey_complete 0 (dhkey (smp w)) ∈ es) ->
  handled es s (compute_and_check_and_send_slave_dhcheck w).
Proof.
  intros C B Hpre. unfold compute_and_check_and_send_slave_dhcheck. destruct (dhcheck_r _ w) as [r|] eqn:Hr; [|by apply handled_error].
  destruct (smp_f5 _ _ _ _ _) as [mk ltk] eqn:Hf5. destruct ltk as [ltk|].
  2: { apply handled_error; [done|]. destruct mk; [by apply core_upd_smp|done]. }
  destruct (f5_both _ _ _ _ _ _ _ Hf5) as [mk' ->]. set (w1 := upd_smp (set_tk ltk) (upd_smp (set_mackey mk') w)).
  assert (C1 : core es w1) by by apply core_upd_smp, core_upd_smp.
  destruct (smp_f6 _ _ _ r _ _ _) as [e|]; [|by apply handled_error].
  destruct (smp_f6 _ _ _ _ (drop 1 (preq (smp w1))) _ _) as [re|] eqn:Hf6; [|by apply handled_error].
  case_bool_decide as He; [|by apply handled_error]. cbn [negb].
  assert (B1 : busy es s w1).
  { apply busy_set_tk; [intros Hm; by destruct (Hpre Hm)|]. eapply busy_ext0; [|exact B]. by apply ext_upd_smp. }
  pose proof (ext_send_pdu BT_SMP_DHKEY_CHECK e w1) as E. unfold sc_smp_send_dhkey_check. destruct (send_pdu _ _ w1) as [err w2]. cbn in E.
  destruct (nz err) eqn:Herr. { apply handled_error; [by intros ->|by apply (core_ext _ _ _ E)]. }
  split; [by apply core_upd_smp, (core_ext _ _ _ E)|]. intros _. right. apply busy_enc_pending; [|by apply (busy_ext0 _ _ _ _ E)].
  ext_rewrite E. change (method (smp w1)) with (method (smp w)). intros Hm. destruct (Hpre Hm) as (_ & [Hd Hrounds] & H1 & H2 & H3).
  destruct (ext_log _ _ E) as [l ->]. change (log w1) with (log w). rewrite <- (app_nil_r es). apply passkey_proven_mono. left.
  eexists (passkey (smp w)), _, _, (dhkey (smp w)), _, _, _, _, (preq (smp w)), _, _, (smp_e (smp w)). split; [exact Hrounds|].
  split; [done|]. split; [exact H1|]. split; [by apply (busy_preq _ _ _ B)|]. split; [exact Hf5|]. split; [|done].
  change (smp_e (smp w1)) with (smp_e (smp w)) in He. rewrite He.
  unfold dhcheck_r in Hf6. change (method (smp w1)) with (method (smp w)) in Hf6. rewrite Hd in Hf6. exact Hf6.
Qed.

(** The DHKey check of the peer is stored. *)
Definition checked (buf : list Z) w : smp_world F R :=
  upd_smp (set_smp_e buf) (clear_flag SMP_FLAG_DHCHECK_WAIT (arrived BT_SMP_DHKEY_CHECK buf w)).

Lemma has_checked f buf w : 0 <= f -> has f (checked buf w) = has f w && negb (SMP_FLAG_DHCHECK_WAIT =? f).
Proof. intros Hf. unfold checked. by rewrite has_upd, has_clear by done. Qed.
Lemma can_clear_flag c f w : can c (clear_flag f w) = can c w.
Proof. done. Qed.
Lemma can_checked c buf w : 0 <= c -> can c (checked buf w) = can c w && negb (BT_SMP_DHKEY_CHECK =? c).
Proof. intros Hc. unfold checked. rewrite can_upd, can_clear_flag by done. unfold arrived. by rewrite can_took by done. Qed.

Lemma busy_check_late es s w :
  busy es s w -> can BT_SMP_DHKEY_CHECK w = true -> method (smp w) <> JUST_WORKS ->
  has SMP_FLAG_SC w = true /\ rounds_done 20 w /\ Rx (BT_SMP_CMD_PAIRING_RANDOM :: rrnd (smp w)) ∈ log w /\
  (has SMP_FLAG_DHKEY_PENDING w = true \/ Dhkey_complete 0 (dhkey (smp w)) ∈ es).
Proof.
  intros B Hcan Hm. destruct (has SMP_FLAG_SC w) eqn:Hsc.
  - destruct (busy_sc _ _ _ B Hsc Hm) as [S0 S1 S2 S3 S4 S5 S6 S7]. rewrite Hcan in S5. destruct (S5 eq_refl).
    split; [done|]. split; [done|]. split; [done|]. destruct S7 as [(_ & _ & He & _)|?]; [congruence|done].
  - destruct (lg_cmds _ (busy_legacy _ _ _ B Hsc Hm)) as [_ H]. congruence.
Qed.

(** [send]: the shared key is not there yet. *)
Lemma checked_busy es s (send : bool) buf w :
  busy es s w -> can BT_SMP_DHKEY_CHECK w = true -> busy es s (if send then set_flag SMP_FLAG_DHKEY_SEND (checked buf w) else checked buf w).
Proof.
  intros B Hcan. set (v := if send then _ else _).
  assert (Vf : forall f, 0 <= f -> has f v = send && (SMP_FLAG_DHKEY_SEND =? f) || has f w && negb (SMP_FLAG_DHCHECK_WAIT =? f)).
  { intros f Hf. unfold v. destruct send; rewrite ?has_set, has_checked by done; done. }
  assert (Vc : forall c, 0 <= c -> can c v = can c w && negb (BT_SMP_DHKEY_CHECK =? c)).
  { intros c Hc. unfold v. destruct send; by rewrite ?can_set_flag, can_checked. }
  assert (Vm : method (smp v) = method (smp w) /\ preq (smp v) = preq (smp w) /\ pkey (smp v) = pkey (smp w) /\ passkey (smp v) = passkey (smp w) /\
    passkey_round (smp v) = passkey_round (smp w) /\ pcnf (smp v) = pcnf (smp w) /\ prnd (smp v) = prnd (smp w) /\ rrnd (smp v) = rrnd (smp w) /\
    dhkey (smp v) = dhkey (smp w) /\ smp_e (smp v) = buf /\ sc_public_key v = sc_public_key w /\ log v = log w ++ [Rx (BT_SMP_DHKEY_CHECK :: buf)])
    by (unfold v; by destruct send). clearbody v.
  destruct Vm as (Vm & Vp & Vk & Vpass & Vrd & Vcn & Vpr & Vrr & Vdh & Ve & Vpk & Vl).
  assert (Hlog : forall x, x ∈ log w -> x ∈ log v) by (intros x; rewrite Vl; set_solver).
  assert (Hrd : forall n, rounds_done n w -> rounds_done n v).
  { intros n [? ?]. unfold rounds_done, local_pkey. rewrite Vm, Vpass, Vk, Vpk, Vl. split; [done|]. by apply rounds_app. }
  pose proof (busy_check_late es s w B Hcan) as Hlate. destruct B as [[B0 B1] B2 B3 B4 B5 B6].
  split; rewrite ?Vf, ?Vc, ?Vm, ?Vp by done; cbn [Z.eqb negb]; rewrite ?andb_false_r, ?andb_true_r, ?orb_false_l.
  - split; [done|]. rewrite !Forall_cons in *. rewrite !Vf by done. cbn [Z.eqb negb]. rewrite !andb_false_r, !andb_true_r. naive_solver.
  - by rewrite B2.
  - auto.
  - intros H1 H2. rewrite Vl, <- (app_nil_r es). by apply passkey_proven_mono, B4.
  - intros Hsc Hm. destruct (Hlate Hm) as (_ & H20 & Hrx & Hdh). destruct (B5 Hsc Hm) as [S0 S1 S2 S3 S4 S5 S6 S7].
    split; rewrite ?Vf, ?Vc, ?Vm, ?Vk, ?Vpk, ?Vrd, ?Vrr, ?Ve, ?Vdh by done; cbn [Z.eqb negb]; rewrite ?andb_false_r, ?andb_true_r, ?orb_false_l.
    + done.
    + intros He. destruct (S1 He) as (_ & _ & ? & _). congruence.
    + intros [? ?]%S2. auto.
    + intros [? ?]%S3. auto.
    + intros H1 H2. destruct (S4 H1 H2) as (? & ? & l1 & l2 & ours & Hl & ? & ?). split; [done|]. split; [done|].
      unfold half_round, local_pkey. rewrite Vcn, Vpass, Vk, Vpk, Vpr, Vrd, Vl, Hl. exists l1, (l2 ++ [Rx (BT_SMP_DHKEY_CHECK :: buf)]), ours.
      rewrite <- !(assoc_L (++)). done.
    + intros _. auto.
    + intros _ _. rewrite Vl. set_solver.
    + by right.
  - intros Hsc Hm. destruct (Hlate Hm) as (Hsc' & _). by rewrite Hsc' in Hsc.
Qed.

Lemma dhkey_check_ok es buf w :
  core es w -> busy es false w -> can BT_SMP_DHKEY_CHECK w = true -> length buf = 16%nat ->
  handled es false (smp_dhkey_check buf (arrived BT_SMP_DHKEY_CHECK buf w)).
Proof.
  intros C B Hcan Hlen. unfold smp_dhkey_check. cbv zeta.
  replace (slice 0 16 buf) with buf by (unfold slice; by rewrite drop_0, take_ge by lia). fold (checked buf w).
  assert (Cc : core es (checked buf w)) by by apply core_upd_smp, core_upd_smp, core_arrived.
  rewrite !has_checked, (busy_no_user _ _ _ B) by done. rewrite andb_false_l.
  destruct (has SMP_FLAG_DHKEY_PENDING w) eqn:Hp.
  - split; [by apply core_upd_smp|]. intros _. right. by apply (checked_busy es false true).
  - change (false && _) with false. apply dhcheck_ok; [done|by apply (checked_busy es false false)|].
    change (method (smp (checked buf w))) with (method (smp w)). intros Hm. destruct (busy_check_late _ _ _ B Hcan Hm) as (Hsc & [Hd Hr] & Hrx & Hdh).
    rewrite has_checked, Hsc by done. split; [done|]. split; [split; [done|by apply rounds_app]|].
    split; [apply elem_of_app; by left|]. split; [apply elem_of_app; right; apply list_elem_of_here|].
    destruct Hdh as [?|?]; [congruence|done].
Qed.

(** ** Keys of the peer *)

Definition key_cmd (c : Z) : Prop := BT_SMP_CMD_ENCRYPT_INFO <= c <= BT_SMP_CMD_SIGNING_INFO.

Lemma busy_allow es s c w : key_cmd c -> busy es s w -> busy es s (allow c w).
Proof.
  unfold key_cmd, BT_SMP_CMD_ENCRYPT_INFO, BT_SMP_CMD_SIGNING_INFO. intros Hc [B1 B2 B3 B4 B5 B6]. set (v := allow c w).
  assert (Vc : forall d, 0 <= d -> (6 <=? d) && (d <=? 10) = false -> can d v = can d w).
  { intros d Hd Hne. unfold v. rewrite can_allow by lia. destruct (Z.eqb_spec c d); [lia|done]. }
  split; rewrite ?Vc by done; [exact B1|exact B2|exact B3|exact B4| |].
  - intros H1 H2. destruct (B5 H1 H2) as [S0 S1 S2 S3 S4 S5 S6 S7].
    split; unfold early in *; rewrite ?Vc by done; [exact S0|exact S1|exact S2|exact S3|exact S4|exact S5|exact S6|exact S7].
  - intros H1 H2. destruct (B6 H1 H2) as [S1 S2 S3 S4 S5 S6].
    split; rewrite ?Vc by done; [exact S1|exact S2|exact S3|exact S4|exact S5|exact S6].
Qed.

Definition kept es s w : Prop := core es w /\ busy es s w.

Lemma kept_ext es s w w' : ext w w' -> kept es s w -> kept es s w'.
Proof. intros E [C B]. split; [by eapply core_ext|by eapply busy_ext0]. Qed.
Lemma kept_allow es s c w : key_cmd c -> kept es s w -> kept es s (allow c w).
Proof. intros Hc [C B]. split; [by apply core_upd_smp|by apply busy_allow]. Qed.
Lemma kept_handled es s w : kept es s w -> handled es s (0, w).
Proof. intros [C B]. split; auto. Qed.
Lemma kept_complete es s w : kept es s w -> handled es s (0, complete_if_distributed w).
Proof.
  intros [C B]. unfold complete_if_distributed. destruct (_ && _); [|by apply kept_handled].
  destruct (complete_inv es s 0 w C) as [C' H]. split; auto.
Qed.
Lemma ext_clear_remote_dist bit w : ext w (clear_remote_dist bit w).
Proof. by apply ext_upd_smp. Qed.
Lemma kept_if es s (b : bool) w w' : kept es s w' -> kept es s w -> kept es s (if b then w' else w).
Proof. by destruct b. Qed.

(** What a handler does if keys are kept. *)
Definition with_entry (type : Z) (f : nat -> smp_world F R -> smp_world F R) w : Z * smp_world F R :=
  if has SMP_FLAG_BOND w then
    match get_type type w with
    | (None, w) => (BT_SMP_ERR_UNSPECIFIED, w)
    | (Some i, w) => (0, f i w)
    end
  else (0, w).

Lemma with_entry_kept es s type f (g : smp_world F R -> Z * smp_world F R) w :
  kept es s w -> (forall i w, ext w (f i w)) -> (forall w, kept es s w -> handled es s (g w)) ->
  handled es s (let '(err, w) := with_entry type f w in if nz err then (err, w) else g w).
Proof.
  intros K Hf Hg. unfold with_entry. destruct (has _ w); [|by apply Hg]. pose proof (ext_get_type type w) as E.
  destruct (get_type type w) as [[i|] w1]; cbn in E; [|by apply handled_error; [|apply (kept_ext _ _ _ _ E K)]].
  apply Hg, (kept_ext _ _ _ _ (Hf i w1)), (kept_ext _ _ _ _ E), K.
Qed.

Lemma kept_arrived es c buf w : 0 <= c -> core es w -> busy es false w -> kept es false (arrived c buf w).
Proof. intros Hc C B. split; [by apply core_arrived|by apply busy_arrived]. Qed.

Lemma encrypt_info_ok es buf w : kept es false w -> handled es false (smp_encrypt_info buf w).
Proof.
  intros K. apply (with_entry_kept es false BT_KEYS_LTK _ (fun w => (0, allow BT_SMP_CMD_MASTER_IDENT w)) w K).
  - intros i v. by apply ext_alter_entry.
  - intros v Kv. by apply kept_handled, kept_allow.
Qed.

Lemma ident_info_ok es buf w : kept es false w -> handled es false (smp_ident_info buf w).
Proof.
  intros K. apply (with_entry_kept es false BT_KEYS_IRK _ (fun w => (0, allow BT_SMP_CMD_IDENT_ADDR_INFO w)) w K).
  - intros i v. by apply ext_alter_entry.
  - intros v Kv. by apply kept_handled, kept_allow.
Qed.

Lemma master_ident_ok es buf w : kept es false w -> handled es false (smp_master_ident buf w).
Proof.
  intros K. apply (with_entry_kept es false BT_KEYS_LTK _ (fun w => (0, complete_if_distributed
    (if nz (remote_dist (smp w) .& BT_SMP_DIST_ID_KEY) then allow BT_SMP_CMD_IDENT_INFO w
      else if nz (remote_dist (smp w) .& BT_SMP_DIST_SIGN) then allow BT_SMP_CMD_SIGNING_INFO w else w))) w K).
  - intros i v. etrans; [|apply ext_clear_remote_dist]. by apply ext_alter_entry.
  - intros v Kv. apply kept_complete. apply kept_if; [by apply kept_allow|]. apply kept_if; [by apply kept_allow|done].
Qed.

Lemma ext_take_identity i addr w : ext w (take_identity i addr w).
Proof.
  unfold take_identity. set (w1 := if bt_addr_le_is_rpa _ then _ else w). assert (E : ext w w1).
  { unfold w1. destruct (bt_addr_le_is_rpa _); [|reflexivity].
    etrans; [apply (ext_alter_entry i (fun k => with_irk (mk_irk (irk_val (irk k)) (addr_val (init_addr (conn w)))) k)); done|].
    destruct (negb _); [|reflexivity]. etrans; [|apply ext_logs]. etrans; [|by apply ext_conn]. by apply ext_alter_entry. }
  etrans; [exact E|]. apply ext_set_ks, no_more_ids, ids_bt_id_add.
Qed.

Lemma ident_addr_ok es buf w : kept es false w -> handled es false (smp_ident_addr_info buf w).
Proof.
  intros K. unfold smp_ident_addr_info. destruct (negb _); [by apply handled_error; [|apply K]|].
  apply (with_entry_kept es false BT_KEYS_IRK (fun i => take_identity i (mk_addr (byte_at 0 buf) (slice 1 6 buf)))
    (fun w => let w := clear_remote_dist BT_SMP_DIST_ID_KEY w in
      (0, complete_if_distributed (if nz (remote_dist (smp w) .& BT_SMP_DIST_SIGN) then allow BT_SMP_CMD_SIGNING_INFO w else w))) w K).
  - intros i v. apply ext_take_identity.
  - intros v Kv. apply kept_complete. pose proof (kept_ext _ _ _ _ (ext_clear_remote_dist BT_SMP_DIST_ID_KEY v) Kv).
    apply kept_if; [by apply kept_allow|done].
Qed.

Lemma failed_ok es s buf w : core es w -> handled es s (smp_pairing_failed buf w).
Proof.
  intros C. unfold smp_pairing_failed. set (w1 := if has SMP_FLAG_USER w then _ else _).
  assert (C1 : core es w1) by (unfold w1; destruct (has SMP_FLAG_USER w); by repeat apply core_upd_smp).
  set (w2 := if (_ || _) && _ then _ else w1). assert (C2 : core es w2).
  { unfold w2. destruct (_ && _); [|done]. by apply (core_ext _ _ _ (ext_logs _ _)). }
  destruct (complete_inv es s (byte_at 0 buf) w2 C2) as [C3 H]. split; auto.
Qed.

(** ** PDUs *)

Lemma handlers_ok es n func len buf w :
  handlers !! n = Some (Some (func, len)) -> core es w -> idle false w \/ busy es false w -> can (Z.of_nat n) w = true ->
  Z.of_nat (length buf) = len -> handled es false (func buf (arrived (Z.of_nat n) buf w)).
Proof.
  intros Hn C IB Hcan Hlen.
  assert (Hnot : forall c : Z, c <> BT_SMP_CMD_PAIRING_REQ -> c <> BT_SMP_CMD_PAIRING_FAIL -> Z.of_nat n = c -> busy es false w).
  { intros c H1 H2 Hc. destruct IB as [I|B]; [|done]. destruct (idle_cmds _ _ I _ (Zle_0_nat n) Hcan); congruence. }
  destruct n as [|[|[|[|[|[|[|[|[|[|[|[|[|[|n]]]]]]]]]]]]]]; try discriminate Hn; injection Hn as <- <-.
  - destruct IB as [I|B]; [apply pairing_req_ok; [done|done|lia]|].
    change (can BT_SMP_CMD_PAIRING_REQ w = true) in Hcan. by rewrite (busy_req _ _ _ B) in Hcan.
  - apply handled_error; [done|by apply core_arrived].
  - apply confirm_ok; [done|by eapply (Hnot 3)|done|lia].
  - apply random_ok; [done|by eapply (Hnot 4)|done|lia].
  - by apply failed_ok, core_arrived.
  - apply encrypt_info_ok, kept_arrived; [done|done|by eapply (Hnot 6)].
  - apply master_ident_ok, kept_arrived; [done|done|by eapply (Hnot 7)].
  - apply ident_info_ok, kept_arrived; [done|done|by eapply (Hnot 8)].
  - apply ident_addr_ok, kept_arrived; [done|done|by eapply (Hnot 9)].
  - apply handled_error; [done|by apply core_arrived].
  - apply handled_error; [done|by apply core_arrived].
  - apply public_key_ok; [done|by eapply (Hnot 12)|done|lia].
  - apply dhkey_check_ok; [done|by eapply (Hnot 13)|done|lia].
Qed.

Lemma recv_inv es pdu w : inv es false w -> inv es false (bt_smp_recv pdu w).
Proof.
  intros I. pose proof (inv_ext _ _ _ _ (ext_logs (Rx pdu) w) I) as I1. unfold bt_smp_recv. destruct pdu as [|code buf]; [done|].
  destruct (has _ _); [done|]. destruct (handlers !! Z.to_nat code) as [[[func len]|]|] eqn:Hn; [|by apply error_inv, I1..].
  destruct (Z.testbit _ code) eqn:Hcan; cbn [negb].
  - assert (Hcode : code = Z.of_nat (Z.to_nat code)).
    { destruct (Z.ltb_spec code 0); [|lia]. by rewrite Z.testbit_neg_r in Hcan by lia. }
    destruct (Z.eqb_spec (Z.of_nat (length buf)) len) as [Hlen|]; cbn [negb].
    + apply handled_inv. destruct I as [C IB]. rewrite Hcode. rewrite Hcode in Hcan. by eapply handlers_ok.
    + apply error_inv, core_upd_smp, I1.
  - destruct (negb _); [by apply error_inv, I1|done].
Qed.
End exchange.
