(* ===== verification/SmpEvents.v ===== *)
(** Whatever happens to the Security Manager keeps the invariant of [SmpInv]: links
    reach the authenticated levels, and keys are marked as authenticated, only after a
    pairing in which the displayed passkey was proven. *)
From Stdlib Require Import ZArith Lia Bool.
From stdpp Require Import base numbers list gmap strings.
From S2P Require Import Prelude ByteOrder Uuid Gatt SettingsKeys Settings Keys Crypto Smp SmpInv SmpPairing SmpSafety.
Open Scope Z_scope.

Section events.
Context {F R : Type} `{!Nvs F, !TinyPrng R} {cr : Crypto}.
Implicit Types (w v : smp_world F R) (es : list event).
#[local] Arguments has : simpl never.
#[local] Arguments can : simpl never.

(** ** What the controller does *)

Definition gets_key (rand ediv : Z) w : bool := bool_decide (is_Some (bt_smp_request_ltk rand ediv w).1).

(** Encryption is being started after [e]: the controller got a key. *)
Definition starting (s : bool) (e : event) w : bool :=
  match e with
  | Connected _ _ _ _ | Disconnected | Encrypt_change _ _ | Key_refresh_complete _ => false
  | Ltk_request rand ediv => gets_key rand ediv w
  | _ => s
  end.

(** While encryption is being started nothing is received and no other key is asked
    for; encryption changes to on only when it was started.  The public key comes when
    it was asked for. *)
Definition controller_law (s : bool) (e : event) w : bool :=
  match e with
  | Received _ | Ltk_request _ _ => negb s
  | Encrypt_change status enc => nz status || negb (nz enc) || s
  | Key_refresh_complete status => nz status || s
  | Pkey_complete _ _ => pub_key_busy (ecc w)
  | _ => true
  end.

(** The controller does not get the key of an earlier bond while a pairing has not
    encrypted the link. *)
Definition no_old_key (s : bool) (e : event) w : bool :=
  match e with
  | Ltk_request rand ediv =>
      negb (has SMP_FLAG_PAIRING w) || has SMP_FLAG_KEYS_DISTR w ||
      ((ediv =? 0) && (rand =? 0) && has SMP_FLAG_ENC_PENDING w) || negb (gets_key rand ediv w)
  | _ => true
  end.

Fixpoint along (P : bool -> event -> smp_world F R -> bool) (s : bool) (es : list event) w : bool :=
  match es with
  | [] => true
  | e :: es => P s e w && along P (starting s e w) es (handle e w)
  end.

(** ** Weakening *)

Lemma idle_any s s' w : has SMP_FLAG_ENC_PENDING w = false -> idle s w -> idle s' w.
Proof. intros H [I1 I2 I3 I4]. split; try done. congruence. Qed.

Lemma busy_stop es s w : busy es s w -> busy es false w.
Proof. intros [B1 B2 B3 B4 B5 B6]. split; try done. intros H1 H2. apply B4; [done|]. destruct s; [done|exact H2]. Qed.

Lemma busy_start es s w : (method (smp w) <> JUST_WORKS -> passkey_proven es (log w)) -> busy es s w -> busy es true w.
Proof. intros H [B1 B2 B3 B4 B5 B6]. split; try done. intros H1 _. auto. Qed.

Lemma inv_no_user es s w : inv es s w -> has SMP_FLAG_USER w = false.
Proof. intros [_ [[I _ _ _]|B]]; [|by eapply busy_no_user]. rewrite !Forall_cons in I. tauto. Qed.
Lemma inv_no_oob es s w : inv es s w -> has SMP_FLAG_OOB_PENDING w = false.
Proof. intros [_ [[I _ _ _]|B]]; [|by eapply busy_no_oob]. rewrite !Forall_cons in I. tauto. Qed.

Lemma busy_pairing es s w : busy es s w -> has SMP_FLAG_PAIRING w = true.
Proof. by intros [[B _] _ _ _ _ _]. Qed.
Lemma idle_pairing s w : idle s w -> has SMP_FLAG_PAIRING w = false.
Proof. intros [I _ _ _]. rewrite !Forall_cons in I. tauto. Qed.

(** ** Connections *)

Lemma connected_inv es s id dst ia ra w : core es w -> inv es s (handle (Connected id dst ia ra) w).
Proof. intros [C1 C2 C3 C4]. apply reset_inv. by split. Qed.

Lemma disconnected_inv es s w : core es w -> inv es s (handle Disconnected w).
Proof.
  intros C. cbn [handle]. apply (inv_ext _ _ _ _ (ext_ident_cbs _ _)). unfold bt_smp_disconnected.
  set (w1 := match le_keys _ with Some _ => _ | None => w end). assert (C1 : core es w1).
  { unfold w1. destruct (le_keys _) as [i|]; [|done]. destruct (keys_of w) as [k|]; [|done]. destruct (_ || _); [|done].
    by eapply core_ext; [apply ext_set_ks, no_more_clear|]. }
  split; [by apply core_upd_smp|left]. split.
  - by repeat constructor; rewrite has_zero.
  - intros c Hc. by rewrite can_zero.
  - by rewrite has_zero.
  - by rewrite has_zero.
Qed.

Lemma ident_sent_inv es s w : inv es s w -> inv es s (handle Ident_sent w).
Proof.
  intros I. cbn [handle]. destruct (ident_cbs w) as [|n]; [done|]. unfold smp_ident_sent, smp_check_complete.
  set (w1 := upd_smp _ _). assert (E : ext w w1) by (etrans; [apply (ext_ident_cbs n)|by apply ext_upd_smp]).
  apply (inv_ext _ _ _ _ E) in I. destruct (_ && _); [|done]. apply complete_inv, I.
Qed.

Lemma timed_out_inv es s w : inv es s w -> inv es s (handle Timed_out w).
Proof.
  intros I. cbn [handle]. destruct (smp_work _); [|done]. unfold smp_timeout.
  eapply inv_ext; [by apply ext_set_flag|]. apply complete_inv, core_upd_smp, I.
Qed.

(** ** Encryption *)

Lemma idle_enc_pending w : idle false w -> idle true (set_flag SMP_FLAG_ENC_PENDING w).
Proof.
  intros [I1 I2 I3 I4]. split; [|exact I2| |done].
  - rewrite !Forall_cons in *. rewrite !has_set by done. naive_solver.
  - rewrite has_set by done. exact I3.
Qed.

(** An old key is given: no pairing runs, or it has encrypted the link already. *)
Lemma old_key_inv es (pending : bool) w :
  inv es false w -> (has SMP_FLAG_PAIRING w = true -> has SMP_FLAG_KEYS_DISTR w = true) ->
  inv es true (if pending then set_flag SMP_FLAG_ENC_PENDING w else w).
Proof.
  intros [C IB] Hp. split; [by destruct pending; [apply core_upd_smp|]|]. destruct IB as [I|B].
  - left. destruct pending; [by apply idle_enc_pending|]. destruct I as [I1 I2 I3 I4]. by split.
  - right. assert (Hproven : method (smp w) <> JUST_WORKS -> passkey_proven es (log w)).
    { intros Hm. apply (busy_enc _ _ _ B Hm). rewrite (Hp (busy_pairing _ _ _ B)). by rewrite orb_true_r. }
    apply (busy_start _ _ _ Hproven) in B. destruct pending; [by apply busy_enc_pending|done].
Qed.

Lemma stored_ltk_inv es rand ediv w :
  inv es false w ->
  (has SMP_FLAG_PAIRING w = true -> is_Some (stored_ltk rand ediv w).1 -> has SMP_FLAG_KEYS_DISTR w = true) ->
  inv es (bool_decide (is_Some (stored_ltk rand ediv w).1)) (stored_ltk rand ediv w).2.
Proof.
  intros I. unfold stored_ltk. pose proof (ext_conn_find_keys [BT_KEYS_LTK_P256; BT_KEYS_SLAVE_LTK] w) as E.
  rewrite <- (ext_flag _ _ SMP_FLAG_PAIRING E), <- (ext_flag _ _ SMP_FLAG_KEYS_DISTR E) by done.
  set (w1 := conn_find_keys _ w) in *. clearbody w1. apply (inv_ext _ _ _ _ E) in I. clear E w.
  set (fail := (None, _)). assert (Hfail : inv es false fail.2).
  { unfold fail. apply reset_inv. destruct (has _ w1); [apply core_security_failed|]; apply I. }
  destruct (keys_of w1) as [k|]; [|by rewrite bool_decide_eq_false_2 by (by intros [? ?])].
  destruct (_ && _); [|destruct (_ && _)]; cbn -[fail inv]; intros Hold.
  - apply (old_key_inv es false); [done|]. intros Hp. apply Hold; [done|eauto].
  - apply (old_key_inv es true); [done|]. intros Hp. apply Hold; [done|eauto].
  - by rewrite bool_decide_eq_false_2 by (by intros [? ?]).
Qed.

Lemma request_ltk_inv es rand ediv w :
  inv es false w -> no_old_key false (Ltk_request rand ediv) w = true -> inv es (gets_key rand ediv w) (bt_smp_request_ltk rand ediv w).2.
Proof.
  intros I Hold. cbn in Hold. unfold gets_key, bt_smp_request_ltk in *.
  destruct ((ediv =? 0) && (rand =? 0) && has SMP_FLAG_PAIRING w && has SMP_FLAG_ENC_PENDING w) eqn:Hb.
  - rewrite !andb_true_iff in Hb. destruct Hb as [[_ Hp] He]. destruct I as [C [I|B]]; [by rewrite (idle_pairing _ _ I) in Hp|].
    assert (H : method (smp w) <> JUST_WORKS -> passkey_proven es (log w)) by (intros Hm; apply (busy_enc _ _ _ B Hm); by rewrite He).
    split; [by apply core_upd_smp|right]. cbn. by apply busy_enc_pending, (busy_start es false).
  - apply stored_ltk_inv; [done|]. intros Hp Hs. rewrite Hp in *. rewrite andb_true_r in Hb. rewrite Hb, (bool_decide_eq_true_2 _ Hs) in Hold.
    cbn in Hold. by rewrite !orb_false_r in Hold.
Qed.

Lemma ltk_request_inv es rand ediv w :
  inv es false w -> no_old_key false (Ltk_request rand ediv) w = true -> inv es (gets_key rand ediv w) (handle (Ltk_request rand ediv) w).
Proof.
  intros I Hold. pose proof (request_ltk_inv es rand ediv w I Hold) as H. cbn [handle]. unfold le_ltk_request.
  destruct (bt_smp_request_ltk rand ediv w) as [[ltk|] w']; by apply (inv_ext _ _ _ _ (ext_hci_send _ _)).
Qed.

Lemma nz_bit0 x : nz (x .& BT_KEYS_AUTHENTICATED) = Z.testbit x 0.
Proof.
  change BT_KEYS_AUTHENTICATED with (Z.ones 1). rewrite Z.land_ones, Z.bit0_odd, Zmod_odd by done. by destruct (Z.odd x).
Qed.

(** A pairing that does not authenticate leaves a key that is not marked. *)
Lemma pairing_keys_flags w k : method (smp w) = JUST_WORKS -> nz (keys_flags (pairing_keys w k) .& BT_KEYS_AUTHENTICATED) = false.
Proof.
  intros Hm. rewrite nz_bit0. unfold pairing_keys. rewrite Hm. destruct (has SMP_FLAG_SC_DEBUG_KEY w), (has SMP_FLAG_SC w), (has SMP_FLAG_BOND w).
  all: cbn [keys_flags with_flags with_enc_size with_ltk bt_keys_add_type]; by rewrite ?Z.lor_spec, ?Z.ldiff_spec, ?Z.lor_spec, ?andb_false_r.
Qed.

Lemma authed_alter f i (s : key_state F) :
  authed (pool (alter_key f i s)) -> authed (pool s) \/ exists k, nz (keys_flags (f k) .& BT_KEYS_AUTHENTICATED) = true.
Proof.
  intros (k & [j Hk]%list_elem_of_lookup & Hauth). cbn in Hk. destruct (decide (i = j)) as [->|Hne].
  - rewrite list_lookup_alter_eq in Hk. destruct (pool s !! j) as [k0|] eqn:E; [|done]. injection Hk as <-. eauto.
  - rewrite list_lookup_alter_ne in Hk by done. left. by eapply authed_lookup.
Qed.

Lemma busy_set_ks es s k w : busy es s w -> busy es s (set_ks k w).
Proof.
  intros [B1 B2 B3 B4 B5 B6]. split; [exact B1|exact B2|exact B3|exact B4| |].
  - intros H1 H2. destruct (B5 H1 H2) as [S0 S1 S2 S3 S4 S5 S6 S7]. by split.
  - intros H1 H2. destruct (B6 H1 H2) as [S1 S2 S3 S4 S5 S6]. by split.
Qed.

Lemma update_keys_inv es w : inv es true w -> inv es true (bt_smp_update_keys w).
Proof.
  intros [C IB]. unfold bt_smp_update_keys. destruct IB as [I|B].
  { rewrite (idle_pairing _ _ I). split; [done|by left]. }
  rewrite (busy_pairing _ _ _ B). cbn [negb]. set (w1 := match le_keys _ with Some _ => _ | None => w end).
  assert (E1 : ext w w1) by (unfold w1; destruct (le_keys _); [apply ext_set_ks, no_more_clear|reflexivity]).
  pose proof (no_more_get_addr (le_id (conn w1)) (le_dst (conn w1)) (ks w1)) as Hn.
  destruct (bt_keys_get_addr _ _ _) as [k s]. cbn in Hn. set (w2 := upd_conn _ _).
  assert (E : ext w w2). { etrans; [exact E1|]. etrans; [by apply (ext_set_ks s)|by apply ext_conn]. }
  apply (core_ext _ _ _ E) in C. apply (busy_ext0 _ _ _ _ E) in B. clearbody w2. clear E1 E Hn w1 w.
  destruct k as [i|]; [|by apply error_inv]. unfold upd_keys. destruct (le_keys _) as [j|]; [|by split; auto].
  assert (Hproven : method (smp w2) <> JUST_WORKS -> passkey_proven es (log w2)) by (intros Hm; by apply (busy_enc _ _ _ B Hm)).
  split; [|right; by apply busy_set_ks]. destruct C as [C1 C2 C3 C4]. split; try done.
  intros [?|[k Hk]]%authed_alter; [auto|]. apply Hproven. intros Hm. by rewrite pairing_keys_flags in Hk.
Qed.

Lemma update_sec_level_inv es s w : inv es s w -> inv es s (update_sec_level w).
Proof.
  intros [C IB].
  assert (H : forall l, (BT_SECURITY_L3 <= l -> passkey_proven es (log w)) -> inv es s (upd_conn (set_sec_level l) w)).
  { intros l Hl. split; [destruct C as [C1 C2 C3 C4]; by split|]. destruct IB as [I|B]; [left|right].
    - destruct I as [I1 I2 I3 I4]. by split.
    - destruct B as [B1 B2 B3 B4 B5 B6]. split; [exact B1|exact B2|exact B3|exact B4| |].
      + intros H1 H2. destruct (B5 H1 H2) as [S0 S1 S2 S3 S4 S5 S6 S7]. by split.
      + intros H1 H2. destruct (B6 H1 H2) as [S1 S2 S3 S4 S5 S6]. by split. }
  unfold update_sec_level. destruct (negb _); [by apply H|]. set (level := match keys_of w with Some _ => _ | None => _ end).
  assert (Hl : inv es s (upd_conn (set_sec_level level) w)).
  { apply H. unfold level. destruct (keys_of w) as [k|] eqn:Hk; [|done]. destruct (nz (_ .& BT_KEYS_AUTHENTICATED)) eqn:Ha; [|done].
    intros _. apply (core_pool _ _ C). unfold keys_of in Hk. apply bind_Some in Hk as (i & _ & Hk). by eapply authed_lookup. }
  destruct (_ <? _); [|done]. by apply (inv_ext _ _ _ _ (ext_hci_send _ _)).
Qed.

Lemma clear_enc_inv es s w : inv es s w -> inv es false (clear_flag SMP_FLAG_ENC_PENDING w).
Proof.
  intros [C IB]. split; [by apply core_upd_smp|]. set (v := clear_flag _ w).
  assert (Vf : forall f, 0 <= f -> (SMP_FLAG_ENC_PENDING =? f) = false -> has f v = has f w).
  { intros f Hf Hne. unfold v. by rewrite has_clear, Hne, andb_true_r by done. }
  assert (Ve : has SMP_FLAG_ENC_PENDING v = false) by (unfold v; by rewrite has_clear, andb_false_r by done).
  destruct IB as [[I1 I2 I3 I4]|B]; [left|right].
  - split; rewrite ?Ve; [|exact I2| |done].
    + rewrite !Forall_cons in *. rewrite !Vf by done. naive_solver.
    + rewrite Vf by done. exact I3.
  - apply busy_stop in B as [[B0 B1] B2 B3 B4 B5 B6]. split; rewrite ?Ve, ?Vf by done; [|exact B2|exact B3| | |].
    + split; [done|]. rewrite !Forall_cons in *. rewrite !Vf by done. naive_solver.
    + intros H1 H2. apply B4; [done|]. rewrite !orb_true_iff in *. tauto.
    + intros H1 H2. destruct (B5 H1 H2) as [S0 S1 S2 S3 S4 S5 S6 S7].
      split; unfold early in *; rewrite ?Vf by done; [exact S0|exact S1|exact S2|exact S3|exact S4|exact S5|exact S6|exact S7].
    + intros H1 H2. destruct (B6 H1 H2) as [S1 S2 S3 S4 S5 S6].
      split; rewrite ?Vf by done; [exact S1|exact S2|exact S3|exact S4|exact S5|exact S6].
Qed.

Lemma ext_legacy_distribute k w : ext w (legacy_distribute_keys k w).
Proof.
  unfold legacy_distribute_keys. destruct (nz _); [|reflexivity]. pose proof (ext_rand 26 w) as E.
  destruct (rand_bytes 26 w) as [[err rand] w1]. cbn in E. etrans; [exact E|]. clear E.
  pose proof (ext_create_pdu BT_SMP_CMD_ENCRYPT_INFO w1) as E. destruct (smp_create_pdu _ w1) as [[buf|] w2]; [|done]. etrans; [exact E|]. clear E.
  set (w3 := smp_send _ w2). etrans; [apply (ext_send _ w2 : ext w2 w3)|].
  pose proof (ext_create_pdu BT_SMP_CMD_MASTER_IDENT w3) as E. destruct (smp_create_pdu _ w3) as [[buf'|] w4]; [|done]. etrans; [exact E|]. clear E.
  set (w5 := smp_send _ w4). etrans; [apply (ext_send _ w4 : ext w4 w5)|].
  etrans; [apply (ext_ident_cbs (S (ident_cbs w5)))|]. destruct (has _ _); [by apply ext_upd_keys|reflexivity].
Qed.

Lemma encrypt_change_inv es s st w :
  inv es s w -> s = true \/ st <> 0 \/ encrypt (conn w) = 0 -> inv es false (bt_smp_encrypt_change st w).
Proof.
  intros I Hs. pose proof (clear_enc_inv es s w I) as I1. unfold bt_smp_encrypt_change. set (w1 := clear_flag _ w) in *.
  unfold nz at 1. destruct (Z.eqb_spec st 0) as [->|]; [|done]. cbn [negb]. change (encrypt (conn w1)) with (encrypt (conn w)).
  unfold nz at 1. destruct (Z.eqb_spec (encrypt (conn w)) 0) as [|He]; [done|]. cbn [negb]. destruct Hs as [->|[|]]; [|done|done].
  destruct I1 as [C1 [Id|B1]]; [rewrite (idle_pairing _ _ Id); by apply reset_inv|]. rewrite (busy_pairing _ _ _ B1). cbn [negb].
  assert (Hproven : method (smp w1) <> JUST_WORKS -> passkey_proven es (log w1)).
  { destruct I as [_ [Id|B]]; [|intros Hm; by apply (busy_enc _ _ _ B)]. pose proof (busy_pairing _ _ _ B1) as H. unfold w1 in H.
    rewrite has_clear in H by done. by rewrite (idle_pairing _ _ Id) in H. }
  set (w2 := if has SMP_FLAG_SC w1 then _ else w1). assert (E2 : ext w1 w2).
  { unfold w2. destruct (has _ w1); [|reflexivity]. etrans; [|apply ext_clear_remote_dist]. etrans; [|by apply ext_upd_smp].
    destruct (_ && _); [by apply ext_set_flag|reflexivity]. }
  clearbody w2. set (w3 := if nz _ then _ else _). assert (K3 : kept es false w3).
  { assert (K2 : kept es false w2) by (eapply kept_ext; [exact E2|by split]). unfold w3. apply kept_if; [by apply kept_allow|].
    apply kept_if; [by apply kept_allow|]. apply kept_if; [by apply kept_allow|done]. }
  assert (H3 : method (smp w3) = method (smp w1) /\ exists l, log w3 = log w1 ++ l).
  { unfold w3. destruct (nz _); [|destruct (nz _); [|destruct (nz _)]]; cbn; ext_rewrite E2; (split; [done|apply (ext_log _ _ E2)]). }
  destruct H3 as [Hm3 [l Hl3]]. set (w4 := set_flag _ w3). assert (K4 : kept es false w4).
  { split; [apply core_upd_smp, K3|]. apply busy_enc_flag; [by right| |apply K3]. rewrite Hm3, Hl3. intros H%Hproven.
    rewrite <- (app_nil_r es). by apply passkey_proven_mono. }
  clearbody w4. unfold bt_smp_distribute_keys. destruct (keys_of w4) as [k|]; cbn [negb Z.eqb]; [|split; [apply K4|right; apply K4]].
  assert (K5 : kept es false (if negb (has SMP_FLAG_SC w4) then legacy_distribute_keys k w4 else w4)).
  { apply kept_if; [|done]. eapply kept_ext; [apply ext_legacy_distribute|done]. }
  destruct (kept_complete _ _ _ K5) as [C5 H5]. split; [done|]. by apply H5.
Qed.

Lemma security_changed_inv es s st err w :
  inv es s w -> s = true \/ st <> 0 \/ encrypt (conn w) = 0 -> inv es false (security_changed st err w).
Proof.
  intros I Hs. unfold security_changed, bt_conn_security_changed. eapply inv_ext; [apply ext_logs|]. apply (encrypt_change_inv es s).
  - eapply inv_ext; [|exact I]. by apply ext_conn.
  - done.
Qed.

Lemma update_sec_level_encrypt w : encrypt (conn (update_sec_level w)) = encrypt (conn w).
Proof. unfold update_sec_level. destruct (negb _); [done|]. by destruct (_ <? _). Qed.

Lemma encrypt_event_inv es s st enc w :
  inv es s w -> controller_law s (Encrypt_change st enc) w = true -> inv es false (handle (Encrypt_change st enc) w).
Proof.
  intros I Hlaw. cbn in *. unfold hci_encrypt_change. unfold nz at 1. destruct (Z.eqb_spec st 0) as [->|Hst]; cbn [negb].
  2: { apply (security_changed_inv es s); [done|]. right; left; done. }
  set (w1 := upd_conn _ w). assert (I1 : inv es s w1) by (eapply inv_ext; [|exact I]; by apply ext_conn).
  change (encrypt (conn w1)) with enc. unfold nz in *. destruct (Z.eqb_spec enc 0) as [->|He]; cbn [negb] in *.
  - apply (security_changed_inv es s); [by apply update_sec_level_inv|]. right; right. by rewrite update_sec_level_encrypt.
  - cbn in Hlaw. subst s. apply (security_changed_inv es true); [by apply update_sec_level_inv, update_keys_inv|by left].
Qed.

Lemma refresh_event_inv es s st w :
  inv es s w -> controller_law s (Key_refresh_complete st) w = true -> inv es false (handle (Key_refresh_complete st) w).
Proof.
  intros I Hlaw. cbn in *. unfold hci_encrypt_key_refresh_complete. unfold nz in *. destruct (Z.eqb_spec st 0) as [->|Hst]; cbn [negb] in *.
  - cbn in Hlaw. subst s. apply (security_changed_inv es true); [by apply update_sec_level_inv, update_keys_inv|by left].
  - apply (security_changed_inv es s); [done|]. right; left; done.
Qed.

(** ** The shared key *)

Definition dhkeyed (key : list Z) w : smp_world F R := upd_smp (set_dhkey key) (clear_flag SMP_FLAG_DHKEY_PENDING w).

(** [send]: the DHKey check of the peer is awaited. *)
Lemma dhkeyed_busy es s (send : bool) key w :
  busy es s w -> has SMP_FLAG_DHKEY_PENDING w = true -> Dhkey_complete 0 key ∈ es ->
  (send = true -> has SMP_FLAG_DHCHECK_WAIT w = true) ->
  busy es s (if send then set_flag SMP_FLAG_DHKEY_SEND (dhkeyed key w) else dhkeyed key w).
Proof.
  intros B Hp Hkey Hsend. set (v := if send then _ else _).
  assert (Vf : forall f, 0 <= f -> has f v = send && (SMP_FLAG_DHKEY_SEND =? f) || has f w && negb (SMP_FLAG_DHKEY_PENDING =? f)).
  { intros f Hf. unfold v, dhkeyed. destruct send; rewrite ?has_set, has_upd, has_clear by done; done. }
  assert (Vc : forall c, can c v = can c w) by (intros c; unfold v; by destruct send).
  assert (Vm : method (smp v) = method (smp w) /\ preq (smp v) = preq (smp w) /\ pkey (smp v) = pkey (smp w) /\ passkey (smp v) = passkey (smp w) /\
    passkey_round (smp v) = passkey_round (smp w) /\ pcnf (smp v) = pcnf (smp w) /\ prnd (smp v) = prnd (smp w) /\ rrnd (smp v) = rrnd (smp w) /\
    dhkey (smp v) = key /\ sc_public_key v = sc_public_key w /\ log v = log w) by (unfold v; by destruct send). clearbody v.
  destruct Vm as (Vm & Vp & Vk & Vpass & Vrd & Vcn & Vpr & Vrr & Vdh & Vpk & Vl).
  assert (Hrd : forall n, rounds_done n w -> rounds_done n v).
  { intros n [? ?]. unfold rounds_done, local_pkey. by rewrite Vm, Vpass, Vk, Vpk, Vl. }
  destruct B as [[B0 B1] B2 B3 B4 B5 B6].
  split; rewrite ?Vf, ?Vc, ?Vm, ?Vp, ?Vl by done; cbn [Z.eqb negb]; rewrite ?andb_false_r, ?andb_true_r, ?orb_false_l; try done.
  - split; [done|]. rewrite !Forall_cons in *. rewrite !Vf by done. cbn [Z.eqb negb]. rewrite !andb_false_r, !andb_true_r. naive_solver.
  - intros Hsc Hm. destruct (B5 Hsc Hm) as [S0 S1 S2 S3 S4 S5 S6 S7].
    split; rewrite ?Vf, ?Vc, ?Vm, ?Vk, ?Vpk, ?Vrd, ?Vrr, ?Vdh, ?Vl by done; cbn [Z.eqb negb]; rewrite ?andb_false_r, ?andb_true_r, ?orb_false_l; try done.
    + intros He. destruct (S1 He) as (_ & _ & _ & ? & _). congruence.
    + intros [? ?]%S3. auto.
    + intros H1 H2. destruct (S4 H1 H2) as (? & ? & ?). split; [done|]. split; [done|].
      unfold half_round, local_pkey. by rewrite Vcn, Vpass, Vk, Vpk, Vpr, Vrd, Vl.
    + intros H. assert (rounds_done 20 w /\ Rx (BT_SMP_CMD_PAIRING_RANDOM :: rrnd (smp w)) ∈ log w) as [? ?]; [|auto].
      apply S5. destruct send; [by rewrite Hsend, orb_true_r|exact H].
    + by right; right.
  - intros Hsc Hm. destruct (lg_flags _ (B6 Hsc Hm)). congruence.
Qed.

Lemma dhkey_ready_inv es s key w : inv es s w -> (forall k, key = Some k -> Dhkey_complete 0 k ∈ es) -> inv es s (bt_smp_dhkey_ready key w).
Proof.
  intros I Hkey. unfold bt_smp_dhkey_ready. destruct (has SMP_FLAG_DHKEY_PENDING w) eqn:Hp; [|done]. cbn [negb]. destruct I as [C [I|B]].
  { destruct I as [I _ _ _]. rewrite !Forall_cons in I. destruct I as (_ & _ & _ & _ & _ & _ & ? & _). congruence. }
  destruct key as [key|]; [|by apply error_inv, core_upd_smp]. fold (dhkeyed key w). specialize (Hkey key eq_refl).
  assert (Cd : core es (dhkeyed key w)) by by apply core_upd_smp, core_upd_smp.
  assert (Hf : forall f, 0 <= f -> (SMP_FLAG_DHKEY_PENDING =? f) = false -> has f (dhkeyed key w) = has f w).
  { intros f H0 Hne. unfold dhkeyed. by rewrite has_upd, has_clear, Hne, andb_true_r by done. }
  rewrite !Hf, (busy_no_user _ _ _ B) by done. pose proof (dhkeyed_busy es s false key w B Hp Hkey ltac:(done)) as Bf. cbn in Bf.
  destruct (has SMP_FLAG_DHCHECK_WAIT w) eqn:Hw.
  { split; [by apply core_upd_smp|right]. by apply (dhkeyed_busy es s true). }
  destruct (has SMP_FLAG_DHKEY_SEND w) eqn:Hs; [|by split; [|right]].
  apply handled_inv, dhcheck_ok; [done|done|]. change (method (smp (dhkeyed key w))) with (method (smp w)). intros Hm.
  rewrite Hf by done. destruct (has SMP_FLAG_SC w) eqn:Hsc; [|destruct (lg_flags _ (busy_legacy _ _ _ B Hsc Hm)); congruence].
  destruct (busy_sc _ _ _ B Hsc Hm) as [S0 S1 S2 S3 S4 S5 S6 S7]. rewrite Hs, orb_true_r in S5. destruct (S5 eq_refl) as [[? ?] ?].
  split; [done|]. split; [by split|]. split; [done|]. split; [exact (S6 Hp Hs)|done].
Qed.

Lemma dhkey_event_inv es s st key w :
  inv (es ++ [Dhkey_complete st key]) s w -> inv (es ++ [Dhkey_complete st key]) s (handle (Dhkey_complete st key) w).
Proof.
  intros I. cbn [handle]. unfold le_dhkey_complete. destruct (dh_key_cb _); [|done]. eapply inv_ext; [apply ext_dh_key_cb|].
  apply dhkey_ready_inv; [done|]. intros k. unfold nz. destruct (Z.eqb_spec st 0) as [->|]; [|done]. intros [= ->]. set_solver.
Qed.

(** ** The public key of this side *)

Lemma ext_ecc e w : pub_key_busy e = pub_key_busy (ecc w) -> pub_key e = pub_key (ecc w) -> ext w (set_ecc e w).
Proof. intros H1 H2. split; try done. exists []. by rewrite app_nil_r. Qed.

(** The key comes while there was none: no part of a pairing used it. *)
Lemma pk_busy es s pk w : busy es s w -> sc_public_key w = None -> busy es s (set_sc_public_key pk w).
Proof.
  intros [B1 B2 B3 B4 B5 B6] Hpk. split; [exact B1|exact B2|exact B3|exact B4| |].
  - intros H1 H2. destruct (B5 H1 H2) as [S0 S1 S2 S3 S4 S5 S6 S7]. destruct (S1 (or_intror Hpk)) as (E1 & E2 & E3 & E4 & E5 & E6).
    change (can ?c (set_sc_public_key pk w)) with (can c w) in *. change (has ?f (set_sc_public_key pk w)) with (has f w) in *.
    split; [exact S0|by intros _|exact S2|..]; change (can ?c (set_sc_public_key pk w)) with (can c w); change (has ?f (set_sc_public_key pk w)) with (has f w).
    + by rewrite E1.
    + by rewrite E2.
    + by rewrite E3, E5, E6.
    + by rewrite E4.
    + by left.
  - intros H1 H2. destruct (B6 H1 H2) as [S1 S2 S3 S4 S5 S6]. by split.
Qed.

Lemma pkey_event_inv es s st key w :
  inv es s w -> pub_key_busy (ecc w) = true -> inv es s (handle (Pkey_complete st key) w).
Proof.
  intros [C IB] Hb. destruct (core_pkey _ _ C Hb) as [Hpk Hkey]. cbn [handle]. unfold le_pkey_complete. eapply inv_ext; [by apply ext_ecc|].
  set (w1 := set_ecc _ w). change (sc_public_key w1) with (sc_public_key w). rewrite Hpk.
  assert (I1 : inv es s w1).
  { split; [destruct C as [C1 C2 C3 C4]; by split|]. destruct IB as [[I1 I2 I3 I4]|B]; [left; by split|right].
    destruct B as [B1 B2 B3 B4 B5 B6]. split; [exact B1|exact B2|exact B3|exact B4| |].
    - intros H1 H2. destruct (B5 H1 H2) as [S0 S1 S2 S3 S4 S5 S6 S7]. by split.
    - intros H1 H2. destruct (B6 H1 H2) as [S1 S2 S3 S4 S5 S6]. by split. }
  assert (Hpk1 : sc_public_key w1 = None) by done. assert (Hb1 : pub_key_busy (ecc w1) = false) by done.
  set (key' := if nz st then None else Some key). clearbody w1 key'. clear C IB Hb Hpk Hkey.
  destruct (pub_key_cb _); [|done]. destruct I1 as [[C1 C2 C3 C4] IB]. unfold bt_smp_pkey_ready. set (w2 := set_sc_public_key key' w1).
  assert (C' : core es w2) by (split; [done|by cbn; rewrite Hb1|done|done]).
  assert (IB2 : idle s w2 \/ busy es s w2) by (destruct IB as [[I1 I2 I3 I4]|B]; [left; by split|right; by apply pk_busy]).
  destruct key' as [k|]; [|by split]. destruct (has SMP_FLAG_PKEY_SEND w2) eqn:Hs; [|by split]. cbn [negb].
  apply handled_inv, slave_ok. destruct IB2 as [I|B2].
  { destruct I as [I _ _ _]. rewrite !Forall_cons in I. destruct I as (_ & _ & _ & _ & _ & _ & _ & _ & _ & ? & _). congruence. }
  split; [done|done|done|]. intros Hm. destruct (has SMP_FLAG_SC w2) eqn:Hsc; [|destruct (lg_flags _ (busy_legacy _ _ _ B2 Hsc Hm)); congruence].
  destruct IB as [[I _ _ _]|B].
  { rewrite !Forall_cons in I. change (has ?f w1) with (has f w2) in I. destruct I as (_ & _ & _ & _ & ? & _). congruence. }
  destruct (busy_sc _ _ _ B Hsc Hm) as [S0 S1 S2 _ _ _ _ _]. destruct (S2 Hs). by pose proof (S1 (or_intror Hpk1)).
Qed.

(** ** Calls of the application *)

Lemma zero_idle s b w : idle s (upd_smp (fun _ => smp_zero b) w).
Proof.
  split.
  - by repeat constructor; rewrite has_zero.
  - intros c Hc. by rewrite can_zero.
  - by rewrite has_zero.
  - by rewrite has_zero.
Qed.

Lemma smp_init_inv es s w : core es w -> inv es s (smp_init w).2.
Proof.
  intros C. split; [by destruct (init_fresh es w C)|left]. unfold smp_init. cbv zeta.
  destruct (rand_bytes_rng 16 (upd_smp (fun s0 => smp_zero (smp_work s0)) w)) as (err & buf & st & ->).
  assert (I0 : idle s (upd_smp (fun _ => smp_zero (smp_work (smp w))) w)) by apply zero_idle. destruct I0 as [I1 I2 I3 I4].
  destruct (nz err); [by split|]. split; [exact I1| |exact I3|exact I4].
  intros c Hc H. right. set (v := upd_smp (set_prnd buf) _) in H. change (can c (allow BT_SMP_CMD_PAIRING_FAIL v) = true) in H.
  rewrite can_allow in H by done. destruct (Z.eqb_spec BT_SMP_CMD_PAIRING_FAIL c) as [|Hne]; [done|].
  change (can c v) with (Z.testbit 0 c) in H. by rewrite Z.bits_0 in H.
Qed.

Lemma ext_keys_check w : ext w (smp_keys_check w).2.
Proof. unfold smp_keys_check. destruct (force_pair _); [reflexivity|apply ext_conn_find_keys]. Qed.

Lemma security_req_inv es s w : inv es s w -> inv es s (smp_send_security_req w).2.
Proof.
  intros I. unfold smp_send_security_req. destruct (has SMP_FLAG_TIMEOUT w); [done|]. destruct (has SMP_FLAG_PAIRING w) eqn:Hp; [done|].
  destruct (has SMP_FLAG_ENC_PENDING w); [done|].
  set (r := if sec_level_reachable w then _ else _). assert (E : ext w r.2) by (unfold r; destruct (sec_level_reachable w); [reflexivity|apply ext_keys_check]).
  destruct r as [ok w1]. cbn in E. apply (inv_ext _ _ _ _ E) in I as I1. destruct ok; [|done]. cbn [negb].
  apply (inv_ext _ _ _ _ (ext_conn_get_keys _)) in I1 as I2. destruct (le_keys _); [|done].
  set (w2 := conn_get_keys w1) in *. clearbody w2. destruct I2 as [C2 _]. pose proof (smp_init_inv es s w2 C2) as I3.
  destruct (init_fresh es w2 C2) as (C3 & _ & Hfresh). destruct (smp_init w2) as [err w3]. cbn in I3, C3, Hfresh.
  unfold nz. destruct (Z.eqb_spec err 0) as [->|]; [|done]. cbn [negb]. specialize (Hfresh eq_refl).
  pose proof (ext_create_pdu BT_SMP_CMD_SECURITY_REQUEST w3) as E3. destruct (smp_create_pdu _ w3) as [[buf|] w4]; cbn in E3; [|by apply (inv_ext _ _ _ _ E3)].
  set (w5 := bt_l2cap_send _ w4). assert (E5 : ext w3 w5) by (etrans; [exact E3|apply ext_logs]).
  destruct (fresh_ext _ _ _ E5 Hfresh) as [Fc F2 F3 F4]. clearbody w5. cbn [snd]. split; [by apply core_upd_smp, core_upd_smp|left]. split.
  - rewrite !Forall_cons in *. rewrite !has_allow, !has_set by done. naive_solver.
  - intros c Hc. rewrite can_allow, can_set_flag by done. destruct (Z.eqb_spec BT_SMP_CMD_PAIRING_REQ c) as [<-|]; [by left|]. intros H. right. by apply F3.
  - done.
  - rewrite has_allow, has_set by done. rewrite !Forall_cons in F2.
    destruct F2 as (_ & _ & _ & _ & _ & _ & _ & _ & _ & _ & -> & _). done.
Qed.

Lemma set_security_inv es s sec w : inv es s w -> inv es s (handle (Set_security sec) w).
Proof.
  intros I. cbn [handle]. unfold bt_conn_set_security. destruct (_ || _); [done|]. set (w1 := upd_conn _ w).
  assert (I1 : inv es s w1) by (eapply inv_ext; [|exact I]; by apply ext_conn). clearbody w1.
  unfold bt_smp_start_security. apply security_req_inv in I1. destruct (smp_send_security_req w1) as [err w2]. cbn in *.
  destruct (nz err); [|done]. eapply inv_ext; [|exact I1]. by apply ext_conn.
Qed.

Lemma ext_bondable b w : ext w (set_bondable b w).
Proof. split; try done. exists []. by rewrite app_nil_r. Qed.
Lemma ext_oob_flag b w : ext w (set_oobd_present b w).
Proof. split; try done. exists []. by rewrite app_nil_r. Qed.

(** The application has no say in a pairing: it does not register the callbacks that
    would ask it. *)
Lemma user_inv es s e w :
  inv es s w ->
  match e with Passkey_entered _ | Passkey_confirmed | Pairing_confirmed | Cancelled | Oob_tk _ | Oob_sc_data _ _ => True | _ => False end ->
  handle e w = w.
Proof.
  intros I He. pose proof (inv_no_user _ _ _ I) as Hu. pose proof (inv_no_oob _ _ _ I) as Ho. destruct I as [C _]. pose proof (core_auth _ _ C) as Ha.
  destruct e; try done; cbn [handle]; unfold bt_conn_auth_passkey_entry, bt_conn_auth_passkey_confirm, bt_conn_auth_pairing_confirm, bt_conn_auth_cancel,
    if_auth, bt_smp_auth_passkey_entry, bt_smp_auth_passkey_confirm, bt_smp_auth_pairing_confirm, bt_smp_auth_cancel, bt_smp_le_oob_set_tk,
    bt_smp_le_oob_set_sc_data; rewrite ?Ha, ?Hu, ?Ho; cbn [negb snd]; try done.
  by destruct (negb _).
Qed.

(** ** All events *)

Lemma handle_inv es s e w :
  inv es s w -> controller_law s e w = true -> no_old_key s e w = true -> inv (es ++ [e]) (starting s e w) (handle e w).
Proof.
  intros I Hlaw Hold. apply (inv_event es e) in I. destruct e; cbn [starting].
  - apply connected_inv, I.
  - apply disconnected_inv, I.
  - cbn in Hlaw. destruct s; [done|]. by apply recv_inv.
  - by apply ident_sent_inv.
  - by apply timed_out_inv.
  - cbn in Hlaw. destruct s; [done|]. by apply ltk_request_inv.
  - by eapply encrypt_event_inv.
  - by eapply refresh_event_inv.
  - by apply pkey_event_inv.
  - by apply dhkey_event_inv.
  - by apply set_security_inv.
  - by rewrite (user_inv _ _ _ _ I).
  - by rewrite (user_inv _ _ _ _ I).
  - by rewrite (user_inv _ _ _ _ I).
  - by rewrite (user_inv _ _ _ _ I).
  - by rewrite (user_inv _ _ _ _ I).
  - by rewrite (user_inv _ _ _ _ I).
  - by apply (inv_ext _ _ _ _ (ext_bondable _ _)).
  - by apply (inv_ext _ _ _ _ (ext_oob_flag _ _)).
Qed.

Lemma handle_all_inv es0 s es w :
  inv es0 s w -> along controller_law s es w = true -> along no_old_key s es w = true ->
  exists s', inv (es0 ++ es) s' (handle_all es w).
Proof.
  revert es0 s w. induction es as [|e es IH]; intros es0 s w I H1 H2; [exists s; by rewrite app_nil_r|].
  cbn [along] in H1, H2. apply andb_true_iff in H1 as [L1 L2]. apply andb_true_iff in H2 as [N1 N2].
  destruct (IH (es0 ++ [e]) _ _ (handle_inv es0 s e w I L1 N1) L2 N2) as [s' H]. exists s'. by rewrite <- (assoc_L (++)) in H.
Qed.

(** At power-up: nothing was received, nothing is encrypted and no bond is authenticated. *)
Definition power_up w : Prop :=
  bt_auth w = Some auth_cb_display /\ smp w = smp_zero false /\ sc_public_key w = None /\ pub_key (ecc w) = None /\
  ~ authed (pool (ks w)) /\ sec_level (conn w) = BT_SECURITY_L1.

Lemma power_up_inv w : power_up w -> inv [] false w.
Proof.
  intros (Ha & Hs & Hpk & Hk & Hpool & Hl). split; [split; try done; by rewrite Hl|left]. split; unfold has, can; rewrite Hs.
  - by repeat constructor.
  - intros c Hc H. change (Z.testbit 0 c = true) in H. by rewrite Z.bits_0 in H.
  - done.
  - done.
Qed.

(** C5. With the callbacks the application registers, whatever the peer sends and in
    whatever order things happen: if the link has reached an authenticated level (3 or
    4), or a key in the pool is marked as authenticated, then the log contains a whole
    passkey pairing: the passkey was displayed, the peer committed itself to it bit by
    bit (Secure Connections: 20 rounds and a DHKey check under the shared key the
    controller computed) or as a whole (legacy), each time before this side opened its
    own number.  What is assumed of the controller is that it starts encryption only
    with a key it got and passes nothing on meanwhile; and, of the course of events, that it is not given the key
    of an earlier bond before a running pairing has encrypted the link ([no_old_key]):
    the Security Manager does not see to that, and without it the statement is wrong. *)
Theorem authenticated_only_with_passkey w es :
  power_up w -> along controller_law false es w = true -> along no_old_key false es w = true ->
  BT_SECURITY_L3 <= sec_level (conn (handle_all es w)) \/ authed (pool (ks (handle_all es w))) ->
  passkey_proven es (log (handle_all es w)).
Proof.
  intros Hw H1 H2 H. destruct (handle_all_inv [] false es w (power_up_inv w Hw) H1 H2) as (s & [_ _ C3 C4] & _).
  destruct H; auto.
Qed.

Lemma reset_ks w : ks (smp_reset w) = ks w.
Proof. unfold smp_reset. by destruct (negb _). Qed.
Lemma reset_log w : log (smp_reset w) = log w.
Proof. unfold smp_reset. by destruct (negb _). Qed.

(** C28. [smp_pairing_failed] hands the reason the peer gives to [smp_pairing_complete],
    for which 0 is success: a peer that sends Pairing Failed with the reason 0, which is
    reserved, anywhere in a pairing with bonding makes the device store the entry of the
    peer on the flash as it is, and report a bond to the application. *)
Theorem failed_for_no_reason_is_success w (i : nat)
    (Hcan : can BT_SMP_CMD_PAIRING_FAIL w = true) (Htimeout : has SMP_FLAG_TIMEOUT w = false)
    (Hbond : has SMP_FLAG_BOND w = true) (Hkeys : le_keys (conn w) = Some i) :
  let w' := handle (Received [BT_SMP_CMD_PAIRING_FAIL; 0]) w in
  ks w' = (bt_keys_store i (ks w)).2 /\ (auth_has pairing_complete w = true -> Up (Pairing_complete true) ∈ log w').
Proof.
  cbn [handle]. unfold bt_smp_recv. set (w1 := logs _ w). change (has SMP_FLAG_TIMEOUT w1) with (has SMP_FLAG_TIMEOUT w). rewrite Htimeout.
  change (handlers !! Z.to_nat BT_SMP_CMD_PAIRING_FAIL) with (Some (Some (@smp_pairing_failed F R _, 1))).
  change (Z.testbit (allowed_cmds (smp w1)) BT_SMP_CMD_PAIRING_FAIL) with (can BT_SMP_CMD_PAIRING_FAIL w). rewrite Hcan. cbn [negb Z.eqb Z.of_nat length].
  unfold smp_pairing_failed. set (w2 := upd_smp _ w1). set (w3 := if has SMP_FLAG_USER w2 then _ else _).
  assert (E3 : ks w3 = ks w /\ conn w3 = conn w /\ bt_auth w3 = bt_auth w /\ has SMP_FLAG_BOND w3 = true).
  { unfold w3. destruct (has SMP_FLAG_USER w2); rewrite !has_clear by done; change (has SMP_FLAG_BOND w2) with (has SMP_FLAG_BOND w);
      by rewrite Hbond. }
  set (w4 := if (_ || _) && _ then _ else w3). assert (E4 : ks w4 = ks w /\ conn w4 = conn w /\ bt_auth w4 = bt_auth w /\ has SMP_FLAG_BOND w4 = true).
  { unfold w4. by destruct (_ && _). }
  clearbody w4. clear E3 w3. destruct E4 as (K & L & A & H). cbn [nz negb Z.eqb byte_at lookup list_lookup default].
  change (negb (Z.of_nat 1 =? 1)) with false. unfold smp_pairing_complete. rewrite reset_ks, reset_log. cbn [Z.eqb id]. rewrite H, L, Hkeys, K. unfold auth_has. cbn [bt_auth set_ks]. rewrite A.
  destruct (bt_auth w) as [a|]; [|by split]. destruct (pairing_complete a); [|by split]. split; [done|]. intros _.
  apply elem_of_app. right. apply list_elem_of_here.
Qed.
End events.
