(* ===== verification/SmpHonest.v ===== *)
(** A pairing that goes well: a central that follows the protocol of Secure Connections
    with the passkey the device displays, and checks all it is told, gets to the highest
    level of security with the Security Manager of [Smp], and both sides have the same
    key. *)
From Stdlib Require Import ZArith Lia Bool.
From stdpp Require Import base numbers list gmap strings.
From S2P Require Import Prelude ByteOrder Uuid Gatt SettingsKeys Settings Keys Crypto Smp SmpInv.
Open Scope Z_scope.

(** ** The central *)

(** Its pairing request behind the code, public key and numbers; the shared key of both
    public keys; its identity. *)
Record central := mk_central {
  c_request : list Z; c_pkey : list Z; c_number : nat -> list Z; c_shared : list Z; c_irk : list Z; c_identity : bt_addr_le_t }.

(** What it got last with this code, and what its user read last. *)
Definition payload (code : Z) (x : item) : option (list Z) :=
  match x with Tx (c :: p) => if c =? code then Some p else None | _ => None end.
Definition last_tx (code : Z) (l : list item) : option (list Z) := last (omap (payload code) l).
Definition shown (l : list item) : option Z := last (omap (fun x => match x with Up (Passkey_display pk) => Some pk | _ => None end) l).

Section central.
Context {F R : Type} `{!Nvs F, !TinyPrng R} {cr : Crypto}.
Implicit Types (w : smp_world F R) (c : central).

(** [n] rounds from round [i] on: it sends its confirm value, gets the device's, opens its
    number, gets the device's, and checks that with the confirm value. *)
Fixpoint central_rounds c (lpk : list Z) (pk : Z) (i n : nat) w : option (smp_world F R) :=
  match n with
  | O => Some w
  | S n =>
      let r := passkey_bit pk (Z.of_nat i) in
      cfm ← smp_f4 (c_pkey c) lpk (c_number c i) r;
      let w := handle (Received (BT_SMP_CMD_PAIRING_CONFIRM :: cfm)) w in
      theirs ← last_tx BT_SMP_CMD_PAIRING_CONFIRM (log w);
      let w := handle (Received (BT_SMP_CMD_PAIRING_RANDOM :: c_number c i)) w in
      nb ← last_tx BT_SMP_CMD_PAIRING_RANDOM (log w);
      if bool_decide (smp_f4 lpk (c_pkey c) nb r = Some theirs) then central_rounds c lpk pk (S i) n w else None
  end.

(** The exchange of requests and public keys on a new connection: the response, the key
    of the device and the passkey. *)
Definition central_begin c (id : Z) (dst ia ra : bt_addr_le_t) w : option (list Z * list Z * Z * smp_world F R) :=
  let w := handle_all [Connected id dst ia ra; Received (BT_SMP_CMD_PAIRING_REQ :: c_request c)] w in
  rsp ← last_tx BT_SMP_CMD_PAIRING_RSP (log w);
  let w := handle (Received (BT_SMP_CMD_PUBLIC_KEY :: c_pkey c)) w in
  lpk ← last_tx BT_SMP_CMD_PUBLIC_KEY (log w);
  pk ← shown (log w);
  Some (rsp, lpk, pk, handle (Dhkey_complete 0 (c_shared c)) w).

(** The checks of the shared key, and encryption, which needs the same key on both sides. *)
Definition central_finish c (ia ra : bt_addr_le_t) (rsp : list Z) (pk : Z) w : option (list Z * smp_world F R) :=
  nb ← last_tx BT_SMP_CMD_PAIRING_RANDOM (log w);
  let na := c_number c 19 in
  let r := le_bytes 4 pk ++ zeros 12 in
  let '(mk, ltk) := smp_f5 (c_shared c) na nb ia ra in
  mk ← mk; ltk ← ltk;
  e ← smp_f6 mk na nb r (c_request c) ia ra;
  let w := handle (Received (BT_SMP_DHKEY_CHECK :: e)) w in
  theirs ← last_tx BT_SMP_DHKEY_CHECK (log w);
  if negb (bool_decide (smp_f6 mk nb na r rsp ra ia = Some theirs)) then None
  else
    let w := handle (Ltk_request 0 0) w in
    match last (cmds (hci (ks w))) with
    | Some (LE_LTK_REQ_REPLY key) => if bool_decide (key = ltk) then Some (ltk, handle (Encrypt_change 0 1) w) else None
    | _ => None
    end.

(** Its identity, if the response says so. *)
Definition central_identity c (rsp : list Z) w : smp_world F R :=
  if nz (byte_at 4 rsp .& BT_SMP_DIST_ID_KEY)
  then handle_all [Received (BT_SMP_CMD_IDENT_INFO :: c_irk c);
                   Received (BT_SMP_CMD_IDENT_ADDR_INFO :: addr_type (c_identity c) :: addr_val (c_identity c))] w
  else w.

(** The whole pairing: the key and the state of the device. *)
Definition central_pairing c (id : Z) (dst ia ra : bt_addr_le_t) w : option (list Z * smp_world F R) :=
  '(rsp, lpk, pk, w) ← central_begin c id dst ia ra w;
  w ← central_rounds c lpk pk 0 20 w;
  '(ltk, w) ← central_finish c ia ra rsp pk w;
  Some (ltk, central_identity c rsp w).
End central.

(** ** What is relied on *)

Section facts.
Context {F R : Type} `{!Nvs F, !TinyPrng R} {cr : Crypto}.
Implicit Types (w : smp_world F R) (c : central) (l : list item).

(** AES-CMAC and the random generator do not fail. *)
Definition crypto_works : Prop := forall key m, exists t, bt_smp_aes_cmac key m = Some t /\ length t = 16%nat.
Definition random_works : Prop := forall len (st : rand_state R), exists buf st', bt_rand len st = (0, buf, st').

Lemma last_tx_snoc code l x : last_tx code (l ++ [x]) = match payload code x with Some p => Some p | None => last_tx code l end.
Proof. unfold last_tx. rewrite omap_app. cbn. destruct (payload code x); [by rewrite last_snoc|by rewrite app_nil_r]. Qed.

Context (crypto : crypto_works) (random : random_works).

Lemma f4_works u v x z : exists t, smp_f4 u v x z = Some t /\ length t = 16%nat.
Proof. unfold smp_f4. destruct (crypto (rev (take 16 x)) (rev (take 32 u) ++ rev (take 32 v) ++ [z])) as (t & -> & Ht). exists (rev t). by rewrite length_rev. Qed.
Lemma f6_works k n1 n2 r io a1 a2 : exists t, smp_f6 k n1 n2 r io a1 a2 = Some t /\ length t = 16%nat.
Proof. unfold smp_f6. destruct (crypto (rev k) (rev n1 ++ rev n2 ++ rev r ++ rev (take 3 io) ++ [addr_type a1] ++ rev (addr_val a1) ++ [addr_type a2] ++ rev (addr_val a2))) as (t & -> & Ht). exists (rev t). by rewrite length_rev. Qed.
Lemma f5_works k n1 n2 a1 a2 : exists mk ltk, smp_f5 k n1 n2 a1 a2 = (Some mk, Some ltk) /\ length ltk = 16%nat.
Proof.
  unfold smp_f5. destruct (crypto f5_salt (rev k)) as (t & -> & _). cbv zeta.
  match goal with |- context [bt_smp_aes_cmac t ?m] => destruct (crypto t m) as (mk & -> & _) end.
  match goal with |- context [bt_smp_aes_cmac t ?m] => destruct (crypto t m) as (ltk & -> & Hl) end.
  exists (rev mk), (rev ltk). by rewrite length_rev.
Qed.

(** The state of the device in a pairing, as far as it matters. *)
Definition pairing_world (allowed fl : Z) (req rsp pcnf prnd rrnd tk rpk dh e mk : list Z) (pk round rd : Z)
    (cn : le_conn) (k : key_state F) (r : rand_state R) (lpk : list Z) (ec : bt_ecc) (cbs : nat) l : smp_world F R :=
  mk_world (mk_smp allowed fl PASSKEY_DISPLAY req rsp pcnf prnd rrnd tk rpk dh e mk pk round None None 0 rd true)
    cn k r (Some auth_cb_display) true false true (Some lpk) ec [] cbs l.

Lemma received code func len buf w w' :
  handlers !! Z.to_nat code = Some (Some (func, len)) -> has SMP_FLAG_TIMEOUT w = false -> can code w = true -> Z.of_nat (length buf) = len ->
  func buf (upd_smp (fun s => set_allowed_cmds (Z.clearbit (allowed_cmds s) code) s) (logs (Rx (code :: buf)) w)) = (0, w') ->
  handle (Received (code :: buf)) w = w'.
Proof.
  intros Hf Ht Ha <- E. cbn [handle]. unfold bt_smp_recv. set (w1 := logs _ w) in *.
  change (has SMP_FLAG_TIMEOUT w1) with (has SMP_FLAG_TIMEOUT w). rewrite Ht, Hf.
  change (Z.testbit (allowed_cmds (smp w1)) code) with (can code w). rewrite Ha, Z.eqb_refl. cbn [negb]. by rewrite E.
Qed.

Lemma confirm_step (d : bool) req rsp pcnf prnd rrnd tk rpk dh e mk pk round rd cn k r lpk ec cbs l cfm :
  length cfm = 16%nat ->
  let fl := if d then 0x1428 else 0x1028 in
  exists ours, smp_f4 lpk rpk prnd (passkey_bit pk round) = Some ours /\
  handle (Received (BT_SMP_CMD_PAIRING_CONFIRM :: cfm)) (pairing_world 0x28 fl req rsp pcnf prnd rrnd tk rpk dh e mk pk round rd cn k r lpk ec cbs l) =
  pairing_world 0x30 0x1028 req rsp cfm prnd rrnd tk rpk dh e mk pk round rd cn k r lpk ec cbs
    ((l ++ [Rx (BT_SMP_CMD_PAIRING_CONFIRM :: cfm)]) ++ [Tx (BT_SMP_CMD_PAIRING_CONFIRM :: ours)]).
Proof.
  intros Hl fl. destruct (f4_works lpk rpk prnd (passkey_bit pk round)) as (ours & E & _). exists ours. split; [done|].
  assert (Hs : slice 0 16 cfm = cfm) by (unfold slice; apply take_ge; cbn; lia).
  eapply received; [reflexivity|by destruct d|by destruct d|by rewrite Hl|].
  unfold smp_pairing_confirm. rewrite Hs. subst fl. destruct d; lazy -[smp_f4 crypto_cmac cmac_state passkey_bit app]; rewrite E; reflexivity.
Qed.

Lemma slice_all n (buf : list Z) : length buf = n -> slice 0 n buf = buf.
Proof. intros <-. unfold slice. by rewrite drop_0, firstn_all. Qed.

(** A round but the last, and the last. *)
Lemma random_step (i : nat) req rsp cfm prnd rrnd tk rpk dh e mk pk rd cn k r lpk ec cbs l na :
  (i < 20)%nat -> length na = 16%nat -> smp_f4 rpk lpk na (passkey_bit pk (Z.of_nat i)) = Some cfm ->
  let l' := (l ++ [Rx (BT_SMP_CMD_PAIRING_RANDOM :: na)]) ++ [Tx (BT_SMP_CMD_PAIRING_RANDOM :: prnd)] in
  exists prnd' r',
  handle (Received (BT_SMP_CMD_PAIRING_RANDOM :: na))
    (pairing_world 0x30 0x1028 req rsp cfm prnd rrnd tk rpk dh e mk pk (Z.of_nat i) rd cn k r lpk ec cbs l) =
  if decide (i = 19)%nat then pairing_world 0x2028 0x9028 req rsp cfm prnd na tk rpk dh e mk pk 20 rd cn k r lpk ec cbs l'
  else pairing_world 0x28 0x1028 req rsp cfm prnd' na tk rpk dh e mk pk (Z.of_nat (S i)) rd cn k r' lpk ec cbs l'.
Proof.
  intros Hi Hl E l'. destruct (random 16 r) as (buf & r' & Er). exists buf, r'.
  eapply received; [reflexivity|reflexivity|reflexivity|by rewrite Hl|].
  unfold smp_pairing_random. rewrite (slice_all 16) by done. subst l'.
  do 20 (destruct i as [|i];
    [lazy beta iota delta [Z.of_nat Pos.of_succ_nat Pos.succ] in E; lazy -[smp_f4 crypto_cmac cmac_state passkey_bit bt_rand app bool_decide]; rewrite E;
     lazy -[bt_rand app bool_decide decide]; rewrite ?bool_decide_true, ?Er by done; reflexivity|]).
  lia.
Qed.

Section rounds.
Context (c : central) (numbers : forall j, length (c_number c j) = 16%nat).
Context (req rsp tk dh e mk lpk : list Z) (pk rd : Z) (cn : le_conn) (k : key_state F) (ec : bt_ecc) (cbs : nat).

Lemma one_round (i n : nat) (d : bool) pcnf prnd rrnd r l : (i < 20)%nat ->
  let fl := if d then 0x1428 else 0x1028 in
  exists pcnf' prnd' r' l',
  central_rounds c lpk pk i (S n) (pairing_world 0x28 fl req rsp pcnf prnd rrnd tk (c_pkey c) dh e mk pk (Z.of_nat i) rd cn k r lpk ec cbs l) =
  central_rounds c lpk pk (S i) n
    (if decide (i = 19)%nat then pairing_world 0x2028 0x9028 req rsp pcnf' prnd (c_number c i) tk (c_pkey c) dh e mk pk 20 rd cn k r lpk ec cbs l'
     else pairing_world 0x28 0x1028 req rsp pcnf' prnd' (c_number c i) tk (c_pkey c) dh e mk pk (Z.of_nat (S i)) rd cn k r' lpk ec cbs l') /\
  last_tx BT_SMP_CMD_PAIRING_RANDOM l' = Some prnd.
Proof.
  intros Hi fl. subst fl. destruct (f4_works (c_pkey c) lpk (c_number c i) (passkey_bit pk (Z.of_nat i))) as (cfm & Ec & Hc).
  destruct (confirm_step d req rsp pcnf prnd rrnd tk (c_pkey c) dh e mk pk (Z.of_nat i) rd cn k r lpk ec cbs l cfm Hc) as (ours & Eo & E1).
  set (l1 := (l ++ _) ++ _) in E1.
  destruct (random_step i req rsp cfm prnd rrnd tk (c_pkey c) dh e mk pk rd cn k r lpk ec cbs l1 (c_number c i)) as (prnd' & r' & E2); [lia|done|done|].
  set (l2 := (l1 ++ _) ++ _) in E2. assert (F1 : last_tx BT_SMP_CMD_PAIRING_CONFIRM l1 = Some ours) by (unfold l1; rewrite last_tx_snoc; reflexivity).
  assert (F2 : last_tx BT_SMP_CMD_PAIRING_RANDOM l2 = Some prnd) by (unfold l2; rewrite last_tx_snoc; reflexivity).
  exists cfm, prnd', r', l2. split; [|done]. cbn [central_rounds]. rewrite Ec. cbn [mbind option_bind]. rewrite E1.
  change (log (pairing_world 0x30 _ _ _ _ _ _ _ _ _ _ _ _ _ _ _ _ _ _ _ _ l1)) with l1. rewrite F1. cbn [mbind option_bind]. rewrite E2.
  destruct (decide (i = 19)%nat).
  - change (log (pairing_world 0x2028 _ _ _ _ _ _ _ _ _ _ _ _ _ _ _ _ _ _ _ _ l2)) with l2. rewrite F2. cbn [mbind option_bind]. by rewrite bool_decide_true.
  - change (log (pairing_world 0x28 _ _ _ _ _ _ _ _ _ _ _ _ _ _ _ _ _ _ _ _ l2)) with l2. rewrite F2. cbn [mbind option_bind]. by rewrite bool_decide_true.
Qed.

Lemma rounds_ok n : forall (i : nat) (d : bool) pcnf prnd rrnd r l, (i + S n = 20)%nat ->
  let fl := if d then 0x1428 else 0x1028 in
  exists pcnf' prnd' r' l',
  central_rounds c lpk pk i (S n) (pairing_world 0x28 fl req rsp pcnf prnd rrnd tk (c_pkey c) dh e mk pk (Z.of_nat i) rd cn k r lpk ec cbs l) =
    Some (pairing_world 0x2028 0x9028 req rsp pcnf' prnd' (c_number c 19) tk (c_pkey c) dh e mk pk 20 rd cn k r' lpk ec cbs l') /\
  last_tx BT_SMP_CMD_PAIRING_RANDOM l' = Some prnd'.
Proof.
  induction n as [|n IH]; intros i d pcnf prnd rrnd r l Hi fl.
  - destruct (one_round i 0 d pcnf prnd rrnd r l) as (pcnf' & prnd' & r' & l' & E & El); [lia|].
    assert (i = 19%nat) as -> by lia. rewrite decide_True in E by done. by exists pcnf', prnd, r, l'.
  - destruct (one_round i (S n) d pcnf prnd rrnd r l) as (pcnf' & prnd' & r' & l' & E & _); [lia|].
    rewrite decide_False in E by lia. unfold fl. rewrite E. apply (IH (S i) false). lia.
Qed.
End rounds.

(** ** The beginning *)

(** The requirements the device answers with. *)
Definition rsp_auth (auth : Z) : Z := ((auth .& BT_SMP_AUTH_MASK_SC) .| BT_SMP_AUTH_MITM) .| BT_SMP_AUTH_BONDING.

Lemma auth_bits auth : 0 <= auth < 256 -> nz (auth .& BT_SMP_AUTH_BONDING) = true -> nz (auth .& BT_SMP_AUTH_SC) = true ->
  nz (rsp_auth auth .& BT_SMP_AUTH_SC) = true /\ nz (rsp_auth auth .& BT_SMP_AUTH_CT2) = false /\ nz (rsp_auth auth .& BT_SMP_AUTH_BONDING) = true /\
  nz ((auth .| rsp_auth auth) .& BT_SMP_AUTH_MITM) = true.
Proof.
  unfold rsp_auth. intros Ha.
  change BT_SMP_AUTH_BONDING with (BIT 0). change BT_SMP_AUTH_SC with (BIT 3). change BT_SMP_AUTH_CT2 with (BIT 5). change BT_SMP_AUTH_MITM with (BIT 2).
  rewrite !nz_land_bit, !Z.lor_spec, !Z.land_spec by lia. intros -> ->.
  change (Z.testbit BT_SMP_AUTH_MASK_SC 5) with false. by rewrite andb_false_r, !orb_true_r.
Qed.

(** No other entry is for this peer. *)
Definition only id dst j (p : list bt_keys) : Prop := forall a ka, p !! a = Some ka -> key_is id dst ka = true -> a = j.

(** Entries that are free were cleared. *)
Definition clean (p : list bt_keys) : Prop := forall k, k ∈ p -> is_free k = true -> keys_flags k = 0.

(** What the device is to have when the central connects. *)
Record ready (id : Z) (dst : bt_addr_le_t) (lpk : list Z) (w : smp_world F R) : Prop := {
  ready_auth : bt_auth w = Some auth_cb_display;
  ready_bondable : bondable w = true;
  ready_oob : oobd_present w = false;
  ready_sc : sc_supported w = true;
  ready_ecc : pub_key_busy (ecc w) = false /\ pub_key (ecc w) = Some lpk /\ dh_key_cb (ecc w) = false;
  ready_lpk : length lpk = 64%nat;
  ready_allocs : smp_allocs w = [];
  ready_cmds : cmd_results (hci (ks w)) = [];
  ready_entry : is_Some (bt_keys_get_addr id dst (ks w)).1;
  ready_only : exists j, only id dst j (pool (ks w));
  ready_clean : clean (pool (ks w));
  ready_sizes : Forall (fun k => enc_size k <= BT_SMP_MAX_ENC_KEY_SIZE) (pool (ks w)) }.

(** A central that can be typed on and wants a bond. *)
Record typing c (io auth init resp : Z) : Prop := {
  typing_request : c_request c = [io; BT_SMP_OOB_NOT_PRESENT; auth; BT_SMP_MAX_ENC_KEY_SIZE; init; resp];
  typing_io : io = BT_SMP_IO_KEYBOARD_ONLY \/ io = BT_SMP_IO_KEYBOARD_DISPLAY;
  typing_auth : 0 <= auth < 256 /\ nz (auth .& BT_SMP_AUTH_BONDING) = true /\ nz (auth .& BT_SMP_AUTH_SC) = true;
  typing_pkey : length (c_pkey c) = 64%nat /\ c_pkey c <> sc_debug_public_key;
  typing_numbers : forall j, length (c_number c j) = 16%nat;
  typing_irk : length (c_irk c) = 16%nat;
  typing_identity : bt_addr_le_is_identity (c_identity c) = true /\ length (addr_val (c_identity c)) = 6%nat }.

Definition device_rsp (auth init : Z) : list Z :=
  [BT_SMP_CMD_PAIRING_RSP; BT_SMP_IO_DISPLAY_ONLY; BT_SMP_OOB_NOT_PRESENT; rsp_auth auth; BT_SMP_MAX_ENC_KEY_SIZE; (init .& RECV_KEYS) .& RECV_KEYS_SC; 0].

Lemma begin_ok io auth init resp a m pcnf prnd rrnd tk pkey dh e mk pk round ld rd work cn (k : key_state F) (r : rand_state R) lpk ec cbs l :
  io = BT_SMP_IO_KEYBOARD_ONLY \/ io = BT_SMP_IO_KEYBOARD_DISPLAY -> 0 <= auth < 256 ->
  nz (auth .& BT_SMP_AUTH_BONDING) = true -> nz (auth .& BT_SMP_AUTH_SC) = true ->
  let req := [BT_SMP_CMD_PAIRING_REQ; io; BT_SMP_OOB_NOT_PRESENT; auth; BT_SMP_MAX_ENC_KEY_SIZE; init; resp] in
  pairing_begin req
    (mk_world (mk_smp a 0 m (zeros 7) (zeros 7) pcnf prnd rrnd tk pkey dh e mk pk round None None ld rd work) cn k r (Some auth_cb_display) true false true (Some lpk) ec [] cbs l) =
  mk_world (mk_smp a 0x1028 PASSKEY_DISPLAY req (device_rsp auth init) pcnf prnd rrnd tk pkey dh e mk pk round None None 0 ((init .& RECV_KEYS) .& RECV_KEYS_SC) work)
    cn k r (Some auth_cb_display) true false true (Some lpk) ec [] cbs l.
Proof.
  intros Hio Ha Hb Hs req. destruct (auth_bits auth Ha Hb Hs) as (B1 & B2 & B3 & B4). set (w := mk_world _ _ _ _ _ _ _ _ _ _ _ _ _).
  assert (Er : pairing_rsp req w = device_rsp auth init).
  { unfold pairing_rsp. change (get_auth (auth_req req) w) with (rsp_auth auth). change (auth_req req) with auth. rewrite B1, Hs.
    cbn [andb]. unfold device_rsp. change SEND_KEYS_SC with 0. by rewrite Z.land_0_r. }
  assert (Hboth : forall bit w', prsp (smp w') = device_rsp auth init -> preq (smp w') = req ->
    both_auth bit w' = nz (rsp_auth auth .& bit) && nz (auth .& bit)) by (intros bit w' E1 E2; unfold both_auth; by rewrite E1, E2).
  unfold pairing_begin. rewrite Er. set (w1 := upd_smp _ w). rewrite (Hboth _ w1), B1, Hs by done. cbn [andb].
  set (w2 := set_flag SMP_FLAG_SC w1). rewrite (Hboth _ w2), B2 by done. cbn [andb]. set (w3 := upd_smp _ w2). rewrite (Hboth _ w3), B3, Hb by done. cbn [andb].
  set (w4 := set_flag SMP_FLAG_PAIRING _). assert (get_pair_method (io_capability req) w4 = PASSKEY_DISPLAY) as ->.
  { unfold get_pair_method. change (has SMP_FLAG_SC w4) with true. change (auth_req (preq (smp w4))) with auth. change (auth_req (prsp (smp w4))) with (rsp_auth auth).
    change (nz _ && nz ((oob_flag _ .| oob_flag _) .& _)) with (nz ((auth .& rsp_auth auth) .& BT_SMP_AUTH_SC) && false). rewrite andb_false_r, B4. cbn [negb].
    by destruct Hio as [-> | ->]. }
  reflexivity.
Qed.

Lemma get_addr_entry id dst (s s' : key_state F) i : bt_keys_get_addr id dst s = (Some i, s') ->
  hci s' = hci s /\ settings s' = settings s /\
  exists k k', pool s !! i = Some k /\ pool s' = <[i := k']> (pool s) /\ key_is id dst k' = true /\ with_addr 0 BT_ADDR_LE_ANY k' = with_addr 0 BT_ADDR_LE_ANY k.
Proof.
  unfold bt_keys_get_addr. destruct (find_index (key_is id dst) (pool s)) as [j|] eqn:E1.
  - intros [= -> <-]. apply find_index_Some in E1 as (k & Hk & Hm & _). split; [done|]. split; [done|]. exists k, k. by rewrite list_insert_id.
  - destruct (find_index is_free (pool s)) as [j|] eqn:E2; [|done]. intros [= -> <-]. apply find_index_Some in E2 as (k & Hk & _).
    split; [done|]. split; [done|]. exists k, (with_addr id dst k). split; [done|]. split; [|split; [|done]].
    + cbn. apply list_eq. intros j. destruct (decide (i = j)) as [<-|Hne]; [|by rewrite list_lookup_alter_ne, list_lookup_insert_ne].
      rewrite list_lookup_alter_eq, list_lookup_insert_eq, Hk by (by eapply lookup_lt_Some). done.
    + unfold key_is. cbn. rewrite Z.eqb_refl. by rewrite bool_decide_true.
Qed.

Lemma keys_check_ok cn a fl req rsp pcnf prnd rrnd tk pkey dh e mk pk round rd work (k : key_state F) r lpk ec cbs l i entry :
  let w := mk_world (mk_smp a fl PASSKEY_DISPLAY req rsp pcnf prnd rrnd tk pkey dh e mk pk round None None 0 rd work) (set_le_keys (Some i) cn) k r
    (Some auth_cb_display) true false true (Some lpk) ec [] cbs l : smp_world F R in
  has SMP_FLAG_SC w = true -> pool k !! i = Some entry -> enc_size entry <= get_encryption_key_size w ->
  update_keys_check w = (true, w).
Proof.
  intros w Hs Hk He. unfold update_keys_check, conn_get_keys, keys_of. cbn [le_keys conn set_le_keys w mbind option_bind]. subst w. cbn [ks]. rewrite Hk.
  f_equal. destruct (negb _); [done|]. rewrite (proj2 (Z.ltb_ge _ _) He), Hs. cbn [negb method smp]. by rewrite !andb_false_r.
Qed.

Lemma request_step c io auth init resp id dst ia ra lpk w : typing c io auth init resp -> ready id dst lpk w ->
  exists i k1 prnd r1, bt_keys_get_addr id dst (ks w) = (Some i, k1) /\
  handle_all [Connected id dst ia ra; Received (BT_SMP_CMD_PAIRING_REQ :: c_request c)] w =
  pairing_world 0x1020 0x1028 (BT_SMP_CMD_PAIRING_REQ :: c_request c) (device_rsp auth init) (zeros 16) prnd (zeros 16) (zeros 16) (zeros 64) (zeros 32) (zeros 16) (zeros 16)
    0 0 ((init .& RECV_KEYS) .& RECV_KEYS_SC) (set_le_keys (Some i) (new_conn id dst ia ra)) k1 r1 lpk (ecc w) (ident_cbs w)
    ((log w ++ [Rx (BT_SMP_CMD_PAIRING_REQ :: c_request c)]) ++ [Tx (device_rsp auth init)]).
Proof.
  intros [-> Hio (Ha & Hb & Hs) _ _ _ _] [R1 R2 R3 R4 (E1 & E2 & E3) _ R6 _ [i R8] _ _ R9].
  destruct (bt_keys_get_addr id dst (ks w)) as [o k1] eqn:Eg. cbn in R8. subst o.
  destruct (get_addr_entry _ _ _ _ _ Eg) as (_ & _ & ko & kn & Hk & Hp & _ & He).
  destruct (random 16 (rng w)) as (prnd & r1 & Er). exists i, k1, prnd, r1. split; [done|].
  destruct w as [s cn k r au b o sc spk ec al cbs l]. cbn in R1, R2, R3, R4, E1, E2, E3, R6, Eg, Hk, Hp, Er, R9. subst au b o sc al. cbn [ecc ident_cbs log].
  set (req := BT_SMP_CMD_PAIRING_REQ :: _). rewrite <- (app_nil_r [_]) at 1. change (handle_all _ ?w) with (handle (Received req) (handle (Connected id dst ia ra) w)).
  eapply received; [reflexivity|reflexivity|reflexivity|reflexivity|]. set (w0 := upd_smp _ _). unfold smp_pairing_req.
  change (BT_SMP_CMD_PAIRING_REQ :: slice 0 6 _) with req. change (_ || _) with false. cbv iota zeta.
  assert (conn_get_keys w0 = upd_conn (set_le_keys (Some i)) (set_ks k1 w0)) as ->.
  { unfold conn_get_keys. change (le_keys (conn w0)) with (@None nat). cbv iota.
    change (bt_keys_get_addr (le_id (conn w0)) (le_dst (conn w0)) (ks w0)) with (bt_keys_get_addr id dst k). by rewrite Eg. }
  set (w1 := upd_conn _ _). change (le_keys (conn w1)) with (Some i). change (has SMP_FLAG_SEC_REQ w1) with false. cbv iota. cbn [negb].
  set (w2 := mk_world (mk_smp 0x20 0 JUST_WORKS (zeros 7) (zeros 7) (zeros 16) prnd (zeros 16) (zeros 16) (zeros 64) (zeros 32) (zeros 16) (zeros 16) 0 0 None None 0 0 false)
    (set_le_keys (Some i) (new_conn id dst ia ra)) k1 r1 (Some auth_cb_display) true false true (Some lpk) ec [] cbs (log w0)).
  assert (smp_init w1 = (0, w2)) as ->.
  { unfold smp_init, rand_bytes. change (rng _) with r. rewrite Er. cbn [nz negb Z.eqb]. unfold bt_pub_key_get. change (ecc _) with ec. by rewrite E2. }
  cbn [nz negb Z.eqb]. unfold w2, req. rewrite begin_ok by done. rewrite (keys_check_ok _ _ _ _ _ _ _ _ _ _ _ _ _ _ _ _ _ _ _ _ _ _ _ i kn); [|done| |].
  - reflexivity.
  - rewrite Hp, list_lookup_insert_eq by (by eapply lookup_lt_Some). done.
  - change (get_encryption_key_size _) with BT_SMP_MAX_ENC_KEY_SIZE. rewrite (f_equal enc_size He : enc_size kn = enc_size ko). by apply (Forall_lookup_1 _ _ _ _ R9 Hk).
Qed.

(** A command that was sent. *)
Definition sent (cmd : hci_cmd) (k : key_state F) : key_state F := set_hci (bt_hci_cmd_send cmd (hci k)) k.

Lemma public_key_step c io auth init resp req rsp pcnf prnd rrnd tk pkey0 dh e mk pk0 round rd cn k r lpk kcb cbs l :
  typing c io auth init resp -> length lpk = 64%nat -> cmd_results (hci k) = [] ->
  exists pk r',
  handle (Received (BT_SMP_CMD_PUBLIC_KEY :: c_pkey c))
    (pairing_world 0x1020 0x1028 req rsp pcnf prnd rrnd tk pkey0 dh e mk pk0 round rd cn k r lpk (mk_ecc false (Some lpk) kcb false) cbs l) =
  pairing_world 0x28 0x14a8 req rsp pcnf prnd rrnd tk (c_pkey c) dh e mk pk 0 rd cn (sent (LE_GENERATE_DHKEY (c_pkey c)) k) r' lpk (mk_ecc false (Some lpk) kcb true) cbs
    (((l ++ [Rx (BT_SMP_CMD_PUBLIC_KEY :: c_pkey c)]) ++ [Tx (BT_SMP_CMD_PUBLIC_KEY :: lpk)]) ++ [Up (Passkey_display pk)]).
Proof.
  intros [_ _ _ [Hpk Hd] _ _ _] Hl Hc. destruct (random 4 r) as (buf & r' & Er). exists (le_value buf mod 1000000), r'.
  eapply received; [reflexivity|reflexivity|reflexivity|by rewrite Hpk|]. unfold smp_public_key. rewrite (slice_all 64) by done.
  destruct k as [p [rs re ip cg pm res cm] st]. cbn in Hc. subst res.
  set (w0 := upd_smp (set_pkey _) _). change (pkey (smp w0)) with (c_pkey c). rewrite bool_decide_false by done. cbv iota. cbn [negb].
  change (sc_public_key w0) with (Some lpk). cbv iota. unfold smp_public_key_slave.
  assert (sc_send_public_key w0 = (0, smp_send (BT_SMP_CMD_PUBLIC_KEY :: lpk) (set_smp_allocs [] w0))) as ->.
  { unfold sc_send_public_key. change (local_pkey w0) with lpk. by rewrite (take_ge lpk) by lia. }
  set (w1 := smp_send _ _). cbn [nz negb Z.eqb]. change (method (smp w1)) with PASSKEY_DISPLAY. cbv iota.
  set (pk := le_value buf mod 1000000). set (w2 := upd_smp (fun s => set_passkey_round 0 (set_passkey pk s)) (set_rng r' w1)).
  assert (display_passkey w1 = (0, logs (Up (Passkey_display pk)) (set_flag SMP_FLAG_DISPLAY w2))) as ->.
  { unfold display_passkey, rand_bytes. change (rng w1) with r. rewrite Er. cbn [nz negb Z.eqb]. reflexivity. }
  cbn [nz negb Z.eqb]. reflexivity.
Qed.

Lemma dhkey_step (c : central) req rsp pcnf prnd rrnd tk rpk dh e mk pk rd cn k r lpk kcb cbs l :
  handle (Dhkey_complete 0 (c_shared c))
    (pairing_world 0x28 0x14a8 req rsp pcnf prnd rrnd tk rpk dh e mk pk 0 rd cn k r lpk (mk_ecc false (Some lpk) kcb true) cbs l) =
  pairing_world 0x28 0x1428 req rsp pcnf prnd rrnd tk rpk (c_shared c) e mk pk 0 rd cn k r lpk (mk_ecc false (Some lpk) kcb false) cbs l.
Proof. reflexivity. Qed.

Lemma shown_snoc l pk : shown (l ++ [Up (Passkey_display pk)]) = Some pk.
Proof. unfold shown. rewrite omap_app. cbn. by rewrite last_snoc. Qed.

Lemma begin_works c io auth init resp id dst ia ra lpk w : typing c io auth init resp -> ready id dst lpk w ->
  exists i k1 prnd r1 pk l, bt_keys_get_addr id dst (ks w) = (Some i, k1) /\
  central_begin c id dst ia ra w = Some (drop 1 (device_rsp auth init), lpk, pk,
    pairing_world 0x28 0x1428 (BT_SMP_CMD_PAIRING_REQ :: c_request c) (device_rsp auth init) (zeros 16) prnd (zeros 16) (zeros 16) (c_pkey c) (c_shared c) (zeros 16) (zeros 16)
      pk 0 ((init .& RECV_KEYS) .& RECV_KEYS_SC) (set_le_keys (Some i) (new_conn id dst ia ra)) (sent (LE_GENERATE_DHKEY (c_pkey c)) k1) r1 lpk
      (mk_ecc false (Some lpk) (pub_key_cb (ecc w)) false) (ident_cbs w) l).
Proof.
  intros Ht Hr. destruct (request_step c io auth init resp id dst ia ra lpk w Ht Hr) as (i & k1 & prnd & r1 & Eg & E1).
  destruct (get_addr_entry _ _ _ _ _ Eg) as (Hh & _). destruct Hr as [_ _ _ _ (B1 & B2 & B3) Hl _ Hc _ _ _ _].
  unfold central_begin. rewrite E1. clear E1. set (l1 := (log w ++ _) ++ _). cbn [log pairing_world].
  assert (last_tx BT_SMP_CMD_PAIRING_RSP l1 = Some (drop 1 (device_rsp auth init))) as -> by (unfold l1; by rewrite last_tx_snoc). cbn [mbind option_bind].
  assert (ecc w = mk_ecc false (Some lpk) (pub_key_cb (ecc w)) false) as -> by (destruct (ecc w); cbn in *; congruence). cbn [pub_key_cb].
  rewrite <- Hh in Hc. destruct (public_key_step c io auth init resp (BT_SMP_CMD_PAIRING_REQ :: c_request c) (device_rsp auth init) (zeros 16) prnd (zeros 16) (zeros 16) (zeros 64) (zeros 32) (zeros 16) (zeros 16)
    0 0 ((init .& RECV_KEYS) .& RECV_KEYS_SC) (set_le_keys (Some i) (new_conn id dst ia ra)) k1 r1 lpk (pub_key_cb (ecc w)) (ident_cbs w) l1 Ht Hl Hc) as (pk & r2 & E2).
  rewrite E2. set (l2 := (_ ++ [Tx _]) ++ [Up _]). change (log (pairing_world 0x28 _ _ _ _ _ _ _ _ _ _ _ _ _ _ _ _ _ _ _ _ l2)) with l2.
  assert (last_tx BT_SMP_CMD_PUBLIC_KEY l2 = Some lpk) as -> by (unfold l2; by rewrite !last_tx_snoc). cbn [mbind option_bind].
  unfold l2. rewrite shown_snoc. cbn [mbind option_bind]. rewrite dhkey_step. by exists i, k1, prnd, r2, pk, l2.
Qed.

Lemma dhcheck_step (c : central) id dst ia ra (i : nat) rsp pcnf prnd rrnd tk rpk e0 mk0 pk rd k r lpk ec cbs l :
  let r0 := le_bytes 4 pk ++ zeros 12 in
  exists mk ltk e ours, smp_f5 (c_shared c) rrnd prnd ia ra = (Some mk, Some ltk) /\ length ltk = 16%nat /\
  smp_f6 mk rrnd prnd r0 (c_request c) ia ra = Some e /\ smp_f6 mk prnd rrnd r0 (drop 1 rsp) ra ia = Some ours /\
  handle (Received (BT_SMP_DHKEY_CHECK :: e))
    (pairing_world 0x2028 0x9028 (BT_SMP_CMD_PAIRING_REQ :: c_request c) rsp pcnf prnd rrnd tk rpk (c_shared c) e0 mk0 pk 20 rd (set_le_keys (Some i) (new_conn id dst ia ra)) k r lpk ec cbs l) =
  pairing_world 0x28 0x102a (BT_SMP_CMD_PAIRING_REQ :: c_request c) rsp pcnf prnd rrnd ltk rpk (c_shared c) e mk pk 20 rd (set_le_keys (Some i) (new_conn id dst ia ra)) k r lpk ec cbs
    ((l ++ [Rx (BT_SMP_DHKEY_CHECK :: e)]) ++ [Tx (BT_SMP_DHKEY_CHECK :: ours)]).
Proof.
  intros r0. destruct (f5_works (c_shared c) rrnd prnd ia ra) as (mk & ltk & E5 & Hl).
  destruct (f6_works mk rrnd prnd r0 (c_request c) ia ra) as (e & E6 & He), (f6_works mk prnd rrnd r0 (drop 1 rsp) ra ia) as (ours & E7 & _).
  exists mk, ltk, e, ours. do 4 (split; [done|]). eapply received; [reflexivity|reflexivity|reflexivity|by rewrite He|].
  unfold smp_dhkey_check. rewrite (slice_all 16) by done. set (w0 := upd_smp (set_smp_e e) _).
  change (has SMP_FLAG_DHKEY_PENDING w0) with false. change (has SMP_FLAG_USER w0) with false. cbv iota.
  unfold compute_and_check_and_send_slave_dhcheck. change (dhcheck_r (oobd_remote (smp w0)) w0) with (Some r0). cbv iota.
  change (smp_f5 _ _ _ _ _) with (smp_f5 (c_shared c) rrnd prnd ia ra). rewrite E5. set (w1 := upd_smp (set_tk ltk) (upd_smp (set_mackey mk) w0)).
  change (smp_f6 _ _ _ _ _ _ _) with (smp_f6 mk prnd rrnd r0 (drop 1 rsp) ra ia) at 1. rewrite E7. change (dhcheck_r (oobd_local (smp w1)) w1) with (Some r0). cbn [default].
  change (smp_f6 _ _ _ _ _ _ _) with (smp_f6 mk rrnd prnd r0 (c_request c) ia ra). rewrite E6. change (smp_e (smp w1)) with e. rewrite bool_decide_true by done. reflexivity.
Qed.

(** ** The end *)

Lemma ltk_step c io auth init resp pcnf prnd rrnd ltk rpk dh e mk pk round rd cn k r lpk ec cbs l :
  typing c io auth init resp -> length ltk = 16%nat ->
  let W := pairing_world 0x28 0x102a (BT_SMP_CMD_PAIRING_REQ :: c_request c) (device_rsp auth init) pcnf prnd rrnd ltk rpk dh e mk pk round rd cn in
  handle (Ltk_request 0 0) (W k r lpk ec cbs l) = W (sent (LE_LTK_REQ_REPLY ltk) k) r lpk ec cbs l.
Proof.
  intros [-> _ _ _ _ _ _] Hl. cbn [handle]. unfold le_ltk_request, bt_smp_request_ltk. set (w := pairing_world _ _ _ _ _ _ _ _ _ _ _ _ _ _ _ _ _ _ _ _ _ _).
  change (_ && has SMP_FLAG_ENC_PENDING w) with true. cbv iota. change (cut_key _ _) with (take 16 ltk ++ []). rewrite app_nil_r, (take_ge ltk) by lia. reflexivity.
Qed.

Lemma clear_entry i (s : key_state F) e : pool s !! i = Some e -> pool (bt_keys_clear i s) !! i = Some keys_zero.
Proof.
  intros Hi. unfold bt_keys_clear. rewrite Hi. set (s1 := if nz _ then _ else s).
  assert (Hs : ids_only s s1) by (unfold s1; destruct (nz _); [apply ids_bt_id_del|reflexivity]). destruct (settings_delete _ _). cbn.
  apply list_lookup_insert_eq. destruct (ids_lookup _ _ _ _ Hs Hi) as (x & Hx & _). by eapply lookup_lt_Some.
Qed.

Lemma clear_length i (s : key_state F) : length (pool (bt_keys_clear i s)) = length (pool s).
Proof.
  unfold bt_keys_clear. destruct (pool s !! i); [|done]. destruct (settings_delete _ _). cbn. rewrite length_insert.
  destruct (nz _); [|done]. symmetry. eapply Forall2_length. apply (ids_bt_id_del i s).
Qed.

Lemma clear_gives_room id dst i (k : key_state F) entry : pool k !! i = Some entry ->
  exists j k3, bt_keys_get_addr id dst (bt_keys_clear i k) = (Some j, k3) /\ length (pool k3) = length (pool k).
Proof.
  intros Hk. rewrite <- (clear_length i k). unfold bt_keys_get_addr. destruct (find_index (key_is id dst) _); [eauto|]. destruct (find_index is_free _) eqn:E.
  - eexists _, _. split; [done|]. cbn. apply length_alter.
  - rewrite find_index_None in E. by specialize (E _ (list_elem_of_lookup_2 _ _ _ (clear_entry i k entry Hk))).
Qed.

(** The entry of the peer after the pairing. *)
Record agreed (id : Z) (ltk : list Z) (entry : bt_keys) : Prop := {
  agreed_id : keys_id entry = id;
  agreed_ltk : ltk_val (Keys.ltk entry) = ltk /\ length ltk = 16%nat;
  agreed_p256 : nz (keys_keys entry .& BT_KEYS_LTK_P256) = true;
  agreed_auth : nz (keys_flags entry .& BT_KEYS_AUTHENTICATED) = true;
  agreed_sc : nz (keys_flags entry .& BT_KEYS_SC) = true;
  agreed_debug : nz (keys_flags entry .& BT_KEYS_DEBUG) = false;
  agreed_size : enc_size entry = BT_SMP_MAX_ENC_KEY_SIZE }.

(** A bonding pairing with Secure Connections, in which the key may have been asked for. *)
Definition bonding_flags (fl : Z) : Prop := fl = 0x102a \/ fl = 0x1028.

Lemma pairing_keys_agreed c io auth init resp a fl pcnf prnd rrnd ltk rpk dh e mk pk round rd cn k r lpk ec cbs l id dst entry : bonding_flags fl ->
  typing c io auth init resp -> length ltk = 16%nat -> key_is id dst entry = true -> keys_flags entry = 0 ->
  let w := pairing_world a fl (BT_SMP_CMD_PAIRING_REQ :: c_request c) (device_rsp auth init) pcnf prnd rrnd ltk rpk dh e mk pk round rd cn k r lpk ec cbs l in
  agreed id ltk (pairing_keys w entry) /\ keys_addr (pairing_keys w entry) = dst.
Proof.
  intros Hfl [Hq _ _ _ _ _ _] Hl Hk Hf. unfold key_is in Hk. apply andb_true_iff in Hk as [Hi%Z.eqb_eq Hd%bool_decide_eq_true].
  cbv zeta. unfold pairing_keys. set (w := pairing_world _ _ _ _ _ _ _ _ _ _ _ _ _ _ _ _ _ _ _ _ _ _).
  assert (has SMP_FLAG_SC_DEBUG_KEY w = false /\ has SMP_FLAG_SC w = true /\ has SMP_FLAG_BOND w = true) as (-> & -> & ->) by (by destruct Hfl as [-> | ->]).
  change (method (smp w)) with PASSKEY_DISPLAY. cbv iota.
  assert (get_encryption_key_size w = BT_SMP_MAX_ENC_KEY_SIZE) as -> by (unfold w, pairing_world; rewrite Hq; reflexivity).
  split; [|done]. split; cbn -[Z.land Z.lor]; rewrite ?Hf; try done.
  unfold BT_KEYS_LTK_P256. rewrite nz_land_bit by lia. unfold u16. rewrite Z.mod_pow2_bits_low, Z.lor_spec, bit_testbit by lia. apply orb_true_r.
Qed.

Lemma get_addr_only id dst (s s' : key_state F) i j : bt_keys_get_addr id dst s = (Some i, s') -> only id dst j (pool s) -> only id dst i (pool s').
Proof.
  unfold bt_keys_get_addr. destruct (find_index (key_is id dst) (pool s)) as [m|] eqn:E1.
  - intros [= -> <-] Ho a ka Ha Hk. apply find_index_Some in E1 as (k & Hi & Hm & _). rewrite (Ho _ _ Ha Hk). symmetry. by eapply Ho.
  - destruct (find_index is_free (pool s)) as [m|] eqn:E2; [|done]. intros [= -> <-] _ a ka Ha Hk. rewrite find_index_None in E1.
    destruct (decide (i = a)) as [->|Hne]; [done|]. cbn in Ha. rewrite list_lookup_alter_ne in Ha by done.
    rewrite E1 in Hk; [done|]. by eapply list_elem_of_lookup_2.
Qed.

Lemma clear_only id dst i (s : key_state F) : only id dst i (pool s) -> only id dst i (pool (bt_keys_clear i s)).
Proof.
  intros Ho. unfold bt_keys_clear. destruct (pool s !! i) as [e|] eqn:Ei; [|done]. set (s1 := if nz _ then _ else s).
  assert (Hs : ids_only s s1) by (unfold s1; destruct (nz _); [apply ids_bt_id_del|reflexivity]). destruct (settings_delete _ _).
  intros a ka. cbn. intros Ha Hk. destruct (decide (a = i)) as [->|Hne]; [done|]. rewrite list_lookup_insert_ne in Ha by done.
  destruct Hs as [Hs _]. destruct (Forall2_lookup_r _ _ _ _ _ Hs Ha) as (x & Hx & Hsame). rewrite (same_bond_key_is _ _ _ _ Hsame) in Hk. by eapply Ho.
Qed.

Lemma get_addr_clean id dst (s s' : key_state F) i : bt_keys_get_addr id dst s = (Some i, s') -> clean (pool s) -> clean (pool s').
Proof.
  unfold bt_keys_get_addr. destruct (find_index (key_is id dst) (pool s)) as [m|]; [by intros [= -> <-]|].
  destruct (find_index is_free (pool s)) as [m|] eqn:E2; [|done]. intros [= -> <-] Hc k Hk Hf. apply find_index_Some in E2 as (x & Hx & Hxf & _).
  apply list_elem_of_lookup in Hk as [a Ha]. cbn in Ha. destruct (decide (i = a)) as [<-|Hne].
  - rewrite list_lookup_alter_eq, Hx in Ha. injection Ha as <-. apply (Hc x); [|done]. by eapply list_elem_of_lookup_2.
  - rewrite list_lookup_alter_ne in Ha by done. apply Hc; [|done]. by eapply list_elem_of_lookup_2.
Qed.

Lemma clear_clean i (s : key_state F) : clean (pool s) -> clean (pool (bt_keys_clear i s)).
Proof.
  intros Hc. unfold bt_keys_clear. destruct (pool s !! i) as [e|] eqn:Ei; [|done]. set (s1 := if nz _ then _ else s).
  assert (Hs : ids_only s s1) by (unfold s1; destruct (nz _); [apply ids_bt_id_del|reflexivity]). destruct (settings_delete _ _). cbn.
  intros k [a Ha]%list_elem_of_lookup Hf. destruct (decide (a = i)) as [->|Hne].
  - apply list_lookup_insert_Some in Ha as [(_ & <- & _)|(Hn & _)]; done.
  - rewrite list_lookup_insert_ne in Ha by done. destruct Hs as [Hs _]. destruct (Forall2_lookup_r _ _ _ _ _ Hs Ha) as (x & Hx & Hxy).
    rewrite <- (f_equal keys_flags Hxy : keys_flags x = keys_flags k). apply Hc; [by eapply list_elem_of_lookup_2|].
    unfold is_free in *. by rewrite (f_equal keys_addr Hxy : keys_addr x = keys_addr k).
Qed.

(** The entry for the new keys was cleared. *)
Lemma new_entry_clean id dst i j (s s' : key_state F) e k : pool s !! i = Some e -> only id dst i (pool s) -> clean (pool s) ->
  bt_keys_get_addr id dst (bt_keys_clear i s) = (Some j, s') -> pool s' !! j = Some k -> keys_flags k = 0.
Proof.
  intros Hi Ho Hc Eg Hk. destruct (get_addr_entry _ _ _ _ _ Eg) as (_ & _ & ko & kn & Hko & Hp & _ & He).
  rewrite Hp, list_lookup_insert_eq in Hk by (by eapply lookup_lt_Some). injection Hk as <-. rewrite (f_equal keys_flags He : keys_flags kn = keys_flags ko).
  unfold bt_keys_get_addr in Eg. destruct (find_index (key_is id dst) _) as [m|] eqn:E1.
  - injection Eg as -> _. apply find_index_Some in E1 as (x & Hx & Hm & _). rewrite (clear_only id dst i s Ho _ _ Hx Hm) in Hko. rewrite (clear_entry i s e Hi) in Hko. by injection Hko as <-.
  - destruct (find_index is_free _) as [m|] eqn:E2; [|done]. injection Eg as -> _. apply find_index_Some in E2 as (x & Hx & Hf & _). rewrite Hx in Hko. injection Hko as <-.
    apply (clear_clean i s Hc); [by eapply list_elem_of_lookup_2|done].
Qed.

(** The connection once it is encrypted, with [addr] as the address of the peer. *)
Definition secure_conn (id : Z) (addr ia ra : bt_addr_le_t) (j : nat) : le_conn :=
  mk_le_conn id addr ia ra BT_SECURITY_L4 BT_SECURITY_L4 1 (Some j) false.

(** The pool with the new keys. *)
Record keyed_pool id dst (ltk : list Z) j (k : key_state F) : Prop := {
  kp_entry : exists ent, pool k !! j = Some ent /\ agreed id ltk ent /\ keys_addr ent = dst;
  kp_only : only id dst j (pool k) }.

Lemma update_keys_ok w i j k3 : has SMP_FLAG_PAIRING w = true -> le_keys (conn w) = Some i ->
  bt_keys_get_addr (le_id (conn w)) (le_dst (conn w)) (bt_keys_clear i (ks w)) = (Some j, k3) ->
  bt_smp_update_keys w = set_ks (alter_key (pairing_keys w) j k3) (upd_conn (set_le_keys (Some j)) w).
Proof.
  intros Hp Hi Eg. unfold bt_smp_update_keys. rewrite Hp, Hi. cbn [negb]. change (conn (set_ks _ w)) with (conn w). change (ks (set_ks _ w)) with (bt_keys_clear i (ks w)).
  rewrite Eg. reflexivity.
Qed.

Lemma update_level_ok w ent id ltk : encrypt (conn w) = 1 -> required_sec_level (conn w) = BT_SECURITY_L1 -> keys_of w = Some ent -> agreed id ltk ent ->
  update_sec_level w = upd_conn (set_sec_level BT_SECURITY_L4) w.
Proof.
  intros He Hr Hk [_ _ _ Ha Hs _ Hz]. unfold update_sec_level. rewrite He, Hk, Ha, Hs, Hz. cbn [nz negb Z.eqb andb].
  change (BT_SMP_MAX_ENC_KEY_SIZE =? BT_SMP_MAX_ENC_KEY_SIZE) with true. cbv iota.
  change (required_sec_level (conn (upd_conn (set_sec_level BT_SECURITY_L4) w))) with (required_sec_level (conn w)). by rewrite Hr.
Qed.

(** Encryption once the keys are there. *)
Lemma distribute_ok id dst ia ra j k4 ent a fl req rsp pcnf prnd rrnd ltk rpk dh e mk pk round rd r lpk ec cbs l :
  bonding_flags fl -> rd = 0 \/ rd = 2 -> pool k4 !! j = Some ent ->
  let l' := l ++ [Up (Security_changed BT_SECURITY_L4 BT_SECURITY_ERR_SUCCESS)] in
  let wd := pairing_world (Z.setbit a 8) 0x102c req rsp pcnf prnd rrnd ltk rpk dh e mk pk round rd (secure_conn id dst ia ra j) k4 r lpk ec cbs in
  security_changed 0 BT_SECURITY_ERR_SUCCESS
    (pairing_world a fl req rsp pcnf prnd rrnd ltk rpk dh e mk pk round rd (mk_le_conn id dst ia ra BT_SECURITY_L4 BT_SECURITY_L1 1 (Some j) false) k4 r lpk ec cbs l) =
  if rd =? 0 then set_log l' (smp_pairing_complete 0 (wd l)) else wd l'.
Proof.
  intros Hfl Hrd Hj l' wd. unfold security_changed, bt_conn_security_changed, bt_smp_encrypt_change. 
  match goal with |- context [clear_flag SMP_FLAG_ENC_PENDING ?x] => assert (clear_flag SMP_FLAG_ENC_PENDING x =
    pairing_world a 0x1028 req rsp pcnf prnd rrnd ltk rpk dh e mk pk round rd (secure_conn id dst ia ra j) k4 r lpk ec cbs l) as -> by (by destruct Hfl as [-> | ->]) end.
  set (w := pairing_world a 0x1028 _ _ _ _ _ _ _ _ _ _ _ _ _ _ _ _ _ _ _ _).
  change (nz 0) with false. change (nz (encrypt (conn w))) with true. change (has SMP_FLAG_PAIRING w) with true. change (has SMP_FLAG_SC w) with true. cbv iota. cbn [negb].
  assert (Hd : forall al, bt_smp_distribute_keys
      (pairing_world al 0x102c req rsp pcnf prnd rrnd ltk rpk dh e mk pk round rd (secure_conn id dst ia ra j) k4 r lpk ec cbs l) =
    (0, pairing_world al 0x102c req rsp pcnf prnd rrnd ltk rpk dh e mk pk round rd (secure_conn id dst ia ra j) k4 r lpk ec cbs l)).
  { intros al. unfold bt_smp_distribute_keys. change (keys_of _) with (pool k4 !! j). rewrite Hj. reflexivity. }
  destruct Hrd as [-> | ->].
  - specialize (Hd a). match goal with |- context [bt_smp_distribute_keys ?x] => match type of Hd with bt_smp_distribute_keys ?y = _ => change x with y end end.
    rewrite Hd. reflexivity.
  - specialize (Hd (Z.setbit a 8)). match goal with |- context [bt_smp_distribute_keys ?x] => match type of Hd with bt_smp_distribute_keys ?y = _ => change x with y end end.
    rewrite Hd. reflexivity.
Qed.

Lemma encrypt_step c io auth init resp id dst ia ra i entry a fl pcnf prnd rrnd ltk rpk dh e mk pk round rd k r lpk ec cbs l :
  bonding_flags fl -> typing c io auth init resp -> length ltk = 16%nat -> pool k !! i = Some entry -> only id dst i (pool k) -> clean (pool k) -> rd = 0 \/ rd = 2 ->
  let req := BT_SMP_CMD_PAIRING_REQ :: c_request c in
  let rsp := device_rsp auth init in
  let l' := l ++ [Up (Security_changed BT_SECURITY_L4 BT_SECURITY_ERR_SUCCESS)] in
  exists j k4, keyed_pool id dst ltk j k4 /\ length (pool k4) = length (pool k) /\
  handle (Encrypt_change 0 1) (pairing_world a fl req rsp pcnf prnd rrnd ltk rpk dh e mk pk round rd (set_le_keys (Some i) (new_conn id dst ia ra)) k r lpk ec cbs l) =
  let wd := pairing_world (Z.setbit a 8) 0x102c req rsp pcnf prnd rrnd ltk rpk dh e mk pk round rd (secure_conn id dst ia ra j) k4 r lpk ec cbs in
  if rd =? 0 then set_log l' (smp_pairing_complete 0 (wd l)) else wd l'.
Proof.
  intros Hfl Ht H16 Hi Ho Hcl Hrd req rsp l'. destruct (clear_gives_room id dst i k entry Hi) as (j & k3 & Eg & Hlen).
  destruct (get_addr_entry _ _ _ _ _ Eg) as (_ & _ & ko & kn & Hk & Hp & Hm & _).
  assert (Hj : pool k3 !! j = Some kn) by (rewrite Hp, list_lookup_insert_eq by (by eapply lookup_lt_Some); done).
  set (cn := mk_le_conn id dst ia ra BT_SECURITY_L1 BT_SECURITY_L1 1 (Some i) false).
  set (w := pairing_world a fl req rsp pcnf prnd rrnd ltk rpk dh e mk pk round rd cn k r lpk ec cbs l).
  destruct (pairing_keys_agreed c io auth init resp a fl pcnf prnd rrnd ltk rpk dh e mk pk round rd cn k r lpk ec cbs l id dst kn Hfl Ht H16 Hm (new_entry_clean id dst i j k k3 entry kn Hi Ho Hcl Eg Hj)) as [Ha Hd]. fold req rsp w in Ha, Hd.
  set (k4 := alter_key (pairing_keys w) j k3). assert (H4 : pool k4 !! j = Some (pairing_keys w kn)) by (cbn; by rewrite list_lookup_alter_eq, Hj).
  exists j, k4. split.
  { split; [by eexists|]. intros m km Hkm Hke. destruct (decide (j = m)) as [->|Hne]; [done|]. cbn in Hkm. rewrite list_lookup_alter_ne in Hkm by done.
    by apply (get_addr_only _ _ _ _ _ i Eg (clear_only id dst i k Ho) m km). }
  split; [cbn; by rewrite length_alter|].
  cbn [handle]. unfold hci_encrypt_change. change (nz 0) with false. cbv iota. change (upd_conn (set_encrypt 1) _) with w. change (nz (encrypt (conn w))) with true. cbv iota zeta.
  assert (Hw : has SMP_FLAG_PAIRING w = true) by (by destruct Hfl as [-> | ->]).
  rewrite (update_keys_ok w i j k3 Hw eq_refl Eg). fold k4. rewrite (update_level_ok (set_ks k4 (upd_conn (set_le_keys (Some j)) w)) (pairing_keys w kn) id ltk eq_refl eq_refl H4 Ha).
  exact (distribute_ok id dst ia ra j k4 (pairing_keys w kn) a fl req rsp pcnf prnd rrnd ltk rpk dh e mk pk round rd r lpk ec cbs l Hfl Hrd H4).
Qed.

(** ** The identity of the central *)

(** The entry of the peer has its identity key. *)
Record identified id dst (ltk irk : list Z) (ent : bt_keys) : Prop := {
  idf_agreed : agreed id ltk ent;
  idf_addr : keys_addr ent = dst;
  idf_bit : nz (keys_keys ent .& BT_KEYS_IRK) = true;
  idf_irk : irk_val (Keys.irk ent) = irk }.

Lemma add_irk_bit ent : nz (keys_keys (bt_keys_add_type BT_KEYS_IRK ent) .& BT_KEYS_IRK) = true.
Proof. cbn. unfold BT_KEYS_IRK. rewrite nz_land_bit by lia. unfold u16. rewrite Z.mod_pow2_bits_low, Z.lor_spec, bit_testbit by lia. apply orb_true_r. Qed.

Lemma add_irk_agreed id ltk ent : agreed id ltk ent -> agreed id ltk (bt_keys_add_type BT_KEYS_IRK ent).
Proof.
  intros [H1 H2 H3 H4 H5 H6 H7]. split; [done|done| |done|done|done|done]. cbn. unfold BT_KEYS_LTK_P256, BT_KEYS_IRK in *. rewrite nz_land_bit in H3 |- * by lia.
  unfold u16. rewrite Z.mod_pow2_bits_low, Z.lor_spec, H3 by lia. done.
Qed.

(** The entry for the identity key is the one of the pairing. *)
Lemma get_type_ok id dst ltk j (k : key_state F) : keyed_pool id dst ltk j k ->
  exists k5 ent, bt_keys_get_type BT_KEYS_IRK id dst k = (Some j, k5) /\ pool k5 !! j = Some ent /\ agreed id ltk ent /\ keys_addr ent = dst /\
  nz (keys_keys ent .& BT_KEYS_IRK) = true /\ only id dst j (pool k5) /\ length (pool k5) = length (pool k).
Proof.
  intros [(ent & Hj & Ha & Hd) Ho]. unfold bt_keys_get_type, bt_keys_find.
  assert (Hk : key_is id dst ent = true) by (unfold key_is; rewrite (agreed_id _ _ _ Ha), Z.eqb_refl, Hd; by apply bool_decide_true).
  destruct (find_index _ (pool k)) as [m|] eqn:E1.
  - apply find_index_Some in E1 as (x & Hx & [Hb Hm]%andb_true_iff & _). assert (m = j) as -> by (by eapply Ho).
    rewrite Hj in Hx. injection Hx as <-. by exists k, ent.
  - unfold bt_keys_get_addr. destruct (find_index (key_is id dst) (pool k)) as [m|] eqn:E2.
    + apply find_index_Some in E2 as (x & Hx & Hm & _). assert (m = j) as -> by (by eapply Ho). rewrite Hj in Hx. injection Hx as <-.
      eexists _, (bt_keys_add_type BT_KEYS_IRK ent). split; [done|]. cbn. rewrite list_lookup_alter_eq, Hj. split; [done|].
      split; [by apply add_irk_agreed|]. split; [done|]. split; [apply add_irk_bit|]. split; [|apply length_alter].
      intros a ka Hka Hke. destruct (decide (j = a)) as [->|Hne]; [done|]. rewrite list_lookup_alter_ne in Hka by done. by eapply Ho.
    + rewrite find_index_None in E2. rewrite (E2 ent) in Hk; [done|]. by eapply list_elem_of_lookup_2.
Qed.

Lemma get_type_same id dst ltk irk j (k : key_state F) ent :
  pool k !! j = Some ent -> identified id dst ltk irk ent -> only id dst j (pool k) -> bt_keys_get_type BT_KEYS_IRK id dst k = (Some j, k).
Proof.
  intros Hj [Ha Hd Hb _] Ho. unfold bt_keys_get_type, bt_keys_find.
  assert (Hk : key_is id dst ent = true) by (unfold key_is; rewrite (agreed_id _ _ _ Ha), Z.eqb_refl, Hd; by apply bool_decide_true).
  destruct (find_index _ (pool k)) as [m|] eqn:E1.
  - apply find_index_Some in E1 as (x & Hx & [_ Hm]%andb_true_iff & _). by rewrite (Ho _ _ Hx Hm).
  - rewrite find_index_None in E1. specialize (E1 ent (list_elem_of_lookup_2 _ _ _ Hj)). cbv beta in E1. by rewrite Hb, Hk in E1.
Qed.

Lemma identified_same id dst ltk irk ent ent' : same_bond ent ent' -> identified id dst ltk irk ent -> identified id dst ltk irk ent'.
Proof.
  intros Hs H. assert (Hi : identified id dst ltk irk (with_state (fun _ => 0) ent)) by (destruct H as [[] ? ? ?]; by split; [split|..]).
  rewrite Hs in Hi. destruct Hi as [[] ? ? ?]. by split; [split|..].
Qed.

Section identity.
Context (c : central) (io auth init resp id : Z) (dst ia ra : bt_addr_le_t) (j : nat).
Context (req rsp pcnf prnd rrnd ltk rpk dh e mk lpk : list Z) (pk : Z) (r : rand_state R) (ec : bt_ecc) (cbs : nat).
Context (Htyping : typing c io auth init resp).

Lemma ident_info_step k l : keyed_pool id dst ltk j k ->
  exists k6 ent, pool k6 !! j = Some ent /\ identified id dst ltk (c_irk c) ent /\ only id dst j (pool k6) /\ length (pool k6) = length (pool k) /\
  handle (Received (BT_SMP_CMD_IDENT_INFO :: c_irk c))
    (pairing_world 0x128 0x102c req rsp pcnf prnd rrnd ltk rpk dh e mk pk 20 2 (secure_conn id dst ia ra j) k r lpk ec cbs l) =
  pairing_world 0x228 0x102c req rsp pcnf prnd rrnd ltk rpk dh e mk pk 20 2 (secure_conn id dst ia ra j) k6 r lpk ec cbs (l ++ [Rx (BT_SMP_CMD_IDENT_INFO :: c_irk c)]).
Proof.
  intros Hk. destruct (get_type_ok id dst ltk j k Hk) as (k5 & ent & Eg & Hj & Ha & Hd & Hb & Ho & Hlen). pose proof (typing_irk _ _ _ _ _ Htyping) as Hl.
  set (f := fun k : bt_keys => with_irk (mk_irk (c_irk c) (irk_rpa (irk k))) k). exists (alter_key f j k5), (f ent).
  split; [cbn; by rewrite list_lookup_alter_eq, Hj|]. split; [split; [by destruct Ha|done|done|done]|]. split.
  { intros a ka Hka Hke. destruct (decide (j = a)) as [->|Hne]; [done|]. cbn in Hka. rewrite list_lookup_alter_ne in Hka by done. by eapply Ho. }
  split; [cbn; by rewrite length_alter|].
  eapply received; [reflexivity|reflexivity|reflexivity|by rewrite Hl|]. unfold smp_ident_info. set (w := upd_smp _ _).
  change (has SMP_FLAG_BOND w) with true. cbv iota. unfold get_type. change (bt_keys_get_type _ _ _ _) with (bt_keys_get_type BT_KEYS_IRK id dst k).
  rewrite Eg, (slice_all 16) by done. reflexivity.
Qed.

(** The address under which the bond is kept. *)
Definition bond_addr : bt_addr_le_t := if bt_addr_le_is_rpa ia && negb (bt_addr_le_is_identity dst) then c_identity c else dst.

Lemma take_identity_ok k l ent : pool k !! j = Some ent -> identified id dst ltk (c_irk c) ent ->
  let w := pairing_world 0x28 0x102c req rsp pcnf prnd rrnd ltk rpk dh e mk pk 20 2 in
  exists k7 ent' l', pool k7 !! j = Some ent' /\ identified id bond_addr ltk (c_irk c) ent' /\ length (pool k7) = length (pool k) /\
  take_identity j (c_identity c) (w (secure_conn id dst ia ra j) k r lpk ec cbs l) = w (secure_conn id bond_addr ia ra j) k7 r lpk ec cbs l'.
Proof.
  intros Hj Hi w. set (k1 := alter_key (fun k => with_irk (mk_irk (irk_val (irk k)) (addr_val ia)) k) j k).
  set (k2 := alter_key (fun k => with_addr (keys_id k) (c_identity c) k) j k1).
  assert (exists k3 ent3 l', pool k3 !! j = Some ent3 /\ identified id bond_addr ltk (c_irk c) ent3 /\ length (pool k3) = length (pool k) /\
    take_identity j (c_identity c) (w (secure_conn id dst ia ra j) k r lpk ec cbs l) = w (secure_conn id bond_addr ia ra j) (bt_id_add j k3) r lpk ec cbs l') as (k3 & ent3 & l' & H3 & I3 & Hlen & E).
  { unfold take_identity, bond_addr. change (init_addr (conn (w (secure_conn id dst ia ra j) k r lpk ec cbs l))) with ia. destruct (bt_addr_le_is_rpa ia).
    - change (le_dst _) with dst. destruct (bt_addr_le_is_identity dst); cbn [negb andb].
      + exists k1. eexists _, l. split; [cbn; by rewrite list_lookup_alter_eq, Hj|]. split; [destruct Hi as [[] ? ? ?]; by split; [split|..]|]. split; [apply length_alter|reflexivity].
      + exists k2. eexists _, _. split; [cbn; by rewrite !list_lookup_alter_eq, Hj|]. split; [destruct Hi as [[] ? ? ?]; by split; [split|..]|]. split; [cbn; by rewrite !length_alter|reflexivity].
    - cbn [andb]. by exists k, ent, l. }
  destruct (ids_lookup _ _ _ _ (ids_bt_id_add j k3) H3) as (ent4 & H4 & Hs). exists (bt_id_add j k3), ent4, l'. split; [done|]. split; [by apply (identified_same _ _ _ _ ent3)|]. split; [|done].
  rewrite <- Hlen. symmetry. eapply Forall2_length. apply (ids_bt_id_add j k3).
Qed.

Lemma ident_addr_step k l ent : pool k !! j = Some ent -> identified id dst ltk (c_irk c) ent -> only id dst j (pool k) ->
  exists k7 ent' l', pool k7 !! j = Some ent' /\ identified id bond_addr ltk (c_irk c) ent' /\ length (pool k7) = length (pool k) /\
  handle (Received (BT_SMP_CMD_IDENT_ADDR_INFO :: addr_type (c_identity c) :: addr_val (c_identity c)))
    (pairing_world 0x228 0x102c req rsp pcnf prnd rrnd ltk rpk dh e mk pk 20 2 (secure_conn id dst ia ra j) k r lpk ec cbs l) =
  smp_pairing_complete 0 (pairing_world 0x28 0x102c req rsp pcnf prnd rrnd ltk rpk dh e mk pk 20 0 (secure_conn id bond_addr ia ra j) k7 r lpk ec cbs l').
Proof.
  intros Hj Hi Ho. destruct (typing_identity _ _ _ _ _ Htyping) as [Hid Hl].
  set (l1 := l ++ [Rx (BT_SMP_CMD_IDENT_ADDR_INFO :: addr_type (c_identity c) :: addr_val (c_identity c))]).
  destruct (take_identity_ok k l1 ent Hj Hi) as (k7 & ent' & l' & Hj' & Hi' & Hlen & E). exists k7, ent', l'. split; [done|]. split; [done|]. split; [done|].
  eapply received; [reflexivity|reflexivity|reflexivity|cbn [length]; by rewrite Hl|]. unfold smp_ident_addr_info. set (w := upd_smp _ _).
  assert (mk_addr (byte_at 0 (addr_type (c_identity c) :: addr_val (c_identity c))) (slice 1 6 (addr_type (c_identity c) :: addr_val (c_identity c))) = c_identity c) as ->.
  { unfold slice. cbn [drop]. rewrite (take_ge (addr_val (c_identity c))) by (rewrite Hl; lia). by destruct (c_identity c). }
  rewrite Hid. cbn [negb]. change (has SMP_FLAG_BOND w) with true. cbv iota. unfold get_type.
  change (bt_keys_get_type _ _ _ _) with (bt_keys_get_type BT_KEYS_IRK id dst k). rewrite (get_type_same _ _ _ _ _ _ _ Hj Hi Ho).
  change (take_identity j _ _) with (take_identity j (c_identity c)
    (pairing_world 0x28 0x102c req rsp pcnf prnd rrnd ltk rpk dh e mk pk 20 2 (secure_conn id dst ia ra j) k r lpk ec cbs l1)).
  rewrite E. reflexivity.
Qed.
End identity.

(** ** The whole pairing *)

Lemma dist_bits init : (init .& RECV_KEYS) .& RECV_KEYS_SC = (if nz (init .& BT_SMP_DIST_ID_KEY) then 2 else 0).
Proof.
  rewrite <- Z.land_assoc. change (RECV_KEYS .& RECV_KEYS_SC) with (BIT 1). change BT_SMP_DIST_ID_KEY with (BIT 1). rewrite nz_land_bit by lia.
  apply Z.bits_inj'. intros n Hn. rewrite Z.land_spec, bit_testbit by lia. destruct (Z.eqb_spec n 1) as [->|Hne].
  - by destruct (Z.testbit init 1).
  - rewrite andb_false_r. destruct (Z.testbit init 1); [|by rewrite Z.bits_0]. symmetry. change 2 with (2 ^ 1). apply Z.pow2_bits_false. lia.
Qed.

Lemma finish_works c io auth init resp id dst ia ra i entry pcnf prnd tk rpk e0 mk0 pk rd k r lpk ec cbs l :
  typing c io auth init resp -> pool k !! i = Some entry -> only id dst i (pool k) -> clean (pool k) -> rd = 0 \/ rd = 2 -> last_tx BT_SMP_CMD_PAIRING_RANDOM l = Some prnd ->
  let req := BT_SMP_CMD_PAIRING_REQ :: c_request c in
  let rsp := device_rsp auth init in
  exists ltk e mk j k4 l1 l2, keyed_pool id dst ltk j k4 /\ length (pool k4) = length (pool k) /\
  let wd := pairing_world 0x128 0x102c req rsp pcnf prnd (c_number c 19) ltk rpk (c_shared c) e mk pk 20 rd (secure_conn id dst ia ra j) k4 r lpk ec cbs in
  central_finish c ia ra (drop 1 rsp) pk
    (pairing_world 0x2028 0x9028 req rsp pcnf prnd (c_number c 19) tk rpk (c_shared c) e0 mk0 pk 20 rd (set_le_keys (Some i) (new_conn id dst ia ra)) k r lpk ec cbs l) =
  Some (ltk, if rd =? 0 then set_log l2 (smp_pairing_complete 0 (wd l1)) else wd l2).
Proof.
  intros Ht Hi Ho Hcl Hrd Hl req rsp. set (na := c_number c 19).
  destruct (dhcheck_step c id dst ia ra i rsp pcnf prnd na tk rpk e0 mk0 pk rd k r lpk ec cbs l) as (mk & ltk & e & ours & E5 & H16 & E6 & E7 & E1).
  fold req in E1. set (l1 := (l ++ _) ++ _) in E1. set (k1 := sent (LE_LTK_REQ_REPLY ltk) k).
  destruct (encrypt_step c io auth init resp id dst ia ra i entry 0x28 0x102a pcnf prnd na ltk rpk (c_shared c) e mk pk 20 rd k1 r lpk ec cbs l1 (or_introl eq_refl) Ht H16 Hi Ho Hcl Hrd) as (j & k4 & Hk4 & Hlen & E3).
  eexists ltk, e, mk, j, k4, l1, _. split; [exact Hk4|]. split; [exact Hlen|]. cbv zeta. unfold central_finish.
  change (log (pairing_world 0x2028 _ _ _ _ _ _ _ _ _ _ _ _ _ _ _ _ _ _ _ _ l)) with l. rewrite Hl. cbn [mbind option_bind]. fold na. rewrite E5. cbn [mbind option_bind]. rewrite E6.
  cbn [mbind option_bind]. rewrite E1. change (log (pairing_world 0x28 _ _ _ _ _ _ _ _ _ _ _ _ _ _ _ _ _ _ _ _ l1)) with l1.
  assert (last_tx BT_SMP_DHKEY_CHECK l1 = Some ours) as -> by (unfold l1; by rewrite last_tx_snoc). cbn [mbind option_bind]. rewrite bool_decide_true by done. cbn [negb].
  pose proof (ltk_step c io auth init resp pcnf prnd na ltk rpk (c_shared c) e mk pk 20 rd (set_le_keys (Some i) (new_conn id dst ia ra)) k r lpk ec cbs l1 Ht H16) as E2.
  cbv zeta in E2. fold req rsp k1 in E2. rewrite E2. change (last (cmds (hci (ks _)))) with (last (cmds (hci k) ++ [LE_LTK_REQ_REPLY ltk])).
  rewrite last_snoc, bool_decide_true by done. do 2 f_equal. exact E3.
Qed.

(** The device at the end: the link has the highest level, no pairing runs, and the entry
    of the peer, handed over to the settings, has this key. *)
Record paired id (ltk : list Z) (ent : bt_keys) w : Prop := {
  paired_level : sec_level (conn w) = BT_SECURITY_L4;
  paired_idle : flags (smp w) = 0;
  paired_entry : keys_of w = Some ent;
  paired_agreed : agreed id ltk ent;
  paired_addr : keys_addr ent = le_dst (conn w);
  paired_stored : exists j k, ks w = (bt_keys_store j k).2 /\ le_keys (conn w) = Some j }.

Lemma store_pool j (k : key_state F) : pool (bt_keys_store j k).2 = pool k.
Proof. unfold bt_keys_store. destruct (pool k !! j); [|done]. by destruct (settings_save_one _ _ _). Qed.

Lemma paired_set_log id ltk ent w l : paired id ltk ent w -> paired id ltk ent (set_log l w).
Proof. intros []. by split. Qed.

Lemma complete_paired a req rsp pcnf prnd rrnd ltk rpk dh e mk pk round rd id addr ia ra j k r lpk ec cbs l ent :
  pool k !! j = Some ent -> agreed id ltk ent -> keys_addr ent = addr ->
  paired id ltk ent (smp_pairing_complete 0
    (pairing_world a 0x102c req rsp pcnf prnd rrnd ltk rpk dh e mk pk round rd (secure_conn id addr ia ra j) k r lpk ec cbs l)).
Proof.
  intros Hj Ha Hd. set (w := smp_pairing_complete _ _). assert (Ek : ks w = (bt_keys_store j k).2) by reflexivity. split; [reflexivity|reflexivity| |done|done|].
  - unfold keys_of. change (le_keys (conn w)) with (Some j). cbn [mbind option_bind]. by rewrite Ek, store_pool.
  - exists j, k. by split.
Qed.

Lemma complete_pool a req rsp pcnf prnd rrnd ltk rpk dh e mk pk round rd id addr ia ra j k r lpk ec cbs l :
  pool (ks (smp_pairing_complete 0
    (pairing_world a 0x102c req rsp pcnf prnd rrnd ltk rpk dh e mk pk round rd (secure_conn id addr ia ra j) k r lpk ec cbs l))) = pool k.
Proof. exact (store_pool j k). Qed.

Lemma identity_works c io auth init resp id dst ia ra j req rsp pcnf prnd rrnd ltk rpk dh e mk lpk pk r ec cbs k l :
  typing c io auth init resp -> keyed_pool id dst ltk j k ->
  let w := handle_all [Received (BT_SMP_CMD_IDENT_INFO :: c_irk c);
      Received (BT_SMP_CMD_IDENT_ADDR_INFO :: addr_type (c_identity c) :: addr_val (c_identity c))]
    (pairing_world 0x128 0x102c req rsp pcnf prnd rrnd ltk rpk dh e mk pk 20 2 (secure_conn id dst ia ra j) k r lpk ec cbs l) in
  exists ent, paired id ltk ent w /\ identified id (bond_addr c dst ia) ltk (c_irk c) ent /\ length (pool (ks w)) = length (pool k).
Proof.
  intros Ht Hk. destruct (ident_info_step c io auth init resp id dst ia ra j req rsp pcnf prnd rrnd ltk rpk dh e mk lpk pk r ec cbs Ht k l Hk) as (k6 & ent & Hj & Hi & Ho & Hlen & E1).
  destruct (ident_addr_step c io auth init resp id dst ia ra j req rsp pcnf prnd rrnd ltk rpk dh e mk lpk pk r ec cbs Ht k6 (l ++ [Rx (BT_SMP_CMD_IDENT_INFO :: c_irk c)]) ent Hj Hi Ho) as (k7 & ent' & l' & Hj' & Hi' & Hlen' & E2).
  exists ent'. unfold handle_all. cbn [foldl]. rewrite E1, E2. split; [apply complete_paired; [done|by destruct Hi'|by destruct Hi']|]. split; [done|].
  rewrite complete_pool. congruence.
Qed.

(** ** The key of an earlier bond *)

(** Before the central has proven anything, a key the device is asked for is the one it has
    for the peer. *)
Lemma stored_ltk_step a req rsp pcnf prnd rrnd tk rpk dh e mk pk round rd cn k r lpk ec cbs l i old :
  pool k !! i = Some old -> nz (keys_keys old .& BT_KEYS_LTK_P256) = true ->
  let W := pairing_world a 0x1028 req rsp pcnf prnd rrnd tk rpk dh e mk pk round rd (set_le_keys (Some i) cn) in
  handle (Ltk_request 0 0) (W k r lpk ec cbs l) = W (sent (LE_LTK_REQ_REPLY (cut_key (enc_size old) (ltk_val (Keys.ltk old)))) k) r lpk ec cbs l.
Proof.
  intros Hi Hb W. cbn [handle]. unfold le_ltk_request, bt_smp_request_ltk. set (w := W k r lpk ec cbs l).
  change (_ && has SMP_FLAG_ENC_PENDING w) with false. cbv iota. unfold stored_ltk. change (conn_find_keys _ w) with w.
  change (keys_of w) with (pool k !! i). rewrite Hi. change ((0 =? 0) && (0 =? 0)) with true. rewrite Hb. reflexivity.
Qed.
End facts.

Lemma honest_pairing_works {F R : Type} `{!Nvs F, !TinyPrng R} {cr : Crypto} (w : smp_world F R) c io auth init resp id dst ia ra lpk
    (crypto : crypto_works) (random : random_works (R := R)) (Hcentral : typing c io auth init resp) (Hready : ready id dst lpk w) :
  exists ltk w' ent, central_pairing c id dst ia ra w = Some (ltk, w') /\ paired id ltk ent w' /\ length (pool (ks w')) = length (pool (ks w)) /\
  (nz (init .& BT_SMP_DIST_ID_KEY) = true -> identified id (bond_addr c dst ia) ltk (c_irk c) ent).
Proof.
  unfold central_pairing. destruct (ready_only _ _ _ _ Hready) as [j0 Honly].
  destruct (begin_works random c io auth init resp id dst ia ra lpk w Hcentral Hready) as (i & k1 & prnd & r1 & pk & l & Eg & ->). cbn [mbind option_bind].
  destruct (get_addr_entry _ _ _ _ _ Eg) as (_ & _ & ko & kn & Hk & Hp & _ & _). pose proof (get_addr_only _ _ _ _ _ _ Eg Honly) as Ho.
  assert (Hi : pool k1 !! i = Some kn) by (rewrite Hp, list_lookup_insert_eq by (by eapply lookup_lt_Some); done).
  destruct (rounds_ok crypto random c (typing_numbers _ _ _ _ _ Hcentral) (BT_SMP_CMD_PAIRING_REQ :: c_request c) (device_rsp auth init) (zeros 16) (c_shared c) (zeros 16) (zeros 16) lpk pk
    ((init .& RECV_KEYS) .& RECV_KEYS_SC) (set_le_keys (Some i) (new_conn id dst ia ra)) (sent (LE_GENERATE_DHKEY (c_pkey c)) k1)
    (mk_ecc false (Some lpk) (pub_key_cb (ecc w)) false) (ident_cbs w) 19 0 true (zeros 16) prnd (zeros 16) r1 l eq_refl) as (pcnf & prnd2 & r2 & l2 & E2 & Hl2).
  cbv zeta in E2. change (Z.of_nat 0) with 0 in E2. rewrite E2. cbn [mbind option_bind]. clear E2.
  assert (Hrd : (init .& RECV_KEYS) .& RECV_KEYS_SC = 0 \/ (init .& RECV_KEYS) .& RECV_KEYS_SC = 2) by (rewrite dist_bits; destruct (nz _); auto).
  destruct (finish_works crypto c io auth init resp id dst ia ra i kn pcnf prnd2 (zeros 16) (c_pkey c) (zeros 16) (zeros 16) pk ((init .& RECV_KEYS) .& RECV_KEYS_SC)
    (sent (LE_GENERATE_DHKEY (c_pkey c)) k1) r2 lpk (mk_ecc false (Some lpk) (pub_key_cb (ecc w)) false) (ident_cbs w) l2 Hcentral Hi Ho (get_addr_clean _ _ _ _ _ Eg (ready_clean _ _ _ _ Hready)) Hrd Hl2)
    as (ltk & e & mk & j & k4 & l3 & l4 & Hk4 & Hlen & E3). cbv zeta in E3. rewrite E3. cbn [mbind option_bind]. clear E3.
  unfold central_identity. change (byte_at 4 (drop 1 (device_rsp auth init))) with ((init .& RECV_KEYS) .& RECV_KEYS_SC). rewrite dist_bits.
  destruct (nz (init .& BT_SMP_DIST_ID_KEY)).
  - change (nz (2 .& BT_SMP_DIST_ID_KEY)) with true. change (2 =? 0) with false. cbv iota.
    edestruct identity_works as (ent & H1 & H2 & H3); [exact Hcentral|exact Hk4|]. eexists ltk, _, ent. split; [reflexivity|]. split; [exact H1|].
    split; [|done]. rewrite H3, Hlen. cbn. by rewrite Hp, length_insert.
  - change (nz (0 .& BT_SMP_DIST_ID_KEY)) with false. change (0 =? 0) with true. cbv iota. destruct Hk4 as [(ent & Hj & Ha & Hd) _].
    eexists ltk, _, ent. split; [reflexivity|]. split; [by apply paired_set_log, complete_paired|].
    split; [|done]. cbn [ks set_log]. rewrite complete_pool, Hlen. cbn. by rewrite Hp, length_insert.
Qed.

(** C6. An honest central gets through: whatever numbers it uses, whichever of the entries
    for bonds is free and whether or not it was bonded before, a central that can be typed
    on, follows Secure Connections with the passkey the device displays and checks
    everything it is told accepts all answers of the device; both sides end up with the
    same key, the link has the highest level of security, the pairing is over and the
    bond is handed over to the settings, with the identity of the central if it has one. *)
Theorem honest_pairing_succeeds {F R : Type} `{!Nvs F, !TinyPrng R} {cr : Crypto} (w : smp_world F R) c io auth init resp id dst ia ra lpk
    (crypto : crypto_works) (random : random_works (R := R)) (Hcentral : typing c io auth init resp) (Hready : ready id dst lpk w) :
  exists ltk w' ent, central_pairing c id dst ia ra w = Some (ltk, w') /\ paired id ltk ent w' /\ length (pool (ks w')) = length (pool (ks w)) /\
  (nz (init .& BT_SMP_DIST_ID_KEY) = true -> identified id (bond_addr c dst ia) ltk (c_irk c) ent).
Proof. exact (honest_pairing_works w c io auth init resp id dst ia ra lpk crypto random Hcentral Hready). Qed.

(** C27. Encryption with the key of an earlier bond completes a pairing that is in progress
    ([bt_smp_update_keys] asks only whether a pairing runs).  In any state in which a
    central can start to pair and its address has an entry with a key of Secure
    Connections, authenticated or not, a central that asks for a passkey pairing and has
    the link encrypted at once is answered with the old key; when the controller reports
    the encryption, the link has the highest level of security and the bond is marked
    authenticated, although no passkey was displayed or proven: all that was exchanged is
    the request and the response.  The key of the new bond was never agreed on: it is 0. *)
Theorem old_key_forges_authentication {F R : Type} `{!Nvs F, !TinyPrng R} {cr : Crypto} (w : smp_world F R) c io auth init resp id dst ia ra lpk i old
    (random : random_works (R := R)) (Hcentral : typing c io auth init resp) (Hready : ready id dst lpk w)
    (Hbond : bt_keys_find_addr id dst (pool (ks w)) = Some i) (Hold : pool (ks w) !! i = Some old) (Hkey : nz (keys_keys old .& BT_KEYS_LTK_P256) = true) :
  let req := BT_SMP_CMD_PAIRING_REQ :: c_request c in
  let w1 := handle_all [Connected id dst ia ra; Received req; Ltk_request 0 0] w in
  let w2 := handle (Encrypt_change 0 1) w1 in
  last (cmds (hci (ks w1))) = Some (LE_LTK_REQ_REPLY (cut_key (enc_size old) (ltk_val (ltk old)))) /\
  log w2 = log w ++ [Rx req; Tx (device_rsp auth init); Up (Security_changed BT_SECURITY_L4 BT_SECURITY_ERR_SUCCESS)] /\
  sec_level (conn w2) = BT_SECURITY_L4 /\ exists ent, keys_of w2 = Some ent /\ agreed id (zeros 16) ent.
Proof.
  intros req w1 w2. destruct (ready_only _ _ _ _ Hready) as [j0 Honly].
  destruct (request_step random c io auth init resp id dst ia ra lpk w Hcentral Hready) as (i' & k1 & prnd & r1 & Eg & E1).
  assert (i' = i /\ k1 = ks w) as [-> ->].
  { unfold bt_keys_get_addr in Eg. unfold bt_keys_find_addr in Hbond. rewrite Hbond in Eg. by injection Eg as <- <-. }
  set (rd := (init .& RECV_KEYS) .& RECV_KEYS_SC) in E1. assert (Hrd : rd = 0 \/ rd = 2) by (unfold rd; rewrite dist_bits; destruct (nz (init .& _)); auto).
  assert (Hw1 : w1 = handle (Ltk_request 0 0) (handle_all [Connected id dst ia ra; Received req] w)) by (unfold w1, handle_all; cbn [foldl]; reflexivity).
  unfold req at 1 in Hw1. rewrite E1 in Hw1. fold req in Hw1.
  pose proof (stored_ltk_step 0x1020 req (device_rsp auth init) (zeros 16) prnd (zeros 16) (zeros 16) (zeros 64) (zeros 32) (zeros 16) (zeros 16) 0 0 rd
    (new_conn id dst ia ra) (ks w) r1 lpk (ecc w) (ident_cbs w) ((log w ++ [Rx req]) ++ [Tx (device_rsp auth init)]) i old Hold Hkey) as E2.
  cbv zeta in E2. rewrite E2 in Hw1. clear E2. set (k2 := sent _ _) in Hw1.
  destruct (encrypt_step c io auth init resp id dst ia ra i old 0x1020 0x1028 (zeros 16) prnd (zeros 16) (zeros 16) (zeros 64) (zeros 32) (zeros 16) (zeros 16) 0 0 rd k2 r1 lpk
    (ecc w) (ident_cbs w) ((log w ++ [Rx req]) ++ [Tx (device_rsp auth init)]) (or_intror eq_refl) Hcentral (zeros_length 16) Hold
    (get_addr_only _ _ _ _ _ _ Eg Honly) (ready_clean _ _ _ _ Hready) Hrd) as (j & k4 & [(ent & Hj & Ha & Hd) _] & _ & E3).
  split; [rewrite Hw1; cbn; apply last_snoc|]. unfold w2. rewrite Hw1. cbv zeta in E3. fold req in E3. rewrite E3. clear E3 Hw1.
  destruct Hrd as [-> | ->]; cbv iota.
  - change (0 =? 0) with true. cbv iota. split; [cbn; by rewrite <- !app_assoc|].
    split; [reflexivity|]. exists ent. split; [|done]. eapply paired_entry, paired_set_log, complete_paired; done.
  - split; [cbn; by rewrite <- !app_assoc|]. split; [reflexivity|]. by exists ent.
Qed.
