(* ===== verification/SmpExample.v ===== *)
(** Pairings of the Security Manager of [Smp] on example data: witnesses, and what goes
    wrong. *)
From Stdlib Require Import ZArith Lia Bool.
From stdpp Require Import base numbers list gmap strings.
From S2P Require Import Prelude ByteOrder Uuid Gatt SettingsKeys Settings Keys Crypto Smp SmpInv SmpPairing SmpSafety SmpEvents SmpHonest.
Open Scope Z_scope.

(** ** Stand-ins for TinyCrypt *)

Definition mix (bs : list Z) : list Z := le_bytes 16 (foldl (fun acc b => (acc * 257 + b + 1) mod 2 ^ 128) 7 bs).

#[export] Instance mixing : Crypto := {
  aes_sched := list Z;
  cmac_state := list Z;
  crypto_aes := {| tc_aes128_set_encrypt_key := Some; tc_aes_encrypt pt key := Some (mix (key ++ pt)) |};
  crypto_cmac := {| tc_cmac_setup := Some; tc_cmac_update c m := (true, c ++ m); tc_cmac_final c := Some (mix c) |} }.

#[export] Instance counting : TinyPrng Z := {
  tc_hmac_prng_init bs := (TC_CRYPTO_SUCCESS, le_value bs);
  tc_hmac_prng_generate len n := (TC_CRYPTO_SUCCESS, le_bytes (Z.to_nat len) (n * 0x123456789abcdef0123456789abcdef), n + 1);
  tc_hmac_prng_reseed _ _ n := (TC_CRYPTO_SUCCESS, n) }.

(** ** A first power-up *)

Abbreviation world := (smp_world ram_nvs Z).

Definition example_smp_world : world :=
  mk_world (smp_zero false) (new_conn 0 BT_ADDR_LE_ANY BT_ADDR_LE_ANY BT_ADDR_LE_ANY)
    (mk_ks [keys_zero] (mk_hci 8 0 false false true [] []) (Some empty_store)) (mk_rand 1 [] 0) (Some auth_cb_display) true false true None
    (mk_ecc true None true false) [] 0 [].

Definition own_addr : bt_addr_le_t := mk_addr 1 [1; 2; 3; 4; 5; 0xc6].
Definition peer_addr : bt_addr_le_t := mk_addr 1 [9; 8; 7; 6; 5; 0xc4].
Definition own_pk : list Z := le_bytes 64 (3 ^ 300).
Definition peer_pk : list Z := le_bytes 64 (5 ^ 200).
Definition shared : list Z := le_bytes 32 (7 ^ 90).

(** A central that can only be typed on, asks for Secure Connections, a bond and
    protection against an attacker in the middle. *)
Definition typing_request : list Z := [BT_SMP_CMD_PAIRING_REQ; BT_SMP_IO_KEYBOARD_ONLY; 0; 0x0d; 16; 0; 0].

(** What the central sends in round [i] for the passkey it read, and its number then. *)
Definition peer_number (i : nat) : list Z := le_bytes 16 (11 ^ (Z.of_nat i + 30)).
Definition peer_round (pk : Z) (i : nat) : list event :=
  [Received (BT_SMP_CMD_PAIRING_CONFIRM :: default [] (smp_f4 peer_pk own_pk (peer_number i) (passkey_bit pk (Z.of_nat i))));
   Received (BT_SMP_CMD_PAIRING_RANDOM :: peer_number i)].

Definition exchange : list event :=
  [Pkey_complete 0 own_pk; Connected 0 peer_addr peer_addr own_addr; Received typing_request;
   Received (BT_SMP_CMD_PUBLIC_KEY :: peer_pk); Dhkey_complete 0 shared].

Definition displayed : Z := Eval vm_compute in passkey (smp (handle_all exchange example_smp_world)).
Definition rounds : list event := mjoin (peer_round displayed <$> seq 0 20).
Definition after_rounds : world := Eval vm_compute in handle_all (exchange ++ rounds) example_smp_world.

(** The central's DHKey check, with the last number it got. *)
Definition peer_check : list Z :=
  let '(mk, _) := smp_f5 shared (peer_number 19) (prnd (smp after_rounds)) peer_addr own_addr in
  default [] (smp_f6 (default [] mk) (peer_number 19) (prnd (smp after_rounds)) (le_bytes 4 displayed ++ zeros 12)
                (drop 1 typing_request) peer_addr own_addr).

Definition honest : list event :=
  exchange ++ rounds ++ [Received (BT_SMP_DHKEY_CHECK :: peer_check); Ltk_request 0 0; Encrypt_change 0 1].

Lemma honest_reaches_l4 :
  let w := handle_all honest example_smp_world in
  sec_level (conn w) = BT_SECURITY_L4 /\ le_keys (conn w) = Some 0%nat.
Proof. vm_compute. done. Qed.

Lemma example_power_up : power_up example_smp_world.
Proof. repeat split. intros (k & ->%list_elem_of_singleton & H). discriminate H. Qed.

Lemma authenticated_only_with_passkey_witness : passkey_proven honest (log (handle_all honest example_smp_world)).
Proof.
  apply (authenticated_only_with_passkey example_smp_world honest example_power_up).
  - vm_compute. reflexivity.
  - vm_compute. reflexivity.
  - left. vm_compute. discriminate.
Defined.

(** ** A central that gets through *)

Lemma mixing_works : crypto_works.
Proof. intros key m. exists (mix (key ++ m)). split; [done|]. apply le_bytes_length. Qed.
Lemma counting_works : random_works (R := Z).
Proof. intros len st. by eexists _, _. Qed.

(** It connects with a private address and has an identity. *)
Definition example_irk : list Z := le_bytes 16 (13 ^ 30).
Definition private_addr (prand : list Z) : bt_addr_le_t := mk_addr BT_ADDR_LE_RANDOM (default [] (ah example_irk prand) ++ prand).
Definition example_central : central :=
  mk_central [BT_SMP_IO_KEYBOARD_DISPLAY; 0; 0x2d; 16; 0x03; 0x01] peer_pk peer_number shared example_irk peer_addr.
Definition first_addr : bt_addr_le_t := private_addr [0x11; 0x22; 0x73].
Definition keyed_world : world := handle (Pkey_complete 0 own_pk) example_smp_world.

Lemma example_typing : typing example_central BT_SMP_IO_KEYBOARD_DISPLAY 0x2d 0x03 0x01.
Proof.
  split; [reflexivity|by right|by repeat split| |intros j; apply le_bytes_length|apply le_bytes_length|by repeat split].
  split; [apply le_bytes_length|]. vm_compute. discriminate.
Qed.

Lemma keyed_ready : ready 0 first_addr own_pk keyed_world.
Proof.
  split; [reflexivity|reflexivity|reflexivity|reflexivity|by repeat split|apply le_bytes_length|reflexivity|reflexivity| | | |].
  - by exists 0%nat.
  - exists 0%nat. intros [|a] ka Ha _; [done|discriminate Ha].
  - intros k Hk _. apply list_elem_of_singleton in Hk. by subst k.
  - by repeat constructor.
Qed.

Lemma honest_pairing_succeeds_witness :
  exists ltk w' ent, central_pairing example_central 0 first_addr first_addr own_addr keyed_world = Some (ltk, w') /\ paired 0 ltk ent w' /\
  length (pool (ks w')) = length (pool (ks keyed_world)) /\
  (nz (0x03 .& BT_SMP_DIST_ID_KEY) = true -> identified 0 (bond_addr example_central first_addr first_addr) ltk (c_irk example_central) ent).
Proof.
  exact (honest_pairing_succeeds keyed_world example_central _ _ _ _ 0 first_addr first_addr own_addr own_pk mixing_works counting_works example_typing keyed_ready).
Defined.

(** ** A key that was never agreed on *)

(** The bond of a device without a keyboard is not authenticated. *)
Definition mute_keys : bt_keys :=
  mk_keys 0 first_addr 0 16 BT_KEYS_SC BT_KEYS_LTK_P256 (mk_ltk (zeros 8) (zeros 2) (le_bytes 16 0x0123456789abcdef)) (mk_irk (zeros 16) (zeros 6)) ltk_zero (zeros 2).
Definition mute_world : world := set_ks (mk_ks [mute_keys] (hci (ks keyed_world)) (settings (ks keyed_world))) keyed_world.

Lemma mute_ready : ready 0 first_addr own_pk mute_world.
Proof.
  split; [reflexivity|reflexivity|reflexivity|reflexivity|by repeat split|apply le_bytes_length|reflexivity|reflexivity| | | |].
  - by exists 0%nat.
  - exists 0%nat. intros [|a] ka Ha _; [done|discriminate Ha].
  - intros k Hk. apply list_elem_of_singleton in Hk. subst k. discriminate.
  - by repeat constructor.
Qed.

Lemma old_key_forges_authentication_witness :
  let req := BT_SMP_CMD_PAIRING_REQ :: c_request example_central in
  let w1 := handle_all [Connected 0 first_addr first_addr own_addr; Received req; Ltk_request 0 0] mute_world in
  let w2 := handle (Encrypt_change 0 1) w1 in
  last (cmds (hci (ks w1))) = Some (LE_LTK_REQ_REPLY (cut_key (enc_size mute_keys) (ltk_val (ltk mute_keys)))) /\
  log w2 = log mute_world ++ [Rx req; Tx (device_rsp 0x2d 0x03); Up (Security_changed BT_SECURITY_L4 BT_SECURITY_ERR_SUCCESS)] /\
  sec_level (conn w2) = BT_SECURITY_L4 /\ exists ent, keys_of w2 = Some ent /\ agreed 0 (zeros 16) ent.
Proof.
  apply (old_key_forges_authentication mute_world example_central BT_SMP_IO_KEYBOARD_DISPLAY 0x2d 0x03 0x01 0 first_addr first_addr own_addr own_pk 0 mute_keys
    counting_works example_typing mute_ready); reflexivity.
Defined.

(** The peer of [exchange] gives up, with the reason 0. *)
Definition paired_world : world := handle_all (take 3 exchange) example_smp_world.

Lemma failed_for_no_reason_is_success_witness :
  let w' := handle (Received [BT_SMP_CMD_PAIRING_FAIL; 0]) paired_world in
  ks w' = (bt_keys_store 0 (ks paired_world)).2 /\ ks w' <> ks paired_world.
Proof.
  split.
  - apply (failed_for_no_reason_is_success paired_world 0); vm_compute; reflexivity.
  - vm_compute. discriminate.
Defined.

(** ** The bond of the honest central *)

Definition honest_keys : bt_keys := Eval vm_compute in default keys_zero (pool (ks (handle_all honest example_smp_world)) !! 0%nat).
Definition honest_state : key_state ram_nvs := mk_ks [honest_keys] (mk_hci 8 0 false false true [] []) (Some empty_store).
Definition restarted : key_state ram_nvs := mk_ks [keys_zero] (mk_hci 8 0 false false true [] []) None.

Lemma bytes_okb bs : forallb (fun b => (0 <=? b) && (b <? 256)) bs = true -> bytes_ok bs.
Proof.
  intros H. apply Forall_forall. intros b Hb%list_elem_of_In. rewrite forallb_forall in H. specialize (H b Hb).
  rewrite andb_true_iff, Z.leb_le, Z.ltb_lt in H. exact H.
Qed.

Lemma honest_keys_wf : keys_wf honest_keys.
Proof. split; try (by vm_compute); repeat split; try (by vm_compute); by apply bytes_okb; vm_compute. Qed.

Lemma bond_survives_restart_witness :
  exists cf1, settings (bt_keys_store 0 honest_state).2 = Some cf1 /\
  let cf2 := settings_nvs_backend_init (cf_nvs cf1) in
  let '(err, store, ks3) := settings_load [bt_keys_handler (zeros 6)] (Some cf2) restarted in
  err = 0 /\ store = Some cf2 /\
  exists j k', bt_keys_find_addr (keys_id honest_keys) (keys_addr honest_keys) (pool ks3) = Some j /\ pool ks3 !! j = Some k' /\ same_bond honest_keys k'.
Proof.
  apply (bond_survives_restart honest_state (bt_keys_store 0 honest_state).2 restarted empty_store 0 1 honest_keys (zeros 6)).
  - reflexivity.
  - exact empty_store_ok.
  - intros _. apply ram_takes.
  - reflexivity.
  - exact honest_keys_wf.
  - reflexivity.
  - vm_compute. repeat split; auto. repeat constructor; discriminate.
  - discriminate.
  - intros n v Hh. destruct Hh as (i & Hi & _). unfold used in Hi. cbn in Hi. lia.
  - vm_compute. reflexivity.
  - reflexivity.
  - lia.
  - reflexivity.
Defined.
