(* ===== verification/Identity.v ===== *)
(** Peers that use private addresses ([bt_keys_find_irk] of [subsys/bluetooth/host/keys.c]
    and the beginning of [enh_conn_complete] in [host/hci_core.c]): an address is resolved
    with the identity keys of the bonds, by the controller or by the host, and the
    connection gets the identity address, under which the bond is found. *)
From Stdlib Require Import ZArith Lia Bool.
From stdpp Require Import base numbers list gmap strings.
From S2P Require Import Prelude ByteOrder Uuid Gatt SettingsKeys Settings Keys Crypto Smp SmpInv SmpPairing SmpEvents SmpHonest SmpExample.
Open Scope Z_scope.

Definition BT_ADDR_LE_PUBLIC_ID : Z := 2.
Definition BT_ADDR_LE_RANDOM_ID : Z := 3.

(** What is used of [struct bt_hci_evt_le_enh_conn_complete]. *)
Record bt_hci_evt_le_enh_conn_complete := mk_enh { evt_status : Z; evt_peer_addr : bt_addr_le_t; evt_peer_rpa : list Z }.

Definition with_rpa (rpa : list Z) (k : bt_keys) : bt_keys := with_irk (mk_irk (irk_val (irk k)) rpa) k.

Section definitions.
Context {F R : Type} `{!Nvs F, !TinyPrng R, !Crypto}.
Implicit Types (ks : key_state F) (w : smp_world F R) (id : Z) (addr : bt_addr_le_t) (i : nat) (k : bt_keys).

(** The entries the two loops stop at. *)
Definition cached_rpa id addr k : bool :=
  nz (keys_keys k .& BT_KEYS_IRK) && (keys_id k =? id) && bool_decide (addr_val addr = irk_rpa (irk k)).
Definition irk_resolves id addr k : bool :=
  nz (keys_keys k .& BT_KEYS_IRK) && (keys_id k =? id) && bt_rpa_irk_matches (irk_val (irk k)) (addr_val addr).

Definition bt_keys_find_irk id addr ks : option nat * key_state F :=
  if negb (bt_addr_le_is_rpa addr) then (None, ks)
  else
    match find_index (cached_rpa id addr) (pool ks) with
    | Some i => (Some i, ks)
    | None =>
        match find_index (irk_resolves id addr) (pool ks) with
        | Some i => (Some i, alter_key (with_rpa (addr_val addr)) i ks)
        | None => (None, ks)
        end
    end.

Definition bt_lookup_id_addr id addr ks : bt_addr_le_t * key_state F :=
  match bt_keys_find_irk id addr ks with
  | (Some i, ks) => (match pool ks !! i with Some k => keys_addr k | None => addr end, ks)
  | (None, ks) => (addr, ks)
  end.

Definition pending_id_update i ks : key_state F :=
  match pool ks !! i with
  | None => ks
  | Some k =>
      if nz (keys_state k .& BT_KEYS_ID_PENDING_ADD) then
        bt_id_add i (alter_key (with_state (fun s => Z.ldiff s BT_KEYS_ID_PENDING_ADD)) i ks)
      else if nz (keys_state k .& BT_KEYS_ID_PENDING_DEL) then
        bt_id_del i (alter_key (with_state (fun s => Z.ldiff s BT_KEYS_ID_PENDING_DEL)) i ks)
      else ks
  end.

Definition clear_id_pending (h : hci_dev) : hci_dev :=
  mk_hci (rl_size h) (rl_entries h) false (connecting h) (privacy_mode_cmd h) (cmd_results h) (cmds h).

(** Without the central role. *)
Definition pending_id_keys_update ks : key_state F :=
  if id_pending (hci ks) then bt_keys_foreach BT_KEYS_IRK pending_id_update (set_hci (clear_id_pending (hci ks)) ks) else ks.

(** The identity address of the peer, and the address it connected with. *)
Definition peer_addresses id (evt : bt_hci_evt_le_enh_conn_complete) ks : bt_addr_le_t * bt_addr_le_t * key_state F :=
  let a := evt_peer_addr evt in
  if (addr_type a =? BT_ADDR_LE_PUBLIC_ID) || (addr_type a =? BT_ADDR_LE_RANDOM_ID) then
    (mk_addr (addr_type a - BT_ADDR_LE_PUBLIC_ID) (addr_val a), mk_addr BT_ADDR_LE_RANDOM (evt_peer_rpa evt), ks)
  else
    let '(id_addr, ks) := bt_lookup_id_addr id a ks in (id_addr, a, ks).

(** The event of a connection in the peripheral role, for the identity [id] that was
    advertised with its address [own]: up to the states of the connection object and of
    advertising. *)
Definition enh_conn_complete id (own : bt_addr_le_t) (evt : bt_hci_evt_le_enh_conn_complete) w : smp_world F R :=
  let w := set_ks (pending_id_keys_update (ks w)) w in
  if nz (evt_status evt) then w
  else
    let '(id_addr, peer_addr, s) := peer_addresses id evt (ks w) in
    handle (Connected id id_addr peer_addr own) (set_ks s w).
End definitions.

Section facts.
Context {F R : Type} `{!Nvs F, !TinyPrng R, !Crypto}.
Implicit Types (ks : key_state F) (w : smp_world F R) (id : Z) (addr : bt_addr_le_t) (i : nat) (k : bt_keys).

Lemma ids_pending_update ks : ids_only ks (pending_id_keys_update ks).
Proof.
  unfold pending_id_keys_update. destruct (id_pending _); [|reflexivity]. etrans; [apply ids_set_hci|]. apply ids_foreach.
  clear ks. intros i ks. unfold pending_id_update. destruct (pool ks !! i) as [k|]; [|reflexivity].
  destruct (nz _); [etrans; [apply ids_with_state|apply ids_bt_id_add]|].
  destruct (nz _); [etrans; [apply ids_with_state|apply ids_bt_id_del]|reflexivity].
Qed.

(** The bond of a peer with the identity key of [k] is at [i], and no other entry goes
    for this address. *)
Record bond_of id addr i k ks : Prop := {
  bond_at : pool ks !! i = Some k;
  bond_id : keys_id k = id;
  bond_irk : nz (keys_keys k .& BT_KEYS_IRK) = true;
  bond_resolves : bt_rpa_irk_matches (irk_val (irk k)) (addr_val addr) = true;
  bond_no_other : forall j k', pool ks !! j = Some k' -> j <> i -> cached_rpa id addr k' = false /\ irk_resolves id addr k' = false;
  bond_alone : forall j k', pool ks !! j = Some k' -> key_is id (keys_addr k) k' = true -> j = i }.

Lemma find_index_only {A} (P : A -> bool) (l : list A) i x :
  l !! i = Some x -> (forall j y, l !! j = Some y -> j <> i -> P y = false) -> find_index P l = if P x then Some i else None.
Proof.
  intros Hx Ho. destruct (P x) eqn:E.
  - apply find_index_Some. exists x. split; [done|]. split; [done|]. intros j y Hy Hj. eapply Ho; [exact Hy|lia].
  - apply find_index_None. intros y [j Hj]%list_elem_of_lookup. destruct (decide (j = i)) as [->|Hne]; [congruence|by eapply Ho].
Qed.

(** The bond is found; nothing of the pool changes but for the cached address. *)
Definition recached i k ks ks' : Prop := exists k', pool ks' = <[i := k']> (pool ks) /\ with_rpa [] k' = with_rpa [] k.

Lemma recached_refl i k ks : pool ks !! i = Some k -> recached i k ks ks.
Proof. intros Hk. exists k. by rewrite list_insert_id. Qed.

Lemma lookup_bond id addr i k ks : bt_addr_le_is_rpa addr = true -> bond_of id addr i k ks ->
  exists ks', bt_lookup_id_addr id addr ks = (keys_addr k, ks') /\ recached i k ks ks'.
Proof.
  intros Hr [Hk Hid Hi Hm Ho _]. unfold bt_lookup_id_addr, bt_keys_find_irk. rewrite Hr. cbn [negb].
  rewrite (find_index_only _ _ i k Hk) by (intros; by eapply Ho). destruct (cached_rpa id addr k) eqn:Ec.
  - rewrite Hk. eauto using recached_refl.
  - rewrite (find_index_only _ _ i k Hk) by (intros; by eapply Ho). unfold irk_resolves. rewrite Hi, Hid, Z.eqb_refl, Hm. cbn [andb].
    cbn. rewrite list_lookup_alter_eq, Hk. eexists. split; [reflexivity|]. exists (with_rpa (addr_val addr) k).
    split; [|done]. cbn. apply list_eq. intros j. destruct (decide (i = j)) as [<-|Hne].
    + rewrite list_lookup_alter_eq, list_lookup_insert_eq, Hk by (by eapply lookup_lt_Some). done.
    + by rewrite list_lookup_alter_ne, list_lookup_insert_ne.
Qed.

Lemma bond_of_ids id addr i k ks ks' : ids_only ks ks' -> bond_of id addr i k ks ->
  exists k', bond_of id addr i k' ks' /\ same_bond k k'.
Proof.
  intros Hids [Hk Hid Hi Hm Ho Ha]. destruct (ids_lookup _ _ _ _ Hids Hk) as (k' & Hk' & Hs). exists k'. split; [|done].
  assert (E : forall {A} (f : bt_keys -> A) (x y : bt_keys), same_bond x y -> (forall z, f (with_state (fun _ => 0) z) = f z) -> f y = f x).
  { intros A f x y Hb Hf. rewrite <- (Hf x), <- (Hf y). by f_equal. }
  destruct Hids as [Hp _]. split; [done|by rewrite (E _ keys_id _ _ Hs)|by rewrite (E _ keys_keys _ _ Hs)|by rewrite (E _ irk _ _ Hs)| |].
  - intros j y Hy Hne. destruct (Forall2_lookup_r _ _ _ _ _ Hp Hy) as (x & Hx & Hxy).
    rewrite (E _ (cached_rpa id addr) _ _ Hxy), (E _ (irk_resolves id addr) _ _ Hxy) by done. by eapply Ho.
  - intros j y Hy Hke. destruct (Forall2_lookup_r _ _ _ _ _ Hp Hy) as (x & Hx & Hxy).
    rewrite (E _ keys_addr _ _ Hs), (E _ (key_is id _) _ _ Hxy) in Hke by done. by eapply Ha.
Qed.

(** The controller reports the address it saw, or the identity address it resolved. *)
Definition reported (rpa : bt_addr_le_t) k (evt : bt_hci_evt_le_enh_conn_complete) : Prop :=
  evt_peer_addr evt = rpa /\ bt_addr_le_is_rpa rpa = true \/
  evt_peer_addr evt = mk_addr (addr_type (keys_addr k) + BT_ADDR_LE_PUBLIC_ID) (addr_val (keys_addr k)) /\
  (addr_type (keys_addr k) = BT_ADDR_LE_PUBLIC \/ addr_type (keys_addr k) = BT_ADDR_LE_RANDOM).

Lemma addresses_of_bond id rpa i k evt ks : reported rpa k evt -> bond_of id rpa i k ks ->
  exists peer ks', peer_addresses id evt ks = (keys_addr k, peer, ks') /\
  recached i k ks ks'.
Proof.
  unfold peer_addresses. intros [[-> Hr]|[Ee Ht]] Hb.
  - assert (addr_type rpa = BT_ADDR_LE_RANDOM) as -> by (unfold bt_addr_le_is_rpa in Hr; lia). cbn [orb].
    destruct (lookup_bond _ _ _ _ _ Hr Hb) as (ks' & E & Hp). change (false || false) with false. rewrite E. eauto.
  - rewrite Ee. cbn [addr_type addr_val]. destruct (keys_addr k) as [ty v]. cbn in *. exists (mk_addr BT_ADDR_LE_RANDOM (evt_peer_rpa evt)), ks.
    split; [by destruct Ht as [-> | ->]|]. by eapply recached_refl, bond_at.
Qed.

Lemma connected_ks id dst ia ra w : ks (handle (Connected id dst ia ra) w) = ks w.
Proof. cbn [handle]. unfold bt_smp_connected. by rewrite reset_ks. Qed.
Lemma connected_conn id dst ia ra w : conn (handle (Connected id dst ia ra) w) = new_conn id dst ia ra.
Proof. reflexivity. Qed.
Lemma connected_flags id dst ia ra w : flags (smp (handle (Connected id dst ia ra) w)) = 0.
Proof. reflexivity. Qed.

Lemma request_ltk_bond w i k :
  flags (smp w) = 0 -> le_keys (conn w) = None -> bt_keys_find BT_KEYS_LTK_P256 (le_id (conn w)) (le_dst (conn w)) (pool (ks w)) = Some i ->
  pool (ks w) !! i = Some k -> nz (keys_keys k .& BT_KEYS_LTK_P256) = true ->
  (bt_smp_request_ltk 0 0 w).1 = Some (cut_key (enc_size k) (ltk_val (ltk k))).
Proof.
  intros Hf Hn Hi Hk Hb. unfold bt_smp_request_ltk. unfold has at 1. rewrite Hf, Z.testbit_0_l. cbn [Z.eqb andb].
  unfold stored_ltk, conn_find_keys. rewrite Hn. cbn [foldl]. rewrite Hi. unfold keys_of. cbn. by rewrite Hk, Hb.
Qed.

(** The entry of the bond is still found under the identity address. *)
Lemma bond_entry id rpa i k ks ks' : bond_of id rpa i k ks -> nz (keys_keys k .& BT_KEYS_LTK_P256) = true -> recached i k ks ks' ->
  bt_keys_find BT_KEYS_LTK_P256 id (keys_addr k) (pool ks') = Some i /\
  exists k', pool ks' !! i = Some k' /\ with_rpa [] k' = with_rpa [] k.
Proof.
  intros [Hk Hid _ _ _ Ha] Hb (k' & Hp & Hs). assert (Hk' : pool ks' !! i = Some k').
  { rewrite Hp, list_lookup_insert_eq by (by eapply lookup_lt_Some). done. }
  split; [|by exists k']. unfold bt_keys_find. rewrite (find_index_only _ _ i k' Hk').
  - rewrite (f_equal keys_keys Hs : keys_keys k' = keys_keys k), Hb. unfold key_is.
    rewrite (f_equal keys_id Hs : keys_id k' = keys_id k), (f_equal keys_addr Hs : keys_addr k' = keys_addr k), Hid, Z.eqb_refl. cbn. by rewrite bool_decide_true.
  - intros j y Hy Hne. rewrite Hp, list_lookup_insert_ne in Hy by done. apply andb_false_iff. right. apply not_true_is_false.
    intros Hke. by apply Hne, (Ha _ _ Hy).
Qed.

(** A bonded peer that comes back under any private address made with its identity key
    is recognised, whether the controller or the host resolves the address: the
    connection has its identity address, and the controller gets the long-term key of
    the bond. *)
Lemma bonded_peer_reconnects w id own evt rpa i k
    (Hstatus : evt_status evt = 0) (Hbond : bond_of id rpa i k (ks w)) (Hltk : nz (keys_keys k .& BT_KEYS_LTK_P256) = true)
    (Hevt : reported rpa k evt) :
  let w' := enh_conn_complete id own evt w in
  le_dst (conn w') = keys_addr k /\ (bt_smp_request_ltk 0 0 w').1 = Some (cut_key (enc_size k) (ltk_val (ltk k))).
Proof.
  unfold enh_conn_complete. rewrite Hstatus. cbn [nz negb Z.eqb ks set_ks].
  destruct (bond_of_ids _ _ _ _ _ _ (ids_pending_update (ks w)) Hbond) as (k' & Hb & Hs).
  assert (Hr : reported rpa k' evt) by (unfold reported; by rewrite <- (f_equal keys_addr Hs : keys_addr k = keys_addr k')).
  destruct (addresses_of_bond _ _ _ _ _ _ Hr Hb) as (peer & s & -> & Hp).
  rewrite (f_equal keys_keys Hs : keys_keys k = keys_keys k') in Hltk. destruct (bond_entry _ _ _ _ _ _ Hb Hltk Hp) as (Hi & k2 & Hk2 & Hs2).
  rewrite connected_conn. split; [exact (f_equal keys_addr (symmetry Hs))|].
  rewrite (request_ltk_bond _ i k2); [|done|done|by rewrite connected_ks|by rewrite connected_ks|].
  - by rewrite (f_equal enc_size Hs2 : enc_size k2 = enc_size k'), (f_equal ltk Hs2 : ltk k2 = ltk k'),
      <- (f_equal enc_size Hs : enc_size k = enc_size k'), <- (f_equal ltk Hs : ltk k = ltk k').
  - by rewrite (f_equal keys_keys Hs2 : keys_keys k2 = keys_keys k').
Qed.
(** A disconnection leaves the bond. *)
Lemma disconnected_bond w ent : keys_of w = Some ent -> nz (keys_keys ent) = true -> nz (keys_flags ent .& BT_KEYS_DEBUG) = false ->
  ks (handle Disconnected w) = ks w.
Proof.
  intros Hk Hn Hd. cbn [handle]. unfold bt_smp_disconnected. rewrite Hk. unfold keys_of in Hk. destruct (le_keys (conn w)); [|done].
  by rewrite Hn, Hd.
Qed.
End facts.

(** The addresses [bt_rpa_create] makes with a key are private ones that resolve with it. *)
Lemma created_resolves `{!Crypto} {St} (rand : Z -> St -> Z * list Z * St) irk st st' rpa :
  (forall s, length (rand 3 s).1.2 = 3%nat) -> (forall r h, ah irk r = Some h -> length h = 3%nat) ->
  bt_rpa_create rand irk st = (inr rpa, st') -> bt_rpa_irk_matches irk rpa = true /\ bt_addr_le_is_rpa (mk_addr BT_ADDR_LE_RANDOM rpa) = true.
Proof.
  intros Hr Hh. unfold bt_rpa_create. specialize (Hr st). destruct (rand 3 st) as [[err buf] s]. cbn in Hr. destruct (nz err); [done|].
  destruct buf as [|b0 [|b1 [|b2 [|]]]]; try done. cbn [alter list_alter]. set (r := [b0; b1; _]). destruct (ah irk r) as [h|] eqn:E; [|done].
  intros [= <- _]. pose proof (Hh _ _ E) as Hl. destruct h as [|h0 [|h1 [|h2 [|]]]]; try done. split.
  - unfold bt_rpa_irk_matches. change (take 3 (drop 3 ([h0; h1; h2] ++ r))) with r. rewrite E. by apply bool_decide_true.
  - unfold bt_addr_le_is_rpa. cbn -[Z.land Z.lor]. rewrite Z.land_lor_distr_l, <- Z.land_assoc. change (0x3f .& 0xc0) with 0. by rewrite Z.land_0_r.
Qed.

Lemma nz_land_l a b : nz (a .& b) = true -> nz a = true.
Proof. unfold nz. destruct (Z.eqb_spec a 0) as [->|]; [|done]. by rewrite Z.land_0_l. Qed.

Lemma sole_entry {A} (l : list A) i x : length l = 1%nat -> l !! i = Some x -> l = [x] /\ i = 0%nat.
Proof. destruct l as [|y [|z l]]; [done| |done]. intros _. destruct i as [|i]; [|done]. by intros [= ->]. Qed.

(** C14. From pairing to the next connection, with one entry for bonds as the application
    has it: an honest central that paired with the passkey and gave its identity key
    disconnects and comes back with any private address made with that key, resolved by
    the controller or by the host; it is taken for the peer it is, and the controller
    is given the key both sides agreed on. *)
Theorem paired_central_comes_back {F R : Type} `{!Nvs F, !TinyPrng R} {cr : Crypto} (w : smp_world F R) c io auth init resp id dst ia ra lpk own evt rpa
    (crypto : crypto_works) (random : random_works (R := R)) (Hcentral : typing c io auth init resp) (Hready : ready id dst lpk w)
    (Hone : length (pool (ks w)) = 1%nat) (Hid : nz (init .& BT_SMP_DIST_ID_KEY) = true)
    (Hmade : bt_rpa_irk_matches (c_irk c) (addr_val rpa) = true) (Hstatus : evt_status evt = 0)
    (Hevt : reported rpa (with_addr id (bond_addr c dst ia) keys_zero) evt) :
  exists ltk w1, central_pairing c id dst ia ra w = Some (ltk, w1) /\
  let w2 := enh_conn_complete id own evt (handle Disconnected w1) in
  le_dst (conn w2) = bond_addr c dst ia /\ (bt_smp_request_ltk 0 0 w2).1 = Some ltk.
Proof.
  destruct (honest_pairing_works w c io auth init resp id dst ia ra lpk crypto random Hcentral Hready) as (ltk & w1 & ent & E & Hp & Hlen & Hi).
  exists ltk, w1. split; [done|]. specialize (Hi Hid). destruct Hi as [Ha Hd Hb Hk]. pose proof Ha as [Aid [Al A16] Ap _ _ Ad As].
  assert (Hks : ks (handle Disconnected w1) = ks w1) by (apply (disconnected_bond w1 ent); [apply Hp|by apply nz_land_l in Ap|done]).
  pose proof (paired_entry _ _ _ _ Hp) as He. unfold keys_of in He. destruct (le_keys (conn w1)) as [i|]; [|done]. cbn in He.
  destruct (sole_entry (pool (ks w1)) i ent) as [Hpool ->]; [congruence|done|].
  assert (Hbond : bond_of id rpa 0 ent (ks (handle Disconnected w1))).
  { rewrite Hks. split; [by rewrite Hpool|done|done|by rewrite Hk| |]; rewrite Hpool; intros [|j] k' Hj; by try discriminate Hj. }
  assert (Hr : reported rpa ent evt) by (unfold reported in *; rewrite Hd; exact Hevt).
  destruct (bonded_peer_reconnects (handle Disconnected w1) id own evt rpa 0 ent Hstatus Hbond Ap Hr) as [H1 H2].
  rewrite <- Hd. split; [exact H1|]. rewrite H2, As, Al. change (cut_key BT_SMP_MAX_ENC_KEY_SIZE ltk) with (take 16 ltk ++ []).
  by rewrite app_nil_r, take_ge by lia.
Qed.

(** The central of [SmpExample] with another private address. *)
Lemma paired_central_comes_back_witness :
  let evt := mk_enh 0 (private_addr [0x21; 0x43; 0x65]) (zeros 6) in
  exists ltk w1, central_pairing example_central 0 first_addr first_addr own_addr keyed_world = Some (ltk, w1) /\
  let w2 := enh_conn_complete 0 own_addr evt (handle Disconnected w1) in
  le_dst (conn w2) = bond_addr example_central first_addr first_addr /\ (bt_smp_request_ltk 0 0 w2).1 = Some ltk.
Proof.
  apply (paired_central_comes_back keyed_world example_central BT_SMP_IO_KEYBOARD_DISPLAY 0x2d 0x03 0x01 0 first_addr first_addr own_addr own_pk own_addr
    (mk_enh 0 (private_addr [0x21; 0x43; 0x65]) (zeros 6)) (private_addr [0x21; 0x43; 0x65]) mixing_works counting_works example_typing keyed_ready).
  - reflexivity.
  - reflexivity.
  - vm_compute. reflexivity.
  - reflexivity.
  - left. split; [reflexivity|vm_compute; reflexivity].
Defined.
