(* ===== verification/NvsFs.v ===== *)
(** The non-volatile storage ([subsys/fs/nvs/nvs.c], [nvs_priv.h]): entries with
    16-bit identifiers, written one after the other into flash sectors.

    Data grow from the start of a sector, the allocation table entries (ates) that
    describe them from its end; the last ate position of a sector is its closing ate.
    Addresses have the sector in the upper and the offset in the lower 16 bits.  When
    a sector is full the next one is started, and what is still current in the
    sector after that is moved there, so that one sector is always empty.

    The flash is the class [Flash].  The mutex is left out: one thread at a time is
    in this code. *)
From Stdlib Require Import ZArith Lia Bool.
From stdpp Require Import base numbers list.
From S2P Require Import Prelude ByteOrder Uuid Crc.
Open Scope Z_scope.

(** ** The flash driver

    The functions of [include/drivers/flash.h] and the fields of
    [struct flash_parameters]; of [struct flash_pages_info], the size. *)
Class Flash (D : Type) := {
  flash_read : D -> Z -> Z -> Z * list Z;
  flash_write : Z -> list Z -> D -> Z * D;
  flash_erase : Z -> Z -> D -> Z * D;
  flash_write_protection_set : bool -> D -> Z * D;
  flash_get_page_info_by_offs : D -> Z -> Z * Z;
  write_block_size : Z;
  erase_value : Z }.

Definition ADDR_SECT_MASK : Z := 0xFFFF0000.
Definition ADDR_SECT_SHIFT : Z := 16.
Definition ADDR_OFFS_MASK : Z := 0x0000FFFF.
Definition NVS_BLOCK_SIZE : Z := 32.

(** [struct nvs_ate], packed. *)
Record nvs_ate := mk_ate { ate_id : Z; ate_offset : Z; ate_len : Z; ate_part : Z; ate_crc8 : Z }.
Definition sizeof_ate : Z := 8.
Definition ate_head (e : nvs_ate) : list Z :=
  le_bytes 2 (ate_id e) ++ le_bytes 2 (ate_offset e) ++ le_bytes 2 (ate_len e) ++ [u8 (ate_part e)].
Definition ate_bytes (e : nvs_ate) : list Z := ate_head e ++ [u8 (ate_crc8 e)].
Definition ate_of (bs : list Z) : nvs_ate :=
  mk_ate (le_value (take 2 bs)) (le_value (take 2 (drop 2 bs))) (le_value (take 2 (drop 4 bs)))
    (default 0 (bs !! 6%nat)) (default 0 (bs !! 7%nat)).

(** [struct nvs_fs]. *)
Record nvs_fs (D : Type) := mk_fs {
  fs_flash : D; fs_offset : Z; ate_wra : Z; data_wra : Z; sector_size : Z; sector_count : Z; fs_ready : bool }.
Arguments mk_fs {D}.
Arguments fs_flash {D}.
Arguments fs_offset {D}.
Arguments ate_wra {D}.
Arguments data_wra {D}.
Arguments sector_size {D}.
Arguments sector_count {D}.
Arguments fs_ready {D}.

(** The result of a loop whose fuel is used up; on a storage with a layout ([NvsLayout]) it does not occur. *)
Definition NVS_STUCK : Z := - 1000.

Section nvs.
Context {D : Type} `{!Flash D}.
Implicit Types (fs : nvs_fs D) (addr len : Z) (data : list Z) (entry : nvs_ate).

Definition set_flash (d : D) fs : nvs_fs D :=
  mk_fs d (fs_offset fs) (ate_wra fs) (data_wra fs) (sector_size fs) (sector_count fs) (fs_ready fs).
Definition set_wra (ate data : Z) fs : nvs_fs D :=
  mk_fs (fs_flash fs) (fs_offset fs) ate data (sector_size fs) (sector_count fs) (fs_ready fs).
Definition set_ready (b : bool) fs : nvs_fs D :=
  mk_fs (fs_flash fs) (fs_offset fs) (ate_wra fs) (data_wra fs) (sector_size fs) (sector_count fs) b.

Definition nvs_al_size len : Z :=
  if write_block_size <=? 1 then len else u32 (len + (write_block_size - 1)) .& not32 (write_block_size - 1).

Definition ate_size : Z := nvs_al_size sizeof_ate.

(** ** Flash routines *)

Definition phys fs addr : Z := fs_offset fs + sector_size fs * (addr .>> ADDR_SECT_SHIFT) + (addr .& ADDR_OFFS_MASK).

Definition nvs_flash_al_wrt addr data fs : Z * nvs_fs D :=
  match data with
  | [] => (0, fs)
  | _ =>
      let len := Z.of_nat (length data) in
      let offset := phys fs addr in
      let '(rc, d) := flash_write_protection_set false (fs_flash fs) in
      if nz rc then (rc, set_flash d fs)
      else
        let blen := len .& not32 (write_block_size - 1) in
        let '(rc, d) := if 0 <? blen then flash_write offset (take (Z.to_nat blen) data) d else (0, d) in
        let '(rc, d) :=
          if nz rc then (rc, d)
          else if nz (len - blen) then
            flash_write (offset + blen)
              (drop (Z.to_nat blen) data ++ replicate (Z.to_nat (write_block_size - (len - blen))) erase_value) d
          else (rc, d) in
        let '(_, d) := flash_write_protection_set true d in
        (rc, set_flash d fs)
  end.

Definition nvs_flash_rd fs addr len : Z * list Z := flash_read (fs_flash fs) (phys fs addr) len.

Definition nvs_flash_ate_wrt entry fs : Z * nvs_fs D :=
  let '(rc, fs) := nvs_flash_al_wrt (ate_wra fs) (ate_bytes entry) fs in
  (rc, set_wra (u32 (ate_wra fs - ate_size)) (data_wra fs) fs).

Definition nvs_flash_data_wrt data fs : Z * nvs_fs D :=
  let '(rc, fs) := nvs_flash_al_wrt (data_wra fs) data fs in
  (rc, set_wra (ate_wra fs) (u32 (data_wra fs + nvs_al_size (Z.of_nat (length data)))) fs).

Definition nvs_flash_ate_rd fs addr : Z * nvs_ate :=
  let '(rc, bs) := nvs_flash_rd fs addr sizeof_ate in (rc, ate_of bs).

Definition block_size : Z := NVS_BLOCK_SIZE .& not32 (write_block_size - 1).

(** Block by block; each step takes at least one byte. *)
Fixpoint block_cmp_loop (fuel : nat) fs addr data : Z :=
  match fuel, data with
  | S fuel, _ :: _ =>
      let n := Z.min block_size (Z.of_nat (length data)) in
      let '(rc, buf) := nvs_flash_rd fs addr n in
      if nz rc then rc
      else if nz (memcmp (take (Z.to_nat n) data) buf) then 1
      else block_cmp_loop fuel fs (u32 (addr + n)) (drop (Z.to_nat n) data)
  | _, _ => 0
  end.
Definition nvs_flash_block_cmp fs addr data : Z := block_cmp_loop (length data) fs addr data.

Fixpoint cmp_const_loop (fuel : nat) fs addr (value : Z) len : Z :=
  match fuel with
  | O => 0
  | S fuel =>
      if len =? 0 then 0
      else
        let n := Z.min block_size len in
        let rc := nvs_flash_block_cmp fs addr (replicate (Z.to_nat n) value) in
        if nz rc then rc else cmp_const_loop fuel fs (u32 (addr + n)) value (len - n)
  end.
Definition nvs_flash_cmp_const fs addr (value len : Z) : Z := cmp_const_loop (Z.to_nat len) fs addr value len.

Fixpoint block_move_loop (fuel : nat) addr len fs : Z * nvs_fs D :=
  match fuel with
  | O => (0, fs)
  | S fuel =>
      if len =? 0 then (0, fs)
      else
        let n := Z.min block_size len in
        let '(rc, buf) := nvs_flash_rd fs addr n in
        if nz rc then (rc, fs)
        else
          let '(rc, fs) := nvs_flash_data_wrt buf fs in
          if nz rc then (rc, fs) else block_move_loop fuel (u32 (addr + n)) (len - n) fs
  end.
Definition nvs_flash_block_move addr len fs : Z * nvs_fs D := block_move_loop (Z.to_nat len) addr len fs.

Definition nvs_flash_erase_sector addr fs : Z * nvs_fs D :=
  let addr := addr .& ADDR_SECT_MASK in
  let rc := nvs_flash_cmp_const fs addr erase_value (sector_size fs) in
  if rc <=? 0 then (rc, fs)
  else
    let offset := fs_offset fs + sector_size fs * (addr .>> ADDR_SECT_SHIFT) in
    let '(rc, d) := flash_write_protection_set false (fs_flash fs) in
    if nz rc then (rc, set_flash d fs)
    else
      let '(rc, d) := flash_erase offset (sector_size fs) d in
      if nz rc then (rc, set_flash d fs)
      else let '(_, d) := flash_write_protection_set true d in (0, set_flash d fs).

Definition nvs_ate_crc8_update entry : nvs_ate :=
  mk_ate (ate_id entry) (ate_offset entry) (ate_len entry) (ate_part entry) (crc8_ccitt 0xff (ate_head entry)).

(** 0 if the checksum is right. *)
Definition nvs_ate_crc8_check entry : Z := if crc8_ccitt 0xff (ate_head entry) =? ate_crc8 entry then 0 else 1.

Definition nvs_ate_cmp_const entry (value : Z) : Z := if forallb (Z.eqb value) (ate_bytes entry) then 0 else 1.

Definition nvs_flash_wrt_entry (id : Z) data fs : Z * nvs_fs D :=
  let entry := nvs_ate_crc8_update (mk_ate id (u16 (data_wra fs .& ADDR_OFFS_MASK)) (u16 (Z.of_nat (length data))) 0xff 0) in
  let '(rc, fs) := nvs_flash_data_wrt data fs in
  if nz rc then (rc, fs) else nvs_flash_ate_wrt entry fs.

(** ** Walking through the entries *)

(** Goes down through the ates of a sector: the last valid one, if any. *)
Fixpoint recover_loop (fuel : nat) fs (ate_end_addr data_end_addr addr : Z) : Z * Z :=
  match fuel with
  | O => (NVS_STUCK, addr)
  | S fuel =>
      if data_end_addr <? ate_end_addr then
        let '(rc, end_ate) := nvs_flash_ate_rd fs ate_end_addr in
        if nz rc then (rc, addr)
        else
          let '(data_end_addr, addr) :=
            if nvs_ate_crc8_check end_ate =? 0
            then (u32 ((data_end_addr .& ADDR_SECT_MASK) + ate_offset end_ate + ate_len end_ate), ate_end_addr)
            else (data_end_addr, addr) in
          recover_loop fuel fs (u32 (ate_end_addr - ate_size)) data_end_addr addr
      else (0, addr)
  end.
Definition nvs_recover_last_ate fs addr : Z * Z :=
  let addr := u32 (addr - ate_size) in
  recover_loop (Z.to_nat (sector_size fs)) fs addr (addr .& ADDR_SECT_MASK) addr.

(** The result, the address of the entry before, and the entry. *)
Definition nvs_prev_ate fs addr : Z * Z * nvs_ate :=
  let '(rc, ate) := nvs_flash_ate_rd fs addr in
  if nz rc then (rc, addr, ate)
  else
    let addr := u32 (addr + ate_size) in
    if negb ((addr .& ADDR_OFFS_MASK) =? sector_size fs - ate_size) then (0, addr, ate)
    else
      let addr :=
        if (addr .>> ADDR_SECT_SHIFT) =? 0
        then u32 (addr + ((sector_count fs - 1) .<< ADDR_SECT_SHIFT))
        else u32 (addr - (1 .<< ADDR_SECT_SHIFT)) in
      let '(rc, close_ate) := nvs_flash_ate_rd fs addr in
      if nz rc then (rc, addr, ate)
      else if nvs_ate_cmp_const close_ate erase_value =? 0 then (0, ate_wra fs, ate)
      else if (nvs_ate_crc8_check close_ate =? 0) && (ate_offset close_ate <? sector_size fs - ate_size) &&
              (ate_offset close_ate mod ate_size =? 0)
      then (0, u32 ((addr .& ADDR_SECT_MASK) + ate_offset close_ate), ate)
      else let '(rc, addr) := nvs_recover_last_ate fs addr in (rc, addr, ate).

Definition nvs_sector_advance fs addr : Z :=
  let addr := u32 (addr + (1 .<< ADDR_SECT_SHIFT)) in
  if (addr .>> ADDR_SECT_SHIFT) =? sector_count fs then u32 (addr - (sector_count fs .<< ADDR_SECT_SHIFT)) else addr.

(** The field [part] of the closing ate is not initialised: its value is an
    argument.  The result of the write is not looked at. *)
Definition nvs_sector_close (part : Z) fs : Z * nvs_fs D :=
  let close_ate := nvs_ate_crc8_update (mk_ate 0xFFFF (u16 (u32 (ate_wra fs + ate_size) .& ADDR_OFFS_MASK)) 0 part 0) in
  let fs := set_wra (u32 ((ate_wra fs .& ADDR_SECT_MASK) + (sector_size fs - ate_size))) (data_wra fs) fs in
  let '(_, fs) := nvs_flash_ate_wrt close_ate fs in
  let ate := nvs_sector_advance fs (ate_wra fs) in
  (0, set_wra ate (ate .& ADDR_SECT_MASK) fs).

(** All entries are behind an address: more steps than ates in the file system. *)
Definition walk_fuel fs : nat := Z.to_nat (sector_count fs * sector_size fs).

(** From [addr] to the newest valid entry of an identifier, or round to the write
    address: the result, the address of the entry looked at last, whether it is
    that entry, the address behind it and the entry. *)
Fixpoint walk (fuel : nat) fs (id addr : Z) : Z * Z * bool * Z * nvs_ate :=
  match fuel with
  | O => (NVS_STUCK, addr, false, addr, mk_ate 0 0 0 0 0)
  | S fuel =>
      let '(rc, next, ate) := nvs_prev_ate fs addr in
      if nz rc then (rc, addr, false, next, ate)
      else if (ate_id ate =? id) && (nvs_ate_crc8_check ate =? 0) then (0, addr, true, next, ate)
      else if next =? ate_wra fs then (0, addr, false, next, ate)
      else walk fuel fs id next
  end.

(** ** Garbage collection *)

Fixpoint gc_loop (fuel : nat) (gc_addr stop_addr : Z) fs : Z * nvs_fs D :=
  match fuel with
  | O => (NVS_STUCK, fs)
  | S fuel =>
      let '(rc, next, gc_ate) := nvs_prev_ate fs gc_addr in
      if nz rc then (rc, fs)
      else if nz (nvs_ate_crc8_check gc_ate) then (if gc_addr =? stop_addr then (0, fs) else gc_loop fuel next stop_addr fs)
      else
        let '(rc, wlk_prev_addr, _, _, _) := walk (walk_fuel fs) fs (ate_id gc_ate) (ate_wra fs) in
        if nz rc then (rc, fs)
        else
          let '(rc, fs) :=
            if (wlk_prev_addr =? gc_addr) && nz (ate_len gc_ate) then
              let data_addr := u32 ((gc_addr .& ADDR_SECT_MASK) + ate_offset gc_ate) in
              let gc_ate := nvs_ate_crc8_update (mk_ate (ate_id gc_ate) (u16 (data_wra fs .& ADDR_OFFS_MASK)) (ate_len gc_ate) (ate_part gc_ate) (ate_crc8 gc_ate)) in
              let '(rc, fs) := nvs_flash_block_move data_addr (ate_len gc_ate) fs in
              if nz rc then (rc, fs) else nvs_flash_ate_wrt gc_ate fs
            else (0, fs) in
          if nz rc then (rc, fs) else if gc_addr =? stop_addr then (0, fs) else gc_loop fuel next stop_addr fs
  end.

Definition nvs_gc fs : Z * nvs_fs D :=
  let sec_addr := nvs_sector_advance fs (ate_wra fs .& ADDR_SECT_MASK) in
  let gc_addr := u32 (sec_addr + sector_size fs - ate_size) in
  let '(rc, close_ate) := nvs_flash_ate_rd fs gc_addr in
  if rc <? 0 then (rc, fs)
  else if nvs_ate_cmp_const close_ate erase_value =? 0 then nvs_flash_erase_sector sec_addr fs
  else
    let stop_addr := u32 (gc_addr - ate_size) in
    let '(rc, gc_addr) :=
      if nvs_ate_crc8_check close_ate =? 0 then (0, u32 ((gc_addr .& ADDR_SECT_MASK) + ate_offset close_ate))
      else nvs_recover_last_ate fs gc_addr in
    if nz rc then (rc, fs)
    else
      let '(rc, fs) := gc_loop (walk_fuel fs) gc_addr stop_addr fs in
      if nz rc then (rc, fs) else nvs_flash_erase_sector sec_addr fs.

(** ** Start *)

(** Sectors [i], ..., [i + n - 1]: the number of the sector at which the loop ends, the
    address and the number of closed sectors. *)
Fixpoint startup_sectors (n : nat) fs (i addr closed_sectors : Z) : Z * Z * Z :=
  match n with
  | O => (i, addr, closed_sectors)
  | S n =>
      let addr := u32 ((i .<< ADDR_SECT_SHIFT) + u16 (sector_size fs - ate_size)) in
      if nz (nvs_flash_cmp_const fs addr erase_value sizeof_ate) then
        let closed_sectors := u16 (closed_sectors + 1) in
        let addr := nvs_sector_advance fs addr in
        if nz (nvs_flash_cmp_const fs addr erase_value sizeof_ate)
        then startup_sectors n fs (u16 (i + 1)) addr closed_sectors
        else (i, addr, closed_sectors)
      else startup_sectors n fs (u16 (i + 1)) addr closed_sectors
  end.

(** Down to the first ate that is erased. *)
Fixpoint startup_ates (fuel : nat) addr fs : Z * nvs_fs D :=
  match fuel with
  | O => (NVS_STUCK, fs)
  | S fuel =>
      if data_wra fs <=? ate_wra fs then
        let '(rc, last_ate) := nvs_flash_ate_rd fs (ate_wra fs) in
        if nz rc then (rc, fs)
        else if nvs_ate_cmp_const last_ate erase_value =? 0 then (0, fs)
        else
          let fs :=
            if nvs_ate_crc8_check last_ate =? 0
            then set_wra (ate_wra fs) (u32 (u32 ((addr .& ADDR_SECT_MASK) + ate_offset last_ate) + nvs_al_size (ate_len last_ate))) fs
            else fs in
          if (nvs_ate_crc8_check last_ate =? 0) && (ate_wra fs =? data_wra fs) && nz (ate_len last_ate) then (- ESPIPE, fs)
          else startup_ates fuel addr (set_wra (u32 (ate_wra fs - ate_size)) (data_wra fs) fs)
      else (0, fs)
  end.

(** Up to where everything below the ates is erased. *)
Fixpoint startup_data (fuel : nat) fs : Z * nvs_fs D :=
  match fuel with
  | O => (NVS_STUCK, fs)
  | S fuel =>
      if data_wra fs <? ate_wra fs then
        let rc := nvs_flash_cmp_const fs (data_wra fs) erase_value (ate_wra fs - data_wra fs) in
        if rc <? 0 then (rc, fs)
        else if rc =? 0 then (0, fs)
        else startup_data fuel (set_wra (ate_wra fs) (u32 (data_wra fs + write_block_size)) fs)
      else (0, fs)
  end.

(** From the closing ate of the write sector: the addresses, and the collection if the
    next sector is not empty. *)
Definition startup_resume addr fs : Z * nvs_fs D :=
  let fs := set_wra (u32 (addr - ate_size)) (addr .& ADDR_SECT_MASK) fs in
  let '(rc, fs) := startup_ates (S (Z.to_nat (sector_size fs))) addr fs in
  if nz rc then (rc, fs)
  else
    let '(rc, fs) := startup_data (S (Z.to_nat (sector_size fs))) fs in
    if nz rc then (rc, fs)
    else
      let addr := nvs_sector_advance fs (ate_wra fs .& ADDR_SECT_MASK) in
      let rc := nvs_flash_cmp_const fs addr erase_value (sector_size fs) in
      if rc <? 0 then (rc, fs)
      else if nz rc then
        let '(rc, fs) := nvs_flash_erase_sector (ate_wra fs) fs in
        if nz rc then (rc, fs)
        else
          let wra := u32 ((ate_wra fs .& ADDR_SECT_MASK) + (sector_size fs - 2 * ate_size)) in
          nvs_gc (set_wra wra (wra .& ADDR_SECT_MASK) fs)
      else (0, fs).

Definition nvs_startup fs : Z * nvs_fs D :=
  let '(i, addr, closed_sectors) := startup_sectors (Z.to_nat (sector_count fs)) fs 0 0 0 in
  if closed_sectors =? sector_count fs then (- EDEADLK, fs)
  else
    startup_resume
      (if (i =? sector_count fs) && (nvs_flash_cmp_const fs (u32 (addr - ate_size)) erase_value sizeof_ate =? 0)
       then nvs_sector_advance fs addr else addr) fs.

Fixpoint clear_loop (n : nat) (i : Z) fs : Z * nvs_fs D :=
  match n with
  | O => (0, fs)
  | S n =>
      let '(rc, fs) := nvs_flash_erase_sector (i .<< ADDR_SECT_SHIFT) fs in
      if nz rc then (rc, fs) else clear_loop n (u16 (i + 1)) fs
  end.
Definition nvs_clear fs : Z * nvs_fs D :=
  if negb (fs_ready fs) then (- EACCES, fs) else clear_loop (Z.to_nat (sector_count fs)) 0 fs.

(** [dev] is what [device_get_binding] finds; the drivers always have parameters. *)
Definition nvs_init (dev : option D) fs : Z * nvs_fs D :=
  match dev with
  | None => (- ENXIO, fs)
  | Some d =>
      let fs := set_flash d fs in
      if (NVS_BLOCK_SIZE <? write_block_size) || (write_block_size =? 0) then (- EINVAL, fs)
      else
        let '(rc, size) := flash_get_page_info_by_offs d (fs_offset fs) in
        if nz rc then (- EINVAL, fs)
        else if (sector_size fs =? 0) || nz (sector_size fs mod size) then (- EINVAL, fs)
        else if sector_count fs <? 2 then (- EINVAL, fs)
        else
          let '(rc, fs) := nvs_startup fs in
          if nz rc then (rc, fs) else (0, set_ready true fs)
  end.

(** ** Entries *)

(** [n] sectors may still be collected; [parts] are the values of [part] in the
    closing ates. *)
Fixpoint write_loop (n : nat) (parts : nat -> Z) (id required_space : Z) data fs : Z * nvs_fs D :=
  match n with
  | O => (- ENOSPC, fs)
  | S n =>
      if u32 (data_wra fs + required_space) <=? ate_wra fs then
        let '(rc, fs) := nvs_flash_wrt_entry id data fs in
        if nz rc then (rc, fs) else (Z.of_nat (length data), fs)
      else
        let '(rc, fs) := nvs_sector_close (parts n) fs in
        if nz rc then (rc, fs)
        else
          let '(rc, fs) := nvs_gc fs in
          if nz rc then (rc, fs) else write_loop n parts id required_space data fs
  end.

(** A buffer with the data, or none ([NULL]) of length [len]. *)
Definition nvs_write (parts : nat -> Z) (id : Z) (buf : option (list Z)) len fs : Z * nvs_fs D :=
  if negb (fs_ready fs) then (- EACCES, fs)
  else
    let data_size := nvs_al_size len in
    if (u32 (sector_size fs - 3 * ate_size) <? len) || (0 <? len) && bool_decide (buf = None) then (- EINVAL, fs)
    else
      let data := take (Z.to_nat len) (default [] buf) in
      let '(rc, rd_addr, prev_found, _, wlk_ate) := walk (walk_fuel fs) fs id (ate_wra fs) in
      if nz rc then (rc, fs)
      else
        let add := write_loop (Z.to_nat (sector_count fs)) parts id
                     (if nz data_size then u16 (data_size + ate_size) else 0) data fs in
        if prev_found then
          let rd_addr := u32 ((rd_addr .& ADDR_SECT_MASK) + ate_offset wlk_ate) in
          if len =? 0 then if ate_len wlk_ate =? 0 then (0, fs) else add
          else if len =? ate_len wlk_ate then
            let rc := nvs_flash_block_cmp fs rd_addr data in
            if rc <=? 0 then (rc, fs) else add
          else add
        else if len =? 0 then (0, fs) else add.

Definition nvs_delete (parts : nat -> Z) (id : Z) fs : Z * nvs_fs D := nvs_write parts id None 0 fs.

(** The result, the address of the entry looked at last, the address behind it, the
    entry, and how many entries were found. *)
Fixpoint read_hist_loop (fuel : nat) fs (id cnt wlk_addr cnt_his : Z) : Z * Z * Z * nvs_ate * Z :=
  match fuel with
  | O => (NVS_STUCK, wlk_addr, wlk_addr, mk_ate 0 0 0 0 0, cnt_his)
  | S fuel =>
      let '(rc, next, ate) := nvs_prev_ate fs wlk_addr in
      if nz rc then (rc, wlk_addr, next, ate, cnt_his)
      else
        let cnt_his := if (ate_id ate =? id) && (nvs_ate_crc8_check ate =? 0) then u16 (cnt_his + 1) else cnt_his in
        if next =? ate_wra fs then (0, wlk_addr, next, ate, cnt_his)
        else if cnt_his <=? cnt then read_hist_loop fuel fs id cnt next cnt_his
        else (0, wlk_addr, next, ate, cnt_his)
  end.

(** The result and what is copied to the buffer, of size [len]. *)
Definition nvs_read_hist fs (id len cnt : Z) : Z * list Z :=
  if negb (fs_ready fs) then (- EACCES, [])
  else if u32 (sector_size fs - 2 * ate_size) <? len then (- EINVAL, [])
  else
    let '(rc, rd_addr, wlk_addr, wlk_ate, cnt_his) := read_hist_loop (walk_fuel fs) fs id cnt (ate_wra fs) 0 in
    if nz rc then (rc, [])
    else if ((wlk_addr =? ate_wra fs) && negb (ate_id wlk_ate =? id)) || (ate_len wlk_ate =? 0) || (cnt_his <? cnt) then (- ENOENT, [])
    else
      let rd_addr := u32 ((rd_addr .& ADDR_SECT_MASK) + ate_offset wlk_ate) in
      let '(rc, data) := nvs_flash_rd fs rd_addr (Z.min len (ate_len wlk_ate)) in
      if nz rc then (rc, []) else (ate_len wlk_ate, data).

Definition nvs_read fs (id len : Z) : Z * list Z := nvs_read_hist fs id len 0.

(** From [addr] to an entry with an identifier: the address behind it. *)
Fixpoint same_id (fuel : nat) fs (id addr : Z) : Z * Z :=
  match fuel with
  | O => (NVS_STUCK, addr)
  | S fuel =>
      let '(rc, next, ate) := nvs_prev_ate fs addr in
      if nz rc then (rc, next)
      else if (ate_id ate =? id) || (next =? ate_wra fs) then (0, next)
      else same_id fuel fs id next
  end.

Fixpoint free_space_loop (fuel : nat) fs (step_addr free_space : Z) : Z :=
  match fuel with
  | O => NVS_STUCK
  | S fuel =>
      let '(rc, step_addr, step_ate) := nvs_prev_ate fs step_addr in
      if nz rc then rc
      else
        let '(rc, wlk_addr) := same_id (walk_fuel fs) fs (ate_id step_ate) (ate_wra fs) in
        if nz rc then rc
        else
          let free_space :=
            if (wlk_addr =? step_addr) && nz (ate_len step_ate) && (nvs_ate_crc8_check step_ate =? 0)
            then u32 (u32 (free_space - nvs_al_size (ate_len step_ate)) - ate_size) else free_space in
          if step_addr =? ate_wra fs then free_space else free_space_loop fuel fs step_addr free_space
  end.

Definition nvs_calc_free_space fs : Z :=
  if negb (fs_ready fs) then - EACCES
  else free_space_loop (walk_fuel fs) fs (ate_wra fs) (u32 ((sector_count fs - 1) * (sector_size fs - ate_size))).
End nvs.
