(* ===== verification/NvsLayout.v ===== *)
(** How the non-volatile storage lays out its entries in flash, and what memory
    changes mean for them.

    The write sector [ws] has [k] entries, whose data end at [dw]; then come, going back,
    the closed sectors, [older] with their numbers of entries; all other sectors are
    erased.  [lookup] is the value that the newest entry of an identifier has. *)
From Stdlib Require Import ZArith Lia.
From stdpp Require Import base numbers list.
From S2P Require Import Prelude ByteOrder Crc NvsFs.
Open Scope Z_scope.

Definition al (n : Z) : Z := 4 * ((n + 3) / 4).

Definition valid (e : nvs_ate) : Prop := nvs_ate_crc8_check e = 0.

Definition erased (M : mem) (a n : Z) : Prop := forall x, a <= x < a + n -> M x = 255.

(** Two memories agree on a region, or outside of one. *)
Definition same (M M' : mem) (a n : Z) : Prop := forall x, a <= x < a + n -> M' x = M x.
Definition only (M M' : mem) (a n : Z) : Prop := forall x, x < a \/ a + n <= x -> M' x = M x.

Lemma al_bounds n : n <= al n < n + 4.
Proof. unfold al. pose proof (Z.div_mod (n + 3) 4). pose proof (Z.mod_pos_bound (n + 3) 4). lia. Qed.
Lemma al_mod n : al n mod 4 = 0.
Proof. unfold al. rewrite Z.mul_comm. by apply Z.mod_mul. Qed.
Lemma al_0 : al 0 = 0.
Proof. done. Qed.

(** A region without any byte written. *)
Lemma erased_bytes M a n : erased M a n -> mem_bytes M a n = replicate (Z.to_nat n) 255.
Proof.
  intros H. apply list_eq. intros i. destruct (decide (i < Z.to_nat n)%nat).
  - rewrite mem_bytes_lookup, lookup_replicate_2 by lia. f_equal. apply H. lia.
  - rewrite !lookup_ge_None_2; [done|rewrite length_replicate; lia|rewrite length_mem_bytes; lia].
Qed.

Lemma erased_sub M a n b m : erased M a n -> a <= b -> b + m <= a + n -> erased M b m.
Proof. intros H ?? x ?. apply H. lia. Qed.

Lemma same_bytes M M' a n : same M M' a n -> mem_bytes M' a n = mem_bytes M a n.
Proof. intros H. apply mem_bytes_ext. intros i Hi. apply H. lia. Qed.

Lemma only_same M M' a n b m : only M M' a n -> b + m <= a \/ a + n <= b -> same M M' b m.
Proof. intros H Hd x Hx. apply H. lia. Qed.

Lemma only_refl M a n : only M M a n.
Proof. done. Qed.

Lemma only_trans M1 M2 M3 a n : only M1 M2 a n -> only M2 M3 a n -> only M1 M3 a n.
Proof. intros H1 H2 x Hx. rewrite H2, H1; done. Qed.

Lemma only_wider M M' a n b m : only M M' a n -> b <= a -> a + n <= b + m -> only M M' b m.
Proof. intros H ?? x Hx. apply H. lia. Qed.

Lemma erased_same M M' a n : erased M a n -> same M M' a n -> erased M' a n.
Proof. intros H E x Hx. rewrite E by done. by apply H. Qed.

Lemma only_store M M' a bs : (forall x, M' x = mem_store a bs M x) -> only M M' a (Z.of_nat (length bs)).
Proof. intros H x Hx. rewrite H. apply mem_store_out. lia. Qed.

Lemma store_bytes_at M M' a bs n :
  (forall x, M' x = mem_store a bs M x) -> n = Z.of_nat (length bs) -> mem_bytes M' a n = bs.
Proof. intros H ->. rewrite (mem_bytes_equiv M' (mem_store a bs M)) by exact H. apply mem_bytes_store_same. Qed.

(** ** Allocation table entries *)

Definition ate_fields (e : nvs_ate) : Prop :=
  0 <= ate_id e < 2 ^ 16 /\ 0 <= ate_offset e < 2 ^ 16 /\ 0 <= ate_len e < 2 ^ 16 /\ 0 <= ate_part e < 256 /\ 0 <= ate_crc8 e < 256.

Lemma ate_bytes_length e : length (ate_bytes e) = 8%nat.
Proof. done. Qed.

Lemma ate_bytes_ok e : bytes_ok (ate_bytes e).
Proof.
  assert (forall z, 0 <= u8 z < 256) as Hu by (intros z; apply Z.mod_pos_bound; lia).
  unfold ate_bytes, ate_head, bytes_ok.
  rewrite !Forall_app. split_and!; try apply le_bytes_ok; apply Forall_cons_2; try apply Hu; apply Forall_nil_2.
Qed.

Lemma le_bytes_2 v : 0 <= v < 2 ^ 16 -> le_value (le_bytes 2 v) = v.
Proof. intros H. rewrite le_value_bytes. by apply Z.mod_small. Qed.

(** An entry is read as it was written. *)
Lemma ate_of_bytes e : ate_fields e -> ate_of (ate_bytes e) = e.
Proof.
  destruct e as [i o l p c]. unfold ate_fields. cbn [ate_id ate_offset ate_len ate_part ate_crc8]. intros (Hi&Ho&Hl&Hp&Hc).
  transitivity (mk_ate (le_value (le_bytes 2 i)) (le_value (le_bytes 2 o)) (le_value (le_bytes 2 l)) (u8 p) (u8 c)); [done|].
  rewrite !le_bytes_2, !u8_small by done. done.
Qed.

Lemma ate_of_fields bs : bytes_ok bs -> length bs = 8%nat -> ate_fields (ate_of bs) /\ ate_bytes (ate_of bs) = bs.
Proof.
  intros Hb Hl. do 8 (destruct bs as [|? bs]; [done|]). destruct bs; [|done]. unfold bytes_ok in Hb. rewrite !Forall_cons in Hb.
  destruct Hb as (?&?&?&?&?&?&?&?&_).
  unfold ate_fields, ate_of, ate_bytes, ate_head.
  cbn [take drop lookup list_lookup default ate_id ate_offset ate_len ate_part ate_crc8].
  rewrite !u8_small by done.
  assert (P : forall a b, 0 <= a < 256 -> 0 <= b < 256 -> 0 <= le_value [a; b] < 2 ^ 16 /\ le_bytes 2 (le_value [a; b]) = [a; b]).
  { intros a b Ha Hb. assert (bytes_ok [a; b]) as Hok by (apply Forall_cons_2; [done|apply Forall_cons_2; [done|apply Forall_nil_2]]).
    split; [exact (le_value_range _ Hok)|exact (le_bytes_value _ Hok)]. }
  repeat match goal with |- context [le_value [?a; ?b]] => destruct (P a b) as [? ->]; [done|done|]; generalize dependent (le_value [a; b]); intros end.
  done.
Qed.

Lemma update_valid e : valid (nvs_ate_crc8_update e).
Proof.
  unfold valid, nvs_ate_crc8_check, nvs_ate_crc8_update. cbn [ate_crc8].
  change (ate_head (mk_ate _ _ _ _ _)) with (ate_head e). by rewrite Z.eqb_refl.
Qed.

Lemma update_fields e : ate_fields e -> ate_fields (nvs_ate_crc8_update e).
Proof.
  intros (?&?&?&?&_). unfold ate_fields, nvs_ate_crc8_update. cbn [ate_id ate_offset ate_len ate_part ate_crc8].
  do 4 (split; [done|]). apply crc8_ccitt_range. lia.
Qed.

Definition erased_ate : nvs_ate := ate_of (replicate 8 255).

Lemma erased_ate_invalid : nvs_ate_crc8_check erased_ate = 1.
Proof. vm_compute. reflexivity. Qed.

(** A valid entry is not one that is erased. *)
Lemma valid_not_erased bs : bytes_ok bs -> length bs = 8%nat -> valid (ate_of bs) -> nvs_ate_cmp_const (ate_of bs) 255 = 1.
Proof.
  intros Hb Hl Hv. unfold nvs_ate_cmp_const. destruct (ate_of_fields bs Hb Hl) as [_ ->].
  destruct (forallb (Z.eqb 255) bs) eqn:E; [|done]. exfalso.
  assert (bs = replicate 8 255) as ->.
  { apply list_eq. intros i. destruct (decide (i < 8)%nat) as [Hi|Hi].
    - rewrite lookup_replicate_2 by done. destruct (lookup_lt_is_Some_2 bs i) as [b Hb']; [lia|]. rewrite Hb'. f_equal. symmetry.
      apply Z.eqb_eq. rewrite forallb_forall in E. apply E. apply list_elem_of_In. by eapply list_elem_of_lookup_2.
    - rewrite !lookup_ge_None_2; [done|rewrite length_replicate; lia|lia]. }
  unfold valid in Hv. fold erased_ate in Hv. rewrite erased_ate_invalid in Hv. done.
Qed.

(** ** Sectors *)

Section layout.
Context (off sz cnt : Z).

Record geometry : Prop := {
  off_range : 0 <= off;
  sz_aligned : sz mod 8 = 0;
  sz_range : 32 <= sz < 2 ^ 16;
  cnt_range : 2 <= cnt < 2 ^ 16 }.

Implicit Types (M : mem) (s ws dw hi : Z) (i j k : nat) (older : list nat) (l : list (Z * nat)).

Definition base s : Z := off + sz * s.

(** Where in its sector the ate of entry [i] is. *)
Definition spos i : Z := sz - 16 - 8 * Z.of_nat i.

Definition slot M s i : nvs_ate := ate_of (mem_bytes M (base s + spos i) 8).
Definition close_slot M s : nvs_ate := ate_of (mem_bytes M (base s + sz - 8) 8).

(** The first [k] entries are valid, one after the other and below [hi]; behind one with
    data there is room for another ate. *)
Fixpoint placed M s k hi : Prop :=
  match k with
  | O => 0 <= hi
  | S i =>
      let e := slot M s i in
      valid e /\ 0 <= ate_len e /\ ate_offset e mod 4 = 0 /\ ate_offset e + al (ate_len e) <= hi /\
      (ate_len e <> 0 -> ate_offset e + al (ate_len e) + 8 <= spos i) /\ placed M s i (ate_offset e)
  end.

Record full M s k : Prop := {
  full_close : valid (close_slot M s);
  full_last : ate_offset (close_slot M s) = spos k + 8;
  full_some : (0 < k)%nat;
  full_placed : placed M s k (spos k + 8);
  full_fits : 0 <= spos k }.

(** The sector [j] steps back. *)
Definition sect ws j : Z := (ws - Z.of_nat j) mod cnt.
Definition next ws : Z := (ws + 1) mod cnt.

Record layout M ws k dw older : Prop := {
  ws_range : 0 <= ws < cnt;
  open_placed : placed M ws k dw;
  dw_aligned : dw mod 4 = 0;
  dw_le : dw <= spos k + 8;
  k_le : 0 <= spos k;
  gap : erased M (base ws + dw) (spos k + 8 - dw);
  open_close : erased M (base ws + sz - 8) 8;
  older_full j kj : older !! j = Some kj -> full M (sect ws (S j)) kj;
  rest_erased j : (length older < j)%nat -> Z.of_nat j < cnt -> erased M (base (sect ws j)) sz;
  older_len : Z.of_nat (length older) < cnt;
  wrapped : cnt - 2 <= Z.of_nat (length older) \/ ws = Z.of_nat (length older) }.

(** The entries, newest first. *)
Fixpoint slots s k : list (Z * nat) := match k with O => [] | S i => (s, i) :: slots s i end.
Fixpoint older_log ws j older : list (Z * nat) :=
  match older with [] => [] | k :: older => slots (sect ws j) k ++ older_log ws (S j) older end.
Definition log ws k older : list (Z * nat) := slots ws k ++ older_log ws 1 older.

Definition slot_of M (p : Z * nat) : nvs_ate := slot M p.1 p.2.
Definition value M (p : Z * nat) : list Z :=
  mem_bytes M (base p.1 + ate_offset (slot_of M p)) (ate_len (slot_of M p)).

Fixpoint newest M (id : Z) l : option (Z * nat) :=
  match l with
  | [] => None
  | p :: l => if ate_id (slot_of M p) =? id then Some p else newest M id l
  end.
Definition content M (p : Z * nat) : option (list Z) := if ate_len (slot_of M p) =? 0 then None else Some (value M p).
Definition lookup M l (id : Z) : option (list Z) := newest M id l ≫= content M.

Hypothesis geo : geometry.

Lemma base_apart s s' : s <> s' -> base s + sz <= base s' \/ base s' + sz <= base s.
Proof. intros. unfold base. pose proof (sz_range geo). nia. Qed.

Lemma sect_eq ws j : 0 <= ws < cnt -> Z.of_nat j < cnt ->
  sect ws j = if Z.of_nat j <=? ws then ws - Z.of_nat j else ws - Z.of_nat j + cnt.
Proof.
  intros. unfold sect. destruct (Z.leb_spec (Z.of_nat j) ws); [apply Z.mod_small; lia|].
  rewrite <- (Z.mod_add _ 1) by lia. rewrite Z.mod_small; lia.
Qed.

Lemma next_eq ws : 0 <= ws < cnt -> next ws = if ws + 1 =? cnt then 0 else ws + 1.
Proof.
  intros. unfold next. destruct (Z.eqb_spec (ws + 1) cnt) as [->|]; [by rewrite Z.mod_same by lia|]. apply Z.mod_small. lia.
Qed.

Lemma sect_range ws j : 0 <= sect ws j < cnt.
Proof. apply Z.mod_pos_bound. pose proof (cnt_range geo). lia. Qed.

Lemma sect_0 ws : 0 <= ws < cnt -> sect ws 0 = ws.
Proof. intros. unfold sect. rewrite Z.mod_small; lia. Qed.

Lemma next_range ws : 0 <= next ws < cnt.
Proof. apply Z.mod_pos_bound. pose proof (cnt_range geo). lia. Qed.

Lemma sect_next ws j : sect (next ws) (S j) = sect ws j.
Proof.
  unfold sect, next. pose proof (cnt_range geo). rewrite Zminus_mod_idemp_l. f_equal. lia.
Qed.

Lemma sect_inj ws i j : 0 <= ws < cnt -> Z.of_nat i < cnt -> Z.of_nat j < cnt -> sect ws i = sect ws j -> i = j.
Proof.
  intros ???. rewrite !sect_eq by done. destruct (Z.leb_spec (Z.of_nat i) ws), (Z.leb_spec (Z.of_nat j) ws); lia.
Qed.

Lemma sect_open ws j : 0 <= ws < cnt -> (0 < j)%nat -> Z.of_nat j < cnt -> sect ws j <> ws.
Proof. intros ??? E. rewrite <- (sect_0 ws) in E at 2 by done. apply sect_inj in E; lia. Qed.

(** ** Memory that stays the same *)

Lemma slot_same M M' s i : same M M' (base s + spos i) 8 -> slot M' s i = slot M s i.
Proof. intros H. unfold slot. by rewrite (same_bytes _ _ _ _ H). Qed.

Lemma placed_same M M' s k hi : same M M' (base s + spos k + 8) (sz - 16 - spos k) -> placed M s k hi -> placed M' s k hi.
Proof.
  revert hi. induction k as [|i IH]; intros hi Hs; [done|]. cbn [placed].
  rewrite (slot_same M M' s i) by (intros x Hx; apply Hs; unfold spos in *; lia).
  intros (?&?&?&?&?&Hp). do 5 (split; [done|]). apply IH; [|done]. intros x Hx. apply Hs. unfold spos in *. lia.
Qed.

Lemma placed_mono M s k hi hi' : placed M s k hi -> hi <= hi' -> placed M s k hi'.
Proof. destruct k; cbn [placed]; [lia|]. intros (?&?&?&?&?&?) ?. do 3 (split; [done|]). split; [lia|done]. Qed.

Lemma placed_nonneg M s k hi : placed M s k hi -> 0 <= hi.
Proof.
  revert hi. induction k as [|i IH]; intros hi; [done|]. cbn [placed]. intros (?&?&?&?&?&Hp%IH).
  pose proof (al_bounds (ate_len (slot M s i))). lia.
Qed.

Lemma full_same M M' s k : same M M' (base s) sz -> full M s k -> full M' s k.
Proof.
  pose proof (sz_range geo). intros Hs [H1 H2 H3 H4 H5].
  assert (E : close_slot M' s = close_slot M s) by (unfold close_slot; f_equal; apply same_bytes; intros x ?; apply Hs; lia).
  split; rewrite ?E; try done. eapply placed_same; [|done]. intros x Hx. apply Hs. unfold spos in *. lia.
Qed.

(** Entry [i] of a sector: its fields and where its data are. *)
Lemma placed_slot M s k hi i : placed M s k hi -> (i < k)%nat ->
  valid (slot M s i) /\ 0 <= ate_len (slot M s i) /\ 0 <= ate_offset (slot M s i) /\
  ate_offset (slot M s i) + al (ate_len (slot M s i)) <= hi /\
      (ate_len (slot M s i) <> 0 -> ate_offset (slot M s i) + al (ate_len (slot M s i)) + 8 <= spos i).
Proof.
  revert hi. induction k as [|k IH]; intros hi; [lia|]. cbn [placed]. intros (?&?&?&?&?&Hp) Hi.
  destruct (decide (i = k)) as [->|].
  - split_and!; try done. by apply placed_nonneg in Hp.
  - destruct (IH _ Hp) as (?&?&?&?&?); [lia|]. split_and!; try done. pose proof (al_bounds (ate_len (slot M s k))). lia.
Qed.

(** ** Memory changes *)

Definition agree M M' l : Prop := Forall (fun p => slot_of M' p = slot_of M p /\ value M' p = value M p) l.

Lemma agree_lookup M M' l id : agree M M' l -> lookup M' l id = lookup M l id.
Proof.
  unfold lookup. induction 1 as [|p l [Es Ev] _ IH]; [done|]. cbn [newest]. rewrite Es.
  destruct (_ =? id); [|done]. cbn. unfold content. by rewrite Es, Ev.
Qed.

Lemma agree_app M M' l1 l2 : agree M M' (l1 ++ l2) <-> agree M M' l1 /\ agree M M' l2.
Proof. apply Forall_app. Qed.

Lemma agree_trans M1 M2 M3 l : agree M1 M2 l -> agree M2 M3 l -> agree M1 M3 l.
Proof. unfold agree. rewrite !Forall_forall. intros H1 H2 p Hp. destruct (H1 p Hp), (H2 p Hp). split; congruence. Qed.

Lemma agree_slots M M' s k hi : placed M s k hi ->
  same M M' (base s) hi -> same M M' (base s + spos k + 8) (sz - 16 - spos k) -> agree M M' (slots s k).
Proof.
  intros Hp Hd Hs. unfold agree. apply Forall_forall. intros [s' i]. revert hi Hp Hd. induction k as [|k IH]; [by intros ??? ?%not_elem_of_nil|].
  intros hi Hp Hd. pose proof Hp as (_&Hl&_&Hh&_&Hp'). cbn [slots]. rewrite elem_of_cons. intros [E|Hi].
  - injection E as -> ->. unfold slot_of, value. cbn [fst snd].
    assert (Es : slot M' s k = slot M s k) by (apply slot_same; intros x Hx; apply Hs; unfold spos in *; lia).
    split; [done|]. unfold slot_of. cbn [fst snd]. rewrite Es. apply same_bytes. intros x Hx. apply Hd.
    apply placed_nonneg in Hp'. pose proof (al_bounds (ate_len (slot M s k))). lia.
  - apply (IH ltac:(intros x Hx; apply Hs; unfold spos in *; lia) (ate_offset (slot M s k))); [done| |done].
    intros x Hx. apply Hd. pose proof (al_bounds (ate_len (slot M s k))). lia.
Qed.

Lemma agree_full M M' s k : full M s k -> same M M' (base s) sz -> agree M M' (slots s k).
Proof.
  intros [_ _ _ Hp Hk] Hs. pose proof (sz_range geo). eapply agree_slots; [done| |]; intros x Hx; apply Hs; unfold spos in *; lia.
Qed.

Lemma agree_older M M' ws j older :
  (forall t kt, older !! t = Some kt -> full M (sect ws (j + t)) kt /\ same M M' (base (sect ws (j + t))) sz) ->
  agree M M' (older_log ws j older).
Proof.
  revert j. induction older as [|k older IH]; intros j H; [apply Forall_nil_2|]. cbn [older_log]. apply agree_app. split.
  - destruct (H 0%nat k eq_refl) as [Hf Hs]. rewrite Nat.add_0_r in Hf, Hs. by apply agree_full.
  - apply IH. intros t kt Ht. specialize (H (S t) kt Ht). by rewrite <- plus_n_Sm in H.
Qed.

(** A change of one sector leaves the others alone. *)
Lemma only_other M M' s s' a n : only M M' a n -> base s <= a -> a + n <= base s + sz -> s <> s' -> same M M' (base s') sz.
Proof. intros Ho ?? Hs%base_apart x Hx. apply Ho. lia. Qed.

(** What is written to the gap of the open sector does not touch any entry. *)
Lemma agree_gap M M' ws k dw older a n :
  layout M ws k dw older -> only M M' a n -> base ws + dw <= a -> a + n <= base ws + spos k + 8 ->
  agree M M' (log ws k older).
Proof.
  intros L Ho Ha Hn. pose proof (sz_range geo). pose proof (k_le _ _ _ _ _ L). pose proof (dw_le _ _ _ _ _ L).
  pose proof (placed_nonneg _ _ _ _ (open_placed _ _ _ _ _ L)). apply agree_app. split.
  - eapply agree_slots; [apply (open_placed _ _ _ _ _ L)| |]; intros x Hx; apply Ho; unfold spos in *; lia.
  - apply agree_older. intros t kt Ht. split; [by apply (older_full _ _ _ _ _ L)|].
    apply lookup_lt_Some in Ht. pose proof (older_len _ _ _ _ _ L).
    eapply only_other with (s := ws); [done|lia|unfold spos in *; lia|]. symmetry. apply sect_open; [apply (ws_range _ _ _ _ _ L)|lia|lia].
Qed.

(** The parts of a layout that a change of the open sector leaves alone. *)
Lemma layout_others M M' ws k dw older a n :
  layout M ws k dw older -> only M M' a n -> base ws <= a -> a + n <= base ws + sz ->
  (forall j kj, older !! j = Some kj -> full M' (sect ws (S j)) kj) /\
  (forall j, (length older < j)%nat -> Z.of_nat j < cnt -> erased M' (base (sect ws j)) sz).
Proof.
  intros L Ho Ha Hn. pose proof (ws_range _ _ _ _ _ L) as Hw. pose proof (older_len _ _ _ _ _ L).
  assert (Hsame : forall j, (0 < j)%nat -> Z.of_nat j < cnt -> same M M' (base (sect ws j)) sz).
  { intros j Hj Hc. eapply only_other with (s := ws); [done..|]. symmetry. by apply sect_open. }
  split.
  - intros j kj Hj. pose proof (lookup_lt_Some _ _ _ Hj). eapply full_same; [apply Hsame; lia|]. by apply (older_full _ _ _ _ _ L).
  - intros j Hj Hc. eapply erased_same; [by apply (rest_erased _ _ _ _ _ L)|apply Hsame; lia].
Qed.

(** Data are written, behind the entries there are. *)
Lemma layout_data M M' ws k dw older dw' :
  layout M ws k dw older -> only M M' (base ws + dw) (dw' - dw) -> dw <= dw' <= spos k + 8 -> dw' mod 4 = 0 ->
  layout M' ws k dw' older /\ placed M' ws k dw.
Proof.
  intros L Ho Hd Hm. pose proof (sz_range geo). pose proof (k_le _ _ _ _ _ L).
  pose proof (placed_nonneg _ _ _ _ (open_placed _ _ _ _ _ L)).
  destruct (layout_others M M' ws k dw older (base ws + dw) (dw' - dw) L Ho) as [Hfull Hrest]; [lia|unfold spos in *; lia|].
  assert (Hp : placed M' ws k dw).
  { eapply placed_same; [|apply (open_placed _ _ _ _ _ L)]. intros x Hx. apply Ho. unfold spos in *. lia. }
  split; [|done]. pose proof (gap _ _ _ _ _ L) as Hgap. destruct L. split; try done; try lia.
  - eapply placed_mono; [done|lia].
  - eapply erased_same; [eapply erased_sub; [exact Hgap|lia|lia]|]. intros x Hx. apply Ho. lia.
  - eapply erased_same; [done|]. intros x Hx. apply Ho. unfold spos in *. lia.
Qed.

(** An ate is written for data that are there. *)
Lemma layout_ate M M' ws k dw older (e : nvs_ate) :
  layout M ws k dw older -> (forall x, M' x = mem_store (base ws + spos k) (ate_bytes e) M x) ->
  ate_fields e -> valid e -> placed M ws k (ate_offset e) -> ate_offset e mod 4 = 0 -> ate_offset e + al (ate_len e) <= dw -> dw <= spos k ->
  (ate_len e <> 0 -> ate_offset e + al (ate_len e) + 8 <= spos k) -> 0 <= spos (S k) ->
  layout M' ws (S k) dw older /\ slot M' ws k = e.
Proof.
  intros L HM Hf Hv Hp He4 He Hd Hr Hk. pose proof (sz_range geo). pose proof (k_le _ _ _ _ _ L).
  pose proof (placed_nonneg _ _ _ _ (open_placed _ _ _ _ _ L)).
  pose proof (only_store _ _ _ _ HM) as Ho. rewrite ate_bytes_length in Ho. change (Z.of_nat 8) with 8 in Ho.
  destruct (layout_others M M' ws k dw older _ _ L Ho) as [Hfull Hrest]; [lia|unfold spos in *; lia|].
  assert (Hs : slot M' ws k = e) by (unfold slot; rewrite (store_bytes_at _ _ _ _ 8 HM) by done; by apply ate_of_bytes).
  split; [|done]. destruct Hf as (_&?&?&_&_). pose proof (gap _ _ _ _ _ L) as Hgap. destruct L. split; try done.
  - cbn [placed]. rewrite Hs. do 3 (split; [done||lia|]). split; [lia|]. split; [done|].
    eapply placed_same; [|done]. intros x Hx. apply Ho. unfold spos in *. lia.
  - unfold spos in *. lia.
  - eapply erased_same; [eapply erased_sub; [exact Hgap|lia|unfold spos in *; lia]|]. intros x Hx. apply Ho. unfold spos in *. lia.
  - eapply erased_same; [done|]. intros x Hx. apply Ho. unfold spos in *. lia.
Qed.

Lemma sect_last ws : sect ws (Z.to_nat (cnt - 1)) = next ws.
Proof.
  pose proof (cnt_range geo). unfold sect, next. rewrite Z2Nat.id by lia. replace (ws - (cnt - 1)) with (ws + 1 + (-1) * cnt) by lia.
  by rewrite Z.mod_add by lia.
Qed.

Lemma older_log_app ws j o1 o2 : older_log ws j (o1 ++ o2) = older_log ws j o1 ++ older_log ws (j + length o1) o2.
Proof.
  revert j. induction o1 as [|k o1 IH]; intros j; cbn [older_log app length]; [by rewrite Nat.add_0_r|].
  rewrite IH, app_assoc, <- plus_n_Sm. done.
Qed.

Lemma older_log_next ws j older : older_log (next ws) (S j) older = older_log ws j older.
Proof. revert j. induction older as [|k older IH]; intros j; [done|]. cbn [older_log]. by rewrite sect_next, IH. Qed.

Lemma log_close ws k older : 0 <= ws < cnt -> log (next ws) 0 (k :: older) = log ws k older.
Proof.
  intros Hw. unfold log. cbn [slots older_log app]. by rewrite sect_next, sect_0, older_log_next by done.
Qed.

(** The write sector is closed and the next one, which is erased, started. *)
Lemma layout_close M M' ws k dw older (e : nvs_ate) :
  layout M ws k dw older -> (0 < k)%nat -> Z.of_nat (length older) <= cnt - 2 ->
  (forall x, M' x = mem_store (base ws + sz - 8) (ate_bytes e) M x) ->
  ate_fields e -> valid e -> ate_offset e = spos k + 8 ->
  layout M' (next ws) 0 0 (k :: older) /\ agree M M' (log ws k older).
Proof.
  intros L Hk Hl HM Hf Hv He. pose proof (sz_range geo). pose proof (cnt_range geo). pose proof (k_le _ _ _ _ _ L).
  pose proof (dw_le _ _ _ _ _ L). pose proof (ws_range _ _ _ _ _ L) as Hw.
  pose proof (only_store _ _ _ _ HM) as Ho. rewrite ate_bytes_length in Ho. change (Z.of_nat 8) with 8 in Ho.
  destruct (layout_others M M' ws k dw older _ _ L Ho) as [Hfull Hrest]; [lia|unfold spos in *; lia|].
  assert (Hnext : erased M' (base (next ws)) sz) by (rewrite <- sect_last; apply Hrest; lia).
  assert (Hws : full M' ws k).
  { assert (E : close_slot M' ws = e) by (unfold close_slot; rewrite (store_bytes_at _ _ _ _ 8 HM) by done; by apply ate_of_bytes).
    split; rewrite ?E; try done. eapply placed_mono; [|done]. eapply placed_same; [|apply (open_placed _ _ _ _ _ L)].
    intros x Hx. apply Ho. unfold spos in *. lia. }
  split; [split|].
  - apply next_range.
  - cbn. lia.
  - done.
  - unfold spos. lia.
  - unfold spos. lia.
  - eapply erased_sub; [exact Hnext|lia|unfold spos; lia].
  - eapply erased_sub; [exact Hnext|lia|lia].
  - intros [|j] kj; rewrite sect_next; [intros [= <-]; by rewrite sect_0|]. apply Hfull.
  - intros [|j] Hj Hc; [cbn in Hj; lia|]. rewrite sect_next. cbn [length] in Hj. apply Hrest; lia.
  - cbn [length]. lia.
  - cbn [length]. rewrite next_eq by done. destruct (wrapped _ _ _ _ _ L); [lia|]. destruct (Z.eqb_spec (ws + 1) cnt); lia.
  - apply agree_app. split.
    + pose proof (placed_nonneg _ _ _ _ (open_placed _ _ _ _ _ L)).
      eapply agree_slots; [apply (open_placed _ _ _ _ _ L)| |]; intros x Hx; apply Ho; unfold spos in *; lia.
    + apply agree_older. intros t kt Ht. split; [by apply (older_full _ _ _ _ _ L)|]. apply lookup_lt_Some in Ht.
      eapply only_other with (s := ws); [done|lia|lia|]. symmetry. apply sect_open; [done|lia|lia].
Qed.

(** The oldest sector is erased. *)
Lemma layout_erase_oldest M M' ws k dw older kg :
  layout M ws k dw (older ++ [kg]) -> Z.of_nat (length older) = cnt - 2 ->
  only M M' (base (next ws)) sz -> erased M' (base (next ws)) sz ->
  layout M' ws k dw older /\ agree M M' (log ws k older).
Proof.
  intros L Hl Ho He. pose proof (sz_range geo). pose proof (cnt_range geo). pose proof (ws_range _ _ _ _ _ L) as Hw.
  pose proof (k_le _ _ _ _ _ L). pose proof (dw_le _ _ _ _ _ L). pose proof (placed_nonneg _ _ _ _ (open_placed _ _ _ _ _ L)).
  assert (Hsame : forall j, Z.of_nat j < cnt - 1 -> same M M' (base (sect ws j)) sz).
  { intros j Hj. eapply only_other with (s := next ws); [done|lia|lia|]. rewrite <- sect_last. intros E%sect_inj; lia. }
  assert (Hopen : same M M' (base ws) sz) by (rewrite <- (sect_0 ws) by done; apply Hsame; lia).
  assert (Hold : forall j kj, older !! j = Some kj -> full M (sect ws (S j)) kj /\ same M M' (base (sect ws (S j))) sz).
  { intros j kj Hj. pose proof (lookup_lt_Some _ _ _ Hj). split; [|apply Hsame; lia].
    apply (older_full _ _ _ _ _ L). by rewrite lookup_app_l. }
  split; [split; try apply L|apply agree_app; split].
  - eapply placed_same; [|apply (open_placed _ _ _ _ _ L)]. intros x Hx. apply Hopen. unfold spos in *. lia.
  - eapply erased_same; [apply (gap _ _ _ _ _ L)|]. intros x Hx. apply Hopen. unfold spos in *. lia.
  - eapply erased_same; [apply (open_close _ _ _ _ _ L)|]. intros x Hx. apply Hopen. lia.
  - intros j kj Hj. destruct (Hold j kj Hj). by eapply full_same.
  - intros j Hj Hc. replace j with (Z.to_nat (cnt - 1)) by lia. by rewrite sect_last.
  - lia.
  - lia.
  - eapply agree_slots; [apply (open_placed _ _ _ _ _ L)| |]; intros x Hx; apply Hopen; unfold spos in *; lia.
  - by apply agree_older.
Qed.

(** The write sector is erased. *)
Lemma layout_erase_open M M' ws k dw older :
  layout M ws k dw older -> only M M' (base ws) sz -> erased M' (base ws) sz ->
  layout M' ws 0 0 older /\ agree M M' (older_log ws 1 older).
Proof.
  intros L Ho He. pose proof (sz_range geo).
  destruct (layout_others M M' ws k dw older _ _ L Ho) as [Hfull Hrest]; [lia|lia|]. split; [split; try apply L; try done|].
  - unfold spos. lia.
  - unfold spos. lia.
  - eapply erased_sub; [exact He|lia|unfold spos; lia].
  - eapply erased_sub; [exact He|lia|lia].
  - apply agree_older. intros t kt Ht. split; [by apply (older_full _ _ _ _ _ L)|].
    apply lookup_lt_Some in Ht. pose proof (older_len _ _ _ _ _ L).
    eapply only_other with (s := ws); [done|lia|lia|]. symmetry. apply sect_open; [apply (ws_range _ _ _ _ _ L)|lia|lia].
Qed.

Lemma layout_ext M M' ws k dw older :
  layout M ws k dw older -> (forall x, M' x = M x) -> layout M' ws k dw older /\ agree M M' (log ws k older).
Proof.
  intros L HM. assert (only M M' (base ws + dw) (dw - dw)) by (intros x _; apply HM). pose proof (dw_le _ _ _ _ _ L). split.
  - eapply layout_data; [done|done|lia|apply (dw_aligned _ _ _ _ _ L)].
  - eapply agree_gap; [done|done|lia|lia].
Qed.

(** ** The entries of a layout *)

Definition entry_ok M (p : Z * nat) : Prop :=
  0 <= p.1 < cnt /\ 0 <= spos p.2 /\ valid (slot_of M p) /\ 0 <= ate_len (slot_of M p) /\ 0 <= ate_offset (slot_of M p) /\
  ate_offset (slot_of M p) + al (ate_len (slot_of M p)) <= sz - 8 /\ ate_len (slot_of M p) <= sz - 24.

Lemma slots_ok M s k hi : 0 <= s < cnt -> placed M s k hi -> hi <= sz - 8 -> 0 <= spos k -> Forall (entry_ok M) (slots s k).
Proof.
  intros Hs Hp Hh Hk. cut (forall i, (i < k)%nat -> entry_ok M (s, i)).
  { clear. induction k as [|k IH]; intros H; [apply Forall_nil_2|]. apply Forall_cons_2; [apply H; lia|]. apply IH. intros i Hi. apply H. lia. }
  intros i Hi. destruct (placed_slot _ _ _ _ _ Hp Hi) as (?&?&?&?&?). unfold entry_ok, slot_of. cbn [fst snd].
  pose proof (al_bounds (ate_len (slot M s i))). pose proof (sz_range geo). split_and!; try done; unfold spos in *; lia.
Qed.

Lemma older_log_ok M ws j older : (forall t kt, older !! t = Some kt -> full M (sect ws (j + t)) kt) -> Forall (entry_ok M) (older_log ws j older).
Proof.
  revert j. induction older as [|k older IH]; intros j H; [apply Forall_nil_2|]. cbn [older_log]. apply Forall_app. split.
  - destruct (H 0%nat k eq_refl) as [_ _ ? Hp ?]. rewrite Nat.add_0_r in Hp. eapply slots_ok; [apply sect_range|done|unfold spos; lia|done].
  - apply IH. intros t kt Ht. specialize (H (S t) kt Ht). by rewrite <- plus_n_Sm in H.
Qed.

Lemma log_ok M ws k dw older : layout M ws k dw older -> Forall (entry_ok M) (log ws k older).
Proof.
  intros L. pose proof (dw_le _ _ _ _ _ L). apply Forall_app. split.
  - eapply slots_ok; [apply (ws_range _ _ _ _ _ L)|apply (open_placed _ _ _ _ _ L)|unfold spos in *; lia|apply (k_le _ _ _ _ _ L)].
  - apply older_log_ok. intros t kt. apply (older_full _ _ _ _ _ L).
Qed.

Lemma slots_length s k : length (slots s k) = k.
Proof. induction k as [|k IH]; [done|]. cbn [slots length]. by rewrite IH. Qed.

Lemma older_log_length M ws j older : (forall t kt, older !! t = Some kt -> full M (sect ws (j + t)) kt) ->
  Z.of_nat (length (older_log ws j older)) <= Z.of_nat (length older) * (sz - 8).
Proof.
  pose proof (sz_range geo). revert j. induction older as [|k older IH]; intros j Hf; [done|]. cbn [older_log length].
  rewrite length_app, slots_length. pose proof (full_fits _ _ _ (Hf 0%nat k eq_refl)).
  assert (Z.of_nat (length (older_log ws (S j) older)) <= Z.of_nat (length older) * (sz - 8)).
  { apply IH. intros t kt Ht. specialize (Hf (S t) kt Ht). by rewrite <- plus_n_Sm in Hf. }
  unfold spos in *. lia.
Qed.

Lemma log_length M ws k dw older : layout M ws k dw older -> Z.of_nat (length (log ws k older)) < cnt * sz.
Proof.
  intros L. pose proof (sz_range geo). unfold log. rewrite length_app, slots_length.
  pose proof (older_log_length M ws 1 older (fun t kt => older_full _ _ _ _ _ L t kt)). pose proof (k_le _ _ _ _ _ L).
  pose proof (older_len _ _ _ _ _ L). unfold spos in *. nia.
Qed.

Lemma newest_app M id l1 l2 : newest M id (l1 ++ l2) = match newest M id l1 with Some p => Some p | None => newest M id l2 end.
Proof. induction l1 as [|p l1 IH]; [done|]. cbn [newest app]. by destruct (_ =? id). Qed.

Lemma newest_elem M id l p : newest M id l = Some p -> p ∈ l /\ ate_id (slot_of M p) = id.
Proof.
  induction l as [|q l IH]; [done|]. cbn [newest]. destruct (Z.eqb_spec (ate_id (slot_of M q)) id); intros E.
  - injection E as ->. split; [apply list_elem_of_here|done].
  - destruct (IH E). split; [by apply list_elem_of_further|done].
Qed.

Lemma newest_none M id l p : newest M id l = None -> p ∈ l -> ate_id (slot_of M p) <> id.
Proof.
  induction l as [|q l IH]; [by intros _ ?%not_elem_of_nil|]. cbn [newest]. destruct (Z.eqb_spec (ate_id (slot_of M q)) id); [done|].
  intros E [->|Hp]%elem_of_cons; [done|]. by apply IH.
Qed.

Lemma empty_log M ws k dw older : layout M ws k dw older -> log ws k older = [] -> k = 0%nat /\ older = [].
Proof.
  intros L E. unfold log in E. apply app_eq_nil in E as [E1 E2]. destruct k; [|done]. split; [done|].
  destruct older as [|k older]; [done|]. pose proof (full_some _ _ _ (older_full _ _ _ _ _ L 0%nat k eq_refl)).
  destruct k; [lia|done].
Qed.
End layout.
