(* ===== verification/NvsOps.v ===== *)
(** What a flash driver promises ([FlashOk]), and what the routines of the
    non-volatile storage do on top of it: their reads, writes and walks in terms of the
    memory and the layout of [NvsLayout].

    The power may fail at any operation on the flash, and no later one has an effect.
    A write that it interrupts may leave anything in the place it writes, except that
    one or two words are written or not; an erasure has no effect then.  For two words
    and for an erasure this is more than the driver of [FlashNrf] does, which writes word
    by word: of half an entry, or of what is left of a sector, an entry is told only by
    its CRC of eight bits, which may fit by chance.  The lemmas say what is in flash in
    either case. *)
From Stdlib Require Import ZArith Lia Bool.
From stdpp Require Import base numbers list.
From S2P Require Import Prelude ByteOrder Uuid Crc NvsFs NvsLayout.
Open Scope Z_scope.

Class FlashOk (D : Type) `{!Flash D} := {
  flash_mem : D -> mem;
  powered : D -> bool;
  flash_size : Z;
  page_size : Z;
  flash_block : write_block_size = 4;
  flash_erased : erase_value = 255;
  flash_pages d a : 0 <= a < flash_size -> flash_get_page_info_by_offs d a = (0, page_size);
  flash_bytes d x : 0 <= flash_mem d x < 256;
  flash_read_law d a n : powered d = true -> 0 <= a < flash_size -> 0 <= n -> a + n <= flash_size ->
    flash_read d a n = (0, mem_bytes (flash_mem d) a n);
  flash_write_law d a bs : powered d = true -> 0 <= a -> a mod 4 = 0 -> bs <> [] -> Z.of_nat (length bs) mod 4 = 0 ->
    a + Z.of_nat (length bs) <= flash_size -> bytes_ok bs -> erased (flash_mem d) a (Z.of_nat (length bs)) ->
    let '(rc, d') := flash_write a bs d in
    rc = 0 /\ powered d' = true /\ (forall x, flash_mem d' x = mem_store a bs (flash_mem d) x) \/
    rc < 0 /\ powered d' = false /\ only (flash_mem d) (flash_mem d') a (Z.of_nat (length bs)) /\
      ((length bs <= 8)%nat -> forall x, flash_mem d' x = flash_mem d x);
  flash_erase_law d a n : powered d = true -> 0 <= a -> a mod page_size = 0 -> 0 < n -> n mod page_size = 0 -> a + n <= flash_size ->
    let '(rc, d') := flash_erase a n d in
    rc = 0 /\ powered d' = true /\ erased (flash_mem d') a n /\ only (flash_mem d) (flash_mem d') a n \/
    rc < 0 /\ powered d' = false /\ (forall x, flash_mem d' x = flash_mem d x);
  flash_protection_law d b : powered d = true ->
    let '(rc, d') := flash_write_protection_set b d in
    rc = 0 /\ powered d' = true /\ (forall x, flash_mem d' x = flash_mem d x);
  flash_write_off d a bs : powered d = false ->
    let '(_, d') := flash_write a bs d in powered d' = false /\ (forall x, flash_mem d' x = flash_mem d x);
  flash_erase_off d a n : powered d = false ->
    let '(_, d') := flash_erase a n d in powered d' = false /\ (forall x, flash_mem d' x = flash_mem d x);
  flash_protection_off d b : powered d = false ->
    let '(_, d') := flash_write_protection_set b d in powered d' = false /\ (forall x, flash_mem d' x = flash_mem d x) }.

(** ** Addresses *)

Definition adr (s x : Z) : Z := s * 2 ^ 16 + x.

Lemma land_high n a b : 0 <= a -> 0 <= b -> 0 <= n < 2 ^ (a + b) -> n .& (Z.ones a .<< b) = (n .>> b) .<< b.
Proof.
  intros Ha Hb Hn. apply Z.bits_inj'. intros i Hi. rewrite Z.land_spec, !Z.shiftl_spec by done.
  destruct (Z.ltb_spec i b); [by rewrite !(Z.testbit_neg_r _ (i - b)), andb_false_r by lia|].
  rewrite Z.shiftr_spec by lia. replace (i - b + b) with i by lia. destruct (Z.ltb_spec (i - b) a).
  - by rewrite Z.ones_spec_low, andb_true_r by lia.
  - rewrite Z.ones_spec_high, andb_false_r by lia. symmetry. destruct (decide (n = 0)) as [->|]; [apply Z.bits_0|].
    apply Z.bits_above_log2; [lia|]. apply Z.log2_lt_pow2; [lia|]. eapply Z.lt_le_trans; [apply Hn|].
    apply Z.pow_le_mono_r; lia.
Qed.

Lemma land_not3 n : 0 <= n < 2 ^ 32 -> n .& not32 3 = 4 * (n / 4).
Proof.
  intros. change (not32 3) with (Z.ones 30 .<< 2). rewrite land_high by (done||lia).
  rewrite Z.shiftl_mul_pow2, Z.shiftr_div_pow2 by lia. change (2 ^ 2) with 4. lia.
Qed.

Section addresses.
Context (s x : Z).
Hypothesis Hs : 0 <= s < 2 ^ 16.
Hypothesis Hx : 0 <= x < 2 ^ 16.

Lemma adr_range : 0 <= adr s x < 2 ^ 32.
Proof. unfold adr. lia. Qed.

Lemma adr_div : adr s x / 2 ^ 16 = s.
Proof. unfold adr. rewrite Z.div_add_l by lia. rewrite (Z.div_small x) by lia. lia. Qed.

Lemma adr_shift : adr s x .>> ADDR_SECT_SHIFT = s.
Proof. unfold ADDR_SECT_SHIFT. rewrite Z.shiftr_div_pow2 by lia. apply adr_div. Qed.

Lemma adr_offs : adr s x .& ADDR_OFFS_MASK = x.
Proof.
  change ADDR_OFFS_MASK with (Z.ones 16). rewrite Z.land_ones by lia. unfold adr.
  rewrite Z.add_comm, Z.mod_add by lia. by apply Z.mod_small.
Qed.

Lemma adr_sect : adr s x .& ADDR_SECT_MASK = adr s 0.
Proof.
  change ADDR_SECT_MASK with (Z.ones 16 .<< 16). rewrite land_high by (try exact adr_range; lia).
  change 16 with ADDR_SECT_SHIFT at 1. rewrite adr_shift, Z.shiftl_mul_pow2 by lia. unfold adr. lia.
Qed.
End addresses.

(** ** Reading and writing *)

Section ops.
Context {D : Type} `{!Flash D, !FlashOk D}.
Context (off sz cnt : Z).

(** A partition of the flash, in whole pages. *)
Record partition : Prop := {
  part_geo : geometry off sz cnt;
  part_fits : off + cnt * sz <= flash_size;
  part_page : 0 < page_size;
  part_off : off mod page_size = 0;
  part_sz : sz mod page_size = 0;
  part_word : off mod 4 = 0 }.

Hypothesis part : partition.
Implicit Types (d : D) (s x n a w : Z) (r : bool) (i k : nat).

Abbreviation base := (base off sz).
Abbreviation spos := (spos sz).
Abbreviation slot := (slot off sz).
Abbreviation layout := (layout off sz cnt).
Abbreviation at_ d a w r := (mk_fs d off a w sz cnt r).

Lemma al_size n : 0 <= n < 2 ^ 32 - 3 -> nvs_al_size (D := D) n = al n.
Proof.
  intros Hn. unfold nvs_al_size. rewrite flash_block. change (4 <=? 1) with false. cbv iota. change (4 - 1) with 3.
  unfold u32. rewrite Z.mod_small by lia. by rewrite land_not3 by lia.
Qed.

Lemma ate_size_8 : ate_size (D := D) = 8.
Proof. unfold ate_size. by rewrite al_size by done. Qed.

Lemma block_size_32 : block_size (D := D) = 32.
Proof. unfold block_size. by rewrite flash_block. Qed.

Lemma geo_facts : 0 <= off /\ sz mod 8 = 0 /\ 32 <= sz < 2 ^ 16 /\ 2 <= cnt < 2 ^ 16.
Proof. destruct (part_geo part). done. Qed.

Lemma phys_at d a w r s x : 0 <= s < cnt -> 0 <= x < 2 ^ 16 -> phys (at_ d a w r) (adr s x) = base s + x.
Proof.
  intros Hs Hx. pose proof geo_facts as (_&_&_&?). unfold phys. cbn [fs_offset sector_size].
  rewrite adr_shift, adr_offs by lia. done.
Qed.

(** A sector is in the flash. *)
Lemma base_range s : 0 <= s < cnt -> 0 <= base s /\ base s + sz <= flash_size.
Proof. intros. pose proof geo_facts as (?&_&?&?). pose proof (part_fits part). unfold NvsLayout.base. nia. Qed.

Lemma rd_ok d a w r s x n : powered d = true -> 0 <= s < cnt -> 0 <= x -> 0 <= n -> x + n <= sz -> x < sz ->
  nvs_flash_rd (at_ d a w r) (adr s x) n = (0, mem_bytes (flash_mem d) (base s + x) n).
Proof.
  intros Hd Hs ????. pose proof (base_range s Hs). pose proof geo_facts as (_&_&?&_). unfold nvs_flash_rd.
  rewrite phys_at by lia. cbn [fs_flash]. apply flash_read_law; [done|lia..].
Qed.

Lemma ate_rd_ok d a w r s x : powered d = true -> 0 <= s < cnt -> 0 <= x -> x + 8 <= sz ->
  nvs_flash_ate_rd (at_ d a w r) (adr s x) = (0, ate_of (mem_bytes (flash_mem d) (base s + x) 8)).
Proof. intros. unfold nvs_flash_ate_rd, sizeof_ate. rewrite rd_ok by lia || done. done. Qed.

(** Data are compared. *)
Lemma block_cmp_loop_ok fuel d a w r s x data :
  powered d = true -> 0 <= s < cnt -> 0 <= x -> x + Z.of_nat (length data) <= sz -> (length data <= fuel)%nat ->
  block_cmp_loop fuel (at_ d a w r) (adr s x) data =
  if bool_decide (mem_bytes (flash_mem d) (base s + x) (Z.of_nat (length data)) = data) then 0 else 1.
Proof.
  intros Hd Hs. pose proof geo_facts as (_&_&?&?). revert x data.
  induction fuel as [|fuel IH]; intros x data Hx Hl Hf.
  { destruct data; [|cbn in Hf; lia]. done. }
  destruct data as [|b data]; [done|]. cbn [block_cmp_loop]. rewrite block_size_32. set (l := b :: data) in *.
  set (n := Z.min 32 (Z.of_nat (length l))). assert (0 < n <= Z.of_nat (length l)) by (subst n l; cbn [length]; lia).
  rewrite rd_ok by lia || done. change (nz 0) with false. cbv iota.
  set (m := Z.to_nat n) in *.
  assert (Hm : mem_bytes (flash_mem d) (base s + x) (Z.of_nat (length l)) =
               mem_bytes (flash_mem d) (base s + x) n ++ mem_bytes (flash_mem d) (base s + (x + n)) (Z.of_nat (length (drop m l)))).
  { rewrite length_drop. replace (Z.of_nat (length l)) with (n + Z.of_nat (length l - m)) at 1 by lia.
    rewrite mem_bytes_app by lia. by rewrite Z.add_assoc. }
  assert (Ht : length (take m l) = m) by (rewrite length_take; lia).
  destruct (decide (take m l = mem_bytes (flash_mem d) (base s + x) n)) as [E|E].
  - rewrite (proj2 (memcmp_zero (take m l) _ ltac:(rewrite Ht, length_mem_bytes; done)) E). change (nz 0) with false. cbv iota.
    replace (u32 (adr s x + n)) with (adr s (x + n)) by (unfold adr; rewrite u32_small; lia).
    rewrite IH by (rewrite ?length_drop; lia). rewrite Hm, <- E.
    set (y := mem_bytes _ _ _). rewrite (bool_decide_ext (take m l ++ y = l) (y = drop m l)); [done|]. split.
    + intros Hy. apply (app_inv_head (take m l)). by rewrite take_drop.
    + intros ->. apply take_drop.
  - destruct (nz (memcmp _ _)) eqn:En.
    + rewrite bool_decide_false; [done|]. intros E'. apply E. rewrite <- E', Hm. rewrite take_app_length'; [done|by rewrite length_mem_bytes].
    + exfalso. apply E. apply memcmp_zero; [by rewrite Ht, length_mem_bytes|]. unfold nz in En. apply negb_false_iff, Z.eqb_eq in En. done.
Qed.

Lemma block_cmp_ok d a w r s x data :
  powered d = true -> 0 <= s < cnt -> 0 <= x -> x + Z.of_nat (length data) <= sz ->
  nvs_flash_block_cmp (at_ d a w r) (adr s x) data =
  if bool_decide (mem_bytes (flash_mem d) (base s + x) (Z.of_nat (length data)) = data) then 0 else 1.
Proof. intros. by apply block_cmp_loop_ok. Qed.

Lemma cmp_const_loop_ok fuel d a w r s x n v :
  powered d = true -> 0 <= s < cnt -> 0 <= x -> 0 <= n -> x + n <= sz -> n <= Z.of_nat fuel ->
  let rc := cmp_const_loop fuel (at_ d a w r) (adr s x) v n in
  let p := forall y, base s + x <= y < base s + x + n -> flash_mem d y = v in p /\ rc = 0 \/ ~ p /\ rc = 1.
Proof.
  intros Hd Hs. pose proof geo_facts as (_&_&?&?). cbv zeta. revert x n. induction fuel as [|fuel IH]; intros x n Hx Hn Hl Hf.
  { left. split; [intros; lia|done]. }
  cbn [cmp_const_loop]. destruct (Z.eqb_spec n 0) as [->|]; [left; split; [intros; lia|done]|].
  rewrite block_size_32. set (m := Z.min 32 n). assert (0 < m <= n) by lia.
  rewrite block_cmp_ok by (rewrite ?length_replicate; lia || done). rewrite length_replicate, Z2Nat.id by lia.
  assert (G : mem_bytes (flash_mem d) (base s + x) m = replicate (Z.to_nat m) v <->
              forall y, base s + x <= y < base s + x + m -> flash_mem d y = v).
  { split.
    - intros E y Hy. apply (f_equal (fun l => l !! Z.to_nat (y - (base s + x)))) in E.
      rewrite mem_bytes_lookup, lookup_replicate_2 in E by lia. injection E as <-. f_equal. lia.
    - intros E. apply list_eq. intros i. destruct (decide (i < Z.to_nat m)%nat).
      + rewrite mem_bytes_lookup, lookup_replicate_2 by lia. f_equal. apply E. lia.
      + rewrite !lookup_ge_None_2; [done|rewrite length_replicate; lia|rewrite length_mem_bytes; lia]. }
  destruct (decide (mem_bytes (flash_mem d) (base s + x) m = replicate (Z.to_nat m) v)) as [E|E].
  - rewrite bool_decide_true by done. change (nz 0) with false. cbv iota. rewrite G in E.
    replace (u32 (adr s x + m)) with (adr s (x + m)) by (unfold adr; rewrite u32_small; lia).
    destruct (IH (x + m) (n - m)) as [[E' ->]|[E' ->]]; [lia..|left|right]; (split; [|done]).
    + intros y Hy. destruct (decide (y < base s + x + m)); [apply E|apply E']; lia.
    + intros E2. apply E'. intros y Hy. apply E2. lia.
  - rewrite bool_decide_false by done. right. split; [|done]. intros E'. apply E, G. intros y Hy. apply E'. lia.
Qed.

(** Whether a region is erased. *)
Lemma cmp_erased d a w r s x n : powered d = true -> 0 <= s < cnt -> 0 <= x -> 0 <= n -> x + n <= sz ->
  let rc := nvs_flash_cmp_const (at_ d a w r) (adr s x) erase_value n in
  let p := erased (flash_mem d) (base s + x) n in p /\ rc = 0 \/ ~ p /\ rc = 1.
Proof. intros. subst rc. rewrite flash_erased. apply cmp_const_loop_ok; lia || done. Qed.

Lemma base_word s : base s mod 4 = 0.
Proof.
  pose proof geo_facts as (_&H8&_&_). pose proof (part_word part). unfold NvsLayout.base.
  apply Z.mod_divide in H8 as [q ->]; [|lia]. replace (off + q * 8 * s) with (off + (2 * q * s) * 4) by lia. by rewrite Z.mod_add by lia.
Qed.

Lemma store_padding M l (n : nat) b x : erased M (b + Z.of_nat (length l)) (Z.of_nat n) ->
  mem_store b (l ++ replicate n 255) M x = mem_store b l M x.
Proof.
  intros He. rewrite <- (mem_store_app b _ l _ M eq_refl x). set (c := b + Z.of_nat (length l)) in *.
  destruct (decide (c <= x < c + Z.of_nat n)) as [Hx|Hx].
  - pose proof (mem_store_in c (replicate n 255) (mem_store b l M) x) as E. rewrite length_replicate in E. specialize (E Hx).
    rewrite lookup_replicate_2 in E by lia. injection E as <-. rewrite mem_store_out by (subst c; lia). symmetry. by apply He.
  - rewrite mem_store_out; [done|]. rewrite length_replicate. lia.
Qed.

(** The outcome of an operation that may lose power: what holds of the memory if it
    succeeds, and if not. *)
Definition outcome (rc : Z) d' (Q C : Prop) : Prop :=
  rc = 0 /\ powered d' = true /\ Q \/ rc < 0 /\ powered d' = false /\ C.

Lemma flash_wrt_ok d b bs : powered d = true -> 0 <= b -> b mod 4 = 0 -> bs <> [] -> Z.of_nat (length bs) mod 4 = 0 ->
  b + Z.of_nat (length bs) <= flash_size -> bytes_ok bs -> erased (flash_mem d) b (Z.of_nat (length bs)) ->
  exists rc d', flash_write b bs d = (rc, d') /\
    outcome rc d' (forall x, flash_mem d' x = mem_store b bs (flash_mem d) x)
      (only (flash_mem d) (flash_mem d') b (Z.of_nat (length bs)) /\ ((length bs <= 8)%nat -> forall x, flash_mem d' x = flash_mem d x)).
Proof.
  intros. pose proof (flash_write_law d b bs) as L. destruct (flash_write b bs d) as [rc d'] eqn:E. exists rc, d'.
  split; [done|]. by apply L.
Qed.

Lemma protection_ok d b : powered d = true ->
  exists d', flash_write_protection_set b d = (0, d') /\ powered d' = true /\ forall x, flash_mem d' x = flash_mem d x.
Proof.
  intros. pose proof (flash_protection_law d b) as L. destruct (flash_write_protection_set b d) as [rc d'].
  destruct L as (->&?&?); [done|]. by exists d'.
Qed.

(** Switching the protection on again, whatever happened before. *)
Lemma protect_again d b : exists rc d', flash_write_protection_set b d = (rc, d') /\ powered d' = powered d /\ forall x, flash_mem d' x = flash_mem d x.
Proof.
  destruct (powered d) eqn:E; [destruct (protection_ok d b E) as (d'&?&?&?); eauto|].
  pose proof (flash_protection_off d b E) as L. destruct (flash_write_protection_set b d) as [rc d']. destruct L. eauto.
Qed.

Lemma erased_ext M M' b n : (forall x, M' x = M x) -> erased M b n -> erased M' b n.
Proof. intros E H x Hx. rewrite E. by apply H. Qed.

Lemma store_ext M M' b bs : (forall x, M' x = M x) -> forall x, mem_store b bs M' x = mem_store b bs M x.
Proof. intros E x. apply mem_store_proper. intros y. apply E. Qed.

(** The tail of the data, filled up to a whole word. *)
Lemma tail_ok d b tl : powered d = true -> 0 <= b -> b mod 4 = 0 -> 0 < Z.of_nat (length tl) < 4 -> b + 4 <= flash_size ->
  bytes_ok tl -> erased (flash_mem d) b 4 ->
  exists rc d', flash_write b (tl ++ replicate (Z.to_nat (write_block_size - Z.of_nat (length tl))) erase_value) d = (rc, d') /\
    outcome rc d' (forall x, flash_mem d' x = mem_store b tl (flash_mem d) x) (forall x, flash_mem d' x = flash_mem d x).
Proof.
  intros Hd Hb Hm Hl Hs Ho He. rewrite flash_block, flash_erased.
  set (bs := tl ++ _). assert (Hlen : Z.of_nat (length bs) = 4) by (subst bs; rewrite length_app, length_replicate; lia).
  destruct (flash_wrt_ok d b bs) as (rc&d'&->&O); rewrite ?Hlen; try done.
  - intros E. by rewrite E in Hlen.
  - apply Forall_app. split; [done|]. apply Forall_replicate. lia.
  - exists rc, d'. split; [done|]. destruct O as [(?&?&E)|(?&?&_&E)]; [left|right; split; [done|]; split; [done|]; apply E; lia].
    split; [done|]. split; [done|]. intros x. rewrite E. apply store_padding. eapply erased_sub; [exact He|lia|lia].
Qed.

Lemma wrt_mod (n : Z) : 0 <= n -> n = 4 * (n / 4) + n mod 4 /\ 0 <= n mod 4 < 4 /\ al n = n + (if n mod 4 =? 0 then 0 else 4 - n mod 4).
Proof.
  intros. pose proof (Z.div_mod n 4). pose proof (Z.mod_pos_bound n 4). do 2 (split; [lia|]). unfold al.
  destruct (Z.eqb_spec (n mod 4) 0).
  - replace (n + 3) with (3 + n / 4 * 4) by lia. rewrite Z.div_add by lia. change (3 / 4) with 0. lia.
  - replace (n + 3) with (n mod 4 - 1 + (n / 4 + 1) * 4) by lia. rewrite Z.div_add, (Z.div_small (n mod 4 - 1)) by lia. lia.
Qed.

(** The whole words at the start of the data. *)
Lemma head_ok d b data n : powered d = true -> 0 <= b -> b mod 4 = 0 -> 0 <= n <= Z.of_nat (length data) -> n mod 4 = 0 ->
  b + n <= flash_size -> bytes_ok data -> erased (flash_mem d) b n ->
  exists rc d', (if 0 <? n then flash_write b (take (Z.to_nat n) data) d else (0, d)) = (rc, d') /\
    outcome rc d' (forall x, flash_mem d' x = mem_store b (take (Z.to_nat n) data) (flash_mem d) x)
      (only (flash_mem d) (flash_mem d') b n /\ (n <= 8 -> forall x, flash_mem d' x = flash_mem d x)).
Proof.
  intros Hd Hb Hm Hn Hn4 Hs Ho He. assert (Hl : Z.of_nat (length (take (Z.to_nat n) data)) = n) by (rewrite length_take; lia).
  destruct (Z.ltb_spec 0 n).
  - destruct (flash_wrt_ok d b (take (Z.to_nat n) data)) as (rc&d'&->&O); rewrite ?Hl; try done; [|by apply Forall_take|].
    { intros E. rewrite E in Hl. cbn in Hl. lia. }
    exists rc, d'. split; [done|]. destruct O as [|(?&?&Hon&E)]; [by left|right]. rewrite Hl in Hon. do 3 (split; [done|]). intros. apply E. lia.
  - assert (n = 0) as -> by lia. exists 0, d. split; [done|]. left. split; [done|]. split; [done|].
    intros x. symmetry. apply mem_store_out. cbn. lia.
Qed.

Lemma store_twice M1 M2 M3 b c xs ys : (forall x, M2 x = mem_store b xs M1 x) -> (forall x, M3 x = mem_store c ys M2 x) ->
  c = b + Z.of_nat (length xs) -> forall x, M3 x = mem_store b (xs ++ ys) M1 x.
Proof. intros H1 H2 Hc x. rewrite H2, (store_ext _ M2 _ _ H1). by apply mem_store_app. Qed.

(** Data are written to an erased place; the power may fail between two words. *)
Lemma al_wrt_ok d a w r s x data : powered d = true -> 0 <= s < cnt -> 0 <= x -> x mod 4 = 0 -> data <> [] -> bytes_ok data ->
  x + al (Z.of_nat (length data)) <= sz -> erased (flash_mem d) (base s + x) (al (Z.of_nat (length data))) ->
  exists rc d', nvs_flash_al_wrt (adr s x) data (at_ d a w r) = (rc, at_ d' a w r) /\
    outcome rc d' (forall y, flash_mem d' y = mem_store (base s + x) data (flash_mem d) y)
      (only (flash_mem d) (flash_mem d') (base s + x) (al (Z.of_nat (length data))) /\
       (length data = 8%nat -> forall y, flash_mem d' y = flash_mem d y)).
Proof.
  intros Hd Hs Hx Hx4 Hne Hok Hsz He. pose proof geo_facts as (_&_&?&_). pose proof (base_range s Hs). pose proof (base_word s) as Hbw.
  set (len := Z.of_nat (length data)) in *. destruct (wrt_mod len) as (El&Hm&Ha); [lia|]. pose proof (al_bounds len).
  set (b := base s + x) in *. assert (Hb4 : b mod 4 = 0) by (subst b; by rewrite Z.add_mod, Hbw, Hx4 by lia).
  destruct (protection_ok d false Hd) as (d1&E1&Hd1&M1).
  assert (Hbl : len .& not32 (write_block_size - 1) = 4 * (len / 4)) by (rewrite flash_block; apply land_not3; lia).
  assert (H4 : (4 * (len / 4)) mod 4 = 0) by (rewrite Z.mul_comm; by apply Z.mod_mul).
  destruct (head_ok d1 b data (4 * (len / 4))) as (rc2&d2&E2&O2); try done; try lia.
  { eapply erased_ext; [exact M1|]. eapply erased_sub; [exact He|lia|]. destruct (_ =? 0); lia. }
  unfold nvs_flash_al_wrt. destruct data as [|b0 data']; [done|]. set (data := b0 :: data') in *. fold len.
  rewrite phys_at by lia. fold b. cbn [fs_flash]. rewrite E1. change (nz 0) with false. cbv iota. rewrite Hbl, E2.
  destruct O2 as [(->&Hd2&M2)|(Hrc2&Hd2&M2)].
  2:{ destruct (protect_again d2 true) as (rc3&d3&E3&Hp&M3). unfold nz at 1. rewrite (proj2 (Z.eqb_neq rc2 0)) by lia. cbn [negb]. cbv iota.
      rewrite E3. exists rc2, d3. split; [done|]. right. split; [done|]. split; [congruence|].
      destruct M2 as [O2 M2]. split.
      - intros y Hy. rewrite M3, O2, M1; [done|]. destruct (_ =? 0); lia.
      - intros E8 y. rewrite M3, M2, M1; [done|]. subst len. rewrite E8. done. }
  change (nz 0) with false. cbv iota. replace (len - 4 * (len / 4)) with (len mod 4) by lia.
  assert (Hl : Z.of_nat (length (take (Z.to_nat (4 * (len / 4))) data)) = 4 * (len / 4)) by (rewrite length_take; lia).
  unfold nz. destruct (Z.eqb_spec (len mod 4) 0) as [Ez|Ez]; cbn [negb]; cbv iota.
  - destruct (protect_again d2 true) as (rc3&d3&->&Hp&M3). exists 0, d3. split; [done|]. left. split; [done|]. split; [congruence|].
    intros y. rewrite M3, M2, take_ge by lia. by apply store_ext.
  - assert (Hdl : Z.of_nat (length (drop (Z.to_nat (4 * (len / 4))) data)) = len mod 4) by (rewrite length_drop; lia).
    rewrite <- Hdl. destruct (tail_ok d2 (b + 4 * (len / 4)) (drop (Z.to_nat (4 * (len / 4))) data)) as (rc4&d4&->&O4); try done; try lia.
    + by rewrite Z.add_mod, Hb4, H4 by lia.
    + by apply Forall_drop.
    + intros y Hy. rewrite M2, mem_store_out, M1 by lia. apply He. lia.
    + destruct (protect_again d4 true) as (rc3&d3&->&Hp&M3). exists rc4, d3. split; [done|].
      destruct O4 as [(->&?&M4)|(?&?&M4)]; [left|right]; (split; [done|]); (split; [congruence|]).
      * intros y. rewrite M3, (store_twice _ _ _ b _ _ _ M2 M4), take_drop by lia. by apply store_ext.
      * split; [|intros E8; exfalso; apply Ez; subst len; by rewrite E8]. intros y Hy. rewrite M3, M4, M2, mem_store_out, M1; [done|]. lia.
Qed.

(** ** Walking *)

Abbreviation slot_of := (slot_of off sz).
Abbreviation sect := (sect cnt).
Abbreviation full := (full off sz).
Abbreviation log := (log cnt).
Abbreviation older_log := (older_log cnt).

Definition pos (p : Z * nat) : Z := adr p.1 (spos p.2).

Lemma spos_S i : spos (S i) + 8 = spos i.
Proof. unfold NvsLayout.spos. lia. Qed.

Lemma spos_lt i : spos i < sz - 8.
Proof. unfold NvsLayout.spos. lia. Qed.

Lemma spos_le i j : (i <= j)%nat -> spos j <= spos i.
Proof. unfold NvsLayout.spos. lia. Qed.

Lemma adr_add s x n : 0 <= s < cnt -> 0 <= x + n < 2 ^ 16 -> u32 (adr s x + n) = adr s (x + n).
Proof. intros. pose proof geo_facts as (_&_&_&?). unfold adr. rewrite u32_small; lia. Qed.

Lemma adr_inj s x s' x' : 0 <= x < 2 ^ 16 -> 0 <= x' < 2 ^ 16 -> adr s x = adr s' x' -> s = s' /\ x = x'.
Proof. unfold adr. lia. Qed.

(** In the middle of a sector. *)
Lemma prev_in d a w r s i : powered d = true -> 0 <= s < cnt -> 0 <= spos (S i) ->
  nvs_prev_ate (at_ d a w r) (adr s (spos (S i))) = (0, adr s (spos i), slot (flash_mem d) s (S i)).
Proof.
  intros Hd Hs Hi. pose proof geo_facts as (_&_&?&?). pose proof (spos_S i). pose proof (spos_lt i). unfold nvs_prev_ate.
  rewrite ate_rd_ok by lia || done. change (nz 0) with false. cbv iota. rewrite ate_size_8. cbn [sector_size].
  rewrite adr_add, H1, adr_offs by lia. destruct (Z.eqb_spec (spos i) (sz - 8)); [lia|]. done.
Qed.

Definition before s : Z := if s =? 0 then cnt - 1 else s - 1.

Lemma before_sect ws j : before (sect ws j) = sect ws (S j).
Proof.
  pose proof geo_facts as (_&_&_&?). pose proof (Z.mod_pos_bound (ws - Z.of_nat j) cnt ltac:(lia)). unfold before, NvsLayout.sect in *.
  replace (ws - Z.of_nat (S j)) with (ws - Z.of_nat j - 1) by lia. rewrite <- (Zminus_mod_idemp_l (ws - Z.of_nat j)).
  set (m := (ws - Z.of_nat j) mod cnt) in *. destruct (Z.eqb_spec m 0) as [->|]; [|by rewrite Z.mod_small by lia].
  change (0 - 1) with (-1). rewrite <- (Z.mod_add (-1) 1) by lia. rewrite Z.mod_small; lia.
Qed.

Lemma before_range s : 0 <= s < cnt -> 0 <= before s < cnt.
Proof. intros. unfold before. destruct (Z.eqb_spec s 0); lia. Qed.

(** From the oldest entry of a sector to the closing ate of the sector before. *)
Lemma prev_out d a w r s : powered d = true -> 0 <= s < cnt ->
  nvs_prev_ate (at_ d a w r) (adr s (spos 0)) =
  let fs := at_ d a w r in let M := flash_mem d in let close_ate := close_slot off sz M (before s) in let addr := adr (before s) (sz - 8) in
  if nvs_ate_cmp_const close_ate erase_value =? 0 then (0, a, slot M s 0)
  else if (nvs_ate_crc8_check close_ate =? 0) && (ate_offset close_ate <? sz - 8) && (ate_offset close_ate mod 8 =? 0)
  then (0, u32 (adr (before s) 0 + ate_offset close_ate), slot M s 0)
  else let '(rc, addr) := nvs_recover_last_ate fs addr in (rc, addr, slot M s 0).
Proof.
  intros Hd Hs. pose proof geo_facts as (_&_&?&?). pose proof (before_range s Hs). unfold nvs_prev_ate. cbv zeta.
  assert (spos 0 = sz - 16) as E0 by (unfold NvsLayout.spos; lia).
  rewrite ate_rd_ok by lia || done. change (nz 0) with false. cbv iota. rewrite ate_size_8. cbn [sector_size sector_count ate_wra].
  rewrite adr_add by lia. replace (spos 0 + 8) with (sz - 8) by lia. rewrite adr_offs, Z.eqb_refl by lia. cbn [negb]. cbv iota.
  rewrite adr_shift by lia.
  match goal with |- context [nvs_flash_ate_rd _ ?x] => assert (x = adr (before s) (sz - 8)) as -> end.
  { unfold before, ADDR_SECT_SHIFT, adr. rewrite !Z.shiftl_mul_pow2 by lia. destruct (Z.eqb_spec s 0); rewrite u32_small; lia. }
  rewrite ate_rd_ok by lia || done. change (nz 0) with false. cbv iota. rewrite adr_sect by lia. fold (slot (flash_mem d) s 0).
  unfold close_slot. rewrite Z.add_sub_assoc. done.
Qed.
End ops.
