(* ===== verification/NvsRead.v ===== *)
(** Finding entries in the non-volatile storage: the walk from the newest entry to the
    oldest follows the layout, and [nvs_read] gives the value of the newest one. *)
From Stdlib Require Import ZArith Lia Bool.
From stdpp Require Import base numbers list.
From S2P Require Import Prelude ByteOrder Uuid Crc NvsFs NvsLayout NvsOps.
Open Scope Z_scope.

Section reading.
Context {D : Type} `{!Flash D, !FlashOk D}.
Context (off sz cnt : Z).
Hypothesis part : partition off sz cnt.
Implicit Types (d : D) (s ws dw x n a w id : Z) (r : bool) (i j k : nat) (older : list nat) (p q : Z * nat) (l : list (Z * nat)).

Abbreviation base := (base off sz).
Abbreviation spos := (spos sz).
Abbreviation slot := (slot off sz).
Abbreviation slot_of := (slot_of off sz).
Abbreviation sect := (sect cnt).
Abbreviation full := (full off sz).
Abbreviation layout := (layout off sz cnt).
Abbreviation log := (log cnt).
Abbreviation older_log := (older_log cnt).
Abbreviation pos := (pos sz).
Abbreviation at_ d a w r := (mk_fs d off a w sz cnt r).
Abbreviation geo := (part_geo _ _ _ part).

Lemma close_bytes M s : (forall x, 0 <= M x < 256) ->
  bytes_ok (mem_bytes M (base s + sz - 8) 8) /\ length (mem_bytes M (base s + sz - 8) 8) = 8%nat.
Proof.
  intros HM. split; [|by rewrite length_mem_bytes]. apply Forall_forall. intros b Hb. apply list_elem_of_fmap in Hb as (y&->&_). apply HM.
Qed.

(** To the newest entry of a closed sector. *)
Lemma prev_full d a w r s k : powered d = true -> 0 <= s < cnt -> full (flash_mem d) (before cnt s) (S k) ->
  nvs_prev_ate (at_ d a w r) (adr s (spos 0)) = (0, adr (before cnt s) (spos k), slot (flash_mem d) s 0).
Proof.
  intros Hd Hs [Hv Hl _ _ Hf]. pose proof (geo_facts _ _ _ part) as (_&H8&?&?). pose proof (before_range cnt s Hs).
  pose proof (spos_S sz k). pose proof (spos_lt sz k). rewrite (prev_out _ _ _ part) by done. cbv zeta. rewrite flash_erased.
  destruct (close_bytes (flash_mem d) (before cnt s) (flash_bytes d)) as [Hb H8'].
  unfold close_slot at 1. rewrite valid_not_erased by done. change (1 =? 0) with false. cbv iota. rewrite Hv, Hl, spos_S, Z.eqb_refl.
  rewrite (proj2 (Z.ltb_lt (spos k) (sz - 8))) by lia.
  assert (spos k mod 8 = 0) as ->.
  { unfold NvsLayout.spos. replace (sz - 16 - 8 * Z.of_nat k) with (sz + (- 2 - Z.of_nat k) * 8) by lia. by rewrite Z.mod_add by lia. }
  rewrite Z.eqb_refl. cbn [andb]. cbv iota. by rewrite (adr_add _ _ _ part) by lia.
Qed.

(** To the end of the entries. *)
Lemma prev_end d a w r s : powered d = true -> 0 <= s < cnt -> erased (flash_mem d) (base (before cnt s) + sz - 8) 8 ->
  nvs_prev_ate (at_ d a w r) (adr s (spos 0)) = (0, a, slot (flash_mem d) s 0).
Proof.
  intros Hd Hs He. rewrite (prev_out _ _ _ part) by done. cbv zeta. rewrite flash_erased.
  unfold close_slot. rewrite (erased_bytes _ _ _ He). done.
Qed.

(** ** The way back *)

(** From [p] through the entries [l], one after the other, back to the write address. *)
Fixpoint trail (fs : nvs_fs D) p l : Prop :=
  match l with
  | [] => nvs_prev_ate fs (pos p) = (0, ate_wra fs, slot_of (flash_mem (fs_flash fs)) p)
  | q :: l => nvs_prev_ate fs (pos p) = (0, pos q, slot_of (flash_mem (fs_flash fs)) p) /\ pos q <> ate_wra fs /\ trail fs q l
  end.

Lemma trail_sector d a w r s i l : powered d = true -> 0 <= s < cnt -> 0 <= spos i ->
  (forall j, (j < i)%nat -> pos (s, j) <> a) -> trail (at_ d a w r) (s, 0%nat) l -> trail (at_ d a w r) (s, i) (slots s i ++ l).
Proof.
  intros Hd Hs Hi Ha Ht. induction i as [|i IH]; [done|]. cbn [slots app trail ate_wra]. split; [|split].
  - unfold NvsOps.pos. cbn [fst snd]. by rewrite (prev_in _ _ _ part).
  - apply Ha. lia.
  - apply IH; [pose proof (spos_S sz i); lia|]. intros j Hj. apply Ha. lia.
Qed.

Lemma trail_older d a w r ws j older : powered d = true -> 0 <= ws < cnt ->
  (forall t kt, older !! t = Some kt -> full (flash_mem d) (sect ws (S j + t)) kt) ->
  (forall t kt i, older !! t = Some kt -> (i < kt)%nat -> pos (sect ws (S j + t), i) <> a) ->
  erased (flash_mem d) (base (sect ws (S j + length older)) + sz - 8) 8 ->
  trail (at_ d a w r) (sect ws j, 0%nat) (older_log ws (S j) older).
Proof.
  intros Hd Hw. revert j. induction older as [|k older IH]; intros j Hf Ha He.
  - cbn [NvsLayout.older_log trail]. unfold NvsOps.pos. cbn [fst snd]. rewrite prev_end; [done|done|apply (sect_range off sz); apply geo|].
    rewrite (before_sect _ _ _ part). cbn [length] in He. by rewrite Nat.add_0_r in He.
  - cbn [NvsLayout.older_log]. pose proof (Hf 0%nat k eq_refl) as H0. rewrite Nat.add_0_r in H0.
    destruct k as [|k]; [by destruct H0; lia|]. cbn [slots app trail]. pose proof (Ha 0%nat (S k)) as Ha0. rewrite Nat.add_0_r in Ha0.
    split; [|split].
    + unfold NvsOps.pos. cbn [fst snd]. rewrite (prev_full _ _ _ _ _ k); [by rewrite (before_sect _ _ _ part)|done|apply (sect_range off sz); apply geo|].
      by rewrite (before_sect _ _ _ part).
    + apply Ha0; [done|lia].
    + apply trail_sector; [done|apply (sect_range off sz); apply geo| |intros i Hi; apply Ha0; [done|lia]|].
      * pose proof (full_fits _ _ _ _ _ H0). pose proof (spos_S sz k). lia.
      * apply IH.
        -- intros t kt Ht. specialize (Hf (S t) kt Ht). by rewrite <- plus_n_Sm in Hf.
        -- intros t kt i Ht Hi. specialize (Ha (S t) kt i Ht Hi). by rewrite <- plus_n_Sm in Ha.
        -- cbn [length] in He. by rewrite <- plus_n_Sm in He.
Qed.

(** The walk goes through all entries of the layout. *)
Lemma layout_trail d w r ws k dw older : powered d = true -> layout (flash_mem d) ws k dw older ->
  trail (at_ d (pos (ws, k)) w r) (ws, k) (log ws k older).
Proof.
  intros Hd L. pose proof (ws_range _ _ _ _ _ _ _ _ L) as Hw. pose proof (k_le _ _ _ _ _ _ _ _ L) as Hk.
  pose proof (geo_facts _ _ _ part) as (_&_&?&?). pose proof (older_len _ _ _ _ _ _ _ _ L) as Hlen. pose proof (spos_lt sz 0).
  assert (Hr : forall j, 0 <= spos j -> 0 <= spos j < 2 ^ 16) by (intros j ?; pose proof (spos_lt sz j); lia).
  apply trail_sector; [done..| |].
  - intros j Hj E%adr_inj; cbn [fst snd] in *; [|apply Hr; pose proof (spos_le sz j k); lia|by apply Hr].
    destruct E as [_ E]. unfold NvsLayout.spos in E. lia.
  - rewrite <- (sect_0 cnt ws) at 2 by done. apply trail_older; [done..| | |].
    + intros t kt Ht. by apply (older_full _ _ _ _ _ _ _ _ L).
    + intros t kt i Ht Hi E. pose proof (lookup_lt_Some _ _ _ Ht). apply (older_full _ _ _ _ _ _ _ _ L) in Ht.
      apply adr_inj in E as [E _]; cbn [fst snd] in *; [|apply Hr; pose proof (full_fits _ _ _ _ _ Ht); pose proof (spos_le sz i kt); lia|by apply Hr].
      by apply (sect_open cnt ws (1 + t)) in E; [|done|lia|lia].
    + destruct (decide (Z.of_nat (1 + length older) < cnt)).
      * eapply erased_sub; [apply (rest_erased _ _ _ _ _ _ _ _ L (1 + length older)); lia|lia|lia].
      * assert (sect ws (1 + length older) = ws) as ->; [|apply (open_close _ _ _ _ _ _ _ _ L)].
        unfold NvsLayout.sect. replace (Z.of_nat (1 + length older)) with cnt by lia.
        replace (ws - cnt) with (ws + (-1) * cnt) by lia. rewrite Z.mod_add by lia. by apply Z.mod_small.
Qed.

(** ** Looking for an entry *)

Abbreviation newest := (newest off sz).
Abbreviation lookup := (lookup off sz).
Abbreviation entry_ok := (entry_ok off sz cnt).

(** One step of the walk, at an entry that is not the one, and at one that is. *)
Lemma walk_skip fs id addr next e fuel : nvs_prev_ate fs addr = (0, next, e) ->
  (ate_id e =? id) && (nvs_ate_crc8_check e =? 0) = false ->
  walk (S fuel) fs id addr = if next =? ate_wra fs then (0, addr, false, next, e) else walk fuel fs id next.
Proof. intros E H. cbn [walk]. rewrite E. change (nz 0) with false. cbv iota. by rewrite H. Qed.

Lemma walk_hit fs id addr next e fuel : nvs_prev_ate fs addr = (0, next, e) ->
  ate_id e = id -> valid e -> walk (S fuel) fs id addr = (0, addr, true, next, e).
Proof. intros E H Hv. cbn [walk]. rewrite E. change (nz 0) with false. cbv iota. by rewrite H, Hv, !Z.eqb_refl. Qed.

Lemma skip_other id e : ate_id e <> id -> (ate_id e =? id) && (nvs_ate_crc8_check e =? 0) = false.
Proof. intros H. by rewrite (proj2 (Z.eqb_neq _ _) H). Qed.

Lemma skip_invalid id e : nvs_ate_crc8_check e = 1 -> (ate_id e =? id) && (nvs_ate_crc8_check e =? 0) = false.
Proof. intros ->. apply andb_false_r. Qed.

Lemma walk_entries fs M id l q fuel : M = flash_mem (fs_flash fs) ->
  trail fs q l -> Forall (entry_ok M) (q :: l) -> (length l < fuel)%nat ->
  match newest M id (q :: l) with
  | Some p => exists next, walk fuel fs id (pos q) = (0, pos p, true, next, slot_of M p)
  | None => exists p, p ∈ q :: l /\ walk fuel fs id (pos q) = (0, pos p, false, ate_wra fs, slot_of M p)
  end.
Proof.
  intros EM. revert q fuel. induction l as [|q' l IH]; intros q fuel Ht [Hv Hok]%Forall_cons Hf; (destruct fuel as [|fuel]; [cbn in Hf; lia|]);
    destruct Hv as (_&_&Hv&_); cbn [trail] in Ht; rewrite <- EM in Ht; cbn [NvsLayout.newest].
  - destruct (Z.eqb_spec (ate_id (slot_of M q)) id) as [Hi|Hi].
    + eexists. by apply walk_hit.
    + exists q. rewrite (walk_skip _ _ _ _ _ _ Ht (skip_other _ _ Hi)), Z.eqb_refl. split; [apply list_elem_of_here|done].
  - destruct Ht as (E&Hq&Ht). destruct (Z.eqb_spec (ate_id (slot_of M q)) id) as [Hi|Hi].
    + eexists. by apply walk_hit.
    + rewrite (walk_skip _ _ _ _ _ _ E (skip_other _ _ Hi)), (proj2 (Z.eqb_neq _ _) Hq).
      cbn [length] in Hf. specialize (IH q' fuel Ht Hok ltac:(lia)). cbn [NvsLayout.newest] in IH.
      match goal with |- match ?m with _ => _ end => destruct m; [exact IH|] end.
      destruct IH as (q2&Hq2&E2). exists q2. split; [by apply list_elem_of_further|exact E2].
Qed.

(** From an erased ate the walk goes to the newest entry of the identifier, or to the
    last one. *)
Lemma walk_trail fs M p l id fuel : M = flash_mem (fs_flash fs) ->
  trail fs p l -> Forall (entry_ok M) l -> nvs_ate_crc8_check (slot_of M p) = 1 -> (length l < fuel)%nat ->
  match newest M id l with
  | Some q => exists next, walk fuel fs id (pos p) = (0, pos q, true, next, slot_of M q)
  | None => exists q, (q ∈ l \/ l = [] /\ q = p) /\ walk fuel fs id (pos p) = (0, pos q, false, ate_wra fs, slot_of M q)
  end.
Proof.
  intros EM Ht Hok Hp Hf. destruct fuel as [|fuel]; [lia|]. destruct l as [|q l]; cbn [trail] in Ht; rewrite <- EM in Ht.
  - exists p. rewrite (walk_skip _ _ _ _ _ _ Ht (skip_invalid _ _ Hp)), Z.eqb_refl. split; [by right|done].
  - destruct Ht as (E&Hq&Ht). rewrite (walk_skip _ _ _ _ _ _ E (skip_invalid _ _ Hp)), (proj2 (Z.eqb_neq _ _) Hq).
    cbn [length] in Hf. pose proof (walk_entries fs M id l q fuel EM Ht Hok ltac:(lia)) as W.
    destruct (newest M id (q :: l)); [exact W|]. destruct W as (q2&Hq2&E2). exists q2. split; [by left|exact E2].
Qed.

(** Without a history, [nvs_read_hist] walks in the same way. *)
Lemma read_walks fuel (fs : nvs_fs D) id addr :
  read_hist_loop fuel fs id 0 addr 0 =
  let '(rc, rd_addr, found, next, e) := walk fuel fs id addr in (rc, rd_addr, next, e, if found : bool then 1 else 0).
Proof.
  revert addr. induction fuel as [|fuel IH]; intros addr; [done|]. cbn [read_hist_loop walk].
  destruct (nvs_prev_ate fs addr) as [[rc next] e]. destruct (nz rc); [done|]. destruct (_ && _).
  - change (u16 (0 + 1)) with 1. change (1 <=? 0) with false. by destruct (next =? ate_wra fs).
  - change (0 <=? 0) with true. destruct (next =? ate_wra fs); [done|]. apply IH.
Qed.

(** The place of the next ate is erased, or at least what is there is no entry: it may
    be the end of the data if an entry without data filled the sector. *)
Definition clear (M : mem) ws k : Prop := nvs_ate_crc8_check (slot M ws k) = 1.

Lemma clear_room M ws k dw older : layout M ws k dw older -> dw <= spos k -> clear M ws k.
Proof.
  intros L Hs. unfold clear, NvsLayout.slot. rewrite erased_bytes; [apply erased_ate_invalid|].
  eapply erased_sub; [apply (gap _ _ _ _ _ _ _ _ L)|lia|lia].
Qed.

Section layouts.
Context (d : D) (w : Z) (r : bool) (ws : Z) (k : nat) (dw : Z) (older : list nat).
Hypothesis Hd : powered d = true.
Hypothesis L : layout (flash_mem d) ws k dw older.
Hypothesis Hc : clear (flash_mem d) ws k.

Lemma walk_layout id : let M := flash_mem d in let fs := at_ d (pos (ws, k)) w r in
  match newest M id (log ws k older) with
  | Some q => exists next, walk (walk_fuel fs) fs id (ate_wra fs) = (0, pos q, true, next, slot_of M q)
  | None => exists q, (q ∈ log ws k older \/ log ws k older = [] /\ q = (ws, k)) /\ walk (walk_fuel fs) fs id (ate_wra fs) = (0, pos q, false, ate_wra fs, slot_of M q)
  end.
Proof.
  intros M fs. apply (walk_trail fs M (ws, k) (log ws k older) id (walk_fuel fs)); [done|by eapply layout_trail|..].
  - eapply log_ok; [apply geo|exact L].
  - exact Hc.
  - pose proof (log_length _ _ _ geo _ _ _ _ _ L). subst fs. unfold walk_fuel. cbn [sector_count sector_size]. lia.
Qed.

(** The data of an entry are in its sector. *)
Lemma entry_data q : entry_ok (flash_mem d) q ->
  let e := slot_of (flash_mem d) q in
  u32 ((pos q .& ADDR_SECT_MASK) + ate_offset e) = adr q.1 (ate_offset e) /\ ate_offset e < sz /\ ate_offset e + ate_len e <= sz.
Proof.
  intros (Hs&Hp&_&Hl&Ho&He) e. pose proof (geo_facts _ _ _ part) as (_&_&?&?). pose proof (spos_lt sz q.2). fold e in Hl, Ho, He.
  pose proof (al_bounds (ate_len e)). unfold NvsOps.pos. rewrite adr_sect by lia. split; [|lia]. apply (adr_add _ _ _ part); [done|lia].
Qed.

Lemma take_mem_bytes M a n m : 0 <= m -> mem_bytes M a (Z.min m n) = take (Z.to_nat m) (mem_bytes M a n).
Proof.
  intros Hm. apply list_eq. intros i. rewrite lookup_take. destruct (decide (Z.of_nat i < Z.min m n)).
  - rewrite !mem_bytes_lookup by lia. case_decide; [done|lia].
  - rewrite lookup_ge_None_2 by (rewrite length_mem_bytes; lia). case_decide; [|done]. by rewrite lookup_ge_None_2 by (rewrite length_mem_bytes; lia).
Qed.
End layouts.

(** Reading gives the value of the newest entry, as much as fits in the buffer, and
    its length. *)
Lemma read_layout d w ws k dw older id len :
  powered d = true -> layout (flash_mem d) ws k dw older -> clear (flash_mem d) ws k -> (id = 0xFFFF -> log ws k older <> []) -> 0 <= len <= sz - 16 ->
  (k = 0%nat /\ older = [] -> dw <= spos k) ->
  nvs_read (at_ d (pos (ws, k)) w true) id len =
  match lookup (flash_mem d) (log ws k older) id with
  | Some data => (Z.of_nat (length data), take (Z.to_nat len) data)
  | None => (- ENOENT, [])
  end.
Proof.
  intros Hd L Hc Hid Hlen Hne. pose proof (geo_facts _ _ _ part) as (_&_&?&_). unfold nvs_read, nvs_read_hist.
  cbn [fs_ready negb]. cbv iota. rewrite ate_size_8. cbn [sector_size]. set (fs := at_ d (pos (ws, k)) w true). set (M := flash_mem d) in *.
  rewrite u32_small, (proj2 (Z.ltb_ge (sz - 2 * 8) len)) by lia. rewrite read_walks.
  pose proof (walk_layout d w true ws k dw older Hd L Hc id) as W. cbv zeta in W. fold fs M in W.
  pose proof (log_ok _ _ _ geo _ _ _ _ _ L) as Hok. fold M in Hok. rewrite Forall_forall in Hok. unfold NvsLayout.lookup.
  destruct (newest M id (log ws k older)) as [q|] eqn:En.
  - destruct W as [next ->]. change (nz 0) with false. cbv iota. apply newest_elem in En as [Hq Ei]. specialize (Hok q Hq).
    rewrite Ei, Z.eqb_refl, andb_false_r. cbn [orb option_bind mbind]. unfold content. change (1 <? 0) with false. rewrite orb_false_r.
    destruct (entry_data d q Hok) as (Ea&Hb1&Hb2). fold M in Ea, Hb1, Hb2. destruct Hok as (Hs&_&_&Hl&Ho&_). fold M in Hl, Ho.
    destruct (Z.eqb_spec (ate_len (slot_of M q)) 0); [done|]. rewrite Ea.
    unfold fs. rewrite (rd_ok _ _ _ part) by (done || lia). change (nz 0) with false. cbv iota. unfold value.
    rewrite length_mem_bytes, Z2Nat.id by done. by rewrite <- take_mem_bytes by lia.
  - destruct W as (q&Hq&->). change (nz 0) with false. cbv iota. rewrite Z.eqb_refl. cbn [andb option_bind mbind].
    assert (ate_id (slot_of M q) <> id) as Hi.
    { destruct Hq as [Hq|[E ->]]; [by eapply newest_none|]. pose proof E as Elog. unfold NvsLayout.slot_of. cbn [fst snd].
      apply (empty_log _ _ _ _ _ _ _ _ L) in E as [-> ->]. unfold NvsLayout.slot.
      rewrite erased_bytes; [change (ate_id _) with 0xFFFF; intros <-; by apply Hid|]. eapply erased_sub; [apply (gap _ _ _ _ _ _ _ _ L)|specialize (Hne (conj eq_refl eq_refl)); lia|lia]. }
    by rewrite (proj2 (Z.eqb_neq _ _) Hi).
Qed.

(** With no entries the largest identifier is taken for that of the erased ate. *)
Lemma read_empty d w ws k dw older len :
  powered d = true -> layout (flash_mem d) ws k dw older -> clear (flash_mem d) ws k -> log ws k older = [] -> 0 <= len <= sz - 16 ->
  dw <= spos k ->
  let '(rc, data) := nvs_read (at_ d (pos (ws, k)) w true) 0xFFFF len in rc = 0xFFFF \/ rc <> 0 /\ data = [].
Proof.
  intros Hd L Hc E Hlen Hne. pose proof (geo_facts _ _ _ part) as (_&_&?&_). unfold nvs_read, nvs_read_hist.
  cbn [fs_ready negb]. cbv iota. rewrite ate_size_8. cbn [sector_size]. set (fs := at_ d (pos (ws, k)) w true). set (M := flash_mem d) in *.
  rewrite u32_small, (proj2 (Z.ltb_ge (sz - 2 * 8) len)) by lia. rewrite read_walks.
  pose proof (walk_layout d w true ws k dw older Hd L Hc 0xFFFF) as W. cbv zeta in W. fold fs M in W. rewrite E in W. cbn [NvsLayout.newest] in W.
  destruct W as (q&[Hq|[_ ->]]&->); [by apply not_elem_of_nil in Hq|]. change (nz 0) with false. cbv iota.
  assert (slot_of M (ws, k) = mk_ate 0xFFFF 0xFFFF 0xFFFF 255 255) as ->.
  { unfold NvsLayout.slot_of, NvsLayout.slot. cbn [fst snd]. rewrite erased_bytes; [done|]. eapply erased_sub; [apply (gap _ _ _ _ _ _ _ _ L)|lia|lia]. }
  cbn [ate_id ate_len ate_offset]. rewrite !Z.eqb_refl. change ((true && negb true) || (0xFFFF =? 0) || (0 <? 0)) with false. cbv iota.
  destruct (nvs_flash_rd _ _ _) as [rc data]. unfold nz. destruct (Z.eqb_spec rc 0); cbn [negb]; cbv iota; [by left|by right].
Qed.
End reading.
