(* ===== verification/NvsWrite.v ===== *)
(** Writing entries to the non-volatile storage: what the routines that change the flash
    do to the layout, when they succeed and when the power fails on the way. *)
From Stdlib Require Import ZArith Lia Bool.
From stdpp Require Import base numbers list.
From S2P Require Import Prelude ByteOrder Uuid Crc NvsFs NvsLayout NvsOps NvsRead.
Open Scope Z_scope.

(** ** Without power *)

(** Nothing changes any more. *)
Section off.
Context {D : Type} `{!Flash D, !FlashOk D}.
Implicit Types (fs : nvs_fs D).

Definition dark fs fs' : Prop :=
  powered (fs_flash fs') = false /\ forall x, flash_mem (fs_flash fs') x = flash_mem (fs_flash fs) x.

Definition stays_dark (f : nvs_fs D -> Z * nvs_fs D) : Prop :=
  forall fs, powered (fs_flash fs) = false -> dark fs (f fs).2.

Lemma dark_refl fs : powered (fs_flash fs) = false -> dark fs fs.
Proof. done. Qed.

Lemma dark_trans fs1 fs2 fs3 : dark fs1 fs2 -> dark fs2 fs3 -> dark fs1 fs3.
Proof. intros [_ H1] [H2 H3]. split; [done|]. intros x. by rewrite H3. Qed.

(** [let '(rc, fs) := f fs in g rc fs]. *)
Lemma dark_bind f (g : Z -> nvs_fs D -> Z * nvs_fs D) :
  stays_dark f -> (forall rc, stays_dark (g rc)) -> stays_dark (fun fs => let '(rc, fs) := f fs in g rc fs).
Proof.
  intros Hf Hg fs Hp. pose proof (Hf fs Hp) as F. destruct (f fs) as [rc fs1]. cbn [snd] in F.
  eapply dark_trans; [exact F|]. apply Hg. apply F.
Qed.

Lemma dark_if (b : nvs_fs D -> bool) f g : stays_dark f -> stays_dark g -> stays_dark (fun fs => if b fs then f fs else g fs).
Proof. intros Hf Hg fs Hp. destruct (b fs); [by apply Hf|by apply Hg]. Qed.

Lemma dark_ret (rc : nvs_fs D -> Z) : stays_dark (fun fs => (rc fs, fs)).
Proof. intros fs Hp. by apply dark_refl. Qed.

Lemma dark_update (u : nvs_fs D -> nvs_fs D) f : (forall fs, fs_flash (u fs) = fs_flash fs) -> stays_dark f -> stays_dark (fun fs => f (u fs)).
Proof. intros Hu Hf fs Hp. destruct (Hf (u fs)) as [H1 H2]; [by rewrite Hu|]. split; [done|]. intros x. by rewrite H2, Hu. Qed.

Lemma al_wrt_dark addr data : stays_dark (nvs_flash_al_wrt addr data).
Proof.
  intros fs Hp. unfold nvs_flash_al_wrt. destruct data as [|b data]; [by apply dark_refl|]. set (l := b :: data).
  pose proof (flash_protection_off (fs_flash fs) false Hp) as H1. destruct (flash_write_protection_set false _) as [rc1 d1]. destruct H1 as [Hp1 M1].
  destruct (nz rc1); [done|]. set (blen := _ .& _).
  match goal with |- context [if 0 <? blen then flash_write ?a ?bs d1 else _] =>
    pose proof (flash_write_off d1 a bs Hp1) as H2; destruct (flash_write a bs d1) as [rc2 d2] end. destruct H2 as [Hp2 M2].
  assert (Hstep : forall rc d, powered d = false -> (forall x, flash_mem d x = flash_mem (fs_flash fs) x) ->
    dark fs (let '(rc, d) := if nz rc then (rc, d) else if nz (Z.of_nat (length l) - blen) then
       flash_write (phys fs addr + blen) (drop (Z.to_nat blen) l ++ replicate (Z.to_nat (write_block_size - (Z.of_nat (length l) - blen))) erase_value) d
       else (rc, d) in let '(_, d) := flash_write_protection_set true d in (rc, set_flash d fs)).2).
  { intros rc d Hpd Md.
    assert (Hend : forall rc d, powered d = false -> (forall x, flash_mem d x = flash_mem (fs_flash fs) x) ->
      dark fs (let '(_, d) := flash_write_protection_set true d in (rc : Z, set_flash d fs)).2).
    { intros rc' d' Hp' M'. pose proof (flash_protection_off d' true Hp') as H3. destruct (flash_write_protection_set true d') as [rc3 d3].
      destruct H3 as [Hp3 M3]. split; [done|]. intros x. cbn. by rewrite M3, M'. }
    destruct (nz rc); [by apply Hend|]. destruct (nz (_ - _)); [|by apply Hend].
    match goal with |- context [flash_write ?a ?bs d] => pose proof (flash_write_off d a bs Hpd) as H2; destruct (flash_write a bs d) as [rc4 d4] end.
    destruct H2 as [Hp4 M4]. apply Hend; [done|]. intros x. by rewrite M4, Md. }
  destruct (0 <? blen); apply Hstep; try done. intros x. by rewrite M2, M1.
Qed.

Lemma ate_wrt_dark e : stays_dark (nvs_flash_ate_wrt e).
Proof.
  intros fs Hp. unfold nvs_flash_ate_wrt. pose proof (al_wrt_dark (ate_wra fs) (ate_bytes e) fs Hp) as H.
  destruct (nvs_flash_al_wrt _ _ fs). exact H.
Qed.

Lemma data_wrt_dark data : stays_dark (nvs_flash_data_wrt data).
Proof.
  intros fs Hp. unfold nvs_flash_data_wrt. pose proof (al_wrt_dark (data_wra fs) data fs Hp) as H.
  destruct (nvs_flash_al_wrt _ _ fs). exact H.
Qed.

Lemma block_move_dark fuel addr len : stays_dark (block_move_loop fuel addr len).
Proof.
  revert addr len. induction fuel as [|fuel IH]; intros addr len fs Hp; [by apply dark_refl|]. cbn [block_move_loop].
  destruct (len =? 0); [by apply dark_refl|]. destruct (nvs_flash_rd _ _ _) as [rc buf]. destruct (nz rc); [by apply dark_refl|].
  revert fs Hp. apply dark_bind; [apply data_wrt_dark|]. intros rc'. apply dark_if; [apply (dark_ret (fun _ => rc'))|apply IH].
Qed.

Lemma erase_sector_dark addr : stays_dark (nvs_flash_erase_sector addr).
Proof.
  intros fs Hp. unfold nvs_flash_erase_sector. destruct (_ <=? 0); [by apply dark_refl|].
  pose proof (flash_protection_off (fs_flash fs) false Hp) as H1. destruct (flash_write_protection_set false _) as [rc1 d1]. destruct H1 as [Hp1 M1].
  destruct (nz rc1); [done|].
  match goal with |- context [flash_erase ?a ?n d1] => pose proof (flash_erase_off d1 a n Hp1) as H2; destruct (flash_erase a n d1) as [rc2 d2] end.
  destruct H2 as [Hp2 M2]. assert (M : forall x, flash_mem d2 x = flash_mem (fs_flash fs) x) by (intros x; by rewrite M2, M1).
  destruct (nz rc2); [done|].
  pose proof (flash_protection_off d2 true Hp2) as H3. destruct (flash_write_protection_set true _) as [rc3 d3]. destruct H3 as [Hp3 M3].
  split; [done|]. intros x. cbn. by rewrite M3, M.
Qed.

Lemma gc_loop_dark fuel gc_addr stop_addr : stays_dark (gc_loop fuel gc_addr stop_addr).
Proof.
  revert gc_addr. induction fuel as [|fuel IH]; intros addr fs Hp; [by apply dark_refl|]. cbn [gc_loop].
  destruct (nvs_prev_ate fs addr) as [[rc next] e]. destruct (nz rc); [by apply dark_refl|].
  destruct (nz (nvs_ate_crc8_check e)); [destruct (addr =? stop_addr); [by apply dark_refl|by apply IH]|].
  destruct (walk _ _ _ _) as [[[[rc1 wlk] ?] ?] ?]. destruct (nz rc1); [by apply dark_refl|]. destruct (_ && _).
  - set (e' := nvs_ate_crc8_update _). set (da := u32 _). clearbody e' da. revert fs Hp.
    apply (dark_bind (fun fs => let '(rc, fs) := nvs_flash_block_move da (ate_len e') fs in if nz rc then (rc, fs) else nvs_flash_ate_wrt e' fs)
             (fun rc fs => if nz rc then (rc, fs) else if addr =? stop_addr then (0, fs) else gc_loop fuel next stop_addr fs)).
    + apply dark_bind; [apply block_move_dark|]. intros rc2. apply dark_if; [apply (dark_ret (fun _ => rc2))|apply ate_wrt_dark].
    + intros rc2. apply dark_if; [apply (dark_ret (fun _ => rc2))|]. apply dark_if; [apply (dark_ret (fun _ => 0))|apply IH].
  - change (nz 0) with false. cbv iota. destruct (addr =? stop_addr); [by apply dark_refl|by apply IH].
Qed.

Lemma gc_dark : stays_dark nvs_gc.
Proof.
  intros fs Hp. unfold nvs_gc. destruct (nvs_flash_ate_rd _ _) as [rc close]. destruct (rc <? 0); [by apply dark_refl|].
  destruct (_ =? 0); [by apply erase_sector_dark|].
  match goal with |- context [let '(rc, gc_addr) := ?x in _] => destruct x as [rc1 addr] end. destruct (nz rc1); [by apply dark_refl|].
  set (sec := nvs_sector_advance _ _). set (stop := u32 (_ - _)). set (fuel := walk_fuel fs).
  clearbody sec stop fuel. revert fs Hp.
  apply (dark_bind (gc_loop fuel addr stop) (fun rc fs => if nz rc then (rc, fs) else nvs_flash_erase_sector sec fs)).
  - apply gc_loop_dark.
  - intros rc2. apply dark_if; [apply (dark_ret (fun _ => rc2))|apply erase_sector_dark].
Qed.

Lemma wrt_entry_dark id data : stays_dark (nvs_flash_wrt_entry id data).
Proof.
  intros fs Hp. unfold nvs_flash_wrt_entry. set (e := nvs_ate_crc8_update _). clearbody e. revert fs Hp.
  apply (dark_bind (nvs_flash_data_wrt data) (fun rc fs => if nz rc then (rc, fs) else nvs_flash_ate_wrt e fs)); [apply data_wrt_dark|].
  intros rc. apply dark_if; [apply (dark_ret (fun _ => rc))|apply ate_wrt_dark].
Qed.

Lemma sector_close_dark part : stays_dark (nvs_sector_close part).
Proof.
  intros fs Hp. unfold nvs_sector_close. set (e := nvs_ate_crc8_update _).
  match goal with |- context [nvs_flash_ate_wrt e ?f] => pose proof (ate_wrt_dark e f Hp) as H; destruct (nvs_flash_ate_wrt e f) as [rc fs'] end.
  exact H.
Qed.

Lemma write_loop_dark n parts id required data : stays_dark (write_loop n parts id required data).
Proof.
  induction n as [|n IH]; [apply (dark_ret (fun _ => - ENOSPC))|]. cbn [write_loop]. apply dark_if.
  - apply dark_bind; [apply wrt_entry_dark|]. intros rc. apply dark_if; [apply (dark_ret (fun _ => rc))|apply (dark_ret (fun _ => Z.of_nat (length data)))].
  - apply dark_bind; [apply sector_close_dark|]. intros rc. apply dark_if; [apply (dark_ret (fun _ => rc))|].
    apply dark_bind; [apply gc_dark|]. intros rc'. apply dark_if; [apply (dark_ret (fun _ => rc'))|apply IH].
Qed.
End off.

(** ** With power, as long as it lasts *)

Section writing.
Context {D : Type} `{!Flash D, !FlashOk D}.
Context (off sz cnt : Z).
Hypothesis part : partition off sz cnt.
Implicit Types (M : mem) (d : D) (s ws dw x n a w id : Z) (r : bool) (i j k : nat) (older : list nat) (data : list Z) (e : nvs_ate).

Abbreviation base := (base off sz).
Abbreviation spos := (spos sz).
Abbreviation slot := (slot off sz).
Abbreviation slot_of := (slot_of off sz).
Abbreviation layout := (layout off sz cnt).
Abbreviation agree := (agree off sz).
Abbreviation lookup := (lookup off sz).
Abbreviation log := (log cnt).
Abbreviation pos := (pos sz).
Abbreviation at_ d a w r := (mk_fs d off a w sz cnt r).
Abbreviation geo := (part_geo _ _ _ part).

(** Nothing outside of the partition is touched. *)
Definition inside M M' : Prop := only M M' off (cnt * sz).

Lemma inside_sector M M' s a n : 0 <= s < cnt -> only M M' a n -> base s <= a -> a + n <= base s + sz -> inside M M'.
Proof.
  intros Hs Ho ??. pose proof (geo_facts _ _ _ part) as (_&_&?&_). eapply only_wider; [exact Ho|..]; unfold NvsLayout.base in *; nia.
Qed.

Lemma inside_ext M M' : (forall x, M' x = M x) -> inside M M'.
Proof. intros H x _. apply H. Qed.

Lemma spos_word i : spos i mod 4 = 0.
Proof.
  pose proof (geo_facts _ _ _ part) as (_&H8&_&_). apply Z.mod_divide in H8 as [q Hq]; [|lia]. unfold NvsLayout.spos.
  replace (sz - 16 - 8 * Z.of_nat i) with ((2 * q - 4 - 2 * Z.of_nat i) * 4) by lia. by apply Z.mod_mul.
Qed.

Lemma ate_wrt_ok d w r s x e : powered d = true -> 0 <= s < cnt -> 0 <= x -> x mod 4 = 0 -> x + 8 <= sz ->
  erased (flash_mem d) (base s + x) 8 ->
  exists rc d', nvs_flash_ate_wrt e (at_ d (adr s x) w r) = (rc, at_ d' (u32 (adr s x - 8)) w r) /\
    outcome rc d' (forall y, flash_mem d' y = mem_store (base s + x) (ate_bytes e) (flash_mem d) y) (forall y, flash_mem d' y = flash_mem d y).
Proof.
  intros Hd Hs Hx H4 Hsz He. pose proof (ate_bytes_length e) as Hl.
  destruct (al_wrt_ok _ _ _ part d (adr s x) w r s x (ate_bytes e)) as (rc&d'&E&O); rewrite ?Hl; try done; [apply ate_bytes_ok|].
  unfold nvs_flash_ate_wrt. cbn [ate_wra]. rewrite E. exists rc, d'. rewrite ate_size_8. split; [done|].
  destruct O as [|(?&?&_&O)]; [by left|]. right. split; [done|]. split; [done|]. by apply O.
Qed.

Lemma data_wrt_ok d a r s x data : powered d = true -> 0 <= s < cnt -> 0 <= x -> x mod 4 = 0 -> bytes_ok data ->
  x + al (Z.of_nat (length data)) <= sz -> erased (flash_mem d) (base s + x) (al (Z.of_nat (length data))) ->
  exists rc d', nvs_flash_data_wrt data (at_ d a (adr s x) r) = (rc, at_ d' a (adr s (x + al (Z.of_nat (length data)))) r) /\
    outcome rc d' (forall y, flash_mem d' y = mem_store (base s + x) data (flash_mem d) y)
      (only (flash_mem d) (flash_mem d') (base s + x) (al (Z.of_nat (length data)))).
Proof.
  intros Hd Hs Hx H4 Hok Hsz He. pose proof (geo_facts _ _ _ part) as (_&_&?&?). pose proof (al_bounds (Z.of_nat (length data))).
  assert (Ew : forall z, z = nvs_al_size (D := D) (Z.of_nat (length data)) -> u32 (adr s x + z) = adr s (x + al (Z.of_nat (length data)))).
  { intros z ->. rewrite al_size by lia. apply (adr_add _ _ _ part); lia. }
  unfold nvs_flash_data_wrt. destruct (decide (data = [])) as [->|Hne].
  - exists 0, d. cbn [nvs_flash_al_wrt]. unfold set_wra. cbn [data_wra ate_wra fs_flash fs_offset sector_size sector_count fs_ready].
    rewrite (Ew _ eq_refl). split; [done|]. left. split; [done|]. split; [done|]. intros y. symmetry. apply mem_store_out. cbn. lia.
  - destruct (al_wrt_ok _ _ _ part d a (adr s x) r s x data) as (rc&d'&E&O); try done.
    cbn [data_wra]. rewrite E. exists rc, d'. unfold set_wra. cbn [data_wra ate_wra fs_flash fs_offset sector_size sector_count fs_ready].
    rewrite (Ew _ eq_refl). split; [done|]. destruct O as [|(?&?&O&_)]; [by left|by right].
Qed.

(** Data and then their ate are written. *)
Lemma layout_append M M1 M2 ws k dw older id (len : Z) (pt : Z) data :
  layout M ws k dw older -> len = Z.of_nat (length data) ->
  (forall x, M1 x = mem_store (base ws + dw) data M x) ->
  let e := nvs_ate_crc8_update (mk_ate id dw len pt 0) in
  (forall x, M2 x = mem_store (base ws + spos k) (ate_bytes e) M1 x) ->
  0 <= id < 2 ^ 16 -> 0 <= pt < 256 -> dw + al len <= spos k -> (len <> 0 -> dw + al len + 8 <= spos k) -> 0 <= spos (S k) ->
  layout M2 ws (S k) (dw + al len) older /\ agree M M2 (log ws k older) /\ inside M M2 /\ ate_id (slot M2 ws k) = id /\
  forall id', lookup M2 (log ws (S k) older) id' =
    if id' =? id then (if len =? 0 then None else Some data) else lookup M (log ws k older) id'.
Proof.
  intros L El HM1 e HM2 Hid Hpt Hd Hr Hk. pose proof (geo_facts _ _ _ part) as (_&_&?&_). pose proof (al_bounds len).
  pose proof (placed_nonneg _ _ _ _ _ _ (open_placed _ _ _ _ _ _ _ _ L)) as Hdw. pose proof (spos_lt sz k).
  pose proof (ws_range _ _ _ _ _ _ _ _ L) as Hw.
  assert (O1 : only M M1 (base ws + dw) (dw + al len - dw)) by (eapply only_wider; [exact (only_store _ _ _ _ HM1)|lia|lia]).
  pose proof (only_store _ _ _ _ HM2) as O2. change (Z.of_nat (length (ate_bytes e))) with 8 in O2.
  assert (Hm : (dw + al len) mod 4 = 0) by (rewrite Z.add_mod, (dw_aligned _ _ _ _ _ _ _ _ L), al_mod by lia; done).
  destruct (layout_data _ _ _ geo M M1 ws k dw older (dw + al len) L O1) as [L1 P1]; [lia|done|].
  assert (Hf : ate_fields e) by (apply update_fields; unfold ate_fields; cbn; lia).
  destruct (layout_ate _ _ _ geo M1 M2 ws k (dw + al len) older e L1 HM2 Hf (update_valid _)) as [L2 S2]; try done.
  { apply (dw_aligned _ _ _ _ _ _ _ _ L). }
  assert (A1 : agree M M1 (log ws k older)) by (eapply agree_gap; [exact geo|exact L|exact O1|lia|lia]).
  assert (A2 : agree M1 M2 (log ws k older)) by (eapply agree_gap; [exact geo|exact L1|exact O2|lia|lia]).
  pose proof (agree_trans _ _ _ _ _ _ A1 A2) as A. split; [done|]. split; [done|]. split.
  { eapply inside_sector with (s := ws) (a := base ws) (n := sz); [done| |lia|lia].
    eapply only_trans; (eapply only_wider; [eassumption|lia|lia]). }
  split; [by rewrite S2|]. intros id'. change (log ws (S k) older) with ((ws, k) :: log ws k older). unfold NvsLayout.lookup at 1. cbn [newest].
  unfold NvsLayout.slot_of at 1. cbn [fst snd]. rewrite S2. change (ate_id e) with id.
  destruct (Z.eqb_spec id id') as [->|Hne].
  - rewrite Z.eqb_refl. cbn [mbind option_bind]. unfold content, value, NvsLayout.slot_of. cbn [fst snd]. rewrite S2.
    change (ate_len e) with len. change (ate_offset e) with dw. destruct (len =? 0); [done|]. f_equal.
    rewrite (same_bytes M1 M2); [by apply (store_bytes_at _ _ _ _ _ HM1)|]. eapply only_same; [exact O2|lia].
  - rewrite (proj2 (Z.eqb_neq id' id)) by done. by apply agree_lookup.
Qed.

Lemma pos_S ws k : 0 <= ws < cnt -> 0 <= spos (S k) -> u32 (pos (ws, k) - 8) = pos (ws, S k).
Proof.
  intros Hw Hk. pose proof (geo_facts _ _ _ part) as (_&_&?&?). pose proof (spos_S sz k). pose proof (spos_lt sz k).
  unfold NvsOps.pos. cbn [fst snd]. change (adr ws (spos k) - 8) with (adr ws (spos k) + - 8). rewrite (adr_add _ _ _ part) by lia. f_equal. lia.
Qed.

(** What is in flash when the power fails while an entry is written: the entries
    there were. *)
Definition kept M M' ws k older : Prop :=
  inside M M' /\ agree M M' (log ws k older) /\ exists dw', layout M' ws k dw' older /\ dw' <= spos k.

Lemma kept_data M M' ws k dw older dw' : layout M ws k dw older -> only M M' (base ws + dw) (dw' - dw) ->
  dw <= dw' <= spos k -> dw' mod 4 = 0 -> kept M M' ws k older.
Proof.
  intros L Ho Hd Hm. pose proof (geo_facts _ _ _ part) as (_&_&?&_). pose proof (spos_lt sz k).
  pose proof (placed_nonneg _ _ _ _ _ _ (open_placed _ _ _ _ _ _ _ _ L)). split; [|split].
  - eapply inside_sector with (s := ws); [apply (ws_range _ _ _ _ _ _ _ _ L)|exact Ho|lia|lia].
  - eapply agree_gap; [exact geo|exact L|exact Ho|lia|lia].
  - exists dw'. split; [|lia]. destruct (layout_data _ _ _ geo M M' ws k dw older dw' L Ho); [lia|done|done].
Qed.

Lemma wrt_entry_ok d r ws k dw older id data :
  let len := Z.of_nat (length data) in let M := flash_mem d in
  powered d = true -> layout M ws k dw older -> 0 <= id < 2 ^ 16 -> bytes_ok data ->
  dw + al len <= spos k -> (len <> 0 -> dw + al len + 8 <= spos k) -> 0 <= spos (S k) ->
  exists rc d' a' w', nvs_flash_wrt_entry id data (at_ d (pos (ws, k)) (adr ws dw) r) = (rc, at_ d' a' w' r) /\
    outcome rc d'
      (a' = pos (ws, S k) /\ w' = adr ws (dw + al len) /\ layout (flash_mem d') ws (S k) (dw + al len) older /\ inside M (flash_mem d') /\
       forall id', lookup (flash_mem d') (log ws (S k) older) id' =
         if id' =? id then (if len =? 0 then None else Some data) else lookup M (log ws k older) id')
      (kept M (flash_mem d') ws k older).
Proof.
  intros len M Hd L Hid Hok Hfit Hroom Hk. pose proof (geo_facts _ _ _ part) as (_&_&?&?). pose proof (ws_range _ _ _ _ _ _ _ _ L) as Hw.
  pose proof (placed_nonneg _ _ _ _ _ _ (open_placed _ _ _ _ _ _ _ _ L)) as Hdw. pose proof (spos_lt sz k). pose proof (al_bounds len).
  pose proof (k_le _ _ _ _ _ _ _ _ L). pose proof (gap _ _ _ _ _ _ _ _ L) as Hgap. pose proof (dw_aligned _ _ _ _ _ _ _ _ L) as H4.
  assert (Hm : (dw + al len) mod 4 = 0) by (rewrite Z.add_mod, H4, al_mod by lia; done).
  unfold nvs_flash_wrt_entry. cbn [data_wra]. rewrite adr_offs by lia. unfold u16 at 1 2. rewrite !Z.mod_small by (subst len; lia). fold len.
  set (e := nvs_ate_crc8_update _).
  destruct (data_wrt_ok d (pos (ws, k)) r ws dw data) as (rc1&d1&->&O1); try done; try (fold len; lia).
  { eapply erased_sub; [exact Hgap|lia|fold len; lia]. }
  fold len in O1 |- *. destruct O1 as [(->&Hd1&M1)|(Hrc&Hd1&M1)].
  2:{ unfold nz. rewrite (proj2 (Z.eqb_neq rc1 0)) by lia. cbn [negb]. cbv iota. do 4 eexists. split; [done|]. right. split; [done|]. split; [done|].
      apply (kept_data M (flash_mem d1) ws k dw older (dw + al len)); [done| |lia|done]. by replace (dw + al len - dw) with (al len) by lia. }
  change (nz 0) with false. cbv iota. pose proof (only_store _ _ _ _ M1) as O1. fold len in O1.
  destruct (ate_wrt_ok d1 (adr ws (dw + al len)) r ws (spos k) e) as (rc2&d2&E2&O2); try done; try lia; [apply spos_word| |].
  { intros y Hy. rewrite O1 by lia. apply Hgap. lia. }
  unfold NvsOps.pos at 1. cbn [fst snd]. rewrite E2. change (adr ws (spos k)) with (pos (ws, k)). rewrite pos_S by done.
  do 4 eexists. split; [done|]. destruct O2 as [(->&Hd2&M2)|(Hrc&Hd2&M2)]; [left|right]; (split; [done|]); (split; [done|]).
  - destruct (layout_append M (flash_mem d1) (flash_mem d2) ws k dw older id len 0xff data) as (L2&_&I2&_&K2); try done.
  - apply (kept_data M (flash_mem d2) ws k dw older (dw + al len)); [done| |lia|done].
    intros y Hy. rewrite M2. apply O1. lia.
Qed.

(** ** Closing a sector *)

Abbreviation next := (next cnt).

Lemma advance_ok d a w r s x : 0 <= s < cnt -> 0 <= x < 2 ^ 16 -> nvs_sector_advance (at_ d a w r) (adr s x) = adr (next s) x.
Proof.
  intros Hs Hx. pose proof (geo_facts _ _ _ part) as (_&_&_&?). unfold nvs_sector_advance. cbn [sector_count].
  change (1 .<< ADDR_SECT_SHIFT) with (2 ^ 16).
  assert (u32 (adr s x + 2 ^ 16) = adr (s + 1) x) as -> by (unfold adr; rewrite u32_small; lia).
  rewrite adr_shift, (next_eq cnt) by lia. destruct (Z.eqb_spec (s + 1) cnt) as [E|E]; [|done].
  unfold ADDR_SECT_SHIFT. rewrite Z.shiftl_mul_pow2 by lia. unfold adr. rewrite u32_small; lia.
Qed.

Lemma sector_close_ok d r ws k dw older pt : let M := flash_mem d in
  powered d = true -> layout M ws k dw older -> (0 < k)%nat -> Z.of_nat (length older) <= cnt - 2 -> 0 <= pt < 256 ->
  exists d', nvs_sector_close pt (at_ d (pos (ws, k)) (adr ws dw) r) = (0, at_ d' (pos (next ws, 0%nat)) (adr (next ws) 0) r) /\
    (powered d' = true /\ layout (flash_mem d') (next ws) 0 0 (k :: older) /\ agree M (flash_mem d') (log ws k older) /\ inside M (flash_mem d') \/
     powered d' = false /\ forall x, flash_mem d' x = M x).
Proof.
  intros M Hd L Hk Hl Hpt. pose proof (geo_facts _ _ _ part) as (_&H8&?&?). pose proof (ws_range _ _ _ _ _ _ _ _ L) as Hw.
  pose proof (spos_lt sz k). pose proof (k_le _ _ _ _ _ _ _ _ L). pose proof (next_range off sz cnt geo ws) as Hn.
  unfold nvs_sector_close. unfold set_wra. cbn [ate_wra data_wra fs_flash fs_offset sector_size sector_count fs_ready]. rewrite ate_size_8.
  unfold NvsOps.pos at 1 2. cbn [fst snd]. rewrite (adr_add _ _ _ part), adr_offs, adr_sect, (adr_add _ _ _ part) by lia.
  unfold u16. rewrite Z.mod_small by lia. set (e := nvs_ate_crc8_update _).
  assert (Hm : (sz - 8) mod 4 = 0) by (replace (sz - 8) with (spos 0 + 2 * 4) by (unfold NvsLayout.spos; lia); rewrite Z.mod_add by lia; apply spos_word).
  destruct (ate_wrt_ok d (adr ws dw) r ws (0 + (sz - 8)) e) as (rc&d'&->&O); try done; try lia.
  { replace (base ws + (0 + (sz - 8))) with (base ws + sz - 8) by lia. apply (open_close _ _ _ _ _ _ _ _ L). }
  cbn [ate_wra data_wra fs_flash fs_offset sector_size sector_count fs_ready].
  assert (u32 (adr ws (0 + (sz - 8)) - 8) = adr ws (spos 0)) as ->.
  { change (adr ws (0 + (sz - 8)) - 8) with (adr ws (0 + (sz - 8)) + -8). rewrite (adr_add _ _ _ part) by lia. f_equal. unfold NvsLayout.spos. lia. }
  assert (Hs0 : 0 <= spos 0 < 2 ^ 16) by (unfold NvsLayout.spos; lia).
  rewrite advance_ok by done. rewrite adr_sect by lia. exists d'. split; [done|].
  destruct O as [(_&Hd'&HM)|(_&Hd'&HM)]; [left|right]; (split; [done|]); [|done].
  replace (base ws + (0 + (sz - 8))) with (base ws + sz - 8) in HM by lia.
  destruct (layout_close _ _ _ geo M (flash_mem d') ws k dw older e) as [L' A']; try done; [|apply update_valid|].
  - apply update_fields. unfold ate_fields. cbn. lia.
  - split; [done|]. split; [done|]. eapply inside_sector with (s := ws); [done|exact (only_store _ _ _ _ HM)|lia|change (Z.of_nat _) with 8; lia].
Qed.
End writing.
