(* ===== verification/NvsGc.v ===== *)
(** Garbage collection in the non-volatile storage: what is current in the oldest sector
    is copied to the write sector, where it fits, before the oldest one is erased. *)
From Stdlib Require Import ZArith Lia Bool.
From stdpp Require Import base numbers list.
From S2P Require Import Prelude ByteOrder Uuid Crc NvsFs NvsLayout NvsOps NvsRead NvsWrite.
Open Scope Z_scope.

Section collecting.
Context {D : Type} `{!Flash D, !FlashOk D}.
Context (off sz cnt : Z).
Hypothesis part : partition off sz cnt.
Implicit Types (M : mem) (d : D) (s g ws dw x n a w id : Z) (r : bool) (i j k : nat) (older : list nat) (data : list Z) (e : nvs_ate).

Abbreviation base := (base off sz).
Abbreviation spos := (spos sz).
Abbreviation slot := (slot off sz).
Abbreviation slot_of := (slot_of off sz).
Abbreviation placed := (placed off sz).
Abbreviation layout := (layout off sz cnt).
Abbreviation agree := (agree off sz).
Abbreviation newest := (newest off sz).
Abbreviation lookup := (lookup off sz).
Abbreviation log := (log cnt).
Abbreviation older_log := (older_log cnt).
Abbreviation sect := (sect cnt).
Abbreviation next := (next cnt).
Abbreviation pos := (pos sz).
Abbreviation inside := (inside off sz cnt).
Abbreviation at_ d a w r := (mk_fs d off a w sz cnt r).
Abbreviation geo := (part_geo _ _ _ part).

Lemma al_block n : al (32 + n) = 32 + al n.
Proof. unfold al. replace (32 + n + 3) with (n + 3 + 8 * 4) by lia. rewrite Z.div_add by lia. lia. Qed.

(** Data are copied from one sector to another, block by block. *)
Lemma block_move_loop_ok fuel d a r g ws x dw n : g <> ws -> 0 <= g < cnt -> 0 <= ws < cnt ->
  powered d = true -> 0 <= x -> 0 <= n <= Z.of_nat fuel -> x + n <= sz -> 0 <= dw -> dw mod 4 = 0 -> dw + al n <= sz ->
  erased (flash_mem d) (base ws + dw) (al n) ->
  exists rc d' w', block_move_loop fuel (adr g x) n (at_ d a (adr ws dw) r) = (rc, at_ d' a w' r) /\
    outcome rc d' (w' = adr ws (dw + al n) /\ forall y, flash_mem d' y = mem_store (base ws + dw) (mem_bytes (flash_mem d) (base g + x) n) (flash_mem d) y)
      (only (flash_mem d) (flash_mem d') (base ws + dw) (al n)).
Proof.
  intros Hgw Hg Hw. pose proof (geo_facts _ _ _ part) as (_&_&?&?). revert d x dw n.
  induction fuel as [|fuel IH]; intros d x dw n Hd Hx Hn Hxn Hdw H4 Hfit He; cbn [block_move_loop].
  { assert (n = 0) as -> by lia. rewrite al_0, Z.add_0_r. exists 0, d, (adr ws dw). split; [done|]. left. do 3 (split; [done|]).
    intros y. symmetry. apply mem_store_out. rewrite length_mem_bytes. lia. }
  destruct (Z.eqb_spec n 0) as [->|Hn0].
  { rewrite al_0, Z.add_0_r. exists 0, d, (adr ws dw). split; [done|]. left. do 3 (split; [done|]). intros y. symmetry. apply mem_store_out. rewrite length_mem_bytes. lia. }
  rewrite block_size_32. set (m := Z.min 32 n). assert (0 < m <= n) by lia.
  assert (Hal : al n = al m + al (n - m)).
  { destruct (decide (n <= 32)); [replace m with n by lia; rewrite Z.sub_diag, al_0; lia|].
    replace m with 32 by lia. replace n with (32 + (n - 32)) at 1 by lia. by rewrite al_block. }
  pose proof (al_bounds m). pose proof (al_bounds (n - m)).
  rewrite (rd_ok _ _ _ part) by (done || lia). change (nz 0) with false. cbv iota.
  set (buf := mem_bytes _ _ m). assert (Hlen : Z.of_nat (length buf) = m) by (subst buf; rewrite length_mem_bytes; lia).
  destruct (data_wrt_ok _ _ _ part d a r ws dw buf) as (rc1&d1&->&O1); rewrite ?Hlen; try done; try lia.
  { apply Forall_forall. intros b Hb. apply list_elem_of_fmap in Hb as (y&->&_). apply flash_bytes. }
  { eapply erased_sub; [exact He|lia|lia]. }
  rewrite Hlen in O1. destruct O1 as [(->&Hd1&M1)|(Hrc&Hd1&M1)].
  2:{ unfold nz. rewrite (proj2 (Z.eqb_neq rc1 0)) by lia. cbn [negb]. cbv iota. do 3 eexists. split; [done|]. right. split; [done|]. split; [done|].
      eapply only_wider; [exact M1|lia|lia]. }
  change (nz 0) with false. cbv iota. pose proof (only_store _ _ _ _ M1) as O1. rewrite Hlen in O1.
  rewrite (adr_add _ _ _ part) by lia. destruct (IH d1 (x + m) (dw + al m) (n - m)) as (rc&d'&w'&->&O); try done; try lia.
  { rewrite Z.add_mod, H4, al_mod by lia. done. }
  { intros y Hy. rewrite O1 by lia. apply He. lia. }
  exists rc, d', w'. split; [done|]. destruct O as [(->&Hd'&->&M')|(Hrc&Hd'&M')]; [left|right]; (split; [done|]); (split; [done|]).
  - split; [f_equal; lia|]. intros y. rewrite M'. pose proof (base_apart off sz cnt geo g ws Hgw).
    assert (mem_bytes (flash_mem d1) (base g + (x + m)) (n - m) = mem_bytes (flash_mem d) (base g + (x + m)) (n - m)) as ->.
    { apply same_bytes. eapply only_same; [exact O1|lia]. }
    replace n with (m + (n - m)) at 2 by lia. rewrite mem_bytes_app by lia. fold buf. rewrite <- (Z.add_assoc (base g)).
    destruct (decide (m = al m)) as [E|E].
    + eapply (store_twice _ _ _ (base ws + dw)); [exact M1|done|]. lia.
    + assert (n <= 32) by (destruct (decide (n <= 32)); [done|]; exfalso; apply E; by replace m with 32 by lia).
      replace (n - m) with 0 by lia. change (mem_bytes (flash_mem d) _ 0) with (@nil Z). rewrite app_nil_r, <- M1. apply mem_store_out. cbn. lia.
  - intros y Hy. rewrite M' by lia. apply O1. lia.
Qed.

Lemma erase_sector_ok d a w r s x : powered d = true -> 0 <= s < cnt -> 0 <= x < 2 ^ 16 ->
  exists rc d', nvs_flash_erase_sector (adr s x) (at_ d a w r) = (rc, at_ d' a w r) /\
    outcome rc d' (erased (flash_mem d') (base s) sz /\ only (flash_mem d) (flash_mem d') (base s) sz) (forall y, flash_mem d' y = flash_mem d y).
Proof.
  intros Hd Hs Hx. pose proof (geo_facts _ _ _ part) as (_&_&?&?). pose proof (base_range _ _ _ part s Hs) as Hb.
  unfold nvs_flash_erase_sector. rewrite adr_sect by lia. cbn [sector_size].
  destruct (cmp_erased _ _ _ part d a w r s 0 sz) as [[He ->]|[He ->]]; [done|done|lia|lia|lia|..]; rewrite Z.add_0_r in He.
  { change (0 <=? 0) with true. exists 0, d. split; [done|]. by left. }
  change (1 <=? 0) with false. cbv iota. rewrite adr_shift by lia. cbn [fs_offset fs_flash]. fold (base s).
  destruct (protection_ok d false Hd) as (d1&->&Hd1&M1). change (nz 0) with false. cbv iota.
  pose proof (flash_erase_law d1 (base s) sz Hd1) as Le. destruct (flash_erase (base s) sz d1) as [rc2 d2].
  destruct Le as [(->&Hd2&E2&O2)|(Hrc&Hd2&M2)]; [lia| |lia|apply part|lia|..].
  { unfold NvsLayout.base. rewrite Z.add_mod, (part_off _ _ _ part), Z.mul_mod, (part_sz _ _ _ part) by (pose proof (part_page _ _ _ part); lia).
    cbn. by rewrite !Zmod_0_l. }
  - change (nz 0) with false. cbv iota. destruct (protect_again d2 true) as (rc3&d3&->&Hp&M3). exists 0, d3. split; [done|]. left.
    split; [done|]. split; [congruence|]. split; [by eapply erased_ext|]. intros y Hy. by rewrite M3, O2, M1.
  - unfold nz. rewrite (proj2 (Z.eqb_neq rc2 0)) by lia. cbn [negb]. cbv iota. exists rc2, d2. split; [done|]. right. split; [done|].
    split; [done|]. intros y. by rewrite M2, M1.
Qed.

(** ** What has to be copied fits *)

(** The space for the first [i] entries of a sector, without those that delete one. *)
Fixpoint need M g i : Z :=
  match i with
  | O => 0
  | S i => need M g i + (if ate_len (slot M g i) =? 0 then 0 else al (ate_len (slot M g i)) + 8)
  end.

Lemma need_sum M g k hi : placed M g k hi -> 0 <= need M g k <= hi + 8 * Z.of_nat k.
Proof.
  revert hi. induction k as [|k IH]; intros hi; cbn [NvsLayout.placed need]; [lia|]. intros (_&Hl&_&Hh&_&Hp). specialize (IH _ Hp).
  pose proof (al_bounds (ate_len (slot M g k))). destruct (_ =? 0); lia.
Qed.

Lemma need_bound M g k hi : placed M g k hi -> need M g k <= sz - 16.
Proof.
  pose proof (geo_facts _ _ _ part) as (_&_&?&_). revert hi. induction k as [|k IH]; intros hi; cbn [NvsLayout.placed need]; [lia|].
  intros (_&Hl&_&Hh&Hr&Hp). destruct (Z.eqb_spec (ate_len (slot M g k)) 0); [rewrite Z.add_0_r; by eapply IH|].
  specialize (Hr ltac:(done)). pose proof (need_sum _ _ _ _ Hp). unfold NvsLayout.spos in Hr. lia.
Qed.

Lemma agree_newest M M' id l : agree M M' l -> newest M' id l = newest M id l.
Proof. induction 1 as [|p l [Es _] _ IH]; [done|]. cbn [NvsLayout.newest]. by rewrite Es, IH. Qed.

Lemma elem_slots s k i : (i < k)%nat -> (s, i) ∈ slots s k.
Proof.
  induction k as [|k IH]; [lia|]. intros Hi. cbn [slots]. destruct (decide (i = k)) as [->|]; [apply list_elem_of_here|].
  apply list_elem_of_further, IH. lia.
Qed.

(** ** Copying *)

Section oldest.
Context (M0 : mem) (ws : Z) (o : list nat) (kg : nat).
Hypothesis Hw : 0 <= ws < cnt.
Hypothesis Hlen : Z.of_nat (length o) = cnt - 2.
Abbreviation g := (next ws).
Abbreviation all := (o ++ [kg]).

(** Entries [i], [i + 1], ... of the oldest sector are done. *)
Record collected M k dw i : Prop := {
  gc_layout : layout M ws k dw all;
  gc_agree : agree M0 M (older_log ws 1 all);
  gc_inside : inside M0 M;
  gc_lookup id : lookup M (log ws k all) id = lookup M0 (older_log ws 1 all) id;
  gc_room : dw + 8 * Z.of_nat k + need M0 g i <= sz - 16;
  gc_fresh : k = 0%nat <-> dw = 0;
  gc_done i' id : (i <= i' < kg)%nat -> newest M id (log ws k all) = Some (g, i') -> ate_len (slot M0 g i') = 0 }.

(** The collection is not finished, but nothing is lost. *)
Definition pending M : Prop := inside M0 M /\ agree M0 M (older_log ws 1 all) /\ exists k dw, layout M ws k dw all /\ dw <= spos k.

Lemma next_other : g <> ws.
Proof.
  pose proof (geo_facts _ _ _ part) as (_&_&_&?). rewrite <- (sect_last off sz cnt geo). intros E. apply (sect_open cnt ws) in E; [done|done|lia|lia].
Qed.

Lemma older_oldest : older_log ws 1 all = older_log ws 1 o ++ slots g kg.
Proof.
  pose proof (geo_facts _ _ _ part) as (_&_&_&?). rewrite older_log_app. f_equal. cbn [NvsLayout.older_log]. rewrite app_nil_r.
  rewrite <- (sect_last off sz cnt geo). do 2 f_equal. lia.
Qed.

Lemma oldest_full M k dw : layout M ws k dw all -> full off sz M g kg.
Proof.
  intros L. pose proof (geo_facts _ _ _ part) as (_&_&_&?). pose proof (older_full _ _ _ _ _ _ _ _ L (length o) kg) as F.
  rewrite lookup_app_r, Nat.sub_diag in F by done. specialize (F eq_refl). rewrite <- (sect_last off sz cnt geo).
  by replace (Z.to_nat (cnt - 1)) with (S (length o)) by lia.
Qed.

Lemma oldest_same M k dw i j : collected M k dw i -> (j < kg)%nat -> slot M g j = slot M0 g j.
Proof.
  intros C Hj. pose proof (gc_agree _ _ _ _ C) as A. unfold NvsLayout.agree in A. rewrite Forall_forall in A. apply (A (g, j)).
  rewrite older_oldest. apply elem_of_app. right. by apply elem_slots.
Qed.

Lemma need_nonneg i : (i <= kg)%nat -> full off sz M0 g kg -> 0 <= need M0 g i.
Proof.
  intros Hi [_ _ _ Hp _]. revert Hi Hp. generalize (spos kg + 8). induction kg as [|k IH]; intros hi Hi Hp; [replace i with 0%nat by lia; cbn; lia|].
  destruct (decide (i = S k)) as [->|]; [apply need_sum in Hp; lia|]. destruct Hp as (_&_&_&_&_&Hp). eapply IH; [lia|exact Hp].
Qed.

Lemma collected_fits M k dw i : full off sz M0 g kg -> (i <= kg)%nat -> collected M k dw i -> dw <= spos k.
Proof.
  intros F Hi C. pose proof (gc_room _ _ _ _ C). pose proof (need_nonneg i Hi F). unfold NvsLayout.spos. lia.
Qed.

(** An entry that is not the newest, or deletes one, is left behind. *)
Lemma collected_skip M k dw i : full off sz M0 g kg -> (i < kg)%nat -> collected M k dw (S i) ->
  newest M (ate_id (slot M0 g i)) (log ws k all) <> Some (g, i) \/ ate_len (slot M0 g i) = 0 -> collected M k dw i.
Proof.
  intros F Hi C Hs. pose proof (oldest_same _ _ _ _ i C Hi) as Es. destruct C as [HL HA HI Hl Hr Hf Hd]. split; try done.
  - cbn [need] in Hr. destruct F as [_ _ _ Hp _]. destruct (placed_slot _ _ _ _ _ _ _ Hp Hi) as (_&?&_).
    pose proof (al_bounds (ate_len (slot M0 g i))). destruct (_ =? 0); lia.
  - intros i' id Hi' En. destruct (decide (i' = i)) as [->|]; [|by apply (Hd i' id); [lia|]].
    destruct Hs as [Hs|]; [|done]. exfalso. apply Hs. pose proof (newest_elem _ _ _ _ _ _ En) as [_ Ei].
    unfold NvsLayout.slot_of in Ei. cbn [fst snd] in Ei. by rewrite <- Es, Ei.
Qed.

(** The newest entry of an identifier is copied. *)
Lemma collected_copy M M1 M2 k dw i : let e := slot M0 g i in
  full off sz M0 g kg -> (i < kg)%nat -> collected M k dw (S i) -> ate_fields e ->
  newest M (ate_id e) (log ws k all) = Some (g, i) -> ate_len e <> 0 ->
  (forall x, M1 x = mem_store (base ws + dw) (mem_bytes M (base g + ate_offset e) (ate_len e)) M x) ->
  (forall x, M2 x = mem_store (base ws + spos k) (ate_bytes (nvs_ate_crc8_update (mk_ate (ate_id e) dw (ate_len e) (ate_part e) 0))) M1 x) ->
  collected M2 (S k) (dw + al (ate_len e)) i.
Proof.
  intros e F Hi C (Hid&_&Hlen0&Hpt&_) En Hne HM1 HM2. pose proof (geo_facts _ _ _ part) as (_&H8&?&_). pose proof (al_bounds (ate_len e)).
  pose proof (oldest_same _ _ _ _ i C Hi) as Es. pose proof (need_nonneg i ltac:(lia) F) as Hn.
  destruct C as [HL HA HI Hl Hr Hf Hd]. pose proof (placed_nonneg _ _ _ _ _ _ (open_placed _ _ _ _ _ _ _ _ HL)) as Hdw.
  cbn [need] in Hr. fold e in Hr. rewrite (proj2 (Z.eqb_neq _ _) Hne) in Hr.
  set (data := mem_bytes M _ _) in HM1. assert (Hdl : ate_len e = Z.of_nat (length data)) by (subst data; rewrite length_mem_bytes; lia).
  destruct (layout_append _ _ _ part M M1 M2 ws k dw all (ate_id e) (ate_len e) (ate_part e) data) as (L2&A2&I2&S2&K2);
    try done; try (unfold NvsLayout.spos; lia).
  apply agree_app in A2 as A3. destruct A3 as [_ A3]. assert (A0 : agree M0 M2 (older_log ws 1 all)) by (by eapply agree_trans).
  split; try done.
  - by eapply only_trans.
  - intros id. rewrite K2. destruct (Z.eqb_spec id (ate_id e)) as [->|]; [|done]. rewrite (proj2 (Z.eqb_neq _ _) Hne), <- Hl.
    unfold NvsLayout.lookup. rewrite En. cbn [mbind option_bind]. unfold content, value, NvsLayout.slot_of. cbn [fst snd]. rewrite Es. fold e.
    by rewrite (proj2 (Z.eqb_neq _ _) Hne).
  - lia.
  - split; [done|lia].
  - intros i' id Hi' En'. change (log ws (S k) all) with ((ws, k) :: log ws k all) in En'. cbn [NvsLayout.newest] in En'.
    destruct (ate_id (slot_of M2 (ws, k)) =? id) eqn:E2; [injection En' as E _; by destruct next_other|].
    rewrite (agree_newest _ _ _ _ A2) in En'. destruct (decide (i' = i)) as [->|]; [|by apply (Hd i' id); [lia|]].
    exfalso. pose proof (newest_elem _ _ _ _ _ _ En') as [_ Ei]. unfold NvsLayout.slot_of in Ei, E2. cbn [fst snd] in Ei, E2.
    rewrite Es in Ei. fold e in Ei. rewrite S2, Ei, Z.eqb_refl in E2. done.
Qed.

Lemma pos_inj p q : 0 <= spos p.2 -> 0 <= spos q.2 -> pos p = pos q -> p = q.
Proof.
  intros Hp Hq. pose proof (geo_facts _ _ _ part) as (_&_&?&_). pose proof (spos_lt sz p.2). pose proof (spos_lt sz q.2).
  intros [E1 E2]%adr_inj; [|lia|lia]. destruct p as [s1 i1], q as [s2 i2]. cbn [fst snd] in *. subst. f_equal. unfold NvsLayout.spos in E2. lia.
Qed.

Lemma kept_pending M M' k : agree M0 M (older_log ws 1 all) -> inside M0 M -> kept off sz cnt M M' ws k all -> pending M'.
Proof.
  intros A I (I'&A'&dw'&L'&Hd). apply agree_app in A' as [_ A']. split; [by eapply only_trans|]. split; [by eapply agree_trans|eauto].
Qed.

(** What is done with one entry of the oldest sector. *)
Lemma gc_entry_ok d r k dw i q : let M := flash_mem d in let e := slot M g i in let fs := at_ d (pos (ws, k)) (adr ws dw) r in
  powered d = true -> full off sz M0 g kg -> (i < kg)%nat -> collected M k dw (S i) -> newest M (ate_id e) (log ws k all) = Some q ->
  exists rc d' a' w',
    (if (pos q =? pos (g, i)) && nz (ate_len e) then
       let data_addr := u32 ((pos (g, i) .& ADDR_SECT_MASK) + ate_offset e) in
       let gc_ate := nvs_ate_crc8_update (mk_ate (ate_id e) (u16 (data_wra fs .& ADDR_OFFS_MASK)) (ate_len e) (ate_part e) (ate_crc8 e)) in
       let '(rc, fs) := nvs_flash_block_move data_addr (ate_len gc_ate) fs in
       if nz rc then (rc, fs) else nvs_flash_ate_wrt gc_ate fs
     else (0, fs)) = (rc, at_ d' a' w' r) /\
    outcome rc d' (exists k' dw', a' = pos (ws, k') /\ w' = adr ws dw' /\ collected (flash_mem d') k' dw' i) (pending (flash_mem d')).
Proof.
  intros M e fs Hd F Hi C En. pose proof (geo_facts _ _ _ part) as (_&_&?&?). pose proof (oldest_same _ _ _ _ i C Hi) as Es. fold M e in Es.
  pose proof (gc_layout _ _ _ _ C) as L. pose proof (collected_fits _ _ _ (S i) F ltac:(lia) C) as Hfit. fold M in C.
  pose proof (oldest_full _ _ _ L) as Fg. pose proof (full_fits _ _ _ _ _ Fg) as Hkg. pose proof (spos_le sz i kg ltac:(lia)).
  pose proof (placed_nonneg _ _ _ _ _ _ (open_placed _ _ _ _ _ _ _ _ L)) as Hdw. pose proof (spos_lt sz k). pose proof (spos_lt sz i).
  pose proof (next_range off sz cnt geo ws) as Hg. pose proof (dw_aligned _ _ _ _ _ _ _ _ L) as H4.
  pose proof (log_ok _ _ _ geo _ _ _ _ _ L) as Hok. rewrite Forall_forall in Hok. apply newest_elem in En as Hq. destruct Hq as [Hq _].
  pose proof (Hok q Hq) as (_&Hq0&_).
  destruct (placed_slot _ _ _ _ _ _ i (full_placed _ _ _ _ _ Fg) Hi) as (_&Hl0&Ho0&He0&_). fold M e in Hl0, Ho0, He0. pose proof (al_bounds (ate_len e)).
  destruct ((pos q =? pos (g, i)) && nz (ate_len e)) eqn:Ec.
  2:{ exists 0, d, (pos (ws, k)), (adr ws dw). split; [done|]. left. split; [done|]. split; [done|]. exists k, dw. do 2 (split; [done|]).
      apply collected_skip; [done..|]. rewrite <- Es. fold M. rewrite En. apply andb_false_iff in Ec as [Ec|Ec]; [left|right].
      - apply Z.eqb_neq in Ec. intros [= ->]. done.
      - unfold nz in Ec. apply negb_false_iff, Z.eqb_eq in Ec. done. }
  apply andb_true_iff in Ec as [Eq Hne%negb_true_iff%Z.eqb_neq]. apply Z.eqb_eq, pos_inj in Eq; [|done|cbn; lia]. subst q.
  assert (Hf : ate_fields e).
  { subst e. unfold NvsLayout.slot. apply ate_of_fields; [|by rewrite length_mem_bytes]. apply Forall_forall. intros b Hb.
    apply list_elem_of_fmap in Hb as (y&->&_). apply flash_bytes. }
  pose proof (need_nonneg i ltac:(lia) F) as Hn. pose proof (gc_room _ _ _ _ C) as Hroom. cbn [need] in Hroom. rewrite <- Es, (proj2 (Z.eqb_neq _ _) Hne) in Hroom.
  cbv zeta. subst fs. cbn [data_wra]. rewrite adr_offs by lia. unfold u16. rewrite Z.mod_small by lia.
  unfold NvsOps.pos at 1. cbn [fst snd]. rewrite adr_sect, (adr_add _ _ _ part) by (unfold NvsLayout.spos in *; lia).
  set (e2 := nvs_ate_crc8_update _). change (ate_len e2) with (ate_len e). unfold nvs_flash_block_move.
  assert (Hk8 : dw + al (ate_len e) + 8 <= spos k) by (unfold NvsLayout.spos; lia).
  destruct (block_move_loop_ok (Z.to_nat (ate_len e)) d (pos (ws, k)) r g ws (0 + ate_offset e) dw (ate_len e)) as (rc1&d1&w1&->&O1);
    try done; try (unfold NvsLayout.spos in *; lia); [exact next_other| |].
  { eapply erased_sub; [apply (gap _ _ _ _ _ _ _ _ L)|lia|lia]. }
  assert (Hm : (dw + al (ate_len e)) mod 4 = 0) by (rewrite Z.add_mod, H4, al_mod by lia; done).
  assert (Hlost : forall M', only M M' (base ws + dw) (al (ate_len e)) -> pending M').
  { intros M' HM'. apply (kept_pending M M' k); [apply C|apply C|].
    apply (kept_data _ _ _ part M M' ws k dw all (dw + al (ate_len e))); [done| |lia|done]. by replace (dw + al (ate_len e) - dw) with (al (ate_len e)) by lia. }
  destruct O1 as [(->&Hd1&->&M1)|(Hrc&Hd1&M1)].
  2:{ unfold nz. rewrite (proj2 (Z.eqb_neq rc1 0)) by lia. cbn [negb]. cbv iota. do 4 eexists. split; [done|]. right. split; [done|]. split; [done|]. by apply Hlost. }
  change (nz 0) with false. cbv iota. pose proof (only_store _ _ _ _ M1) as O1. rewrite length_mem_bytes, Z2Nat.id in O1 by lia.
  destruct (ate_wrt_ok _ _ _ part d1 (adr ws (dw + al (ate_len e))) r ws (spos k) e2) as (rc2&d2&E2&O2);
    try done; try lia; [apply (spos_word _ _ _ part)| |].
  { intros y Hy. rewrite O1 by lia. apply (gap _ _ _ _ _ _ _ _ L). lia. }
  unfold NvsOps.pos at 1. cbn [fst snd]. rewrite E2. change (adr ws (spos k)) with (pos (ws, k)).
  rewrite (pos_S _ _ _ part) by (done || (pose proof (spos_S sz k); lia)).
  do 4 eexists. split; [done|]. destruct O2 as [(->&Hd2&M2)|(Hrc&Hd2&M2)]; [left|right]; (split; [done|]); (split; [done|]).
  - exists (S k), (dw + al (ate_len e)). do 2 (split; [done|]). rewrite Es.
    by apply (collected_copy M (flash_mem d1) (flash_mem d2)); rewrite <- ?Es.
  - apply Hlost. intros y Hy. rewrite M2. apply O1. lia.
Qed.

Lemma before_next : before cnt g = ws.
Proof.
  unfold before. rewrite (next_eq cnt) by done. destruct (Z.eqb_spec (ws + 1) cnt); [by rewrite Z.eqb_refl; lia|].
  rewrite (proj2 (Z.eqb_neq (ws + 1) 0)) by lia. lia.
Qed.

(** From one entry of the oldest sector to the one before. *)
Lemma gc_prev d a w r i k dw : powered d = true -> layout (flash_mem d) ws k dw all -> 0 <= spos i ->
  exists addr, nvs_prev_ate (at_ d a w r) (pos (g, i)) = (0, addr, slot (flash_mem d) g i) /\ (forall j, i = S j -> addr = pos (g, j)).
Proof.
  intros Hd L Hi. pose proof (next_range off sz cnt geo ws) as Hg. destruct i as [|i].
  - exists a. split; [|done]. apply prev_end; [done..|]. rewrite before_next. apply (open_close _ _ _ _ _ _ _ _ L).
  - exists (pos (g, i)). split; [|by intros j [= ->]]. by apply (prev_in _ _ _ part).
Qed.

Lemma gc_loop_ok r i fuel d k dw : let fs := at_ d (pos (ws, k)) (adr ws dw) r in
  powered d = true -> full off sz M0 g kg -> (i < kg)%nat -> (i < fuel)%nat -> collected (flash_mem d) k dw (S i) ->
  exists rc d' a' w', gc_loop fuel (pos (g, i)) (pos (g, 0%nat)) fs = (rc, at_ d' a' w' r) /\
    outcome rc d' (exists k' dw', a' = pos (ws, k') /\ w' = adr ws dw' /\ collected (flash_mem d') k' dw' 0) (pending (flash_mem d')).
Proof.
  intros fs Hd F. subst fs. revert fuel d k dw Hd. induction i as [|i IH]; intros fuel d k dw Hd Hi Hf C;
    (destruct fuel as [|fuel]; [lia|]); cbn [gc_loop]; pose proof (gc_layout _ _ _ _ C) as L; pose proof (oldest_full _ _ _ L) as Fg;
    pose proof (full_fits _ _ _ _ _ Fg) as Hkg.
  all: match goal with |- context [nvs_prev_ate _ (pos (g, ?i))] =>
         pose proof (spos_le sz i kg ltac:(lia)); destruct (gc_prev d (pos (ws, k)) (adr ws dw) r i k dw Hd L ltac:(lia)) as (addr&->&Ha);
         pose proof (collected_fits _ _ _ (S i) F ltac:(lia) C) as Hfit;
         destruct (placed_slot _ _ _ _ _ _ i (full_placed _ _ _ _ _ Fg) ltac:(lia)) as (Hv&_);
         pose proof (walk_layout _ _ _ part d (adr ws dw) r ws k dw all Hd L (clear_room _ _ _ _ _ _ _ _ L Hfit) (ate_id (slot (flash_mem d) g i))) as W; cbv zeta in W;
         destruct (newest (flash_mem d) (ate_id (slot (flash_mem d) g i)) (log ws k all)) as [q|] eqn:En end.
  2,4: match goal with En : newest _ (ate_id (slot _ _ ?i)) _ = None |- _ =>
         exfalso; apply (newest_none _ _ _ _ _ (g, i) En); [|done]; apply elem_of_app; right; rewrite older_oldest; apply elem_of_app; right;
         apply elem_slots; lia end.
  all: destruct W as [nxt W]; unfold valid in Hv; change (nz 0) with false; cbv iota; rewrite Hv; change (nz 0) with false; cbv iota; rewrite W;
       change (nz 0) with false; cbv iota.
  - destruct (gc_entry_ok d r k dw 0 q Hd F Hi C En) as (rc1&d1&a1&w1&E&O). cbv zeta in E. rewrite E. rewrite Z.eqb_refl.
    destruct O as [(->&Hd1&O)|(Hrc&Hd1&O)].
    + change (nz 0) with false. cbv iota. do 4 eexists. split; [done|]. by left.
    + unfold nz. rewrite (proj2 (Z.eqb_neq rc1 0)) by lia. cbn [negb]. cbv iota. do 4 eexists. split; [done|]. by right.
  - destruct (gc_entry_ok d r k dw (S i) q Hd F Hi C En) as (rc1&d1&a1&w1&E&O). cbv zeta in E. rewrite E.
    destruct O as [(->&Hd1&k1&dw1&->&->&C1)|(Hrc&Hd1&O)].
    + change (nz 0) with false. cbv iota.
      destruct (Z.eqb_spec (pos (g, S i)) (pos (g, 0%nat))) as [E'|_]; [exfalso; apply pos_inj in E'; [done|cbn [snd]; lia|]|].
      { cbn [snd]. pose proof (spos_le sz 0 (S i) ltac:(lia)). lia. }
      rewrite (Ha i eq_refl). apply (IH fuel d1 k1 dw1); [done|lia|lia|done].
    + unfold nz. rewrite (proj2 (Z.eqb_neq rc1 0)) by lia. cbn [negb]. cbv iota. do 4 eexists. split; [done|]. by right.
Qed.

(** Then the oldest sector is not needed any more. *)
Lemma collected_erase M M' k dw : collected M k dw 0 -> only M M' (base g) sz -> erased M' (base g) sz ->
  layout M' ws k dw o /\ inside M0 M' /\ forall id, lookup M' (log ws k o) id = lookup M0 (older_log ws 1 all) id.
Proof.
  intros C Ho He. pose proof (next_range off sz cnt geo ws) as Hg.
  destruct (layout_erase_oldest _ _ _ geo M M' ws k dw o kg (gc_layout _ _ _ _ C) Hlen Ho He) as [L' A']. split; [done|]. split.
  { eapply only_trans; [apply C|]. eapply (inside_sector _ _ _ part); [exact Hg|exact Ho|lia|lia]. }
  intros id. rewrite (agree_lookup _ _ _ _ _ _ A'), <- (gc_lookup _ _ _ _ C). unfold NvsLayout.lookup, NvsLayout.log.
  rewrite older_oldest, app_assoc, (newest_app _ _ _ _ (slots ws k ++ older_log ws 1 o)).
  destruct (newest M id (slots ws k ++ older_log ws 1 o)) as [p|] eqn:E1; [done|]. cbn [mbind option_bind].
  destruct (newest M id (slots g kg)) as [p|] eqn:E2; [|done]. cbn [mbind option_bind].
  assert (exists i, p = (g, i) /\ (i < kg)%nat) as (i&->&Hi).
  { apply newest_elem in E2 as [E2 _]. revert E2. clear. induction kg as [|n IH]; [by intros ?%not_elem_of_nil|]. cbn [slots].
    intros [->|Hp]%elem_of_cons; [eauto|]. destruct (IH Hp) as (i&->&?). eauto. }
  unfold content, NvsLayout.slot_of. cbn [fst snd]. rewrite (oldest_same _ _ _ _ i C Hi).
  rewrite (gc_done _ _ _ _ C i id); [done|lia|]. unfold NvsLayout.log. by rewrite older_oldest, app_assoc, newest_app, E1.
Qed.
End oldest.

(** ** A collection *)

(** The storage after a collection: what was in the older sectors is there, the
    write sector has room for another ate, and the sector after it is erased. *)
Definition gc_result M ws older M' (a' w' : Z) : Prop :=
  exists k dw o, a' = pos (ws, k) /\ w' = adr ws dw /\ layout M' ws k dw o /\ Z.of_nat (length o) <= cnt - 2 /\
    dw <= spos k /\ (k = 0%nat <-> dw = 0) /\ inside M M' /\ forall id, lookup M' (log ws k o) id = lookup M (older_log ws 1 older) id.

(** The flash holds certain entries: in all sectors, or, if there is no erased one
    because a collection was interrupted, in those before the write sector.  The flag
    says that there are no data without an entry in the write sector. *)
Definition recoverable (clean : bool) M (m : Z -> option (list Z)) : Prop :=
  exists ws k dw older, layout M ws k dw older /\ dw <= spos k /\
    (Z.of_nat (length older) <= cnt - 2 /\ (clean = true -> k = 0%nat -> dw = 0) /\ (forall id, lookup M (log ws k older) id = m id) \/
     Z.of_nat (length older) = cnt - 1 /\ (forall id, lookup M (older_log ws 1 older) id = m id)).

(** What is in flash if it does not get that far. *)
Definition gc_stopped M ws older M' : Prop := inside M M' /\ recoverable true M' (lookup M (older_log ws 1 older)).

Lemma pending_recoverable M ws o kg M' : Z.of_nat (length o) = cnt - 2 -> pending M ws o kg M' -> gc_stopped M ws (o ++ [kg]) M'.
Proof.
  intros Hl (I&A&k&dw&L&Hd). split; [done|]. exists ws, k, dw, (o ++ [kg]). do 2 (split; [done|]). right.
  split; [rewrite length_app; cbn; lia|]. intros id. by apply agree_lookup.
Qed.

Lemma gc_first d r ws older : powered d = true -> 0 <= ws < cnt ->
  nvs_gc (at_ d (pos (ws, 0%nat)) (adr ws 0) r) =
  let fs := at_ d (pos (ws, 0%nat)) (adr ws 0) r in let g := next ws in let close_ate := close_slot off sz (flash_mem d) g in
  if nvs_ate_cmp_const close_ate 255 =? 0 then nvs_flash_erase_sector (adr g 0) fs
  else
    let '(rc, gc_addr) :=
      if nvs_ate_crc8_check close_ate =? 0 then (0, u32 (adr g 0 + ate_offset close_ate)) else nvs_recover_last_ate fs (adr g (sz - 8)) in
    if nz rc then (rc, fs)
    else
      let '(rc, fs) := gc_loop (walk_fuel fs) gc_addr (pos (g, 0%nat)) fs in
      if nz rc then (rc, fs) else nvs_flash_erase_sector (adr g 0) fs.
Proof.
  intros Hd Hw. pose proof (geo_facts _ _ _ part) as (_&_&?&?). pose proof (next_range off sz cnt geo ws) as Hg.
  assert (Hs0 : 0 <= spos 0 < 2 ^ 16) by (unfold NvsLayout.spos; lia).
  assert (Em : pos (ws, 0%nat) .& ADDR_SECT_MASK = adr ws 0) by (unfold NvsOps.pos; cbn [fst snd]; apply adr_sect; lia).
  unfold nvs_gc. cbn [ate_wra sector_size]. rewrite Em.
  rewrite (advance_ok _ _ _ part) by (done || lia). rewrite ate_size_8, flash_erased.
  assert (u32 (adr (next ws) 0 + sz - 8) = adr (next ws) (sz - 8)) as ->.
  { replace (adr (next ws) 0 + sz - 8) with (adr (next ws) 0 + (sz - 8)) by lia. rewrite (adr_add _ _ _ part) by lia. f_equal. }
  rewrite (ate_rd_ok _ _ _ part) by (done || lia). change (0 <? 0) with false. cbv iota. rewrite adr_sect by lia.
  assert (u32 (adr (next ws) (sz - 8) - 8) = pos (next ws, 0%nat)) as ->.
  { change (adr (next ws) (sz - 8) - 8) with (adr (next ws) (sz - 8) + - 8). rewrite (adr_add _ _ _ part) by lia.
    unfold NvsOps.pos, NvsLayout.spos. cbn [fst snd]. f_equal. lia. }
  unfold close_slot. rewrite Z.add_sub_assoc. done.
Qed.

Lemma gc_full_ok d r ws o kg : let M := flash_mem d in
  powered d = true -> layout M ws 0 0 (o ++ [kg]) -> Z.of_nat (length o) = cnt - 2 ->
  exists rc d' a' w', nvs_gc (at_ d (pos (ws, 0%nat)) (adr ws 0) r) = (rc, at_ d' a' w' r) /\
    outcome rc d' (gc_result M ws (o ++ [kg]) (flash_mem d') a' w') (gc_stopped M ws (o ++ [kg]) (flash_mem d')).
Proof.
  intros M Hd L Hlen. pose proof (geo_facts _ _ _ part) as (_&_&?&?). pose proof (ws_range _ _ _ _ _ _ _ _ L) as Hw.
  pose proof (next_range off sz cnt geo ws) as Hg. pose proof (oldest_full ws o kg Hlen M 0 0 L) as F.
  rewrite gc_first by done. cbv zeta. destruct (close_bytes off sz M (next ws) (flash_bytes d)) as [Hb H8].
  unfold close_slot at 1. fold M. rewrite valid_not_erased by (done || apply F). change (1 =? 0) with false. cbv iota.
  pose proof (full_close _ _ _ _ _ F) as Hv. unfold valid in Hv. rewrite Hv, (full_last _ _ _ _ _ F). change (0 =? 0) with true. cbv iota.
  change (nz 0) with false. cbv iota. pose proof (full_fits _ _ _ _ _ F) as Hk. pose proof (full_some _ _ _ _ _ F) as Hk0.
  destruct kg as [|kg]; [lia|]. pose proof (spos_S sz kg). pose proof (spos_lt sz kg).
  rewrite (adr_add _ _ _ part) by lia. replace (adr (next ws) (0 + (spos (S kg) + 8))) with (pos (next ws, kg)) by (unfold NvsOps.pos; cbn [fst snd]; f_equal; lia).
  assert (C : collected M ws o (S kg) M 0 0 (S kg)).
  { split; try done; try lia.
    - unfold NvsLayout.agree. by apply Forall_forall.
    - cbn. pose proof (need_bound _ _ _ _ (full_placed _ _ _ _ _ F)). cbn in *. lia. }
  destruct (gc_loop_ok M ws o (S kg) Hw Hlen r kg (walk_fuel (at_ d (pos (ws, 0%nat)) (adr ws 0) r)) d 0 0 Hd F) as (rc&d1&a1&w1&->&O); [lia| |done|].
  { unfold walk_fuel. cbn [sector_count sector_size]. unfold NvsLayout.spos in *. nia. }
  destruct O as [(->&Hd1&k1&dw1&->&->&C1)|(Hrc&Hd1&P)].
  2:{ unfold nz. rewrite (proj2 (Z.eqb_neq rc 0)) by lia. cbn [negb]. cbv iota. do 4 eexists. split; [done|]. right. split; [done|]. split; [done|].
      by apply pending_recoverable. }
  change (nz 0) with false. cbv iota.
  destruct (erase_sector_ok d1 (pos (ws, k1)) (adr ws dw1) r (next ws) 0) as (rc2&d2&->&O2); [done|done|lia|].
  do 4 eexists. split; [done|]. destruct O2 as [(->&Hd2&E2&O2)|(Hrc&Hd2&M2)]; [left|right]; (split; [done|]); (split; [done|]).
  - destruct (collected_erase M ws o (S kg) Hlen _ (flash_mem d2) k1 dw1 C1 O2 E2) as (L2&I2&K2). exists k1, dw1, o.
    do 3 (split; [done|]). split; [lia|]. split; [|split; [apply C1|split; [exact I2|exact K2]]].
    pose proof (gc_room _ _ _ _ _ _ _ _ C1) as Hr. cbn in Hr. unfold NvsLayout.spos. lia.
  - destruct (layout_ext _ _ _ geo _ _ _ _ _ _ (gc_layout _ _ _ _ _ _ _ _ C1) M2) as [L2 A2]. apply agree_app in A2 as [_ A2].
    apply pending_recoverable; [done|]. split; [eapply only_trans; [apply C1|by apply inside_ext]|]. split; [eapply agree_trans; [apply C1|done]|].
    exists k1, dw1. split; [done|]. eapply (collected_fits M ws o (S kg)); [exact F| |exact C1]. lia.
Qed.

Lemma gc_ok d r ws older : let M := flash_mem d in
  powered d = true -> layout M ws 0 0 older ->
  exists rc d' a' w', nvs_gc (at_ d (pos (ws, 0%nat)) (adr ws 0) r) = (rc, at_ d' a' w' r) /\
    outcome rc d' (gc_result M ws older (flash_mem d') a' w') (gc_stopped M ws older (flash_mem d')).
Proof.
  intros M Hd L. pose proof (geo_facts _ _ _ part) as (_&_&?&?). pose proof (ws_range _ _ _ _ _ _ _ _ L) as Hw.
  pose proof (older_len _ _ _ _ _ _ _ _ L). pose proof (next_range off sz cnt geo ws) as Hg.
  destruct (decide (Z.of_nat (length older) = cnt - 1)) as [E|E].
  { destruct (exists_last (l := older)) as (o&kg&->); [intros ->; cbn in E; lia|]. rewrite length_app in E. cbn in E. apply gc_full_ok; [done..|lia]. }
  rewrite gc_first by done. cbv zeta.
  assert (He : erased M (base (next ws)) sz) by (rewrite <- (sect_last off sz cnt geo); apply (rest_erased _ _ _ _ _ _ _ _ L); lia).
  unfold close_slot. rewrite (erased_bytes (flash_mem d)) by (eapply erased_sub; [exact He|lia|lia]).
  change (nvs_ate_cmp_const _ 255 =? 0) with true. cbv iota.
  destruct (erase_sector_ok d (pos (ws, 0%nat)) (adr ws 0) r (next ws) 0) as (rc&d'&->&O); [done|done|lia|].
  assert (HM : forall x, flash_mem d' x = M x).
  { destruct O as [(_&_&E2&O2)|(_&_&?)]; [|done]. intros x. destruct (decide (base (next ws) <= x < base (next ws) + sz)); [|apply O2; lia].
    rewrite E2 by done. symmetry. by apply He. }
  destruct (layout_ext _ _ _ geo _ _ _ _ _ _ L HM) as [L' A']. change (log ws 0 older) with (older_log ws 1 older) in A'.
  do 4 eexists. split; [done|]. destruct O as [(->&Hd'&_)|(Hrc&Hd'&_)]; [left|right]; (split; [done|]); (split; [done|]).
  - exists 0%nat, 0, older. do 3 (split; [done|]). split; [lia|]. split; [unfold NvsLayout.spos; lia|]. split; [done|]. split; [by apply inside_ext|].
    intros id. change (log ws 0 older) with (older_log ws 1 older). by apply agree_lookup.
  - split; [by apply inside_ext|]. exists ws, 0%nat, 0, older. split; [done|]. split; [unfold NvsLayout.spos; lia|]. left. split; [lia|].
    split; [done|]. intros id. by apply agree_lookup.
Qed.
End collecting.
