(* ===== verification/NvsStorage.v ===== *)
(** The operations of the non-volatile storage: reading, writing and deleting entries
    as operations on a map, also when the power fails. *)
From Stdlib Require Import ZArith Lia Bool.
From stdpp Require Import base numbers list.
From S2P Require Import Prelude ByteOrder Uuid Crc NvsFs NvsLayout NvsOps NvsRead NvsWrite NvsGc.
Open Scope Z_scope.

Section storage.
Context {D : Type} `{!Flash D, !FlashOk D}.
Context (off sz cnt : Z).
Hypothesis part : partition off sz cnt.
Implicit Types (M : mem) (d : D) (fs : nvs_fs D) (ws dw id : Z) (r : bool) (k n : nat) (older : list nat) (data : list Z) (m : Z -> option (list Z)).

Abbreviation base := (base off sz).
Abbreviation spos := (spos sz).
Abbreviation slot := (slot off sz).
Abbreviation slot_of := (slot_of off sz).
Abbreviation layout := (layout off sz cnt).
Abbreviation agree := (agree off sz).
Abbreviation newest := (newest off sz).
Abbreviation lookup := (lookup off sz).
Abbreviation log := (log cnt).
Abbreviation older_log := (older_log cnt).
Abbreviation next := (next cnt).
Abbreviation pos := (pos sz).
Abbreviation inside := (inside off sz cnt).
Abbreviation recoverable := (recoverable off sz cnt).
Abbreviation at_ d a w r := (mk_fs d off a w sz cnt r).
Abbreviation geo := (part_geo _ _ _ part).

(** A map with one entry changed; writing nothing deletes. *)
Definition store m id data : Z -> option (list Z) :=
  fun id' => if id' =? id then (if Z.of_nat (length data) =? 0 then None else Some data) else m id'.

(** The state of the storage and its contents; the flag as in [recoverable]. *)
Definition holds (clean : bool) fs r m : Prop :=
  exists ws k dw older, let d := fs_flash fs in
    fs = at_ d (pos (ws, k)) (adr ws dw) r /\ layout (flash_mem d) ws k dw older /\ Z.of_nat (length older) <= cnt - 2 /\ dw <= spos k /\
    (clean = true -> k = 0%nat -> dw = 0) /\ forall id, lookup (flash_mem d) (log ws k older) id = m id.
Abbreviation rests := (holds true).

(** The outcome of a write; [no_room] is what is known if there is none. *)
Definition written (no_room : Prop) M m id data r (rc : Z) fs' : Prop :=
  inside M (flash_mem (fs_flash fs')) /\
  if powered (fs_flash fs')
  then 0 <= rc /\ rests fs' r (store m id data) \/ no_room /\ rc = - ENOSPC /\ rests fs' r m
  else recoverable false (flash_mem (fs_flash fs')) m.

Lemma recoverable_ext clean M M' m : (forall x, M' x = M x) -> recoverable clean M m -> recoverable clean M' m.
Proof.
  intros HM (ws&k&dw&older&L&Hs&H). destruct (layout_ext _ _ _ geo _ _ _ _ _ _ L HM) as [L' A']. exists ws, k, dw, older. do 2 (split; [done|]).
  destruct H as [(?&?&H)|(?&H)]; [left|right]; (split; [done|]).
  - split; [done|]. intros id. rewrite (agree_lookup _ _ _ _ _ _ A'). apply H.
  - apply agree_app in A' as [_ A']. intros id. rewrite (agree_lookup _ _ _ _ _ _ A'). apply H.
Qed.

Lemma recoverable_map clean M m m' : (forall id, m id = m' id) -> recoverable clean M m -> recoverable clean M m'.
Proof.
  intros E (ws&k&dw&older&L&Hs&H). exists ws, k, dw, older. do 2 (split; [done|]).
  destruct H as [(?&?&H)|(?&H)]; [left|right]; (split; [done|]); [split; [done|]|]; intros id; by rewrite H.
Qed.

Lemma recoverable_weaken clean M m : recoverable true M m -> recoverable clean M m.
Proof.
  intros (ws&k&dw&older&L&Hs&H). exists ws, k, dw, older. do 2 (split; [done|]). destruct H as [(?&Hc&H)|H]; [left|by right].
  split; [done|]. split; [|done]. intros _. by apply Hc.
Qed.

Lemma holds_map clean fs r m m' : (forall id, m id = m' id) -> holds clean fs r m -> holds clean fs r m'.
Proof. intros E (ws&k&dw&older&?&?&?&?&?&H). exists ws, k, dw, older. cbv zeta. do 5 (split; [done|]). intros id. by rewrite H. Qed.

Lemma written_map (P P' : Prop) M M' m m' id data r rc fs' : (P -> P') -> (forall id, m id = m' id) -> inside M M' ->
  written P M' m id data r rc fs' -> written P' M m' id data r rc fs'.
Proof.
  intros HP E I [I' W]. split; [by eapply only_trans|]. destruct (powered _); [|by eapply (recoverable_map _ _ m)].
  destruct W as [[??]|(?&?&?)]; [left; split; [done|]|right; split; [by apply HP|split; [done|]]]; (eapply holds_map; [|done]); [|done].
  intros id'. unfold store. by rewrite E.
Qed.

Lemma al_le (n len : Z) : len <= 4 * n -> al len <= 4 * n.
Proof. intros. unfold al. assert ((len + 3) / 4 <= n); [|lia]. apply Z.lt_succ_r. apply Z.div_lt_upper_bound; lia. Qed.

Lemma spos_eight k : 0 < spos k -> 8 <= spos k.
Proof.
  pose proof (geo_facts _ _ _ part) as (_&H8&_&_). apply Z.mod_divide in H8 as [q Hq]; [|lia]. unfold NvsLayout.spos. lia.
Qed.

Section write.
Context (parts : nat -> Z) (id : Z) (data : list Z) (r : bool).
Abbreviation len := (Z.of_nat (length data)).
Definition required : Z := if nz (al len) then al len + 8 else 0.
Hypothesis Hparts : forall n, 0 <= parts n < 256.
Hypothesis Hid : 0 <= id < 2 ^ 16.
Hypothesis Hok : bytes_ok data.
Hypothesis Hlen : len <= sz - 24.

Lemma required_bound : 0 <= required <= sz - 16 /\ al len <= required /\ (len <> 0 -> al len + 8 <= required) /\ (len = 0 -> required = 0).
Proof.
  pose proof (geo_facts _ _ _ part) as (_&H8&?&_). apply Z.mod_divide in H8 as [q Hq]; [|lia]. pose proof (al_bounds len).
  pose proof (al_le (2 * q - 6) len ltac:(lia)). unfold required, nz. destruct (Z.eqb_spec (al len) 0); cbn [negb]; [lia|].
  split; [lia|]. split; [lia|]. split; [lia|]. intros E. rewrite E, al_0 in *. done.
Qed.

Lemma fits_compare ws dw k : 0 <= ws < cnt -> 0 <= dw < 2 ^ 16 ->
  (u32 (adr ws dw + required) <=? pos (ws, k)) = (dw + required <=? spos k).
Proof.
  intros Hw Hd. pose proof (geo_facts _ _ _ part) as (_&_&?&?). pose proof required_bound as (?&_). unfold NvsOps.pos, adr. cbn [fst snd].
  rewrite u32_small by lia. destruct (Z.leb_spec (dw + required) (spos k)), (Z.leb_spec (ws * 2 ^ 16 + dw + required) (ws * 2 ^ 16 + spos k)); lia.
Qed.

(** There is room: the entry is written. *)
Lemma write_now n d ws k dw older : let M := flash_mem d in
  powered d = true -> layout M ws k dw older -> Z.of_nat (length older) <= cnt - 2 -> dw + required <= spos k -> (len = 0 -> dw + 8 <= spos k) ->
  let '(rc, fs') := write_loop (S n) parts id required data (at_ d (pos (ws, k)) (adr ws dw) r) in
  written False M (lookup M (log ws k older)) id data r rc fs'.
Proof.
  intros M Hd L Hl Hfit H0. pose proof (geo_facts _ _ _ part) as (_&_&?&?). pose proof required_bound as (?&?&Hr1&Hr2).
  pose proof (ws_range _ _ _ _ _ _ _ _ L) as Hw. pose proof (placed_nonneg _ _ _ _ _ _ (open_placed _ _ _ _ _ _ _ _ L)).
  pose proof (spos_lt sz k). pose proof (spos_S sz k). pose proof (al_bounds len). pose proof (spos_eight k). cbn [write_loop data_wra ate_wra].
  rewrite fits_compare, (proj2 (Z.leb_le _ _) Hfit) by lia.
  destruct (wrt_entry_ok _ _ _ part d r ws k dw older id data) as (rc&d'&a'&w'&->&O); try done; try lia.
  destruct O as [(->&Hd'&->&->&L'&I'&K')|(Hrc&Hd'&I'&A'&dw'&L'&Hd2)].
  - change (nz 0) with false. cbv iota. split; [done|]. cbn [fs_flash]. rewrite Hd'. left. split; [lia|].
    exists ws, (S k), (dw + al len), older. cbn [fs_flash]. split; [done|]. split; [done|]. split; [done|]. split; [|split; [done|exact K']].
    destruct (decide (len = 0)) as [E|E]; [rewrite E, al_0; specialize (H0 E); lia|specialize (Hr1 E); lia].
  - unfold nz. rewrite (proj2 (Z.eqb_neq rc 0)) by lia. cbn [negb]. cbv iota. split; [done|]. cbn [fs_flash]. rewrite Hd'. exists ws, k, dw', older.
    do 2 (split; [done|]). left. do 2 (split; [done|]). intros id'. by apply agree_lookup.
Qed.

(** The loop of [nvs_write], when [n] collections may be made. *)
Lemma write_loop_ok n d ws k dw older : let M := flash_mem d in
  powered d = true -> layout M ws k dw older -> Z.of_nat (length older) <= cnt - 2 -> dw <= spos k ->
  (k = 0%nat -> dw = 0 \/ (0 < n)%nat /\ dw + required <= spos k) -> (len = 0 -> dw + 8 <= spos k /\ (0 < n)%nat) ->
  let '(rc, fs') := write_loop n parts id required data (at_ d (pos (ws, k)) (adr ws dw) r) in
  written ((0 < n)%nat -> spos k < dw + required) M (lookup M (log ws k older)) id data r rc fs'.
Proof.
  pose proof (geo_facts _ _ _ part) as (_&_&?&?). pose proof required_bound as (Hrb&_&_&Hr0).
  revert d ws k dw older. induction n as [|n IH]; intros d ws k dw older M Hd L Hl Hs Hk Hdel; pose proof (ws_range _ _ _ _ _ _ _ _ L) as Hw.
  { split; [done|]. cbn [write_loop fs_flash]. rewrite Hd. right. split; [lia|]. split; [done|]. exists ws, k, dw, older. cbn [fs_flash].
    do 4 (split; [done|]). split; [|done]. intros _ E. specialize (Hk E). lia. }
  destruct (decide (dw + required <= spos k)) as [Hfit|Hfit].
  { pose proof (write_now n d ws k dw older Hd L Hl Hfit) as W. destruct (write_loop _ _ _ _ _ _) as [rc fs'].
    eapply written_map; [|done|done|apply W]; [done|]. intros E. by apply Hdel. }
  assert (len <> 0) as Hne by (intros E; specialize (Hr0 E); lia).
  assert (0 < k)%nat as Hk0. { destruct k; [|lia]. destruct (Hk eq_refl) as [->|[_ ?]]; [unfold NvsLayout.spos in Hfit; lia|lia]. }
  pose proof (placed_nonneg _ _ _ _ _ _ (open_placed _ _ _ _ _ _ _ _ L)). pose proof (spos_lt sz k).
  cbn [write_loop data_wra ate_wra]. rewrite fits_compare, (proj2 (Z.leb_gt _ _)) by lia.
  destruct (sector_close_ok _ _ _ part d r ws k dw older (parts n)) as (d1&->&O1); try done.
  change (nz 0) with false. cbv iota. set (fs1 := at_ d1 _ _ r). set (g := fun fs => let '(rc, fs) := nvs_gc fs in if nz rc then (rc, fs) else write_loop n parts id required data fs).
  change (let '(rc, fs') := g fs1 in written ((0 < S n)%nat -> spos k < dw + required) M (lookup M (log ws k older)) id data r rc fs').
  destruct O1 as [(Hd1&L1&A1&I1)|(Hd1&M1)].
  2:{ assert (Dk : stays_dark g).
      { apply dark_bind; [apply gc_dark|]. intros rc. apply dark_if; [apply (dark_ret (fun _ => rc))|apply write_loop_dark]. }
      destruct (Dk fs1 Hd1) as [Hp Hm]. destruct (g fs1) as [rc fs']. cbn [snd] in *.
      assert (forall x, flash_mem (fs_flash fs') x = M x) as HM by (intros x; rewrite Hm; apply M1).
      split; [by apply (inside_ext _ _ _ M)|]. rewrite Hp. apply (recoverable_ext _ M); [done|]. exists ws, k, dw, older. do 2 (split; [done|]). by left. }
  destruct (gc_ok _ _ _ part d1 r (next ws) (k :: older) Hd1 L1) as (rc2&d2&a2&w2&E2&O2). unfold g, fs1. rewrite E2.
  assert (Em : forall id', lookup (flash_mem d1) (older_log (next ws) 1 (k :: older)) id' = lookup M (log ws k older) id').
  { intros id'. change (older_log (next ws) 1 (k :: older)) with (log (next ws) 0 (k :: older)).
    rewrite (log_close off sz cnt geo) by done. by apply agree_lookup. }
  destruct O2 as [(->&Hd2&k2&dw2&o2&->&->&L2&Hl2&Hs2&Hk2&I2&K2)|(Hrc&Hd2&I2&R2)].
  - change (nz 0) with false. cbv iota. specialize (IH d2 (next ws) k2 dw2 o2 Hd2 L2 Hl2 Hs2).
    destruct (write_loop n _ _ _ _ _) as [rc fs']. eapply written_map; [| |eapply only_trans; [exact I1|exact I2]|apply IH].
    + intros _ _. lia.
    + intros id'. by rewrite K2.
    + intros E. left. by apply Hk2.
    + done.
  - unfold nz. rewrite (proj2 (Z.eqb_neq rc2 0)) by lia. cbn [negb]. cbv iota. split; [by eapply only_trans|]. cbn [fs_flash]. rewrite Hd2.
    eapply recoverable_map; [exact Em|]. by apply recoverable_weaken.
Qed.
End write.

Lemma holds_weaken clean fs r m : rests fs r m -> holds clean fs r m.
Proof. intros (ws&k&dw&older&?&?&?&?&Hk&?). exists ws, k, dw, older. cbv zeta. do 4 (split; [done|]). split; [|done]. intros _. by apply Hk. Qed.

(** The outcome of [nvs_write], where the storage need not be clean. *)
Definition outcome_of_write (no_room : Prop) (clean : bool) M m id data (rc : Z) fs' : Prop :=
  inside M (flash_mem (fs_flash fs')) /\
  if powered (fs_flash fs')
  then 0 <= rc /\ holds clean fs' true (store m id data) \/ no_room /\ rc = - ENOSPC /\ holds clean fs' true m
  else recoverable false (flash_mem (fs_flash fs')) m.

Lemma written_same P clean fs m id data : powered (fs_flash fs) = true -> holds clean fs true m -> (forall id', store m id data id' = m id') ->
  outcome_of_write P clean (flash_mem (fs_flash fs)) m id data 0 fs.
Proof. intros Hd R E. split; [done|]. rewrite Hd. left. split; [done|]. by apply (holds_map clean fs true m). Qed.

Lemma written_weaken P clean M m id data rc fs' : written P M m id data true rc fs' -> outcome_of_write P clean M m id data rc fs'.
Proof.
  intros [I W]. split; [done|]. destruct (powered _); [|done]. destruct W as [[? H]|(?&?&H)]; apply (holds_weaken clean) in H; [left|right]; by split.
Qed.

Lemma store_same m id data : (if Z.of_nat (length data) =? 0 then None else Some data) = m id -> forall id', store m id data id' = m id'.
Proof. intros E id'. unfold store. destruct (Z.eqb_spec id' id) as [->|]; [done|done]. Qed.

(** An entry may be written: the data have a size that is allowed; there is room for
    the ate that deletes, and for an ate after it; and if there are data without an
    entry at the start of the write sector, the new ones fit behind them.  [nvs_write]
    checks the first, not the other two: for a deletion [required_space] is 0. *)
Definition may_write fs id data : Prop :=
  0 <= id < 2 ^ 16 /\ bytes_ok data /\ Z.of_nat (length data) <= sz - 24 /\ (data = [] -> data_wra fs + 8 <= ate_wra fs) /\
  (ate_wra fs .& ADDR_OFFS_MASK = sz - 16 -> data_wra fs .& ADDR_OFFS_MASK = 0 \/ data_wra fs + required data <= ate_wra fs).

(** Writing an entry. *)
Lemma write_ok clean parts id data fs m : (forall n, 0 <= parts n < 256) -> may_write fs id data ->
  powered (fs_flash fs) = true -> holds clean fs true m ->
  let '(rc, fs') := nvs_write parts id (Some data) (Z.of_nat (length data)) fs in
  outcome_of_write (ate_wra fs < data_wra fs + required data) clean (flash_mem (fs_flash fs)) m id data rc fs'.
Proof.
  intros Hparts (Hid&Hok&Hlen&Hroom&Hfirst) Hd R. pose proof (geo_facts _ _ _ part) as (_&_&?&?). set (len := Z.of_nat (length data)) in *.
  pose proof R as (ws&k&dw&older&E&L&Hl&Hs&Hk&Hm). set (d := fs_flash fs) in *. set (M := flash_mem d) in *. pose proof (al_bounds len).
  assert (Hadd : let '(rc, fs') := write_loop (Z.to_nat cnt) parts id (required data) data fs in
    outcome_of_write (ate_wra fs < data_wra fs + required data) clean M m id data rc fs').
  { pose proof (write_loop_ok parts id data true Hparts Hid Hok Hlen (Z.to_nat cnt) d ws k dw older Hd L Hl Hs) as W. rewrite <- E in W.
    destruct (write_loop _ _ _ _ _ fs) as [rc fs']. apply written_weaken. eapply written_map; [|exact Hm|done|apply W].
    - intros Hn. rewrite E. unfold NvsOps.pos, adr. cbn [data_wra ate_wra fst snd]. lia.
    - intros ->. pose proof (placed_nonneg _ _ _ _ _ _ (open_placed _ _ _ _ _ _ _ _ L)). pose proof (ws_range _ _ _ _ _ _ _ _ L).
      rewrite E in Hfirst. unfold NvsOps.pos in Hfirst. cbn [data_wra ate_wra fst snd] in Hfirst. assert (spos 0 = sz - 16) as E0 by (unfold NvsLayout.spos; lia).
      rewrite !adr_offs in Hfirst by lia. destruct (Hfirst E0); [by left|right]. unfold adr in *. lia.
    - intros E0. assert (data = []) as En by (by destruct data). specialize (Hroom En). rewrite E in Hroom. cbn [data_wra ate_wra] in Hroom.
      unfold NvsOps.pos, adr in Hroom. cbn [fst snd] in Hroom. lia. }
  assert (Ef : fs_ready fs = true /\ sector_size fs = sz /\ sector_count fs = cnt) by (by rewrite E). destruct Ef as (Er&Es&Ec).
  unfold nvs_write. rewrite Er, Es, Ec. cbn [negb]. cbv iota. rewrite ate_size_8, al_size by lia.
  rewrite u32_small, (proj2 (Z.ltb_ge (sz - 3 * 8) len)) by lia. rewrite bool_decide_false by done. rewrite andb_false_r. cbn [orb default]. cbv iota.
  change (Datatypes.id data) with data. rewrite take_ge by (subst len; lia). fold len.
  assert ((if nz (al len) then u16 (al len + 8) else 0) = required data) as ->.
  { unfold required. fold len. destruct (nz (al len)); [|done]. apply Z.mod_small. lia. }
  pose proof (walk_layout _ _ _ part d (adr ws dw) true ws k dw older Hd L (clear_room _ _ _ _ _ _ _ _ L Hs) id) as W. cbv zeta in W.
  rewrite <- E in W. fold M in W. specialize (Hm id) as Hmi. unfold NvsLayout.lookup in Hmi. pose proof (log_ok _ _ _ geo _ _ _ _ _ L) as Hlog. rewrite Forall_forall in Hlog.
  destruct (newest M id (log ws k older)) as [q|] eqn:En.
  - destruct W as [nxt W]. rewrite W. change (nz 0) with false. cbv iota. apply newest_elem in En as [Hq _]. specialize (Hlog q Hq).
    destruct (entry_data _ _ _ part d q Hlog) as (Ea&Hb1&Hb2). destruct Hlog as (Hq1&_&_&Hl0&Ho0&_). fold M in Ea, Hb1, Hb2, Hl0, Ho0. cbn [mbind option_bind] in Hmi.
    unfold content in Hmi. destruct (Z.eqb_spec len 0) as [E0|E0].
    + destruct (Z.eqb_spec (ate_len (slot_of M q)) 0); [|exact Hadd]. apply written_same; [done|done|]. apply store_same. fold len. rewrite E0. done.
    + destruct (Z.eqb_spec len (ate_len (slot_of M q))) as [E1|]; [|exact Hadd]. rewrite Ea.
      pose proof (block_cmp_ok _ _ _ part d (pos (ws, k)) (adr ws dw) true q.1 (ate_offset (slot_of M q)) data Hd Hq1 Ho0) as B.
      rewrite <- E in B. rewrite B by (fold len; lia). fold len M. destruct (bool_decide _) eqn:Eb; [|exact Hadd]. change (0 <=? 0) with true. cbv iota.
      apply bool_decide_eq_true in Eb. apply written_same; [done|done|]. apply store_same. fold len. rewrite (proj2 (Z.eqb_neq _ _) E0), <- Hmi, <- E1.
      rewrite (proj2 (Z.eqb_neq _ _) E0). unfold value. rewrite <- E1. fold len M in Eb. by rewrite Eb.
  - destruct W as (q&Hq&W). rewrite W. change (nz 0) with false. cbv iota. destruct (Z.eqb_spec len 0) as [E0|E0]; [|exact Hadd].
    apply written_same; [done|done|]. apply store_same. fold len. rewrite E0. done.
Qed.
End storage.
