(* ===== verification/NvsStart.v ===== *)
(** Starting the non-volatile storage: [nvs_startup] finds the write sector and the
    place of the next entry again, and finishes a collection that was interrupted. *)
From Stdlib Require Import ZArith Lia Bool.
From stdpp Require Import base numbers list.
From S2P Require Import Prelude ByteOrder Uuid Crc NvsFs NvsLayout NvsOps NvsRead NvsWrite NvsGc NvsStorage.
Open Scope Z_scope.

Section starting.
Context {D : Type} `{!Flash D, !FlashOk D}.
Context (off sz cnt : Z).
Hypothesis part : partition off sz cnt.
Implicit Types (M : mem) (d : D) (fs : nvs_fs D) (s ws dw w a id c : Z) (r : bool) (i j k n fuel : nat) (older : list nat) (m : Z -> option (list Z)).

Abbreviation base := (base off sz).
Abbreviation spos := (spos sz).
Abbreviation slot := (slot off sz).
Abbreviation placed := (placed off sz).
Abbreviation layout := (layout off sz cnt).
Abbreviation agree := (agree off sz).
Abbreviation lookup := (lookup off sz).
Abbreviation log := (log cnt).
Abbreviation older_log := (older_log cnt).
Abbreviation sect := (sect cnt).
Abbreviation next := (next cnt).
Abbreviation before := (before cnt).
Abbreviation pos := (pos sz).
Abbreviation inside := (inside off sz cnt).
Abbreviation recoverable := (recoverable off sz cnt).
Abbreviation holds := (holds off sz cnt).
Abbreviation at_ d a w r := (mk_fs d off a w sz cnt r).
Abbreviation geo := (part_geo _ _ _ part).

Lemma sect_some ws s : 0 <= ws < cnt -> 0 <= s < cnt -> exists j, Z.of_nat j < cnt /\ s = sect ws j.
Proof.
  intros Hw Hs. pose proof (geo_facts _ _ _ part) as (_&_&_&?). pose proof (Z.mod_pos_bound (ws - s) cnt ltac:(lia)).
  exists (Z.to_nat ((ws - s) mod cnt)). split; [lia|]. unfold NvsLayout.sect. rewrite Z2Nat.id by lia.
  rewrite Zminus_mod_idemp_r. replace (ws - (ws - s)) with s by lia. by rewrite Z.mod_small.
Qed.

Section scan.
Context (d : D) (a w : Z) (r : bool) (ws : Z) (k : nat) (dw : Z) (older : list nat).
Hypothesis Hd : powered d = true.
Hypothesis L : layout (flash_mem d) ws k dw older.
Abbreviation M := (flash_mem d).
Abbreviation fs := (at_ d a w r).

Lemma ate_fields_at s i : ate_fields (slot M s i).
Proof.
  unfold NvsLayout.slot. apply ate_of_fields; [|by rewrite length_mem_bytes]. apply Forall_forall. intros b Hb.
  apply list_elem_of_fmap in Hb as (y&->&_). apply flash_bytes.
Qed.

(** A full sector is not erased. *)
Lemma full_not_erased s k' : full off sz M s k' -> ~ erased M (base s + sz - 8) 8.
Proof.
  intros F He. pose proof (full_close _ _ _ _ _ F) as Hv. unfold valid, close_slot in Hv. rewrite (erased_bytes _ _ _ He) in Hv.
  change (ate_of _) with erased_ate in Hv. rewrite erased_ate_invalid in Hv. done.
Qed.

(** The sectors that are closed. *)
Lemma closed_test j : Z.of_nat j < cnt ->
  nz (nvs_flash_cmp_const fs (adr (sect ws j) (sz - 8)) erase_value sizeof_ate) = (0 <? j)%nat && (j <=? length older)%nat.
Proof.
  intros Hj. pose proof (geo_facts _ _ _ part) as (_&_&?&?). pose proof (sect_range off sz cnt geo ws j) as Hs.
  pose proof (ws_range _ _ _ _ _ _ _ _ L) as Hw. unfold sizeof_ate.
  destruct (cmp_erased _ _ _ part d a w r (sect ws j) (sz - 8) 8) as [[He ->]|[He ->]]; [done|done|lia|lia|lia|..]; rewrite Z.add_sub_assoc in He.
  - change (nz 0) with false. symmetry. apply andb_false_iff. destruct (Nat.ltb_spec 0 j); [right|by left].
    apply Nat.leb_gt. destruct (decide (length older < j)%nat); [done|]. exfalso.
    destruct (lookup_lt_is_Some_2 older (j - 1)) as [kj Hkj]; [lia|]. apply (older_full _ _ _ _ _ _ _ _ L) in Hkj.
    replace (S (j - 1)) with j in Hkj by lia. by apply full_not_erased in Hkj.
  - change (nz 1) with true. symmetry. apply andb_true_iff. split.
    + apply Nat.ltb_lt. destruct j; [|lia]. exfalso. apply He. rewrite (sect_0 cnt ws) by done. apply (open_close _ _ _ _ _ _ _ _ L).
    + apply Nat.leb_le. destruct (decide (length older < j)%nat); [|lia]. exfalso. apply He.
      eapply erased_sub; [apply (rest_erased _ _ _ _ _ _ _ _ L j); [done|lia]|lia|lia].
Qed.

Lemma scan_addr (i : Z) : 0 <= i < cnt -> u32 ((i .<< ADDR_SECT_SHIFT) + u16 (sz - 8)) = adr i (sz - 8).
Proof.
  intros Hi. pose proof (geo_facts _ _ _ part) as (_&_&?&?). unfold ADDR_SECT_SHIFT, u16, adr. rewrite Z.shiftl_mul_pow2, Z.mod_small by lia.
  apply u32_small. lia.
Qed.

(** Some sector is closed: the loop ends at the one before the write sector. *)
Lemma scan_closed n (i addr : Z) c : older <> [] -> i + Z.of_nat n = cnt -> 0 <= i <= before ws -> 0 <= c <= i -> (ws < i -> c <= i - 1) ->
  exists c', startup_sectors n fs i addr c = (before ws, adr ws (sz - 8), c') /\ 0 <= c' < cnt.
Proof.
  intros Ho. pose proof (geo_facts _ _ _ part) as (_&_&?&?). pose proof (ws_range _ _ _ _ _ _ _ _ L) as Hw. pose proof (before_range cnt ws Hw) as Hb.
  pose proof (older_len _ _ _ _ _ _ _ _ L) as Hlen. assert (0 < length older)%nat by (destruct older; [done|cbn; lia]).
  assert (Hb1 : before ws = sect ws 1) by (rewrite <- (sect_0 cnt ws) at 1 by done; apply (before_sect off sz cnt part)).
  revert i addr c. induction n as [|n IH]; intros i addr c Hn Hi Hc Hcw; [lia|]. cbn [startup_sectors sector_size]. rewrite ate_size_8.
  rewrite scan_addr by lia. destruct (sect_some ws i Hw ltac:(lia)) as (j&Hj&Ei). pose proof (closed_test j Hj) as T1. rewrite <- Ei in T1. rewrite T1.
  assert (Hu : u16 (i + 1) = i + 1) by (apply Z.mod_small; lia). assert (Hu' : u16 (c + 1) = c + 1) by (apply Z.mod_small; lia). rewrite Hu, Hu'.
  destruct (Nat.ltb_spec 0 j) as [Hj0|Hj0]; cbn [andb].
  2:{ replace j with 0%nat in * by lia. rewrite (sect_0 cnt ws) in Ei by done. apply IH; try lia. unfold NvsOps.before in *. destruct (ws =? 0) eqn:E; lia. }
  destruct (Nat.leb_spec j (length older)) as [Hjo|Hjo]; cbn [andb].
  2:{ assert (i <> before ws) by (rewrite Hb1, Ei; intros E; apply (sect_inj cnt ws) in E; lia). apply IH; lia. }
  assert (Hiw : i <> ws) by (rewrite Ei; apply (sect_open cnt ws); lia).
  rewrite (advance_ok _ _ _ part) by lia. destruct j as [|j]; [lia|].
  assert (next i = sect ws j) as ->.
  { rewrite Ei. unfold NvsLayout.next, NvsLayout.sect. rewrite Zplus_mod_idemp_l. f_equal. lia. }
  rewrite closed_test by lia. destruct (Nat.ltb_spec 0 j) as [Hj1|Hj1]; cbn [andb].
  - rewrite (proj2 (Nat.leb_le j (length older))) by lia.
    assert (i <> before ws) by (rewrite Hb1, Ei; intros E; apply (sect_inj cnt ws) in E; lia). apply IH; lia.
  - replace j with 0%nat in * by lia. rewrite (sect_0 cnt ws) by done. exists (c + 1). rewrite Hb1, <- Ei. split; [done|].
    rewrite <- Hb1 in Ei. unfold NvsOps.before in *. destruct (Z.eqb_spec ws 0); lia.
Qed.

(** No sector is closed: the loop ends behind the last one. *)
Lemma scan_open n (i addr : Z) : older = [] -> i + Z.of_nat n = cnt -> 0 <= i -> (0 < n)%nat ->
  startup_sectors n fs i addr 0 = (cnt, adr (cnt - 1) (sz - 8), 0).
Proof.
  intros Ho. pose proof (geo_facts _ _ _ part) as (_&_&?&?). pose proof (ws_range _ _ _ _ _ _ _ _ L) as Hw.
  revert i addr. induction n as [|n IH]; intros i addr Hn Hi Hn0; [lia|]. cbn [startup_sectors sector_size]. rewrite ate_size_8, scan_addr by lia.
  destruct (sect_some ws i Hw ltac:(lia)) as (j&Hj&Ei). pose proof (closed_test j Hj) as T1. rewrite <- Ei in T1. rewrite T1, Ho. cbn [length].
  assert ((0 <? j)%nat && (j <=? 0)%nat = false) as -> by (destruct j; done).
  replace (u16 (i + 1)) with (i + 1) by (symmetry; apply Z.mod_small; lia). destruct n as [|n]; [|apply IH; lia].
  cbn [startup_sectors]. replace (i + 1) with cnt by lia. by replace i with (cnt - 1) by lia.
Qed.
End scan.

(** ** Finding the place of the next entry *)

Lemma ate_rd_pos d a w r s i : powered d = true -> 0 <= s < cnt -> 0 <= spos i ->
  nvs_flash_ate_rd (at_ d a w r) (pos (s, i)) = (0, slot (flash_mem d) s i).
Proof. intros. pose proof (spos_lt sz i). unfold NvsOps.pos. apply (ate_rd_ok _ _ _ part); [done|done|done|cbn; lia]. Qed.

Section resume.
Context (d : D) (r : bool) (ws : Z) (k : nat) (dw : Z).
Hypothesis Hd : powered d = true.
Hypothesis Hw : 0 <= ws < cnt.
Hypothesis Hp : placed (flash_mem d) ws k dw.
Hypothesis D4 : dw mod 4 = 0.
Hypothesis Hk : 0 <= spos k.
Hypothesis Hgap : erased (flash_mem d) (base ws + dw) (spos k + 8 - dw).
Hypothesis Hs : dw <= spos k.
Abbreviation M := (flash_mem d).

(** Where the data of the first [i] entries end. *)
Definition data_end i : Z := match i with O => 0 | S i => ate_offset (slot M ws i) + al (ate_len (slot M ws i)) end.

Lemma data_end_ok i : (i <= k)%nat -> 0 <= data_end i <= dw /\ data_end i mod 4 = 0 /\ placed M ws i (data_end i).
Proof.
  pose proof (placed_nonneg _ _ _ _ _ _ Hp). intros Hi. destruct i as [|i]; [cbn; split_and!; done||lia|].
  cbn [data_end]. destruct (placed_slot _ _ _ _ _ _ i Hp ltac:(lia)) as (?&?&?&?&?). pose proof (al_bounds (ate_len (slot M ws i))).
  assert (P : placed M ws (S i) dw).
  { clear - Hp Hi. revert dw Hp. induction k as [|n IH]; [lia|]. intros hi Hp. destruct (decide (S i = S n)) as [->|]; [done|].
    pose proof Hp as (_&_&_&_&_&Hp'). eapply placed_mono; [eapply IH; [lia|exact Hp']|].
    destruct Hp as (_&?&_&?&_). pose proof (al_bounds (ate_len (slot M ws n))). lia. }
  pose proof P as (?&?&Ho&?&?&P'). split; [lia|]. split; [rewrite Z.add_mod, Ho, al_mod by lia; done|]. cbn [NvsLayout.placed]. split_and!; done || lia.
Qed.

Lemma ates_ok fuel i : (i <= k)%nat -> (k - i < fuel)%nat ->
  startup_ates fuel (adr ws (sz - 8)) (at_ d (pos (ws, i)) (adr ws (data_end i)) r) = (0, at_ d (pos (ws, k)) (adr ws (data_end k)) r).
Proof.
  pose proof (geo_facts _ _ _ part) as (_&_&?&?).
  revert i. induction fuel as [|fuel IH]; intros i Hi Hf; [lia|]. cbn [startup_ates data_wra ate_wra].
  destruct (data_end_ok i Hi) as (Hde&_&_). pose proof (spos_le sz i k Hi). pose proof (spos_lt sz i).
  assert ((adr ws (data_end i) <=? pos (ws, i)) = true) as -> by (apply Z.leb_le; unfold NvsOps.pos, adr; cbn [fst snd]; lia).
  rewrite ate_rd_pos by (done || lia). change (nz 0) with false. cbv iota. rewrite flash_erased. destruct (decide (i = k)) as [->|Hne].
  { unfold NvsLayout.slot. rewrite erased_bytes; [done|]. eapply erased_sub; [exact Hgap|lia|lia]. }
  destruct (placed_slot _ _ _ _ _ _ i Hp ltac:(lia)) as (Hv&?&?&?&Hlast).
  assert (nvs_ate_cmp_const (slot M ws i) 255 = 1) as ->.
  { apply valid_not_erased; [|by rewrite length_mem_bytes|exact Hv]. apply Forall_forall. intros b Hb. apply list_elem_of_fmap in Hb as (y&->&_). apply flash_bytes. }
  change (1 =? 0) with false. cbv iota. unfold valid in Hv. rewrite Hv. change (0 =? 0) with true. cbv iota.
  destruct (ate_fields_at d ws i) as (_&_&Hl16&_). pose proof (al_bounds (ate_len (slot M ws i))).
  rewrite adr_sect, (adr_add _ _ _ part), al_size by lia. rewrite (adr_add _ _ _ part) by lia. rewrite Z.add_0_l. unfold set_wra.
  cbn [ate_wra data_wra fs_flash fs_offset sector_size sector_count fs_ready andb]. fold (data_end (S i)).
  assert ((pos (ws, i) =? adr ws (data_end (S i))) && nz (ate_len (slot M ws i)) = false) as ->.
  { apply andb_false_iff. destruct (Z.eqb_spec (ate_len (slot M ws i)) 0) as [E|E]; [right; by rewrite E|left]. specialize (Hlast E).
    apply Z.eqb_neq. unfold NvsOps.pos, adr. cbn [fst snd data_end]. lia. }
  pose proof (spos_le sz (S i) k ltac:(lia)). rewrite ate_size_8, (pos_S _ _ _ part) by (done || lia). apply IH; lia.
Qed.

Lemma data_ok fuel w : 0 <= w <= dw -> w mod 4 = 0 -> dw - w < 4 * Z.of_nat fuel ->
  exists w', startup_data fuel (at_ d (pos (ws, k)) (adr ws w) r) = (0, at_ d (pos (ws, k)) (adr ws w') r) /\
    w <= w' <= dw /\ w' mod 4 = 0 /\ erased M (base ws + w') (spos k - w').
Proof.
  pose proof (geo_facts _ _ _ part) as (_&_&?&?). pose proof (spos_lt sz k).
  revert w. induction fuel as [|fuel IH]; intros w Hr H4 Hf; [lia|]. cbn [startup_data data_wra ate_wra].
  destruct (Z.ltb_spec (adr ws w) (pos (ws, k))) as [Hlt|Hge].
  2:{ exists w. split; [done|]. split; [lia|]. split; [done|]. intros x Hx. unfold NvsOps.pos, adr in Hge. cbn [fst snd] in Hge. lia. }
  replace (pos (ws, k) - adr ws w) with (spos k - w) by (unfold NvsOps.pos, adr; cbn [fst snd]; lia).
  destruct (cmp_erased _ _ _ part d (pos (ws, k)) (adr ws w) r ws w (spos k - w)) as [[He ->]|[He ->]]; [done|done|lia|lia|lia|..].
  - change (0 <? 0) with false. change (0 =? 0) with true. cbv iota. exists w. split_and!; try done; lia.
  - change (1 <? 0) with false. change (1 =? 0) with false. cbv iota.
    assert (w <> dw) as Hne by (intros ->; apply He; eapply erased_sub; [exact Hgap|lia|lia]).
    assert (w + 4 <= dw).
    { pose proof D4 as D4'. apply Z.mod_divide in D4' as [p Hp']; [|lia]. apply Z.mod_divide in H4 as [q Hq]; [|lia]. lia. }
    unfold set_wra. cbn [ate_wra data_wra fs_flash fs_offset sector_size sector_count fs_ready]. rewrite flash_block, (adr_add _ _ _ part) by lia.
    destruct (IH (w + 4)) as (w'&->&?&?&?); [lia| |lia|]; [rewrite <- H4, <- (Z.mod_add w 1) by lia; f_equal; lia|].
    exists w'. split; [done|]. split; [lia|done].
Qed.

(** The layout with the end of the data that was found. *)
Lemma found_layout older w' : layout M ws k dw older -> data_end k <= w' <= dw -> w' mod 4 = 0 -> erased M (base ws + w') (spos k - w') -> layout M ws k w' older.
Proof.
  intros L Hw' H4 He. destruct (data_end_ok k ltac:(lia)) as (_&_&P). destruct L. split; try done.
  - eapply placed_mono; [exact P|lia].
  - lia.
  - intros x Hx. destruct (decide (x < base ws + spos k)); [apply He; lia|]. apply Hgap. lia.
Qed.
End resume.

(** ** Starting *)

(** The outcome of starting: the storage holds what was found, or the flash still does. *)
Definition started (clean : bool) M m r (res : Z * nvs_fs D) : Prop :=
  exists rc d' a' w', res = (rc, at_ d' a' w' r) /\ inside M (flash_mem d') /\
    outcome rc d' (holds clean (at_ d' a' w' r) r m) (recoverable clean (flash_mem d') m).

Lemma adr_first s : 0 <= s < cnt -> u32 (adr s (sz - 8) - 8) = pos (s, 0%nat).
Proof.
  intros Hs. pose proof (geo_facts _ _ _ part) as (_&_&?&?). change (adr s (sz - 8) - 8) with (adr s (sz - 8) + - 8).
  rewrite (adr_add _ _ _ part) by lia. unfold NvsOps.pos, NvsLayout.spos. cbn [fst snd]. f_equal. lia.
Qed.

Lemma pos_sect s i : 0 <= s < cnt -> 0 <= spos i -> pos (s, i) .& ADDR_SECT_MASK = adr s 0.
Proof. intros. pose proof (geo_facts _ _ _ part) as (_&_&?&?). pose proof (spos_lt sz i). unfold NvsOps.pos. cbn [fst snd]. apply adr_sect; lia. Qed.

(** A collection is done again from the start. *)
Lemma redo_ok d r ws k dw older (a : nat) w m : powered d = true -> layout (flash_mem d) ws k dw older -> 0 <= spos a ->
  (forall id, lookup (flash_mem d) (older_log ws 1 older) id = m id) -> Z.of_nat (length older) = cnt - 1 -> dw <= spos k ->
  started true (flash_mem d) m r
    (let '(rc, fs) := nvs_flash_erase_sector (pos (ws, a)) (at_ d (pos (ws, a)) w r) in
     if nz rc then (rc, fs)
     else
       let wra := u32 ((ate_wra fs .& ADDR_SECT_MASK) + (sector_size fs - 2 * ate_size)) in
       nvs_gc (set_wra wra (wra .& ADDR_SECT_MASK) fs)).
Proof.
  intros Hd L Ha Hm Hl Hs. pose proof (geo_facts _ _ _ part) as (_&_&?&?). pose proof (ws_range _ _ _ _ _ _ _ _ L) as Hw. pose proof (spos_lt sz a).
  destruct (erase_sector_ok _ _ _ part d (pos (ws, a)) w r ws (spos a)) as (rc1&d1&E1&O1); [done|done|lia|].
  change (pos (ws, a)) with (adr ws (spos a)) at 1. rewrite E1. destruct O1 as [(->&Hd1&Er&Oo)|(Hrc&Hd1&M1)].
  2:{ unfold nz. rewrite (proj2 (Z.eqb_neq rc1 0)) by lia. cbn [negb]. cbv iota. do 4 eexists. split; [done|]. split; [by apply (inside_ext _ _ _)|].
      right. split; [done|]. split; [done|]. apply (recoverable_ext _ _ _ part _ (flash_mem d)); [done|]. exists ws, k, dw, older. do 2 (split; [done|]). by right. }
  destruct (layout_erase_open _ _ _ geo _ _ _ _ _ _ L Oo Er) as [L1 A1]. change (nz 0) with false. cbv iota.
  cbn [ate_wra sector_size]. rewrite ate_size_8, pos_sect, (adr_add _ _ _ part) by lia. unfold set_wra.
  cbn [ate_wra data_wra fs_flash fs_offset sector_size sector_count fs_ready]. rewrite adr_sect by lia.
  replace (adr ws (0 + (sz - 2 * 8))) with (pos (ws, 0%nat)) by (unfold NvsOps.pos, NvsLayout.spos; cbn [fst snd]; f_equal; lia).
  assert (I1 : inside (flash_mem d) (flash_mem d1)) by (eapply (inside_sector _ _ _ part); [exact Hw|exact Oo|lia|lia]).
  destruct (gc_ok _ _ _ part d1 r ws older Hd1 L1) as (rc2&d2&a2&w2&->&O2). do 4 eexists. split; [done|].
  destruct O2 as [(->&Hd2&k2&dw2&o2&->&->&L2&Hl2&Hs2&Hk2&I2&K2)|(Hrc&Hd2&I2&R2)]; (split; [by eapply only_trans|]); [left|right]; (split; [done|]); (split; [done|]).
  - exists ws, k2, dw2, o2. cbn [fs_flash]. do 4 (split; [done|]). split; [intros _; by apply Hk2|]. intros id. rewrite K2, (agree_lookup _ _ _ _ _ _ A1). apply Hm.
  - eapply recoverable_map; [|exact R2]. intros id. rewrite (agree_lookup _ _ _ _ _ _ A1). apply Hm.
Qed.

Lemma started_weaken clean M m r res : started true M m r res -> started clean M m r res.
Proof.
  intros (rc&d'&a'&w'&->&I&O). exists rc, d', a', w'. split; [done|]. split; [done|]. destruct O as [(->&Hd&Ho)|(Hrc&Hd&R)]; [left|right]; (split; [done|]); (split; [done|]).
  - destruct Ho as (ws&k&dw&older&?&?&?&?&Hk&?). exists ws, k, dw, older. cbv zeta. do 4 (split; [done|]). split; [|done]. intros _. by apply Hk.
  - by apply recoverable_weaken.
Qed.

(** From the closing ate of the write sector. *)
Lemma resume_ok clean d r ws k dw older a w m : powered d = true -> layout (flash_mem d) ws k dw older -> dw <= spos k ->
  Z.of_nat (length older) <= cnt - 2 /\ (clean = true -> k = 0%nat -> dw = 0) /\ (forall id, lookup (flash_mem d) (log ws k older) id = m id) \/
  Z.of_nat (length older) = cnt - 1 /\ (forall id, lookup (flash_mem d) (older_log ws 1 older) id = m id) ->
  started clean (flash_mem d) m r (startup_resume (adr ws (sz - 8)) (at_ d a w r)).
Proof.
  intros Hd L Hs Hcase. pose proof (geo_facts _ _ _ part) as (_&_&?&?). pose proof (ws_range _ _ _ _ _ _ _ _ L) as Hw. pose proof (k_le _ _ _ _ _ _ _ _ L) as Hk.
  pose proof (open_placed _ _ _ _ _ _ _ _ L) as Hp. pose proof (dw_aligned _ _ _ _ _ _ _ _ L) as D4. pose proof (gap _ _ _ _ _ _ _ _ L) as Hg.
  destruct (data_end_ok d ws k dw Hp k ltac:(lia)) as (He&He4&_). pose proof (next_range off sz cnt geo ws) as Hn. pose proof (spos_lt sz k).
  unfold startup_resume. unfold set_wra at 1 2 3. cbn [fs_flash fs_offset sector_size sector_count fs_ready]. rewrite ate_size_8 at 1.
  rewrite adr_first, adr_sect by lia. change (adr ws 0) with (adr ws (data_end d ws 0)).
  rewrite (ates_ok d r ws k dw Hd Hw Hp Hk Hg Hs) by (unfold NvsLayout.spos in Hk; lia). change (nz 0) with false. cbv iota. cbn [sector_size].
  destruct (data_ok d r ws k dw Hd Hw D4 Hg Hs (S (Z.to_nat sz)) (data_end d ws k)) as (w'&->&Hw'&Hw4&Hwe); [lia|done|lia|].
  change (nz 0) with false. cbv iota. pose proof (found_layout d ws k dw Hp Hg Hs older w' L ltac:(lia) Hw4 Hwe) as L'.
  cbn [ate_wra sector_size]. rewrite pos_sect, (advance_ok _ _ _ part) by (done || lia).
  destruct (cmp_erased _ _ _ part d (pos (ws, k)) (adr ws w') r (next ws) 0 sz) as [[Hz ->]|[Hz ->]]; [done|done|lia|lia|lia|..]; rewrite Z.add_0_r in Hz.
  - change (0 <? 0) with false. change (nz 0) with false. cbv iota. exists 0, d, (pos (ws, k)), (adr ws w'). split; [done|]. split; [done|]. left.
    split; [done|]. split; [done|]. destruct Hcase as [(Hl&Hc&Hm)|[Hl _]].
    + exists ws, k, w', older. cbn [fs_flash]. split; [done|]. split; [done|]. split; [done|]. split; [lia|]. split; [|done].
      intros Ec Ek. specialize (Hc Ec Ek). subst k. cbn in He, Hw'. lia.
    + exfalso. destruct (exists_last (l := older)) as (o&kg&->); [intros ->; cbn in Hl; lia|]. rewrite length_app in Hl. cbn in Hl.
      pose proof (oldest_full _ _ _ part ws o kg ltac:(lia) _ _ _ L) as F. apply full_not_erased in F. apply F. eapply erased_sub; [exact Hz|lia|lia].
  - change (1 <? 0) with false. change (nz 1) with true. cbv iota. destruct Hcase as [(Hl&_)|[Hl Hm]].
    + exfalso. apply Hz. rewrite <- (sect_last off sz cnt geo). apply (rest_erased _ _ _ _ _ _ _ _ L); lia.
    + apply started_weaken. by apply (redo_ok d r ws k w' older k (adr ws w') m); [..|lia].
Qed.

(** Everything is erased: an empty storage. *)
Lemma empty_layout M ws : 0 <= ws < cnt -> (ws = 0 \/ cnt = 2) -> (forall s, 0 <= s < cnt -> erased M (base s) sz) -> layout M ws 0 0 [].
Proof.
  intros Hw Hc He. pose proof (geo_facts _ _ _ part) as (_&_&?&?). assert (spos 0 = sz - 16) as E0 by (unfold NvsLayout.spos; lia).
  split; try done; try lia.
  - eapply erased_sub; [apply (He ws Hw)|lia|lia].
  - eapply erased_sub; [apply (He ws Hw)|lia|lia].
  - intros j _ _. apply He. apply (sect_range off sz cnt geo).
  - cbn. lia.
  - cbn. lia.
Qed.

(** Two sectors, with nothing but data without an entry in the second: the first
    becomes the write sector. *)
Lemma swapped_ok clean d r dw a w m : powered d = true -> cnt = 2 -> layout (flash_mem d) 1 0 dw [] -> dw <= spos 0 ->
  (clean = true -> dw = 0) -> (forall id, m id = None) ->
  started clean (flash_mem d) m r (startup_resume (adr 0 (sz - 8)) (at_ d a w r)).
Proof.
  intros Hd Hc L Hs Hcl Hm. pose proof (geo_facts _ _ _ part) as (_&_&?&?). assert (spos 0 = sz - 16) as E0 by (unfold NvsLayout.spos; lia).
  assert (He : erased (flash_mem d) (base 0) sz).
  { pose proof (rest_erased _ _ _ _ _ _ _ _ L 1) as He. rewrite (sect_eq cnt) in He by lia. apply He; cbn; lia. }
  assert (Hg : erased (flash_mem d) (base 0 + 0) (spos 0 + 8 - 0)) by (eapply erased_sub; [exact He|lia|lia]).
  assert (R : forall M', (forall x, M' x = flash_mem d x) -> recoverable clean M' m).
  { intros M' HM. apply (recoverable_ext _ _ _ part _ (flash_mem d)); [done|]. exists 1, 0%nat, dw, []. do 2 (split; [done|]). left. split; [cbn; lia|].
    split; [intros Ec _; by apply Hcl|done]. }
  assert (Hall : forall d' k', (forall s, 0 <= s < cnt -> erased (flash_mem d') (base s) sz) -> k' = 0%nat -> holds clean (at_ d' (pos (0, k')) (adr 0 0) r) r m).
  { intros d' k' Ha ->. exists 0, 0%nat, 0, []. cbn [fs_flash]. split; [done|]. split; [apply empty_layout; [lia|by left|done]|]. split; [cbn; lia|]. split; [lia|].
    split; [done|]. intros id. by rewrite Hm. }
  unfold startup_resume. unfold set_wra at 1 2 3. cbn [fs_flash fs_offset sector_size sector_count fs_ready]. rewrite ate_size_8 at 1.
  rewrite adr_first, adr_sect by lia. change (adr 0 0) with (adr 0 (data_end d 0 0)).
  rewrite (ates_ok d r 0 0 0 Hd) by (lia || done). change (nz 0) with false. cbv iota. cbn [sector_size].
  change (data_end d 0 0) with 0. destruct (data_ok d r 0 0 0 Hd ltac:(lia) eq_refl Hg ltac:(lia) (S (Z.to_nat sz)) 0) as (w'&->&Hw'&_&_); [lia|done|lia|]. assert (w' = 0) as -> by lia.
  change (nz 0) with false. cbv iota. cbn [ate_wra sector_size]. rewrite pos_sect, (advance_ok _ _ _ part) by lia.
  assert (next 0 = 1) as Hn by (rewrite (next_eq cnt), (proj2 (Z.eqb_neq (0 + 1) cnt)) by lia; lia). rewrite Hn.
  destruct (cmp_erased _ _ _ part d (pos (0, 0%nat)) (adr 0 0) r 1 0 sz) as [[Hz ->]|[Hz ->]]; [done|lia|lia|lia|lia|..]; rewrite Z.add_0_r in Hz.
  { change (0 <? 0) with false. change (nz 0) with false. cbv iota. exists 0, d, (pos (0, 0%nat)), (adr 0 0). split; [done|]. split; [done|]. left.
    split; [done|]. split; [done|]. apply Hall; [|done]. intros s Hs'. destruct (decide (s = 0)) as [->|]; [done|]. by replace s with 1 by lia. }
  change (1 <? 0) with false. change (nz 1) with true. cbv iota.
  destruct (erase_sector_ok _ _ _ part d (pos (0, 0%nat)) (adr 0 0) r 0 (spos 0)) as (rc1&d1&E1&O1); [done|lia|lia|].
  change (pos (0, 0%nat)) with (adr 0 (spos 0)) at 1. rewrite E1.
  assert (M1 : forall x, flash_mem d1 x = flash_mem d x).
  { destruct O1 as [(_&_&E2&O2)|(_&_&?)]; [|done]. intros x. destruct (decide (base 0 <= x < base 0 + sz)); [|apply O2; lia].
    rewrite E2 by done. symmetry. by apply He. }
  destruct O1 as [(->&Hd1&_)|(Hrc&Hd1&_)].
  2:{ unfold nz. rewrite (proj2 (Z.eqb_neq rc1 0)) by lia. cbn [negb]. cbv iota. do 4 eexists. split; [done|]. split; [by apply (inside_ext _ _ _)|].
      right. split; [done|]. split; [done|]. by apply R. }
  change (nz 0) with false. cbv iota. cbn [ate_wra sector_size]. rewrite ate_size_8, pos_sect, (adr_add _ _ _ part) by lia. unfold set_wra.
  cbn [ate_wra data_wra fs_flash fs_offset sector_size sector_count fs_ready]. rewrite adr_sect by lia.
  replace (adr 0 (0 + (sz - 2 * 8))) with (pos (0, 0%nat)) by (unfold NvsOps.pos, NvsLayout.spos; cbn [fst snd]; f_equal; lia).
  rewrite (gc_first _ _ _ part d1 r 0 []) by (done || lia). cbv zeta. rewrite Hn. unfold close_slot.
  rewrite (erased_bytes (flash_mem d1)) by (eapply erased_ext; [exact M1|]; apply (open_close _ _ _ _ _ _ _ _ L)).
  change (nvs_ate_cmp_const _ 255 =? 0) with true. cbv iota.
  destruct (erase_sector_ok _ _ _ part d1 (pos (0, 0%nat)) (adr 0 0) r 1 0) as (rc2&d2&->&O2); [done|lia|lia|].
  do 4 eexists. split; [done|]. destruct O2 as [(->&Hd2&E2&O2)|(Hrc&Hd2&M2)].
  - split; [eapply only_trans; [by apply (inside_ext _ _ _)|]; eapply (inside_sector _ _ _ part) with (s := 1); [lia|exact O2|lia|lia]|].
    left. split; [done|]. split; [done|]. apply Hall; [|done]. intros s Hs'. destruct (decide (s = 0)) as [->|]; [|by replace s with 1 by lia].
    pose proof (base_apart off sz cnt geo 0 1 ltac:(lia)). intros x Hx. rewrite O2, M1 by lia. by apply He.
  - split; [eapply only_trans; [by apply (inside_ext _ _ _)|by apply (inside_ext _ _ _)]|]. right. split; [done|]. split; [done|]. apply R. intros x. by rewrite M2.
Qed.

Lemma startup_ok clean d r a w m : powered d = true -> recoverable clean (flash_mem d) m ->
  started clean (flash_mem d) m r (nvs_startup (at_ d a w r)).
Proof.
  intros Hd (ws&k&dw&older&L&Hs&Hcase). pose proof (geo_facts _ _ _ part) as (_&_&?&?). pose proof (ws_range _ _ _ _ _ _ _ _ L) as Hw.
  pose proof (before_range cnt ws Hw) as Hb. unfold nvs_startup. cbn [sector_count]. destruct (decide (older = [])) as [Ho|Ho].
  2:{ destruct (scan_closed d a w r ws k dw older Hd L (Z.to_nat cnt) 0 0 0) as (c&->&Hc); [done|lia|lia|lia|lia|].
      rewrite (proj2 (Z.eqb_neq c cnt)) by lia. cbv iota. rewrite (proj2 (Z.eqb_neq (before ws) cnt)) by lia. cbn [andb]. cbv iota.
      by eapply resume_ok. }
  rewrite (scan_open d a w r ws k dw older Hd L) by (done || lia). rewrite (proj2 (Z.eqb_neq 0 cnt)), Z.eqb_refl by lia. cbv iota. cbn [andb].
  rewrite ate_size_8, adr_first by lia. unfold sizeof_ate. assert (spos 0 = sz - 16) as E0 by (unfold NvsLayout.spos; lia).
  assert (Hc2 : ws = 0 \/ cnt = 2 /\ ws = 1) by (pose proof (wrapped _ _ _ _ _ _ _ _ L) as W; rewrite Ho in W; cbn in W; lia).
  destruct (cmp_erased _ _ _ part d a w r (cnt - 1) (spos 0) 8) as [[He E]|[He E]]; [done|lia|lia|lia|lia|..];
    change (adr (cnt - 1) (spos 0)) with (pos (cnt - 1, 0%nat)) in E; rewrite E.
  - change (0 =? 0) with true. cbv iota. rewrite (advance_ok _ _ _ part) by lia. rewrite (next_eq cnt), Z.sub_add, Z.eqb_refl by lia.
    destruct Hc2 as [->|[Hc ->]]; [by eapply resume_ok|]. subst older. destruct Hcase as [(_&Hcl&Hm)|[Hl _]]; [|cbn in Hl; lia].
    destruct k as [|k].
    + apply (swapped_ok clean d r dw); try done. { intros Ec. by apply Hcl. } intros id. by rewrite <- Hm.
    + exfalso. destruct (placed_slot _ _ _ _ _ _ 0 (open_placed _ _ _ _ _ _ _ _ L) ltac:(lia)) as (Hv&_). replace (cnt - 1) with 1 in He by lia.
      unfold valid, NvsLayout.slot in Hv. rewrite (erased_bytes _ _ _ He) in Hv. change (ate_of _) with erased_ate in Hv. rewrite erased_ate_invalid in Hv. done.
  - change (1 =? 0) with false. cbv iota. destruct Hc2 as [->|[Hc ->]]; [|replace (cnt - 1) with 1 by lia; by eapply resume_ok].
    exfalso. apply He. pose proof (rest_erased _ _ _ _ _ _ _ _ L 1) as Hr. subst older.
    assert (sect 0 1 = cnt - 1) as Es by (rewrite (sect_eq cnt) by lia; change (Z.of_nat 1 <=? 0) with false; cbv iota; lia). rewrite Es in Hr. eapply erased_sub; [apply Hr; cbn; lia|lia|lia].
Qed.
End starting.
