(* ===== verification/NvsSafety.v ===== *)
(** What the non-volatile storage promises: the values last written are read, whatever
    is collected in between; they are there after a restart, also after one in the
    middle of a write; and nothing outside of its partition is touched. *)
From Stdlib Require Import ZArith Lia Bool.
From stdpp Require Import base numbers list.
From S2P Require Import Prelude ByteOrder Crc NvsFs NvsLayout NvsOps NvsRead NvsWrite NvsGc NvsStorage NvsStart.
Open Scope Z_scope.

(** The answer of [nvs_read] for a value, or none, and a buffer of size [len]. *)
Definition answer (v : option (list Z)) (len : Z) : Z * list Z :=
  match v with
  | Some data => (Z.of_nat (length data), take (Z.to_nat len) data)
  | None => (- ENOENT, [])
  end.

Section promises.
Context {D : Type} `{!Flash D, !FlashOk D}.
Context (off sz cnt : Z).
Hypothesis part : partition off sz cnt.
Implicit Types (d : D) (fs : nvs_fs D) (id len : Z) (data : list Z) (m : Z -> option (list Z)).

(** A storage that is started and its contents. *)
Definition ready (clean : bool) fs m : Prop := powered (fs_flash fs) = true /\ holds off sz cnt clean fs true m.

(** Before it is started only the partition is known. *)
Definition configured fs : Prop := fs_offset fs = off /\ sector_size fs = sz /\ sector_count fs = cnt.

(** The largest identifier can be read when there is any entry. *)
Lemma ready_read clean fs m id len : ready clean fs m -> (id = 0xFFFF -> exists id', m id' <> None) -> 0 <= len <= sz - 16 ->
  nvs_read fs id len = answer (m id) len.
Proof.
  intros [Hd (ws&k&dw&older&E&L&_&Hs&_&Hm)] Hid Hlen. rewrite E.
  rewrite (read_layout _ _ _ part (fs_flash fs) (adr ws dw) ws k dw older); try done; [by rewrite Hm|by eapply clear_room|].
  intros [id' Hid']%Hid El. rewrite <- Hm, El in Hid'. by destruct Hid'.
Qed.

(** What is stored under an identifier, as it is read. *)
Definition stored fs id : option (list Z) :=
  let '(rc, data) := nvs_read fs id (sz - 16) in
  if (rc =? Z.of_nat (length data)) && (rc <=? sz - 16) then Some data else None.

Lemma stored_answer fs id v : nvs_read fs id (sz - 16) = answer v (sz - 16) -> (forall data, v = Some data -> Z.of_nat (length data) <= sz - 16) -> stored fs id = v.
Proof.
  intros E Hv. unfold stored. rewrite E. destruct v as [data|]; cbn [answer]; [|done]. specialize (Hv data eq_refl).
  by rewrite take_ge, Z.eqb_refl, (proj2 (Z.leb_le _ _) Hv) by lia.
Qed.

Lemma stored_size M ws k dw older id data : layout off sz cnt M ws k dw older -> lookup off sz M (log cnt ws k older) id = Some data -> 0 < Z.of_nat (length data) <= sz - 24.
Proof.
  intros L E. pose proof (log_ok _ _ _ (part_geo _ _ _ part) _ _ _ _ _ L) as Hok. rewrite Forall_forall in Hok. unfold lookup in E.
  destruct (newest off sz M id (log cnt ws k older)) as [q|] eqn:En; [|done]. apply newest_elem in En as [Hq _]. specialize (Hok q Hq).
  destruct Hok as (_&_&_&Hl&_&_&?). cbn [mbind option_bind] in E. unfold content in E. destruct (Z.eqb_spec (ate_len (slot_of off sz M q)) 0); [done|].
  injection E as <-. unfold value. rewrite length_mem_bytes. lia.
Qed.

Lemma ready_stored clean fs m id : ready clean fs m -> stored fs id = m id.
Proof.
  intros R. pose proof R as [Hd (ws&k&dw&older&E&L&_&Hs&_&Hm)]. pose proof (geo_facts _ _ _ part) as (_&_&?&_).
  pose proof (clear_room _ _ _ _ _ _ _ _ L Hs) as Hc.
  destruct (decide (id = 0xFFFF /\ log cnt ws k older = [])) as [[-> El]|Hne].
  - rewrite <- Hm, El. unfold stored. rewrite E. pose proof (read_empty _ _ _ part (fs_flash fs) (adr ws dw) ws k dw older (sz - 16) Hd L Hc El ltac:(lia) Hs) as W.
    destruct (nvs_read _ _ _) as [rc data]. destruct W as [->|[Hrc ->]].
    + by rewrite (proj2 (Z.leb_gt 0xFFFF (sz - 16))), andb_false_r by lia.
    + by rewrite (proj2 (Z.eqb_neq rc _)).
  - apply stored_answer.
    + rewrite <- Hm, E. cbn [fs_flash]. rewrite (read_layout _ _ _ part (fs_flash fs) (adr ws dw) ws k dw older); try done; [|lia]. intros ->. naive_solver.
    + intros data Hv. rewrite <- Hm in Hv. pose proof (stored_size _ _ _ _ _ _ _ L Hv). lia.
Qed.

Lemma init_ok clean fs d m : configured fs -> powered d = true -> recoverable off sz cnt clean (flash_mem d) m ->
  let '(rc, fs') := nvs_init (Some d) fs in
  inside off sz cnt (flash_mem d) (flash_mem (fs_flash fs')) /\
  if powered (fs_flash fs') then rc = 0 /\ ready clean fs' m else rc < 0 /\ recoverable off sz cnt clean (flash_mem (fs_flash fs')) m.
Proof.
  intros (Eo&Es&Ec) Hd R. pose proof (geo_facts _ _ _ part) as (?&_&?&?). pose proof (part_page _ _ _ part). pose proof (part_fits _ _ _ part).
  unfold nvs_init, set_flash. cbn [fs_offset sector_size sector_count]. rewrite flash_block. change ((NVS_BLOCK_SIZE <? 4) || (4 =? 0)) with false. cbv iota.
  rewrite Eo, Es, Ec, flash_pages by nia. change (nz 0) with false. cbv iota. rewrite (proj2 (Z.eqb_neq sz 0)), (part_sz _ _ _ part) by lia. cbn [orb nz negb Z.eqb]. cbv iota.
  rewrite (proj2 (Z.ltb_ge cnt 2)) by lia.
  destruct (startup_ok _ _ _ part clean d (fs_ready fs) (ate_wra fs) (data_wra fs) m Hd R) as (rc&d'&a'&w'&->&I&O).
  destruct O as [(->&Hd'&Ho)|(Hrc&Hd'&R')].
  - change (nz 0) with false. cbv iota. cbn [set_ready fs_flash]. rewrite Hd'. split; [done|]. split; [done|]. split; [done|].
    destruct Ho as (ws&k&dw&older&E&?&?&?&?&?). exists ws, k, dw, older. cbn [set_ready fs_flash] in *. injection E as -> ->.
    do 5 (split; [done|]). done.
  - unfold nz. rewrite (proj2 (Z.eqb_neq rc 0)) by lia. cbn [negb]. cbv iota. cbn [fs_flash]. rewrite Hd'. split; [done|]. by split.
Qed.

Lemma ready_write clean parts fs id data m : (forall n, 0 <= parts n < 256) -> ready clean fs m -> may_write sz fs id data ->
  let '(rc, fs') := nvs_write parts id (Some data) (Z.of_nat (length data)) fs in
  inside off sz cnt (flash_mem (fs_flash fs)) (flash_mem (fs_flash fs')) /\
  if powered (fs_flash fs')
  then 0 <= rc /\ ready clean fs' (store m id data) \/ ate_wra fs < data_wra fs + required data /\ rc = - ENOSPC /\ ready clean fs' m
  else recoverable off sz cnt false (flash_mem (fs_flash fs')) m.
Proof.
  intros Hparts [Hd R] Hw. pose proof (write_ok off sz cnt part clean parts id data fs m Hparts Hw Hd R) as W.
  destruct (nvs_write _ _ _ _ fs) as [rc fs']. destruct W as [I W]. split; [done|]. destruct (powered (fs_flash fs')) eqn:Hd'; [|done].
  destruct W as [[? ?]|(?&?&?)]; [left|right; split; [done|]]; (split; [done|]); by split.
Qed.

Lemma ready_recoverable clean fs m : ready clean fs m -> recoverable off sz cnt clean (flash_mem (fs_flash fs)) m.
Proof. intros [_ (ws&k&dw&older&_&L&Hl&Hs&Hk&Hm)]. exists ws, k, dw, older. do 2 (split; [done|]). left. by split. Qed.

Lemma recoverable_any clean M m : recoverable off sz cnt clean M m -> recoverable off sz cnt false M m.
Proof.
  intros (ws&k&dw&older&L&Hs&H). exists ws, k, dw, older. do 2 (split; [done|]). destruct H as [(?&_&?)|?]; [left|by right]. by split.
Qed.

Lemma ready_any clean fs m : ready clean fs m -> ready false fs m.
Proof. intros [Hd (ws&k&dw&older&?&?&?&?&_&?)]. split; [done|]. exists ws, k, dw, older. cbv zeta. do 4 (split; [done|]). by split. Qed.

(** An erased partition is an empty storage. *)
Lemma erased_recoverable M : erased M off (cnt * sz) -> recoverable off sz cnt true M (fun _ => None).
Proof.
  intros He. pose proof (geo_facts _ _ _ part) as (_&_&?&?). exists 0, 0%nat, 0, []. split.
  - apply (empty_layout _ _ _ part); [lia|by left|]. intros s Hs. eapply erased_sub; [exact He|unfold base; nia|unfold base; nia].
  - split; [unfold spos; lia|]. left. split; [cbn; lia|]. done.
Qed.

(** ** A life of the storage *)

(** Running, or with the power off and only the flash left. *)
Inductive node := running (fs : nvs_fs D) | down (M : mem).

Inductive event := wrote (id : Z) (data : list Z) (rc : Z) | began (rc : Z) | lost_power.

(** Entries are written; the power fails, between operations or in one; and the storage
    is started again on what is in flash. *)
Inductive life_step : node -> event -> node -> Prop :=
| life_write fs parts id data rc fs' :
    (forall n, 0 <= parts n < 256) -> may_write sz fs id data ->
    nvs_write parts id (Some data) (Z.of_nat (length data)) fs = (rc, fs') -> powered (fs_flash fs') = true ->
    life_step (running fs) (wrote id data rc) (running fs')
| life_write_lost fs parts id data rc fs' :
    (forall n, 0 <= parts n < 256) -> may_write sz fs id data ->
    nvs_write parts id (Some data) (Z.of_nat (length data)) fs = (rc, fs') -> powered (fs_flash fs') = false ->
    life_step (running fs) lost_power (down (flash_mem (fs_flash fs')))
| life_off fs : life_step (running fs) lost_power (down (flash_mem (fs_flash fs)))
| life_start M d fs rc fs' :
    configured fs -> powered d = true -> (forall x, flash_mem d x = M x) ->
    nvs_init (Some d) fs = (rc, fs') -> powered (fs_flash fs') = true -> life_step (down M) (began rc) (running fs')
| life_start_lost M d fs rc fs' :
    configured fs -> powered d = true -> (forall x, flash_mem d x = M x) ->
    nvs_init (Some d) fs = (rc, fs') -> powered (fs_flash fs') = false -> life_step (down M) lost_power (down (flash_mem (fs_flash fs'))).

Inductive life : node -> list event -> node -> Prop :=
| life_none s : life s [] s
| life_more s1 ev s2 evs s3 : life s1 evs s2 -> life_step s2 ev s3 -> life s1 (evs ++ [ev]) s3.

(** What should be stored after some events: what was written with success. *)
Definition after_event m (ev : event) : Z -> option (list Z) :=
  match ev with wrote id data rc => if 0 <=? rc then store m id data else m | _ => m end.
Definition history (evs : list event) : Z -> option (list Z) := foldl after_event (fun _ => None) evs.

Definition node_mem (s : node) : mem := match s with running fs => flash_mem (fs_flash fs) | down M => M end.

(** Starting succeeds, and a write does or finds no room. *)
Definition went_well (ev : event) : Prop :=
  match ev with wrote _ _ rc => 0 <= rc \/ rc = - ENOSPC | began rc => rc = 0 | lost_power => True end.

(** The storage has these contents. *)
Definition stores (s : node) m : Prop :=
  match s with running fs => ready false fs m | down M => recoverable off sz cnt false M m end.

Lemma life_step_stores s ev s' m : life_step s ev s' -> stores s m ->
  stores s' (after_event m ev) /\ inside off sz cnt (node_mem s) (node_mem s') /\
  went_well ev.
Proof.
  intros St R. destruct St as [fs parts id data rc fs' Hp Hw E Hd|fs parts id data rc fs' Hp Hw E Hd|fs|M d fs rc fs' Hc Hd HM E Hd'|M d fs rc fs' Hc Hd HM E Hd'].
  - pose proof (ready_write false parts fs id data m Hp R Hw) as W. rewrite E, Hd in W. destruct W as [I W]. cbn [after_event node_mem stores].
    destruct W as [[Hrc W]|(_&->&W)]; [rewrite (proj2 (Z.leb_le 0 rc) Hrc)|change (0 <=? - ENOSPC) with false; cbv iota]; (split; [done|]); (split; [done|]); [by left|by right].
  - pose proof (ready_write false parts fs id data m Hp R Hw) as W. rewrite E, Hd in W. destruct W as [I W]. done.
  - split; [|done]. by apply ready_recoverable.
  - cbn [stores] in R. apply (recoverable_ext _ _ _ part _ _ (flash_mem d)) in R; [|done].
    pose proof (init_ok false fs d m Hc Hd R) as W. rewrite E, Hd' in W. destruct W as (I&->&W). split; [done|]. split; [|done].
    intros x Hx. cbn [node_mem]. rewrite (I x Hx). apply HM.
  - cbn [stores] in R. apply (recoverable_ext _ _ _ part _ _ (flash_mem d)) in R; [|done].
    pose proof (init_ok false fs d m Hc Hd R) as W. rewrite E, Hd' in W. destruct W as (I&_&W). split; [done|]. split; [|done].
    intros x Hx. cbn [node_mem]. rewrite (I x Hx). apply HM.
Qed.

Lemma life_stores M evs s : erased M off (cnt * sz) -> life (down M) evs s ->
  stores s (history evs) /\ inside off sz cnt M (node_mem s) /\ Forall went_well evs.
Proof.
  intros He. remember (down M) as s0 eqn:E0. induction 1 as [|s1 ev s2 evs s3 _ IH St]; subst.
  - split; [|done]. eapply recoverable_any. by apply erased_recoverable.
  - destruct (IH eq_refl) as (R&I&W). destruct (life_step_stores _ _ _ _ St R) as (R'&I'&W'). unfold history. rewrite foldl_snoc. split; [done|].
    split; [by eapply only_trans|]. apply Forall_app. by split; [|apply Forall_singleton].
Qed.

(** C7. The storage keeps what it is given, also when the power fails: start with an
    erased partition, and write and delete entries, with the power failing any number of
    times, between operations, in the middle of a write, of the collection of a sector or
    of a start, and the storage being started again; then what is read under an
    identifier is what was last written under it with success, nothing if it was never
    written or deleted since.

    Two conditions are part of [life].  Calls are limited by [may_write]: the size is one
    the storage accepts; an entry is deleted only while the write sector has room for the
    deletion and one more (the code does not check that, see
    [deletions_break_storage]); and what is written after a failure that left
    data without an entry at the start of a sector fits behind them.  And the flash is
    [FlashOk]: a write of at most two words, or an erasure, that the power interrupts has
    no effect, while a longer write may leave anything in its place.  An entry of eight
    bytes of which only the first word is there is told from a whole one by a CRC of eight
    bits alone, so that something of the kind has to be assumed. *)
Theorem nvs_power_safe M evs fs id len :
  erased M off (cnt * sz) -> life (down M) evs (running fs) -> 0 <= id < 0xFFFF -> 0 <= len <= sz - 16 ->
  nvs_read fs id len = answer (history evs id) len.
Proof. intros He Hl Hid Hlen. destruct (life_stores _ _ _ He Hl) as [R _]. eapply ready_read; [exact R|lia|done]. Qed.

(** C17. The storage always starts again: whatever entries were written and wherever the
    power failed, [nvs_init] returns 0 unless the power fails in it, and then the next
    start is as good; and a write succeeds or says that there is no room.  The calls keep
    to [may_write], above all a deletion has room in the write sector, and the flash to
    [FlashOk]. *)
Theorem nvs_always_starts M evs s :
  erased M off (cnt * sz) -> life (down M) evs s ->
  Forall went_well evs /\
  match s with
  | running _ => True
  | down M' =>
      forall d fs, configured fs -> powered d = true -> (forall x, flash_mem d x = M' x) ->
      let '(rc, fs') := nvs_init (Some d) fs in
      if powered (fs_flash fs') then rc = 0 /\ life (down M) (evs ++ [began 0]) (running fs')
      else rc < 0 /\ life (down M) (evs ++ [lost_power]) (down (flash_mem (fs_flash fs')))
  end.
Proof.
  intros He Hl. destruct (life_stores _ _ _ He Hl) as (R&_&W). split; [done|]. destruct s as [fs|M']; [done|].
  intros d fs Hc Hd HM. cbn [stores] in R. apply (recoverable_ext _ _ _ part _ _ (flash_mem d)) in R; [|done].
  pose proof (init_ok false fs d _ Hc Hd R) as I. destruct (nvs_init (Some d) fs) as [rc fs'] eqn:E. destruct I as [_ I].
  destruct (powered (fs_flash fs')) eqn:Hd'; destruct I as [I _]; (split; [done|]).
  - subst rc. eapply life_more; [done|]. apply (life_start M' d fs); done.
  - eapply life_more; [done|]. apply (life_start_lost M' d fs rc); done.
Qed.

(** C18. The storage stays inside its partition: no byte of the flash outside of the
    sectors it was given changes, whatever is written and wherever the power fails, as
    long as the calls keep to [may_write], above all a deletion has room in the write
    sector, and the flash to [FlashOk]. *)
Theorem nvs_stays_inside M evs s x :
  erased M off (cnt * sz) -> life (down M) evs s -> x < off \/ off + cnt * sz <= x -> node_mem s x = M x.
Proof. intros He Hl Hx. destruct (life_stores _ _ _ He Hl) as (_&I&_). by apply I. Qed.
End promises.
