(* ===== verification/NvsInst.v ===== *)
(** The non-volatile storage keeps what the settings expect of it: the class [NvsOk] of
    [Settings] for the storage of [NvsFs], on a flash that does not lose power, and what
    this means for the settings across a restart of the device. *)
From Stdlib Require Import ZArith Lia Bool.
From stdpp Require Import base numbers list gmap.
From S2P Require Import Prelude ByteOrder Uuid Gatt SettingsKeys Settings Crc NvsFs NvsLayout NvsOps NvsRead NvsWrite NvsGc NvsStorage NvsStart NvsSafety.
Open Scope Z_scope.

(** ** A function on identifiers as a map *)

Fixpoint map_upto {A} (f : Z -> option A) (n : nat) : gmap Z A :=
  match n with
  | O => ∅
  | S n => match f (Z.of_nat n) with Some x => <[Z.of_nat n := x]> (map_upto f n) | None => map_upto f n end
  end.

Lemma map_upto_lookup {A} (f : Z -> option A) n i :
  map_upto f n !! i = if (0 <=? i) && (i <? Z.of_nat n) then f i else None.
Proof.
  induction n as [|n IH]; cbn [map_upto].
  - rewrite lookup_empty. destruct (Z.leb_spec 0 i), (Z.ltb_spec i (Z.of_nat 0)); done || lia.
  - destruct (decide (i = Z.of_nat n)) as [->|Hne].
    + rewrite (proj2 (Z.leb_le 0 _)), (proj2 (Z.ltb_lt (Z.of_nat n) _)) by lia. cbn [andb]. destruct (f (Z.of_nat n)); [by rewrite lookup_insert, decide_True|].
      rewrite IH, (proj2 (Z.ltb_ge _ _)) by lia. by rewrite andb_false_r.
    + assert (E : (i <? Z.of_nat (S n)) = (i <? Z.of_nat n)) by (destruct (Z.ltb_spec i (Z.of_nat n)), (Z.ltb_spec i (Z.of_nat (S n))); done || lia).
      rewrite E, <- IH. destruct (f (Z.of_nat n)); [by rewrite lookup_insert_ne|done].
Qed.

Lemma map_upto_ext {A} (f g : Z -> option A) n : (forall i, f i = g i) -> map_upto f n = map_upto g n.
Proof. intros H. apply map_eq. intros i. by rewrite !map_upto_lookup, H. Qed.

(** ** The storage of the settings *)

(** The storage and the number of writes; the bytes that a sector is closed with in
    write [n] are [parts n]. *)
Record mount (D : Type) (parts : nat -> nat -> Z) := mk_mount { mnt_fs : nvs_fs D; mnt_writes : nat }.
Arguments mk_mount {D parts}.
Arguments mnt_fs {D parts}.
Arguments mnt_writes {D parts}.

#[export] Instance mount_Nvs D parts `{!Flash D} : Nvs (mount D parts) := {
  nvs_read st := NvsFs.nvs_read (mnt_fs st);
  nvs_write id data st :=
    let '(rc, fs) := NvsFs.nvs_write (parts (mnt_writes st)) id (Some data) (Z.of_nat (length data)) (mnt_fs st) in
    (rc, mk_mount fs (S (mnt_writes st))) }.

(** Deleting is writing nothing. *)
Lemma mount_delete D parts `{!Flash D} id (st : mount D parts) :
  Settings.nvs_delete id st = let '(rc, fs) := NvsFs.nvs_delete (parts (mnt_writes st)) id (mnt_fs st) in (rc, mk_mount fs (S (mnt_writes st))).
Proof. done. Qed.

Section instance.
Context {D : Type} `{!Flash D, !FlashOk D} (parts : nat -> nat -> Z) (off sz cnt : Z).
Hypothesis part : partition off sz cnt.
Hypothesis Hsz : 280 <= sz.
Hypothesis Hparts : forall i n, 0 <= parts i n < 256.
Hypothesis Hpower : forall d : D, powered d = true.
Implicit Types (st : mount D parts) (fs : nvs_fs D).

Definition mnt_entries st : gmap Z (list Z) := map_upto (stored sz (mnt_fs st)) (Z.to_nat 0x10000).
Definition mnt_valid st : Prop := exists m, ready off sz cnt true (mnt_fs st) m.
Definition mnt_room (n : nat) st : Prop := data_wra (mnt_fs st) + 8 * Z.of_nat n <= ate_wra (mnt_fs st).

Lemma mnt_entries_of st m : ready off sz cnt true (mnt_fs st) m -> mnt_entries st = map_upto m (Z.to_nat 0x10000).
Proof. intros R. apply map_upto_ext. intros i. by eapply ready_stored. Qed.

Lemma entries_lookup m i : 0 <= i < 2 ^ 16 -> map_upto (A := list Z) m (Z.to_nat 0x10000) !! i = m i.
Proof.
  intros Hi. rewrite map_upto_lookup, Z2Nat.id by lia. by rewrite (proj2 (Z.leb_le _ _)), (proj2 (Z.ltb_lt _ _)) by lia.
Qed.

Lemma entries_store m id data : 0 <= id < 2 ^ 16 ->
  map_upto (store m id data) (Z.to_nat 0x10000) =
  if decide (data = []) then delete id (map_upto m (Z.to_nat 0x10000)) else <[id := data]> (map_upto m (Z.to_nat 0x10000)).
Proof.
  intros Hid. apply map_eq. intros i. destruct (decide (i = id)) as [->|Hne].
  - rewrite entries_lookup by done. unfold store. rewrite Z.eqb_refl. destruct (decide (data = [])) as [->|Hd].
    + by rewrite lookup_delete, decide_True.
    + rewrite lookup_insert, decide_True by done. destruct data; [done|]. cbn [length]. by rewrite (proj2 (Z.eqb_neq _ _)) by lia.
  - rewrite !map_upto_lookup. unfold store at 1. rewrite (proj2 (Z.eqb_neq _ _) Hne).
    destruct (decide (data = [])); [rewrite lookup_delete_ne by done|rewrite lookup_insert_ne by done]; by rewrite map_upto_lookup.
Qed.

(** A storage at rest may be written to, if there is room for an entry that deletes. *)
Lemma rest_may_write fs m id data : ready off sz cnt true fs m -> 0 <= id < 2 ^ 16 -> bytes_ok data -> Z.of_nat (length data) <= sz - 24 ->
  (data = [] -> data_wra fs + 8 <= ate_wra fs) -> may_write sz fs id data.
Proof.
  intros [_ (ws&k&dw&older&E&L&_&Hs&Hk&_)] Hid Hb Hl Hroom. do 4 (split; [done|]). intros Ha. left.
  pose proof (geo_facts _ _ _ part) as (_&_&?&?). pose proof (ws_range _ _ _ _ _ _ _ _ L). pose proof (k_le _ _ _ _ _ _ _ _ L).
  pose proof (placed_nonneg _ _ _ _ _ _ (open_placed _ _ _ _ _ _ _ _ L)). pose proof (spos_lt sz k). unfold pos in E.
  rewrite E in Ha |- *. cbn [ate_wra data_wra fst snd] in *. rewrite adr_offs in * by lia. apply Hk; [done|]. unfold spos in Ha. lia.
Qed.

Lemma write_too_long parts' fs m id data : ready off sz cnt true fs m -> sz - 24 < Z.of_nat (length data) ->
  NvsFs.nvs_write parts' id (Some data) (Z.of_nat (length data)) fs = (- EINVAL, fs).
Proof.
  intros [_ (ws&k&dw&older&E&_)] Hl. pose proof (geo_facts _ _ _ part) as (_&_&?&_). unfold NvsFs.nvs_write.
  rewrite E. cbn [fs_ready negb sector_size]. cbv iota. rewrite ate_size_8, u32_small, (proj2 (Z.ltb_lt (sz - 3 * 8) _)) by lia. done.
Qed.

Lemma mnt_write_law st id data rc st' : mnt_valid st -> 0 <= id < 2 ^ 16 -> bytes_ok data -> (data = [] -> mnt_room 1 st) ->
  Settings.nvs_write id data st = (rc, st') -> 0 <= rc ->
  mnt_valid st' /\ mnt_entries st' = if decide (data = []) then delete id (mnt_entries st) else <[id := data]> (mnt_entries st).
Proof.
  intros [m R] Hid Hb Hroom E Hrc. cbn [Settings.nvs_write mount_Nvs] in E. destruct (decide (sz - 24 < Z.of_nat (length data))) as [Hl|Hl].
  { erewrite write_too_long in E by done. injection E as <- <-. done. }
  pose proof (ready_write _ _ _ part true (parts (mnt_writes st)) (mnt_fs st) id data m (Hparts _) R
    (rest_may_write _ _ _ _ R Hid Hb ltac:(lia) (fun Hd => Hroom Hd))) as W.
  destruct (NvsFs.nvs_write _ _ _ _ (mnt_fs st)) as [rc' fs']. injection E as -> <-. destruct W as [_ W]. rewrite Hpower in W.
  destruct W as [[_ R']|(_&->&_)]; [|done]. split; [by exists (store m id data)|].
  rewrite (mnt_entries_of _ _ R), <- entries_store by done. by apply mnt_entries_of.
Qed.

Lemma mnt_read_law st id len : mnt_valid st -> 0 <= id < 2 ^ 16 -> (id = 0xFFFF -> mnt_entries st <> ∅) -> 0 <= len <= sz - 16 ->
  Settings.nvs_read st id len =
  match mnt_entries st !! id with
  | Some data => (Z.of_nat (length data), take (Z.to_nat len) data)
  | None => (- ENOENT, [])
  end.
Proof.
  intros [m R] Hid Hne Hlen. rewrite (mnt_entries_of _ _ R) in *. rewrite entries_lookup by done.
  apply (ready_read _ _ _ part true _ m); [done| |done]. intros E. specialize (Hne E). apply map_choose in Hne as (i&x&Hi).
  exists i. rewrite map_upto_lookup in Hi. destruct (_ && _); [|done]. by rewrite Hi.
Qed.

Lemma mnt_nonempty st id data : mnt_valid st -> mnt_entries st !! id = Some data -> data <> [].
Proof.
  intros [m R] E. rewrite (mnt_entries_of _ _ R), map_upto_lookup in E. destruct (_ && _); [|done].
  destruct R as [_ (ws&k&dw&older&_&L&_&_&_&Hm)]. rewrite <- Hm in E. pose proof (stored_size _ _ _ part _ _ _ _ _ _ _ L E) as Hn. intros ->. cbn in Hn. lia.
Qed.

Lemma al_wrt_wra addr bs fs : let fs' := (nvs_flash_al_wrt addr bs fs).2 in data_wra fs' = data_wra fs /\ ate_wra fs' = ate_wra fs.
Proof.
  unfold nvs_flash_al_wrt. destruct bs; [done|]. destruct (flash_write_protection_set _ _) as [rc d]. destruct (nz rc); [done|].
  destruct (if 0 <? _ then _ else _) as [rc1 d1]. destruct (if nz rc1 then _ else _) as [rc2 d2]. by destruct (flash_write_protection_set _ _).
Qed.

Lemma wrt_delete_wra id fs : 0 <= data_wra fs < 2 ^ 32 -> 8 <= ate_wra fs < 2 ^ 32 ->
  let fs' := (nvs_flash_wrt_entry id [] fs).2 in data_wra fs' = data_wra fs /\ ate_wra fs' = ate_wra fs - 8.
Proof.
  intros Hd Ha. unfold nvs_flash_wrt_entry. set (e := nvs_ate_crc8_update _). clearbody e. unfold nvs_flash_data_wrt. cbn [nvs_flash_al_wrt].
  change (nz 0) with false. cbv iota. unfold nvs_flash_ate_wrt. set (fs1 := set_wra _ _ fs). pose proof (al_wrt_wra (ate_wra fs1) (ate_bytes e) fs1) as W.
  destruct (nvs_flash_al_wrt _ _ fs1) as [rc fs2]. cbn [fst snd] in *. destruct W as [E1 E2]. cbn [set_wra data_wra ate_wra]. rewrite E1, E2.
  subst fs1. cbn [set_wra data_wra ate_wra]. rewrite ate_size_8. change (Z.of_nat (length [])) with 0. rewrite al_size, al_0, Z.add_0_r, !u32_small by lia. done.
Qed.

(** Deleting takes the room of one entry. *)
Lemma delete_wra parts' fs m id : ready off sz cnt true fs m -> data_wra fs + 8 <= ate_wra fs ->
  let fs' := (NvsFs.nvs_write parts' id (Some []) 0 fs).2 in
  data_wra fs' = data_wra fs /\ ate_wra fs - 8 <= ate_wra fs'.
Proof.
  intros [_ (ws&k&dw&older&E&L&_&Hs&_&_)] Hroom. pose proof (geo_facts _ _ _ part) as (_&_&?&?).
  pose proof (ws_range _ _ _ _ _ _ _ _ L). pose proof (k_le _ _ _ _ _ _ _ _ L). pose proof (placed_nonneg _ _ _ _ _ _ (open_placed _ _ _ _ _ _ _ _ L)).
  pose proof (spos_lt sz k). assert (Hr : 0 <= data_wra fs < 2 ^ 32 /\ 0 <= ate_wra fs < 2 ^ 32 /\ sector_count fs = cnt).
  { rewrite E. unfold pos. cbn [data_wra ate_wra fst snd sector_count]. split; [apply adr_range; lia|]. split; [apply adr_range; lia|done]. }
  destruct Hr as (?&?&Ec). cbv zeta. unfold NvsFs.nvs_write. destruct (negb _); [cbn [snd]; lia|]. destruct (_ || _); [cbn [snd]; lia|].
  destruct (walk _ _ _ _) as [[[[rc ?] found] ?] e]. destruct (nz rc); [cbn [snd]; lia|]. change (Z.to_nat 0) with 0%nat. cbn [take]. rewrite al_size by lia. change (nz (al 0)) with false. cbv iota.
  destruct found; [|cbn [Z.eqb snd]; lia]. cbn [Z.eqb]. destruct (ate_len e =? 0); [cbn [snd]; lia|].
  rewrite Ec. destruct (Z.to_nat cnt) as [|n] eqn:En; [lia|]. cbn [write_loop]. rewrite Z.add_0_r, (u32_small (data_wra fs)), (proj2 (Z.leb_le _ _)) by lia.
  pose proof (wrt_delete_wra id fs ltac:(lia) ltac:(lia)) as W. change (take 0 (default [] (Some []))) with (@nil Z).
  destruct (nvs_flash_wrt_entry id [] fs) as [rc' fs']. cbn [snd] in W. destruct (nz rc'); cbn [snd]; lia.
Qed.

Lemma mnt_room_law st id rc st' n : mnt_valid st -> mnt_room (S n) st -> Settings.nvs_write id [] st = (rc, st') -> mnt_room n st'.
Proof.
  intros [m R] Hroom E. cbn [Settings.nvs_write mount_Nvs] in E. unfold mnt_room in *.
  pose proof (delete_wra (parts (mnt_writes st)) (mnt_fs st) m id R ltac:(lia)) as W. change (Z.of_nat (length [])) with 0 in E. cbv zeta in W.
  destruct (NvsFs.nvs_write _ _ _ _ (mnt_fs st)) as [rc' fs']. injection E as <- <-. cbn [snd mnt_fs] in *. lia.
Qed.

#[export] Instance mount_NvsOk : NvsOk (mount D parts).
Proof using part Hsz Hparts Hpower.
  refine {| nvs_valid := mnt_valid; nvs_entries := mnt_entries; nvs_room := mnt_room; nvs_max := sz - 16 |}.
  - lia.
  - apply mnt_nonempty.
  - apply mnt_read_law.
  - apply mnt_write_law.
  - unfold mnt_room. lia.
  - intros st id rc st' n Hv _. by apply mnt_room_law.
Defined.

(** A write that fits in the write sector succeeds. *)
Lemma mnt_takes value st : mnt_valid st -> bytes_ok value -> value <> [] -> Z.of_nat (length value) <= sz - 24 ->
  data_wra (mnt_fs st) + required value <= ate_wra (mnt_fs st) -> takes value st.
Proof.
  intros [m R] Hb Hne Hl Hfit id Hid. cbn [Settings.nvs_write mount_Nvs].
  pose proof (ready_write _ _ _ part true (parts (mnt_writes st)) (mnt_fs st) id value m (Hparts _) R (rest_may_write _ _ _ _ R Hid Hb Hl ltac:(done))) as W.
  destruct (NvsFs.nvs_write _ _ _ _ (mnt_fs st)) as [rc fs']. destruct W as [_ W]. rewrite Hpower in W. cbn [fst]. destruct W as [[? _]|[? _]]; lia.
Qed.

(** Starting again on what is in flash gives the same entries. *)
Lemma mount_again st fs d : mnt_valid st -> configured off sz cnt fs -> (forall x, flash_mem d x = flash_mem (fs_flash (mnt_fs st)) x) ->
  exists fs', nvs_init (Some d) fs = (0, fs') /\ mnt_valid (mk_mount fs' 0) /\ mnt_entries (mk_mount fs' 0) = mnt_entries st.
Proof.
  intros [m R] Hc HM. pose proof (ready_recoverable _ _ _ _ _ _ R) as Rec. apply (recoverable_ext _ _ _ part _ _ (flash_mem d)) in Rec; [|done].
  pose proof (init_ok _ _ _ part true fs d m Hc (Hpower d) Rec) as W. destruct (nvs_init (Some d) fs) as [rc fs']. destruct W as [_ W]. rewrite Hpower in W.
  destruct W as [-> R']. exists fs'. split; [done|]. split; [by exists m|]. by rewrite (mnt_entries_of _ _ R), (mnt_entries_of (mk_mount fs' 0) m R').
Qed.

(** An erased flash is a storage without entries. *)
Lemma mount_erased fs d : configured off sz cnt fs -> erased (flash_mem d) off (cnt * sz) ->
  exists fs', nvs_init (Some d) fs = (0, fs') /\ mnt_valid (mk_mount fs' 0) /\ mnt_entries (mk_mount fs' 0) = ∅.
Proof.
  intros Hc He. pose proof (init_ok _ _ _ part true fs d _ Hc (Hpower d) (erased_recoverable _ _ _ part _ He)) as W.
  destruct (nvs_init (Some d) fs) as [rc fs']. destruct W as [_ W]. rewrite Hpower in W.
  destruct W as [-> R']. exists fs'. split; [done|]. split; [by eexists|]. rewrite (mnt_entries_of (mk_mount fs' 0) _ R').
  apply map_eq. intros i. rewrite map_upto_lookup, lookup_empty. by destruct (_ && _).
Qed.

(** The contents of the store depend on the entries alone. *)
Lemma store_again (cf : settings_nvs (mount D parts)) st : store_ok cf -> nvs_valid st -> nvs_entries st = nvs_entries (cf_nvs cf) ->
  store_ok (mk_settings_nvs st (last_name_id cf)) /\ forall n v, Settings.holds (mk_settings_nvs st (last_name_id cf)) n v <-> Settings.holds cf n v.
Proof.
  intros [? ? ? ? ? ?] Hv E. split.
  - split; cbn [cf_nvs last_name_id]; rewrite ?E; done.
  - intros n v. unfold Settings.holds. cbn [cf_nvs]. by rewrite E.
Qed.

(** C12. Settings survive a restart of the device: when saving a setting returns 0, the
    storage starts on what is in flash then, the settings that are read from it are in
    order, and they have the new value and otherwise what there was before; loading
    the setting delivers the value, complete, in exactly one call of the callback, if
    no other setting lies below its name.  A setting that was not there before must
    have room for its value: [settings_nvs_save] loses the error of that write
    ([takes_if_new]). *)
Theorem settings_survive_reboot {T} (cb : option cstr -> Z -> (Z -> Z * list Z) -> T -> Z * T) name value
    (cf cf' : settings_nvs (mount D parts)) d fs (t : T) :
  store_ok cf -> fits name -> name_ok name -> value <> [] -> bytes_ok value -> takes_if_new name value cf ->
  settings_save_one name value (Some cf) = (0, Some cf') ->
  configured off sz cnt fs -> (forall x, flash_mem d x = flash_mem (fs_flash (mnt_fs (cf_nvs cf'))) x) ->
  exists fs', nvs_init (Some d) fs = (0, fs') /\
    let cf2 := settings_nvs_backend_init (F := mount D parts) (mk_mount fs' 0) in
    store_ok cf2 /\ Settings.holds cf2 name value /\ (forall n v, n <> name -> Settings.holds cf2 n v <-> Settings.holds cf n v) /\
    (alone cf2 name ->
     exists rd, (forall len, 0 <= len <= 256 -> rd len = (Z.min len (Z.of_nat (length value)), take (Z.to_nat len) value)) /\
       settings_load_subtree_direct name cb (Some cf2) t = (Some cf2, (cb None (Z.of_nat (length value)) rd t).2)).
Proof.
  intros Hok Hf Hn Hv Hb Ht E Hc HM. unfold settings_save_one in E. destruct (settings_nvs_save name value cf) as [rc cf1] eqn:Es.
  injection E as -> ->. destruct (save_effect name value cf cf' Hok Hf Hv Hb Ht Es) as [Hok' Hh].
  destruct (mount_again _ _ _ (store_valid _ Hok') Hc HM) as (fs'&Ei&Hval&Hent). exists fs'. split; [done|].
  destruct (store_again cf' (mk_mount fs' 0) Hok' Hval Hent) as [Hok2 Hh2]. pose proof (restart _ Hok2) as Er. cbn [cf_nvs] in Er. rewrite Er. cbv zeta.
  set (cf2 := mk_settings_nvs (mk_mount fs' 0) (last_name_id cf')) in *.
  assert (Hnv : Settings.holds cf2 name value) by (apply Hh2, Hh; by left).
  split; [done|]. split; [done|]. split; [intros n v Hne; rewrite Hh2, Hh; intuition|].
  intros Hal. destruct (load_direct_one name cb cf2 t Hok2 Hn Hal) as [H1 _]. by apply H1.
Qed.
End instance.
