(* ===== verification/FlashNrf.v ===== *)
(** The flash driver ([drivers/flash/soc_flash_nrf.c]) and its synchronisation with the
    radio ([soc_flash_nrf_ticker.c]): a write or an erasure is done in time slots between
    radio events, as many words or pages in each as fit.

    The controller of the flash is the class [Nvmc] (the functions of [nrfx_nvmc.h]); the
    ticker is what it does in each operation, [sync_env].  The configuration is that of the
    application: no access to UICR, no partial erasures, no emulation of byte writes.  The
    semaphore that keeps other threads out is left out. *)
From Stdlib Require Import ZArith Lia Bool.
From stdpp Require Import base numbers list.
From S2P Require Import Prelude ByteOrder NvsFs NvsLayout NvsOps.
Open Scope Z_scope.

(** The flash as the processor reads it, and the functions that change it. *)
Class Nvmc (H : Type) := {
  nvmc_mem : H -> mem;
  nrfx_nvmc_word_write : Z -> Z -> H -> H;
  nrfx_nvmc_page_erase : Z -> H -> H;
  nrfx_nvmc_flash_size_get : Z;
  nrfx_nvmc_flash_page_size_get : Z;
  nrfx_nvmc_flash_page_count_get : Z }.

(** Writing a word clears bits; the flash is made of pages. *)
Class NvmcOk (H : Type) `{!Nvmc H} := {
  nvmc_bytes h x : 0 <= nvmc_mem h x < 256;
  nvmc_page : 0 < nrfx_nvmc_flash_page_size_get;
  nvmc_size : 0 < nrfx_nvmc_flash_size_get < 2 ^ 31;
  nvmc_pages : nrfx_nvmc_flash_page_count_get * nrfx_nvmc_flash_page_size_get = nrfx_nvmc_flash_size_get;
  word_write_law h a v x : a mod 4 = 0 -> 0 <= a -> a + 4 <= nrfx_nvmc_flash_size_get ->
    nvmc_mem (nrfx_nvmc_word_write a v h) x =
    if (a <=? x) && (x <? a + 4) then nvmc_mem h x .& default 0 (le_bytes 4 v !! Z.to_nat (x - a)) else nvmc_mem h x;
  page_erase_law h a x : a mod nrfx_nvmc_flash_page_size_get = 0 -> 0 <= a -> a + nrfx_nvmc_flash_page_size_get <= nrfx_nvmc_flash_size_get ->
    nvmc_mem (nrfx_nvmc_page_erase a h) x =
    if (a <=? x) && (x <? a + nrfx_nvmc_flash_page_size_get) then 255 else nvmc_mem h x }.

Definition FLASH_SLOT_WRITE : Z := 7500.
Definition FLASH_PAGE_ERASE_MAX_TIME_US : Z := 89700.
Definition FLASH_SLOT_ERASE : Z := FLASH_PAGE_ERASE_MAX_TIME_US.
Definition FLASH_OP_DONE : Z := 0.
Definition FLASH_OP_ONGOING : Z := - 1.

(** [struct flash_parameters]. *)
Definition flash_nrf_write_block_size : Z := 4.
Definition flash_nrf_erase_value : Z := 0xff.

(** ** Time slots *)

Definition HAL_TICKER_US_TO_TICKS (x : Z) : Z := u32 (x * 1000000000 / 30517578125) .& 0x00FFFFFF.

Definition ticker_ticks_diff_get (ticks_now ticks_old : Z) : Z := u32 (ticks_now - ticks_old) .& 0x00FFFFFF.

(** Whether the next iteration does not fit in the slot; [now] is the clock. *)
Definition nrf_flash_sync_check_time_limit (slot ticks_begin now iteration : Z) : bool :=
  let ticks_diff := ticker_ticks_diff_get now ticks_begin in
  HAL_TICKER_US_TO_TICKS slot <? u32 (ticks_diff + ticks_diff / iteration).

(** What the ticker does during an operation: in a slot, the clock readings; or the
    radio could not be stopped in time. *)
Inductive slot_event := slot_work (clock : nat -> Z) | slot_error.

(** [ticker_is_initialized], the result of starting the ticker, and the slots until
    [FLASH_TIMEOUT_MS] is over. *)
Record sync_env := mk_sync_env { ticker_initialized : bool; ticker_start : Z; slot_events : list slot_event }.

Definition TICKER_STATUS_SUCCESS : Z := 0.
Definition TICKER_STATUS_BUSY : Z := 2.

(** ** The driver *)

(** [struct flash_context]; the data are what is left to write. *)
Record flash_context := mk_ctx { ctx_data : list Z; flash_addr : Z; ctx_len : Z; enable_time_limit : bool }.

Definition is_aligned_32 (data : Z) : bool := (data .& 3) =? 0.

Section driver.
Context {H : Type} `{!Nvmc H}.
Implicit Types (h : H) (ctx : flash_context) (clock : nat -> Z) (addr len : Z).

Definition is_regular_addr_valid addr len : bool :=
  negb ((nrfx_nvmc_flash_size_get <=? addr) || (addr <? 0) || (nrfx_nvmc_flash_size_get <? len) || (nrfx_nvmc_flash_size_get <? addr + len)).

Definition shift_write_context (shift : Z) ctx : flash_context :=
  mk_ctx (drop (Z.to_nat shift) (ctx_data ctx)) (flash_addr ctx + shift) (ctx_len ctx - shift) (enable_time_limit ctx).

(** A word at a time; [i] counts, [n] is at least the number of words. *)
Fixpoint write_op_loop (n : nat) (clock : nat -> Z) (i : nat) ctx h : Z * flash_context * H :=
  match n with
  | O => (FLASH_OP_DONE, ctx, h)
  | S n =>
      if 4 <=? ctx_len ctx then
        let h := nrfx_nvmc_word_write (flash_addr ctx) (le_value (take 4 (ctx_data ctx))) h in
        let ctx := shift_write_context 4 ctx in
        let i := S i in
        if enable_time_limit ctx && nrf_flash_sync_check_time_limit FLASH_SLOT_WRITE (clock 0%nat) (clock i) (Z.of_nat i)
        then (FLASH_OP_ONGOING, ctx, h)
        else write_op_loop n clock i ctx h
      else (FLASH_OP_DONE, ctx, h)
  end.
Definition write_op (clock : nat -> Z) ctx h : Z * flash_context * H := write_op_loop (S (length (ctx_data ctx))) clock 1 ctx h.

(** A page at a time, at least one. *)
Fixpoint erase_op_loop (n : nat) (clock : nat -> Z) (i : nat) ctx h : Z * flash_context * H :=
  match n with
  | O => (FLASH_OP_ONGOING, ctx, h)
  | S n =>
      let pg_size := nrfx_nvmc_flash_page_size_get in
      let h := nrfx_nvmc_page_erase (flash_addr ctx) h in
      let ctx := mk_ctx (ctx_data ctx) (flash_addr ctx + pg_size) (u32 (ctx_len ctx - pg_size)) (enable_time_limit ctx) in
      let i := S i in
      if enable_time_limit ctx && nrf_flash_sync_check_time_limit FLASH_SLOT_ERASE (clock 0%nat) (clock i) (Z.of_nat i)
      then (if 0 <? ctx_len ctx then FLASH_OP_ONGOING else FLASH_OP_DONE, ctx, h)
      else if 0 <? ctx_len ctx then erase_op_loop n clock i ctx h
      else (FLASH_OP_DONE, ctx, h)
  end.
Definition erase_op (clock : nat -> Z) ctx h : Z * flash_context * H := erase_op_loop (Z.to_nat (ctx_len ctx)) clock 0 ctx h.

(** The work in the slots, until it is done, the ticker fails or the time is over.
    When the ticker fails the result is 0. *)
Fixpoint time_slots (handler : (nat -> Z) -> flash_context -> H -> Z * flash_context * H) (events : list slot_event) ctx h : Z * H :=
  match events with
  | [] => (- ETIMEDOUT, h)
  | slot_error :: _ => (0, h)
  | slot_work clock :: events =>
      let '(res, ctx, h) := handler clock ctx h in
      if res =? FLASH_OP_DONE then (0, h) else time_slots handler events ctx h
  end.

Definition nrf_flash_sync_exe (env : sync_env) (handler : (nat -> Z) -> flash_context -> H -> Z * flash_context * H) ctx h : Z * H :=
  if negb (ticker_start env =? TICKER_STATUS_SUCCESS) && negb (ticker_start env =? TICKER_STATUS_BUSY) then (- ECANCELED, h)
  else time_slots handler (slot_events env) ctx h.

Definition write_synchronously (env : sync_env) addr (data : list Z) h : Z * H :=
  nrf_flash_sync_exe env write_op (mk_ctx data addr (Z.of_nat (length data)) true) h.
Definition erase_synchronously (env : sync_env) addr len h : Z * H :=
  nrf_flash_sync_exe env erase_op (mk_ctx [] addr len true) h.

Definition write addr (data : list Z) h : Z * H :=
  let '(rc, _, h) := write_op (fun _ => 0) (mk_ctx data addr (Z.of_nat (length data)) false) h in (rc, h).
Definition erase addr len h : Z * H :=
  let '(rc, _, h) := erase_op (fun _ => 0) (mk_ctx [] addr len false) h in (rc, h).

Definition flash_nrf_read h addr len : Z * list Z :=
  if negb (is_regular_addr_valid addr len) then (- EINVAL, [])
  else if len =? 0 then (0, [])
  else (0, mem_bytes (nvmc_mem h) addr len).

Definition flash_nrf_write (env : sync_env) addr (data : list Z) h : Z * H :=
  let len := Z.of_nat (length data) in
  if negb (is_regular_addr_valid addr len) then (- EINVAL, h)
  else if negb (is_aligned_32 addr) || nz (len mod 4) then (- EINVAL, h)
  else if len =? 0 then (0, h)
  else if ticker_initialized env then write_synchronously env addr data h else write addr data h.

Definition flash_nrf_erase (env : sync_env) addr size h : Z * H :=
  let pg_size := nrfx_nvmc_flash_page_size_get in
  let n_pages := size / pg_size in
  if is_regular_addr_valid addr size then
    if nz (addr mod pg_size) || nz (size mod pg_size) then (- EINVAL, h)
    else if n_pages =? 0 then (0, h)
    else if ticker_initialized env then erase_synchronously env addr size h else erase addr size h
  else (- EINVAL, h).

Definition flash_nrf_write_protection (enable : bool) : Z := 0.
End driver.

(** [struct flash_pages_layout], [struct flash_pages_info]. *)
Record pages_layout := mk_pages { pages_count : Z; pages_size : Z }.
Record pages_info := mk_pages_info { info_start : Z; info_size : Z; info_index : Z }.

(** [flash_page_layout.c]: the page with a number, or at an offset. *)
Fixpoint page_info_loop (layout : list pages_layout) (offs : Z) (use_addr : bool) (group_offs page_count end_ : Z) : Z * pages_info :=
  match layout with
  | [] => (- EINVAL, mk_pages_info 0 0 0)
  | l :: layout =>
      let end_ := end_ + (if use_addr then pages_count l * pages_size l else pages_count l) in
      if offs <? end_ then
        let num_in_group := if use_addr then (offs - group_offs) / pages_size l else offs - page_count in
        (0, mk_pages_info (group_offs + num_in_group * pages_size l) (pages_size l) (page_count + num_in_group))
      else page_info_loop layout offs use_addr (group_offs + pages_count l * pages_size l) (page_count + pages_count l) end_
  end.
Definition flash_get_page_info (layout : list pages_layout) (offs : Z) (use_addr : bool) : Z * pages_info :=
  page_info_loop layout offs use_addr 0 0 0.

(** The layout that [nrf_flash_init] sets up. *)
Definition dev_layout {H} `{!Nvmc H} : list pages_layout := [mk_pages nrfx_nvmc_flash_page_count_get nrfx_nvmc_flash_page_size_get].

(** ** What the driver does *)

Section facts.
Context {H : Type} `{!Nvmc H, !NvmcOk H}.
Implicit Types (h : H) (ctx : flash_context) (clock : nat -> Z) (addr a len : Z) (data : list Z).

Lemma land_255 x : 0 <= x < 256 -> 255 .& x = x.
Proof. intros. rewrite Z.land_comm. change 255 with (Z.ones 8). rewrite Z.land_ones by lia. by apply Z.mod_small. Qed.

(** A word in an erased place. *)
Lemma word_write_erased h a w : a mod 4 = 0 -> 0 <= a -> a + 4 <= nrfx_nvmc_flash_size_get -> bytes_ok w -> length w = 4%nat ->
  erased (nvmc_mem h) a 4 -> forall x, nvmc_mem (nrfx_nvmc_word_write a (le_value w) h) x = mem_store a w (nvmc_mem h) x.
Proof.
  intros Ha H0 Hs Hw Hl He x. rewrite word_write_law by done. rewrite <- Hl, le_bytes_value by done.
  destruct (Z.leb_spec a x), (Z.ltb_spec x (a + 4)); cbn [andb]; try (symmetry; apply mem_store_out; lia).
  rewrite He by lia. pose proof (mem_store_in a w (nvmc_mem h) x ltac:(lia)) as E. rewrite E. cbn [default]. apply land_255.
  apply (Forall_lookup_1 _ _ _ _ Hw E).
Qed.

(** The words one call of [write_op] writes: at least one if there are any, and all if it is done. *)
Lemma write_op_loop_ok n clock i ctx h : let data := ctx_data ctx in let a := flash_addr ctx in
  ctx_len ctx = Z.of_nat (length data) -> ctx_len ctx mod 4 = 0 -> a mod 4 = 0 -> 0 <= a -> a + ctx_len ctx <= nrfx_nvmc_flash_size_get ->
  bytes_ok data -> erased (nvmc_mem h) a (ctx_len ctx) -> (length data < n)%nat ->
  let '(res, ctx', h') := write_op_loop n clock i ctx h in
  exists m : nat, ctx' = shift_write_context (4 * Z.of_nat m) ctx /\ 4 * Z.of_nat m <= ctx_len ctx /\
    (forall x, nvmc_mem h' x = mem_store a (take (4 * m) data) (nvmc_mem h) x) /\
    (res = FLASH_OP_DONE /\ 4 * Z.of_nat m = ctx_len ctx \/ res = FLASH_OP_ONGOING /\ (0 < m)%nat).
Proof.
  revert i ctx h. induction n as [|n IH]; intros i ctx h data a Hl Hl4 Ha H0 Hs Hb He Hn; [lia|]. cbn [write_op_loop].
  assert (E0 : shift_write_context (4 * Z.of_nat 0) ctx = ctx) by (destruct ctx; unfold shift_write_context; cbn; f_equal; lia).
  destruct (Z.leb_spec 4 (ctx_len ctx)) as [H4|H4].
  2:{ exists 0%nat. split; [done|]. split; [lia|]. split; [intros x; symmetry; apply mem_store_out; rewrite length_take; lia|]. left. split; [done|].
      apply Z.mod_divide in Hl4 as [q Hq]; [|lia]. lia. }
  fold data a. set (w := take 4 data). assert (Hw4 : length w = 4%nat) by (subst w; rewrite length_take; lia).
  set (h1 := nrfx_nvmc_word_write a (le_value w) h).
  assert (M1 : forall x, nvmc_mem h1 x = mem_store a w (nvmc_mem h) x).
  { apply word_write_erased; try done; [lia|by apply Forall_take|]. eapply erased_sub; [exact He|lia|lia]. }
  set (ctx1 := shift_write_context 4 ctx). destruct (_ && _).
  { exists 1%nat. split; [done|]. split; [lia|]. split; [exact M1|]. right. split; [done|lia]. }
  assert (Hd1 : ctx_data ctx1 = drop 4 data) by done. assert (Ha1 : flash_addr ctx1 = a + 4) by done. assert (Hl1 : ctx_len ctx1 = ctx_len ctx - 4) by done.
  specialize (IH (S i) ctx1 h1). cbv zeta in IH. rewrite Hd1, Ha1, Hl1 in IH.
  assert (Hlen1 : Z.of_nat (length (drop 4 data)) = ctx_len ctx - 4) by (rewrite length_drop; lia).
  destruct (write_op_loop n clock (S i) ctx1 h1) as [[res ctx'] h']. destruct IH as (m&Ec&Hm&M'&R); try done; try lia.
  - rewrite <- Hl4, <- (Z.mod_add (ctx_len ctx - 4) 1) by lia. f_equal. lia.
  - rewrite <- Ha, <- (Z.mod_add a 1) by lia. done.
  - by apply Forall_drop.
  - intros x Hx. rewrite M1, mem_store_out by lia. apply He. lia.
  - exists (S m). split; [|split; [lia|split]].
    + rewrite Ec. unfold ctx1, shift_write_context. cbn [ctx_data flash_addr ctx_len enable_time_limit]. rewrite drop_drop. f_equal; [f_equal; lia|lia|lia].
    + intros x. rewrite (store_twice _ _ _ a (a + 4) w (take (4 * m) (drop 4 data)) M1 M') by lia. f_equal. subst w.
      rewrite take_take_drop. f_equal. lia.
    + destruct R as [[-> ?]|[-> ?]]; [left|right]; (split; [done|lia]).
Qed.

(** Without a time limit the operations do not stop early. *)
Lemma write_op_no_limit n clock i ctx h : enable_time_limit ctx = false -> (write_op_loop n clock i ctx h).1.1 = FLASH_OP_DONE.
Proof.
  revert i ctx h. induction n as [|n IH]; intros i ctx h Hc; [done|]. cbn [write_op_loop]. destruct (4 <=? ctx_len ctx); [|done].
  change (enable_time_limit (shift_write_context 4 ctx)) with (enable_time_limit ctx). rewrite Hc. cbn [andb]. apply IH. exact Hc.
Qed.

Lemma erase_op_no_limit n clock i ctx h (q : nat) : enable_time_limit ctx = false -> ctx_len ctx = Z.of_nat q * nrfx_nvmc_flash_page_size_get ->
  ctx_len ctx <= nrfx_nvmc_flash_size_get -> (0 < q <= n)%nat -> (erase_op_loop n clock i ctx h).1.1 = FLASH_OP_DONE.
Proof.
  pose proof nvmc_page. pose proof nvmc_size. revert i ctx h q. induction n as [|n IH]; intros i ctx h q Hc Hl Hs Hq; [lia|]. cbn [erase_op_loop enable_time_limit].
  rewrite Hc. cbn [andb ctx_len]. cbv iota. rewrite u32_small by nia. destruct (Z.ltb_spec 0 (ctx_len ctx - nrfx_nvmc_flash_page_size_get)); [|done].
  apply (IH _ _ _ (q - 1)%nat); cbn [ctx_len enable_time_limit]; rewrite ?u32_small by nia; try done; nia.
Qed.

(** No slot fails. *)
Definition all_work (events : list slot_event) : Prop := Forall (fun ev => exists clock, ev = slot_work clock) events.

(** Whatever the clock says, the slots together write a beginning of the data: all of it,
    unless there are no more slots than words or one of them does not start. *)
Lemma write_slots_prefix events ctx h : let data := ctx_data ctx in let a := flash_addr ctx in
  ctx_len ctx = Z.of_nat (length data) -> ctx_len ctx mod 4 = 0 -> a mod 4 = 0 -> 0 <= a ->
  a + ctx_len ctx <= nrfx_nvmc_flash_size_get -> bytes_ok data -> erased (nvmc_mem h) a (ctx_len ctx) ->
  exists h' m, (forall x, nvmc_mem h' x = mem_store a (take m data) (nvmc_mem h) x) /\
    (time_slots write_op events ctx h = (0, h') /\ (length data <= m)%nat \/
     time_slots write_op events ctx h = (- ETIMEDOUT, h') /\ 4 * Z.of_nat (length events) <= ctx_len ctx \/
     time_slots write_op events ctx h = (0, h') /\ slot_error ∈ events).
Proof.
  intros data a. subst data a. revert ctx h. induction events as [|[clock|] events IH]; intros ctx h Hl Hl4 Ha H0 Hs Hb He.
  { exists h, 0%nat. split; [intros x; by rewrite take_0, mem_store_out by (cbn; lia)|]. right; left. split; [done|]. cbn. lia. }
  2:{ exists h, 0%nat. split; [intros x; by rewrite take_0, mem_store_out by (cbn; lia)|]. right; right. split; [done|]. left. }
  cbn [time_slots]. pose proof (write_op_loop_ok (S (length (ctx_data ctx))) clock 1 ctx h Hl Hl4 Ha H0 Hs Hb He ltac:(lia)) as W. unfold write_op at 1 3 5.
  destruct (write_op_loop _ clock 1 ctx h) as [[res ctx'] h']. destruct W as (m&->&Hm&M'&[[-> E]|[-> Hm0]]).
  - change (FLASH_OP_DONE =? FLASH_OP_DONE) with true. cbv iota. exists h', (4 * m)%nat. split; [done|]. left. split; [done|lia].
  - change (FLASH_OP_ONGOING =? FLASH_OP_DONE) with false. cbv iota. cbn [length].
    set (ctx1 := shift_write_context (4 * Z.of_nat m) ctx).
    assert (Hd1 : ctx_data ctx1 = drop (4 * m) (ctx_data ctx)) by (cbn; f_equal; lia). assert (Ha1 : flash_addr ctx1 = flash_addr ctx + 4 * Z.of_nat m) by done.
    assert (Hl1 : ctx_len ctx1 = ctx_len ctx - 4 * Z.of_nat m) by done. specialize (IH ctx1 h'). rewrite Hd1, Ha1, Hl1 in IH.
    assert (Htl : Z.of_nat (length (take (4 * m) (ctx_data ctx))) = 4 * Z.of_nat m) by (rewrite length_take; lia).
    destruct IH as (h2&m2&M2&IH); try lia.
    + rewrite length_drop. lia.
    + rewrite <- Hl4, <- (Z.mod_add (ctx_len ctx - 4 * Z.of_nat m) (Z.of_nat m)) by lia. f_equal. lia.
    + rewrite <- Ha, <- (Z.mod_add (flash_addr ctx) (Z.of_nat m)) by lia. f_equal. lia.
    + by apply Forall_drop.
    + intros x Hx. rewrite M', mem_store_out by lia. apply He. lia.
    + exists h2, (4 * m + m2)%nat. split; [intros x; rewrite (store_twice _ _ _ _ _ _ _ M' M2) by lia; by rewrite take_take_drop|].
      rewrite length_drop in IH. destruct IH as [[E2 ?]|[[E2 ?]|[E2 ?]]]; [left|right; left|right; right]; (split; [done|]); [lia|lia|by right].
Qed.

Lemma write_slots_ok events ctx h : let data := ctx_data ctx in let a := flash_addr ctx in
  all_work events -> ctx_len ctx = Z.of_nat (length data) -> ctx_len ctx mod 4 = 0 -> a mod 4 = 0 -> 0 <= a ->
  a + ctx_len ctx <= nrfx_nvmc_flash_size_get -> bytes_ok data -> erased (nvmc_mem h) a (ctx_len ctx) ->
  exists h', time_slots write_op events ctx h = (0, h') /\ (forall x, nvmc_mem h' x = mem_store a data (nvmc_mem h) x) \/
    time_slots write_op events ctx h = (- ETIMEDOUT, h') /\ 4 * Z.of_nat (length events) <= ctx_len ctx.
Proof.
  intros data a Hw Hl Hl4 Ha H0 Hs Hb He. destruct (write_slots_prefix events ctx h Hl Hl4 Ha H0 Hs Hb He) as (h'&m&M&[[E Hm]|[[E Hn]|[E Herr]]]).
  - exists h'. left. split; [done|]. intros x. by rewrite M, take_ge.
  - exists h'. by right.
  - unfold all_work in Hw. rewrite Forall_forall in Hw. by destruct (Hw _ Herr).
Qed.

(** ** Erasing *)

Abbreviation pg := nrfx_nvmc_flash_page_size_get.

Lemma page_erase_effect h a : a mod pg = 0 -> 0 <= a -> a + pg <= nrfx_nvmc_flash_size_get ->
  erased (nvmc_mem (nrfx_nvmc_page_erase a h)) a pg /\ only (nvmc_mem h) (nvmc_mem (nrfx_nvmc_page_erase a h)) a pg.
Proof.
  intros Ha H0 Hs. split; intros x Hx; rewrite page_erase_law by done; destruct (Z.leb_spec a x), (Z.ltb_spec x (a + pg)); cbn [andb]; done || lia.
Qed.

(** The pages one call of [erase_op] erases: at least one, and all if it is done. *)
Lemma erase_op_loop_ok n clock i ctx h (q : nat) : let a := flash_addr ctx in
  ctx_len ctx = Z.of_nat q * pg -> (0 < q)%nat -> a mod pg = 0 -> 0 <= a -> a + ctx_len ctx <= nrfx_nvmc_flash_size_get -> (q <= n)%nat ->
  let '(res, ctx', h') := erase_op_loop n clock i ctx h in
  exists m : nat, (0 < m <= q)%nat /\ ctx_len ctx' = Z.of_nat (q - m) * pg /\ flash_addr ctx' = a + Z.of_nat m * pg /\
    erased (nvmc_mem h') a (Z.of_nat m * pg) /\ only (nvmc_mem h) (nvmc_mem h') a (Z.of_nat m * pg) /\
    res = if (m =? q)%nat then FLASH_OP_DONE else FLASH_OP_ONGOING.
Proof.
  pose proof nvmc_page as Hpg. pose proof nvmc_size as Hsz. revert i ctx h q. induction n as [|n IH]; intros i ctx h q a Hl Hq Ha H0 Hs Hn; [lia|]. cbn [erase_op_loop]. fold a.
  destruct (page_erase_effect h a) as [E1 O1]; [done|done|nia|]. set (h1 := nrfx_nvmc_page_erase a h) in *.
  set (ctx1 := mk_ctx _ _ _ _). assert (Hl1 : ctx_len ctx1 = Z.of_nat (q - 1) * pg) by (cbn; rewrite u32_small by nia; nia).
  assert (Ha1 : flash_addr ctx1 = a + pg) by done.
  assert (Hc : (0 <? ctx_len ctx1) = negb (1 =? q)%nat).
  { rewrite Hl1. destruct (Nat.eqb_spec 1 q) as [<-|]; [done|]. cbn [negb]. apply Z.ltb_lt. nia. }
  rewrite Hc. assert (Hone : forall res, res = (if (1 =? q)%nat then FLASH_OP_DONE else FLASH_OP_ONGOING) ->
    exists m : nat, (0 < m <= q)%nat /\ ctx_len ctx1 = Z.of_nat (q - m) * pg /\ flash_addr ctx1 = a + Z.of_nat m * pg /\
    erased (nvmc_mem h1) a (Z.of_nat m * pg) /\ only (nvmc_mem h) (nvmc_mem h1) a (Z.of_nat m * pg) /\
    res = if (m =? q)%nat then FLASH_OP_DONE else FLASH_OP_ONGOING).
  { intros res ->. exists 1%nat. rewrite Z.mul_1_l. split_and!; try done; lia. }
  destruct (_ && _); [apply Hone; by destruct (1 =? q)%nat|].
  destruct (Nat.eqb_spec 1 q) as [E|E]; cbn [negb]; [apply Hone; done|].
  specialize (IH (S i) ctx1 h1 (q - 1)%nat). cbv zeta in IH. rewrite Ha1 in IH.
  destruct (erase_op_loop n clock (S i) ctx1 h1) as [[res ctx'] h']. destruct IH as (m&Hm&Hl'&Ha'&E'&O'&->); try done; try lia.
  - rewrite <- Ha, <- (Z.mod_add a 1) by lia. f_equal. lia.
  - exists (S m). split; [lia|]. split; [rewrite Hl'; f_equal; lia|]. split; [lia|]. split; [|split].
    + intros x Hx. destruct (decide (a + pg <= x)); [apply E'; lia|]. rewrite O' by lia. apply E1. lia.
    + intros x Hx. rewrite O', O1 by lia. done.
    + destruct (Nat.eqb_spec m (q - 1)), (Nat.eqb_spec (S m) q); done || lia.
Qed.

Lemma erase_slots_ok events ctx h (q : nat) : let a := flash_addr ctx in
  all_work events -> ctx_len ctx = Z.of_nat q * pg -> (0 < q)%nat -> a mod pg = 0 -> 0 <= a -> a + ctx_len ctx <= nrfx_nvmc_flash_size_get ->
  exists h', time_slots erase_op events ctx h = (0, h') /\ erased (nvmc_mem h') a (ctx_len ctx) /\ only (nvmc_mem h) (nvmc_mem h') a (ctx_len ctx) \/
    time_slots erase_op events ctx h = (- ETIMEDOUT, h') /\ only (nvmc_mem h) (nvmc_mem h') a (ctx_len ctx) /\ (length events <= q)%nat.
Proof.
  intros a Hev. subst a. pose proof nvmc_page as Hpg. revert ctx h q. induction Hev as [|ev events (clock&->) _ IH]; intros ctx h q Hl Hq Ha H0 Hs.
  { exists h. right. split; [done|]. split; [done|]. cbn. lia. }
  cbn [time_slots]. unfold erase_op at 1 3. pose proof (erase_op_loop_ok (Z.to_nat (ctx_len ctx)) clock 0 ctx h q Hl Hq Ha H0 Hs ltac:(nia)) as W.
  destruct (erase_op_loop _ clock 0 ctx h) as [[res ctx'] h']. destruct W as (m&Hm&Hl'&Ha'&E'&O'&->). cbn [length]. rewrite Hl.
  destruct (Nat.eqb_spec m q) as [->|Hne].
  - change (FLASH_OP_DONE =? FLASH_OP_DONE) with true. cbv iota. exists h'. by left.
  - change (FLASH_OP_ONGOING =? FLASH_OP_DONE) with false. cbv iota.
    destruct (IH ctx' h' (q - m)%nat) as (h2&IH'); try done; try nia.
    + rewrite Ha', Z.add_mod, Z.mod_mul, Ha by lia. done.
    + exists h2. rewrite Hl', Ha' in IH'. assert (Hz : Z.of_nat (q - m) * pg = Z.of_nat q * pg - Z.of_nat m * pg) by nia. rewrite Hz in IH'.
      assert (0 < Z.of_nat m * pg < Z.of_nat q * pg) by nia.
      destruct IH' as [(E2&Er2&O2)|(E2&O2&Hn)]; [left|right]; (split; [done|]).
      * split; intros x Hx.
        -- destruct (decide (flash_addr ctx + Z.of_nat m * pg <= x)); [apply Er2; lia|]. rewrite O2 by lia. apply E'. lia.
        -- rewrite O2 by lia. apply O'. lia.
      * split; [|lia]. intros x Hx. rewrite O2 by lia. apply O'. lia.
Qed.
End facts.

(** ** The driver as a flash *)

(** The controller and the number of operations done; the ticker does [env n] in
    operation [n]. *)
Record nrf_flash (H : Type) (env : nat -> sync_env) := mk_nrf_flash { nrf_hw : H; nrf_ops : nat }.
Arguments mk_nrf_flash {H env}.
Arguments nrf_hw {H env}.
Arguments nrf_ops {H env}.

Definition nrf_done {H env} (d : nrf_flash H env) (res : Z * H) : Z * nrf_flash H env :=
  (res.1, mk_nrf_flash res.2 (S (nrf_ops d))).

#[export] Instance nrf_Flash H env `{!Nvmc H} : Flash (nrf_flash H env) := {
  flash_read d := flash_nrf_read (nrf_hw d);
  flash_write a bs d := nrf_done d (flash_nrf_write (env (nrf_ops d)) a bs (nrf_hw d));
  flash_erase a n d := nrf_done d (flash_nrf_erase (env (nrf_ops d)) a n (nrf_hw d));
  flash_write_protection_set b d := (flash_nrf_write_protection b, d);
  flash_get_page_info_by_offs d a := let '(rc, info) := flash_get_page_info dev_layout a true in (rc, info_size info);
  write_block_size := flash_nrf_write_block_size;
  erase_value := flash_nrf_erase_value }.

(** The ticker lets every write to an erased place, and every erasure of pages, finish. *)
Definition in_time {H} `{!Nvmc H} (env : sync_env) : Prop :=
  ticker_initialized env = true ->
  (ticker_start env = TICKER_STATUS_SUCCESS \/ ticker_start env = TICKER_STATUS_BUSY) /\ all_work (slot_events env) /\
  forall a (h : H),
    (forall bs, let n := Z.of_nat (length bs) in
       0 <= a -> a mod 4 = 0 -> n mod 4 = 0 -> a + n <= nrfx_nvmc_flash_size_get -> bytes_ok bs -> erased (nvmc_mem h) a n ->
       (time_slots write_op (slot_events env) (mk_ctx bs a n true) h).1 <> - ETIMEDOUT) /\
    (forall n, 0 <= a -> a mod nrfx_nvmc_flash_page_size_get = 0 -> 0 < n -> n mod nrfx_nvmc_flash_page_size_get = 0 -> a + n <= nrfx_nvmc_flash_size_get ->
       (time_slots erase_op (slot_events env) (mk_ctx [] a n true) h).1 <> - ETIMEDOUT).

Section instance.
Context {H : Type} `{!Nvmc H, !NvmcOk H}.
Implicit Types (h : H) (addr a n : Z) (data bs : list Z).

Lemma regular_addr a n : 0 <= a < nrfx_nvmc_flash_size_get -> 0 <= n -> a + n <= nrfx_nvmc_flash_size_get -> is_regular_addr_valid a n = true.
Proof.
  intros. unfold is_regular_addr_valid. apply negb_true_iff. rewrite !orb_false_iff. repeat split; [apply Z.leb_gt|apply Z.ltb_ge..]; lia.
Qed.

Lemma sync_started env handler ctx h : ticker_start env = TICKER_STATUS_SUCCESS \/ ticker_start env = TICKER_STATUS_BUSY ->
  nrf_flash_sync_exe env handler ctx h = time_slots handler (slot_events env) ctx h.
Proof. unfold nrf_flash_sync_exe. by intros [->| ->]. Qed.

(** More slots than the flash has words and pages are enough, since each does some work. *)
Lemma slots_enough env : ticker_start env = TICKER_STATUS_SUCCESS -> all_work (slot_events env) ->
  nrfx_nvmc_flash_size_get (H := H) < Z.of_nat (length (slot_events env)) -> in_time (H := H) env.
Proof.
  intros Hst Hw Hn _. split; [by left|]. split; [done|]. pose proof nvmc_page as Hpg. intros a h. split.
  - intros bs n Ha Ha4 Hn4 Hs Hb He. destruct (write_slots_ok (slot_events env) (mk_ctx bs a n true) h) as (h'&[[-> _]|(_&Hl)]); try done. cbn in Hl. lia.
  - intros n Ha Ham Hn0 Hnm Hs. apply Z.mod_divide in Hnm as [q Hq]; [|lia]. assert (0 < q) by nia.
    destruct (erase_slots_ok (slot_events env) (mk_ctx [] a n true) h (Z.to_nat q)) as (h'&[(->&_)|(_&_&Hl)]); try done; try (cbn; lia). nia.
Qed.

Lemma write_accepted env a bs h : 0 <= a -> a mod 4 = 0 -> bs <> [] -> Z.of_nat (length bs) mod 4 = 0 ->
  a + Z.of_nat (length bs) <= nrfx_nvmc_flash_size_get ->
  flash_nrf_write env a bs h = if ticker_initialized env then write_synchronously env a bs h else write a bs h.
Proof.
  intros Ha Ha4 Hne Hl4 Hs. unfold flash_nrf_write. assert (0 < Z.of_nat (length bs)) by (destruct bs; [done|cbn; lia]).
  rewrite regular_addr by lia. cbn [negb]. cbv iota. unfold is_aligned_32. change 3 with (Z.ones 2). rewrite Z.land_ones by lia. change (2 ^ 2) with 4.
  rewrite Ha4, Hl4. cbn [negb nz orb Z.eqb]. cbv iota. by rewrite (proj2 (Z.eqb_neq (Z.of_nat (length bs)) 0)) by lia.
Qed.

(** A write to an erased place, with or without the radio. *)
Lemma nrf_write_ok env a bs h : in_time (H := H) env -> 0 <= a -> a mod 4 = 0 -> bs <> [] -> Z.of_nat (length bs) mod 4 = 0 ->
  a + Z.of_nat (length bs) <= nrfx_nvmc_flash_size_get -> bytes_ok bs -> erased (nvmc_mem h) a (Z.of_nat (length bs)) ->
  exists h', flash_nrf_write env a bs h = (0, h') /\ forall x, nvmc_mem h' x = mem_store a bs (nvmc_mem h) x.
Proof.
  intros Hin Ha Ha4 Hne Hl4 Hs Hb He. rewrite write_accepted by done.
  set (ctx := mk_ctx bs a (Z.of_nat (length bs))).
  destruct (ticker_initialized env) eqn:Ei.
  - destruct (Hin Ei) as (Hst&Hw&Ht). unfold write_synchronously. rewrite sync_started by done. fold (ctx true).
    destruct (write_slots_ok (slot_events env) (ctx true) h) as (h'&[[E M]|(E&_)]); try done; [eauto|].
    destruct (Ht a h) as [Ht' _]. specialize (Ht' bs). cbv zeta in Ht'. fold (ctx true) in Ht'. rewrite E in Ht'. by destruct Ht'.
  - unfold write. fold (ctx false). unfold write_op.
    pose proof (write_op_loop_ok (S (length (ctx_data (ctx false)))) (fun _ => 0) 1 (ctx false) h eq_refl Hl4 Ha4 Ha Hs Hb He ltac:(cbn; lia)) as W.
    pose proof (write_op_no_limit (S (length (ctx_data (ctx false)))) (fun _ => 0) 1 (ctx false) h eq_refl) as R.
    destruct (write_op_loop _ _ 1 (ctx false) h) as [[res ctx'] h']. destruct W as (m&_&Hm&M&[[-> E]|[-> _]]); [|done].
    exists h'. split; [done|]. intros x. rewrite M, take_ge; [done|]. cbn in E |- *. lia.
Qed.

Abbreviation pg := nrfx_nvmc_flash_page_size_get.

Lemma nrf_erase_ok env a n h : in_time (H := H) env -> 0 <= a -> a mod pg = 0 -> 0 < n -> n mod pg = 0 -> a + n <= nrfx_nvmc_flash_size_get ->
  exists h', flash_nrf_erase env a n h = (0, h') /\ erased (nvmc_mem h') a n /\ only (nvmc_mem h) (nvmc_mem h') a n.
Proof.
  intros Hin Ha Ham Hn Hnm Hs. pose proof nvmc_page as Hpg. unfold flash_nrf_erase. rewrite regular_addr by lia. rewrite Ham, Hnm. cbn [nz negb orb Z.eqb]. cbv iota.
  assert (Hpg0 : nrfx_nvmc_flash_page_size_get (H := H) <> 0) by lia. pose proof (Z.div_mod n _ Hpg0) as Ed. rewrite Hnm in Ed. assert (0 < n / pg) by nia. rewrite (proj2 (Z.eqb_neq (n / pg) 0)) by lia.
  set (q := Z.to_nat (n / pg)). assert (En : n = Z.of_nat q * pg) by (subst q; rewrite Z2Nat.id by lia; lia).
  set (ctx := mk_ctx [] a n). destruct (ticker_initialized env) eqn:Ei.
  - destruct (Hin Ei) as (Hst&Hw&Ht). unfold erase_synchronously. rewrite sync_started by done. fold (ctx true).
    destruct (erase_slots_ok (slot_events env) (ctx true) h q) as (h'&[[E M]|(E&_)]); try done; try (subst q; lia); [eauto|].
    destruct (Ht a h) as [_ Ht']. specialize (Ht' n). fold (ctx true) in Ht'. rewrite E in Ht'. by destruct Ht'.
  - unfold erase. fold (ctx false). unfold erase_op. change (ctx_len (ctx false)) with n.
    pose proof (erase_op_loop_ok (Z.to_nat n) (fun _ => 0) 0 (ctx false) h q En ltac:(lia) Ham Ha Hs ltac:(nia)) as W.
    pose proof (erase_op_no_limit (Z.to_nat n) (fun _ => 0) 0 (ctx false) h q eq_refl En ltac:(cbn; lia) ltac:(nia)) as R.
    destruct (erase_op_loop _ _ 0 (ctx false) h) as [[res ctx'] h']. cbn [fst] in R. destruct W as (m&Hm&_&_&E&O&Er). rewrite R in Er.
    destruct (Nat.eqb_spec m q) as [->|]; [|done]. rewrite <- En in *. rewrite R. eauto.
Qed.

Lemma nrf_pages a : 0 <= a < nrfx_nvmc_flash_size_get ->
  (let '(rc, info) := flash_get_page_info dev_layout a true in (rc, info_size info)) = (0, pg).
Proof.
  intros Ha. unfold flash_get_page_info, dev_layout. cbn [page_info_loop pages_count pages_size]. rewrite Z.add_0_l, nvmc_pages, (proj2 (Z.ltb_lt a _)) by lia. done.
Qed.

(** C23. A write to erased flash that is done in slots between radio events writes a
    beginning of the data and nothing else, whatever the clock says in each of them and so
    wherever it is divided.  It is the whole write, and the result 0, unless the slots run
    out, no more of them than there are words, and then the result is [-ETIMEDOUT]; or the
    ticker of one of them does not start, and then the result is 0 as well. *)
Theorem flash_write_in_slots env a bs h :
  ticker_initialized env = true -> ticker_start env = TICKER_STATUS_SUCCESS \/ ticker_start env = TICKER_STATUS_BUSY ->
  0 <= a -> a mod 4 = 0 -> bs <> [] -> Z.of_nat (length bs) mod 4 = 0 -> a + Z.of_nat (length bs) <= nrfx_nvmc_flash_size_get ->
  bytes_ok bs -> erased (nvmc_mem h) a (Z.of_nat (length bs)) ->
  exists h' m, (forall x, nvmc_mem h' x = mem_store a (take m bs) (nvmc_mem h) x) /\
    (flash_nrf_write env a bs h = (0, h') /\ (length bs <= m)%nat \/
     flash_nrf_write env a bs h = (- ETIMEDOUT, h') /\ 4 * Z.of_nat (length (slot_events env)) <= Z.of_nat (length bs) \/
     flash_nrf_write env a bs h = (0, h') /\ slot_error ∈ slot_events env).
Proof.
  intros Hi Hst Ha Ha4 Hne Hl4 Hs Hb He. rewrite write_accepted, Hi by done. unfold write_synchronously. rewrite sync_started by done.
  by apply (write_slots_prefix (slot_events env) (mk_ctx bs a (Z.of_nat (length bs)) true) h).
Qed.

(** C30. A write for which the radio cannot be stopped is reported as done: when the
    ticker for its first slot does not start, [flash_nrf_write] returns 0 and nothing is
    written. *)
Theorem failed_slot_reports_success env a bs h events :
  ticker_initialized env = true -> ticker_start env = TICKER_STATUS_SUCCESS \/ ticker_start env = TICKER_STATUS_BUSY -> slot_events env = slot_error :: events ->
  0 <= a -> a mod 4 = 0 -> bs <> [] -> Z.of_nat (length bs) mod 4 = 0 -> a + Z.of_nat (length bs) <= nrfx_nvmc_flash_size_get ->
  flash_nrf_write env a bs h = (0, h).
Proof.
  intros Hi Hst He Ha Ha4 Hne Hl4 Hs. rewrite write_accepted, Hi by done. unfold write_synchronously. by rewrite sync_started, He.
Qed.

(** The driver keeps what the storage expects of a flash that does not lose power. *)
#[export] Instance nrf_FlashOk (env : nat -> sync_env) (Henv : forall n : nat, in_time (H := H) (env n)) : FlashOk (nrf_flash H env).
Proof.
  refine {| flash_mem := fun d => nvmc_mem (nrf_hw d); powered := fun _ => true; flash_size := nrfx_nvmc_flash_size_get; page_size := pg |}.
  - done.
  - done.
  - intros d a Ha. by apply nrf_pages.
  - intros d x. apply nvmc_bytes.
  - intros d a n _ Ha Hn Hs. cbn [flash_read nrf_Flash]. unfold flash_nrf_read. rewrite regular_addr by lia. cbn [negb]. cbv iota.
    destruct (Z.eqb_spec n 0) as [->|]; done.
  - intros d a bs _ Ha Ha4 Hne Hl4 Hs Hb He. cbn [flash_write nrf_Flash]. unfold nrf_done.
    destruct (nrf_write_ok (env (nrf_ops d)) a bs (nrf_hw d)) as (h'&->&M); try done. left. done.
  - intros d a n _ Ha Ham Hn Hnm Hs. cbn [flash_erase nrf_Flash]. unfold nrf_done.
    destruct (nrf_erase_ok (env (nrf_ops d)) a n (nrf_hw d)) as (h'&->&E&O); try done. left. done.
  - done.
  - done.
  - done.
  - done.
Defined.
End instance.
