(* ===== verification/NvsExample.v ===== *)
(** The storage at work: a small flash controller in RAM, the driver on it, a supply
    that fails, and the properties of the storage at these. *)
From Stdlib Require Import ZArith Lia Bool.
From stdpp Require Import base numbers list gmap strings.
From S2P Require Import Prelude ByteOrder Uuid Gatt SettingsKeys Settings Crc NvsFs NvsLayout NvsOps NvsRead NvsWrite NvsGc NvsStorage NvsStart NvsSafety NvsInst FlashNrf.
Open Scope Z_scope.

(** ** A controller *)

(** Sixteen pages of 64 bytes; the bytes that are not erased. *)
Abbreviation ram_ctl := (gmap Z Z).
Definition ram_mem (h : ram_ctl) : mem := fun x => match h !! x with Some b => b mod 256 | None => 255 end.
Definition and_byte (a b : Z) (h : ram_ctl) : ram_ctl := <[a := ram_mem h a .& b]> h.

#[export] Instance ram_Nvmc : Nvmc ram_ctl := {
  nvmc_mem := ram_mem;
  nrfx_nvmc_word_write a v h :=
    and_byte a (u8 v) (and_byte (a + 1) (u8 (v .>> 8)) (and_byte (a + 2) (u8 (v .>> 16)) (and_byte (a + 3) (u8 (v .>> 24)) h)));
  nrfx_nvmc_page_erase a h := filter (fun p => p.1 < a \/ a + 64 <= p.1) h;
  nrfx_nvmc_flash_size_get := 1024;
  nrfx_nvmc_flash_page_size_get := 64;
  nrfx_nvmc_flash_page_count_get := 16 }.

Lemma ram_byte h x : 0 <= ram_mem h x < 256.
Proof. unfold ram_mem. destruct (h !! x); [|lia]. apply Z.mod_pos_bound. lia. Qed.

Lemma land_byte a b : 0 <= a < 256 -> 0 <= a .& b < 256.
Proof.
  intros H. assert (E : a = a .& Z.ones 8) by (rewrite Z.land_ones by lia; symmetry; by apply Z.mod_small).
  rewrite E, <- Z.land_assoc, (Z.land_comm (Z.ones 8)), Z.land_assoc, Z.land_ones by lia. by apply Z.mod_pos_bound.
Qed.

Lemma and_byte_mem a b h x : ram_mem (and_byte a b h) x = if x =? a then ram_mem h x .& b else ram_mem h x.
Proof.
  unfold and_byte. set (v := ram_mem h a .& b). change (ram_mem (<[a:=v]> h) x) with (match (<[a:=v]> h) !! x with Some b => b mod 256 | None => 255 end). destruct (Z.eqb_spec x a) as [->|].
  - rewrite lookup_insert, decide_True by done. apply Z.mod_small, land_byte, ram_byte.
  - by rewrite lookup_insert_ne by done.
Qed.

Lemma ram_word h a v x :
  ram_mem (nrfx_nvmc_word_write a v h) x =
  if (a <=? x) && (x <? a + 4) then ram_mem h x .& default 0 (le_bytes 4 v !! Z.to_nat (x - a)) else ram_mem h x.
Proof.
  cbn [nrfx_nvmc_word_write ram_Nvmc]. rewrite !and_byte_mem. destruct ((a <=? x) && (x <? a + 4)) eqn:E.
  - apply andb_true_iff in E as [?%Z.leb_le ?%Z.ltb_lt].
    assert (x = a \/ x = a + 1 \/ x = a + 2 \/ x = a + 3) as [-> |[-> |[-> | ->]]] by lia.
    + rewrite Z.eqb_refl, !(proj2 (Z.eqb_neq a (a + _))) by lia. by rewrite Z.sub_diag.
    + rewrite Z.eqb_refl, !(proj2 (Z.eqb_neq (a + 1) _)) by lia. replace (a + 1 - a) with 1 by lia. done.
    + rewrite Z.eqb_refl, !(proj2 (Z.eqb_neq (a + 2) _)) by lia. replace (a + 2 - a) with 2 by lia.
      cbn. rewrite ?Z.shiftr_shiftr by lia. done.
    + rewrite Z.eqb_refl, !(proj2 (Z.eqb_neq (a + 3) _)) by lia. replace (a + 3 - a) with 3 by lia.
      cbn. rewrite ?Z.shiftr_shiftr by lia. done.
  - assert (x < a \/ a + 4 <= x) by (apply andb_false_iff in E as [?%Z.leb_gt|?%Z.ltb_ge]; lia).
    by rewrite !(proj2 (Z.eqb_neq x _)) by lia.
Qed.

#[export] Instance ram_NvmcOk : NvmcOk ram_ctl.
Proof.
  split; try done.
  - intros h x. apply ram_byte.
  - intros h a v x _ _ _. apply ram_word.
  - intros h a x _ _ _. cbn [nrfx_nvmc_page_erase nvmc_mem nrfx_nvmc_flash_page_size_get ram_Nvmc]. unfold ram_mem.
    destruct ((a <=? x) && (x <? a + 64)) eqn:E.
    + apply andb_true_iff in E as [?%Z.leb_le ?%Z.ltb_lt]. rewrite map_lookup_filter_None_2; [done|]. right. intros b _. cbn. lia.
    + assert (x < a \/ a + 64 <= x) by (apply andb_false_iff in E as [?%Z.leb_gt|?%Z.ltb_ge]; lia).
      destruct (h !! x) eqn:Eh; [erewrite map_lookup_filter_Some_2 by (done || (cbn; lia)); done|].
      rewrite map_lookup_filter_None_2; [done|by left].
Defined.

(** ** A supply that fails *)

(** A flash and the number of operations after which the power fails, in the last of
    them. *)
Record flaky (D : Type) := mk_flaky { flaky_dev : D; flaky_left : option nat }.
Arguments mk_flaky {D}.
Arguments flaky_dev {D}.
Arguments flaky_left {D}.

Section flaky.
Context {D : Type} `{!Flash D, !FlashOk D}.
Implicit Types (d : flaky D).

Definition spend (op : D -> Z * D) (last : D -> D) d : Z * flaky D :=
  match flaky_left d with
  | None => let '(rc, x) := op (flaky_dev d) in (rc, mk_flaky x None)
  | Some O => (- EIO, d)
  | Some (S O) => (- EIO, mk_flaky (last (flaky_dev d)) (Some O))
  | Some (S n) => let '(rc, x) := op (flaky_dev d) in (rc, mk_flaky x (Some n))
  end.

(** Of a long write that is interrupted the first word is there. *)
Definition torn (a : Z) (bs : list Z) (x : D) : D := if (length bs <=? 8)%nat then x else (flash_write a (take 4 bs) x).2.

#[export] Instance flaky_Flash : Flash (flaky D) := {
  flash_read d := flash_read (flaky_dev d);
  flash_write a bs := spend (flash_write a bs) (torn a bs);
  flash_erase a n := spend (flash_erase a n) id;
  flash_write_protection_set b d := let '(rc, x) := flash_write_protection_set b (flaky_dev d) in (rc, mk_flaky x (flaky_left d));
  flash_get_page_info_by_offs d := flash_get_page_info_by_offs (flaky_dev d);
  write_block_size := write_block_size (D := D);
  erase_value := erase_value (D := D) }.

Definition flaky_powered d : bool := negb (bool_decide (flaky_left d = Some O)) && powered (flaky_dev d).

Lemma flaky_on d : flaky_powered d = true -> flaky_left d <> Some O /\ powered (flaky_dev d) = true.
Proof. unfold flaky_powered. intros [E ?]%andb_true_iff. split; [|done]. by apply negb_true_iff, bool_decide_eq_false in E. Qed.

Lemma spend_on op last d : flaky_powered d = true ->
  flaky_left d = Some 1%nat /\ spend op last d = (- EIO, mk_flaky (last (flaky_dev d)) (Some O)) \/
  exists left, left <> Some O /\ spend op last d = let '(rc, x) := op (flaky_dev d) in (rc, mk_flaky x left).
Proof.
  intros [Hn _]%flaky_on. unfold spend. destruct (flaky_left d) as [[|[|n]]|]; [done|by left|right; by exists (Some (S n))|right; by exists None].
Qed.

Lemma torn_only a bs x : powered x = true -> 0 <= a -> a mod 4 = 0 -> a + Z.of_nat (length bs) <= flash_size -> bytes_ok bs ->
  erased (flash_mem x) a (Z.of_nat (length bs)) -> only (flash_mem x) (flash_mem (torn a bs x)) a (Z.of_nat (length bs)).
Proof.
  intros Hx Ha Ha4 Hs Hb He. unfold torn. destruct (Nat.leb_spec (length bs) 8) as [|Hl]; [done|].
  assert (Ht : length (take 4 bs) = 4%nat) by (rewrite length_take; lia).
  pose proof (flash_write_law x a (take 4 bs) Hx Ha Ha4) as W. rewrite Ht in W.
  destruct (flash_write a (take 4 bs) x) as [rc x']. cbn [snd]. intros y Hy.
  destruct W as [(_&_&M)|(_&_&O&_)]; try done; try lia.
  - by destruct bs.
  - by apply Forall_take.
  - eapply erased_sub; [exact He|lia|lia].
  - rewrite M, mem_store_out; [done|]. rewrite Ht. lia.
  - apply O. lia.
Qed.

(** Nothing happens without power. *)
Definition inert (op : D -> D) : Prop := forall x, powered x = false -> powered (op x) = false /\ forall y, flash_mem (op x) y = flash_mem x y.

Lemma write_inert a bs : inert (fun x => (flash_write a bs x).2).
Proof. intros x Hx. pose proof (flash_write_off x a bs Hx) as W. by destruct (flash_write a bs x). Qed.

Lemma spend_off op last d : inert (fun x => (op x).2) -> inert last -> flaky_powered d = false ->
  let '(_, d') := spend op last d in flaky_powered d' = false /\ forall x, flash_mem (flaky_dev d') x = flash_mem (flaky_dev d) x.
Proof.
  intros Hop Hlast Hd. unfold spend, flaky_powered in *. specialize (Hop (flaky_dev d)). specialize (Hlast (flaky_dev d)).
  destruct d as [x [[|[|n]]|]]; cbn [flaky_left flaky_dev] in *; [done| | |]; rewrite bool_decide_false in Hd by done; specialize (Hop Hd); specialize (Hlast Hd).
  - by split; [|apply Hlast].
  - destruct (op x) as [rc x']. destruct Hop as [Hp ?]. cbn [flaky_left flaky_dev snd] in *. by rewrite Hp, andb_false_r.
  - destruct (op x) as [rc x']. destruct Hop as [Hp ?]. cbn [flaky_left flaky_dev snd] in *. by rewrite Hp, andb_false_r.
Qed.

#[export] Instance flaky_FlashOk : FlashOk (flaky D).
Proof.
  refine {| flash_mem := fun d => flash_mem (flaky_dev d); powered := flaky_powered; flash_size := flash_size (D := D); page_size := page_size (D := D) |}.
  - exact (flash_block (D := D)).
  - exact (flash_erased (D := D)).
  - intros d a. apply (flash_pages (flaky_dev d)).
  - intros d x. apply (flash_bytes (flaky_dev d)).
  - intros d a n [_ Hd]%flaky_on. by apply (flash_read_law (flaky_dev d)).
  - intros d a bs Hd Ha Ha4 Hne Hl4 Hs Hb He. cbn [flash_write flaky_Flash]. pose proof (flaky_on d Hd) as [_ Hx].
    destruct (spend_on (flash_write a bs) (torn a bs) d Hd) as [[_ ->]|(left&Hleft&->)].
    + right. do 2 (split; [done|]). split; [by apply torn_only|]. intros Hl x. cbn [flaky_dev]. unfold torn. by rewrite (proj2 (Nat.leb_le _ _) Hl).
    + pose proof (flash_write_law (flaky_dev d) a bs Hx Ha Ha4 Hne Hl4 Hs Hb He) as W. destruct (flash_write a bs (flaky_dev d)) as [rc x'].
      unfold flaky_powered. cbn [flaky_dev flaky_left]. rewrite bool_decide_false by done. exact W.
  - intros d a n Hd Ha Ham Hn Hnm Hs. cbn [flash_erase flaky_Flash]. pose proof (flaky_on d Hd) as [_ Hx].
    destruct (spend_on (flash_erase a n) id d Hd) as [[_ ->]|(left&Hleft&->)]; [right; by do 2 (split; [done|])|].
    pose proof (flash_erase_law (flaky_dev d) a n Hx Ha Ham Hn Hnm Hs) as W. destruct (flash_erase a n (flaky_dev d)) as [rc x'].
    unfold flaky_powered. cbn [flaky_dev flaky_left]. rewrite bool_decide_false by done. exact W.
  - intros d b Hd. cbn [flash_write_protection_set flaky_Flash]. pose proof (flaky_on d Hd) as [Hn Hx].
    pose proof (flash_protection_law (flaky_dev d) b Hx) as W. destruct (flash_write_protection_set b (flaky_dev d)) as [rc x'].
    unfold flaky_powered. cbn [flaky_dev flaky_left]. by rewrite bool_decide_false by done.
  - intros d a bs. apply (spend_off (flash_write a bs)); [apply write_inert|]. intros x Hx. unfold torn. destruct (_ <=? 8)%nat; [done|]. by apply write_inert.
  - intros d a n. apply (spend_off (flash_erase a n)); [|done]. intros x Hx. pose proof (flash_erase_off x a n Hx) as W. by destruct (flash_erase a n x).
  - intros d b Hd. cbn [flash_write_protection_set flaky_Flash]. pose proof (flash_protection_law (flaky_dev d) b) as W1.
    pose proof (flash_protection_off (flaky_dev d) b) as W2. unfold flaky_powered in *. destruct (flash_write_protection_set b (flaky_dev d)) as [rc x'].
    cbn [flaky_dev flaky_left]. destruct (powered (flaky_dev d)); [destruct W1 as (_&->&?); by rewrite andb_true_r in *|].
    destruct W2 as [-> ?]; [done|]. by rewrite andb_false_r.
Defined.
End flaky.

(** ** Some lives of the storage *)

(** The radio runs every second operation; a word takes 40 microseconds, and so do the
    pages of this flash. *)
Definition example_env (n : nat) : sync_env :=
  if Nat.even n then mk_sync_env false 0 [] else mk_sync_env true TICKER_STATUS_SUCCESS (replicate 1100 (slot_work (fun i => 2 * Z.of_nat i))).

Lemma example_in_time n : in_time (H := ram_ctl) (example_env n).
Proof.
  unfold example_env. destruct (Nat.even n); [done|]. apply slots_enough; [done| |done].
  apply Forall_replicate. by eexists.
Qed.

Abbreviation example_dev := (flaky (nrf_flash ram_ctl example_env)).
#[export] Instance example_nrf_ok : FlashOk (nrf_flash ram_ctl example_env) := nrf_FlashOk example_env example_in_time.

(** Three sectors of a page, behind the first page. *)
Lemma example_partition : partition (D := example_dev) 64 64 3.
Proof. by split. Qed.

Definition example_device (h : ram_ctl) (left : option nat) : example_dev := mk_flaky (mk_nrf_flash h 0) left.
Definition example_config (h : ram_ctl) : nvs_fs example_dev := mk_fs (example_device h None) 64 0 0 64 3 false.

(** Starting on a flash, with a number of operations until the power fails. *)
Definition start (h : ram_ctl) (left : option nat) : nvs_fs example_dev := (nvs_init (Some (example_device h left)) (example_config h)).2.
Definition put (id : Z) (data : list Z) (fs : nvs_fs example_dev) : nvs_fs example_dev :=
  (nvs_write (fun n => Z.of_nat n mod 256) id (Some data) (Z.of_nat (length data)) fs).2.
Definition flash_of (fs : nvs_fs example_dev) : ram_ctl := nrf_hw (flaky_dev (fs_flash fs)).
Definition empty_flash : ram_ctl := {[ 10 := 7 ]}.

Abbreviation example_step := (life_step (D := example_dev) 64 64 3).
Abbreviation example_life := (life (D := example_dev) 64 64 3).

Lemma put_lives id data fs rc :
  may_write 64 fs id data -> (nvs_write (fun n => Z.of_nat n mod 256) id (Some data) (Z.of_nat (length data)) fs).1 = rc ->
  powered (fs_flash (put id data fs)) = true -> example_step (running fs) (wrote id data rc) (running (put id data fs)).
Proof.
  intros Hm <- Hp. apply (life_write _ _ _ fs (fun n => Z.of_nat n mod 256)); [|done|apply surjective_pairing|done].
  intros n. by apply Z.mod_pos_bound.
Qed.

Lemma flash_mem_of (fs : nvs_fs example_dev) : flash_mem (fs_flash fs) = ram_mem (flash_of fs).
Proof. reflexivity. Qed.

Lemma put_lost id data fs :
  may_write 64 fs id data -> powered (fs_flash (put id data fs)) = false ->
  example_step (running fs) lost_power (down (ram_mem (flash_of (put id data fs)))).
Proof.
  intros Hm Hp. rewrite <- flash_mem_of. apply (life_write_lost _ _ _ fs (fun n => Z.of_nat n mod 256) id data (nvs_write (fun n => Z.of_nat n mod 256) id (Some data) (Z.of_nat (length data)) fs).1 (put id data fs));
    [|done|apply surjective_pairing|done]. intros n. by apply Z.mod_pos_bound.
Qed.

Lemma start_lives h left : left <> Some O -> (nvs_init (Some (example_device h left)) (example_config h)).1 = 0 -> powered (fs_flash (start h left)) = true ->
  example_step (down (ram_mem h)) (began 0) (running (start h left)).
Proof.
  intros Hl <- Hp. apply (life_start _ _ _ _ (example_device h left) (example_config h)); [done| |done|apply surjective_pairing|done].
  cbn. unfold flaky_powered. by rewrite bool_decide_false.
Qed.

Lemma start_lost h left : left <> Some O -> powered (fs_flash (start h left)) = false ->
  example_step (down (ram_mem h)) lost_power (down (ram_mem (flash_of (start h left)))).
Proof.
  intros Hl Hp. rewrite <- flash_mem_of. apply (life_start_lost _ _ _ _ (example_device h left) (example_config h) (nvs_init (Some (example_device h left)) (example_config h)).1 (start h left));
    [done| |done|apply surjective_pairing|done]. cbn. unfold flaky_powered. by rewrite bool_decide_false.
Qed.

(** Steps that are computed. *)
Ltac computed := vm_compute; reflexivity.
Ltac may_write :=
  split; [by vm_compute|]; split; [by repeat constructor|]; split; [by vm_compute|]; split; [first [intros [=]|intros _; by vm_compute]|];
  first [intros _; by (left; vm_compute)|intros _; by (right; vm_compute)|vm_compute; discriminate].
Ltac live L step := eapply life_more in L; [|step].
Ltac puts id data rc := apply (put_lives id data _ rc); [may_write|computed|computed].

(** The power fails when the first sector is to be collected, and once more in the start
    that follows. *)
Definition fs1 := put 2 [4; 5; 6; 7; 8; 9; 10; 11; 12; 13] (put 1 [1; 2; 3] (start empty_flash (Some 18%nat))).
Definition fs2 := put 3 [1] (put 1 [1] (put 2 [1] (put 1 [21; 23] (put 1 [21; 22] fs1)))).
Definition flash3 := flash_of (put 3 [9; 9] fs2).
Definition flash4 := flash_of (start flash3 (Some 1%nat)).
Definition fs5 := put 3 [] (start flash4 None).

Definition example_events : list event :=
  [began 0; wrote 1 [1; 2; 3] 3; wrote 2 [4; 5; 6; 7; 8; 9; 10; 11; 12; 13] 10; wrote 1 [21; 22] 2; wrote 1 [21; 23] 2; wrote 2 [1] 1;
   wrote 1 [1] 1; wrote 3 [1] 1; lost_power; lost_power; began 0; wrote 3 [] 0].

Lemma example_lost : example_life (down (ram_mem empty_flash)) (take 10 example_events) (down (ram_mem flash4)).
Proof.
  pose proof (life_none (D := example_dev) 64 64 3 (down (ram_mem empty_flash))) as L.
  live L ltac:(apply (start_lives empty_flash (Some 18%nat)); [done|computed|computed]).
  live L ltac:(puts 1 [1; 2; 3] 3). live L ltac:(puts 2 [4; 5; 6; 7; 8; 9; 10; 11; 12; 13] 10).
  live L ltac:(puts 1 [21; 22] 2). live L ltac:(puts 1 [21; 23] 2). live L ltac:(puts 2 [1] 1). live L ltac:(puts 1 [1] 1). live L ltac:(puts 3 [1] 1).
  live L ltac:(apply (put_lost 3 [9; 9]); [may_write|computed]). live L ltac:(apply (start_lost _ (Some 1%nat)); [done|computed]).
  unfold flash4, flash3, fs2, fs1. exact L.
Qed.

Lemma example_lives : example_life (down (ram_mem empty_flash)) example_events (running fs5).
Proof.
  pose proof example_lost as L.
  live L ltac:(apply (start_lives flash4 None); [done|computed|computed]). live L ltac:(puts 3 (@nil Z) 0). unfold fs5. exact L.
Qed.

Lemma empty_flash_erased x : x <> 10 -> ram_mem empty_flash x = 255.
Proof. intros Hx. unfold ram_mem, empty_flash. by rewrite lookup_singleton_ne. Qed.

Lemma example_erased : erased (ram_mem empty_flash) 64 (3 * 64).
Proof. intros x Hx. apply empty_flash_erased. lia. Qed.

(** What is read at the end. *)
Lemma nvs_power_safe_witness :
  nvs_read fs5 1 20 = (1, [1]) /\ nvs_read fs5 2 20 = (1, [1]) /\ nvs_read fs5 3 20 = (- ENOENT, []) /\ nvs_read fs5 4 20 = (- ENOENT, []).
Proof.
  pose proof (fun id => nvs_power_safe 64 64 3 example_partition _ _ _ id 20 example_erased example_lives) as W.
  split; [|split; [|split]]; (eapply eq_trans; [apply W; lia|computed]).
Defined.

Lemma example_startable h :
  configured 64 64 3 (example_config h) /\ powered (example_device h None) = true /\ forall x, flash_mem (example_device h None) x = ram_mem h x.
Proof. done. Qed.

(** The storage starts again after the two failures. *)
Lemma nvs_always_starts_witness : exists fs', nvs_init (Some (example_device flash4 None)) (example_config flash4) = (0, fs').
Proof.
  destruct (nvs_always_starts 64 64 3 example_partition _ _ _ example_erased example_lost) as [_ W].
  destruct (example_startable flash4) as (Hc&Hd&HM). specialize (W _ _ Hc Hd HM).
  destruct (nvs_init (Some (example_device flash4 None)) (example_config flash4)) as [rc fs'] eqn:E. exists fs'.
  replace (powered (fs_flash fs')) with true in W; [by destruct W as [-> _]|]. change fs' with (rc, fs').2. rewrite <- E. computed.
Defined.

Lemma nvs_stays_inside_witness : node_mem (running fs5) 10 = 7.
Proof. eapply eq_trans; [apply (nvs_stays_inside 64 64 3 example_partition _ _ _ 10 example_erased example_lives); left; lia|computed]. Defined.

(** ** The driver *)

(** Slots in which the clock is slow, so that each does one word. *)
Definition slow_env (events : list slot_event) : sync_env := mk_sync_env true TICKER_STATUS_SUCCESS events.
Definition slow : slot_event := slot_work (fun i => 200 * Z.of_nat i).
Definition three_words : list Z := [1; 2; 3; 4; 5; 6; 7; 8; 9; 10; 11; 12].

(** Four slots are enough for three words; after two the write is not complete. *)
Lemma flash_write_in_slots_witness :
  (exists h, flash_nrf_write (slow_env [slow; slow; slow; slow]) 64 three_words empty_flash = (0, h) /\ mem_bytes (ram_mem h) 64 12 = three_words) /\
  (exists h, flash_nrf_write (slow_env [slow; slow]) 64 three_words empty_flash = (- ETIMEDOUT, h) /\ ram_mem h 10 = 7).
Proof.
  assert (He : erased (nvmc_mem empty_flash) 64 (Z.of_nat (length three_words))) by (intros x Hx; apply empty_flash_erased; lia).
  assert (Hb : bytes_ok three_words) by (by repeat constructor).
  assert (Hno : forall n, slot_error ∉ replicate n slow) by (intros n [[=] _]%elem_of_replicate).
  split.
  - destruct (flash_write_in_slots (slow_env (replicate 4 slow)) 64 three_words empty_flash) as (h&m&M&[[E Hm]|[[_ Hn]|[_ Hn]]]);
      try done; [by left| |by apply Hno in Hn].
    rewrite (take_ge three_words m Hm) in M. exists h. split; [exact E|]. eapply eq_trans; [apply mem_bytes_ext; intros i Hi; apply M|computed].
  - destruct (flash_write_in_slots (slow_env (replicate 2 slow)) 64 three_words empty_flash) as (h&m&M&[[E _]|[[E _]|[_ Hn]]]);
      try done; [by left| |by apply Hno in Hn].
    exists h. split; [exact E|]. etrans; [apply M|]. apply mem_store_out. lia.
Defined.

Lemma failed_slot_reports_success_witness : flash_nrf_write (slow_env [slot_error; slow]) 64 three_words empty_flash = (0, empty_flash).
Proof. apply (failed_slot_reports_success _ _ _ _ [slow]); try done. by left. Defined.

(** ** Settings on this flash *)

Abbreviation plain_dev := (nrf_flash ram_ctl example_env).
Definition closing (i n : nat) : Z := 0xff.
Abbreviation plain_mount := (mount plain_dev closing).

(** Two sectors of five pages. *)
Lemma plain_partition : partition (D := plain_dev) 64 320 2.
Proof. by split. Qed.

Lemma closing_ok i n : 0 <= closing i n < 256.
Proof. done. Qed.

#[export] Instance plain_NvsOk : NvsOk plain_mount :=
  mount_NvsOk closing 64 320 2 plain_partition ltac:(lia) closing_ok (fun _ => eq_refl).

Definition plain_device (h : ram_ctl) : plain_dev := mk_nrf_flash h 0.
Definition plain_config : nvs_fs plain_dev := mk_fs (plain_device ∅) 64 0 0 320 2 false.
Definition plain_storage : plain_mount := mk_mount (nvs_init (Some (plain_device empty_flash)) plain_config).2 0.
Definition plain_settings : settings_nvs plain_mount := settings_nvs_backend_init plain_storage.

Lemma plain_settings_ok : store_ok plain_settings /\ mnt_valid closing 64 320 2 plain_storage /\ plain_settings = mk_settings_nvs plain_storage NVS_NAMECNT_ID.
Proof.
  destruct (mount_erased closing 64 320 2 plain_partition (fun _ => eq_refl) plain_config (plain_device empty_flash)) as (fs&E&Hv&He); [done| |].
  { intros x Hx. apply empty_flash_erased. lia. }
  replace fs with (mnt_fs plain_storage) in Hv, He by (unfold plain_storage; by rewrite E).
  pose proof (store_empty (F := plain_mount) plain_storage Hv He) as Hok. pose proof (restart _ Hok) as Er. cbn [cf_nvs] in Er.
  unfold plain_settings. rewrite Er. split; [exact Hok|]. split; [exact Hv|reflexivity].
Qed.

Lemma plain_takes : takes [75; 66] (cf_nvs plain_settings).
Proof.
  destruct plain_settings_ok as (_&Hv&Es). rewrite Es.
  apply (mnt_takes closing 64 320 2 plain_partition closing_ok (fun _ => eq_refl) [75; 66] plain_storage Hv); [by repeat constructor|done|done|by vm_compute].
Qed.

Lemma plain_saved : exists cf', settings_save_one (chars "bt/name") [75; 66] (Some plain_settings) = (0, Some cf').
Proof. exists (default plain_settings (settings_save_one (chars "bt/name") [75; 66] (Some plain_settings)).2). computed. Qed.

Lemma settings_survive_reboot_witness :
  exists cf' fs', settings_save_one (chars "bt/name") [75; 66] (Some plain_settings) = (0, Some cf') /\
    nvs_init (Some (plain_device (nrf_hw (fs_flash (mnt_fs (cf_nvs cf')))))) plain_config = (0, fs') /\
    Settings.holds (settings_nvs_backend_init (F := plain_mount) (mk_mount fs' 0)) (chars "bt/name") [75; 66].
Proof.
  destruct plain_saved as [cf' E].
  destruct (settings_survive_reboot closing 64 320 2 plain_partition ltac:(lia) closing_ok (fun _ => eq_refl)
    (fun _ _ _ (t : unit) => (0, t)) (chars "bt/name") [75; 66] plain_settings cf' (plain_device (nrf_hw (fs_flash (mnt_fs (cf_nvs cf'))))) plain_config tt) as (fs'&Ei&_&H&_).
  - apply plain_settings_ok.
  - split; [cbn; lia|]. split; [reflexivity|]. split; repeat constructor; done.
  - by repeat constructor.
  - done.
  - by repeat constructor.
  - intros _. exact plain_takes.
  - exact E.
  - exact (conj eq_refl (conj eq_refl eq_refl)).
  - intros x. reflexivity.
  - exists cf', fs'. split; [exact E|]. split; [exact Ei|exact H].
Defined.

(** ** Where the storage does not do what it means to *)

(** Five sectors of a page, behind the first. *)
Definition five_sectors : nvs_fs example_dev := mk_fs (example_device ∅ None) 64 0 0 64 5 false.
Definition fresh : nvs_fs example_dev := (nvs_init (Some (example_device ∅ None)) five_sectors).2.

Fixpoint write_all (ops : list (Z * list Z)) (fs : nvs_fs example_dev) : list Z * nvs_fs example_dev :=
  match ops with
  | [] => ([], fs)
  | (id, data) :: ops =>
      let '(rc, fs) := NvsFs.nvs_write (fun _ => 0xff) id (Some data) (Z.of_nat (length data)) fs in
      let '(rcs, fs) := write_all ops fs in (rc :: rcs, fs)
  end.

(** Eight entries are written and then deleted. *)
Definition eight_written : nvs_fs example_dev := (write_all ((fun id => (id, [id])) <$> seqZ 1 8) fresh).2.
Definition eight_deleted : list Z * nvs_fs example_dev := write_all ((fun id => (id, [])) <$> seqZ 1 8) eight_written.

(** Deletions can break the storage: an entry that deletes is written without a
    check for its room, so when nothing else is written the address for the next entry
    runs out of its sector.  Eight entries written to sectors of 64 bytes, and deleted
    with success, make every later operation fail with [-EINVAL]; and after a restart
    four of the deleted entries are back. *)
Theorem deletions_break_storage :
  eight_deleted.1 = replicate 8 0 /\
  (forall id, id ∈ seqZ 1 8 -> NvsFs.nvs_read eight_deleted.2 id 10 = (- EINVAL, [])) /\
  (NvsFs.nvs_write (fun _ => 0xff) 9 (Some [9]) 1 eight_deleted.2).1 = - EINVAL /\
  let restarted := nvs_init (Some (example_device (flash_of eight_deleted.2) None)) five_sectors in
  restarted.1 = 0 /\ (forall id, id ∈ seqZ 1 4 -> NvsFs.nvs_read restarted.2 id 10 = (1, [id])).
Proof.
  split; [computed|]. split; [apply Forall_forall; repeat (apply Forall_cons_2; [computed|]); apply Forall_nil_2|].
  split; [computed|]. split; [computed|]. apply Forall_forall; repeat (apply Forall_cons_2; [computed|]); apply Forall_nil_2.
Qed.

(** Data that look like an entry are taken for one when an entry that deletes has filled
    the sector: nothing was ever written under identifier 7. *)
Definition like_an_entry : list Z := ate_bytes (nvs_ate_crc8_update (mk_ate 7 0 4 255 0)).
Lemma data_taken_for_entry :
  let '(rcs, fs) := write_all [(1, [1; 2; 3; 4]); (3, [1; 2; 3; 4; 5; 6; 7; 8; 9; 10; 11; 12] ++ like_an_entry); (1, []); (3, [])] fresh in
  rcs = [4; 20; 0; 0] /\ NvsFs.nvs_read fs 7 10 = (4, [1; 2; 3; 4]).
Proof. vm_compute. split; reflexivity. Qed.

(** The history of the oldest entry has one value too many. *)
Lemma history_too_long :
  let '(_, fs) := write_all [(1, [1]); (1, [2])] fresh in
  (nvs_read_hist fs 1 10 <$> [0; 1; 2; 3]) = [(1, [2]); (1, [1]); (1, [1]); (- ENOENT, [])].
Proof. computed. Qed.
