(* ===== verification/Att.v ===== *)
(** The attribute protocol server ([subsys/bluetooth/host/att.c]): requests of the
    client, their responses and error responses, and the sending of PDUs.

    The configuration is the firmware's: one channel per connection (no EATT), no
    GATT client, no signed and no queued writes, flow control enforced.  The
    database behind the server is the class [GattServer]; the L2CAP layer below is
    the list of the results its next calls return, buffer pools the list of the
    outcomes of the next allocations. *)
From Stdlib Require Import ZArith Lia Bool.
From stdpp Require Import base numbers list.
From S2P Require Import Prelude ByteOrder Uuid Gatt.
Open Scope Z_scope.

(** ** Protocol constants *)

Definition BT_ATT_OP_ERROR_RSP : Z := 0x01.
Definition BT_ATT_OP_MTU_REQ : Z := 0x02.
Definition BT_ATT_OP_MTU_RSP : Z := 0x03.
Definition BT_ATT_OP_FIND_INFO_REQ : Z := 0x04.
Definition BT_ATT_OP_FIND_INFO_RSP : Z := 0x05.
Definition BT_ATT_OP_FIND_TYPE_REQ : Z := 0x06.
Definition BT_ATT_OP_FIND_TYPE_RSP : Z := 0x07.
Definition BT_ATT_OP_READ_TYPE_REQ : Z := 0x08.
Definition BT_ATT_OP_READ_TYPE_RSP : Z := 0x09.
Definition BT_ATT_OP_READ_REQ : Z := 0x0a.
Definition BT_ATT_OP_READ_RSP : Z := 0x0b.
Definition BT_ATT_OP_READ_BLOB_REQ : Z := 0x0c.
Definition BT_ATT_OP_READ_BLOB_RSP : Z := 0x0d.
Definition BT_ATT_OP_READ_MULT_REQ : Z := 0x0e.
Definition BT_ATT_OP_READ_MULT_RSP : Z := 0x0f.
Definition BT_ATT_OP_READ_GROUP_REQ : Z := 0x10.
Definition BT_ATT_OP_READ_GROUP_RSP : Z := 0x11.
Definition BT_ATT_OP_WRITE_REQ : Z := 0x12.
Definition BT_ATT_OP_WRITE_RSP : Z := 0x13.
Definition BT_ATT_OP_PREPARE_WRITE_REQ : Z := 0x16.
Definition BT_ATT_OP_PREPARE_WRITE_RSP : Z := 0x17.
Definition BT_ATT_OP_EXEC_WRITE_REQ : Z := 0x18.
Definition BT_ATT_OP_EXEC_WRITE_RSP : Z := 0x19.
Definition BT_ATT_OP_NOTIFY : Z := 0x1b.
Definition BT_ATT_OP_INDICATE : Z := 0x1d.
Definition BT_ATT_OP_CONFIRM : Z := 0x1e.
Definition BT_ATT_OP_WRITE_CMD : Z := 0x52.
Definition BT_ATT_OP_SIGNED_WRITE_CMD : Z := 0xd2.
Definition ATT_CMD_MASK : Z := 0x40.

Definition BT_ATT_ERR_INVALID_HANDLE : Z := 0x01.
Definition BT_ATT_ERR_INVALID_PDU : Z := 0x04.
Definition BT_ATT_ERR_NOT_SUPPORTED : Z := 0x06.
Definition BT_ATT_ERR_ATTRIBUTE_NOT_FOUND : Z := 0x0a.
Definition BT_ATT_ERR_UNLIKELY : Z := 0x0e.
Definition BT_ATT_ERR_UNSUPPORTED_GROUP_TYPE : Z := 0x10.
Definition BT_ATT_ERR_DB_OUT_OF_SYNC : Z := 0x12.

Definition BT_GATT_WRITE_FLAG_CMD : Z := BIT 1.

Definition BT_ATT_DEFAULT_LE_MTU : Z := 23.
Definition CONFIG_BT_L2CAP_RX_MTU : Z := 65.
Definition CONFIG_BT_L2CAP_TX_MTU : Z := 65.
Definition CONFIG_BT_ATT_TX_MAX : Z := 3.
Definition BT_ATT_MTU : Z :=
  if CONFIG_BT_L2CAP_RX_MTU <? CONFIG_BT_L2CAP_TX_MTU then CONFIG_BT_L2CAP_RX_MTU else CONFIG_BT_L2CAP_TX_MTU.

(** Bytes a new PDU buffer has room for behind the reserved headers, and bytes a
    further fragment from the same pool has room for. *)
Definition PDU_ROOM : Z := CONFIG_BT_L2CAP_TX_MTU.
Definition FRAG_ROOM : Z := CONFIG_BT_L2CAP_TX_MTU + 4 + 4.

Inductive att_type_t :=
  ATT_COMMAND | ATT_REQUEST | ATT_RESPONSE | ATT_NOTIFICATION | ATT_CONFIRMATION | ATT_INDICATION | ATT_UNKNOWN.

Definition one_of (op : Z) (ops : list Z) : bool := existsb (Z.eqb op) ops.

Definition att_op_get_type (op : Z) : att_type_t :=
  if one_of op [BT_ATT_OP_MTU_REQ; BT_ATT_OP_FIND_INFO_REQ; BT_ATT_OP_FIND_TYPE_REQ; BT_ATT_OP_READ_TYPE_REQ;
       BT_ATT_OP_READ_REQ; BT_ATT_OP_READ_BLOB_REQ; BT_ATT_OP_READ_MULT_REQ; BT_ATT_OP_READ_GROUP_REQ;
       BT_ATT_OP_WRITE_REQ; BT_ATT_OP_PREPARE_WRITE_REQ; BT_ATT_OP_EXEC_WRITE_REQ] then ATT_REQUEST
  else if op =? BT_ATT_OP_CONFIRM then ATT_CONFIRMATION
  else if one_of op [BT_ATT_OP_WRITE_CMD; BT_ATT_OP_SIGNED_WRITE_CMD] then ATT_COMMAND
  else if one_of op [BT_ATT_OP_ERROR_RSP; BT_ATT_OP_MTU_RSP; BT_ATT_OP_FIND_INFO_RSP; BT_ATT_OP_FIND_TYPE_RSP;
       BT_ATT_OP_READ_TYPE_RSP; BT_ATT_OP_READ_RSP; BT_ATT_OP_READ_BLOB_RSP; BT_ATT_OP_READ_MULT_RSP;
       BT_ATT_OP_READ_GROUP_RSP; BT_ATT_OP_WRITE_RSP; BT_ATT_OP_PREPARE_WRITE_RSP; BT_ATT_OP_EXEC_WRITE_RSP]
  then ATT_RESPONSE
  else if op =? BT_ATT_OP_NOTIFY then ATT_NOTIFICATION
  else if op =? BT_ATT_OP_INDICATE then ATT_INDICATION
  else if nz (op .& ATT_CMD_MASK) then ATT_COMMAND
  else ATT_UNKNOWN.

(** ** State *)

(** What the server calls of the database: the services, the read and write
    functions of the attributes, and [bt_gatt_change_aware]. *)
Class GattServer (R W D : Type) := {
  services : list (list (bt_gatt_attr R W));
  attr_do_read : attr_ptr -> bt_gatt_attr R W -> bt_conn -> Z -> Z -> D -> Z * list Z * D;
  attr_do_write : attr_ptr -> bt_gatt_attr R W -> bt_conn -> list Z -> Z -> Z -> D -> Z * D;
  bt_gatt_change_aware : bt_conn -> bool -> D -> bool * D }.

(** The functions called when a PDU has been sent. *)
Inductive sent_cb := chan_rsp_sent | chan_cfm_sent | chan_req_sent.

Abbreviation pdu := (list Z).

(** [struct bt_att_chan] and, as there is one channel, [struct bt_att]. *)
Record att_chan := mk_chan {
  tx_mtu : Z; rx_mtu : Z; pending_rsp : bool; chan_req : option pdu; chan_tx_queue : list pdu; tx_sem : Z;
  chan_sent : option sent_cb; reqs : list pdu; att_tx_queue : list pdu }.

(** [outgoing]: the PDUs given to L2CAP so far; [in_flight]: the callbacks of those
    not yet sent.  [allocs] and [l2cap] are the results of the next allocations and
    of the next calls of [bt_l2cap_send_cb]; success when they are used up. *)
Record att_world (D : Type) := mk_att {
  chan : att_chan; connected : bool; outgoing : list pdu; in_flight : list (option sent_cb);
  allocs : list bool; l2cap : list Z; db : D }.
Arguments mk_att {D}.
Arguments chan {D}.
Arguments connected {D}.
Arguments outgoing {D}.
Arguments in_flight {D}.
Arguments allocs {D}.
Arguments l2cap {D}.
Arguments db {D}.

Section updates.
Context {D : Type}.
Implicit Types (w : att_world D) (c : att_chan).

Definition set_chan c w : att_world D :=
  mk_att c (connected w) (outgoing w) (in_flight w) (allocs w) (l2cap w) (db w).
Definition set_env (a : list bool) (d : D) w : att_world D :=
  mk_att (chan w) (connected w) (outgoing w) (in_flight w) a (l2cap w) d.
Definition set_mtu (mtu : Z) c : att_chan :=
  mk_chan mtu mtu (pending_rsp c) (chan_req c) (chan_tx_queue c) (tx_sem c) (chan_sent c) (reqs c) (att_tx_queue c).
Definition set_pending_rsp (b : bool) c : att_chan :=
  mk_chan (tx_mtu c) (rx_mtu c) b (chan_req c) (chan_tx_queue c) (tx_sem c) (chan_sent c) (reqs c) (att_tx_queue c).
Definition set_chan_req (r : option pdu) c : att_chan :=
  mk_chan (tx_mtu c) (rx_mtu c) (pending_rsp c) r (chan_tx_queue c) (tx_sem c) (chan_sent c) (reqs c) (att_tx_queue c).
Definition set_chan_tx_queue (q : list pdu) c : att_chan :=
  mk_chan (tx_mtu c) (rx_mtu c) (pending_rsp c) (chan_req c) q (tx_sem c) (chan_sent c) (reqs c) (att_tx_queue c).
Definition set_tx_sem (n : Z) c : att_chan :=
  mk_chan (tx_mtu c) (rx_mtu c) (pending_rsp c) (chan_req c) (chan_tx_queue c) n (chan_sent c) (reqs c) (att_tx_queue c).
Definition set_chan_sent (s : option sent_cb) c : att_chan :=
  mk_chan (tx_mtu c) (rx_mtu c) (pending_rsp c) (chan_req c) (chan_tx_queue c) (tx_sem c) s (reqs c) (att_tx_queue c).
Definition set_reqs (q : list pdu) c : att_chan :=
  mk_chan (tx_mtu c) (rx_mtu c) (pending_rsp c) (chan_req c) (chan_tx_queue c) (tx_sem c) (chan_sent c) q (att_tx_queue c).
Definition set_att_tx_queue (q : list pdu) c : att_chan :=
  mk_chan (tx_mtu c) (rx_mtu c) (pending_rsp c) (chan_req c) (chan_tx_queue c) (tx_sem c) (chan_sent c) (reqs c) q.
End updates.

(** ** Sending *)

Section sending.
Context {D : Type}.
Implicit Types (w : att_world D) (buf : pdu) (cb : option sent_cb).

(** The next allocation from a buffer pool. *)
Definition net_buf_alloc w : bool * att_world D :=
  (hd true (allocs w), set_env (tail (allocs w)) (db w) w).

Definition chan_cb buf : option sent_cb :=
  match att_op_get_type (hd 0 buf) with
  | ATT_RESPONSE => Some chan_rsp_sent
  | ATT_CONFIRMATION => Some chan_cfm_sent
  | ATT_REQUEST | ATT_INDICATION => Some chan_req_sent
  | _ => None
  end.

(** The PDU is on its way when the result is 0; its completion calls the function
    [att_cb] picks, which for a PDU without callback leaves [chan->sent] alone. *)
Definition bt_l2cap_send_cb buf cb w : Z * att_world D :=
  let err := hd 0 (l2cap w) in
  (err, mk_att (chan w) (connected w) (if err =? 0 then outgoing w ++ [buf] else outgoing w)
          (if err =? 0 then in_flight w ++ [cb] else in_flight w) (allocs w) (tail (l2cap w)) (db w)).

(** Signed write commands are not sent in this configuration. *)
Definition chan_send buf cb w : Z * att_world D :=
  let sent := match cb with Some _ => cb | None => chan_cb buf end in
  bt_l2cap_send_cb buf sent (set_chan (set_chan_sent sent (chan w)) w).

Definition bt_att_chan_send buf cb w : Z * att_world D :=
  match cb with
  | None =>
      if tx_sem (chan w) =? 0 then (- EAGAIN, w)
      else chan_send buf cb (set_chan (set_tx_sem (tx_sem (chan w) - 1) (chan w)) w)
  | Some _ => chan_send buf cb w
  end.

Definition bt_att_chan_send_rsp buf cb w : att_world D :=
  let '(err, w) := bt_att_chan_send buf cb w in
  if nz err then set_chan (set_chan_tx_queue (chan_tx_queue (chan w) ++ [buf]) (chan w)) w else w.

Definition bt_att_chan_create_pdu (op len : Z) w : option pdu * att_world D :=
  if tx_mtu (chan w) <? len + 1 then (None, w)
  else
    let '(ok, w) := net_buf_alloc w in
    (if ok then Some [op] else None, w).

(** The channel of the connection, if it is connected. *)
Definition bt_att_create_pdu (op len : Z) w : option pdu * att_world D :=
  if negb (connected w) then (None, w)
  else if tx_mtu (chan w) <? len + 1 then (None, w)
  else bt_att_chan_create_pdu op len w.

Definition send_err_rsp (req handle err : Z) w : att_world D :=
  if req =? 0 then w
  else
    match bt_att_chan_create_pdu BT_ATT_OP_ERROR_RSP 4 w with
    | (None, w) => w
    | (Some buf, w) => bt_att_chan_send_rsp (buf ++ [u8 req] ++ le_bytes 2 handle ++ [u8 err]) (Some chan_rsp_sent) w
    end.

(** A notification: no callback of the caller's. *)
Definition bt_att_send buf w : Z * att_world D :=
  if negb (connected w) then (- ENOTCONN, w)
  else
    let '(ret, w) := bt_att_chan_send buf None w in
    (0, if ret <? 0 then set_chan (set_att_tx_queue (att_tx_queue (chan w) ++ [buf]) (chan w)) w else w).

(** *** Requests of this side: indications *)

Definition chan_req_send (req : pdu) w : Z * att_world D :=
  if tx_mtu (chan w) <? Z.of_nat (length req) then (- EMSGSIZE, w)
  else chan_send req None (set_chan (set_chan_req (Some req) (chan w)) w).

Definition bt_att_chan_req_send (req : pdu) w : Z * att_world D :=
  if tx_sem (chan w) =? 0 then (- EAGAIN, w)
  else
    let '(err, w) := chan_req_send req (set_chan (set_tx_sem (tx_sem (chan w) - 1) (chan w)) w) in
    (err, if err <? 0 then set_chan (set_tx_sem (Z.min (tx_sem (chan w) + 1) CONFIG_BT_ATT_TX_MAX) (chan w)) w else w).

Definition bt_att_req_send (req : pdu) w : Z * att_world D :=
  if negb (connected w) then (- ENOTCONN, w)
  else
    let '(sent, w) :=
      match chan_req (chan w) with
      | None => let '(ret, w) := bt_att_chan_req_send req w in (if 0 <=? ret then Some ret else None, w)
      | Some _ => (None, w)
      end in
    match sent with
    | Some ret => (ret, w)
    | None => (0, set_chan (set_reqs (reqs (chan w) ++ [req]) (chan w)) w)
    end.

Definition att_process w : att_world D :=
  match reqs (chan w) with
  | [] => w
  | node :: rest =>
      let w := set_chan (set_reqs rest (chan w)) w in
      let '(sent, w) :=
        match chan_req (chan w) with
        | None => let '(ret, w) := bt_att_chan_req_send node w in (0 <=? ret, w)
        | Some _ => (false, w)
        end in
      if sent then w else set_chan (set_reqs (node :: reqs (chan w)) (chan w)) w
  end.

(** The confirmation of an indication; the function of the request is called by
    the sender of the indication. *)
Definition att_handle_rsp w : Z * att_world D := (0, att_process (set_chan (set_chan_req None (chan w)) w)).

(** *** Completion *)

(** Sends the head of a queue; the queue is what it leaves. *)
Definition process_queue (queue : list pdu) w : Z * list pdu * att_world D :=
  match queue with
  | [] => (- ENOENT, [], w)
  | buf :: rest =>
      let '(err, w) := chan_send buf None w in
      (err, if nz err then buf :: rest else rest, w)
  end.

Definition run_sent (cb : sent_cb) (c : att_chan) : att_chan :=
  match cb with
  | chan_rsp_sent => set_pending_rsp false c
  | chan_cfm_sent | chan_req_sent => c
  end.

(** The queues, behind a request that waits: the rest of [bt_att_sent]. *)
Definition sent_queues w : att_world D :=
  let '(err, q, w) := process_queue (chan_tx_queue (chan w)) w in
  let w := set_chan (set_chan_tx_queue q (chan w)) w in
  if err =? 0 then w
  else
    let '(err, q, w) := process_queue (att_tx_queue (chan w)) w in
    let w := set_chan (set_att_tx_queue q (chan w)) w in
    if err =? 0 then w
    else set_chan (set_tx_sem (Z.min (tx_sem (chan w) + 1) CONFIG_BT_ATT_TX_MAX) (chan w)) w.

Definition bt_att_sent w : att_world D :=
  let w := set_chan (match chan_sent (chan w) with Some cb => run_sent cb (chan w) | None => chan w end) w in
  match chan_req (chan w), reqs (chan w) with
  | None, node :: rest =>
      let '(err, w) := chan_req_send node (set_chan (set_reqs rest (chan w)) w) in
      if 0 <=? err then w
      else sent_queues (set_chan (set_reqs (node :: reqs (chan w)) (chan w)) w)
  | _, _ => sent_queues w
  end.

(** L2CAP has sent the oldest PDU: [att_rsp_sent], [att_cfm_sent] and [att_req_sent]
    store their callback, [att_sent] does not. *)
Definition l2cap_sent w : att_world D :=
  match in_flight w with
  | [] => w
  | cb :: rest =>
      let w := mk_att (chan w) (connected w) (outgoing w) rest (allocs w) (l2cap w) (db w) in
      bt_att_sent (set_chan (match cb with Some _ => set_chan_sent cb (chan w) | None => chan w end) w)
  end.
End sending.

(** ** Requests *)

(** A response under construction: its fragments, the first one being the buffer
    [bt_att_create_pdu] returned.  Positions in it are a fragment and an offset. *)
Abbreviation frags := (list (list Z)).
Definition buf_pos : Type := nat * nat.

Definition frags_len (buf : frags) : Z := Z.of_nat (length (concat buf)).
Definition frag_last (buf : frags) : nat := (length buf - 1)%nat.
Definition frag_len (i : nat) (buf : frags) : Z := Z.of_nat (length (default [] (buf !! i))).
Definition net_buf_tailroom (i : nat) (buf : frags) : Z :=
  (if (i =? 0)%nat then PDU_ROOM else FRAG_ROOM) - frag_len i buf.
Definition net_buf_add (i : nat) (bs : list Z) (buf : frags) : frags := alter (fun f => f ++ bs) i buf.
Definition frag_cut (i : nat) (n : nat) (buf : frags) : frags := alter (fun f => take (length f - n) f) i buf.
Definition put_at (p : buf_pos) (bs : list Z) (buf : frags) : frags := alter (array_put p.2 bs) p.1 buf.
Definition le16_at (p : buf_pos) (buf : frags) : Z := le_value (take 2 (drop p.2 (default [] (buf !! p.1)))).

(** The 16-bit field at an offset of a request. *)
Definition le16 (off : nat) (buf : pdu) : Z := le_value (take 2 (drop off buf)).

Definition err_to_att (err : Z) : Z := if (err <? 0) && (- 0xff <=? err) then - err else BT_ATT_ERR_UNLIKELY.

(** The handle to report when a range is not valid. *)
Definition range_is_valid (start end_ : Z) : option Z :=
  if (start =? 0) || (end_ =? 0) then Some 0 else if end_ <? start then Some start else None.

Section requests.
Context {R W D : Type} `{!GattServer R W D} (conn : bt_conn).
Implicit Types (w : att_world D) (attr : bt_gatt_attr R W) (p : attr_ptr) (handle mtu : Z).

Definition att_mtu_req (buf : pdu) w : Z * att_world D :=
  let mtu_client := le16 0 buf in
  if mtu_client <? BT_ATT_DEFAULT_LE_MTU then (BT_ATT_ERR_INVALID_PDU, w)
  else
    match bt_att_create_pdu BT_ATT_OP_MTU_RSP 2 w with
    | (None, w) => (BT_ATT_ERR_UNLIKELY, w)
    | (Some pdu, w) =>
        let mtu_server := BT_ATT_MTU in
        let w := bt_att_chan_send_rsp (pdu ++ le_bytes 2 mtu_server) (Some chan_rsp_sent) w in
        (0, set_chan (set_mtu (Z.min mtu_client mtu_server) (chan w)) w)
    end.

(** *** Find information *)

Definition BT_ATT_INFO_16 : Z := 0x01.
Definition BT_ATT_INFO_128 : Z := 0x02.

(** [fi_rsp] is the format byte once there is one. *)
Record find_info_data := mk_fi { fi_buf : pdu; fi_rsp : option Z }.

Definition find_info_cb mtu p attr handle (d : find_info_data) : iter * find_info_data :=
  let d :=
    match fi_rsp d with
    | None =>
        let format := if uuid_type (attr_uuid attr) =? BT_UUID_TYPE_16 then BT_ATT_INFO_16 else BT_ATT_INFO_128 in
        mk_fi (fi_buf d ++ [format]) (Some format)
    | Some _ => d
    end in
  let room buf := u32 (mtu - Z.of_nat (length buf)) in
  if bool_decide (fi_rsp d = Some BT_ATT_INFO_16) then
    match attr_uuid attr with
    | BT_UUID_INIT_16 v =>
        let buf := fi_buf d ++ le_bytes 2 handle ++ le_bytes 2 v in
        (if 4 <? room buf then BT_GATT_ITER_CONTINUE else BT_GATT_ITER_STOP, mk_fi buf (fi_rsp d))
    | _ => (BT_GATT_ITER_STOP, d)
    end
  else
    match attr_uuid attr with
    | BT_UUID_INIT_128 v =>
        let buf := fi_buf d ++ le_bytes 2 handle ++ v in
        (if 18 <? room buf then BT_GATT_ITER_CONTINUE else BT_GATT_ITER_STOP, mk_fi buf (fi_rsp d))
    | _ => (BT_GATT_ITER_STOP, d)
    end.

Definition att_find_info_rsp (start_handle end_handle : Z) w : Z * att_world D :=
  match bt_att_create_pdu BT_ATT_OP_FIND_INFO_RSP 0 w with
  | (None, w) => (BT_ATT_ERR_UNLIKELY, w)
  | (Some buf, w) =>
      let data := bt_gatt_foreach_attr services start_handle end_handle (find_info_cb (tx_mtu (chan w))) (mk_fi buf None) in
      match fi_rsp data with
      | None => (0, send_err_rsp BT_ATT_OP_FIND_INFO_REQ start_handle BT_ATT_ERR_ATTRIBUTE_NOT_FOUND w)
      | Some _ => (0, bt_att_chan_send_rsp (fi_buf data) (Some chan_rsp_sent) w)
      end
  end.

Definition att_find_info_req (buf : pdu) w : Z * att_world D :=
  let start_handle := le16 0 buf in
  let end_handle := le16 2 buf in
  match range_is_valid start_handle end_handle with
  | Some err_handle => (0, send_err_rsp BT_ATT_OP_FIND_INFO_REQ err_handle BT_ATT_ERR_INVALID_HANDLE w)
  | None => att_find_info_rsp start_handle end_handle w
  end.

(** *** Find by type value *)

(** [ft_group] is where the last group found is; [ft_allocs] and [ft_db] are the
    parts of the world the callback works on. *)
Record find_type_data := mk_ft {
  ft_buf : frags; ft_group : option buf_pos; ft_err : Z; ft_allocs : list bool; ft_db : D }.

Definition ft_skip (d : find_type_data) : iter * find_type_data :=
  (BT_GATT_ITER_CONTINUE, mk_ft (ft_buf d) None (ft_err d) (ft_allocs d) (ft_db d)).

(** Whether the value of a service declaration is the one asked for. *)
Definition ft_matches (value uuid : list Z) (read : Z) : bool :=
  let value_len := u8 (Z.of_nat (length value)) in
  if negb (read =? value_len) then
    match bt_uuid_create value value_len, bt_uuid_create uuid read with
    | Some recvd_uuid, Some ref_uuid => bt_uuid_cmp recvd_uuid ref_uuid =? 0
    | _, _ => false
    end
  else memcmp value uuid =? 0.

(** The fragment a group goes to: the last, or a new one if that is full. *)
Definition ft_frag mtu (buf : frags) (allocs : list bool) : option frags * list bool :=
  let len := Z.min (u32 (mtu - frags_len buf)) (net_buf_tailroom (frag_last buf) buf) in
  if len =? 0 then (if hd true allocs then Some (buf ++ [[]]) else None, tail allocs) else (Some buf, allocs).

Definition find_type_cb mtu (value : list Z) p attr handle (d : find_type_data) : iter * find_type_data :=
  if bt_uuid_cmp (attr_uuid attr) BT_UUID_GATT_SECONDARY =? 0 then ft_skip d
  else if nz (bt_uuid_cmp (attr_uuid attr) BT_UUID_GATT_PRIMARY) then
    (BT_GATT_ITER_CONTINUE,
     match ft_group d with
     | Some (i, o) =>
         if le16_at (i, o + 2)%nat (ft_buf d) <? handle
         then mk_ft (put_at (i, o + 2)%nat (le_bytes 2 handle) (ft_buf d)) (ft_group d) (ft_err d) (ft_allocs d) (ft_db d)
         else d
     | None => d
     end)
  else if u32 (mtu - frags_len (ft_buf d)) <? 4 then (BT_GATT_ITER_STOP, d)
  else
    match ft_frag mtu (ft_buf d) (ft_allocs d) with
    | (None, allocs) => (BT_GATT_ITER_STOP, mk_ft (ft_buf d) (ft_group d) (ft_err d) allocs (ft_db d))
    | (Some buf, allocs) =>
        let '(read, uuid, db) := attr_do_read p attr conn 16 0 (ft_db d) in
        let d := mk_ft buf (ft_group d) (ft_err d) allocs db in
        if read <? 0 then ft_skip d
        else if negb (ft_matches value uuid read) then ft_skip d
        else
          let i := frag_last buf in
          (BT_GATT_ITER_CONTINUE,
           mk_ft (net_buf_add i (le_bytes 2 handle ++ le_bytes 2 handle) buf)
             (Some (i, Z.to_nat (frag_len i buf))) 0 allocs db)
    end.

Definition att_find_type_rsp (start_handle end_handle : Z) (value : list Z) w : Z * att_world D :=
  match bt_att_create_pdu BT_ATT_OP_FIND_TYPE_RSP 0 w with
  | (None, w) => (BT_ATT_ERR_UNLIKELY, w)
  | (Some buf, w) =>
      let data := bt_gatt_foreach_attr services start_handle end_handle (find_type_cb (tx_mtu (chan w)) value)
                    (mk_ft [buf] None BT_ATT_ERR_ATTRIBUTE_NOT_FOUND (allocs w) (db w)) in
      let w := set_env (ft_allocs data) (ft_db data) w in
      if nz (ft_err data) then (0, send_err_rsp BT_ATT_OP_FIND_TYPE_REQ start_handle (ft_err data) w)
      else (0, bt_att_chan_send_rsp (concat (ft_buf data)) (Some chan_rsp_sent) w)
  end.

Definition att_find_type_req (buf : pdu) w : Z * att_world D :=
  let start_handle := le16 0 buf in
  let end_handle := le16 2 buf in
  let type := le16 4 buf in
  let value := drop 6 buf in
  match range_is_valid start_handle end_handle with
  | Some err_handle => (0, send_err_rsp BT_ATT_OP_FIND_TYPE_REQ err_handle BT_ATT_ERR_INVALID_HANDLE w)
  | None =>
      if nz (bt_uuid_cmp (BT_UUID_INIT_16 type) BT_UUID_GATT_PRIMARY)
      then (0, send_err_rsp BT_ATT_OP_FIND_TYPE_REQ start_handle BT_ATT_ERR_ATTRIBUTE_NOT_FOUND w)
      else att_find_type_rsp start_handle end_handle value w
  end.

(** *** Reading attributes into a response *)

(** [attr_read_cb]: called after each piece, with the fragment it was read into, on
    the response and data of the caller. *)
Definition read_cb_t (X : Type) : Type := nat -> Z -> frags -> X -> bool * frags * X.

(** The loop of [att_chan_read], over pieces that fill fragments: the result, the
    response, the caller's data, allocations and database. *)
Fixpoint att_chan_read_loop {X} (fuel : nat) mtu p attr (cb : option (read_cb_t X)) (offset total : Z)
    (buf : frags) (x : X) (a : list bool) (d : D) : Z * frags * X * list bool * D :=
  match fuel with
  | O => (total, buf, x, a, d)
  | S fuel =>
      let len_of buf := Z.min (u32 (mtu - frags_len buf)) (net_buf_tailroom (frag_last buf) buf) in
      let full := len_of buf =? 0 in
      if full && negb (hd true a) then (total, buf, x, tail a, d)
      else
        let buf := if full then buf ++ [[]] else buf in
        let a := if full then tail a else a in
        let len := len_of buf in
        let '(read, bytes, d) := attr_do_read p attr conn len offset d in
        if read <? 0 then (if nz total then total else read, buf, x, a, d)
        else
          let '(ok, buf, x) := match cb with Some f => f (frag_last buf) read buf x | None => (true, buf, x) end in
          if negb ok then (total, buf, x, a, d)
          else
            let buf := net_buf_add (frag_last buf) bytes buf in
            let total := total + read in
            if (frags_len buf <? mtu) && (read =? len)
            then att_chan_read_loop fuel mtu p attr cb (u16 (offset + read)) total buf x a d
            else (total, buf, x, a, d)
  end.

(** A piece that is not the last fills the fragment it is read into, so there are
    no more pieces than bytes in the response. *)
Definition att_chan_read {X} mtu p attr (buf : frags) (offset : Z) (cb : option (read_cb_t X)) (x : X)
    (a : list bool) (d : D) : Z * frags * X * list bool * D :=
  if mtu <=? frags_len buf then (0, buf, x, a, d)
  else att_chan_read_loop (Z.to_nat mtu) mtu p attr cb offset 0 buf x a d.

(** *** Read by type *)

(** The response's length field. *)
Definition rsp_len (buf : frags) : Z := default 0 (default [] (buf !! 0%nat) !! 1%nat).
Definition set_rsp_len (n : Z) (buf : frags) : frags := put_at (0, 1)%nat [u8 n] buf.

(** [rt_item] tells whether the item pointer is set. *)
Record read_type_data := mk_rt { rt_buf : frags; rt_item : bool; rt_err : Z; rt_allocs : list bool; rt_db : D }.

Definition attr_read_type_cb : read_cb_t bool := fun frag read buf item =>
  if rsp_len buf =? 0 then (true, set_rsp_len (read + 2) buf, item)
  else if negb (rsp_len buf =? read + 2) then (false, frag_cut frag 2 buf, false)
  else (true, buf, item).

Definition read_type_cb mtu (uuid : bt_uuid) p attr handle (d : read_type_data) : iter * read_type_data :=
  if nz (bt_uuid_cmp (attr_uuid attr) uuid) then (BT_GATT_ITER_CONTINUE, d)
  else
    let err := bt_gatt_check_perm conn attr BT_GATT_PERM_READ_MASK in
    if nz err then
      (BT_GATT_ITER_STOP,
       mk_rt (rt_buf d) (rt_item d) (if nz (rsp_len (rt_buf d)) then 0 else err) (rt_allocs d) (rt_db d))
    else
      let buf := net_buf_add (frag_last (rt_buf d)) (le_bytes 2 handle) (rt_buf d) in
      let '(read, buf, item, a, db) :=
        att_chan_read mtu p attr buf 0 (Some attr_read_type_cb) true (rt_allocs d) (rt_db d) in
      if read <? 0 then (BT_GATT_ITER_STOP, mk_rt buf item (err_to_att read) a db)
      else if negb item then (BT_GATT_ITER_STOP, mk_rt buf item 0 a db)
      else
        (if rsp_len buf <? u32 (mtu - frags_len buf) then BT_GATT_ITER_CONTINUE else BT_GATT_ITER_STOP,
         mk_rt buf item 0 a db).

Definition att_read_type_rsp (uuid : bt_uuid) (start_handle end_handle : Z) w : Z * att_world D :=
  match bt_att_create_pdu BT_ATT_OP_READ_TYPE_RSP 1 w with
  | (None, w) => (BT_ATT_ERR_UNLIKELY, w)
  | (Some buf, w) =>
      let data := bt_gatt_foreach_attr services start_handle end_handle (read_type_cb (tx_mtu (chan w)) uuid)
                    (mk_rt [buf ++ [0]] false BT_ATT_ERR_ATTRIBUTE_NOT_FOUND (allocs w) (db w)) in
      let w := set_env (rt_allocs data) (rt_db data) w in
      if nz (rt_err data) then (0, send_err_rsp BT_ATT_OP_READ_TYPE_REQ start_handle (rt_err data) w)
      else (0, bt_att_chan_send_rsp (concat (rt_buf data)) (Some chan_rsp_sent) w)
  end.

Definition att_read_type_req (buf : pdu) w : Z * att_world D :=
  let uuid_len := u8 (Z.of_nat (length buf) - 4) in
  if negb (uuid_len =? 2) && negb (uuid_len =? 16) then (BT_ATT_ERR_INVALID_PDU, w)
  else
    let start_handle := le16 0 buf in
    let end_handle := le16 2 buf in
    match bt_uuid_create (drop 4 buf) uuid_len with
    | None => (BT_ATT_ERR_UNLIKELY, w)
    | Some uuid =>
        match range_is_valid start_handle end_handle with
        | Some err_handle => (0, send_err_rsp BT_ATT_OP_READ_TYPE_REQ err_handle BT_ATT_ERR_INVALID_HANDLE w)
        | None => att_read_type_rsp uuid start_handle end_handle w
        end
    end.

(** *** Read, read blob, read multiple *)

Record read_data := mk_rd { rd_buf : frags; rd_err : Z; rd_allocs : list bool; rd_db : D }.

Definition read_cb mtu (offset : Z) p attr handle (d : read_data) : iter * read_data :=
  let err := bt_gatt_check_perm conn attr BT_GATT_PERM_READ_MASK in
  if nz err then (BT_GATT_ITER_STOP, mk_rd (rd_buf d) err (rd_allocs d) (rd_db d))
  else
    let '(ret, buf, _, a, db) := att_chan_read mtu p attr (rd_buf d) offset None tt (rd_allocs d) (rd_db d) in
    if ret <? 0 then (BT_GATT_ITER_STOP, mk_rd buf (err_to_att ret) a db)
    else (BT_GATT_ITER_CONTINUE, mk_rd buf 0 a db).

Definition att_read_rsp (op rsp handle offset : Z) w : Z * att_world D :=
  let '(aware, d) := bt_gatt_change_aware conn true (db w) in
  let w := set_env (allocs w) d w in
  if negb aware then (BT_ATT_ERR_DB_OUT_OF_SYNC, w)
  else if handle =? 0 then (BT_ATT_ERR_INVALID_HANDLE, w)
  else
    match bt_att_create_pdu rsp 0 w with
    | (None, w) => (BT_ATT_ERR_UNLIKELY, w)
    | (Some buf, w) =>
        let data := bt_gatt_foreach_attr services handle handle (read_cb (tx_mtu (chan w)) offset)
                      (mk_rd [buf] BT_ATT_ERR_INVALID_HANDLE (allocs w) (db w)) in
        let w := set_env (rd_allocs data) (rd_db data) w in
        if nz (rd_err data) then (0, send_err_rsp op handle (rd_err data) w)
        else (0, bt_att_chan_send_rsp (concat (rd_buf data)) (Some chan_rsp_sent) w)
    end.

Definition att_read_req (buf : pdu) w : Z * att_world D :=
  att_read_rsp BT_ATT_OP_READ_REQ BT_ATT_OP_READ_RSP (le16 0 buf) 0 w.

Definition att_read_blob_req (buf : pdu) w : Z * att_world D :=
  att_read_rsp BT_ATT_OP_READ_BLOB_REQ BT_ATT_OP_READ_BLOB_RSP (le16 0 buf) (le16 2 buf) w.

(** The handles of the request, one after the other: the handle that failed, if any. *)
Fixpoint read_mult_loop mtu (buf : pdu) (data : read_data) : option Z * read_data :=
  match buf with
  | a :: b :: buf =>
      let handle := le_value [a; b] in
      let data := bt_gatt_foreach_attr services handle handle (read_cb mtu 0)
                    (mk_rd (rd_buf data) BT_ATT_ERR_INVALID_HANDLE (rd_allocs data) (rd_db data)) in
      if nz (rd_err data) then (Some handle, data) else read_mult_loop mtu buf data
  | _ => (None, data)
  end.

Definition att_read_mult_req (buf : pdu) w : Z * att_world D :=
  match bt_att_create_pdu BT_ATT_OP_READ_MULT_RSP 0 w with
  | (None, w) => (BT_ATT_ERR_UNLIKELY, w)
  | (Some pdu, w) =>
      let '(failed, data) := read_mult_loop (tx_mtu (chan w)) buf (mk_rd [pdu] 0 (allocs w) (db w)) in
      let w := set_env (rd_allocs data) (rd_db data) w in
      match failed with
      | Some handle => (0, send_err_rsp BT_ATT_OP_READ_MULT_REQ handle (rd_err data) w)
      | None => (0, bt_att_chan_send_rsp (concat (rd_buf data)) (Some chan_rsp_sent) w)
      end
  end.

(** *** Read by group type *)

Record read_group_data := mk_rg {
  rg_buf : frags; rg_group : option buf_pos; rg_allocs : list bool; rg_db : D }.

Definition attr_read_group_cb : read_cb_t (option buf_pos) := fun frag read buf group =>
  if rsp_len buf =? 0 then (true, set_rsp_len (read + 4) buf, group)
  else if negb (rsp_len buf =? read + 4) then (false, frag_cut 0 4 buf, None)
  else (true, buf, group).

Definition read_group_cb mtu (uuid : bt_uuid) p attr handle (d : read_group_data) : iter * read_group_data :=
  if nz (bt_uuid_cmp (attr_uuid attr) BT_UUID_GATT_PRIMARY) &&
     nz (bt_uuid_cmp (attr_uuid attr) BT_UUID_GATT_SECONDARY) then
    (BT_GATT_ITER_CONTINUE,
     match rg_group d with
     | Some (i, o) =>
         if le16_at (i, o + 2)%nat (rg_buf d) <? handle
         then mk_rg (put_at (i, o + 2)%nat (le_bytes 2 handle) (rg_buf d)) (rg_group d) (rg_allocs d) (rg_db d)
         else d
     | None => d
     end)
  else if nz (bt_uuid_cmp (attr_uuid attr) uuid) then
    (BT_GATT_ITER_CONTINUE, mk_rg (rg_buf d) None (rg_allocs d) (rg_db d))
  else if nz (rsp_len (rg_buf d)) && (mtu - frag_len 0 (rg_buf d) <? rsp_len (rg_buf d)) then (BT_GATT_ITER_STOP, d)
  else
    let group := (0, Z.to_nat (frag_len 0 (rg_buf d)))%nat in
    let buf := net_buf_add 0 (le_bytes 2 handle ++ le_bytes 2 handle) (rg_buf d) in
    let '(read, buf, group, a, db) :=
      att_chan_read mtu p attr buf 0 (Some attr_read_group_cb) (Some group) (rg_allocs d) (rg_db d) in
    let d := mk_rg buf group a db in
    if read <? 0 then (BT_GATT_ITER_STOP, d)
    else match group with None => (BT_GATT_ITER_STOP, d) | Some _ => (BT_GATT_ITER_CONTINUE, d) end.

Definition att_read_group_rsp (uuid : bt_uuid) (start_handle end_handle : Z) w : Z * att_world D :=
  match bt_att_create_pdu BT_ATT_OP_READ_GROUP_RSP 1 w with
  | (None, w) => (BT_ATT_ERR_UNLIKELY, w)
  | (Some buf, w) =>
      let data := bt_gatt_foreach_attr services start_handle end_handle (read_group_cb (tx_mtu (chan w)) uuid)
                    (mk_rg [buf ++ [0]] None (allocs w) (db w)) in
      let w := set_env (rg_allocs data) (rg_db data) w in
      if rsp_len (rg_buf data) =? 0
      then (0, send_err_rsp BT_ATT_OP_READ_GROUP_REQ start_handle BT_ATT_ERR_ATTRIBUTE_NOT_FOUND w)
      else (0, bt_att_chan_send_rsp (concat (rg_buf data)) (Some chan_rsp_sent) w)
  end.

Definition att_read_group_req (buf : pdu) w : Z * att_world D :=
  let uuid_len := u8 (Z.of_nat (length buf) - 4) in
  if negb (uuid_len =? 2) && negb (uuid_len =? 16) then (BT_ATT_ERR_INVALID_PDU, w)
  else
    let start_handle := le16 0 buf in
    let end_handle := le16 2 buf in
    match bt_uuid_create (drop 4 buf) uuid_len with
    | None => (BT_ATT_ERR_UNLIKELY, w)
    | Some uuid =>
        match range_is_valid start_handle end_handle with
        | Some err_handle => (0, send_err_rsp BT_ATT_OP_READ_GROUP_REQ err_handle BT_ATT_ERR_INVALID_HANDLE w)
        | None =>
            if nz (bt_uuid_cmp uuid BT_UUID_GATT_PRIMARY) && nz (bt_uuid_cmp uuid BT_UUID_GATT_SECONDARY)
            then (0, send_err_rsp BT_ATT_OP_READ_GROUP_REQ start_handle BT_ATT_ERR_UNSUPPORTED_GROUP_TYPE w)
            else att_read_group_rsp uuid start_handle end_handle w
        end
    end.

(** *** Writing *)

Record write_data := mk_wd { wd_err : Z; wd_db : D }.

Definition write_cb (req : Z) (value : list Z) (offset : Z) p attr handle (d : write_data) : iter * write_data :=
  let err := bt_gatt_check_perm conn attr BT_GATT_PERM_WRITE_MASK in
  if nz err then (BT_GATT_ITER_STOP, mk_wd err (wd_db d))
  else
    let flags := if req =? 0 then BT_GATT_WRITE_FLAG_CMD else 0 in
    let '(write, db) := attr_do_write p attr conn value offset flags (wd_db d) in
    if (write <? 0) || negb (write =? Z.of_nat (length value))
    then (BT_GATT_ITER_STOP, mk_wd (err_to_att write) db)
    else (BT_GATT_ITER_CONTINUE, mk_wd 0 db).

(** [req] and [rsp] are 0 for a command. *)
Definition att_write_rsp (req rsp handle offset : Z) (value : list Z) w : Z * att_world D :=
  let '(aware, d) := bt_gatt_change_aware conn (nz req) (db w) in
  let w := set_env (allocs w) d w in
  if negb aware then (BT_ATT_ERR_DB_OUT_OF_SYNC, w)
  else if handle =? 0 then (BT_ATT_ERR_INVALID_HANDLE, w)
  else
    let '(buf, w) := if nz rsp then bt_att_chan_create_pdu rsp 0 w else (None, w) in
    if nz rsp && negb (bool_decide (is_Some buf)) then (BT_ATT_ERR_UNLIKELY, w)
    else
      let data := bt_gatt_foreach_attr services handle handle (write_cb req value offset)
                    (mk_wd BT_ATT_ERR_INVALID_HANDLE (db w)) in
      let w := set_env (allocs w) (wd_db data) w in
      if nz (wd_err data) then
        (if req =? BT_ATT_OP_EXEC_WRITE_REQ then wd_err data else 0,
         if nz rsp then send_err_rsp req handle (wd_err data) w else w)
      else
        (0, match buf with Some buf => bt_att_chan_send_rsp buf (Some chan_rsp_sent) w | None => w end).

Definition att_write_req (buf : pdu) w : Z * att_world D :=
  att_write_rsp BT_ATT_OP_WRITE_REQ BT_ATT_OP_WRITE_RSP (le16 0 buf) 0 (drop 2 buf) w.

(** Without [CONFIG_BT_ATT_PREPARE_COUNT]. *)
Definition att_prepare_write_req (buf : pdu) w : Z * att_world D := (BT_ATT_ERR_NOT_SUPPORTED, w).
Definition att_exec_write_req (buf : pdu) w : Z * att_world D := (BT_ATT_ERR_NOT_SUPPORTED, w).

Definition att_write_cmd (buf : pdu) w : Z * att_world D := att_write_rsp 0 0 (le16 0 buf) 0 (drop 2 buf) w.

Definition att_confirm (buf : pdu) w : Z * att_world D := att_handle_rsp w.

(** *** Dispatch *)

Record att_handler := mk_handler {
  h_op : Z; expect_len : Z; h_type : att_type_t; h_func : pdu -> att_world D -> Z * att_world D }.

Definition handlers : list att_handler :=
  [ mk_handler BT_ATT_OP_MTU_REQ 2 ATT_REQUEST att_mtu_req;
    mk_handler BT_ATT_OP_FIND_INFO_REQ 4 ATT_REQUEST att_find_info_req;
    mk_handler BT_ATT_OP_FIND_TYPE_REQ 6 ATT_REQUEST att_find_type_req;
    mk_handler BT_ATT_OP_READ_TYPE_REQ 4 ATT_REQUEST att_read_type_req;
    mk_handler BT_ATT_OP_READ_REQ 2 ATT_REQUEST att_read_req;
    mk_handler BT_ATT_OP_READ_BLOB_REQ 4 ATT_REQUEST att_read_blob_req;
    mk_handler BT_ATT_OP_READ_MULT_REQ 4 ATT_REQUEST att_read_mult_req;
    mk_handler BT_ATT_OP_READ_GROUP_REQ 4 ATT_REQUEST att_read_group_req;
    mk_handler BT_ATT_OP_WRITE_REQ 2 ATT_REQUEST att_write_req;
    mk_handler BT_ATT_OP_PREPARE_WRITE_REQ 4 ATT_REQUEST att_prepare_write_req;
    mk_handler BT_ATT_OP_EXEC_WRITE_REQ 1 ATT_REQUEST att_exec_write_req;
    mk_handler BT_ATT_OP_CONFIRM 0 ATT_CONFIRMATION att_confirm;
    mk_handler BT_ATT_OP_WRITE_CMD 2 ATT_COMMAND att_write_cmd ].

Definition is_request (t : att_type_t) : bool := match t with ATT_REQUEST => true | _ => false end.
Definition is_command (t : att_type_t) : bool := match t with ATT_COMMAND => true | _ => false end.

Definition bt_att_recv (buf : pdu) w : att_world D :=
  match buf with
  | [] => w
  | code :: buf =>
      match find (fun h => h_op h =? code) handlers with
      | None =>
          if negb (is_command (att_op_get_type code)) then send_err_rsp code 0 BT_ATT_ERR_NOT_SUPPORTED w else w
      | Some h =>
          if is_request (h_type h) && pending_rsp (chan w) then w
          else
            let w := if is_request (h_type h) then set_chan (set_pending_rsp true (chan w)) w else w in
            let '(err, w) :=
              if Z.of_nat (length buf) <? expect_len h then (BT_ATT_ERR_INVALID_PDU, w) else h_func h buf w in
            if is_request (h_type h) && nz err then send_err_rsp code 0 err w else w
      end
  end.
End requests.
