(* ===== verification/AttFacts.v ===== *)
(** What the attribute protocol server does with a request: facts about sending and
    reading that the properties of the server share, and that every request is
    answered. *)
From Stdlib Require Import ZArith Lia Bool.
From stdpp Require Import base numbers list.
From S2P Require Import Prelude ByteOrder Uuid Gatt Att.
Open Scope Z_scope.

(** What the server relies on from the database: attributes have values, reading
    gives the part asked for, and does not change values. *)
Class GattServerOk (R W D : Type) `{!GattServer R W D} := {
  attr_value : attr_ptr -> bt_gatt_attr R W -> bt_conn -> D -> list Z;
  services_small : Z.of_nat (length (concat services)) < 2 ^ 16 - 1;
  services_uuids : Forall (fun attr => uuid_ok (attr_uuid attr)) (concat services);
  read_law p attr conn len offset d :
    (attr_do_read p attr conn len offset d).1 = bt_gatt_attr_read len offset (attr_value p attr conn d);
  read_keeps p attr conn len offset d p' attr' :
    attr_value p' attr' conn (attr_do_read p attr conn len offset d).2 = attr_value p' attr' conn d;
  aware_keeps conn req d p attr : attr_value p attr conn (bt_gatt_change_aware conn req d).2 = attr_value p attr conn d }.

(** ** Sending *)

Section sending.
Context {D : Type}.
Implicit Types (w : att_world D) (rsp : pdu).

(** The rest of the channel and the connection. *)
Definition kept w w' : Prop :=
  connected w' = connected w /\ pending_rsp (chan w') = pending_rsp (chan w) /\
  chan_req (chan w') = chan_req (chan w) /\ reqs (chan w') = reqs (chan w) /\
  tx_sem (chan w') = tx_sem (chan w) /\ att_tx_queue (chan w') = att_tx_queue (chan w).

(** Exactly one PDU more: handed to L2CAP, or queued when that fails. *)
Definition answered rsp w w' : Prop :=
  (outgoing w' = outgoing w ++ [rsp] /\ in_flight w' = in_flight w ++ [Some chan_rsp_sent] /\
   chan_tx_queue (chan w') = chan_tx_queue (chan w)) \/
  (outgoing w' = outgoing w /\ in_flight w' = in_flight w /\
   chan_tx_queue (chan w') = chan_tx_queue (chan w) ++ [rsp]).

(** Nothing sent. *)
Definition quiet w w' : Prop :=
  outgoing w' = outgoing w /\ in_flight w' = in_flight w /\ chan w' = chan w /\ connected w' = connected w.

(** Connected, buffers to be had, an MTU the buffers hold. *)
Definition ready w : Prop :=
  connected w = true /\ Forall (fun ok => ok = true) (allocs w) /\
  BT_ATT_DEFAULT_LE_MTU <= tx_mtu (chan w) <= BT_ATT_MTU.

Lemma kept_refl w : kept w w.
Proof. by repeat split. Qed.

Lemma quiet_trans w1 w2 w3 : quiet w1 w2 -> quiet w2 w3 -> quiet w1 w3.
Proof. intros (?&?&?&?) (?&?&?&?). repeat split; congruence. Qed.

Lemma quiet_refl w : quiet w w.
Proof. by repeat split. Qed.

Lemma quiet_answered rsp w1 w2 w3 :
  quiet w1 w2 -> answered rsp w2 w3 /\ kept w2 w3 -> answered rsp w1 w3 /\ kept w1 w3.
Proof.
  intros (H1&H2&H3&H4) [Ha Hk]. unfold answered, kept in *. rewrite H1, H2, H3, H4 in *. done.
Qed.

Lemma send_rsp_answered rsp w :
  let w' := bt_att_chan_send_rsp rsp (Some chan_rsp_sent) w in
  (answered rsp w w' /\ kept w w') /\ db w' = db w /\ allocs w' = allocs w.
Proof.
  intros w'. unfold answered, kept, w', bt_att_chan_send_rsp, bt_att_chan_send, chan_send, bt_l2cap_send_cb, nz.
  cbn [chan set_chan l2cap]. destruct (Z.eqb_spec (hd 0 (l2cap w)) 0); cbn; tauto.
Qed.

Lemma create_pdu_ready op len w :
  ready w -> len + 1 <= BT_ATT_DEFAULT_LE_MTU ->
  exists w', bt_att_chan_create_pdu op len w = (Some [op], w') /\ bt_att_create_pdu op len w = (Some [op], w') /\
    quiet w w' /\ ready w' /\ db w' = db w.
Proof.
  intros (Hc&Ha&Hm) Hl. exists (net_buf_alloc w).2. unfold bt_att_create_pdu, bt_att_chan_create_pdu. rewrite Hc. cbn [negb].
  destruct (Z.ltb_spec (tx_mtu (chan w)) (len + 1)); [lia|]. unfold net_buf_alloc.
  assert (hd true (allocs w) = true /\ Forall (fun ok => ok = true) (tail (allocs w))) as [-> Ht]
    by (destruct Ha; by split).
  split; [done|]. split; [done|]. split; [by repeat split|]. split; [|done]. split; [done|]. by split.
Qed.

Lemma send_err_rsp_answered req handle err w :
  ready w -> 1 <= req < 256 -> 1 <= err < 256 ->
  let w' := send_err_rsp req handle err w in
  (answered ([BT_ATT_OP_ERROR_RSP; req] ++ le_bytes 2 handle ++ [err]) w w' /\ kept w w') /\ db w' = db w.
Proof.
  intros Hr Hq He. unfold send_err_rsp. destruct (Z.eqb_spec req 0); [lia|].
  destruct (create_pdu_ready BT_ATT_OP_ERROR_RSP 4 w Hr ltac:(done)) as (w'&->&_&Hq'&_&Hd). cbn [app].
  rewrite !u8_small by lia. destruct (send_rsp_answered (BT_ATT_OP_ERROR_RSP :: req :: le_bytes 2 handle ++ [err]) w') as (H1&H2&_).
  split; [by eapply quiet_answered|]. by rewrite H2.
Qed.
End sending.

(** A response to [op] that fits: of the matching kind, or an error response. *)
Definition rsp_ok (op mtu : Z) (rsp : pdu) : Prop :=
  Z.of_nat (length rsp) <= mtu /\
  (hd 0 rsp = op + 1 \/ exists handle err, rsp = [BT_ATT_OP_ERROR_RSP; op] ++ le_bytes 2 handle ++ [err] /\ 1 <= err < 256).

Lemma err_to_att_range err : 1 <= err_to_att err < 256.
Proof. unfold err_to_att, BT_ATT_ERR_UNLIKELY. destruct (Z.ltb_spec err 0), (Z.leb_spec (- 0xff) err); cbn; lia. Qed.

Lemma check_perm_range {R W} conn (attr : bt_gatt_attr R W) mask :
  0 <= bt_gatt_check_perm conn attr mask < 256.
Proof.
  unfold bt_gatt_check_perm.
  repeat match goal with |- context [if ?b then _ else _] => destruct b end; done.
Qed.

Lemma attr_read_bounds len offset value r bytes :
  0 <= len -> 0 <= offset -> bt_gatt_attr_read len offset value = (r, bytes) ->
  (r < 0 /\ bytes = []) \/ (0 <= r <= len /\ r = Z.of_nat (length bytes)).
Proof.
  intros Hl Ho. unfold bt_gatt_attr_read. destruct (Z.ltb_spec (Z.of_nat (length value)) offset).
  - intros [= <- <-]. by left.
  - intros [= <- <-]. right. split; [lia|]. rewrite length_take, length_drop. lia.
Qed.

(** ** Reading into a response *)

Section reading.
Context {R W D : Type} `{!GattServer R W D, !GattServerOk R W D} (conn : bt_conn).
Implicit Types (attr : bt_gatt_attr R W) (p : attr_ptr) (mtu : Z) (head : list Z) (a : list bool) (d : D).

Lemma frags_one head : frags_len [head] = Z.of_nat (length head).
Proof. unfold frags_len. cbn. by rewrite app_nil_r. Qed.

(** With a buffer that holds the MTU a read is one piece. *)
Lemma chan_read_one {X} mtu p attr head offset (cb : option (read_cb_t X)) x a d r bytes :
  Z.of_nat (length head) < mtu <= PDU_ROOM -> 0 <= offset ->
  bt_gatt_attr_read (mtu - Z.of_nat (length head)) offset (attr_value p attr conn d) = (r, bytes) ->
  let d' := (attr_do_read p attr conn (mtu - Z.of_nat (length head)) offset d).2 in
  (forall ok buf y, match cb with Some f => f 0%nat r [head] x | None => (true, [head], x) end = (ok, buf, y) ->
     exists head', buf = [head'] /\ (ok = true -> length head' = length head)) ->
  att_chan_read conn mtu p attr [head] offset cb x a d =
  if r <? 0 then (r, [head], x, a, d')
  else
    let '(ok, buf, x) := match cb with Some f => f 0%nat r [head] x | None => (true, [head], x) end in
    if ok then (r, net_buf_add 0 bytes buf, x, a, d') else (0, buf, x, a, d').
Proof.
  intros Hh Ho Hr d' Hcb. unfold att_chan_read. rewrite frags_one. destruct (Z.leb_spec mtu (Z.of_nat (length head))); [lia|].
  destruct (Z.to_nat mtu) as [|fuel] eqn:Ef; [unfold PDU_ROOM, CONFIG_BT_L2CAP_TX_MTU in *; lia|]. cbn [att_chan_read_loop].
  set (len := mtu - Z.of_nat (length head)) in *.
  assert (El : Z.min (u32 (mtu - frags_len [head])) (net_buf_tailroom (frag_last [head]) [head]) = len).
  { rewrite frags_one. unfold net_buf_tailroom, frag_len. cbn.
    unfold PDU_ROOM, CONFIG_BT_L2CAP_TX_MTU in *. rewrite u32_small by lia. lia. }
  rewrite El. destruct (Z.eqb_spec len 0); [lia|]. cbn [andb]. rewrite El.
  pose proof (read_law p attr conn len offset d) as HL. rewrite Hr in HL.
  assert (Ed : attr_do_read p attr conn len offset d = (r, bytes, d')).
  { unfold d'. destruct (attr_do_read p attr conn len offset d) as [rb dd]. cbn in HL |- *. by subst rb. }
  rewrite Ed. destruct (Z.ltb_spec r 0); [done|]. cbn [frag_last length Nat.sub].
  destruct (attr_read_bounds len offset _ _ _ ltac:(unfold len; lia) Ho Hr) as [[? _]|[Hrl Hrb]]; [lia|].
  destruct (match cb with Some f => f 0%nat r [head] x | None => (true, [head], x) end) as [[ok buf] y] eqn:Ec.
  destruct (Hcb _ _ _ eq_refl) as (head'&->&Hl'). destruct ok; [|done]. cbn [negb frag_last length Nat.sub].
  change (net_buf_add 0 bytes [head']) with [head' ++ bytes]. rewrite frags_one, length_app, Hl' by done.
  destruct (Z.eqb_spec r len); [|by rewrite andb_false_r].
  rewrite (proj2 (Z.ltb_ge (Z.of_nat (length head + length bytes)) mtu)) by (unfold len in *; lia). done.
Qed.
End reading.

(** ** Every request is answered *)

Section answers.
Context {R W D : Type} `{!GattServer R W D, !GattServerOk R W D} (conn : bt_conn).
Implicit Types (w : att_world D) (rsp : pdu).

(** A handler either sends one response and returns 0, or returns an error for
    which the dispatcher sends the response. *)
Definition answers (op : Z) (f : att_world D -> Z * att_world D) : Prop :=
  forall w err w', ready w -> f w = (err, w') ->
  (err = 0 /\ exists rsp, rsp_ok op (tx_mtu (chan w)) rsp /\ answered rsp w w' /\ kept w w') \/
  (1 <= err < 256 /\ quiet w w' /\ ready w').

Lemma entry_uuid e : e ∈ entries services -> uuid_ok (attr_uuid (e_attr (R:=R) (W:=W) e)).
Proof.
  intros He. apply (proj1 (Forall_forall _ _) services_uuids). revert He. unfold entries.
  generalize 0%nat 1. generalize (services (R:=R) (W:=W)). intros svcs. induction svcs as [|svc svcs IH]; intros n h; cbn [entries_from concat].
  { by intros ?%not_elem_of_nil. }
  rewrite !elem_of_app. intros [He|He]; [left|right; by eapply IH]. clear IH. revert h He. generalize 0%nat as i.
  induction svc as [|a svc IHs]; intros i h; cbn [svc_entries]; [by intros ?%not_elem_of_nil|].
  rewrite !elem_of_cons. intros [->|He]; [by left|right]. by eapply IHs.
Qed.

Lemma le16_range off buf : bytes_ok buf -> 0 <= le16 off buf < 2 ^ 16.
Proof.
  intros Hb. unfold le16. pose proof (le_value_range (take 2 (drop off buf)) ltac:(by apply Forall_take, Forall_drop)) as H.
  assert (length (take 2 (drop off buf)) <= 2)%nat by (rewrite length_take; lia).
  split; [lia|]. eapply Z.lt_le_trans; [apply H|]. apply Z.pow_le_mono_r; lia.
Qed.

(** The two ways a handler ends, from a world [w1] in which nothing has been sent yet. *)
Lemma rsp_answers op rsp w w1 :
  quiet w w1 -> rsp_ok op (tx_mtu (chan w)) rsp ->
  exists rsp', rsp_ok op (tx_mtu (chan w)) rsp' /\ answered rsp' w (bt_att_chan_send_rsp rsp (Some chan_rsp_sent) w1) /\
    kept w (bt_att_chan_send_rsp rsp (Some chan_rsp_sent) w1).
Proof.
  intros Hq Hok. exists rsp. split; [done|]. destruct (send_rsp_answered rsp w1) as [H1 _]. by eapply quiet_answered.
Qed.

Lemma error_answers op handle err w w1 :
  quiet w w1 -> ready w1 -> 1 <= op < 256 -> 1 <= err < 256 ->
  exists rsp, rsp_ok op (tx_mtu (chan w)) rsp /\ answered rsp w (send_err_rsp op handle err w1) /\
    kept w (send_err_rsp op handle err w1).
Proof.
  intros Hq Hr Ho He. destruct (send_err_rsp_answered op handle err w1 Hr Ho He) as [H1 _].
  eexists. split; [|by eapply quiet_answered]. split; [|right; by exists handle, err].
  destruct Hr as (_&_&Hm), Hq as (_&_&Hc&_). rewrite <- Hc. change BT_ATT_DEFAULT_LE_MTU with 23 in Hm.
  cbn [app length]. rewrite length_app, le_bytes_length. cbn. lia.
Qed.

Lemma mtu_answers buf : answers BT_ATT_OP_MTU_REQ (att_mtu_req buf).
Proof.
  intros w err w' Hr. unfold att_mtu_req. destruct (le16 0 buf <? BT_ATT_DEFAULT_LE_MTU).
  { intros [= <- <-]. right. split; [done|]. split; [apply quiet_refl|done]. }
  destruct (create_pdu_ready BT_ATT_OP_MTU_RSP 2 w Hr ltac:(done)) as (w1&_&->&Hq&_). intros [= <- <-]. left. split; [done|].
  destruct Hr as (_&_&Hm). change BT_ATT_DEFAULT_LE_MTU with 23 in Hm.
  apply (rsp_answers BT_ATT_OP_MTU_REQ ([BT_ATT_OP_MTU_RSP] ++ le_bytes 2 BT_ATT_MTU) w w1 Hq).
  split; [cbn [app length]; rewrite le_bytes_length; cbn; lia|by left].
Qed.

Lemma range_valid start end_ : range_is_valid start end_ = None -> start <= end_.
Proof. unfold range_is_valid. destruct (_ || _); [done|]. destruct (Z.ltb_spec end_ start); [done|]. done. Qed.

End answers.

(** ** Find information *)

Section find_info.
Context {R W : Type}.
Implicit Types (e : attr_ptr * bt_gatt_attr R W * Z) (l : list (attr_ptr * bt_gatt_attr R W * Z)) (format mtu : Z).

Definition info_format e : Z :=
  match attr_uuid (e_attr e) with BT_UUID_INIT_16 _ => BT_ATT_INFO_16 | _ => BT_ATT_INFO_128 end.
Definition info_size format : Z := if format =? BT_ATT_INFO_16 then 4 else 18.

(** Handle and UUID, for attributes whose UUID has the format of the response. *)
Definition info_item format e : option (list Z) :=
  match attr_uuid (e_attr e) with
  | BT_UUID_INIT_16 v => if format =? BT_ATT_INFO_16 then Some (le_bytes 2 (e_handle e) ++ le_bytes 2 v) else None
  | BT_UUID_INIT_128 v => if format =? BT_ATT_INFO_16 then None else Some (le_bytes 2 (e_handle e) ++ v)
  | BT_UUID_INIT_32 _ => None
  end.

Fixpoint info_items format (n : nat) l : list (list Z) :=
  match n, l with
  | S n, e :: l => match info_item format e with Some b => b :: info_items format n l | None => [] end
  | _, _ => []
  end.

(** How many items a response holds; one byte of the MTU always stays free. *)
Definition info_capacity format mtu : nat := Z.to_nat ((mtu - 3) / info_size format).

Lemma info_item_size format e b : uuid_ok (attr_uuid (e_attr e)) -> info_item format e = Some b -> Z.of_nat (length b) = info_size format.
Proof.
  unfold info_item, info_size. destruct (attr_uuid (e_attr e)) as [v|v|v], (format =? BT_ATT_INFO_16); try done; intros Hu [= <-].
  - done.
  - destruct Hu as [Hu _]. cbn [length app]. rewrite Hu. done.
Qed.

Definition info_uuids l : Prop := Forall (fun e => uuid_ok (attr_uuid (e_attr e))) l.

(** The callback once the format is set. *)
Lemma find_info_cb_some mtu e buf format :
  find_info_cb mtu (e_ptr e) (e_attr e) (e_handle e) (mk_fi buf (Some format)) =
  match info_item format e with
  | Some b => (if info_size format <? u32 (mtu - Z.of_nat (length (buf ++ b))) then BT_GATT_ITER_CONTINUE else BT_GATT_ITER_STOP,
               mk_fi (buf ++ b) (Some format))
  | None => (BT_GATT_ITER_STOP, mk_fi buf (Some format))
  end.
Proof.
  unfold find_info_cb, info_item, info_size. cbn [fi_rsp fi_buf].
  destruct (Z.eqb_spec format BT_ATT_INFO_16) as [->|Hne].
  - rewrite bool_decide_true by done. by destruct (attr_uuid (e_attr e)).
  - rewrite bool_decide_false by congruence. by destruct (attr_uuid (e_attr e)).
Qed.

Lemma find_info_cb_none mtu e buf :
  find_info_cb mtu (e_ptr e) (e_attr e) (e_handle e) (mk_fi buf None) =
  find_info_cb mtu (e_ptr e) (e_attr e) (e_handle e) (mk_fi (buf ++ [info_format e]) (Some (info_format e))).
Proof. unfold find_info_cb, info_format. by destruct (attr_uuid (e_attr e)). Qed.

Lemma find_info_more mtu format k (m : nat) l buf :
  0 < mtu < 2 ^ 16 -> info_uuids l -> Z.of_nat (length buf) = 2 + info_size format * k -> 0 <= k ->
  (1 <= m)%nat -> k + Z.of_nat m = (mtu - 3) / info_size format ->
  iterate (length l) (find_info_cb mtu) l (mk_fi buf (Some format)) =
  mk_fi (buf ++ concat (info_items format m l)) (Some format).
Proof.
  intros Hm. revert k m buf. induction l as [|e l IH]; intros k m buf Hu Hb Hk H1 Hc.
  { destruct m; by rewrite app_nil_r. }
  apply Forall_cons in Hu as [He Hu]. cbn [length iterate]. rewrite find_info_cb_some. destruct m as [|m]; [lia|]. cbn [info_items].
  destruct (info_item format e) as [b|] eqn:Ei; [|by rewrite app_nil_r].
  pose proof (info_item_size _ _ _ He Ei) as Hs. rewrite length_app, Nat2Z.inj_add, Hb, Hs. set (n := info_size format) in *.
  assert (Hn : n = 4 \/ n = 18) by (unfold n, info_size; destruct (_ =? _); auto).
  assert (Hd := Z.div_mod (mtu - 3) n ltac:(lia)). pose proof (Z.mod_pos_bound (mtu - 3) n ltac:(lia)). rewrite <- Hc in Hd.
  cbn [concat]. rewrite app_assoc.
  assert (Hle : 2 + n * k + n <= mtu) by nia. rewrite u32_small by lia.
  destruct (Z.ltb_spec n (mtu - (2 + n * k + n))).
  - apply (IH (k + 1)); [done| |lia| |lia]. { rewrite length_app, Nat2Z.inj_add, Hb, Hs. lia. }
    destruct m; [nia|lia].
  - assert (m = 0%nat) as -> by nia. cbn. by rewrite app_nil_r.
Qed.

(** The data of the response to a request for a range with attributes. *)
Lemma find_info_data_eq mtu e l :
  23 <= mtu < 2 ^ 16 -> info_uuids (e :: l) ->
  let format := info_format e in
  iterate (length (e :: l)) (find_info_cb mtu) (e :: l) (mk_fi [BT_ATT_OP_FIND_INFO_RSP] None) =
  mk_fi ([BT_ATT_OP_FIND_INFO_RSP; format] ++ concat (info_items format (info_capacity format mtu) (e :: l))) (Some format).
Proof.
  intros Hm Hu format. cbn [length iterate]. rewrite find_info_cb_none. fold format.
  assert (Hn : info_size format = 4 \/ info_size format = 18) by (unfold info_size; destruct (_ =? _); auto).
  assert (1 <= (mtu - 3) / info_size format) by (apply Z.div_le_lower_bound; lia).
  apply (find_info_more mtu format 0 (info_capacity format mtu) (e :: l)); try done; unfold info_capacity; cbn; lia.
Qed.

Lemma info_items_length format n l :
  info_uuids l -> Z.of_nat (length (concat (info_items format n l))) <= info_size format * Z.of_nat n.
Proof.
  assert (0 <= info_size format) by (unfold info_size; destruct (_ =? _); lia).
  intros Hu. revert n. induction Hu as [|e l He _ IH]; intros [|n]; cbn [info_items concat]; try (cbn; lia).
  destruct (info_item format e) as [b|] eqn:Ei; [|cbn; lia]. cbn [concat]. rewrite length_app, Nat2Z.inj_add.
  rewrite (info_item_size _ _ _ He Ei). specialize (IH n). lia.
Qed.
End find_info.

(** ** Read by type *)

Section read_type.
Context {R W D : Type} `{!GattServer R W D, !GattServerOk R W D} (conn : bt_conn).
Implicit Types (e : attr_ptr * bt_gatt_attr R W * Z) (l : list (attr_ptr * bt_gatt_attr R W * Z)) (mtu : Z) (a : list bool) (d : D).

(** States of the database between which reading may lead. *)
Definition same_values d d' : Prop := forall p attr, attr_value p attr conn d' = attr_value p attr conn d.

Lemma same_values_refl d : same_values d d.
Proof. done. Qed.

Lemma same_values_trans d1 d2 d3 : same_values d1 d2 -> same_values d2 d3 -> same_values d1 d3.
Proof. intros H1 H2 p attr. by rewrite H2, H1. Qed.

Lemma same_values_read d p attr len offset : same_values d (attr_do_read p attr conn len offset d).2.
Proof. intros p' attr'. apply read_keeps. Qed.

Definition e_value d e : list Z := attr_value (e_ptr e) (e_attr e) conn d.
Definition e_readable e : bool := bt_gatt_check_perm conn (e_attr e) BT_GATT_PERM_READ_MASK =? 0.
Definition e_item d e : list Z := le_bytes 2 (e_handle e) ++ e_value d e.

Lemma e_value_same d d' e : same_values d d' -> e_value d' e = e_value d e.
Proof. intros H. apply H. Qed.

(** The attributes a response takes after the first: readable ones with a value of
    the same length. *)
Fixpoint type_items d (len : Z) (n : nat) l : list (list Z) :=
  match n, l with
  | S n, e :: l =>
      if e_readable e && (Z.of_nat (length (e_value d e)) + 2 =? len) then e_item d e :: type_items d len n l else []
  | _, _ => []
  end.

Lemma type_items_same d d' len n l : same_values d d' -> type_items d' len n l = type_items d len n l.
Proof.
  intros Hs. revert n. induction l as [|e l IH]; intros [|n]; try done. cbn [type_items]. unfold e_item.
  by rewrite (e_value_same d d' e Hs), IH.
Qed.

Lemma attr_read_whole len value : Z.of_nat (length value) <= len -> bt_gatt_attr_read len 0 value = (Z.of_nat (length value), value).
Proof.
  intros Hl. unfold bt_gatt_attr_read. destruct (Z.ltb_spec (Z.of_nat (length value)) 0); [lia|].
  rewrite Z.sub_0_r, Z.min_r by lia. f_equal. rewrite drop_0. apply take_ge. lia.
Qed.

Lemma attr_read_start len value :
  0 <= len -> bt_gatt_attr_read len 0 value = (Z.of_nat (length (take (Z.to_nat len) value)), take (Z.to_nat len) value).
Proof.
  intros Hl. unfold bt_gatt_attr_read. destruct (Z.ltb_spec (Z.of_nat (length value)) 0); [lia|].
  rewrite drop_0, length_take, Z.sub_0_r. f_equal; [lia|]. destruct (Z.le_ge_cases len (Z.of_nat (length value))).
  - f_equal. lia.
  - rewrite !take_ge by lia. done.
Qed.

(** The first attribute sets the length; its value is cut at the MTU. *)
Lemma read_type_first mtu uuid e op err a d :
  23 <= mtu <= PDU_ROOM -> bt_uuid_cmp (attr_uuid (e_attr e)) uuid = 0 -> e_readable e = true ->
  let v := take (Z.to_nat (mtu - 4)) (e_value d e) in
  let len := 2 + Z.of_nat (length v) in
  exists d', same_values d d' /\
  read_type_cb conn mtu uuid (e_ptr e) (e_attr e) (e_handle e) (mk_rt [[op; 0]] false err a d) =
  (if len <? mtu - 2 - len then BT_GATT_ITER_CONTINUE else BT_GATT_ITER_STOP,
   mk_rt [[op; len] ++ le_bytes 2 (e_handle e) ++ v] true 0 a d').
Proof.
  intros Hm Hu Hp v len. eexists. split; [apply (same_values_read d (e_ptr e) (e_attr e) (mtu - 4) 0)|].
  unfold read_type_cb. rewrite Hu. cbn [nz Z.eqb negb]. unfold e_readable in Hp. apply Z.eqb_eq in Hp. rewrite Hp.
  cbn [nz Z.eqb negb rt_buf rt_allocs rt_db]. change (net_buf_add (frag_last [[op; 0]]) ?b [[op; 0]]) with [[op; 0] ++ b].
  pose proof (attr_read_start (mtu - 4) (e_value d e) ltac:(lia)) as Hread. fold v in Hread.
  assert (Hv : Z.of_nat (length v) <= mtu - 4) by (unfold v; rewrite length_take; lia).
  rewrite (chan_read_one conn mtu (e_ptr e) (e_attr e) ([op; 0] ++ le_bytes 2 (e_handle e)) 0 (Some attr_read_type_cb)
    true a d (Z.of_nat (length v)) v); [|cbn; lia|done|exact Hread|].
  - destruct (Z.ltb_spec (Z.of_nat (length v)) 0); [lia|].
    assert (E : attr_read_type_cb 0%nat (Z.of_nat (length v)) [[op; 0] ++ le_bytes 2 (e_handle e)] true =
      (true, [[op; u8 (Z.of_nat (length v) + 2)] ++ le_bytes 2 (e_handle e)], true)) by done.
    rewrite E, u8_small by (unfold PDU_ROOM, CONFIG_BT_L2CAP_TX_MTU in *; lia). clear E.
    replace (Z.of_nat (length v) + 2) with len by lia.
    change (net_buf_add 0 v [?b]) with [b ++ v]. rewrite <- app_assoc.
    destruct (Z.ltb_spec (Z.of_nat (length v)) 0); [lia|]. cbn [negb]. rewrite frags_one.
    change (rsp_len [[op; len] ++ ?b]) with len. rewrite !length_app, le_bytes_length. cbn [length].
    rewrite u32_small by (unfold PDU_ROOM, CONFIG_BT_L2CAP_TX_MTU in *; lia).
    replace (mtu - Z.of_nat (2 + (2 + length v))) with (mtu - 2 - len) by lia. done.
  - intros ok buf y [= <- <- <-]. eexists. split; [done|]. done.
Qed.

(** A later attribute, with room for more than an item of the length set. *)
Lemma read_type_next mtu uuid e op len body item err a d :
  mtu <= PDU_ROOM -> bt_uuid_cmp (attr_uuid (e_attr e)) uuid = 0 -> 2 <= len ->
  Z.of_nat (length ([op; len] ++ body)) + len < mtu ->
  let head := [op; len] ++ body in
  exists d' item', same_values d d' /\
  read_type_cb conn mtu uuid (e_ptr e) (e_attr e) (e_handle e) (mk_rt [head] item err a d) =
  if e_readable e && (Z.of_nat (length (e_value d e)) + 2 =? len)
  then (if len <? mtu - Z.of_nat (length head) - len then BT_GATT_ITER_CONTINUE else BT_GATT_ITER_STOP,
        mk_rt [head ++ e_item d e] item' 0 a d')
  else (BT_GATT_ITER_STOP, mk_rt [head] item' 0 a d').
Proof.
  intros Hm Hu Hlen Hroom head. fold head in Hroom. unfold read_type_cb. rewrite Hu. cbn [nz Z.eqb negb].
  unfold e_readable. destruct (Z.eqb_spec (bt_gatt_check_perm conn (e_attr e) BT_GATT_PERM_READ_MASK) 0) as [->|Hp].
  2:{ exists d, item. split; [done|]. unfold nz at 1. rewrite (proj2 (Z.eqb_neq _ _) Hp). cbn [negb andb rt_buf rt_item rt_allocs rt_db].
      change (rsp_len [head]) with len. unfold nz. rewrite (proj2 (Z.eqb_neq len 0)) by lia. done. }
  cbn [nz Z.eqb negb rt_buf rt_allocs rt_db andb].
  change (net_buf_add (frag_last [head]) ?b [head]) with [head ++ b].
  set (room := mtu - Z.of_nat (length head) - 2). set (v := take (Z.to_nat room) (e_value d e)).
  pose proof (attr_read_start room (e_value d e) ltac:(unfold room; lia)) as Hread. fold v in Hread.
  assert (Hl : Z.of_nat (length (head ++ le_bytes 2 (e_handle e))) = Z.of_nat (length head) + 2)
    by (rewrite length_app, le_bytes_length; lia).
  assert (Hv : Z.of_nat (length v) = Z.min room (Z.of_nat (length (e_value d e)))) by (unfold v; rewrite length_take; unfold room; lia).
  exists (attr_do_read (e_ptr e) (e_attr e) conn room 0 d).2, (Z.of_nat (length (e_value d e)) + 2 =? len).
  split; [apply same_values_read|].
  assert (Hcmp : (len =? Z.of_nat (length v) + 2) = (Z.of_nat (length (e_value d e)) + 2 =? len)).
  { rewrite Hv. unfold room. destruct (Z.eqb_spec (Z.of_nat (length (e_value d e)) + 2) len).
    - apply Z.eqb_eq. lia.
    - apply Z.eqb_neq. lia. }
  assert (E : attr_read_type_cb 0%nat (Z.of_nat (length v)) [head ++ le_bytes 2 (e_handle e)] true =
    (if Z.of_nat (length (e_value d e)) + 2 =? len then (true, [head ++ le_bytes 2 (e_handle e)], true) else (false, [head], false))).
  { unfold attr_read_type_cb. change (rsp_len [head ++ le_bytes 2 (e_handle e)]) with len.
    rewrite (proj2 (Z.eqb_neq len 0)) by lia. rewrite Hcmp. destruct (_ =? len); [done|]. cbn [negb].
    unfold frag_cut. cbn [alter list_alter]. rewrite length_app, le_bytes_length, Nat.add_sub, take_app_length. done. }
  rewrite (chan_read_one conn mtu (e_ptr e) (e_attr e) (head ++ le_bytes 2 (e_handle e)) 0 (Some attr_read_type_cb)
    true a d (Z.of_nat (length v)) v).
  - rewrite E. replace (mtu - Z.of_nat (length (head ++ le_bytes 2 (e_handle e)))) with room by (unfold room; lia).
    destruct (Z.ltb_spec (Z.of_nat (length v)) 0); [lia|].
    destruct (Z.eqb_spec (Z.of_nat (length (e_value d e)) + 2) len) as [Hvl|Hvl]; [|done].
    assert (Ev : v = e_value d e) by (unfold v; apply take_ge; unfold room; lia). rewrite Ev.
    change (net_buf_add 0 ?x [?b]) with [b ++ x]. rewrite <- app_assoc. fold (e_item d e).
    destruct (Z.ltb_spec (Z.of_nat (length (e_value d e))) 0); [lia|]. cbn [negb]. rewrite frags_one.
    change (rsp_len [head ++ e_item d e]) with len.
    assert (Hi : Z.of_nat (length (head ++ e_item d e)) = Z.of_nat (length head) + len)
      by (unfold e_item; rewrite !length_app, le_bytes_length; lia).
    rewrite Hi, u32_small by (unfold PDU_ROOM, CONFIG_BT_L2CAP_TX_MTU in *; lia). rewrite Z.sub_add_distr. done.
  - rewrite Hl. unfold room in Hv. lia.
  - done.
  - rewrite Hl. replace (mtu - (Z.of_nat (length head) + 2)) with room by (unfold room; lia). exact Hread.
  - rewrite E. intros ok buf y Ec. destruct (_ =? len); injection Ec as <- <- <-; eexists; split; try done.
Qed.

Lemma read_type_more mtu uuid op len k (m : nat) l body item a d :
  mtu <= PDU_ROOM -> Forall (fun e => bt_uuid_cmp (attr_uuid (e_attr e)) uuid = 0) l -> 2 <= len ->
  Z.of_nat (length ([op; len] ++ body)) = 2 + len * k -> 0 <= k -> (1 <= m)%nat -> k + Z.of_nat m = (mtu - 3) / len ->
  exists d' item', same_values d d' /\
  iterate (length l) (read_type_cb conn mtu uuid) l (mk_rt [[op; len] ++ body] item 0 a d) =
  mk_rt [[op; len] ++ body ++ concat (type_items d len m l)] item' 0 a d'.
Proof.
  intros Hm Hu Hlen. revert k m body item d. induction Hu as [|e l He Hu IH]; intros k m body item d Hb Hk H1 Hc.
  { exists d, item. split; [done|]. destruct m; by rewrite app_nil_r. }
  assert (Hd := Z.div_mod (mtu - 3) len ltac:(lia)). pose proof (Z.mod_pos_bound (mtu - 3) len ltac:(lia)). rewrite <- Hc in Hd.
  destruct (read_type_next mtu uuid e op len body item 0 a d Hm He Hlen) as (d1&item1&Hs1&E1); [rewrite Hb; nia|].
  cbn [length iterate]. rewrite E1. destruct m as [|m]; [lia|]. cbn [type_items].
  destruct (e_readable e && _) eqn:Eg; [|exists d1, item1; split; [done|]; by rewrite app_nil_r].
  apply andb_true_iff in Eg as [_ Eg%Z.eqb_eq]. rewrite Hb. cbn [concat].
  destruct (Z.ltb_spec len (mtu - (2 + len * k) - len)).
  - destruct (IH (k + 1) m (body ++ e_item d e) item1 d1) as (d2&item2&Hs2&E2).
    + rewrite app_assoc, length_app, Nat2Z.inj_add, Hb. unfold e_item. rewrite length_app, le_bytes_length. lia.
    + lia.
    + destruct m; [nia|lia].
    + lia.
    + exists d2, item2. split; [by eapply same_values_trans|]. rewrite <- app_assoc, E2.
      rewrite (type_items_same d d1) by done. rewrite <- !app_assoc. done.
  - assert (m = 0%nat) as -> by nia. exists d1, item1. split; [done|]. cbn [type_items concat]. rewrite app_nil_r, <- app_assoc. done.
Qed.

Definition type_match (uuid : bt_uuid) l := filter (fun e => (bt_uuid_cmp (attr_uuid (e_attr e)) uuid =? 0) = true) l.

(** How many items of a length a response holds. *)
Definition type_capacity mtu (len : Z) : nat := Z.to_nat (Z.max 1 ((mtu - 3) / len)).

(** The body of the response for the matching attributes of a range, the first of
    which is readable. *)
Definition type_first mtu d e : list Z := take (Z.to_nat (mtu - 4)) (e_value d e).
Definition type_body mtu d e l : list Z :=
  let v := type_first mtu d e in
  let len := 2 + Z.of_nat (length v) in
  [len] ++ le_bytes 2 (e_handle e) ++ v ++ concat (type_items d len (type_capacity mtu len - 1) l).

Lemma read_type_data_eq mtu uuid op l a d :
  23 <= mtu <= PDU_ROOM ->
  exists d' item', same_values d d' /\
  iterate (length l) (read_type_cb conn mtu uuid) l (mk_rt [[op; 0]] false BT_ATT_ERR_ATTRIBUTE_NOT_FOUND a d) =
  match type_match uuid l with
  | [] => mk_rt [[op; 0]] item' BT_ATT_ERR_ATTRIBUTE_NOT_FOUND a d'
  | e :: l =>
      if e_readable e then mk_rt [[op] ++ type_body mtu d e l] item' 0 a d'
      else mk_rt [[op; 0]] item' (bt_gatt_check_perm conn (e_attr e) BT_GATT_PERM_READ_MASK) a d'
  end.
Proof.
  intros Hm. rewrite (iterate_filter (fun e => bt_uuid_cmp (attr_uuid (e_attr e)) uuid =? 0)).
  2:{ intros e d1 _ He. unfold read_type_cb, nz. rewrite He. done. }
  fold (type_match uuid l). assert (Hl : Forall (fun e => bt_uuid_cmp (attr_uuid (e_attr e)) uuid = 0) (type_match uuid l)).
  { apply Forall_forall. intros e He. apply list_elem_of_filter in He as [He _]. by apply Z.eqb_eq. }
  destruct (type_match uuid l) as [|e l']; [by exists d, false|]. apply Forall_cons in Hl as [He Hl]. cbn [length iterate].
  destruct (e_readable e) eqn:Ep.
  - destruct (read_type_first mtu uuid e op BT_ATT_ERR_ATTRIBUTE_NOT_FOUND a d Hm He Ep) as (d1&Hs1&E1). rewrite E1. clear E1.
    fold (type_first mtu d e). unfold type_body. set (v := type_first mtu d e). set (len := 2 + Z.of_nat (length v)).
    assert (Hlen : 2 <= len <= mtu - 2) by (unfold len, v, type_first; rewrite length_take; lia).
    unfold type_capacity. destruct (Z.ltb_spec len (mtu - 2 - len)).
    + assert (2 <= (mtu - 3) / len) by (apply Z.div_le_lower_bound; lia). destruct (read_type_more mtu uuid op len 1 (Z.to_nat ((mtu - 3) / len - 1)) l' (le_bytes 2 (e_handle e) ++ v) true a d1)
        as (d2&item2&Hs2&E2); try done; try lia.
      * cbn [app length]. rewrite length_app, le_bytes_length. lia.
      * exists d2, item2. split; [by eapply same_values_trans|]. rewrite E2.
        replace (Z.to_nat (Z.max 1 ((mtu - 3) / len)) - 1)%nat with (Z.to_nat ((mtu - 3) / len - 1)) by lia.
        rewrite (type_items_same d d1) by done. rewrite <- !app_assoc. done.
    + exists d1, true. split; [done|]. assert ((mtu - 3) / len < 2) by (apply Z.div_lt_upper_bound; lia).
      replace (Z.to_nat (Z.max 1 ((mtu - 3) / len)) - 1)%nat with 0%nat by lia. cbn [type_items concat]. by rewrite app_nil_r.
  - exists d, false. split; [done|]. unfold e_readable in Ep. unfold read_type_cb. rewrite He. cbn [nz Z.eqb negb].
    unfold nz at 1. rewrite Ep. done.
Qed.

Lemma type_items_length d len n l : 0 <= len -> Z.of_nat (length (concat (type_items d len n l))) <= len * Z.of_nat n.
Proof.
  intros Hlen. revert n. induction l as [|e l IH]; intros [|n]; cbn [type_items concat]; try (cbn; lia).
  destruct (_ && _) eqn:E; [|cbn; lia]. apply andb_true_iff in E as [_ E%Z.eqb_eq]. cbn [concat].
  rewrite length_app, Nat2Z.inj_add. unfold e_item at 1. rewrite length_app, le_bytes_length. specialize (IH n). lia.
Qed.

Lemma type_body_length mtu d e l : 23 <= mtu -> 1 + Z.of_nat (length (type_body mtu d e l)) <= mtu.
Proof.
  intros Hm. unfold type_body. set (v := type_first mtu d e). set (len := 2 + Z.of_nat (length v)).
  assert (Hlen : 2 <= len <= mtu - 2) by (unfold len, v, type_first; rewrite length_take; lia).
  rewrite !length_app, le_bytes_length. cbn [length].
  pose proof (type_items_length d len (type_capacity mtu len - 1) l ltac:(lia)) as H. unfold type_capacity in *.
  assert (Hd := Z.div_mod (mtu - 3) len ltac:(lia)). pose proof (Z.mod_pos_bound (mtu - 3) len ltac:(lia)). nia.
Qed.
End read_type.

(** ** Every request is answered *)

Section answered.
Context {R W D : Type} `{!GattServer R W D, !GattServerOk R W D} (conn : bt_conn).
Implicit Types (w : att_world D) (rsp : pdu) (head : list Z) (mtu op : Z) (a : list bool) (d : D).

(** A response under construction: one fragment, within the MTU. *)
Definition one_frag op mtu (buf : frags) : Prop :=
  exists head, buf = [head] /\ hd 0 head = op /\ 1 <= Z.of_nat (length head) <= mtu.

Lemma one_frag_rsp_ok op mtu buf : one_frag (op + 1) mtu buf -> rsp_ok op mtu (concat buf).
Proof. intros (head&->&Hh&Hl). cbn. rewrite app_nil_r. split; [lia|by left]. Qed.

Lemma hd_app_ne {A} (x : A) xs ys : (1 <= length xs)%nat -> hd x (xs ++ ys) = hd x xs.
Proof. destruct xs; cbn; [lia|done]. Qed.

Lemma read_cb_inv mtu op offset e r :
  23 <= mtu <= PDU_ROOM -> 0 <= offset ->
  one_frag op mtu (rd_buf r) ->
  let r' := (read_cb conn mtu offset (e_ptr (R:=R) (W:=W) e) (e_attr e) (e_handle e) r).2 in
  one_frag op mtu (rd_buf r') /\ rd_allocs r' = rd_allocs r /\ 0 <= rd_err r' < 256.
Proof.
  intros Hm Ho (head&Hb&Hh&Hl). destruct r as [buf err a d]. cbn [rd_buf] in Hb. subst buf. unfold read_cb. cbn [rd_buf rd_allocs rd_db].
  pose proof (check_perm_range conn (e_attr e) BT_GATT_PERM_READ_MASK) as Hp.
  destruct (nz (bt_gatt_check_perm conn (e_attr e) BT_GATT_PERM_READ_MASK)); [cbn; split; [by exists head|done]|].
  destruct (Z.leb_spec mtu (Z.of_nat (length head))) as [Hfull|Hroom].
  { unfold att_chan_read. rewrite frags_one, (proj2 (Z.leb_le _ _)) by lia. cbn. split; [by exists head|done]. }
  destruct (bt_gatt_attr_read (mtu - Z.of_nat (length head)) offset (attr_value (e_ptr e) (e_attr e) conn d)) as [n bytes] eqn:Er.
  rewrite (chan_read_one conn mtu (e_ptr e) (e_attr e) head offset None tt a d n bytes); [|lia|done|done|].
  2:{ intros ok buf y [= <- <- <-]. by exists head. }
  destruct (attr_read_bounds (mtu - Z.of_nat (length head)) offset _ _ _ ltac:(lia) Ho Er) as [[Hn ->]|[Hn Hlen]].
  - rewrite (proj2 (Z.ltb_lt n 0)) by lia. rewrite (proj2 (Z.ltb_lt n 0)) by lia. cbn. split; [by exists head|]. split; [done|].
    pose proof (err_to_att_range n). lia.
  - rewrite (proj2 (Z.ltb_ge n 0)) by lia. rewrite (proj2 (Z.ltb_ge n 0)) by lia. cbn. split; [|done].
    exists (head ++ bytes). split; [done|]. rewrite hd_app_ne, length_app by lia. split; [done|]. lia.
Qed.

Lemma array_put_length off bs (l : list Z) : (off + length bs <= length l)%nat -> length (array_put off bs l) = length l.
Proof. intros. unfold array_put. rewrite !length_app, length_take, length_drop. lia. Qed.

(** A group in the response and its end handle being updated. *)
Definition group_in (group : option buf_pos) (buf : frags) : Prop :=
  forall p, group = Some p -> p.1 = 0%nat /\ (1 <= p.2)%nat /\ Z.of_nat p.2 + 4 <= frag_len 0 buf.

Lemma put_at_inv op mtu i o bs buf :
  length bs = 2%nat -> one_frag op mtu buf -> group_in (Some (i, o)) buf ->
  one_frag op mtu (put_at (i, o + 2)%nat bs buf) /\ group_in (Some (i, o)) (put_at (i, o + 2)%nat bs buf).
Proof.
  intros Hbs (head&->&Hh&Hl) Hg. destruct (Hg (i, o) eq_refl) as (Hi&Ho&Hlen). cbn in Hi. subst i.
  unfold frag_len in Hlen. cbn in Hlen. unfold put_at. cbn [fst snd alter list_alter].
  assert (Hal : length (array_put (o + 2) bs head) = length head) by (apply array_put_length; lia).
  split.
  - exists (array_put (o + 2) bs head). split; [done|]. rewrite Hal. split; [|done].
    rewrite <- Hh. unfold array_put. destruct head; [cbn in Hl; lia|]. by rewrite Nat.add_comm.
  - intros p [= <-]. unfold frag_len. cbn. rewrite Hal. split; [done|]. split; [done|]. lia.
Qed.

Lemma add_group_inv op mtu bs head :
  length bs = 4%nat -> one_frag op mtu [head] -> Z.of_nat (length head) + 4 <= mtu ->
  one_frag op mtu (net_buf_add 0 bs [head]) /\ group_in (Some (0, Z.to_nat (frag_len 0 [head]))%nat) (net_buf_add 0 bs [head]).
Proof.
  intros Hbs (head'&[= <-]&Hh&Hl) Hm. unfold net_buf_add. cbn [alter list_alter]. split.
  - exists (head ++ bs). split; [done|]. rewrite hd_app_ne, length_app by lia. split; [done|]. lia.
  - intros p [= <-]. unfold frag_len. cbn. rewrite length_app. lia.
Qed.

Lemma group_none buf : group_in None buf.
Proof. intros p [=]. Qed.

Lemma ft_frag_one mtu head a : Z.of_nat (length head) < mtu <= PDU_ROOM -> ft_frag mtu [head] a = (Some [head], a).
Proof.
  intros H. unfold ft_frag. rewrite frags_one. unfold net_buf_tailroom, frag_len. cbn [frag_last length Nat.sub Nat.eqb].
  change (default [] ([head] !! 0%nat)) with head. unfold PDU_ROOM, CONFIG_BT_L2CAP_TX_MTU in *. rewrite u32_small by lia.
  destruct (Z.eqb_spec (Z.min (mtu - Z.of_nat (length head)) (65 - Z.of_nat (length head))) 0); [lia|done].
Qed.

Definition ft_ok op mtu (t : find_type_data (D:=D)) : Prop :=
  one_frag op mtu (ft_buf t) /\ 0 <= ft_err t < 256 /\ group_in (ft_group t) (ft_buf t).

Lemma find_type_cb_inv mtu op value e t :
  23 <= mtu <= PDU_ROOM -> ft_ok op mtu t ->
  let t' := (find_type_cb conn mtu value (e_ptr (R:=R) (W:=W) e) (e_attr e) (e_handle e) t).2 in
  ft_ok op mtu t' /\ ft_allocs t' = ft_allocs t.
Proof.
  intros Hm. destruct t as [buf group err a d]. unfold ft_ok, find_type_cb, ft_skip. cbn [ft_buf ft_group ft_err ft_allocs ft_db].
  intros (Hb&He&Hg). destruct (_ =? 0); [cbn; auto using group_none|].
  destruct (nz _).
  { cbn [snd]. destruct group as [[i o]|]; [|done]. destruct (_ <? _); [|done].
    destruct (put_at_inv op mtu i o (le_bytes 2 (e_handle e)) buf (le_bytes_length 2 _) Hb Hg) as [H1 H2].
    split; [|done]. split; [exact H1|]. split; [exact He|exact H2]. }
  destruct Hb as (head&->&Hh&Hl). rewrite frags_one. unfold PDU_ROOM, CONFIG_BT_L2CAP_TX_MTU in Hm.
  rewrite u32_small by lia. destruct (Z.ltb_spec (mtu - Z.of_nat (length head)) 4) as [|Hroom].
  { cbn. split; [|done]. split; [by exists head|]. done. }
  rewrite ft_frag_one by (unfold PDU_ROOM, CONFIG_BT_L2CAP_TX_MTU; lia).
  destruct (attr_do_read _ _ _ _ _ _) as [[read uuid] d']. destruct (read <? 0); [cbn; split; [|done]; split; [by exists head|auto using group_none]|].
  destruct (negb _); [cbn; split; [|done]; split; [by exists head|auto using group_none]|]. cbn [snd ft_buf ft_err ft_group ft_allocs].
  destruct (add_group_inv op mtu (le_bytes 2 (e_handle e) ++ le_bytes 2 (e_handle e)) head) as [H1 H2]; [done|by exists head|lia|].
  split; [|done]. split; [done|]. split; [done|]. exact H2.
Qed.

Definition rg_ok op mtu (t : read_group_data (D:=D)) : Prop :=
  one_frag op mtu (rg_buf t) /\ group_in (rg_group t) (rg_buf t) /\ 2 <= frag_len 0 (rg_buf t) /\
  (rsp_len (rg_buf t) = 0 -> frag_len 0 (rg_buf t) = 2) /\ (rsp_len (rg_buf t) <> 0 -> 4 <= rsp_len (rg_buf t)).

Lemma rsp_len_app head bs : (2 <= length head)%nat -> rsp_len [head ++ bs] = rsp_len [head].
Proof. intros. unfold rsp_len. cbn. by rewrite lookup_app_l by lia. Qed.

Lemma put_at_rsp_len op mtu i o bs buf :
  length bs = 2%nat -> one_frag op mtu buf -> group_in (Some (i, o)) buf ->
  rsp_len (put_at (i, o + 2)%nat bs buf) = rsp_len buf /\ frag_len 0 (put_at (i, o + 2)%nat bs buf) = frag_len 0 buf.
Proof.
  intros Hbs (head&->&Hh&Hl) Hg. destruct (Hg (i, o) eq_refl) as (Hi&Ho&Hlen). cbn in Hi. subst i.
  change (frag_len 0 [head]) with (Z.of_nat (length head)) in *. cbn [snd] in *.
  change (put_at (0, o + 2)%nat bs [head]) with [array_put (o + 2) bs head].
  change (frag_len 0 [?x]) with (Z.of_nat (length x)). rewrite array_put_length by lia. split; [|done].
  unfold array_put. destruct head as [|x [|y head]]; cbn in Hlen; [lia|lia|]. destruct o as [|o]; [lia|].
  by rewrite !(Nat.add_comm _ 2).
Qed.

Lemma rg_ok_intro op mtu head group a d :
  hd 0 head = op -> 2 <= Z.of_nat (length head) <= mtu -> 4 <= rsp_len [head] -> group_in group [head] ->
  rg_ok op mtu (mk_rg [head] group a d).
Proof.
  intros Hh Hl HL Hg. unfold rg_ok. cbn [rg_buf rg_group]. change (frag_len 0 [head]) with (Z.of_nat (length head)).
  split; [exists head; split; [done|]; split; [done|lia]|]. split; [done|]. split; [lia|]. split; [lia|done].
Qed.

(** The length field being set. *)
Lemma set_rsp_len_one n head : (2 <= length head)%nat ->
  exists head', set_rsp_len n [head] = [head'] /\ length head' = length head /\ hd 0 head' = hd 0 head /\ rsp_len [head'] = u8 n.
Proof. destruct head as [|x [|y head]]; cbn; try lia. intros _. by eexists. Qed.

Lemma read_group_add_inv mtu op e head a d :
  23 <= mtu <= PDU_ROOM -> hd 0 head = op -> 2 <= Z.of_nat (length head) -> Z.of_nat (length head) + 4 <= mtu ->
  (rsp_len [head] = 0 -> Z.of_nat (length head) = 2) -> (rsp_len [head] <> 0 -> 4 <= rsp_len [head]) ->
  let '(_, buf, group, a', d') :=
    att_chan_read conn mtu (e_ptr (R:=R) (W:=W) e) (e_attr e) (net_buf_add 0 (le_bytes 2 (e_handle e) ++ le_bytes 2 (e_handle e)) [head]) 0
      (Some attr_read_group_cb) (Some (0, Z.to_nat (frag_len 0 [head]))%nat) a d in
  rg_ok op mtu (mk_rg buf group a' d') /\ a' = a.
Proof.
  intros Hm Hh H2 Hroom H0 H4. change (net_buf_add 0 ?b [head]) with [head ++ b].
  set (g := le_bytes 2 (e_handle e) ++ le_bytes 2 (e_handle e)). assert (Hgl : length g = 4%nat) by done.
  assert (Hrg : rsp_len [head ++ g] = rsp_len [head]) by (apply rsp_len_app; lia).
  assert (Hgr : group_in (Some (0, Z.to_nat (frag_len 0 [head]))%nat) [head ++ g]).
  { intros p [= <-]. change (frag_len 0 [?x]) with (Z.of_nat (length x)). cbn [fst snd]. rewrite length_app, Hgl. lia. }
  destruct (Z.leb_spec mtu (Z.of_nat (length (head ++ g)))) as [Hfull|Hfree].
  { unfold att_chan_read. rewrite frags_one, (proj2 (Z.leb_le _ _)) by done. split; [|done]. unfold rg_ok. cbn [rg_buf rg_group].
    rewrite Hrg. change (frag_len 0 [?x]) with (Z.of_nat (length x)). rewrite length_app in *.
    split; [exists (head ++ g); rewrite hd_app_ne, length_app by lia; split; [done|]; split; [done|lia]|].
    split; [exact Hgr|]. split; [lia|]. split; [|done]. intros E. specialize (H0 E). lia. }
  set (room := mtu - Z.of_nat (length (head ++ g))). set (v := take (Z.to_nat room) (attr_value (e_ptr e) (e_attr e) conn d)).
  pose proof (attr_read_start room (attr_value (e_ptr e) (e_attr e) conn d) ltac:(unfold room; lia)) as Hread. fold v in Hread.
  assert (Hv : Z.of_nat (length v) <= room) by (unfold v; rewrite length_take; unfold room; lia).
  set (grp := (0, Z.to_nat (frag_len 0 [head]))%nat) in *.
  assert (E : exists ok head' grp', attr_read_group_cb 0%nat (Z.of_nat (length v)) [head ++ g] (Some grp) = (ok, [head'], grp') /\
    (if ok then hd 0 head' = op /\ length head' = length (head ++ g) /\ 4 <= rsp_len [head'] /\ grp' = Some grp
     else head' = head /\ grp' = None /\ rsp_len [head] <> 0)).
  { unfold attr_read_group_cb. rewrite Hrg. destruct (Z.eqb_spec (rsp_len [head]) 0).
    - destruct (set_rsp_len_one (Z.of_nat (length v) + 4) (head ++ g)) as (head'&->&L1&L2&L3); [rewrite length_app; lia|].
      exists true, head', (Some grp). split; [done|]. rewrite L1, L2, L3, hd_app_ne by lia. split; [done|]. split; [done|]. split; [|done].
      unfold PDU_ROOM, CONFIG_BT_L2CAP_TX_MTU in Hm. unfold room in Hv. rewrite u8_small by lia. lia.
    - destruct (negb _).
      + exists false, head, None. split; [|done]. unfold frag_cut. cbn [alter list_alter].
        by rewrite length_app, Hgl, Nat.add_sub, take_app_length.
      + exists true, (head ++ g), (Some grp). split; [done|]. rewrite hd_app_ne, Hrg by lia. auto. }
  destruct E as (ok&head'&grp'&E&Hok).
  rewrite (chan_read_one conn mtu (e_ptr e) (e_attr e) (head ++ g) 0 (Some attr_read_group_cb) (Some grp) a d (Z.of_nat (length v)) v);
    [|lia|done|exact Hread|].
  2:{ rewrite E. intros ok0 buf0 y [= <- <- <-]. exists head'. split; [done|]. intros ->. apply Hok. }
  rewrite E, (proj2 (Z.ltb_ge _ 0)) by lia. destruct ok; (split; [|done]).
  - destruct Hok as (O1&O2&O3&->). change (net_buf_add 0 v [head']) with [head' ++ v].
    rewrite length_app in O2. assert (2 <= length head')%nat by lia. unfold room in Hv. rewrite length_app in Hv.
    apply rg_ok_intro; [by rewrite hd_app_ne by lia|rewrite length_app; lia|by rewrite rsp_len_app|].
    intros p [= <-]. change (frag_len 0 [?x]) with (Z.of_nat (length x)). unfold grp. cbn [fst snd].
    change (frag_len 0 [head]) with (Z.of_nat (length head)). rewrite length_app. lia.
  - destruct Hok as (->&->&O3). apply rg_ok_intro; [done|lia|auto|apply group_none].
Qed.

Lemma read_group_cb_inv mtu op uuid e t :
  23 <= mtu <= PDU_ROOM -> rg_ok op mtu t ->
  let t' := (read_group_cb conn mtu uuid (e_ptr (R:=R) (W:=W) e) (e_attr e) (e_handle e) t).2 in
  rg_ok op mtu t' /\ rg_allocs t' = rg_allocs t.
Proof.
  intros Hm Ht. assert (Ht' := Ht). destruct t as [buf group a d]. destruct Ht' as (Hb&Hg&H2&H0&H4). unfold read_group_cb.
  cbn [rg_buf rg_group rg_allocs rg_db] in *.
  destruct (nz (bt_uuid_cmp (attr_uuid (e_attr e)) BT_UUID_GATT_PRIMARY) && _).
  { cbn [snd]. destruct group as [[i o]|]; [|done]. destruct (_ <? _); [|done]. split; [|done].
    destruct (put_at_inv op mtu i o (le_bytes 2 (e_handle e)) buf (le_bytes_length 2 _) Hb Hg) as [P1 P2].
    destruct (put_at_rsp_len op mtu i o (le_bytes 2 (e_handle e)) buf (le_bytes_length 2 _) Hb Hg) as [P3 P4].
    unfold rg_ok. cbn [rg_buf rg_group]. rewrite P3, P4. auto. }
  destruct (nz (bt_uuid_cmp (attr_uuid (e_attr e)) uuid)).
  { cbn [snd]. split; [|done]. unfold rg_ok. cbn [rg_buf rg_group]. auto using group_none. }
  destruct Hb as (head&->&Hh&Hl). change (frag_len 0 [head]) with (Z.of_nat (length head)) in *.
  destruct (nz (rsp_len [head]) && (mtu - Z.of_nat (length head) <? rsp_len [head])) eqn:Eroom; [done|].
  assert (Hroom : Z.of_nat (length head) + 4 <= mtu).
  { apply andb_false_iff in Eroom as [E|E].
    - unfold nz in E. apply negb_false_iff, Z.eqb_eq, H0 in E. lia.
    - apply Z.ltb_ge in E. destruct (Z.eq_dec (rsp_len [head]) 0) as [E0|E0]; [specialize (H0 E0); lia|]. specialize (H4 E0). lia. }
  pose proof (read_group_add_inv mtu op e head a d Hm Hh H2 Hroom H0 H4) as P.
  change (frag_len 0 [head]) with (Z.of_nat (length head)) in P.
  destruct (att_chan_read _ _ _ _ _ _ _ _ _ _) as [[[[r buf] grp] a'] d']. destruct P as [P1 P2].
  destruct (r <? 0); [by split|]. by destruct grp.
Qed.

Lemma set_env_quiet a d w : quiet w (set_env a d w).
Proof. by repeat split. Qed.

Lemma set_env_ready a d w : ready w -> a = allocs w -> ready (set_env a d w).
Proof. intros Hr ->. exact Hr. Qed.

Lemma ready_mtu w : ready w -> 23 <= tx_mtu (chan w) <= PDU_ROOM.
Proof. by intros (_&_&?). Qed.

(** The end of the handlers that work on the database. *)
Lemma finish_answers op handle rsp err a d w w1 :
  quiet w w1 -> ready w1 -> a = allocs w1 -> 1 <= op < 256 -> 0 <= err < 256 ->
  (err = 0 -> rsp_ok op (tx_mtu (chan w)) rsp) ->
  let w2 := set_env a d w1 in
  exists rsp', rsp_ok op (tx_mtu (chan w)) rsp' /\
    answered rsp' w (if nz err then send_err_rsp op handle err w2 else bt_att_chan_send_rsp rsp (Some chan_rsp_sent) w2) /\
    kept w (if nz err then send_err_rsp op handle err w2 else bt_att_chan_send_rsp rsp (Some chan_rsp_sent) w2).
Proof.
  intros Hq Hr Ha Ho He Hok w2. assert (Hq2 : quiet w w2) by (eapply quiet_trans; [exact Hq|apply set_env_quiet]).
  unfold nz. destruct (Z.eqb_spec err 0); cbn [negb].
  - apply rsp_answers; auto.
  - apply error_answers; [done|by apply set_env_ready|done|lia].
Qed.

(** An invalid range of handles is answered with an error. *)
Lemma range_answers op handle w :
  ready w -> 1 <= op < 256 ->
  exists rsp, rsp_ok op (tx_mtu (chan w)) rsp /\ answered rsp w (send_err_rsp op handle BT_ATT_ERR_INVALID_HANDLE w) /\
    kept w (send_err_rsp op handle BT_ATT_ERR_INVALID_HANDLE w).
Proof. intros. apply error_answers; [apply quiet_refl|done|done|done]. Qed.

Lemma find_info_answers buf : answers BT_ATT_OP_FIND_INFO_REQ (att_find_info_req (R:=R) (W:=W) buf).
Proof.
  intros w err w' Hr. unfold att_find_info_req. destruct (range_is_valid _ _) as [h|] eqn:Ev.
  { intros [= <- <-]. left. split; [done|]. by apply range_answers. }
  apply range_valid in Ev. unfold att_find_info_rsp.
  destruct (create_pdu_ready BT_ATT_OP_FIND_INFO_RSP 0 w Hr ltac:(done)) as (w1&_&->&Hq&Hr1&_).
  assert (Hm := ready_mtu w1 Hr1). rewrite foreach_attr_spec by (done || apply services_small).
  assert (Hu : info_uuids (in_range (le16 0 buf) (le16 2 buf) (entries (services (R:=R) (W:=W))))).
  { apply Forall_forall. intros e He. apply list_elem_of_filter in He as [_ He]. by apply entry_uuid. }
  destruct (in_range _ _ _) as [|e l].
  { intros [= <- <-]. left. split; [done|]. by apply error_answers. }
  unfold PDU_ROOM, CONFIG_BT_L2CAP_TX_MTU in Hm.
  rewrite (find_info_data_eq (tx_mtu (chan w1)) e l) by (done || lia). cbn [fi_rsp fi_buf].
  intros [= <- <-]. left. split; [done|]. apply rsp_answers; [done|]. split; [|by left].
  pose proof (info_items_length (info_format e) (info_capacity (info_format e) (tx_mtu (chan w1))) (e :: l) Hu) as Hlen.
  replace (tx_mtu (chan w)) with (tx_mtu (chan w1)) by (by destruct Hq as (_&_&->&_)). cbn [app length].
  unfold info_capacity in *. assert (Hn : info_size (info_format e) = 4 \/ info_size (info_format e) = 18) by (unfold info_size; destruct (_ =? _); auto).
  pose proof (Z.mul_div_le (tx_mtu (chan w1) - 3) (info_size (info_format e))).
  pose proof (Z.div_pos (tx_mtu (chan w1) - 3) (info_size (info_format e))). rewrite Z2Nat.id in Hlen by lia. lia.
Qed.

Lemma find_type_answers buf : answers BT_ATT_OP_FIND_TYPE_REQ (att_find_type_req conn buf).
Proof.
  intros w err w' Hr. unfold att_find_type_req. destruct (range_is_valid _ _) as [h|] eqn:Ev.
  { intros [= <- <-]. left. split; [done|]. by apply range_answers. }
  apply range_valid in Ev. destruct (nz _).
  { intros [= <- <-]. left. split; [done|]. apply error_answers; [apply quiet_refl|done|done|done]. }
  unfold att_find_type_rsp. destruct (create_pdu_ready BT_ATT_OP_FIND_TYPE_RSP 0 w Hr ltac:(done)) as (w1&_&->&Hq&Hr1&_).
  assert (Hm := ready_mtu w1 Hr1). set (t := bt_gatt_foreach_attr _ _ _ _ _).
  assert (Ht : ft_ok BT_ATT_OP_FIND_TYPE_RSP (tx_mtu (chan w1)) t /\ ft_allocs t = allocs w1).
  { unfold t. set (P := fun t => ft_ok BT_ATT_OP_FIND_TYPE_RSP (tx_mtu (chan w1)) t /\ ft_allocs t = allocs w1).
    apply (foreach_inv P P); [apply services_small|done|done| |].
    - intros e t1 _ _ [H1 H2]. destruct (find_type_cb_inv (tx_mtu (chan w1)) _ (drop 6 buf) e t1 Hm H1) as [H3 H4].
      unfold P. rewrite <- H2, <- H4. destruct (find_type_cb _ _ _ _ _ _ _) as [[] t2]; by split.
    - split; [|done]. split; [exists [BT_ATT_OP_FIND_TYPE_RSP]; split; [done|]; split; [done|cbn; lia]|]. split; [done|apply group_none]. }
  destruct Ht as [(H1&H2&_) H3]. clearbody t.
  intros E. left. assert (err = 0 /\ w' = if nz (ft_err t) then send_err_rsp BT_ATT_OP_FIND_TYPE_REQ (le16 0 buf) (ft_err t) (set_env (ft_allocs t) (ft_db t) w1)
    else bt_att_chan_send_rsp (concat (ft_buf t)) (Some chan_rsp_sent) (set_env (ft_allocs t) (ft_db t) w1)) as [-> ->]
    by (destruct (nz (ft_err t)); by injection E as <- <-).
  split; [done|]. apply finish_answers; try done. intros _.
  replace (tx_mtu (chan w)) with (tx_mtu (chan w1)) by (by destruct Hq as (_&_&->&_)). by apply one_frag_rsp_ok.
Qed.

Lemma quiet_mtu w w1 : quiet w w1 -> tx_mtu (chan w) = tx_mtu (chan w1).
Proof. by intros (_&_&->&_). Qed.

(** Both ends of a handler as one expression. *)
Lemma finish_eq {A} (b : bool) (x y : A) err (w' : A) : (if b then (0, x) else (0, y)) = (err, w') -> err = 0 /\ w' = if b then x else y.
Proof. destruct b; by intros [= <- <-]. Qed.

Lemma read_type_answers buf : answers BT_ATT_OP_READ_TYPE_REQ (att_read_type_req conn buf).
Proof.
  intros w err w' Hr. unfold att_read_type_req. destruct (_ && _).
  { intros [= <- <-]. right. split; [done|]. split; [apply quiet_refl|done]. }
  destruct (bt_uuid_create _ _) as [uuid|].
  2:{ intros [= <- <-]. right. split; [done|]. split; [apply quiet_refl|done]. }
  destruct (range_is_valid _ _) as [h|] eqn:Ev.
  { intros [= <- <-]. left. split; [done|]. by apply range_answers. }
  apply range_valid in Ev. unfold att_read_type_rsp.
  destruct (create_pdu_ready BT_ATT_OP_READ_TYPE_RSP 1 w Hr ltac:(done)) as (w1&_&->&Hq&Hr1&_).
  assert (Hm := ready_mtu w1 Hr1). rewrite foreach_attr_spec by (done || apply services_small).
  change ([?x] ++ [0]) with [x; 0]. destruct (read_type_data_eq conn (tx_mtu (chan w1)) uuid BT_ATT_OP_READ_TYPE_RSP (in_range (le16 0 buf) (le16 2 buf) (entries services))
    (allocs w1) (db w1) Hm) as (d'&item'&_&->).
  intros [-> ->]%finish_eq. left. split; [done|]. set (t := match type_match _ _ with [] => _ | _ => _ end).
  assert (rt_allocs t = allocs w1 /\ 0 <= rt_err t < 256 /\ (rt_err t = 0 -> rsp_ok BT_ATT_OP_READ_TYPE_REQ (tx_mtu (chan w)) (concat (rt_buf t))))
    as (T1&T2&T3).
  { unfold t. destruct (type_match _ _) as [|e l]; [done|]. destruct (e_readable conn e) eqn:Ep.
    - split; [done|]. split; [done|]. intros _. cbn [rt_buf concat]. rewrite app_nil_r. split; [|by left].
      rewrite (quiet_mtu w w1 Hq). pose proof (type_body_length conn (tx_mtu (chan w1)) (db w1) e l). cbn [app length]. lia.
    - split; [done|]. pose proof (check_perm_range conn (e_attr e) BT_GATT_PERM_READ_MASK). cbn [rt_err]. split; [done|].
      intros E. unfold e_readable in Ep. rewrite E in Ep. done. }
  by apply finish_answers.
Qed.

Lemma read_answers op handle offset :
  1 <= op < 255 -> 0 <= offset -> answers op (att_read_rsp conn op (op + 1) handle offset).
Proof.
  intros Hop Ho w err w' Hr. unfold att_read_rsp. destruct (bt_gatt_change_aware _ _ _) as [aware d].
  set (w0 := set_env (allocs w) d w). assert (Hr0 : ready w0) by (by apply set_env_ready). assert (Hq0 := set_env_quiet (allocs w) d w).
  fold w0 in Hq0. destruct (negb aware); [intros [= <- <-]; right; done|].
  destruct (handle =? 0); [intros [= <- <-]; right; done|].
  destruct (create_pdu_ready (op + 1) 0 w0 Hr0 ltac:(done)) as (w1&_&->&Hq&Hr1&_).
  assert (Hm := ready_mtu w1 Hr1). assert (Hqq := quiet_trans _ _ _ Hq0 Hq). set (t := bt_gatt_foreach_attr _ _ _ _ _).
  assert (Ht : one_frag (op + 1) (tx_mtu (chan w1)) (rd_buf t) /\ rd_allocs t = allocs w1 /\ 0 <= rd_err t < 256).
  { unfold t. set (P := fun t : read_data (D:=D) => one_frag (op + 1) (tx_mtu (chan w1)) (rd_buf t) /\ rd_allocs t = allocs w1 /\ 0 <= rd_err t < 256).
    apply (foreach_inv P P); [apply services_small|done|done| |].
    - intros e t1 _ _ (H1&H2&H3). destruct (read_cb_inv (tx_mtu (chan w1)) _ offset e t1 Hm Ho H1) as (H4&H5&H6).
      unfold P. rewrite <- H2, <- H5. destruct (read_cb _ _ _ _ _ _ _) as [[] t2]; by split.
    - split; [|done]. exists [op + 1]. split; [done|]. split; [done|cbn; lia]. }
  destruct Ht as (H1&H2&H3). clearbody t. intros [-> ->]%finish_eq. left. split; [done|].
  apply finish_answers; try done; [lia|]. intros _. rewrite (quiet_mtu w w1 Hqq). by apply one_frag_rsp_ok.
Qed.

Lemma read_mult_inv mtu op buf t :
  23 <= mtu <= PDU_ROOM -> one_frag op mtu (rd_buf t) ->
  let '(failed, t') := read_mult_loop conn mtu buf t in
  one_frag op mtu (rd_buf t') /\ rd_allocs t' = rd_allocs t /\ (failed <> None -> 1 <= rd_err t' < 256).
Proof.
  intros Hm. assert (G : forall n buf t, (length buf <= n)%nat -> one_frag op mtu (rd_buf t) ->
    let '(failed, t') := read_mult_loop conn mtu buf t in
    one_frag op mtu (rd_buf t') /\ rd_allocs t' = rd_allocs t /\ (failed <> None -> 1 <= rd_err t' < 256)).
  2:{ intros H. by apply (G (length buf)). }
  clear buf t. induction n as [|n IH]; intros [|x [|y buf]] t Hl Hb; try done; cbn in Hl; [lia|].
  cbn [read_mult_loop]. set (t1 := bt_gatt_foreach_attr _ _ _ _ _).
  assert (Ht : one_frag op mtu (rd_buf t1) /\ rd_allocs t1 = rd_allocs t /\ 0 <= rd_err t1 < 256).
  { unfold t1. set (P := fun t1 : read_data (D:=D) => one_frag op mtu (rd_buf t1) /\ rd_allocs t1 = rd_allocs t /\ 0 <= rd_err t1 < 256).
    apply (foreach_inv P P); [apply services_small|done|done| |done].
    intros e t2 _ _ (H1&H2&H3). destruct (read_cb_inv mtu op 0 e t2 Hm ltac:(done) H1) as (H4&H5&H6).
    unfold P. rewrite <- H2, <- H5. destruct (read_cb _ _ _ _ _ _ _) as [[] t3]; by split. }
  destruct Ht as (H1&H2&H3). clearbody t1. unfold nz. destruct (Z.eqb_spec (rd_err t1) 0); cbn [negb].
  - specialize (IH buf t1 ltac:(lia) H1). rewrite <- H2. exact IH.
  - split; [done|]. split; [done|]. lia.
Qed.

Lemma read_mult_answers buf : answers BT_ATT_OP_READ_MULT_REQ (att_read_mult_req conn buf).
Proof.
  intros w err w' Hr. unfold att_read_mult_req.
  destruct (create_pdu_ready BT_ATT_OP_READ_MULT_RSP 0 w Hr ltac:(done)) as (w1&_&->&Hq&Hr1&_).
  assert (Hm := ready_mtu w1 Hr1).
  pose proof (read_mult_inv (tx_mtu (chan w1)) BT_ATT_OP_READ_MULT_RSP buf (mk_rd [[BT_ATT_OP_READ_MULT_RSP]] 0 (allocs w1) (db w1)) Hm) as P.
  destruct (read_mult_loop _ _ _ _) as [failed t]. destruct P as (H1&H2&H3); [eexists; split; [done|]; split; [done|cbn; lia]|].
  cbn [rd_allocs] in H2. assert (Hq2 : quiet w (set_env (rd_allocs t) (rd_db t) w1)) by (eapply quiet_trans; [exact Hq|apply set_env_quiet]).
  destruct failed as [h|]; intros [= <- <-]; left; (split; [done|]).
  - apply error_answers; [done|by apply set_env_ready|done|by apply H3].
  - apply rsp_answers; [done|]. rewrite (quiet_mtu w w1 Hq). by apply one_frag_rsp_ok.
Qed.

Lemma read_group_answers buf : answers BT_ATT_OP_READ_GROUP_REQ (att_read_group_req conn buf).
Proof.
  intros w err w' Hr. unfold att_read_group_req. destruct (_ && _).
  { intros [= <- <-]. right. split; [done|]. split; [apply quiet_refl|done]. }
  destruct (bt_uuid_create _ _) as [uuid|].
  2:{ intros [= <- <-]. right. split; [done|]. split; [apply quiet_refl|done]. }
  destruct (range_is_valid _ _) as [h|] eqn:Ev.
  { intros [= <- <-]. left. split; [done|]. by apply range_answers. }
  apply range_valid in Ev. destruct (_ && _).
  { intros [= <- <-]. left. split; [done|]. apply error_answers; [apply quiet_refl|done|done|done]. }
  unfold att_read_group_rsp. destruct (create_pdu_ready BT_ATT_OP_READ_GROUP_RSP 1 w Hr ltac:(done)) as (w1&_&->&Hq&Hr1&_).
  assert (Hm := ready_mtu w1 Hr1). set (t := bt_gatt_foreach_attr _ _ _ _ _).
  assert (Ht : rg_ok BT_ATT_OP_READ_GROUP_RSP (tx_mtu (chan w1)) t /\ rg_allocs t = allocs w1).
  { unfold t. set (P := fun t => rg_ok BT_ATT_OP_READ_GROUP_RSP (tx_mtu (chan w1)) t /\ rg_allocs t = allocs w1).
    apply (foreach_inv P P); [apply services_small|done|done| |].
    - intros e t1 _ _ [H1 H2]. destruct (read_group_cb_inv (tx_mtu (chan w1)) _ uuid e t1 Hm H1) as [H3 H4].
      unfold P. rewrite <- H2, <- H4. destruct (read_group_cb _ _ _ _ _ _ _) as [[] t2]; by split.
    - split; [|done]. split; [eexists; split; [done|]; split; [done|cbn; lia]|]. split; [apply group_none|]. done. }
  destruct Ht as [(H1&_) H3]. clearbody t.
  assert (Hq2 : quiet w (set_env (rg_allocs t) (rg_db t) w1)) by (eapply quiet_trans; [exact Hq|apply set_env_quiet]).
  intros [-> ->]%finish_eq. left. split; [done|]. destruct (_ =? 0).
  - apply error_answers; [done|by apply set_env_ready|done|done].
  - apply rsp_answers; [done|]. rewrite (quiet_mtu w w1 Hq). by apply one_frag_rsp_ok.
Qed.

Lemma write_cb_range req value offset e t :
  0 <= wd_err (write_cb conn req value offset (e_ptr (R:=R) (W:=W) e) (e_attr e) (e_handle e) t).2 < 256.
Proof.
  unfold write_cb. pose proof (check_perm_range conn (e_attr e) BT_GATT_PERM_WRITE_MASK). destruct (nz _); [done|].
  destruct (attr_do_write _ _ _ _ _ _ _) as [n d]. destruct (_ || _); [|done]. cbn. pose proof (err_to_att_range n). lia.
Qed.

Lemma write_answers op handle offset value :
  1 <= op < 255 -> op <> BT_ATT_OP_EXEC_WRITE_REQ -> answers op (att_write_rsp conn op (op + 1) handle offset value).
Proof.
  intros Hop Hne w err w' Hr. unfold att_write_rsp. destruct (bt_gatt_change_aware _ _ _) as [aware d].
  set (w0 := set_env (allocs w) d w). assert (Hr0 : ready w0) by (by apply set_env_ready). assert (Hq0 := set_env_quiet (allocs w) d w).
  fold w0 in Hq0. destruct (negb aware); [intros [= <- <-]; right; done|].
  destruct (handle =? 0); [intros [= <- <-]; right; done|].
  unfold nz at 1 2. rewrite (proj2 (Z.eqb_neq (op + 1) 0)) by lia. cbn [negb].
  destruct (create_pdu_ready (op + 1) 0 w0 Hr0 ltac:(done)) as (w1&->&_&Hq&Hr1&_).
  rewrite bool_decide_true by done. cbn [andb negb]. assert (Hqq := quiet_trans _ _ _ Hq0 Hq). set (t := bt_gatt_foreach_attr _ _ _ _ _).
  assert (Ht : 0 <= wd_err t < 256).
  { unfold t. apply (foreach_inv (fun t : write_data (D:=D) => 0 <= wd_err t < 256) (fun t => 0 <= wd_err t < 256)); [apply services_small|done|done| |done].
    intros e t1 _ _ _. pose proof (write_cb_range op value offset e t1). by destruct (write_cb _ _ _ _ _ _ _ _) as [[] t2]. }
  clearbody t. unfold nz at 2. rewrite (proj2 (Z.eqb_neq (op + 1) 0)) by lia. cbn [negb]. rewrite (proj2 (Z.eqb_neq op _) Hne).
  intros [-> ->]%finish_eq. left. split; [done|]. apply finish_answers; try done; [lia|]. intros _.
  split; [|by left]. rewrite (quiet_mtu w w1 Hqq). pose proof (ready_mtu w1 Hr1). cbn. lia.
Qed.

(** The dispatcher, for one request handler. *)
Definition dispatch (h : att_handler (D:=D)) (buf : pdu) w : att_world D :=
  let w := set_chan (set_pending_rsp true (chan w)) w in
  let '(err, w) := if Z.of_nat (length buf) <? expect_len h then (BT_ATT_ERR_INVALID_PDU, w) else h_func h buf w in
  if nz err then send_err_rsp (h_op h) 0 err w else w.

Lemma dispatch_answers (h : att_handler) buf w :
  ready w -> 1 <= h_op h < 256 -> answers (h_op h) (h_func h buf) ->
  exists rsp, rsp_ok (h_op h) (tx_mtu (chan w)) rsp /\ answered rsp w (dispatch h buf w) /\
    kept (set_chan (set_pending_rsp true (chan w)) w) (dispatch h buf w).
Proof.
  intros Hr Hop Ha. unfold dispatch. set (w0 := set_chan _ w). assert (Hr0 : ready w0) by exact Hr.
  assert (E : exists rsp, rsp_ok (h_op h) (tx_mtu (chan w0)) rsp /\
    answered rsp w0 (let '(err, w) := if Z.of_nat (length buf) <? expect_len h then (BT_ATT_ERR_INVALID_PDU, w0) else h_func h buf w0 in
      if nz err then send_err_rsp (h_op h) 0 err w else w) /\
    kept w0 (let '(err, w) := if Z.of_nat (length buf) <? expect_len h then (BT_ATT_ERR_INVALID_PDU, w0) else h_func h buf w0 in
      if nz err then send_err_rsp (h_op h) 0 err w else w)); [|exact E].
  destruct (_ <? expect_len h).
  - apply error_answers; [apply quiet_refl|done|done|done].
  - destruct (h_func h buf w0) as [err w'] eqn:E. destruct (Ha w0 err w' Hr0 E) as [[-> H]|(He&Hq&Hr')]; [exact H|].
    unfold nz. rewrite (proj2 (Z.eqb_neq err 0)) by lia. cbn [negb]. by apply error_answers.
Qed.

(** What a request gets, as a predicate on the world after it. *)
Definition request_answered code w w' : Prop :=
  if pending_rsp (chan w) then w' = w
  else exists rsp, rsp_ok code (tx_mtu (chan w)) rsp /\ answered rsp w w' /\
    kept (set_chan (set_pending_rsp true (chan w)) w) w'.

Lemma recv_request code buf w (h : att_handler) :
  ready w -> 1 <= code < 256 -> find (fun h => h_op h =? code) (handlers conn) = Some h ->
  is_request (h_type h) = true -> answers (h_op h) (h_func h buf) ->
  request_answered code w (bt_att_recv conn (code :: buf) w).
Proof.
  intros Hr Hc Hf Ht Ha. unfold request_answered, bt_att_recv. rewrite Hf, Ht. cbn [andb].
  apply find_some in Hf as [_ Hop]. apply Z.eqb_eq in Hop. subst code.
  destruct (pending_rsp (chan w)); [done|]. exact (dispatch_answers h buf w Hr Hc Ha).
Qed.

Lemma recv_other code buf w (h : att_handler) :
  find (fun h => h_op h =? code) (handlers conn) = Some h -> is_request (h_type h) = false ->
  bt_att_recv conn (code :: buf) w = if Z.of_nat (length buf) <? expect_len h then w else (h_func h buf w).2.
Proof.
  intros Hf Ht. unfold bt_att_recv. rewrite Hf, Ht. cbn [andb]. destruct (_ <? _); [done|]. by destruct (h_func h buf w).
Qed.

Lemma write_cmd_quiet buf w : quiet w (att_write_cmd conn buf w).2.
Proof.
  unfold att_write_cmd, att_write_rsp. destruct (bt_gatt_change_aware _ _ _) as [[] d]; cbn [negb]; [|done].
  destruct (_ =? 0); [done|]. cbn [nz Z.eqb negb andb]. by destruct (nz _).
Qed.

Lemma send_unsupported code w :
  ready w -> 1 <= code < 256 -> answered [BT_ATT_OP_ERROR_RSP; code; 0; 0; BT_ATT_ERR_NOT_SUPPORTED] w (send_err_rsp code 0 BT_ATT_ERR_NOT_SUPPORTED w).
Proof. intros Hr Hc. by destruct (send_err_rsp_answered code 0 BT_ATT_ERR_NOT_SUPPORTED w Hr Hc ltac:(done)) as [[H _] _]. Qed.
End answered.

(** ** Properties *)

(** C8. Every request gets exactly one response.  Whatever bytes a connected client
    sends: a request is answered by one PDU within the MTU, the response that
    belongs to its opcode or an error response that names it, malformed, unknown
    and unsupported requests included; a further request before that response
    is out is ignored; commands are never answered.  PDUs that are not requests are
    answered with an error response, too. *)
Theorem requests_answered {R W D} `{!GattServer R W D, !GattServerOk R W D} (conn : bt_conn)
    (code : Z) (buf : pdu) (w : att_world D)
    (Hr : ready w) (Hc : 1 <= code < 256) (Hb : bytes_ok buf) :
  let w' := bt_att_recv conn (code :: buf) w in
  match att_op_get_type code with
  | ATT_REQUEST => request_answered code w w'
  | ATT_COMMAND => quiet w w'
  | ATT_CONFIRMATION => reqs (chan w) = [] -> outgoing w' = outgoing w /\ chan_tx_queue (chan w') = chan_tx_queue (chan w)
  | _ => answered [BT_ATT_OP_ERROR_RSP; code; 0; 0; BT_ATT_ERR_NOT_SUPPORTED] w w'
  end.
Proof.
  intros w'. pose proof (le16_range 2 buf Hb) as [Ho _].
  pose proof (fun h => recv_request conn code buf w h Hr Hc) as G. unfold handlers in G. cbn [find h_op] in G.
  destruct (Z.eqb_spec BT_ATT_OP_MTU_REQ code) as [<-|N1]; [apply (G _ eq_refl eq_refl), mtu_answers|].
  destruct (Z.eqb_spec BT_ATT_OP_FIND_INFO_REQ code) as [<-|N2]; [apply (G _ eq_refl eq_refl), find_info_answers|].
  destruct (Z.eqb_spec BT_ATT_OP_FIND_TYPE_REQ code) as [<-|N3]; [apply (G _ eq_refl eq_refl), find_type_answers|].
  destruct (Z.eqb_spec BT_ATT_OP_READ_TYPE_REQ code) as [<-|N4]; [apply (G _ eq_refl eq_refl), read_type_answers|].
  destruct (Z.eqb_spec BT_ATT_OP_READ_REQ code) as [<-|N5]; [apply (G _ eq_refl eq_refl), (read_answers conn BT_ATT_OP_READ_REQ); done|].
  destruct (Z.eqb_spec BT_ATT_OP_READ_BLOB_REQ code) as [<-|N6]; [apply (G _ eq_refl eq_refl), (read_answers conn BT_ATT_OP_READ_BLOB_REQ); done|].
  destruct (Z.eqb_spec BT_ATT_OP_READ_MULT_REQ code) as [<-|N7]; [apply (G _ eq_refl eq_refl), read_mult_answers|].
  destruct (Z.eqb_spec BT_ATT_OP_READ_GROUP_REQ code) as [<-|N8]; [apply (G _ eq_refl eq_refl), read_group_answers|].
  destruct (Z.eqb_spec BT_ATT_OP_WRITE_REQ code) as [<-|N9]; [apply (G _ eq_refl eq_refl), (write_answers conn BT_ATT_OP_WRITE_REQ); done|].
  destruct (Z.eqb_spec BT_ATT_OP_PREPARE_WRITE_REQ code) as [<-|N10].
  { apply (G _ eq_refl eq_refl). intros w1 err w2 Hr1 [= <- <-]. right. split; [done|]. split; [apply quiet_refl|done]. }
  destruct (Z.eqb_spec BT_ATT_OP_EXEC_WRITE_REQ code) as [<-|N11].
  { apply (G _ eq_refl eq_refl). intros w1 err w2 Hr1 [= <- <-]. right. split; [done|]. split; [apply quiet_refl|done]. }
  destruct (Z.eqb_spec BT_ATT_OP_CONFIRM code) as [<-|N12].
  { intros Hq. unfold w'. rewrite (recv_other conn BT_ATT_OP_CONFIRM buf w _ eq_refl eq_refl). cbn [expect_len h_func].
    rewrite (proj2 (Z.ltb_ge _ 0)) by lia. cbn [att_confirm att_handle_rsp snd]. unfold att_process. cbn [chan set_chan set_chan_req reqs].
    rewrite Hq. done. }
  destruct (Z.eqb_spec BT_ATT_OP_WRITE_CMD code) as [<-|N13].
  { unfold w'. change (quiet w (bt_att_recv conn (BT_ATT_OP_WRITE_CMD :: buf) w)).
    rewrite (recv_other conn BT_ATT_OP_WRITE_CMD buf w _ eq_refl eq_refl). destruct (_ <? _); [apply quiet_refl|apply write_cmd_quiet]. }
  clear G. assert (Ew : w' = if negb (is_command (att_op_get_type code)) then send_err_rsp code 0 BT_ATT_ERR_NOT_SUPPORTED w else w).
  { unfold w', bt_att_recv, handlers. cbn [find h_op].
    repeat match goal with |- context [?o =? code] => rewrite (proj2 (Z.eqb_neq o code)) by done end. done. }
  rewrite Ew. clear Ew w'. unfold att_op_get_type, one_of. cbn [existsb].
  repeat match goal with |- context [code =? ?o] => rewrite (proj2 (Z.eqb_neq code o)) by congruence end.
  cbn [orb]. assert (S := send_unsupported code w Hr Hc). assert (Q := quiet_refl w).
  repeat match goal with |- context [if ?b then _ else _] =>
    match b with context [if _ then _ else _] => fail 1 | negb _ => fail 1 | _ => destruct b end end; cbn [is_command negb]; assumption.
Qed.
