(* ===== verification/AttDiscovery.v ===== *)
(** A client discovers the attributes of the server: the procedures by which a host
    finds services, characteristics and descriptors, run against the server of
    [Att], find exactly what the database has. *)
From Stdlib Require Import ZArith Lia Bool.
From stdpp Require Import base numbers list.
From S2P Require Import Prelude ByteOrder Uuid Gatt Att AttFacts.
Open Scope Z_scope.

(** ** A request and its response *)

Section transactions.
Context {R W D : Type} `{!GattServer R W D, !GattServerOk R W D} (conn : bt_conn).
Implicit Types (w : att_world D) (req rsp : pdu).

(** The server handles a request, and L2CAP sends what it gave it. *)
Definition transact req w : option pdu * att_world D :=
  let w' := bt_att_recv conn req w in
  (hd_error (drop (length (outgoing w)) (outgoing w')), l2cap_sent w').

(** Nothing outstanding and nothing in the way. *)
Definition idle w : Prop :=
  ready w /\ pending_rsp (chan w) = false /\ in_flight w = [] /\ chan_tx_queue (chan w) = [] /\
  att_tx_queue (chan w) = [] /\ reqs (chan w) = [] /\ allocs w = [] /\ l2cap w = [].

(** The state a transaction leaves. *)
Definition after w w' : Prop := idle w' /\ tx_mtu (chan w') = tx_mtu (chan w) /\ same_values conn (db w) (db w').

(** The world in which a handler runs. *)
Definition serving (d : D) w : att_world D := set_env [] d (set_chan (set_pending_rsp true (chan w)) w).

(** Sending on an idle channel. *)
Lemma idle_send rsp d w :
  idle w ->
  let w1 := bt_att_chan_send_rsp rsp (Some chan_rsp_sent) (serving d w) in
  outgoing w1 = outgoing w ++ [rsp] /\ idle (l2cap_sent w1) /\ tx_mtu (chan (l2cap_sent w1)) = tx_mtu (chan w) /\ db (l2cap_sent w1) = d /\
  tx_sem (chan (l2cap_sent w1)) = Z.min (tx_sem (chan w) + 1) CONFIG_BT_ATT_TX_MAX.
Proof.
  intros ((Hc&_&Hm)&Hp&Hf&Hq&Hq2&Hr&Ha&Hl).
  destruct w as [[txm rxm pend req q sem sent rq aq] con out infl al l2 dd]. cbn in *. subst.
  unfold bt_att_chan_send_rsp, bt_att_chan_send, chan_send, bt_l2cap_send_cb. cbn.
  split; [done|]. unfold l2cap_sent. cbn. unfold bt_att_sent. cbn. unfold sent_queues. cbn.
  destruct req; cbn; (split; [|done]); (split; [|by repeat split]); (split; [done|]); (split; [constructor|done]).
Qed.

Lemma idle_create op len d w :
  idle w -> len + 1 <= BT_ATT_DEFAULT_LE_MTU ->
  bt_att_create_pdu op len (serving d w) = (Some [op], serving d w) /\
  bt_att_chan_create_pdu op len (serving d w) = (Some [op], serving d w).
Proof.
  intros ((Hc&_&Hm)&Hp&Hf&Hq&Hq2&Hr&Ha&Hl) Hlen. unfold bt_att_create_pdu, bt_att_chan_create_pdu, net_buf_alloc.
  cbn. rewrite Hc. destruct (Z.ltb_spec (tx_mtu (chan w)) (len + 1)); [lia|]. done.
Qed.

Lemma idle_error op handle err d w :
  idle w -> 1 <= op < 256 -> 1 <= err < 256 ->
  send_err_rsp op handle err (serving d w) =
  bt_att_chan_send_rsp ([BT_ATT_OP_ERROR_RSP; op] ++ le_bytes 2 handle ++ [err]) (Some chan_rsp_sent) (serving d w).
Proof.
  intros Hi Ho He. unfold send_err_rsp. rewrite (proj2 (Z.eqb_neq op 0)) by lia.
  destruct (idle_create BT_ATT_OP_ERROR_RSP 4 d w Hi ltac:(done)) as [_ ->]. by rewrite !u8_small by lia.
Qed.

(** A request whose handler answers at once. *)
Lemma transact_handler code buf (h : att_handler) rsp d w :
  idle w -> find (fun h => h_op h =? code) (handlers conn) = Some h -> is_request (h_type h) = true ->
  expect_len h <= Z.of_nat (length buf) ->
  h_func h buf (serving (db w) w) = (0, bt_att_chan_send_rsp rsp (Some chan_rsp_sent) (serving d w)) ->
  exists w', transact (code :: buf) w = (Some rsp, w') /\ idle w' /\ tx_mtu (chan w') = tx_mtu (chan w) /\ db w' = d /\
    tx_sem (chan w') = Z.min (tx_sem (chan w) + 1) CONFIG_BT_ATT_TX_MAX.
Proof.
  intros Hi Hf Ht Hl E. eexists. unfold transact, bt_att_recv. rewrite Hf, Ht. assert (Hi' := Hi).
  destruct Hi' as (_&Hp&_&_&_&_&Ha&_). rewrite Hp. cbn [andb]. rewrite (proj2 (Z.ltb_ge _ _) Hl).
  assert (Ew : set_chan (set_pending_rsp true (chan w)) w = serving (db w) w)
    by (unfold serving, set_env, set_chan; cbn; by rewrite Ha).
  rewrite Ew, E. cbn [nz Z.eqb negb]. destruct (idle_send rsp d w Hi) as (H1&H2&H3&H4&H5). rewrite H1, drop_app_length. done.
Qed.

Lemma transact_request code buf (h : att_handler) rsp d w :
  idle w -> find (fun h => h_op h =? code) (handlers conn) = Some h -> is_request (h_type h) = true ->
  expect_len h <= Z.of_nat (length buf) -> same_values conn (db w) d ->
  h_func h buf (serving (db w) w) = (0, bt_att_chan_send_rsp rsp (Some chan_rsp_sent) (serving d w)) ->
  exists w', transact (code :: buf) w = (Some rsp, w') /\ after w w'.
Proof.
  intros Hi Hf Ht Hl Hs E. destruct (transact_handler code buf h rsp d w Hi Hf Ht Hl E) as (w'&E'&H1&H2&H3&_).
  exists w'. split; [done|]. split; [done|]. split; [done|]. by rewrite H3.
Qed.
End transactions.

(** ** Discovery in pages *)

Section paging.
Context {R W D : Type} `{!GattServer R W D, !GattServerOk R W D} (conn : bt_conn).
Context {I : Type} (request : Z -> pdu) (parse : pdu -> option (list I)) (next : I -> Z).
Implicit Types (w : att_world D).

(** A client asks for the items from a handle on until there are no more. *)
Fixpoint discover (fuel : nat) (start : Z) w : option (list I * att_world D) :=
  match fuel with
  | O => None
  | S fuel =>
      match transact conn (request start) w with
      | (Some rsp, w) =>
          if bool_decide (hd 0 rsp = BT_ATT_OP_ERROR_RSP) then
            if bool_decide (last rsp = Some BT_ATT_ERR_ATTRIBUTE_NOT_FOUND) then Some ([], w) else None
          else
            match parse rsp with
            | Some items =>
                match last items with
                | Some i => '(rest, w) ← discover fuel (next i) w; Some (items ++ rest, w)
                | None => None
                end
            | None => None
            end
      | (None, _) => None
      end
  end.

(** The items there are from a handle on, and what a response holds of them. *)
Definition pages (items : D -> Z -> list I) (good : Z -> Prop) (ok : att_world D -> Prop) : Prop :=
  forall start w, good start -> ok w ->
  exists rsp w', transact conn (request start) w = (Some rsp, w') /\ ok w' /\ same_values conn (db w) (db w') /\
    ((items (db w) start = [] /\ hd 0 rsp = BT_ATT_OP_ERROR_RSP /\ last rsp = Some BT_ATT_ERR_ATTRIBUTE_NOT_FOUND) \/
     exists page i rest, items (db w) start = (page ++ [i]) ++ rest /\ parse rsp = Some (page ++ [i]) /\
       hd 0 rsp <> BT_ATT_OP_ERROR_RSP /\ items (db w) (next i) = rest /\ good (next i)).

Lemma discover_all items good ok fuel start w :
  pages items good ok -> (forall d d' s, same_values conn d d' -> items d' s = items d s) ->
  good start -> ok w -> (length (items (db w) start) < fuel)%nat ->
  exists w', discover fuel start w = Some (items (db w) start, w') /\ ok w' /\ same_values conn (db w) (db w').
Proof.
  intros Hp Hsame. revert start w. induction fuel as [|fuel IH]; intros start w Hg Hw Hf; [lia|]. cbn [discover].
  destruct (Hp start w Hg Hw) as (rsp&w1&->&Hw1&Hs1&[(E&H1&H2)|(page&i&rest&E&Hparse&Hh&Hrest&Hg')]).
  - rewrite !bool_decide_true by done. exists w1. rewrite E. done.
  - rewrite bool_decide_false by done. rewrite Hparse, last_snoc. rewrite E, length_app, length_app in Hf. cbn in Hf.
    assert (Hr1 : items (db w1) (next i) = rest) by (by rewrite (Hsame _ _ _ Hs1)).
    destruct (IH (next i) w1 Hg' Hw1) as (w2&E2&Hw2&Hs2); [rewrite Hr1; lia|].
    rewrite E2. cbn. exists w2. rewrite Hr1, E. split; [done|]. split; [done|]. by eapply same_values_trans.
Qed.
End paging.

(** ** Items of equal length *)

(** A response cut into items. *)
Fixpoint cut (fuel : nat) (n : nat) (l : list Z) : list (list Z) :=
  match fuel, l with
  | S fuel, _ :: _ => take n l :: cut fuel n (drop n l)
  | _, _ => []
  end.

Lemma cut_concat n (items : list (list Z)) :
  (0 < n)%nat -> Forall (fun i => length i = n) items -> cut (length (concat items)) n (concat items) = items.
Proof.
  intros Hn Hi. enough (G : forall fuel, (length items <= fuel)%nat -> cut fuel n (concat items) = items).
  { apply G. clear G. induction Hi as [|i items Hi _ IH]; cbn [concat length]; [lia|]. rewrite length_app. lia. }
  induction Hi as [|i items Hi _ IH]; intros [|fuel] Hf; cbn [concat length] in *; try done; try lia.
  destruct i as [|x i]; [cbn in Hi; lia|]. cbn [app cut].
  change (take n (x :: i ++ concat items)) with (take n ((x :: i) ++ concat items)).
  change (drop n (x :: i ++ concat items)) with (drop n ((x :: i) ++ concat items)).
  rewrite take_app_length' , drop_app_length' by done. f_equal. apply IH. lia.
Qed.

Lemma le_value_handle h : 0 <= h < 2 ^ 16 -> le_value (le_bytes 2 h) = h.
Proof. intros. rewrite le_value_bytes. by rewrite Z.mod_small. Qed.

(** ** Ranges of the database *)

Section ranges.
Context {R W : Type}.
Implicit Types (e : attr_ptr * bt_gatt_attr R W * Z) (l : list (attr_ptr * bt_gatt_attr R W * Z)).

Lemma ascending_filter (P : attr_ptr * bt_gatt_attr R W * Z -> Prop) `{forall x, Decision (P x)} h l :
  ascending h l -> ascending h (filter P l).
Proof.
  revert h. induction l as [|e l IH]; intros h Ha; [done|]. destruct Ha as [H1 H2]. destruct (decide (P e)).
  - rewrite filter_cons_True by done. split; [done|]. by apply IH.
  - rewrite filter_cons_False by done. apply IH. eapply ascending_le; [|done]. lia.
Qed.

Lemma ascending_low h l : ascending h l -> Forall (fun e => h <= e_handle e) l.
Proof.
  revert h. induction l as [|e l IH]; intros h Ha; [done|]. destruct Ha as [H1 H2]. constructor; [done|].
  eapply Forall_impl; [apply (IH _ H2)|]. cbn. lia.
Qed.

(** Behind an entry come those with larger handles. *)
Lemma ascending_behind h l1 e l2 :
  ascending h (l1 ++ e :: l2) -> filter (fun x => e_handle e + 1 <= e_handle x) (l1 ++ e :: l2) = l2.
Proof.
  revert h. induction l1 as [|x l1 IH]; intros h [H1 H2]; cbn [app] in *.
  - rewrite filter_cons_False by lia. apply filter_all. by apply ascending_low.
  - pose proof (IH _ H2) as E. apply ascending_low, Forall_app in H2 as [_ H2]. apply Forall_cons in H2 as [H2 _].
    rewrite filter_cons_False by (cbn in *; lia). exact E.
Qed.

Lemma in_range_behind (P : attr_ptr * bt_gatt_attr R W * Z -> Prop) `{forall x, Decision (P x)} svcs start end_ l1 e l2 :
  filter P (in_range start end_ (entries svcs)) = l1 ++ e :: l2 ->
  filter P (in_range (e_handle e + 1) end_ (entries svcs)) = l2.
Proof.
  intros E. assert (Ha : ascending 1 (filter P (in_range start end_ (entries svcs)))).
  { apply ascending_filter, ascending_filter, ascending_entries. }
  assert (He : start <= e_handle e).
  { assert (e ∈ filter P (in_range start end_ (entries svcs))) as He by (rewrite E; apply elem_of_app; right; left).
    apply list_elem_of_filter in He as [_ He]. apply list_elem_of_filter in He as [He _]. lia. }
  rewrite E in Ha. etrans; [|exact (ascending_behind 1 l1 e l2 Ha)]. rewrite <- E. unfold in_range. rewrite !list_filter_filter.
  apply list_filter_iff. intros x. intuition lia.
Qed.

Lemma entries_handle_range svcs e :
  Z.of_nat (length (concat svcs)) < 2 ^ 16 - 1 -> e ∈ entries svcs -> 1 <= e_handle e < 2 ^ 16 - 1.
Proof. intros Hl He. apply entries_from_range in He. lia. Qed.
End ranges.

(** ** Attributes of a type: characteristics *)

Section by_type.
Context {R W D : Type} `{!GattServer R W D, !GattServerOk R W D} (conn : bt_conn).
Implicit Types (w : att_world D) (d : D).

Definition type_request (type end_ start : Z) : pdu :=
  [BT_ATT_OP_READ_TYPE_REQ] ++ le_bytes 2 start ++ le_bytes 2 end_ ++ le_bytes 2 type.

Definition parse_type (rsp : pdu) : option (list (Z * list Z)) :=
  match rsp with
  | op :: len :: body =>
      if (op =? BT_ATT_OP_READ_TYPE_RSP) && (2 <=? len)
      then Some ((fun i => (le_value (take 2 i), drop 2 i)) <$> cut (length body) (Z.to_nat len) body)
      else None
  | _ => None
  end.

(** The attributes of a type from a handle on. *)
Definition of_type (type start end_ : Z) :=
  type_match (BT_UUID_INIT_16 type) (in_range start end_ (entries (services (R:=R) (W:=W)))).
Definition type_found (type end_ : Z) d start : list (Z * list Z) :=
  (fun e => (e_handle e, e_value conn d e)) <$> of_type type start end_.

(** The client may read them, and their values fit. *)
Definition type_ok (type end_ mtu : Z) w : Prop :=
  idle w /\ tx_mtu (chan w) = mtu /\
  Forall (fun e => e_readable conn e = true /\ Z.of_nat (length (e_value conn (db w) e)) <= mtu - 4 /\ e_handle e < end_)
    (of_type type 1 end_).

Lemma type_items_take d len n l :
  exists k, type_items conn d len n l = e_item conn d <$> take k l /\
    Forall (fun i => Z.of_nat (length i) = len) (type_items conn d len n l).
Proof.
  revert n. induction l as [|e l IH]; intros [|n]; cbn [type_items]; try (by exists 0%nat).
  destruct (_ && _) eqn:E; [|by exists 0%nat]. destruct (IH n) as (k&Ek&Hk). exists (S k). cbn [take fmap list_fmap].
  rewrite <- Ek. split; [done|]. constructor; [|done]. apply andb_true_iff in E as [_ E%Z.eqb_eq].
  unfold e_item. rewrite length_app, le_bytes_length. lia.
Qed.

Lemma type_request_fields type end_ start :
  0 <= start < 2 ^ 16 -> 0 <= end_ < 2 ^ 16 -> 0 <= type < 2 ^ 16 ->
  let buf := le_bytes 2 start ++ le_bytes 2 end_ ++ le_bytes 2 type in
  le16 0 buf = start /\ le16 2 buf = end_ /\ bt_uuid_create (drop 4 buf) (u8 (Z.of_nat (length buf) - 4)) = Some (BT_UUID_INIT_16 type).
Proof.
  intros Hs He Ht buf. change (le16 0 buf) with (le_value (le_bytes 2 start)). change (le16 2 buf) with (le_value (le_bytes 2 end_)).
  change (drop 4 buf) with (le_bytes 2 type). rewrite !le_value_handle by done. split; [done|]. split; [done|].
  change (u8 (Z.of_nat (length buf) - 4)) with 2. cbn [bt_uuid_create]. rewrite take_ge by (by rewrite le_bytes_length).
  by rewrite le_value_handle.
Qed.

Lemma e_item_parse d e : 0 <= e_handle e < 2 ^ 16 ->
  (le_value (take 2 (e_item (R:=R) (W:=W) conn d e)), drop 2 (e_item conn d e)) = (e_handle e, e_value conn d e).
Proof.
  intros He. unfold e_item. change 2%nat with (length (le_bytes 2 (e_handle e))) at 1 3. rewrite take_app_length, drop_app_length.
  by rewrite le_value_handle.
Qed.

(** The response body of readable attributes with values that fit, parsed. *)
Lemma parse_type_body mtu d e l :
  23 <= mtu <= PDU_ROOM -> Forall (fun e => 0 <= e_handle e < 2 ^ 16) (e :: l) -> Z.of_nat (length (e_value conn d e)) <= mtu - 4 ->
  exists k, parse_type ([BT_ATT_OP_READ_TYPE_RSP] ++ type_body (R:=R) (W:=W) conn mtu d e l) =
    Some ((fun e => (e_handle e, e_value conn d e)) <$> (e :: take k l)).
Proof.
  intros Hm Hh Hv. unfold type_body, type_first. rewrite take_ge by lia. set (len := 2 + Z.of_nat (length (e_value conn d e))).
  destruct (type_items_take d len (type_capacity mtu len - 1) l) as (k&Ek&Hk). exists k. cbn [app parse_type].
  rewrite (proj2 (Z.leb_le 2 len)) by lia. cbn [Z.eqb andb BT_ATT_OP_READ_TYPE_RSP]. f_equal.
  replace (le_bytes 2 (e_handle e) ++ e_value conn d e ++ concat (type_items conn d len (type_capacity mtu len - 1) l))
    with (concat (e_item conn d <$> (e :: take k l))) by (cbn [fmap list_fmap concat]; rewrite Ek; unfold e_item at 1; by rewrite <- app_assoc).
  rewrite cut_concat.
  - rewrite <- list_fmap_compose. apply list_fmap_ext. intros i x Hx. cbn. apply e_item_parse.
    rewrite Forall_forall in Hh. apply Hh. apply list_elem_of_lookup_2 in Hx. rewrite elem_of_cons in *.
    destruct Hx as [->|Hx]; [by left|right]. rewrite <- (take_drop k l), elem_of_app. by left.
  - lia.
  - cbn [fmap list_fmap]. constructor; [unfold e_item; rewrite length_app, le_bytes_length; lia|]. rewrite <- Ek.
    eapply Forall_impl; [exact Hk|]. cbn. lia.
Qed.

Lemma type_serve type end_ start w :
  idle w -> 1 <= start <= end_ -> end_ < 2 ^ 16 -> 0 <= type < 2 ^ 16 ->
  exists d, same_values conn (db w) d /\
  att_read_type_req conn (le_bytes 2 start ++ le_bytes 2 end_ ++ le_bytes 2 type) (serving (db w) w) =
  match of_type type start end_ with
  | [] => (0, bt_att_chan_send_rsp ([BT_ATT_OP_ERROR_RSP; BT_ATT_OP_READ_TYPE_REQ] ++ le_bytes 2 start ++ [BT_ATT_ERR_ATTRIBUTE_NOT_FOUND])
                (Some chan_rsp_sent) (serving d w))
  | e :: l =>
      if e_readable conn e
      then (0, bt_att_chan_send_rsp ([BT_ATT_OP_READ_TYPE_RSP] ++ type_body conn (tx_mtu (chan w)) (db w) e l) (Some chan_rsp_sent) (serving d w))
      else (0, bt_att_chan_send_rsp ([BT_ATT_OP_ERROR_RSP; BT_ATT_OP_READ_TYPE_REQ] ++ le_bytes 2 start ++
                 [bt_gatt_check_perm conn (e_attr e) BT_GATT_PERM_READ_MASK]) (Some chan_rsp_sent) (serving d w))
  end.
Proof.
  intros Hi Hs He Ht. unfold att_read_type_req.
  destruct (type_request_fields type end_ start ltac:(lia) ltac:(lia) Ht) as (->&->&->).
  change (u8 (Z.of_nat (length (le_bytes 2 start ++ le_bytes 2 end_ ++ le_bytes 2 type)) - 4)) with 2. cbn [Z.eqb negb andb Pos.eqb].
  unfold range_is_valid. rewrite (proj2 (Z.eqb_neq start 0)), (proj2 (Z.eqb_neq end_ 0)), (proj2 (Z.ltb_ge end_ start)) by lia. cbn [orb].
  unfold att_read_type_rsp. destruct (idle_create BT_ATT_OP_READ_TYPE_RSP 1 (db w) w Hi ltac:(done)) as [-> _].
  rewrite foreach_attr_spec by (lia || apply services_small). change ([?x] ++ [0]) with [x; 0].
  assert (Hm : 23 <= tx_mtu (chan (serving (db w) w)) <= PDU_ROOM) by (apply Hi).
  destruct (read_type_data_eq conn (tx_mtu (chan (serving (db w) w))) (BT_UUID_INIT_16 type) BT_ATT_OP_READ_TYPE_RSP
    (in_range start end_ (entries services)) (allocs (serving (db w) w)) (db (serving (db w) w)) Hm) as (d&item&Hd&->).
  exists d. split; [exact Hd|]. change (type_match (BT_UUID_INIT_16 type) (in_range start end_ (entries services))) with (of_type type start end_).
  destruct (of_type type start end_) as [|e l].
  - cbn [rt_err nz Z.eqb negb BT_ATT_ERR_ATTRIBUTE_NOT_FOUND rt_allocs rt_db]. f_equal. exact (idle_error BT_ATT_OP_READ_TYPE_REQ start BT_ATT_ERR_ATTRIBUTE_NOT_FOUND d w Hi ltac:(done) ltac:(done)).
  - destruct (e_readable conn e) eqn:Ep.
    + cbn [rt_err nz Z.eqb negb rt_allocs rt_db rt_buf concat]. rewrite app_nil_r. done.
    + cbn [rt_err rt_allocs rt_db]. unfold e_readable in Ep. unfold nz. rewrite Ep. cbn [negb]. f_equal.
      pose proof (check_perm_range conn (e_attr e) BT_GATT_PERM_READ_MASK). apply Z.eqb_neq in Ep.
      apply (idle_error BT_ATT_OP_READ_TYPE_REQ start (bt_gatt_check_perm conn (e_attr e) BT_GATT_PERM_READ_MASK) d w Hi); [done|lia].
Qed.

Lemma type_found_same type end_ d d' start : same_values conn d d' -> type_found type end_ d' start = type_found type end_ d start.
Proof. intros Hd. unfold type_found. apply list_fmap_ext. intros i e _. f_equal. by apply e_value_same. Qed.

Lemma type_ok_after type end_ mtu w w' : type_ok type end_ mtu w -> after conn w w' -> type_ok type end_ mtu w'.
Proof.
  intros (Hi&Hm&Hf) (Hi'&Hm'&Hd). split; [done|]. split; [congruence|]. eapply Forall_impl; [exact Hf|]. cbn. intros e He.
  by rewrite (e_value_same conn _ _ e Hd).
Qed.

Lemma of_type_from type start end_ e : 1 <= start -> e ∈ of_type type start end_ -> e ∈ of_type type 1 end_ /\ 0 <= e_handle e < 2 ^ 16.
Proof.
  intros Hs He. unfold of_type, type_match in *. apply list_elem_of_filter in He as [H1 He]. unfold in_range in *.
  apply list_elem_of_filter in He as [H2 He]. split; [|pose proof (entries_handle_range _ e services_small He); lia].
  apply list_elem_of_filter. split; [done|]. apply list_elem_of_filter. split; [lia|done].
Qed.

Lemma type_pages type end_ mtu :
  0 <= type < 2 ^ 16 -> end_ < 2 ^ 16 ->
  pages conn (type_request type end_) parse_type (fun i => i.1 + 1) (type_found type end_) (fun s => 1 <= s <= end_) (type_ok type end_ mtu).
Proof.
  intros Ht He start w Hs Hw. assert (Hw' := Hw). destruct Hw' as (Hi&Hm&Hf).
  destruct (type_serve type end_ start w Hi Hs He Ht) as (d&Hd&E).
  assert (Hmtu : 23 <= mtu <= PDU_ROOM) by (rewrite <- Hm; apply Hi).
  assert (T : forall rsp, att_read_type_req conn (le_bytes 2 start ++ le_bytes 2 end_ ++ le_bytes 2 type) (serving (db w) w) =
      (0, bt_att_chan_send_rsp rsp (Some chan_rsp_sent) (serving d w)) ->
      exists w', transact conn (type_request type end_ start) w = (Some rsp, w') /\ after conn w w').
  { intros rsp Ersp. by eapply transact_request. }
  unfold type_found. destruct (of_type type start end_) as [|e l] eqn:Eo.
  - destruct (T _ E) as (w'&Ew&Ha). do 2 eexists. split; [exact Ew|]. split; [by eapply type_ok_after|]. split; [apply Ha|]. left. done.
  - assert (Hl : Forall (fun x => x ∈ of_type type 1 end_ /\ 0 <= e_handle x < 2 ^ 16) (e :: l)).
    { apply Forall_forall. intros x Hx. apply (of_type_from type start); [lia|by rewrite Eo]. }
    rewrite Forall_forall in Hf. destruct (Hf e) as (Hre&Hv&_); [by apply Forall_cons in Hl as [[? _] _]|].
    rewrite Hre in E. destruct (T _ E) as (w'&Ew&Ha). do 2 eexists. split; [exact Ew|]. split; [by eapply type_ok_after|]. split; [apply Ha|]. right.
    destruct (parse_type_body (tx_mtu (chan w)) (db w) e l) as (k&Ek); [lia|eapply Forall_impl; [exact Hl|]; cbn; tauto|lia|].
    destruct (exists_last (l := e :: take k l)) as (page&x&Ep); [done|].
    assert (Esp : of_type type start end_ = page ++ x :: drop k l).
    { rewrite Eo. change (e :: l) with ([e] ++ l). rewrite <- (take_drop k l) at 1. rewrite app_assoc. change ([e] ++ take k l) with (e :: take k l). by rewrite Ep, <- app_assoc. }
    exists ((fun e => (e_handle e, e_value conn (db w) e)) <$> page), (e_handle x, e_value conn (db w) x), ((fun e => (e_handle e, e_value conn (db w) e)) <$> drop k l).
    split; [rewrite <- Eo, Esp, fmap_app; cbn [fmap list_fmap]; by rewrite <- app_assoc|].
    split; [rewrite Ek, Ep, fmap_app; done|]. split; [done|]. cbn [fst].
    split; [f_equal; exact (in_range_behind _ services start end_ page x (drop k l) Esp)|].
    assert (Hx : x ∈ of_type type start end_) by (rewrite Esp; apply elem_of_app; right; left).
    apply of_type_from in Hx as [Hx ?]; [|lia]. apply Hf in Hx. lia.
Qed.

(** C15. Discovery by type is complete: a client that asks with Read By Type requests
    for the attributes of a type, continuing behind the last handle of each response
    until the server answers Attribute Not Found, learns the handle and the whole value
    of every attribute of that type in the database, in order and nothing else, whatever
    the MTU (23 to 65) and however the values are spread over responses.  This is for a
    type all of whose attributes the client may read and whose values have at most MTU - 4
    bytes ([type_ok]): the server ends the discovery with an error at one that cannot be
    read, and cuts a value that is longer. *)
Theorem discovery_by_type type end_ fuel w :
  0 <= type < 2 ^ 16 -> 1 <= end_ < 2 ^ 16 -> type_ok type end_ (tx_mtu (chan w)) w ->
  (length (of_type type 1 end_) < fuel)%nat ->
  exists w', discover conn (type_request type end_) parse_type (fun i => i.1 + 1) fuel 1 w = Some (type_found type end_ (db w) 1, w') /\
    idle w' /\ same_values conn (db w) (db w').
Proof.
  intros Ht He Hw Hf.
  destruct (discover_all conn _ _ _ _ _ _ fuel 1 w (type_pages type end_ (tx_mtu (chan w)) Ht ltac:(lia))) as (w'&E&Hw'&Hd).
  - intros d d' s. apply type_found_same.
  - lia.
  - done.
  - unfold type_found. by rewrite length_fmap.
  - exists w'. split; [exact E|]. split; [apply Hw'|done].
Qed.
End by_type.
