(* ===== verification/AttAccess.v ===== *)
(** Reading and writing attributes over ATT: what a client gets for a Read, a Read
    Blob and a Write request, and that it can read any value whole. *)
From Stdlib Require Import ZArith Lia Bool.
From stdpp Require Import base numbers list.
From S2P Require Import Prelude ByteOrder Uuid Gatt Att AttFacts AttDiscovery.
Open Scope Z_scope.

Section access.
Context {R W D : Type} `{!GattServer R W D, !GattServerOk R W D} (conn : bt_conn).
Implicit Types (w : att_world D) (d : D).

(** A handle names at most one attribute. *)
Lemma one_entry (svcs : list (list (bt_gatt_attr R W))) h :
  in_range h h (entries svcs) = [] \/ exists e, in_range h h (entries svcs) = [e] /\ e_handle e = h.
Proof.
  assert (Ha : ascending 1 (in_range h h (entries svcs))) by apply ascending_filter, ascending_entries.
  assert (Hh : Forall (fun e => e_handle e = h) (in_range h h (entries svcs))).
  { apply Forall_forall. intros e He. apply list_elem_of_filter in He as [He _]. lia. }
  destruct (in_range h h (entries svcs)) as [|e [|e' l]]; [by left|right; exists e; by apply Forall_cons in Hh as [Hh _]|].
  destruct Ha as [_ [Ha _]]. apply Forall_cons in Hh as [H1 Hh]. apply Forall_cons in Hh as [H2 _]. lia.
Qed.

(** The client is aware of the database, whatever its reads change. *)
Definition stays_aware d : Prop := forall d', same_values conn d d' -> (bt_gatt_change_aware conn true d').1 = true.

(** What a Read or Read Blob request is answered with. *)
Definition read_answer (op handle offset mtu : Z) d : pdu :=
  let error err := [BT_ATT_OP_ERROR_RSP; op] ++ le_bytes 2 handle ++ [err] in
  match in_range handle handle (entries services) with
  | e :: _ =>
      if negb (e_readable conn e) then error (bt_gatt_check_perm conn (e_attr e) BT_GATT_PERM_READ_MASK)
      else if Z.of_nat (length (e_value conn d e)) <? offset then error BT_ATT_ERR_INVALID_OFFSET
      else [op + 1] ++ take (Z.to_nat (mtu - 1)) (drop (Z.to_nat offset) (e_value conn d e))
  | [] => error BT_ATT_ERR_INVALID_HANDLE
  end.

Lemma attr_read_take mtu offset (value : list Z) :
  1 <= mtu -> 0 <= offset <= Z.of_nat (length value) ->
  bt_gatt_attr_read (mtu - 1) offset value =
  (Z.min (mtu - 1) (Z.of_nat (length value) - offset), take (Z.to_nat (mtu - 1)) (drop (Z.to_nat offset) value)).
Proof.
  intros Hm Ho. unfold bt_gatt_attr_read. rewrite (proj2 (Z.ltb_ge _ _)) by lia. f_equal.
  destruct (Z.min_spec (mtu - 1) (Z.of_nat (length value) - offset)) as [[? ->]|[? ->]]; [done|].
  rewrite !take_ge; rewrite ?length_drop; (done || lia).
Qed.

Lemma read_serve op handle offset w :
  idle w -> 1 <= op < 255 -> 0 < handle < 2 ^ 16 -> 0 <= offset < 2 ^ 16 -> stays_aware (db w) ->
  exists d, same_values conn (db w) d /\
  att_read_rsp conn op (op + 1) handle offset (serving (db w) w) =
  (0, bt_att_chan_send_rsp (read_answer op handle offset (tx_mtu (chan w)) (db w)) (Some chan_rsp_sent) (serving d w)).
Proof.
  intros Hi Hop Hh Ho Haw. unfold att_read_rsp. change (db (serving (db w) w)) with (db w).
  destruct (bt_gatt_change_aware conn true (db w)) as [aware d1] eqn:Ea.
  assert (aware = true) as -> by (specialize (Haw (db w) (same_values_refl conn (db w))); by rewrite Ea in Haw).
  assert (Hd1 : same_values conn (db w) d1).
  { intros p attr. pose proof (aware_keeps conn true (db w) p attr) as H. by rewrite Ea in H. }
  change (set_env _ d1 (serving (db w) w)) with (serving d1 w). cbn [negb]. rewrite (proj2 (Z.eqb_neq handle 0)) by lia.
  destruct (idle_create (op + 1) 0 d1 w Hi ltac:(done)) as [-> _].
  rewrite foreach_attr_spec by (lia || apply services_small). unfold read_answer. change (tx_mtu (chan (serving d1 w))) with (tx_mtu (chan w)).
  assert (Hm : 23 <= tx_mtu (chan w) <= PDU_ROOM) by apply Hi.
  assert (Err : forall d err, 1 <= err < 256 -> send_err_rsp op handle err (set_env [] d (serving d1 w)) =
    bt_att_chan_send_rsp ([BT_ATT_OP_ERROR_RSP; op] ++ le_bytes 2 handle ++ [err]) (Some chan_rsp_sent) (serving d w)).
  { intros d err He. exact (idle_error op handle err d w Hi ltac:(lia) He). }
  destruct (one_entry services handle) as [->|(e&->&Ee)].
  - cbn. exists d1. split; [done|]. f_equal. by apply Err.
  - cbn [length iterate]. unfold read_cb. unfold e_readable. pose proof (check_perm_range conn (e_attr e) BT_GATT_PERM_READ_MASK) as Hp.
    destruct (Z.eqb_spec (bt_gatt_check_perm conn (e_attr e) BT_GATT_PERM_READ_MASK) 0) as [->|Hperm]; cbn [nz Z.eqb negb rd_buf rd_err rd_allocs rd_db].
    2:{ unfold nz. rewrite (proj2 (Z.eqb_neq _ 0) Hperm). cbn [negb rd_buf rd_err rd_allocs rd_db]. rewrite (proj2 (Z.eqb_neq _ 0) Hperm). cbn [negb].
        exists d1. split; [done|]. f_equal. apply Err. lia. }
    set (value := e_value conn (db w) e). assert (Ev : attr_value (e_ptr e) (e_attr e) conn d1 = value) by apply Hd1.
    rewrite (chan_read_one conn (tx_mtu (chan w)) (e_ptr e) (e_attr e) [op + 1] offset None tt _ d1
               (bt_gatt_attr_read (tx_mtu (chan w) - 1) offset value).1 (bt_gatt_attr_read (tx_mtu (chan w) - 1) offset value).2);
      [|cbn [length]; lia|lia|rewrite Ev; by destruct (bt_gatt_attr_read _ _ _)|intros ok buf y [= <- <- <-]; by exists [op + 1]].
    assert (Hd2 : same_values conn (db w) (attr_do_read (e_ptr e) (e_attr e) conn (tx_mtu (chan w) - 1) offset d1).2).
    { eapply same_values_trans; [exact Hd1|]. apply same_values_read. }
    destruct (Z.ltb_spec (Z.of_nat (length value)) offset) as [Hlt|Hge].
    + unfold bt_gatt_attr_read. rewrite (proj2 (Z.ltb_lt _ _) Hlt). cbn. eexists. split; [exact Hd2|]. f_equal. by apply Err.
    + rewrite attr_read_take by lia. cbn [fst snd]. rewrite !(proj2 (Z.ltb_ge (Z.min _ _) 0)) by lia.
      eexists. split; [exact Hd2|]. cbn [rd_err nz Z.eqb negb rd_buf rd_allocs rd_db].
      change (net_buf_add 0 ?b [[op + 1]]) with [[op + 1] ++ b]. cbn [concat]. rewrite app_nil_r. done.
Qed.

Lemma le16_handle h rest : 0 <= h < 2 ^ 16 -> le16 0 (le_bytes 2 h ++ rest) = h.
Proof.
  intros Hh. unfold le16. rewrite drop_0. change 2%nat with (length (le_bytes 2 h)) at 1. rewrite take_app_length. by apply le_value_handle.
Qed.

Lemma le16_second h o : 0 <= o < 2 ^ 16 -> le16 2 (le_bytes 2 h ++ le_bytes 2 o) = o.
Proof.
  intros Ho. unfold le16. change 2%nat with (length (le_bytes 2 h)) at 2. rewrite drop_app_length.
  change 2%nat with (length (le_bytes 2 o)) at 1. rewrite take_ge by done. by apply le_value_handle.
Qed.

(** The requests a client reads a value with, from an offset on. *)
Definition read_request (handle offset : Z) : pdu :=
  if offset =? 0 then [BT_ATT_OP_READ_REQ] ++ le_bytes 2 handle
  else [BT_ATT_OP_READ_BLOB_REQ] ++ le_bytes 2 handle ++ le_bytes 2 offset.

Lemma read_transaction handle offset w :
  idle w -> 0 < handle < 2 ^ 16 -> 0 <= offset < 2 ^ 16 -> stays_aware (db w) ->
  exists w', transact conn (read_request handle offset) w =
    (Some (read_answer (if offset =? 0 then BT_ATT_OP_READ_REQ else BT_ATT_OP_READ_BLOB_REQ) handle offset (tx_mtu (chan w)) (db w)), w') /\
    after conn w w'.
Proof.
  intros Hi Hh Ho Haw. unfold read_request. destruct (Z.eqb_spec offset 0) as [->|Hne].
  - destruct (read_serve BT_ATT_OP_READ_REQ handle 0 w Hi ltac:(done) Hh ltac:(lia) Haw) as (d&Hd&E).
    eapply transact_request; [exact Hi|reflexivity|reflexivity|cbn; lia|exact Hd|].
    cbn [h_func]. unfold att_read_req. rewrite <- (app_nil_r (le_bytes 2 handle)), le16_handle by lia. exact E.
  - destruct (read_serve BT_ATT_OP_READ_BLOB_REQ handle offset w Hi ltac:(done) Hh ltac:(lia) Haw) as (d&Hd&E).
    eapply transact_request; [exact Hi|reflexivity|reflexivity|rewrite length_app, !le_bytes_length; cbn; lia|exact Hd|].
    cbn [h_func]. unfold att_read_blob_req. rewrite le16_handle, le16_second by lia. exact E.
Qed.

(** A client reads a value: pieces until one is shorter than the MTU allows. *)
Fixpoint read_long (fuel : nat) (handle offset : Z) w : option (list Z * att_world D) :=
  match fuel with
  | O => None
  | S fuel =>
      match transact conn (read_request handle offset) w with
      | (Some (op :: bytes), w') =>
          if op =? BT_ATT_OP_ERROR_RSP then None
          else if Z.of_nat (length bytes) <? tx_mtu (chan w) - 1 then Some (bytes, w')
          else '(rest, w') ← read_long fuel handle (offset + Z.of_nat (length bytes)) w'; Some (bytes ++ rest, w')
      | _ => None
      end
  end.

Lemma read_long_from fuel handle offset e w :
  idle w -> 0 < handle < 2 ^ 16 -> stays_aware (db w) ->
  in_range handle handle (entries services) = [e] -> e_readable conn e = true ->
  let value := e_value conn (db w) e in
  0 <= offset <= Z.of_nat (length value) -> Z.of_nat (length value) < 2 ^ 16 ->
  Z.of_nat (length value) - offset < Z.of_nat fuel ->
  exists w', read_long fuel handle offset w = Some (drop (Z.to_nat offset) value, w') /\ after conn w w'.
Proof.
  revert offset w. induction fuel as [|fuel IH]; intros offset w Hi Hh Haw He Hr value Ho Hv Hf; [lia|]. cbn [read_long].
  destruct (read_transaction handle offset w Hi Hh ltac:(lia) Haw) as (w1&->&Ha1). unfold read_answer. rewrite He, Hr. cbn [negb].
  fold value. rewrite (proj2 (Z.ltb_ge _ _)) by lia. cbn [app].
  set (op := if offset =? 0 then _ else _). assert (Hop : (op + 1 =? BT_ATT_OP_ERROR_RSP) = false) by (subst op; by destruct (offset =? 0)).
  rewrite Hop. assert (Hm : 23 <= tx_mtu (chan w) <= PDU_ROOM) by apply Hi. rewrite length_take, length_drop.
  destruct (Z.ltb_spec (Z.of_nat (Z.to_nat (tx_mtu (chan w) - 1) `min` (length value - Z.to_nat offset))) (tx_mtu (chan w) - 1)) as [Hs|Hs].
  - exists w1. rewrite take_ge by (rewrite length_drop; lia). done.
  - set (k := Z.to_nat (tx_mtu (chan w) - 1)) in *. replace (k `min` (length value - Z.to_nat offset))%nat with k by lia.
    destruct Ha1 as (Hi1&Hm1&Hd1). assert (Ev : e_value conn (db w1) e = value) by (by apply e_value_same).
    destruct (IH (offset + Z.of_nat k) w1) as (w2&E2&Ha2); try done; try (rewrite Ev; lia).
    { intros d' Hd'. apply Haw. by eapply same_values_trans. }
    rewrite E2, Ev. cbn. exists w2. split.
    + do 2 f_equal. rewrite Z2Nat.inj_add, Nat2Z.id, <- drop_drop by lia. by rewrite take_drop.
    + destruct Ha2 as (?&Hm2&?). split; [done|]. split; [congruence|]. by eapply same_values_trans.
Qed.

(** C16. Values are read whole: a client that reads an attribute it may read, with a
    Read request followed by Read Blob requests until a response is not full, gets
    exactly the value of the attribute, for every MTU of 23 to 65 and every length
    below 64 KiB, in at most one request more than the value has bytes. *)
Theorem long_read_complete fuel handle e w :
  idle w -> 0 < handle < 2 ^ 16 -> stays_aware (db w) ->
  in_range handle handle (entries services) = [e] -> e_readable conn e = true ->
  Z.of_nat (length (e_value conn (db w) e)) < 2 ^ 16 -> (length (e_value conn (db w) e) < fuel)%nat ->
  exists w', read_long fuel handle 0 w = Some (e_value conn (db w) e, w') /\ idle w' /\ same_values conn (db w) (db w').
Proof.
  intros Hi Hh Haw He Hr Hv Hf. destruct (read_long_from fuel handle 0 e w Hi Hh Haw He Hr) as (w'&E&Ha); [lia|lia|lia|].
  exists w'. split; [exact E|]. split; apply Ha.
Qed.

(** A Write request the attribute takes. *)
Lemma write_transaction handle (value : list Z) e d1 d2 w :
  idle w -> 0 < handle < 2 ^ 16 -> bt_gatt_change_aware conn true (db w) = (true, d1) ->
  in_range handle handle (entries services) = [e] -> bt_gatt_check_perm conn (e_attr e) BT_GATT_PERM_WRITE_MASK = 0 ->
  attr_do_write (e_ptr e) (e_attr e) conn value 0 0 d1 = (Z.of_nat (length value), d2) ->
  exists w', transact conn ([BT_ATT_OP_WRITE_REQ] ++ le_bytes 2 handle ++ value) w = (Some [BT_ATT_OP_WRITE_RSP], w') /\
    idle w' /\ tx_mtu (chan w') = tx_mtu (chan w) /\ db w' = d2 /\ tx_sem (chan w') = Z.min (tx_sem (chan w) + 1) CONFIG_BT_ATT_TX_MAX.
Proof.
  intros Hi Hh Ea He Hp Ew. eapply transact_handler; [exact Hi|reflexivity|reflexivity|rewrite length_app, le_bytes_length; cbn; lia|].
  cbn [h_func]. unfold att_write_req. rewrite le16_handle by lia.
  replace (drop 2 (le_bytes 2 handle ++ value)) with value by (change 2%nat with (length (le_bytes 2 handle)) at 1; by rewrite drop_app_length).
  unfold att_write_rsp. change (nz BT_ATT_OP_WRITE_REQ) with true. change (db (serving (db w) w)) with (db w). rewrite Ea.
  change (set_env _ d1 (serving (db w) w)) with (serving d1 w). cbn [negb]. rewrite (proj2 (Z.eqb_neq handle 0)) by lia.
  change (nz BT_ATT_OP_WRITE_RSP) with true. destruct (idle_create BT_ATT_OP_WRITE_RSP 0 d1 w Hi ltac:(done)) as [_ ->].
  cbn [andb]. rewrite bool_decide_true by done. cbn [negb]. rewrite foreach_attr_spec by (lia || apply services_small). rewrite He.
  cbn [length iterate]. unfold write_cb. rewrite Hp. cbn [nz Z.eqb negb BT_ATT_OP_WRITE_REQ wd_db].
  change (db (serving d1 w)) with d1. rewrite Ew.
  rewrite (proj2 (Z.ltb_ge _ _)), Z.eqb_refl by lia. cbn [orb negb wd_err wd_db nz Z.eqb]. done.
Qed.
End access.
