(* ===== verification/Hog.v ===== *)
(** The HID-over-GATT service of the application ([src/hog.c], [inc/hog.h]).

    [hog] is the static state of the file.  What leaves the component is the
    list of [event]s: the notifications handed to [bt_gatt_notify] and, for the
    callers that sleep between reports, the sleeps; [printk] output is not
    recorded. *)
From Stdlib Require Import ZArith Lia.
From stdpp Require Import base numbers list.
From S2P Require Import Prelude Gatt.
Open Scope Z_scope.

(** ** Data *)

Definition HIDS_REMOTE_WAKE : Z := BIT 0.
Definition HIDS_NORMALLY_CONNECTABLE : Z := BIT 1.

Record hids_info := { info_version : Z; info_code : Z; info_flags : Z }.

Record hids_report_mouse := { mouse_id : Z; mouse_type : Z }.

Record hids_report_keyboard := mk_report {
  modifier : Z;
  reserved : Z;
  keycode : list Z }.

(** A report object after C's zero-initialisation of the fields not named. *)
Definition zero_report : hids_report_keyboard := mk_report 0 0 (replicate 6 0).

(** The bytes of the packed structs, as [memcpy] and the GATT layer see them. *)
Definition report_bytes (r : hids_report_keyboard) : list Z :=
  modifier r :: reserved r :: keycode r.
Definition info_bytes (i : hids_info) : list Z :=
  [ u8 (info_version i); u8 (info_version i .>> 8); info_code i; info_flags i ].

Definition info : hids_info :=
  {| info_version := 0x0000; info_code := 0x00; info_flags := HIDS_NORMALLY_CONNECTABLE |}.

Definition HIDS_INPUT : Z := 0x01.
Definition HIDS_OUTPUT : Z := 0x02.
Definition HIDS_FEATURE : Z := 0x03.

Definition input_mouse : hids_report_mouse := {| mouse_id := 0x01; mouse_type := HIDS_INPUT |}.

Definition report_map_mouse : list Z :=
  [ 0x05; 0x01; 0x09; 0x02; 0xA1; 0x01; 0x09; 0x01;
    0xA1; 0x00; 0x05; 0x09; 0x19; 0x01; 0x29; 0x03;
    0x15; 0x00; 0x25; 0x01; 0x95; 0x03; 0x75; 0x01;
    0x81; 0x02; 0x95; 0x01; 0x75; 0x05; 0x81; 0x03;
    0x05; 0x01; 0x09; 0x30; 0x09; 0x31; 0x15; 0x81;
    0x25; 0x7F; 0x75; 0x08; 0x95; 0x02; 0x81; 0x06;
    0xC0; 0xC0 ].

Definition report_map : list Z :=
  [ 0x05; 0x01; 0x09; 0x06; 0xa1; 0x01; 0x75; 0x01;
    0x95; 0x08; 0x05; 0x07; 0x19; 0xe0; 0x29; 0xe7;
    0x15; 0x00; 0x25; 0x01; 0x81; 0x02; 0x95; 0x01;
    0x75; 0x08; 0x81; 0x03; 0x95; 0x05; 0x75; 0x01;
    0x05; 0x08; 0x19; 0x01; 0x29; 0x05; 0x91; 0x02;
    0x95; 0x01; 0x75; 0x03; 0x91; 0x03; 0x95; 0x06;
    0x75; 0x08; 0x15; 0x00; 0x25; 167; 0x05; 0x07;
    0x19; 0x00; 0x29; 167; 0x81; 0x00; 0xc0 ].

Inductive event :=
  | Notify (attr_index : Z) (data : list Z)
  | Msleep (ms : Z).

(** The mutable statics: [input_keyboard], [simulate_input], [ctrl_point],
    and the events emitted so far. *)
Record hog := mk_hog {
  input_keyboard : hids_report_keyboard;
  simulate_input : Z;
  ctrl_point : Z;
  events : list event }.

Definition hog_initial : hog := mk_hog zero_report 0 0 [].

Definition emit (e : event) (h : hog) : hog :=
  mk_hog (input_keyboard h) (simulate_input h) (ctrl_point h) (events h ++ [e]).

(** ** Attribute handlers *)

Definition read_info (len offset : Z) : Z * list Z :=
  bt_gatt_attr_read len offset (info_bytes info).

Definition read_report_map (len offset : Z) : Z * list Z :=
  bt_gatt_attr_read len offset report_map.

Definition read_report (h : hog) (len offset : Z) : Z * list Z :=
  bt_gatt_attr_read len offset (report_bytes (input_keyboard h)).

Definition input_ccc_changed (value : Z) (h : hog) : hog :=
  mk_hog (input_keyboard h) (if value =? BT_GATT_CCC_NOTIFY then 1 else 0)
    (ctrl_point h) (events h).

Definition read_input_report (len offset : Z) : Z * list Z :=
  bt_gatt_attr_read len offset [].

(** [write_ctrl_point]: the one-byte object [ctrl_point] is the array the
    [memcpy] writes into. *)
Definition write_ctrl_point (buf : list Z) (offset : Z) (h : hog) : Z * hog :=
  let len := Z.of_nat (length buf) in
  if 1 <? offset + len then (BT_GATT_ERR BT_ATT_ERR_INVALID_OFFSET, h)
  else
    let value := [ctrl_point h] in
    let value := take (Z.to_nat offset) value ++ buf ++ drop (Z.to_nat (offset + len)) value in
    (len, mk_hog (input_keyboard h) (simulate_input h)
            (default (ctrl_point h) (head value)) (events h)).

(** ** Service declaration *)

Inductive read_handler := Rd_info | Rd_report_map | Rd_input_report | Rd_report.
Inductive write_handler := Wr_ctrl_point.

(** The object [BT_GATT_CCC] creates for the input report. *)
Definition HOG_CCC : nat := 2.

Definition hog_svc : list (bt_gatt_attr read_handler write_handler) :=
  BT_GATT_PRIMARY_SERVICE BT_UUID_HIDS ++
  BT_GATT_CHARACTERISTIC BT_UUID_HIDS_INFO BT_GATT_CHRC_READ
    BT_GATT_PERM_READ (Some Rd_info) None ++
  BT_GATT_CHARACTERISTIC BT_UUID_HIDS_REPORT_MAP BT_GATT_CHRC_READ
    BT_GATT_PERM_READ (Some Rd_report_map) None ++
  BT_GATT_CHARACTERISTIC BT_UUID_HIDS_REPORT
    (BT_GATT_CHRC_READ .| BT_GATT_CHRC_NOTIFY)
    BT_GATT_PERM_READ_AUTHEN (Some Rd_input_report) None ++
  BT_GATT_CCC HOG_CCC (BT_GATT_PERM_READ_AUTHEN .| BT_GATT_PERM_WRITE_AUTHEN) ++
  BT_GATT_DESCRIPTOR BT_UUID_HIDS_REPORT_REF
    (BT_GATT_PERM_READ .| BT_GATT_CHRC_NOTIFY) (Some Rd_report) None ++
  BT_GATT_CHARACTERISTIC BT_UUID_HIDS_CTRL_POINT
    BT_GATT_CHRC_WRITE_WITHOUT_RESP BT_GATT_PERM_WRITE None (Some Wr_ctrl_point).

(** ** Reporting *)

Definition trigger_report_notification (h : hog) : hog :=
  if negb (nz (simulate_input h)) then h
  else emit (Notify 6 (report_bytes (input_keyboard h))) h.

Definition hog_set_keyboard_input (kb_report : hids_report_keyboard) (h : hog) : hog :=
  trigger_report_notification
    (mk_hog kb_report (simulate_input h) (ctrl_point h) (events h)).

Definition hog_init (h : hog) : hog := h.

(** ** The report descriptor, read as a HID host reads it

    A reference interpreter of HID 1.11 short items: it keeps the global
    [Report Size] and [Report Count] and adds up the bits of the [Input] and
    [Output] main items; [None] on a truncated item or unbalanced collections. *)
Record hid_host := mk_hid_host {
  report_size : Z; report_count : Z; input_bits : Z; output_bits : Z; depth : Z }.

Definition hid_item_size (prefix : Z) : nat :=
  match prefix .& 3 with 0 => 0%nat | 1 => 1%nat | 2 => 2%nat | _ => 4%nat end.

Definition hid_item (tag data : Z) (s : hid_host) : hid_host :=
  let bits := report_size s * report_count s in
  if tag =? 0x74 then mk_hid_host data (report_count s) (input_bits s) (output_bits s) (depth s)
  else if tag =? 0x94 then mk_hid_host (report_size s) data (input_bits s) (output_bits s) (depth s)
  else if tag =? 0x80 then mk_hid_host (report_size s) (report_count s) (input_bits s + bits) (output_bits s) (depth s)
  else if tag =? 0x90 then mk_hid_host (report_size s) (report_count s) (input_bits s) (output_bits s + bits) (depth s)
  else if tag =? 0xa0 then mk_hid_host (report_size s) (report_count s) (input_bits s) (output_bits s) (depth s + 1)
  else if tag =? 0xc0 then mk_hid_host (report_size s) (report_count s) (input_bits s) (output_bits s) (depth s - 1)
  else s.

Fixpoint hid_parse (fuel : nat) (desc : list Z) (s : hid_host) : option hid_host :=
  match fuel, desc with
  | _, [] => if depth s =? 0 then Some s else None
  | O, _ => None
  | S fuel, prefix :: rest =>
      let n := hid_item_size prefix in
      if (length rest <? n)%nat then None
      else
        let data := foldr (fun b acc => b + 256 * acc) 0 (take n rest) in
        hid_parse fuel (drop n rest) (hid_item (prefix .& 0xfc) data s)
  end.

Definition hid_parse_all (desc : list Z) : option hid_host :=
  hid_parse (length desc) desc (mk_hid_host 0 0 0 0 0).

(** The global and local items in force at the last [Input] item of a report
    descriptor: logical and usage bounds of the key array. *)
Fixpoint hid_last (fuel : nat) (desc : list Z) (tag acc : Z) : Z :=
  match fuel, desc with
  | S fuel, prefix :: rest =>
      let n := hid_item_size prefix in
      let data := foldr (fun b a => b + 256 * a) 0 (take n rest) in
      hid_last fuel (drop n rest) tag (if prefix .& 0xfc =? tag then data else acc)
  | _, _ => acc
  end.

Definition key_usage_maximum : Z := hid_last (length report_map) report_map 0x28 0.

(** ** Properties *)

(** A report object as the code keeps it: bytes, six key slots. *)
Definition report_ok (r : hids_report_keyboard) : Prop :=
  length (keycode r) = 6%nat /\ Forall (fun b => 0 <= b < 256) (report_bytes r).

Lemma set_keyboard_input_events r h :
  events (hog_set_keyboard_input r h) =
  events h ++ (if nz (simulate_input h) then [Notify 6 (report_bytes r)] else []).
Proof.
  unfold hog_set_keyboard_input, trigger_report_notification; simpl.
  destruct (nz (simulate_input h)); simpl; [done|by rewrite app_nil_r].
Qed.

Lemma set_keyboard_input_report r h :
  input_keyboard (hog_set_keyboard_input r h) = r.
Proof.
  unfold hog_set_keyboard_input, trigger_report_notification; simpl.
  by destruct (nz (simulate_input h)).
Qed.

Lemma set_keyboard_input_sub r h :
  simulate_input (hog_set_keyboard_input r h) = simulate_input h.
Proof.
  unfold hog_set_keyboard_input, trigger_report_notification; simpl.
  by destruct (nz (simulate_input h)).
Qed.

Lemma set_keyboard_input_ctrl r h :
  ctrl_point (hog_set_keyboard_input r h) = ctrl_point h.
Proof.
  unfold hog_set_keyboard_input, trigger_report_notification; simpl.
  by destruct (nz (simulate_input h)).
Qed.

#[export] Hint Rewrite set_keyboard_input_events set_keyboard_input_report
  set_keyboard_input_sub set_keyboard_input_ctrl : fw_rw.

(** The report descriptor and the report structure agree: parsed as HID
    1.11 short items the descriptor [report_map] is well formed with balanced
    collections, describes an input report of exactly as many bits as the bytes
    of the notified structure, and a one-byte LED output report. *)
Theorem report_map_describes_report (r : hids_report_keyboard) (Hr : report_ok r) :
  exists h, hid_parse_all report_map = Some h /\
    input_bits h = 8 * Z.of_nat (length (report_bytes r)) /\ output_bits h = 8.
Proof.
  eexists. split; [vm_compute; reflexivity|].
  split; [|reflexivity]. unfold report_bytes. cbn [length]. destruct Hr as [-> _]. reflexivity.
Qed.

Lemma report_map_describes_report_witness :
  report_ok zero_report /\
  exists h, hid_parse_all report_map = Some h /\
    input_bits h = 8 * Z.of_nat (length (report_bytes zero_report)) /\ output_bits h = 8.
Proof.
  assert (Hr : report_ok zero_report)
    by (split; [reflexivity | repeat (apply Forall_cons; split; [simpl; lia|]); constructor]).
  split; [exact Hr|]. exact (report_map_describes_report zero_report Hr).
Defined.

(** Access control of the HID service: below security level 3 exactly the
    service and characteristic declarations, the HID information and the report
    map can be read, and only the control point can be written; the input
    report, its client configuration and the report reference need an
    authenticated link. *)
Theorem hog_access_control (conn : bt_conn) (i : nat)
    (attr : bt_gatt_attr read_handler write_handler) (Hi : hog_svc !! i = Some attr) :
  let authenticated := BT_SECURITY_L3 <=? conn_security conn in
  (bt_gatt_check_perm conn attr BT_GATT_PERM_READ_MASK = 0 <->
     bool_decide (i ∈ [0; 1; 2; 3; 4; 5; 9]%nat) ||
     bool_decide (i ∈ [6; 7; 8]%nat) && authenticated = true) /\
  (bt_gatt_check_perm conn attr BT_GATT_PERM_WRITE_MASK = 0 <->
     bool_decide (i = 10%nat) || bool_decide (i = 7%nat) && authenticated = true).
Proof.
  destruct conn as [sec enc id dst ini]. unfold bt_gatt_check_perm; cbn [conn_security conn_encrypt].
  rewrite Z.leb_antisym. destruct (sec <? BT_SECURITY_L3), enc;
  do 11 (destruct i as [|i];
    [injection Hi as <-; vm_compute; split; split; intros; (reflexivity || discriminate)|]);
  discriminate.
Qed.

Lemma hog_access_control_witness :
  let conn := mk_conn BT_SECURITY_L2 true 0 BT_ADDR_LE_ANY BT_ADDR_LE_ANY in
  let attr := BT_GATT_ATTRIBUTE BT_UUID_HIDS_REPORT BT_GATT_PERM_READ_AUTHEN
                (Some (F_read Rd_input_report)) None UD_value in
  hog_svc !! 6%nat = Some attr /\
  bt_gatt_check_perm conn attr BT_GATT_PERM_READ_MASK <> 0.
Proof.
  intros conn attr. split; [reflexivity|]. intros H.
  apply (hog_access_control conn 6 attr eq_refl) in H. vm_compute in H. discriminate.
Defined.

(** The notified attribute [attrs[6]] is the value of the input report
    characteristic: its declaration carries the notify property and the client
    configuration that [input_ccc_changed] listens to follows it. *)
Theorem notified_attribute :
  exists decl value ccc,
    hog_svc !! 5%nat = Some decl /\ hog_svc !! 6%nat = Some value /\
    hog_svc !! 7%nat = Some ccc /\
    attr_uuid decl = BT_UUID_GATT_CHRC /\
    (exists chrc, user_data decl = UD_chrc chrc /\ nz (properties chrc .& BT_GATT_CHRC_NOTIFY) = true) /\
    attr_uuid value = BT_UUID_HIDS_REPORT /\ attr_uuid ccc = BT_UUID_GATT_CCC /\
    attr_write ccc = Some F_write_ccc.
Proof. do 3 eexists. repeat split; try reflexivity. by eexists. Qed.

(** A host that reads the report map with ATT long reads of any buffer
    size gets the whole descriptor, in order, in finitely many reads. *)
Theorem report_map_long_read (mtu : Z) (Hmtu : 0 < mtu) :
  long_read 64 mtu 0 report_map = Some report_map.
Proof. rewrite long_read_from; [done|lia|vm_compute; split; discriminate|vm_compute; reflexivity]. Qed.

Lemma report_map_long_read_witness : 0 < 22 /\ long_read 64 22 0 report_map = Some report_map.
Proof. split; [lia|]. apply (report_map_long_read 22). lia. Defined.
