(* ===== verification/GattDb.v ===== *)
(** The attribute database of the firmware and the state behind it
    ([subsys/bluetooth/host/gatt.c], [services/bas.c], [services/dis.c],
    [host/keys.c], [host/hci_core.c]): the five services, the handlers of their
    attributes, client configurations, client features, Service Changed data and the
    database hash.

    Settings go to the store of [Settings]; AES-CMAC is the class [TinyCrypt].
    Pending delayed work is a flag: set by a submission, cleared by a cancellation or
    by the run of the work. *)
From Stdlib Require Import ZArith Lia Bool.
From stdpp Require Import base numbers list gmap strings.
From S2P Require Import Prelude ByteOrder Uuid Gatt SettingsKeys Settings Keys Crypto Att AttFacts Hog.
Open Scope Z_scope.

Definition BT_ATT_ERR_INVALID_ATTRIBUTE_LEN : Z := 0x0d.
Definition BT_ATT_ERR_INSUFFICIENT_RESOURCES : Z := 0x11.
Definition BT_ATT_ERR_VALUE_NOT_ALLOWED : Z := 0x13.

(** ** State *)

(** [struct bt_gatt_ccc_cfg] and [struct _bt_gatt_ccc], without its callbacks. *)
Record ccc_cfg := mk_cfg { cfg_id : Z; cfg_peer : bt_addr_le_t; cfg_value : Z }.
Record ccc := mk_ccc { cfgs : list ccc_cfg; ccc_value : Z }.

(** [struct gatt_sc_cfg]. *)
Record gatt_sc_cfg := mk_sc_cfg { sc_id : Z; sc_peer : bt_addr_le_t; sc_start : Z; sc_end : Z }.

(** [struct gatt_cf_cfg], its two flags as booleans. *)
Record gatt_cf_cfg := mk_cf_cfg {
  cf_id : Z; cf_peer : bt_addr_le_t; cf_data : list Z; CF_CHANGE_AWARE : bool; CF_OUT_OF_SYNC : bool }.

(** [struct gatt_sc]. *)
Record gatt_sc := mk_gatt_sc {
  range_start : Z; range_end : Z; SC_RANGE_CHANGED : bool; SC_INDICATE_PENDING : bool; sc_work : bool }.

(** The statics of the files. *)
Record gatt (F : Type) := mk_gatt {
  cccs : list ccc; sc_cfg : list gatt_sc_cfg; cf_cfg : list gatt_cf_cfg;
  db_hash : list Z; db_hash_work : bool; stored_hash : list Z; sc : gatt_sc;
  key_pool : list bt_keys; battery_level : Z; hog_state : hog; store : option (settings_nvs F) }.
Arguments mk_gatt {F}.
Arguments cccs {F}.
Arguments sc_cfg {F}.
Arguments cf_cfg {F}.
Arguments db_hash {F}.
Arguments db_hash_work {F}.
Arguments stored_hash {F}.
Arguments sc {F}.
Arguments key_pool {F}.
Arguments battery_level {F}.
Arguments hog_state {F}.
Arguments store {F}.

Section updates.
Context {F : Type}.
Implicit Types (d : gatt F).

Definition set_cccs x d : gatt F :=
  mk_gatt x (sc_cfg d) (cf_cfg d) (db_hash d) (db_hash_work d) (stored_hash d) (sc d) (key_pool d) (battery_level d) (hog_state d) (store d).
Definition set_sc_cfg x d : gatt F :=
  mk_gatt (cccs d) x (cf_cfg d) (db_hash d) (db_hash_work d) (stored_hash d) (sc d) (key_pool d) (battery_level d) (hog_state d) (store d).
Definition set_cf_cfg x d : gatt F :=
  mk_gatt (cccs d) (sc_cfg d) x (db_hash d) (db_hash_work d) (stored_hash d) (sc d) (key_pool d) (battery_level d) (hog_state d) (store d).
Definition set_hash x b d : gatt F :=
  mk_gatt (cccs d) (sc_cfg d) (cf_cfg d) x b (stored_hash d) (sc d) (key_pool d) (battery_level d) (hog_state d) (store d).
Definition set_stored_hash x d : gatt F :=
  mk_gatt (cccs d) (sc_cfg d) (cf_cfg d) (db_hash d) (db_hash_work d) x (sc d) (key_pool d) (battery_level d) (hog_state d) (store d).
Definition set_sc x d : gatt F :=
  mk_gatt (cccs d) (sc_cfg d) (cf_cfg d) (db_hash d) (db_hash_work d) (stored_hash d) x (key_pool d) (battery_level d) (hog_state d) (store d).
Definition set_battery x d : gatt F :=
  mk_gatt (cccs d) (sc_cfg d) (cf_cfg d) (db_hash d) (db_hash_work d) (stored_hash d) (sc d) (key_pool d) x (hog_state d) (store d).
Definition set_hog x d : gatt F :=
  mk_gatt (cccs d) (sc_cfg d) (cf_cfg d) (db_hash d) (db_hash_work d) (stored_hash d) (sc d) (key_pool d) (battery_level d) x (store d).
Definition set_store x d : gatt F :=
  mk_gatt (cccs d) (sc_cfg d) (cf_cfg d) (db_hash d) (db_hash_work d) (stored_hash d) (sc d) (key_pool d) (battery_level d) (hog_state d) x.
End updates.

(** ** Services *)

(** The read functions of the services; [read_str] with the string it reads. *)
Inductive reads :=
  | R_name | R_appearance | R_ppcp | R_cf | R_db_hash | R_blvl | R_str (s : cstr) | R_pnp_id | R_hog (r : read_handler).
Inductive writes := W_cf | W_hog (w : write_handler).

Definition lift_attr (a : bt_gatt_attr read_handler write_handler) : bt_gatt_attr reads writes :=
  mk_attr (attr_uuid a) (attr_perm a)
    (match attr_read a with
     | None => None
     | Some F_read_service => Some F_read_service
     | Some F_read_chrc => Some F_read_chrc
     | Some F_read_ccc => Some F_read_ccc
     | Some (F_read r) => Some (F_read (R_hog r))
     end)
    (match attr_write a with
     | None => None
     | Some F_write_ccc => Some F_write_ccc
     | Some (F_write w) => Some (F_write (W_hog w))
     end)
    (user_data a).

Definition SC_CCC : nat := 0.
Definition BAS_CCC : nat := 1.

Definition CONFIG_BT_DEVICE_NAME : cstr := chars "PS2 to bluetooth keyboard adapter".
Definition CONFIG_BT_DIS_MODEL : cstr := chars "nRF52840_QIAA".
Definition CONFIG_BT_DIS_MANUF : cstr := chars "Manufacturer".
Definition gap_appearance : Z := 962.
Definition CONFIG_BT_PERIPHERAL_PREF_MIN_INT : Z := 24.
Definition CONFIG_BT_PERIPHERAL_PREF_MAX_INT : Z := 40.
Definition CONFIG_BT_PERIPHERAL_PREF_SLAVE_LATENCY : Z := 0.
Definition CONFIG_BT_PERIPHERAL_PREF_TIMEOUT : Z := 42.

Definition gatt_svc : list (bt_gatt_attr reads writes) :=
  BT_GATT_PRIMARY_SERVICE BT_UUID_GATT ++
  BT_GATT_CHARACTERISTIC BT_UUID_GATT_SC BT_GATT_CHRC_INDICATE BT_GATT_PERM_NONE None None ++
  BT_GATT_CCC_MANAGED SC_CCC (BT_GATT_PERM_READ .| BT_GATT_PERM_WRITE) ++
  BT_GATT_CHARACTERISTIC BT_UUID_GATT_CLIENT_FEATURES (BT_GATT_CHRC_READ .| BT_GATT_CHRC_WRITE)
    (BT_GATT_PERM_READ .| BT_GATT_PERM_WRITE) (Some R_cf) (Some W_cf) ++
  BT_GATT_CHARACTERISTIC BT_UUID_GATT_DB_HASH BT_GATT_CHRC_READ BT_GATT_PERM_READ (Some R_db_hash) None.

Definition gap_svc : list (bt_gatt_attr reads writes) :=
  BT_GATT_PRIMARY_SERVICE BT_UUID_GAP ++
  BT_GATT_CHARACTERISTIC BT_UUID_GAP_DEVICE_NAME BT_GATT_CHRC_READ BT_GATT_PERM_READ (Some R_name) None ++
  BT_GATT_CHARACTERISTIC BT_UUID_GAP_APPEARANCE BT_GATT_CHRC_READ BT_GATT_PERM_READ (Some R_appearance) None ++
  BT_GATT_CHARACTERISTIC BT_UUID_GAP_PPCP BT_GATT_CHRC_READ BT_GATT_PERM_READ (Some R_ppcp) None.

Definition bas : list (bt_gatt_attr reads writes) :=
  BT_GATT_PRIMARY_SERVICE BT_UUID_BAS ++
  BT_GATT_CHARACTERISTIC BT_UUID_BAS_BATTERY_LEVEL (BT_GATT_CHRC_READ .| BT_GATT_CHRC_NOTIFY) BT_GATT_PERM_READ (Some R_blvl) None ++
  BT_GATT_CCC BAS_CCC (BT_GATT_PERM_READ .| BT_GATT_PERM_WRITE).

Definition dis_svc : list (bt_gatt_attr reads writes) :=
  BT_GATT_PRIMARY_SERVICE BT_UUID_DIS ++
  BT_GATT_CHARACTERISTIC BT_UUID_DIS_MODEL_NUMBER BT_GATT_CHRC_READ BT_GATT_PERM_READ (Some (R_str CONFIG_BT_DIS_MODEL)) None ++
  BT_GATT_CHARACTERISTIC BT_UUID_DIS_MANUFACTURER_NAME BT_GATT_CHRC_READ BT_GATT_PERM_READ (Some (R_str CONFIG_BT_DIS_MANUF)) None ++
  BT_GATT_CHARACTERISTIC BT_UUID_DIS_PNP_ID BT_GATT_CHRC_READ BT_GATT_PERM_READ (Some R_pnp_id) None.

(** In the order of their section, which the linker sorts by name. *)
Definition svcs : list (list (bt_gatt_attr reads writes)) := [gatt_svc; gap_svc; bas; dis_svc; lift_attr <$> hog_svc].

(** [struct dis_pnp], packed. *)
Record dis_pnp := mk_pnp { pnp_vid_src : Z; pnp_vid : Z; pnp_pid : Z; pnp_ver : Z }.
Definition dis_pnp_id : dis_pnp := mk_pnp 1 0 0 1.
Definition pnp_bytes (p : dis_pnp) : list Z := pnp_vid_src p :: le_bytes 2 (pnp_vid p) ++ le_bytes 2 (pnp_pid p) ++ le_bytes 2 (pnp_ver p).

(** ** Bonds and keys *)

Section operations.
Context {F : Type} `{!Nvs F}.
Implicit Types (d : gatt F) (conn : bt_conn).

Definition bt_addr_le_is_bonded (id : Z) (addr : bt_addr_le_t) d : bool :=
  match bt_keys_find_addr id addr (key_pool d) ≫= (fun i => key_pool d !! i) with Some k => nz (keys_keys k) | None => false end.

(** Errors of the store are logged by the callers that ignore them. *)
Definition save_setting (name : cstr) (value : list Z) d : Z * gatt F :=
  let '(err, s) := settings_save_one name value (store d) in (err, set_store s d).

(** ** Service Changed *)

Definition find_sc_cfg (id : Z) (addr : bt_addr_le_t) (l : list gatt_sc_cfg) : option nat :=
  find_index (fun cfg => (id =? sc_id cfg) && bool_decide (sc_peer cfg = addr)) l.

Definition sc_bytes (cfg : gatt_sc_cfg) : list Z := le_bytes 2 (sc_start cfg) ++ le_bytes 2 (sc_end cfg).

Definition sc_store (cfg : gatt_sc_cfg) d : gatt F :=
  (save_setting (peer_key "sc" (sc_id cfg) (sc_peer cfg)) (sc_bytes cfg) d).2.

Definition clear_sc_cfg (cfg : gatt_sc_cfg) : gatt_sc_cfg := mk_sc_cfg 0 BT_ADDR_LE_ANY 0 0.

Definition bt_gatt_clear_sc (id : Z) (addr : bt_addr_le_t) d : gatt F :=
  match find_sc_cfg id addr (sc_cfg d) with
  | None => d
  | Some i =>
      let d := match sc_cfg d !! i with
               | Some cfg => (save_setting (peer_key "sc" (sc_id cfg) (sc_peer cfg)) [] d).2
               | None => d
               end in
      set_sc_cfg (alter clear_sc_cfg i (sc_cfg d)) d
  end.

Definition sc_clear conn d : gatt F :=
  if bt_addr_le_is_bonded (conn_id conn) (conn_dst conn) d then bt_gatt_clear_sc (conn_id conn) (conn_dst conn) d
  else
    match find_sc_cfg (conn_id conn) (conn_dst conn) (sc_cfg d) with
    | Some i => set_sc_cfg (alter clear_sc_cfg i (sc_cfg d)) d
    | None => d
    end.

Definition sc_reset (i : nat) d : gatt F :=
  match sc_cfg d !! i with
  | Some cfg =>
      let cfg := mk_sc_cfg (sc_id cfg) (sc_peer cfg) 0 0 in
      sc_store cfg (set_sc_cfg (<[i := cfg]> (sc_cfg d)) d)
  | None => d
  end.

(** Whether the range changed, and the range. *)
Definition update_range (start end_ new_start new_end : Z) : bool * (Z * Z) :=
  if (start <=? new_start) && (new_end <=? end_) then (false, (start, end_))
  else (true, (if new_start <? start then new_start else start, if end_ <? new_end then new_end else end_)).

Definition sc_save (id : Z) (peer : bt_addr_le_t) (start end_ : Z) d : gatt F :=
  let found :=
    match find_sc_cfg id peer (sc_cfg d) with
    | Some i => Some (i, sc_cfg d)
    | None =>
        match find_sc_cfg BT_ID_DEFAULT BT_ADDR_LE_ANY (sc_cfg d) with
        | None => None
        | Some i => Some (i, alter (fun cfg => mk_sc_cfg id peer (sc_start cfg) (sc_end cfg)) i (sc_cfg d))
        end
    end in
  match found with
  | None => d
  | Some (i, l) =>
      match l !! i with
      | None => d
      | Some cfg =>
          let '(modified, (s, e)) :=
            if negb (nz (sc_start cfg) || nz (sc_end cfg)) then (true, (start, end_))
            else update_range (sc_start cfg) (sc_end cfg) start end_ in
          let cfg := mk_sc_cfg (sc_id cfg) (sc_peer cfg) s e in
          let d := set_sc_cfg (<[i := cfg]> l) d in
          if modified && bt_addr_le_is_bonded (sc_id cfg) (sc_peer cfg) d then sc_store cfg d else d
      end
  end.

Definition sc_ccc_cfg_write conn (value : Z) d : Z * gatt F :=
  (2, if value =? BT_GATT_CCC_INDICATE then sc_save (conn_id conn) (conn_dst conn) 0 0 d else sc_clear conn d).

(** ** Client features *)

Definition CF_BIT_LAST : Z := 2.
Definition CF_BYTE_LAST : Z := CF_BIT_LAST mod 8.
Definition CF_ROBUST_CACHING (cfg : gatt_cf_cfg) : bool := nz (default 0 (cf_data cfg !! 0%nat) .& BIT 0).

Definition clear_cf_cfg (cfg : gatt_cf_cfg) : gatt_cf_cfg := mk_cf_cfg (cf_id cfg) BT_ADDR_LE_ANY [0] false false.

(** [None] is the NULL connection: an entry that is free. *)
Definition find_cf_cfg (conn : option bt_conn) (l : list gatt_cf_cfg) : option nat :=
  find_index (fun cfg =>
    match conn with
    | None => bool_decide (cf_peer cfg = BT_ADDR_LE_ANY)
    | Some conn => bt_conn_is_peer_addr_le conn (cf_id cfg) (cf_peer cfg)
    end) l.

Definition cf_value (conn : option bt_conn) d : list Z :=
  match find_cf_cfg conn (cf_cfg d) ≫= fun i => cf_cfg d !! i with Some cfg => cf_data cfg | None => [0] end.
Definition cf_read (conn : option bt_conn) (len offset : Z) d : Z * list Z := bt_gatt_attr_read len offset (cf_value conn d).

(** The array index [i] of [data], whose bounds the callers keep. *)
Definition cf_set_value (cfg : gatt_cf_cfg) (value : list Z) : option gatt_cf_cfg :=
  let byte (l : list Z) (i : nat) := default 0 (l !! i) in
  let upto (n : Z) := seq 0 (Z.to_nat (Z.min (Z.of_nat (length value)) n)) in
  if forallb (fun i =>
       let chg_bits := byte value i .^ byte (cf_data cfg) i in
       forallb (fun bit => negb (nz (BIT bit .& chg_bits) && nz (BIT bit .& byte (cf_data cfg) i))) (seqZ 0 (CF_BIT_LAST + 1)))
     (upto (CF_BYTE_LAST + 1))
  then
    let data := foldl (fun data i => alter (fun b => u8 (b .| (byte value i .& (BIT (CF_BIT_LAST + 1) - 1)))) i data)
                  (cf_data cfg) (upto CF_BYTE_LAST) in
    Some (mk_cf_cfg (cf_id cfg) (cf_peer cfg) data (CF_CHANGE_AWARE cfg) (CF_OUT_OF_SYNC cfg))
  else None.

Definition cf_write conn (buf : list Z) (offset : Z) d : Z * gatt F :=
  let len := Z.of_nat (length buf) in
  if 1 <? offset then (BT_GATT_ERR BT_ATT_ERR_INVALID_OFFSET, d)
  else if 1 <? offset + len then (BT_GATT_ERR BT_ATT_ERR_INVALID_ATTRIBUTE_LEN, d)
  else
    match (match find_cf_cfg (Some conn) (cf_cfg d) with Some i => Some i | None => find_cf_cfg None (cf_cfg d) end) with
    | None => (BT_GATT_ERR BT_ATT_ERR_INSUFFICIENT_RESOURCES, d)
    | Some i =>
        match cf_cfg d !! i ≫= fun cfg => cf_set_value cfg buf with
        | None => (BT_GATT_ERR BT_ATT_ERR_VALUE_NOT_ALLOWED, d)
        | Some cfg => (len, set_cf_cfg (<[i := mk_cf_cfg (conn_id conn) (conn_dst conn) (cf_data cfg) true (CF_OUT_OF_SYNC cfg)]> (cf_cfg d)) d)
        end
    end.

(** [bt_gatt_change_aware], whose connection may be NULL. *)
Definition change_aware (conn : option bt_conn) (req : bool) d : bool * gatt F :=
  match find_cf_cfg conn (cf_cfg d) with
  | None => (true, d)
  | Some i =>
      match cf_cfg d !! i with
      | None => (true, d)
      | Some cfg =>
          if negb (CF_ROBUST_CACHING cfg) then (true, d)
          else if CF_CHANGE_AWARE cfg then (true, d)
          else if negb req then (false, d)
          else if CF_OUT_OF_SYNC cfg
          then (true, set_cf_cfg (<[i := mk_cf_cfg (cf_id cfg) (cf_peer cfg) (cf_data cfg) true false]> (cf_cfg d)) d)
          else (false, set_cf_cfg (<[i := mk_cf_cfg (cf_id cfg) (cf_peer cfg) (cf_data cfg) (CF_CHANGE_AWARE cfg) true]> (cf_cfg d)) d)
      end
  end.

Definition remove_cf_cfg conn d : gatt F :=
  match find_cf_cfg (Some conn) (cf_cfg d) with
  | None => d
  | Some i =>
      if negb (bt_addr_le_is_bonded (conn_id conn) (conn_dst conn) d)
      then set_cf_cfg (alter clear_cf_cfg i (cf_cfg d)) d
      else set_cf_cfg (alter (fun cfg => mk_cf_cfg (cf_id cfg) (conn_dst conn) (cf_data cfg) (CF_CHANGE_AWARE cfg) false) i (cf_cfg d)) d
  end.
End operations.

(** ** Database hash *)

Section hash.
Context {C : Type} `{!TinyCrypt C}.

(** Updates in sequence, up to the first that fails. *)
Fixpoint cmac_updates (l : list (list Z)) (c : C) : bool * C :=
  match l with
  | [] => (true, c)
  | bs :: l => let '(ok, c) := tc_cmac_update c bs in if ok then cmac_updates l c else (false, c)
  end.

(** The value a declaration is hashed with: what its [read] copies into the 16-byte
    buffer.  The attributes concerned have the two readers of this file. *)
Definition decl_read (p : attr_ptr) (attr : bt_gatt_attr reads writes) : Z * list Z :=
  match attr_read attr with
  | Some F_read_chrc => bt_gatt_attr_read_chrc svcs p attr 16 0
  | _ => bt_gatt_attr_read_service attr 16 0
  end.

Definition gen_hash_m (p : attr_ptr) (attr : bt_gatt_attr reads writes) (handle : Z) (c : C) : iter * C :=
  match attr_uuid attr with
  | BT_UUID_INIT_16 val =>
      if one_of val [0x2800; 0x2801; 0x2802; 0x2803; 0x2900] then
        let '(ok, c) := cmac_updates [le_bytes 2 handle; le_bytes 2 val] c in
        if negb ok then (BT_GATT_ITER_STOP, c)
        else
          let '(len, data) := decl_read p attr in
          if len <? 0 then (BT_GATT_ITER_STOP, c)
          else
            let '(ok, c) := tc_cmac_update c data in
            (if ok then BT_GATT_ITER_CONTINUE else BT_GATT_ITER_STOP, c)
      else if one_of val [0x2901; 0x2902; 0x2903; 0x2904; 0x2905] then
        let '(ok, c) := cmac_updates [le_bytes 2 handle; le_bytes 2 val] c in
        (if ok then BT_GATT_ITER_CONTINUE else BT_GATT_ITER_STOP, c)
      else (BT_GATT_ITER_CONTINUE, c)
  | _ => (BT_GATT_ITER_CONTINUE, c)
  end.

(** The hash [db_hash_gen] computes; [None] when it gives up.  [sys_mem_swap]
    reverses the bytes. *)
Definition generated_hash : option (list Z) :=
  c ← tc_cmac_setup (replicate 16 0);
  hash ← tc_cmac_final (bt_gatt_foreach_attr svcs 0x0001 0xffff gen_hash_m c);
  Some (rev hash).

Context {F : Type} `{!Nvs F}.
Implicit Types (d : gatt F).

Definition db_hash_store d : gatt F := (save_setting (chars "bt/hash") (db_hash d) d).2.

Definition db_hash_gen (to_store : bool) d : gatt F :=
  match generated_hash with
  | None => d
  | Some hash => let d := set_hash hash (db_hash_work d) d in if to_store then db_hash_store d else d
  end.

Definition db_hash_process d : gatt F := db_hash_gen true (set_hash (db_hash d) false d).

(** [k_delayed_work_cancel]: whether the work was pending. *)
Definition db_hash_cancel d : bool * gatt F := (db_hash_work d, set_hash (db_hash d) false d).

(** Everything [db_hash_read] does before it reads from [db_hash]. *)
Definition db_hash_refresh (conn : option bt_conn) d : gatt F :=
  let '(pending, d) := db_hash_cancel d in
  let d := if pending then db_hash_gen true d else d in
  (change_aware conn true d).2.
Definition db_hash_read (conn : option bt_conn) (len offset : Z) d : Z * list Z * gatt F :=
  let d := db_hash_refresh conn d in (bt_gatt_attr_read len offset (db_hash d), d).
End hash.

(** ** Client configurations *)

Section cccs.
Context {F : Type} `{!Nvs F}.
Implicit Types (d : gatt F) (conn : bt_conn) (n : nat).

Definition the_ccc n d : ccc := default (mk_ccc [] 0) (cccs d !! n).
Definition put_ccc n (c : ccc) d : gatt F := set_cccs (<[n := c]> (cccs d)) d.

Definition clear_ccc_cfg (cfg : ccc_cfg) : ccc_cfg := mk_cfg 0 BT_ADDR_LE_ANY 0.

Definition find_ccc_cfg (conn : option bt_conn) (c : ccc) : option nat :=
  find_index (fun cfg =>
    match conn with
    | Some conn => bt_conn_is_peer_addr_le conn (cfg_id cfg) (cfg_peer cfg)
    | None => bool_decide (cfg_peer cfg = BT_ADDR_LE_ANY)
    end) (cfgs c).

(** The value [bt_gatt_attr_read_ccc] reads. *)
Definition ccc_read_value (conn : option bt_conn) n d : list Z :=
  le_bytes 2 match find_ccc_cfg conn (the_ccc n d) ≫= fun i => cfgs (the_ccc n d) !! i with
             | Some cfg => cfg_value cfg
             | None => 0
             end.
Definition bt_gatt_attr_read_ccc (conn : option bt_conn) n (len offset : Z) d : Z * list Z :=
  bt_gatt_attr_read len offset (ccc_read_value conn n d).

(** The callbacks of the configurations: Service Changed has [cfg_write], the battery
    level logs its changes, the HID service listens to them. *)
Definition cfg_changed n (value : Z) d : gatt F :=
  if (n =? HOG_CCC)%nat then set_hog (input_ccc_changed value (hog_state d)) d else d.
Definition cfg_write n : option (bt_conn -> Z -> gatt F -> Z * gatt F) :=
  if (n =? SC_CCC)%nat then Some sc_ccc_cfg_write else None.

Definition gatt_ccc_changed n d : gatt F :=
  let c := the_ccc n d in
  let value := foldl (fun value cfg => if value <? cfg_value cfg then cfg_value cfg else value) 0 (cfgs c) in
  if negb (value =? ccc_value c) then cfg_changed n value (put_ccc n (mk_ccc (cfgs c) value) d) else d.

(** The update of entry [i], behind [cfg_write]. *)
Definition write_ccc_entry n (i : nat) (value : Z) d : gatt F :=
  let upd f d := let c := the_ccc n d in put_ccc n (mk_ccc (alter f i (cfgs c)) (ccc_value c)) d in
  let d := upd (fun cfg => mk_cfg (cfg_id cfg) (cfg_peer cfg) value) d in
  let d := if negb (value =? ccc_value (the_ccc n d)) then gatt_ccc_changed n d else d in
  if value =? 0 then upd clear_ccc_cfg d else d.

Definition bt_gatt_attr_write_ccc conn n (buf : list Z) (offset : Z) d : Z * gatt F :=
  let len := Z.of_nat (length buf) in
  if nz offset then (BT_GATT_ERR BT_ATT_ERR_INVALID_OFFSET, d)
  else if (len =? 0) || (2 <? len) then (BT_GATT_ERR BT_ATT_ERR_INVALID_ATTRIBUTE_LEN, d)
  else
    let value := le_value buf in
    let c := the_ccc n d in
    let entry :=
      match find_ccc_cfg (Some conn) c with
      | Some i => inr (i, d)
      | None =>
          if value =? 0 then inl len
          else
            match find_ccc_cfg None c with
            | None => inl (BT_GATT_ERR BT_ATT_ERR_INSUFFICIENT_RESOURCES)
            | Some i => inr (i, put_ccc n (mk_ccc (alter (fun cfg => mk_cfg (conn_id conn) (conn_dst conn) (cfg_value cfg)) i (cfgs c)) (ccc_value c)) d)
            end
      end in
    match entry with
    | inl r => (r, d)
    | inr (i, d) =>
        match cfg_write n with
        | None => (len, write_ccc_entry n i value d)
        | Some write =>
            let '(r, d) := write conn value d in
            if r <? 0 then (r, d)
            else if negb (r =? 2) && negb (r =? 1) then (BT_GATT_ERR BT_ATT_ERR_UNLIKELY, d)
            else (len, write_ccc_entry n i value d)
        end
    end.
End cccs.

(** The statics at start-up. *)
Definition gatt_initial {F} : gatt F :=
  mk_gatt (replicate 3 (mk_ccc [mk_cfg 0 BT_ADDR_LE_ANY 0] 0)) (replicate 2 (mk_sc_cfg 0 BT_ADDR_LE_ANY 0 0))
    (replicate 2 (mk_cf_cfg 0 BT_ADDR_LE_ANY [0] false false)) (replicate 16 0) false (replicate 16 0)
    (mk_gatt_sc 0 0 false false false) [] 100 hog_initial None.

(** ** Reading and writing attributes *)

Section server.
Context {C F : Type} `{!TinyCrypt C, !Nvs F}.
Implicit Types (d : gatt F) (conn : bt_conn).

Definition bt_get_name : cstr := CONFIG_BT_DEVICE_NAME.
Definition read_name (len offset : Z) : Z * list Z := bt_gatt_attr_read len offset bt_get_name.
Definition read_appearance (len offset : Z) : Z * list Z := bt_gatt_attr_read len offset (le_bytes 2 gap_appearance).
Definition ppcp_bytes : list Z :=
  le_bytes 2 CONFIG_BT_PERIPHERAL_PREF_MIN_INT ++ le_bytes 2 CONFIG_BT_PERIPHERAL_PREF_MAX_INT ++
  le_bytes 2 CONFIG_BT_PERIPHERAL_PREF_SLAVE_LATENCY ++ le_bytes 2 CONFIG_BT_PERIPHERAL_PREF_TIMEOUT.
Definition read_ppcp (len offset : Z) : Z * list Z := bt_gatt_attr_read len offset ppcp_bytes.
Definition read_blvl (len offset : Z) d : Z * list Z := bt_gatt_attr_read len offset [battery_level d].
Definition read_str (s : cstr) (len offset : Z) : Z * list Z := bt_gatt_attr_read len offset s.
Definition read_pnp_id (len offset : Z) : Z * list Z := bt_gatt_attr_read len offset (pnp_bytes dis_pnp_id).

(** [attr->read]; an attribute without it is not read. *)
Definition attr_reads (p : attr_ptr) (attr : bt_gatt_attr reads writes) (conn : option bt_conn) (len offset : Z) d : Z * list Z * gatt F :=
  match attr_read attr with
  | Some F_read_service => (bt_gatt_attr_read_service attr len offset, d)
  | Some F_read_chrc => (bt_gatt_attr_read_chrc svcs p attr len offset, d)
  | Some F_read_ccc => (bt_gatt_attr_read_ccc conn (match user_data attr with UD_ccc n => n | _ => 0%nat end) len offset d, d)
  | Some (F_read R_name) => (read_name len offset, d)
  | Some (F_read R_appearance) => (read_appearance len offset, d)
  | Some (F_read R_ppcp) => (read_ppcp len offset, d)
  | Some (F_read R_cf) => (cf_read conn len offset d, d)
  | Some (F_read R_db_hash) => db_hash_read (C:=C) conn len offset d
  | Some (F_read R_blvl) => (read_blvl len offset d, d)
  | Some (F_read (R_str s)) => (read_str s len offset, d)
  | Some (F_read R_pnp_id) => (read_pnp_id len offset, d)
  | Some (F_read (R_hog Rd_info)) => (read_info len offset, d)
  | Some (F_read (R_hog Rd_report_map)) => (read_report_map len offset, d)
  | Some (F_read (R_hog Rd_input_report)) => (read_input_report len offset, d)
  | Some (F_read (R_hog Rd_report)) => (read_report (hog_state d) len offset, d)
  | None => (bt_gatt_attr_read len offset [], d)
  end.

(** [attr->write]; an attribute without it is not written. *)
Definition attr_writes (attr : bt_gatt_attr reads writes) conn (buf : list Z) (offset : Z) d : Z * gatt F :=
  match attr_write attr with
  | Some F_write_ccc => bt_gatt_attr_write_ccc conn (match user_data attr with UD_ccc n => n | _ => 0%nat end) buf offset d
  | Some (F_write W_cf) => cf_write conn buf offset d
  | Some (F_write (W_hog Wr_ctrl_point)) =>
      let '(r, h) := write_ctrl_point buf offset (hog_state d) in (r, set_hog h d)
  | None => (BT_GATT_ERR BT_ATT_ERR_WRITE_NOT_PERMITTED, d)
  end.
End server.

#[export] Instance firmware_server C F `{!TinyCrypt C, !Nvs F} : GattServer reads writes (gatt F) := {
  services := svcs;
  attr_do_read p attr conn len offset d := attr_reads (C:=C) p attr (Some conn) len offset d;
  attr_do_write p attr conn buf offset flags d := attr_writes attr conn buf offset d;
  bt_gatt_change_aware conn req d := change_aware (Some conn) req d }.

(** ** The server keeps the promises of its interface *)

Lemma find_index_fmap {A B} (f : A -> B) (P : B -> bool) (l : list A) :
  find_index P (f <$> l) = find_index (fun x => P (f x)) l.
Proof. unfold find_index. rewrite list_find_fmap. by destruct (list_find _ l) as [[i x]|]. Qed.

Section promises.
Context {C F : Type} `{!TinyCrypt C, !Nvs F}.
Implicit Types (d : gatt F) (conn : option bt_conn).

(** What reads see of the client features: all but the flags. *)
Definition cf_view (cfg : gatt_cf_cfg) : Z * bt_addr_le_t * list Z := (cf_id cfg, cf_peer cfg, cf_data cfg).

Lemma cf_value_view conn d d' : cf_view <$> cf_cfg d' = cf_view <$> cf_cfg d -> cf_value conn d' = cf_value conn d.
Proof.
  intros E. unfold cf_value, find_cf_cfg.
  set (P := fun v : Z * bt_addr_le_t * list Z =>
    match conn with None => bool_decide (v.1.2 = BT_ADDR_LE_ANY) | Some conn => bt_conn_is_peer_addr_le conn v.1.1 v.1.2 end).
  change (fun cfg : gatt_cf_cfg => _) with (fun cfg => P (cf_view cfg)). rewrite <- !(find_index_fmap cf_view P), E.
  destruct (find_index P _) as [i|]; [|done]. cbn.
  assert (Ei : cf_view <$> cf_cfg d' !! i = cf_view <$> cf_cfg d !! i) by (by rewrite <- !list_lookup_fmap, E).
  destruct (cf_cfg d' !! i) as [[]|], (cf_cfg d !! i) as [[]|]; cbn in Ei; by simplify_eq.
Qed.

Lemma change_aware_keeps conn req d :
  let d' := (change_aware conn req d).2 in
  cccs d' = cccs d /\ battery_level d' = battery_level d /\ hog_state d' = hog_state d /\ db_hash d' = db_hash d /\
  db_hash_work d' = db_hash_work d /\ cf_view <$> cf_cfg d' = cf_view <$> cf_cfg d.
Proof.
  unfold change_aware. destruct (find_cf_cfg conn (cf_cfg d)) as [i|]; [|done].
  destruct (cf_cfg d !! i) as [cfg|] eqn:E; [|done].
  assert (G : forall x, cf_view x = cf_view cfg -> cf_view <$> <[i:=x]> (cf_cfg d) = cf_view <$> cf_cfg d).
  { intros x Ex. rewrite list_fmap_insert, Ex. apply list_insert_id. by rewrite list_lookup_fmap, E. }
  destruct (negb (CF_ROBUST_CACHING cfg)); [done|]. destruct (CF_CHANGE_AWARE cfg); [done|]. destruct (negb req); [done|].
  destruct (CF_OUT_OF_SYNC cfg); cbn; rewrite G by done; done.
Qed.

Lemma db_hash_gen_keeps b d :
  let d' := db_hash_gen (C:=C) b d in
  cccs d' = cccs d /\ battery_level d' = battery_level d /\ hog_state d' = hog_state d /\
  db_hash_work d' = db_hash_work d /\ cf_cfg d' = cf_cfg d.
Proof.
  unfold db_hash_gen, db_hash_store, save_setting. destruct generated_hash as [h|]; [|done]. destruct b; [|done].
  cbn. by destruct (settings_save_one _ _ _).
Qed.

Lemma refresh_keeps conn d :
  let d' := db_hash_refresh (C:=C) conn d in
  cccs d' = cccs d /\ battery_level d' = battery_level d /\ hog_state d' = hog_state d /\
  db_hash_work d' = false /\ cf_view <$> cf_cfg d' = cf_view <$> cf_cfg d.
Proof.
  unfold db_hash_refresh, db_hash_cancel. set (d1 := set_hash (db_hash d) false d).
  set (d2 := if db_hash_work d then db_hash_gen true d1 else d1).
  assert (H2 : cccs d2 = cccs d /\ battery_level d2 = battery_level d /\ hog_state d2 = hog_state d /\ db_hash_work d2 = false /\ cf_cfg d2 = cf_cfg d).
  { subst d2. destruct (db_hash_work d); [|done]. destruct (db_hash_gen_keeps true d1) as (->&->&->&->&->). done. }
  destruct H2 as (<-&<-&<-&<-&<-). destruct (change_aware_keeps conn true d2) as (->&->&->&_&->&->). done.
Qed.

(** The value of an attribute for a client. *)
Definition gatt_value (p : attr_ptr) (attr : bt_gatt_attr reads writes) (conn : bt_conn) d : list Z :=
  match attr_read attr with
  | Some F_read_service => service_value attr
  | Some F_read_chrc => chrc_value svcs p attr
  | Some F_read_ccc => ccc_read_value (Some conn) (match user_data attr with UD_ccc n => n | _ => 0%nat end) d
  | Some (F_read R_name) => bt_get_name
  | Some (F_read R_appearance) => le_bytes 2 gap_appearance
  | Some (F_read R_ppcp) => ppcp_bytes
  | Some (F_read R_cf) => cf_value (Some conn) d
  | Some (F_read R_db_hash) => db_hash (db_hash_refresh (C:=C) (Some conn) d)
  | Some (F_read R_blvl) => [battery_level d]
  | Some (F_read (R_str s)) => s
  | Some (F_read R_pnp_id) => pnp_bytes dis_pnp_id
  | Some (F_read (R_hog Rd_info)) => info_bytes info
  | Some (F_read (R_hog Rd_report_map)) => report_map
  | Some (F_read (R_hog Rd_input_report)) => []
  | Some (F_read (R_hog Rd_report)) => report_bytes (input_keyboard (hog_state d))
  | None => []
  end.

Lemma refresh_hash conn conn' d :
  db_hash (db_hash_refresh (C:=C) conn' (db_hash_refresh (C:=C) conn d)) = db_hash (db_hash_refresh (C:=C) conn d).
Proof.
  destruct (refresh_keeps conn d) as (_&_&_&Hw&_). set (d1 := db_hash_refresh conn d) in *.
  unfold db_hash_refresh, db_hash_cancel. rewrite Hw. by destruct (change_aware_keeps conn' true (set_hash (db_hash d1) false d1)) as (_&_&_&->&_).
Qed.

Lemma refresh_hash_conn conn conn' d : db_hash (db_hash_refresh (C:=C) conn d) = db_hash (db_hash_refresh (C:=C) conn' d).
Proof.
  unfold db_hash_refresh. destruct (db_hash_cancel d) as [pending d1]. set (d2 := if pending then db_hash_gen true d1 else d1).
  destruct (change_aware_keeps conn true d2) as (_&_&_&->&_), (change_aware_keeps conn' true d2) as (_&_&_&->&_). done.
Qed.

Lemma gatt_value_refresh p attr (conn c : bt_conn) d : gatt_value p attr conn (db_hash_refresh (C:=C) (Some c) d) = gatt_value p attr conn d.
Proof.
  destruct (refresh_keeps (Some c) d) as (H1&H2&H3&_&H5). unfold gatt_value, ccc_read_value, the_ccc.
  rewrite H1, H2, H3, (cf_value_view _ _ _ H5), refresh_hash, (refresh_hash_conn (Some c) (Some conn)). done.
Qed.

Lemma gatt_value_aware p attr (conn : bt_conn) c req d : gatt_value p attr conn (change_aware c req d).2 = gatt_value p attr conn d.
Proof.
  destruct (change_aware_keeps c req d) as (H1&H2&H3&H4&H5&H6). unfold gatt_value, ccc_read_value, the_ccc.
  rewrite H1, H2, H3, (cf_value_view _ _ _ H6). destruct (attr_read attr) as [[| | |[]]|]; try done.
  unfold db_hash_refresh, db_hash_cancel. rewrite H5. cbn [fst snd].
  match goal with |- db_hash (change_aware ?a true ?x).2 = db_hash (change_aware ?b true ?y).2 =>
    destruct (change_aware_keeps a true x) as (_&_&_&->&_), (change_aware_keeps b true y) as (_&_&_&->&_) end.
  destruct (db_hash_work d); [|exact H4]. unfold db_hash_gen. destruct generated_hash as [hash|]; [|exact H4].
  unfold db_hash_store, save_setting. cbn. by destruct (settings_save_one _ _ _), (settings_save_one _ _ _).
Qed.

#[export] Instance firmware_server_ok : GattServerOk reads writes (gatt F) (GattServer0 := firmware_server C F).
Proof.
  refine {| attr_value := gatt_value |}.
  - reflexivity.
  - unfold services; cbn. repeat (apply Forall_cons; split; [unfold uuid_ok; cbn; lia|]). constructor.
  - intros p attr conn len offset d. cbn. unfold attr_reads, gatt_value. destruct (attr_read attr) as [[| | |[]]|]; try done. by destruct r.
  - intros p attr conn len offset d p' attr'. cbn. unfold attr_reads. destruct (attr_read attr) as [[| | |[]]|]; try done; [|by destruct r].
    apply gatt_value_refresh.
  - intros conn req d p attr. apply gatt_value_aware.
Defined.
End promises.
