(* ===== verification/GattConn.v ===== *)
(** GATT and connections ([subsys/bluetooth/host/gatt.c], [host/conn.c],
    [services/bas.c]): notifications and indications, and what happens to the client
    configurations when a client connects, encrypts and disconnects.

    The state is the world of [Att] with the database of [GattDb]: one connection, as
    [CONFIG_BT_MAX_CONN] is 1.  The connections that exist and the state of the
    controller are the arguments in [host]. *)
From Stdlib Require Import ZArith Lia Bool Ascii.
From stdpp Require Import base numbers list gmap strings.
From S2P Require Import Prelude ByteOrder Uuid Gatt SettingsKeys Settings Keys Crypto Att AttFacts AttDiscovery Hog GattDb.
Open Scope Z_scope.

(** ** Connections *)

(** The states in the order of [bt_conn_state_t]. *)
Inductive conn_state :=
  | BT_CONN_DISCONNECTED | BT_CONN_DISCONNECT_COMPLETE | BT_CONN_CONNECT_SCAN | BT_CONN_CONNECT_AUTO | BT_CONN_CONNECT_ADV
  | BT_CONN_CONNECT_DIR_ADV | BT_CONN_CONNECT | BT_CONN_CONNECTED | BT_CONN_DISCONNECT.

#[export] Instance conn_state_eq_dec : EqDecision conn_state.
Proof. solve_decision. Defined.

(** [BT_DEV_READY], and the entries of [acl_conns] in use with their states. *)
Record host := mk_host { dev_ready : bool; acl_conns : list (bt_conn * conn_state) }.

Definition bt_conn_lookup_addr_le (id : Z) (peer : bt_addr_le_t) (h : host) : option (bt_conn * conn_state) :=
  find (fun c => bt_conn_is_peer_addr_le c.1 id peer) (acl_conns h).

Definition bt_conn_lookup_state_le (id : Z) (peer : bt_addr_le_t) (state : conn_state) (h : host) : option (bt_conn * conn_state) :=
  find (fun c => bt_conn_is_peer_addr_le c.1 id peer && bool_decide (c.2 = state) && (conn_id c.1 =? id)) (acl_conns h).

Section connections.
Context {F : Type} `{!Nvs F} (h : host).
Implicit Types (w : att_world (gatt F)) (conn : bt_conn) (data : list Z).

Definition set_db (d : gatt F) w : att_world (gatt F) := set_env (allocs w) d w.

(** ** Notifications and indications *)

Definition gatt_notify conn (handle : Z) data w : Z * att_world (gatt F) :=
  match bt_att_create_pdu BT_ATT_OP_NOTIFY (2 + Z.of_nat (length data)) w with
  | (None, w) => (- ENOMEM, w)
  | (Some buf, w) => bt_att_send (buf ++ le_bytes 2 handle ++ data) w
  end.

(** With a callback the PDU is sent as a request, which is allocated first. *)
Definition gatt_send (buf : pdu) (params : bool) w : Z * att_world (gatt F) :=
  if params then
    match net_buf_alloc w with
    | (false, w) => (- ENOMEM, w)
    | (true, w) => bt_att_req_send buf w
    end
  else bt_att_send buf w.

Definition gatt_indicate conn (handle : Z) data (func : bool) w : Z * att_world (gatt F) :=
  match bt_att_create_pdu BT_ATT_OP_INDICATE (2 + Z.of_nat (length data)) w with
  | (None, w) => (- ENOMEM, w)
  | (Some buf, w) => gatt_send (buf ++ le_bytes 2 handle ++ data) func w
  end.

(** [struct notify_data] behind the look-up: the handle, the error, the type and the
    parameters: data and whether there is a callback. *)
Record notify_data := mk_notify { nd_err : Z; nd_world : att_world (gatt F) }.

(** Changes are kept for the subscribers that are not connected. *)
Definition save_sc_unconnected data w : att_world (gatt F) :=
  foldl (fun w i =>
    match sc_cfg (db w) !! i with
    | None => w
    | Some cfg =>
        if bool_decide (sc_peer cfg = BT_ADDR_LE_ANY) then w
        else
          match bt_conn_lookup_state_le (sc_id cfg) (sc_peer cfg) BT_CONN_CONNECTED h with
          | Some _ => w
          | None => set_db (sc_save (sc_id cfg) (sc_peer cfg) (le16 0 data) (le16 2 data) (db w)) w
          end
    end) w (seq 0 (length (sc_cfg (db w)))).

(** The entries of a configuration, until sending fails. *)
Fixpoint notify_cfgs (handle type : Z) data (func : bool) (l : list ccc_cfg) (nd : notify_data) : iter * notify_data :=
  match l with
  | [] => (BT_GATT_ITER_CONTINUE, nd)
  | cfg :: l =>
      let skip := notify_cfgs handle type data func l nd in
      if negb (cfg_value cfg =? type) then skip
      else
        match bt_conn_lookup_addr_le (cfg_id cfg) (cfg_peer cfg) h with
        | None => skip
        | Some (conn, state) =>
            if negb (bool_decide (state = BT_CONN_CONNECTED)) then skip
            else
              let '(err, w) :=
                if type =? BT_GATT_CCC_INDICATE then gatt_indicate conn handle data func (nd_world nd)
                else gatt_notify conn handle data (nd_world nd) in
              if err <? 0 then (BT_GATT_ITER_STOP, mk_notify (nd_err nd) w)
              else notify_cfgs handle type data func l (mk_notify 0 w)
        end
  end.

Definition notify_cb (handle type : Z) data (func : bool) (p : attr_ptr) (attr : bt_gatt_attr reads writes) (h' : Z)
    (nd : notify_data) : iter * notify_data :=
  match attr_write attr, user_data attr with
  | Some F_write_ccc, UD_ccc n =>
      let nd := if (n =? SC_CCC)%nat then mk_notify (nd_err nd) (save_sc_unconnected data (nd_world nd)) else nd in
      notify_cfgs handle type data func (cfgs (the_ccc n (db (nd_world nd)))) nd
  | _, _ => (BT_GATT_ITER_CONTINUE, nd)
  end.

Definition the_attr (p : attr_ptr) : option (bt_gatt_attr reads writes) := svcs !! p.1 ≫= fun svc => svc !! p.2.

Definition match_uuid (p : attr_ptr) (attr : bt_gatt_attr reads writes) (handle : Z) (found : option (attr_ptr * Z)) :
    iter * option (attr_ptr * Z) := (BT_GATT_ITER_STOP, Some (p, handle)).
Definition gatt_find_by_uuid (handle : Z) (uuid : bt_uuid) : option (attr_ptr * Z) :=
  bt_gatt_foreach_attr_type svcs handle 0xffff (Some uuid) 1 match_uuid None.

(** The common part of [bt_gatt_notify_cb] and [bt_gatt_indicate]: the error, or the
    handle of the value; [prop] is the property a characteristic needs. *)
Definition notify_handle (conn : option (bt_conn * conn_state)) (p : attr_ptr) (uuid : option bt_uuid) (prop : Z) : Z + Z :=
  if negb (dev_ready h) then inl (- EAGAIN)
  else if match conn with Some (_, state) => negb (bool_decide (state = BT_CONN_CONNECTED)) | None => false end then inl (- ENOTCONN)
  else
    let handle := bt_gatt_attr_get_handle svcs p in
    if handle =? 0 then inl (- ENOENT)
    else
      match (match uuid with Some u => gatt_find_by_uuid handle u | None => Some (p, handle) end) with
      | None => inl (- ENOENT)
      | Some (p, handle) =>
          match the_attr p with
          | None => inl (- ENOENT)
          | Some attr =>
              if bt_uuid_cmp (attr_uuid attr) BT_UUID_GATT_CHRC =? 0 then
                match user_data attr with
                | UD_chrc chrc =>
                    if negb (nz (properties chrc .& prop)) then inl (- EINVAL) else inr (bt_gatt_attr_value_handle svcs p attr)
                | _ => inl (- EINVAL)
                end
              else inr handle
          end
      end.

Definition notify_all (handle type : Z) data (func : bool) w : Z * att_world (gatt F) :=
  let nd := bt_gatt_foreach_attr_type svcs handle 0xffff (Some BT_UUID_GATT_CCC) 1
              (notify_cb handle type data func) (mk_notify (- ENOTCONN) w) in
  (nd_err nd, nd_world nd).

Definition bt_gatt_notify_cb (conn : option (bt_conn * conn_state)) (p : attr_ptr) (uuid : option bt_uuid) data w : Z * att_world (gatt F) :=
  match notify_handle conn p uuid BT_GATT_CHRC_NOTIFY with
  | inl err => (err, w)
  | inr handle =>
      match conn with
      | Some (conn, _) => gatt_notify conn handle data w
      | None => notify_all handle BT_GATT_CCC_NOTIFY data false w
      end
  end.
Definition bt_gatt_notify (conn : option (bt_conn * conn_state)) (p : attr_ptr) data w : Z * att_world (gatt F) :=
  bt_gatt_notify_cb conn p None data w.

Definition bt_gatt_indicate (conn : option (bt_conn * conn_state)) (p : attr_ptr) (uuid : option bt_uuid) data (func : bool) w : Z * att_world (gatt F) :=
  match notify_handle conn p uuid BT_GATT_CHRC_INDICATE with
  | inl err => (err, w)
  | inr handle =>
      match conn with
      | Some (conn, _) => gatt_indicate conn handle data func w
      | None => notify_all handle BT_GATT_CCC_INDICATE data func w
      end
  end.

(** ** Battery service *)

Definition bt_bas_get_battery_level w : Z := battery_level (db w).

Definition bt_bas_set_battery_level (level : Z) w : Z * att_world (gatt F) :=
  if 100 <? level then (- EINVAL, w)
  else
    let '(rc, w) := bt_gatt_notify None (2%nat, 1%nat) [level] (set_db (set_battery level (db w)) w) in
    (if rc =? - ENOTCONN then 0 else rc, w).

(** ** Service Changed indications *)

(** The value of the Service Changed characteristic. *)
Definition sc_attr : attr_ptr := (0%nat, 2%nat).

Definition upd_sc (f : gatt_sc -> gatt_sc) (d : gatt F) : gatt F := set_sc (f (sc d)) d.

(** The client has confirmed: it is change-aware. *)
Definition confirmed_aware conn (d : gatt F) : gatt F :=
  match find_cf_cfg (Some conn) (cf_cfg d) with
  | None => d
  | Some i =>
      set_cf_cfg (alter (fun cfg => if CF_ROBUST_CACHING cfg
                                    then mk_cf_cfg (cf_id cfg) (cf_peer cfg) (cf_data cfg) true (CF_OUT_OF_SYNC cfg)
                                    else cfg) i (cf_cfg d)) d
  end.

Definition sc_indicate_rsp conn (d : gatt F) : gatt F :=
  let d := upd_sc (fun s => mk_gatt_sc (range_start s) (range_end s) (SC_RANGE_CHANGED s) false (sc_work s || SC_RANGE_CHANGED s)) d in
  confirmed_aware conn d.

Definition sc_restore_rsp conn (d : gatt F) : gatt F := confirmed_aware conn d.

(** Run by the work queue, which clears the pending flag. *)
Definition sc_process w : att_world (gatt F) :=
  let s := sc (db w) in
  let sc_range := le_bytes 2 (range_start s) ++ le_bytes 2 (range_end s) in
  let w := set_db (set_sc (mk_gatt_sc 0 0 false (SC_INDICATE_PENDING s) false) (db w)) w in
  let '(err, w) := bt_gatt_indicate None sc_attr None sc_range true w in
  if nz err then w
  else set_db (upd_sc (fun s => mk_gatt_sc (range_start s) (range_end s) (SC_RANGE_CHANGED s) true (sc_work s)) (db w)) w.

Definition sc_indicate (start end_ : Z) (d : gatt F) : gatt F :=
  let s := sc d in
  let '(changed, (a, b)) :=
    if negb (SC_RANGE_CHANGED s) then (true, (start, end_)) else update_range (range_start s) (range_end s) start end_ in
  if negb changed then d
  else set_sc (mk_gatt_sc a b true (SC_INDICATE_PENDING s) (if SC_INDICATE_PENDING s then sc_work s else true)) d.

Definition sc_restore (conn : bt_conn * conn_state) w : att_world (gatt F) :=
  match find_sc_cfg (conn_id conn.1) (conn_dst conn.1) (sc_cfg (db w)) with
  | None => w
  | Some i =>
      match sc_cfg (db w) !! i with
      | None => w
      | Some cfg =>
          if negb (nz (sc_start cfg) || nz (sc_end cfg)) then w
          else
            let '(_, w) := bt_gatt_indicate (Some conn) sc_attr None (sc_bytes cfg) true w in
            set_db (sc_reset i (db w)) w
      end
  end.

(** ** A client connects or encrypts *)

(** The entries of a configuration, up to the first that is the client's and active:
    the security level it needs so far, and whether it may be used now. *)
Fixpoint update_cfgs conn (attr : bt_gatt_attr reads writes) (l : list ccc_cfg) (sec : Z) : Z * bool :=
  match l with
  | [] => (sec, false)
  | cfg :: l =>
      if (cfg_value cfg =? 0) || negb (bt_conn_is_peer_addr_le conn (cfg_id cfg) (cfg_peer cfg)) then update_cfgs conn attr l sec
      else
        let err := bt_gatt_check_perm conn attr BT_GATT_PERM_WRITE_MASK in
        if nz err then
          if err =? BT_ATT_ERR_WRITE_NOT_PERMITTED then update_cfgs conn attr l sec
          else
            let need := if err =? BT_ATT_ERR_AUTHENTICATION then BT_SECURITY_L3 else BT_SECURITY_L2 in
            if conn_security conn <? need then update_cfgs conn attr l (if sec <? need then need else sec)
            else (sec, true)
        else (sec, true)
  end.

Definition update_ccc (conn : bt_conn * conn_state) (p : attr_ptr) (attr : bt_gatt_attr reads writes) (handle : Z)
    (t : Z * att_world (gatt F)) : iter * (Z * att_world (gatt F)) :=
  let '(sec, w) := t in
  match attr_write attr, user_data attr with
  | Some F_write_ccc, UD_ccc n =>
      let '(sec, use) := update_cfgs conn.1 attr (cfgs (the_ccc n (db w))) sec in
      let w :=
        if use then
          let w := set_db (gatt_ccc_changed n (db w)) w in
          if (n =? SC_CCC)%nat then sc_restore conn w else w
        else w in
      (BT_GATT_ITER_CONTINUE, (sec, w))
  | _, _ => (BT_GATT_ITER_CONTINUE, t)
  end.

Definition bt_gatt_encrypt_change (conn : bt_conn * conn_state) w : att_world (gatt F) :=
  (bt_gatt_foreach_attr svcs 0x0001 0xffff (update_ccc conn) (BT_SECURITY_L1, w)).2.

(** *** Stored configurations *)

Definition CCC_STORE_MAX : Z := 48.
Definition CONFIG_BT_SETTINGS_CCC_LAZY_LOADING : bool := true.

Definition ccc_find_cfg (c : ccc) (addr : bt_addr_le_t) (id : Z) : option nat :=
  find_index (fun cfg => (id =? cfg_id cfg) && bool_decide (cfg_peer cfg = addr)) (cfgs c).

Definition alter_cfg (n i : nat) (f : ccc_cfg -> ccc_cfg) (d : gatt F) : gatt F :=
  put_ccc n (mk_ccc (alter f i (cfgs (the_ccc n d))) (ccc_value (the_ccc n d))) d.

Definition ccc_clear (n : nat) (addr : bt_addr_le_t) (id : Z) (d : gatt F) : gatt F :=
  match ccc_find_cfg (the_ccc n d) addr id with
  | None => d
  | Some i => alter_cfg n i clear_ccc_cfg d
  end.

(** [entries]: the handles and values still to be restored, [None] when the stored
    value is gone. *)
Definition ccc_load (addr : bt_addr_le_t) (id : Z) (p : attr_ptr) (attr : bt_gatt_attr reads writes) (handle : Z)
    (t : option (list (Z * Z)) * gatt F) : iter * (option (list (Z * Z)) * gatt F) :=
  let '(entries, d) := t in
  match attr_write attr, user_data attr with
  | Some F_write_ccc, UD_ccc n =>
      match entries with
      | None => (BT_GATT_ITER_CONTINUE, (None, ccc_clear n addr id d))
      | Some [] => (BT_GATT_ITER_STOP, t)
      | Some ((eh, ev) :: rest) =>
          let next d := (match rest with [] => BT_GATT_ITER_STOP | _ => BT_GATT_ITER_CONTINUE end, (Some rest, d)) in
          if negb (eh =? handle) then (if eh <? handle then next d else (BT_GATT_ITER_CONTINUE, t))
          else
            let set i := next (alter_cfg n i (fun _ => mk_cfg id addr ev) d) in
            match ccc_find_cfg (the_ccc n d) addr id with
            | Some i => set i
            | None => match ccc_find_cfg (the_ccc n d) BT_ADDR_LE_ANY 0 with Some i => set i | None => next d end
            end
      end
  | _, _ => (BT_GATT_ITER_CONTINUE, t)
  end.

(** The array of [struct ccc_store] in bytes. *)
Definition store_bytes (l : list (Z * Z)) : list Z := concat ((fun e => le_bytes 2 e.1 ++ le_bytes 2 e.2) <$> l).
Definition store_entries (bs : list Z) : list (Z * Z) :=
  (fun i => (le_value (take 2 i), le_value (take 2 (drop 2 i)))) <$> take (length bs / 4) (cut (length bs) 4 bs).

(** [old]: the contents of the address variable. *)
Definition ccc_set (lazy : bool) (old : list Z) (name : option cstr) (len_rd : Z) (read : Z -> Z * list Z) (d : gatt F) : Z * gatt F :=
  if lazy then (0, d)
  else
    match name with
    | None => (- EINVAL, d)
    | Some name =>
        let id := match (settings_name_next name).2 with None => BT_ID_DEFAULT | Some next => u8 (strtol10 next) end in
        match bt_settings_decode_key name old with
        | inl _ => (- EINVAL, d)
        | inr addr =>
            let load entries := (0, (bt_gatt_foreach_attr svcs 0x0001 0xffff (ccc_load addr id) (entries, d)).2) in
            if nz len_rd then
              let '(len, bytes) := read (CCC_STORE_MAX * 4) in
              if len <? 0 then (len, d) else load (Some (store_entries bytes))
            else load None
        end
    end.

Definition ccc_set_direct (lazy : bool) (old : list Z) (param : cstr) (key : option cstr) (len : Z) (read : Z -> Z * list Z) (d : gatt F) :
    Z * gatt F :=
  let '(eq, name) := settings_name_steq param (chars "bt/ccc") in
  if negb eq then (- EINVAL, d) else ccc_set lazy old name len read d.

(** Loading the configurations of a client that is bonded. *)
Definition load_ccc (lazy : bool) (old : list Z) conn (d : gatt F) : gatt F :=
  let key := peer_key "ccc" (conn_id conn) (conn_dst conn) in
  let '(s, d) := settings_load_subtree_direct key (ccc_set_direct lazy old key) (store d) d in
  set_store s d.

(** The security level asked for, if any, with the state. *)
Definition bt_gatt_connected (old : list Z) (conn : bt_conn * conn_state) w : option Z * att_world (gatt F) :=
  let w :=
    if CONFIG_BT_SETTINGS_CCC_LAZY_LOADING && bt_addr_le_is_bonded (conn_id conn.1) (conn_dst conn.1) (db w)
    then set_db (load_ccc CONFIG_BT_SETTINGS_CCC_LAZY_LOADING old conn.1 (db w)) w
    else w in
  let '(sec, w) := bt_gatt_foreach_attr svcs 0x0001 0xffff (update_ccc conn) (BT_SECURITY_L1, w) in
  (if conn_security conn.1 <? sec then Some sec else None, w).

(** ** A client disconnects *)

(** The entries of a configuration: whether another client still uses one, and the
    state. *)
Fixpoint disconnect_cfgs conn (n : nat) (i : nat) (l : list ccc_cfg) (used : bool) (d : gatt F) : bool * gatt F :=
  match l with
  | [] => (used, d)
  | cfg :: l =>
      if cfg_value cfg =? 0 then disconnect_cfgs conn n (S i) l used d
      else if negb (bt_conn_is_peer_addr_le conn (cfg_id cfg) (cfg_peer cfg)) then
        let used :=
          match bt_conn_lookup_addr_le (cfg_id cfg) (cfg_peer cfg) h with
          | Some (_, state) => if bool_decide (state = BT_CONN_CONNECTED) then true else used
          | None => used
          end in
        disconnect_cfgs conn n (S i) l used d
      else if negb (bt_addr_le_is_bonded (conn_id conn) (conn_dst conn) d) then
        let d := if (n =? SC_CCC)%nat then sc_clear conn d else d in
        disconnect_cfgs conn n (S i) l used (alter_cfg n i clear_ccc_cfg d)
      else
        disconnect_cfgs conn n (S i) l used (alter_cfg n i (fun cfg => mk_cfg (cfg_id cfg) (conn_dst conn) (cfg_value cfg)) d)
  end.

Definition disconnected_cb conn (p : attr_ptr) (attr : bt_gatt_attr reads writes) (handle : Z) (d : gatt F) : iter * gatt F :=
  (BT_GATT_ITER_CONTINUE,
   match attr_write attr, user_data attr with
   | Some F_write_ccc, UD_ccc n =>
       let c := the_ccc n d in
       if ccc_value c =? 0 then d
       else
         let '(used, d) := disconnect_cfgs conn n 0 (cfgs c) false d in
         if negb used then cfg_changed n 0 (put_ccc n (mk_ccc (cfgs (the_ccc n d)) 0) d) else d
   | _, _ => d
   end).

(** The array has room for [CCC_STORE_MAX] entries, which is not checked. *)
Definition ccc_save (addr : bt_addr_le_t) (id : Z) (d : gatt F) (p : attr_ptr) (attr : bt_gatt_attr reads writes) (handle : Z)
    (save : list (Z * Z)) : iter * list (Z * Z) :=
  (BT_GATT_ITER_CONTINUE,
   match attr_write attr, user_data attr with
   | Some F_write_ccc, UD_ccc n =>
       match ccc_find_cfg (the_ccc n d) addr id ≫= fun i => cfgs (the_ccc n d) !! i with
       | None => save
       | Some cfg => save ++ [(handle, cfg_value cfg)]
       end
   | _, _ => save
   end).

Definition saved_cccs (id : Z) (addr : bt_addr_le_t) (d : gatt F) : list (Z * Z) :=
  bt_gatt_foreach_attr svcs 0x0001 0xffff (ccc_save addr id d) [].

Definition bt_gatt_store_ccc (id : Z) (addr : bt_addr_le_t) (d : gatt F) : Z * gatt F :=
  save_setting (peer_key "ccc" id addr) (store_bytes (saved_cccs id addr d)) d.

(** Without an entry the key has no identity. *)
Definition bt_gatt_store_cf conn (d : gatt F) : Z * gatt F :=
  match find_cf_cfg (Some conn) (cf_cfg d) ≫= fun i => cf_cfg d !! i with
  | Some cfg => save_setting (peer_key "cf" (conn_id conn) (conn_dst conn)) (cf_data cfg) d
  | None => save_setting (peer_key "cf" 0 (conn_dst conn)) [] d
  end.

Definition remove_peer_from_attr (addr : bt_addr_le_t) (id : Z) (p : attr_ptr) (attr : bt_gatt_attr reads writes) (handle : Z)
    (d : gatt F) : iter * gatt F :=
  (BT_GATT_ITER_CONTINUE,
   match attr_write attr, user_data attr with
   | Some F_write_ccc, UD_ccc n =>
       match ccc_find_cfg (the_ccc n d) addr id with
       | None => d
       | Some i => alter_cfg n i (fun _ => mk_cfg 0 BT_ADDR_LE_ANY 0) d
       end
   | _, _ => d
   end).

Definition bt_gatt_disconnected conn (d : gatt F) : gatt F :=
  let d := bt_gatt_foreach_attr svcs 0x0001 0xffff (disconnected_cb conn) d in
  let d :=
    if bt_addr_le_is_bonded (conn_id conn) (conn_dst conn) d
    then (bt_gatt_store_cf conn (bt_gatt_store_ccc (conn_id conn) (conn_dst conn) d).2).2
    else d in
  let d :=
    if CONFIG_BT_SETTINGS_CCC_LAZY_LOADING && bt_addr_le_is_bonded (conn_id conn) (conn_dst conn) d
    then bt_gatt_foreach_attr svcs 0x0001 0xffff (remove_peer_from_attr (conn_dst conn) (conn_id conn)) d
    else d in
  remove_cf_cfg conn d.

(** ** Removing a bond *)

Definition find_cf_cfg_by_addr (id : Z) (addr : bt_addr_le_t) (l : list gatt_cf_cfg) : option nat :=
  find_index (fun cfg => (id =? cf_id cfg) && bool_decide (addr = cf_peer cfg)) l.

Definition bt_gatt_clear_ccc (id : Z) (addr : bt_addr_le_t) (d : gatt F) : Z * gatt F :=
  let d := bt_gatt_foreach_attr svcs 0x0001 0xffff (remove_peer_from_attr addr id) d in
  save_setting (peer_key "ccc" id addr) [] d.

Definition bt_gatt_clear_cf (id : Z) (addr : bt_addr_le_t) (d : gatt F) : Z * gatt F :=
  let d := match find_cf_cfg_by_addr id addr (cf_cfg d) with
           | Some i => set_cf_cfg (alter clear_cf_cfg i (cf_cfg d)) d
           | None => d
           end in
  save_setting (peer_key "cf" id addr) [] d.

Definition bt_gatt_clear (id : Z) (addr : bt_addr_le_t) (d : gatt F) : Z * gatt F :=
  let '(err, d) := bt_gatt_clear_ccc id addr d in
  if err <? 0 then (err, d)
  else
    let d := bt_gatt_clear_sc id addr d in
    let '(err, d) := bt_gatt_clear_cf id addr d in
    (if err <? 0 then err else 0, d).

(** ** Settings loaded at start-up *)

(** Bytes read into a field: what is not read stays. *)
Definition overwrite (bytes old : list Z) : list Z := bytes ++ drop (length bytes) old.

Definition sc_set (old : list Z) (name : option cstr) (len_rd : Z) (read : Z -> Z * list Z) (d : gatt F) : Z * gatt F :=
  match decode_name old name with
  | None => (- EINVAL, d)
  | Some (addr, id) =>
      let entry :=
        match find_sc_cfg id addr (sc_cfg d) with
        | Some i => inr (Some i, d)
        | None =>
            if nz len_rd then
              match find_sc_cfg BT_ID_DEFAULT BT_ADDR_LE_ANY (sc_cfg d) with
              | None => inl (- ENOMEM)
              | Some i => inr (Some i, set_sc_cfg (alter (fun cfg => mk_sc_cfg id addr (sc_start cfg) (sc_end cfg)) i (sc_cfg d)) d)
              end
            else inr (None, d)
        end in
      match entry with
      | inl err => (err, d)
      | inr (i, d) =>
          if nz len_rd then
            let '(len, bytes) := read 4 in
            if len <? 0 then (len, d)
            else
              (0, match i with
                  | Some i => set_sc_cfg (alter (fun cfg => let data := overwrite bytes (sc_bytes cfg) in
                                           mk_sc_cfg (sc_id cfg) (sc_peer cfg) (le16 0 data) (le16 2 data)) i (sc_cfg d)) d
                  | None => d
                  end)
          else (0, match i with Some i => set_sc_cfg (alter clear_sc_cfg i (sc_cfg d)) d | None => d end)
      end
  end.

Definition sc_commit (d : gatt F) : Z * gatt F :=
  (0, upd_sc (fun s => mk_gatt_sc (range_start s) (range_end s) (SC_RANGE_CHANGED s) false (sc_work s || SC_RANGE_CHANGED s)) d).

Definition cf_set (old : list Z) (name : option cstr) (len_rd : Z) (read : Z -> Z * list Z) (d : gatt F) : Z * gatt F :=
  match decode_name old name with
  | None => (- EINVAL, d)
  | Some (addr, id) =>
      let entry :=
        match find_cf_cfg_by_addr id addr (cf_cfg d) with
        | Some i => Some (i, d)
        | None =>
            match find_cf_cfg None (cf_cfg d) with
            | None => None
            | Some i => Some (i, set_cf_cfg (alter (fun cfg => mk_cf_cfg id addr (cf_data cfg) (CF_CHANGE_AWARE cfg) (CF_OUT_OF_SYNC cfg)) i (cf_cfg d)) d)
            end
        end in
      match entry with
      | None => (- ENOMEM, d)
      | Some (i, d) =>
          if nz len_rd then
            let '(len, bytes) := read 1 in
            if len <? 0 then (len, d)
            else (0, set_cf_cfg (alter (fun cfg => mk_cf_cfg (cf_id cfg) (cf_peer cfg) (overwrite bytes (cf_data cfg))
                                          (CF_CHANGE_AWARE cfg) (CF_OUT_OF_SYNC cfg)) i (cf_cfg d)) d)
          else (0, set_cf_cfg (alter clear_cf_cfg i (cf_cfg d)) d)
      end
  end.

Definition db_hash_set (name : option cstr) (len_rd : Z) (read : Z -> Z * list Z) (d : gatt F) : Z * gatt F :=
  let '(len, bytes) := read 16 in
  if len <? 0 then (len, d) else (0, set_stored_hash (overwrite bytes (stored_hash d)) d).

Context {C : Type} `{!TinyCrypt C}.

Definition db_hash_commit (d : gatt F) : Z * gatt F :=
  let '(pending, d) := db_hash_cancel d in
  let d := if pending then db_hash_gen (C:=C) false d else d in
  if memcmp (stored_hash d) (db_hash d) =? 0
  then (0, upd_sc (fun s => mk_gatt_sc (range_start s) (range_end s) false (SC_INDICATE_PENDING s) false) d)
  else (0, db_hash_store (sc_indicate 0x0001 0xffff d)).

(** The handlers of this file, in the order of their section. *)
Definition ccc_handler (lazy : bool) (old : list Z) : settings_handler (gatt F) := mk_settings_handler (chars "bt/ccc") (ccc_set lazy old) None.
Definition gatt_handlers (lazy : bool) (old : list Z) : list (settings_handler (gatt F)) :=
  [ ccc_handler lazy old;
    mk_settings_handler (chars "bt/cf") (cf_set old) None;
    mk_settings_handler (chars "bt/hash") db_hash_set (Some db_hash_commit);
    mk_settings_handler (chars "bt/sc") (sc_set old) (Some sc_commit) ].

(** What [bt_gatt_init] leaves of the state: the hash is to be computed, and Service
    Changed waits for the settings. *)
Definition bt_gatt_init (d : gatt F) : gatt F :=
  upd_sc (fun s => mk_gatt_sc (range_start s) (range_end s) (SC_RANGE_CHANGED s) true (sc_work s)) (set_hash (db_hash d) true d).
End connections.
