(* ===== verification/GattFacts.v ===== *)
(** Subscriptions of a client: how it makes them, what it then receives, and what
    becomes of them when it disconnects and connects again. *)
From Stdlib Require Import ZArith Lia Bool Ascii.
From stdpp Require Import base numbers list gmap strings.
From S2P Require Import Prelude ByteOrder Uuid Gatt SettingsKeys Settings Keys Crypto Att AttFacts AttDiscovery AttAccess Hog GattDb GattConn.
Open Scope Z_scope.

(** ** The configurations of the firmware *)

Definition is_ccc (e : attr_ptr * bt_gatt_attr reads writes * Z) : bool :=
  match attr_write (e_attr e), user_data (e_attr e) with Some F_write_ccc, UD_ccc _ => true | _, _ => false end.

Definition open_ccc (n : nat) : bt_gatt_attr reads writes :=
  BT_GATT_ATTRIBUTE BT_UUID_GATT_CCC (BT_GATT_PERM_READ .| BT_GATT_PERM_WRITE) (Some F_read_ccc) (Some F_write_ccc) (UD_ccc n).
Definition hog_ccc : bt_gatt_attr reads writes :=
  BT_GATT_ATTRIBUTE BT_UUID_GATT_CCC (BT_GATT_PERM_READ_AUTHEN .| BT_GATT_PERM_WRITE_AUTHEN)
    (Some F_read_ccc) (Some F_write_ccc) (UD_ccc HOG_CCC).

(** The three client configurations and their handles. *)
Definition ccc_entries : list (attr_ptr * bt_gatt_attr reads writes * Z) :=
  [ ((0%nat, 3%nat), open_ccc SC_CCC, 4); ((2%nat, 3%nat), open_ccc BAS_CCC, 19); ((4%nat, 7%nat), hog_ccc, 34) ].

Lemma svcs_small : Z.of_nat (length (concat svcs)) < 2 ^ 16 - 1.
Proof. reflexivity. Qed.

(** Iterations that look at client configurations only. *)
Lemma foreach_ccc {T} (func : attr_func (T:=T)) (t : T) :
  (forall e t, is_ccc e = false -> func (e_ptr e) (e_attr e) (e_handle e) t = (BT_GATT_ITER_CONTINUE, t)) ->
  bt_gatt_foreach_attr svcs 0x0001 0xffff func t = iterate 3 func ccc_entries t.
Proof.
  intros Hf. rewrite foreach_attr_spec by (exact svcs_small || lia). rewrite (iterate_filter is_ccc) by (intros; by apply Hf).
  unfold in_range. rewrite list_filter_filter.
  assert (E : filter (fun x => is_ccc x = true /\ 1 <= e_handle x <= 0xffff) (entries svcs) = ccc_entries).
  { reflexivity. }
  by rewrite E.
Qed.

(** ** A client and its entries *)

(** A client with an address of its own, and the default identity. *)
Definition client_ok (conn : bt_conn) : Prop :=
  addr_ok (conn_dst conn) /\ conn_dst conn <> BT_ADDR_LE_ANY /\ conn_init_addr conn <> BT_ADDR_LE_ANY /\ conn_id conn = BT_ID_DEFAULT.

Definition free_cfg : ccc_cfg := mk_cfg 0 BT_ADDR_LE_ANY 0.

(** The entry of a client with a value, or none. *)
Definition client_cfg (conn : bt_conn) (v : Z) : ccc_cfg := if v =? 0 then free_cfg else mk_cfg (conn_id conn) (conn_dst conn) v.

(** The client configurations when only this client has any, and what the HID service
    has been told. *)
Definition subscribed {F} (conn : bt_conn) (v0 v1 v2 : Z) (d : gatt F) : Prop :=
  cccs d = [mk_ccc [client_cfg conn v0] v0; mk_ccc [client_cfg conn v1] v1; mk_ccc [client_cfg conn v2] v2] /\
  simulate_input (hog_state d) = if v2 =? BT_GATT_CCC_NOTIFY then 1 else 0.

Lemma peer_self conn : bt_conn_is_peer_addr_le conn (conn_id conn) (conn_dst conn) = true.
Proof. unfold bt_conn_is_peer_addr_le. rewrite Z.eqb_refl. cbn [negb]. by rewrite bool_decide_true. Qed.

Lemma peer_any conn : client_ok conn -> bt_conn_is_peer_addr_le conn 0 BT_ADDR_LE_ANY = false.
Proof.
  intros (_&H1&H2&_). unfold bt_conn_is_peer_addr_le. destruct (negb _); [done|]. by rewrite !bool_decide_false by congruence.
Qed.

Lemma find_index_one {A} (P : A -> bool) x : find_index P [x] = if P x then Some 0%nat else None.
Proof. unfold find_index. cbn. destruct (P x); cbn; [by rewrite decide_True|by rewrite decide_False]. Qed.

Section writing.
Context {F : Type} `{!Nvs F}.
Implicit Types (d : gatt F) (conn : bt_conn).

Lemma find_client conn v u : client_ok conn ->
  find_ccc_cfg (Some conn) (mk_ccc [client_cfg conn v] u) = if v =? 0 then None else Some 0%nat.
Proof.
  intros Hc. unfold find_ccc_cfg, client_cfg. cbn [cfgs]. rewrite find_index_one. destruct (v =? 0); cbn [cfg_id cfg_peer free_cfg].
  - by rewrite peer_any.
  - by rewrite peer_self.
Qed.

Lemma find_free conn u : find_ccc_cfg None (mk_ccc [client_cfg conn 0] u) = Some 0%nat.
Proof. unfold find_ccc_cfg, client_cfg. cbn [cfgs Z.eqb]. rewrite find_index_one. cbn. by rewrite bool_decide_true. Qed.

Lemma ccc_max conn v : 0 <= v ->
  foldl (fun value cfg => if value <? cfg_value cfg then cfg_value cfg else value) 0 [mk_cfg (conn_id conn) (conn_dst conn) v] = v.
Proof. intros Hv. cbn. destruct (Z.ltb_spec 0 v); lia. Qed.

Lemma write_entry_hog conn a b x v2 v d :
  cccs d = [a; b; mk_ccc [mk_cfg (conn_id conn) (conn_dst conn) x] v2] ->
  simulate_input (hog_state d) = (if v2 =? BT_GATT_CCC_NOTIFY then 1 else 0) -> 0 <= v ->
  let d' := write_ccc_entry HOG_CCC 0 v d in
  cccs d' = [a; b; mk_ccc [client_cfg conn v] v] /\
  simulate_input (hog_state d') = (if v =? BT_GATT_CCC_NOTIFY then 1 else 0) /\ d' = set_hog (hog_state d') (set_cccs (cccs d') d).
Proof.
  intros Ec Es Hv. destruct d as [cs sccfg cfcfg hash hw sh scx kp bl hg st]. cbn in Ec, Es. subst cs. unfold write_ccc_entry.
  cbn [the_ccc put_ccc set_cccs cccs HOG_CCC lookup list_lookup default from_option cfgs ccc_value id].
  unfold the_ccc, put_ccc; cbn -[gatt_ccc_changed]. unfold client_cfg.
  destruct (Z.eqb_spec v v2) as [->|Hne]; cbn -[gatt_ccc_changed].
  - destruct (Z.eqb_spec v2 0) as [->|]; cbn; done.
  - unfold gatt_ccc_changed, the_ccc. cbn -[foldl]. rewrite ccc_max by done.
    rewrite (proj2 (Z.eqb_neq v v2) Hne). cbn. destruct (Z.eqb_spec v 0) as [->|]; cbn; done.
Qed.

(** Writing the configuration of the input report. *)
Lemma write_hog_ccc conn v0 v1 v2 v d :
  client_ok conn -> 0 <= v < 2 ^ 16 -> subscribed conn v0 v1 v2 d ->
  exists d', bt_gatt_attr_write_ccc conn HOG_CCC (le_bytes 2 v) 0 d = (2, d') /\ subscribed conn v0 v1 v d' /\
    d' = set_hog (hog_state d') (set_cccs (cccs d') d).
Proof.
  intros Hc Hv [Ec Es]. unfold bt_gatt_attr_write_ccc. rewrite le_bytes_length. cbn [Z.of_nat Pos.of_succ_nat nz Z.eqb negb Pos.succ orb Z.ltb Z.compare Pos.compare Pos.compare_cont].
  rewrite le_value_handle by done.
  assert (Ht : the_ccc HOG_CCC d = mk_ccc [client_cfg conn v2] v2) by (unfold the_ccc; by rewrite Ec). rewrite Ht, find_client by done.
  destruct (Z.eqb_spec v2 0) as [->|Hn2].
  - destruct (Z.eqb_spec v 0) as [->|Hn]; [exists d; by destruct d|]. rewrite find_free. cbn [cfg_write HOG_CCC SC_CCC Nat.eqb].
    eexists. split; [reflexivity|]. set (d1 := put_ccc _ _ d).
    destruct (write_entry_hog conn (mk_ccc [client_cfg conn v0] v0) (mk_ccc [client_cfg conn v1] v1) 0 0 v d1) as (H1&H2&H3); [|done|lia|].
    { subst d1. unfold put_ccc. cbn. by rewrite Ec. }
    split; [by split|]. rewrite H3. done.
  - cbn [cfg_write HOG_CCC SC_CCC Nat.eqb]. eexists. split; [reflexivity|].
    destruct (write_entry_hog conn (mk_ccc [client_cfg conn v0] v0) (mk_ccc [client_cfg conn v1] v1) v2 v2 v d) as (H1&H2&H3); [|done|lia|].
    { rewrite Ec. unfold client_cfg at 3. by rewrite (proj2 (Z.eqb_neq v2 0)). }
    split; [by split|]. done.
Qed.
End writing.

(** ** Notifications *)

(** The client is connected, and nobody else. *)
Definition only_client (h : host) (conn : bt_conn) : Prop := dev_ready h = true /\ acl_conns h = [(conn, BT_CONN_CONNECTED)].

(** The values of the input report and of the battery level. *)
Definition input_report : attr_ptr := (4%nat, 6%nat).
Definition battery_chrc : attr_ptr := (2%nat, 1%nat).

Section notifying.
Context {F : Type} `{!Nvs F} (h : host) (conn : bt_conn).
Implicit Types (w : att_world (gatt F)) (data : list Z).

Definition can_send data w : Prop :=
  connected w = true /\ hd true (allocs w) = true /\ 0 < tx_sem (chan w) /\ hd 0 (l2cap w) = 0 /\ 3 + Z.of_nat (length data) <= tx_mtu (chan w).

Lemma gatt_notify_sends handle data w :
  can_send data w ->
  exists w', gatt_notify conn handle data w = (0, w') /\
    outgoing w' = outgoing w ++ [[BT_ATT_OP_NOTIFY] ++ le_bytes 2 handle ++ data] /\ db w' = db w.
Proof.
  intros (Hc&Ha&Hs&Hl&Hm). unfold gatt_notify, bt_att_create_pdu, bt_att_chan_create_pdu, net_buf_alloc. rewrite Hc. cbn [negb].
  rewrite (proj2 (Z.ltb_ge _ _)) by lia. rewrite Ha. unfold bt_att_send, bt_att_chan_send, chan_send, bt_l2cap_send_cb. cbn. rewrite Hc. cbn.
  rewrite (proj2 (Z.eqb_neq _ _)) by lia. cbn. rewrite Hl. cbn. eexists. split; [reflexivity|]. done.
Qed.

Lemma notify_client handle data v w :
  only_client h conn -> can_send data w ->
  exists w', notify_cfgs h handle BT_GATT_CCC_NOTIFY data false [client_cfg conn v] (mk_notify (- ENOTCONN) w) =
    (BT_GATT_ITER_CONTINUE, mk_notify (if v =? BT_GATT_CCC_NOTIFY then 0 else - ENOTCONN) w') /\
    outgoing w' = outgoing w ++ (if v =? BT_GATT_CCC_NOTIFY then [[BT_ATT_OP_NOTIFY] ++ le_bytes 2 handle ++ data] else []) /\
    db w' = db w /\ (v = BT_GATT_CCC_NOTIFY -> gatt_notify conn handle data w = (0, w')).
Proof.
  intros [_ Hh] Hw. cbn [notify_cfgs nd_world nd_err]. unfold client_cfg. destruct (Z.eqb_spec v BT_GATT_CCC_NOTIFY) as [->|Hne].
  - cbn [Z.eqb BT_GATT_CCC_NOTIFY cfg_value cfg_id cfg_peer negb Pos.eqb]. unfold bt_conn_lookup_addr_le. rewrite Hh. cbn [find fst]. rewrite peer_self.
    rewrite bool_decide_true by done. cbn [negb BT_GATT_CCC_INDICATE Z.eqb Pos.eqb].
    destruct (gatt_notify_sends handle data w Hw) as (w'&E&Ho&Hd). unfold BT_GATT_CCC_NOTIFY in *. rewrite E. cbn. exists w'. done.
  - exists w.  destruct (Z.eqb_spec v 0); cbn [cfg_value free_cfg].
    + cbn. rewrite app_nil_r. done.
    + rewrite (proj2 (Z.eqb_neq v _) Hne). cbn. rewrite app_nil_r. done.
Qed.

(** A notification of the input report: to the client that has enabled it. *)
Lemma notify_report v0 v1 v2 data w :
  only_client h conn -> can_send data w -> subscribed conn v0 v1 v2 (db w) ->
  exists w', bt_gatt_notify h None input_report data w = (if v2 =? BT_GATT_CCC_NOTIFY then 0 else - ENOTCONN, w') /\
    outgoing w' = outgoing w ++ (if v2 =? BT_GATT_CCC_NOTIFY then [[BT_ATT_OP_NOTIFY; 33; 0] ++ data] else []) /\ db w' = db w /\
    (v2 = BT_GATT_CCC_NOTIFY -> gatt_notify conn 33 data w = (0, w')).
Proof.
  intros Hh Hw [Ec _]. unfold bt_gatt_notify, bt_gatt_notify_cb.
  assert (Hn : notify_handle h None input_report None BT_GATT_CHRC_NOTIFY = inr 33) by (unfold notify_handle; destruct Hh as [-> _]; reflexivity).
  rewrite Hn. unfold notify_all. rewrite foreach_spec by (exact svcs_small || lia).
  change (filter _ (entries svcs)) with [((4%nat, 7%nat), hog_ccc, 34)].
  change (Z.to_nat _) with 1%nat. cbn [iterate e_ptr e_attr e_handle fst snd].
  unfold notify_cb. cbn [attr_write user_data hog_ccc BT_GATT_ATTRIBUTE HOG_CCC SC_CCC Nat.eqb nd_world].
  assert (Ht : cfgs (the_ccc HOG_CCC (db w)) = [client_cfg conn v2]) by (unfold the_ccc; by rewrite Ec). rewrite Ht.
  destruct (notify_client 33 data v2 w Hh Hw) as (w'&->&Ho&Hd&Hg). exists w'. done.
Qed.
End notifying.

(** ** Subscribing over ATT *)

Definition HOG_CCC_HANDLE : Z := 34.

Lemma hog_ccc_entry : in_range HOG_CCC_HANDLE HOG_CCC_HANDLE (entries svcs) = [((4%nat, 7%nat), hog_ccc, 34)].
Proof. reflexivity. Qed.

Lemma hog_ccc_writable conn : BT_SECURITY_L3 <= conn_security conn -> bt_gatt_check_perm conn hog_ccc BT_GATT_PERM_WRITE_MASK = 0.
Proof.
  intros Hs. unfold bt_gatt_check_perm. cbn [attr_read attr_write hog_ccc BT_GATT_ATTRIBUTE attr_perm]. rewrite (proj2 (Z.ltb_ge _ _)) by done. reflexivity.
Qed.

Section subscribing.
Context {C F : Type} `{!TinyCrypt C, !Nvs F} (h : host) (conn : bt_conn).
#[local] Existing Instance firmware_server.
Implicit Types (w : att_world (gatt F)).

Definition change_aware_client (d : gatt F) : Prop := change_aware (Some conn) true d = (true, d).

(** The client writes the configuration of the input report. *)
Lemma subscribe_report v0 v1 v2 v w :
  client_ok conn -> BT_SECURITY_L3 <= conn_security conn -> 0 <= v < 2 ^ 16 ->
  idle w -> subscribed conn v0 v1 v2 (db w) -> change_aware_client (db w) ->
  exists w', transact (GattServer0 := firmware_server C F) conn ([BT_ATT_OP_WRITE_REQ] ++ le_bytes 2 HOG_CCC_HANDLE ++ le_bytes 2 v) w =
      (Some [BT_ATT_OP_WRITE_RSP], w') /\
    idle w' /\ tx_mtu (chan w') = tx_mtu (chan w) /\ tx_sem (chan w') = Z.min (tx_sem (chan w) + 1) CONFIG_BT_ATT_TX_MAX /\
    subscribed conn v0 v1 v (db w').
Proof.
  intros Hc Hs Hv Hi Hsub Ha. destruct (write_hog_ccc conn v0 v1 v2 v (db w) Hc Hv Hsub) as (d'&E&Hsub'&_).
  destruct (write_transaction (GattServer0 := firmware_server C F) (GattServerOk0 := firmware_server_ok) conn HOG_CCC_HANDLE (le_bytes 2 v)
    ((4%nat, 7%nat), hog_ccc, 34) (db w) d' w Hi) as (w'&Et&Hi'&Hm&Hd&Hsem).
  - unfold HOG_CCC_HANDLE. lia.
  - exact Ha.
  - exact hog_ccc_entry.
  - by apply hog_ccc_writable.
  - exact E.
  - exists w'. rewrite Hd. done.
Qed.

(** ** Reports *)

(** The channel can take a notification of [n] bytes. *)
Definition ready_to_notify (n : nat) w : Prop :=
  idle w /\ 0 < tx_sem (chan w) <= CONFIG_BT_ATT_TX_MAX /\ 3 + Z.of_nat n <= tx_mtu (chan w).

Lemma idle_can_send data w : ready_to_notify (length data) w -> can_send data w.
Proof. intros (((Hc&_&_)&_&_&_&_&_&Ha&Hl)&Hs&Hm). repeat split; [done|by rewrite Ha|lia|by rewrite Hl|done]. Qed.

(** A notification has been sent, and L2CAP reports it. *)
Lemma notify_completes handle data n w w' :
  ready_to_notify n w -> (length data <= n)%nat -> gatt_notify conn handle data w = (0, w') ->
  ready_to_notify n (l2cap_sent w') /\ outgoing (l2cap_sent w') = outgoing w' /\ db (l2cap_sent w') = db w'.
Proof.
  intros (((Hc&_&Hm')&Hp&Hf&Hq&Hq2&Hr&Ha&Hl)&Hs&Hm) Hn.
  destruct w as [[txm rxm pend req q sem sent rq aq] con out infl al l2 dd]. cbn in *. subst.
  unfold gatt_notify, bt_att_create_pdu, bt_att_chan_create_pdu, net_buf_alloc. cbn.
  destruct (Z.ltb_spec txm (2 + Z.of_nat (length data) + 1)) as [|_]; [lia|]. cbn.
  unfold bt_att_send, bt_att_chan_send, chan_send, bt_l2cap_send_cb. cbn. rewrite (proj2 (Z.eqb_neq sem 0)) by lia. cbn. intros [= <-].
  match goal with |- ready_to_notify n ?x /\ _ =>
    assert (E : x = mk_att (mk_chan txm rxm false req [] (Z.min (sem - 1 + 1) CONFIG_BT_ATT_TX_MAX) None [] []) true
      (out ++ [[BT_ATT_OP_NOTIFY] ++ le_bytes 2 handle ++ data]) [] [] [] dd) by (by destruct req) end.
  rewrite E. split; [|done]. unfold ready_to_notify, idle, ready. cbn. unfold CONFIG_BT_ATT_TX_MAX in *.
  split; [|lia]. split; [|by repeat split]. split; [done|]. split; [constructor|done].
Qed.

(** The application sets a report: the new event, if any, is handed to
    [bt_gatt_notify] as [trigger_report_notification] does, and sent. *)
Definition run_event (ev : event) w : att_world (gatt F) :=
  match ev with
  | Notify i data => l2cap_sent (bt_gatt_notify h None (4%nat, Z.to_nat i) data w).2
  | Msleep _ => w
  end.
Definition set_report (r : hids_report_keyboard) w : att_world (gatt F) :=
  let hg := hog_set_keyboard_input r (hog_state (db w)) in
  foldl (fun w ev => run_event ev w) (set_db (set_hog hg (db w)) w) (drop (length (events (hog_state (db w)))) (events hg)).

Lemma set_report_sends r v0 v1 v2 w :
  only_client h conn -> report_ok r -> ready_to_notify 8 w -> subscribed conn v0 v1 v2 (db w) ->
  let w' := set_report r w in
  ready_to_notify 8 w' /\ subscribed conn v0 v1 v2 (db w') /\
  outgoing w' = outgoing w ++ (if v2 =? BT_GATT_CCC_NOTIFY then [[BT_ATT_OP_NOTIFY; 33; 0] ++ report_bytes r] else []).
Proof.
  intros Hh [Hr _] Hw Hsub. unfold set_report. rewrite set_keyboard_input_events, drop_app_length. assert (Hs := Hsub). destruct Hs as [Hc Hsim].
  set (w1 := set_db _ w). assert (Hw1 : ready_to_notify 8 w1) by exact Hw.
  assert (Hsub1 : subscribed conn v0 v1 v2 (db w1)).
  { split; [exact Hc|]. cbn. by rewrite set_keyboard_input_sub. }
  rewrite Hsim. destruct (v2 =? BT_GATT_CCC_NOTIFY) eqn:Ev; cbn [nz Z.eqb negb foldl run_event].
  2:{ rewrite app_nil_r. done. }
  assert (El : length (report_bytes r) = 8%nat) by (unfold report_bytes; cbn; by rewrite Hr).
  destruct (notify_report h conn v0 v1 v2 (report_bytes r) w1 Hh) as (w2&E&Ho&Hd&Hg); [apply idle_can_send; by rewrite El|done|].
  rewrite Ev in *. change (4%nat, Z.to_nat 6) with input_report. rewrite E. cbn [snd].
  destruct (notify_completes 33 (report_bytes r) 8 w1 w2 Hw1 ltac:(lia) (Hg ltac:(by apply Z.eqb_eq))) as (H1&H2&H3).
  split; [done|]. rewrite H2, H3, Hd. done.
Qed.

Lemma set_reports_send rs v0 v1 v2 w :
  only_client h conn -> Forall report_ok rs -> ready_to_notify 8 w -> subscribed conn v0 v1 v2 (db w) ->
  outgoing (foldl (fun w r => set_report r w) w rs) = outgoing w ++
    (if v2 =? BT_GATT_CCC_NOTIFY then (fun r => [BT_ATT_OP_NOTIFY; 33; 0] ++ report_bytes r) <$> rs else []).
Proof.
  intros Hh Hrs. revert w. induction Hrs as [|r rs Hr _ IH]; intros w Hw Hs; cbn [foldl].
  - destruct (v2 =? _); cbn; by rewrite app_nil_r.
  - destruct (set_report_sends r v0 v1 v2 w Hh Hr Hw Hs) as (Hw'&Hs'&Ho). rewrite (IH _ Hw' Hs'), Ho, <- app_assoc.
    by destruct (v2 =? _).
Qed.

(** C4. Subscribing works end to end: a client that writes [v] to the client
    configuration of the input report (handle 34) is answered with a Write response; from
    then on, if it wrote 1, every report the application sets reaches it as one Handle
    Value Notification of handle 33 with the eight bytes of the report, in order and with
    nothing else in between; if it wrote anything else (0 to unsubscribe), nothing is
    sent.  The client is the only one, is aware of the database, and is on an
    authenticated link (level 3 or 4): the configuration is declared with
    BT_GATT_PERM_WRITE_AUTHEN, and on the level 2 that [connected] of the application asks
    for the request is refused. *)
Theorem reports_reach_subscriber v0 v1 v2 v rs w :
  client_ok conn -> BT_SECURITY_L3 <= conn_security conn -> only_client h conn -> 0 <= v < 2 ^ 16 ->
  idle w -> 0 <= tx_sem (chan w) -> subscribed conn v0 v1 v2 (db w) -> change_aware_client (db w) -> Forall report_ok rs ->
  exists w1,
    transact (GattServer0 := firmware_server C F) conn ([BT_ATT_OP_WRITE_REQ] ++ le_bytes 2 HOG_CCC_HANDLE ++ le_bytes 2 v) w =
      (Some [BT_ATT_OP_WRITE_RSP], w1) /\
    outgoing (foldl (fun w r => set_report r w) w1 rs) = outgoing w1 ++
      (if v =? BT_GATT_CCC_NOTIFY then (fun r => [BT_ATT_OP_NOTIFY; 33; 0] ++ report_bytes r) <$> rs else []).
Proof.
  intros Hc Hs Hh Hv Hi Hsem Hsub Ha Hrs. destruct (subscribe_report v0 v1 v2 v w Hc Hs Hv Hi Hsub Ha) as (w1&E&Hi1&Hm1&Hsem1&Hsub1).
  exists w1. split; [exact E|]. eapply set_reports_send; [done|done| |exact Hsub1]. split; [done|].
  assert (Hm : 23 <= tx_mtu (chan w) <= PDU_ROOM) by apply Hi. unfold CONFIG_BT_ATT_TX_MAX in *. split; lia.
Qed.
End subscribing.

(** ** Disconnection *)

Section disconnecting.
Context {F : Type} `{!Nvs F} (h : host) (conn : bt_conn).
Implicit Types (d : gatt F) (n : nat).

Abbreviation bonded d := (bt_addr_le_is_bonded (conn_id conn) (conn_dst conn) d).

(** What the client leaves in the configurations. *)
Definition left_cfg (b : bool) (v : Z) : ccc_cfg := if b then client_cfg conn v else free_cfg.

(** The parts of the state that configurations do not touch. *)
Definition same_rest d d' : Prop := key_pool d' = key_pool d /\ cf_cfg d' = cf_cfg d /\ hog_state d' = hog_state d.

Lemma save_setting_rest name value d : same_rest d (save_setting name value d).2 /\ cccs (save_setting name value d).2 = cccs d.
Proof. unfold save_setting. by destruct (settings_save_one name value (store d)). Qed.

Lemma sc_clear_rest d : same_rest d (sc_clear conn d) /\ cccs (sc_clear conn d) = cccs d.
Proof.
  unfold sc_clear, bt_gatt_clear_sc. destruct (bonded d).
  - destruct (find_sc_cfg _ _ _) as [i|]; [|done]. destruct (sc_cfg d !! i) as [cfg|]; [|done].
    destruct (save_setting_rest (peer_key "sc" (sc_id cfg) (sc_peer cfg)) [] d) as [(H1&H2&H3) H4]. by repeat split.
  - by destruct (find_sc_cfg _ _ _).
Qed.

Lemma bonded_keys d d' : key_pool d' = key_pool d -> bonded d' = bonded d.
Proof. intros E. unfold bt_addr_le_is_bonded. by rewrite E. Qed.

Lemma client_cfg_value v : cfg_value (client_cfg conn v) = v.
Proof. unfold client_cfg. by destruct (Z.eqb_spec v 0) as [->|]. Qed.

(** An entry changes, and the configuration is no longer in force. *)
Lemma reset_entry n f g v d d0 :
  same_rest d d0 -> cccs d0 = cccs d -> cccs d !! n = Some (mk_ccc [g] v) ->
  let d1 := alter_cfg n 0 f d0 in
  let d2 := cfg_changed n 0 (put_ccc n (mk_ccc (cfgs (the_ccc n d1)) 0) d1) in
  cccs d2 = <[n := mk_ccc [f g] 0]> (cccs d) /\ key_pool d2 = key_pool d /\ cf_cfg d2 = cf_cfg d /\
  hog_state d2 = if (n =? HOG_CCC)%nat then input_ccc_changed 0 (hog_state d) else hog_state d.
Proof.
  intros (H1&H2&H3) Ec En d1 d2. assert (Hn := lookup_lt_Some _ _ _ En).
  assert (E1 : cccs d1 = <[n := mk_ccc [f g] v]> (cccs d)).
  { subst d1. unfold alter_cfg, put_ccc, the_ccc. cbn. by rewrite Ec, En. }
  assert (E2 : the_ccc n d1 = mk_ccc [f g] v) by (unfold the_ccc; by rewrite E1, list_lookup_insert_eq).
  assert (K : key_pool d1 = key_pool d /\ cf_cfg d1 = cf_cfg d /\ hog_state d1 = hog_state d) by done. destruct K as (K1&K2&K3).
  subst d2. rewrite E2. clearbody d1. unfold cfg_changed, put_ccc.
  destruct (n =? HOG_CCC)%nat; cbn; rewrite E1, list_insert_insert_eq, K1, K2, K3; done.
Qed.

Lemma disconnect_one n v p attr handle d :
  attr_write attr = Some F_write_ccc -> user_data attr = UD_ccc n ->
  cccs d !! n = Some (mk_ccc [client_cfg conn v] v) ->
  exists d', disconnected_cb h conn p attr handle d = (BT_GATT_ITER_CONTINUE, d') /\
    cccs d' = <[n := mk_ccc [left_cfg (bonded d) v] 0]> (cccs d) /\ key_pool d' = key_pool d /\ cf_cfg d' = cf_cfg d /\
    hog_state d' = if (n =? HOG_CCC)%nat && nz v then input_ccc_changed 0 (hog_state d) else hog_state d.
Proof.
  intros Ew Eu Ec. unfold disconnected_cb. rewrite Ew, Eu. eexists. split; [reflexivity|].
  replace (the_ccc n d) with (mk_ccc [client_cfg conn v] v) by (unfold the_ccc; by rewrite Ec). cbn [cfgs ccc_value]. unfold left_cfg, nz.
  destruct (Z.eqb_spec v 0) as [->|Hv]; cbn [negb].
  { rewrite andb_false_r. split; [|done]. symmetry. etrans; [|apply (list_insert_id _ _ _ Ec)]. f_equal. by destruct (bonded d). }
  rewrite andb_true_r. cbn [disconnect_cfgs]. rewrite client_cfg_value, (proj2 (Z.eqb_neq v 0) Hv).
  assert (Hp : bt_conn_is_peer_addr_le conn (cfg_id (client_cfg conn v)) (cfg_peer (client_cfg conn v)) = true).
  { unfold client_cfg. rewrite (proj2 (Z.eqb_neq v 0) Hv). apply peer_self. }
  rewrite Hp. cbn [negb]. destruct (bonded d); cbn [negb].
  - destruct (reset_entry n (fun cfg => mk_cfg (cfg_id cfg) (conn_dst conn) (cfg_value cfg)) (client_cfg conn v) v d d) as (H1&H2&H3&H4); try done.
    rewrite H1, H2, H3, H4. split; [|done]. unfold client_cfg. by rewrite (proj2 (Z.eqb_neq v 0) Hv).
  - set (d0 := if (n =? SC_CCC)%nat then sc_clear conn d else d).
    assert (G : same_rest d d0 /\ cccs d0 = cccs d) by (subst d0; destruct (n =? SC_CCC)%nat; [apply sc_clear_rest|done]).
    destruct (reset_entry n clear_ccc_cfg (client_cfg conn v) v d d0 (proj1 G) (proj2 G) Ec) as (H1&H2&H3&H4).
    rewrite H1, H2, H3, H4. done.
Qed.

Lemma disconnect_all v0 v1 v2 d :
  subscribed conn v0 v1 v2 d ->
  let d' := bt_gatt_foreach_attr svcs 0x0001 0xffff (disconnected_cb h conn) d in
  cccs d' = [mk_ccc [left_cfg (bonded d) v0] 0; mk_ccc [left_cfg (bonded d) v1] 0; mk_ccc [left_cfg (bonded d) v2] 0] /\
  key_pool d' = key_pool d /\ cf_cfg d' = cf_cfg d /\ simulate_input (hog_state d') = 0 /\
  input_keyboard (hog_state d') = input_keyboard (hog_state d) /\ events (hog_state d') = events (hog_state d).
Proof.
  intros [Ec Es]. cbv zeta. rewrite foreach_ccc.
  2:{ intros e t He. unfold disconnected_cb. unfold is_ccc in He. destruct (attr_write (e_attr e)) as [[]|], (user_data (e_attr e)); done. }
  unfold ccc_entries. cbn [iterate e_ptr e_attr e_handle fst snd].
  destruct (disconnect_one SC_CCC v0 (0%nat, 3%nat) (open_ccc SC_CCC) 4 d) as (d1&->&C1&K1&F1&G1); [done|done|by rewrite Ec|].
  cbn [Nat.eqb SC_CCC HOG_CCC andb] in G1. rewrite Ec in C1. cbn [insert list_insert SC_CCC] in C1.
  destruct (disconnect_one BAS_CCC v1 (2%nat, 3%nat) (open_ccc BAS_CCC) 19 d1) as (d2&->&C2&K2&F2&G2); [done|done|by rewrite C1|].
  cbn [Nat.eqb BAS_CCC HOG_CCC andb] in G2. rewrite C1 in C2. cbn [insert list_insert BAS_CCC] in C2.
  destruct (disconnect_one HOG_CCC v2 (4%nat, 7%nat) hog_ccc 34 d2) as (d3&->&C3&K3&F3&G3); [done|done|by rewrite C2|].
  cbn [Nat.eqb HOG_CCC andb] in G3. rewrite C2 in C3. cbn [insert list_insert HOG_CCC] in C3.
  rewrite (bonded_keys d d1), (bonded_keys d d2) in * by congruence.
  split; [done|]. split; [congruence|]. split; [congruence|]. rewrite G3, G2, G1. unfold nz. destruct (Z.eqb_spec v2 0) as [->|]; done.
Qed.

(** The configurations of the client as they are stored. *)
Definition stored (v0 v1 v2 : Z) : list (Z * Z) := filter (fun e => e.2 <> 0) [(4, v0); (19, v1); (34, v2)].

Lemma find_stored v u : client_ok conn ->
  ccc_find_cfg (mk_ccc [client_cfg conn v] u) (conn_dst conn) (conn_id conn) = if v =? 0 then None else Some 0%nat.
Proof.
  intros (_&Hd&_&_). unfold ccc_find_cfg, client_cfg. cbn [cfgs]. rewrite find_index_one. destruct (v =? 0); cbn [cfg_id cfg_peer free_cfg].
  - rewrite bool_decide_false by congruence. by rewrite andb_false_r.
  - by rewrite Z.eqb_refl, bool_decide_true.
Qed.

Lemma saved_stored v0 v1 v2 u0 u1 u2 d :
  client_ok conn -> cccs d = [mk_ccc [client_cfg conn v0] u0; mk_ccc [client_cfg conn v1] u1; mk_ccc [client_cfg conn v2] u2] ->
  saved_cccs (conn_id conn) (conn_dst conn) d = stored v0 v1 v2.
Proof.
  intros Hc Ec. unfold saved_cccs. rewrite foreach_ccc.
  2:{ intros e t He. unfold ccc_save. unfold is_ccc in He. destruct (attr_write (e_attr e)) as [[]|], (user_data (e_attr e)); done. }
  unfold ccc_entries. cbn [iterate e_ptr e_attr e_handle fst snd]. unfold ccc_save. cbn [attr_write user_data open_ccc hog_ccc BT_GATT_ATTRIBUTE].
  unfold the_ccc. rewrite Ec. cbn [lookup list_lookup SC_CCC BAS_CCC HOG_CCC default from_option id]. rewrite !find_stored by done.
  unfold stored. assert (G : forall v, v <> 0 -> (([client_cfg conn v] : list ccc_cfg) !! 0%nat) = Some (mk_cfg (conn_id conn) (conn_dst conn) v)).
  { intros v Hv. unfold client_cfg. by rewrite (proj2 (Z.eqb_neq v 0) Hv). }
  destruct (Z.eqb_spec v0 0) as [->|H0]; [rewrite filter_cons_False by (cbn; lia)|rewrite filter_cons_True by (cbn; lia)];
  (destruct (Z.eqb_spec v1 0) as [->|H1]; [rewrite filter_cons_False by (cbn; lia)|rewrite filter_cons_True by (cbn; lia)]);
  (destruct (Z.eqb_spec v2 0) as [->|H2]; [rewrite filter_cons_False by (cbn; lia)|rewrite filter_cons_True by (cbn; lia)]);
  cbn [mbind option_bind cfgs]; rewrite ?G by done; done.
Qed.

(** Forgetting the client. *)
Lemma remove_client v0 v1 v2 u0 u1 u2 d :
  client_ok conn -> cccs d = [mk_ccc [client_cfg conn v0] u0; mk_ccc [client_cfg conn v1] u1; mk_ccc [client_cfg conn v2] u2] ->
  let d' := bt_gatt_foreach_attr svcs 0x0001 0xffff (remove_peer_from_attr (conn_dst conn) (conn_id conn)) d in
  d' = set_cccs [mk_ccc [free_cfg] u0; mk_ccc [free_cfg] u1; mk_ccc [free_cfg] u2] d.
Proof.
  intros Hc Ec. cbv zeta. rewrite foreach_ccc.
  2:{ intros e t He. unfold remove_peer_from_attr. unfold is_ccc in He. destruct (attr_write (e_attr e)) as [[]|], (user_data (e_attr e)); done. }
  unfold ccc_entries. cbn [iterate e_ptr e_attr e_handle fst snd]. unfold remove_peer_from_attr. cbn [attr_write user_data open_ccc hog_ccc BT_GATT_ATTRIBUTE].
  destruct d as [cs sccfg cfcfg hash hw sh scx kp bl hg st]. cbn in Ec. subst cs.
  assert (G : forall n v u (x : gatt F), cccs x !! n = Some (mk_ccc [client_cfg conn v] u) ->
     match ccc_find_cfg (the_ccc n x) (conn_dst conn) (conn_id conn) with
     | None => x | Some i => alter_cfg n i (fun _ => mk_cfg 0 BT_ADDR_LE_ANY 0) x end = put_ccc n (mk_ccc [free_cfg] u) x).
  { intros n v u x E. unfold alter_cfg. replace (the_ccc n x) with (mk_ccc [client_cfg conn v] u) by (unfold the_ccc; by rewrite E).
    rewrite find_stored by done. destruct (Z.eqb_spec v 0) as [->|]; [|done]. unfold put_ccc.
    rewrite list_insert_id by exact E. by destruct x. }
  rewrite (G SC_CCC v0 u0) by done. rewrite (G BAS_CCC v1 u1) by done. rewrite (G HOG_CCC v2 u2) by done. done.
Qed.

Definition no_client d : Prop :=
  cccs d = replicate 3 (mk_ccc [free_cfg] 0) /\ simulate_input (hog_state d) = 0.

Lemma no_client_subscribed d : no_client d <-> subscribed conn 0 0 0 d.
Proof. unfold no_client, subscribed, client_cfg. done. Qed.

Lemma store_cf_rest d : same_rest d (bt_gatt_store_cf conn d).2 /\ cccs (bt_gatt_store_cf conn d).2 = cccs d.
Proof. unfold bt_gatt_store_cf. destruct (_ ≫= _) as [cfg|]; apply save_setting_rest. Qed.

Lemma remove_cf_rest d :
  cccs (remove_cf_cfg conn d) = cccs d /\ hog_state (remove_cf_cfg conn d) = hog_state d /\ key_pool (remove_cf_cfg conn d) = key_pool d.
Proof. unfold remove_cf_cfg. destruct (find_cf_cfg _ _) as [i|]; [|done]. by destruct (negb _). Qed.

Lemma disconnected_no_client v0 v1 v2 d :
  client_ok conn -> subscribed conn v0 v1 v2 d ->
  no_client (bt_gatt_disconnected h conn d) /\ key_pool (bt_gatt_disconnected h conn d) = key_pool d.
Proof.
  intros Hc Hs. unfold bt_gatt_disconnected. destruct (disconnect_all v0 v1 v2 d Hs) as (C1&K1&_&S1&_).
  set (d1 := bt_gatt_foreach_attr _ _ _ _ d) in *. clearbody d1. unfold no_client. rewrite (bonded_keys d d1 K1).
  cbn [andb CONFIG_BT_SETTINGS_CCC_LAZY_LOADING]. destruct (bonded d) eqn:Eb.
  - set (d2 := (bt_gatt_store_cf conn (bt_gatt_store_ccc (conn_id conn) (conn_dst conn) d1).2).2).
    assert (H2 : same_rest d1 d2 /\ cccs d2 = cccs d1).
    { destruct (save_setting_rest (peer_key "ccc" (conn_id conn) (conn_dst conn)) (store_bytes (saved_cccs (conn_id conn) (conn_dst conn) d1)) d1) as [(A1&A2&A3) A4].
      destruct (store_cf_rest (bt_gatt_store_ccc (conn_id conn) (conn_dst conn) d1).2) as [(B1&B2&B3) B4]. unfold bt_gatt_store_ccc in *. subst d2.
      unfold bt_gatt_store_ccc. repeat split; congruence. }
    destruct H2 as [(A1&A2&A3) A4]. rewrite (bonded_keys d d2), Eb by congruence.
    rewrite C1 in A4. cbn [left_cfg] in A4. rewrite (remove_client v0 v1 v2 0 0 0 d2 Hc A4).
    destruct (remove_cf_rest (set_cccs [mk_ccc [free_cfg] 0; mk_ccc [free_cfg] 0; mk_ccc [free_cfg] 0] d2)) as (->&->&->).
    cbn. split; [|congruence]. split; [done|congruence].
  - rewrite (bonded_keys d d1 K1), Eb. destruct (remove_cf_rest d1) as (->&->&->). rewrite C1.
    split; [split; [reflexivity|exact S1]|exact K1].
Qed.

(** A load whose callback does nothing. *)
Lemma load_keeps {T} (cb : option cstr -> Z -> (Z -> Z * list Z) -> T -> Z * T) arg (s : option (settings_nvs F)) (t : T) :
  (forall name len rd t, (cb name len rd t).2 = t) -> (settings_load_subtree_direct arg cb s t).2 = t.
Proof.
  intros Hcb. unfold settings_load_subtree_direct. destruct s as [cf|]; [|done]. unfold settings_nvs_load.
  generalize (Z.to_nat (last_name_id cf - NVS_NAMECNT_ID)) as n. intros n.
  assert (G : forall cf t, (load_loop [] (mk_load_arg (Some arg) (Some cb)) n cf t).2 = t).
  { induction n as [|n IH]; intros cf' t'; [done|]. cbn [load_loop]. destruct (nvs_read _ _ NAME_BUF) as [rc1 name], (nvs_read _ _ 1) as [rc2 x].
    destruct (_ && _); [apply IH|]. destruct (_ || _); [apply IH|]. unfold settings_call_set_handler. cbn [subtree load_cb].
    destruct (settings_name_steq _ _) as [eq next]. destruct (negb eq); [apply IH|].
    match goal with |- context [cb ?a ?b ?c t'] => pose proof (Hcb a b c t') as E; destruct (cb a b c t') as [ret t''] end. cbn in E. subst t''.
    destruct (nz ret); [done|apply IH]. }
  specialize (G cf t). destruct (load_loop _ _ _ _ _) as [[ret cf'] t']. exact G.
Qed.

Lemma load_lazy old d :
  exists s, load_ccc true old conn d = set_store s d.
Proof.
  unfold load_ccc. pose proof (load_keeps (ccc_set_direct true old (peer_key "ccc" (conn_id conn) (conn_dst conn))) (peer_key "ccc" (conn_id conn) (conn_dst conn)) (store d) d) as E.
  destruct (settings_load_subtree_direct _ _ _ d) as [s d']. exists s. f_equal. apply E. intros k len rd t. unfold ccc_set_direct.
  destruct (settings_name_steq _ _) as [eq name]. by destruct (negb eq).
Qed.

Lemma update_none (c : bt_conn * conn_state) (t : Z * att_world (gatt F)) :
  no_client (db t.2) -> bt_gatt_foreach_attr svcs 0x0001 0xffff (update_ccc h c) t = t.
Proof.
  intros [Ec _]. rewrite foreach_ccc.
  2:{ intros e [sec w] He. unfold update_ccc. unfold is_ccc in He. destruct (attr_write (e_attr e)) as [[]|], (user_data (e_attr e)); done. }
  assert (G : forall n, (n < 3)%nat -> cfgs (the_ccc n (db t.2)) = [free_cfg]).
  { intros n Hn. unfold the_ccc. rewrite Ec. by destruct n as [|[|[|]]]; [..|lia]. }
  assert (S : forall n p attr handle, attr_write attr = Some F_write_ccc -> user_data attr = UD_ccc n -> (n < 3)%nat ->
    update_ccc h c p attr handle t = (BT_GATT_ITER_CONTINUE, t)).
  { intros n p attr handle E1 E2 Hn. unfold update_ccc. destruct t as [sec w]. rewrite E1, E2. specialize (G n Hn). cbn [snd] in G. by rewrite G. }
  unfold ccc_entries. cbn [iterate e_ptr e_attr e_handle fst snd].
  rewrite (S SC_CCC) by (done || cbv; lia). rewrite (S BAS_CCC) by (done || cbv; lia). by rewrite (S HOG_CCC) by (done || cbv; lia).
Qed.

(** ** Loading what was stored *)

Definition value_ok (v : Z) : Prop := 0 <= v < 2 ^ 16.

Lemma store_item_length (e : Z * Z) : length (le_bytes 2 e.1 ++ le_bytes 2 e.2) = 4%nat.
Proof. by rewrite length_app, !le_bytes_length. Qed.

Lemma store_bytes_length l : length (store_bytes l) = (length l * 4)%nat.
Proof.
  unfold store_bytes. induction l as [|e l IH]; [done|]. rewrite fmap_cons. cbn [concat length]. rewrite length_app, store_item_length, IH. lia.
Qed.

Lemma store_entries_bytes l : Forall (fun e => value_ok e.1 /\ value_ok e.2) l -> store_entries (store_bytes l) = l.
Proof.
  intros Hl. unfold store_entries. rewrite store_bytes_length at 1. rewrite Nat.div_mul by lia. unfold store_bytes.
  rewrite cut_concat; [|lia|apply Forall_fmap, Forall_true, store_item_length]. rewrite take_ge by (by rewrite length_fmap).
  rewrite <- list_fmap_compose. induction Hl as [|[a b] l [Ha Hb] _ IH]; [done|]. cbn [fmap list_fmap compose]. f_equal; [|exact IH].
  unfold compose. cbn [fst snd]. rewrite take_app_length', drop_app_length' by (by rewrite le_bytes_length).
  rewrite take_ge by (by rewrite le_bytes_length). by rewrite !le_value_handle.
Qed.

(** One configuration of a client that has none yet: its entry is the first stored
    one, or there is none. *)
Lemma load_step n v rest p attr handle d :
  client_ok conn -> attr_write attr = Some F_write_ccc -> user_data attr = UD_ccc n -> cccs d !! n = Some (mk_ccc [free_cfg] 0) ->
  Forall (fun e => handle < e.1) rest ->
  exists it, ccc_load (conn_dst conn) (conn_id conn) p attr handle (Some (if v =? 0 then rest else (handle, v) :: rest), d) =
    (it, (Some rest, put_ccc n (mk_ccc [client_cfg conn v] 0) d)) /\ (rest <> [] -> it = BT_GATT_ITER_CONTINUE).
Proof.
  intros Hc Ew Eu En Hr. unfold ccc_load. rewrite Ew, Eu. unfold client_cfg. destruct (v =? 0).
  - assert (Ed : put_ccc n (mk_ccc [free_cfg] 0) d = d) by (unfold put_ccc; rewrite list_insert_id by done; by destruct d).
    rewrite Ed. destruct rest as [|[eh ev] rest]; [by eexists|]. apply Forall_cons in Hr as [Hr _]. cbn in Hr.
    rewrite (proj2 (Z.eqb_neq _ _)) by lia. cbn [negb]. rewrite (proj2 (Z.ltb_ge _ _)) by lia. by eexists.
  - rewrite Z.eqb_refl. cbn [negb]. replace (the_ccc n d) with (mk_ccc [free_cfg] 0) by (unfold the_ccc; by rewrite En).
    assert (Ef := find_stored 0 0 Hc). cbn [Z.eqb client_cfg] in Ef. rewrite Ef.
    change (ccc_find_cfg (mk_ccc [free_cfg] 0) BT_ADDR_LE_ANY 0) with (Some 0%nat). cbn iota beta. eexists. split.
    + unfold alter_cfg. replace (the_ccc n d) with (mk_ccc [free_cfg] 0) by (unfold the_ccc; by rewrite En). reflexivity.
    + by destruct rest.
Qed.

Lemma load_stored v0 v1 v2 d :
  client_ok conn -> no_client d ->
  (bt_gatt_foreach_attr svcs 0x0001 0xffff (ccc_load (conn_dst conn) (conn_id conn)) (Some (stored v0 v1 v2), d)).2 =
  set_cccs [mk_ccc [client_cfg conn v0] 0; mk_ccc [client_cfg conn v1] 0; mk_ccc [client_cfg conn v2] 0] d.
Proof.
  intros Hc [Ec _]. rewrite foreach_ccc.
  2:{ intros e [en x] He. unfold ccc_load. unfold is_ccc in He. destruct (attr_write (e_attr e)) as [[]|], (user_data (e_attr e)); done. }
  set (r2 := if v2 =? 0 then [] else [(34, v2)]). set (r1 := if v1 =? 0 then r2 else (19, v1) :: r2).
  assert (Es : stored v0 v1 v2 = if v0 =? 0 then r1 else (4, v0) :: r1).
  { unfold stored, r1, r2. destruct (Z.eqb_spec v0 0), (Z.eqb_spec v1 0), (Z.eqb_spec v2 0);
    repeat first [rewrite filter_cons_False by (cbn; lia)|rewrite filter_cons_True by (cbn; lia)]; done. }
  assert (H2 : Forall (fun e => 19 < e.1) r2) by (unfold r2; destruct (v2 =? 0); by repeat constructor).
  assert (H1 : Forall (fun e => 4 < e.1) r1).
  { assert (Forall (fun e => 4 < e.1) r2) by (eapply Forall_impl; [exact H2|cbn; lia]). unfold r1. destruct (v1 =? 0); [done|]. by constructor. }
  rewrite Es. unfold ccc_entries. cbn [iterate e_ptr e_attr e_handle fst snd].
  destruct d as [cs sccfg cfcfg hash hw sh scx kp bl hg st]. cbn in Ec. subst cs.
  match goal with |- context [ccc_load _ _ _ _ 4 (_, ?d)] =>
    destruct (load_step SC_CCC v0 r1 (0%nat, 3%nat) (open_ccc SC_CCC) 4 d) as (i0&->&G0) end; [done..|].
  destruct i0.
  { destruct (decide (r1 = [])) as [E|E]; [|by discriminate (G0 E)]. unfold r1, r2 in E. destruct (Z.eqb_spec v1 0) as [->|], (Z.eqb_spec v2 0) as [->|]; done. }
  unfold r1. match goal with |- context [ccc_load _ _ _ _ 19 (_, ?d)] =>
    destruct (load_step BAS_CCC v1 r2 (2%nat, 3%nat) (open_ccc BAS_CCC) 19 d) as (i1&->&G1) end; [done..|].
  destruct i1.
  { destruct (decide (r2 = [])) as [E|E]; [|by discriminate (G1 E)]. unfold r2 in E. destruct (Z.eqb_spec v2 0) as [->|]; done. }
  unfold r2. match goal with |- context [ccc_load _ _ _ _ 34 (_, ?d)] =>
    destruct (load_step HOG_CCC v2 [] (4%nat, 7%nat) hog_ccc 34 d) as (i2&->&_) end; [done..|]. by destruct i2.
Qed.

Lemma client_key : client_ok conn -> peer_key "ccc" (conn_id conn) (conn_dst conn) = chars "bt/ccc" ++ SETTINGS_NAME_SEPARATOR :: addr_key (conn_dst conn) None.
Proof.
  intros (Ha&_&_&Hi). unfold peer_key. rewrite Hi. cbn [nz BT_ID_DEFAULT Z.eqb negb].
  rewrite encode_key_fits; [done|cbn; lia|done].
Qed.

Lemma stored_ok v0 v1 v2 : value_ok v0 -> value_ok v1 -> value_ok v2 -> Forall (fun e => value_ok e.1 /\ value_ok e.2) (stored v0 v1 v2).
Proof.
  intros H0 H1 H2. apply Forall_forall. intros e He. apply list_elem_of_filter in He as [_ He]. revert e He. apply Forall_forall.
  repeat constructor; cbn; unfold value_ok in *; lia.
Qed.

Lemma store_bytes_ok l : bytes_ok (store_bytes l).
Proof. apply Forall_concat, Forall_fmap, Forall_forall. intros e _. apply Forall_app. split; apply le_bytes_ok. Qed.

(** The handler of "bt/ccc" restores what [bt_gatt_store_ccc] wrote. *)
Lemma ccc_set_stored v0 v1 v2 u0 u1 u2 d d0 old rd :
  client_ok conn -> value_ok v0 -> value_ok v1 -> value_ok v2 -> length old = 6%nat ->
  cccs d = [mk_ccc [client_cfg conn v0] u0; mk_ccc [client_cfg conn v1] u1; mk_ccc [client_cfg conn v2] u2] -> no_client d0 ->
  let bytes := store_bytes (saved_cccs (conn_id conn) (conn_dst conn) d) in
  (forall len, 0 <= len <= 256 -> rd len = (Z.min len (Z.of_nat (length bytes)), take (Z.to_nat len) bytes)) -> bytes <> [] ->
  ccc_set false old (Some (addr_key (conn_dst conn) None)) (Z.of_nat (length bytes)) rd d0 =
  (0, set_cccs [mk_ccc [client_cfg conn v0] 0; mk_ccc [client_cfg conn v1] 0; mk_ccc [client_cfg conn v2] 0] d0).
Proof.
  intros Hc H0 H1 H2 Ho Ec Hn bytes Hrd Hb. subst bytes. rewrite (saved_stored v0 v1 v2 u0 u1 u2 d Hc Ec) in *.
  unfold ccc_set. assert (Hc' := Hc). destruct Hc' as (Ha&_&_&Hi). rewrite addr_key_next by done. cbn [snd].
  rewrite decode_addr_key by done. rewrite <- Hi. set (l := stored v0 v1 v2) in *.
  assert (El : Z.of_nat (length (store_bytes l)) <= 12).
  { unfold l, stored. cbn [filter list_filter snd]. repeat case_decide; cbn; lia. }
  assert (nz (Z.of_nat (length (store_bytes l))) = true) as -> by (destruct (store_bytes l); [done|reflexivity]).
  unfold CCC_STORE_MAX. rewrite Hrd by lia. rewrite (proj2 (Z.ltb_ge _ _)) by lia.
  rewrite take_ge by lia. rewrite store_entries_bytes by (by apply stored_ok). f_equal. by apply load_stored.
Qed.

End disconnecting.

(** ** Connecting again *)

Section reconnecting.
Context {F : Type} `{!Nvs F}.
Implicit Types (w : att_world (gatt F)) (d : gatt F) (conn : bt_conn).

Lemma connected_no_client h old conn state w :
  no_client (db w) ->
  exists sec w', bt_gatt_connected h old (conn, state) w = (sec, w') /\ chan w' = chan w /\ outgoing w' = outgoing w /\
    no_client (db w') /\ (BT_SECURITY_L1 <= conn_security conn -> sec = None) /\ (ready_to_notify 8 w -> ready_to_notify 8 w').
Proof.
  intros Hn. unfold bt_gatt_connected, CONFIG_BT_SETTINGS_CCC_LAZY_LOADING. cbn [fst andb].
  set (w1 := if bt_addr_le_is_bonded _ _ _ then _ else w).
  assert (G : exists s, w1 = set_db (set_store s (db w)) w).
  { subst w1. destruct (bt_addr_le_is_bonded _ _ _).
    - destruct (load_lazy conn old (db w)) as [s ->]. by exists s.
    - exists (store (db w)). destruct w as [? ? ? ? ? ? []]; done. }
  destruct G as [s E]. clearbody w1. subst w1. rewrite update_none by exact Hn.
  eexists _, _. split; [reflexivity|]. do 2 (split; [done|]). split; [exact Hn|]. split; [|done].
  intros Hs. by rewrite (proj2 (Z.ltb_ge _ _)).
Qed.

(** C26. A bonded host loses its subscription when it reconnects: whatever a bonded
    client had written, once it has disconnected and connected again (on any ATT
    channel, with any result of the controller) no security level is asked for and
    no report set from then on is sent, until the client writes its configuration
    once more.  The configurations are stored on disconnection and removed from
    memory; on connection they are to be loaded on demand, but the handler that loads
    them returns at once when they are to be loaded on demand. *)
Theorem bonded_subscription_lost h h' old conn conn' v0 v1 v2 d w rs :
  client_ok conn -> bt_addr_le_is_bonded (conn_id conn) (conn_dst conn) d = true -> subscribed conn v0 v1 v2 d ->
  conn_id conn' = conn_id conn -> conn_dst conn' = conn_dst conn -> BT_SECURITY_L1 <= conn_security conn' -> only_client h' conn' ->
  db w = bt_gatt_disconnected h conn d -> ready_to_notify 8 w -> Forall report_ok rs ->
  exists w', bt_gatt_connected h' old (conn', BT_CONN_CONNECTED) w = (None, w') /\
    bt_addr_le_is_bonded (conn_id conn') (conn_dst conn') (db w) = true /\
    outgoing (foldl (fun w r => set_report h' r w) w' rs) = outgoing w.
Proof.
  intros Hc Hb Hs Ei Ed Hsec Hh Ew Hr Hrs. destruct (disconnected_no_client h conn v0 v1 v2 d Hc Hs) as [Hn Hk]. rewrite <- Ew in Hn, Hk.
  destruct (connected_no_client h' old conn' BT_CONN_CONNECTED w Hn) as (sec&w'&E&_&Ho&Hn'&Hsec'&Hr'). exists w'.
  rewrite E, Hsec' by done. split; [done|]. split; [unfold bt_addr_le_is_bonded; rewrite Hk, Ei, Ed; exact Hb|].
  rewrite (set_reports_send h' conn' rs 0 0 0 w') by (try apply no_client_subscribed; auto). cbn. by rewrite app_nil_r, Ho.
Qed.
End reconnecting.
