(* ===== verification/GattInv.v ===== *)
(** What holds of the state behind the attribute server whatever happens: an invariant
    of the database that reads, writes and the change-aware check keep is kept by
    every PDU, and the invariant of the firmware's state. *)
From Stdlib Require Import ZArith Lia Bool Ascii.
From stdpp Require Import base numbers list gmap strings.
From S2P Require Import Prelude ByteOrder Uuid Gatt SettingsKeys Settings Keys Crypto Att AttFacts AttDiscovery AttAccess Hog GattDb GattConn GattFacts.
Open Scope Z_scope.

(** ** Iterations *)

Section iterations.
Context {R W T : Type} (I : T -> Prop).
Implicit Types (func : attr_func (R:=R) (W:=W) (T:=T)) (svcs : list (list (bt_gatt_attr R W))) (t : T).

Definition func_keeps func (attr : bt_gatt_attr R W) : Prop := forall p handle t, I t -> I (func p attr handle t).2.

Lemma foreach_service_keeps func n i attrs h start end_ uuid num t :
  Forall (func_keeps func) attrs -> I t -> I (foreach_service n i attrs h start end_ uuid num func t).2.
Proof.
  intros Ha. revert i h num t. induction Ha as [|attr attrs Hf _ IH]; intros i h num t Ht; [done|]. cbn [foreach_service].
  assert (G : I (gatt_foreach_iter (n, i) attr h start end_ uuid num func t).2).
  { unfold gatt_foreach_iter. destruct (_ <? _); [done|]. destruct (_ <? _); [done|]. destruct (match uuid with Some _ => _ | None => _ end); [done|].
    specialize (Hf (n, i) h t Ht). by destruct (func _ _ _ t). }
  destruct (gatt_foreach_iter _ _ _ _ _ _ _ _ t) as [[r num'] t']. cbn in G. destruct r; [done|by apply IH].
Qed.

Lemma foreach_static_keeps func n svcs h start end_ uuid num t :
  Forall (func_keeps func) (concat svcs) -> I t -> I (foreach_static n svcs h start end_ uuid num func t).
Proof.
  revert n h num t. induction svcs as [|svc svcs IH]; intros n h num t Ha Ht; [done|]. cbn [concat] in Ha. apply Forall_app in Ha as [H1 H2].
  cbn [foreach_static]. destruct (_ <? _); [by apply IH|].
  pose proof (foreach_service_keeps func n 0 svc h start end_ uuid num t H1 Ht) as G.
  destruct (foreach_service _ _ _ _ _ _ _ _ _ t) as [[[r h'] num'] t']. destruct r; [done|by apply IH].
Qed.

Lemma foreach_type_keeps func svcs start end_ uuid num t :
  Forall (func_keeps func) (concat svcs) -> I t -> I (bt_gatt_foreach_attr_type svcs start end_ uuid num func t).
Proof. intros Ha Ht. unfold bt_gatt_foreach_attr_type. destruct (_ <=? _); [by apply foreach_static_keeps|done]. Qed.

Lemma foreach_keeps func svcs start end_ t :
  Forall (func_keeps func) (concat svcs) -> I t -> I (bt_gatt_foreach_attr svcs start end_ func t).
Proof. apply foreach_type_keeps. Qed.
End iterations.

(** ** Sending leaves the database alone *)

Section sends.
Context {D : Type}.
Implicit Types (w : att_world D) (buf : pdu).

Lemma chan_send_db buf cb w : db (chan_send buf cb w).2 = db w.
Proof. done. Qed.

Lemma chan_send_cb_db buf cb w : db (bt_att_chan_send buf cb w).2 = db w.
Proof. unfold bt_att_chan_send. destruct cb; [done|]. by destruct (_ =? _). Qed.

Lemma send_rsp_db buf cb w : db (bt_att_chan_send_rsp buf cb w) = db w.
Proof.
  unfold bt_att_chan_send_rsp. pose proof (chan_send_cb_db buf cb w) as E. destruct (bt_att_chan_send buf cb w) as [err w']. by destruct (nz err).
Qed.

Lemma chan_create_db op len w : db (bt_att_chan_create_pdu op len w).2 = db w.
Proof. unfold bt_att_chan_create_pdu. by destruct (_ <? _). Qed.

Lemma create_db op len w : db (bt_att_create_pdu op len w).2 = db w.
Proof. unfold bt_att_create_pdu. destruct (negb _); [done|]. destruct (_ <? _); [done|apply chan_create_db]. Qed.

Lemma send_err_db req handle err w : db (send_err_rsp req handle err w) = db w.
Proof.
  unfold send_err_rsp. destruct (_ =? _); [done|]. pose proof (chan_create_db BT_ATT_OP_ERROR_RSP 4 w) as E.
  destruct (bt_att_chan_create_pdu _ _ w) as [[buf|] w']; [|done]. by rewrite send_rsp_db.
Qed.

Lemma att_send_db buf w : db (bt_att_send buf w).2 = db w.
Proof.
  unfold bt_att_send. destruct (negb _); [done|]. pose proof (chan_send_cb_db buf None w) as E.
  destruct (bt_att_chan_send buf None w) as [ret w']. by destruct (_ <? _).
Qed.

Lemma chan_req_send_db buf w : db (chan_req_send buf w).2 = db w.
Proof. unfold chan_req_send. by destruct (_ <? _). Qed.

Lemma bt_chan_req_send_db buf w : db (bt_att_chan_req_send buf w).2 = db w.
Proof.
  unfold bt_att_chan_req_send. destruct (_ =? _); [done|].
  match goal with |- context [chan_req_send buf ?x] => pose proof (chan_req_send_db buf x) as E; destruct (chan_req_send buf x) as [err w'] end.
  by destruct (_ <? _).
Qed.

Lemma req_send_db buf w : db (bt_att_req_send buf w).2 = db w.
Proof.
  unfold bt_att_req_send. destruct (negb _); [done|]. destruct (chan_req (chan w)); [done|].
  pose proof (bt_chan_req_send_db buf w) as E. destruct (bt_att_chan_req_send buf w) as [ret w']. by destruct (_ <=? _).
Qed.

Lemma att_process_db w : db (att_process w) = db w.
Proof.
  unfold att_process. destruct (reqs (chan w)) as [|node rest]; [done|]. set (w1 := set_chan _ w). destruct (chan_req (chan w1)); [done|].
  pose proof (bt_chan_req_send_db node w1) as E. destruct (bt_att_chan_req_send node w1) as [ret w']. by destruct (_ <=? _).
Qed.

Lemma process_queue_db q w : db (process_queue q w).2 = db w.
Proof. by destruct q. Qed.

Lemma sent_queues_db w : db (sent_queues w) = db w.
Proof.
  unfold sent_queues. pose proof (process_queue_db (chan_tx_queue (chan w)) w) as E. destruct (process_queue _ w) as [[err q] w1].
  cbn in E. destruct (err =? 0); [done|]. match goal with |- context [process_queue ?q ?x] => pose proof (process_queue_db q x) as E1; destruct (process_queue q x) as [[err' q'] w2] end.
  cbn in E1. destruct (err' =? 0); cbn; congruence.
Qed.

Lemma l2cap_sent_db w : db (l2cap_sent w) = db w.
Proof.
  unfold l2cap_sent. destruct (in_flight w) as [|cb rest]; [done|]. set (w1 := set_chan _ _). change (db w) with (db w1). clearbody w1. clear w cb rest.
  unfold bt_att_sent. set (w2 := set_chan _ w1). change (db w1) with (db w2). clearbody w2. clear w1.
  destruct (chan_req (chan w2)); [apply sent_queues_db|]. destruct (reqs (chan w2)) as [|node rest]; [apply sent_queues_db|].
  match goal with |- context [chan_req_send node ?x] => pose proof (chan_req_send_db node x) as E; destruct (chan_req_send node x) as [err w'] end.
  destruct (_ <=? _); [done|]. by rewrite sent_queues_db.
Qed.
End sends.

(** ** Requests *)

Section requests.
Context {R W D : Type} `{!GattServer R W D} (conn : bt_conn) (P : D -> Prop).
Hypothesis reads_keep : forall p attr len offset d, attr ∈ concat services -> P d -> P (attr_do_read p attr conn len offset d).2.
Hypothesis writes_keep : forall p attr value offset flags d,
  attr ∈ concat services -> bytes_ok value -> P d -> P (attr_do_write p attr conn value offset flags d).2.
Hypothesis aware_keep : forall req d, P d -> P (bt_gatt_change_aware conn req d).2.
Implicit Types (w : att_world D) (attr : bt_gatt_attr R W).

Lemma all_services (Q : bt_gatt_attr R W -> Prop) : (forall attr, attr ∈ concat services -> Q attr) -> Forall Q (concat services).
Proof. intros H. by apply Forall_forall. Qed.

Lemma read_loop_keeps {X} fuel mtu p attr (cb : option (read_cb_t X)) offset total buf x a d :
  attr ∈ concat services -> P d -> P (att_chan_read_loop conn fuel mtu p attr cb offset total buf x a d).2.
Proof.
  intros Ha. revert offset total buf x a d. induction fuel as [|fuel IH]; intros offset total buf x a d Hd; [done|]. cbn [att_chan_read_loop].
  destruct (_ && _); [done|].
  match goal with |- context [attr_do_read p attr conn ?len offset d] =>
    pose proof (reads_keep p attr len offset d Ha Hd) as G; destruct (attr_do_read p attr conn len offset d) as [[read bytes] d'] end. cbn in G.
  destruct (read <? 0); [done|]. destruct (match cb with Some f => _ | None => _ end) as [[ok buf'] x']. destruct (negb ok); [done|].
  destruct (_ && _); [by apply IH|done].
Qed.

Lemma chan_read_keeps {X} mtu p attr buf offset (cb : option (read_cb_t X)) x a d :
  attr ∈ concat services -> P d -> P (att_chan_read conn mtu p attr buf offset cb x a d).2.
Proof. intros Ha Hd. unfold att_chan_read. destruct (_ <=? _); [done|by apply read_loop_keeps]. Qed.

(** Turns a pair that a preservation fact is about into its components. *)
Ltac keep_read :=
  match goal with
  | |- context [att_chan_read conn ?m ?p ?at_ ?b ?o ?cb ?x ?a ?d] =>
      let G := fresh "G" in
      assert (G : P (att_chan_read conn m p at_ b o cb x a d).2) by (by apply chan_read_keeps);
      destruct (att_chan_read conn m p at_ b o cb x a d) as [[[[? ?] ?] ?] ?]; cbn in G
  | |- context [attr_do_read ?p ?at_ conn ?len ?off ?d] =>
      let G := fresh "G" in
      assert (G : P (attr_do_read p at_ conn len off d).2) by (by apply reads_keep);
      destruct (attr_do_read p at_ conn len off d) as [[? ?] ?]; cbn in G
  end.

Lemma find_type_keeps mtu value attr : attr ∈ concat services -> func_keeps (fun d => P (ft_db d)) (find_type_cb conn mtu value) attr.
Proof.
  intros Ha p handle d Hd. unfold find_type_cb. destruct (_ =? _); [done|]. destruct (nz _).
  { cbn. destruct (ft_group d) as [[i o]|]; [|done]. by destruct (_ <? _). }
  destruct (_ <? _); [done|]. destruct (ft_frag _ _ _) as [[buf|] al]; [|done]. keep_read.
  destruct (_ <? _); [done|]. by destruct (negb _).
Qed.

Lemma read_type_keeps mtu uuid attr : attr ∈ concat services -> func_keeps (fun d => P (rt_db d)) (read_type_cb conn mtu uuid) attr.
Proof.
  intros Ha p handle d Hd. unfold read_type_cb. destruct (nz _); [done|]. destruct (nz _); [done|]. keep_read.
  destruct (_ <? _); [done|]. by destruct (negb _).
Qed.

Lemma read_cb_keeps mtu offset attr : attr ∈ concat services -> func_keeps (fun d => P (rd_db d)) (read_cb conn mtu offset) attr.
Proof. intros Ha p handle d Hd. unfold read_cb. destruct (nz _); [done|]. keep_read. by destruct (_ <? _). Qed.

Lemma read_group_keeps mtu uuid attr : attr ∈ concat services -> func_keeps (fun d => P (rg_db d)) (read_group_cb conn mtu uuid) attr.
Proof.
  intros Ha p handle d Hd. unfold read_group_cb. destruct (_ && _).
  { cbn. destruct (rg_group d) as [[i o]|]; [|done]. by destruct (_ <? _). }
  destruct (nz _); [done|]. destruct (_ && _); [done|]. keep_read. destruct (_ <? _); [done|].
  match goal with |- context [match ?g with Some _ => _ | None => _ end] => by destruct g end.
Qed.

Lemma write_cb_keeps req value offset attr :
  attr ∈ concat services -> bytes_ok value -> func_keeps (fun d => P (wd_db d)) (write_cb conn req value offset) attr.
Proof.
  intros Ha Hv p handle d Hd. unfold write_cb. destruct (nz _); [done|].
  match goal with |- context [attr_do_write p attr conn value offset ?fl ?x] =>
    assert (G : P (attr_do_write p attr conn value offset fl x).2) by (by apply writes_keep);
    destruct (attr_do_write p attr conn value offset fl x) as [wr d']; cbn in G end.
  by destruct (_ || _).
Qed.

(** The buffer for a response, and the world with it. *)
Ltac keep_pdu :=
  match goal with
  | |- context [bt_att_create_pdu ?op ?len ?w] =>
      pose proof (create_db op len w) as Epdu; destruct (bt_att_create_pdu op len w) as [[?|] ?]; cbn [snd] in Epdu |- *;
      [|rewrite Epdu; assumption]
  end.

Definition keeps (f : att_world D -> Z * att_world D) : Prop := forall w, P (db w) -> P (db (f w).2).

Lemma find_info_req_keeps buf : keeps (att_find_info_req buf).
Proof.
  intros w Hw. unfold att_find_info_req, att_find_info_rsp. destruct (range_is_valid _ _); [by cbn [snd]; rewrite send_err_db|]. keep_pdu.
  cbn zeta. destruct (fi_rsp _); cbn [snd]; by rewrite ?send_rsp_db, ?send_err_db, Epdu.
Qed.

Lemma mtu_req_keeps buf : keeps (att_mtu_req buf).
Proof.
  intros w Hw. unfold att_mtu_req. cbn zeta. destruct (_ <? _); [done|]. keep_pdu. cbn [snd db set_chan]. by rewrite send_rsp_db, Epdu.
Qed.

Lemma find_type_req_keeps buf : keeps (att_find_type_req conn buf).
Proof.
  intros w Hw. unfold att_find_type_req, att_find_type_rsp. cbn zeta. destruct (range_is_valid _ _); [by cbn [snd]; rewrite send_err_db|].
  destruct (nz _); [by cbn [snd]; rewrite send_err_db|]. keep_pdu.
  match goal with |- context [bt_gatt_foreach_attr ?s ?a ?b ?f ?t] => assert (G : P (ft_db (bt_gatt_foreach_attr s a b f t))) end.
  { apply (foreach_keeps (fun d => P (ft_db d))); [apply all_services, find_type_keeps|cbn; by rewrite Epdu]. }
  destruct (nz _); cbn [snd]; by rewrite ?send_rsp_db, ?send_err_db.
Qed.

Lemma read_type_req_keeps buf : keeps (att_read_type_req conn buf).
Proof.
  intros w Hw. unfold att_read_type_req, att_read_type_rsp. cbn zeta. destruct (_ && _); [done|]. destruct (bt_uuid_create _ _) as [uuid|]; [|done].
  destruct (range_is_valid _ _); [by cbn [snd]; rewrite send_err_db|]. keep_pdu.
  match goal with |- context [bt_gatt_foreach_attr ?s ?a ?b ?f ?t] => assert (G : P (rt_db (bt_gatt_foreach_attr s a b f t))) end.
  { apply (foreach_keeps (fun d => P (rt_db d))); [apply all_services, read_type_keeps|cbn; by rewrite Epdu]. }
  destruct (nz _); cbn [snd]; by rewrite ?send_rsp_db, ?send_err_db.
Qed.

Lemma read_rsp_keeps op rsp handle offset : keeps (att_read_rsp conn op rsp handle offset).
Proof.
  intros w Hw. unfold att_read_rsp. pose proof (aware_keep true (db w) Hw) as Ha. destruct (bt_gatt_change_aware conn true (db w)) as [aware d].
  cbn in Ha. destruct (negb aware); [done|]. destruct (_ =? _); [done|]. keep_pdu.
  match goal with |- context [bt_gatt_foreach_attr ?s ?a ?b ?f ?t] => assert (G : P (rd_db (bt_gatt_foreach_attr s a b f t))) end.
  { apply (foreach_keeps (fun d => P (rd_db d))); [apply all_services, read_cb_keeps|cbn; by rewrite Epdu]. }
  cbn zeta. destruct (nz _); cbn [snd]; by rewrite ?send_rsp_db, ?send_err_db.
Qed.

Lemma read_mult_loop_keeps mtu buf data : P (rd_db data) -> P (rd_db (read_mult_loop conn mtu buf data).2).
Proof.
  revert buf data. fix IH 1. intros [|a [|b buf]] data Hd; [done..|]. cbn [read_mult_loop]. cbn zeta.
  match goal with |- context [bt_gatt_foreach_attr ?s ?a ?b ?f ?t] => assert (G : P (rd_db (bt_gatt_foreach_attr s a b f t))) end.
  { apply (foreach_keeps (fun d => P (rd_db d))); [apply all_services, read_cb_keeps|done]. }
  destruct (nz _); [done|by apply IH].
Qed.

Lemma read_mult_req_keeps buf : keeps (att_read_mult_req conn buf).
Proof.
  intros w Hw. unfold att_read_mult_req. keep_pdu.
  match goal with |- context [read_mult_loop conn ?m buf ?x] =>
    assert (G : P (rd_db (read_mult_loop conn m buf x).2)) by (apply read_mult_loop_keeps; cbn; by rewrite Epdu);
    destruct (read_mult_loop conn m buf x) as [[failed|] data]; cbn in G end;
  cbn [snd]; by rewrite ?send_rsp_db, ?send_err_db.
Qed.

Lemma read_group_req_keeps buf : keeps (att_read_group_req conn buf).
Proof.
  intros w Hw. unfold att_read_group_req, att_read_group_rsp. cbn zeta. destruct (_ && _); [done|]. destruct (bt_uuid_create _ _) as [uuid|]; [|done].
  destruct (range_is_valid _ _); [by cbn [snd]; rewrite send_err_db|]. destruct (_ && _); [by cbn [snd]; rewrite send_err_db|]. keep_pdu.
  match goal with |- context [bt_gatt_foreach_attr ?s ?a ?b ?f ?t] => assert (G : P (rg_db (bt_gatt_foreach_attr s a b f t))) end.
  { apply (foreach_keeps (fun d => P (rg_db d))); [apply all_services, read_group_keeps|cbn; by rewrite Epdu]. }
  destruct (_ =? _); cbn [snd]; by rewrite ?send_rsp_db, ?send_err_db.
Qed.

Lemma write_rsp_keeps req rsp handle offset value : bytes_ok value -> keeps (att_write_rsp conn req rsp handle offset value).
Proof.
  intros Hv w Hw. unfold att_write_rsp. pose proof (aware_keep (nz req) (db w) Hw) as Ha. destruct (bt_gatt_change_aware conn (nz req) (db w)) as [aware d].
  cbn in Ha. destruct (negb aware); [done|]. destruct (_ =? _); [done|]. set (w1 := set_env _ d w).
  assert (Eb : P (db (if nz rsp then bt_att_chan_create_pdu rsp 0 w1 else (None, w1)).2)) by (destruct (nz rsp); [by rewrite chan_create_db|done]).
  destruct (if nz rsp then _ else _) as [b w2]. cbn in Eb. destruct (_ && _); [done|].
  match goal with |- context [bt_gatt_foreach_attr ?s ?a ?b ?f ?t] => assert (G : P (wd_db (bt_gatt_foreach_attr s a b f t))) end.
  { apply (foreach_keeps (fun d => P (wd_db d))); [apply all_services; intros; by apply write_cb_keeps|done]. }
  cbn zeta. destruct (nz (wd_err _)); cbn [snd]; [destruct (nz rsp)|destruct b]; by rewrite ?send_rsp_db, ?send_err_db.
Qed.

Lemma handlers_keep h buf : h ∈ handlers conn -> bytes_ok buf -> keeps (h_func h buf).
Proof.
  intros Hh Hb. assert (Hd : forall n, bytes_ok (drop n buf)) by (intros n; by apply Forall_drop).
  unfold handlers in Hh. repeat (apply elem_of_cons in Hh as [->|Hh]); [..|by apply elem_of_nil in Hh]; cbn [h_func].
  - apply mtu_req_keeps.
  - apply find_info_req_keeps.
  - apply find_type_req_keeps.
  - apply read_type_req_keeps.
  - apply read_rsp_keeps.
  - apply read_rsp_keeps.
  - apply read_mult_req_keeps.
  - apply read_group_req_keeps.
  - by apply write_rsp_keeps.
  - by intros w.
  - by intros w.
  - intros w Hw. unfold att_confirm, att_handle_rsp. cbn [snd]. by rewrite att_process_db.
  - by apply write_rsp_keeps.
Qed.

(** Whatever the client sends. *)
Lemma recv_keeps buf w : bytes_ok buf -> P (db w) -> P (db (bt_att_recv conn buf w)).
Proof.
  intros Hb Hw. unfold bt_att_recv. destruct buf as [|code buf]; [done|]. apply Forall_cons in Hb as [_ Hb].
  destruct (find _ (handlers conn)) as [h|] eqn:Eh; [|destruct (negb _); [by rewrite send_err_db|done]].
  apply find_some in Eh as [Hh _]. destruct (_ && _); [done|]. set (w1 := if is_request (h_type h) then _ else w).
  assert (Hw1 : P (db w1)) by (subst w1; by destruct (is_request _)). clearbody w1.
  assert (G : P (db (if Z.of_nat (length buf) <? expect_len h then (BT_ATT_ERR_INVALID_PDU, w1) else h_func h buf w1).2)).
  { destruct (_ <? _); [done|]. apply handlers_keep; [by apply list_elem_of_In|done|done]. }
  destruct (if _ <? _ then _ else _) as [err w2]. cbn in G. destruct (_ && _); [by rewrite send_err_db|done].
Qed.
End requests.
