(* ===== verification/GattType.v ===== *)
(** The invariant of the state behind the attribute server: the shape of the statics
    and the ranges of their fields, and that the HID service knows what the client
    configuration of its input report says.  Every operation keeps it: requests of a
    client, connections, notifications, the work items and the settings handlers. *)
From Stdlib Require Import ZArith Lia Bool Ascii.
From stdpp Require Import base numbers list gmap strings.
From S2P Require Import Prelude ByteOrder Uuid Gatt SettingsKeys Settings Keys Crypto Att AttFacts AttDiscovery AttAccess Hog GattDb GattConn GattFacts GattInv.
Open Scope Z_scope.

(** An entry is free exactly when its value is 0. *)
Definition cfg_ok (cfg : ccc_cfg) : Prop :=
  value_ok (cfg_value cfg) /\ (cfg_value cfg = 0 <-> cfg_peer cfg = BT_ADDR_LE_ANY).
Definition ccc_ok (c : ccc) : Prop := value_ok (ccc_value c) /\ exists cfg, cfgs c = [cfg] /\ cfg_ok cfg.
Definition sc_cfg_ok (cfg : gatt_sc_cfg) : Prop := value_ok (sc_start cfg) /\ value_ok (sc_end cfg).
Definition cf_cfg_ok (cfg : gatt_cf_cfg) : Prop := exists b, cf_data cfg = [b] /\ 0 <= b < 256.

Record gatt_ok {F} (d : gatt F) : Prop := {
  ok_cccs_length : length (cccs d) = 3%nat;
  ok_cccs : Forall ccc_ok (cccs d);
  ok_hog : simulate_input (hog_state d) = if ccc_value (the_ccc HOG_CCC d) =? BT_GATT_CCC_NOTIFY then 1 else 0;
  ok_report : report_ok (input_keyboard (hog_state d));
  ok_sc_cfg : length (sc_cfg d) = 2%nat /\ Forall sc_cfg_ok (sc_cfg d);
  ok_cf_cfg : length (cf_cfg d) = 2%nat /\ Forall cf_cfg_ok (cf_cfg d);
  ok_sc : value_ok (range_start (sc d)) /\ value_ok (range_end (sc d));
  ok_battery : 0 <= battery_level d <= 100 }.

Lemma gatt_initial_ok F : gatt_ok (gatt_initial (F:=F)).
Proof.
  split; try done.
  - cbn. repeat constructor; unfold value_ok; cbn; try lia; eexists; (split; [reflexivity|]); (split; [unfold value_ok; cbn; lia|done]).
  - split; [done|]. cbn. repeat constructor; cbn; lia.
  - split; [done|]. cbn. repeat constructor; unfold value_ok; cbn; lia.
  - split; [done|]. cbn. repeat constructor; (exists 0; split; [done|lia]).
Qed.

Section operations.
Context {F : Type} `{!Nvs F}.
Implicit Types (d : gatt F) (conn : bt_conn) (n : nat).

(** *** Setters *)

Lemma ok_set_store s d : gatt_ok d -> gatt_ok (set_store s d).
Proof. by intros []; split. Qed.
Lemma ok_set_hash x b d : gatt_ok d -> gatt_ok (set_hash x b d).
Proof. by intros []; split. Qed.
Lemma ok_set_stored_hash x d : gatt_ok d -> gatt_ok (set_stored_hash x d).
Proof. by intros []; split. Qed.
Lemma ok_set_sc_cfg l d : length l = length (sc_cfg d) -> Forall sc_cfg_ok l -> gatt_ok d -> gatt_ok (set_sc_cfg l d).
Proof. intros El Hl []. split; try done. split; [cbn; rewrite El; by destruct ok_sc_cfg0|done]. Qed.
Lemma ok_set_cf_cfg l d : length l = length (cf_cfg d) -> Forall cf_cfg_ok l -> gatt_ok d -> gatt_ok (set_cf_cfg l d).
Proof. intros El Hl []. split; try done. split; [cbn; rewrite El; by destruct ok_cf_cfg0|done]. Qed.
Lemma ok_set_sc x d : value_ok (range_start x) -> value_ok (range_end x) -> gatt_ok d -> gatt_ok (set_sc x d).
Proof. by intros H1 H2 []; split. Qed.

Lemma ok_save_setting name value d : gatt_ok d -> gatt_ok (save_setting name value d).2.
Proof. intros Hd. unfold save_setting. destruct (settings_save_one _ _ _). by apply ok_set_store. Qed.

Lemma ok_alter_sc f i d : (forall cfg, sc_cfg_ok cfg -> sc_cfg_ok (f cfg)) -> gatt_ok d -> gatt_ok (set_sc_cfg (alter f i (sc_cfg d)) d).
Proof.
  intros Hf Hd. assert (H := ok_sc_cfg d Hd). apply ok_set_sc_cfg; [by rewrite length_alter| |done].
  apply Forall_alter; [by destruct H|]. intros x Hx Hok. by apply Hf.
Qed.
Lemma ok_alter_cf f i d : (forall cfg, cf_cfg_ok cfg -> cf_cfg_ok (f cfg)) -> gatt_ok d -> gatt_ok (set_cf_cfg (alter f i (cf_cfg d)) d).
Proof.
  intros Hf Hd. assert (H := ok_cf_cfg d Hd). apply ok_set_cf_cfg; [by rewrite length_alter| |done].
  apply Forall_alter; [by destruct H|]. intros x Hx Hok. by apply Hf.
Qed.
Lemma ok_insert_sc i cfg d : sc_cfg_ok cfg -> gatt_ok d -> gatt_ok (set_sc_cfg (<[i := cfg]> (sc_cfg d)) d).
Proof.
  intros Hc Hd. assert (H := ok_sc_cfg d Hd). apply ok_set_sc_cfg; [by rewrite length_insert| |done]. apply Forall_insert; [by destruct H|done].
Qed.
Lemma ok_insert_cf i cfg d : cf_cfg_ok cfg -> gatt_ok d -> gatt_ok (set_cf_cfg (<[i := cfg]> (cf_cfg d)) d).
Proof.
  intros Hc Hd. assert (H := ok_cf_cfg d Hd). apply ok_set_cf_cfg; [by rewrite length_insert| |done]. apply Forall_insert; [by destruct H|done].
Qed.

Lemma ok_lookup_sc i cfg d : gatt_ok d -> sc_cfg d !! i = Some cfg -> sc_cfg_ok cfg.
Proof. intros Hd E. destruct (ok_sc_cfg d Hd) as [_ H]. by apply (Forall_lookup_1 _ _ _ _ H E). Qed.
Lemma ok_lookup_cf i cfg d : gatt_ok d -> cf_cfg d !! i = Some cfg -> cf_cfg_ok cfg.
Proof. intros Hd E. destruct (ok_cf_cfg d Hd) as [_ H]. by apply (Forall_lookup_1 _ _ _ _ H E). Qed.
End operations.

Create HintDb gatt_ok.
#[export] Hint Resolve ok_set_store ok_set_hash ok_set_stored_hash ok_save_setting ok_alter_sc ok_alter_cf ok_insert_sc ok_insert_cf : gatt_ok.

Section keeping.
Context {F : Type} `{!Nvs F}.
Implicit Types (d : gatt F) (conn : bt_conn) (n : nat).

(** *** Service Changed data *)

Lemma zero_ok : value_ok 0.
Proof. unfold value_ok. lia. Qed.

Lemma ok_clear_sc_cfg cfg : sc_cfg_ok cfg -> sc_cfg_ok (clear_sc_cfg cfg).
Proof. intros _. split; apply zero_ok. Qed.

Lemma ok_bt_gatt_clear_sc id addr d : gatt_ok d -> gatt_ok (bt_gatt_clear_sc id addr d).
Proof.
  intros Hd. unfold bt_gatt_clear_sc. destruct (find_sc_cfg _ _ _) as [i|]; [|done]. apply ok_alter_sc; [apply ok_clear_sc_cfg|].
  destruct (sc_cfg d !! i); auto with gatt_ok.
Qed.

Lemma ok_sc_clear conn d : gatt_ok d -> gatt_ok (sc_clear conn d).
Proof.
  intros Hd. unfold sc_clear. destruct (bt_addr_le_is_bonded _ _ _); [by apply ok_bt_gatt_clear_sc|].
  destruct (find_sc_cfg _ _ _) as [i|]; [|done]. apply ok_alter_sc; [apply ok_clear_sc_cfg|done].
Qed.

Lemma ok_sc_reset i d : gatt_ok d -> gatt_ok (sc_reset i d).
Proof.
  intros Hd. unfold sc_reset. destruct (sc_cfg d !! i) as [cfg|] eqn:E; [|done]. apply ok_save_setting, ok_insert_sc; [|done]. split; apply zero_ok.
Qed.

Lemma update_range_ok a b c e : value_ok a -> value_ok b -> value_ok c -> value_ok e ->
  value_ok (update_range a b c e).2.1 /\ value_ok (update_range a b c e).2.2.
Proof. intros Ha Hb Hc He. unfold update_range. destruct (_ && _); [done|]. cbn. by destruct (_ <? _), (_ <? _). Qed.

Lemma ok_sc_save id peer start end_ d : value_ok start -> value_ok end_ -> gatt_ok d -> gatt_ok (sc_save id peer start end_ d).
Proof.
  intros Hs He Hd. unfold sc_save.
  set (found := match find_sc_cfg id peer (sc_cfg d) with Some i => _ | None => _ end).
  assert (Hf : forall i l, found = Some (i, l) -> gatt_ok (set_sc_cfg l d)).
  { intros i l. subst found. destruct (find_sc_cfg _ _ _) as [j|]; [intros [= <- <-]; by destruct d|].
    destruct (find_sc_cfg _ _ _) as [j|]; [|done]. intros [= <- <-]. by apply ok_alter_sc. }
  destruct found as [[i l]|]; [|done]. specialize (Hf i l eq_refl). destruct (l !! i) as [cfg|] eqn:E; [|done].
  pose proof (ok_lookup_sc i cfg _ Hf E) as [H1 H2].
  set (u := if negb _ then (true, (start, end_)) else _).
  assert (Hu : value_ok u.2.1 /\ value_ok u.2.2) by (subst u; destruct (negb _); [done|by apply update_range_ok]).
  destruct u as [m [s e]]. cbn in Hu. pose proof (ok_insert_sc i (mk_sc_cfg (sc_id cfg) (sc_peer cfg) s e) _ Hu Hf) as G. cbn in G.
  destruct (_ && _); [by apply ok_save_setting|exact G].
Qed.

Lemma ok_sc_ccc_cfg_write conn value d : gatt_ok d -> gatt_ok (sc_ccc_cfg_write conn value d).2.
Proof. intros Hd. unfold sc_ccc_cfg_write. cbn. destruct (_ =? _); [apply ok_sc_save; [apply zero_ok|apply zero_ok|done]|by apply ok_sc_clear]. Qed.

(** *** Client features *)

Lemma ok_clear_cf_cfg cfg : cf_cfg_ok cfg -> cf_cfg_ok (clear_cf_cfg cfg).
Proof. intros _. exists 0. split; [done|lia]. Qed.

Lemma cf_set_value_ok cfg value cfg' : cf_cfg_ok cfg -> cf_set_value cfg value = Some cfg' -> cf_cfg_ok cfg'.
Proof.
  intros [b [Eb Hb]]. unfold cf_set_value. destruct (forallb _ _); [|done]. intros [= <-].
  set (l := seq 0 _). assert (G : forall data, (exists b, data = [b] /\ 0 <= b < 256) ->
    exists b, foldl (fun data i => alter (fun b => u8 (b .| (default 0 (value !! i) .& (BIT (CF_BIT_LAST + 1) - 1)))) i data) data l = [b] /\ 0 <= b < 256).
  { induction l as [|i l IH]; intros data Hdata; [done|]. apply IH. destruct Hdata as (x&->&Hx). destruct i as [|i].
    - eexists. split; [reflexivity|]. apply Z.mod_pos_bound. lia.
    - exists x. by destruct i. }
  apply G. by exists b.
Qed.

Lemma ok_cf_write conn buf offset d : gatt_ok d -> gatt_ok (cf_write conn buf offset d).2.
Proof.
  intros Hd. unfold cf_write. destruct (_ <? _); [done|]. destruct (_ <? _); [done|]. destruct (match find_cf_cfg (Some conn) _ with Some _ => _ | None => _ end) as [i|]; [|done].
  destruct (cf_cfg d !! i) as [cfg|] eqn:E; [|done]. cbn [mbind option_bind]. destruct (cf_set_value cfg buf) as [cfg'|] eqn:Es; [|done]. cbn [snd].
  apply ok_insert_cf; [|done]. exact (cf_set_value_ok cfg buf cfg' (ok_lookup_cf i cfg d Hd E) Es).
Qed.

Lemma ok_change_aware (conn : option bt_conn) req d : gatt_ok d -> gatt_ok (change_aware conn req d).2.
Proof.
  intros Hd. unfold change_aware. destruct (find_cf_cfg _ _) as [i|]; [|done]. destruct (cf_cfg d !! i) as [cfg|] eqn:E; [|done].
  assert (Hc := ok_lookup_cf i cfg d Hd E). destruct (negb _); [done|]. destruct (CF_CHANGE_AWARE cfg); [done|]. destruct (negb req); [done|].
  destruct (CF_OUT_OF_SYNC cfg); by apply ok_insert_cf.
Qed.

Lemma ok_remove_cf_cfg conn d : gatt_ok d -> gatt_ok (remove_cf_cfg conn d).
Proof.
  intros Hd. unfold remove_cf_cfg. destruct (find_cf_cfg _ _) as [i|]; [|done]. destruct (negb _); apply ok_alter_cf; try done. apply ok_clear_cf_cfg.
Qed.

(** *** Database hash *)

Lemma ok_db_hash_gen {C} `{!TinyCrypt C} b d : gatt_ok d -> gatt_ok (db_hash_gen (C:=C) b d).
Proof.
  intros Hd. unfold db_hash_gen, db_hash_store. destruct generated_hash; [|done]. destruct b; auto with gatt_ok.
Qed.

Lemma ok_db_hash_refresh {C} `{!TinyCrypt C} (conn : option bt_conn) d : gatt_ok d -> gatt_ok (db_hash_refresh (C:=C) conn d).
Proof.
  intros Hd. unfold db_hash_refresh, db_hash_cancel. apply ok_change_aware. destruct (db_hash_work d); [apply ok_db_hash_gen|]; by apply ok_set_hash.
Qed.

(** *** Client configurations *)

Lemma ok_the_ccc n d : gatt_ok d -> (n < 3)%nat -> exists c, cccs d !! n = Some c /\ the_ccc n d = c /\ ccc_ok c.
Proof.
  intros Hd Hn. destruct (lookup_lt_is_Some_2 (cccs d) n) as [c E]; [by rewrite (ok_cccs_length d Hd)|].
  exists c. unfold the_ccc. rewrite E. split; [done|]. split; [done|]. exact (Forall_lookup_1 _ _ _ _ (ok_cccs d Hd) E).
Qed.

Lemma the_put n m c d : (m < length (cccs d))%nat -> the_ccc n (put_ccc m c d) = if (n =? m)%nat then c else the_ccc n d.
Proof.
  intros Hm. unfold the_ccc, put_ccc. cbn. destruct (Nat.eqb_spec n m) as [->|Hne]; [by rewrite list_lookup_insert_eq|by rewrite list_lookup_insert_ne].
Qed.

(** A configuration is replaced and the service told of its value, if need be. *)
Lemma ok_put_changed n c d :
  gatt_ok d -> (n < 3)%nat -> ccc_ok c -> gatt_ok (cfg_changed n (ccc_value c) (put_ccc n c d)).
Proof.
  intros Hd Hn Hc. assert (Hl := ok_cccs_length d Hd). assert (Hm : (n < length (cccs d))%nat) by lia.
  assert (Ht : the_ccc HOG_CCC (cfg_changed n (ccc_value c) (put_ccc n c d)) = if (HOG_CCC =? n)%nat then c else the_ccc HOG_CCC d).
  { rewrite <- the_put by done. unfold cfg_changed. by destruct (n =? HOG_CCC)%nat. }
  assert (Ec : cccs (cfg_changed n (ccc_value c) (put_ccc n c d)) = <[n := c]> (cccs d)) by (unfold cfg_changed; destruct (n =? HOG_CCC)%nat; reflexivity).
  destruct Hd. split; try (unfold cfg_changed; destruct (n =? HOG_CCC)%nat; done).
  - by rewrite Ec, length_insert.
  - rewrite Ec. by apply Forall_insert.
  - rewrite Ht, (Nat.eqb_sym HOG_CCC n). unfold cfg_changed. by destruct (n =? HOG_CCC)%nat.
Qed.

Lemma ok_put_same n c d :
  gatt_ok d -> (n < 3)%nat -> ccc_ok c -> ccc_value c = ccc_value (the_ccc n d) -> gatt_ok (put_ccc n c d).
Proof.
  intros Hd Hn Hc Hv. assert (G := ok_put_changed n c d Hd Hn Hc). assert (Hh := ok_hog d Hd). revert G. unfold cfg_changed.
  destruct (Nat.eqb_spec n HOG_CCC) as [->|]; [|done]. intros [? ? ? ? ? ? ? ?]. split; try done.
  rewrite the_put by (rewrite (ok_cccs_length d Hd); cbv; lia). cbn. by rewrite Hv.
Qed.

Lemma ok_alter_cfg n i f d :
  gatt_ok d -> (n < 3)%nat -> (forall cfg, cfgs (the_ccc n d) = [cfg] -> cfg_ok cfg -> cfg_ok (f cfg)) -> gatt_ok (alter_cfg n i f d).
Proof.
  intros Hd Hn Hf. destruct (ok_the_ccc n d Hd Hn) as (c&_&Et&Hv&cfg&Ec&Hc). unfold alter_cfg. apply ok_put_same; [done|done| |done].
  rewrite Et in *. split; [done|]. cbn [cfgs]. rewrite Ec. destruct i as [|i]; [exists (f cfg)|exists cfg]; auto.
Qed.

Lemma free_cfg_ok cfg : cfg_ok cfg -> cfg_ok (mk_cfg 0 BT_ADDR_LE_ANY 0).
Proof. intros _. split; [apply zero_ok|done]. Qed.

(** The entry is written, the service told of a change, and the entry freed if it is
    off. *)
Lemma write_entry_eq n cfg v value d :
  cccs d !! n = Some (mk_ccc [cfg] v) -> 0 <= value ->
  write_ccc_entry n 0 value d =
  let d' := put_ccc n (mk_ccc [if value =? 0 then free_cfg else mk_cfg (cfg_id cfg) (cfg_peer cfg) value] value) d in
  if value =? v then d' else cfg_changed n value d'.
Proof.
  intros E Hv. assert (Hn := lookup_lt_Some _ _ _ E). destruct d as [cs sccfg cfcfg hash hw sh scx kp bl hg st]. cbn in E, Hn.
  unfold write_ccc_entry, the_ccc, put_ccc. cbn. rewrite !E. cbn. rewrite !list_lookup_insert_eq by done. cbn.
  destruct (Z.eqb_spec value v) as [->|Hne]; cbn.
  - destruct (v =? 0); cbn; [|done]. rewrite !list_lookup_insert_eq by done. cbn. by rewrite list_insert_insert_eq.
  - unfold gatt_ccc_changed, the_ccc, put_ccc. cbn. rewrite !list_lookup_insert_eq by done. cbn.
    replace (if 0 <? value then value else 0) with value by (destruct (Z.ltb_spec 0 value); lia).
    rewrite (proj2 (Z.eqb_neq value v) Hne). cbn. unfold cfg_changed. rewrite list_insert_insert_eq.
    destruct (n =? HOG_CCC)%nat; cbn; (destruct (value =? 0); cbn; [|done]); rewrite !list_lookup_insert_eq by done; cbn; by rewrite list_insert_insert_eq.
Qed.

Lemma ok_write_entry n cfg value d :
  gatt_ok d -> (n < 3)%nat -> cfg_peer cfg <> BT_ADDR_LE_ANY -> value_ok value ->
  gatt_ok (write_ccc_entry n 0 value (put_ccc n (mk_ccc [cfg] (ccc_value (the_ccc n d))) d)).
Proof.
  intros Hd Hn Hp Hv. destruct (ok_the_ccc n d Hd Hn) as (c&Ec&Et&_). rewrite Et.
  rewrite (write_entry_eq n cfg (ccc_value c) value) by (try apply Hv; unfold put_ccc; cbn; apply list_lookup_insert_eq; by eapply lookup_lt_Some).
  set (c' := mk_ccc _ value). assert (Hc' : ccc_ok c').
  { split; [done|]. eexists. split; [reflexivity|]. destruct (Z.eqb_spec value 0) as [|Hz]; [by apply free_cfg_ok with free_cfg|split; [done|]]. cbn. split; [lia|done]. }
  assert (Ep : put_ccc n c' (put_ccc n (mk_ccc [cfg] (ccc_value c)) d) = put_ccc n c' d) by (unfold put_ccc; cbn; by rewrite list_insert_insert_eq).
  cbv zeta. rewrite Ep. destruct (Z.eqb_spec value (ccc_value c)) as [Ev|_].
  - apply ok_put_same; try done. by rewrite Et.
  - exact (ok_put_changed n c' d Hd Hn Hc').
Qed.

(** Writes of Service Changed data do not see the configurations. *)
Lemma save_setting_cccs name value l d : (save_setting name value (set_cccs l d)).2 = set_cccs l (save_setting name value d).2.
Proof. unfold save_setting. cbn. by destruct (settings_save_one _ _ _). Qed.

Lemma bonded_cccs id addr l d : bt_addr_le_is_bonded id addr (set_cccs l d) = bt_addr_le_is_bonded id addr d.
Proof. done. Qed.

Lemma sc_write_cccs conn value l d : (sc_ccc_cfg_write conn value (set_cccs l d)).2 = set_cccs l (sc_ccc_cfg_write conn value d).2.
Proof.
  unfold sc_ccc_cfg_write. cbn [snd]. destruct (_ =? _).
  - unfold sc_save. cbn [sc_cfg set_cccs]. destruct (match find_sc_cfg _ _ _ with Some _ => _ | None => _ end) as [[i x]|]; [|done].
    destruct (x !! i) as [cfg|]; [|done]. destruct (if negb _ then _ else _) as [m [s e]].
    match goal with |- context [bt_addr_le_is_bonded ?a ?b ?y] => change (bt_addr_le_is_bonded a b y) with (bt_addr_le_is_bonded a b d) end.
    destruct (m && _) eqn:Em; [|done]. unfold sc_store.
    match goal with |- (save_setting ?nm ?v ?y).2 = _ => change y with (set_cccs l (set_sc_cfg (<[i:=mk_sc_cfg (sc_id cfg) (sc_peer cfg) s e]> x) d)) end.
    apply save_setting_cccs.
  - unfold sc_clear. rewrite bonded_cccs. unfold bt_gatt_clear_sc. cbn [sc_cfg set_cccs]. destruct (bt_addr_le_is_bonded _ _ d).
    + destruct (find_sc_cfg _ _ _) as [i|]; [|done]. destruct (sc_cfg d !! i) as [cfg|]; [|done].
      change (mk_gatt l (sc_cfg d) (cf_cfg d) (db_hash d) (db_hash_work d) (stored_hash d) (sc d) (key_pool d) (battery_level d) (hog_state d) (store d)) with (set_cccs l d).
      by rewrite save_setting_cccs.
    + by destruct (find_sc_cfg _ _ _).
Qed.

Lemma sc_write_same conn value d : cccs (sc_ccc_cfg_write conn value d).2 = cccs d.
Proof.
  assert (E := sc_write_cccs conn value (cccs d) d). replace (set_cccs (cccs d) d) with d in E by (by destruct d). by rewrite E.
Qed.

Lemma le_value_ok buf : bytes_ok buf -> (length buf <= 2)%nat -> value_ok (le_value buf).
Proof.
  intros Hb Hl. unfold value_ok. destruct buf as [|a [|b [|]]]; cbn in Hl; try lia; cbn; repeat (apply Forall_cons in Hb as [? Hb]); lia.
Qed.

Lemma ok_write_ccc conn n buf offset d :
  client_ok conn -> bytes_ok buf -> (n < 3)%nat -> gatt_ok d -> gatt_ok (bt_gatt_attr_write_ccc conn n buf offset d).2.
Proof.
  intros Hc Hb Hn Hd. unfold bt_gatt_attr_write_ccc. destruct (nz offset); [done|]. destruct (_ || _) eqn:El; [done|].
  apply orb_false_iff in El as [_ El]. apply Z.ltb_ge in El. assert (Hv := le_value_ok buf Hb ltac:(lia)). set (value := le_value buf) in *. clearbody value.
  destruct (ok_the_ccc n d Hd Hn) as (c&Ec&Et&_&cfg&Ecf&Hcfg). rewrite Et.
  set (entry := match find_ccc_cfg (Some conn) c with Some i => _ | None => _ end).
  assert (He : match entry with inl _ => True | inr (i, d1) => i = 0%nat /\ exists cfg', cfg_peer cfg' <> BT_ADDR_LE_ANY /\
     d1 = put_ccc n (mk_ccc [cfg'] (ccc_value c)) d end).
  { subst entry. unfold find_ccc_cfg. rewrite Ecf, !find_index_one. destruct (bt_conn_is_peer_addr_le conn _ _) eqn:Ep.
    - split; [done|]. exists cfg. split.
      + intros E0. rewrite E0 in Ep. destruct cfg as [id peer v]. cbn in *. subst peer.
        unfold bt_conn_is_peer_addr_le in Ep. destruct Hc as (_&H1&H2&_). rewrite !bool_decide_false in Ep by congruence. by destruct (negb _).
      + rewrite <- Ecf. destruct c. unfold put_ccc. cbn. rewrite list_insert_id by done. by destruct d.
    - destruct (value =? 0); [done|]. destruct (bool_decide _); [|done]. split; [done|].
      exists (mk_cfg (conn_id conn) (conn_dst conn) (cfg_value cfg)). by destruct Hc as (_&?&_). }
  destruct entry as [r|[i d1]]; [done|]. destruct He as (->&cfg'&Hp&->). unfold cfg_write. destruct (n =? SC_CCC)%nat; cbn [snd].
  - assert (E1 := sc_write_cccs conn value (<[n := mk_ccc [cfg'] (ccc_value c)]> (cccs d)) d). fold (put_ccc n (mk_ccc [cfg'] (ccc_value c)) d) in E1.
    assert (E2 := sc_write_same conn value d). assert (H2 := ok_sc_ccc_cfg_write conn value d Hd).
    destruct (sc_ccc_cfg_write conn value (put_ccc _ _ d)) as [r d2] eqn:Er. assert (r = 2) as -> by (unfold sc_ccc_cfg_write in Er; congruence).
    cbn [Z.ltb Z.eqb Z.compare negb andb Pos.eqb snd]. cbn [snd] in E1. subst d2.
    set (d3 := (sc_ccc_cfg_write conn value d).2) in *. assert (E3 : the_ccc n d3 = c) by (unfold the_ccc; rewrite E2; exact Et).
    assert (G := ok_write_entry n cfg' value d3 H2 Hn Hp Hv). rewrite E3 in G. unfold put_ccc in G. by rewrite E2 in G.
  - assert (G := ok_write_entry n cfg' value d Hd Hn Hp Hv). by rewrite Et in G.
Qed.

Lemma ok_set_hog g d :
  simulate_input g = simulate_input (hog_state d) -> report_ok (input_keyboard g) -> gatt_ok d -> gatt_ok (set_hog g d).
Proof. intros E Hr []. split; try done. cbn. by rewrite E. Qed.

(** Which configuration a descriptor names. *)
Lemma ccc_index attr : attr ∈ concat svcs -> (match user_data attr with UD_ccc n => n | _ => 0%nat end < 3)%nat.
Proof. revert attr. apply Forall_forall. unfold svcs. cbn. repeat constructor; cbv; lia. Qed.

Lemma ok_attr_writes attr conn buf offset d :
  client_ok conn -> bytes_ok buf -> attr ∈ concat svcs -> gatt_ok d -> gatt_ok (attr_writes attr conn buf offset d).2.
Proof.
  intros Hc Hb Ha Hd. unfold attr_writes. destruct (attr_write attr) as [[|[|[]]]|]; [|by apply ok_cf_write| |done].
  - apply ok_write_ccc; try done. by apply ccc_index.
  - destruct (write_ctrl_point buf offset (hog_state d)) as [r g] eqn:E. assert (Hr := ok_report d Hd). unfold write_ctrl_point in E.
    destruct (_ <? _); injection E as <- <-; by apply ok_set_hog.
Qed.

Lemma ok_attr_reads {C} `{!TinyCrypt C} p attr conn len offset d : gatt_ok d -> gatt_ok (attr_reads (C:=C) p attr (Some conn) len offset d).2.
Proof.
  intros Hd. unfold attr_reads. destruct (attr_read attr) as [[| | |[]]|]; try done; [|by destruct r]. by apply ok_db_hash_refresh.
Qed.

(** Whatever a client sends. *)
Lemma ok_recv {C} `{!TinyCrypt C} conn buf (w : att_world (gatt F)) :
  client_ok conn -> bytes_ok buf -> gatt_ok (db w) -> gatt_ok (db (bt_att_recv (GattServer0 := firmware_server C F) conn buf w)).
Proof.
  intros Hc Hb Hw. apply (recv_keeps (GattServer0 := firmware_server C F)); try done.
  - intros p attr len offset d _ Hd. by apply ok_attr_reads.
  - intros p attr value offset flags d Ha Hv Hd. by apply ok_attr_writes.
  - intros req d Hd. by apply ok_change_aware.
Qed.

(** *** Connections *)

Lemma ok_disconnected_cb h conn attr : client_ok conn -> attr ∈ concat svcs -> func_keeps (gatt_ok (F:=F)) (disconnected_cb h conn) attr.
Proof.
  intros Hc Ha p handle d Hd. unfold disconnected_cb. cbn [snd]. assert (Hn := ccc_index attr Ha).
  destruct (attr_write attr) as [[]|]; try done. destruct (user_data attr) as [| |n|]; try done.
  destruct (ok_the_ccc n d Hd Hn) as (c&Ec&Et&Hv&cfg&Ecf&Hcfg). cbv zeta. destruct (_ =? _); [done|].
  assert (G : gatt_ok (disconnect_cfgs h conn n 0 (cfgs (the_ccc n d)) false d).2).
  { rewrite Et, Ecf. cbn [disconnect_cfgs]. destruct (Z.eqb_spec (cfg_value cfg) 0) as [|Hz]; [done|]. destruct (negb _); [done|]. destruct (negb _).
    - apply ok_alter_cfg; [destruct (_ =? _)%nat; [by apply ok_sc_clear|done]|done|]. intros x _. apply free_cfg_ok.
    - apply ok_alter_cfg; [done|done|]. rewrite Et, Ecf. intros x [= <-] [H1 H2]. split; [done|]. cbn. split; [done|]. intros E. by destruct Hc as (_&?&_). }
  destruct (disconnect_cfgs _ _ _ _ _ _ d) as [used d1]. cbn in G. destruct (negb used); [|done].
  destruct (ok_the_ccc n d1 G Hn) as (c1&Ec1&Et1&_&Hx). apply ok_put_changed; [done|done|]. rewrite Et1. split; [apply zero_ok|exact Hx].
Qed.

Lemma ok_remove_peer addr id attr : attr ∈ concat svcs -> func_keeps (gatt_ok (F:=F)) (remove_peer_from_attr addr id) attr.
Proof.
  intros Ha p handle d Hd. unfold remove_peer_from_attr. cbn [snd]. assert (Hn := ccc_index attr Ha).
  destruct (attr_write attr) as [[]|]; try done. destruct (user_data attr) as [| |n|]; try done.
  destruct (ccc_find_cfg _ _ _); [|done]. apply ok_alter_cfg; [done|done|]. intros x _. apply free_cfg_ok.
Qed.

Lemma ok_remove_all addr id d : gatt_ok d -> gatt_ok (bt_gatt_foreach_attr svcs 0x0001 0xffff (remove_peer_from_attr addr id) d).
Proof. apply foreach_keeps. apply Forall_forall. intros attr Ha. by apply ok_remove_peer. Qed.

Lemma ok_disconnected h conn d : client_ok conn -> gatt_ok d -> gatt_ok (bt_gatt_disconnected h conn d).
Proof.
  intros Hc Hd. unfold bt_gatt_disconnected. apply ok_remove_cf_cfg.
  set (d1 := bt_gatt_foreach_attr _ _ _ _ d). assert (H1 : gatt_ok d1).
  { apply foreach_keeps; [|done]. apply Forall_forall. intros attr Ha. by apply ok_disconnected_cb. }
  clearbody d1. set (d2 := if bt_addr_le_is_bonded _ _ d1 then _ else d1). assert (H2 : gatt_ok d2).
  { subst d2. destruct (bt_addr_le_is_bonded _ _ d1); [|done]. unfold bt_gatt_store_cf. destruct (_ ≫= _); apply ok_save_setting; by apply ok_save_setting. }
  clearbody d2. destruct (_ && _); [by apply ok_remove_all|done].
Qed.

Lemma ok_clear id addr d : gatt_ok d -> gatt_ok (bt_gatt_clear id addr d).2.
Proof.
  intros Hd. unfold bt_gatt_clear. assert (G : gatt_ok (bt_gatt_clear_ccc id addr d).2) by (apply ok_save_setting; by apply ok_remove_all).
  destruct (bt_gatt_clear_ccc id addr d) as [err d1]. cbn in G. destruct (_ <? _); [done|].
  assert (G1 : gatt_ok (bt_gatt_clear_cf id addr (bt_gatt_clear_sc id addr d1)).2).
  { apply ok_save_setting. destruct (find_cf_cfg_by_addr _ _ _); [apply ok_alter_cf; [apply ok_clear_cf_cfg|]|]; by apply ok_bt_gatt_clear_sc. }
  by destruct (bt_gatt_clear_cf _ _ _).
Qed.

(** *** Notifications *)

Implicit Types (w : att_world (gatt F)) (data : list Z).

Lemma notify_db conn handle data w : db (gatt_notify conn handle data w).2 = db w.
Proof.
  unfold gatt_notify. pose proof (create_db BT_ATT_OP_NOTIFY (2 + Z.of_nat (length data)) w) as E.
  destruct (bt_att_create_pdu _ _ w) as [[buf|] w1]; [|done]. by rewrite att_send_db.
Qed.

Lemma indicate_db conn handle data func w : db (gatt_indicate conn handle data func w).2 = db w.
Proof.
  unfold gatt_indicate. pose proof (create_db BT_ATT_OP_INDICATE (2 + Z.of_nat (length data)) w) as E.
  destruct (bt_att_create_pdu _ _ w) as [[buf|] w1]; [|done]. unfold gatt_send. destruct func; [|by rewrite att_send_db].
  unfold net_buf_alloc. destruct (hd true _); [by rewrite req_send_db|done].
Qed.

Lemma notify_cfgs_db h handle type data func l (nd : notify_data (F:=F)) : db (nd_world (notify_cfgs h handle type data func l nd).2) = db (nd_world nd).
Proof.
  revert nd. induction l as [|cfg l IH]; intros nd; [done|]. cbn [notify_cfgs]. destruct (negb _); [apply IH|].
  destruct (bt_conn_lookup_addr_le _ _ _) as [[conn state]|]; [|apply IH]. destruct (negb _); [apply IH|].
  set (r := if type =? BT_GATT_CCC_INDICATE then _ else _).
  assert (E : db r.2 = db (nd_world nd)) by (subst r; destruct (_ =? _); [apply indicate_db|apply notify_db]).
  destruct r as [err w]. cbn in E. destruct (_ <? _); [done|]. by rewrite IH.
Qed.

Lemma le16_ok off data : bytes_ok data -> value_ok (le16 off data).
Proof. intros Hb. exact (le16_range off data Hb). Qed.

Lemma ok_save_unconnected h data w : bytes_ok data -> gatt_ok (db w) -> gatt_ok (db (save_sc_unconnected h data w)).
Proof.
  intros Hb. unfold save_sc_unconnected. generalize (seq 0 (length (sc_cfg (db w)))) as l. intros l. revert w.
  induction l as [|i l IH]; intros w Hw; [done|]. cbn [foldl]. apply IH. destruct (sc_cfg (db w) !! i) as [cfg|]; [|done].
  destruct (bool_decide _); [done|]. destruct (bt_conn_lookup_state_le _ _ _ _); [done|]. cbn. apply ok_sc_save; [by apply le16_ok..|done].
Qed.

Lemma ok_notify_all h handle type data func w : bytes_ok data -> gatt_ok (db w) -> gatt_ok (db (notify_all h handle type data func w).2).
Proof.
  intros Hb Hw. unfold notify_all. cbn [snd]. apply (foreach_type_keeps (fun nd : notify_data (F:=F) => gatt_ok (db (nd_world nd)))); [|done].
  apply Forall_forall. intros attr Ha p h' nd Hd. unfold notify_cb. destruct (attr_write attr) as [[]|]; try done.
  destruct (user_data attr) as [| |n|]; try done. rewrite notify_cfgs_db. destruct (_ =? _)%nat; [by apply ok_save_unconnected|done].
Qed.

Lemma ok_notify h c p data w : bytes_ok data -> gatt_ok (db w) -> gatt_ok (db (bt_gatt_notify h c p data w).2).
Proof.
  intros Hb Hw. unfold bt_gatt_notify, bt_gatt_notify_cb. destruct (notify_handle _ _ _ _ _); [done|].
  destruct c as [[conn state]|]; [by rewrite notify_db|by apply ok_notify_all].
Qed.

Lemma ok_indicate h c p uuid data func w : bytes_ok data -> gatt_ok (db w) -> gatt_ok (db (bt_gatt_indicate h c p uuid data func w).2).
Proof.
  intros Hb Hw. unfold bt_gatt_indicate. destruct (notify_handle _ _ _ _ _); [done|].
  destruct c as [[conn state]|]; [by rewrite indicate_db|by apply ok_notify_all].
Qed.

Lemma ok_set_battery h level w : 0 <= level -> gatt_ok (db w) -> gatt_ok (db (bt_bas_set_battery_level h level w).2).
Proof.
  intros Hl Hw. unfold bt_bas_set_battery_level. destruct (Z.ltb_spec 100 level); [done|].
  assert (G : gatt_ok (db (bt_gatt_notify h None (2%nat, 1%nat) [level] (set_db (set_battery level (db w)) w)).2)).
  { apply ok_notify; [constructor; [lia|constructor]|]. destruct Hw. by split. }
  by destruct (bt_gatt_notify _ _ _ _ _).
Qed.

Lemma ok_set_report h r w : report_ok r -> gatt_ok (db w) -> gatt_ok (db (set_report h r w)).
Proof.
  intros Hr Hw. unfold set_report. rewrite set_keyboard_input_events, drop_app_length. set (w1 := set_db _ w).
  assert (H1 : gatt_ok (db w1)).
  { cbn. apply ok_set_hog; [by rewrite set_keyboard_input_sub|by rewrite set_keyboard_input_report|done]. }
  clearbody w1. destruct (nz _); [|done]. cbn [foldl run_event]. rewrite l2cap_sent_db. apply ok_notify; [by destruct Hr|done].
Qed.

(** *** Service Changed indications *)

Lemma ok_upd_sc f d :
  (forall s, value_ok (range_start s) /\ value_ok (range_end s) -> value_ok (range_start (f s)) /\ value_ok (range_end (f s))) ->
  gatt_ok d -> gatt_ok (upd_sc f d).
Proof. intros Hf Hd. destruct (Hf (sc d) (ok_sc d Hd)). by apply ok_set_sc. Qed.

Lemma ok_confirmed_aware conn d : gatt_ok d -> gatt_ok (confirmed_aware conn d).
Proof.
  intros Hd. unfold confirmed_aware. destruct (find_cf_cfg _ _) as [i|]; [|done]. apply ok_alter_cf; [|done].
  intros cfg Hc. by destruct (CF_ROBUST_CACHING cfg).
Qed.

Lemma ok_sc_indicate_rsp conn d : gatt_ok d -> gatt_ok (sc_indicate_rsp conn d).
Proof. intros Hd. apply ok_confirmed_aware. by apply ok_upd_sc. Qed.

Lemma ok_sc_process h w : gatt_ok (db w) -> gatt_ok (db (sc_process h w)).
Proof.
  intros Hw. unfold sc_process.
  match goal with |- context [bt_gatt_indicate h None sc_attr None ?x true ?y] =>
    assert (G : gatt_ok (db (bt_gatt_indicate h None sc_attr None x true y).2)) end.
  { apply ok_indicate; [apply Forall_app; split; apply le_bytes_ok|]. apply ok_set_sc; [apply zero_ok|apply zero_ok|done]. }
  destruct (bt_gatt_indicate _ _ _ _ _ _ _) as [err w1]. cbn in G. destruct (nz err); [done|]. by apply ok_upd_sc.
Qed.

Lemma ok_sc_indicate start end_ d : value_ok start -> value_ok end_ -> gatt_ok d -> gatt_ok (sc_indicate start end_ d).
Proof.
  intros Hs He Hd. unfold sc_indicate. set (u := if negb (SC_RANGE_CHANGED (sc d)) then _ else _).
  assert (Hu : value_ok u.2.1 /\ value_ok u.2.2).
  { subst u. destruct (negb _); [done|]. destruct (ok_sc d Hd). by apply update_range_ok. }
  destruct u as [ch [a b]]. cbn in Hu. destruct (negb ch); [done|]. destruct Hu. by apply ok_set_sc.
Qed.

Lemma ok_sc_restore h c w : gatt_ok (db w) -> gatt_ok (db (sc_restore h c w)).
Proof.
  intros Hw. unfold sc_restore. destruct (find_sc_cfg _ _ _) as [i|]; [|done]. destruct (sc_cfg (db w) !! i) as [cfg|]; [|done]. destruct (negb _); [done|].
  assert (G : gatt_ok (db (bt_gatt_indicate h (Some c) sc_attr None (sc_bytes cfg) true w).2)).
  { apply ok_indicate; [apply Forall_app; split; apply le_bytes_ok|done]. }
  destruct (bt_gatt_indicate _ _ _ _ _ _ _) as [err w1]. by apply ok_sc_reset.
Qed.

(** *** Connecting and encrypting *)

Lemma ok_ccc_changed n d : gatt_ok d -> (n < 3)%nat -> gatt_ok (gatt_ccc_changed n d).
Proof.
  intros Hd Hn. destruct (ok_the_ccc n d Hd Hn) as (c&_&Et&Hv&cfg&Ecf&Hcfg). unfold gatt_ccc_changed. rewrite Et, Ecf. cbn [foldl].
  replace (if 0 <? cfg_value cfg then cfg_value cfg else 0) with (cfg_value cfg).
  2:{ destruct Hcfg as [Hx _]. unfold value_ok in Hx. destruct (Z.ltb_spec 0 (cfg_value cfg)); lia. }
  destruct (negb _); [|done]. apply (ok_put_changed n (mk_ccc [cfg] (cfg_value cfg))); [done|done|]. split; [by destruct Hcfg|by exists cfg].
Qed.

Lemma ok_update_ccc h c attr :
  attr ∈ concat svcs -> func_keeps (fun t : Z * att_world (gatt F) => gatt_ok (db t.2)) (update_ccc h c) attr.
Proof.
  intros Ha p handle [sec w] Hw. unfold update_ccc. assert (Hn := ccc_index attr Ha). destruct (attr_write attr) as [[]|]; try done.
  destruct (user_data attr) as [| |n|]; try done. destruct (update_cfgs _ _ _ _) as [sec' use]. cbn [snd]. destruct use; [|done].
  assert (G : gatt_ok (gatt_ccc_changed n (db w))) by (by apply ok_ccc_changed). destruct (_ =? _)%nat; [by apply ok_sc_restore|done].
Qed.

Lemma ok_update_all h c sec w : gatt_ok (db w) -> gatt_ok (db (bt_gatt_foreach_attr svcs 0x0001 0xffff (update_ccc h c) (sec, w)).2).
Proof.
  intros Hw. apply (foreach_keeps (fun t : Z * att_world (gatt F) => gatt_ok (db t.2))); [|done].
  apply Forall_forall. intros attr Ha. by apply ok_update_ccc.
Qed.

Lemma ok_connected h old c w : gatt_ok (db w) -> gatt_ok (db (bt_gatt_connected h old c w).2).
Proof.
  intros Hw. unfold bt_gatt_connected, CONFIG_BT_SETTINGS_CCC_LAZY_LOADING. cbn [andb]. set (w1 := if bt_addr_le_is_bonded _ _ _ then _ else w).
  assert (H1 : gatt_ok (db w1)).
  { subst w1. destruct (bt_addr_le_is_bonded _ _ _); [|done]. destruct (load_lazy c.1 old (db w)) as [s ->]. by apply ok_set_store. }
  clearbody w1. assert (G := ok_update_all h c BT_SECURITY_L1 w1 H1). by destruct (bt_gatt_foreach_attr _ _ _ _ _).
Qed.

(** *** Settings handlers *)

(** What reading a stored value gives: bytes, no more than asked for. *)
Definition read_ok (rd : Z -> Z * list Z) : Prop :=
  forall k, 0 <= k -> bytes_ok (rd k).2 /\ Z.of_nat (length (rd k).2) <= k.

Lemma ok_cf_set old name len rd d : read_ok rd -> gatt_ok d -> gatt_ok (cf_set old name len rd d).2.
Proof.
  intros Hr Hd. unfold cf_set. destruct (decode_name old name) as [[addr id]|]; [|done].
  set (entry := match find_cf_cfg_by_addr _ _ _ with Some i => _ | None => _ end).
  assert (He : match entry with Some (_, d1) => gatt_ok d1 | None => True end).
  { subst entry. destruct (find_cf_cfg_by_addr _ _ _); [done|]. destruct (find_cf_cfg _ _); [by apply ok_alter_cf|done]. }
  destruct entry as [[i d1]|]; [|done]. destruct (nz len); [|by apply ok_alter_cf; [apply ok_clear_cf_cfg|]].
  destruct (Hr 1 ltac:(lia)) as [Hb Hl]. destruct (rd 1) as [r bytes]. cbn in Hb, Hl. destruct (r <? 0); [done|]. cbn [snd].
  apply ok_alter_cf; [|done]. intros cfg (b&Eb&Hbb). unfold cf_cfg_ok. cbn [cf_data]. rewrite Eb. unfold overwrite.
  destruct bytes as [|x [|y l]]; cbn in Hl; [by exists b| |lia]. exists x. apply Forall_cons in Hb as [? _]. done.
Qed.

Lemma ok_sc_set old name len rd d : read_ok rd -> gatt_ok d -> gatt_ok (sc_set old name len rd d).2.
Proof.
  intros Hr Hd. unfold sc_set. destruct (decode_name old name) as [[addr id]|]; [|done].
  set (entry := match find_sc_cfg id addr _ with Some i => _ | None => _ end).
  assert (He : match entry with inr (_, d1) => gatt_ok d1 | inl _ => True end).
  { subst entry. destruct (find_sc_cfg _ _ _); [done|]. destruct (nz len); [|done]. destruct (find_sc_cfg _ _ _); [by apply ok_alter_sc|done]. }
  destruct entry as [err|[i d1]]; [done|]. destruct (nz len).
  - destruct (Hr 4 ltac:(lia)) as [Hb Hl]. destruct (rd 4) as [r bytes]. cbn in Hb, Hl. destruct (r <? 0); [done|]. destruct i as [i|]; [|done]. cbn [snd].
    apply ok_alter_sc; [|done]. intros cfg [H1 H2].
    assert (Ho : bytes_ok (overwrite bytes (sc_bytes cfg))).
    { apply Forall_app. split; [done|]. apply Forall_drop, Forall_app. split; apply le_bytes_ok. }
    split; by apply le16_ok.
  - destruct i as [i|]; [|done]. cbn [snd]. apply ok_alter_sc; [apply ok_clear_sc_cfg|done].
Qed.

Lemma ok_db_hash_commit {C} `{!TinyCrypt C} d : gatt_ok d -> gatt_ok (db_hash_commit (C:=C) d).2.
Proof.
  intros Hd. unfold db_hash_commit, db_hash_cancel. set (d1 := if db_hash_work d then _ else _).
  assert (H1 : gatt_ok d1) by (subst d1; destruct (db_hash_work d); [apply ok_db_hash_gen|]; by apply ok_set_hash). clearbody d1.
  destruct (_ =? _); cbn [snd]; [by apply ok_upd_sc|]. apply ok_save_setting. apply ok_sc_indicate; [unfold value_ok; lia..|done].
Qed.
End keeping.

(** ** Everything that happens *)

(** What reaches this code from outside: PDUs and completions from L2CAP, connection
    events, calls of the application, work items, and items of the settings. *)
Inductive gatt_event :=
  | Ev_recv (conn : bt_conn) (buf : pdu)
  | Ev_sent
  | Ev_connected (h : host) (old : list Z) (conn : bt_conn) (state : conn_state)
  | Ev_encrypt_change (h : host) (conn : bt_conn) (state : conn_state)
  | Ev_disconnected (h : host) (conn : bt_conn)
  | Ev_report (h : host) (r : hids_report_keyboard)
  | Ev_battery (h : host) (level : Z)
  | Ev_sc_process (h : host)
  | Ev_sc_confirmed (conn : bt_conn)
  | Ev_db_hash_process
  | Ev_clear (id : Z) (addr : bt_addr_le_t)
  | Ev_cf_set (old : list Z) (name : option cstr) (len : Z) (read : Z -> Z * list Z)
  | Ev_sc_set (old : list Z) (name : option cstr) (len : Z) (read : Z -> Z * list Z)
  | Ev_db_hash_set (name : option cstr) (len : Z) (read : Z -> Z * list Z)
  | Ev_sc_commit
  | Ev_db_hash_commit.

Definition event_ok (ev : gatt_event) : Prop :=
  match ev with
  | Ev_recv conn buf => client_ok conn /\ bytes_ok buf
  | Ev_disconnected h conn => client_ok conn
  | Ev_report h r => report_ok r
  | Ev_battery h level => 0 <= level < 256
  | Ev_cf_set old name len read | Ev_sc_set old name len read => read_ok read
  | _ => True
  end.

Definition run_gatt {C F} `{!TinyCrypt C, !Nvs F} (w : att_world (gatt F)) (ev : gatt_event) : att_world (gatt F) :=
  match ev with
  | Ev_recv conn buf => bt_att_recv (GattServer0 := firmware_server C F) conn buf w
  | Ev_sent => l2cap_sent w
  | Ev_connected h old conn state => (bt_gatt_connected h old (conn, state) w).2
  | Ev_encrypt_change h conn state => bt_gatt_encrypt_change h (conn, state) w
  | Ev_disconnected h conn => set_db (bt_gatt_disconnected h conn (db w)) w
  | Ev_report h r => set_report h r w
  | Ev_battery h level => (bt_bas_set_battery_level h level w).2
  | Ev_sc_process h => sc_process h w
  | Ev_sc_confirmed conn => set_db (sc_indicate_rsp conn (db w)) w
  | Ev_db_hash_process => set_db (db_hash_process (C:=C) (db w)) w
  | Ev_clear id addr => set_db (bt_gatt_clear id addr (db w)).2 w
  | Ev_cf_set old name len read => set_db (cf_set old name len read (db w)).2 w
  | Ev_sc_set old name len read => set_db (sc_set old name len read (db w)).2 w
  | Ev_db_hash_set name len read => set_db (db_hash_set name len read (db w)).2 w
  | Ev_sc_commit => set_db (sc_commit (db w)).2 w
  | Ev_db_hash_commit => set_db (db_hash_commit (C:=C) (db w)).2 w
  end.

(** C9. The state of the attribute server stays well formed whatever happens, in any
    order: any bytes a client sends as PDUs, completions, connections and
    disconnections, reports and battery levels of the application, the work items and
    the settings handlers.  In every state so reached each client configuration has
    its one entry with a 16-bit value, which is 0 exactly when the entry is free, the
    client features are one byte each, Service Changed ranges are handles, the battery
    level is at most 100, and the HID service sends reports exactly when the
    configuration of the input report says notify. *)
Theorem gatt_state_well_formed {C F} `{!TinyCrypt C, !Nvs F} (evs : list gatt_event) (w : att_world (gatt F)) :
  Forall event_ok evs -> gatt_ok (db w) -> gatt_ok (db (foldl (run_gatt (C:=C)) w evs)).
Proof.
  intros Hev. revert w. induction Hev as [|ev evs He _ IH]; intros w Hw; [done|]. cbn [foldl]. apply IH.
  destruct ev; cbn in He |- *.
  - destruct He. by apply ok_recv.
  - by rewrite l2cap_sent_db.
  - by apply ok_connected.
  - by apply ok_update_all.
  - by apply ok_disconnected.
  - by apply ok_set_report.
  - apply ok_set_battery; [lia|done].
  - by apply ok_sc_process.
  - by apply ok_sc_indicate_rsp.
  - apply ok_db_hash_gen. by apply ok_set_hash.
  - by apply ok_clear.
  - by apply ok_cf_set.
  - by apply ok_sc_set.
  - unfold db_hash_set. destruct (read 16) as [r bytes]. destruct (r <? 0); [done|]. by apply ok_set_stored_hash.
  - by apply ok_upd_sc.
  - by apply ok_db_hash_commit.
Qed.
