(* ===== verification/GattExample.v ===== *)
(** The attribute server at work: a client of the firmware, and the properties of the
    server at this client. *)
From Stdlib Require Import ZArith Lia Bool Ascii.
From stdpp Require Import base numbers list gmap strings.
From S2P Require Import Prelude ByteOrder Uuid Gatt SettingsKeys Settings Keys Crypto Att AttFacts AttDiscovery AttAccess Hog GattDb GattConn GattFacts GattInv GattType.
Open Scope Z_scope.

(** In the place of AES-CMAC: the first sixteen bytes of the message. *)
#[export] Instance first_bytes_cmac : TinyCrypt (list Z) := {
  tc_cmac_setup key := if (length key =? 16)%nat then Some [] else None;
  tc_cmac_update c data := (true, c ++ data);
  tc_cmac_final c := Some (take 16 (c ++ replicate 16 0)) }.

(** A client on an authenticated link, and the host that has this connection. *)
Definition example_conn : bt_conn := mk_conn BT_SECURITY_L3 true BT_ID_DEFAULT example_addr example_addr.
Definition example_host : host := mk_host true [(example_conn, BT_CONN_CONNECTED)].

Lemma example_client_ok : client_ok example_conn.
Proof. split; [exact example_addr_ok|]. done. Qed.

(** A channel with the smallest MTU, nothing sent yet. *)
Definition example_world (d : gatt ram_nvs) : att_world (gatt ram_nvs) :=
  mk_att (mk_chan BT_ATT_DEFAULT_LE_MTU BT_ATT_DEFAULT_LE_MTU false None [] CONFIG_BT_ATT_TX_MAX None [] []) true [] [] [] [] d.

Lemma example_idle d : idle (example_world d).
Proof. split; [|done]. split; [done|]. split; [constructor|]. cbv. split; congruence. Qed.

Lemma initial_no_client : subscribed example_conn 0 0 0 (gatt_initial (F:=ram_nvs)).
Proof. done. Qed.

Abbreviation server := (firmware_server (list Z) ram_nvs).
Abbreviation server_ok := (firmware_server_ok (C:=list Z) (F:=ram_nvs)).

Lemma requests_answered_witness :
  request_answered BT_ATT_OP_READ_BLOB_REQ (example_world gatt_initial)
    (bt_att_recv (GattServer0 := server) example_conn [BT_ATT_OP_READ_BLOB_REQ; 31; 0; 22; 0] (example_world gatt_initial)).
Proof.
  refine (requests_answered (GattServer0 := server) (GattServerOk0 := server_ok) example_conn BT_ATT_OP_READ_BLOB_REQ [31; 0; 22; 0]
    (example_world gatt_initial) _ _ _).
  - apply example_idle.
  - unfold BT_ATT_OP_READ_BLOB_REQ. lia.
  - repeat constructor; lia.
Defined.

(** Only a client that has enabled robust caching can be change-unaware. *)
Lemma initial_stays_aware :
  stays_aware (GattServer0 := server) (GattServerOk0 := server_ok) example_conn gatt_initial.
Proof.
  intros d' Hs. specialize (Hs (0%nat, 0%nat) (BT_GATT_ATTRIBUTE BT_UUID_GATT_CLIENT_FEATURES 0 (Some (F_read R_cf)) None UD_value)).
  change (cf_value (Some example_conn) d' = [0]) in Hs. cbn. unfold change_aware. unfold cf_value in Hs.
  destruct (find_cf_cfg _ _) as [i|]; [|done]. cbn in Hs. destruct (cf_cfg d' !! i) as [cfg|]; [|done].
  unfold CF_ROBUST_CACHING. by rewrite Hs.
Qed.

(** The report map: handle 31. *)
Definition map_entry : attr_ptr * bt_gatt_attr reads writes * Z := default ((0%nat, 0%nat), hog_ccc, 0) (entries svcs !! 30%nat).

Lemma long_read_complete_witness :
  exists w', read_long (GattServer0 := server) example_conn 400 31 0 (example_world gatt_initial) = Some (report_map, w').
Proof.
  destruct (long_read_complete (GattServer0 := server) (GattServerOk0 := server_ok) example_conn 400 31 map_entry (example_world gatt_initial))
    as (w'&E&_).
  - apply example_idle.
  - lia.
  - exact initial_stays_aware.
  - reflexivity.
  - reflexivity.
  - reflexivity.
  - apply Nat.ltb_lt. reflexivity.
  - exists w'. exact E.
Defined.

Lemma discovery_by_type_witness :
  exists w', discover (GattServer0 := server) example_conn (type_request 0x2803 0xffff) parse_type (fun i => i.1 + 1) 40 1 (example_world gatt_initial) =
    Some (type_found (GattServer0 := server) (GattServerOk0 := server_ok) example_conn 0x2803 0xffff gatt_initial 1, w').
Proof.
  destruct (discovery_by_type (GattServer0 := server) (GattServerOk0 := server_ok) example_conn 0x2803 0xffff 40 (example_world gatt_initial))
    as (w'&E&_).
  - lia.
  - lia.
  - split; [apply example_idle|]. split; [reflexivity|]. repeat constructor; cbv; congruence.
  - apply Nat.ltb_lt. reflexivity.
  - exists w'. exact E.
Defined.

(** Two reports: the key "a" with left shift, and nothing. *)
Definition example_reports : list hids_report_keyboard := [mk_report 2 0 [4; 0; 0; 0; 0; 0]; zero_report].

Lemma example_reports_ok : Forall report_ok example_reports.
Proof.
  unfold example_reports. apply Forall_cons_2; [|apply Forall_cons_2; [|apply Forall_nil_2]]; (split; [reflexivity|]); unfold report_bytes, zero_report; cbn [modifier reserved keycode replicate];
  repeat (apply Forall_cons_2; [lia|]); apply Forall_nil_2.
Qed.

Lemma reports_reach_subscriber_witness :
  exists w1,
    transact (GattServer0 := server) example_conn [BT_ATT_OP_WRITE_REQ; 34; 0; 1; 0] (example_world gatt_initial) = (Some [BT_ATT_OP_WRITE_RSP], w1) /\
    outgoing (foldl (fun w r => set_report example_host r w) w1 example_reports) =
      outgoing w1 ++ [[0x1b; 33; 0; 2; 0; 4; 0; 0; 0; 0; 0]; [0x1b; 33; 0; 0; 0; 0; 0; 0; 0; 0; 0]].
Proof.
  refine (reports_reach_subscriber (C := list Z) example_host example_conn 0 0 0 1 example_reports (example_world gatt_initial) _ _ _ _ _ _ _ _ _).
  - exact example_client_ok.
  - reflexivity.
  - done.
  - lia.
  - apply example_idle.
  - done.
  - exact initial_no_client.
  - reflexivity.
  - exact example_reports_ok.
Defined.

(** The client has enabled reports, and is bonded. *)
Definition example_subscribed : gatt ram_nvs :=
  mk_gatt [mk_ccc [free_cfg] 0; mk_ccc [free_cfg] 0; mk_ccc [mk_cfg BT_ID_DEFAULT example_addr 1] 1]
    (replicate 2 (mk_sc_cfg 0 BT_ADDR_LE_ANY 0 0)) (replicate 2 (mk_cf_cfg 0 BT_ADDR_LE_ANY [0] false false))
    (replicate 16 0) false (replicate 16 0) (mk_gatt_sc 0 0 false false false) [bt_keys_add_type BT_KEYS_SLAVE_LTK (with_addr BT_ID_DEFAULT example_addr keys_zero)] 100
    (mk_hog zero_report 1 0 []) (Some empty_store).

Lemma example_subscribed_ok : subscribed example_conn 0 0 1 example_subscribed.
Proof. done. Qed.

Definition example_stored : gatt ram_nvs := (bt_gatt_store_ccc BT_ID_DEFAULT example_addr example_subscribed).2.


Lemma bonded_subscription_lost_witness :
  let w := example_world (bt_gatt_disconnected example_host example_conn example_subscribed) in
  exists w', bt_gatt_connected example_host (replicate 6 0) (example_conn, BT_CONN_CONNECTED) w = (None, w') /\
    outgoing (foldl (fun w r => set_report example_host r w) w' example_reports) = [].
Proof.
  destruct (bonded_subscription_lost example_host example_host (replicate 6 0) example_conn example_conn 0 0 1 example_subscribed
    (example_world (bt_gatt_disconnected example_host example_conn example_subscribed)) example_reports) as (w'&E1&_&E2).
  - exact example_client_ok.
  - reflexivity.
  - exact example_subscribed_ok.
  - reflexivity.
  - reflexivity.
  - done.
  - done.
  - reflexivity.
  - split; [apply example_idle|]. split; [done|]. done.
  - exact example_reports_ok.
  - exists w'. split; [exact E1|exact E2].
Defined.

Lemma gatt_state_well_formed_witness :
  gatt_ok (db (foldl (run_gatt (C := list Z)) (example_world gatt_initial)
    [ Ev_recv example_conn [BT_ATT_OP_WRITE_REQ; 34; 0; 1; 0]; Ev_sent; Ev_report example_host zero_report;
      Ev_disconnected example_host example_conn; Ev_recv example_conn [0xff; 1; 2; 3] ])).
Proof.
  apply gatt_state_well_formed.
  - repeat (apply Forall_cons_2; [try exact example_client_ok; try done|]); [..|apply Forall_nil_2].
    + split; [exact example_client_ok|]. repeat (apply Forall_cons_2; [cbv; split; congruence|]). apply Forall_nil_2.
    + exact (Forall_inv (Forall_inv_tail example_reports_ok)).
    + split; [exact example_client_ok|]. repeat (apply Forall_cons_2; [lia|]). apply Forall_nil_2.
  - exact (gatt_initial_ok ram_nvs).
Defined.
