(* ===== verification/Translator.v ===== *)
(** The PS/2 set-2 to HID translator ([src/ps2_hid_translator.c]).

    [translator] is the state the file's code reads and writes: the static
    [key_report] and, through [hog_set_keyboard_input], the HID service.
    [ps2_hid_translator_parse_next_scancode] takes codes from
    [ps2_connector_get_next_code], which blocks while the receive queue is
    empty.  The parser is therefore a computation over the codes still to come:
    it is done, or blocked on an empty input, or it made an out-of-range array
    read (undefined behaviour in C). *)
From Stdlib Require Import ZArith Lia.
From stdpp Require Import base numbers list gmap.
From S2P Require Import Prelude UsbHidKeys PcKeys Gatt Hog.
Open Scope Z_scope.

(** ** Data *)

Definition EXTENDED_CODE : Z := 0xe0.
Definition BREAK_CODE : Z := 0xf0.

Definition pause_break_code : list Z := [0xE1; 0x14; 0x77; 0xE1; 0xF0; 0x14; 0xf0; 0x77].
Definition sys_req_make : list Z := [0xE0; 0x12; 0xE0; 0x7C].
Definition sys_req_break : list Z := [0xE0; 0xF0; 0x7C; 0xE0; 0xF0; 0x12].

Record translator := mk_tr { key_report : hids_report_keyboard; tr_hog : hog }.

Definition tr_initial (h : hog) : translator := mk_tr zero_report h.

(** Assigns [key_report] and passes it to [hog_set_keyboard_input]. *)
Definition set_report (r : hids_report_keyboard) (t : translator) : translator :=
  mk_tr r (hog_set_keyboard_input r (tr_hog t)).

Definition with_modifier (m : Z) (r : hids_report_keyboard) : hids_report_keyboard :=
  mk_report m (reserved r) (keycode r).
Definition with_keycode (i : nat) (k : Z) (r : hids_report_keyboard) : hids_report_keyboard :=
  mk_report (modifier r) (reserved r) (<[i := k]> (keycode r)).

(** ** Report updates *)

(** [for (int i = 0; i < 6; ++i) if (keycode[i] == key) return i; return -1;] *)
Fixpoint pos_loop (fuel : nat) (i : Z) (key : Z) (kc : list Z) : Z :=
  match fuel with
  | O => -1
  | S fuel =>
      if i <? 6 then
        if bool_decide (kc !! Z.to_nat i = Some key) then i
        else pos_loop fuel (i + 1) key kc
      else -1
  end.

Definition pos_at_pressed_keys (key : Z) (r : hids_report_keyboard) : Z :=
  pos_loop 7 0 key (keycode r).

Definition press_mod_key (key : Z) (t : translator) : translator :=
  set_report (with_modifier (u8 (modifier (key_report t) .| key)) (key_report t)) t.

Definition release_mod_key (key : Z) (t : translator) : translator :=
  set_report (with_modifier (u8 (modifier (key_report t) .& Z.lnot key)) (key_report t)) t.

(** [for (int i = 5; i >= 0; --i)]: the free slot the loop stops at. *)
Fixpoint free_slot (fuel : nat) (i : Z) (kc : list Z) : option nat :=
  match fuel with
  | O => None
  | S fuel =>
      if 0 <=? i then
        if bool_decide (kc !! Z.to_nat i = Some 0) then Some (Z.to_nat i)
        else free_slot fuel (i - 1) kc
      else None
  end.

Definition press_key (key : Z) (t : translator) : translator :=
  if key =? KEY_UNKNOWN then t
  else if pos_at_pressed_keys key (key_report t) =? -1 then
    match free_slot 7 5 (keycode (key_report t)) with
    | Some i => set_report (with_keycode i key (key_report t)) t
    | None => set_report (with_keycode 5 key (key_report t)) t
    end
  else t.

Definition release_key (key : Z) (t : translator) : translator :=
  if key =? KEY_UNKNOWN then t
  else
    let pos := pos_at_pressed_keys key (key_report t) in
    if pos =? -1 then t
    else set_report (with_keycode (Z.to_nat pos) 0 (key_report t)) t.

(** [k_msleep(10)] between the two reports is an event of the output. *)
Definition msleep (ms : Z) (t : translator) : translator :=
  mk_tr (key_report t) (emit (Msleep ms) (tr_hog t)).

Definition press_pause_break (t : translator) : translator :=
  release_key KEY_PAUSE (msleep 10 (press_key KEY_PAUSE t)).

Definition ps2_extended_code_to_hid_key (code : Z) : Z :=
  match code with
  | 0x1F => KEY_LEFTMETA
  | 0x11 => KEY_RIGHTALT
  | 0x27 => KEY_RIGHTMETA
  | 0x2F => KEY_PROPS
  | 0x14 => KEY_RIGHTCTRL
  | 0x70 => KEY_INSERT
  | 0x6C => KEY_HOME
  | 0x7D => KEY_PAGEUP
  | 0x71 => KEY_DELETE
  | 0x69 => KEY_END
  | 0x7A => KEY_PAGEDOWN
  | 0x75 => KEY_UP
  | 0x6B => KEY_LEFT
  | 0x72 => KEY_DOWN
  | 0x74 => KEY_RIGHT
  | 0x4A => KEY_KPSLASH
  | 0x5A => KEY_ENTER
  | _ => KEY_UNKNOWN
  end.

(** ** The parser *)

(** The outcome of a run of the parser on the codes available. *)
Inductive outcome (A : Type) :=
  | Done (a : A) (t : translator) (rest : list Z)
  | Blocked (t : translator)
  | Undefined.
Arguments Done {A}.
Arguments Blocked {A}.
Arguments Undefined {A}.

Definition parser (A : Type) : Type := translator -> list Z -> outcome A.

Definition pret {A} (a : A) : parser A := fun t codes => Done a t codes.
Definition pbind {A B} (p : parser A) (f : A -> parser B) : parser B :=
  fun t codes =>
    match p t codes with
    | Done a t' rest => f a t' rest
    | Blocked t' => Blocked t'
    | Undefined => Undefined
    end.

Notation "x <- p ;; q" := (pbind p (fun x => q))
  (at level 100, p at next level, right associativity) : fw_scope.
Notation "'call' f" := (fun t codes => Done tt (f t) codes) (at level 99) : fw_scope.
Open Scope fw_scope.

(** [ps2_connector_get_next_code()] as its caller sees it. *)
Definition next_code : parser Z :=
  fun t codes => match codes with [] => Blocked t | c :: rest => Done c t rest end.

(** [ps2_scan_code_to_usb_hid_key[code]] *)
Definition table_key (code : Z) : parser Z :=
  match scan_code_key code with
  | Some k => pret k
  | None => fun _ _ => Undefined
  end.

(** [for (i = ...; i < sizeof(seq); ++i) { code = get_next_code();
    if (seq[i] != code) return; }]: whether the loop ran to its end. *)
Fixpoint expect (seq : list Z) : parser bool :=
  match seq with
  | [] => pret true
  | s :: seq => code <- next_code ;; if negb (s =? code) then pret false else expect seq
  end.

(** The four codes of modifier keys without a prefix. *)
Definition is_mod_code (code : Z) : bool :=
  (code =? 0x11) || (code =? 0x12) || (code =? 0x14) || (code =? 0x59).

(** [key == KEY_RIGHTALT || key == KEY_RIGHTCTRL || ...] *)
Definition is_ext_mod_key (key : Z) : bool :=
  (key =? KEY_RIGHTALT) || (key =? KEY_RIGHTCTRL) ||
  (key =? KEY_LEFTMETA) || (key =? KEY_RIGHTMETA).

(** The body of [case EXTENDED_CODE]. *)
Definition parse_extended : parser unit :=
  code <- next_code ;;
  if code =? BREAK_CODE then
    code <- next_code ;;
    if code =? nth 2 sys_req_break 0 then
      ok <- expect (drop 3 sys_req_break) ;;
      if (ok : bool) then call (release_key KEY_SYSRQ) else pret tt
    else
      let key := ps2_extended_code_to_hid_key code in
      if is_ext_mod_key key then call (release_mod_key key) else call (release_key key)
  else if code =? nth 1 sys_req_make 0 then
    ok <- expect (drop 2 sys_req_make) ;;
    if (ok : bool) then call (press_key KEY_SYSRQ) else pret tt
  else
    let key := ps2_extended_code_to_hid_key code in
    if is_ext_mod_key key then call (press_mod_key key) else call (press_key key).

(** The body of [case BREAK_CODE]. *)
Definition parse_break : parser unit :=
  code <- next_code ;;
  key <- table_key code ;;
  if is_mod_code code then call (release_mod_key key) else call (release_key key).

(** The body of [case 0xE1]. *)
Definition parse_pause : parser unit :=
  ok <- expect (drop 1 pause_break_code) ;;
  if (ok : bool) then call press_pause_break else pret tt.

Definition ps2_hid_translator_parse_next_scancode : parser unit :=
  code <- next_code ;;
  if is_mod_code code then key <- table_key code ;; call (press_mod_key key)
  else if code =? EXTENDED_CODE then parse_extended
  else if code =? BREAK_CODE then parse_break
  else if code =? 0xE1 then parse_pause
  else key <- table_key code ;; call (press_key key).

(** [ps2_keyboard_thread]: [while (1) { parse_next_scancode(); k_msleep(1); }]
    run until it blocks (its sleep is recorded as an event). *)
Fixpoint worker (fuel : nat) (t : translator) (codes : list Z) : outcome unit :=
  match fuel with
  | O => Done tt t codes
  | S fuel =>
      match ps2_hid_translator_parse_next_scancode t codes with
      | Done _ t' rest => worker fuel (msleep 1 t') rest
      | Blocked t' => Blocked t'
      | Undefined => Undefined
      end
  end.

(** ** Slot lemmas *)

(** The loop of [pos_at_pressed_keys] finds the key if it is in a slot from
    [i] on. *)
Lemma pos_loop_spec (fuel : nat) (i key : Z) (kc : list Z) :
  0 <= i <= 6 -> 6 - i < Z.of_nat fuel ->
  (pos_loop fuel i key kc = -1 /\ forall j, i <= Z.of_nat j < 6 -> kc !! j <> Some key) \/
  (exists p : nat, pos_loop fuel i key kc = Z.of_nat p /\ kc !! p = Some key).
Proof.
  revert i. induction fuel as [|fuel IH]; intros i Hi Hf; [lia|]. cbn [pos_loop].
  destruct (Z.ltb_spec i 6); [|left; split; [done|lia]].
  case_bool_decide as Hk.
  - right. exists (Z.to_nat i). split; [lia|done].
  - destruct (IH (i + 1)) as [[-> Hno]|Hp]; [lia|lia| |by right].
    left. split; [done|]. intros j Hj.
    destruct (decide (Z.of_nat j = i)) as [<-|Hne]; [by rewrite Nat2Z.id in Hk|].
    apply Hno. lia.
Qed.

Lemma pos_at_spec (key : Z) (r : hids_report_keyboard) :
  length (keycode r) = 6%nat ->
  (pos_at_pressed_keys key r = -1 /\ key ∉ keycode r) \/
  (exists p : nat, pos_at_pressed_keys key r = Z.of_nat p /\ keycode r !! p = Some key).
Proof.
  intros Hl. unfold pos_at_pressed_keys.
  destruct (pos_loop_spec 7 0 key (keycode r)) as [[-> Hno]|?]; [lia|lia| |by right].
  left. split; [done|]. intros [j Hj]%list_elem_of_lookup.
  apply (Hno j); [|done]. apply lookup_lt_Some in Hj. lia.
Qed.

Lemma free_slot_spec (fuel : nat) (i : Z) (kc : list Z) :
  -1 <= i -> i + 1 < Z.of_nat fuel ->
  match free_slot fuel i kc with
  | Some p => kc !! p = Some 0
  | None => forall j, Z.of_nat j <= i -> kc !! j <> Some 0
  end.
Proof.
  revert i. induction fuel as [|fuel IH]; intros i Hi Hf; [lia|]. cbn [free_slot].
  destruct (Z.leb_spec 0 i); [|intros; lia].
  case_bool_decide as Hk; [done|].
  specialize (IH (i - 1)). destruct (free_slot fuel (i - 1) kc); [by apply IH; lia|].
  intros j Hj. destruct (decide (Z.of_nat j = i)) as [<-|Hne]; [by rewrite Nat2Z.id in Hk|].
  apply IH; lia.
Qed.

(** ** The report invariant and its abstraction *)

(** No key is in two slots. *)
Definition slots_distinct (kc : list Z) : Prop :=
  forall i j k, k <> 0 -> kc !! i = Some k -> kc !! j = Some k -> i = j.

Record keys_ok (r : hids_report_keyboard) : Prop := {
  ko_length : length (keycode r) = 6%nat;
  ko_distinct : slots_distinct (keycode r);
  ko_usage : Forall (fun k => 0 <= k <= key_usage_maximum) (keycode r);
  ko_modifier : 0 <= modifier r < 256;
  ko_reserved : reserved r = 0 }.

(** The set of keys a host reads off a report. *)
Definition pressed (r : hids_report_keyboard) : gset Z := list_to_set (keycode r) ∖ {[0]}.

Lemma elem_of_pressed k r : k ∈ pressed r <-> k <> 0 /\ exists i, keycode r !! i = Some k.
Proof.
  unfold pressed.
  rewrite elem_of_difference, elem_of_list_to_set, list_elem_of_lookup, elem_of_singleton.
  tauto.
Qed.

(** Writing a slot: the key it held goes, the new one comes. *)
Lemma pressed_with_keycode (r : hids_report_keyboard) (i : nat) (old k : Z) :
  slots_distinct (keycode r) -> keycode r !! i = Some old ->
  pressed (with_keycode i k r) = (pressed r ∖ {[old]}) ∪ ({[k]} ∖ {[0]}).
Proof.
  intros Hd Hi. apply set_eq. intros x.
  rewrite elem_of_union, !elem_of_difference, !elem_of_singleton, !elem_of_pressed. cbn.
  pose proof (lookup_lt_Some _ _ _ Hi) as Hlt. split.
  - intros [Hx [j Hj]]. destruct (decide (i = j)) as [<-|Hne].
    + rewrite list_lookup_insert_eq in Hj by done. injection Hj as ->. by right.
    + rewrite list_lookup_insert_ne in Hj by done. left. split; [eauto|].
      intros ->. by eapply Hne, Hd.
  - intros [[[Hx [j Hj]] Ho]|[-> Hx]]; (split; [done|]).
    + exists j. rewrite list_lookup_insert_ne; [done|]. intros <-. congruence.
    + exists i. by rewrite list_lookup_insert_eq.
Qed.

Lemma keys_ok_with_keycode r i k :
  keys_ok r -> 0 <= k <= key_usage_maximum -> (k <> 0 -> k ∉ keycode r) ->
  keys_ok (with_keycode i k r).
Proof.
  intros [Hl Hd Hu Hm Hr] Hk Hnew. split; cbn; [by rewrite length_insert| | |done|done].
  - intros a b x Hx Ha Hb.
    apply list_lookup_insert_Some in Ha. apply list_lookup_insert_Some in Hb.
    destruct Ha as [(?&?&_)|[? Ha]], Hb as [(?&?&_)|[? Hb]]; subst;
      [done | | | by eapply Hd];
      (destruct (Hnew Hx); by eapply list_elem_of_lookup_2).
  - by apply Forall_insert.
Qed.

Lemma keys_ok_with_modifier r m :
  keys_ok r -> 0 <= m < 256 -> keys_ok (with_modifier m r).
Proof. intros [] Hm. by split. Qed.

(** With fewer than six keys down some slot is free. *)
Lemma free_slot_exists r :
  keys_ok r -> (size (pressed r) < 6)%nat -> exists i, free_slot 7 5 (keycode r) = Some i.
Proof.
  intros Hok Hsz. pose proof (free_slot_spec 7 5 (keycode r)) as H.
  destruct (free_slot 7 5 (keycode r)) as [i|]; [eauto|].
  exfalso. specialize (H ltac:(lia) ltac:(lia)).
  assert (Hnz : forall j x, keycode r !! j = Some x -> x <> 0).
  { intros j x Hj ->. apply (H j); [|done].
    apply lookup_lt_Some in Hj. rewrite (ko_length _ Hok) in Hj. lia. }
  assert (Hnd : NoDup (keycode r)).
  { apply NoDup_alt. intros a b x Ha Hb. eapply (ko_distinct _ Hok); eauto. }
  assert (Hsame : pressed r = list_to_set (keycode r)).
  { apply set_eq. intros x. rewrite elem_of_pressed, elem_of_list_to_set, list_elem_of_lookup.
    split; [intros [_ ?]; done|]. intros [j Hj]. split; eauto. }
  rewrite Hsame, size_list_to_set, (ko_length _ Hok) in Hsz by done. lia.
Qed.

(** ** The abstract keyboard

    What a keyboard is to its host: the modifier bits and the set of keys
    down. *)
Record keyboard := mk_kbd { kb_mods : Z; kb_held : gset Z }.

Inductive key_event :=
  | KeyDown (k : Z) | KeyUp (k : Z) | KeyTap (k : Z)
  | ModDown (m : Z) | ModUp (m : Z).

Definition kbd_step (e : key_event) (kb : keyboard) : keyboard :=
  match e with
  | KeyDown k => mk_kbd (kb_mods kb) (kb_held kb ∪ ({[k]} ∖ {[KEY_UNKNOWN]}))
  | KeyUp k | KeyTap k => mk_kbd (kb_mods kb) (kb_held kb ∖ {[k]})
  | ModDown m => mk_kbd (kb_mods kb .| m) (kb_held kb)
  | ModUp m => mk_kbd (Z.ldiff (kb_mods kb) m) (kb_held kb)
  end.

(** The report has a slot for the key the event presses. *)
Definition kbd_fits (e : key_event) (kb : keyboard) : bool :=
  match e with
  | KeyDown k | KeyTap k => bool_decide (k ∈ kb_held kb) || (size (kb_held kb) <? 6)%nat
  | _ => true
  end.

Definition event_ok (e : key_event) : Prop :=
  match e with
  | KeyDown k | KeyUp k | KeyTap k => 0 <= k <= key_usage_maximum
  | ModDown m | ModUp m => 0 <= m < 256
  end.

Definition abs (t : translator) : keyboard :=
  mk_kbd (modifier (key_report t)) (pressed (key_report t)).

(** What the translator does for an event. *)
Definition exec_event (e : key_event) (t : translator) : translator :=
  match e with
  | KeyDown k => press_key k t
  | KeyUp k => release_key k t
  | KeyTap k => release_key k (msleep 10 (press_key k t))
  | ModDown m => press_mod_key m t
  | ModUp m => release_mod_key m t
  end.

Lemma press_key_ok k t :
  keys_ok (key_report t) -> 0 <= k <= key_usage_maximum ->
  keys_ok (key_report (press_key k t)).
Proof.
  intros Hok Hk. unfold press_key, KEY_UNKNOWN. destruct (Z.eqb_spec k 0); [done|].
  destruct (pos_at_spec k (key_report t)) as [[-> Hno]|(p&->&Hp)]; [apply Hok| |].
  - destruct (free_slot 7 5 _); cbn; by apply keys_ok_with_keycode.
  - by destruct (Z.eqb_spec (Z.of_nat p) (-1)); [lia|].
Qed.

Lemma release_key_ok k t :
  keys_ok (key_report t) -> keys_ok (key_report (release_key k t)).
Proof.
  intros Hok. unfold release_key. destruct (k =? KEY_UNKNOWN); [done|].
  destruct (_ =? -1); [done|]. apply keys_ok_with_keycode; [done| |done].
  vm_compute; split; discriminate.
Qed.

Lemma press_mod_key_ok m t :
  keys_ok (key_report t) -> keys_ok (key_report (press_mod_key m t)).
Proof. intros Hok. apply keys_ok_with_modifier; [done|apply u8_range]. Qed.

Lemma release_mod_key_ok m t :
  keys_ok (key_report t) -> keys_ok (key_report (release_mod_key m t)).
Proof. intros Hok. apply keys_ok_with_modifier; [done|apply u8_range]. Qed.

Lemma msleep_report ms t : key_report (msleep ms t) = key_report t.
Proof. done. Qed.

#[export] Hint Resolve press_key_ok release_key_ok press_mod_key_ok release_mod_key_ok : fw.

Lemma exec_event_ok e t :
  keys_ok (key_report t) -> event_ok e -> keys_ok (key_report (exec_event e t)).
Proof.
  destruct e; cbn [exec_event event_ok]; intros; auto with fw.
  apply release_key_ok. rewrite msleep_report. auto with fw.
Qed.

Lemma press_key_pressed k t :
  keys_ok (key_report t) -> kbd_fits (KeyDown k) (abs t) = true ->
  pressed (key_report (press_key k t)) =
  pressed (key_report t) ∪ ({[k]} ∖ {[KEY_UNKNOWN]}).
Proof.
  intros Hok Hfit. unfold press_key, KEY_UNKNOWN. destruct (Z.eqb_spec k 0) as [->|Hk].
  { rewrite difference_diag_L, union_empty_r_L. done. }
  destruct (pos_at_spec k (key_report t)) as [[-> Hno]|(p&->&Hp)]; [apply Hok| |].
  - assert (Hsz : (size (pressed (key_report t)) < 6)%nat).
    { cbn in Hfit. apply orb_prop in Hfit as [Hin|?]; [|by apply Nat.ltb_lt].
      apply bool_decide_eq_true, elem_of_pressed in Hin as [_ [i Hi]].
      destruct Hno. by eapply list_elem_of_lookup_2. }
    destruct (free_slot_exists _ Hok Hsz) as [i Hi]. rewrite Hi.
    pose proof (free_slot_spec 7 5 (keycode (key_report t)) ltac:(lia) ltac:(lia)) as H0.
    rewrite Hi in H0. change (-1 =? -1) with true. cbn [key_report set_report].
    rewrite (pressed_with_keycode _ _ 0) by (done || apply Hok).
    unfold pressed. set_solver.
  - destruct (Z.eqb_spec (Z.of_nat p) (-1)); [lia|].
    assert (k ∈ pressed (key_report t)) by (apply elem_of_pressed; eauto). set_solver.
Qed.

Lemma release_key_pressed k t :
  keys_ok (key_report t) ->
  pressed (key_report (release_key k t)) = pressed (key_report t) ∖ {[k]}.
Proof.
  intros Hok. unfold release_key, KEY_UNKNOWN. destruct (Z.eqb_spec k 0) as [->|Hk].
  { unfold pressed. set_solver. }
  destruct (pos_at_spec k (key_report t)) as [[-> Hno]|(p&->&Hp)]; [apply Hok| |].
  - cbn. unfold pressed. set_solver.
  - destruct (Z.eqb_spec (Z.of_nat p) (-1)); [lia|].
    rewrite Nat2Z.id. cbn [key_report set_report].
    rewrite (pressed_with_keycode _ _ k) by (done || apply Hok). set_solver.
Qed.

Lemma press_key_modifier k t : modifier (key_report (press_key k t)) = modifier (key_report t).
Proof.
  unfold press_key. destruct (k =? KEY_UNKNOWN); [done|].
  destruct (_ =? -1); [|done]. by destruct (free_slot _ _ _).
Qed.

Lemma release_key_modifier k t : modifier (key_report (release_key k t)) = modifier (key_report t).
Proof. unfold release_key. destruct (k =? KEY_UNKNOWN); [done|]. by destruct (_ =? -1). Qed.

(** One event: the concrete update implements the abstract one. *)
Lemma exec_event_refines e t :
  keys_ok (key_report t) -> event_ok e -> kbd_fits e (abs t) = true ->
  abs (exec_event e t) = kbd_step e (abs t).
Proof.
  intros Hok He Hfit. unfold abs. destruct e; cbn [exec_event kbd_step event_ok kb_mods kb_held] in *.
  - by rewrite press_key_modifier, press_key_pressed.
  - by rewrite release_key_modifier, release_key_pressed.
  - rewrite release_key_modifier, release_key_pressed by (apply press_key_ok; done).
    rewrite msleep_report, press_key_modifier, press_key_pressed by done.
    f_equal. set_solver.
  - cbn. f_equal. rewrite u8_lor, !u8_small; [done|done|apply Hok].
  - cbn. f_equal. apply u8_ldiff, Hok.
Qed.

(** ** Scan code sequences

    The set-2 sequences the translator knows: a code with no prefix, after
    [0xF0] (break), after [0xE0] and [0xE0 0xF0] (extended), Print Screen and
    Pause. *)
Inductive key_action :=
  | Make (c : Z) | Break (c : Z) | ExtMake (c : Z) | ExtBreak (c : Z)
  | SysReqMake | SysReqBreak | PauseBreak.

Definition codes_of (a : key_action) : list Z :=
  match a with
  | Make c => [c]
  | Break c => [BREAK_CODE; c]
  | ExtMake c => [EXTENDED_CODE; c]
  | ExtBreak c => [EXTENDED_CODE; BREAK_CODE; c]
  | SysReqMake => sys_req_make
  | SysReqBreak => sys_req_break
  | PauseBreak => pause_break_code
  end.

(** The codes that may follow each prefix without being one themselves;
    [0xFF] (key detection error) is not a key. *)
Definition action_ok (a : key_action) : bool :=
  match a with
  | Make c => (0 <=? c) && (c <? 0xff) &&
      negb ((c =? EXTENDED_CODE) || (c =? BREAK_CODE) || (c =? 0xE1))
  | Break c => (0 <=? c) && (c <? 0xff)
  | ExtMake c => negb ((c =? BREAK_CODE) || (c =? 0x12))
  | ExtBreak c => negb (c =? 0x7C)
  | _ => true
  end.

(** The update the translator's tables choose for an action: what the code does,
    not what the key means. *)
Definition translated (a : key_action) : key_event :=
  match a with
  | Make c =>
      let k := default KEY_UNKNOWN (scan_code_key c) in
      if is_mod_code c then ModDown k else KeyDown k
  | Break c =>
      let k := default KEY_UNKNOWN (scan_code_key c) in
      if is_mod_code c then ModUp k else KeyUp k
  | ExtMake c =>
      let k := ps2_extended_code_to_hid_key c in
      if is_ext_mod_key k then ModDown k else KeyDown k
  | ExtBreak c =>
      let k := ps2_extended_code_to_hid_key c in
      if is_ext_mod_key k then ModUp k else KeyUp k
  | SysReqMake => KeyDown KEY_SYSRQ
  | SysReqBreak => KeyUp KEY_SYSRQ
  | PauseBreak => KeyTap KEY_PAUSE
  end.

Lemma scan_code_key_total c :
  0 <= c < 0xff -> exists k, scan_code_key c = Some k /\ 0 <= k <= 0x63.
Proof.
  intros Hc.
  by_enumeration 0xff (fun c => match scan_code_key c with
                                | Some k => (0 <=? k) && (k <=? 0x63) | None => false end).
  destruct (scan_code_key c) as [k|]; [|done].
  exists k. split; [done|]. lia.
Qed.

(** The values of the extended-code switch. *)
Lemma extended_key_cases c :
  (is_ext_mod_key (ps2_extended_code_to_hid_key c) = true /\
   0 <= ps2_extended_code_to_hid_key c < 256) \/
  (0 <= ps2_extended_code_to_hid_key c <= key_usage_maximum).
Proof.
  destruct (decide (0 <= c < 256)) as [Hc|Hc].
  - by_enumeration 256 (fun c => let k := ps2_extended_code_to_hid_key c in
      is_ext_mod_key k && (0 <=? k) && (k <? 256) || (0 <=? k) && (k <=? key_usage_maximum)).
    destruct (is_ext_mod_key _); [destruct (decide (ps2_extended_code_to_hid_key c < 256)); [left|right]|right]; lia.
  - right. assert (ps2_extended_code_to_hid_key c = 0) as ->; [|vm_compute; split; discriminate].
    destruct c as [|p|p]; [lia| |done].
    do 8 (destruct p as [p|p|]; try lia; try reflexivity).
Qed.

Lemma translated_ok a : action_ok a = true -> event_ok (translated a).
Proof.
  pose proof (eq_refl : key_usage_maximum = 167) as Hmax.
  destruct a as [c|c|c|c| | |]; cbn [action_ok translated]; intros H;
    try (cbn [event_ok]; unfold KEY_SYSRQ, KEY_PAUSE; lia).
  - destruct (scan_code_key_total c) as (k&->&Hk); [lia|]. destruct (is_mod_code c); cbn -[key_usage_maximum]; lia.
  - destruct (scan_code_key_total c) as (k&->&Hk); [lia|]. destruct (is_mod_code c); cbn -[key_usage_maximum]; lia.
  - destruct (extended_key_cases c) as [[-> Hk]|Hk]; [done|].
    destruct (is_ext_mod_key _); cbn [event_ok]; lia.
  - destruct (extended_key_cases c) as [[-> Hk]|Hk]; [done|].
    destruct (is_ext_mod_key _); cbn [event_ok]; lia.
Qed.

(** The parser reads exactly the codes of one action and performs its event. *)
Lemma parse_action a t rest :
  action_ok a = true ->
  ps2_hid_translator_parse_next_scancode t (codes_of a ++ rest) =
  Done tt (exec_event (translated a) t) rest.
Proof.
  destruct a as [c|c|c|c| | |]; cbn [action_ok codes_of translated app]; intros H; try reflexivity;
    unfold ps2_hid_translator_parse_next_scancode, pbind, next_code.
  - destruct (scan_code_key_total c) as (k&Hk&_); [lia|].
    unfold table_key. rewrite Hk; cbn [default].
    destruct (is_mod_code c); [done|]. unfold EXTENDED_CODE, BREAK_CODE in *.
    destruct (Z.eqb_spec c 0xe0), (Z.eqb_spec c 0xf0), (Z.eqb_spec c 0xE1); by try lia.
  - change (is_mod_code BREAK_CODE) with false. cbn -[scan_code_key is_mod_code].
    unfold parse_break, pbind, next_code, table_key.
    destruct (scan_code_key_total c) as (k&->&_); [lia|]. cbn [default pret].
    by destruct (is_mod_code c).
  - change (is_mod_code EXTENDED_CODE) with false. cbn -[parse_extended].
    unfold parse_extended, pbind, next_code. cbn [nth sys_req_make sys_req_break].
    destruct (Z.eqb_spec c BREAK_CODE); [lia|]. destruct (Z.eqb_spec c 0x12); [lia|].
    by destruct (is_ext_mod_key _).
  - change (is_mod_code EXTENDED_CODE) with false. cbn -[parse_extended].
    unfold parse_extended, pbind, next_code. cbn [nth sys_req_make sys_req_break].
    change (BREAK_CODE =? BREAK_CODE) with true. cbv iota beta.
    destruct (Z.eqb_spec c 0x7C); [lia|]. by destruct (is_ext_mod_key _).
Qed.

(** ** What strokes mean

    The specification: a stroke's effect on the keyboard as the host should see
    it, from the key's HID usage or modifier bit ([PcKeys]). *)
Definition meaning (s : stroke) : list key_event :=
  match hid_of (stroke_key s), set2_of (stroke_key s), s with
  | Usage u, PauseCodes, Press _ => [KeyTap u]
  | Usage _, PauseCodes, Release _ => []
  | Usage u, _, Press _ => [KeyDown u]
  | Usage u, _, Release _ => [KeyUp u]
  | ModifierBit b, _, Press _ => [ModDown (1 .<< b)]
  | ModifierBit b, _, Release _ => [ModUp (1 .<< b)]
  end.

(** The six keys the program does not report as the standards have them: keypad
    Enter is sent as Enter and Application as Menu, and the four modifiers with an
    extended code set the bits of their usage code. *)
Definition off_standard (k : pc_key) : bool :=
  match k with
  | Pc_KpEnter | Pc_Application | Pc_LeftMeta | Pc_RightCtrl | Pc_RightAlt | Pc_RightMeta => true
  | _ => false
  end.

Definition standard_stroke (s : stroke) : bool := negb (off_standard (stroke_key s)).

(** The actions the codes of a stroke are for the parser. *)
Definition actions_of (s : stroke) : list key_action :=
  match set2_of (stroke_key s), s with
  | Plain c, Press _ => [Make c]
  | Plain c, Release _ => [Break c]
  | Extended c, Press _ => [ExtMake c]
  | Extended c, Release _ => [ExtBreak c]
  | PrintScreenCodes, Press _ => [SysReqMake]
  | PrintScreenCodes, Release _ => [SysReqBreak]
  | PauseCodes, Press _ => [PauseBreak]
  | PauseCodes, Release _ => []
  end.

Lemma actions_of_codes s : actions_of s ≫= codes_of = stroke_codes s.
Proof. by destruct s as [k|k]; destruct k. Qed.

Lemma actions_of_ok s : forallb action_ok (actions_of s) = true.
Proof. by destruct s as [k|k]; destruct k. Qed.

(** The tables are right for exactly the other 98 keys. *)
Lemma translated_standard s :
  translated <$> actions_of s = meaning s <-> standard_stroke s = true.
Proof. split; destruct s as [k|k]; destruct k; vm_compute; done. Qed.

Lemma stroke_actions strokes :
  forallb standard_stroke strokes = true ->
  (strokes ≫= actions_of) ≫= codes_of = strokes ≫= stroke_codes /\
  forallb action_ok (strokes ≫= actions_of) = true /\
  translated <$> (strokes ≫= actions_of) = strokes ≫= meaning.
Proof.
  induction strokes as [|s strokes IH]; intros H; [done|]. cbn [forallb] in H.
  apply andb_prop in H as [Hs H]. destruct (IH H) as (E1&E2&E3).
  cbn [mbind list_bind]. rewrite bind_app, fmap_app, forallb_app, E1, E2, E3.
  by rewrite actions_of_codes, actions_of_ok, (proj2 (translated_standard s) Hs).
Qed.

(** ** The host's view *)

(** The data of the last notification among the events. *)
Fixpoint last_notified (es : list event) : option (list Z) :=
  match es with
  | [] => None
  | e :: es =>
      match last_notified es with
      | Some d => Some d
      | None => match e with Notify _ d => Some d | Msleep _ => None end
      end
  end.

Lemma last_notified_app es es' :
  last_notified (es ++ es') =
  match last_notified es' with Some d => Some d | None => last_notified es end.
Proof.
  induction es as [|e es IH]; cbn; [by destruct (last_notified es')|].
  rewrite IH. by destruct (last_notified es').
Qed.

(** The host is subscribed and the last report it got, the value a read
    returns and the translator's own report are the same. *)
Definition host_in_sync (t : translator) : Prop :=
  nz (simulate_input (tr_hog t)) = true /\
  input_keyboard (tr_hog t) = key_report t /\
  last_notified (events (tr_hog t)) = Some (report_bytes (key_report t)).

Lemma set_report_sync r t :
  nz (simulate_input (tr_hog t)) = true -> host_in_sync (set_report r t).
Proof.
  intros Hs. unfold host_in_sync, set_report. cbn [tr_hog key_report].
  autorewrite with fw_rw. rewrite Hs. repeat split. by rewrite last_notified_app.
Qed.

Lemma msleep_sync ms t : host_in_sync t -> host_in_sync (msleep ms t).
Proof.
  intros (Hs & Hi & Hl). repeat split; [done..|]. cbn. by rewrite last_notified_app.
Qed.

#[export] Hint Resolve set_report_sync msleep_sync : fw.

Lemma press_key_sync k t : host_in_sync t -> host_in_sync (press_key k t).
Proof.
  intros H. pose proof (proj1 H). unfold press_key. destruct (k =? KEY_UNKNOWN); [done|].
  destruct (_ =? -1); [|done]. destruct (free_slot _ _ _); auto with fw.
Qed.

Lemma release_key_sync k t : host_in_sync t -> host_in_sync (release_key k t).
Proof.
  intros H. pose proof (proj1 H). unfold release_key.
  destruct (k =? KEY_UNKNOWN); [done|]. destruct (_ =? -1); auto with fw.
Qed.

#[export] Hint Resolve press_key_sync release_key_sync : fw.

Lemma exec_event_sync e t : host_in_sync t -> host_in_sync (exec_event e t).
Proof.
  intros H. pose proof (proj1 H).
  destruct e; cbn [exec_event]; unfold press_mod_key, release_mod_key; auto with fw.
Qed.

(** ** Runs of the worker thread *)

Definition kbd_run (es : list key_event) (kb : keyboard) : keyboard :=
  foldl (fun kb e => kbd_step e kb) kb es.

Fixpoint kbd_run_fits (es : list key_event) (kb : keyboard) : bool :=
  match es with
  | [] => true
  | e :: es => kbd_fits e kb && kbd_run_fits es (kbd_step e kb)
  end.

(** What the worker thread has done after the actions [acts]. *)
Definition run_actions (acts : list key_action) (t : translator) : translator :=
  foldl (fun t a => msleep 1 (exec_event (translated a) t)) t acts.

Lemma worker_actions acts t rest :
  forallb action_ok acts = true ->
  worker (length acts) t ((acts ≫= codes_of) ++ rest) = Done tt (run_actions acts t) rest.
Proof.
  revert t. induction acts as [|a acts IH]; intros t Hok; [done|].
  cbn [forallb] in Hok. apply andb_prop in Hok as [Ha Hacts].
  cbn [length worker run_actions foldl mbind list_bind]. rewrite <- (assoc_L app).
  rewrite parse_action by done. apply (IH _ Hacts).
Qed.

Lemma run_actions_refines acts t :
  keys_ok (key_report t) -> forallb action_ok acts = true ->
  kbd_run_fits (translated <$> acts) (abs t) = true ->
  keys_ok (key_report (run_actions acts t)) /\
  abs (run_actions acts t) = kbd_run (translated <$> acts) (abs t).
Proof.
  revert t. induction acts as [|a acts IH]; intros t Hok Hacts Hfit; [done|].
  cbn [forallb fmap list_fmap kbd_run_fits] in *. apply andb_prop in Hacts as [Ha Hacts].
  apply andb_prop in Hfit as [Hf Hfit]. pose proof (translated_ok a Ha) as He.
  unfold run_actions, kbd_run; cbn [foldl].
  rewrite <- (exec_event_refines _ _ Hok He Hf) in *.
  apply (IH (msleep 1 _)); [|done|done].
  rewrite msleep_report. by apply exec_event_ok.
Qed.

Lemma run_actions_sync acts t : host_in_sync t -> host_in_sync (run_actions acts t).
Proof.
  revert t. induction acts as [|a acts IH]; intros t H; [done|].
  apply IH, msleep_sync, exec_event_sync, H.
Qed.

(** ** Arbitrary input *)

(** The matching loop changes nothing but the input. *)
Lemma expect_spec seq t codes :
  match expect seq t codes with
  | Done _ t' rest => t' = t /\ exists used, codes = used ++ rest /\ (length used <= length seq)%nat
  | Blocked t' => t' = t
  | Undefined => False
  end.
Proof.
  revert codes. induction seq as [|s seq IH]; intros codes; cbn.
  { split; [done|]. by exists []. }
  unfold pbind, next_code. destruct codes as [|c codes]; [done|].
  destruct (s =? c); cbn; [|split; [done|]; exists [c]; cbn; split; [done|lia]].
  specialize (IH codes). destruct (expect seq t codes); [|done|done].
  destruct IH as [-> (used&->&Hu)]. split; [done|]. exists (c :: used). cbn. split; [done|lia].
Qed.

(** An outcome that consumed some of [codes] and kept the invariant, or that is
    waiting for more input with the state unchanged. *)
Definition good_outcome (t : translator) (codes : list Z) (n : nat) (o : outcome unit) : Prop :=
  match o with
  | Done _ t' rest =>
      keys_ok (key_report t') /\
      exists used, codes = used ++ rest /\ (length used <= n)%nat
  | Blocked t' => t' = t
  | Undefined => False
  end.

Lemma good_call f t codes n :
  keys_ok (key_report (f t)) -> good_outcome t codes n (Done tt (f t) codes).
Proof. intros H. split; [done|]. exists []. split; [done|cbn; lia]. Qed.

Lemma good_expect seq f t codes n :
  (length seq <= n)%nat -> keys_ok (key_report t) -> keys_ok (key_report (f t)) ->
  good_outcome t codes n
    (pbind (expect seq) (fun ok : bool => if ok then call f else pret tt) t codes).
Proof.
  intros Hn Hok Hf. unfold pbind. pose proof (expect_spec seq t codes) as H.
  destruct (expect seq t codes) as [b t' rest| |]; [|done|done].
  destruct H as [-> (used&->&Hu)].
  destruct b; (split; [done|]); exists used; (split; [done|lia]).
Qed.

Lemma good_next t codes n (k : Z -> parser unit) :
  (forall c rest, codes = c :: rest -> good_outcome t rest n (k c t rest)) ->
  good_outcome t codes (S n) (pbind next_code k t codes).
Proof.
  intros H. unfold pbind, next_code. destruct codes as [|c codes]; [done|].
  specialize (H c codes eq_refl). destruct (k c t codes); [|done|done].
  destruct H as [H (used&->&Hu)]. split; [done|]. exists (c :: used). cbn. split; [done|lia].
Qed.

Lemma good_table c t codes n (k : Z -> parser unit) :
  0 <= c < 0xff ->
  (forall key, scan_code_key c = Some key -> 0 <= key <= key_usage_maximum ->
     good_outcome t codes n (k key t codes)) ->
  good_outcome t codes n (pbind (table_key c) k t codes).
Proof.
  intros Hc H. unfold pbind, table_key. destruct (scan_code_key_total c Hc) as (key&Hk&Hr).
  rewrite Hk. apply H; [done|]. change key_usage_maximum with 167. lia.
Qed.

#[export] Hint Extern 2 (_ <= _ <= key_usage_maximum) =>
  (vm_compute; split; discriminate) : fw.
#[export] Hint Resolve good_call good_expect : fw.

Lemma parse_extended_good t codes :
  keys_ok (key_report t) -> good_outcome t codes 5 (parse_extended t codes).
Proof.
  intros Hok. unfold parse_extended. apply good_next. intros c rest _.
  destruct (c =? BREAK_CODE).
  - apply good_next. intros c' rest' _. destruct (c' =? _).
    + apply good_expect; auto with fw.
    + destruct (is_ext_mod_key _); apply good_call; auto with fw.
  - destruct (c =? _); [apply good_expect; auto with fw|].
    destruct (is_ext_mod_key _) eqn:E; apply good_call; auto with fw.
    destruct (extended_key_cases c) as [[? _]|?]; [congruence|auto with fw].
Qed.

Lemma good_weaken t codes n m o :
  (n <= m)%nat -> good_outcome t codes n o -> good_outcome t codes m o.
Proof.
  destruct o; cbn; [|done|done]. intros Hn (Hk&used&->&Hu). split; [done|].
  exists used. split; [done|lia].
Qed.

Lemma parse_good t codes :
  keys_ok (key_report t) -> Forall (fun c => 0 <= c < 0xff) codes ->
  good_outcome t codes 8 (ps2_hid_translator_parse_next_scancode t codes).
Proof.
  intros Hok Hc. unfold ps2_hid_translator_parse_next_scancode.
  apply good_next. intros c rest ->. apply Forall_cons in Hc as [Hc Hrest].
  destruct (is_mod_code c); [apply good_table; auto with fw|].
  destruct (c =? EXTENDED_CODE).
  { apply (good_weaken _ _ 5); [lia|by apply parse_extended_good]. }
  destruct (c =? BREAK_CODE).
  { apply good_next. intros c' rest' ->. apply Forall_cons in Hrest as [Hc' _].
    apply good_table; [done|]. intros key _ _. destruct (is_mod_code c'); auto with fw. }
  destruct (c =? 0xE1).
  { apply good_expect; [cbn; lia|done|]. unfold press_pause_break.
    apply release_key_ok. rewrite msleep_report. auto with fw. }
  apply good_table; auto with fw.
Qed.

(** A new key goes to the slot the downward scan finds. *)
Lemma press_key_new k t :
  keys_ok (key_report t) -> 0 < k -> k ∉ keycode (key_report t) ->
  (size (pressed (key_report t)) < 6)%nat ->
  exists i, keycode (key_report t) !! i = Some 0 /\
    key_report (press_key k t) = with_keycode i k (key_report t).
Proof.
  intros Hok Hk Hno Hsz. destruct (free_slot_exists _ Hok Hsz) as [i Hi]. exists i.
  pose proof (free_slot_spec 7 5 (keycode (key_report t)) ltac:(lia) ltac:(lia)) as H0.
  rewrite Hi in H0. split; [done|].
  unfold press_key, KEY_UNKNOWN. destruct (Z.eqb_spec k 0); [lia|].
  destruct (pos_at_spec k (key_report t)) as [[-> _]|(p&_&Hp)]; [apply Hok|by rewrite Hi|].
  destruct Hno. by eapply list_elem_of_lookup_2.
Qed.

(** Releasing a key empties the one slot that holds it. *)
Lemma release_key_held k t i :
  keys_ok (key_report t) -> 0 < k -> keycode (key_report t) !! i = Some k ->
  key_report (release_key k t) = with_keycode i 0 (key_report t).
Proof.
  intros Hok Hk Hi. unfold release_key, KEY_UNKNOWN. destruct (Z.eqb_spec k 0); [lia|].
  destruct (pos_at_spec k (key_report t)) as [[_ Hn]|(p&->&Hp)]; [apply Hok| |].
  - destruct Hn. by eapply list_elem_of_lookup_2.
  - destruct (Z.eqb_spec (Z.of_nat p) (-1)); [lia|]. rewrite Nat2Z.id.
    assert (p = i) as -> by (eapply (ko_distinct _ Hok); [|done..]; lia). done.
Qed.

(** With every slot taken a new key overwrites slot 5. *)
Lemma press_key_full k t :
  keys_ok (key_report t) -> 0 < k -> 0 ∉ keycode (key_report t) -> k ∉ keycode (key_report t) ->
  key_report (press_key k t) = with_keycode 5 k (key_report t).
Proof.
  intros Hok Hk Hfull Hno. unfold press_key, KEY_UNKNOWN. destruct (Z.eqb_spec k 0); [lia|].
  destruct (pos_at_spec k (key_report t)) as [[-> _]|(p&_&Hp)]; [apply Hok| |].
  - pose proof (free_slot_spec 7 5 (keycode (key_report t)) ltac:(lia) ltac:(lia)) as H0.
    destruct (free_slot 7 5 _); [|done]. destruct Hfull. by eapply list_elem_of_lookup_2.
  - destruct Hno. by eapply list_elem_of_lookup_2.
Qed.

Lemma slot_elem (kc : list Z) i x y : x ∈ <[i:=y]> kc -> x = y \/ x ∈ kc.
Proof.
  intros [j Hj]%list_elem_of_lookup. apply list_lookup_insert_Some in Hj as [(?&?&_)|[_ Hj]].
  - by left.
  - right. by eapply list_elem_of_lookup_2.
Qed.

(** Modifier bits a mask sets or clears. *)
Lemma modifier_set m k s : 255 .& s = s -> k .& s = s -> u8 (m .| k) .& s = s.
Proof.
  intros H8 Hk. unfold u8. rewrite <- Z.land_ones by lia. change (Z.ones 8) with 255.
  rewrite <- Z.land_assoc, H8, Z.land_lor_distr_l, Hk.
  apply Z.bits_inj'. intros i _. rewrite Z.lor_spec, Z.land_spec.
  by destruct (Z.testbit m i), (Z.testbit s i).
Qed.

Lemma modifier_cleared m k s : k .& s = s -> u8 (m .& Z.lnot k) .& s = 0.
Proof.
  intros Hk. unfold u8. rewrite <- Z.land_ones by lia.
  rewrite <- Hk. apply Z.bits_inj'. intros i Hi.
  rewrite !Z.land_spec, Z.lnot_spec, Z.bits_0 by lia. destruct (Z.testbit k i); cbn;
    by rewrite ?andb_false_r, ?andb_false_l.
Qed.

(** ** Properties *)

(** C3. The worker thread implements a HID keyboard: fed the set-2 codes of any
    sequence of key strokes on the 98 keys of a 104-key keyboard that the program
    reports as the HID standard has them (not keypad Enter, Application, right alt,
    right ctrl and the two meta keys) and that never asks for more than six
    non-modifier keys at once, it reads exactly those codes and ends with a well
    formed report whose modifier byte and key slots are the modifier bits and the
    set of usages of the keys then down. *)
Theorem translator_refines_keyboard (strokes : list stroke) (t : translator) (rest : list Z)
    (Hok : keys_ok (key_report t)) (Hstd : forallb standard_stroke strokes = true)
    (Hfit : kbd_run_fits (strokes ≫= meaning) (abs t) = true) :
  exists n t', worker n t ((strokes ≫= stroke_codes) ++ rest) = Done tt t' rest /\
    keys_ok (key_report t') /\ abs t' = kbd_run (strokes ≫= meaning) (abs t).
Proof.
  destruct (stroke_actions strokes Hstd) as (<-&Hacts&E). rewrite <- E in *.
  eexists _, (run_actions (strokes ≫= actions_of) t). split; [by apply worker_actions|].
  by apply run_actions_refines.
Qed.

Lemma keys_ok_zero : keys_ok zero_report.
Proof.
  split; [done| | |cbn; lia|done].
  - intros i j k Hk Hi. apply lookup_replicate in Hi as [-> _]. done.
  - apply Forall_replicate. vm_compute. split; discriminate.
Qed.

Lemma translator_refines_keyboard_witness :
  let strokes := [Press Pc_LeftShift; Press Pc_A; Release Pc_A; Press Pc_Up; Release Pc_LeftShift;
                  Press Pc_Pause; Release Pc_Pause] in
  let t := tr_initial hog_initial in
  (forallb standard_stroke strokes = true /\ kbd_run_fits (strokes ≫= meaning) (abs t) = true) /\
  exists n t', worker n t ((strokes ≫= stroke_codes) ++ [0xE0]) = Done tt t' [0xE0] /\
    keys_ok (key_report t') /\ abs t' = kbd_run (strokes ≫= meaning) (abs t).
Proof.
  intros strokes t. split; [split; vm_compute; reflexivity|].
  apply (translator_refines_keyboard strokes t [0xE0]);
    [apply keys_ok_zero | vm_compute; reflexivity | vm_compute; reflexivity].
Defined.

(** C20. Once the host has subscribed and holds the translator's report, it keeps
    it: after any key actions (also with more than six keys down) the last
    notification, the readable report and the translator's report agree. *)
Theorem host_report_follows_keys (acts : list key_action) (t : translator) (rest : list Z)
    (Hsync : host_in_sync t) (Hacts : forallb action_ok acts = true) :
  exists t', worker (length acts) t ((acts ≫= codes_of) ++ rest) = Done tt t' rest /\
    host_in_sync t'.
Proof.
  exists (run_actions acts t). split; [by apply worker_actions|].
  by apply run_actions_sync.
Qed.

Lemma host_report_follows_keys_witness :
  let t := press_key KEY_A (tr_initial (input_ccc_changed 1 hog_initial)) in
  let acts := [Make 0x12; Make 0x1C; Break 0x1C] in
  host_in_sync t /\
  exists t', worker (length acts) t ((acts ≫= codes_of) ++ []) = Done tt t' [] /\
    host_in_sync t'.
Proof.
  intros t acts. assert (H : host_in_sync t) by (vm_compute; repeat split).
  split; [exact H|]. apply (host_report_follows_keys acts t [] H). vm_compute. reflexivity.
Defined.

(** C35. On any input without the code [0xFF] one call of the parser makes no
    out-of-range table read, uses at most eight codes and keeps the report well
    formed (six slots, no key twice, every key within the usage range of the
    report descriptor); if it has to wait for more codes it has changed
    nothing. *)
Theorem parser_safe_on_any_input (t : translator) (codes : list Z)
    (Hok : keys_ok (key_report t)) (Hc : Forall (fun c => 0 <= c < 0xff) codes) :
  match ps2_hid_translator_parse_next_scancode t codes with
  | Done _ t' rest =>
      keys_ok (key_report t') /\ exists used, codes = used ++ rest /\ (length used <= 8)%nat
  | Blocked t' => t' = t
  | Undefined => False
  end.
Proof. apply (parse_good t codes Hok Hc). Qed.

Lemma parser_safe_on_any_input_witness :
  match ps2_hid_translator_parse_next_scancode (tr_initial hog_initial) [0xE1; 0x14; 0x13; 0x1C] with
  | Done _ t' rest =>
      keys_ok (key_report t') /\
      exists used, [0xE1; 0x14; 0x13; 0x1C] = used ++ rest /\ (length used <= 8)%nat
  | Blocked t' => t' = tr_initial hog_initial
  | Undefined => False
  end.
Proof.
  apply (parser_safe_on_any_input (tr_initial hog_initial) [0xE1; 0x14; 0x13; 0x1C]).
  - apply keys_ok_zero.
  - repeat (apply Forall_cons; split; [lia|]). apply Forall_nil_2.
Defined.

(** The key detection error code [0xFF] reads past the end of
    [ps2_scan_code_to_usb_hid_key], which has 255 elements: on its own and after
    the break prefix the parser's table access is out of range, and [0xFF] is the
    only byte that does this. *)
Theorem code_ff_reads_out_of_range (t : translator) (rest : list Z) :
  ps2_hid_translator_parse_next_scancode t (0xFF :: rest) = Undefined /\
  ps2_hid_translator_parse_next_scancode t (BREAK_CODE :: 0xFF :: rest) = Undefined /\
  (forall c, 0 <= c < 256 -> scan_code_key c = None <-> c = 0xFF).
Proof.
  split; [reflexivity|]. split; [reflexivity|]. intros c Hc. split; [|by intros ->].
  destruct (decide (c < 0xff)) as [Hlt|]; [|lia].
  destruct (scan_code_key_total c) as (k&->&_); [lia|done].
Qed.

(** Pressing a key that is not down, with a slot free, and releasing it
    again restores the report, slot for slot. *)
Theorem press_release_restores (k : Z) (t : translator)
    (Hok : keys_ok (key_report t)) (Hk : 0 < k <= key_usage_maximum)
    (Hup : k ∉ pressed (key_report t)) (Hroom : (size (pressed (key_report t)) < 6)%nat) :
  pressed (key_report (press_key k t)) = {[k]} ∪ pressed (key_report t) /\
  key_report (release_key k (press_key k t)) = key_report t.
Proof.
  assert (Hno : k ∉ keycode (key_report t)).
  { intros [i Hi]%list_elem_of_lookup. apply Hup, elem_of_pressed. split; [lia|eauto]. }
  destruct (press_key_new k t) as (i&H0&Hp); [done|lia|done..|]. split.
  - rewrite Hp, (pressed_with_keycode _ _ 0) by (done || apply Hok).
    assert (0 ∉ pressed (key_report t)) by (rewrite elem_of_pressed; tauto).
    assert (k <> 0) by lia. set_solver.
  - rewrite (release_key_held k (press_key k t) i);
      [|apply press_key_ok; [done|lia]|lia|].
    + rewrite Hp. unfold with_keycode. cbn.
      rewrite list_insert_insert_eq, list_insert_id by done. by destruct (key_report t).
    + rewrite Hp. apply list_lookup_insert_eq. by eapply lookup_lt_Some.
Qed.

Lemma press_release_restores_witness :
  let t := press_key KEY_A (tr_initial hog_initial) in
  (size (pressed (key_report t)) < 6)%nat /\
  pressed (key_report (press_key KEY_B t)) = {[KEY_B]} ∪ pressed (key_report t) /\
  key_report (release_key KEY_B (press_key KEY_B t)) = key_report t.
Proof.
  intros t. assert (Hsz : (size (pressed (key_report t)) < 6)%nat) by (vm_compute; lia).
  split; [exact Hsz|]. apply (press_release_restores KEY_B t); [| | |exact Hsz].
  - apply press_key_ok; [apply keys_ok_zero|vm_compute; split; discriminate].
  - vm_compute. split; [reflexivity|discriminate].
  - apply (bool_decide_eq_true_1 (KEY_B ∉ pressed (key_report t))). vm_compute. reflexivity.
Defined.

(** With six keys down, two further presses leave the second of them in the
    slot of the first: the key dropped is the newest one, the five keys in the
    other slots (the oldest among them) stay. *)
Theorem overflow_drops_newest (k1 k2 : Z) (t : translator)
    (Hok : keys_ok (key_report t)) (Hfull : 0 ∉ keycode (key_report t))
    (Hk1 : 0 < k1 <= key_usage_maximum) (Hk2 : 0 < k2 <= key_usage_maximum)
    (Hne : k1 <> k2) (Hn1 : k1 ∉ keycode (key_report t)) (Hn2 : k2 ∉ keycode (key_report t)) :
  key_report (press_key k2 (press_key k1 t)) = with_keycode 5 k2 (key_report t) /\
  (k1 ∉ pressed (key_report (press_key k2 (press_key k1 t)))) /\
  (forall i k, (i < 5)%nat -> keycode (key_report t) !! i = Some k ->
     k ∈ pressed (key_report (press_key k2 (press_key k1 t)))).
Proof.
  assert (Hp1 : key_report (press_key k1 t) = with_keycode 5 k1 (key_report t))
    by (apply press_key_full; [done|lia|done..]).
  assert (Hp2 : key_report (press_key k2 (press_key k1 t)) = with_keycode 5 k2 (key_report t)).
  { rewrite press_key_full; [rewrite Hp1|apply press_key_ok; [done|lia]|lia| |].
    - unfold with_keycode. cbn. by rewrite list_insert_insert_eq.
    - rewrite Hp1. intros [?|?]%slot_elem; [lia|done].
    - rewrite Hp1. intros [?|?]%slot_elem; done. }
  rewrite Hp2. split; [done|]. rewrite elem_of_pressed. split.
  - intros (_&j&Hj). destruct (slot_elem (keycode (key_report t)) 5 k1 k2); [|done..].
    by eapply list_elem_of_lookup_2.
  - intros i k Hi Hk. apply elem_of_pressed. split.
    + intros ->. apply Hfull. by eapply list_elem_of_lookup_2.
    + exists i. cbn. rewrite list_lookup_insert_ne by lia. done.
Qed.

Lemma overflow_drops_newest_witness :
  let t := foldr press_key (tr_initial hog_initial) [KEY_F; KEY_E; KEY_D; KEY_C; KEY_B; KEY_A] in
  key_report (press_key KEY_H (press_key KEY_G t)) = with_keycode 5 KEY_H (key_report t) /\
  (KEY_G ∉ pressed (key_report (press_key KEY_H (press_key KEY_G t)))) /\
  (forall i k, (i < 5)%nat -> keycode (key_report t) !! i = Some k ->
     k ∈ pressed (key_report (press_key KEY_H (press_key KEY_G t)))).
Proof.
  intros t. apply (overflow_drops_newest KEY_G KEY_H t).
  - cbn [foldr]. unfold t. cbn [foldr].
    repeat (apply press_key_ok; [|vm_compute; split; discriminate]). apply keys_ok_zero.
  - apply (bool_decide_eq_true_1 (0 ∉ keycode (key_report t))). vm_compute. reflexivity.
  - vm_compute. split; [reflexivity|discriminate].
  - vm_compute. split; [reflexivity|discriminate].
  - discriminate.
  - apply (bool_decide_eq_true_1 (KEY_G ∉ keycode (key_report t))). vm_compute. reflexivity.
  - apply (bool_decide_eq_true_1 (KEY_H ∉ keycode (key_report t))). vm_compute. reflexivity.
Defined.

(** C40. The keys right alt, right ctrl, left meta and right meta put their HID
    usage code, not their modifier mask, into the modifier byte.  Each of them
    therefore reports right shift as down when pressed and as up when released,
    also while right shift is held, and right ctrl and left meta do not report
    themselves. *)
Theorem extended_modifiers_report_right_shift (t : translator) (rest : list Z) :
  Forall (fun '(code, own, seen) =>
    exists t1 t2,
      ps2_hid_translator_parse_next_scancode t (EXTENDED_CODE :: code :: rest) = Done tt t1 rest /\
      ps2_hid_translator_parse_next_scancode t (EXTENDED_CODE :: BREAK_CODE :: code :: rest)
        = Done tt t2 rest /\
      modifier (key_report t1) .& KEY_MOD_RSHIFT = KEY_MOD_RSHIFT /\
      modifier (key_report t2) .& KEY_MOD_RSHIFT = 0 /\
      (modifier (key_report t) = 0 -> modifier (key_report t1) .& own = if seen : bool then own else 0))
    [(0x11, KEY_MOD_RALT, true); (0x14, KEY_MOD_RCTRL, false);
     (0x1F, KEY_MOD_LMETA, false); (0x27, KEY_MOD_RMETA, true)].
Proof.
  repeat (apply Forall_cons; split); try apply Forall_nil_2;
  match goal with |- context [EXTENDED_CODE :: ?c :: rest] =>
    exists (exec_event (translated (ExtMake c)) t), (exec_event (translated (ExtBreak c)) t);
    split; [by apply (parse_action (ExtMake c))|];
    split; [by apply (parse_action (ExtBreak c))|]
  end;
  (split; [by apply modifier_set|]; split; [by apply modifier_cleared|]);
  intros Hm; cbn; rewrite Hm; reflexivity.
Qed.
