(* ===== verification/BtHidTools.v ===== *)
(** Typing text from the device ([bt_hid_tools.c]). *)
From Stdlib Require Import ZArith Lia Bool.
From stdpp Require Import base numbers list.
From S2P Require Import Prelude UsbHidKeys Hog.
Open Scope Z_scope.

Definition ascii_to_hid (ascii : Z) : Z :=
  if ascii <? 32 then -1
  else if ascii <? 48 then
    match ascii with
    | 32 => KEY_SPACE
    | 33 => KEY_1
    | 34 => KEY_APOSTROPHE
    | 35 => KEY_3
    | 36 => KEY_4
    | 37 => KEY_5
    | 38 => KEY_7
    | 39 => KEY_APOSTROPHE
    | 40 => KEY_9
    | 41 => KEY_0
    | 42 => KEY_8
    | 43 => KEY_EQUAL
    | 44 => KEY_COMMA
    | 45 => KEY_MINUS
    | 46 => KEY_DOT
    | 47 => KEY_SLASH
    | _ => -1
    end
  else if ascii <? 58 then (if ascii =? 48 then KEY_0 else ascii - 19)
  else if ascii <? 65 then
    match ascii with
    | 58 => KEY_SEMICOLON
    | 59 => KEY_SEMICOLON
    | 60 => KEY_COMMA
    | 61 => KEY_EQUAL
    | 62 => KEY_DOT
    | 63 => KEY_SLASH
    | 64 => KEY_2
    | _ => -1
    end
  else if ascii <? 91 then ascii - 61
  else if ascii <? 97 then
    match ascii with
    | 91 => KEY_LEFTBRACE
    | 92 => KEY_BACKSLASH
    | 93 => KEY_RIGHTBRACE
    | 94 => KEY_6
    | 95 => KEY_MINUS
    | 96 => KEY_GRAVE
    | _ => -1
    end
  else if ascii <? 123 then ascii - 93
  else if ascii <? 128 then
    match ascii with
    | 123 => KEY_LEFTBRACE
    | 124 => KEY_BACKSLASH
    | 125 => KEY_RIGHTBRACE
    | 126 => KEY_GRAVE
    | 127 => KEY_DELETE
    | _ => -1
    end
  else -1.

(** The local report of [keyboard_print] with a key in its last slot. *)
Definition print_report (key : Z) : hids_report_keyboard := mk_report 0 0 [0; 0; 0; 0; 0; key].

(** The loop over the characters of [str]; the result of [ascii_to_hid] is
    stored in a byte. *)
Fixpoint keyboard_print_loop (str : list Z) (h : hog) : hog :=
  match str with
  | [] => h
  | c :: str =>
      let h := hog_set_keyboard_input (print_report 0) h in
      let h := emit (Msleep 100) h in
      let h := hog_set_keyboard_input (print_report (u8 (ascii_to_hid c))) h in
      keyboard_print_loop str (emit (Msleep 100) h)
  end.

(** [str] without its terminating zero. *)
Definition keyboard_print (str : list Z) (h : hog) : hog :=
  hog_set_keyboard_input (print_report 0) (keyboard_print_loop str h).

(** ** What a host makes of it *)

(** The keys that go down in a sequence of reports, [prev] being down before. *)
Fixpoint host_presses (prev : list Z) (es : list event) : list Z :=
  match es with
  | [] => []
  | Notify _ bs :: es =>
      let keys := filter (fun k => k <> 0) (drop 2 bs) in
      filter (fun k => k ∉ prev) keys ++ host_presses keys es
  | _ :: es => host_presses prev es
  end.

Definition printable (c : Z) : bool := (32 <=? c) && (c <? 128).

Lemma printable_key c :
  printable c = true -> 0 < ascii_to_hid c <= key_usage_maximum /\ u8 (ascii_to_hid c) = ascii_to_hid c.
Proof.
  intros Hc. assert (Hr : 0 <= c < 128) by (unfold printable in Hc; lia).
  by_enumeration 128 (fun c => negb (printable c) ||
    ((0 <? ascii_to_hid c) && (ascii_to_hid c <=? key_usage_maximum) && (u8 (ascii_to_hid c) =? ascii_to_hid c))).
  rewrite Hc in *. cbn in *. lia.
Qed.

Lemma print_report_presses k prev es :
  k <> 0 -> k ∉ prev -> host_presses prev (Notify 6 (report_bytes (print_report k)) :: es) = k :: host_presses [k] es.
Proof.
  intros Hk Hp. cbn [host_presses]. change (drop 2 (report_bytes (print_report k))) with [0; 0; 0; 0; 0; k].
  rewrite !(filter_cons_False (fun k => k <> 0) 0) by tauto.
  rewrite filter_cons_True, filter_nil by done. by rewrite filter_cons_True, filter_nil.
Qed.

Lemma print_report_releases prev es :
  host_presses prev (Notify 6 (report_bytes (print_report 0)) :: es) = host_presses [] es.
Proof. done. Qed.

Lemma sleep_presses prev ms es : host_presses prev (Msleep ms :: es) = host_presses prev es.
Proof. done. Qed.

(** What printing adds to the output of a subscribed host. *)
Definition print_events (str : list Z) : list event :=
  (str ≫= fun c => [Notify 6 (report_bytes (print_report 0)); Msleep 100;
                    Notify 6 (report_bytes (print_report (u8 (ascii_to_hid c)))); Msleep 100]) ++
  [Notify 6 (report_bytes (print_report 0))].

Lemma set_input_subscribed r h :
  simulate_input h <> 0 ->
  hog_set_keyboard_input r h =
    mk_hog r (simulate_input h) (ctrl_point h) (events h ++ [Notify 6 (report_bytes r)]).
Proof.
  intros Hs. unfold hog_set_keyboard_input, trigger_report_notification, nz. cbn.
  by rewrite (proj2 (Z.eqb_neq _ _) Hs).
Qed.

Lemma print_emits str h :
  simulate_input h <> 0 ->
  keyboard_print str h = mk_hog (print_report 0) (simulate_input h) (ctrl_point h) (events h ++ print_events str).
Proof.
  unfold keyboard_print, print_events. revert h. induction str as [|c str IH]; intros h Hs; cbn [keyboard_print_loop].
  - by rewrite set_input_subscribed.
  - rewrite (set_input_subscribed (print_report 0) h) by done. unfold emit at 2.
    rewrite (set_input_subscribed (print_report (u8 (ascii_to_hid c)))) by done. unfold emit.
    rewrite IH by done. cbn. by rewrite <- !app_assoc.
Qed.

Lemma print_presses str prev :
  Forall (fun c => printable c = true) str -> host_presses prev (print_events str) = ascii_to_hid <$> str.
Proof.
  intros Hs. unfold print_events. revert prev. induction Hs as [|c str Hc _ IH]; intros prev; [done|].
  destruct (printable_key c Hc) as [Hr Hu]. cbn [mbind list_bind app].
  rewrite print_report_releases, sleep_presses, Hu.
  rewrite print_report_presses by (lia || apply not_elem_of_nil).
  rewrite sleep_presses, fmap_cons. f_equal. apply IH.
Qed.

(** ** Properties *)

(** [keyboard_print] types its text: a subscribed host that reads the
    notifications sees exactly one key go down per character, in order and also
    for repeated characters, each a key the report descriptor allows, and all keys
    up at the end. *)
Theorem keyboard_print_types (str : list Z) (prev : list Z) (h : hog)
    (Hsub : simulate_input h <> 0) (Hstr : Forall (fun c => printable c = true) str) :
  let h' := keyboard_print str h in
  exists es, events h' = events h ++ es /\ host_presses prev es = ascii_to_hid <$> str /\
    Forall (fun k => 0 < k <= key_usage_maximum) (ascii_to_hid <$> str) /\
    last es = Some (Notify 6 (report_bytes zero_report)) /\ input_keyboard h' = zero_report.
Proof.
  cbn zeta. exists (print_events str). rewrite print_emits by done. cbn [events input_keyboard].
  split; [done|]. split; [by apply print_presses|]. split.
  - apply Forall_fmap. eapply Forall_impl; [exact Hstr|]. intros c Hc. by apply printable_key.
  - split; [apply last_snoc|done].
Qed.

Lemma keyboard_print_types_witness :
  let h := input_ccc_changed 1 hog_initial in
  let h' := keyboard_print [0x6F; 0x6F; 0x21] h in
  exists es, events h' = events h ++ es /\ host_presses [] es = ascii_to_hid <$> [0x6F; 0x6F; 0x21] /\
    Forall (fun k => 0 < k <= key_usage_maximum) (ascii_to_hid <$> [0x6F; 0x6F; 0x21]) /\
    last es = Some (Notify 6 (report_bytes zero_report)) /\ input_keyboard h' = zero_report.
Proof.
  apply (keyboard_print_types [0x6F; 0x6F; 0x21] [] (input_ccc_changed 1 hog_initial)); [done|].
  repeat constructor.
Defined.

(** Characters the table has no key for are sent as key 0xFF, beyond the usages
    the report descriptor declares. *)
Theorem unsupported_character_key (c : Z) :
  0 <= c < 256 -> printable c = false -> u8 (ascii_to_hid c) = 0xFF /\ key_usage_maximum < 0xFF.
Proof.
  intros Hc Hp. split; [|by vm_compute].
  by_enumeration 256 (fun c => printable c || (u8 (ascii_to_hid c) =? 0xFF)). rewrite Hp in *. cbn in *. lia.
Qed.
