(* ===== verification/App.v ===== *)
(** The application: the PS/2 keyboard ([ps2_keyboard.c]), the program's entry
    ([main.c]), and the path of a key stroke from the wire to the host. *)
From Stdlib Require Import ZArith Lia Bool.
From stdpp Require Import base numbers list gmap relations.
From S2P Require Import Prelude Timeout Sched Thread PcKeys Gatt Hog Translator MsgQ Gpio GpioNrfx Ps2Connector BtHidTools.
Open Scope Z_scope.

(** ** The keyboard *)

Definition PS2_KEYBOARD_THREAD_PRIORITY : Z := 5.
Definition SCROLL_LOCK_LED_MASK : Z := 0x01.
Definition NUM_LOCK_LED_MASK : Z := 0x01 .<< 1.
Definition CAPS_LOCK_LED_MASK : Z := 0x01 .<< 2.
Definition PS2_CMD_SET_LEDS : Z := 0xed.

(** [send_byte] is the connector's; [None] while it waits. *)
Definition ps2_keyboard_set_leds {S} (send_byte : Z -> S -> option S) (scroll_lock num_lock caps_lock : Z)
    (s : S) : option S :=
  let command := 0 in
  let command := if nz scroll_lock then command .| SCROLL_LOCK_LED_MASK else command in
  let command := if nz num_lock then command .| NUM_LOCK_LED_MASK else command in
  let command := if nz caps_lock then command .| CAPS_LOCK_LED_MASK else command in
  match send_byte PS2_CMD_SET_LEDS s with
  | None => None
  | Some s => send_byte command s
  end.

Definition ps2_keyboard_start_worker_thread (thread : Z) (k : kernel) : kernel :=
  z_impl_k_thread_create thread PS2_KEYBOARD_THREAD_PRIORITY K_NO_WAIT k.

(** [ps2_keyboard_init]: [None] while the connector still waits for its lines. *)
Definition ps2_keyboard_init {H} `{!NrfHal H} {Q} `{!ScanQueue Q} (queue : Q) (env : list (ps2 -> ps2))
    (thread : Z) (s : ps2 (H := H) (Q := Q)) (k : kernel) : option (ps2 * kernel) :=
  match ps2_connector_init queue env s with
  | Some s => Some (s, ps2_keyboard_start_worker_thread thread k)
  | None => None
  end.

(** ** The program *)

Record bt_data := mk_bt_data { bt_type : Z; bt_bytes : list Z }.

Definition BT_DATA_FLAGS : Z := 0x01.
Definition BT_DATA_UUID16_ALL : Z := 0x03.
Definition BT_LE_AD_GENERAL : Z := 0x02.
Definition BT_LE_AD_NO_BREDR : Z := 0x04.
Definition BT_UUID_HIDS_VAL : Z := 0x1812.
Definition BT_UUID_BAS_VAL : Z := 0x180f.
Definition BT_UUID_16_ENCODE (w16 : Z) : list Z := [(w16 .>> 0) .& 0xFF; (w16 .>> 8) .& 0xFF].

Definition ad : list bt_data :=
  [mk_bt_data BT_DATA_FLAGS [BT_LE_AD_GENERAL .| BT_LE_AD_NO_BREDR];
   mk_bt_data BT_DATA_UUID16_ALL (BT_UUID_16_ENCODE BT_UUID_HIDS_VAL ++ BT_UUID_16_ENCODE BT_UUID_BAS_VAL)].

(** The calls the program makes into the Bluetooth stack and settings. *)
Inductive app_call :=
| Bt_enable | Bt_conn_cb_register | Bt_conn_auth_cb_register
| Bt_conn_set_security (conn level : Z)
| Settings_load
| Bt_le_adv_start (data : list bt_data).

Definition connected (conn err : Z) : list app_call :=
  if nz err then [] else [Bt_conn_set_security conn BT_SECURITY_L2].

(** [CONFIG_SETTINGS] is set. *)
Definition bt_ready (err : Z) (h : hog) : list app_call * hog :=
  if nz err then ([], h) else ([Settings_load; Bt_le_adv_start ad], hog_init h).

(** [main] up to its loop; whether the loop is entered.  [None] while the keyboard
    is being initialised. *)
Definition main_start {H} `{!NrfHal H} {Q} `{!ScanQueue Q} (queue : Q) (env : list (ps2 -> ps2)) (thread : Z)
    (bt_enable_err : Z) (s : ps2 (H := H) (Q := Q)) (k : kernel) : option (ps2 * kernel * list app_call * bool) :=
  match ps2_keyboard_init queue env thread s k with
  | None => None
  | Some (s, k) =>
      if nz bt_enable_err then Some (s, k, [Bt_enable], false)
      else Some (s, k, [Bt_enable; Bt_conn_cb_register; Bt_conn_auth_cb_register], true)
  end.

(** "I'm writing on your keyboard!" *)
Definition main_text : list Z :=
  [0x49; 0x27; 0x6D; 0x20; 0x77; 0x72; 0x69; 0x74; 0x69; 0x6E; 0x67; 0x20; 0x6F; 0x6E; 0x20;
   0x79; 0x6F; 0x75; 0x72; 0x20; 0x6B; 0x65; 0x79; 0x62; 0x6F; 0x61; 0x72; 0x64; 0x21].

(** One round of the loop of [main]. *)
Definition main_loop_body (i : Z) (h : hog) : Z * hog :=
  let i := s32 (i + 1) in
  let h := if Z.rem i 10 =? 0 then keyboard_print main_text h else h in
  (i, emit (Msleep 1000) h).

(** ** From the wire to the host *)

Section end_to_end.
Context {H : Type} `{!NrfHal H} {Q : Type} `{!ScanQueue Q}.
Implicit Types (s : ps2 (H := H) (Q := Q)).

(** Between two bursts: the connector listens and has nothing pending. *)
Record between_bursts s : Prop := {
  bb_listening : listening s;
  bb_receiving : PS2_state s <> PS2_STATE_HOST_TO_DEV;
  bb_bit : current_bit_no s = 0;
  bb_queue : sq_ok (rx_msg_que s);
  bb_empty : sq_items (rx_msg_que s) = [] }.

(** Bursts of bytes on the wire, the worker reading them in between; [codes] is
    what it gets from [ps2_connector_get_next_code] altogether. *)
Fixpoint bursts (bytes : list (list Z)) s s' (codes : list Z) : Prop :=
  match bytes with
  | [] => s' = s /\ codes = []
  | burst :: more =>
      exists s1 rest, edges (concat (frame <$> burst)) s s1 /\
        codes = (read_codes (length burst) s1).1 ++ rest /\
        bursts more (read_codes (length burst) s1).2 s' rest
  end.

Lemma read_codes_keep n s :
  gpio (read_codes n s).2 = gpio s /\ PS2_state (read_codes n s).2 = PS2_state s /\
  rx_state (read_codes n s).2 = rx_state s.
Proof.
  revert s. induction n as [|n IH]; intros s; [done|]. cbn [read_codes].
  unfold ps2_connector_get_next_code. destruct (sq_get (rx_msg_que s)) as [[b|] q]; [|done].
  specialize (IH (set_que q s)). by destruct (read_codes n (set_que q s)).
Qed.

(** One burst that fits the queue. *)
Lemma burst_received burst s s1 :
  between_bursts s -> Forall (fun d => 0 <= d < 256) burst -> (length burst <= Z.to_nat PS2_MSG_QUE_SIZE)%nat ->
  edges (concat (frame <$> burst)) s s1 ->
  (read_codes (length burst) s1).1 = burst /\ between_bursts (read_codes (length burst) s1).2.
Proof.
  intros [B1 B2 B3 B4 B5] Hd Hl He. destruct (ls_rx _ B1) as [_ Hx].
  pose proof (edges_rx _ s s1 B1 B2 B4 He) as R. unfold rx_state in R at 1. rewrite B3 in R.
  destruct (rx_frames burst (incoming_data s) Hd Hx) as (x'&_&E). rewrite E in R.
  destruct R as (R1&R2&R3&R4&R5). unfold put_all in R5.
  rewrite B5, take_ge in R5 by (rewrite length_fmap; cbn; lia). cbn [app] in R5.
  destruct (read_codes_spec (length burst) s1 R3) as (C1&C2&C3); [by rewrite R5, length_fmap|].
  destruct (read_codes_keep (length burst) s1) as (K1&K2&K3).
  rewrite R5 in C1, C3. split.
  - rewrite C1, take_ge, <- list_fmap_compose by (by rewrite length_fmap).
    rewrite <- (list_fmap_id burst) at 2. apply list_fmap_ext. intros i d Hi. cbn. apply shifted_data.
    rewrite Forall_forall in Hd. apply Hd. by eapply list_elem_of_lookup_2.
  - split; [| |by unfold rx_state in *; congruence|done|].
    + apply (listening_ext s1); [done| |done]. destruct (ls_rx _ R1). unfold rx_ok, rx_state in *.
      injection K3 as -> ->. done.
    + by rewrite K2, R2.
    + rewrite C3. by rewrite drop_ge by (by rewrite length_fmap).
Qed.

Lemma bursts_received bytes s s' codes :
  between_bursts s -> Forall (fun d => 0 <= d < 256) (concat bytes) ->
  Forall (fun burst => (length burst <= Z.to_nat PS2_MSG_QUE_SIZE)%nat) bytes ->
  bursts bytes s s' codes -> codes = concat bytes /\ between_bursts s'.
Proof.
  intros Hb Hd Hl. revert s codes Hb. induction bytes as [|burst more IH]; intros s codes Hb Hr; cbn in Hr.
  - by destruct Hr as [-> ->].
  - destruct Hr as (s1&rest&He&->&Hr). cbn [concat] in *. apply Forall_app in Hd as [Hd1 Hd2].
    apply Forall_cons in Hl as [Hl1 Hl2]. destruct (burst_received burst s s1 Hb Hd1 Hl1 He) as [-> Hb1].
    destruct (IH Hd2 Hl2 _ _ Hb1 Hr) as [-> ?]. done.
Qed.
End end_to_end.

(** ** Properties *)

(** C1. From key strokes to reports.  Strokes on the 98 keys the program reports as
    the HID standard has them, at most six non-modifier keys at once, are sent as
    frames over the lines in bursts of at most 20 bytes, the worker reading the
    queue empty after each.  Received through the GPIO interrupt, queued, fetched
    and translated they give the keyboard state the strokes mean: usages and
    modifier bits of the keys down.  A subscribed host that held the translator's
    report before has been notified of exactly that report, and the connector is
    ready for more. *)
Theorem keys_reach_the_host {H} `{!NrfHal H} {Q} `{!ScanQueue Q} (strokes : list stroke)
    (bytes : list (list Z)) (codes : list Z) (s s' : ps2 (H := H) (Q := Q)) (t : translator)
    (Hs : between_bursts s) (Ht : keys_ok (key_report t)) (Hsync : host_in_sync t)
    (Hstd : forallb standard_stroke strokes = true)
    (Hfit : kbd_run_fits (strokes ≫= meaning) (abs t) = true)
    (Hbytes : concat bytes = strokes ≫= stroke_codes)
    (Hroom : Forall (fun burst => (length burst <= Z.to_nat PS2_MSG_QUE_SIZE)%nat) bytes)
    (Hwire : bursts bytes s s' codes) :
  exists n t', worker n t codes = Done tt t' [] /\
    keys_ok (key_report t') /\ abs t' = kbd_run (strokes ≫= meaning) (abs t) /\
    host_in_sync t' /\ between_bursts s'.
Proof.
  assert (Hrange : Forall (fun d => 0 <= d < 256) (concat bytes))
    by (rewrite Hbytes; apply stroke_codes_bytes).
  destruct (bursts_received bytes s s' codes Hs Hrange Hroom Hwire) as [-> Hs'].
  destruct (stroke_actions strokes Hstd) as (E1&Hacts&E2). rewrite Hbytes, <- E1, <- E2 in *.
  rewrite <- (app_nil_r (_ ≫= codes_of)).
  eexists _, (run_actions (strokes ≫= actions_of) t). split; [by apply worker_actions|].
  destruct (run_actions_refines _ t Ht Hacts Hfit). split; [done|]. split; [done|].
  split; [by apply run_actions_sync|done].
Qed.

Lemma keys_reach_the_host_witness :
  let strokes := [Press Pc_A; Release Pc_A] in
  let s1 := pulses (concat (frame <$> [0x1C; 0xF0; 0x1C])) example_started in
  let s' := (read_codes 3 s1).2 in
  let t := set_report zero_report (tr_initial (input_ccc_changed 1 hog_initial)) in
  exists n t', worker n t ((read_codes 3 s1).1 ++ []) = Done tt t' [] /\
    keys_ok (key_report t') /\ abs t' = kbd_run (strokes ≫= meaning) (abs t) /\
    host_in_sync t' /\ between_bursts s'.
Proof.
  destruct example_listening as (L1&L2&L3&L4).
  apply (keys_reach_the_host [Press Pc_A; Release Pc_A] [[0x1C; 0xF0; 0x1C]] _ example_started).
  - split; [done|by rewrite L2|done|apply example_rx_ok|by rewrite L3].
  - apply keys_ok_zero.
  - by apply set_report_sync.
  - reflexivity.
  - vm_compute. reflexivity.
  - reflexivity.
  - repeat constructor.
  - eexists _, []. split; [apply pulses_edges; [done|by rewrite L2|apply example_one_channel]|]. done.
Defined.

(** C34. The program starts its keyboard: as soon as both lines are high at a sample,
    [main] goes on with a connector that listens with an empty queue, the worker
    thread in the run queue at its priority and consistent scheduler queues; the
    loop is entered exactly if Bluetooth could be enabled. *)
Theorem main_starts_keyboard {H} `{!NrfHal H} {Q} `{!ScanQueue Q} (queue : Q) (env : list (ps2 -> ps2))
    (thread err : Z) (s : ps2 (H := H) (Q := Q)) (k : kernel)
    (Hp : prepared (cb_node (clk_fall_cb_data s)) [] (gpio s)) (Hr : rx_ok s) (Hb : current_bit_no s = 0)
    (Hq : sq_ok queue) (Hqe : sq_items queue = []) (Henv : Forall quiet env)
    (Hhigh : exists n, lines_released (foldl (fun s step => step s) (lines_configured queue s) (take n env)) = true)
    (Hk : sched_inv k) (Ht : dormant thread k) :
  exists s' k' calls loop, main_start queue env thread err s k = Some (s', k', calls, loop) /\
    between_bursts s' /\ sched_inv k' /\ thread ∈ runq k' /\
    prio (threads k' thread) = PS2_KEYBOARD_THREAD_PRIORITY /\ head calls = Some Bt_enable /\
    (loop = true <-> err = 0).
Proof.
  unfold main_start, ps2_keyboard_init. destruct (ps2_connector_init queue env s) as [s1|] eqn:Hi.
  2: { destruct Hhigh as [n Hn]. by rewrite (init_waits queue env s Hp Hi n) in Hn. }
  destruct (init_listens queue env s s1 Hp Hr Henv Hi) as (L1&L2&L3&L4).
  pose proof (start_new thread PS2_KEYBOARD_THREAD_PRIORITY k Hk Ht) as (S1&S2&S3&_).
  change (z_sched_start thread (new_thread thread PS2_KEYBOARD_THREAD_PRIORITY k))
    with (ps2_keyboard_start_worker_thread thread k) in *.
  assert (B : between_bursts s1) by (split; [done|by rewrite L2|congruence|by rewrite L3|by rewrite L3]).
  unfold nz. destruct (Z.eqb_spec err 0) as [->|Hn]; cbn [negb]; eexists _, _, _, _;
    (split; [reflexivity|]); do 5 (split; [done|]); by split.
Qed.

Lemma main_starts_keyboard_witness :
  let k := kernel_boot 1 2 (fun _ => 0) in
  exists s' k' calls loop, main_start example_rx_queue [] 9 0 example_ps2 k = Some (s', k', calls, loop) /\
    between_bursts s' /\ sched_inv k' /\ 9 ∈ runq k' /\
    prio (threads k' 9) = PS2_KEYBOARD_THREAD_PRIORITY /\ head calls = Some Bt_enable /\ (loop = true <-> 0 = 0).
Proof.
  destruct example_listening as (_&_&E&_).
  apply (main_starts_keyboard example_rx_queue [] 9 0 example_ps2 (kernel_boot 1 2 (fun _ => 0))).
  - apply example_prepared.
  - split; cbn; lia.
  - reflexivity.
  - rewrite <- E. apply example_rx_ok.
  - reflexivity.
  - constructor.
  - exists 0%nat. vm_compute. reflexivity.
  - by apply boot_inv.
  - split; [apply (bool_decide_eq_false _)|..]; vm_compute; done.
Defined.

(** Text written by the device makes the host forget the keys the user holds: the
    input report is replaced, while the translator still has them down. *)
Theorem printing_forgets_held_keys (str : list Z) (t : translator) :
  host_in_sync t -> key_report t <> zero_report ->
  let t' := mk_tr (key_report t) (keyboard_print str (tr_hog t)) in
  input_keyboard (tr_hog t') = zero_report /\ ~ host_in_sync t'.
Proof.
  intros (Hs&_&_) Hne. cbn zeta.
  assert (Hsub : simulate_input (tr_hog t) <> 0) by (intros E; by rewrite E in Hs).
  assert (Hz : input_keyboard (keyboard_print str (tr_hog t)) = zero_report) by (by rewrite print_emits).
  split; [done|]. intros (_&E&_). cbn [tr_hog key_report] in E. congruence.
Qed.
